(* ===== verification/_CoqProject ===== *)
-Q . S2P
Prelude.v
Floats.v
Bitfields.v
Msr.v
KState.v
KCommon.v
KPmuDdr.v
KMab.v
KPrimitive.v
KApi.v
KLog.v
KDpf.v
KInv.v
UserApi.v
ClientRuns.v
MsrDev.v
PerfEvents.v
RdtMbm.v
Msr2Settings.v
PmuDdr.v
UState.v
Primitive.v
Mab.v
MabSetup.v
Sync.v
BwTest.v
Threads.v
UserMode.v
Tuners.v
SysDetect.v
GetCpuid.v
Log.v
Json.v
Getopt.v
Main.v
Settings.v
KernelMode.v
Program.v
Console.v
ConsoleViews.v
Dpfctrl.v
