(* ===== verification/Prelude.v ===== *)
(** * dPF - dynamic hardware prefetching: a verification development

    dPF tunes the hardware prefetchers of Intel Atom cores while programs run.
    It watches performance counters and memory bandwidth and writes the
    prefetcher MSRs (0x1320-0x1327, 0x1A4) of each core.  The program comes in
    two forms that share the MSR layout:

    - a user-space tuner ([src/main.c] and the files next to it), which reads
      and writes MSRs through [/dev/cpu/N/msr];
    - a kernel module ([src/kernelmod/]), which does the tuning in a timer's
      work item on every core, and is driven by messages written to
      [/proc/dynamicPrefetch] and answered by reads of the same file; the
      client library [src/user_api.c] builds the messages for the user-space
      program and the command line tools.

    ** How the model is built

    Everything is a shallow embedding in the state monad [ST S A] of this file:
    a C function takes its arguments and the state of its program to a result
    and a new state, or stops ([stop]: an access outside an array, a division by
    zero, a null pointer, a conversion that has no value, or [exit]).  C
    integers are [Z] with their wrap-around written out ([wrap], [u32], [u64],
    [s32]); arrays are lists read and written with bounds checks ([aget],
    [read], [check_index]); messages are lists of bytes, little endian
    ([le_bytes]).  [wp] and [preserves] are the post-condition and invariance
    predicates; the hint database [preserve] and the tactics [preserve] and
    [wp_steps] do the routine part of the proofs.

    Loops are structural recursion on the list of indices the C loop visits
    ([for_each], [fold_each], or a [Fixpoint] of their own when the loop
    returns early), so every definition is total; the retry loop of
    [rdt_mbm_bw_count] counts down its four tries.  Two loops need fuel: the scan
    of the DMI tables, which takes at least two bytes of the file per round, so
    one more round than the file has bytes is enough ([SysDetect.dmi_terminates]);
    and the scan of a command line, which uses up a letter or a word per option
    ([Getopt.answers_enough]).
    [runs] is the total-correctness triple used where a run must not stop.

    Floating-point code uses the executable IEEE 754 specification of the
    Standard Library, in single and double precision as the C types say.

    The tuning threads share memory: [Sync] is a step relation whose steps are the
    accesses to the shared flags, and its runs are the interleavings.

    ** Files

    - [Floats] - [float] and [double]: conversions, operations, the order.
    - [Bitfields] - [include/atom_msr.h]: the bit-field structs, [union msr_u],
      and the laws of slices of a word.
    - [Msr] - [msr.c]: the accessors of the user-space MSR table.
    - [KState] - the globals of the kernel module as the record [kstate], the
      structs of its headers, the class [Linux] (which CPUs are online, where
      cross-calls run) and the machine [hw] (MSRs, counters, I/O memory, clock,
      allocator, user copies), and the invariant of the data, [kwf].
    - [KCommon] - [kernel_common.c] and the PMU set-up of [kernel_dpf.c].
    - [KPmuDdr] - [kernel_pmu_ddr.c]: DDR bandwidth counters.
    - [KMab] - [kernel_mab.c]: the multi-armed bandit.
    - [KPrimitive] - [kernel_primitive.c]: the bandwidth tuner.
    - [KApi] - [kernel_api.c]: one definition per message handler.
    - [KLog] - the PMU log as an abstract byte string (class [Log]) and the
      refinement of it by the handlers of [KApi].
    - [KDpf] - [kernel_dpf.c]: [/proc] operations, timer and work item, load
      and unload; [kevent], [kstep] and [reachable] make the loaded module a
      state machine.
    - [KInv] - the invariant of every reachable state and what follows from it.
    - [UserApi] - [user_api.c], run against the modelled module: a system call
      of the client is a run of [KDpf.dpf_proc_write] or [KDpf.proc_read].
    - [ClientRuns] - what each request of the client does on a module that serves
      it; the files of the programs that use the client build on it.
    - [MsrDev] - the device access of [msr.c] and the MSR counters of
      [pmu_core.c], on a process with open files and failing system calls.
    - [PerfEvents] - the perf events of [pmu_core.c].
    - [RdtMbm] - [rdt_mbm.c]: bandwidth by resource monitoring, on [MsrDev].
    - [Msr2Settings] - [tools/msr2settings.c], from [argv] to the output.
    - [PmuDdr] - [pmu_ddr.c], [pcie.c]: the DDR counters over [/dev/mem], and the
      search of the PCI devices for them.
    - [UState] - [include/common.h], [include/mab.h]: what the tuning threads
      share, as the record [ustate].
    - [Primitive] - [tuners/primitive.c]: the bandwidth tuner.
    - [Mab] - [tuners/mab.c]: the bandit, its strategies, its modes and its filter.
    - [MabSetup] - [tuners/mab_setup.c]: its configuration and its arms.
    - [Sync] - the synchronisation of [thread_start] in [main.c].
    - [BwTest] - the bandwidth test ([ddrmembw_] of [sysdetect.c]) on a heap of
      blocks, alone and as the threads of [Sync] run it.
    - [Threads] - what [thread_start] does between the steps of [Sync]:
      counters, [calculate_settings], writing the MSRs.
    - [UserMode] - the user mode as a whole: [Sync] and [Threads] together, from
      the creation of the threads to the end of [main], with raw counters or perf
      events and with the handler of [SIGINT]; the class [Tuner] is what the threads
      ask of a tuning algorithm, and the invariant of the run is proved for any
      instance of it.
    - [Tuners] - the instances of [Tuner] ([Primitive], [Mab] with [MabSetup]), and
      the run of the threads from what [main] has set up.
    - [SysDetect] - [sysdetect.c]: core types and DMI tables.
    - [GetCpuid] - [tools/get_cpuid.c], from the calls of the scheduler to the
      lines it prints.
    - [Log] - [log.c], [include/log.h].
    - [Json] - [json_parser.c]: the options of [config.json].
    - [Getopt] - [getopt_long] for a table of options (class [OptionTable], with the
      laws it needs in [OptionLaws]); the table and the usage of [main.c].
    - [Main] - the options, the set-up and the kernel mode of [main.c].
    - [Settings] - the options of [main.c] as its usage describes them, their
      spellings and their effects.
    - [KernelMode] - a run of the kernel mode against the modelled module.
    - [Program] - [main] itself, from [argv] or the configuration file to the kernel
      mode or the threads.
    - [Console] - [tools/console/src]: the snapshot (as the words of the struct),
      its update and the system information, on [UserApi] and the module.
    - [ConsoleViews] - [tools/console/ui]: the windows as what is printed into
      them, the keys, resize signals and the main loop.
    - [Dpfctrl] - [tools/cli/dpfctrl.c], on [UserApi] and the module.

    ** What the theorems show

    - The kernel module as a whole ([KInv]): in every reachable state the data
      are well formed, the live I/O mappings are those recorded and the timer is
      queued while the monitor runs; unloading releases timer, work item, file,
      buffers and mappings; a stopped monitor writes nothing; reading a response
      in pieces gives the response; malformed messages are refused without
      effect.
    - Messages ([KApi], [KLog], [UserApi]): the branches of the handlers, the
      PMU log as an append-only bounded byte string, and that the client obtains
      what the module holds (MSR words, log contents); a session of the tool, from
      start to the entries in the file ([Dpfctrl]); which client functions
      keep the device open on an error; that the tuning factor survives its
      trip through [float].
    - The main program as a whole ([Settings], [Program]): every spelling of the
      options has the effects described; a configuration file does what the
      command line does that it spells; and from the command line to the MSRs of
      the cores in user mode, with raw counters or perf events and each of the tuning
      algorithms (the second one on sixteen cores or more, the bandit unless it
      plays at random), and to the state of the module and of the terminal in kernel
      mode.
    - Programs on the module: the kernel mode of the main program, from its first
      request to the end of tuning ([KernelMode]); the snapshot of the console
      refines a list of rows although the client writes past the members of the
      struct, and is well typed ([Console]); when a round of the console draws, what
      is then on its screen and what its keys do ([ConsoleViews]); what opening a
      console does to a module that is in use.
    - Tuning ([KMab], [KPrimitive]): the arm scan ends on an arm of maximal
      score; module scores are averages over the active cores; the leader is the
      first active core; the vote of a module; the L2 queue threshold stays in
      its range and moves with the bandwidth.
    - Counters ([KPmuDdr], [KCommon], [RdtMbm]): readings telescope, also over
      wrap-around; initialization maps all controllers or none; ids are assigned
      one per core; the retry loop of the monitoring counter.
    - MSR words ([Bitfields], [Msr], [MsrDev], [Msr2Settings]): set then get, no
      setter touches another field, a table written is read back, a refused
      write leaves a known prefix, printing and building a word are inverse.
    - Resources of the user-space program ([PerfEvents], [UserApi], [Json]).
    - User-space tuning ([Primitive], [Mab], [MabSetup], [Threads]): a step of the
      bandwidth tuner moves two fields of every active core and nothing else, and
      writing the table puts the new values into the MSRs; a configured bandit
      runs for any number of intervals without a fault; it plays every arm once
      and then enters its main loop; greedy and UCB choices maximise their
      criterion.
    - The two implementations compared: the bandwidth counters of user space and
      kernel give the same numbers ([PmuDdr]), the queue thresholds move in the
      same way outside of the band from 60 to 80 percent ([Primitive]).
    - Threads ([Sync], [BwTest], [UserMode], [Tuners]): from every reachable state of the main
      loop the master can get to its next decision; the bandwidth test can
      deadlock, but no interleaving of it accesses an array that is not
      allocated, and it leaks nothing; in every interleaving of a run, with either
      bandwidth algorithm or with the bandit, no thread fails and the MSRs of each
      module hold the tuner's settings or are marked to be written (without
      interrupts when the bandit's filter is on); the exit status of such a run.
    - Start-up ([SysDetect], [GetCpuid], [Json], [Main], [PmuDdr]): the efficient
      cores found are the first and the last, and the tool prints the same ones;
      the scan of the DMI tables ends and gives the
      bandwidth of the modules encoded in them; the arguments made from a
      configuration file; core priorities survive printing and parsing; server
      DDR counters are mapped so that they can be read.
    - Faults the code has, as theorems about what it does: among them a division
      by zero in [mab_compute_score], a choice of [mab_tuning] that depends on
      the stack, an array overrun in [kernel_pmu_ddr_init_client], a response
      read past its end in [api_pmu_log_read], an error test that cannot hold in
      [kernel_basicalg], resets of RDT monitoring that end the process, an error
      of the monitoring counter taken for a count, words that [msr2settings] cannot
      decode, arms of the bandit that are the same, a first arm that is not written, a
      random arm that does not exist, buffers of the bandit's filter that an interrupt
      takes away, a missing bandwidth taken for a saturated memory, a column of the
      console with the wrong title, a console and a kernel mode that an interrupt
      does not end, options of a configuration file that are set by the value
      [false], and arrays of [main.c] and [json_parser.c] that are overrun.

    A concrete run that satisfies the hypotheses stands next to each theorem that
    has any (its name ends in [_witness]).

    ** Assumptions and limits

    Cross-calls run one core after the other and a step of the module is not
    interrupted: the code takes no locks, and races between the work item and a
    [/proc] write are not modelled.  In [Sync], [BwTest]
    and [UserMode] an access to a flag, a measurement, a decision and the other
    pieces of work of a thread are one step each.  The arrays of the bandwidth
    test have any length; the program has [BWTEST_ARRAY_SIZE].  The runs of the
    bandit's threads with its filter of deviations on are those without an
    interrupt, which frees the filter's buffers while the master still uses them
    ([Tuners.interrupt_breaks_filter]).  An MSR device is opened at the lowest
    descriptor that is free; the descriptors of the rest of the process are a prefix
    ([MsrDev.low_fd]), and those of the perf events are counted apart from them
    ([PerfEvents]).  The class [Linux] and the
    record [hw] stand for the kernel's services and the machine; allocation, user
    copies, file opens and device accesses may fail in any pattern.  Code outside
    of the repository is a parameter: [log] of the mathematical library,
    [strtof], the cJSON parser and printer and the format ["%g"], the PCI
    library, ncurses, CPUID; [getopt_long] is modelled from its manual, without the
    messages it prints.  The log lines of
    the components are not modelled, except where evaluating their arguments can
    fault; [Log] has the functions that print them.

    ** Not modelled

    The colours and attributes of the console; the polling of the keyboard
    ([kbhit]) and the time sources ([rdtsc], [get_time_ms]), whose answers are
    inputs of the model; messages on standard error; the cJSON library, of which
    only the header is here; the benchmark scripts. *)

From stdpp Require Export prelude list gmap numbers strings.
From Stdlib Require Export ZArith Lia.

#[global] Open Scope Z_scope.

(** ** Machine integers

    A C integer is a [Z]; [wrap w] is the conversion to an unsigned type of
    [w] bits and [s32] the conversion to [int] (two's complement, as GCC does
    it). *)

Definition wrap (w x : Z) : Z := x mod 2 ^ w.

Definition u8 (x : Z) : Z := wrap 8 x.

Definition u32 (x : Z) : Z := wrap 32 x.

Definition u64 (x : Z) : Z := wrap 64 x.

Definition s32 (x : Z) : Z := (x + 2 ^ 31) mod 2 ^ 32 - 2 ^ 31.

Definition in_u (w x : Z) : Prop := 0 <= x < 2 ^ w.

Definition in_s32 (x : Z) : Prop := - 2 ^ 31 <= x < 2 ^ 31.

(** C truth values: [b2z] is the [int] a comparison yields. *)
Definition b2z (b : bool) : Z := if b then 1 else 0.

(** Linux error numbers used by the sources. *)
Definition EIO : Z := 5.

Definition ENOMEM : Z := 12.

Definition EFAULT : Z := 14.

Definition ENODEV : Z := 19.

Definition EINVAL : Z := 22.

Definition ENOSPC : Z := 28.

Definition ENODATA : Z := 61.

(** ** Outcomes and the state monad

    A C function is a [ST S A]: it maps the program state to a result and a
    new state, or stops.  [Stop] covers what the C abstract machine does not
    define (an access outside an array, a division by zero, a read of a null
    pointer, the conversion of a float to an integer type it does not fit) and the [exit] calls of the user-space program. *)

Inductive stop : Type :=
  | OutOfBounds
  | DivByZero
  | NullDeref
  | BadConversion
  | ExitWith (code : Z).

#[export] Instance stop_eq_dec : EqDecision stop.
Proof. solve_decision. Defined.

Inductive outcome (A : Type) : Type :=
  | Ok (a : A)
  | Stop (e : stop).
Arguments Ok {A} a.
Arguments Stop {A} e.

Definition ST (S A : Type) : Type := S -> outcome (A * S).

#[export] Instance ST_ret S : MRet (ST S) := fun A a s => Ok (a, s).

#[export] Instance ST_bind S : MBind (ST S) := fun A B k m s =>
  match m s with
  | Ok (a, s') => k a s'
  | Stop e => Stop e
  end.

Section primitives.
Context {S : Type}.

Definition get_state : ST S S := fun s => Ok (s, s).

Definition gets {A} (f : S -> A) : ST S A := fun s => Ok (f s, s).

Definition modify (f : S -> S) : ST S unit := fun s => Ok (tt, f s).

Definition stop_with {A} (e : stop) : ST S A := fun _ => Stop e.

(** [for_each l body] is [for (i in l) body(i)]. *)
Fixpoint for_each {A} (l : list A) (body : A -> ST S unit) : ST S unit :=
  match l with
  | [] => mret tt
  | x :: l' => body x ;; for_each l' body
  end.

(** The same loop with an accumulator that the body updates. *)
Fixpoint fold_each {A B} (l : list A) (acc : B) (body : B -> A -> ST S B) : ST S B :=
  match l with
  | [] => mret acc
  | x :: l' => acc' ← body acc x; fold_each l' acc' body
  end.
End primitives.

(** [zoom view put m] runs [m] on a component of the state. *)
Definition zoom {S T A} (view : S -> T) (put : T -> S -> S) (m : ST T A) : ST S A := fun s =>
  match m (view s) with
  | Ok (a, t) => Ok (a, put t s)
  | Stop e => Stop e
  end.

(** ** Arrays

    A C array is a list, indexed by [Z]; a read or write outside of it has no
    value. *)

Definition aget {A} (l : list A) (i : Z) : option A :=
  if 0 <=? i then l !! Z.to_nat i else None.

Definition aset {A} (l : list A) (i : Z) (x : A) : list A :=
  if 0 <=? i then <[Z.to_nat i := x]> l else l.

Definition in_range {A} (l : list A) (i : Z) : bool :=
  (0 <=? i) && (i <? Z.of_nat (length l)).

Definition zlen {A} (l : list A) : Z := Z.of_nat (length l).

(** [read l i] evaluates [l[i]]. *)
Definition read {S A} (l : list A) (i : Z) : ST S A := fun s =>
  match aget l i with
  | Some x => Ok (x, s)
  | None => Stop OutOfBounds
  end.

(** [check_index l i] is the bounds check of a write to [l[i]]. *)
Definition check_index {S A} (l : list A) (i : Z) : ST S unit := fun s =>
  if in_range l i then Ok (tt, s) else Stop OutOfBounds.

(** [div_u a b] is the unsigned C division. *)
Definition div_u {S} (a b : Z) : ST S Z := fun s =>
  if b =? 0 then Stop DivByZero else Ok (a / b, s).

(** ** Record update

    [r <| f := v |>] replaces the field [f] of [r].  A record declares how it
    is rebuilt from its fields ([Settable]); the setter of each field follows. *)

Class Settable (R : Type) := rebuild : R -> R.

Class Setter {R T : Type} (proj : R -> T) := set : (T -> T) -> R -> R.
Arguments set {R T} proj {_} f r.

Ltac make_setter :=
  lazymatch goal with
  | |- @Setter ?R ?T ?proj =>
      let i := constr:(ltac:(typeclasses eauto) : Settable R) in
      let i' := eval cbv beta in i in
      let h := i' in
      let e := eval hnf in h in
      let p := eval pattern proj in e in
      lazymatch p with
      | ?f _ =>
          let t := eval cbv beta in (fun (g : T -> T) (r : R) => f (fun r0 => g (proj r0)) r) in
          exact t
      end
  end.

#[global] Hint Extern 1 (Setter _) => make_setter : typeclass_instances.

Declare Scope record_set.
Delimit Scope record_set with rset.
#[global] Open Scope record_set.
Notation "r <| f := v |>" := (set f (fun _ => v) r)
  (at level 12, f at next level, left associativity, format "r <| f  :=  v |>") : record_set.
Notation "r <| f ::= g |>" := (set f g r)
  (at level 12, f at next level, left associativity, format "r <| f  ::=  g |>") : record_set.

(** ** Little-endian bytes *)

Fixpoint le_bytes (n : nat) (z : Z) : list Z :=
  match n with
  | O => []
  | S n' => (z mod 256) :: le_bytes n' (z / 256)
  end.

Fixpoint le_val (bs : list Z) : Z :=
  match bs with
  | [] => 0
  | b :: bs' => b + 256 * le_val bs'
  end.

(** [sub_bytes bs off n] is the [n] bytes at offset [off], when they exist. *)
Definition sub_bytes (bs : list Z) (off n : nat) : option (list Z) :=
  if (off + n <=? length bs)%nat then Some (take n (drop off bs)) else None.

(** ** Post-conditions

    [wp m s Q E]: run from [s], [m] either returns with a result and a state
    in [Q] or stops for a reason in [E]. *)

Definition wp {S A} (m : ST S A) (s : S) (Q : A -> S -> Prop) (E : stop -> Prop) : Prop :=
  match m s with
  | Ok (a, s') => Q a s'
  | Stop e => E e
  end.

Definition no_stop : stop -> Prop := fun _ => False.

Definition any_stop : stop -> Prop := fun _ => True.

(** [preserves I m]: [m] keeps the invariant [I] whenever it returns. *)
Definition preserves {S A} (I : S -> Prop) (m : ST S A) : Prop :=
  forall s, I s -> wp m s (fun _ => I) any_stop.

(** [runs I m P J]: from a state in [I], [m] returns (it never stops), with a
    result in [P] and a state in [J]. *)
Definition runs {S A} (I : S -> Prop) (m : ST S A) (P : A -> Prop) (J : S -> Prop) : Prop :=
  forall s, I s -> wp m s (fun a s' => P a /\ J s') no_stop.

(** ** Lemmas *)

Section wp_rules.
Context {S : Type}.
Implicit Types (s : S) (E : stop -> Prop).

Lemma wp_ret {A} (a : A) s Q E : Q a s -> wp (mret a) s Q E.
Proof. done. Qed.

Lemma wp_bind {A B} (m : ST S A) (k : A -> ST S B) s Q E :
  wp m s (fun a s' => wp (k a) s' Q E) E -> wp (mbind k m) s Q E.
Proof. unfold wp, mbind, ST_bind. by destruct (m s) as [[a s']|e]. Qed.

(** The first part is irrelevant for the post-condition. *)
Lemma wp_bind_any {A B} (m : ST S A) (k : A -> ST S B) s Q :
  (forall a s', wp (k a) s' Q any_stop) -> wp (mbind k m) s Q any_stop.
Proof. intros Hk. unfold wp, mbind, ST_bind. destruct (m s) as [[a s']|e]; [apply Hk|done]. Qed.

Lemma wp_bind_inv {A B} (m : ST S A) (k : A -> ST S B) s Q E :
  wp (mbind k m) s Q E -> wp m s (fun a s' => wp (k a) s' Q E) E.
Proof. unfold wp, mbind, ST_bind. by destruct (m s) as [[a s']|e]. Qed.

Lemma wp_gets {A} (f : S -> A) s Q E : Q (f s) s -> wp (gets f) s Q E.
Proof. done. Qed.

Lemma wp_modify (f : S -> S) s Q E : Q tt (f s) -> wp (modify f) s Q E.
Proof. done. Qed.

Lemma wp_read {A} (l : list A) i s Q E :
  (forall x, aget l i = Some x -> Q x s) -> (aget l i = None -> E OutOfBounds) ->
  wp (read l i) s Q E.
Proof. unfold wp, read. destruct (aget l i); auto. Qed.

Lemma wp_check_index {A} (l : list A) i s Q E :
  (in_range l i = true -> Q tt s) -> (in_range l i = false -> E OutOfBounds) ->
  wp (check_index l i) s Q E.
Proof. unfold wp, check_index. destruct (in_range l i); auto. Qed.

Lemma wp_mono {A} (m : ST S A) s (Q Q' : A -> S -> Prop) (E E' : stop -> Prop) :
  wp m s Q E -> (forall a s', Q a s' -> Q' a s') -> (forall e, E e -> E' e) -> wp m s Q' E'.
Proof. unfold wp. destruct (m s) as [[]|]; auto. Qed.

Lemma wp_conj {A} (m : ST S A) s (Q1 Q2 : A -> S -> Prop) (E : stop -> Prop) :
  wp m s Q1 any_stop -> wp m s Q2 E -> wp m s (fun a s' => Q1 a s' /\ Q2 a s') E.
Proof. unfold wp. destruct (m s) as [[]|]; auto. Qed.

Lemma wp_for_each {A} (I : list A -> S -> Prop) (l : list A) (body : A -> ST S unit) s E :
  I l s ->
  (forall x l' s', I (x :: l') s' -> wp (body x) s' (fun _ => I l') E) ->
  wp (for_each l body) s (fun _ => I []) E.
Proof.
  intros HI Hstep. revert s HI. induction l as [|x l IH]; intros s HI; simpl; [done|].
  apply wp_bind. eapply wp_mono; [apply Hstep, HI| |done].
  intros [] s' HI'. by apply IH.
Qed.

Lemma wp_fold_each {A B} (I : list A -> B -> S -> Prop) (l : list A) (acc : B)
    (body : B -> A -> ST S B) s E :
  I l acc s ->
  (forall x l' acc' s', I (x :: l') acc' s' -> wp (body acc' x) s' (I l') E) ->
  wp (fold_each l acc body) s (I []) E.
Proof.
  intros HI Hstep. revert s acc HI. induction l as [|x l IH]; intros s acc HI; simpl; [done|].
  apply wp_bind. eapply wp_mono; [apply Hstep, HI| |done].
  intros acc' s' HI'. by apply IH.
Qed.

Lemma preserves_ret {A} (I : S -> Prop) (a : A) : preserves I (mret a).
Proof. by intros s HI. Qed.

Lemma preserves_bind {A B} (I : S -> Prop) (m : ST S A) (k : A -> ST S B) :
  preserves I m -> (forall a, preserves I (k a)) -> preserves I (mbind k m).
Proof.
  intros Hm Hk s HI. apply wp_bind. eapply wp_mono; [apply Hm, HI| |done].
  intros a s' HI'. by apply Hk.
Qed.

Lemma preserves_gets {A} (I : S -> Prop) (f : S -> A) : preserves I (gets f).
Proof. by intros s HI. Qed.

Lemma preserves_modify (I : S -> Prop) (f : S -> S) :
  (forall s, I s -> I (f s)) -> preserves I (modify f).
Proof. intros Hf s HI. by apply Hf. Qed.

Lemma preserves_read {A} (I : S -> Prop) (l : list A) i : preserves I (read l i).
Proof. intros s HI. apply wp_read; done. Qed.

Lemma preserves_check_index {A} (I : S -> Prop) (l : list A) i : preserves I (check_index l i).
Proof. intros s HI. apply wp_check_index; done. Qed.

Lemma preserves_div_u (I : S -> Prop) a b : preserves I (div_u a b).
Proof. intros s HI. unfold wp, div_u. by destruct (b =? 0). Qed.

Lemma preserves_stop {A} (I : S -> Prop) e : preserves I (stop_with (A := A) e).
Proof. by intros s HI. Qed.

Lemma preserves_for_each {A} (I : S -> Prop) (l : list A) (body : A -> ST S unit) :
  (forall x, x ∈ l -> preserves I (body x)) -> preserves I (for_each l body).
Proof.
  induction l as [|x l IH]; intros Hb; simpl; [apply preserves_ret|].
  apply preserves_bind; [apply Hb; left|]. intros _. apply IH. intros y Hy. apply Hb. by right.
Qed.

Lemma preserves_fold_each {A B} (I : S -> Prop) (l : list A) (acc : B)
    (body : B -> A -> ST S B) :
  (forall x b, preserves I (body b x)) -> preserves I (fold_each l acc body).
Proof.
  intros Hb. revert acc. induction l as [|x l IH]; intros acc; simpl; [apply preserves_ret|].
  apply preserves_bind; [apply Hb|]. intros b. apply IH.
Qed.

Lemma preserves_if {A} (I : S -> Prop) (b : bool) (m1 m2 : ST S A) :
  preserves I m1 -> preserves I m2 -> preserves I (if b then m1 else m2).
Proof. by destruct b. Qed.

(** A fact about the run of [m], as an equation. *)
Lemma wp_Ok {A} (m : ST S A) s a s' Q E : m s = Ok (a, s') -> wp m s Q E -> Q a s'.
Proof. unfold wp. by intros ->. Qed.

Lemma bind_Ok {A B} (m : ST S A) (k : A -> ST S B) s a s' :
  m s = Ok (a, s') -> mbind k m s = k a s'.
Proof. unfold mbind, ST_bind. by intros ->. Qed.

Lemma bind_Stop {A B} (m : ST S A) (k : A -> ST S B) s e :
  m s = Stop e -> mbind k m s = Stop e.
Proof. unfold mbind, ST_bind. by intros ->. Qed.

Lemma bind_Ok_inv {A B} (m : ST S A) (k : A -> ST S B) s b s' :
  mbind k m s = Ok (b, s') -> exists a s1, m s = Ok (a, s1) /\ k a s1 = Ok (b, s').
Proof. unfold mbind, ST_bind. destruct (m s) as [[a s1]|]; [eauto|done]. Qed.

Lemma bind_gets {A B} (f : S -> A) (k : A -> ST S B) s : mbind k (gets f) s = k (f s) s.
Proof. done. Qed.

Lemma bind_modify {B} (f : S -> S) (k : unit -> ST S B) s :
  mbind k (modify f) s = k tt (f s).
Proof. done. Qed.

Lemma read_Some {A} (l : list A) i x s : aget l i = Some x -> read l i s = Ok (x, s).
Proof. unfold read. by intros ->. Qed.

Lemma read_None {A} (l : list A) i s : aget l i = None -> read l i s = Stop OutOfBounds.
Proof. unfold read. by intros ->. Qed.

Lemma div_u_Ok (a b : Z) s : b <> 0 -> div_u a b s = Ok (a / b, s).
Proof. intros Hb. unfold div_u. by rewrite (proj2 (Z.eqb_neq b 0) Hb). Qed.

Lemma for_each_app {A} (l1 l2 : list A) (body : A -> ST S unit) s :
  for_each (l1 ++ l2) body s = mbind (fun _ => for_each l2 body) (for_each l1 body) s.
Proof.
  revert s. induction l1 as [|x l1 IH]; intros s; [done|]. cbn.
  unfold mbind, ST_bind. destruct (body x s) as [[[] s']|]; [|done]. apply IH.
Qed.

Lemma wp_no_stop {A} (m : ST S A) s Q :
  wp m s Q no_stop -> exists a s', m s = Ok (a, s') /\ Q a s'.
Proof. unfold wp. destruct (m s) as [[a s']|e]; [eauto|done]. Qed.
End wp_rules.

Lemma fold_each_app {S A B} (l1 l2 : list A) (acc : B) (body : B -> A -> ST S B) s :
  fold_each (l1 ++ l2) acc body s = mbind (fun acc => fold_each l2 acc body) (fold_each l1 acc body) s.
Proof.
  revert acc s. induction l1 as [|x l1 IH]; intros acc s; [done|]. cbn.
  unfold mbind, ST_bind. destruct (body acc x s) as [[acc' s']|]; [|done]. apply IH.
Qed.

Lemma wp_zoom {S T A} (view : S -> T) (put : T -> S -> S) (m : ST T A) s Q E :
  wp m (view s) (fun a t => Q a (put t s)) E -> wp (zoom view put m) s Q E.
Proof. unfold wp, zoom. by destruct (m (view s)) as [[a t]|e]. Qed.

Lemma zoom_Ok {S T A} (view : S -> T) (put : T -> S -> S) (m : ST T A) s a t :
  m (view s) = Ok (a, t) -> zoom view put m s = Ok (a, put t s).
Proof. unfold zoom. by intros ->. Qed.

Section runs_rules.
Context {S : Type}.
Implicit Types (I J K : S -> Prop).

Lemma runs_ret {A} I (a : A) (P : A -> Prop) : P a -> runs I (mret a) P I.
Proof. by intros HP s HI. Qed.

Lemma runs_bind {A B} I J K (m : ST S A) (k : A -> ST S B) P Q :
  runs I m P J -> (forall a, P a -> runs J (k a) Q K) -> runs I (mbind k m) Q K.
Proof.
  intros Hm Hk s HI. apply wp_bind. eapply wp_mono; [apply Hm, HI| |done].
  intros a s' [Ha HJ]. by apply Hk.
Qed.

(** What the state says at this point, for the rest of the program. *)
Lemma runs_gets_bind {A B} I K (f : S -> A) (k : A -> ST S B) (P : A -> Prop) Q :
  (forall s, I s -> P (f s)) ->
  (forall a, P a -> runs (fun s => I s /\ f s = a) (k a) Q K) -> runs I (mbind k (gets f)) Q K.
Proof. intros Hf Hk s HI. apply wp_bind, wp_gets. by apply (Hk (f s) (Hf s HI)). Qed.

Lemma runs_gets {A} I (f : S -> A) (P : A -> Prop) : (forall s, I s -> P (f s)) -> runs I (gets f) P I.
Proof. intros Hf s HI. apply wp_gets. auto. Qed.

Lemma runs_modify I J (f : S -> S) : (forall s, I s -> J (f s)) -> runs I (modify f) (fun _ => True) J.
Proof. intros Hf s HI. apply wp_modify. auto. Qed.

Lemma runs_weaken {A} I I' J J' (m : ST S A) (P P' : A -> Prop) :
  runs I' m P' J' -> (forall s, I s -> I' s) -> (forall a, P' a -> P a) -> (forall s, J' s -> J s) ->
  runs I m P J.
Proof.
  intros Hm HI HP HJ s Hs. eapply wp_mono; [apply Hm, HI, Hs| |done]. intros a s' []. auto.
Qed.

Lemma runs_if {A} I (b : bool) (m1 m2 : ST S A) P J :
  runs I m1 P J -> runs I m2 P J -> runs I (if b then m1 else m2) P J.
Proof. by destruct b. Qed.

Lemma runs_for_each {A} I (l : list A) (body : A -> ST S unit) :
  (forall x, x ∈ l -> runs I (body x) (fun _ => True) I) -> runs I (for_each l body) (fun _ => True) I.
Proof.
  induction l as [|x l IH]; intros Hb; simpl; [by apply runs_ret|].
  eapply runs_bind; [apply Hb; left|]. intros _ _. apply IH. intros y Hy. apply Hb. by right.
Qed.

Lemma runs_fold_each {A B} I (P : B -> Prop) (l : list A) (acc : B) (body : B -> A -> ST S B) :
  P acc -> (forall b x, P b -> x ∈ l -> runs I (body b x) P I) -> runs I (fold_each l acc body) P I.
Proof.
  revert acc. induction l as [|x l IH]; intros acc HP Hb; simpl; [by apply runs_ret|].
  eapply runs_bind; [apply Hb; [done|left]|]. intros b HPb. apply IH; [done|].
  intros b' y Hb' Hy. apply Hb; [done|]. by right.
Qed.

(** A run from one state. *)
Lemma runs_Ok {A} I (m : ST S A) P J s : runs I m P J -> I s -> exists a s', m s = Ok (a, s') /\ P a /\ J s'.
Proof.
  intros Hm Hs. specialize (Hm s Hs). unfold wp in Hm. destruct (m s) as [[a s']|]; [eauto|done].
Qed.
End runs_rules.

(** The hint database of the invariance rules. *)
Create HintDb preserve.
#[export] Hint Resolve preserves_ret preserves_gets preserves_read preserves_check_index
  preserves_div_u preserves_stop : preserve.

(** Splits a monadic program into its primitive steps. *)
Ltac preserve_step :=
  match goal with
  | |- preserves _ (mbind _ _) => apply preserves_bind; [|intros ?]
  | |- preserves _ (for_each _ _) => apply preserves_for_each; intros ? ?
  | |- preserves _ (fold_each _ _ _) => apply preserves_fold_each; intros ? ?
  | |- preserves _ (if ?b then _ else _) => destruct b
  | |- preserves _ (match ?x with _ => _ end) => destruct x
  | |- preserves _ ((match ?x with _ => _ end) _) => destruct x
  | |- preserves _ (let _ := _ in _) => cbv zeta
  | |- preserves _ _ => solve [eauto with preserve]
  end.

Ltac preserve := repeat preserve_step.

(** Steps through a monadic program in a [wp] goal. *)
Ltac wp_step :=
  match goal with
  | |- wp (mbind _ _) _ _ _ => apply wp_bind
  | |- wp (mret _) _ _ _ => apply wp_ret
  | |- wp (gets _) _ _ _ => apply wp_gets
  | |- wp (modify _) _ _ _ => apply wp_modify
  end; cbv beta.

Ltac wp_steps := repeat wp_step.

(** *** Arrays *)

Lemma aget_Some_range {A} (l : list A) i x :
  aget l i = Some x -> 0 <= i < zlen l.
Proof.
  unfold aget, zlen. destruct (Z.leb_spec 0 i); [|done].
  intros Hl%lookup_lt_Some. lia.
Qed.

Lemma aget_in_range {A} (l : list A) i : in_range l i = true <-> is_Some (aget l i).
Proof.
  unfold aget, in_range. rewrite andb_true_iff, Z.leb_le, Z.ltb_lt. split.
  - intros [H0 H1]. rewrite (proj2 (Z.leb_le 0 i)) by done. apply lookup_lt_is_Some. lia.
  - destruct (Z.leb_spec 0 i); [|by intros []].
    intros Hl%lookup_lt_is_Some. lia.
Qed.

Lemma in_range_zlen {A} (l : list A) i : in_range l i = true <-> 0 <= i < zlen l.
Proof. unfold in_range, zlen. rewrite andb_true_iff, Z.leb_le, Z.ltb_lt. done. Qed.

Lemma length_aset {A} (l : list A) i x : length (aset l i x) = length l.
Proof. unfold aset. destruct (0 <=? i); [apply length_insert|done]. Qed.

Lemma aset_id {A} (l : list A) i x : aget l i = Some x -> aset l i x = l.
Proof. unfold aget, aset. destruct (0 <=? i); [|done]. apply list_insert_id. Qed.

Lemma zlen_aset {A} (l : list A) i x : zlen (aset l i x) = zlen l.
Proof. unfold zlen. by rewrite length_aset. Qed.

Lemma aget_aset_eq {A} (l : list A) i x : 0 <= i < zlen l -> aget (aset l i x) i = Some x.
Proof.
  intros Hi. unfold aget, aset, zlen in *. destruct (Z.leb_spec 0 i); [|lia].
  apply list_lookup_insert_eq. lia.
Qed.

Lemma aget_aset_ne {A} (l : list A) i j x : i <> j -> aget (aset l i x) j = aget l j.
Proof.
  intros Hij. unfold aget, aset. destruct (Z.leb_spec 0 i), (Z.leb_spec 0 j); try done.
  apply list_lookup_insert_ne. lia.
Qed.

Lemma aget_aset_Some {A} (l : list A) i j x y :
  aget (aset l i x) j = Some y -> (i = j /\ y = x) \/ aget l j = Some y.
Proof.
  intros H. destruct (decide (i = j)) as [->|Hne].
  - left. pose proof (aget_Some_range _ _ _ H) as Hr. rewrite zlen_aset in Hr.
    rewrite aget_aset_eq in H by done. by simplify_eq.
  - right. by rewrite aget_aset_ne in H.
Qed.

Lemma aget_is_Some {A} (l : list A) i : 0 <= i < zlen l -> exists x, aget l i = Some x.
Proof. intros Hi. apply aget_in_range. by apply in_range_zlen. Qed.

Lemma Forall_aset {A} (P : A -> Prop) (l : list A) i x :
  Forall P l -> P x -> Forall P (aset l i x).
Proof. intros Hl Hx. unfold aset. destruct (0 <=? i); [|done]. by apply Forall_insert. Qed.

Lemma Forall_aget {A} (P : A -> Prop) (l : list A) i x :
  Forall P l -> aget l i = Some x -> P x.
Proof.
  unfold aget. destruct (0 <=? i); [|done]. intros Hl Hx.
  by apply (Forall_lookup_1 _ _ _ _ Hl Hx).
Qed.

Lemma check_index_Ok {S A} (l : list A) i (s : S) : 0 <= i < zlen l -> check_index l i s = Ok (tt, s).
Proof. intros Hi. unfold check_index. by rewrite (proj2 (in_range_zlen l i) Hi). Qed.

(** *** Machine integers *)

Lemma wrap_range w x : 0 <= w -> in_u w (wrap w x).
Proof. intros. apply Z.mod_pos_bound. by apply Z.pow_pos_nonneg. Qed.

Lemma wrap_small w x : in_u w x -> wrap w x = x.
Proof. apply Z.mod_small. Qed.

Lemma u8_range x : 0 <= u8 x < 256.
Proof. by apply (wrap_range 8). Qed.

Lemma u32_range x : 0 <= u32 x < 2 ^ 32.
Proof. by apply (wrap_range 32). Qed.

Lemma u64_range x : 0 <= u64 x < 2 ^ 64.
Proof. by apply (wrap_range 64). Qed.

Lemma u64_small x : 0 <= x < 2 ^ 64 -> u64 x = x.
Proof. apply Z.mod_small. Qed.

Lemma u32_small x : 0 <= x < 2 ^ 32 -> u32 x = x.
Proof. apply Z.mod_small. Qed.

Lemma s32_range x : in_s32 (s32 x).
Proof.
  unfold in_s32, s32. pose proof (Z.mod_pos_bound (x + 2 ^ 31) (2 ^ 32) ltac:(done)). lia.
Qed.

Lemma s32_small x : in_s32 x -> s32 x = x.
Proof. unfold in_s32, s32. intros. rewrite Z.mod_small; lia. Qed.

(** *** Concatenation *)

Lemma join_cons {A} (l : list A) (ls : list (list A)) : mjoin (l :: ls) = l ++ mjoin ls.
Proof. done. Qed.

(** *** Little-endian bytes *)

Lemma length_le_bytes n z : length (le_bytes n z) = n.
Proof. revert z. induction n; intros; simpl; auto. Qed.

Lemma le_bytes_range n z : Forall (in_u 8) (le_bytes n z).
Proof.
  revert z. induction n; intros; simpl; constructor; auto.
  by apply (wrap_range 8).
Qed.

Lemma le_val_bytes n z : le_val (le_bytes n z) = z mod 256 ^ Z.of_nat n.
Proof.
  revert z. induction n as [|n IH]; intros z.
  - simpl. by rewrite Z.mod_1_r.
  - cbn [le_bytes le_val]. rewrite IH, Nat2Z.inj_succ, Z.pow_succ_r by lia.
    rewrite Z.rem_mul_r; [lia|lia|]. apply Z.pow_pos_nonneg; lia.
Qed.

Lemma le_val_range bs : Forall (in_u 8) bs -> 0 <= le_val bs < 256 ^ Z.of_nat (length bs).
Proof.
  induction 1 as [|b bs Hb _ IH]; [done|]. cbn [le_val length].
  rewrite Nat2Z.inj_succ, Z.pow_succ_r by lia. unfold in_u in Hb. lia.
Qed.

Lemma le_bytes_val bs : Forall (in_u 8) bs -> le_bytes (length bs) (le_val bs) = bs.
Proof.
  induction 1 as [|b bs Hb _ IH]; [done|]. cbn [le_bytes le_val length].
  unfold in_u in Hb. change (2 ^ 8) with 256 in Hb.
  rewrite (Z.mul_comm 256), Z.mod_add, Z.mod_small, Z.div_add by lia.
  by rewrite Z.div_small, Z.add_0_l, IH by lia.
Qed.

Lemma le_bytes_app n m z : le_bytes (n + m) z = le_bytes n z ++ le_bytes m (z / 256 ^ Z.of_nat n).
Proof.
  revert z. induction n as [|n IH]; intros z.
  - simpl. by rewrite Z.div_1_r.
  - cbn [le_bytes Nat.add app]. rewrite IH, Nat2Z.inj_succ, Z.pow_succ_r by lia.
    rewrite Z.div_div by (try apply Z.pow_pos_nonneg; lia). done.
Qed.

Lemma sub_bytes_app_l bs1 bs2 off n :
  (off + n <= length bs1)%nat -> sub_bytes (bs1 ++ bs2) off n = sub_bytes bs1 off n.
Proof.
  intros Hle. unfold sub_bytes. rewrite length_app.
  destruct (Nat.leb_spec (off + n) (length bs1 + length bs2)); [|lia].
  destruct (Nat.leb_spec (off + n) (length bs1)); [|lia].
  f_equal. rewrite drop_app_le by lia. rewrite take_app_le; [done|]. rewrite length_drop. lia.
Qed.

Lemma sub_bytes_skip bs1 bs2 off n :
  length bs1 = off -> sub_bytes (bs1 ++ bs2) off n = sub_bytes bs2 0 n.
Proof.
  intros <-. unfold sub_bytes. rewrite length_app.
  destruct (Nat.leb_spec (length bs1 + n) (length bs1 + length bs2)),
    (Nat.leb_spec (0 + n) (length bs2)); try lia; [|done].
  by rewrite drop_app_length, drop_0.
Qed.

Lemma sub_bytes_all bs n : length bs = n -> sub_bytes bs 0 n = Some bs.
Proof.
  intros <-. unfold sub_bytes. rewrite Nat.leb_refl. f_equal. rewrite drop_0. by apply take_ge.
Qed.

Lemma sub_bytes_range bs off n bs' :
  Forall (in_u 8) bs -> sub_bytes bs off n = Some bs' -> Forall (in_u 8) bs'.
Proof.
  unfold sub_bytes. destruct (_ <=? _)%nat; [|done]. intros Hbs [= <-].
  by apply Forall_take, Forall_drop.
Qed.

Lemma sub_bytes_length bs off n bs' : sub_bytes bs off n = Some bs' -> length bs' = n.
Proof.
  unfold sub_bytes. destruct (Nat.leb_spec (off + n) (length bs)); [|done]. intros [= <-].
  rewrite length_take, length_drop. lia.
Qed.

(** The lemmas that keep arrays and words in their bounds. *)
Create HintDb bounds.
#[export] Hint Resolve wrap_range u8_range u32_range u64_range s32_range le_bytes_range
  Forall_aset : bounds.
Create Rewrite HintDb arrays.
#[export] Hint Rewrite @length_aset @zlen_aset length_le_bytes : arrays.
