(* ===== verification/Floats.v ===== *)
(** * Floating-point numbers

    The user-space program computes with [float] and [double].  Both are the
    executable IEEE 754 specification of the Standard Library ([spec_float]),
    with precision 24 and 53; on x86-64 each operation rounds to its own type.
    What C converts implicitly is written out: [to_f64] where a [float] meets a
    [double], [to_f32] where a [double] is stored in a [float]. *)

From Stdlib Require Export SpecFloat.
From S2P Require Import Prelude.

(** ** Conversions *)

Definition f32_of_Z (z : Z) : spec_float := binary_normalize 24 128 z 0 false.

Definition f64_of_Z (z : Z) : spec_float := binary_normalize 53 1024 z 0 false.

(** Rounding a number to a precision. *)
Definition convert (prec emax : Z) (x : spec_float) : spec_float :=
  match x with
  | S754_finite false m e => binary_normalize prec emax (Zpos m) e false
  | S754_finite true m e => binary_normalize prec emax (Zneg m) e true
  | _ => x
  end.

Definition to_f32 : spec_float -> spec_float := convert 24 128.

Definition to_f64 : spec_float -> spec_float := convert 53 1024.

(** The magnitude of a finite number, truncated, and rounded half away from zero. *)
Definition trunc_mag (m : positive) (e : Z) : Z :=
  if 0 <=? e then Zpos m * 2 ^ e else Zpos m / 2 ^ (- e).

Definition round_mag (m : positive) (e : Z) : Z :=
  if 0 <=? e then Zpos m * 2 ^ e else (2 * Zpos m + 2 ^ (- e)) / 2 ^ (- e + 1).

Definition signed (sign : bool) (a : Z) : Z := if sign then - a else a.

(** [(uint32_t)x], when the truncated value fits. *)
Definition f32_to_u32 (x : spec_float) : option Z :=
  match x with
  | S754_zero _ => Some 0
  | S754_finite sign m e =>
      let v := signed sign (trunc_mag m e) in
      if (0 <=? v) && (v <? 2 ^ 32) then Some v else None
  | _ => None
  end.

(** [(int)x], when the truncated value fits. *)
Definition to_s32 (x : spec_float) : option Z :=
  match x with
  | S754_zero _ => Some 0
  | S754_finite sign m e =>
      let v := signed sign (trunc_mag m e) in
      if (- 2 ^ 31 <=? v) && (v <? 2 ^ 31) then Some v else None
  | _ => None
  end.

(** [lround(x)]: to the nearest integer, halves away from zero; no value when
    it does not fit a [long]. *)
Definition lround (x : spec_float) : option Z :=
  match x with
  | S754_zero _ => Some 0
  | S754_finite sign m e =>
      let v := signed sign (round_mag m e) in
      if (- 2 ^ 63 <=? v) && (v <? 2 ^ 63) then Some v else None
  | _ => None
  end.

(** ** Arithmetic *)

Definition f32_add : spec_float -> spec_float -> spec_float := SFadd 24 128.

Definition f32_sub : spec_float -> spec_float -> spec_float := SFsub 24 128.

Definition f32_mul : spec_float -> spec_float -> spec_float := SFmul 24 128.

Definition f32_div : spec_float -> spec_float -> spec_float := SFdiv 24 128.

Definition f64_add : spec_float -> spec_float -> spec_float := SFadd 53 1024.

Definition f64_mul : spec_float -> spec_float -> spec_float := SFmul 53 1024.

Definition f64_div : spec_float -> spec_float -> spec_float := SFdiv 53 1024.

(** IEEE 754 requires the square root to be correctly rounded. *)
Definition f64_sqrt : spec_float -> spec_float := SFsqrt 53 1024.

(** The [double] literal [m / n], both exact: the quotient is the nearest
    number to the decimal fraction. *)
Definition literal (m n : Z) : spec_float := f64_div (f64_of_Z m) (f64_of_Z n).

(** ** Comparison *)

(** [x > y] is [SFltb y x]; with a NaN every comparison is false. *)

Definition is_nan (x : spec_float) : bool := match x with S754_nan => true | _ => false end.

(** Where a non-NaN number stands: its class, then a signed exponent and mantissa. *)
Definition rank (x : spec_float) : Z * Z * Z :=
  match x with
  | S754_nan => (0, 0, 0)
  | S754_infinity true => (-2, 0, 0)
  | S754_infinity false => (2, 0, 0)
  | S754_zero _ => (0, 0, 0)
  | S754_finite true m e => (-1, - e, Zneg m)
  | S754_finite false m e => (1, e, Zpos m)
  end.

Definition rank_lt (a b : Z * Z * Z) : Prop :=
  let '(a1, a2, a3) := a in
  let '(b1, b2, b3) := b in
  a1 < b1 \/ a1 = b1 /\ (a2 < b2 \/ a2 = b2 /\ a3 < b3).

(** Comparing numbers is comparing their ranks lexicographically. *)
Lemma SFltb_rank x y :
  SFltb x y = true <-> is_nan x = false /\ is_nan y = false /\ rank_lt (rank x) (rank y).
Proof.
  unfold SFltb, SFcompare, rank_lt, is_nan, rank.
  destruct x as [sx|[]| |[] mx ex], y as [sy|[]| |[] my ey]; cbn;
    try (split; [intros H; try discriminate H; repeat split; lia|];
         intros (? & ? & ?); try discriminate; try reflexivity; lia).
  all: change (Pos.compare_cont Eq mx my) with (mx ?= my)%positive.
  all: change (PosDef.Pos.compare_cont Eq mx my) with (mx ?= my)%positive.
  all: destruct (Z.compare_spec ex ey), (Pos.compare_spec mx my); cbn;
    (split; [intros Hd; try discriminate Hd; repeat split; lia|]);
    intros (? & ? & ?); try reflexivity; lia.
Qed.

Lemma SFltb_trans x y z : SFltb x y = true -> SFltb y z = true -> SFltb x z = true.
Proof.
  rewrite !SFltb_rank. intros (Hx & Hy & H1) (_ & Hz & H2). split_and!; [done..|].
  unfold rank_lt in *. destruct (rank x) as [[]], (rank y) as [[]], (rank z) as [[]]. lia.
Qed.

Lemma SFltb_irrefl x : SFltb x x = false.
Proof.
  apply not_true_is_false. rewrite SFltb_rank. intros (_ & _ & H).
  unfold rank_lt in H. destruct (rank x) as [[]]. lia.
Qed.

(** A number between two others that are in the wrong order. *)
Lemma SFltb_le_lt x y z : SFltb y x = false -> SFltb y z = true -> SFltb z x = false.
Proof.
  intros Hyx Hyz. apply not_true_is_false. intros Hzx.
  by rewrite (SFltb_trans y z x) in Hyx.
Qed.

Lemma SFltb_lt_le x y z :
  SFltb y x = false -> SFltb y z = true -> is_nan x = false -> SFltb x z = true.
Proof.
  intros Hyx. rewrite !SFltb_rank. intros (Hy & Hz & Hlt) Hx. split_and!; [done..|].
  apply not_true_iff_false in Hyx. rewrite SFltb_rank in Hyx.
  assert (Hn : ~ rank_lt (rank y) (rank x)) by tauto.
  unfold rank_lt in *. destruct (rank x) as [[]], (rank y) as [[]], (rank z) as [[]]. lia.
Qed.
