(* ===== verification/Bitfields.v ===== *)
(** * Bit-fields of the prefetcher MSRs

    [include/atom_msr.h] describes each prefetcher MSR as a struct of
    [uint64_t] bit-fields and overlays them in [union msr_u] with the plain
    word [v].  GCC on x86-64 allocates the bit-fields of such a struct from
    bit 0 upwards in declaration order, so a struct is its list of field names
    and widths and a field is a slice of the word.  Nothing here depends on
    what the bits mean to the processor. *)

From S2P Require Import Prelude.

(** ** Slices of a word *)

Record field := Field { f_off : Z; f_width : Z }.

#[export] Instance field_eq_dec : EqDecision field.
Proof. solve_decision. Defined.

(** Reading a bit-field. *)
Definition get_field (f : field) (x : Z) : Z :=
  Z.land (Z.shiftr x (f_off f)) (Z.ones (f_width f)).

(** Assigning [v] to a bit-field: [v] is converted modulo [2 ^ width]. *)
Definition set_field (f : field) (x v : Z) : Z :=
  Z.lor (Z.ldiff x (Z.shiftl (Z.ones (f_width f)) (f_off f)))
        (Z.shiftl (Z.land v (Z.ones (f_width f))) (f_off f)).

Definition field_ok (f : field) : bool :=
  (0 <=? f_off f) && (0 <? f_width f) && (f_off f + f_width f <=? 64).

Definition disjoint (f g : field) : bool :=
  (f_off f + f_width f <=? f_off g) || (f_off g + f_width g <=? f_off f).

(** ** The structs of [atom_msr.h] *)

Inductive msr_struct : Type :=
  | msr1A4 | msr1320 | msr1321 | msr1322 | msr1323 | msr1324 | msr1325 | msr1326 | msr1327.

#[export] Instance msr_struct_eq_dec : EqDecision msr_struct.
Proof. solve_decision. Defined.

Definition decls := list (string * Z).

Definition msr1A4_s : decls :=
  [("L2_STREAM_DISABLED", 1); ("L2_ADJACENT_CACHE_LINE_PREFETCHER_DISABLE", 1);
   ("L1_DATA_STREAM_DISABLED", 1); ("L1_INSTRUCTION_STREAM_DISABLED", 1);
   ("L1_NEXT_PAGE_DISABLED", 1); ("L2_AMP_DISABLED", 1);
   ("LLC_PAGE_PREFETCH_DISABLE", 1); ("AOP_PREFETCH_DISABLE", 1);
   ("STREAM_PREFETCH_CODE_FETCH_DISABLE", 1); ("pad0", 3);
   ("DYNAMIC_L2PREFETCHER_CONFIG_DISABLE", 1)]%string.

Definition msr1320_s : decls :=
  [("L2_STREAM_AMP_XQ_THRESHOLD", 5); ("pad0", 1); ("INIT_PRE_PENDING", 3);
   ("SKPAHD_PREF", 3); ("MAX_PREF_PENDING", 5); ("INIT_TRIG_WINDOW", 3);
   ("L2_STREAM_MAX_DISTANCE", 5); ("TRIG_PREF_HIT", 3); ("pad1", 2);
   ("L2_AMP_DISABLE_RECURSION", 1); ("DIS_AMP_TRIV_REC", 1); ("L2HL_LLCHL_MIN_DIST", 5);
   ("LLC_STREAM_MAX_DISTANCE", 6); ("LLC_STREAM_DISABLE", 1); ("LLC_INIT_PREF_PEND", 3);
   ("LLC_MAX_PREF_PEND", 5); ("pad2", 1); ("LLCPREF_LQ_THRESHOLD", 5);
   ("LLC_STREAM_XQ_THRESHOLD", 5)]%string.

Definition msr1321_s : decls :=
  [("L2_STREAM_AMP_CREATE_IL1", 1); ("pad0", 10); ("ALTERNATIVE_ISIDE_PREFETCH_ENABLE", 1);
   ("ALTERNATIVE_KICKSTART_PREFETCHES", 4); ("ALTERNATIVE_REGULAR_PREFETCHES", 4);
   ("DTP_ENABLE", 1); ("L2_STREAM_DEMAND_DENSITY", 8); ("L2_STREAM_DEMAND_DENSITY_OVR", 4);
   ("pad1", 3); ("CREATE_PMH", 1); ("pad2", 3); ("L2_DISABLE_NEXT_LINE_PREFETCH", 1);
   ("L2_LLC_STREAM_AMP_XQ_THRESHOLD", 6); ("pad3", 16);
   ("RESTORE_L2PREFETCHER_DEFAULTS", 1)]%string.

Definition msr1322_s : decls :=
  [("LLPREF_THROTTLE_ISSUE_FACTOR", 3); ("LLPREF_THROTTLE_HIT_FACTOR", 3);
   ("LLPREF_UNTHROTTLE_ISSUE_FACTOR", 3); ("LLPREF_UNTHROTTLE_HIT_FACTOR", 3); ("pad0", 2);
   ("LLC_STREAM_DEMAND_DENSITY", 9); ("LLC_STREAM_DEMAND_DENSITY_OVR", 4);
   ("L2_AMP_CONFIDENCE_DPT0", 6); ("L2_AMP_CONFIDENCE_DPT1", 6);
   ("L2_AMP_CONFIDENCE_DPT2", 6); ("L2_AMP_CONFIDENCE_DPT3", 6); ("pad1", 8);
   ("L2_LLC_STREAM_DEMAND_DENSITY_XQ", 3)]%string.

Definition msr1323_s : decls :=
  [("pad0", 34); ("L2_STREAM_AMP_CREATE_SWPFRFO", 1); ("L2_STREAM_AMP_CREATE_SWPFRD", 1);
   ("pad1", 1); ("L2_STREAM_AMP_CREATE_HWPFD", 1); ("L2_STREAM_AMP_CREATE_DRFO", 1);
   ("STABILIZE_PREF_ON_SWPFRFO", 1); ("STABILIZE_PREF_ON_SWPFRD", 1);
   ("STABILIZE_PREF_ON_IL1", 1); ("pad2", 1); ("STABILIZE_PREF_ON_HWPFD", 1);
   ("STABILIZE_PREF_ON_DRFO", 1); ("L2_STREAM_AMP_CREATE_PFNPP", 1);
   ("L2_STREAM_AMP_CREATE_PFIPP", 1); ("STABILIZE_PREF_ON_PFNPP", 1);
   ("STABILIZE_PREF_ON_PFIPP", 1)]%string.

Definition msr1324_s : decls := [("pad0", 54); ("L1_HOMELESS_THRESHOLD", 8)]%string.

Definition msr1325_s : decls :=
  [("STR_WINDOW_SIZE", 5); ("KICK_START", 1); ("LQ_THRESHOLD", 5); ("pad0", 3);
   ("AMP_MAX_TRIV_REC_PREF", 3); ("AMP_DELTA_CNT_INC_VAL", 3); ("pad1", 12);
   ("PREFACC_COUNTER_THRESHOLD", 8); ("PREFACC_DISABLE_LQ2_THRESHOLD", 5);
   ("PREFACC_DISABLE_XQ_THRESHOLD", 5); ("PREFACC_COUNTER_INCR", 6); ("PREFACC_COUNT", 3);
   ("PREFACC_DISABLE", 1)]%string.

Definition msr1326_s : decls := [("pad0", 56); ("AMP_RECUR_PREFETCHMINCOUNT", 6)]%string.

Definition msr1327_s : decls :=
  [("RMT_INC", 4); ("RMT_DEC", 4); ("RMT_POSITIVE_SATURATION", 3);
   ("RMT_POSITIVE_UPPER_QUARTILE", 3); ("RMT_POSITIVE_LOWER_QUARTILE", 3);
   ("RMT_NEGATIVE_LOWER_QUARTILE", 3); ("RMT_NEGATIVE_UPPER_QUARTILE", 3);
   ("RMT_NEGATIVE_SATURATION", 3); ("RMT_EN", 1)]%string.

Definition struct_decls (s : msr_struct) : decls :=
  match s with
  | msr1A4 => msr1A4_s | msr1320 => msr1320_s | msr1321 => msr1321_s
  | msr1322 => msr1322_s | msr1323 => msr1323_s | msr1324 => msr1324_s
  | msr1325 => msr1325_s | msr1326 => msr1326_s | msr1327 => msr1327_s
  end.

(** The layout of a struct: its bit-fields, packed upwards from [off]. *)
Fixpoint layout_from (off : Z) (ds : decls) : list (string * field) :=
  match ds with
  | [] => []
  | (n, w) :: ds' => (n, Field off w) :: layout_from (off + w) ds'
  end.

Definition layout (s : msr_struct) : list (string * field) := layout_from 0 (struct_decls s).

Fixpoint assoc {A} (n : string) (l : list (string * A)) : option A :=
  match l with
  | [] => None
  | (m, a) :: l' => if String.eqb n m then Some a else assoc n l'
  end.

Definition field_of (s : msr_struct) (n : string) : option field := assoc n (layout s).

(** [x.s.n] and [x.s.n = v] on a [union msr_u] whose word is [x]. *)
Definition msr_u_get (s : msr_struct) (n : string) (x : Z) : Z :=
  match field_of s n with
  | Some f => get_field f x
  | None => 0
  end.

Definition msr_u_set (s : msr_struct) (n : string) (x v : Z) : Z :=
  match field_of s n with
  | Some f => set_field f x v
  | None => x
  end.

(** ** Lemmas on slices *)

Lemma testbit_get_field f x i :
  0 <= f_off f -> 0 <= f_width f -> 0 <= i ->
  Z.testbit (get_field f x) i = (i <? f_width f) && Z.testbit x (i + f_off f).
Proof.
  intros Ho Hw Hi. unfold get_field.
  rewrite Z.land_spec, Z.shiftr_spec by lia.
  destruct (Z.ltb_spec i (f_width f)).
  - rewrite Z.ones_spec_low by lia. by rewrite andb_true_r.
  - rewrite Z.ones_spec_high by lia. by rewrite andb_false_r.
Qed.

Lemma testbit_set_field f x v i :
  0 <= f_off f -> 0 <= f_width f -> 0 <= i ->
  Z.testbit (set_field f x v) i =
    if (f_off f <=? i) && (i <? f_off f + f_width f)
    then Z.testbit v (i - f_off f) else Z.testbit x i.
Proof.
  intros Ho Hw Hi. unfold set_field.
  rewrite Z.lor_spec, Z.ldiff_spec, !Z.shiftl_spec, Z.land_spec by lia.
  destruct (Z.leb_spec (f_off f) i); simpl.
  - destruct (Z.ltb_spec i (f_off f + f_width f)).
    + rewrite !Z.ones_spec_low by lia. by rewrite andb_false_r, andb_true_r.
    + rewrite !Z.ones_spec_high by lia. by rewrite andb_true_r, andb_false_r, orb_false_r.
  - rewrite !(Z.testbit_neg_r _ (i - f_off f)) by lia.
    by rewrite andb_true_r, andb_false_l, orb_false_r.
Qed.

Lemma field_ok_spec f :
  field_ok f = true -> 0 <= f_off f /\ 0 < f_width f /\ f_off f + f_width f <= 64.
Proof. unfold field_ok. lia. Qed.

Lemma get_set_same f x v :
  field_ok f = true -> get_field f (set_field f x v) = v mod 2 ^ f_width f.
Proof.
  intros (Ho & Hw & H64)%field_ok_spec. rewrite <- Z.land_ones by lia.
  apply Z.bits_inj'. intros i Hi.
  rewrite testbit_get_field, testbit_set_field, Z.land_spec by lia.
  destruct (Z.ltb_spec i (f_width f)).
  - rewrite Z.ones_spec_low by lia.
    destruct (Z.leb_spec (f_off f) (i + f_off f)), (Z.ltb_spec (i + f_off f) (f_off f + f_width f));
      try lia. simpl. rewrite andb_true_r. f_equal. lia.
  - rewrite Z.ones_spec_high by lia. by rewrite andb_false_r.
Qed.

Lemma get_set_disjoint f g x v :
  field_ok f = true -> field_ok g = true -> disjoint f g = true ->
  get_field g (set_field f x v) = get_field g x.
Proof.
  intros (Ho & Hw & H64)%field_ok_spec (Ho' & Hw' & H64')%field_ok_spec Hd.
  unfold disjoint in Hd. apply Z.bits_inj'. intros i Hi.
  rewrite !testbit_get_field, testbit_set_field by lia.
  destruct (Z.ltb_spec i (f_width g)); [|done]. f_equal.
  destruct (Z.leb_spec (f_off f) (i + f_off g)), (Z.ltb_spec (i + f_off g) (f_off f + f_width f));
    simpl; lia || done.
Qed.

Lemma get_field_range f x : field_ok f = true -> 0 <= get_field f x < 2 ^ f_width f.
Proof.
  intros (Ho & Hw & H64)%field_ok_spec. unfold get_field.
  rewrite Z.land_ones by lia. apply Z.mod_pos_bound, Z.pow_pos_nonneg; lia.
Qed.

(** A word below [2 ^ 64] is one whose bits from 64 on are clear. *)
Lemma in_u64_bits x : 0 <= x -> (forall i, 64 <= i -> Z.testbit x i = false) -> in_u 64 x.
Proof.
  intros Hx Hb. split; [done|]. destruct (Z.lt_ge_cases x (2 ^ 64)) as [|Hge]; [done|].
  assert (0 < x) as Hpos by lia.
  pose proof (Z.bit_log2 x Hpos) as Hl. rewrite Hb in Hl; [done|].
  apply Z.log2_le_pow2; lia.
Qed.

Lemma u64_bits_high x i : in_u 64 x -> 64 <= i -> Z.testbit x i = false.
Proof.
  intros [H0 H1] Hi. destruct (Z.eq_dec x 0) as [->|]; [apply Z.bits_0|].
  apply Z.bits_above_log2; [done|]. assert (Z.log2 x < 64); [|lia].
  apply Z.log2_lt_pow2; lia.
Qed.

Lemma set_field_range f x v : field_ok f = true -> in_u 64 x -> in_u 64 (set_field f x v).
Proof.
  intros Hf Hx. pose proof (field_ok_spec _ Hf) as (Ho & Hw & H64). apply in_u64_bits.
  - unfold set_field. apply Z.lor_nonneg. split.
    + apply Z.ldiff_nonneg. left. apply Hx.
    + apply Z.shiftl_nonneg, Z.land_nonneg. right. rewrite Z.ones_equiv. 
      pose proof (Z.pow_pos_nonneg 2 (f_width f)). lia.
  - intros i Hi. rewrite testbit_set_field by lia.
    destruct (Z.ltb_spec i (f_off f + f_width f)); [lia|].
    rewrite andb_false_r. by apply u64_bits_high.
Qed.

Lemma set_field_twice f x v w :
  field_ok f = true -> set_field f (set_field f x v) w = set_field f x w.
Proof.
  intros (Ho & Hw & H64)%field_ok_spec. apply Z.bits_inj'. intros i Hi.
  rewrite !testbit_set_field by lia. by destruct (_ && _).
Qed.

Lemma set_field_comm f g x v w :
  field_ok f = true -> field_ok g = true -> disjoint f g = true ->
  set_field f (set_field g x w) v = set_field g (set_field f x v) w.
Proof.
  intros (Ho & Hw & H64)%field_ok_spec (Ho' & Hw' & H64')%field_ok_spec Hd.
  unfold disjoint in Hd. apply Z.bits_inj'. intros i Hi. rewrite !testbit_set_field by lia.
  destruct (Z.leb_spec (f_off f) i), (Z.ltb_spec i (f_off f + f_width f)),
    (Z.leb_spec (f_off g) i), (Z.ltb_spec i (f_off g + f_width g)); simpl; lia || done.
Qed.

(** ** The layouts are sound *)

(** Every declared bit-field lies inside the 64-bit word, and two bit-fields
    of one struct with different names share no bit. *)
Definition layout_check (s : msr_struct) : bool :=
  forallb (fun '(n, f) => field_ok f &&
    forallb (fun '(m, g) => String.eqb n m || disjoint f g) (layout s)) (layout s).

Lemma layout_check_all s : layout_check s = true.
Proof. by destruct s; vm_compute. Qed.

Lemma assoc_In {A} n (l : list (string * A)) a : assoc n l = Some a -> In (n, a) l.
Proof.
  induction l as [|[m b] l IH]; simpl; [done|].
  destruct (String.eqb_spec n m) as [->|]; [intros [= ->]; by left|]. intros H. right. auto.
Qed.

Lemma field_of_ok s n f : field_of s n = Some f -> field_ok f = true.
Proof.
  intros H%assoc_In. pose proof (layout_check_all s) as Hc. unfold layout_check in Hc.
  rewrite forallb_forall in Hc. specialize (Hc _ H). simpl in Hc.
  by apply andb_true_iff in Hc as [? _].
Qed.

Lemma field_of_disjoint s n m f g :
  field_of s n = Some f -> field_of s m = Some g -> n <> m -> disjoint f g = true.
Proof.
  intros Hf%assoc_In Hg%assoc_In Hnm. pose proof (layout_check_all s) as Hc.
  unfold layout_check in Hc. rewrite forallb_forall in Hc. specialize (Hc _ Hf). simpl in Hc.
  apply andb_true_iff in Hc as [_ Hc]. rewrite forallb_forall in Hc.
  specialize (Hc _ Hg). simpl in Hc. apply orb_true_iff in Hc as [Heq|]; [|done].
  by apply String.eqb_eq in Heq.
Qed.

Lemma msr_u_get_set_same s n f x v :
  field_of s n = Some f -> msr_u_get s n (msr_u_set s n x v) = v mod 2 ^ f_width f.
Proof.
  intros Hf. unfold msr_u_get, msr_u_set. rewrite Hf. by apply get_set_same, (field_of_ok s n).
Qed.

Lemma msr_u_get_set_other s n m x v :
  n <> m -> msr_u_get s m (msr_u_set s n x v) = msr_u_get s m x.
Proof.
  intros Hnm. unfold msr_u_get, msr_u_set.
  destruct (field_of s m) as [g|] eqn:Hg; [|done].
  destruct (field_of s n) as [f|] eqn:Hf; [|done].
  apply get_set_disjoint; eauto using field_of_ok, field_of_disjoint.
Qed.

Lemma msr_u_set_range s n x v : in_u 64 x -> in_u 64 (msr_u_set s n x v).
Proof.
  intros Hx. unfold msr_u_set. destruct (field_of s n) as [f|] eqn:Hf; [|done].
  eauto using set_field_range, field_of_ok.
Qed.

Lemma msr_u_set_twice s n x v w : msr_u_set s n (msr_u_set s n x v) w = msr_u_set s n x w.
Proof.
  unfold msr_u_set. destruct (field_of s n) as [f|] eqn:Hf; [|done].
  eauto using set_field_twice, field_of_ok.
Qed.

Lemma msr_u_set_comm s n m x v w :
  n <> m -> msr_u_set s n (msr_u_set s m x w) v = msr_u_set s m (msr_u_set s n x v) w.
Proof.
  intros Hnm. unfold msr_u_set.
  destruct (field_of s n) as [f|] eqn:Hf; [|done].
  destruct (field_of s m) as [g|] eqn:Hg; [|done].
  apply set_field_comm; eauto using field_of_ok, field_of_disjoint.
Qed.

Create HintDb msr.
#[export] Hint Resolve msr_u_set_range : msr bounds.
