(* ===== verification/Msr.v ===== *)
(** * The user-space MSR table ([msr.c])

    A core's prefetcher settings are a table of [HWPF_MSR_FIELDS] words
    ([union msr_u msr[]]): entries 0..4 hold MSRs 0x1320..0x1324 and entry 5
    holds MSR 0x1A4.  This file models the accessors of single bit-fields and
    the [populate_msr132x] functions that load the defaults of [msr.h]. *)

From S2P Require Import Prelude Bitfields.

Definition HWPF_MSR_FIELDS : Z := 6.

(** [msr[i].s.n] and [msr[i].s.n = v]. *)
Definition union_get (msr : list Z) (i : Z) (s : msr_struct) (n : string) : Z :=
  msr_u_get s n (default 0 (aget msr i)).

Definition union_set (msr : list Z) (i : Z) (s : msr_struct) (n : string) (v : Z) : list Z :=
  aset msr i (msr_u_set s n (default 0 (aget msr i)) v).

(** ** The accessors *)

Definition msr_set_mlc_disable (msr : list Z) (value : Z) : list Z :=
  union_set msr 5 msr1A4 "L2_STREAM_DISABLED" value.

Definition msr_get_mlc_disable (msr : list Z) : Z := union_get msr 5 msr1A4 "L2_STREAM_DISABLED".

Definition msr_set_l1_data_disable (msr : list Z) (value : Z) : list Z :=
  union_set msr 5 msr1A4 "L1_DATA_STREAM_DISABLED" value.

Definition msr_get_l1_data_disable (msr : list Z) : Z := union_get msr 5 msr1A4 "L1_DATA_STREAM_DISABLED".

Definition msr_set_l1_instruction_disable (msr : list Z) (value : Z) : list Z :=
  union_set msr 5 msr1A4 "L1_INSTRUCTION_STREAM_DISABLED" value.

Definition msr_get_l1_instruction_disable (msr : list Z) : Z := union_get msr 5 msr1A4 "L1_INSTRUCTION_STREAM_DISABLED".

Definition msr_set_l1_next_page_disable (msr : list Z) (value : Z) : list Z :=
  union_set msr 5 msr1A4 "L1_NEXT_PAGE_DISABLED" value.

Definition msr_get_l1_next_page_disable (msr : list Z) : Z := union_get msr 5 msr1A4 "L1_NEXT_PAGE_DISABLED".

Definition msr_set_amp_disable (msr : list Z) (value : Z) : list Z :=
  union_set msr 5 msr1A4 "L2_AMP_DISABLED" value.

Definition msr_get_amp_disable (msr : list Z) : Z := union_get msr 5 msr1A4 "L2_AMP_DISABLED".

Definition msr_set_l2xq (msr : list Z) (value : Z) : list Z :=
  union_set msr 0 msr1320 "L2_STREAM_AMP_XQ_THRESHOLD" value.

Definition msr_get_l2xq (msr : list Z) : Z := union_get msr 0 msr1320 "L2_STREAM_AMP_XQ_THRESHOLD".

Definition msr_set_l3xq (msr : list Z) (value : Z) : list Z :=
  union_set msr 0 msr1320 "LLC_STREAM_XQ_THRESHOLD" value.

Definition msr_get_l3xq (msr : list Z) : Z := union_get msr 0 msr1320 "LLC_STREAM_XQ_THRESHOLD".

Definition msr_set_l2maxdist (msr : list Z) (value : Z) : list Z :=
  union_set msr 0 msr1320 "L2_STREAM_MAX_DISTANCE" value.

Definition msr_get_l2maxdist (msr : list Z) : Z := union_get msr 0 msr1320 "L2_STREAM_MAX_DISTANCE".

Definition msr_set_l3maxdist (msr : list Z) (value : Z) : list Z :=
  union_set msr 0 msr1320 "LLC_STREAM_MAX_DISTANCE" value.

Definition msr_get_l3maxdist (msr : list Z) : Z := union_get msr 0 msr1320 "LLC_STREAM_MAX_DISTANCE".

Definition msr_set_l2adr (msr : list Z) (value : Z) : list Z :=
  union_set msr 0 msr1320 "L2_AMP_DISABLE_RECURSION" value.

Definition msr_get_l2adr (msr : list Z) : Z := union_get msr 0 msr1320 "L2_AMP_DISABLE_RECURSION".

Definition msr_set_llcoff (msr : list Z) (value : Z) : list Z :=
  union_set msr 0 msr1320 "LLC_STREAM_DISABLE" value.

Definition msr_get_llcoff (msr : list Z) : Z := union_get msr 0 msr1320 "LLC_STREAM_DISABLE".

Definition msr_set_l2sacil1 (msr : list Z) (value : Z) : list Z :=
  union_set msr 1 msr1321 "L2_STREAM_AMP_CREATE_IL1" value.

Definition msr_get_l2sacil1 (msr : list Z) : Z := union_get msr 1 msr1321 "L2_STREAM_AMP_CREATE_IL1".

Definition msr_set_l2dd (msr : list Z) (value : Z) : list Z :=
  union_set msr 1 msr1321 "L2_STREAM_DEMAND_DENSITY" value.

Definition msr_get_l2dd (msr : list Z) : Z := union_get msr 1 msr1321 "L2_STREAM_DEMAND_DENSITY".

Definition msr_set_l2ddovr (msr : list Z) (value : Z) : list Z :=
  union_set msr 1 msr1321 "L2_STREAM_DEMAND_DENSITY_OVR" value.

Definition msr_get_l2ddovr (msr : list Z) : Z := union_get msr 1 msr1321 "L2_STREAM_DEMAND_DENSITY_OVR".

Definition msr_set_nlpoff (msr : list Z) (value : Z) : list Z :=
  union_set msr 1 msr1321 "L2_DISABLE_NEXT_LINE_PREFETCH" value.

Definition msr_get_nlpoff (msr : list Z) : Z := union_get msr 1 msr1321 "L2_DISABLE_NEXT_LINE_PREFETCH".

Definition msr_set_l2llcxq (msr : list Z) (value : Z) : list Z :=
  union_set msr 1 msr1321 "L2_LLC_STREAM_AMP_XQ_THRESHOLD" value.

Definition msr_get_l2llcxq (msr : list Z) : Z := union_get msr 1 msr1321 "L2_LLC_STREAM_AMP_XQ_THRESHOLD".

Definition msr_set_l3dd (msr : list Z) (value : Z) : list Z :=
  union_set msr 2 msr1322 "LLC_STREAM_DEMAND_DENSITY" value.

Definition msr_get_l3dd (msr : list Z) : Z := union_get msr 2 msr1322 "LLC_STREAM_DEMAND_DENSITY".

Definition msr_set_l3ddovr (msr : list Z) (value : Z) : list Z :=
  union_set msr 2 msr1322 "LLC_STREAM_DEMAND_DENSITY_OVR" value.

Definition msr_get_l3ddovr (msr : list Z) : Z := union_get msr 2 msr1322 "LLC_STREAM_DEMAND_DENSITY_OVR".

Definition msr_set_ampconf0 (msr : list Z) (value : Z) : list Z :=
  union_set msr 2 msr1322 "L2_AMP_CONFIDENCE_DPT0" value.

Definition msr_get_ampconf0 (msr : list Z) : Z := union_get msr 2 msr1322 "L2_AMP_CONFIDENCE_DPT0".

Definition msr_set_ampconf1 (msr : list Z) (value : Z) : list Z :=
  union_set msr 2 msr1322 "L2_AMP_CONFIDENCE_DPT1" value.

Definition msr_get_ampconf1 (msr : list Z) : Z := union_get msr 2 msr1322 "L2_AMP_CONFIDENCE_DPT1".

Definition msr_set_ampconf2 (msr : list Z) (value : Z) : list Z :=
  union_set msr 2 msr1322 "L2_AMP_CONFIDENCE_DPT2" value.

Definition msr_get_ampconf2 (msr : list Z) : Z := union_get msr 2 msr1322 "L2_AMP_CONFIDENCE_DPT2".

Definition msr_set_ampconf3 (msr : list Z) (value : Z) : list Z :=
  union_set msr 2 msr1322 "L2_AMP_CONFIDENCE_DPT3" value.

Definition msr_get_ampconf3 (msr : list Z) : Z := union_get msr 2 msr1322 "L2_AMP_CONFIDENCE_DPT3".

Definition msr_set_l2llcddxq (msr : list Z) (value : Z) : list Z :=
  union_set msr 2 msr1322 "L2_LLC_STREAM_DEMAND_DENSITY_XQ" value.

Definition msr_get_l2llcddxq (msr : list Z) : Z := union_get msr 2 msr1322 "L2_LLC_STREAM_DEMAND_DENSITY_XQ".

Definition msr_set_ampcswpfrfo (msr : list Z) (value : Z) : list Z :=
  union_set msr 3 msr1323 "L2_STREAM_AMP_CREATE_SWPFRFO" value.

Definition msr_get_ampcswpfrfo (msr : list Z) : Z := union_get msr 3 msr1323 "L2_STREAM_AMP_CREATE_SWPFRFO".

Definition msr_set_ampcswpfrd (msr : list Z) (value : Z) : list Z :=
  union_set msr 3 msr1323 "L2_STREAM_AMP_CREATE_SWPFRD" value.

Definition msr_get_ampcswpfrd (msr : list Z) : Z := union_get msr 3 msr1323 "L2_STREAM_AMP_CREATE_SWPFRD".

Definition msr_set_ampchwpfd (msr : list Z) (value : Z) : list Z :=
  union_set msr 3 msr1323 "L2_STREAM_AMP_CREATE_HWPFD" value.

Definition msr_get_ampchwpfd (msr : list Z) : Z := union_get msr 3 msr1323 "L2_STREAM_AMP_CREATE_HWPFD".

Definition msr_set_ampcdrfo (msr : list Z) (value : Z) : list Z :=
  union_set msr 3 msr1323 "L2_STREAM_AMP_CREATE_DRFO" value.

Definition msr_get_ampcdrfo (msr : list Z) : Z := union_get msr 3 msr1323 "L2_STREAM_AMP_CREATE_DRFO".

Definition msr_set_stabswpfrfo (msr : list Z) (value : Z) : list Z :=
  union_set msr 3 msr1323 "STABILIZE_PREF_ON_SWPFRFO" value.

Definition msr_get_stabswpfrfo (msr : list Z) : Z := union_get msr 3 msr1323 "STABILIZE_PREF_ON_SWPFRFO".

Definition msr_set_stabswpfrd (msr : list Z) (value : Z) : list Z :=
  union_set msr 3 msr1323 "STABILIZE_PREF_ON_SWPFRD" value.

Definition msr_get_stabswpfrd (msr : list Z) : Z := union_get msr 3 msr1323 "STABILIZE_PREF_ON_SWPFRD".

Definition msr_set_stabil1 (msr : list Z) (value : Z) : list Z :=
  union_set msr 3 msr1323 "STABILIZE_PREF_ON_IL1" value.

Definition msr_get_stabil1 (msr : list Z) : Z := union_get msr 3 msr1323 "STABILIZE_PREF_ON_IL1".

Definition msr_set_stabhwpfd (msr : list Z) (value : Z) : list Z :=
  union_set msr 3 msr1323 "STABILIZE_PREF_ON_HWPFD" value.

Definition msr_get_stabhwpfd (msr : list Z) : Z := union_get msr 3 msr1323 "STABILIZE_PREF_ON_HWPFD".

Definition msr_set_stabdrfo (msr : list Z) (value : Z) : list Z :=
  union_set msr 3 msr1323 "STABILIZE_PREF_ON_DRFO" value.

Definition msr_get_stabdrfo (msr : list Z) : Z := union_get msr 3 msr1323 "STABILIZE_PREF_ON_DRFO".

Definition msr_set_ampcpfnpp (msr : list Z) (value : Z) : list Z :=
  union_set msr 3 msr1323 "L2_STREAM_AMP_CREATE_PFNPP" value.

Definition msr_get_ampcpfnpp (msr : list Z) : Z := union_get msr 3 msr1323 "L2_STREAM_AMP_CREATE_PFNPP".

Definition msr_set_ampcpfipp (msr : list Z) (value : Z) : list Z :=
  union_set msr 3 msr1323 "L2_STREAM_AMP_CREATE_PFIPP" value.

Definition msr_get_ampcpfipp (msr : list Z) : Z := union_get msr 3 msr1323 "L2_STREAM_AMP_CREATE_PFIPP".

Definition msr_set_stabpfnpp (msr : list Z) (value : Z) : list Z :=
  union_set msr 3 msr1323 "STABILIZE_PREF_ON_PFNPP" value.

Definition msr_get_stabpfnpp (msr : list Z) : Z := union_get msr 3 msr1323 "STABILIZE_PREF_ON_PFNPP".

Definition msr_set_stabpfipp (msr : list Z) (value : Z) : list Z :=
  union_set msr 3 msr1323 "STABILIZE_PREF_ON_PFIPP" value.

Definition msr_get_stabpfipp (msr : list Z) : Z := union_get msr 3 msr1323 "STABILIZE_PREF_ON_PFIPP".

Definition msr_set_l1ht (msr : list Z) (value : Z) : list Z :=
  union_set msr 4 msr1324 "L1_HOMELESS_THRESHOLD" value.

Definition msr_get_l1ht (msr : list Z) : Z := union_get msr 4 msr1324 "L1_HOMELESS_THRESHOLD".

(** ** Default settings of [msr.h] *)

Definition L2_STREAM_AMP_XQ_THRESHOLD_1320 : Z := 4.

Definition L2_STREAM_MAX_DISTANCE_1320 : Z := 16.

Definition L2_AMP_DISABLE_RECURSION_1320 : Z := 1.

Definition LLC_STREAM_MAX_DISTANCE_1320 : Z := 63.

Definition LLC_STREAM_DISABLE_1320 : Z := 0.

Definition LLC_STREAM_XQ_THRESHOLD_1320 : Z := 4.

Definition L2_STREAM_AMP_CREATE_IL1_1321 : Z := 1.

Definition L2_STREAM_DEMAND_DENSITY_1321 : Z := 16.

Definition L2_STREAM_DEMAND_DENSITY_OVR_1321 : Z := 9.

Definition L2_DISABLE_NEXT_LINE_PREFETCH_1321 : Z := 1.

Definition L2_LLC_STREAM_AMP_XQ_THRESHOLD_1321 : Z := 18.

Definition LLC_STREAM_DEMAND_DENSITY_1322 : Z := 320.

Definition LLC_STREAM_DEMAND_DENSITY_OVR_1322 : Z := 9.

Definition L2_AMP_CONFIDENCE_DPT0_1322 : Z := 1.

Definition L2_AMP_CONFIDENCE_DPT1_1322 : Z := 3.

Definition L2_AMP_CONFIDENCE_DPT2_1322 : Z := 5.

Definition L2_AMP_CONFIDENCE_DPT3_1322 : Z := 7.

Definition L2_LLC_STREAM_DEMAND_DENSITY_XQ_1322 : Z := 5.

Definition L2_STREAM_AMP_CREATE_SWPFRFO_1323 : Z := 1.

Definition L2_STREAM_AMP_CREATE_SWPFRD_1323 : Z := 1.

Definition L2_STREAM_AMP_CREATE_HWPFD_1323 : Z := 0.

Definition L2_STREAM_AMP_CREATE_DRFO_1323 : Z := 1.

Definition STABILIZE_PREF_ON_SWPFRFO_1323 : Z := 1.

Definition STABILIZE_PREF_ON_SWPFRD_1323 : Z := 1.

Definition STABILIZE_PREF_ON_IL1_1323 : Z := 0.

Definition STABILIZE_PREF_ON_HWPFD_1323 : Z := 1.

Definition STABILIZE_PREF_ON_DRFO_1323 : Z := 1.

Definition L2_STREAM_AMP_CREATE_PFNPP_1323 : Z := 1.

Definition L2_STREAM_AMP_CREATE_PFIPP_1323 : Z := 1.

Definition STABILIZE_PREF_ON_PFNPP_1323 : Z := 1.

Definition STABILIZE_PREF_ON_PFIPP_1323 : Z := 1.
(** A [populate_msr132x] function assigns its fields in order. *)
Fixpoint populate_word (i : Z) (s : msr_struct) (fs : list (string * Z)) (msr : list Z) : list Z :=
  match fs with
  | [] => msr
  | (n, v) :: fs' => populate_word i s fs' (union_set msr i s n v)
  end.

Definition populate_msr1320_fields : list (string * Z) :=
  [("L2_STREAM_AMP_XQ_THRESHOLD", L2_STREAM_AMP_XQ_THRESHOLD_1320);
   ("L2_STREAM_MAX_DISTANCE", L2_STREAM_MAX_DISTANCE_1320);
   ("L2_AMP_DISABLE_RECURSION", L2_AMP_DISABLE_RECURSION_1320);
   ("LLC_STREAM_MAX_DISTANCE", LLC_STREAM_MAX_DISTANCE_1320);
   ("LLC_STREAM_DISABLE", LLC_STREAM_DISABLE_1320);
   ("LLC_STREAM_XQ_THRESHOLD", LLC_STREAM_XQ_THRESHOLD_1320)]%string.

Definition populate_msr1320 (msr : list Z) : list Z :=
  populate_word 0 msr1320 populate_msr1320_fields msr.

Definition populate_msr1321_fields : list (string * Z) :=
  [("L2_STREAM_AMP_CREATE_IL1", L2_STREAM_AMP_CREATE_IL1_1321);
   ("L2_STREAM_DEMAND_DENSITY", L2_STREAM_DEMAND_DENSITY_1321);
   ("L2_STREAM_DEMAND_DENSITY_OVR", L2_STREAM_DEMAND_DENSITY_OVR_1321);
   ("L2_DISABLE_NEXT_LINE_PREFETCH", L2_DISABLE_NEXT_LINE_PREFETCH_1321);
   ("L2_LLC_STREAM_AMP_XQ_THRESHOLD", L2_LLC_STREAM_AMP_XQ_THRESHOLD_1321)]%string.

Definition populate_msr1321 (msr : list Z) : list Z :=
  populate_word 1 msr1321 populate_msr1321_fields msr.

Definition populate_msr1322_fields : list (string * Z) :=
  [("LLC_STREAM_DEMAND_DENSITY", LLC_STREAM_DEMAND_DENSITY_1322);
   ("LLC_STREAM_DEMAND_DENSITY_OVR", LLC_STREAM_DEMAND_DENSITY_OVR_1322);
   ("L2_AMP_CONFIDENCE_DPT0", L2_AMP_CONFIDENCE_DPT0_1322);
   ("L2_AMP_CONFIDENCE_DPT1", L2_AMP_CONFIDENCE_DPT1_1322);
   ("L2_AMP_CONFIDENCE_DPT2", L2_AMP_CONFIDENCE_DPT2_1322);
   ("L2_AMP_CONFIDENCE_DPT3", L2_AMP_CONFIDENCE_DPT3_1322);
   ("L2_LLC_STREAM_DEMAND_DENSITY_XQ", L2_LLC_STREAM_DEMAND_DENSITY_XQ_1322)]%string.

Definition populate_msr1322 (msr : list Z) : list Z :=
  populate_word 2 msr1322 populate_msr1322_fields msr.

Definition populate_msr1323_fields : list (string * Z) :=
  [("L2_STREAM_AMP_CREATE_SWPFRFO", L2_STREAM_AMP_CREATE_SWPFRFO_1323);
   ("L2_STREAM_AMP_CREATE_SWPFRD", L2_STREAM_AMP_CREATE_SWPFRD_1323);
   ("L2_STREAM_AMP_CREATE_HWPFD", L2_STREAM_AMP_CREATE_HWPFD_1323);
   ("L2_STREAM_AMP_CREATE_DRFO", L2_STREAM_AMP_CREATE_DRFO_1323);
   ("STABILIZE_PREF_ON_SWPFRFO", STABILIZE_PREF_ON_SWPFRFO_1323);
   ("STABILIZE_PREF_ON_SWPFRD", STABILIZE_PREF_ON_SWPFRD_1323);
   ("STABILIZE_PREF_ON_IL1", STABILIZE_PREF_ON_IL1_1323);
   ("STABILIZE_PREF_ON_HWPFD", STABILIZE_PREF_ON_HWPFD_1323);
   ("STABILIZE_PREF_ON_DRFO", STABILIZE_PREF_ON_DRFO_1323);
   ("L2_STREAM_AMP_CREATE_PFNPP", L2_STREAM_AMP_CREATE_PFNPP_1323);
   ("L2_STREAM_AMP_CREATE_PFIPP", L2_STREAM_AMP_CREATE_PFIPP_1323);
   ("STABILIZE_PREF_ON_PFNPP", STABILIZE_PREF_ON_PFNPP_1323);
   ("STABILIZE_PREF_ON_PFIPP", STABILIZE_PREF_ON_PFIPP_1323)]%string.

Definition populate_msr1323 (msr : list Z) : list Z :=
  populate_word 3 msr1323 populate_msr1323_fields msr.

(** The accessors as a table: the pair of functions and the slice they claim. *)
Record accessor := Accessor {
  acc_set : list Z -> Z -> list Z;
  acc_get : list Z -> Z;
  acc_index : Z;
  acc_struct : msr_struct;
  acc_field : string }.

Definition msr_accessors : list accessor := [
  Accessor msr_set_mlc_disable msr_get_mlc_disable 5 msr1A4 "L2_STREAM_DISABLED";
  Accessor msr_set_l1_data_disable msr_get_l1_data_disable 5 msr1A4 "L1_DATA_STREAM_DISABLED";
  Accessor msr_set_l1_instruction_disable msr_get_l1_instruction_disable 5 msr1A4 "L1_INSTRUCTION_STREAM_DISABLED";
  Accessor msr_set_l1_next_page_disable msr_get_l1_next_page_disable 5 msr1A4 "L1_NEXT_PAGE_DISABLED";
  Accessor msr_set_amp_disable msr_get_amp_disable 5 msr1A4 "L2_AMP_DISABLED";
  Accessor msr_set_l2xq msr_get_l2xq 0 msr1320 "L2_STREAM_AMP_XQ_THRESHOLD";
  Accessor msr_set_l3xq msr_get_l3xq 0 msr1320 "LLC_STREAM_XQ_THRESHOLD";
  Accessor msr_set_l2maxdist msr_get_l2maxdist 0 msr1320 "L2_STREAM_MAX_DISTANCE";
  Accessor msr_set_l3maxdist msr_get_l3maxdist 0 msr1320 "LLC_STREAM_MAX_DISTANCE";
  Accessor msr_set_l2adr msr_get_l2adr 0 msr1320 "L2_AMP_DISABLE_RECURSION";
  Accessor msr_set_llcoff msr_get_llcoff 0 msr1320 "LLC_STREAM_DISABLE";
  Accessor msr_set_l2sacil1 msr_get_l2sacil1 1 msr1321 "L2_STREAM_AMP_CREATE_IL1";
  Accessor msr_set_l2dd msr_get_l2dd 1 msr1321 "L2_STREAM_DEMAND_DENSITY";
  Accessor msr_set_l2ddovr msr_get_l2ddovr 1 msr1321 "L2_STREAM_DEMAND_DENSITY_OVR";
  Accessor msr_set_nlpoff msr_get_nlpoff 1 msr1321 "L2_DISABLE_NEXT_LINE_PREFETCH";
  Accessor msr_set_l2llcxq msr_get_l2llcxq 1 msr1321 "L2_LLC_STREAM_AMP_XQ_THRESHOLD";
  Accessor msr_set_l3dd msr_get_l3dd 2 msr1322 "LLC_STREAM_DEMAND_DENSITY";
  Accessor msr_set_l3ddovr msr_get_l3ddovr 2 msr1322 "LLC_STREAM_DEMAND_DENSITY_OVR";
  Accessor msr_set_ampconf0 msr_get_ampconf0 2 msr1322 "L2_AMP_CONFIDENCE_DPT0";
  Accessor msr_set_ampconf1 msr_get_ampconf1 2 msr1322 "L2_AMP_CONFIDENCE_DPT1";
  Accessor msr_set_ampconf2 msr_get_ampconf2 2 msr1322 "L2_AMP_CONFIDENCE_DPT2";
  Accessor msr_set_ampconf3 msr_get_ampconf3 2 msr1322 "L2_AMP_CONFIDENCE_DPT3";
  Accessor msr_set_l2llcddxq msr_get_l2llcddxq 2 msr1322 "L2_LLC_STREAM_DEMAND_DENSITY_XQ";
  Accessor msr_set_ampcswpfrfo msr_get_ampcswpfrfo 3 msr1323 "L2_STREAM_AMP_CREATE_SWPFRFO";
  Accessor msr_set_ampcswpfrd msr_get_ampcswpfrd 3 msr1323 "L2_STREAM_AMP_CREATE_SWPFRD";
  Accessor msr_set_ampchwpfd msr_get_ampchwpfd 3 msr1323 "L2_STREAM_AMP_CREATE_HWPFD";
  Accessor msr_set_ampcdrfo msr_get_ampcdrfo 3 msr1323 "L2_STREAM_AMP_CREATE_DRFO";
  Accessor msr_set_stabswpfrfo msr_get_stabswpfrfo 3 msr1323 "STABILIZE_PREF_ON_SWPFRFO";
  Accessor msr_set_stabswpfrd msr_get_stabswpfrd 3 msr1323 "STABILIZE_PREF_ON_SWPFRD";
  Accessor msr_set_stabil1 msr_get_stabil1 3 msr1323 "STABILIZE_PREF_ON_IL1";
  Accessor msr_set_stabhwpfd msr_get_stabhwpfd 3 msr1323 "STABILIZE_PREF_ON_HWPFD";
  Accessor msr_set_stabdrfo msr_get_stabdrfo 3 msr1323 "STABILIZE_PREF_ON_DRFO";
  Accessor msr_set_ampcpfnpp msr_get_ampcpfnpp 3 msr1323 "L2_STREAM_AMP_CREATE_PFNPP";
  Accessor msr_set_ampcpfipp msr_get_ampcpfipp 3 msr1323 "L2_STREAM_AMP_CREATE_PFIPP";
  Accessor msr_set_stabpfnpp msr_get_stabpfnpp 3 msr1323 "STABILIZE_PREF_ON_PFNPP";
  Accessor msr_set_stabpfipp msr_get_stabpfipp 3 msr1323 "STABILIZE_PREF_ON_PFIPP";
  Accessor msr_set_l1ht msr_get_l1ht 4 msr1324 "L1_HOMELESS_THRESHOLD"]%string.

(** A table: six 64-bit words. *)
Definition msr_table (msr : list Z) : Prop := zlen msr = HWPF_MSR_FIELDS /\ Forall (in_u 64) msr.

(** ** Lemmas *)

Lemma union_get_set_same msr i s n f v :
  0 <= i < zlen msr -> field_of s n = Some f ->
  union_get (union_set msr i s n v) i s n = v mod 2 ^ f_width f.
Proof.
  intros Hi Hf. unfold union_get, union_set. rewrite aget_aset_eq by done. simpl.
  by apply msr_u_get_set_same.
Qed.

Lemma union_get_set_other msr i s n v j m :
  0 <= i < zlen msr -> (i <> j \/ n <> m) ->
  union_get (union_set msr i s n v) j s m = union_get msr j s m.
Proof.
  intros Hi Hne. unfold union_get, union_set. destruct (decide (i = j)) as [<-|Hij].
  - rewrite aget_aset_eq by done. simpl. apply msr_u_get_set_other. naive_solver.
  - by rewrite aget_aset_ne.
Qed.

Lemma union_set_length msr i s n v : zlen (union_set msr i s n v) = zlen msr.
Proof. apply zlen_aset. Qed.

Lemma union_set_other_index msr i j s n v :
  i <> j -> aget (union_set msr i s n v) j = aget msr j.
Proof. intros. by apply aget_aset_ne. Qed.

Lemma union_set_table msr i s n v : msr_table msr -> msr_table (union_set msr i s n v).
Proof.
  intros [Hl Hw]. split; [by rewrite union_set_length|].
  apply Forall_aset; [done|]. apply msr_u_set_range.
  destruct (aget msr i) eqn:Hi; simpl; [by eapply Forall_aget|by vm_compute].
Qed.

Lemma populate_word_length i s fs msr : zlen (populate_word i s fs msr) = zlen msr.
Proof.
  revert msr. induction fs as [|[n v] fs IH]; intros msr; simpl; [done|].
  by rewrite IH, union_set_length.
Qed.

Lemma populate_word_table i s fs msr : msr_table msr -> msr_table (populate_word i s fs msr).
Proof.
  revert msr. induction fs as [|[n v] fs IH]; intros msr; simpl; auto using union_set_table.
Qed.

Lemma populate_word_other_index i j s fs msr :
  i <> j -> aget (populate_word i s fs msr) j = aget msr j.
Proof.
  intros Hij. revert msr. induction fs as [|[n v] fs IH]; intros msr; simpl; [done|].
  by rewrite IH, union_set_other_index.
Qed.

(** A field the list does not mention keeps its value. *)
Lemma populate_word_frame i s fs msr m :
  0 <= i < zlen msr -> ~ In m (map fst fs) ->
  union_get (populate_word i s fs msr) i s m = union_get msr i s m.
Proof.
  revert msr. induction fs as [|[n v] fs IH]; intros msr Hi Hm; simpl in *; [done|].
  rewrite IH, union_get_set_other by (rewrite ?union_set_length; naive_solver). done.
Qed.

Lemma populate_word_get i s fs msr n v f :
  0 <= i < zlen msr -> NoDup (map fst fs) -> In (n, v) fs -> field_of s n = Some f ->
  union_get (populate_word i s fs msr) i s n = v mod 2 ^ f_width f.
Proof.
  revert msr. induction fs as [|[m w] fs IH]; intros msr Hi Hnd Hin Hf; simpl in *; [done|].
  apply NoDup_cons in Hnd as [Hm Hnd]. rewrite list_elem_of_In in Hm.
  destruct Hin as [[= -> ->]|Hin].
  - rewrite populate_word_frame by (rewrite ?union_set_length; done). by apply union_get_set_same.
  - apply IH; [by rewrite union_set_length|done..].
Qed.

(** Assigning the same fields again changes nothing, whatever was assigned to
    them in between. *)
Lemma populate_word_absorb i s fs msr n v :
  0 <= i < zlen msr -> In n (map fst fs) ->
  populate_word i s fs (union_set msr i s n v) = populate_word i s fs msr.
Proof.
  revert msr. induction fs as [|[m w] fs IH]; intros msr Hi Hin; simpl in *; [done|].
  assert (Haset : forall x y, aset (aset msr i x) i y = aset msr i y).
  { intros x y. unfold aset. destruct (0 <=? i); [|done]. apply list_insert_insert_eq. }
  destruct (decide (n = m)) as [->|Hnm].
  - f_equal. unfold union_set at 1. unfold union_set at 1 2.
    rewrite aget_aset_eq by done. simpl. by rewrite Haset, msr_u_set_twice.
  - destruct Hin as [->|Hin]; [done|].
    replace (union_set (union_set msr i s n v) i s m w)
      with (union_set (union_set msr i s m w) i s n v).
    + apply IH; [by rewrite union_set_length|done].
    + unfold union_set. rewrite !aget_aset_eq by done. simpl.
      by rewrite !Haset, msr_u_set_comm.
Qed.

(** Every row of the table names the functions and the slice of one bit-field. *)
Definition accessor_ok (a : accessor) : Prop :=
  acc_set a = (fun msr v => union_set msr (acc_index a) (acc_struct a) (acc_field a) v) /\
  acc_get a = (fun msr => union_get msr (acc_index a) (acc_struct a) (acc_field a)) /\
  0 <= acc_index a < HWPF_MSR_FIELDS /\ is_Some (field_of (acc_struct a) (acc_field a)).

Lemma msr_accessors_ok : Forall accessor_ok msr_accessors.
Proof. repeat constructor; vm_compute; (done || eauto). Qed.

(** Rows with the same table entry describe the same struct. *)
Lemma msr_accessors_struct a b :
  In a msr_accessors -> In b msr_accessors -> acc_index a = acc_index b ->
  acc_struct a = acc_struct b.
Proof.
  intros Ha Hb.
  assert (Hc : Forall (fun a => acc_struct a = match acc_index a with
    | 0 => msr1320 | 1 => msr1321 | 2 => msr1322 | 3 => msr1323 | 4 => msr1324 | _ => msr1A4 end)
    msr_accessors) by (repeat constructor).
  rewrite Forall_forall in Hc. rewrite (Hc a), (Hc b) by by apply list_elem_of_In.
  by intros ->.
Qed.

Lemma accessor_at a : In a msr_accessors -> accessor_ok a.
Proof. intros Ha. pose proof msr_accessors_ok as Hok. rewrite Forall_forall in Hok. by apply Hok, list_elem_of_In. Qed.

Lemma accessor_table a msr v : In a msr_accessors -> msr_table msr -> msr_table (acc_set a msr v).
Proof. intros (-> & _)%accessor_at. apply union_set_table. Qed.

Lemma accessor_frame a b msr v :
  In a msr_accessors -> In b msr_accessors ->
  (acc_index a <> acc_index b \/ acc_field a <> acc_field b) -> msr_table msr ->
  acc_get b (acc_set a msr v) = acc_get b msr.
Proof.
  intros Ha Hb Hne Ht. destruct (accessor_at a Ha) as (-> & _ & Hi & _).
  destruct (accessor_at b Hb) as (_ & -> & _).
  destruct (decide (acc_index a = acc_index b)) as [Hab|Hab].
  - rewrite <- (msr_accessors_struct a b) by done.
    apply union_get_set_other; [destruct Ht as [-> _]; done|naive_solver].
  - unfold union_get. by rewrite union_set_other_index.
Qed.

(** A value that fits its bit-field is read back. *)
Lemma accessor_same a msr v f :
  In a msr_accessors -> msr_table msr -> field_of (acc_struct a) (acc_field a) = Some f ->
  0 <= v < 2 ^ f_width f -> acc_get a (acc_set a msr v) = v.
Proof.
  intros Ha Ht Hf Hv. destruct (accessor_at a Ha) as (-> & -> & Hi & _).
  rewrite (union_get_set_same _ _ _ _ f) by (done || destruct Ht as [-> _]; done).
  by apply Z.mod_small.
Qed.

(** ** Properties *)

(** C34: each of the 37 setters of [msr.c] stores its argument where the getter
    of the same name reads it, truncated to the width of the bit-field. *)
Theorem msr_set_then_get (a : accessor) (msr : list Z) (v : Z) :
  In a msr_accessors -> zlen msr = HWPF_MSR_FIELDS ->
  exists f, field_of (acc_struct a) (acc_field a) = Some f /\
    acc_get a (acc_set a msr v) = v mod 2 ^ f_width f.
Proof.
  intros Ha Hl. destruct (accessor_at a Ha) as (-> & -> & Hi & [f Hf]).
  exists f. split; [done|]. apply union_get_set_same; [lia|done].
Qed.

Lemma msr_set_then_get_witness :
  In (Accessor msr_set_l2dd msr_get_l2dd 1 msr1321 "L2_STREAM_DEMAND_DENSITY") msr_accessors /\
  (exists f, field_of msr1321 "L2_STREAM_DEMAND_DENSITY" = Some f /\
    msr_get_l2dd (msr_set_l2dd [0; 0; 0; 0; 0; 0] 300) = 300 mod 2 ^ f_width f).
Proof.
  assert (Hin : In (Accessor msr_set_l2dd msr_get_l2dd 1 msr1321 "L2_STREAM_DEMAND_DENSITY")
    msr_accessors) by (unfold msr_accessors; do 12 right; left; reflexivity).
  split; [exact Hin|].
  exact (msr_set_then_get _ [0; 0; 0; 0; 0; 0] 300 Hin eq_refl).
Defined.

(** A setter changes no other setting: the getter of any other row of the
    accessor table, in the same MSR or another, returns what it did before,
    and the table keeps six 64-bit words. *)
Theorem msr_set_frame (a b : accessor) (msr : list Z) (v : Z) :
  In a msr_accessors -> In b msr_accessors ->
  (acc_index a <> acc_index b \/ acc_field a <> acc_field b) -> msr_table msr ->
  acc_get b (acc_set a msr v) = acc_get b msr /\ msr_table (acc_set a msr v).
Proof. auto using accessor_frame, accessor_table. Qed.

Lemma msr_set_frame_witness :
  msr_get_l3xq (msr_set_l2xq [2 ^ 64 - 1; 0; 0; 0; 0; 0] 7) =
    msr_get_l3xq [2 ^ 64 - 1; 0; 0; 0; 0; 0] /\
  msr_table (msr_set_l2xq [2 ^ 64 - 1; 0; 0; 0; 0; 0] 7).
Proof.
  apply (msr_set_frame (Accessor msr_set_l2xq msr_get_l2xq 0 msr1320 "L2_STREAM_AMP_XQ_THRESHOLD")
    (Accessor msr_set_l3xq msr_get_l3xq 0 msr1320 "LLC_STREAM_XQ_THRESHOLD")).
  - unfold msr_accessors. do 5 right. left. reflexivity.
  - unfold msr_accessors. do 6 right. left. reflexivity.
  - right. discriminate.
  - split; [reflexivity|]. repeat constructor; vm_compute; intuition discriminate.
Defined.
