(* ===== verification/KState.v ===== *)
(** * State of the kernel module

    The C globals of [kernelmod/*.c] as one record, the structs of
    [kernel_common.h], [kernel_mab.h] and [pmu_ddr.h], and the services of
    Linux and of the machine that the module calls.  The services are not part
    of the repository: [Linux] lists the ones whose answer is fixed (which CPUs
    are online, where [smp_call_function_many] runs its function), [hw] holds
    what the machine answers during a run (MSRs, performance counters, memory
    mapped counters, clock, allocator). *)

From S2P Require Import Prelude Bitfields.

(** ** Constants of [kernel_common.h], [kernel_mab.h], [kernel_primitive.h], [pmu_ddr.h] *)

Definition MAX_NUM_CORES : Z := 512.

Definition PMU_COUNTERS : Z := 8.

Definition NR_OF_MSR : Z := 7.

Definition DPF_API_VERSION : Z := 1.

Definition MAX_MSG_SIZE : Z := 1024.

Definition MIN_AGGR : Z := 0.

Definition MAX_AGGR : Z := 100.

Definition MSR_1320_INDEX : Z := 0.

Definition MSR_1321_INDEX : Z := 1.

Definition MSR_1322_INDEX : Z := 2.

Definition MSR_1323_INDEX : Z := 3.

Definition MSR_1324_INDEX : Z := 4.

Definition MSR_1327_INDEX : Z := 5.

Definition MSR_1A4_INDEX : Z := 6.

(** [enum pmu_metrics]. *)
Definition PERF_MEM_UOPS_RETIRED_ALL_LOADS : Z := 0.

Definition PERF_MEM_LOAD_UOPS_RETIRED_L2_HIT : Z := 1.

Definition PERF_MEM_LOAD_UOPS_RETIRED_L3_HIT : Z := 2.

Definition PERF_MEM_LOAD_UOPS_RETIRED_DRAM_HIT : Z := 3.

Definition PERF_XQ_PROMOTION_ALL : Z := 4.

Definition PERF_CPU_CLK_UNHALTED_THREAD : Z := 5.

Definition PERF_INST_RETIRED_ANY_P : Z := 6.

Definition PERF_MEM_LOAD_UOPS_RETIRED_L2_MISS : Z := 7.

Definition CORES_PER_COMPUTE_MODULE : Z := 4.

Definition IDLE_CYCLES_THRESHOLD : Z := 500000.

Definition MAX_ARMS : Z := 10.

Definition AVAILABLE_ARMS : Z := 2.

Definition IDLE_THRESHOLD : Z := 5.

Definition MAX_MODULES : Z := 128.

Definition MAB_INIT_NOT_STARTED : Z := -1.

Definition MAB_INIT_IN_PROGRESS : Z := 0.

Definition MAB_INIT_DONE : Z := 1.

Definition DDR_NONE : Z := -1.

Definition DDR_CLIENT : Z := 1.

Definition DDR_GRR_SRF : Z := 2.

Definition DDR_PMU_RD : Z := 1.

Definition DDR_PMU_WR : Z := 2.

Definition MAX_NUM_DDR_CONTROLLERS : Z := 16.

(** ** Structs *)

(** [struct core_state_s]; [pf_msr] holds the words of the seven MSRs. *)
Record core_state_s := {
  pmu_raw : list Z;
  pmu_old : list Z;
  pf_msr : list Z;
  pf_msr_dirty : Z;
  core_disabled : Z }.

#[export] Instance core_state_settable : Settable core_state_s := fun r =>
  {| pmu_raw := pmu_raw r; pmu_old := pmu_old r; pf_msr := pf_msr r;
     pf_msr_dirty := pf_msr_dirty r; core_disabled := core_disabled r |}.

(** [struct mab_arm]. *)
Record mab_arm := { score : Z; last_score : Z }.

#[export] Instance mab_arm_settable : Settable mab_arm := fun r =>
  {| score := score r; last_score := last_score r |}.

(** [struct mab_core]. *)
Record mab_core := {
  mc_arms : list mab_arm;
  mc_active_arm : Z;
  mc_initialized : Z;
  mc_idle_counter : Z;
  mc_time_old : Z }.

#[export] Instance mab_core_settable : Settable mab_core := fun r =>
  {| mc_arms := mc_arms r; mc_active_arm := mc_active_arm r;
     mc_initialized := mc_initialized r; mc_idle_counter := mc_idle_counter r;
     mc_time_old := mc_time_old r |}.

(** [struct mab_module]. *)
Record mab_module := { mm_active_arm : Z; mm_initialized : Z; mm_idle_counter : Z }.

#[export] Instance mab_module_settable : Settable mab_module := fun r =>
  {| mm_active_arm := mm_active_arm r; mm_initialized := mm_initialized r;
     mm_idle_counter := mm_idle_counter r |}.

(** [struct ddr_s] ([ddr_num_controllers] is its member [num_ddr_controllers]); an [mmap] entry is an address, 0 for NULL. *)
Record ddr_s := {
  rd_last_update : list Z;
  wr_last_update : list Z;
  mmap : list Z;
  mem_file : Z;
  bar_address : Z;
  ddr_interface_type : Z;
  ddr_num_controllers : Z }.

#[export] Instance ddr_settable : Settable ddr_s := fun r =>
  {| rd_last_update := rd_last_update r; wr_last_update := wr_last_update r; mmap := mmap r;
     mem_file := mem_file r; bar_address := bar_address r;
     ddr_interface_type := ddr_interface_type r; ddr_num_controllers := ddr_num_controllers r |}.

(** ** The machine *)

Record hw := {
  hw_msr : gmap (Z * Z) Z;      (** MSR words, by CPU and address *)
  hw_pmc : Z -> Z -> Z;         (** [rdpmc], by CPU and counter *)
  hw_mmio : Z -> Z;             (** [readq], by address *)
  hw_ioremap : Z -> Z -> Z;     (** the mapping of a physical range, 0 if it fails *)
  hw_clock : list Z;            (** the next answers of [ktime_get_ns] *)
  hw_alloc : list bool;         (** whether the next [kmalloc]s succeed *)
  hw_copy : list bool;          (** whether the next user copies succeed *)
  hw_junk : nat -> Z            (** what fresh [kmalloc] memory holds *) }.

#[export] Instance hw_settable : Settable hw := fun r =>
  {| hw_msr := hw_msr r; hw_pmc := hw_pmc r; hw_mmio := hw_mmio r; hw_ioremap := hw_ioremap r;
     hw_clock := hw_clock r; hw_alloc := hw_alloc r; hw_copy := hw_copy r; hw_junk := hw_junk r |}.

Class Linux := {
  cpu_online : Z -> bool;
  online_cpus : list Z;
  (** the CPUs on which [smp_call_function_many(mask, f)], called on the given
      CPU, runs [f], in order *)
  smp_call_cpus : Z -> list Z -> list Z }.

(** What the module relies on: [for_each_online_cpu] visits exactly the online
    CPUs, and [smp_call_function_many] runs its function on the online members
    of the mask other than the calling CPU. *)
Class LinuxOk (L : Linux) : Prop := {
  online_cpus_spec c : c ∈ online_cpus <-> cpu_online c = true;
  smp_call_cpus_spec self mask c :
    c ∈ smp_call_cpus self mask <-> c ∈ mask /\ c <> self /\ cpu_online c = true }.

(** ** Module state *)

(** Static data of [kernel_primitive.c]. *)
Record prim_state := {
  l2_hitr : list Z; l3_hitr : list Z; good_pf : list Z; core_contr_to_ddr : list Z;
  pmu_delta : list (list Z); first_core_idx : Z; last_core_idx : Z;
  core_benefits : list Z; module_mode : list Z;
  prim_time_old : Z; ddr_bw_target_ppms : Z }.

#[export] Instance prim_settable : Settable prim_state := fun r =>
  {| l2_hitr := l2_hitr r; l3_hitr := l3_hitr r; good_pf := good_pf r;
     core_contr_to_ddr := core_contr_to_ddr r; pmu_delta := pmu_delta r;
     first_core_idx := first_core_idx r; last_core_idx := last_core_idx r;
     core_benefits := core_benefits r; module_mode := module_mode r;
     prim_time_old := prim_time_old r; ddr_bw_target_ppms := ddr_bw_target_ppms r |}.

Record kstate := {
  (* kernel_common.c *)
  sys_first_core : Z; sys_active_cores : Z;
  corestate : list core_state_s; ddr_bw_target : Z;
  (* kernel_dpf.c *)
  keep_running : bool; monitor_timer : bool (** whether the timer is queued *);
  monitor_work : bool (** whether the work item is queued *);
  proc_entry : bool (** whether /proc/dynamicPrefetch exists *);
  kt_period : Z; proc_buffer : option (list Z); proc_buffer_size : Z;
  ddr_bar_address : Z; enabled_cpus : list Z; tune_alg : Z; aggr : Z;
  (* kernel_api.c *)
  pmu_log_buffer : option (list Z); pmu_log_buffer_size : Z;
  pmu_log_data_size : Z; pmu_logging_active : bool;
  (* kernel_pmu_ddr.c *)
  ddr_cpu_type : Z; num_ddr_controllers : Z; ddr : ddr_s;
  (* kernel_mab.c *)
  mab_cores : list mab_core; mab_modules : list mab_module; mab_arm_configs : list (list Z);
  (* kernel_primitive.c *)
  prim : prim_state;
  (* the machine, and the mappings [ioremap] has handed out *)
  machine : hw; iomaps : list Z }.

#[export] Instance kstate_settable : Settable kstate := fun r =>
  {| sys_first_core := sys_first_core r; sys_active_cores := sys_active_cores r;
     corestate := corestate r; ddr_bw_target := ddr_bw_target r;
     keep_running := keep_running r; monitor_timer := monitor_timer r;
     monitor_work := monitor_work r; proc_entry := proc_entry r;
     kt_period := kt_period r; proc_buffer := proc_buffer r;
     proc_buffer_size := proc_buffer_size r; ddr_bar_address := ddr_bar_address r;
     enabled_cpus := enabled_cpus r; tune_alg := tune_alg r; aggr := aggr r;
     pmu_log_buffer := pmu_log_buffer r; pmu_log_buffer_size := pmu_log_buffer_size r;
     pmu_log_data_size := pmu_log_data_size r; pmu_logging_active := pmu_logging_active r;
     ddr_cpu_type := ddr_cpu_type r; num_ddr_controllers := num_ddr_controllers r; ddr := ddr r;
     mab_cores := mab_cores r; mab_modules := mab_modules r;
     mab_arm_configs := mab_arm_configs r; prim := prim r;
     machine := machine r; iomaps := iomaps r |}.

(** ** The state the module is loaded with (C static initialisation) *)

Definition core_zero : core_state_s :=
  {| pmu_raw := replicate 8 0; pmu_old := replicate 8 0; pf_msr := replicate 7 0;
     pf_msr_dirty := 0; core_disabled := 0 |}.

Definition mab_core_zero : mab_core :=
  {| mc_arms := replicate 10 {| score := 0; last_score := 0 |}; mc_active_arm := 0;
     mc_initialized := 0; mc_idle_counter := 0; mc_time_old := 0 |}.

Definition mab_module_zero : mab_module :=
  {| mm_active_arm := 0; mm_initialized := 0; mm_idle_counter := 0 |}.

Definition ddr_zero : ddr_s :=
  {| rd_last_update := replicate 16 0; wr_last_update := replicate 16 0;
     mmap := replicate 16 0; mem_file := 0; bar_address := 0; ddr_interface_type := 0;
     ddr_num_controllers := 0 |}.

Definition prim_zero : prim_state :=
  {| l2_hitr := replicate 512 0; l3_hitr := replicate 512 0; good_pf := replicate 512 0;
     core_contr_to_ddr := replicate 512 0; pmu_delta := replicate 512 (replicate 8 0);
     first_core_idx := 0; last_core_idx := 0; core_benefits := replicate 512 0;
     module_mode := replicate 128 0; prim_time_old := 0; ddr_bw_target_ppms := 0 |}.

Definition kstate0 (h : hw) : kstate :=
  {| sys_first_core := 0; sys_active_cores := 0; corestate := replicate 512 core_zero;
     ddr_bw_target := 0; keep_running := false; monitor_timer := false; monitor_work := false;
     proc_entry := false; kt_period := 0;
     proc_buffer := None; proc_buffer_size := 0; ddr_bar_address := 0; enabled_cpus := [];
     tune_alg := 0; aggr := 0; pmu_log_buffer := None; pmu_log_buffer_size := 0;
     pmu_log_data_size := 0; pmu_logging_active := false; ddr_cpu_type := u32 DDR_NONE;
     num_ddr_controllers := 0; ddr := ddr_zero; mab_cores := replicate 512 mab_core_zero;
     mab_modules := replicate 128 mab_module_zero;
     mab_arm_configs := replicate 10 (replicate 7 0);
     prim := prim_zero; machine := h; iomaps := [] |}.

(** A machine on which every service succeeds, for the examples. *)
Definition hw0 : hw :=
  {| hw_msr := ∅; hw_pmc := fun _ _ => 0; hw_mmio := fun _ => 0;
     hw_ioremap := fun phys _ => phys; hw_clock := []; hw_alloc := []; hw_copy := [];
     hw_junk := fun _ => 0 |}.

(** Code of the module. *)
Abbreviation K := (ST kstate).

(** The state after a run. *)
Definition after {A} (m : K A) (s : kstate) : kstate :=
  match m s with Ok (_, s') => s' | Stop _ => s end.

Lemma after_eq {A} (m : K A) s a s' : m s = Ok (a, s') -> s' = after m s.
Proof. unfold after. by intros ->. Qed.

(** ** Services *)

Definition modify_hw (f : hw -> hw) : K unit := modify (fun s => s <| machine ::= f |>).

(** [kmalloc(size, GFP_KERNEL)]: whether memory was available. *)
Definition kmalloc : K bool := fun s =>
  match hw_alloc (machine s) with
  | [] => Ok (true, s)
  | b :: rest => Ok (b, s <| machine ::= fun h => h <| hw_alloc := rest |> |>)
  end.

(** [copy_from_user]/[copy_to_user]: whether the copy was complete. *)
Definition user_copy : K bool := fun s =>
  match hw_copy (machine s) with
  | [] => Ok (true, s)
  | b :: rest => Ok (b, s <| machine ::= fun h => h <| hw_copy := rest |> |>)
  end.

(** [ktime_get_ns()]. *)
Definition ktime_get_ns : K Z := fun s =>
  match hw_clock (machine s) with
  | [] => Ok (0, s)
  | t :: rest => Ok (u64 t, s <| machine ::= fun h => h <| hw_clock := rest |> |>)
  end.

(** [__rdmsr(addr)] and [__wrmsr(addr, low, high)] on CPU [cpu]. *)
Definition rdmsr (cpu addr : Z) : K Z :=
  gets (fun s => u64 (default 0 (hw_msr (machine s) !! (cpu, addr)))).

Definition wrmsr (cpu addr low high : Z) : K unit :=
  modify_hw (fun h => h <| hw_msr ::= <[(cpu, addr) := u32 low + 2 ^ 32 * u32 high]> |>).

(** [native_read_pmc(n)] on CPU [cpu]. *)
Definition native_read_pmc (cpu n : Z) : K Z := gets (fun s => u64 (hw_pmc (machine s) cpu n)).

Definition readq (addr : Z) : K Z := gets (fun s => u64 (hw_mmio (machine s) addr)).

(** [ioremap] and [iounmap]: [iomaps] is the list of live mappings. *)
Definition ioremap (phys size : Z) : K Z := fun s =>
  let a := hw_ioremap (machine s) phys size in
  Ok (a, if a =? 0 then s else s <| iomaps ::= cons a |>).

Fixpoint remove_one (a : Z) (l : list Z) : list Z :=
  match l with
  | [] => []
  | b :: l' => if a =? b then l' else b :: remove_one a l'
  end.

Definition iounmap (a : Z) : K unit := modify (fun s => s <| iomaps ::= remove_one a |>).

(** [schedule_work], [cancel_work_sync]; [proc_create] fails when the kernel has
    no memory for the entry. *)
Definition schedule_work : K unit := modify (fun s => s <| monitor_work := true |>).

Definition cancel_work_sync : K unit := modify (fun s => s <| monitor_work := false |>).

Definition proc_create : K bool :=
  ok ← kmalloc;
  modify (fun s => s <| proc_entry := ok |>) ;;
  mret ok.

(** [hrtimer_start] and [hrtimer_cancel] on [monitor_timer]. *)
Definition hrtimer_start : K unit := modify (fun s => s <| monitor_timer := true |>).

Definition hrtimer_cancel : K unit := modify (fun s => s <| monitor_timer := false |>).

(** ** Access to the global arrays *)

Definition core_at (i : Z) : K core_state_s := fun s => read (corestate s) i s.

Definition put_core (i : Z) (c : core_state_s) : K unit := fun s =>
  if in_range (corestate s) i then Ok (tt, s <| corestate := aset (corestate s) i c |>)
  else Stop OutOfBounds.

Definition mab_core_at (i : Z) : K mab_core := fun s => read (mab_cores s) i s.

Definition put_mab_core (i : Z) (c : mab_core) : K unit := fun s =>
  if in_range (mab_cores s) i then Ok (tt, s <| mab_cores := aset (mab_cores s) i c |>)
  else Stop OutOfBounds.

Definition mab_module_at (i : Z) : K mab_module := fun s => read (mab_modules s) i s.

Definition put_mab_module (i : Z) (m : mab_module) : K unit := fun s =>
  if in_range (mab_modules s) i then Ok (tt, s <| mab_modules := aset (mab_modules s) i m |>)
  else Stop OutOfBounds.

(** ** Well-formed states

    Every array has its declared length and every integer is a value of its
    declared type. *)

Record core_wf (c : core_state_s) : Prop := {
  cwf_raw : zlen (pmu_raw c) = PMU_COUNTERS;
  cwf_raw_u64 : Forall (in_u 64) (pmu_raw c);
  cwf_old : zlen (pmu_old c) = PMU_COUNTERS;
  cwf_old_u64 : Forall (in_u 64) (pmu_old c);
  cwf_msr : zlen (pf_msr c) = NR_OF_MSR;
  cwf_msr_u64 : Forall (in_u 64) (pf_msr c);
  cwf_dirty : in_s32 (pf_msr_dirty c);
  cwf_disabled : core_disabled c = 0 \/ core_disabled c = 1 }.

Definition arm_wf (a : mab_arm) : Prop := in_u 32 (score a) /\ in_u 32 (last_score a).

Record mab_core_wf (c : mab_core) : Prop := {
  mcwf_arms : zlen (mc_arms c) = MAX_ARMS;
  mcwf_arms_u32 : Forall arm_wf (mc_arms c);
  mcwf_active : 0 <= mc_active_arm c < AVAILABLE_ARMS;
  mcwf_time : in_u 64 (mc_time_old c) }.

(** The states of the module's arm scan. *)
Record mab_module_wf (m : mab_module) : Prop := {
  mmwf_active : 0 <= mm_active_arm m < AVAILABLE_ARMS;
  mmwf_init : mm_initialized m = MAB_INIT_NOT_STARTED \/
    mm_initialized m = MAB_INIT_IN_PROGRESS \/ mm_initialized m = MAB_INIT_DONE }.

Record ddr_wf (d : ddr_s) : Prop := {
  dwf_rd : zlen (rd_last_update d) = MAX_NUM_DDR_CONTROLLERS;
  dwf_rd_u64 : Forall (in_u 64) (rd_last_update d);
  dwf_wr : zlen (wr_last_update d) = MAX_NUM_DDR_CONTROLLERS;
  dwf_wr_u64 : Forall (in_u 64) (wr_last_update d);
  dwf_mmap : zlen (mmap d) = MAX_NUM_DDR_CONTROLLERS }.

Record prim_wf (p : prim_state) : Prop := {
  pwf_l2 : zlen (l2_hitr p) = MAX_NUM_CORES;
  pwf_l3 : zlen (l3_hitr p) = MAX_NUM_CORES;
  pwf_good : zlen (good_pf p) = MAX_NUM_CORES;
  pwf_contr : zlen (core_contr_to_ddr p) = MAX_NUM_CORES;
  pwf_delta : zlen (pmu_delta p) = MAX_NUM_CORES;
  pwf_delta_row : Forall (fun r => zlen r = PMU_COUNTERS /\ Forall (in_u 64) r) (pmu_delta p);
  pwf_benefits : zlen (core_benefits p) = MAX_NUM_CORES;
  pwf_mode : zlen (module_mode p) = MAX_MODULES }.

(** The log holds at most [pmu_log_buffer_size] bytes; the response buffer holds
    the [proc_buffer_size] bytes of the response. *)
Record log_wf (s : kstate) : Prop := {
  lwf_size : forall b, pmu_log_buffer s = Some b -> zlen b = pmu_log_buffer_size s;
  lwf_bound : forall b, pmu_log_buffer s = Some b -> pmu_log_buffer_size s < 2 ^ 32;
  lwf_data : forall b, pmu_log_buffer s = Some b ->
    0 <= pmu_log_data_size s <= pmu_log_buffer_size s;
  lwf_bytes : forall b, pmu_log_buffer s = Some b -> Forall (in_u 8) b }.

Definition proc_wf (s : kstate) : Prop :=
  forall b, proc_buffer s = Some b -> 0 <= proc_buffer_size s <= zlen b /\ Forall (in_u 8) b.

Record kwf (s : kstate) : Prop := {
  kwf_cores : zlen (corestate s) = MAX_NUM_CORES;
  kwf_core : Forall core_wf (corestate s);
  kwf_mab_cores : zlen (mab_cores s) = MAX_NUM_CORES;
  kwf_mab_core : Forall mab_core_wf (mab_cores s);
  kwf_mab_modules : zlen (mab_modules s) = MAX_MODULES;
  kwf_mab_module : Forall mab_module_wf (mab_modules s);
  kwf_arm_configs : zlen (mab_arm_configs s) = MAX_ARMS;
  kwf_arm_config : Forall (fun w => zlen w = NR_OF_MSR /\ Forall (in_u 64) w) (mab_arm_configs s);
  kwf_ddr : ddr_wf (ddr s);
  kwf_controllers : 0 <= num_ddr_controllers s <= MAX_NUM_DDR_CONTROLLERS;
  kwf_prim : prim_wf (prim s);
  kwf_log : log_wf s;
  kwf_proc : proc_wf s }.

Lemma core_zero_wf : core_wf core_zero.
Proof. constructor; try done; try by apply Forall_replicate. by left. Qed.

Lemma mab_core_zero_wf : mab_core_wf mab_core_zero.
Proof. constructor; try done. by apply Forall_replicate. Qed.

Lemma ddr_zero_wf : ddr_wf ddr_zero.
Proof. constructor; try done; by apply Forall_replicate. Qed.

Lemma prim_zero_wf : prim_wf prim_zero.
Proof. constructor; try done. apply Forall_replicate. split; [done|]. by apply Forall_replicate. Qed.

Lemma kstate0_wf h : kwf (kstate0 h).
Proof.
  constructor; try done; try apply Forall_replicate; auto using core_zero_wf, mab_core_zero_wf,
    ddr_zero_wf, prim_zero_wf.
  - constructor; cbn; [done|]. right. by left.
  - split; [done|]. by apply Forall_replicate.
Qed.

(** A decision procedure for well-formedness, to check concrete states. *)

#[export] Instance in_u_dec w x : Decision (in_u w x).
Proof. unfold in_u. apply _. Defined.

#[export] Instance in_s32_dec x : Decision (in_s32 x).
Proof. unfold in_s32. apply _. Defined.

Definition wordsb (n : Z) (l : list Z) : bool := bool_decide (zlen l = n /\ Forall (in_u 64) l).

Definition core_wfb (c : core_state_s) : bool :=
  wordsb PMU_COUNTERS (pmu_raw c) && wordsb PMU_COUNTERS (pmu_old c) &&
  wordsb NR_OF_MSR (pf_msr c) &&
  bool_decide (in_s32 (pf_msr_dirty c) /\ (core_disabled c = 0 \/ core_disabled c = 1)).

Definition mab_core_wfb (c : mab_core) : bool :=
  bool_decide (zlen (mc_arms c) = MAX_ARMS /\ 0 <= mc_active_arm c < AVAILABLE_ARMS /\
    in_u 64 (mc_time_old c)) &&
  forallb (fun a => bool_decide (in_u 32 (score a) /\ in_u 32 (last_score a))) (mc_arms c).

Definition mab_module_wfb (m : mab_module) : bool :=
  bool_decide (0 <= mm_active_arm m < AVAILABLE_ARMS /\
    (mm_initialized m = MAB_INIT_NOT_STARTED \/ mm_initialized m = MAB_INIT_IN_PROGRESS \/
     mm_initialized m = MAB_INIT_DONE)).

Definition ddr_wfb (d : ddr_s) : bool :=
  wordsb MAX_NUM_DDR_CONTROLLERS (rd_last_update d) &&
  wordsb MAX_NUM_DDR_CONTROLLERS (wr_last_update d) &&
  bool_decide (zlen (mmap d) = MAX_NUM_DDR_CONTROLLERS).

Definition prim_wfb (p : prim_state) : bool :=
  bool_decide (zlen (l2_hitr p) = MAX_NUM_CORES /\ zlen (l3_hitr p) = MAX_NUM_CORES /\
    zlen (good_pf p) = MAX_NUM_CORES /\ zlen (core_contr_to_ddr p) = MAX_NUM_CORES /\
    zlen (pmu_delta p) = MAX_NUM_CORES /\ zlen (core_benefits p) = MAX_NUM_CORES /\
    zlen (module_mode p) = MAX_MODULES) &&
  forallb (wordsb PMU_COUNTERS) (pmu_delta p).

Definition kwfb (s : kstate) : bool :=
  bool_decide (zlen (corestate s) = MAX_NUM_CORES /\ zlen (mab_cores s) = MAX_NUM_CORES /\
    zlen (mab_modules s) = MAX_MODULES /\ zlen (mab_arm_configs s) = MAX_ARMS /\
    0 <= num_ddr_controllers s <= MAX_NUM_DDR_CONTROLLERS) &&
  forallb core_wfb (corestate s) && forallb mab_core_wfb (mab_cores s) &&
  forallb mab_module_wfb (mab_modules s) && forallb (wordsb NR_OF_MSR) (mab_arm_configs s) &&
  ddr_wfb (ddr s) && prim_wfb (prim s) &&
  match pmu_log_buffer s with
  | Some b => bool_decide (zlen b = pmu_log_buffer_size s /\ pmu_log_buffer_size s < 2 ^ 32 /\
      0 <= pmu_log_data_size s <= pmu_log_buffer_size s /\ Forall (in_u 8) b)
  | None => true
  end &&
  match proc_buffer s with
  | Some b => bool_decide (0 <= proc_buffer_size s <= zlen b /\ Forall (in_u 8) b)
  | None => true
  end.

Lemma forallb_Forall {A} (f : A -> bool) (P : A -> Prop) l :
  (forall x, f x = true -> P x) -> forallb f l = true -> Forall P l.
Proof.
  intros Hf Hl. apply Forall_forall. intros x Hx. apply Hf.
  rewrite forallb_forall in Hl. apply Hl. by apply list_elem_of_In.
Qed.

Lemma wordsb_ok n l : wordsb n l = true -> zlen l = n /\ Forall (in_u 64) l.
Proof. apply bool_decide_eq_true_1. Qed.

(** Splits a boolean conjunction and decodes its parts. *)
Ltac decode_bools :=
  repeat match goal with
  | H : _ && _ = true |- _ => apply andb_true_iff in H as [? ?]
  | H : bool_decide _ = true |- _ => apply bool_decide_eq_true_1 in H
  | H : wordsb _ _ = true |- _ => apply wordsb_ok in H
  | H : _ /\ _ |- _ => destruct H
  end.

Lemma kwfb_ok s : kwfb s = true -> kwf s.
Proof.
  intros H. unfold kwfb in H. decode_bools. constructor; try done.
  - eapply forallb_Forall; [|done]. intros c Hc. unfold core_wfb in Hc. decode_bools. by constructor.
  - eapply forallb_Forall; [|done]. intros c Hc. unfold mab_core_wfb in Hc. decode_bools.
    constructor; try done. eapply forallb_Forall; [|done]. intros a Ha. cbv beta in Ha. decode_bools. by split.
  - eapply forallb_Forall; [|done]. intros c Hc. unfold mab_module_wfb in Hc. decode_bools.
    by constructor.
  - eapply forallb_Forall; [|done]. apply wordsb_ok.
  - unfold ddr_wfb in *. decode_bools. by constructor.
  - unfold prim_wfb in *. decode_bools. constructor; try done.
    eapply forallb_Forall; [|done]. apply wordsb_ok.
  - constructor; intros b Hb; rewrite Hb in *; by decode_bools.
  - intros b Hb. rewrite Hb in *. by decode_bools.
Qed.

(** Proves [kwf] of a closed state by evaluation. *)
Ltac kwf_compute := apply kwfb_ok; vm_compute; reflexivity.

(** ** Invariance of the primitive steps *)

Lemma wp_core_at i s (Q : core_state_s -> kstate -> Prop) E :
  (forall c, aget (corestate s) i = Some c -> Q c s) ->
  (aget (corestate s) i = None -> E OutOfBounds) ->
  wp (core_at i) s Q E.
Proof. unfold wp, core_at, read. destruct (aget (corestate s) i); auto. Qed.

Lemma wp_put_core i c s (Q : unit -> kstate -> Prop) E :
  (in_range (corestate s) i = true -> Q tt (s <| corestate := aset (corestate s) i c |>)) ->
  (in_range (corestate s) i = false -> E OutOfBounds) ->
  wp (put_core i c) s Q E.
Proof. unfold wp, put_core. destruct (in_range (corestate s) i); auto. Qed.

Lemma wp_mab_core_at i s (Q : mab_core -> kstate -> Prop) E :
  (forall c, aget (mab_cores s) i = Some c -> Q c s) ->
  (aget (mab_cores s) i = None -> E OutOfBounds) ->
  wp (mab_core_at i) s Q E.
Proof. unfold wp, mab_core_at, read. destruct (aget (mab_cores s) i); auto. Qed.

Lemma wp_put_mab_core i c s (Q : unit -> kstate -> Prop) E :
  (in_range (mab_cores s) i = true -> Q tt (s <| mab_cores := aset (mab_cores s) i c |>)) ->
  (in_range (mab_cores s) i = false -> E OutOfBounds) ->
  wp (put_mab_core i c) s Q E.
Proof. unfold wp, put_mab_core. destruct (in_range (mab_cores s) i); auto. Qed.

Lemma wp_mab_module_at i s (Q : mab_module -> kstate -> Prop) E :
  (forall c, aget (mab_modules s) i = Some c -> Q c s) ->
  (aget (mab_modules s) i = None -> E OutOfBounds) ->
  wp (mab_module_at i) s Q E.
Proof. unfold wp, mab_module_at, read. destruct (aget (mab_modules s) i); auto. Qed.

Lemma wp_put_mab_module i c s (Q : unit -> kstate -> Prop) E :
  (in_range (mab_modules s) i = true -> Q tt (s <| mab_modules := aset (mab_modules s) i c |>)) ->
  (in_range (mab_modules s) i = false -> E OutOfBounds) ->
  wp (put_mab_module i c) s Q E.
Proof. unfold wp, put_mab_module. destruct (in_range (mab_modules s) i); auto. Qed.

Lemma core_at_Some i s c : aget (corestate s) i = Some c -> core_at i s = Ok (c, s).
Proof. apply read_Some. Qed.

Lemma put_core_Ok i c s :
  0 <= i < zlen (corestate s) ->
  put_core i c s = Ok (tt, s <| corestate := aset (corestate s) i c |>).
Proof. intros Hi. unfold put_core. by rewrite (proj2 (in_range_zlen _ _) Hi). Qed.

(** Reading a well-formed array gives a well-formed element. *)
Lemma core_at_wf i : forall s, kwf s -> wp (core_at i) s (fun c s' => core_wf c /\ kwf s') any_stop.
Proof.
  intros s Hs. apply wp_core_at; [|done]. intros c Hc. split; [|done].
  by apply (Forall_aget _ _ _ _ (kwf_core s Hs) Hc).
Qed.

Lemma mab_core_at_wf i :
  forall s, kwf s -> wp (mab_core_at i) s (fun c s' => mab_core_wf c /\ kwf s') any_stop.
Proof.
  intros s Hs. apply wp_mab_core_at; [|done]. intros c Hc. split; [|done].
  by apply (Forall_aget _ _ _ _ (kwf_mab_core s Hs) Hc).
Qed.

Lemma mab_module_at_wf i :
  forall s, kwf s -> wp (mab_module_at i) s (fun c s' => mab_module_wf c /\ kwf s') any_stop.
Proof.
  intros s Hs. apply wp_mab_module_at; [|done]. intros c Hc. split; [|done].
  by apply (Forall_aget _ _ _ _ (kwf_mab_module s Hs) Hc).
Qed.

(** An update of a component that [kwf] does not constrain, or that keeps the
    constraint, keeps [kwf]. *)
Ltac kwf_update H :=
  destruct H as [? ? ? ? ? ? ? ? ? ? ? [? ? ? ?] ?]; constructor;
  cbn; autorewrite with arrays; eauto with bounds; try solve [constructor; cbn; eauto with bounds].

Lemma preserves_put_core i c : core_wf c -> preserves kwf (put_core i c).
Proof. intros Hc s Hs. apply wp_put_core; [|done]. intros _. kwf_update Hs. Qed.

Lemma preserves_put_mab_core i c : mab_core_wf c -> preserves kwf (put_mab_core i c).
Proof. intros Hc s Hs. apply wp_put_mab_core; [|done]. intros _. kwf_update Hs. Qed.

Lemma preserves_put_mab_module i c : mab_module_wf c -> preserves kwf (put_mab_module i c).
Proof. intros Hc s Hs. apply wp_put_mab_module; [|done]. intros _. kwf_update Hs. Qed.

(** Reading an element and continuing with it. *)
Lemma preserves_core_at {B} i (k : core_state_s -> K B) :
  (forall c, core_wf c -> preserves kwf (k c)) -> preserves kwf (mbind k (core_at i)).
Proof.
  intros Hk s Hs. apply wp_bind. eapply wp_mono; [by apply core_at_wf| |done].
  intros c s' [Hc Hs']. by apply Hk.
Qed.

Lemma preserves_mab_core_at {B} i (k : mab_core -> K B) :
  (forall c, mab_core_wf c -> preserves kwf (k c)) -> preserves kwf (mbind k (mab_core_at i)).
Proof.
  intros Hk s Hs. apply wp_bind. eapply wp_mono; [by apply mab_core_at_wf| |done].
  intros c s' [Hc Hs']. by apply Hk.
Qed.

Lemma preserves_mab_module_at {B} i (k : mab_module -> K B) :
  (forall c, mab_module_wf c -> preserves kwf (k c)) -> preserves kwf (mbind k (mab_module_at i)).
Proof.
  intros Hk s Hs. apply wp_bind. eapply wp_mono; [by apply mab_module_at_wf| |done].
  intros c s' [Hc Hs']. by apply Hk.
Qed.

Lemma kwf_machine s f : kwf s -> kwf (s <| machine ::= f |>).
Proof. intros Hs. kwf_update Hs. Qed.

Lemma preserves_modify_hw f : preserves kwf (modify_hw f).
Proof. apply preserves_modify. intros s Hs. by apply kwf_machine. Qed.

Lemma preserves_kmalloc : preserves kwf kmalloc.
Proof. intros s Hs. unfold wp, kmalloc. destruct (hw_alloc _); [done|by apply kwf_machine]. Qed.

Lemma preserves_user_copy : preserves kwf user_copy.
Proof. intros s Hs. unfold wp, user_copy. destruct (hw_copy _); [done|by apply kwf_machine]. Qed.

Lemma preserves_ktime_get_ns : preserves kwf ktime_get_ns.
Proof. intros s Hs. unfold wp, ktime_get_ns. destruct (hw_clock _); [done|by apply kwf_machine]. Qed.

Lemma preserves_rdmsr cpu a : preserves kwf (rdmsr cpu a).
Proof. apply preserves_gets. Qed.

Lemma preserves_wrmsr cpu a lo hi : preserves kwf (wrmsr cpu a lo hi).
Proof. apply preserves_modify_hw. Qed.

Lemma preserves_native_read_pmc cpu n : preserves kwf (native_read_pmc cpu n).
Proof. apply preserves_gets. Qed.

Lemma preserves_readq a : preserves kwf (readq a).
Proof. apply preserves_gets. Qed.

Lemma preserves_ioremap p n : preserves kwf (ioremap p n).
Proof. intros s Hs. unfold wp, ioremap. destruct (_ =? 0); [done|]. kwf_update Hs. Qed.

Lemma preserves_iounmap a : preserves kwf (iounmap a).
Proof. apply preserves_modify. intros s Hs. kwf_update Hs. Qed.

Lemma preserves_hrtimer_start : preserves kwf hrtimer_start.
Proof. apply preserves_modify. intros s Hs. kwf_update Hs. Qed.

Lemma preserves_hrtimer_cancel : preserves kwf hrtimer_cancel.
Proof. apply preserves_modify. intros s Hs. kwf_update Hs. Qed.

Lemma preserves_schedule_work : preserves kwf schedule_work.
Proof. apply preserves_modify. intros s Hs. kwf_update Hs. Qed.

Lemma preserves_cancel_work : preserves kwf cancel_work_sync.
Proof. apply preserves_modify. intros s Hs. kwf_update Hs. Qed.

Lemma preserves_proc_create : preserves kwf proc_create.
Proof.
  unfold proc_create. apply preserves_bind; [apply preserves_kmalloc|]. intros ok.
  apply preserves_bind; [|intros; apply preserves_ret].
  apply preserves_modify. intros s Hs. kwf_update Hs.
Qed.

#[export] Hint Resolve preserves_schedule_work preserves_cancel_work preserves_proc_create
  preserves_put_core preserves_put_mab_core preserves_put_mab_module
  preserves_modify_hw preserves_kmalloc preserves_user_copy preserves_ktime_get_ns
  preserves_rdmsr preserves_wrmsr preserves_native_read_pmc preserves_readq preserves_ioremap
  preserves_iounmap preserves_hrtimer_start preserves_hrtimer_cancel : preserve.

(** The invariance tactic of the prelude, extended with the array reads. *)
Ltac kpreserve_step :=
  match goal with
  | |- preserves kwf (mbind _ (core_at _)) => apply preserves_core_at; intros ? ?
  | |- preserves kwf (mbind _ (mab_core_at _)) => apply preserves_mab_core_at; intros ? ?
  | |- preserves kwf (mbind _ (mab_module_at _)) => apply preserves_mab_module_at; intros ? ?
  | _ => preserve_step
  end.

Ltac kpreserve := repeat kpreserve_step.

(** [m] keeps [kwf] and its result satisfies [P]. *)
Definition returns {A} (P : A -> Prop) (m : K A) : Prop :=
  forall s, kwf s -> wp m s (fun a s' => P a /\ kwf s') any_stop.

Lemma preserves_returns {A B} P (m : K A) (k : A -> K B) :
  returns P m -> (forall a, P a -> preserves kwf (k a)) -> preserves kwf (mbind k m).
Proof.
  intros Hm Hk s Hs. apply wp_bind. eapply wp_mono; [by apply Hm| |done].
  intros a s' [Ha Hs']. by apply Hk.
Qed.

Lemma returns_bind {A B} (P : B -> Prop) (m : K A) (k : A -> K B) :
  preserves kwf m -> (forall a, returns P (k a)) -> returns P (mbind k m).
Proof.
  intros Hm Hk s Hs. apply wp_bind. eapply wp_mono; [by apply Hm| |done].
  intros a s' Hs'. by apply Hk.
Qed.

Lemma returns_ret {A} (P : A -> Prop) a : P a -> returns P (mret a).
Proof. intros Ha s Hs. by apply wp_ret. Qed.

Lemma returns_fold_each {A B} (P : B -> Prop) (l : list A) acc (body : B -> A -> K B) :
  P acc -> (forall x b, x ∈ l -> P b -> returns P (body b x)) -> returns P (fold_each l acc body).
Proof.
  revert acc. induction l as [|x l IH]; intros acc Hacc Hb; cbn [fold_each];
    [by apply returns_ret|].
  intros s Hs. apply wp_bind.
  eapply wp_mono; [apply (Hb x acc); [by left|done|done]| |done]. intros b s' [Hp Hs'].
  apply IH; [done| |done]. intros y c Hy. apply Hb. by right.
Qed.
