(* ===== verification/KCommon.v ===== *)
(** * Per-core state and hardware access ([kernel_common.c], PMU set-up of [kernel_dpf.c])

    The functions that move a core's settings between [corestate] and the
    machine.  Each takes the CPU it executes on ([cpu]) in addition to the
    core whose state it names: the two are different arguments because the
    source only asks, in a comment, that they agree. *)

From S2P Require Import Prelude Bitfields KState.

(** ** [kernel_common.h] *)

Definition first_core : K Z := gets sys_first_core.

Definition active_cores : K Z := gets sys_active_cores.

Definition core_in_module (core_id : Z) : K Z :=
  gets (fun s => Z.rem (core_id - sys_first_core s) 4).

Definition module_id (core_id : Z) : K Z :=
  gets (fun s => Z.quot (core_id - sys_first_core s) 4).

(** ** [kernel_common.c] *)

(** [pmu_update]: the last reading becomes the old one and the eight counters
    of the executing CPU become the new one. *)
Definition pmu_update (cpu core_id : Z) : K Z :=
  if (core_id <? 0) || (MAX_NUM_CORES <=? core_id) then mret (- EINVAL) else
  c ← core_at core_id;
  if negb (core_disabled c =? 0) then mret (- EINVAL) else
  raw0 ← native_read_pmc cpu 0;
  raw1 ← native_read_pmc cpu 1;
  raw2 ← native_read_pmc cpu 2;
  raw3 ← native_read_pmc cpu 3;
  raw4 ← native_read_pmc cpu 4;
  raw5 ← native_read_pmc cpu 5;
  raw6 ← native_read_pmc cpu 6;
  raw7 ← native_read_pmc cpu 7;
  put_core core_id
    (c <| pmu_old := pmu_raw c |>
       <| pmu_raw := [raw0; raw1; raw2; raw3; raw4; raw5; raw6; raw7] |>) ;;
  mret 0.

Definition is_msr_dirty (core_id : Z) : K Z :=
  c ← core_at core_id; mret (pf_msr_dirty c).

Definition msr_set_dirty (core_id : Z) : K Z :=
  c ← core_at core_id;
  put_core core_id (c <| pf_msr_dirty := 1 |>) ;;
  mret 0.

(** [msr_load]: read the seven prefetcher MSRs of the executing CPU. *)
Definition msr_load (cpu core_id : Z) : K Z :=
  c ← core_at core_id;
  m1320 ← rdmsr cpu 0x1320;
  m1321 ← rdmsr cpu 0x1321;
  m1322 ← rdmsr cpu 0x1322;
  m1323 ← rdmsr cpu 0x1323;
  m1324 ← rdmsr cpu 0x1324;
  m1327 ← rdmsr cpu 0x1327;
  m1a4 ← rdmsr cpu 0x1a4;
  put_core core_id (c <| pf_msr := [m1320; m1321; m1322; m1323; m1324; m1327; m1a4] |>) ;;
  mret 0.

(** [__wrmsr(addr, (u32)v, (u32)(v >> 32))] with [v] the MSR word at [idx]. *)
Definition write_pf_msr (cpu addr idx : Z) (c : core_state_s) : K unit :=
  v ← read (pf_msr c) idx;
  wrmsr cpu addr v (Z.shiftr v 32).

(** [msr_update]: write the seven words to the executing CPU. *)
Definition msr_update (cpu core_id : Z) : K Z :=
  c ← core_at core_id;
  put_core core_id (c <| pf_msr_dirty := 0 |>) ;;
  write_pf_msr cpu 0x1320 MSR_1320_INDEX c ;;
  write_pf_msr cpu 0x1321 MSR_1321_INDEX c ;;
  write_pf_msr cpu 0x1322 MSR_1322_INDEX c ;;
  write_pf_msr cpu 0x1323 MSR_1323_INDEX c ;;
  write_pf_msr cpu 0x1324 MSR_1324_INDEX c ;;
  write_pf_msr cpu 0x1327 MSR_1327_INDEX c ;;
  write_pf_msr cpu 0x1a4 MSR_1A4_INDEX c ;;
  mret 0.

Definition msr_field_set (core_id : Z) (n : string) (value : Z) : K Z :=
  c ← core_at core_id;
  v ← read (pf_msr c) MSR_1320_INDEX;
  put_core core_id
    (c <| pf_msr := aset (pf_msr c) MSR_1320_INDEX (msr_u_set msr1320 n v value) |>) ;;
  mret 0.

Definition msr_field_get (core_id : Z) (n : string) : K Z :=
  c ← core_at core_id;
  v ← read (pf_msr c) MSR_1320_INDEX;
  mret (msr_u_get msr1320 n v).

Definition msr_set_l2xq (core_id value : Z) : K Z :=
  msr_field_set core_id "L2_STREAM_AMP_XQ_THRESHOLD" value.

Definition msr_get_l2xq (core_id : Z) : K Z :=
  msr_field_get core_id "L2_STREAM_AMP_XQ_THRESHOLD".

Definition msr_set_l3xq (core_id value : Z) : K Z :=
  msr_field_set core_id "LLC_STREAM_XQ_THRESHOLD" value.

Definition msr_get_l3xq (core_id : Z) : K Z :=
  msr_field_get core_id "LLC_STREAM_XQ_THRESHOLD".

(** ** Register set-up of [kernel_dpf.c] *)

(** [set_boot_default_on_core]: address, low and high half of each MSR. *)
Definition boot_default_msrs : list (Z * Z * Z) :=
  [(0x1A4, 0x00000004, 0x00000000); (0x1320, 0x070906C4, 0x10883FEA);
   (0x1321, 0x34140001, 0x00002511); (0x1322, 0x4CD0046C, 0x2807FFFF);
   (0x1323, 0xC0000000, 0x0001F9C0); (0x1324, 0x00000000, 0x06000000);
   (0x1325, 0x0005C138, 0x09220620); (0x1326, 0x00000000, 0x3F000000);
   (0x1327, 0x05920014, 0x00000000)].

Definition set_boot_default_on_core (cpu : Z) : K unit :=
  for_each boot_default_msrs (fun '(a, lo, hi) => wrmsr cpu a lo hi).

Definition MSR_LOW_MASK : Z := 0xFFFFFFFF.

Definition PMC_ENABLE_ALL : Z := 0xFF.

(** The event select words of [kernel_common.h], in counter order 0..7. *)
Definition pmu_events : list Z :=
  [0x00000000004381d0 (* MEM_UOPS_RETIRED_ALL_LOADS *);
   0x0000000000430224 (* MEM_LOAD_UOPS_RETIRED_L2_HIT *);
   0x00000000004304d1 (* MEM_LOAD_UOPS_RETIRED_L3_HIT *);
   0x00000000004380d1 (* MEM_LOAD_UOPS_RETIRED_DRAM_HIT *);
   0x00000000004300f4 (* XQ_PROMOTION_ALL *);
   0x00000000004300c0 (* CPU_CLK_UNHALTED_THREAD *);
   0x00000000004300c2 (* INST_RETIRED_ANY_P *);
   0x0000000000430124 (* MEM_LOAD_UOPS_RETIRED_L2_MISS *)].

Definition MSR_IA32_PERFEVTSEL0 : Z := 0x186.

Definition MSR_IA32_PERF_GLOBAL_STATUS : Z := 0x38D.

Definition MSR_IA32_PERF_GLOBAL_CTRL : Z := 0x38F.

(** [configure_pmu_on_core]. *)
Definition configure_pmu_on_core (cpu : Z) : K unit :=
  for_each (imap (fun i ev => (MSR_IA32_PERFEVTSEL0 + Z.of_nat i, ev)) pmu_events)
    (fun '(a, ev) => wrmsr cpu a (Z.land ev MSR_LOW_MASK) (Z.shiftr ev 32)) ;;
  wrmsr cpu MSR_IA32_PERF_GLOBAL_STATUS 0 0 ;;
  wrmsr cpu MSR_IA32_PERF_GLOBAL_CTRL PMC_ENABLE_ALL 0.

Section linux.
Context {L : Linux}.

(** [configure_pmu], called on CPU [cpu]. *)
Definition configure_pmu (cpu core_id : Z) : K Z :=
  ok ← kmalloc;
  if negb ok then mret (- ENOMEM) else
  for_each (smp_call_cpus cpu [core_id]) configure_pmu_on_core ;;
  mret 0.
End linux.

(** ** Lemmas *)

Lemma core_wf_disabled c v : core_wf c -> v = 0 \/ v = 1 -> core_wf (c <| core_disabled := v |>).
Proof. intros [] Hv. by constructor. Qed.

Lemma core_wf_dirty c v : core_wf c -> in_s32 v -> core_wf (c <| pf_msr_dirty := v |>).
Proof. intros [] Hv. by constructor. Qed.

Lemma core_wf_msr c ws :
  core_wf c -> zlen ws = NR_OF_MSR -> Forall (in_u 64) ws -> core_wf (c <| pf_msr := ws |>).
Proof. intros [] Hl Hw. by constructor. Qed.

Lemma core_wf_raw c r :
  core_wf c -> zlen r = PMU_COUNTERS -> Forall (in_u 64) r -> core_wf (c <| pmu_raw := r |>).
Proof. intros [] Hl Hw. by constructor. Qed.

Lemma core_wf_old c r :
  core_wf c -> zlen r = PMU_COUNTERS -> Forall (in_u 64) r -> core_wf (c <| pmu_old := r |>).
Proof. intros [] Hl Hw. by constructor. Qed.

(** The values the machine delivers are 64-bit words. *)
Lemma preserves_gets_u64 {B} (f : kstate -> Z) (k : Z -> K B) :
  (forall v, in_u 64 v -> preserves kwf (k v)) ->
  preserves kwf (mbind k (gets (fun s => u64 (f s)))).
Proof. intros Hk s Hs. apply wp_bind, wp_gets. apply Hk; [apply u64_range|done]. Qed.

Ltac u64_step :=
  match goal with
  | |- preserves kwf (mbind _ (rdmsr _ _)) => apply preserves_gets_u64; intros ? ?
  | |- preserves kwf (mbind _ (native_read_pmc _ _)) => apply preserves_gets_u64; intros ? ?
  | |- preserves kwf (mbind _ (readq _)) => apply preserves_gets_u64; intros ? ?
  end.

(** [Forall (in_u 64)] of a literal list. *)
Ltac forall_u64 := repeat (apply Forall_cons_2; [done|]); apply Forall_nil_2.

Lemma preserves_pmu_update cpu core_id : preserves kwf (pmu_update cpu core_id).
Proof.
  unfold pmu_update. repeat (u64_step || kpreserve_step).
  apply preserves_put_core, core_wf_raw; [|done|forall_u64].
  apply core_wf_old; [done|apply cwf_raw; done|apply cwf_raw_u64; done].
Qed.

Lemma preserves_msr_set_dirty i : preserves kwf (msr_set_dirty i).
Proof. unfold msr_set_dirty. kpreserve. apply preserves_put_core. by apply core_wf_dirty. Qed.

Lemma preserves_is_msr_dirty i : preserves kwf (is_msr_dirty i).
Proof. unfold is_msr_dirty. kpreserve. Qed.

Lemma preserves_msr_load cpu i : preserves kwf (msr_load cpu i).
Proof.
  unfold msr_load. repeat (u64_step || kpreserve_step).
  apply preserves_put_core, core_wf_msr; [done|done|forall_u64].
Qed.

Lemma preserves_msr_update cpu i : preserves kwf (msr_update cpu i).
Proof.
  unfold msr_update, write_pf_msr. kpreserve.
  apply preserves_put_core. by apply core_wf_dirty.
Qed.

Lemma preserves_msr_field_set i n v : preserves kwf (msr_field_set i n v).
Proof.
  unfold msr_field_set. kpreserve_step. intros s Hs.
  apply wp_bind, wp_read; [|done]. intros w Hw. apply wp_bind.
  eapply wp_mono; [apply preserves_put_core; [|exact Hs]| |done].
  - apply core_wf_msr; [done|rewrite zlen_aset; by apply cwf_msr|].
    apply Forall_aset; [by apply cwf_msr_u64|]. apply msr_u_set_range.
    eapply Forall_aget; [|exact Hw]. by apply cwf_msr_u64.
  - intros [] s' Hs'. by apply wp_ret.
Qed.

Lemma preserves_configure_pmu {L : Linux} cpu i : preserves kwf (configure_pmu cpu i).
Proof. unfold configure_pmu, configure_pmu_on_core. kpreserve. Qed.

Lemma preserves_set_boot_default cpu : preserves kwf (set_boot_default_on_core cpu).
Proof. unfold set_boot_default_on_core. kpreserve. Qed.

#[export] Hint Resolve preserves_pmu_update preserves_msr_set_dirty preserves_is_msr_dirty
  preserves_msr_load preserves_msr_update preserves_configure_pmu
  preserves_set_boot_default : preserve.

#[export] Hint Extern 1 (preserves kwf (msr_set_l2xq _ _)) =>
  (apply preserves_msr_field_set) : preserve.
#[export] Hint Extern 1 (preserves kwf (msr_set_l3xq _ _)) =>
  (apply preserves_msr_field_set) : preserve.

(** The two halves of a word make the word again. *)
Lemma wrmsr_halves v : in_u 64 v -> u32 v + 2 ^ 32 * u32 (Z.shiftr v 32) = v.
Proof.
  intros [H0 H1]. rewrite Z.shiftr_div_pow2 by done. unfold u32, wrap.
  rewrite (Z.mod_small (v / 2 ^ 32)).
  - pose proof (Z.div_mod v (2 ^ 32) ltac:(done)). lia.
  - split; [by apply Z.div_pos|]. apply Z.div_lt_upper_bound; [done|].
    change (2 ^ 32 * 2 ^ 32) with (2 ^ 64). done.
Qed.

(** The MSR addresses in the order of the table [pf_msr]. *)
Definition pf_msr_addrs : list Z := [0x1320; 0x1321; 0x1322; 0x1323; 0x1324; 0x1327; 0x1a4].

(** Overwriting the prefetcher MSRs of one CPU. *)
Definition write_words (cpu : Z) (l : list (Z * Z)) (m : gmap (Z * Z) Z) : gmap (Z * Z) Z :=
  foldl (fun m '(a, v) => <[(cpu, a) := v]> m) m l.

Definition pf_image (ws : list Z) : list (Z * Z) := zip pf_msr_addrs ws.

(** The seven words of a well-formed table. *)
Lemma pf_msr_seven c : core_wf c ->
  exists w0 w1 w2 w3 w4 w5 w6, pf_msr c = [w0; w1; w2; w3; w4; w5; w6] /\
    Forall (in_u 64) [w0; w1; w2; w3; w4; w5; w6].
Proof.
  intros Hc. pose proof (cwf_msr _ Hc) as Hl. pose proof (cwf_msr_u64 _ Hc) as Hw.
  unfold zlen, NR_OF_MSR in Hl. destruct (pf_msr c) as [|w0 [|w1 [|w2 [|w3 [|w4 [|w5 [|w6 [|]]]]]]]];
    simpl in Hl; try lia. by exists w0, w1, w2, w3, w4, w5, w6.
Qed.

Lemma write_pf_msr_eq cpu a idx c s v :
  aget (pf_msr c) idx = Some v -> in_u 64 v ->
  write_pf_msr cpu a idx c s =
    Ok (tt, s <| machine ::= fun h => h <| hw_msr ::= <[(cpu, a) := v]> |> |>).
Proof.
  intros Hv Hu. unfold write_pf_msr. rewrite (bind_Ok _ _ _ _ _ (read_Some _ _ _ _ Hv)).
  unfold wrmsr. by rewrite wrmsr_halves.
Qed.

Lemma msr_update_eq cpu core_id s c :
  aget (corestate s) core_id = Some c -> core_wf c ->
  msr_update cpu core_id s =
    Ok (0, s <| corestate := aset (corestate s) core_id (c <| pf_msr_dirty := 0 |>) |>
             <| machine ::= fun h => h <| hw_msr ::= write_words cpu (pf_image (pf_msr c)) |> |>).
Proof.
  intros Hc Hwf.
  destruct (pf_msr_seven c Hwf) as (w0 & w1 & w2 & w3 & w4 & w5 & w6 & Hm & Hw).
  repeat match goal with H : Forall _ (_ :: _) |- _ => apply Forall_cons in H as [? H] end.
  unfold msr_update. rewrite (bind_Ok _ _ _ _ _ (core_at_Some _ _ _ Hc)).
  erewrite bind_Ok by (apply put_core_Ok; by eapply aget_Some_range).
  do 7 (erewrite bind_Ok by (apply write_pf_msr_eq; [by rewrite Hm|done])).
  by rewrite Hm.
Qed.

Lemma write_words_lookup_ne cpu l m cpu' a :
  cpu' <> cpu \/ ~ In a (map fst l) -> write_words cpu l m !! (cpu', a) = m !! (cpu', a).
Proof.
  revert m. induction l as [|[b v] l IH]; intros m Hne; simpl in *; [done|].
  rewrite IH by naive_solver. apply lookup_insert_ne. naive_solver.
Qed.

(** ** Properties *)

(** C33: [msr_update] makes the prefetcher MSRs of the CPU it runs on equal to
    the core's table, clears the dirty flag, and touches no other MSR and no
    other CPU; a following [msr_load] on that CPU reads the same table back. *)
Theorem msr_update_then_load (cpu core_id : Z) (s : kstate) (c : core_state_s) :
  aget (corestate s) core_id = Some c -> core_wf c ->
  exists s', msr_update cpu core_id s = Ok (0, s') /\
    aget (corestate s') core_id = Some (c <| pf_msr_dirty := 0 |>) /\
    (forall i a, aget pf_msr_addrs i = Some a ->
      hw_msr (machine s') !! (cpu, a) = aget (pf_msr c) i) /\
    (forall cpu' a, cpu' <> cpu \/ ~ In a pf_msr_addrs ->
      hw_msr (machine s') !! (cpu', a) = hw_msr (machine s) !! (cpu', a)) /\
    exists s'', msr_load cpu core_id s' = Ok (0, s'') /\
      aget (corestate s'') core_id = Some (c <| pf_msr_dirty := 0 |>).
Proof.
  intros Hc Hwf. eexists. split; [by apply msr_update_eq|].
  pose proof (aget_Some_range _ _ _ Hc) as Hr.
  destruct (pf_msr_seven c Hwf) as (w0 & w1 & w2 & w3 & w4 & w5 & w6 & Hm & Hw).
  repeat match goal with H : Forall _ (_ :: _) |- _ => apply Forall_cons in H as [? H] end.
  split; [by apply aget_aset_eq|]. split; [|split].
  - intros i a Ha. pose proof (aget_Some_range _ _ _ Ha) as Hi. unfold zlen in Hi. simpl in Hi.
    cbn -[write_words]. rewrite Hm.
    assert (i = 0 \/ i = 1 \/ i = 2 \/ i = 3 \/ i = 4 \/ i = 5 \/ i = 6) as Hcase by lia.
    destruct Hcase as [->|[->|[->|[->|[->|[->| ->]]]]]]; injection Ha as <-; cbn; by simplify_map_eq.
  - intros cpu' a Hne. apply write_words_lookup_ne. rewrite Hm. done.
  - eexists. split.
    + unfold msr_load, mbind, ST_bind, core_at at 1, read at 1.
      cbn -[aget aset write_words rdmsr put_core]. rewrite aget_aset_eq by done.
      unfold rdmsr, gets. cbn -[aset aget put_core]. rewrite Hm. cbn -[aset aget put_core].
      simplify_map_eq. rewrite !u64_small by done. cbn -[aset aget put_core].
      unfold put_core. cbn -[aset aget in_range].
      rewrite (proj2 (in_range_zlen _ _)) by by rewrite zlen_aset. reflexivity.
    + cbn -[aset aget]. rewrite aget_aset_eq by by rewrite zlen_aset.
      f_equal. destruct c; cbn in *. by rewrite Hm.
Qed.

(** A state with one programmed core, for the examples. *)
Definition one_core (i : Z) (c : core_state_s) : kstate :=
  kstate0 hw0 <| corestate := aset (corestate (kstate0 hw0)) i c |>.

Lemma msr_update_then_load_witness :
  let c := core_zero <| pf_msr := [1; 2; 3; 4; 5; 6; 2 ^ 63] |> <| pf_msr_dirty := 1 |> in
  exists s', msr_update 3 5 (one_core 5 c) = Ok (0, s') /\
    hw_msr (machine s') !! (3, 0x1a4) = Some (2 ^ 63).
Proof.
  cbv zeta. set (c := core_zero <| pf_msr := _ |> <| pf_msr_dirty := 1 |>).
  assert (Hwf : core_wf c).
  { apply core_wf_dirty; [|done]. apply core_wf_msr; [apply core_zero_wf|done|].
    by repeat (apply Forall_cons_2; [done|]). }
  destruct (msr_update_then_load 3 5 (one_core 5 c) c eq_refl Hwf) as (s' & H & _ & Hw & _).
  exists s'. split; [exact H|]. by rewrite (Hw 6 0x1a4 eq_refl).
Defined.

(** The counters of a CPU, as [pmu_update] reads them. *)
Definition pmc_reading (h : hw) (cpu : Z) : list Z :=
  map (fun n => u64 (hw_pmc h cpu n)) [0; 1; 2; 3; 4; 5; 6; 7].

Lemma pmu_update_eq cpu core_id s c :
  aget (corestate s) core_id = Some c -> zlen (corestate s) = MAX_NUM_CORES ->
  core_disabled c = 0 ->
  pmu_update cpu core_id s =
    Ok (0, s <| corestate := aset (corestate s) core_id
                 (c <| pmu_old := pmu_raw c |> <| pmu_raw := pmc_reading (machine s) cpu |>) |>).
Proof.
  intros Hc Hl Hd. pose proof (aget_Some_range _ _ _ Hc) as Hr.
  unfold pmu_update. rewrite (proj2 (Z.ltb_ge _ _)), (proj2 (Z.leb_gt _ _)) by lia. cbn [orb].
  rewrite (bind_Ok _ _ _ _ _ (core_at_Some _ _ _ Hc)), Hd. cbn [Z.eqb negb].
  unfold native_read_pmc. rewrite !bind_gets.
  by erewrite bind_Ok by by apply put_core_Ok.
Qed.

(** [pmu_update] rejects a core that is out of range or disabled without
    changing anything; on an enabled core, two updates on the same CPU leave in
    [pmu_raw - pmu_old] (modulo 2^64, as the tuners compute it) exactly the
    advance of each of the eight hardware counters between the two updates,
    whatever the counters did in between, wrap-around included. *)
Theorem pmu_update_delta (cpu core_id : Z) (s : kstate) :
  kwf s ->
  (aget (corestate s) core_id = None -> pmu_update cpu core_id s = Ok (- EINVAL, s)) /\
  (forall c, aget (corestate s) core_id = Some c -> core_disabled c = 1 ->
    pmu_update cpu core_id s = Ok (- EINVAL, s)) /\
  (forall c h, aget (corestate s) core_id = Some c -> core_disabled c = 0 ->
    exists s1 s2 c2, pmu_update cpu core_id s = Ok (0, s1) /\
      pmu_update cpu core_id (s1 <| machine := h |>) = Ok (0, s2) /\
      aget (corestate s2) core_id = Some c2 /\
      forall k, 0 <= k < PMU_COUNTERS -> exists raw old,
        aget (pmu_raw c2) k = Some raw /\ aget (pmu_old c2) k = Some old /\
        u64 (raw - old) = u64 (hw_pmc h cpu k - hw_pmc (machine s) cpu k)).
Proof.
  intros Hs. pose proof (kwf_cores s Hs) as Hl. split_and!.
  - intros Hn. unfold pmu_update.
    destruct ((core_id <? 0) || (MAX_NUM_CORES <=? core_id)) eqn:Hb; [done|].
    apply orb_false_iff in Hb as [?%Z.ltb_ge ?%Z.leb_gt].
    destruct (aget_is_Some (corestate s) core_id) as [c Hc]; [lia|congruence].
  - intros c Hc Hd. unfold pmu_update. case_match; [done|].
    by rewrite (bind_Ok _ _ _ _ _ (core_at_Some _ _ _ Hc)), Hd.
  - intros c h Hc Hd. pose proof (aget_Some_range _ _ _ Hc) as Hr.
    set (c1 := c <| pmu_old := pmu_raw c |> <| pmu_raw := pmc_reading (machine s) cpu |>).
    eexists _, _, _. split; [by apply pmu_update_eq|]. split; [|split].
    + apply (pmu_update_eq _ _ _ c1); [by apply aget_aset_eq|by cbn; rewrite zlen_aset|done].
    + cbn. apply aget_aset_eq. by rewrite zlen_aset.
    + intros k Hk. cbn -[pmc_reading]. unfold pmc_reading, PMU_COUNTERS in *.
      assert (k = 0 \/ k = 1 \/ k = 2 \/ k = 3 \/ k = 4 \/ k = 5 \/ k = 6 \/ k = 7) as Hcase by lia.
      exists (u64 (hw_pmc h cpu k)), (u64 (hw_pmc (machine s) cpu k)).
      split; [|split]; [| |unfold u64, wrap; by rewrite Zminus_mod_idemp_l, Zminus_mod_idemp_r];
      by destruct Hcase as [->|[->|[->|[->|[->|[->|[->| ->]]]]]]].
Qed.

(** A machine whose counters all read [v]. *)
Definition hw_counting (v : Z) : hw := hw0 <| hw_pmc := fun _ _ => v |>.

Lemma pmu_update_delta_witness :
  exists s1 s2 c2 raw old,
    pmu_update 2 2 (kstate0 (hw_counting (2 ^ 64 - 10))) = Ok (0, s1) /\
    pmu_update 2 2 (s1 <| machine := hw_counting (2 ^ 64 + 32) |>) = Ok (0, s2) /\
    aget (corestate s2) 2 = Some c2 /\
    aget (pmu_raw c2) 7 = Some raw /\ aget (pmu_old c2) 7 = Some old /\ u64 (raw - old) = 42.
Proof.
  destruct (pmu_update_delta 2 2 _ (kstate0_wf (hw_counting (2 ^ 64 - 10)))) as (_ & _ & H).
  destruct (H core_zero (hw_counting (2 ^ 64 + 32)) eq_refl eq_refl)
    as (s1 & s2 & c2 & H1 & H2 & H3 & Hk).
  destruct (Hk 7 ltac:(done)) as (raw & old & Hr & Ho & Hd).
  exists s1, s2, c2, raw, old. split_and!; try done.
Defined.
