(* ===== verification/KPmuDdr.v ===== *)
(** * DDR bandwidth counters of the kernel module ([kernel_pmu_ddr.c])

    Mapping of the memory controllers' counters, and the reads that turn the
    free-running counters into bytes since the last read.  The C functions
    take a [struct ddr_s *]; every caller passes the address of the global
    [ddr], which is the component [ddr] of the state here.
    [release_mem_region] has no effect on the module's own state. *)

From S2P Require Import Prelude KState.

(** ** Constants of [pmu_ddr.h] *)

Definition CLIENT_DDR0_OFFSET : Z := 0x00000.

Definition CLIENT_DDR1_OFFSET : Z := 0x10000.

Definition GRR_SRF_MC_ADDRESS (n : Z) : Z := 0x24C000 + 0x4000 * n.

Definition CLIENT_DDR_RANGE : Z := 0x10000.

Definition GRR_SRF_DDR_RANGE : Z := 0x10000.

Definition CLIENT_DDR_RD_BW : Z := 0xd858.

Definition CLIENT_DDR_WR_BW : Z := 0xd8a0.

Definition GRR_SRF_FREE_RUN_CNTR_READ : Z := 0x1A40.

Definition GRR_SRF_FREE_RUN_CNTR_WRITE : Z := 0x1A48.

(** ** Reading *)

(** Which of the two counter tables a read updates. *)
Inductive ddr_dir := Rd | Wr.

Definition last_update (d : ddr_dir) (x : ddr_s) : list Z :=
  match d with Rd => rd_last_update x | Wr => wr_last_update x end.

Definition set_last_update (d : ddr_dir) (x : ddr_s) (l : list Z) : ddr_s :=
  match d with
  | Rd => x <| rd_last_update := l |>
  | Wr => x <| wr_last_update := l |>
  end.

(** The body of the four counter loops: controller [i], register at offset
    [off] of its mapping. *)
Definition ddr_counter_step (d : ddr_dir) (off total i : Z) : K Z :=
  x ← gets ddr;
  m ← read (mmap x) i;
  if m =? 0 then mret total else
  oldvalue ← read (last_update d x) i;
  new ← readq (m + off);
  modify (fun s => s <| ddr := set_last_update d (ddr s) (aset (last_update d (ddr s)) i new) |>) ;;
  mret (u64 (total + u64 (new - oldvalue))).

Definition ddr_counter_loop (d : ddr_dir) (off : Z) : K Z :=
  n ← gets num_ddr_controllers;
  fold_each (seqZ 0 n) 0 (ddr_counter_step d off).

Definition kernel_pmu_ddr_grr_srf (type : Z) : K Z :=
  total ←
    (if type =? DDR_PMU_RD then ddr_counter_loop Rd 0
     else if type =? DDR_PMU_WR then
       ddr_counter_loop Wr (GRR_SRF_FREE_RUN_CNTR_WRITE - GRR_SRF_FREE_RUN_CNTR_READ)
     else mret 0);
  mret (u64 (total * 64)).

Definition kernel_pmu_ddr_client (type : Z) : K Z :=
  total ←
    (if type =? DDR_PMU_RD then ddr_counter_loop Rd CLIENT_DDR_RD_BW
     else if type =? DDR_PMU_WR then ddr_counter_loop Wr CLIENT_DDR_WR_BW
     else mret 0);
  mret (u64 (total * 64)).

Definition kernel_pmu_ddr (type : Z) : K Z :=
  t ← gets ddr_cpu_type;
  if t =? DDR_CLIENT then kernel_pmu_ddr_client type
  else if t =? DDR_GRR_SRF then kernel_pmu_ddr_grr_srf type
  else mret (u64 (- EINVAL)).

(** ** Initialisation *)

Definition set_mmap (i a : Z) : K unit :=
  x ← gets ddr;
  check_index (mmap x) i ;;
  modify (fun s => s <| ddr ::= fun x => x <| mmap ::= fun l => aset l i a |> |>).

(** The mapping loop: [mapping] is the local array of the C function,
    [reg_base] its register address.  [Some i] is the jump to [cleanup] from
    controller [i]. *)
Fixpoint map_controllers (reg_base : Z -> K Z) (range : Z) (l : list Z) (mapping : list Z) :
    K (option Z * list Z) :=
  match l with
  | [] => mret (None, mapping)
  | i :: l' =>
      base ← reg_base i;
      check_index mapping i ;;
      a ← ioremap base range;
      let mapping' := aset mapping i a in
      if a =? 0 then mret (Some i, mapping')
      else set_mmap i a ;; map_controllers reg_base range l' mapping'
  end.

(** [while (--i >= 0)] of the [cleanup] label, entered with [i = n]. *)
Definition unmap_controllers (mapping : list Z) (n : Z) : K unit :=
  for_each (reverse (seqZ 0 n)) (fun i =>
    a ← read mapping i;
    if a =? 0 then mret tt else iounmap a ;; set_mmap i 0).

(** [memset(ddr, 0, ...)] and the two assignments after it. *)
Definition ddr_reset (interface ddr_bar : Z) : K unit :=
  modify (fun s => s <| ddr := ddr_zero <| ddr_interface_type := interface |>
                                        <| bar_address := ddr_bar |> |>).

(** What follows the reset in both functions. *)
Definition map_or_cleanup (reg_base : Z -> K Z) (range : Z) (mapping : list Z) : K Z :=
  n ← gets num_ddr_controllers;
  r ← map_controllers reg_base range (seqZ 0 n) mapping;
  match r with
  | (None, _) =>
      kernel_pmu_ddr DDR_PMU_RD ;;
      kernel_pmu_ddr DDR_PMU_WR ;;
      mret 0
  | (Some i, mapping') =>
      unmap_controllers mapping' i ;;
      mret (- ENOMEM)
  end.

Definition grr_srf_reg_base (ddr_bar i : Z) : K Z :=
  mret (u64 (ddr_bar + GRR_SRF_MC_ADDRESS i + GRR_SRF_FREE_RUN_CNTR_READ)).

Definition kernel_pmu_ddr_init_grr_srf (ddr_bar : Z) : K Z :=
  n ← gets num_ddr_controllers;
  (if MAX_NUM_DDR_CONTROLLERS <? n
   then modify (fun s => s <| num_ddr_controllers := MAX_NUM_DDR_CONTROLLERS |>)
   else mret tt) ;;
  ddr_reset DDR_GRR_SRF ddr_bar ;;
  n ← gets num_ddr_controllers;
  if n <=? 0 then mret (- ENODEV) else
  map_or_cleanup (grr_srf_reg_base ddr_bar) GRR_SRF_DDR_RANGE (replicate 16 0).

Definition client_reg_base (ddr_bar i : Z) : K Z :=
  off ← read [CLIENT_DDR0_OFFSET; CLIENT_DDR1_OFFSET] i;
  mret (u64 (ddr_bar + off)).

Definition kernel_pmu_ddr_init_client (ddr_bar : Z) : K Z :=
  ddr_reset DDR_CLIENT ddr_bar ;;
  map_or_cleanup (client_reg_base ddr_bar) CLIENT_DDR_RANGE (replicate 2 0).

(** [read_ddr_counters]: the return value, [*read_bw] and [*write_bw]. *)
Definition read_ddr_counters : K (Z * Z * Z) :=
  t ← gets ddr_cpu_type;
  if negb (t =? DDR_GRR_SRF) && negb (t =? DDR_CLIENT) then mret (- ENOMEM, 0, 0) else
  n ← gets num_ddr_controllers;
  if n <=? 0 then mret (- ENOMEM, 0, 0) else
  read_bw ← kernel_pmu_ddr DDR_PMU_RD;
  write_bw ← kernel_pmu_ddr DDR_PMU_WR;
  if (read_bw =? u64 (- EINVAL)) || (write_bw =? u64 (- EINVAL)) then mret (- ENOMEM, 0, 0)
  else mret (0, read_bw, write_bw).

(** ** Invariance *)

Lemma ddr_wf_last_update d x l :
  ddr_wf x -> zlen l = MAX_NUM_DDR_CONTROLLERS -> Forall (in_u 64) l ->
  ddr_wf (set_last_update d x l).
Proof. intros [] Hl Hu. by destruct d; constructor. Qed.

Lemma ddr_wf_zlen d x : ddr_wf x -> zlen (last_update d x) = MAX_NUM_DDR_CONTROLLERS.
Proof. intros []. by destruct d. Qed.

Lemma ddr_wf_u64 d x : ddr_wf x -> Forall (in_u 64) (last_update d x).
Proof. intros []. by destruct d. Qed.

Lemma kwf_set_ddr s x : kwf s -> ddr_wf x -> kwf (s <| ddr := x |>).
Proof. intros Hs Hx. kwf_update Hs. Qed.

Lemma preserves_ddr_counter_step d off total i : preserves kwf (ddr_counter_step d off total i).
Proof.
  unfold ddr_counter_step. do 2 preserve_step; [by eauto with preserve..|].
  destruct (_ =? 0); [preserve|]. apply preserves_bind; [eauto with preserve|intros old].
  intros s Hs. apply wp_bind, wp_gets, wp_bind, wp_modify, wp_ret.
  apply kwf_set_ddr; [done|]. pose proof (kwf_ddr s Hs) as Hd.
  apply ddr_wf_last_update; [done|rewrite zlen_aset; by apply ddr_wf_zlen|].
  apply Forall_aset; [by apply ddr_wf_u64|apply u64_range].
Qed.

#[export] Hint Resolve preserves_ddr_counter_step : preserve.

Lemma preserves_kernel_pmu_ddr type : preserves kwf (kernel_pmu_ddr type).
Proof.
  unfold kernel_pmu_ddr, kernel_pmu_ddr_client, kernel_pmu_ddr_grr_srf, ddr_counter_loop.
  preserve.
Qed.

#[export] Hint Resolve preserves_kernel_pmu_ddr : preserve.

Lemma preserves_set_mmap i a : preserves kwf (set_mmap i a).
Proof.
  unfold set_mmap. preserve. apply preserves_modify. intros s Hs.
  destruct (kwf_ddr s Hs) as [? ? ? ? ?]. apply kwf_set_ddr; [done|].
  constructor; cbn; autorewrite with arrays; done.
Qed.

#[export] Hint Resolve preserves_set_mmap : preserve.

Lemma preserves_ddr_reset t bar : preserves kwf (ddr_reset t bar).
Proof.
  apply preserves_modify. intros s Hs. apply kwf_set_ddr; [done|].
  destruct ddr_zero_wf. by constructor.
Qed.

#[export] Hint Resolve preserves_ddr_reset : preserve.

Lemma preserves_map_controllers reg_base range l mapping :
  (forall i, preserves kwf (reg_base i)) ->
  preserves kwf (map_controllers reg_base range l mapping).
Proof.
  intros Hb. revert mapping. induction l as [|i l IH]; intros mapping; cbn [map_controllers];
    preserve; apply IH || apply Hb.
Qed.

Lemma preserves_map_or_cleanup reg_base range mapping :
  (forall i, preserves kwf (reg_base i)) -> preserves kwf (map_or_cleanup reg_base range mapping).
Proof.
  intros Hb. unfold map_or_cleanup, unmap_controllers.
  apply preserves_bind; [eauto with preserve|]. intros n.
  apply preserves_bind; [by apply preserves_map_controllers|]. intros [[]]; preserve.
Qed.

Lemma preserves_init_client bar : preserves kwf (kernel_pmu_ddr_init_client bar).
Proof.
  unfold kernel_pmu_ddr_init_client. preserve. apply preserves_map_or_cleanup.
  intros i. unfold client_reg_base. preserve.
Qed.

Lemma preserves_init_grr_srf bar : preserves kwf (kernel_pmu_ddr_init_grr_srf bar).
Proof.
  unfold kernel_pmu_ddr_init_grr_srf. preserve.
  - apply preserves_modify. intros s Hs. kwf_update Hs. done.
  - apply preserves_map_or_cleanup. intros i. unfold grr_srf_reg_base. preserve.
Qed.

Lemma preserves_read_ddr_counters : preserves kwf read_ddr_counters.
Proof. unfold read_ddr_counters. preserve. Qed.

#[export] Hint Resolve preserves_init_client preserves_init_grr_srf
  preserves_read_ddr_counters : preserve.

(** Properties of the state that the DDR counters have no part in: all the DDR
    code preserves them. *)
Definition ddr_free (I : kstate -> Prop) : Prop :=
  forall s d io n, I s -> I (s <| ddr := d |> <| iomaps := io |> <| num_ddr_controllers := n |>).

Section ddr_free.
Context (I : kstate -> Prop) (HI : ddr_free I).

Lemma ddr_free_modify f :
  (forall s, f s = s <| ddr := ddr (f s) |> <| iomaps := iomaps (f s) |>
                     <| num_ddr_controllers := num_ddr_controllers (f s) |>) ->
  preserves I (modify f).
Proof. intros Hf. apply preserves_modify. intros s Hs. rewrite Hf. by apply HI. Qed.

Ltac ddr_modify := apply ddr_free_modify; by intros [].

Lemma ddr_free_ioremap p n : preserves I (ioremap p n).
Proof.
  intros s Hs. unfold wp, ioremap. destruct (_ =? 0); [done|].
  eapply eq_ind; [apply (HI s (ddr s) (hw_ioremap (machine s) p n :: iomaps s) (num_ddr_controllers s) Hs)|].
  by destruct s.
Qed.

Lemma ddr_free_iounmap a : preserves I (iounmap a).
Proof. unfold iounmap. ddr_modify. Qed.

Lemma ddr_free_set_mmap i a : preserves I (set_mmap i a).
Proof. unfold set_mmap. preserve. ddr_modify. Qed.

Lemma ddr_free_counter_step d off t i : preserves I (ddr_counter_step d off t i).
Proof. unfold ddr_counter_step, readq. preserve. ddr_modify. Qed.

Hint Resolve ddr_free_ioremap ddr_free_iounmap ddr_free_set_mmap ddr_free_counter_step : preserve.

Lemma ddr_free_kernel_pmu_ddr t : preserves I (kernel_pmu_ddr t).
Proof.
  unfold kernel_pmu_ddr, kernel_pmu_ddr_client, kernel_pmu_ddr_grr_srf, ddr_counter_loop. preserve.
Qed.

Hint Resolve ddr_free_kernel_pmu_ddr : preserve.

Lemma ddr_free_map_or_cleanup reg_base range mapping :
  (forall i, preserves I (reg_base i)) -> preserves I (map_or_cleanup reg_base range mapping).
Proof.
  intros Hb. unfold map_or_cleanup, unmap_controllers.
  preserve_step; [by eauto with preserve|]. apply preserves_bind.
  - generalize mapping. induction (seqZ 0 a) as [|i l IH]; intros mp; cbn [map_controllers]; preserve;
      apply Hb || apply IH.
  - intros [[]]; preserve.
Qed.

Lemma ddr_free_reset t bar : preserves I (ddr_reset t bar).
Proof. unfold ddr_reset. ddr_modify. Qed.

Hint Resolve ddr_free_reset : preserve.

Lemma ddr_free_init_client bar : preserves I (kernel_pmu_ddr_init_client bar).
Proof.
  unfold kernel_pmu_ddr_init_client. preserve. apply ddr_free_map_or_cleanup.
  intros i. unfold client_reg_base. preserve.
Qed.

Lemma ddr_free_init_grr_srf bar : preserves I (kernel_pmu_ddr_init_grr_srf bar).
Proof.
  unfold kernel_pmu_ddr_init_grr_srf. preserve; [ddr_modify|].
  apply ddr_free_map_or_cleanup. intros i. unfold grr_srf_reg_base. preserve.
Qed.

Lemma ddr_free_read_counters : preserves I read_ddr_counters.
Proof. unfold read_ddr_counters. preserve. Qed.
End ddr_free.

(** ** Reading: functional behaviour *)

Fixpoint sumZ (l : list Z) : Z :=
  match l with
  | [] => 0
  | x :: l' => x + sumZ l'
  end.

Lemma sumZ_insert (l : list Z) (i : nat) x y :
  l !! i = Some x -> sumZ (<[i := y]> l) = sumZ l - x + y.
Proof.
  revert i. induction l as [|z l IH]; intros [|i] Hx; simpl in *; simplify_eq; [lia|].
  rewrite (IH i) by done. lia.
Qed.

Lemma sumZ_aset (l : list Z) i x y : aget l i = Some x -> sumZ (aset l i y) = sumZ l - x + y.
Proof. unfold aget, aset. destruct (0 <=? i); [|done]. apply sumZ_insert. Qed.

Lemma set_last_update_same d x l :
  last_update d (set_last_update d x l) = l /\ mmap (set_last_update d x l) = mmap x.
Proof. by destruct d. Qed.

Lemma set_last_update_twice d x l l' :
  set_last_update d (set_last_update d x l) l' = set_last_update d x l'.
Proof. by destruct d. Qed.

Lemma set_last_update_id d x : set_last_update d x (last_update d x) = x.
Proof. by destruct d, x. Qed.

(** The table after the first [k] controllers have been read: the mapped ones
    hold the hardware's counter, the others are as before. *)
Definition sampled (s : kstate) (d : ddr_dir) (off k : Z) (l' : list Z) : Prop :=
  zlen l' = MAX_NUM_DDR_CONTROLLERS /\
  forall j m, aget (mmap (ddr s)) j = Some m ->
    aget l' j = if (j <? k) && negb (m =? 0)
                then Some (u64 (hw_mmio (machine s) (m + off)))
                else aget (last_update d (ddr s)) j.

Definition loop_inv (s : kstate) (d : ddr_dir) (off n : Z) (rest : list Z) (acc : Z)
    (s' : kstate) : Prop :=
  exists k l', rest = seqZ k (n - k) /\ 0 <= k /\ sampled s d off k l' /\
    s' = s <| ddr := set_last_update d (ddr s) l' |> /\
    acc = u64 (sumZ l' - sumZ (last_update d (ddr s))) /\ (rest = [] -> k = n).

Lemma u64_add_sub a b c : u64 (u64 a + u64 (b - c)) = u64 (a + b - c).
Proof. unfold u64, wrap. rewrite <- Zplus_mod. f_equal. lia. Qed.

Lemma ltb_succ_ne j k : j <> k -> (j <? k) = (j <? Z.succ k).
Proof. intros. apply eq_true_iff_eq. rewrite !Z.ltb_lt. lia. Qed.

Lemma loop_inv_step s d off n i rest acc s' :
  kwf s -> n <= MAX_NUM_DDR_CONTROLLERS -> loop_inv s d off n (i :: rest) acc s' ->
  wp (ddr_counter_step d off acc i) s' (loop_inv s d off n rest) no_stop.
Proof.
  intros Hs Hn (k & l' & Hrest & Hk & [Hl Hent] & -> & -> & _).
  assert (Hkn : k < n).
  { destruct (Z.ltb_spec k n); [done|]. by rewrite seqZ_nil in Hrest by lia. }
  rewrite seqZ_cons in Hrest by lia. injection Hrest as -> Hrest.
  assert (Hn' : (rest = [] -> Z.succ k = n)).
  { intros Hnil. rewrite Hnil in Hrest. apply (f_equal length) in Hrest.
    rewrite length_seqZ in Hrest. simpl in Hrest. lia. }
  assert (Hrest' : rest = seqZ (Z.succ k) (n - Z.succ k))
    by (rewrite Hrest; f_equal; lia).
  clear Hrest. pose proof (kwf_ddr s Hs) as Hd.
  destruct (aget_is_Some (mmap (ddr s)) k) as [m Hm]; [rewrite (dwf_mmap _ Hd); lia|].
  destruct (aget_is_Some l' k) as [v Hv]; [rewrite Hl; lia|].
  unfold ddr_counter_step. apply wp_bind, wp_gets. cbn.
  destruct (set_last_update_same d (ddr s) l') as [-> ->].
  apply wp_bind, wp_read; [|congruence]. intros m' Hm'. simplify_eq.
  destruct (Z.eqb_spec m 0) as [->|Hm0].
  - apply wp_ret. exists (Z.succ k), l'. split_and!; try done; [lia|].
    split; [done|]. intros j mj Hj.
    rewrite (Hent j mj Hj).
    destruct (decide (j = k)) as [->|Hne]; [by simplify_eq; rewrite !andb_false_r|].
    by rewrite (ltb_succ_ne j k).
  - apply wp_bind, wp_read; [|congruence]. intros v' Hv'. simplify_eq.
    apply wp_bind, wp_gets, wp_bind, wp_modify, wp_ret. cbn.
    destruct (set_last_update_same d (ddr s) l') as [-> _]. rewrite set_last_update_twice.
    exists (Z.succ k), (aset l' k (u64 (hw_mmio (machine s) (m + off)))).
    split_and!; try done; [lia| |].
    + split; [by rewrite zlen_aset|]. intros j mj Hj.
      destruct (decide (j = k)) as [->|Hne].
      * simplify_eq. rewrite aget_aset_eq by (rewrite Hl; lia).
        rewrite (proj2 (Z.ltb_lt _ _)), (proj2 (Z.eqb_neq _ _)) by lia. done.
      * rewrite aget_aset_ne by done. rewrite (Hent j mj Hj).
        by rewrite (ltb_succ_ne j k).
    + rewrite u64_add_sub. rewrite (sumZ_aset _ _ v) by done. f_equal. lia.
Qed.

Lemma ddr_counter_loop_eq s d off :
  kwf s -> exists l', sampled s d off (num_ddr_controllers s) l' /\
    ddr_counter_loop d off s =
      Ok (u64 (sumZ l' - sumZ (last_update d (ddr s))),
          s <| ddr := set_last_update d (ddr s) l' |>).
Proof.
  intros Hs. unfold ddr_counter_loop. set (n := num_ddr_controllers s).
  pose proof (kwf_controllers s Hs) as Hn. fold n in Hn.
  assert (H : wp (fold_each (seqZ 0 n) 0 (ddr_counter_step d off)) s
    (loop_inv s d off n []) no_stop).
  { apply (wp_fold_each (loop_inv s d off n)).
    - exists 0, (last_update d (ddr s)).
      split_and!; [f_equal; lia|lia| | | |].
      + split; [apply ddr_wf_zlen, Hs|]. intros j m Hj.
        rewrite (proj2 (Z.ltb_ge _ _)); [done|]. apply aget_Some_range in Hj. lia.
      + rewrite set_last_update_id. by destruct s.
      + by rewrite Z.sub_diag.
      + intros E%(f_equal length). rewrite length_seqZ in E. simpl in E. lia.
    - intros. apply loop_inv_step; [done|lia|done]. }
  apply wp_no_stop in H as (a & s' & Hrun & k & l' & _ & _ & Hsam & -> & -> & Hkn).
  exists l'. rewrite (Hkn eq_refl) in Hsam. split; [done|]. exact Hrun.
Qed.

(** The register a read of the given kind samples. *)
Definition counter_off (cpu_type : Z) (d : ddr_dir) : Z :=
  if cpu_type =? DDR_CLIENT then
    match d with Rd => CLIENT_DDR_RD_BW | Wr => CLIENT_DDR_WR_BW end
  else match d with Rd => 0 | Wr => GRR_SRF_FREE_RUN_CNTR_WRITE - GRR_SRF_FREE_RUN_CNTR_READ end.

Definition pmu_type (d : ddr_dir) : Z := match d with Rd => DDR_PMU_RD | Wr => DDR_PMU_WR end.

Lemma u64_mul_64 x : u64 (u64 x * 64) = u64 (64 * x).
Proof. unfold u64, wrap. rewrite Zmult_mod_idemp_l. f_equal. lia. Qed.

Lemma kernel_pmu_ddr_eq s d :
  kwf s -> ddr_cpu_type s = DDR_CLIENT \/ ddr_cpu_type s = DDR_GRR_SRF ->
  exists l', sampled s d (counter_off (ddr_cpu_type s) d) (num_ddr_controllers s) l' /\
    kernel_pmu_ddr (pmu_type d) s =
      Ok (u64 (64 * (sumZ l' - sumZ (last_update d (ddr s)))),
          s <| ddr := set_last_update d (ddr s) l' |>).
Proof.
  intros Hs Ht.
  destruct (ddr_counter_loop_eq s d (counter_off (ddr_cpu_type s) d) Hs) as (l' & Hsam & Hrun).
  exists l'. split; [done|]. unfold kernel_pmu_ddr. rewrite bind_gets.
  destruct Ht as [Ht|Ht]; rewrite Ht in Hrun |- *; cbn [Z.eqb Pos.eqb];
    unfold kernel_pmu_ddr_client, kernel_pmu_ddr_grr_srf;
    destruct d; cbn [pmu_type]; cbn -[ddr_counter_loop u64 Z.mul set_last_update];
    cbn in Hrun; unfold mbind, ST_bind; rewrite Hrun; unfold mret, ST_ret; by rewrite u64_mul_64.
Qed.

(** Successive reads of one counter while the machine moves on ([hs] are its
    states at the reads). *)
Fixpoint ddr_reads (type : Z) (hs : list hw) : K (list Z) :=
  match hs with
  | [] => mret []
  | h :: hs' =>
      modify (fun s => s <| machine := h |>) ;;
      r ← kernel_pmu_ddr type;
      rs ← ddr_reads type hs';
      mret (r :: rs)
  end.

Lemma u64_add_mod a b : u64 (a + b) = u64 (u64 a + u64 b).
Proof. apply Zplus_mod. Qed.

Lemma sampled_ddr_wf s d off k l' : kwf s -> Forall (in_u 64) l' -> sampled s d off k l' ->
  ddr_wf (set_last_update d (ddr s) l').
Proof. intros Hs Hu [Hl _]. apply ddr_wf_last_update; [apply Hs|done|done]. Qed.

Lemma sampled_u64 s d off k l' : kwf s -> sampled s d off k l' -> Forall (in_u 64) l'.
Proof.
  intros Hs [Hl He]. apply Forall_lookup. intros i x Hx.
  pose proof (kwf_ddr s Hs) as Hd.
  assert (Hr : aget l' (Z.of_nat i) = Some x).
  { unfold aget. rewrite (proj2 (Z.leb_le _ _)) by lia. by rewrite Nat2Z.id. }
  pose proof (aget_Some_range _ _ _ Hr) as Hi. rewrite Hl in Hi.
  destruct (aget_is_Some (mmap (ddr s)) (Z.of_nat i)) as [m Hm]; [by rewrite (dwf_mmap _ Hd)|].
  rewrite (He _ _ Hm) in Hr. destruct (_ && _); [simplify_eq; apply u64_range|].
  eapply Forall_aget; [by apply ddr_wf_u64|exact Hr].
Qed.

(** One read, as a step of the telescope. *)
Lemma kernel_pmu_ddr_step s d :
  kwf s -> ddr_cpu_type s = DDR_CLIENT \/ ddr_cpu_type s = DDR_GRR_SRF ->
  exists s', kernel_pmu_ddr (pmu_type d) s =
      Ok (u64 (64 * (sumZ (last_update d (ddr s')) - sumZ (last_update d (ddr s)))), s') /\
    kwf s' /\ ddr_cpu_type s' = ddr_cpu_type s /\ mmap (ddr s') = mmap (ddr s) /\
    num_ddr_controllers s' = num_ddr_controllers s /\ iomaps s' = iomaps s /\
    sampled s d (counter_off (ddr_cpu_type s) d) (num_ddr_controllers s)
      (last_update d (ddr s')).
Proof.
  intros Hs Ht. destruct (kernel_pmu_ddr_eq s d Hs Ht) as (l' & Hsam & Hrun).
  exists (s <| ddr := set_last_update d (ddr s) l' |>).
  change (ddr (s <| ddr := _ |>)) with (set_last_update d (ddr s) l').
  destruct (set_last_update_same d (ddr s) l') as [Hu Hm].
  rewrite Hrun, Hu, Hm. split_and!; try done.
  apply kwf_set_ddr; [done|]. eapply sampled_ddr_wf; [done| |done]. by eapply sampled_u64.
Qed.

(** ** Properties *)

(** C31: [kernel_pmu_ddr] never loses or repeats traffic: however many times the
    read (or write) counter is sampled while the machine moves on, the byte
    counts returned add up, modulo 2^64, to 64 times the difference between
    the tables after the last and before the first read, and after the last
    read the table holds the hardware counter of every mapped controller. *)
Theorem ddr_reads_telescope (s : kstate) (d : ddr_dir) (hs : list hw) :
  kwf s -> ddr_cpu_type s = DDR_CLIENT \/ ddr_cpu_type s = DDR_GRR_SRF ->
  exists rs s', ddr_reads (pmu_type d) hs s = Ok (rs, s') /\ length rs = length hs /\
    u64 (sumZ rs) =
      u64 (64 * (sumZ (last_update d (ddr s')) - sumZ (last_update d (ddr s)))) /\
    (forall hs' h j m, hs = hs' ++ [h] -> j < num_ddr_controllers s ->
      aget (mmap (ddr s)) j = Some m -> m <> 0 ->
      aget (last_update d (ddr s')) j =
        Some (u64 (hw_mmio h (m + counter_off (ddr_cpu_type s) d)))).
Proof.
  revert s. induction hs as [|h hs IH]; intros s Hs Ht.
  - exists [], s. split_and!; try done; [by rewrite Z.sub_diag|]. by intros [].
  - assert (Hs0 : kwf (s <| machine := h |>)) by by apply kwf_machine.
    destruct (kernel_pmu_ddr_step _ d Hs0 Ht) as (s1 & Hrun & Hs1 & Ht1 & Hm1 & Hn1 & _ & Hsam).
    cbn in Ht1, Hm1, Hn1.
    destruct (IH s1 Hs1) as (rs & s2 & Hrs & Hlen & Hsum & Hlast); [by rewrite Ht1|].
    cbn [ddr_reads]. rewrite bind_modify, (bind_Ok _ _ _ _ _ Hrun), (bind_Ok _ _ _ _ _ Hrs).
    eexists _, _. split; [reflexivity|]. split; [simpl; by rewrite Hlen|]. split.
    + cbn [sumZ]. rewrite u64_add_mod, Hsum. unfold u64, wrap. rewrite Zmod_mod, <- Zplus_mod.
      f_equal. cbn. lia.
    + intros hs' h' j m Heq Hj Hm Hm0. destruct hs' as [|h0 hs'].
      * injection Heq as -> ->. cbn in Hrs. injection Hrs as <- <-.
        destruct Hsam as [_ Hent]. rewrite (Hent j m Hm). cbn.
        by rewrite (proj2 (Z.ltb_lt _ _)), (proj2 (Z.eqb_neq _ _)) by done.
      * injection Heq as -> ->. rewrite <- Ht1.
        eapply Hlast; [done|by rewrite Hn1|by rewrite Hm1|done].
Qed.

(** Two mapped controllers of a server part, for the examples. *)
Definition two_controllers : kstate :=
  kstate0 hw0 <| ddr_cpu_type := DDR_GRR_SRF |> <| num_ddr_controllers := 2 |>
    <| ddr := ddr_zero <| mmap := [100; 200] ++ replicate 14 0 |> |>.

Lemma ddr_reads_telescope_witness :
  exists rs s', ddr_reads DDR_PMU_RD
      [hw0 <| hw_mmio := fun a => a |>; hw0 <| hw_mmio := fun a => 2 * a |>] two_controllers
    = Ok (rs, s') /\ u64 (sumZ rs) = 64 * 600 /\
    aget (rd_last_update (ddr s')) 1 = Some 400.
Proof.
  assert (Hs : kwf two_controllers).
  { assert (Hd : ddr_wf (ddr_zero <| mmap := [100; 200] ++ replicate 14 0 |>))
      by (destruct ddr_zero_wf; by constructor).
    pose proof (kstate0_wf hw0) as H0. kwf_update H0. done. }
  destruct (ddr_reads_telescope two_controllers Rd
    [hw0 <| hw_mmio := fun a => a |>; hw0 <| hw_mmio := fun a => 2 * a |>] Hs (or_intror eq_refl))
    as (rs & s' & Hrun & _ & Hsum & Hlast).
  exists rs, s'. split; [exact Hrun|]. split.
  - rewrite Hsum. cbn [ddr_reads] in Hrun. clear -Hrun. vm_compute in Hrun.
    injection Hrun as _ <-. reflexivity.
  - exact (Hlast [_] _ 1 200 eq_refl eq_refl eq_refl ltac:(done)).
Defined.

(** ** Mappings

    The live mappings are exactly the non-null entries of [ddr.mmap]. *)

Definition nonnull (l : list Z) : list Z := filter (fun a => a <> 0) l.

Definition maps_ok (s : kstate) : Prop := iomaps s ≡ₚ nonnull (mmap (ddr s)).

Lemma remove_one_perm a l : a ∈ l -> l ≡ₚ a :: remove_one a l.
Proof.
  induction l as [|b l IH]; intros Ha; [by apply not_elem_of_nil in Ha|]. simpl.
  destruct (Z.eqb_spec a b) as [->|Hne]; [done|].
  apply elem_of_cons in Ha as [?|Ha]; [done|]. rewrite (IH Ha) at 1. by constructor.
Qed.

Lemma remove_one_cons a l l' : l ≡ₚ a :: l' -> remove_one a l ≡ₚ l'.
Proof.
  intros Hp. apply (Permutation_cons_inv (a := a)). rewrite <- Hp. symmetry.
  apply remove_one_perm. rewrite Hp. by left.
Qed.

Lemma nonnull_insert (l : list Z) (i : nat) a b :
  l !! i = Some a ->
  (if decide (a = 0) then [] else [a]) ++ nonnull (<[i := b]> l) ≡ₚ
  (if decide (b = 0) then [] else [b]) ++ nonnull l.
Proof.
  unfold nonnull. revert i. induction l as [|c l IH]; intros [|i] Hi; simpl in *; simplify_eq.
  - rewrite !filter_cons. repeat case_decide; try done; try lia; simpl. by apply perm_swap.
  - specialize (IH i Hi). rewrite !filter_cons. destruct (decide (c <> 0)); [|done].
    set (l1 := if decide (a = 0) then [] else [a]) in *.
    set (l2 := if decide (b = 0) then [] else [b]) in *.
    rewrite <- !Permutation_middle. by constructor.
Qed.

Lemma nonnull_map l i a :
  aget l i = Some 0 -> a <> 0 -> nonnull (aset l i a) ≡ₚ a :: nonnull l.
Proof.
  unfold aget, aset. destruct (0 <=? i); [|done]. intros Hi Ha.
  pose proof (nonnull_insert l (Z.to_nat i) 0 a Hi) as Hp. by case_decide; case_decide.
Qed.

Lemma nonnull_unmap l i a :
  aget l i = Some a -> a <> 0 -> nonnull l ≡ₚ a :: nonnull (aset l i 0).
Proof.
  unfold aget, aset. destruct (0 <=? i); [|done]. intros Hi Ha.
  pose proof (nonnull_insert l (Z.to_nat i) a 0 Hi) as Hp. by case_decide; case_decide.
Qed.

Lemma nonnull_zero l : (forall j m, aget l j = Some m -> m = 0) -> nonnull l = [].
Proof.
  intros Hz. unfold nonnull. induction l as [|a l IH]; [done|].
  rewrite filter_cons, decide_False.
  - apply IH. intros j m Hj. pose proof (aget_Some_range _ _ _ Hj) as Hr.
    apply (Hz (Z.succ j)). unfold aget in *.
    rewrite (proj2 (Z.leb_le 0 j)) in Hj by lia. rewrite (proj2 (Z.leb_le 0 (Z.succ j))) by lia.
    rewrite Z2Nat.inj_succ by lia. exact Hj.
  - intros Ha. by apply Ha, (Hz 0 a).
Qed.

(** Unmapping one controller, as [api_ddr_config], [dpf_module_exit] and the
    clean-up paths do it. *)
Lemma iounmap_set_mmap s i a :
  aget (mmap (ddr s)) i = Some a -> a <> 0 -> maps_ok s ->
  exists s', (iounmap a ;; set_mmap i 0) s = Ok (tt, s') /\ maps_ok s' /\
    s' = s <| iomaps := remove_one a (iomaps s) |>
           <| ddr := ddr s <| mmap := aset (mmap (ddr s)) i 0 |> |>.
Proof.
  intros Hi Ha Hs. unfold iounmap. rewrite bind_modify. unfold set_mmap. rewrite bind_gets.
  cbn. unfold check_index. erewrite bind_Ok.
  2:{ by rewrite (proj2 (in_range_zlen _ _) (aget_Some_range _ _ _ Hi)). }
  eexists. split; [reflexivity|]. split; [|done]. unfold maps_ok. cbn.
  apply remove_one_cons. unfold maps_ok in Hs. rewrite Hs. by apply nonnull_unmap.
Qed.

(** The mapping loop from controller [k] on. *)
Record map_inv (k : Z) (mapping : list Z) (s : kstate) : Prop := {
  mi_ok : maps_ok s;
  mi_len : zlen (mmap (ddr s)) = MAX_NUM_DDR_CONTROLLERS;
  mi_done : forall j, 0 <= j < k -> exists a, aget (mmap (ddr s)) j = Some a /\ a <> 0 /\
    aget mapping j = Some a;
  mi_todo : forall j a, k <= j -> aget (mmap (ddr s)) j = Some a -> a = 0 }.

Lemma set_mmap_Ok i a s :
  0 <= i < zlen (mmap (ddr s)) ->
  set_mmap i a s = Ok (tt, s <| ddr ::= fun x => x <| mmap ::= fun l => aset l i a |> |>).
Proof.
  intros Hi. unfold set_mmap. rewrite bind_gets. unfold check_index.
  by erewrite bind_Ok by by rewrite (proj2 (in_range_zlen _ _) Hi).
Qed.

Lemma map_inv_step k mapping s a :
  map_inv k mapping s -> 0 <= k < zlen mapping -> k < MAX_NUM_DDR_CONTROLLERS -> a <> 0 ->
  map_inv (k + 1) (aset mapping k a)
    (s <| iomaps ::= cons a |> <| ddr ::= fun x => x <| mmap ::= fun l => aset l k a |> |>).
Proof.
  intros [Hok Hlen Hdone Htodo] Hk Hn Ha.
  destruct (aget_is_Some (mmap (ddr s)) k) as [z Hz]; [lia|].
  pose proof (Htodo k z ltac:(lia) Hz) as ->.
  constructor; cbn; rewrite ?zlen_aset; try done.
  - unfold maps_ok. cbn. rewrite (nonnull_map _ _ _ Hz Ha). by constructor.
  - intros j Hj. destruct (decide (k = j)) as [->|Hne].
    + exists a. rewrite !aget_aset_eq by lia. done.
    + rewrite !aget_aset_ne by done. apply Hdone. lia.
  - intros j z Hj. rewrite aget_aset_ne by lia. apply Htodo. lia.
Qed.

Lemma map_controllers_spec reg_base range n fuel k mapping s (E : stop -> Prop) :
  (forall i s, 0 <= i < n -> wp (reg_base i) s (fun _ s' => s' = s) E) ->
  n <= zlen mapping \/ E OutOfBounds ->
  n <= MAX_NUM_DDR_CONTROLLERS -> 0 <= k -> fuel = Z.to_nat (n - k) -> map_inv k mapping s ->
  wp (map_controllers reg_base range (seqZ k (n - k)) mapping) s (fun r s' =>
    match r with
    | (None, m') => map_inv (Z.max k n) m' s'
    | (Some i, m') => k <= i < n /\ map_inv i m' s'
    end /\ exists d io, s' = s <| ddr := d |> <| iomaps := io |>) E.
Proof.
  intros Hbase Hmap Hn. revert k mapping s Hmap.
  induction fuel as [|fuel IH]; intros k mapping s Hmap Hk Hf Hinv.
  - rewrite seqZ_nil by lia. apply wp_ret. rewrite Z.max_l by lia. split; [done|].
    exists (ddr s), (iomaps s). by destruct s.
  - rewrite seqZ_cons by lia. cbn [map_controllers].
    apply wp_bind. eapply wp_mono; [apply (Hbase k s); lia| |done]. intros b s' ->.
    apply wp_bind, wp_check_index.
    2:{ intros Hf'. destruct Hmap as [Hmap|HE]; [|done].
        by rewrite (proj2 (in_range_zlen _ _)) in Hf' by lia. }
    intros Hr%in_range_zlen. apply wp_bind. unfold wp at 1, ioremap.
    set (a := hw_ioremap (machine s) b range).
    destruct (Z.eqb_spec a 0) as [Ha|Ha].
    + apply wp_ret. split; [|exists (ddr s), (iomaps s); by destruct s]. split; [lia|].
      destruct Hinv as [? ? Hdone ?]. constructor; try done.
      intros j Hj. rewrite aget_aset_ne by lia. by apply Hdone.
    + apply wp_bind. unfold wp at 1. rewrite set_mmap_Ok by (cbn; destruct Hinv; lia).
      replace (Z.pred (n - k)) with (n - (k + 1)) by lia.
      replace (Z.succ k) with (k + 1) by lia.
      eapply wp_mono; [apply IH; [by rewrite zlen_aset|lia|lia|apply map_inv_step; [done|done|lia|done]]| |done].
      intros [[i|] m'] s2; cbn -[Z.max]; intros [H (d & io & ->)]; (split; [|by eexists _, _]).
      * destruct H as (? & ?). split_and!; try done; lia.
      * replace (Z.max k n) with (Z.max (k + 1) n) by lia. done.
Qed.

Lemma unmap_controllers_spec mapping s k :
  map_inv k mapping s -> 0 <= k ->
  wp (unmap_controllers mapping k) s (fun _ s' => maps_ok s' /\
    zlen (mmap (ddr s')) = MAX_NUM_DDR_CONTROLLERS /\
    (forall j a, aget (mmap (ddr s')) j = Some a -> a = 0)) no_stop.
Proof.
  intros Hinv Hk. unfold unmap_controllers.
  remember (Z.to_nat k) as fuel eqn:Hf. revert k s Hk Hf Hinv.
  induction fuel as [|fuel IH]; intros k s Hk Hf Hinv.
  - replace k with 0 in * by lia. destruct Hinv. apply wp_ret. split_and!; try done.
    intros j a Hj. apply (mi_todo0 j); [|done]. apply aget_Some_range in Hj. lia.
  - replace k with (Z.of_nat fuel + 1) by lia. rewrite seqZ_app by lia. rewrite reverse_app.
    change (seqZ (0 + Z.of_nat fuel) 1) with [0 + Z.of_nat fuel].
    cbn [reverse rev_append app for_each]. rewrite Z.add_0_l.
    destruct (mi_done _ _ _ Hinv (Z.of_nat fuel) ltac:(lia)) as (a & Ha & Hne & Hm).
    apply wp_bind, wp_bind, wp_read; [|congruence]. intros a' Ha'. simplify_eq.
    rewrite (proj2 (Z.eqb_neq _ _)) by done.
    destruct (iounmap_set_mmap s _ _ Ha Hne (mi_ok _ _ _ Hinv)) as (s' & Hrun & Hok & Hs').
    unfold wp at 1. rewrite Hrun. apply IH; [lia|lia|]. subst s'. destruct Hinv.
    constructor; cbn; rewrite ?zlen_aset; try done.
    + intros j Hj. rewrite aget_aset_ne by lia. apply mi_done0. lia.
    + intros j z Hj. destruct (decide (Z.of_nat fuel = j)) as [<-|Hj'].
      * rewrite aget_aset_eq by by apply aget_Some_range in Ha. congruence.
      * rewrite aget_aset_ne by done. apply mi_todo0. lia.
Qed.

(** What an initialisation leaves behind: every controller mapped, or nothing. *)
Definition all_or_nothing (n r : Z) (s' : kstate) : Prop :=
  maps_ok s' /\
  ((r = 0 /\ forall j, 0 <= j < n -> exists a, aget (mmap (ddr s')) j = Some a /\ a <> 0) \/
   (r = - ENOMEM /\ iomaps s' = [] /\ nonnull (mmap (ddr s')) = [])).

Lemma map_or_cleanup_spec reg_base range mapping s (E : stop -> Prop) :
  kwf s -> maps_ok s -> (forall j a, aget (mmap (ddr s)) j = Some a -> a = 0) ->
  ddr_cpu_type s = DDR_CLIENT \/ ddr_cpu_type s = DDR_GRR_SRF ->
  (forall i s0, 0 <= i < num_ddr_controllers s -> wp (reg_base i) s0 (fun _ s' => s' = s0) E) ->
  num_ddr_controllers s <= zlen mapping \/ E OutOfBounds ->
  (forall i, preserves kwf (reg_base i)) ->
  wp (map_or_cleanup reg_base range mapping) s (all_or_nothing (num_ddr_controllers s)) E.
Proof.
  intros Hs Hok Hz Ht Hbase Hn Hpres. unfold map_or_cleanup. apply wp_bind, wp_gets.
  set (n := num_ddr_controllers s) in *. pose proof (kwf_controllers s Hs) as Hn16.
  replace (seqZ 0 n) with (seqZ 0 (n - 0)) by (f_equal; lia).
  assert (Hinv0 : map_inv 0 mapping s).
  { constructor; try done; [apply (kwf_ddr s Hs)|intros; lia|intros j a _; apply Hz]. }
  apply wp_bind. eapply wp_mono.
  { apply wp_conj; [by apply preserves_map_controllers|].
    apply (map_controllers_spec _ _ n (Z.to_nat (n - 0)) 0 mapping s E); try done; lia. }
  2: done.
  intros [[i|] m'] s' [Hs' [H (d & io & Hfr)]].
  - destruct H as (Hi & Hinv). apply wp_bind.
    eapply wp_mono; [apply (unmap_controllers_spec m' s' i); [done|lia]| |by intros ? []].
    intros [] s'' (Hok'' & _ & Hz''). apply wp_ret. split; [done|]. right.
    assert (Hnil : nonnull (mmap (ddr s'')) = []) by by apply nonnull_zero.
    split_and!; try done. unfold maps_ok in Hok''. rewrite Hnil in Hok''.
    by apply Permutation_nil_r.
  - assert (Ht' : ddr_cpu_type s' = ddr_cpu_type s) by by rewrite Hfr.
    destruct (kernel_pmu_ddr_step s' Rd Hs') as (s1 & Hrun1 & Hs1 & Ht1 & Hm1 & _ & Hi1 & _);
      [by rewrite Ht'|].
    destruct (kernel_pmu_ddr_step s1 Wr Hs1) as (s2 & Hrun2 & Hs2 & _ & Hm2 & _ & Hi2 & _);
      [by rewrite Ht1, Ht'|].
    apply wp_bind. unfold wp at 1. cbn [pmu_type] in Hrun1, Hrun2. rewrite Hrun1.
    apply wp_bind. unfold wp at 1. rewrite Hrun2. apply wp_ret.
    destruct H as [Hok' _ Hdone _]. unfold all_or_nothing, maps_ok.
    rewrite Hm2, Hm1, Hi2, Hi1. split; [done|]. left. split; [done|].
    intros j Hj. destruct (Hdone j) as (a & Ha & Hne & _); [lia|]. eauto.
Qed.

Lemma ddr_reset_spec s t bar :
  kwf s -> iomaps s = [] ->
  exists s', ddr_reset t bar s = Ok (tt, s') /\ kwf s' /\ maps_ok s' /\
    (forall j a, aget (mmap (ddr s')) j = Some a -> a = 0) /\
    ddr_cpu_type s' = ddr_cpu_type s /\ num_ddr_controllers s' = num_ddr_controllers s.
Proof.
  intros Hs Hio. eexists. split; [reflexivity|]. split_and!; try done.
  - by apply (preserves_ddr_reset t bar).
  - unfold maps_ok. cbn. by rewrite Hio.
  - cbn. intros j a Hj. change [0; 0; 0; 0; 0; 0; 0; 0; 0; 0; 0; 0; 0; 0; 0; 0] with
      (replicate 16 0) in Hj. unfold aget in Hj. destruct (0 <=? j); [|done].
    by apply lookup_replicate in Hj as [-> _].
Qed.

Lemma init_grr_srf_spec s bar :
  kwf s -> iomaps s = [] -> 1 <= num_ddr_controllers s -> ddr_cpu_type s = DDR_GRR_SRF ->
  wp (kernel_pmu_ddr_init_grr_srf bar) s (all_or_nothing (num_ddr_controllers s)) no_stop.
Proof.
  intros Hs Hio Hn1 Ht. pose proof (kwf_controllers s Hs) as Hn16.
  unfold kernel_pmu_ddr_init_grr_srf. apply wp_bind, wp_gets.
  rewrite (proj2 (Z.ltb_ge _ _)) by lia. apply wp_bind, wp_ret.
  destruct (ddr_reset_spec s DDR_GRR_SRF bar Hs Hio) as (s1 & Hrun & Hs1 & Hok & Hz & Ht1 & Hn).
  apply wp_bind. unfold wp at 1. rewrite Hrun. apply wp_bind, wp_gets.
  rewrite (proj2 (Z.leb_gt _ _)) by lia. rewrite <- Hn.
  apply map_or_cleanup_spec; try done.
  - right. by rewrite Ht1.
  - left. change (zlen (replicate 16 0)) with MAX_NUM_DDR_CONTROLLERS. lia.
  - intros i. unfold grr_srf_reg_base. preserve.
Qed.

Lemma init_client_spec s bar :
  kwf s -> iomaps s = [] -> 1 <= num_ddr_controllers s <= 2 -> ddr_cpu_type s = DDR_CLIENT ->
  wp (kernel_pmu_ddr_init_client bar) s (all_or_nothing (num_ddr_controllers s)) no_stop.
Proof.
  intros Hs Hio [Hn1 Hn2] Ht.
  unfold kernel_pmu_ddr_init_client.
  destruct (ddr_reset_spec s DDR_CLIENT bar Hs Hio) as (s1 & Hrun & Hs1 & Hok & Hz & Ht1 & Hn).
  apply wp_bind. unfold wp at 1. rewrite Hrun. rewrite <- Hn.
  apply map_or_cleanup_spec; try done.
  - left. by rewrite Ht1.
  - intros i s' Hi. unfold client_reg_base.
    destruct (aget_is_Some [CLIENT_DDR0_OFFSET; CLIENT_DDR1_OFFSET] i) as [off Ho].
    { unfold zlen. simpl. lia. }
    unfold wp. by erewrite bind_Ok by by apply read_Some.
  - left. change (zlen (replicate 2 0)) with 2. lia.
  - intros i. unfold client_reg_base. preserve.
Qed.

(** C32: initialising the DDR counters maps every controller or none: on
    success each of the [n] controllers has a live mapping in [ddr.mmap], on
    a failed [ioremap] the function returns [-ENOMEM] with every mapping it
    made undone; in both cases the live mappings are exactly the entries of
    [ddr.mmap], and no access is outside an array, for 1 to 16 controllers
    (server) and 1 or 2 (client). *)
Theorem ddr_init_all_or_nothing (s : kstate) (bar : Z) :
  kwf s -> iomaps s = [] -> 1 <= num_ddr_controllers s ->
  (ddr_cpu_type s = DDR_GRR_SRF -> exists r s', kernel_pmu_ddr_init_grr_srf bar s = Ok (r, s') /\
     all_or_nothing (num_ddr_controllers s) r s') /\
  (ddr_cpu_type s = DDR_CLIENT -> num_ddr_controllers s <= 2 ->
   exists r s', kernel_pmu_ddr_init_client bar s = Ok (r, s') /\
     all_or_nothing (num_ddr_controllers s) r s').
Proof.
  intros Hs Hio Hn1. split; [intros Ht|intros Ht Hn2]; apply wp_no_stop;
    [by apply init_grr_srf_spec|by apply init_client_spec].
Qed.

(** The third controller of a server part cannot be mapped. *)
Definition failing_server : kstate :=
  kstate0 (hw0 <| hw_ioremap := fun p _ => if p =? 0x24C000 + 0x8000 + 0x1A40 then 0 else p |>)
    <| ddr_cpu_type := DDR_GRR_SRF |> <| num_ddr_controllers := 8 |>.

Lemma ddr_init_all_or_nothing_witness :
  exists r s', kernel_pmu_ddr_init_grr_srf 0 failing_server = Ok (r, s') /\
    all_or_nothing 8 r s' /\ r = - ENOMEM.
Proof.
  assert (Hs : kwf failing_server).
  { unfold failing_server. match goal with |- context [kstate0 ?h] =>
      pose proof (kstate0_wf h) as H0 end. kwf_update H0. done. }
  destruct (ddr_init_all_or_nothing failing_server 0 Hs eq_refl ltac:(done)) as [H _].
  destruct (H eq_refl) as (r & s' & Hrun & Ha). exists r, s'. split_and!; try done.
  vm_compute in Hrun. by injection Hrun as <- _.
Defined.

Lemma map_controllers_cons reg_base range i l mapping s b :
  reg_base i s = Ok (b, s) -> in_range mapping i = true -> in_range (mmap (ddr s)) i = true ->
  hw_ioremap (machine s) b range <> 0 ->
  let a := hw_ioremap (machine s) b range in
  map_controllers reg_base range (i :: l) mapping s =
    map_controllers reg_base range l (aset mapping i a)
      (s <| iomaps ::= cons a |> <| ddr ::= fun x => x <| mmap ::= fun l => aset l i a |> |>).
Proof.
  intros Hb Hm Hd Ha a. cbn [map_controllers]. rewrite (bind_Ok _ _ _ _ _ Hb).
  unfold check_index. erewrite bind_Ok by by rewrite Hm.
  assert (Hio : ioremap b range s = Ok (a, s <| iomaps ::= cons a |>))
    by (unfold ioremap; by rewrite (proj2 (Z.eqb_neq _ 0) Ha)).
  rewrite (bind_Ok _ _ _ _ _ Hio). cbv zeta. rewrite (proj2 (Z.eqb_neq a 0) Ha). unfold set_mmap.
  erewrite bind_Ok; [reflexivity|]. rewrite bind_gets. cbn. unfold check_index.
  by erewrite bind_Ok by by rewrite Hd.
Qed.

(** The client initialisation indexes its two-element arrays with the
    controller number, while [api_ddr_config] admits up to
    [MAX_NUM_DDR_CONTROLLERS]: with three or more controllers and working
    mappings it reads past the end of [offsets]. *)
Theorem init_client_overrun (s : kstate) (bar : Z) :
  kwf s -> 3 <= num_ddr_controllers s ->
  (forall p n, hw_ioremap (machine s) p n <> 0) ->
  kernel_pmu_ddr_init_client bar s = Stop OutOfBounds.
Proof.
  intros Hs Hn Hmap. unfold kernel_pmu_ddr_init_client, ddr_reset. rewrite bind_modify.
  unfold map_or_cleanup. rewrite bind_gets. cbn [num_ddr_controllers set].
  set (n := num_ddr_controllers s) in *.
  do 3 (rewrite seqZ_cons by lia). apply bind_Stop.
  do 2 (erewrite map_controllers_cons; [|reflexivity|done|done|apply Hmap]).
  done.
Qed.

Lemma init_client_overrun_witness :
  kernel_pmu_ddr_init_client 0xfedc0000
    (kstate0 (hw0 <| hw_ioremap := fun _ _ => 1 |>) <| num_ddr_controllers := 3 |>)
  = Stop OutOfBounds.
Proof.
  apply init_client_overrun; [|done|done].
  match goal with |- context [kstate0 ?h] => pose proof (kstate0_wf h) as H0 end.
  kwf_update H0. done.
Defined.
