(* ===== verification/KMab.v ===== *)
(** * The multi-armed bandit of the kernel module ([kernel_mab.c])

    An arm is a setting of the seven prefetcher MSRs.  The first active core of
    a compute module (its leader) scans the arms, one per tick, and then keeps
    the module on the best one; every active core keeps the score of the arm
    that is running. *)

From S2P Require Import Prelude Bitfields KState KCommon.

Definition SCORE_EVENT_A : Z := PERF_INST_RETIRED_ANY_P.

Definition SCORE_EVENT_B : Z := PERF_CPU_CLK_UNHALTED_THREAD.

Definition SHIFT_A : Z := 0.

Definition SHIFT_B : Z := 10.

(** The core numbers [module_start .. module_start + 3] of a module's loop. *)
Definition module_cores (module_start : Z) : list Z :=
  seqZ module_start CORES_PER_COMPUTE_MODULE.

Definition module_start_of (module_idx : Z) : K Z :=
  gets (fun s => sys_first_core s + module_idx * CORES_PER_COMPUTE_MODULE).

(** [for (i in l) if (p(i)) return i; return -1;] *)
Fixpoint find_first (l : list Z) (p : Z -> K bool) : K Z :=
  match l with
  | [] => mret (-1)
  | i :: l' => b ← p i; if (b : bool) then mret i else find_first l' p
  end.

Definition mab_first_enabled_core (module_idx : Z) : K Z :=
  module_start ← module_start_of module_idx;
  find_first (module_cores module_start) (fun i =>
    c ← core_at i; mret (core_disabled c =? 0)).

(** Whether core [i] is skipped by the loops over a module's active cores
    ([core_disabled || idle_counter > 0]). *)
Definition mab_core_skipped (i : Z) : K bool :=
  c ← core_at i;
  if negb (core_disabled c =? 0) then mret true else
  m ← mab_core_at i;
  mret (0 <? mc_idle_counter m).

Definition mab_first_active_core (module_idx : Z) : K Z :=
  module_start ← module_start_of module_idx;
  find_first (module_cores module_start) (fun i =>
    skip ← mab_core_skipped i; mret (negb skip)).

Definition mab_module_score (module_idx arm_id : Z) : K Z :=
  module_start ← module_start_of module_idx;
  acc ← fold_each (module_cores module_start) (0, 0) (fun '(total_score, cores_count) i =>
    skip ← mab_core_skipped i;
    if (skip : bool) then mret (total_score, cores_count) else
    m ← mab_core_at i;
    a ← read (mc_arms m) arm_id;
    mret (u64 (total_score + score a), cores_count + 1));
  let '(total_score, cores_count) := acc in
  if cores_count =? 0 then mret 0 else mret (u32 (total_score / cores_count)).

Definition mab_apply_msr_config (core_id arm_id : Z) : K Z :=
  if (arm_id <? 0) || (MAX_ARMS <=? arm_id) then mret (- EINVAL) else
  configs ← gets mab_arm_configs;
  config ← read configs arm_id;
  c ← core_at core_id;
  put_core core_id (c <| pf_msr := config |>) ;;
  msr_set_dirty core_id ;;
  mret 0.

(** The change of a counter since the previous reading, [raw - old]. *)
Definition pmu_event (core_id ev : Z) : K Z :=
  c ← core_at core_id;
  raw ← read (pmu_raw c) ev;
  old ← read (pmu_old c) ev;
  mret (u64 (raw - old)).

(** [mab_compute_score]: the quotient is computed for the log line before the
    test for zero. *)
Definition mab_compute_score (core_id : Z) : K Z :=
  event_a ← pmu_event core_id SCORE_EVENT_A;
  event_b ← pmu_event core_id SCORE_EVENT_B;
  let a_scaled := Z.shiftr event_a SHIFT_A in
  let b_scaled := Z.shiftr event_b SHIFT_B in
  printed ← div_u a_scaled b_scaled;
  if b_scaled =? 0 then mret 0 else
  q ← div_u a_scaled b_scaled;
  mret (u32 q).

(** [mab_core_is_active]: 1 active, 0 idle, -1 on the first call or when less
    than a millisecond has passed. *)
Definition mab_core_is_active (core_id : Z) : K Z :=
  time_now ← ktime_get_ns;
  m ← mab_core_at core_id;
  if mc_time_old m =? 0 then
    put_mab_core core_id (m <| mc_time_old := time_now |>) ;; mret (-1)
  else
  let time_delta_ms := u64 (time_now - mc_time_old m) / 1000000 in
  put_mab_core core_id (m <| mc_time_old := time_now |>) ;;
  if time_delta_ms =? 0 then mret (-1) else
  core_cycles ← pmu_event core_id PERF_CPU_CLK_UNHALTED_THREAD;
  cycles_per_ms ← div_u core_cycles time_delta_ms;
  if cycles_per_ms <? IDLE_CYCLES_THRESHOLD then mret 0 else mret 1.

(** The two configurations of [mab_setup_default_arms], in table order. *)
Definition boot_default_arm : list Z :=
  [0x10883fea070906c4; 0x0000251134140001; 0x2807ffff4cd0046c; 0x0001f9c0c0000000;
   0x0600000000000000; 0x0000000005920014; 0x0000000000000004].

Definition aggressive_arm : list Z :=
  [0x008837ea070906c0; 0x0000251134040001; 0x280020820cd0046c; 0x0001f9c0c0000000;
   0x0600000000000000; 0x0000000001920014; 0x0000000000000004].

Definition mab_setup_default_arms : K unit :=
  modify (fun s => s <| mab_arm_configs ::=
    fun l => aset (aset l 0 boot_default_arm) 1 aggressive_arm |>).

(** [arms[arm].f = v] on a core's table. *)
Definition update_arm (core_id arm : Z) (f : mab_arm -> mab_arm) : K unit :=
  m ← mab_core_at core_id;
  a ← read (mc_arms m) arm;
  put_mab_core core_id (m <| mc_arms := aset (mc_arms m) arm (f a) |>).

Definition arm_score (core_id arm : Z) : K Z :=
  m ← mab_core_at core_id;
  a ← read (mc_arms m) arm;
  mret (score a).

(** The scan for the best arm of a core's table, from arm 0 upwards. *)
Definition best_arm_of (core_id : Z) : K Z :=
  fold_each (seqZ 1 (AVAILABLE_ARMS - 1)) 0 (fun best_arm i =>
    si ← arm_score core_id i;
    sb ← arm_score core_id best_arm;
    mret (if sb <? si then i else best_arm)).

Definition mab_init_core_step (core_id : Z) : K Z :=
  m ← mab_core_at core_id;
  if mc_initialized m =? MAB_INIT_NOT_STARTED then
    r ← mab_apply_msr_config core_id 0;
    if r <? 0 then mret (- EINVAL) else
    m ← mab_core_at core_id;
    put_mab_core core_id (m <| mc_active_arm := 0 |>
                            <| mc_initialized := MAB_INIT_IN_PROGRESS |>) ;;
    mret 0
  else
  sc ← mab_compute_score core_id;
  m ← mab_core_at core_id;
  let active_arm := mc_active_arm m in
  update_arm core_id active_arm (fun a => a <| last_score := score a |> <| score := sc |>) ;;
  if active_arm + 1 <? AVAILABLE_ARMS then
    m ← mab_core_at core_id;
    put_mab_core core_id (m <| mc_active_arm := mc_active_arm m + 1 |>) ;;
    r ← mab_apply_msr_config core_id (mc_active_arm m + 1);
    if r <? 0 then mret (- EINVAL) else mret 0
  else
  best_arm ← best_arm_of core_id;
  m ← mab_core_at core_id;
  put_mab_core core_id (m <| mc_active_arm := best_arm |>) ;;
  r ← mab_apply_msr_config core_id best_arm;
  if r <? 0 then mret (- EINVAL) else
  m ← mab_core_at core_id;
  put_mab_core core_id (m <| mc_initialized := MAB_INIT_DONE |>) ;;
  mret 0.

(** The module's arm selection of [mab_tuning]: [scores] starts as whatever
    the stack holds, and is compared while it is being filled. *)
Definition mab_select_step (module_idx : Z) (acc : list Z * Z) (i : Z) : K (list Z * Z) :=
  let '(scores, best_arm) := acc in
  sc ← mab_module_score module_idx i;
  check_index scores i ;;
  let scores' := aset scores i sc in
  si ← read scores' i;
  sb ← read scores' best_arm;
  mret (scores', if sb <? si then i else best_arm).

Definition mab_select_arm (module_idx active_arm : Z) (scores : list Z) : K Z :=
  r ← fold_each (seqZ 0 AVAILABLE_ARMS) (scores, active_arm) (mab_select_step module_idx);
  mret r.2.

Definition stack_junk (n : nat) : K (list Z) :=
  gets (fun s => map (fun i => u32 (hw_junk (machine s) i)) (seq 0 n)).

Definition mab_tuning (core_id : Z) : K Z :=
  module_idx ← module_id core_id;
  md ← mab_module_at module_idx;
  let active_arm := mm_active_arm md in
  sc ← mab_compute_score core_id;
  update_arm core_id active_arm (fun a => a <| last_score := score a |> <| score := sc |>) ;;
  ag ← gets aggr;
  for_each (seqZ 0 AVAILABLE_ARMS) (fun i =>
    if i =? active_arm then mret tt
    else update_arm core_id i (fun a => a <| score := u32 (score a + u32 ag) |>)) ;;
  printed_active ← arm_score core_id active_arm;
  printed_passive ← arm_score core_id (1 - active_arm);
  leader ← mab_first_active_core module_idx;
  if negb (core_id =? leader) then mret 0 else
  scores ← stack_junk 2;
  best_arm ← mab_select_arm module_idx active_arm scores;
  (if best_arm =? active_arm then mret tt else
   md ← mab_module_at module_idx;
   put_mab_module module_idx (md <| mm_active_arm := best_arm |>) ;;
   mab_apply_msr_config core_id best_arm ;;
   mret tt) ;;
  mret 0.

(** The scoring loop of [mab_init_module_step]: [mod->active_arm] is read for
    each core that contributes. *)
Definition mab_score_module (module_idx module_start : Z) : K unit :=
  for_each (module_cores module_start) (fun i =>
    skip ← mab_core_skipped i;
    if (skip : bool) then mret tt else
    sc ← mab_compute_score i;
    md ← mab_module_at module_idx;
    update_arm i (mm_active_arm md) (fun a => a <| score := sc |>)).

Definition mab_init_module_step (core_id : Z) : K Z :=
  module_idx ← module_id core_id;
  md ← mab_module_at module_idx;
  module_start ← module_start_of module_idx;
  if mm_initialized md =? MAB_INIT_NOT_STARTED then
    mab_apply_msr_config core_id 0 ;;
    put_mab_module module_idx (md <| mm_active_arm := 0 |>
                                   <| mm_initialized := MAB_INIT_IN_PROGRESS |>) ;;
    mret 0
  else
  mab_score_module module_idx module_start ;;
  sc ← mab_module_score module_idx (mm_active_arm md);
  update_arm core_id (mm_active_arm md) (fun a => a <| score := sc |>) ;;
  if mm_active_arm md + 1 <? AVAILABLE_ARMS then
    put_mab_module module_idx (md <| mm_active_arm := mm_active_arm md + 1 |>) ;;
    mab_apply_msr_config core_id (mm_active_arm md + 1) ;;
    mret 0
  else
  best_arm ← best_arm_of core_id;
  put_mab_module module_idx (md <| mm_active_arm := best_arm |>) ;;
  mab_apply_msr_config core_id best_arm ;;
  md ← mab_module_at module_idx;
  put_mab_module module_idx (md <| mm_initialized := MAB_INIT_DONE |>) ;;
  mret 0.

(** ** Invariance *)

Lemma preserves_find_first I l p :
  (forall i, preserves I (p i)) -> preserves I (find_first l p).
Proof. intros Hp. induction l as [|i l IH]; cbn [find_first]; preserve. Qed.

Lemma preserves_skipped i : preserves kwf (mab_core_skipped i).
Proof. unfold mab_core_skipped. kpreserve. Qed.

Lemma preserves_first_enabled m : preserves kwf (mab_first_enabled_core m).
Proof.
  unfold mab_first_enabled_core, module_start_of. kpreserve.
  apply preserves_find_first. intros i. kpreserve.
Qed.

#[export] Hint Resolve preserves_skipped preserves_first_enabled : preserve.

Lemma preserves_first_active m : preserves kwf (mab_first_active_core m).
Proof.
  unfold mab_first_active_core, module_start_of. kpreserve.
  apply preserves_find_first. intros i. kpreserve.
Qed.

Lemma preserves_module_score m a : preserves kwf (mab_module_score m a).
Proof. unfold mab_module_score, module_start_of. kpreserve. Qed.

Lemma preserves_pmu_event i ev : preserves kwf (pmu_event i ev).
Proof. unfold pmu_event. kpreserve. Qed.

#[export] Hint Resolve preserves_first_active preserves_module_score preserves_pmu_event : preserve.

Lemma preserves_compute_score i : preserves kwf (mab_compute_score i).
Proof. unfold mab_compute_score. kpreserve. Qed.

Lemma preserves_apply_msr_config i a : preserves kwf (mab_apply_msr_config i a).
Proof.
  unfold mab_apply_msr_config. destruct (_ || _); [kpreserve|].
  intros s Hs. apply wp_bind, wp_gets, wp_bind, wp_read; [|done]. intros config Hcfg.
  destruct (Forall_aget _ _ _ _ (kwf_arm_config s Hs) Hcfg) as [Hlen Hu].
  revert s Hs Hcfg. assert (Hp : preserves kwf
    (c ← core_at i; put_core i (c <| pf_msr := config |>) ;; msr_set_dirty i ;; mret 0));
    [|intros s Hs _; by apply Hp].
  kpreserve. apply preserves_put_core. by apply core_wf_msr.
Qed.

#[export] Hint Resolve preserves_compute_score preserves_apply_msr_config : preserve.

Lemma mab_core_wf_arms m l :
  mab_core_wf m -> zlen l = MAX_ARMS -> Forall arm_wf l -> mab_core_wf (m <| mc_arms := l |>).
Proof. intros [] Hl Ha. by constructor. Qed.

Lemma mab_core_wf_active m a :
  mab_core_wf m -> 0 <= a < AVAILABLE_ARMS -> mab_core_wf (m <| mc_active_arm := a |>).
Proof. intros [] Ha. by constructor. Qed.

Lemma mab_core_wf_init m a : mab_core_wf m -> mab_core_wf (m <| mc_initialized := a |>).
Proof. intros []. by constructor. Qed.

Lemma mab_core_wf_idle m a : mab_core_wf m -> mab_core_wf (m <| mc_idle_counter := a |>).
Proof. intros []. by constructor. Qed.

Lemma mab_core_wf_time m t :
  mab_core_wf m -> in_u 64 t -> mab_core_wf (m <| mc_time_old := t |>).
Proof. intros [] Ht. by constructor. Qed.

Lemma preserves_update_arm i a f :
  (forall x, arm_wf x -> arm_wf (f x)) -> preserves kwf (update_arm i a f).
Proof.
  intros Hf. unfold update_arm. kpreserve_step. intros s Hs.
  apply wp_bind, wp_read; [|done]. intros x Hx. destruct H as [Hl Ha ? ?].
  apply preserves_put_mab_core; [|done]. apply mab_core_wf_arms; [by constructor| |].
  - by rewrite zlen_aset.
  - apply Forall_aset; [done|]. apply Hf. by eapply Forall_aget.
Qed.

Lemma preserves_arm_score i a : preserves kwf (arm_score i a).
Proof. unfold arm_score. kpreserve. Qed.

#[export] Hint Resolve preserves_arm_score mab_core_wf_active mab_core_wf_init
  mab_core_wf_idle mab_core_wf_time : preserve.

Lemma preserves_ktime {B} (k : Z -> K B) :
  (forall t, in_u 64 t -> preserves kwf (k t)) -> preserves kwf (mbind k ktime_get_ns).
Proof.
  intros Hk s Hs. unfold wp, mbind, ST_bind, ktime_get_ns.
  destruct (hw_clock (machine s)); [by apply Hk|].
  apply Hk; [apply u64_range|by apply kwf_machine].
Qed.

Lemma preserves_is_active i : preserves kwf (mab_core_is_active i).
Proof.
  unfold mab_core_is_active. apply preserves_ktime. intros t Ht. kpreserve.
Qed.

#[export] Hint Resolve preserves_is_active : preserve.

Lemma compute_score_u32 i : returns (in_u 32) (mab_compute_score i).
Proof.
  unfold mab_compute_score. do 3 (apply returns_bind; [eauto with preserve|intros ?]).
  destruct (_ =? 0); [by apply returns_ret|].
  apply returns_bind; [eauto with preserve|intros ?]. apply returns_ret, u32_range.
Qed.

Lemma module_score_u32 m a : returns (in_u 32) (mab_module_score m a).
Proof.
  unfold mab_module_score, module_start_of. apply returns_bind; [eauto with preserve|intros ?].
  apply returns_bind; [kpreserve|]. intros [t c].
  destruct (_ =? 0); apply returns_ret; [done|apply u32_range].
Qed.

Lemma best_arm_range i : returns (fun a => 0 <= a < AVAILABLE_ARMS) (best_arm_of i).
Proof.
  apply returns_fold_each; [done|]. intros x b Hx%elem_of_seqZ Hb.
  do 2 (apply returns_bind; [eauto with preserve|intros ?]). apply returns_ret.
  unfold AVAILABLE_ARMS in *. destruct (_ <? _); lia.
Qed.

Lemma select_arm_range m a scores :
  0 <= a < AVAILABLE_ARMS ->
  returns (fun a => 0 <= a < AVAILABLE_ARMS) (mab_select_arm m a scores).
Proof.
  intros Ha s Hs. unfold mab_select_arm. apply wp_bind.
  eapply wp_mono; [apply (returns_fold_each (fun r => 0 <= r.2 < AVAILABLE_ARMS)); [done| |done]| |done].
  - intros x [scs b] Hx%elem_of_seqZ Hb.
    unfold mab_select_step.
    do 4 (apply returns_bind; [eauto with preserve|intros ?]). apply returns_ret.
    unfold AVAILABLE_ARMS in *. cbn in *. destruct (_ <? _); lia.
  - intros [scs b] s' [Hb Hs']. by apply wp_ret.
Qed.

Lemma arm_wf_score a v : arm_wf a -> in_u 32 v -> arm_wf (a <| score := v |>).
Proof. intros [] Hv. by split. Qed.

Lemma arm_wf_last_score a v : arm_wf a -> in_u 32 v -> arm_wf (a <| last_score := v |>).
Proof. intros [] Hv. by split. Qed.

Lemma arm_wf_rescore a v :
  arm_wf a -> in_u 32 v -> arm_wf (a <| last_score := score a |> <| score := v |>).
Proof. intros Ha Hv. apply arm_wf_score; [|done]. apply arm_wf_last_score; [done|apply Ha]. Qed.

Lemma module_wf_active m a :
  mab_module_wf m -> 0 <= a < AVAILABLE_ARMS -> mab_module_wf (m <| mm_active_arm := a |>).
Proof. intros [] Ha. by constructor. Qed.

Lemma module_wf_init m a :
  mab_module_wf m -> a = MAB_INIT_NOT_STARTED \/ a = MAB_INIT_IN_PROGRESS \/ a = MAB_INIT_DONE ->
  mab_module_wf (m <| mm_initialized := a |>).
Proof. intros [] Ha. by constructor. Qed.

Lemma module_wf_idle m a : mab_module_wf m -> mab_module_wf (m <| mm_idle_counter := a |>).
Proof. intros []. by constructor. Qed.

Lemma in_u_u32 x : in_u 32 (u32 x).
Proof. apply u32_range. Qed.

#[export] Hint Resolve arm_wf_score arm_wf_rescore module_wf_active module_wf_init module_wf_idle
  in_u_u32 mcwf_active mmwf_active : preserve.

(** Steps over the calls whose result is bounded. *)
Ltac mab_step :=
  match goal with
  | |- preserves kwf (mbind _ (mab_compute_score _)) =>
      apply (preserves_returns _ _ _ (compute_score_u32 _)); intros ? ?
  | |- preserves kwf (mbind _ (mab_module_score _ _)) =>
      apply (preserves_returns _ _ _ (module_score_u32 _ _)); intros ? ?
  | |- preserves kwf (mbind _ (best_arm_of _)) =>
      apply (preserves_returns _ _ _ (best_arm_range _)); intros ? ?
  | |- preserves kwf (mbind _ (mab_select_arm _ _ _)) =>
      eapply preserves_returns; [apply select_arm_range; by apply mmwf_active|intros ? ?]
  | |- preserves kwf (update_arm _ _ _) =>
      apply preserves_update_arm; solve [eauto with preserve]
  | _ => kpreserve_step
  end.

Lemma next_arm_range a :
  0 <= a < AVAILABLE_ARMS -> (a + 1 <? AVAILABLE_ARMS) = true -> 0 <= a + 1 < AVAILABLE_ARMS.
Proof. intros ? ?%Z.ltb_lt. lia. Qed.

(** [update_arm] keeps the rest of the core's entry. *)
Lemma update_arm_keeps i a f s m :
  aget (mab_cores s) i = Some m ->
  wp (update_arm i a f) s (fun _ s' => exists l,
    aget (mab_cores s') i = Some (m <| mc_arms := l |>)) any_stop.
Proof.
  intros Hm. unfold update_arm. apply wp_bind, wp_mab_core_at; [|done]. intros m' Hm'.
  simplify_eq. apply wp_bind, wp_read; [|done]. intros x Hx. apply wp_put_mab_core; [|done].
  intros Hr. eexists. cbn. by apply aget_aset_eq, in_range_zlen.
Qed.

(** The step to the next arm after the running one has been scored. *)
Lemma preserves_next_arm i a f (k : mab_core -> K Z) m :
  (forall x, arm_wf x -> arm_wf (f x)) -> mab_core_wf m ->
  (forall m', mab_core_wf m' -> mc_active_arm m' = mc_active_arm m -> preserves kwf (k m')) ->
  forall s, kwf s -> aget (mab_cores s) i = Some m ->
  wp (update_arm i a f ;; m' ← mab_core_at i; k m') s (fun _ => kwf) any_stop.
Proof.
  intros Hf Hwf Hk s Hs Hm. apply wp_bind.
  eapply wp_mono; [apply wp_conj; [by apply update_arm_keeps|by apply preserves_update_arm]| |done].
  intros [] s' [[l Hl] Hs']. apply wp_bind, wp_mab_core_at; [|done].
  intros m' Hm'. simplify_eq. apply Hk; [|done|done].
  by eapply Forall_aget; [apply (kwf_mab_core s' Hs')|].
Qed.

Lemma preserves_init_core_step i : preserves kwf (mab_init_core_step i).
Proof.
  unfold mab_init_core_step. kpreserve_step. destruct (_ =? _).
  { repeat mab_step. apply preserves_put_mab_core. by apply mab_core_wf_init, mab_core_wf_active. }
  mab_step. intros s Hs. apply wp_bind, wp_mab_core_at; [|done]. intros m Hm. cbv zeta.
  assert (Hwf : mab_core_wf m) by by eapply Forall_aget; [apply (kwf_mab_core s Hs)|].
  destruct (_ <? _) eqn:Hb.
  - eapply preserves_next_arm; [by eauto with preserve|done| |done|done].
    intros m' Hm' Heq. repeat mab_step. apply preserves_put_mab_core, mab_core_wf_active; [done|].
    rewrite Heq. apply next_arm_range; [by apply mcwf_active|done].
  - revert s Hs Hm. assert (Hp : preserves kwf
      (update_arm i (mc_active_arm m) (fun a1 => a1 <| last_score := score a1 |> <| score := a |>) ;;
       best_arm ← best_arm_of i;
       m ← mab_core_at i;
       put_mab_core i (m <| mc_active_arm := best_arm |>) ;;
       r ← mab_apply_msr_config i best_arm;
       if r <? 0 then mret (- EINVAL) else
       m ← mab_core_at i;
       put_mab_core i (m <| mc_initialized := MAB_INIT_DONE |>) ;;
       mret 0)) by repeat mab_step.
    intros s Hs _. by apply Hp.
Qed.

Lemma preserves_score_module m start : preserves kwf (mab_score_module m start).
Proof. unfold mab_score_module. repeat mab_step. Qed.

#[export] Hint Resolve preserves_score_module : preserve.

Lemma preserves_init_module_step i : preserves kwf (mab_init_module_step i).
Proof.
  unfold mab_init_module_step, module_id, module_start_of. do 3 mab_step; try by eauto with preserve.
  destruct (_ =? _).
  { repeat mab_step. apply preserves_put_mab_module.
    apply module_wf_init; [by apply module_wf_active|]. right. by left. }
  mab_step; [by eauto with preserve|]. do 2 mab_step; [repeat mab_step|].
  destruct (_ <? _) eqn:Hb.
  - repeat mab_step. apply preserves_put_mab_module, module_wf_active; [done|].
    apply next_arm_range; [by apply mmwf_active|done].
  - repeat mab_step.
Qed.

Lemma preserves_mab_tuning i : preserves kwf (mab_tuning i).
Proof.
  unfold mab_tuning, module_id, stack_junk. repeat mab_step.
Qed.

#[export] Hint Resolve preserves_init_core_step preserves_init_module_step
  preserves_mab_tuning : preserve.

(** ** Functional behaviour *)

(** Core [i] takes part in its module's decisions. *)
Definition active (s : kstate) (i : Z) : bool :=
  match aget (corestate s) i, aget (mab_cores s) i with
  | Some c, Some m => (core_disabled c =? 0) && negb (0 <? mc_idle_counter m)
  | _, _ => false
  end.

Lemma in_tables s i : kwf s -> 0 <= i < MAX_NUM_CORES ->
  (exists c, aget (corestate s) i = Some c /\ core_wf c) /\
  (exists m, aget (mab_cores s) i = Some m /\ mab_core_wf m).
Proof.
  intros Hs Hi.
  destruct (aget_is_Some (corestate s) i) as [c Hc]; [by rewrite (kwf_cores s Hs)|].
  destruct (aget_is_Some (mab_cores s) i) as [m Hm]; [by rewrite (kwf_mab_cores s Hs)|].
  split; eexists; (split; [done|]);
    [by eapply Forall_aget; [apply (kwf_core s Hs)|]|by eapply Forall_aget; [apply (kwf_mab_core s Hs)|]].
Qed.

Lemma mab_core_at_Some i s m : aget (mab_cores s) i = Some m -> mab_core_at i s = Ok (m, s).
Proof. apply read_Some. Qed.

Lemma mab_module_at_Some i s m : aget (mab_modules s) i = Some m -> mab_module_at i s = Ok (m, s).
Proof. apply read_Some. Qed.

Lemma put_mab_core_Ok i c s :
  0 <= i < zlen (mab_cores s) ->
  put_mab_core i c s = Ok (tt, s <| mab_cores := aset (mab_cores s) i c |>).
Proof. intros Hi. unfold put_mab_core. by rewrite (proj2 (in_range_zlen _ _) Hi). Qed.

Lemma put_mab_module_Ok i c s :
  0 <= i < zlen (mab_modules s) ->
  put_mab_module i c s = Ok (tt, s <| mab_modules := aset (mab_modules s) i c |>).
Proof. intros Hi. unfold put_mab_module. by rewrite (proj2 (in_range_zlen _ _) Hi). Qed.

Lemma mab_core_skipped_eq s i :
  kwf s -> 0 <= i < MAX_NUM_CORES -> mab_core_skipped i s = Ok (negb (active s i), s).
Proof.
  intros Hs Hi. destruct (in_tables s i Hs Hi) as [(c & Hc & _) (m & Hm & _)].
  unfold mab_core_skipped, active. rewrite Hc, Hm, (bind_Ok _ _ _ _ _ (core_at_Some _ _ _ Hc)).
  destruct (core_disabled c =? 0); [|done]. cbn [negb andb].
  rewrite (bind_Ok _ _ _ _ _ (mab_core_at_Some _ _ _ Hm)). by rewrite negb_involutive.
Qed.

Fixpoint first_of (f : Z -> bool) (l : list Z) : Z :=
  match l with
  | [] => -1
  | i :: l' => if f i then i else first_of f l'
  end.

Lemma find_first_eq (f : Z -> bool) (p : Z -> K bool) l s :
  (forall i, i ∈ l -> p i s = Ok (f i, s)) -> find_first l p s = Ok (first_of f l, s).
Proof.
  induction l as [|i l IH]; intros Hp; [done|]. cbn [find_first first_of].
  rewrite (bind_Ok _ _ _ _ _ (Hp i ltac:(by left))). destruct (f i); [done|].
  apply IH. intros j Hj. apply Hp. by right.
Qed.

(** [first_of] over consecutive numbers is the least one that qualifies. *)
Lemma first_of_seqZ f a n :
  let r := first_of f (seqZ a n) in
  (r = -1 /\ forall i, a <= i < a + n -> f i = false) \/
  (a <= r < a + n /\ f r = true /\ forall i, a <= i < r -> f i = false).
Proof.
  cbv zeta. remember (Z.to_nat n) as k eqn:Hk. revert a n Hk. induction k as [|k IH]; intros a n Hk.
  - rewrite seqZ_nil by lia. left. split; [done|]. intros; lia.
  - rewrite seqZ_cons by lia. cbn [first_of]. destruct (f a) eqn:Hf.
    + right. split_and!; [lia|lia|done|]. intros; lia.
    + destruct (IH (Z.succ a) (Z.pred n) ltac:(lia)) as [[-> H]|(Hr & Ht & H)]; [left|right].
      * split; [done|]. intros i Hi. destruct (decide (i = a)) as [->|]; [done|]. apply H. lia.
      * split_and!; [lia|lia|done|]. intros i Hi.
        destruct (decide (i = a)) as [->|]; [done|]. apply H. lia.
Qed.

Definition module_first (s : kstate) (m : Z) : Z :=
  sys_first_core s + m * CORES_PER_COMPUTE_MODULE.

(** The cores of module [m] lie within the tables. *)
Definition module_fits (s : kstate) (m : Z) : Prop :=
  0 <= module_first s m /\ module_first s m + CORES_PER_COMPUTE_MODULE <= MAX_NUM_CORES.

Lemma first_active_eq s m :
  kwf s -> module_fits s m ->
  mab_first_active_core m s =
    Ok (first_of (active s) (module_cores (module_first s m)), s).
Proof.
  intros Hs [H0 H1]. unfold mab_first_active_core, module_start_of. rewrite bind_gets.
  apply find_first_eq. intros i Hi%elem_of_seqZ.
  rewrite (bind_Ok _ _ _ _ _ (mab_core_skipped_eq s i Hs ltac:(lia))).
  by rewrite negb_involutive.
Qed.

(** The active cores of module [m], and their scores of an arm. *)
Definition active_members (s : kstate) (m : Z) : list Z :=
  filter (fun i => active s i = true) (module_cores (module_first s m)).

Definition score_of (s : kstate) (arm i : Z) : Z :=
  match aget (mab_cores s) i with
  | Some c => match aget (mc_arms c) arm with Some a => score a | None => 0 end
  | None => 0
  end.

Fixpoint sum_scores (s : kstate) (arm : Z) (l : list Z) : Z :=
  match l with
  | [] => 0
  | i :: l' => score_of s arm i + sum_scores s arm l'
  end.

Lemma score_of_range s arm i : kwf s -> 0 <= score_of s arm i < 2 ^ 32.
Proof.
  intros Hs. unfold score_of. destruct (aget (mab_cores s) i) as [c|] eqn:Hc; [|done].
  destruct (aget (mc_arms c) arm) as [a|] eqn:Ha; [|done].
  pose proof (Forall_aget _ _ _ _ (kwf_mab_core s Hs) Hc) as [_ Harms _ _].
  apply (Forall_aget _ _ _ _ Harms Ha).
Qed.

Lemma score_loop_eq s arm l t c :
  kwf s -> 0 <= arm < MAX_ARMS -> (forall i, i ∈ l -> 0 <= i < MAX_NUM_CORES) ->
  0 <= t -> t + sum_scores s arm (filter (fun i => active s i = true) l) < 2 ^ 64 ->
  fold_each l (t, c) (fun '(total_score, cores_count) i =>
    skip ← mab_core_skipped i;
    if (skip : bool) then mret (total_score, cores_count) else
    m ← mab_core_at i;
    a ← read (mc_arms m) arm;
    mret (u64 (total_score + score a), cores_count + 1)) s =
  Ok ((t + sum_scores s arm (filter (fun i => active s i = true) l),
       c + zlen (filter (fun i => active s i = true) l)), s).
Proof.
  intros Hs Harm. revert t c. induction l as [|i l IH]; intros t c Hl Ht Hsum.
  - cbn. unfold zlen. simpl. by rewrite !Z.add_0_r.
  - assert (Hi : 0 <= i < MAX_NUM_CORES) by (apply Hl; by left).
    assert (Hl' : forall j, j ∈ l -> 0 <= j < MAX_NUM_CORES) by (intros; apply Hl; by right).
    cbn [fold_each]. pose proof (mab_core_skipped_eq s i Hs Hi) as Hsk.
    rewrite filter_cons in Hsum |- *. destruct (active s i) eqn:Hact; cbn [negb] in Hsk.
    + rewrite decide_True in Hsum |- * by done.
      destruct (in_tables s i Hs Hi) as [_ (m & Hm & Hwf)].
      destruct (aget_is_Some (mc_arms m) arm) as [a Ha]; [by rewrite (mcwf_arms m Hwf)|].
      assert (Hsc : score_of s arm i = score a) by (unfold score_of; by rewrite Hm, Ha).
      cbn [sum_scores] in Hsum |- *. pose proof (score_of_range s arm i Hs) as Hr.
      assert (Hsum' : 0 <= sum_scores s arm (filter (fun i => active s i = true) l)).
      { clear -Hs. induction (filter _ l) as [|j k IHk]; cbn; [done|].
        pose proof (score_of_range s arm j Hs). lia. }
      erewrite bind_Ok.
      2:{ rewrite (bind_Ok _ _ _ _ _ Hsk). rewrite (bind_Ok _ _ _ _ _ (mab_core_at_Some _ _ _ Hm)).
          rewrite (bind_Ok _ _ _ _ _ (read_Some _ _ _ _ Ha)). reflexivity. }
      rewrite u64_small by lia. rewrite IH by (try done; lia). rewrite <- Hsc.
      unfold zlen. cbn [length]. rewrite Nat2Z.inj_succ. do 3 f_equal; lia.
    + rewrite decide_False in Hsum |- * by done.
      erewrite bind_Ok by (rewrite (bind_Ok _ _ _ _ _ Hsk); reflexivity).
      by apply IH.
Qed.

Lemma sum_scores_range s arm l :
  kwf s -> 0 <= sum_scores s arm l <= zlen l * (2 ^ 32 - 1).
Proof.
  intros Hs. induction l as [|i l IH]; [done|]. cbn [sum_scores].
  pose proof (score_of_range s arm i Hs). unfold zlen in *. cbn [length].
  rewrite Nat2Z.inj_succ. lia.
Qed.

Lemma active_members_length s m : zlen (active_members s m) <= CORES_PER_COMPUTE_MODULE.
Proof.
  unfold active_members, zlen. etransitivity.
  - apply inj_le, (length_filter (fun i => active s i = true)).
  - unfold module_cores. rewrite length_seqZ. done.
Qed.

(** The average of the contributing scores; 0 when nobody contributes. *)
Definition average_score (s : kstate) (arm : Z) (l : list Z) : Z :=
  if zlen l =? 0 then 0 else sum_scores s arm l / zlen l.

Lemma average_score_range s arm l : kwf s -> 0 <= average_score s arm l < 2 ^ 32.
Proof.
  intros Hs. unfold average_score. destruct (Z.eqb_spec (zlen l) 0) as [|Hz]; [done|].
  pose proof (sum_scores_range s arm l Hs). assert (0 < zlen l) by (unfold zlen in *; lia).
  split; [apply Z.div_pos; lia|]. apply Z.div_lt_upper_bound; [done|]. lia.
Qed.

Lemma module_score_eq s m arm :
  kwf s -> module_fits s m -> 0 <= arm < MAX_ARMS ->
  mab_module_score m arm s = Ok (average_score s arm (active_members s m), s).
Proof.
  intros Hs [H0 H1] Harm. unfold mab_module_score, module_start_of. rewrite bind_gets.
  fold (module_first s m).
  pose proof (sum_scores_range s arm (active_members s m) Hs) as Hsum.
  pose proof (active_members_length s m) as Hlen. unfold CORES_PER_COMPUTE_MODULE in Hlen.
  erewrite bind_Ok.
  2:{ apply score_loop_eq; [done|done| |done|].
      - intros i Hi%elem_of_seqZ. lia.
      - fold (active_members s m). lia. }
  fold (active_members s m). cbv beta iota. rewrite !Z.add_0_l.
  pose proof (average_score_range s arm (active_members s m) Hs) as Hr.
  unfold average_score in *. destruct (_ =? 0); [done|]. by rewrite u32_small.
Qed.

(** A counter's change in a core's table. *)
Definition event_of (s : kstate) (i ev : Z) : Z :=
  match aget (corestate s) i with
  | Some c => u64 (default 0 (aget (pmu_raw c) ev) - default 0 (aget (pmu_old c) ev))
  | None => 0
  end.

Lemma event_of_frame s s' i ev : corestate s' = corestate s -> event_of s' i ev = event_of s i ev.
Proof. unfold event_of. by intros ->. Qed.

Lemma pmu_event_eq s i ev :
  kwf s -> 0 <= i < MAX_NUM_CORES -> 0 <= ev < PMU_COUNTERS ->
  pmu_event i ev s = Ok (event_of s i ev, s).
Proof.
  intros Hs Hi Hev. destruct (in_tables s i Hs Hi) as [(c & Hc & Hwf) _].
  destruct (aget_is_Some (pmu_raw c) ev) as [x Hx]; [by rewrite (cwf_raw c Hwf)|].
  destruct (aget_is_Some (pmu_old c) ev) as [y Hy]; [by rewrite (cwf_old c Hwf)|].
  unfold pmu_event, event_of. rewrite Hc, (bind_Ok _ _ _ _ _ (core_at_Some _ _ _ Hc)), Hx, Hy.
  rewrite (bind_Ok _ _ _ _ _ (read_Some _ _ _ _ Hx)).
  by rewrite (bind_Ok _ _ _ _ _ (read_Some _ _ _ _ Hy)).
Qed.

(** Instructions per 1024 cycles of the last interval. *)
Definition core_score (s : kstate) (i : Z) : Z :=
  u32 (event_of s i SCORE_EVENT_A / (event_of s i SCORE_EVENT_B / 1024)).

Lemma compute_score_eq s i :
  kwf s -> 0 <= i < MAX_NUM_CORES ->
  mab_compute_score i s =
    if event_of s i SCORE_EVENT_B <? 1024 then Stop DivByZero else Ok (core_score s i, s).
Proof.
  intros Hs Hi. unfold mab_compute_score.
  rewrite (bind_Ok _ _ _ _ _ (pmu_event_eq s i SCORE_EVENT_A Hs Hi ltac:(done))).
  rewrite (bind_Ok _ _ _ _ _ (pmu_event_eq s i SCORE_EVENT_B Hs Hi ltac:(done))).
  unfold SHIFT_A, SHIFT_B. rewrite Z.shiftr_0_r, Z.shiftr_div_pow2 by done. change (2 ^ 10) with 1024.
  assert (Hr : 0 <= event_of s i SCORE_EVENT_B)
    by (unfold event_of; destruct (aget (corestate s) i); [apply u64_range|done]).
  destruct (Z.ltb_spec (event_of s i SCORE_EVENT_B) 1024) as [Hlt|Hge].
  - rewrite (Z.div_small (event_of s i SCORE_EVENT_B)) by lia. done.
  - assert (Hpos : 1 <= event_of s i SCORE_EVENT_B / 1024) by (apply Z.div_le_lower_bound; lia).
    cbv zeta. erewrite bind_Ok by (apply div_u_Ok; lia).
    rewrite (proj2 (Z.eqb_neq _ 0)) by lia.
    by erewrite bind_Ok by (apply div_u_Ok; lia).
Qed.

(** ** Properties *)

(** [mab_first_active_core] elects the lowest-numbered core of the module
    that is enabled and not idle, and returns -1 exactly when there is none. *)
Theorem first_active_core_least (s : kstate) (m : Z) :
  kwf s -> module_fits s m ->
  exists r, mab_first_active_core m s = Ok (r, s) /\
    ((r = -1 /\ forall i, module_first s m <= i < module_first s m + CORES_PER_COMPUTE_MODULE ->
        active s i = false) \/
     (module_first s m <= r < module_first s m + CORES_PER_COMPUTE_MODULE /\ active s r = true /\
        forall i, module_first s m <= i < r -> active s i = false)).
Proof.
  intros Hs Hm. eexists. split; [by apply first_active_eq|]. apply first_of_seqZ.
Qed.

(** The module of cores 4..7 in which core 4 is disabled, core 5 idle and core
    6 and 7 active with scores 10 and 13 of arm 1. *)
Definition example_module : kstate :=
  let arms n := aset (mc_arms mab_core_zero) 1 {| score := n; last_score := 0 |} in
  let s := kstate0 hw0 in
  s <| corestate := aset (corestate s) 4 (core_zero <| core_disabled := 1 |>) |>
    <| mab_cores := aset (aset (aset (mab_cores s) 5 (mab_core_zero <| mc_idle_counter := 2 |>))
         6 (mab_core_zero <| mc_arms := arms 10 |>)) 7 (mab_core_zero <| mc_arms := arms 13 |>) |>.

Lemma example_module_wf : kwf example_module.
Proof. kwf_compute. Qed.

Lemma first_active_core_least_witness :
  exists r, mab_first_active_core 1 example_module = Ok (r, example_module) /\ r = 6.
Proof.
  destruct (first_active_core_least example_module 1 example_module_wf ltac:(by split))
    as (r & Hr & _). exists r. split; [exact Hr|]. vm_compute in Hr. by injection Hr.
Defined.

(** C9: [mab_module_score] is the average of the arm's scores over the enabled,
    non-idle cores of the module (0 when there are none): the 64-bit sum does
    not overflow, the conversion to 32 bits loses nothing, and the state is
    not changed. *)
Theorem module_score_is_average (s : kstate) (m arm : Z) :
  kwf s -> module_fits s m -> 0 <= arm < MAX_ARMS ->
  mab_module_score m arm s = Ok (average_score s arm (active_members s m), s) /\
  (active_members s m <> [] ->
   exists i j, i ∈ active_members s m /\ j ∈ active_members s m /\
     score_of s arm i <= average_score s arm (active_members s m) <= score_of s arm j).
Proof.
  intros Hs Hm Harm. split; [by apply module_score_eq|]. intros Hne.
  assert (Hmean : forall l, l <> [] -> exists i j, i ∈ l /\ j ∈ l /\
    zlen l * score_of s arm i <= sum_scores s arm l <= zlen l * score_of s arm j).
  { clear. induction l as [|i l IH]; [done|]. intros _. destruct l as [|k l'].
    - exists i, i. unfold zlen. cbn. rewrite Z.add_0_r. split_and!; try (by left); lia.
    - destruct (IH ltac:(done)) as (a & b & Ha & Hb & Hlo & Hhi).
      set (l := k :: l') in *. unfold zlen in *. cbn [sum_scores length].
      rewrite Nat2Z.inj_succ.
      exists (if score_of s arm i <=? score_of s arm a then i else a),
             (if score_of s arm b <=? score_of s arm i then i else b).
      destruct (Z.leb_spec (score_of s arm i) (score_of s arm a)),
        (Z.leb_spec (score_of s arm b) (score_of s arm i)); split_and!; try (by left);
        try (by right); nia. }
  destruct (Hmean _ Hne) as (i & j & Hi & Hj & Hlo & Hhi). exists i, j. split_and!; try done;
    unfold average_score; (destruct (Z.eqb_spec (zlen (active_members s m)) 0) as [H0|H0];
    [destruct (active_members s m); [done|unfold zlen in H0; simpl in H0; lia]|]);
    assert (0 < zlen (active_members s m)) by (unfold zlen in *; lia).
  - by apply Z.div_le_lower_bound.
  - apply Z.div_le_upper_bound; lia.
Qed.

Lemma module_score_is_average_witness :
  mab_module_score 1 1 example_module = Ok (11, example_module).
Proof.
  destruct (module_score_is_average example_module 1 1 example_module_wf ltac:(by split) ltac:(done))
    as [H _]. rewrite H. vm_compute. reflexivity.
Defined.

(** The clock's answer, and the state after it was asked. *)
Definition now (s : kstate) : Z :=
  match hw_clock (machine s) with [] => 0 | t :: _ => u64 t end.

Definition clock_read (s : kstate) : kstate :=
  match hw_clock (machine s) with
  | [] => s
  | _ :: rest => s <| machine ::= fun h => h <| hw_clock := rest |> |>
  end.

Lemma ktime_get_ns_eq s : ktime_get_ns s = Ok (now s, clock_read s).
Proof. unfold ktime_get_ns, now, clock_read. by destruct (hw_clock (machine s)). Qed.

Lemma clock_read_frame s :
  corestate (clock_read s) = corestate s /\ mab_cores (clock_read s) = mab_cores s /\
  mab_modules (clock_read s) = mab_modules s /\ sys_first_core (clock_read s) = sys_first_core s.
Proof. unfold clock_read. by destruct (hw_clock (machine s)). Qed.

Lemma clock_read_wf s : kwf s -> kwf (clock_read s).
Proof. intros Hs. unfold clock_read. destruct (hw_clock _); [done|by apply kwf_machine]. Qed.

(** What [mab_core_is_active] answers for a core last seen at [time_old]. *)
Definition activity (s : kstate) (i time_old : Z) : Z :=
  let dt := u64 (now s - time_old) / 1000000 in
  if (time_old =? 0) || (dt =? 0) then -1
  else if event_of s i PERF_CPU_CLK_UNHALTED_THREAD / dt <? IDLE_CYCLES_THRESHOLD then 0 else 1.

Lemma is_active_eq s i m :
  kwf s -> aget (mab_cores s) i = Some m ->
  mab_core_is_active i s =
    Ok (activity s i (mc_time_old m),
        clock_read s <| mab_cores := aset (mab_cores s) i (m <| mc_time_old := now s |>) |>).
Proof.
  intros Hs Hm. destruct (clock_read_frame s) as (Hc & Hmc & _).
  pose proof (aget_Some_range _ _ _ Hm) as Hi. pose proof (kwf_mab_cores s Hs) as Hlen.
  unfold mab_core_is_active, activity. rewrite (bind_Ok _ _ _ _ _ (ktime_get_ns_eq s)).
  erewrite bind_Ok by (apply mab_core_at_Some; by rewrite Hmc).
  assert (Hput : put_mab_core i (m <| mc_time_old := now s |>) (clock_read s) =
    Ok (tt, clock_read s <| mab_cores := aset (mab_cores s) i (m <| mc_time_old := now s |>) |>))
    by (rewrite put_mab_core_Ok by (rewrite Hmc; done); by rewrite Hmc).
  destruct (mc_time_old m =? 0); cbn [orb].
  - by rewrite (bind_Ok _ _ _ _ _ Hput).
  - cbv zeta. rewrite (bind_Ok _ _ _ _ _ Hput).
    destruct (Z.eqb_spec (u64 (now s - mc_time_old m) / 1000000) 0) as [|Hdt]; [done|].
    set (s1 := clock_read s <| mab_cores := _ |>).
    assert (Hs1 : kwf s1).
    { pose proof (preserves_put_mab_core i (m <| mc_time_old := now s |>)) as Hp.
      eapply (wp_Ok _ _ _ _ (fun _ => kwf)); [exact Hput|]. apply Hp; [|by apply clock_read_wf].
      apply mab_core_wf_time; [by eapply Forall_aget; [apply (kwf_mab_core s Hs)|]|].
      unfold now. destruct (hw_clock _); [done|apply u64_range]. }
    rewrite (bind_Ok _ _ _ _ _ (pmu_event_eq s1 i PERF_CPU_CLK_UNHALTED_THREAD Hs1 ltac:(lia) ltac:(done))).
    rewrite (event_of_frame s s1), (bind_Ok _ _ _ _ _ (div_u_Ok _ _ _ Hdt)) by done.
    by destruct (_ <? _).
Qed.

Lemma event_of_nonneg s i ev : 0 <= event_of s i ev.
Proof. unfold event_of. destruct (aget (corestate s) i); [apply u64_range|done]. Qed.

(** [mab_compute_score] divides by the cycle count scaled by 1024 before it
    tests it for zero: it faults exactly when the core advanced by less than
    1024 cycles, and otherwise returns instructions per 1024 cycles.  A core
    that [mab_core_is_active] has just reported active is never in the faulting
    case. *)
Theorem compute_score_safe_when_active (s : kstate) (i : Z) :
  kwf s -> 0 <= i < MAX_NUM_CORES ->
  mab_compute_score i s =
    (if event_of s i SCORE_EVENT_B <? 1024 then Stop DivByZero else Ok (core_score s i, s)) /\
  (forall s', mab_core_is_active i s = Ok (1, s') ->
     mab_compute_score i s' = Ok (core_score s' i, s')).
Proof.
  intros Hs Hi. split; [by apply compute_score_eq|]. intros s' Hrun.
  destruct (in_tables s i Hs Hi) as [_ (m & Hm & _)].
  assert (Hs' : kwf s') by (eapply (wp_Ok _ _ _ _ (fun _ => kwf)); [exact Hrun|by apply preserves_is_active]).
  rewrite compute_score_eq by done. rewrite (is_active_eq s i m Hs Hm) in Hrun.
  injection Hrun as Hact <-. unfold activity in Hact. cbv zeta in Hact.
  set (dt := u64 (now s - mc_time_old m) / 1000000) in *.
  destruct (_ || (dt =? 0)) eqn:Hb; [done|]. apply orb_false_iff in Hb as [_ Hdt%Z.eqb_neq].
  destruct (Z.ltb_spec (event_of s i PERF_CPU_CLK_UNHALTED_THREAD / dt) IDLE_CYCLES_THRESHOLD)
    as [|Hge]; [done|].
  assert (Hdt0 : 0 < dt).
  { assert (0 <= dt) by (apply Z.div_pos; [apply u64_range|done]). lia. }
  rewrite (event_of_frame s (_ <| mab_cores := _ |>)) by apply clock_read_frame.
  unfold SCORE_EVENT_B.
  pose proof (event_of_nonneg s i PERF_CPU_CLK_UNHALTED_THREAD) as He.
  pose proof (Z.mul_div_le (event_of s i PERF_CPU_CLK_UNHALTED_THREAD) dt Hdt0).
  unfold IDLE_CYCLES_THRESHOLD in *. rewrite (proj2 (Z.ltb_ge _ _)); [done|]. nia.
Qed.

(** A core that ran 2^30 cycles and 2^31 instructions in the last 100 ms. *)
Definition example_active : kstate :=
  kstate0 (hw0 <| hw_clock := [200000000] |>)
    <| corestate := aset (replicate 512 core_zero) 3
         (core_zero <| pmu_raw := [0; 0; 0; 0; 0; 2 ^ 30; 2 ^ 31; 0] |>) |>
    <| mab_cores := aset (replicate 512 mab_core_zero) 3
         (mab_core_zero <| mc_time_old := 100000000 |>) |>.

Lemma compute_score_safe_when_active_witness :
  exists s', mab_core_is_active 3 example_active = Ok (1, s') /\
    mab_compute_score 3 s' = Ok (2048, s').
Proof.
  assert (Hs : kwf example_active) by kwf_compute.
  destruct (compute_score_safe_when_active example_active 3 Hs ltac:(done)) as [_ H].
  eexists. split; [vm_compute; reflexivity|]. rewrite H; [|vm_compute; reflexivity].
  vm_compute. reflexivity.
Defined.

Lemma select_step_eq m i sc scores best sb s :
  mab_module_score m i s = Ok (sc, s) -> in_range scores i = true ->
  aget (aset scores i sc) best = Some sb ->
  mab_select_step m (scores, best) i s =
    Ok ((aset scores i sc, if sb <? sc then i else best), s).
Proof.
  intros Hsc Hr Hb. unfold mab_select_step. rewrite (bind_Ok _ _ _ _ _ Hsc).
  unfold check_index. rewrite (bind_Ok _ _ _ tt s) by by rewrite Hr. cbv zeta.
  erewrite bind_Ok by (apply read_Some, aget_aset_eq; by apply in_range_zlen).
  by rewrite (bind_Ok _ _ _ _ _ (read_Some _ _ _ _ Hb)).
Qed.

(** The arm selection of [mab_tuning] compares the module averages with the
    array it is still filling.  From arm 0 it moves to arm 1 only for a strictly
    better average, so ties keep the running arm; from arm 1 the first
    comparison is with an uninitialised stack word: if that word is not below
    arm 0's average the module stays on arm 1 whatever the averages are, and
    otherwise a tie moves it to arm 0. *)
Theorem select_arm_depends_on_stack (s : kstate) (m junk0 junk1 : Z) :
  kwf s -> module_fits s m ->
  let avg arm := average_score s arm (active_members s m) in
  mab_select_arm m 0 [junk0; junk1] s = Ok (if avg 0 <? avg 1 then 1 else 0, s) /\
  mab_select_arm m 1 [junk0; junk1] s =
    Ok (if junk1 <? avg 0 then (if avg 0 <? avg 1 then 1 else 0) else 1, s).
Proof.
  intros Hs Hm avg. unfold mab_select_arm. change (seqZ 0 AVAILABLE_ARMS) with [0; 1].
  assert (H0 : mab_module_score m 0 s = Ok (avg 0, s)) by by apply module_score_eq.
  assert (H1 : mab_module_score m 1 s = Ok (avg 1, s)) by by apply module_score_eq.
  cbn [fold_each]. split.
  - erewrite bind_Ok.
    2:{ erewrite bind_Ok by (apply (select_step_eq _ _ (avg 0) _ _ (avg 0)); done).
        rewrite Z.ltb_irrefl.
        by erewrite bind_Ok by (apply (select_step_eq _ _ (avg 1) _ _ (avg 0)); done). }
    done.
  - erewrite bind_Ok.
    2:{ erewrite bind_Ok by (apply (select_step_eq _ _ (avg 0) _ _ junk1); done).
        by erewrite bind_Ok by (apply (select_step_eq _ _ (avg 1) _ _
          (if junk1 <? avg 0 then avg 0 else avg 1)); try done; destruct (junk1 <? avg 0); done). }
    cbn -[avg Z.ltb]. destruct (junk1 <? avg 0); [done|]. by rewrite Z.ltb_irrefl.
Qed.

Lemma select_arm_depends_on_stack_witness :
  mab_select_arm 1 0 [0; 0] example_module = Ok (1, example_module) /\
  mab_select_arm 1 1 [0; 0] example_module = Ok (1, example_module).
Proof.
  destruct (select_arm_depends_on_stack example_module 1 0 0 example_module_wf ltac:(by split))
    as [H0 H1]. rewrite H0, H1. split; vm_compute; reflexivity.
Defined.

(** ** The arm scan *)

Lemma update_arm_eq i a f s m x :
  aget (mab_cores s) i = Some m -> aget (mc_arms m) a = Some x ->
  update_arm i a f s =
    Ok (tt, s <| mab_cores := aset (mab_cores s) i (m <| mc_arms := aset (mc_arms m) a (f x) |>) |>).
Proof.
  intros Hm Hx. unfold update_arm. rewrite (bind_Ok _ _ _ _ _ (mab_core_at_Some _ _ _ Hm)).
  rewrite (bind_Ok _ _ _ _ _ (read_Some _ _ _ _ Hx)).
  apply put_mab_core_Ok. by eapply aget_Some_range.
Qed.

(** [l] is the table of [s] with the arm scores of the cores in [done]
    replaced by [f]; nothing else of it differs. *)
Record rescored (s : kstate) (arm : Z) (done : Z -> bool) (f : Z -> Z) (l : list mab_core) : Prop := {
  rs_len : zlen l = zlen (mab_cores s);
  rs_score : forall j a, 0 <= a < MAX_ARMS -> 0 <= j < MAX_NUM_CORES ->
    score_of (s <| mab_cores := l |>) a j = if (a =? arm) && done j then f j else score_of s a j;
  rs_active : forall j, active (s <| mab_cores := l |>) j = active s j }.

Lemma rescore_one s arm i m x v :
  kwf s -> aget (mab_cores s) i = Some m -> aget (mc_arms m) arm = Some x ->
  rescored s arm (fun j => j =? i) (fun _ => v)
    (aset (mab_cores s) i (m <| mc_arms := aset (mc_arms m) arm (x <| score := v |>) |>)).
Proof.
  intros Hs Hm Hx. pose proof (aget_Some_range _ _ _ Hm) as Hi.
  pose proof (aget_Some_range _ _ _ Hx) as Ha. constructor; [by rewrite zlen_aset| |].
  - intros j a Haj Hj. unfold score_of. cbn. destruct (Z.eqb_spec j i) as [->|Hne].
    + rewrite aget_aset_eq by done. rewrite Hm. cbn. destruct (Z.eqb_spec a arm) as [->|Hna].
      * by rewrite aget_aset_eq.
      * by rewrite aget_aset_ne.
    + rewrite aget_aset_ne by done. by rewrite andb_false_r.
  - intros j. unfold active. cbn. destruct (aget (corestate s) j); [|done].
    destruct (decide (i = j)) as [<-|Hne].
    + by rewrite aget_aset_eq, Hm by done.
    + by rewrite aget_aset_ne.
Qed.

Lemma rescored_trans s arm d1 f1 l1 d2 f2 l2 d f :
  rescored s arm d1 f1 l1 -> rescored (s <| mab_cores := l1 |>) arm d2 f2 l2 ->
  (forall j, d j = d1 j || d2 j) ->
  (forall j, d j = true -> f j = if d2 j then f2 j else f1 j) ->
  rescored s arm d f l2.
Proof.
  intros [L1 S1 A1] [L2 S2 A2] Hd Hf. constructor.
  - by rewrite L2.
  - intros j a Ha Hj. specialize (S2 j a Ha Hj). specialize (S1 j a Ha Hj). cbn in S2.
    etransitivity; [exact S2|]. rewrite S1. specialize (Hf j). rewrite Hd in *.
    destruct (a =? arm), (d1 j), (d2 j); cbn in *; try done; by rewrite Hf.
  - intros j. etransitivity; [apply (A2 j)|]. apply A1.
Qed.

Lemma core_score_frame s s' i : corestate s' = corestate s -> core_score s i = core_score s' i.
Proof. intros H. unfold core_score. by rewrite !(event_of_frame s s'). Qed.

(** A skipped core in front of a list changes nothing. *)
Lemma rescored_skip s arm i l f l' :
  active s i = false ->
  rescored s arm (fun j => bool_decide (j ∈ l) && active s j) f l' ->
  rescored s arm (fun j => bool_decide (j ∈ i :: l) && active s j) f l'.
Proof.
  intros Hact [R1 R2 R3]. constructor; try done. intros j a Ha Hj.
  rewrite R2 by done. replace (bool_decide (j ∈ i :: l) && active s j) with
    (bool_decide (j ∈ l) && active s j); [done|].
  destruct (decide (j = i)) as [->|Hne]; [by rewrite Hact, !andb_false_r|].
  f_equal. apply bool_decide_ext. set_solver.
Qed.

(** Scoring a core and then a list is scoring the longer list. *)
Lemma rescored_cons s arm i l l1 l' :
  active s i = true ->
  rescored s arm (fun j => j =? i) (fun _ => core_score s i) l1 ->
  rescored (s <| mab_cores := l1 |>) arm
    (fun j => bool_decide (j ∈ l) && active (s <| mab_cores := l1 |>) j)
    (core_score (s <| mab_cores := l1 |>)) l' ->
  rescored s arm (fun j => bool_decide (j ∈ i :: l) && active s j) (core_score s) l'.
Proof.
  intros Hact Hone Hres. eapply rescored_trans; [exact Hone|exact Hres| |].
  - intros j. cbv beta. rewrite (rs_active _ _ _ _ _ Hone). destruct (Z.eqb_spec j i) as [->|Hne].
    + rewrite Hact, bool_decide_eq_true_2; [done|by left].
    + cbn. f_equal. apply bool_decide_ext. set_solver.
  - intros j Hj. cbv beta in *.
    destruct (_ && _) eqn:Hd in |- *; [by apply core_score_frame|].
    apply andb_true_iff in Hj as [Hj%bool_decide_eq_true_1 Haj].
    apply elem_of_cons in Hj as [->|Hj]; [done|].
    rewrite (rs_active _ _ _ _ _ Hone), Haj, bool_decide_eq_true_2 in Hd; done.
Qed.

Lemma score_module_loop s midx md arm l :
  kwf s -> aget (mab_modules s) midx = Some md -> mm_active_arm md = arm -> NoDup l ->
  (forall i, i ∈ l -> 0 <= i < MAX_NUM_CORES) ->
  (forall i, i ∈ l -> active s i = true -> 1024 <= event_of s i SCORE_EVENT_B) ->
  exists l', for_each l (fun i =>
      skip ← mab_core_skipped i;
      if (skip : bool) then mret tt else
      sc ← mab_compute_score i;
      md ← mab_module_at midx;
      update_arm i (mm_active_arm md) (fun a => a <| score := sc |>)) s
    = Ok (tt, s <| mab_cores := l' |>) /\
    kwf (s <| mab_cores := l' |>) /\
    rescored s arm (fun j => bool_decide (j ∈ l) && active s j) (core_score s) l'.
Proof.
  intros Hs Hmd Harm. revert s Hs Hmd. induction l as [|i l IH]; intros s Hs Hmd Hnd Hl Hev.
  - exists (mab_cores s). assert (Heq : s <| mab_cores := mab_cores s |> = s) by by destruct s.
    rewrite Heq. split_and!; try done. constructor; try done; rewrite ?Heq; try done.
    intros. cbn. by rewrite andb_false_r.
  - apply NoDup_cons in Hnd as [Hni Hnd].
    assert (Hi : 0 <= i < MAX_NUM_CORES) by (apply Hl; by left).
    pose proof (mab_core_skipped_eq s i Hs Hi) as Hsk.
    cbn [for_each]. destruct (active s i) eqn:Hact; cbn [negb] in Hsk.
    + destruct (in_tables s i Hs Hi) as [_ (m & Hm & Hwf)].
      destruct (aget_is_Some (mc_arms m) arm) as [x Hx].
      { rewrite (mcwf_arms m Hwf), <- Harm.
        pose proof (Forall_aget _ _ _ _ (kwf_mab_module s Hs) Hmd) as [Ha _].
        unfold AVAILABLE_ARMS, MAX_ARMS in *. lia. }
      pose proof (rescore_one s arm i m x (core_score s i) Hs Hm Hx) as Hone.
      set (l1 := aset (mab_cores s) i _) in Hone.
      assert (Hsc : mab_compute_score i s = Ok (core_score s i, s)).
      { rewrite compute_score_eq by done.
        by rewrite (proj2 (Z.ltb_ge _ _)) by (apply Hev; [by left|done]). }
      pose proof (update_arm_eq i arm (fun a => a <| score := core_score s i |>) s m x Hm Hx) as Hup.
      assert (Hs1 : kwf (s <| mab_cores := l1 |>)).
      { eapply (wp_Ok _ _ _ _ (fun _ => kwf)); [exact Hup|]. apply preserves_update_arm; [|done].
        intros y Hy. apply arm_wf_score; [done|apply in_u_u32]. }
      destruct (IH (s <| mab_cores := l1 |>)) as (l' & Hrun & Hs' & Hres); try done.
      { intros j Hj. apply Hl. by right. }
      { intros j Hj Haj. rewrite (event_of_frame s) by done.
        apply Hev; [by right|]. by rewrite (rs_active _ _ _ _ _ Hone) in Haj. }
      exists l'. split_and!; [|exact Hs'|].
      * erewrite bind_Ok; [exact Hrun|]. rewrite (bind_Ok _ _ _ _ _ Hsk).
        rewrite (bind_Ok _ _ _ _ _ Hsc), (bind_Ok _ _ _ _ _ (mab_module_at_Some _ _ _ Hmd)).
        rewrite Harm. exact Hup.
      * by apply (rescored_cons s arm i l l1).
    + destruct (IH s) as (l' & Hrun & Hs' & Hres); try done.
      { intros j Hj. apply Hl. by right. }
      { intros j Hj. apply Hev. by right. }
      exists l'. split_and!; [|exact Hs'|].
      * erewrite bind_Ok; [exact Hrun|]. by rewrite (bind_Ok _ _ _ _ _ Hsk).
      * by apply rescored_skip.
Qed.

Lemma aset_twice {A} (l : list A) i x y : aset (aset l i x) i y = aset l i y.
Proof. unfold aset. destruct (0 <=? i); [|done]. apply list_insert_insert_eq. Qed.

Lemma apply_msr_config_eq s i arm c cfg :
  aget (corestate s) i = Some c -> aget (mab_arm_configs s) arm = Some cfg -> 0 <= arm < MAX_ARMS ->
  mab_apply_msr_config i arm s =
    Ok (0, s <| corestate := aset (corestate s) i
                  (c <| pf_msr := cfg |> <| pf_msr_dirty := 1 |>) |>).
Proof.
  intros Hc Hcfg Harm. pose proof (aget_Some_range _ _ _ Hc) as Hi. unfold mab_apply_msr_config.
  rewrite (proj2 (Z.ltb_ge _ _)), (proj2 (Z.leb_gt _ _)) by lia. cbn [orb].
  rewrite bind_gets, (bind_Ok _ _ _ _ _ (read_Some _ _ _ _ Hcfg)).
  rewrite (bind_Ok _ _ _ _ _ (core_at_Some _ _ _ Hc)).
  erewrite bind_Ok by by apply put_core_Ok. unfold msr_set_dirty.
  erewrite bind_Ok; [reflexivity|].
  erewrite bind_Ok by (apply core_at_Some; by apply aget_aset_eq).
  erewrite bind_Ok by (apply put_core_Ok; cbn; by rewrite zlen_aset).
  cbn. by rewrite aset_twice.
Qed.

(** The module average of the scores of the last interval. *)
Fixpoint sum_fresh (s : kstate) (l : list Z) : Z :=
  match l with
  | [] => 0
  | i :: l' => core_score s i + sum_fresh s l'
  end.

Definition fresh_average (s : kstate) (m : Z) : Z :=
  let l := active_members s m in
  if zlen l =? 0 then 0 else sum_fresh s l / zlen l.

Lemma sum_scores_fresh s s' arm l :
  (forall i, i ∈ l -> score_of s' arm i = core_score s i) -> sum_scores s' arm l = sum_fresh s l.
Proof.
  induction l as [|i l IH]; intros Hl; [done|]. cbn. rewrite Hl by by left.
  rewrite IH; [done|]. intros j Hj. apply Hl. by right.
Qed.

Lemma active_members_frame s s' m :
  sys_first_core s' = sys_first_core s -> (forall j, active s' j = active s j) ->
  active_members s' m = active_members s m.
Proof.
  intros Hf Ha. unfold active_members, module_first. rewrite Hf.
  apply list_filter_iff. intros j. by rewrite Ha.
Qed.

Lemma best_arm_eq s i :
  kwf s -> 0 <= i < MAX_NUM_CORES ->
  best_arm_of i s = Ok (if score_of s 0 i <? score_of s 1 i then 1 else 0, s).
Proof.
  intros Hs Hi. assert (Hsc : forall a, 0 <= a < MAX_ARMS -> arm_score i a s = Ok (score_of s a i, s)).
  { intros a Ha. destruct (in_tables s i Hs Hi) as [_ (m & Hm & Hwf)].
    destruct (aget_is_Some (mc_arms m) a) as [x Hx]; [by rewrite (mcwf_arms m Hwf)|].
    unfold arm_score, score_of. rewrite Hm, Hx, (bind_Ok _ _ _ _ _ (mab_core_at_Some _ _ _ Hm)).
    by rewrite (bind_Ok _ _ _ _ _ (read_Some _ _ _ _ Hx)). }
  unfold best_arm_of. change (seqZ 1 (AVAILABLE_ARMS - 1)) with [1]. cbn [fold_each].
  erewrite bind_Ok; [reflexivity|].
  rewrite (bind_Ok _ _ _ _ _ (Hsc 1 ltac:(done))), (bind_Ok _ _ _ _ _ (Hsc 0 ltac:(done))).
  by destruct (_ <? _).
Qed.

Section scan.
Context (i : Z).

Definition module_of (s : kstate) : Z := Z.quot (i - sys_first_core s) 4.

(** Core [i] can take a step of its module's scan: it is enabled and not
    idle, and every active core of the module has run at least 1024 cycles. *)
Record ready (s : kstate) : Prop := {
  rdy_wf : kwf s;
  rdy_fits : module_fits s (module_of s);
  rdy_module : 0 <= module_of s < MAX_MODULES;
  rdy_core : 0 <= i < MAX_NUM_CORES;
  rdy_cycles : forall j, j ∈ active_members s (module_of s) ->
    1024 <= event_of s j SCORE_EVENT_B }.

(** What may happen between two of the leader's steps: anything (readings, the work
    of other modules, the other cores becoming active or idle, new arm
    configurations) that leaves the first core, the arm and the phase of this
    module's scan and the leader's score of arm 0. *)
Record between (s t : kstate) : Prop := {
  btw_first : sys_first_core t = sys_first_core s;
  btw_scan : forall md, aget (mab_modules s) (module_of s) = Some md ->
    exists md', aget (mab_modules t) (module_of s) = Some md' /\
      mm_active_arm md' = mm_active_arm md /\ mm_initialized md' = mm_initialized md;
  btw_score : score_of t 0 i = score_of s 0 i }.

(** The leader has installed arm [arm] on its core and recorded it in the module. *)
Definition installed (s s' : kstate) (arm init : Z) : Prop :=
  exists md c cfg, aget (mab_modules s') (module_of s) = Some md /\
    mm_active_arm md = arm /\ mm_initialized md = init /\
    aget (corestate s') i = Some c /\ aget (mab_arm_configs s) arm = Some cfg /\
    pf_msr c = cfg /\ pf_msr_dirty c = 1 /\
    sys_first_core s' = sys_first_core s /\ mab_arm_configs s' = mab_arm_configs s.

Lemma config_at s arm : kwf s -> 0 <= arm < MAX_ARMS ->
  exists cfg, aget (mab_arm_configs s) arm = Some cfg.
Proof. intros Hs Ha. apply aget_is_Some. by rewrite (kwf_arm_configs s Hs). Qed.

Lemma scan_start s md :
  ready s -> aget (mab_modules s) (module_of s) = Some md ->
  mm_initialized md = MAB_INIT_NOT_STARTED ->
  exists s', mab_init_module_step i s = Ok (0, s') /\
    installed s s' 0 MAB_INIT_IN_PROGRESS.
Proof.
  intros [Hs Hfit Hmr Hi _] Hmd Hinit.
  destruct (in_tables s i Hs Hi) as [(c & Hc & _) _].
  destruct (config_at s 0 Hs ltac:(done)) as [cfg Hcfg].
  pose proof (aget_Some_range _ _ _ Hmd) as Hml. pose proof (aget_Some_range _ _ _ Hc) as Hil.
  unfold mab_init_module_step, module_id. rewrite bind_gets.
  fold (module_of s). rewrite (bind_Ok _ _ _ _ _ (mab_module_at_Some _ _ _ Hmd)).
  unfold module_start_of. rewrite bind_gets, Hinit, Z.eqb_refl.
  rewrite (bind_Ok _ _ _ _ _ (apply_msr_config_eq _ _ _ _ _ Hc Hcfg ltac:(done))).
  erewrite bind_Ok by (apply put_mab_module_Ok; exact Hml).
  eexists. split; [reflexivity|].
  exists (md <| mm_active_arm := 0 |> <| mm_initialized := MAB_INIT_IN_PROGRESS |>),
    (c <| pf_msr := cfg |> <| pf_msr_dirty := 1 |>), cfg.
  split_and!; try done; by apply aget_aset_eq.
Qed.

(** Scoring the running arm: the leader's entry gets the module average. *)
Lemma scan_score s md :
  ready s -> aget (mab_modules s) (module_of s) = Some md ->
  let arm := mm_active_arm md in
  exists l, (mab_score_module (module_of s) (module_first s (module_of s)) ;;
     sc ← mab_module_score (module_of s) arm;
     update_arm i arm (fun a => a <| score := sc |>)) s = Ok (tt, s <| mab_cores := l |>) /\
    kwf (s <| mab_cores := l |>) /\
    score_of (s <| mab_cores := l |>) arm i = fresh_average s (module_of s) /\
    (forall a, 0 <= a < MAX_ARMS -> a <> arm ->
      score_of (s <| mab_cores := l |>) a i = score_of s a i).
Proof.
  intros [Hs Hfit Hmr Hi Hcyc] Hmd arm. set (m := module_of s) in *.
  pose proof (Forall_aget _ _ _ _ (kwf_mab_module s Hs) Hmd) as [Harm _].
  assert (Harm10 : 0 <= arm < MAX_ARMS) by (unfold arm, AVAILABLE_ARMS, MAX_ARMS in *; lia).
  destruct Hfit as [Hf0 Hf1].
  destruct (score_module_loop s m md arm (module_cores (module_first s m)) Hs Hmd eq_refl)
    as (l1 & Hrun1 & Hs1 & [Hlen1 Hsc1 Hact1]).
  { apply NoDup_seqZ. }
  { intros j Hj%elem_of_seqZ. lia. }
  { intros j Hj Haj. apply Hcyc. apply list_elem_of_filter. done. }
  set (s1 := s <| mab_cores := l1 |>) in *.
  assert (Hmem : active_members s1 m = active_members s m) by by apply active_members_frame.
  assert (Hfit1 : module_fits s1 m) by by split.
  pose proof (module_score_eq s1 m arm Hs1 Hfit1 Harm10) as Hms.
  assert (Havg : average_score s1 arm (active_members s1 m) = fresh_average s m).
  { unfold average_score, fresh_average. cbv zeta. rewrite Hmem. erewrite sum_scores_fresh; [done|].
    intros j Hj. apply list_elem_of_filter in Hj as [Hact Hj].
    pose proof Hj as Hr%elem_of_seqZ.
    rewrite Hsc1, Z.eqb_refl by (try done; lia). cbn [andb].
    by rewrite bool_decide_eq_true_2, Hact by done. }
  rewrite Havg in Hms.
  destruct (in_tables s1 i Hs1 Hi) as [_ (mi & Hmi & Hwfi)].
  destruct (aget_is_Some (mc_arms mi) arm) as [x Hx]; [by rewrite (mcwf_arms mi Hwfi)|].
  pose proof (update_arm_eq i arm (fun a => a <| score := fresh_average s m |>) s1 mi x Hmi Hx) as Hup.
  destruct (rescore_one s1 arm i mi x (fresh_average s m) Hs1 Hmi Hx) as [_ Hsc2 _].
  eexists. split; [|split; [|split]].
  - unfold mab_score_module. rewrite (bind_Ok _ _ _ _ _ Hrun1), (bind_Ok _ _ _ _ _ Hms). exact Hup.
  - eapply (wp_Ok _ _ _ _ (fun _ => kwf)); [exact Hup|]. apply preserves_update_arm; [|done].
    intros y Hy. apply arm_wf_score; [done|]. rewrite <- Havg. by apply average_score_range.
  - etransitivity; [exact (Hsc2 i arm Harm10 Hi)|]. by rewrite !Z.eqb_refl.
  - intros a Ha Hne. etransitivity; [exact (Hsc2 i a Ha Hi)|].
    rewrite (proj2 (Z.eqb_neq a arm)) by done. cbn [andb]. rewrite Hsc1 by done.
    by rewrite (proj2 (Z.eqb_neq a arm)).
Qed.

Lemma score_then {A} (a : K unit) (b : K Z) (c : Z -> K unit) (r : K A) s s' :
  (a ;; sc ← b; c sc) s = Ok (tt, s') -> (a ;; sc ← b; c sc ;; r) s = r s'.
Proof.
  unfold mbind, ST_bind. destruct (a s) as [[_ s1]|]; [|done].
  destruct (b s1) as [[v s2]|]; [|done]. by intros ->.
Qed.

(** The step from the first arm to the second. *)
Lemma scan_advance s md :
  ready s -> aget (mab_modules s) (module_of s) = Some md ->
  mm_initialized md = MAB_INIT_IN_PROGRESS -> mm_active_arm md = 0 ->
  exists s', mab_init_module_step i s = Ok (0, s') /\
    installed s s' 1 MAB_INIT_IN_PROGRESS /\
    score_of s' 0 i = fresh_average s (module_of s).
Proof.
  intros Hrdy Hmd Hinit Harm.
  destruct (scan_score s md Hrdy Hmd) as (l & Hrun & Hs1 & Hsc & _). rewrite Harm in *.
  destruct Hrdy as [Hs Hfit Hmr Hi _].
  destruct (in_tables s i Hs Hi) as [(c & Hc & _) _].
  destruct (config_at s 1 Hs ltac:(done)) as [cfg Hcfg].
  pose proof (aget_Some_range _ _ _ Hmd) as Hml. pose proof (aget_Some_range _ _ _ Hc) as Hil.
  unfold mab_init_module_step, module_id. rewrite bind_gets.
  fold (module_of s). rewrite (bind_Ok _ _ _ _ _ (mab_module_at_Some _ _ _ Hmd)).
  unfold module_start_of. rewrite bind_gets, Hinit. fold (module_first s (module_of s)).
  rewrite Harm. cbn [Z.eqb MAB_INIT_NOT_STARTED MAB_INIT_IN_PROGRESS].
  rewrite (score_then _ _ _ _ _ _ Hrun). change (0 + 1 <? AVAILABLE_ARMS) with true. cbv iota.
  erewrite bind_Ok by (apply put_mab_module_Ok; exact Hml).
  erewrite bind_Ok by (apply (apply_msr_config_eq _ _ _ c cfg); done).
  eexists. split; [reflexivity|]. split; [|exact Hsc].
  exists (md <| mm_active_arm := 1 |>), (c <| pf_msr := cfg |> <| pf_msr_dirty := 1 |>), cfg.
  split_and!; try done; by apply aget_aset_eq.
Qed.

(** The last step: the better arm stays. *)
Lemma scan_finish s md :
  ready s -> aget (mab_modules s) (module_of s) = Some md ->
  mm_initialized md = MAB_INIT_IN_PROGRESS -> mm_active_arm md = 1 ->
  exists s', mab_init_module_step i s = Ok (0, s') /\
    installed s s' (if score_of s 0 i <? fresh_average s (module_of s) then 1 else 0)
      MAB_INIT_DONE.
Proof.
  intros Hrdy Hmd Hinit Harm.
  destruct (scan_score s md Hrdy Hmd) as (l & Hrun & Hs1 & Hsc1 & Hsc0). rewrite Harm in *.
  destruct Hrdy as [Hs Hfit Hmr Hi _].
  destruct (in_tables s i Hs Hi) as [(c & Hc & _) _].
  set (best := if score_of s 0 i <? fresh_average s (module_of s) then 1 else 0).
  assert (Hbest : best_arm_of i (s <| mab_cores := l |>) = Ok (best, s <| mab_cores := l |>)).
  { rewrite best_arm_eq by done. by rewrite Hsc1, Hsc0 by done. }
  assert (Hb : 0 <= best < MAX_ARMS) by (unfold best; destruct (_ <? _); done).
  destruct (config_at s best Hs Hb) as [cfg Hcfg].
  pose proof (aget_Some_range _ _ _ Hmd) as Hml. pose proof (aget_Some_range _ _ _ Hc) as Hil.
  unfold mab_init_module_step, module_id. rewrite bind_gets.
  fold (module_of s). rewrite (bind_Ok _ _ _ _ _ (mab_module_at_Some _ _ _ Hmd)).
  unfold module_start_of. rewrite bind_gets, Hinit. fold (module_first s (module_of s)).
  rewrite Harm. cbn [Z.eqb MAB_INIT_NOT_STARTED MAB_INIT_IN_PROGRESS].
  rewrite (score_then _ _ _ _ _ _ Hrun). change (1 + 1 <? AVAILABLE_ARMS) with false. cbv iota.
  rewrite (bind_Ok _ _ _ _ _ Hbest).
  erewrite bind_Ok by (apply put_mab_module_Ok; exact Hml).
  erewrite bind_Ok by (apply (apply_msr_config_eq _ _ _ c cfg); done).
  erewrite bind_Ok by (apply mab_module_at_Some; by apply aget_aset_eq).
  erewrite bind_Ok by (apply put_mab_module_Ok; cbn; by rewrite zlen_aset).
  eexists. split; [reflexivity|].
  exists (md <| mm_active_arm := best |> <| mm_initialized := MAB_INIT_DONE |>),
    (c <| pf_msr := cfg |> <| pf_msr_dirty := 1 |>), cfg.
  split_and!; try done; apply aget_aset_eq; cbn; rewrite ?zlen_aset; done.
Qed.
End scan.

(** C8: the arm scan of a compute module ends after exactly three steps of its
    leader and leaves the module on the better arm: the module average measured while
    arm 0 was installed is compared with the one measured while arm 1 was
    installed, arm 0 wins ties, the winner's MSR words are in the leader's table and
    marked for writing.  Between the steps anything may happen (readings, steps of
    other modules, cores becoming active or idle, new arm configurations) that does
    not move the first core, restart or advance this module's scan, or overwrite
    the leader's score of arm 0.  No step faults, provided every active core of the
    module ran at least 1024 cycles since its previous reading. *)
Theorem arm_scan_picks_best (i : Z) (s : kstate) (md : mab_module) :
  ready i s -> aget (mab_modules s) (module_of i s) = Some md ->
  mm_initialized md = MAB_INIT_NOT_STARTED ->
  exists s1, mab_init_module_step i s = Ok (0, s1) /\
    installed i s s1 0 MAB_INIT_IN_PROGRESS /\
    forall t1, between i s1 t1 -> ready i t1 ->
    exists s2, mab_init_module_step i t1 = Ok (0, s2) /\
      installed i t1 s2 1 MAB_INIT_IN_PROGRESS /\
      forall t2, between i s2 t2 -> ready i t2 ->
      exists s3, mab_init_module_step i t2 = Ok (0, s3) /\
        installed i t2 s3
          (if fresh_average t1 (module_of i t1) <? fresh_average t2 (module_of i t2)
           then 1 else 0) MAB_INIT_DONE.
Proof.
  intros Hrdy Hmd Hinit. destruct (scan_start i s md Hrdy Hmd Hinit) as (s1 & Hrun1 & Hin1).
  exists s1. split_and!; [done|done|]. intros t1 Hb1 Hr1.
  assert (Hmod : forall s s' t, sys_first_core s' = sys_first_core s -> between i s' t -> module_of i s' = module_of i s /\ module_of i t = module_of i s).
  { intros u u' t Hf [Hf' _ _]. unfold module_of. by rewrite Hf', Hf. }
  destruct Hin1 as (md1 & _ & _ & Hmd1 & Ha1 & Hi1 & _ & _ & _ & _ & Hf1 & _).
  destruct (Hmod s s1 t1 Hf1 Hb1) as [M1 N1]. rewrite <- M1 in Hmd1.
  destruct (btw_scan _ _ _ Hb1 md1 Hmd1) as (md1' & Hmd1' & Ha1' & Hi1'). rewrite M1, <- N1 in Hmd1'.
  destruct (scan_advance i t1 md1' Hr1) as (s2 & Hrun2 & Hin2 & Hsc2); [done|congruence|congruence|].
  exists s2. split_and!; [done|done|]. intros t2 Hb2 Hr2.
  destruct Hin2 as (md2 & _ & _ & Hmd2 & Ha2 & Hi2 & _ & _ & _ & _ & Hf2 & _).
  destruct (Hmod t1 s2 t2 Hf2 Hb2) as [M2 N2]. rewrite <- M2 in Hmd2.
  destruct (btw_scan _ _ _ Hb2 md2 Hmd2) as (md2' & Hmd2' & Ha2' & Hi2'). rewrite M2, <- N2 in Hmd2'.
  destruct (scan_finish i t2 md2' Hr2) as (s3 & Hrun3 & Hin3); [done|congruence|congruence|].
  exists s3. split; [done|]. by rewrite (btw_score _ _ _ Hb2), Hsc2 in Hin3.
Qed.

(** A module of one active core before its scan, with both arms set up. *)
Definition example_scan : kstate :=
  let s := kstate0 hw0 in
  s <| corestate := aset (replicate 512 (core_zero <| core_disabled := 1 |>)) 3
         (core_zero <| pmu_raw := [0; 0; 0; 0; 0; 2 ^ 30; 2 ^ 31; 0] |>) |>
    <| mab_modules := replicate 128 (mab_module_zero <| mm_initialized := MAB_INIT_NOT_STARTED |>) |>
    <| mab_arm_configs ::= fun l => aset (aset l 0 boot_default_arm) 1 aggressive_arm |>.

(** The states of the scan: core 3 does better while arm 1 is installed. *)
Definition example_scan1 : kstate := after (mab_init_module_step 3) example_scan.

Definition example_scan2 : kstate :=
  let s := after (mab_init_module_step 3) example_scan1 in
  s <| corestate ::= fun l => aset l 3
         (core_zero <| pmu_raw := [0; 0; 0; 0; 0; 2 ^ 30; 2 ^ 32; 0] |>) |>.

Ltac scan_ready :=
  constructor; [kwf_compute|split; vm_compute; discriminate|by split; vm_compute|done|];
  match goal with |- forall j, j ∈ ?l -> _ => replace l with [3] by (vm_compute; reflexivity) end;
  intros j ->%list_elem_of_singleton; vm_compute; discriminate.

Lemma example_scan_ready :
  ready 3 example_scan /\ ready 3 example_scan1 /\ ready 3 example_scan2.
Proof. split_and!; scan_ready. Qed.

(** Readings do not disturb a scan. *)
Lemma between_refl i s : between i s s.
Proof. constructor; [done| |done]. intros md Hmd. by exists md. Qed.

Lemma between_readings i s f : between i s (s <| corestate ::= f |>).
Proof. constructor; [done| |done]. intros md Hmd. by exists md. Qed.

(** ... nor do the counters and steps of other modules. *)
Lemma between_module i s m md : m <> module_of i s -> between i s (s <| mab_modules ::= fun l => aset l m md |>).
Proof.
  intros Hne. constructor; [done| |done]. intros md0 Hmd. exists md0. split; [|done]. cbn. by rewrite aget_aset_ne by congruence.
Qed.

Lemma between_trans i s t u : between i s t -> between i t u -> between i s u.
Proof.
  intros [F1 S1 C1] [F2 S2 C2]. constructor; [congruence| |congruence]. intros md Hmd.
  destruct (S1 md Hmd) as (md1 & H1 & A1 & I1).
  assert (Hm : module_of i t = module_of i s) by (unfold module_of; by rewrite F1). rewrite Hm in S2.
  destruct (S2 md1 H1) as (md2 & H2 & A2 & I2). exists md2. split_and!; [done|congruence..].
Qed.

Lemma arm_scan_picks_best_witness :
  exists s3, mab_init_module_step 3 example_scan2 = Ok (0, s3) /\
    installed 3 example_scan2 s3 1 MAB_INIT_DONE.
Proof.
  destruct example_scan_ready as (R0 & R1 & R2).
  destruct (arm_scan_picks_best 3 example_scan
    (mab_module_zero <| mm_initialized := MAB_INIT_NOT_STARTED |>) R0 eq_refl eq_refl)
    as (s1 & H1 & _ & K1).
  rewrite (after_eq _ _ _ _ H1) in K1. destruct (K1 example_scan1) as (s2 & H2 & _ & K2);
    [apply between_refl|exact R1|].
  rewrite (after_eq _ _ _ _ H2) in K2. destruct (K2 example_scan2) as (s3 & H3 & H4);
    [apply between_readings|exact R2|].
  replace (if _ <? _ then 1 else 0) with 1 in H4 by (vm_compute; reflexivity).
  exists s3. split; [exact H3|exact H4].
Defined.
