(* ===== verification/KPrimitive.v ===== *)
(** * The bandwidth tuner of the kernel module ([kernel_primitive.c])

    [kernel_basicalg] looks at the DDR bandwidth and the PMU deltas of the
    active cores and either walks the L2 XQ threshold of every core
    ([tunealg] 0) or votes, per compute module, between two MSR settings
    ([tunealg] 1). *)

From S2P Require Import Prelude Bitfields KState KCommon KPmuDdr.

Definition BENEFITING_CORES : Z := 1.

Definition MODE_BOOT_DEFAULT : Z := -1.

Definition MODE_IDLE : Z := 0.

Definition MODE_AGGRESSIVE : Z := 1.

Definition MODE_UNINITIALIZED : Z := 2.

Definition L2XQ_MAX : Z := 31.

(** Access to the static arrays. *)
Definition prim_get {A} (f : prim_state -> list A) (i : Z) : K A :=
  p ← gets prim; read (f p) i.

Definition prim_set {A} (f : prim_state -> list A) `{Setter prim_state (list A) f}
    (i : Z) (v : A) : K unit :=
  p ← gets prim;
  check_index (f p) i ;;
  modify (fun s => s <| prim ::= fun p => p <| f ::= fun l => aset l i v |> |>).

Definition set_prim (f : prim_state -> prim_state) : K unit :=
  modify (fun s => s <| prim ::= f |>).

(** The first call: remember the time and the core range, and invalidate the
    module modes; without a bandwidth target the next call starts over. *)
Definition basicalg_first : K Z :=
  t ← ktime_get_ns;
  set_prim (fun p => p <| prim_time_old := t |>) ;;
  f ← first_core;
  set_prim (fun p => p <| first_core_idx := f |>) ;;
  n ← active_cores;
  set_prim (fun p => p <| last_core_idx := first_core_idx p + n |>) ;;
  for_each (seqZ 0 (MAX_NUM_CORES / CORES_PER_COMPUTE_MODULE)) (fun i =>
    prim_set module_mode i MODE_UNINITIALIZED) ;;
  target ← gets ddr_bw_target;
  set_prim (fun p => p <| ddr_bw_target_ppms := s32 (target * 10) |>) ;;
  (if s32 (target * 10) =? 0 then set_prim (fun p => p <| prim_time_old := 0 |>) else mret tt) ;;
  mret 0.

(** [pmu_delta[i][j] = raw[j] - old[j]] for the active cores. *)
Definition collect_deltas (cores : list Z) : K unit :=
  for_each cores (fun i =>
    for_each (seqZ 0 PMU_COUNTERS) (fun j =>
      c ← core_at i;
      raw ← read (pmu_raw c) j;
      old ← read (pmu_old c) j;
      row ← prim_get pmu_delta i;
      check_index row j ;;
      prim_set pmu_delta i (aset row j (u64 (raw - old))))).

Definition delta (i ev : Z) : K Z := row ← prim_get pmu_delta i; read row ev.

Definition total_ddr_hits (cores : list Z) : K Z :=
  fold_each cores 0 (fun total i =>
    d ← delta i PERF_MEM_LOAD_UOPS_RETIRED_DRAM_HIT;
    mret (u64 (total + d))).

(** The hit rates and shares of one core. *)
Definition core_ratios (total_ddr_hit i : Z) : K unit :=
  l2 ← delta i PERF_MEM_LOAD_UOPS_RETIRED_L2_HIT;
  l3 ← delta i PERF_MEM_LOAD_UOPS_RETIRED_L3_HIT;
  dram ← delta i PERF_MEM_LOAD_UOPS_RETIRED_DRAM_HIT;
  if (l2 =? 0) || (l3 =? 0) || (dram =? 0) then
    prim_set l2_hitr i 0 ;;
    prim_set l3_hitr i 0 ;;
    prim_set core_contr_to_ddr i 0 ;;
    prim_set good_pf i 0
  else
  q ← div_u (u64 (l2 * 100)) (u64 (u64 (l2 + l3) + dram));
  prim_set l2_hitr i (s32 q) ;;
  q ← div_u (u64 (l3 * 100)) (u64 (l3 + dram));
  prim_set l3_hitr i (s32 q) ;;
  q ← div_u (u64 (dram * 100)) total_ddr_hit;
  prim_set core_contr_to_ddr i (s32 q) ;;
  xq ← delta i PERF_XQ_PROMOTION_ALL;
  q ← div_u (u64 (xq * 100)) (u64 (u64 (l2 + l3) + dram));
  prim_set good_pf i (s32 q).

(** ** [tunealg] 0 *)

(** The step table of the L2 XQ threshold. *)
Definition l2xq_step (ddr_bw_percent : Z) : Z :=
  if ddr_bw_percent <? 10 then 0
  else if ddr_bw_percent <? 20 then -8
  else if ddr_bw_percent <? 30 then -4
  else if ddr_bw_percent <? 40 then -2
  else if ddr_bw_percent <? 50 then -1
  else if ddr_bw_percent <? 60 then -1
  else if ddr_bw_percent <? 70 then 1
  else if ddr_bw_percent <? 80 then 1
  else if ddr_bw_percent <? 90 then 1
  else if ddr_bw_percent <? 93 then 2
  else if ddr_bw_percent <? 96 then 4
  else 8.

Definition l2xq_next (ddr_bw_percent l2xq : Z) : Z :=
  let l2xq := l2xq + l2xq_step ddr_bw_percent in
  let l2xq := if l2xq <=? 0 then 1 else l2xq in
  if L2XQ_MAX <? l2xq then L2XQ_MAX else l2xq.

Definition tune_l2xq_core (ddr_bw_percent i : Z) : K unit :=
  old_l2xq ← msr_get_l2xq i;
  let l2xq := l2xq_next ddr_bw_percent old_l2xq in
  if negb (old_l2xq =? l2xq) then
    msr_set_l2xq i l2xq ;;
    msr_set_dirty i ;;
    mret tt
  else mret tt.

Definition tune_l2xq (ddr_bw_percent : Z) : K unit :=
  n ← active_cores;
  for_each (seqZ 0 n) (tune_l2xq_core ddr_bw_percent).

(** ** [tunealg] 1 *)

Definition core_mode (cycles_per_ms l2_hit l2_miss : Z) : Z :=
  if cycles_per_ms <? IDLE_CYCLES_THRESHOLD then MODE_IDLE
  else if l2_miss <? l2_hit then MODE_AGGRESSIVE
  else MODE_BOOT_DEFAULT.

Definition vote_core (time_delta_ms i : Z) : K unit :=
  l2_hit ← delta i PERF_MEM_LOAD_UOPS_RETIRED_L2_HIT;
  l2_miss ← delta i PERF_MEM_LOAD_UOPS_RETIRED_L2_MISS;
  core_cycles ← delta i PERF_CPU_CLK_UNHALTED_THREAD;
  cycles_per_ms ← div_u core_cycles time_delta_ms;
  prim_set core_benefits i (core_mode cycles_per_ms l2_hit l2_miss).

(** The four words a mode changes: 0x1320, 0x1321, 0x1322 and 0x1327. *)
Definition mode_words (mode : Z) (ws : list Z) : list Z :=
  if mode =? MODE_AGGRESSIVE then
    aset (aset (aset (aset ws MSR_1320_INDEX 0x008837ea070906c0)
      MSR_1321_INDEX 0x0000251134040001) MSR_1322_INDEX 0x280020820cd0046c)
      MSR_1327_INDEX 0x0000000001920014
  else
    aset (aset (aset (aset ws MSR_1320_INDEX 0x10883fea070906c4)
      MSR_1321_INDEX 0x0000251134140001) MSR_1322_INDEX 0x2807ffff4cd0046c)
      MSR_1327_INDEX 0x0000000005920014.

Definition vote_sum (module_start module_end : Z) : K Z :=
  fold_each (seqZ module_start (module_end - module_start)) 0 (fun sum i =>
    b ← prim_get core_benefits i;
    mret (sum + b)).

Definition desired_mode (module_vote_sum : Z) : Z :=
  if BENEFITING_CORES <=? module_vote_sum then MODE_AGGRESSIVE else MODE_BOOT_DEFAULT.

Definition tune_module (first last module_start : Z) : K unit :=
  let module_end := Z.min (module_start + CORES_PER_COMPUTE_MODULE) last in
  module_vote_sum ← vote_sum module_start module_end;
  let module_idx := Z.quot (module_start - first) CORES_PER_COMPUTE_MODULE in
  let mode := desired_mode module_vote_sum in
  old ← prim_get module_mode module_idx;
  if old =? mode then mret tt else
  c ← core_at module_start;
  put_core module_start (c <| pf_msr ::= mode_words mode |>) ;;
  msr_set_dirty module_start ;;
  prim_set module_mode module_idx mode.

(** [for (start = first; start < last; start += 4)] *)
Definition module_starts (first last : Z) : list Z :=
  map (fun k => first + CORES_PER_COMPUTE_MODULE * k)
    (seqZ 0 ((last - first + CORES_PER_COMPUTE_MODULE - 1) / CORES_PER_COMPUTE_MODULE)).

Definition tune_modules (time_delta_ms first last : Z) : K unit :=
  for_each (seqZ first (last - first)) (vote_core time_delta_ms) ;;
  for_each (module_starts first last) (tune_module first last).

(** ** [kernel_basicalg] *)

Definition kernel_basicalg (tunealg aggr_arg : Z) : K Z :=
  rd ← kernel_pmu_ddr DDR_PMU_RD;
  let ddr_rd_bw := Z.shiftr rd 20 in
  wr ← kernel_pmu_ddr DDR_PMU_WR;
  let ddr_wr_bw := Z.shiftr wr 20 in
  if (ddr_rd_bw =? u64 (- EINVAL)) || (ddr_wr_bw =? u64 (- EINVAL)) then mret (- EINVAL) else
  p ← gets prim;
  if prim_time_old p =? 0 then basicalg_first else
  time_now ← ktime_get_ns;
  let time_delta_ms := u64 (time_now - prim_time_old p) / 1000000 in
  set_prim (fun p => p <| prim_time_old := time_now |>) ;;
  if (ddr_bw_target_ppms p =? 0) || (time_delta_ms =? 0) then mret (-1) else
  q ← div_u (u64 (u64 (ddr_rd_bw + ddr_wr_bw) * time_delta_ms)) (u64 (ddr_bw_target_ppms p));
  let ddr_bw_percent := s32 q in
  let cores := seqZ (first_core_idx p) (last_core_idx p - first_core_idx p) in
  collect_deltas cores ;;
  total_ddr_hit ← total_ddr_hits cores;
  if total_ddr_hit =? 0 then mret (-1) else
  for_each cores (core_ratios total_ddr_hit) ;;
  (if tunealg =? 0 then tune_l2xq ddr_bw_percent
   else if tunealg =? 1 then tune_modules time_delta_ms (first_core_idx p) (last_core_idx p)
   else mret tt) ;;
  mret 0.

(** ** Invariance *)

Lemma kwf_set_prim s p : kwf s -> prim_wf p -> kwf (s <| prim := p |>).
Proof. intros Hs Hp. kwf_update Hs. Qed.

(** Setting a static array of machine integers keeps the lengths. *)
Ltac prim_update :=
  apply preserves_modify; intros s Hs; apply kwf_set_prim; [done|];
  destruct (kwf_prim s Hs); constructor; cbn; autorewrite with arrays; done.

Ltac prim_set_solve :=
  unfold prim_set; preserve; prim_update.

Lemma preserves_set_l2_hitr i v : preserves kwf (prim_set l2_hitr i v).
Proof. prim_set_solve. Qed.

Lemma preserves_set_l3_hitr i v : preserves kwf (prim_set l3_hitr i v).
Proof. prim_set_solve. Qed.

Lemma preserves_set_contr i v : preserves kwf (prim_set core_contr_to_ddr i v).
Proof. prim_set_solve. Qed.

Lemma preserves_set_good_pf i v : preserves kwf (prim_set good_pf i v).
Proof. prim_set_solve. Qed.

Lemma preserves_set_benefits i v : preserves kwf (prim_set core_benefits i v).
Proof. prim_set_solve. Qed.

Lemma preserves_set_mode i v : preserves kwf (prim_set module_mode i v).
Proof. prim_set_solve. Qed.

Lemma preserves_set_delta i row :
  zlen row = PMU_COUNTERS -> Forall (in_u 64) row -> preserves kwf (prim_set pmu_delta i row).
Proof.
  intros Hl Hr. unfold prim_set. preserve. apply preserves_modify. intros s Hs.
  apply kwf_set_prim; [done|]. destruct (kwf_prim s Hs). constructor; cbn; rewrite ?zlen_aset; try done.
  by apply Forall_aset.
Qed.

Lemma preserves_prim_get {A} (f : prim_state -> list A) i : preserves kwf (prim_get f i).
Proof. unfold prim_get. preserve. Qed.

#[export] Hint Resolve preserves_set_l2_hitr preserves_set_l3_hitr preserves_set_contr
  preserves_set_good_pf preserves_set_benefits preserves_set_mode @preserves_prim_get : preserve.

Lemma preserves_delta i ev : preserves kwf (delta i ev).
Proof. unfold delta. preserve. Qed.

#[export] Hint Resolve preserves_delta : preserve.

Lemma preserves_collect_deltas cores : preserves kwf (collect_deltas cores).
Proof.
  unfold collect_deltas. do 2 preserve_step. kpreserve_step. do 2 (kpreserve_step; [eauto with preserve|]).
  intros s Hs. unfold prim_get. apply wp_bind, wp_bind, wp_gets, wp_read; [|done].
  intros row Hrow. destruct (kwf_prim s Hs) as [_ _ _ _ _ Hrows _ _].
  destruct (Forall_aget _ _ _ _ Hrows Hrow) as [Hl Hr].
  apply wp_bind, wp_check_index; [|done]. intros _. apply preserves_set_delta; [|..|done].
  - by rewrite zlen_aset.
  - apply Forall_aset; [done|apply u64_range].
Qed.

Lemma preserves_tune_l2xq p : preserves kwf (tune_l2xq p).
Proof.
  unfold tune_l2xq, tune_l2xq_core, active_cores, msr_get_l2xq, msr_field_get. kpreserve.
Qed.

Lemma mode_words_wf mode ws :
  zlen ws = NR_OF_MSR -> Forall (in_u 64) ws ->
  zlen (mode_words mode ws) = NR_OF_MSR /\ Forall (in_u 64) (mode_words mode ws).
Proof.
  intros Hl Hw. unfold mode_words. destruct (_ =? _); rewrite !zlen_aset; (split; [done|]);
    repeat apply Forall_aset; done.
Qed.

Lemma preserves_tune_module f l m : preserves kwf (tune_module f l m).
Proof.
  unfold tune_module, vote_sum. kpreserve. apply preserves_put_core.
  destruct (mode_words_wf (desired_mode a) (pf_msr c)); [by apply cwf_msr|by apply cwf_msr_u64|].
  by apply core_wf_msr.
Qed.

#[export] Hint Resolve preserves_collect_deltas preserves_tune_l2xq preserves_tune_module : preserve.

Lemma preserves_set_prim_scalar f :
  (forall p, prim_wf p -> prim_wf (f p)) -> preserves kwf (set_prim f).
Proof.
  intros Hf. apply preserves_modify. intros s Hs. apply kwf_set_prim; [done|].
  by apply Hf, kwf_prim.
Qed.

Ltac prim_scalar := apply preserves_set_prim_scalar; intros ? []; by constructor.

Lemma preserves_basicalg tunealg a : preserves kwf (kernel_basicalg tunealg a).
Proof.
  unfold kernel_basicalg, basicalg_first, first_core, active_cores, total_ddr_hits, core_ratios,
    tune_modules, vote_core.
  kpreserve; prim_scalar.
Qed.

(** ** Behaviour of the decisions *)

Definition L2XQ : string := "L2_STREAM_AMP_XQ_THRESHOLD".

(** The word of MSR 0x1320 in a core's table. *)
Definition word1320 (s : kstate) (i : Z) : Z :=
  match aget (corestate s) i with
  | Some c => default 0 (aget (pf_msr c) MSR_1320_INDEX)
  | None => 0
  end.

Definition dirty_flag (s : kstate) (i : Z) : Z :=
  match aget (corestate s) i with Some c => pf_msr_dirty c | None => 0 end.

Lemma core_words s i :
  kwf s -> 0 <= i < MAX_NUM_CORES ->
  exists c w, aget (corestate s) i = Some c /\ core_wf c /\
    aget (pf_msr c) MSR_1320_INDEX = Some w /\ in_u 64 w.
Proof.
  intros Hs Hi. destruct (aget_is_Some (corestate s) i) as [c Hc]; [by rewrite (kwf_cores s Hs)|].
  assert (Hwf : core_wf c) by by eapply Forall_aget; [apply (kwf_core s Hs)|].
  destruct (aget_is_Some (pf_msr c) MSR_1320_INDEX) as [w Hw]; [by rewrite (cwf_msr c Hwf)|].
  exists c, w. split_and!; try done. by apply (Forall_aget _ _ _ _ (cwf_msr_u64 c Hwf) Hw).
Qed.

Lemma get_l2xq_eq s i :
  kwf s -> 0 <= i < MAX_NUM_CORES ->
  msr_get_l2xq i s = Ok (msr_u_get msr1320 L2XQ (word1320 s i), s).
Proof.
  intros Hs Hi. destruct (core_words s i Hs Hi) as (c & w & Hc & _ & Hw & _).
  unfold msr_get_l2xq, msr_field_get, word1320. rewrite Hc, Hw.
  rewrite (bind_Ok _ _ _ _ _ (core_at_Some _ _ _ Hc)).
  by rewrite (bind_Ok _ _ _ _ _ (read_Some _ _ _ _ Hw)).
Qed.

Lemma set_l2xq_eq s i v :
  kwf s -> 0 <= i < MAX_NUM_CORES ->
  exists c, aget (corestate s) i = Some c /\ core_wf c /\
    msr_set_l2xq i v s = Ok (0, s <| corestate := aset (corestate s) i
      (c <| pf_msr := aset (pf_msr c) MSR_1320_INDEX
              (msr_u_set msr1320 L2XQ (word1320 s i) v) |>) |>).
Proof.
  intros Hs Hi. destruct (core_words s i Hs Hi) as (c & w & Hc & Hwf & Hw & _).
  exists c. split_and!; try done. unfold msr_set_l2xq, msr_field_set, word1320. rewrite Hc, Hw.
  rewrite (bind_Ok _ _ _ _ _ (core_at_Some _ _ _ Hc)).
  rewrite (bind_Ok _ _ _ _ _ (read_Some _ _ _ _ Hw)).
  by erewrite bind_Ok by (apply put_core_Ok; by eapply aget_Some_range).
Qed.

Lemma l2xq_next_range p v : 0 <= v <= L2XQ_MAX -> 1 <= l2xq_next p v <= L2XQ_MAX.
Proof.
  intros Hv. unfold l2xq_next, L2XQ_MAX in *. cbv zeta.
  destruct (Z.leb_spec (v + l2xq_step p) 0);
    match goal with |- context [31 <? ?x] => destruct (Z.ltb_spec 31 x) end; lia.
Qed.

(** With [tunealg] 0 the L2 XQ threshold of a core moves by the step of the
    bandwidth band and stays between 1 and 31; the core is marked for an MSR
    write exactly when the value changed, and no other bit-field of the register
    and no other core is touched. *)
Theorem tune_l2xq_core_spec (s : kstate) (p i : Z) :
  kwf s -> 0 <= i < MAX_NUM_CORES ->
  let old := msr_u_get msr1320 L2XQ (word1320 s i) in
  exists s', tune_l2xq_core p i s = Ok (tt, s') /\
    msr_u_get msr1320 L2XQ (word1320 s' i) = l2xq_next p old /\
    1 <= l2xq_next p old <= L2XQ_MAX /\
    dirty_flag s' i = (if old =? l2xq_next p old then dirty_flag s i else 1) /\
    (forall n, n <> L2XQ ->
      msr_u_get msr1320 n (word1320 s' i) = msr_u_get msr1320 n (word1320 s i)) /\
    (forall j, j <> i -> aget (corestate s') j = aget (corestate s) j).
Proof.
  intros Hs Hi old. assert (Hold : 0 <= old <= L2XQ_MAX).
  { unfold old, msr_u_get. change (field_of msr1320 L2XQ) with (Some (Field 0 5)). cbv iota.
    pose proof (get_field_range (Field 0 5) (word1320 s i) eq_refl) as Hg.
    change (2 ^ f_width (Field 0 5)) with 32 in Hg. unfold L2XQ_MAX. lia. }
  pose proof (l2xq_next_range p old Hold) as Hnext. unfold tune_l2xq_core.
  rewrite (bind_Ok _ _ _ _ _ (get_l2xq_eq s i Hs Hi)). cbv zeta. fold old.
  destruct (Z.eqb_spec old (l2xq_next p old)) as [Heq|Hne]; cbn [negb].
  - exists s. rewrite <- Heq in Hnext |- *. split_and!; try done; lia.
  - destruct (set_l2xq_eq s i (l2xq_next p old) Hs Hi) as (c & Hc & Hwf & Hset).
    pose proof (aget_Some_range _ _ _ Hc) as Hr.
    rewrite (bind_Ok _ _ _ _ _ Hset).
    set (c1 := c <| pf_msr := _ |>). unfold msr_set_dirty.
    erewrite bind_Ok.
    2:{ erewrite bind_Ok by (apply core_at_Some; by apply aget_aset_eq).
        erewrite bind_Ok by (apply put_core_Ok; cbn; by rewrite zlen_aset). reflexivity. }
    eexists. split; [reflexivity|].
    assert (Hc' : aget (aset (aset (corestate s) i c1) i (c1 <| pf_msr_dirty := 1 |>)) i =
      Some (c1 <| pf_msr_dirty := 1 |>)) by (apply aget_aset_eq; by rewrite zlen_aset).
    assert (Hw : forall x, aget (aset (pf_msr c) MSR_1320_INDEX x) MSR_1320_INDEX = Some x).
    { intros x. apply aget_aset_eq. by rewrite (cwf_msr c Hwf). }
    set (s' := s <| corestate := _ |> <| corestate := _ |>).
    assert (Hw' : word1320 s' i = msr_u_set msr1320 L2XQ (word1320 s i) (l2xq_next p old)).
    { unfold word1320 at 1. cbn -[aget aset msr_u_set]. rewrite Hc'. cbn -[aget aset msr_u_set].
      by rewrite Hw. }
    assert (Hd' : dirty_flag s' i = 1).
    { unfold dirty_flag. cbn -[aget aset]. by rewrite Hc'. }
    rewrite Hw', Hd'. split_and!; try done; try lia.
    + rewrite (msr_u_get_set_same _ _ (Field 0 5)) by done. apply Z.mod_small.
      change (2 ^ f_width (Field 0 5)) with 32. unfold L2XQ_MAX in Hnext. lia.
    + intros n Hn. by rewrite msr_u_get_set_other.
    + intros j Hj. cbn -[aget aset]. by rewrite !aget_aset_ne.
Qed.

Lemma tune_l2xq_core_spec_witness :
  exists s', tune_l2xq_core 15 2 (one_core 2 (core_zero <| pf_msr := [0x10883fea070906c4; 0; 0; 0; 0; 0; 0] |>))
    = Ok (tt, s') /\ msr_u_get msr1320 L2XQ (word1320 s' 2) = 1.
Proof.
  set (s := one_core _ _). assert (Hs : kwf s) by kwf_compute.
  destruct (tune_l2xq_core_spec s 15 2 Hs ltac:(done)) as (s' & H & Hv & _).
  exists s'. split; [exact H|]. rewrite Hv. vm_compute. reflexivity.
Defined.

(** The thresholds react to the bandwidth in the right direction: the more
    of the bandwidth target is in use, the higher the next threshold. *)
Theorem l2xq_next_monotone (p q v : Z) :
  10 <= p <= q -> l2xq_next p v <= l2xq_next q v.
Proof.
  intros Hpq. assert (Hstep : l2xq_step p <= l2xq_step q).
  { unfold l2xq_step.
    repeat match goal with |- context [?x <? ?y] => destruct (Z.ltb_spec x y) end; lia. }
  unfold l2xq_next. cbv zeta.
  repeat match goal with
  | |- context [?x <=? 0] => destruct (Z.leb_spec x 0)
  | |- context [L2XQ_MAX <? ?x] => destruct (Z.ltb_spec L2XQ_MAX x)
  end; unfold L2XQ_MAX in *; lia.
Qed.

Lemma l2xq_next_monotone_witness : l2xq_next 15 20 <= l2xq_next 97 20.
Proof. apply l2xq_next_monotone. lia. Defined.

(** The votes of the cores [start .. start + n - 1]. *)
Definition benefit (s : kstate) (i : Z) : Z := default 0 (aget (core_benefits (prim s)) i).

Definition ballots (s : kstate) (l : list Z) : list Z := map (benefit s) l.

Definition count_votes (v : Z) (l : list Z) : Z := zlen (filter (fun b => b = v) l).

Lemma prim_get_Some {A} (f : prim_state -> list A) i s x :
  aget (f (prim s)) i = Some x -> prim_get f i s = Ok (x, s).
Proof. intros Hx. unfold prim_get. rewrite bind_gets. by apply read_Some. Qed.

Lemma vote_sum_eq s l acc :
  kwf s -> (forall i, i ∈ l -> 0 <= i < MAX_NUM_CORES) ->
  fold_each l acc (fun sum i => b ← prim_get core_benefits i; mret (sum + b)) s =
    Ok (acc + sumZ (ballots s l), s).
Proof.
  intros Hs. revert acc. induction l as [|i l IH]; intros acc Hl; cbn.
  - by rewrite Z.add_0_r.
  - destruct (aget_is_Some (core_benefits (prim s)) i) as [b Hb].
    { rewrite (pwf_benefits _ (kwf_prim s Hs)). apply Hl. by left. }
    erewrite bind_Ok by (by rewrite (bind_Ok _ _ _ _ _ (prim_get_Some _ _ _ _ Hb))).
    rewrite IH by (intros; apply Hl; by right). unfold benefit. rewrite Hb. cbn. by rewrite Z.add_assoc.
Qed.

(** With votes of -1, 0 and 1 the sum is the difference of the two counts. *)
Lemma sum_is_majority l :
  Forall (fun b => b = MODE_IDLE \/ b = MODE_AGGRESSIVE \/ b = MODE_BOOT_DEFAULT) l ->
  sumZ l = count_votes MODE_AGGRESSIVE l - count_votes MODE_BOOT_DEFAULT l.
Proof.
  unfold count_votes, zlen, MODE_IDLE, MODE_AGGRESSIVE, MODE_BOOT_DEFAULT.
  induction 1 as [|b l Hb _ IH]; [done|]. cbn [sumZ]. rewrite !filter_cons, IH.
  destruct Hb as [->|[->| ->]]; repeat case_decide; cbn [length]; lia.
Qed.

Definition module_ballots (s : kstate) (last start : Z) : list Z :=
  ballots s (seqZ start (Z.min (start + CORES_PER_COMPUTE_MODULE) last - start)).

Lemma tune_module_eq s first last start c old :
  kwf s -> 0 <= start -> last <= MAX_NUM_CORES ->
  aget (corestate s) start = Some c ->
  aget (module_mode (prim s)) (Z.quot (start - first) 4) = Some old ->
  let mode := desired_mode (sumZ (module_ballots s last start)) in
  tune_module first last start s =
    if old =? mode then Ok (tt, s) else
    Ok (tt, s <| corestate := aset (corestate s) start
                   (c <| pf_msr ::= mode_words mode |> <| pf_msr_dirty := 1 |>) |>
              <| prim ::= fun p => p <| module_mode ::= fun l =>
                   aset l (Z.quot (start - first) 4) mode |> |>).
Proof.
  intros Hs H0 Hlast Hc Hold mode. unfold tune_module, vote_sum. cbv zeta.
  rewrite (bind_Ok _ _ _ (sumZ (module_ballots s last start)) s).
  2:{ rewrite vote_sum_eq; [by rewrite Z.add_0_l|done|]. intros i Hi%elem_of_seqZ. lia. }
  fold mode. rewrite (bind_Ok _ _ _ _ _ (prim_get_Some _ _ _ _ Hold)).
  destruct (old =? mode); [done|]. rewrite (bind_Ok _ _ _ _ _ (core_at_Some _ _ _ Hc)).
  pose proof (aget_Some_range _ _ _ Hc) as Hr.
  erewrite bind_Ok by by apply put_core_Ok. unfold msr_set_dirty.
  erewrite bind_Ok.
  2:{ erewrite bind_Ok by (apply core_at_Some; by apply aget_aset_eq).
      erewrite bind_Ok by (apply put_core_Ok; cbn; by rewrite zlen_aset). reflexivity. }
  unfold prim_set. rewrite bind_gets. unfold check_index.
  rewrite (bind_Ok _ _ _ tt (s <| corestate := aset (corestate s) start
    (c <| pf_msr ::= mode_words mode |> <| pf_msr_dirty := 1 |>) |>)).
  - done.
  - cbn -[aset in_range]. rewrite (proj2 (in_range_zlen _ _)) by by eapply aget_Some_range.
    unfold aset. destruct (0 <=? start); [|done]. by rewrite list_insert_insert_eq.
Qed.

(** C10: with [tunealg] 1 a compute module is put into the aggressive setting
    exactly when more of its cores vote for it than against it (idle cores
    abstain, a module cut off by the end of the core range counts the cores it
    has), and into the boot default otherwise.  If that is the mode it is in,
    nothing changes; if not, the four tuned words of the module's first core are
    replaced, the other three are kept, and the core is marked for writing. *)
Theorem tune_module_majority (s : kstate) (first last start : Z) :
  kwf s -> 0 <= first <= start -> start < last -> last <= MAX_NUM_CORES ->
  let votes := module_ballots s last start in
  Forall (fun b => b = MODE_IDLE \/ b = MODE_AGGRESSIVE \/ b = MODE_BOOT_DEFAULT) votes ->
  exists s' mode c c', tune_module first last start s = Ok (tt, s') /\
    (mode = MODE_AGGRESSIVE /\
       count_votes MODE_BOOT_DEFAULT votes < count_votes MODE_AGGRESSIVE votes \/
     mode = MODE_BOOT_DEFAULT /\
       count_votes MODE_AGGRESSIVE votes <= count_votes MODE_BOOT_DEFAULT votes) /\
    aget (module_mode (prim s')) (Z.quot (start - first) 4) = Some mode /\
    aget (corestate s) start = Some c /\ aget (corestate s') start = Some c' /\
    (aget (module_mode (prim s)) (Z.quot (start - first) 4) = Some mode -> s' = s) /\
    (aget (module_mode (prim s)) (Z.quot (start - first) 4) <> Some mode ->
       pf_msr c' = mode_words mode (pf_msr c) /\ pf_msr_dirty c' = 1 /\
       forall k, k ∈ [MSR_1323_INDEX; MSR_1324_INDEX; MSR_1A4_INDEX] ->
         aget (pf_msr c') k = aget (pf_msr c) k) /\
    (forall j, j <> start -> aget (corestate s') j = aget (corestate s) j).
Proof.
  intros Hs Hf Hsl Hl votes Hv.
  destruct (aget_is_Some (corestate s) start) as [c Hc]; [rewrite (kwf_cores s Hs); lia|].
  pose proof (aget_Some_range _ _ _ Hc) as Hr.
  assert (Hq : 0 <= Z.quot (start - first) 4 < zlen (module_mode (prim s))).
  { rewrite (pwf_mode _ (kwf_prim s Hs)). unfold MAX_MODULES, MAX_NUM_CORES in *.
    rewrite Z.quot_div_nonneg by lia. split; [apply Z.div_pos; lia|].
    apply Z.div_lt_upper_bound; lia. }
  destruct (aget_is_Some (module_mode (prim s)) _ Hq) as [old Hold].
  pose proof (tune_module_eq s first last start c old Hs ltac:(lia) Hl Hc Hold) as Hrun.
  cbv zeta in Hrun. fold votes in Hrun. set (mode := desired_mode (sumZ votes)) in *.
  assert (Hmode : mode = MODE_AGGRESSIVE /\
       count_votes MODE_BOOT_DEFAULT votes < count_votes MODE_AGGRESSIVE votes \/
     mode = MODE_BOOT_DEFAULT /\
       count_votes MODE_AGGRESSIVE votes <= count_votes MODE_BOOT_DEFAULT votes).
  { unfold mode, desired_mode, BENEFITING_CORES. rewrite sum_is_majority by done.
    destruct (Z.leb_spec 1 (count_votes MODE_AGGRESSIVE votes - count_votes MODE_BOOT_DEFAULT votes));
      [left|right]; (split; [done|lia]). }
  rewrite Hold. destruct (Z.eqb_spec old mode) as [->|Hne].
  - exists s, mode, c, c. split_and!; try done.
  - eexists _, mode, c, _. split_and!; [exact Hrun|exact Hmode|by apply aget_aset_eq|done|
      by apply aget_aset_eq| | |].
    + congruence.
    + intros _. split_and!; try done. intros k Hk. cbn -[aget aset].
      unfold mode_words. destruct (mode =? MODE_AGGRESSIVE);
        repeat (apply elem_of_cons in Hk as [->|Hk]; [by rewrite !aget_aset_ne|]);
        by apply not_elem_of_nil in Hk.
    + intros j Hj. cbn -[aget aset]. by rewrite aget_aset_ne.
Qed.

(** Two cores for, one against, one idle. *)
Definition example_vote : kstate :=
  kstate0 hw0 <| prim ::= fun p => p <| core_benefits ::= fun l =>
    aset (aset (aset l 4 MODE_AGGRESSIVE) 5 MODE_BOOT_DEFAULT) 7 MODE_AGGRESSIVE |> |>.

Lemma tune_module_majority_witness :
  exists s' c', tune_module 4 8 4 example_vote = Ok (tt, s') /\
    aget (corestate s') 4 = Some c' /\
    pf_msr c' = mode_words MODE_AGGRESSIVE (replicate 7 0).
Proof.
  assert (Hs : kwf example_vote) by kwf_compute.
  assert (Hv : module_ballots example_vote 8 4 = [1; -1; 0; 1]) by (vm_compute; reflexivity).
  destruct (tune_module_majority example_vote 4 8 4 Hs ltac:(done) ltac:(done) ltac:(done))
    as (s' & mode & c & c' & Hrun & Hmode & _ & Hc & Hc' & _ & Hw & _).
  { rewrite Hv. unfold MODE_IDLE, MODE_AGGRESSIVE, MODE_BOOT_DEFAULT.
    repeat (apply Forall_cons_2; [auto|]). apply Forall_nil_2. }
  rewrite Hv in Hmode. destruct Hmode as [[-> _]|[-> Hlt]]; [|by vm_compute in Hlt].
  exists s', c'. split; [exact Hrun|]. split; [exact Hc'|].
  destruct Hw as [Hw _]; [by vm_compute|]. rewrite Hw. vm_compute in Hc. by injection Hc as <-.
Defined.

(** Every value a run can return is a 64-bit word. *)
Definition returns_u64 (m : K Z) : Prop := forall s, wp m s (fun v _ => in_u 64 v) any_stop.

(** [kernel_basicalg] never reports a failed DDR read: the error value of
    [kernel_pmu_ddr] has been shifted right by 20 bits before it is compared
    with [-EINVAL], so the test cannot succeed and the function returns only 0
    or -1. *)
Theorem basicalg_error_test_dead (s s' : kstate) (tunealg a r : Z) :
  kwf s -> kernel_basicalg tunealg a s = Ok (r, s') -> r = 0 \/ r = -1.
Proof.
  intros Hs Hrun.
  assert (Hw : wp (kernel_basicalg tunealg a) s (fun r _ => r = 0 \/ r = -1) any_stop);
    [|exact (wp_Ok _ _ _ _ _ _ Hrun Hw)]. clear Hrun.
  assert (Hbw : forall t, returns_u64 (kernel_pmu_ddr t)).
  { intros t s0. unfold kernel_pmu_ddr, kernel_pmu_ddr_client, kernel_pmu_ddr_grr_srf.
    apply wp_bind, wp_gets. destruct (_ =? _); [|destruct (_ =? _)];
      [apply wp_bind_any; intros; apply wp_ret, u64_range..|]. by apply wp_ret. }
  unfold kernel_basicalg. apply wp_bind. eapply wp_mono; [apply Hbw| |done]. intros rd s1 Hrd.
  cbv zeta. apply wp_bind. eapply wp_mono; [apply Hbw| |done]. intros wr s2 Hwr.
  assert (Hsh : forall x, in_u 64 x -> (Z.shiftr x 20 =? u64 (- EINVAL)) = false).
  { intros x [Hx0 Hx1]. apply Z.eqb_neq. rewrite Z.shiftr_div_pow2 by done.
    assert (x / 2 ^ 20 < 2 ^ 44) by (apply Z.div_lt_upper_bound; [done|exact Hx1]).
    change (u64 (- EINVAL)) with (2 ^ 64 - 22). lia. }
  rewrite !Hsh by done. cbn [orb]. unfold basicalg_first.
  repeat match goal with
  | |- wp (mret _) _ _ _ => apply wp_ret; by auto
  | |- wp (mbind _ _) _ _ _ => apply wp_bind_any; intros; cbv zeta
  | |- wp (if ?b then _ else _) _ _ _ => destruct b
  end.
Qed.

Lemma basicalg_error_test_dead_witness :
  exists s', kernel_basicalg 1 0 (kstate0 hw0) = Ok (0, s') /\ (0 = 0 \/ 0 = -1).
Proof.
  exists (after (kernel_basicalg 1 0) (kstate0 hw0)).
  assert (H : kernel_basicalg 1 0 (kstate0 hw0) = Ok (0, after (kernel_basicalg 1 0) (kstate0 hw0)))
    by (vm_compute; reflexivity).
  split; [exact H|]. exact (basicalg_error_test_dead _ _ 1 0 0 (kstate0_wf hw0) H).
Defined.
