(* ===== verification/KApi.v ===== *)
(** * The message handlers of the kernel module ([kernel_api.c], [kernel_api.h])

    A request is the byte string that user space wrote; the handlers read
    their fields at the offsets of the request structs, so a field that lies
    beyond the end of the message is an access outside the [kmalloc]ed copy.
    A response is the byte image of the response struct, kept in [proc_buffer]
    until user space reads it.  [cpu] is the CPU on which the handler runs. *)

From S2P Require Import Prelude Bitfields KState KCommon KPmuDdr.

(** ** Messages *)

(** [enum dpf_msg_type]. *)
Definition DPF_MSG_INIT : Z := 0.

Definition DPF_MSG_CORE_RANGE : Z := 1.

Definition DPF_MSG_DDRBW_SET : Z := 2.

Definition DPF_MSG_CORE_WEIGHT : Z := 3.

Definition DPF_MSG_TUNING : Z := 4.

Definition DPF_MSG_MSR_READ : Z := 5.

Definition DPF_MSG_PMU_READ : Z := 6.

Definition DPF_MSG_DDR_CONFIG : Z := 7.

Definition DPF_MSG_DDR_BW_READ : Z := 8.

Definition DPF_MSG_PMU_LOG_CONTROL : Z := 9.

Definition DPF_MSG_PMU_LOG_STOP : Z := 10.

Definition DPF_MSG_PMU_LOG_READ : Z := 11.

(** The [__u32] and [__u64] members of a request, by offset. *)
Definition req_int (n : nat) (msg : list Z) (off : nat) : K Z := fun s =>
  match sub_bytes msg off n with
  | Some bs => Ok (le_val bs, s)
  | None => Stop OutOfBounds
  end.

Definition req_u32 : list Z -> nat -> K Z := req_int 4.

Definition req_u64 : list Z -> nat -> K Z := req_int 8.

(** [struct dpf_msg_header_s] of a response. *)
Definition header (type size : Z) : list Z := le_bytes 4 type ++ le_bytes 4 size.

(** [kfree(proc_buffer); proc_buffer = resp; proc_buffer_size = ...] *)
Definition respond (bytes : list Z) : K unit :=
  modify (fun s => s <| proc_buffer := Some bytes |> <| proc_buffer_size := zlen bytes |>).

(** What the padding of a freshly allocated struct holds. *)
Definition junk_bytes (n : nat) : K (list Z) :=
  gets (fun s => map (fun i => u8 (hw_junk (machine s) i)) (seq 0 n)).

Definition cpumask_set_cpu (c : Z) (m : list Z) : list Z :=
  if bool_decide (c ∈ m) then m else m ++ [c].

(** ** Handlers *)

Definition api_init : K Z :=
  ok ← kmalloc;
  if negb ok then mret (- ENOMEM) else
  respond (header DPF_MSG_INIT 12 ++ le_bytes 4 DPF_API_VERSION) ;;
  mret 0.

Section api.
Context {L : Linux}.

(** One iteration of the loop of [api_core_range]. *)
Definition core_range_step (cpu core_start core_end core_id : Z) : K unit :=
  c ← core_at core_id;
  put_core core_id (c <| core_disabled :=
    b2z ((core_id <? core_start) || (core_end <? core_id)) |>) ;;
  c ← core_at core_id;
  if core_disabled c =? 0 then
    if cpu_online core_id then
      configure_pmu cpu core_id ;;
      modify (fun s => s <| enabled_cpus ::= cpumask_set_cpu core_id |>)
    else put_core core_id (c <| core_disabled := 1 |>)
  else mret tt.

Definition api_core_range (cpu : Z) (msg : list Z) : K Z :=
  core_start ← req_u32 msg 8;
  core_end ← req_u32 msg 12;
  if core_start <? 0 then mret (- EINVAL) else
  if MAX_NUM_CORES <=? core_end then mret (- EINVAL) else
  if core_end <? core_start then mret (- EINVAL) else
  if MAX_NUM_CORES <? u32 (core_end - core_start + 1) then mret (- EINVAL) else
  ok ← kmalloc;
  if negb ok then mret (- ENOMEM) else
  modify (fun s => s <| sys_first_core := s32 core_start |>
                     <| sys_active_cores := s32 (u32 (core_end + 1 - core_start)) |>
                     <| enabled_cpus := [] |>) ;;
  for_each (seqZ 0 MAX_NUM_CORES) (core_range_step cpu core_start core_end) ;;
  respond (header DPF_MSG_CORE_RANGE 20 ++ le_bytes 4 core_start ++ le_bytes 4 core_end ++
           le_bytes 4 (u32 (core_end - core_start + 1))) ;;
  mret 0.

Definition api_core_weight (msg : list Z) : K Z :=
  count ← req_u32 msg 8;
  let resp_size := u64 (12 + count * 4) in
  ok ← kmalloc;
  if negb ok then mret (- ENOMEM) else
  match sub_bytes msg 12 (Z.to_nat (count * 4)) with
  | None => stop_with OutOfBounds
  | Some weights =>
      respond (header DPF_MSG_CORE_WEIGHT (u32 resp_size) ++ le_bytes 4 count ++ weights) ;;
      mret 0
  end.

(** The MSR load of [api_tuning] for one online CPU. *)
Definition tuning_load (cpu core_id : Z) : K unit :=
  c ← core_at core_id;
  if negb (core_disabled c =? 0) then mret tt else
  k ← core_in_module core_id;
  if k =? 0 then msr_load cpu core_id ;; mret tt else mret tt.

Definition api_tuning (cpu : Z) (msg : list Z) : K Z :=
  ok ← kmalloc;
  if negb ok then mret (- ENOMEM) else
  enable ← req_u32 msg 8;
  req_aggr ← req_u32 msg 16;
  let req_aggr := if (req_aggr <? MIN_AGGR) || (MAX_AGGR <? req_aggr)
                  then (if req_aggr <? MIN_AGGR then MIN_AGGR else MAX_AGGR)
                  else req_aggr in
  tunealg ← req_u32 msg 12;
  modify (fun s => s <| tune_alg := s32 tunealg |> <| aggr := s32 (req_aggr / 10) |>) ;;
  (if enable =? 1 then
     for_each online_cpus (tuning_load cpu) ;;
     modify (fun s => s <| keep_running := true |>) ;;
     hrtimer_start
   else
     modify (fun s => s <| keep_running := false |>) ;;
     hrtimer_cancel) ;;
  alg ← gets tune_alg;
  ag ← gets aggr;
  respond (header DPF_MSG_TUNING 20 ++ le_bytes 4 enable ++ le_bytes 4 (u32 alg) ++
           le_bytes 4 (u32 ag)) ;;
  mret 0.

Definition api_ddrbw_set (msg : list Z) : K Z :=
  ok ← kmalloc;
  if negb ok then mret (- ENOMEM) else
  value ← req_u32 msg 8;
  modify (fun s => s <| ddr_bw_target := s32 value |>) ;;
  respond (header DPF_MSG_DDRBW_SET 12 ++ le_bytes 4 value) ;;
  mret 0.

Definition words_bytes (ws : list Z) : list Z := mjoin (map (le_bytes 8) ws).

Definition api_msr_read (cpu : Z) (msg : list Z) : K Z :=
  core_id ← req_u32 msg 8;
  if MAX_NUM_CORES <=? core_id then mret (- EINVAL) else
  c ← core_at core_id;
  if negb (core_disabled c =? 0) then mret (- EINVAL) else
  ok ← kmalloc;
  if negb ok then mret (- ENOMEM) else
  v ← read (pf_msr c) MSR_1320_INDEX;
  (if v =? 0 then msr_load cpu core_id ;; mret tt else mret tt) ;;
  c ← core_at core_id;
  respond (header DPF_MSG_MSR_READ 64 ++ words_bytes (pf_msr c)) ;;
  mret 0.

Definition api_pmu_read (cpu : Z) (msg : list Z) : K Z :=
  core_id ← req_u32 msg 8;
  if MAX_NUM_CORES <=? core_id then mret (- EINVAL) else
  c ← core_at core_id;
  if negb (core_disabled c =? 0) then mret (- EINVAL) else
  ok ← kmalloc;
  if negb ok then mret (- ENOMEM) else
  pmu_update cpu core_id ;;
  c ← core_at core_id;
  respond (header DPF_MSG_PMU_READ 72 ++ words_bytes (pmu_raw c)) ;;
  mret 0.

(** One step of the clean-up of earlier mappings. *)
Definition unmap_controller (i : Z) : K unit :=
  d ← gets ddr;
  a ← read (mmap d) i;
  if a =? 0 then mret tt else iounmap a ;; set_mmap i 0.

Definition api_ddr_config (msg : list Z) : K Z :=
  bar ← req_u64 msg 8;
  cpu_type ← req_u32 msg 16;
  num_controllers ← req_u32 msg 20;
  if (num_controllers =? 0) || (MAX_NUM_DDR_CONTROLLERS <? num_controllers)
  then mret (- EINVAL) else
  ok ← kmalloc;
  if negb ok then mret (- ENOMEM) else
  pad ← junk_bytes 4;
  for_each (seqZ 0 MAX_NUM_DDR_CONTROLLERS) unmap_controller ;;
  modify (fun s => s <| ddr_bar_address := bar |> <| ddr_cpu_type := cpu_type |>
                     <| num_ddr_controllers := num_controllers |>) ;;
  ret ← (if cpu_type =? DDR_CLIENT then kernel_pmu_ddr_init_client bar
         else if cpu_type =? DDR_GRR_SRF then kernel_pmu_ddr_init_grr_srf bar
         else mret (- EINVAL));
  if ret <? 0 then mret (- EINVAL) else
  respond (header DPF_MSG_DDR_CONFIG 24 ++ le_bytes 8 bar ++ le_bytes 4 cpu_type ++ pad) ;;
  mret 0.

Definition api_ddr_bw_read : K Z :=
  ok ← kmalloc;
  if negb ok then mret (- ENOMEM) else
  r ← read_ddr_counters;
  let '(_, read_bw, write_bw) := r in
  respond (header DPF_MSG_DDR_BW_READ 24 ++ le_bytes 8 read_bw ++ le_bytes 8 write_bw) ;;
  mret 0.

(** *** The PMU log *)

Definition NSEC_PER_SEC : Z := 1000000000.

(** The (re)allocation of the log buffer: [Some e] is an early return. *)
Definition log_buffer_setup (size mode : Z) : K (option Z) :=
  buf ← gets pmu_log_buffer;
  if bool_decide (buf = None) || (mode =? 0) then
    modify (fun s => s <| pmu_log_buffer := None |>) ;;
    if 0 <? size then
      ok ← kmalloc;
      if negb ok then mret (Some (- ENOMEM)) else
      modify (fun s => s <| pmu_log_buffer := Some (replicate (Z.to_nat size) 0) |>
                         <| pmu_log_buffer_size := size |>
                         <| pmu_log_data_size := 0 |>) ;;
      mret None
    else mret (Some (- EINVAL))
  else mret None.

Definition log_reset_core (cpu i : Z) : K unit :=
  c ← core_at i;
  if core_disabled c =? 0 then
    put_core i (c <| pmu_raw := replicate 8 0 |>) ;;
    configure_pmu cpu i ;;
    mret tt
  else mret tt.

Definition api_pmu_log_control (cpu : Z) (msg : list Z) : K Z :=
  buffer_size ← req_u32 msg 8;
  mode ← req_u32 msg 12;
  ok ← kmalloc;
  if negb ok then mret (- ENOMEM) else
  if 1 <? mode then mret (- EINVAL) else
  err ← log_buffer_setup buffer_size mode;
  match err with
  | Some e => mret e
  | None =>
      was_active ← gets pmu_logging_active;
      (if (mode =? 0) || negb was_active
       then for_each (seqZ 0 MAX_NUM_CORES) (log_reset_core cpu) else mret tt) ;;
      running ← gets keep_running;
      (if negb running then
         modify (fun s => s <| keep_running := true |> <| kt_period := NSEC_PER_SEC |>) ;;
         hrtimer_start
       else mret tt) ;;
      modify (fun s => s <| pmu_logging_active := true |>) ;;
      size ← gets pmu_log_buffer_size;
      respond (header DPF_MSG_PMU_LOG_CONTROL 20 ++ le_bytes 4 (u32 size) ++ le_bytes 4 mode ++
               le_bytes 4 0) ;;
      mret 0
  end.

Definition log_stop_core (cpu i : Z) : K unit :=
  c ← core_at i;
  if core_disabled c =? 0 then configure_pmu cpu i ;; mret tt else mret tt.

Definition api_pmu_log_stop (cpu : Z) : K Z :=
  ok ← kmalloc;
  if negb ok then mret (- ENOMEM) else
  was_active ← gets pmu_logging_active;
  if negb was_active then
    ok ← kmalloc;
    if negb ok then mret (- ENOMEM) else
    respond (header DPF_MSG_PMU_LOG_STOP 12 ++ le_bytes 4 (u32 (- EINVAL))) ;;
    mret (- EINVAL)
  else
  modify (fun s => s <| pmu_logging_active := false |> <| keep_running := false |>) ;;
  hrtimer_cancel ;;
  for_each (seqZ 0 MAX_NUM_CORES) (log_stop_core cpu) ;;
  respond (header DPF_MSG_PMU_LOG_STOP 12 ++ le_bytes 4 0) ;;
  mret 0.

(** [api_pmu_log_read]: the log line prints the core and the time of the
    first entry, twelve bytes of the copied data. *)
Definition api_pmu_log_read (msg : list Z) : K Z :=
  max_bytes ← req_u32 msg 8;
  s ← get_state;
  match pmu_log_buffer s with
  | None => mret (- ENODATA)
  | Some buf =>
      if pmu_log_buffer_size s =? 0 then mret (- ENODATA) else
      if pmu_log_data_size s =? 0 then
        ok ← kmalloc;
        if negb ok then mret (- ENOMEM) else
        respond (header DPF_MSG_PMU_LOG_READ 16 ++ le_bytes 8 0) ;;
        mret 0
      else
      let bytes_to_read := if max_bytes =? 0 then pmu_log_data_size s
                           else Z.min max_bytes (pmu_log_data_size s) in
      let resp_size := u64 (16 + bytes_to_read) in
      ok ← kmalloc;
      if negb ok then mret (- ENOMEM) else
      match sub_bytes buf 0 (Z.to_nat bytes_to_read) with
      | None => stop_with OutOfBounds
      | Some data =>
          if bytes_to_read <? 12 then stop_with OutOfBounds else
          respond (header DPF_MSG_PMU_LOG_READ (u32 resp_size) ++ le_bytes 8 bytes_to_read ++ data) ;;
          mret 0
      end
  end.
End api.

(** [api_pmu_log_append_data]. *)
Definition api_pmu_log_append_data (data : list Z) : K Z :=
  s ← get_state;
  if negb (pmu_logging_active s) then mret (- EINVAL) else
  match pmu_log_buffer s with
  | None => mret (- EINVAL)
  | Some buf =>
      if pmu_log_buffer_size s =? 0 then mret (- EINVAL) else
      if zlen data =? 0 then mret (- EINVAL) else
      if pmu_log_buffer_size s <? u64 (pmu_log_data_size s + zlen data) then mret (- ENOSPC) else
      let n := Z.to_nat (pmu_log_data_size s) in
      modify (fun s => s <| pmu_log_buffer := Some (take n buf ++ data ++ drop (n + length data) buf) |>
                         <| pmu_log_data_size := pmu_log_data_size s + zlen data |>) ;;
      mret 0
  end.

(** [dpf_pmu_log_entry_t] (packed). *)
Record dpf_pmu_log_entry_t := {
  timestamp : Z;
  entry_core_id : Z;
  pmu_values : list Z }.

Definition log_entry_bytes (e : dpf_pmu_log_entry_t) : list Z :=
  le_bytes 8 (timestamp e) ++ le_bytes 4 (entry_core_id e) ++
  mjoin (map (le_bytes 8) (pmu_values e)).

(** ** Invariance *)

Lemma kwf_respond s bytes :
  kwf s -> Forall (in_u 8) bytes ->
  kwf (s <| proc_buffer := Some bytes |> <| proc_buffer_size := zlen bytes |>).
Proof. intros Hs Hb. kwf_update Hs. intros b [= <-]. cbn. split; [unfold zlen; lia|done]. Qed.

Lemma preserves_respond bytes : Forall (in_u 8) bytes -> preserves kwf (respond bytes).
Proof. intros Hb. apply preserves_modify. intros s Hs. by apply kwf_respond. Qed.

Lemma header_range t n : Forall (in_u 8) (header t n).
Proof. apply Forall_app_2; apply le_bytes_range. Qed.

Lemma words_bytes_range ws : Forall (in_u 8) (words_bytes ws).
Proof.
  unfold words_bytes. apply Forall_join, Forall_map, Forall_true. intros w. apply le_bytes_range.
Qed.

Lemma length_words_bytes ws : length (mjoin (map (le_bytes 8) ws)) = (8 * length ws)%nat.
Proof.
  induction ws as [|w ws IH]; [done|].
  cbn [map]. rewrite join_cons, length_app, length_le_bytes, IH. cbn [length]. lia.
Qed.

#[export] Hint Resolve preserves_respond header_range words_bytes_range le_bytes_range
  Forall_app_2 : preserve.

Lemma preserves_req_int n msg off : preserves kwf (req_int n msg off).
Proof. intros s Hs. unfold wp, req_int. by destruct (sub_bytes msg off n). Qed.

#[export] Hint Extern 1 (preserves kwf (req_u32 _ _)) => apply preserves_req_int : preserve.
#[export] Hint Extern 1 (preserves kwf (req_u64 _ _)) => apply preserves_req_int : preserve.

(** Assignments to globals that [kwf] does not mention. *)
Ltac plain_update := apply preserves_modify; intros ? Hs; by kwf_update Hs.

Lemma preserves_api_init : preserves kwf api_init.
Proof. unfold api_init. preserve. Qed.

Section invariance.
Context {L : Linux}.

Lemma preserves_core_range_step cpu a b i : preserves kwf (core_range_step cpu a b i).
Proof.
  unfold core_range_step. kpreserve.
  - apply preserves_put_core, core_wf_disabled; [done|]. destruct (_ || _); [by right|by left].
  - plain_update.
  - apply preserves_put_core, core_wf_disabled; [done|by right].
Qed.

Hint Resolve preserves_core_range_step : preserve.

Lemma preserves_api_core_range cpu msg : preserves kwf (api_core_range cpu msg).
Proof. unfold api_core_range. kpreserve. plain_update. Qed.

Lemma preserves_api_core_weight msg :
  Forall (in_u 8) msg -> preserves kwf (api_core_weight msg).
Proof.
  intros Hm. unfold api_core_weight. do 2 (kpreserve_step; [eauto with preserve|]).
  cbv zeta. destruct (negb _); [kpreserve|].
  destruct (sub_bytes _ _ _) as [ws|] eqn:Hw; [|kpreserve].
  pose proof (sub_bytes_range _ _ _ _ Hm Hw). kpreserve.
Qed.

Lemma preserves_api_tuning cpu msg : preserves kwf (api_tuning cpu msg).
Proof.
  unfold api_tuning, tuning_load, core_in_module. kpreserve; plain_update.
Qed.

Lemma preserves_api_ddrbw_set msg : preserves kwf (api_ddrbw_set msg).
Proof. unfold api_ddrbw_set. kpreserve. plain_update. Qed.

Lemma preserves_api_msr_read cpu msg : preserves kwf (api_msr_read cpu msg).
Proof. unfold api_msr_read. kpreserve. Qed.

Lemma preserves_api_pmu_read cpu msg : preserves kwf (api_pmu_read cpu msg).
Proof. unfold api_pmu_read. kpreserve. Qed.

Lemma preserves_unmap_controller i : preserves kwf (unmap_controller i).
Proof. unfold unmap_controller. kpreserve. Qed.

Lemma preserves_api_ddr_bw_read : preserves kwf api_ddr_bw_read.
Proof. unfold api_ddr_bw_read. kpreserve. Qed.

Hint Resolve preserves_unmap_controller : preserve.

Lemma junk_bytes_range n s : Forall (in_u 8) (map (fun i => u8 (hw_junk (machine s) i)) (seq 0 n)).
Proof. apply Forall_map, Forall_true. intros i. apply u8_range. Qed.

Lemma req_u32_range msg off : Forall (in_u 8) msg -> returns (in_u 32) (req_u32 msg off).
Proof.
  intros Hm s Hs. unfold wp, req_u32, req_int.
  destruct (sub_bytes msg off 4) as [bs|] eqn:Hb; [|done]. split; [|done].
  pose proof (le_val_range bs (sub_bytes_range _ _ _ _ Hm Hb)) as Hr.
  by rewrite (sub_bytes_length _ _ _ _ Hb) in Hr.
Qed.

Lemma preserves_req_u32 {B} msg off (k : Z -> K B) :
  Forall (in_u 8) msg -> (forall v, in_u 32 v -> preserves kwf (k v)) ->
  preserves kwf (mbind k (req_u32 msg off)).
Proof. intros Hm. apply preserves_returns. by apply req_u32_range. Qed.

Lemma preserves_api_ddr_config msg :
  Forall (in_u 8) msg -> preserves kwf (api_ddr_config msg).
Proof.
  intros Hm. unfold api_ddr_config. kpreserve_step; [eauto with preserve|].
  apply preserves_req_u32; [done|]. intros t _. apply preserves_req_u32; [done|]. intros n [Hn _].
  destruct (_ || _) eqn:Hb; [kpreserve|]. apply orb_false_iff in Hb as [_ Hn1%Z.ltb_ge].
  kpreserve_step; [eauto with preserve|]. destruct (negb _); [kpreserve|].
  apply (preserves_returns (Forall (in_u 8))).
  { intros s Hs. apply wp_gets. split; [apply junk_bytes_range|done]. }
  intros pad Hpad. kpreserve. apply preserves_modify. intros s Hs. by kwf_update Hs.
Qed.

Lemma kwf_log_none s : kwf s -> kwf (s <| pmu_log_buffer := None |>).
Proof. intros Hs. kwf_update Hs. by constructor. Qed.

Lemma kwf_log_new s n :
  kwf s -> in_u 32 n ->
  kwf (s <| pmu_log_buffer := Some (replicate (Z.to_nat n) 0) |> <| pmu_log_buffer_size := n |>
         <| pmu_log_data_size := 0 |>).
Proof.
  intros Hs [H0 H1]. kwf_update Hs. constructor; cbn; intros b [= <-]; try done.
  - unfold zlen. rewrite length_replicate. lia.
  - by apply Forall_replicate.
Qed.

Lemma preserves_log_buffer_setup n mode :
  in_u 32 n -> preserves kwf (log_buffer_setup n mode).
Proof.
  intros Hn. unfold log_buffer_setup. kpreserve; apply preserves_modify; intros s Hs;
    [by apply kwf_log_none|by apply kwf_log_new].
Qed.

Lemma preserves_api_pmu_log_control cpu msg :
  Forall (in_u 8) msg -> preserves kwf (api_pmu_log_control cpu msg).
Proof.
  intros Hm. unfold api_pmu_log_control. apply preserves_req_u32; [done|]. intros n Hn.
  kpreserve; try plain_update; [by apply preserves_log_buffer_setup|].
  unfold log_reset_core. kpreserve. apply preserves_put_core, core_wf_raw; [done|done|].
  by apply Forall_replicate.
Qed.

Lemma preserves_api_pmu_log_stop cpu : preserves kwf (api_pmu_log_stop cpu).
Proof. unfold api_pmu_log_stop, log_stop_core. kpreserve. plain_update. Qed.

Lemma preserves_api_pmu_log_read msg : preserves kwf (api_pmu_log_read msg).
Proof.
  unfold api_pmu_log_read. kpreserve_step; [eauto with preserve|].
  apply (preserves_returns kwf); [by intros s Hs|]. intros s Hs.
  destruct (pmu_log_buffer s) as [buf|] eqn:Hbuf; [|kpreserve].
  pose proof (lwf_bytes s (kwf_log s Hs) buf Hbuf) as Hb. cbv zeta.
  destruct (sub_bytes buf 0 _) as [data|] eqn:Hd; [|kpreserve].
  pose proof (sub_bytes_range _ _ _ _ Hb Hd). kpreserve.
Qed.
End invariance.

#[export] Hint Resolve preserves_api_init preserves_api_core_range preserves_api_core_weight
  preserves_api_tuning preserves_api_ddrbw_set preserves_api_msr_read preserves_api_pmu_read
  preserves_api_ddr_config preserves_api_ddr_bw_read preserves_api_pmu_log_control
  preserves_api_pmu_log_stop preserves_api_pmu_log_read : preserve.

Lemma preserves_log_append data :
  Forall (in_u 8) data -> zlen data < 2 ^ 32 -> preserves kwf (api_pmu_log_append_data data).
Proof.
  intros Hd Hlen s Hs. unfold api_pmu_log_append_data. apply wp_bind, wp_gets.
  destruct (negb _); [by apply wp_ret|].
  destruct (pmu_log_buffer s) as [buf|] eqn:Hbuf; [|by apply wp_ret].
  destruct (_ =? 0); [by apply wp_ret|]. destruct (_ =? 0); [by apply wp_ret|].
  destruct (Z.ltb_spec (pmu_log_buffer_size s) (u64 (pmu_log_data_size s + zlen data)))
    as [|Hfit]; [by apply wp_ret|].
  destruct (kwf_log s Hs) as [Hsz Hbd Hda Hby]. specialize (Hsz buf Hbuf).
  specialize (Hbd buf Hbuf). specialize (Hda buf Hbuf). specialize (Hby buf Hbuf).
  unfold zlen in *. rewrite u64_small in Hfit by lia.
  apply wp_bind, wp_modify, wp_ret. kwf_update Hs.
  constructor; cbn; intros b [= <-]; unfold zlen; try done.
  - rewrite !length_app, length_take, length_drop. lia.
  - lia.
  - repeat apply Forall_app_2; [by apply Forall_take|done|by apply Forall_drop].
Qed.

(** ** Functional behaviour *)

(** The request structs as byte strings. *)
Definition core_range_msg (core_start core_end : Z) : list Z :=
  header DPF_MSG_CORE_RANGE 16 ++ le_bytes 4 core_start ++ le_bytes 4 core_end.

Definition tuning_msg (enable tunealg aggr : Z) : list Z :=
  header DPF_MSG_TUNING 20 ++ le_bytes 4 enable ++ le_bytes 4 tunealg ++ le_bytes 4 aggr.

Definition core_weight_msg (count : Z) (weights : list Z) : list Z :=
  header DPF_MSG_CORE_WEIGHT (u32 (12 + 4 * zlen weights)) ++ le_bytes 4 count ++
  mjoin (map (le_bytes 4) weights).

Definition log_read_msg (max_bytes : Z) : list Z :=
  header DPF_MSG_PMU_LOG_READ 12 ++ le_bytes 4 max_bytes.

Lemma le_bytes_4 v : in_u 32 v -> le_val (le_bytes 4 v) = v.
Proof. intros Hv. rewrite le_val_bytes. by apply Z.mod_small. Qed.

Lemma req_u32_at msg off pre v post s :
  msg = pre ++ le_bytes 4 v ++ post -> length pre = off -> in_u 32 v ->
  req_u32 msg off s = Ok (v, s).
Proof.
  intros -> Hoff Hv. unfold req_u32, req_int. rewrite (sub_bytes_skip pre) by done.
  rewrite sub_bytes_app_l, sub_bytes_all by by rewrite length_le_bytes. by rewrite le_bytes_4.
Qed.

(** [kmalloc] as an equation: the answer and the state after it. *)
Definition alloc_ok (s : kstate) : bool :=
  match hw_alloc (machine s) with [] => true | b :: _ => b end.

Definition alloc_next (s : kstate) : kstate :=
  match hw_alloc (machine s) with
  | [] => s
  | _ :: rest => s <| machine ::= fun h => h <| hw_alloc := rest |> |>
  end.

Lemma kmalloc_eq s : kmalloc s = Ok (alloc_ok s, alloc_next s).
Proof. unfold kmalloc, alloc_ok, alloc_next. by destruct (hw_alloc (machine s)). Qed.

(** A machine whose allocator and user copies go on as before. *)
Definition same_services (h h' : hw) : Prop :=
  (hw_alloc h = [] -> hw_alloc h' = []) /\ hw_copy h' = hw_copy h.

Lemma same_services_refl h : same_services h h.
Proof. by split. Qed.

Lemma same_services_trans h1 h2 h3 : same_services h1 h2 -> same_services h2 h3 -> same_services h1 h3.
Proof. intros [] []. split; [auto|congruence]. Qed.

Lemma alloc_next_machine s : exists h, alloc_next s = s <| machine := h |> /\ same_services (machine s) h.
Proof.
  unfold alloc_next, same_services. destruct (hw_alloc (machine s)) eqn:Ha; [|eexists; by split].
  exists (machine s). split; [by destruct s|done].
Qed.

(** Runs that only talk to the machine. *)
Definition machine_only {A} (m : K A) : Prop :=
  forall s, wp m s (fun _ s' => exists h, s' = s <| machine := h |> /\ same_services (machine s) h) no_stop.

Lemma machine_only_bind {A B} (m : K A) (k : A -> K B) :
  machine_only m -> (forall a, machine_only (k a)) -> machine_only (mbind k m).
Proof.
  intros Hm Hk s. apply wp_bind. eapply wp_mono; [apply Hm| |done]. intros a s1 [h [-> Ha]].
  eapply wp_mono; [apply Hk| |done]. intros b s2 [h2 [-> Hb]]. exists h2. split; [done|]. by eapply same_services_trans.
Qed.

Lemma machine_only_ret {A} (a : A) : machine_only (mret a).
Proof. intros s. apply wp_ret. exists (machine s). split; [by destruct s|apply same_services_refl]. Qed.

Lemma machine_only_wrmsr cpu a lo hi : machine_only (wrmsr cpu a lo hi).
Proof. intros s. apply wp_modify. eexists. by repeat split. Qed.

Lemma machine_only_kmalloc : machine_only kmalloc.
Proof. intros s. unfold wp. rewrite kmalloc_eq. apply alloc_next_machine. Qed.

Lemma machine_only_for_each {A} (l : list A) (f : A -> K unit) :
  (forall x, machine_only (f x)) -> machine_only (for_each l f).
Proof.
  intros Hf. induction l as [|x l IH]; cbn [for_each]; [apply machine_only_ret|].
  apply machine_only_bind; auto.
Qed.

Lemma machine_only_configure_pmu {L : Linux} cpu i : machine_only (configure_pmu cpu i).
Proof.
  unfold configure_pmu. apply machine_only_bind; [apply machine_only_kmalloc|]. intros b.
  destruct (negb b); [apply machine_only_ret|]. apply machine_only_bind; [|by intros; apply machine_only_ret].
  apply machine_only_for_each. intros x. unfold configure_pmu_on_core.
  apply machine_only_bind; [|intros _; apply machine_only_bind; intros; apply machine_only_wrmsr].
  apply machine_only_for_each. intros [a ev]. apply machine_only_wrmsr.
Qed.

Section core_range.
Context {L : Linux}.

(** A core takes part when it is in the range and online. *)
Definition selected (a b j : Z) : bool := (a <=? j) && (j <=? b) && cpu_online j.

(** The tables after the cores below [k] have been visited. *)
Record range_inv (s : kstate) (a b k : Z) (s' : kstate) : Prop := {
  ri_len : zlen (corestate s') = MAX_NUM_CORES;
  ri_done : forall j c, 0 <= j < k -> aget (corestate s) j = Some c ->
    aget (corestate s') j = Some (c <| core_disabled := b2z (negb (selected a b j)) |>);
  ri_todo : forall j, k <= j -> aget (corestate s') j = aget (corestate s) j;
  ri_mask : enabled_cpus s' = filter (fun j => selected a b j = true) (seqZ 0 k);
  ri_frame : exists cs mask h, s' = s <| corestate := cs |> <| enabled_cpus := mask |>
    <| machine := h |> }.

(** The table and the mask after core [k] was treated. *)
Lemma range_inv_end s a b k s' c hm :
  0 <= k -> aget (corestate s) k = Some c -> 0 <= k < zlen (corestate s') -> range_inv s a b k s' ->
  range_inv s a b (k + 1)
    (s' <| corestate := aset (corestate s') k (c <| core_disabled := b2z (negb (selected a b k)) |>) |>
        <| enabled_cpus := enabled_cpus s' ++ (if selected a b k then [k] else []) |>
        <| machine := hm |>).
Proof.
  intros Hk Hc Hr [Hl Hdone Htodo Hmask Hfr]. constructor; cbn -[aget aset filter].
  - by rewrite zlen_aset.
  - intros j cj Hj Hcj. destruct (decide (k = j)) as [<-|Hne].
    + simplify_eq. by rewrite aget_aset_eq.
    + rewrite aget_aset_ne by done. apply Hdone; [lia|done].
  - intros j Hj. rewrite aget_aset_ne by lia. apply Htodo. lia.
  - rewrite Hmask, (seqZ_app 0 k 1), filter_app by lia. f_equal.
    change (seqZ (0 + k) 1) with [k]. rewrite filter_cons, filter_nil.
    by destruct (selected a b k); case_decide.
  - destruct Hfr as (cs & mask & h & ->). by eexists _, _, _.
Qed.

Lemma range_inv_step s cpu a b k s' :
  0 <= k < MAX_NUM_CORES -> zlen (corestate s) = MAX_NUM_CORES -> range_inv s a b k s' ->
  wp (core_range_step cpu a b k) s' (fun _ => range_inv s a b (k + 1)) no_stop.
Proof.
  intros Hk Hlen Hinv. pose proof Hinv as [Hl _ Htodo Hmask _].
  destruct (aget_is_Some (corestate s) k) as [c Hc]; [lia|].
  assert (Hc' : aget (corestate s') k = Some c) by (rewrite Htodo by lia; done).
  pose proof (aget_Some_range _ _ _ Hc') as Hr.
  pose proof (fun hm => range_inv_end s a b k s' c hm (proj1 Hk) Hc Hr Hinv) as Hend.
  unfold core_range_step. apply wp_bind, wp_core_at; [|congruence]. intros c0 Hc0. simplify_eq.
  apply wp_bind, wp_put_core; [intros _|by rewrite (proj2 (in_range_zlen _ _))].
  apply wp_bind, wp_core_at; cbn -[aget aset]; rewrite aget_aset_eq by done; [|done].
  intros c1 [= <-]. cbn -[aget aset].
  replace ((k <? a) || (b <? k)) with (negb ((a <=? k) && (k <=? b)))
    by (rewrite negb_andb, !Z.leb_antisym, !negb_involutive; done).
  unfold selected in Hend.
  destruct ((a <=? k) && (k <=? b)) eqn:Hin; cbn [negb b2z Z.eqb andb] in *.
  - destruct (cpu_online k) eqn:Hon; cbn [negb b2z andb] in *.
    + apply wp_bind. eapply wp_mono; [apply machine_only_configure_pmu| |done].
      intros _ s2 [h2 [-> _]]. apply wp_modify.
      assert (Hset : cpumask_set_cpu k (enabled_cpus s') = enabled_cpus s' ++ [k]).
      { unfold cpumask_set_cpu. rewrite bool_decide_eq_false_2; [done|].
        rewrite Hmask, list_elem_of_filter, elem_of_seqZ. lia. }
      eapply eq_ind; [apply (Hend h2)|]. rewrite <- Hset. by destruct s'.
    + apply wp_put_core; cbn -[aget aset].
      2:{ by rewrite (proj2 (in_range_zlen _ _)) by by rewrite zlen_aset. }
      intros _. rewrite app_nil_r in Hend. eapply eq_ind; [apply (Hend (machine s'))|].
      cbn -[aget aset]. unfold aset. destruct (0 <=? k); [|done].
      rewrite list_insert_insert_eq. by destruct s'.
  - apply wp_ret. rewrite app_nil_r in Hend. eapply eq_ind; [apply (Hend (machine s'))|]. by destruct s'.
Qed.

(** The loop over all cores. *)
Lemma core_range_loop s cpu a b :
  zlen (corestate s) = MAX_NUM_CORES -> enabled_cpus s = [] ->
  wp (for_each (seqZ 0 MAX_NUM_CORES) (core_range_step cpu a b)) s
    (fun _ => range_inv s a b MAX_NUM_CORES) no_stop.
Proof.
  intros Hlen Hnil. eapply wp_mono; [apply (wp_for_each (fun rest s' => exists k, rest = seqZ k (512 - k) /\
    0 <= k /\ (rest = [] -> k = 512) /\ range_inv s a b k s'))| |done].
  - exists 0. split_and!; [done|done|done|]. constructor; cbn; try done.
    + intros; lia.
    + eexists (corestate s), (enabled_cpus s), (machine s). by destruct s.
  - intros k rest s' (k' & Heq & Hk0 & Hk1 & Hinv).
    assert (Hk : k' < 512).
    { destruct (Z.ltb_spec k' 512); [done|]. by rewrite seqZ_nil in Heq by lia. }
    rewrite seqZ_cons in Heq by lia. injection Heq as -> ->.
    eapply wp_mono; [apply (range_inv_step s); [|exact Hlen|exact Hinv]| |done]; [unfold MAX_NUM_CORES; lia|].
    intros u s'' Hinv'. exists (k' + 1). split_and!; try done; [f_equal; lia|lia|].
    intros E%(f_equal length). rewrite length_seqZ in E. simpl in E. lia.
  - intros u s' (k & _ & _ & Hk & Hinv). by rewrite (Hk eq_refl) in Hinv.
Qed.
End core_range.

(** ** Properties *)

(** [api_core_range] on every branch: a range that ends past core 511 or
    before it starts is refused with [-EINVAL] and no effect; without memory for
    the answer it returns [-ENOMEM] and keeps the configuration; otherwise the
    enabled cores are exactly the online cores of the range, each is in the CPU
    mask, every other core is disabled, nothing else of a core's state changes,
    and the answer confirms the range and its size. *)
Theorem api_core_range_spec {L : Linux} (cpu a b : Z) (s : kstate) :
  kwf s -> in_u 32 a -> in_u 32 b ->
  (MAX_NUM_CORES <= b \/ b < a ->
     api_core_range cpu (core_range_msg a b) s = Ok (- EINVAL, s)) /\
  (a <= b < MAX_NUM_CORES -> alloc_ok s = false ->
     api_core_range cpu (core_range_msg a b) s = Ok (- ENOMEM, alloc_next s)) /\
  (a <= b < MAX_NUM_CORES -> alloc_ok s = true ->
     exists s', api_core_range cpu (core_range_msg a b) s = Ok (0, s') /\
       sys_first_core s' = a /\ sys_active_cores s' = b - a + 1 /\
       (forall j c, aget (corestate s) j = Some c ->
          aget (corestate s') j = Some (c <| core_disabled := b2z (negb (selected a b j)) |>)) /\
       (forall j, j ∈ enabled_cpus s' <-> a <= j <= b /\ cpu_online j = true) /\
       proc_buffer s' = Some (header DPF_MSG_CORE_RANGE 20 ++ le_bytes 4 a ++ le_bytes 4 b ++
                              le_bytes 4 (b - a + 1)) /\
       proc_buffer_size s' = 20 /\ ddr_bw_target s' = ddr_bw_target s).
Proof.
  intros Hs Ha Hb. pose proof Ha as [Ha0 Ha1]. pose proof Hb as [Hb0 Hb1].
  assert (Hra : forall s, req_u32 (core_range_msg a b) 8 s = Ok (a, s))
    by (intros; by apply (req_u32_at _ _ (header DPF_MSG_CORE_RANGE 16) _ (le_bytes 4 b))).
  assert (Hrb : forall s, req_u32 (core_range_msg a b) 12 s = Ok (b, s)).
  { intros s0. apply (req_u32_at _ _ (header DPF_MSG_CORE_RANGE 16 ++ le_bytes 4 a) _ []); done. }
  unfold api_core_range. rewrite (bind_Ok _ _ _ _ _ (Hra s)), (bind_Ok _ _ _ _ _ (Hrb s)).
  rewrite (proj2 (Z.ltb_ge a 0)) by done.
  destruct (Z.leb_spec MAX_NUM_CORES b) as [Hb5|Hb5].
  { split_and!; [done|intros; lia..]. }
  destruct (Z.ltb_spec b a) as [Hba|Hba].
  { split_and!; [done|intros; lia..]. }
  unfold MAX_NUM_CORES in Hb5. rewrite u32_small by lia.
  rewrite (proj2 (Z.ltb_ge _ (b - a + 1))) by (unfold MAX_NUM_CORES; lia).
  rewrite (bind_Ok _ _ _ _ _ (kmalloc_eq s)). split_and!;
    [unfold MAX_NUM_CORES; lia|by intros _ ->|].
  intros _ ->. cbn [negb]. rewrite bind_modify. destruct (alloc_next_machine s) as [h [-> _]].
  set (s1 := s <| machine := h |> <| sys_first_core := _ |> <| sys_active_cores := _ |>
    <| enabled_cpus := _ |>).
  pose proof (core_range_loop s1 cpu a b (kwf_cores s Hs) eq_refl) as Hloop.
  apply wp_no_stop in Hloop as ([] & s2 & Hrun & [Hl Hdone _ Hmask (cs & mask & h2 & Hfr)]).
  rewrite (bind_Ok _ _ _ _ _ Hrun). unfold respond. rewrite bind_modify.
  eexists. split; [reflexivity|]. cbn -[aget aset header le_bytes]. rewrite Hfr. cbn -[aget header le_bytes].
  split_and!.
  - apply s32_small. unfold in_s32. lia.
  - rewrite (u32_small (b + 1 - a)), s32_small by (unfold in_s32; lia). lia.
  - intros j c Hc. rewrite <- (Hdone j c); [by rewrite Hfr| |done].
    pose proof (aget_Some_range _ _ _ Hc) as Hj. by rewrite (kwf_cores s Hs) in Hj.
  - intros j. assert (Hm : mask = filter (fun j => selected a b j = true) (seqZ 0 MAX_NUM_CORES))
      by (rewrite <- Hmask, Hfr; done).
    rewrite Hm, list_elem_of_filter, elem_of_seqZ. unfold selected, MAX_NUM_CORES.
    rewrite !andb_true_iff, !Z.leb_le. split; [by intros [[[]]]|]. intros [[] ?]. split_and!; try done; lia.
  - done.
  - done.
  - done.
Qed.

(** A system with CPUs 0 to 7, whose cross-calls visit the mask in order. *)
Definition eight_cpus : Linux := {|
  cpu_online c := (0 <=? c) && (c <? 8);
  online_cpus := seqZ 0 8;
  smp_call_cpus self mask :=
    filter (fun c => c <> self /\ 0 <= c < 8) mask |}.

#[export] Instance eight_cpus_ok : LinuxOk eight_cpus.
Proof.
  constructor.
  - intros c. cbn -[seqZ]. rewrite elem_of_seqZ, andb_true_iff, Z.leb_le, Z.ltb_lt. lia.
  - intros self mask c. cbn. rewrite list_elem_of_filter, andb_true_iff, Z.leb_le, Z.ltb_lt. tauto.
Qed.

Lemma api_core_range_spec_witness :
  exists s', api_core_range (L := eight_cpus) 0 (core_range_msg 4 9) (kstate0 hw0) = Ok (0, s') /\
    5 ∈ enabled_cpus s' /\ (8 ∉ enabled_cpus s') /\ sys_active_cores s' = 6.
Proof.
  destruct (api_core_range_spec (L := eight_cpus) 0 4 9 (kstate0 hw0) (kstate0_wf hw0)
    ltac:(done) ltac:(done)) as (_ & _ & H).
  destruct (H ltac:(done) eq_refl) as (s' & Hrun & _ & Hn & _ & Hm & _).
  exists s'. split; [exact Hrun|]. clear Hrun H.
  split; [by apply Hm|]. split; [|exact Hn]. rewrite Hm. by intros [_ ?].
Defined.

(** The seven prefetcher words of a CPU. *)
Definition cpu_words (h : hw) (cpu : Z) : list Z :=
  map (fun a => u64 (default 0 (hw_msr h !! (cpu, a)))) pf_msr_addrs.

Lemma msr_load_eq cpu i s c :
  aget (corestate s) i = Some c ->
  msr_load cpu i s = Ok (0, s <| corestate := aset (corestate s) i
                                (c <| pf_msr := cpu_words (machine s) cpu |>) |>).
Proof.
  intros Hc. unfold msr_load. rewrite (bind_Ok _ _ _ _ _ (core_at_Some _ _ _ Hc)).
  unfold rdmsr. rewrite !bind_gets.
  by erewrite bind_Ok by (apply put_core_Ok; by eapply aget_Some_range).
Qed.

Section tuning.
Context {L : Linux}.

(** The cores whose MSRs [api_tuning] loads: enabled, first of their module. *)
Definition to_load (s : kstate) (c : core_state_s) (j : Z) : bool :=
  (core_disabled c =? 0) && (Z.rem (j - sys_first_core s) 4 =? 0).

Definition loaded (s : kstate) (cpu : Z) (done : list Z) (cs : list core_state_s) : Prop :=
  zlen cs = zlen (corestate s) /\
  forall j c, aget (corestate s) j = Some c ->
    aget cs j = Some (if bool_decide (j ∈ done) && to_load s c j
                      then c <| pf_msr := cpu_words (machine s) cpu |> else c).

Lemma tuning_load_step s cpu done j cs :
  0 <= j < zlen (corestate s) -> loaded s cpu done cs ->
  exists cs', tuning_load cpu j (s <| corestate := cs |>) = Ok (tt, s <| corestate := cs' |>) /\
    loaded s cpu (done ++ [j]) cs'.
Proof.
  intros Hj [Hl Hcs]. destruct (aget_is_Some (corestate s) j Hj) as [c Hc].
  pose proof (Hcs j c Hc) as Hcj. set (cj := if _ && _ then _ else c) in Hcj.
  assert (Hdis : core_disabled cj = core_disabled c) by (unfold cj; by destruct (_ && _)).
  assert (Hext : forall k ck, k <> j -> aget (corestate s) k = Some ck ->
    aget cs k = Some (if bool_decide (k ∈ done ++ [j]) && to_load s ck k
                      then ck <| pf_msr := cpu_words (machine s) cpu |> else ck)).
  { intros k ck Hne Hck. rewrite (Hcs k ck Hck).
    assert (Hiff : bool_decide (k ∈ done ++ [j]) = bool_decide (k ∈ done)).
    { apply bool_decide_ext. rewrite elem_of_app, list_elem_of_singleton. tauto. }
    by rewrite Hiff. }
  assert (Hin : bool_decide (j ∈ done ++ [j]) = true).
  { apply bool_decide_eq_true_2, elem_of_app. right. by apply list_elem_of_singleton. }
  unfold tuning_load. erewrite bind_Ok by (by apply core_at_Some). rewrite Hdis.
  destruct (core_disabled c =? 0) eqn:Hd0; cbn [negb].
  - unfold core_in_module. rewrite bind_gets. cbv beta.
    change (sys_first_core (s <| corestate := cs |>)) with (sys_first_core s).
    destruct (Z.rem (j - sys_first_core s) 4 =? 0) eqn:Hrem.
    + erewrite bind_Ok by (by apply msr_load_eq).
      eexists. split; [reflexivity|]. split; [by rewrite zlen_aset|]. intros k ck Hck.
      destruct (decide (j = k)) as [<-|Hne].
      * rewrite aget_aset_eq by (cbn; rewrite Hl; done). simplify_eq. rewrite Hin. unfold to_load.
        rewrite Hd0, Hrem. cbn. f_equal. unfold cj. by destruct (_ && _).
      * rewrite aget_aset_ne by done. by apply Hext.
    + eexists. split; [reflexivity|]. split; [done|]. intros k ck Hck.
      destruct (decide (k = j)) as [->|Hne]; [|by apply Hext]. simplify_eq.
      rewrite Hcj, Hin. unfold cj, to_load. by rewrite Hd0, Hrem, !andb_false_r.
  - eexists. split; [reflexivity|]. split; [done|]. intros k ck Hck.
    destruct (decide (k = j)) as [->|Hne]; [|by apply Hext]. simplify_eq.
    rewrite Hcj, Hin. unfold cj, to_load. by rewrite Hd0, !andb_false_r.
Qed.

Lemma tuning_load_loop s cpu l done cs :
  (forall j, j ∈ l -> 0 <= j < zlen (corestate s)) -> loaded s cpu done cs ->
  exists cs', for_each l (tuning_load cpu) (s <| corestate := cs |>) =
      Ok (tt, s <| corestate := cs' |>) /\ loaded s cpu (done ++ l) cs'.
Proof.
  revert done cs. induction l as [|j l IH]; intros done cs Hl Hcs.
  - exists cs. by rewrite app_nil_r.
  - destruct (tuning_load_step s cpu done j cs) as (cs1 & Hrun & Hcs1); [apply Hl; by left|done|].
    destruct (IH (done ++ [j]) cs1) as (cs2 & Hrun2 & Hcs2); [intros; apply Hl; by right|done|].
    exists cs2. cbn [for_each]. rewrite (bind_Ok _ _ _ _ _ Hrun). split; [done|].
    by rewrite <- app_assoc in Hcs2.
Qed.
End tuning.

(** The fields of a tuning request. *)
Lemma tuning_fields e t g :
  in_u 32 e -> in_u 32 t -> in_u 32 g ->
  (forall s, req_u32 (tuning_msg e t g) 8 s = Ok (e, s)) /\
  (forall s, req_u32 (tuning_msg e t g) 12 s = Ok (t, s)) /\
  (forall s, req_u32 (tuning_msg e t g) 16 s = Ok (g, s)).
Proof.
  intros He Ht Hg. split_and!; intros s.
  - by apply (req_u32_at _ _ (header DPF_MSG_TUNING 20) _ (le_bytes 4 t ++ le_bytes 4 g)).
  - by apply (req_u32_at _ _ (header DPF_MSG_TUNING 20 ++ le_bytes 4 e) _ (le_bytes 4 g)).
  - by apply (req_u32_at _ _ (header DPF_MSG_TUNING 20 ++ le_bytes 4 e ++ le_bytes 4 t) _ []).
Qed.

(** The clamped factor. *)
Lemma clamp_aggr g :
  in_u 32 g ->
  (if (g <? MIN_AGGR) || (MAX_AGGR <? g) then (if g <? MIN_AGGR then MIN_AGGR else MAX_AGGR) else g)
    = Z.min g 100 /\
  0 <= Z.min g 100 / 10 <= 10.
Proof.
  intros [Hg0 Hg1]. unfold MIN_AGGR, MAX_AGGR. rewrite (proj2 (Z.ltb_ge g 0)) by done. cbn [orb]. split.
  - destruct (Z.ltb_spec 100 g); lia.
  - split; [apply Z.div_pos; lia|apply Z.div_le_upper_bound; lia].
Qed.

Lemma u32_s32 t : in_u 32 t -> u32 (s32 t) = t.
Proof.
  intros Ht. unfold u32, wrap, s32. rewrite Zminus_mod_idemp_l.
  replace (t + 2 ^ 31 - 2 ^ 31) with t by lia. by apply Z.mod_small.
Qed.

(** The cores that take part, and the bandwidth target. *)
Definition setup_of (s : kstate) : Z * Z * list Z * Z :=
  (sys_first_core s, sys_active_cores s, enabled_cpus s, ddr_bw_target s).

Lemma api_tuning_run {L : Linux} (cpu e t g : Z) (s : kstate) :
  kwf s -> in_u 32 e -> in_u 32 t -> in_u 32 g -> alloc_ok s = true ->
  (forall j, j ∈ online_cpus -> 0 <= j < MAX_NUM_CORES) ->
  exists s', api_tuning cpu (tuning_msg e t g) s = Ok (0, s') /\
    tune_alg s' = s32 t /\ aggr s' = Z.min g 100 / 10 /\ 0 <= aggr s' <= 10 /\
    keep_running s' = (e =? 1) /\ monitor_timer s' = (e =? 1) /\
    proc_buffer s' = Some (header DPF_MSG_TUNING 20 ++ le_bytes 4 e ++ le_bytes 4 t ++
                           le_bytes 4 (Z.min g 100 / 10)) /\
    proc_buffer_size s' = 20 /\ setup_of s' = setup_of s /\
    (forall j c, aget (corestate s) j = Some c ->
       aget (corestate s') j =
         Some (if (e =? 1) && bool_decide (j ∈ online_cpus) && to_load s c j
               then c <| pf_msr := cpu_words (machine s) cpu |> else c)).
Proof.
  intros Hs He Ht Hg Hal Hon.
  destruct (tuning_fields e t g He Ht Hg) as (R8 & R12 & R16).
  unfold api_tuning. rewrite (bind_Ok _ _ _ _ _ (kmalloc_eq s)), Hal. cbn [negb].
  assert (Hcore : exists h, alloc_next s = s <| machine := h |> /\ hw_msr h = hw_msr (machine s)).
  { unfold alloc_next. destruct (hw_alloc (machine s)); [|by eexists].
    exists (machine s). split; [by destruct s|done]. }
  destruct Hcore as (h & -> & Hmsr).
  rewrite (bind_Ok _ _ _ _ _ (R8 _)), (bind_Ok _ _ _ _ _ (R16 _)).
  destruct (clamp_aggr g Hg) as [Hg' Hag]. cbv zeta. rewrite Hg'. set (ag := Z.min g 100 / 10) in *.
  rewrite (bind_Ok _ _ _ _ _ (R12 _)), bind_modify.
  rewrite (s32_small ag) by (unfold in_s32; lia).
  set (s1 := s <| machine := h |> <| tune_alg := _ |> <| aggr := _ |>).
  assert (Hload : exists cs, for_each online_cpus (tuning_load cpu) s1 =
      Ok (tt, s1 <| corestate := cs |>) /\ loaded s1 cpu online_cpus cs).
  { replace s1 with (s1 <| corestate := corestate s1 |>) at 1 by by destruct s.
    apply (tuning_load_loop s1 cpu online_cpus []).
    - intros j Hj. cbn. rewrite (kwf_cores s Hs). by apply Hon.
    - split; [done|]. intros j c Hc. exact Hc. }
  assert (Hw : cpu_words (machine s1) cpu = cpu_words (machine s) cpu).
  { unfold cpu_words. cbn. by rewrite Hmsr. }
  destruct Hload as (cs & Hrun & Hlen & Hcs). destruct (e =? 1).
  - erewrite bind_Ok by (by rewrite (bind_Ok _ _ _ _ _ Hrun)).
    rewrite !bind_gets. unfold respond. rewrite bind_modify.
    eexists. split; [reflexivity|]. cbn -[aget header le_bytes s32 ag]. rewrite (u32_s32 t Ht), (u32_small ag) by lia.
    split_and!; try done; try lia. intros j c Hc. specialize (Hcs j c Hc). by rewrite Hw in Hcs.
  - erewrite bind_Ok by reflexivity. rewrite !bind_gets. unfold respond. rewrite bind_modify.
    eexists. split; [reflexivity|]. cbn -[aget header le_bytes s32 ag]. rewrite (u32_s32 t Ht), (u32_small ag) by lia.
    split_and!; try done; lia.
Qed.

(** [api_tuning] stores the algorithm and a tenth of the requested
    aggressiveness, clamped to at most 10, starts the monitor exactly when
    [enable] is 1 and stops it otherwise, and confirms the stored values.  When
    it starts the monitor it loads the MSR tables of the first core of every
    module, but with the words of the CPU the request runs on, not of the core
    the table belongs to. *)
Theorem api_tuning_spec {L : Linux} (cpu e t g : Z) (s : kstate) :
  kwf s -> in_u 32 e -> in_u 32 t -> in_u 32 g -> alloc_ok s = true ->
  (forall j, j ∈ online_cpus -> 0 <= j < MAX_NUM_CORES) ->
  exists s', api_tuning cpu (tuning_msg e t g) s = Ok (0, s') /\
    tune_alg s' = s32 t /\ aggr s' = Z.min g 100 / 10 /\ 0 <= aggr s' <= 10 /\
    keep_running s' = (e =? 1) /\ monitor_timer s' = (e =? 1) /\
    proc_buffer s' = Some (header DPF_MSG_TUNING 20 ++ le_bytes 4 e ++ le_bytes 4 t ++
                           le_bytes 4 (Z.min g 100 / 10)) /\
    (forall j c, aget (corestate s) j = Some c ->
       aget (corestate s') j =
         Some (if (e =? 1) && bool_decide (j ∈ online_cpus) && to_load s c j
               then c <| pf_msr := cpu_words (machine s) cpu |> else c)).
Proof.
  intros Hs He Ht Hg Hal Hon.
  destruct (api_tuning_run cpu e t g s Hs He Ht Hg Hal Hon) as (s' & Hrun & H1 & H2 & H3 & H4 & H5 & H6 & _ & _ & H7).
  exists s'. split_and!; done || apply H3.
Qed.

Lemma api_tuning_spec_witness :
  exists s', api_tuning (L := eight_cpus) 2 (tuning_msg 1 1 37) (kstate0 hw0) = Ok (0, s') /\
    aggr s' = 3 /\ keep_running s' = true.
Proof.
  destruct (api_tuning_spec (L := eight_cpus) 2 1 1 37 (kstate0 hw0) (kstate0_wf hw0)
    ltac:(done) ltac:(done) ltac:(done) eq_refl) as (s' & Hrun & _ & Ha & _ & Hk & _).
  { intros j Hj%elem_of_seqZ. unfold MAX_NUM_CORES. lia. }
  exists s'. split; [exact Hrun|]. split; [exact Ha|exact Hk].
Defined.
