(* ===== verification/KLog.v ===== *)
(** * The PMU log: specification and refinement

    The log that [api_pmu_log_control], [api_pmu_log_append_data] and
    [api_pmu_log_read] keep in [pmu_log_buffer] and three counters is, to its
    users, a byte string of bounded length to which whole entries are appended
    until one does not fit.  [Log] states that contract as an interface;
    [kernel_log] shows that the module's code satisfies it, and the session
    theorem is proved from the interface and the handlers. *)

From S2P Require Import Prelude Bitfields KState KCommon KPmuDdr KApi.

(** ** Specification *)

(** What appending [data] to a log of capacity [cap] returns, and the contents
    after it. *)
Definition spec_append (cap : Z) (content data : list Z) : Z * list Z :=
  if zlen data =? 0 then (- EINVAL, content)
  else if cap <? zlen content + zlen data then (- ENOSPC, content)
  else (0, content ++ data).

(** The prefix a reader gets: everything, or at most [max_bytes]. *)
Definition spec_read (content : list Z) (max_bytes : Z) : list Z :=
  if max_bytes =? 0 then content else take (Z.to_nat max_bytes) content.

(** A state type with an append operation is a bounded log. *)
Class Log {S : Type} (append : list Z -> ST S Z) (view : S -> option (Z * list Z))
    (inv : S -> Prop) : Prop := {
  log_append s cap content data :
    inv s -> view s = Some (cap, content) -> Forall (in_u 8) data -> zlen data < 2 ^ 32 ->
    exists s', append data s = Ok ((spec_append cap content data).1, s') /\
      view s' = Some (cap, (spec_append cap content data).2) /\ inv s' }.

(** Appending a list of entries, one after the other; an entry that does not
    fit is dropped. *)
Fixpoint append_all {S} (append : list Z -> ST S Z) (entries : list (list Z)) : ST S unit :=
  match entries with
  | [] => mret tt
  | e :: es => append e ;; append_all append es
  end.

Definition spec_append_all (cap : Z) (content : list Z) (entries : list (list Z)) : list Z :=
  foldl (fun c e => (spec_append cap c e).2) content entries.

Section log_clients.
Context {S : Type} {append : list Z -> ST S Z} {view : S -> option (Z * list Z)}
  {inv : S -> Prop} `{!Log append view inv}.

Lemma append_all_refines s cap content entries :
  inv s -> view s = Some (cap, content) ->
  Forall (fun e => Forall (in_u 8) e /\ zlen e < 2 ^ 32) entries ->
  exists s', append_all append entries s = Ok (tt, s') /\
    view s' = Some (cap, spec_append_all cap content entries) /\ inv s'.
Proof.
  intros Hs Hv Hes. revert s content Hs Hv.
  induction Hes as [|e es [He Hlen] _ IH]; intros s content Hs Hv; [by exists s|].
  destruct (log_append s cap content e Hs Hv He Hlen) as (s1 & Hrun & Hv1 & Hs1).
  destruct (IH s1 _ Hs1 Hv1) as (s2 & Hrun2 & Hv2 & Hs2).
  exists s2. cbn [append_all]. by rewrite (bind_Ok _ _ _ _ _ Hrun).
Qed.
End log_clients.

(** With entries of one size the log keeps the first ones that fit. *)
Lemma spec_append_all_fixed (size : Z) (cap : Z) (entries : list (list Z)) (content : list Z) (k : nat) :
  0 < size -> Forall (fun e => zlen e = size) entries -> zlen content = size * Z.of_nat k ->
  zlen content <= cap ->
  spec_append_all cap content entries =
    content ++ mjoin (take (Z.to_nat (cap / size) - k) entries).
Proof.
  intros Hsize Hes. revert content k. induction Hes as [|e es He Hes IH]; intros content k Hk Hc.
  - unfold spec_append_all. cbn. by rewrite take_nil, app_nil_r.
  - change (spec_append_all cap content (e :: es)) with
      (spec_append_all cap (spec_append cap content e).2 es).
    assert (Hk' : Z.of_nat k <= cap / size) by (apply Z.div_le_lower_bound; lia).
    unfold spec_append. rewrite He. rewrite (proj2 (Z.eqb_neq size 0)) by lia.
    destruct (Z.ltb_spec cap (zlen content + size)) as [Hfull|Hfits]; cbn [snd].
    + assert (cap / size < Z.of_nat k + 1) by (apply Z.div_lt_upper_bound; lia).
      rewrite (IH content k) by done.
      replace (Z.to_nat (cap / size) - k)%nat with 0%nat by lia. done.
    + assert (Z.of_nat k + 1 <= cap / size) by (apply Z.div_le_lower_bound; lia).
      assert (Hlen : zlen (content ++ e) = size * Z.of_nat (Datatypes.S k)).
      { unfold zlen in *. rewrite length_app. lia. }
      rewrite (IH (content ++ e) (Datatypes.S k)) by (try done; unfold zlen in *; rewrite length_app; lia).
      replace (Z.to_nat (cap / size) - k)%nat with
        (Datatypes.S (Z.to_nat (cap / size) - Datatypes.S k)) by lia.
      cbn [take mjoin]. rewrite <- app_assoc. done.
Qed.

(** ** The module's log *)

Definition log_view (s : kstate) : option (Z * list Z) :=
  match pmu_log_buffer s with
  | Some b => Some (pmu_log_buffer_size s, take (Z.to_nat (pmu_log_data_size s)) b)
  | None => None
  end.

(** The log is on: the buffer exists, logging is active. *)
Record log_on (s : kstate) : Prop := {
  lon_wf : kwf s;
  lon_active : pmu_logging_active s = true;
  lon_size : pmu_log_buffer_size s <> 0 }.

(** The buffer behind a view. *)
Lemma log_view_inv s cap content :
  kwf s -> log_view s = Some (cap, content) ->
  exists buf, pmu_log_buffer s = Some buf /\ cap = pmu_log_buffer_size s /\ zlen buf = cap /\
    cap < 2 ^ 32 /\ content = take (Z.to_nat (pmu_log_data_size s)) buf /\
    zlen content = pmu_log_data_size s /\ 0 <= pmu_log_data_size s <= cap.
Proof.
  intros Hs. unfold log_view. destruct (pmu_log_buffer s) as [buf|] eqn:Hb; [|done].
  intros [= <- <-]. destruct (kwf_log s Hs) as [Hsz Hbd Hda _].
  specialize (Hsz _ Hb). specialize (Hbd _ Hb). specialize (Hda _ Hb).
  exists buf. split_and!; try done; try lia.
  unfold zlen in *. rewrite length_take. lia.
Qed.

#[export] Instance kernel_log : Log api_pmu_log_append_data log_view log_on.
Proof.
  constructor. intros s cap content data [Hs Hact Hsz0] Hv Hd Hlen.
  destruct (log_view_inv s cap content Hs Hv) as (buf & Hb & -> & Hsz & Hcap & -> & Hcl & Hda).
  pose proof (preserves_log_append data Hd Hlen s Hs) as Hpres. unfold wp in Hpres.
  assert (Hrun : exists s', api_pmu_log_append_data data s =
      Ok ((spec_append (pmu_log_buffer_size s) (take (Z.to_nat (pmu_log_data_size s)) buf) data).1, s') /\
    log_view s' = Some (pmu_log_buffer_size s,
      (spec_append (pmu_log_buffer_size s) (take (Z.to_nat (pmu_log_data_size s)) buf) data).2) /\
    pmu_logging_active s' = true /\ pmu_log_buffer_size s' = pmu_log_buffer_size s).
  { unfold api_pmu_log_append_data. unfold mbind at 1, ST_bind at 1, get_state. rewrite Hact, Hb.
    cbn [negb]. rewrite (proj2 (Z.eqb_neq _ _) Hsz0). unfold spec_append. rewrite Hcl.
    destruct (zlen data =? 0) eqn:Hz; [by exists s|].
    assert (0 <= zlen data) by (unfold zlen; lia). rewrite u64_small by lia.
    destruct (Z.ltb_spec (pmu_log_buffer_size s) (pmu_log_data_size s + zlen data)) as [|Hfit];
      [by exists s|].
    rewrite bind_modify. eexists. split; [reflexivity|]. split; [|done].
    unfold log_view. cbn. do 2 f_equal. unfold zlen in *.
    rewrite app_assoc, take_app_le by (rewrite length_app, length_take; lia).
    rewrite take_ge; [done|]. rewrite length_app, length_take. lia. }
  destruct Hrun as (s' & Hrun & Hv' & Hact' & Hsz'). exists s'. split_and!; try done.
  rewrite Hrun in Hpres. by constructor; [..|rewrite Hsz'].
Qed.

(** ** The handlers on the view *)

Definition log_control_msg (buffer_size mode : Z) : list Z :=
  header DPF_MSG_PMU_LOG_CONTROL 16 ++ le_bytes 4 buffer_size ++ le_bytes 4 mode.

Section handlers.
Context {L : Linux}.

(** The reset loop changes core tables and the machine only. *)
Lemma log_reset_loop s cpu :
  kwf s -> wp (for_each (seqZ 0 MAX_NUM_CORES) (log_reset_core cpu)) s (fun _ s' =>
    exists cs h, s' = s <| corestate := cs |> <| machine := h |> /\
      same_services (machine s) h) no_stop.
Proof.
  intros Hs. eapply wp_mono.
  { apply (wp_for_each (fun rest s' => (forall i, i ∈ rest -> 0 <= i < MAX_NUM_CORES) /\
      exists cs h, s' = s <| corestate := cs |> <| machine := h |> /\
        zlen cs = MAX_NUM_CORES /\ same_services (machine s) h)).
    - split; [by intros i Hi%elem_of_seqZ|]. exists (corestate s), (machine s).
      split_and!; [by destruct s|apply Hs|apply same_services_refl].
    - intros i rest s' [Hi (cs & h & -> & Hlen & Hal)].
      assert (Hir : 0 <= i < MAX_NUM_CORES) by (apply Hi; by left).
      assert (Hrest : forall j, j ∈ rest -> 0 <= j < MAX_NUM_CORES) by (intros; apply Hi; by right).
      unfold log_reset_core. apply wp_bind, wp_core_at.
      2:{ intros Hn. destruct (aget_is_Some cs i) as [c Hc]; [lia|]. cbn in Hn. congruence. }
      intros c Hc. destruct (_ =? 0).
      + apply wp_bind, wp_put_core.
        2:{ cbn. by rewrite (proj2 (in_range_zlen _ _)) by by rewrite Hlen. }
        intros _. apply wp_bind. eapply wp_mono; [apply machine_only_configure_pmu| |done].
        intros _ s2 [h2 [-> Hal2]]. apply wp_ret. split; [done|].
        exists (aset cs i (c <| pmu_raw := replicate 8 0 |>)), h2.
        split_and!; [reflexivity|by rewrite zlen_aset|]. by eapply same_services_trans.
      + apply wp_ret. split; [done|]. eauto 10. }
  - intros u s' [_ (cs & h & -> & _ & Hal)]. eauto.
  - done.
Qed.

Lemma log_control_reset s cpu n :
  kwf s -> in_u 32 n -> 0 < n -> hw_alloc (machine s) = [] ->
  exists s', api_pmu_log_control cpu (log_control_msg n 0) s = Ok (0, s') /\
    log_on s' /\ log_view s' = Some (n, []) /\ hw_alloc (machine s') = [] /\
    keep_running s' = true /\
    proc_buffer s' = Some (header DPF_MSG_PMU_LOG_CONTROL 20 ++ le_bytes 4 n ++ le_bytes 4 0 ++
                           le_bytes 4 0) /\
    proc_buffer_size s' = 20 /\ proc_entry s' = proc_entry s /\ hw_copy (machine s') = hw_copy (machine s).
Proof.
  intros Hs Hn Hn0 Hal.
  assert (Hmsg : Forall (in_u 8) (log_control_msg n 0)).
  { repeat apply Forall_app_2; try apply le_bytes_range. }
  pose proof (preserves_api_pmu_log_control cpu _ Hmsg s Hs) as Hpres. unfold wp in Hpres.
  assert (Hrun : exists s', api_pmu_log_control cpu (log_control_msg n 0) s = Ok (0, s') /\
    pmu_logging_active s' = true /\ pmu_log_buffer_size s' = n /\ log_view s' = Some (n, []) /\
    hw_alloc (machine s') = [] /\ keep_running s' = true /\
    proc_buffer s' = Some (header DPF_MSG_PMU_LOG_CONTROL 20 ++ le_bytes 4 n ++ le_bytes 4 0 ++
                           le_bytes 4 0) /\
    proc_buffer_size s' = 20 /\ proc_entry s' = proc_entry s /\ hw_copy (machine s') = hw_copy (machine s)).
  { assert (R8 : req_u32 (log_control_msg n 0) 8 s = Ok (n, s))
      by (by apply (req_u32_at _ _ (header DPF_MSG_PMU_LOG_CONTROL 16) _ (le_bytes 4 0))).
    assert (R12 : req_u32 (log_control_msg n 0) 12 s = Ok (0, s))
      by (by apply (req_u32_at _ _ (header DPF_MSG_PMU_LOG_CONTROL 16 ++ le_bytes 4 n) _ [])).
    unfold api_pmu_log_control. rewrite (bind_Ok _ _ _ _ _ R8), (bind_Ok _ _ _ _ _ R12).
    assert (Hk : forall s, hw_alloc (machine s) = [] -> kmalloc s = Ok (true, s)).
    { intros s0 H0. unfold kmalloc. by rewrite H0. }
    rewrite (bind_Ok _ _ _ _ _ (Hk s Hal)). cbn [negb Z.ltb Z.compare].
    set (s1 := s <| pmu_log_buffer := Some (replicate (Z.to_nat n) 0) |>
                 <| pmu_log_buffer_size := n |> <| pmu_log_data_size := 0 |>).
    assert (Hset : log_buffer_setup n 0 s = Ok (None, s1)).
    { unfold log_buffer_setup. rewrite bind_gets, orb_true_r, bind_modify.
      rewrite (proj2 (Z.ltb_lt 0 n) Hn0). erewrite bind_Ok by (apply Hk; exact Hal).
      cbn [negb]. by rewrite bind_modify. }
    rewrite (bind_Ok _ _ _ _ _ Hset), bind_gets. cbn [Z.eqb orb].
    assert (Hs1 : kwf s1) by by apply kwf_log_new.
    pose proof (log_reset_loop s1 cpu Hs1) as Hloop.
    apply wp_no_stop in Hloop as ([] & s2 & Hrun2 & cs & h & -> & [Hal2 Hcp]).
    rewrite (bind_Ok _ _ _ _ _ Hrun2), bind_gets. cbn -[header le_bytes].
    eapply eq_rect; [|reflexivity].
    destruct (keep_running s) eqn:Hkr; eexists; (split; [reflexivity|]);
      cbn -[header le_bytes]; rewrite ?u32_small by apply Hn;
      (split_and!; try done; by apply Hal2). }
  destruct Hrun as (s' & Hrun & Hact & Hsz & Hv & Hal' & Hk & Hp & Hps & Hpe & Hco). exists s'.
  split_and!; try done. rewrite Hrun in Hpres. constructor; [done|done|lia].
Qed.

Lemma log_read_eq s cap content max_bytes :
  kwf s -> log_view s = Some (cap, content) -> cap <> 0 -> alloc_ok s = true ->
  in_u 32 max_bytes ->
  let data := spec_read content max_bytes in
  api_pmu_log_read (log_read_msg max_bytes) s =
    if zlen content =? 0 then
      Ok (0, alloc_next s <| proc_buffer := Some (header DPF_MSG_PMU_LOG_READ 16 ++ le_bytes 8 0) |>
                          <| proc_buffer_size := 16 |>)
    else if zlen data <? 12 then Stop OutOfBounds
    else let resp := header DPF_MSG_PMU_LOG_READ (u32 (16 + zlen data)) ++
                     le_bytes 8 (zlen data) ++ data in
      Ok (0, alloc_next s <| proc_buffer := Some resp |> <| proc_buffer_size := zlen resp |>).
Proof.
  intros Hs Hv Hcap Hal Hm data.
  destruct (log_view_inv s cap content Hs Hv) as (buf & Hb & -> & Hsz & Hlt & Hc & Hcl & Hda).
  assert (R8 : req_u32 (log_read_msg max_bytes) 8 s = Ok (max_bytes, s))
    by (by apply (req_u32_at _ _ (header DPF_MSG_PMU_LOG_READ 12) _ [])).
  unfold api_pmu_log_read. rewrite (bind_Ok _ _ _ _ _ R8).
  unfold mbind at 1, ST_bind at 1, get_state. rewrite Hb, (proj2 (Z.eqb_neq _ _) Hcap), <- Hcl.
  destruct (Z.eqb_spec (zlen content) 0) as [Hz|Hz].
  { rewrite (bind_Ok _ _ _ _ _ (kmalloc_eq s)), Hal. done. }
  cbv zeta. set (n := if max_bytes =? 0 then zlen content else Z.min max_bytes (zlen content)).
  destruct Hm as [Hm0 Hm1].
  assert (Hn : 0 <= n <= zlen content).
  { unfold n. destruct (Z.eqb_spec max_bytes 0); lia. }
  assert (Hdata : data = take (Z.to_nat n) buf).
  { unfold data, spec_read, n. destruct (Z.eqb_spec max_bytes 0) as [->|Hne].
    - rewrite Hcl. by rewrite <- Hc.
    - rewrite Hcl, Hc, take_take. f_equal. lia. }
  assert (Hlen : zlen data = n).
  { rewrite Hdata. unfold zlen in *. rewrite length_take. lia. }
  rewrite (bind_Ok _ _ _ _ _ (kmalloc_eq s)), Hal. cbn [negb].
  assert (Hsub : sub_bytes buf 0 (Z.to_nat n) = Some data).
  { unfold sub_bytes. rewrite (proj2 (Nat.leb_le _ _)) by (unfold zlen in *; lia).
    by rewrite drop_0, Hdata. }
  rewrite Hsub, <- Hlen. destruct (zlen data <? 12); [done|].
  unfold respond. rewrite bind_modify. rewrite u64_small by lia. done.
Qed.
End handlers.

(** ** Entries *)

Definition ENTRY_SIZE : Z := 76.

Record entry_ok (e : dpf_pmu_log_entry_t) : Prop := {
  eok_time : in_u 64 (timestamp e);
  eok_core : in_u 32 (entry_core_id e);
  eok_len : length (pmu_values e) = 8%nat;
  eok_values : Forall (in_u 64) (pmu_values e) }.

(** Reading an array of [n] little-endian 64-bit words. *)
Fixpoint words_of_bytes (n : nat) (bs : list Z) : list Z :=
  match n with
  | O => []
  | S n' => le_val (take 8 bs) :: words_of_bytes n' (drop 8 bs)
  end.

(** The struct at the head of a byte string, and the entries of a log. *)
Definition entry_of_bytes (bs : list Z) : dpf_pmu_log_entry_t :=
  {| timestamp := le_val (take 8 bs);
     entry_core_id := le_val (take 4 (drop 8 bs));
     pmu_values := words_of_bytes 8 (drop 12 bs) |}.

Fixpoint parse_log (n : nat) (bs : list Z) : list dpf_pmu_log_entry_t :=
  match n with
  | O => []
  | S n' => entry_of_bytes bs :: parse_log n' (drop 76 bs)
  end.

Lemma words_of_words_bytes ws rest :
  Forall (in_u 64) ws ->
  words_of_bytes (length ws) (mjoin (map (le_bytes 8) ws) ++ rest) = ws.
Proof.
  induction 1 as [|w ws Hw _ IH]; [done|]. cbn [length words_of_bytes map].
  rewrite join_cons, <- app_assoc. rewrite take_app_length', drop_app_length' by by rewrite length_le_bytes.
  rewrite IH, le_val_bytes. f_equal. by apply Z.mod_small.
Qed.

Lemma length_log_entry e : entry_ok e -> length (log_entry_bytes e) = 76%nat.
Proof.
  intros [_ _ Hl _]. unfold log_entry_bytes.
  by rewrite !length_app, !length_le_bytes, length_words_bytes, Hl.
Qed.

Lemma log_entry_bytes_range e : Forall (in_u 8) (log_entry_bytes e).
Proof.
  repeat apply Forall_app_2; try apply le_bytes_range. apply (words_bytes_range (pmu_values e)).
Qed.

Lemma entry_roundtrip e rest : entry_ok e -> entry_of_bytes (log_entry_bytes e ++ rest) = e.
Proof.
  intros [Ht Hc Hl Hv]. unfold entry_of_bytes, log_entry_bytes. rewrite <- !app_assoc.
  rewrite take_app_length' by by rewrite length_le_bytes.
  replace (drop 12 (le_bytes 8 (timestamp e) ++ _)) with
    (mjoin (map (le_bytes 8) (pmu_values e)) ++ rest).
  2:{ rewrite (drop_app_ge (le_bytes 8 _)) by by rewrite length_le_bytes; lia.
      rewrite drop_app_length' by by rewrite !length_le_bytes. done. }
  rewrite drop_app_length', take_app_length' by by rewrite length_le_bytes.
  rewrite <- Hl at 2. rewrite words_of_words_bytes by done. rewrite !le_val_bytes.
  destruct e; cbn in *. f_equal; by apply Z.mod_small.
Qed.

Lemma parse_roundtrip es rest :
  Forall entry_ok es ->
  parse_log (length es) (mjoin (map log_entry_bytes es) ++ rest) = es.
Proof.
  induction 1 as [|e es He _ IH]; [done|]. cbn [length parse_log map].
  rewrite join_cons, <- app_assoc. rewrite entry_roundtrip by done.
  rewrite drop_app_length' by by rewrite length_log_entry. by rewrite IH.
Qed.

(** What an append leaves alone. *)
Lemma append_frame data s r s' :
  api_pmu_log_append_data data s = Ok (r, s') -> machine s' = machine s /\ proc_entry s' = proc_entry s.
Proof.
  unfold api_pmu_log_append_data. unfold mbind at 1, ST_bind at 1, get_state.
  destruct (negb _); [by intros [= _ <-]|].
  destruct (pmu_log_buffer s) as [buf|]; [|by intros [= _ <-]].
  destruct (_ =? 0); [by intros [= _ <-]|]. destruct (_ =? 0); [by intros [= _ <-]|].
  destruct (_ <? _); [by intros [= _ <-]|]. rewrite bind_modify. by intros [= _ <-].
Qed.

Lemma append_all_frame es s s' :
  append_all api_pmu_log_append_data es s = Ok (tt, s') -> machine s' = machine s /\ proc_entry s' = proc_entry s.
Proof.
  revert s. induction es as [|e es IH]; intros s; cbn [append_all]; [by intros [= <-]|].
  unfold mbind, ST_bind. destruct (api_pmu_log_append_data e s) as [[r s1]|] eqn:Hr; [|done].
  intros H. destruct (IH s1 H) as [-> ->]. by eapply append_frame.
Qed.

Lemma zlen_entries es : Forall entry_ok es -> zlen (mjoin (map log_entry_bytes es)) = ENTRY_SIZE * zlen es.
Proof.
  induction 1 as [|e l He _ IH]; [done|]. cbn [map].
  rewrite join_cons. unfold zlen, ENTRY_SIZE in *. rewrite length_app, length_log_entry by done. cbn [length]. lia.
Qed.

(** The entries a log of [n] bytes has room for. *)
Definition kept (n : Z) (es : list dpf_pmu_log_entry_t) : list dpf_pmu_log_entry_t :=
  take (Z.to_nat (n / ENTRY_SIZE)) es.

(** Any number of entries, appended to an empty log. *)
Lemma append_entries s n es :
  log_on s -> log_view s = Some (n, []) -> 0 <= n -> Forall entry_ok es ->
  exists s', append_all api_pmu_log_append_data (map log_entry_bytes es) s = Ok (tt, s') /\ log_on s' /\
    log_view s' = Some (n, mjoin (map log_entry_bytes (kept n es))) /\
    machine s' = machine s /\ proc_entry s' = proc_entry s.
Proof.
  intros Hon Hv Hn Hes.
  assert (Hbytes : Forall (fun e => Forall (in_u 8) e /\ zlen e < 2 ^ 32) (map log_entry_bytes es)).
  { apply Forall_map. eapply Forall_impl; [exact Hes|]. intros e He. split;
      [apply log_entry_bytes_range|]. unfold zlen. by rewrite length_log_entry. }
  destruct (append_all_refines s n [] _ Hon Hv Hbytes) as (s2 & Hrun2 & Hv2 & Hon2).
  rewrite (spec_append_all_fixed ENTRY_SIZE n _ [] 0) in Hv2; [|done| |done|done].
  - rewrite Nat.sub_0_r, firstn_map in Hv2. exists s2. split_and!; try done; by eapply append_all_frame.
  - apply Forall_map. eapply Forall_impl; [exact Hes|]. intros e He. unfold zlen. by rewrite length_log_entry.
Qed.

(** ** Properties *)

(** C3: a logging session loses nothing until the buffer is full and then keeps
    what it has: after a reset to [n] bytes and the appends of any number of
    entries, a read of the whole log returns a response whose data parse back
    to exactly the first [n / 76] of those entries, in order. *)
Theorem pmu_log_session {L : Linux} (cpu n : Z) (s : kstate) (es : list dpf_pmu_log_entry_t) :
  kwf s -> in_u 32 n -> 0 < n -> hw_alloc (machine s) = [] -> Forall entry_ok es ->
  exists s1 s2 s3 data,
    api_pmu_log_control cpu (log_control_msg n 0) s = Ok (0, s1) /\
    append_all api_pmu_log_append_data (map log_entry_bytes es) s1 = Ok (tt, s2) /\
    api_pmu_log_read (log_read_msg 0) s2 = Ok (0, s3) /\
    proc_buffer s3 = Some (header DPF_MSG_PMU_LOG_READ (u32 (16 + zlen data)) ++
                           le_bytes 8 (zlen data) ++ data) /\
    zlen data = ENTRY_SIZE * zlen (kept n es) /\ parse_log (length (kept n es)) data = kept n es.
Proof.
  intros Hs Hn Hn0 Hal Hes.
  destruct (log_control_reset s cpu n Hs Hn Hn0 Hal) as (s1 & Hrun1 & Hon1 & Hv1 & Hal1 & _).
  destruct (append_entries s1 n es Hon1 Hv1 ltac:(lia) Hes) as (s2 & Hrun2 & Hon2 & Hv2 & Hmach & _).
  assert (Hkept : Forall entry_ok (kept n es)) by by apply Forall_take.
  pose proof (zlen_entries _ Hkept) as Hlen. set (data := mjoin (map log_entry_bytes (kept n es))) in *.
  pose proof (log_read_eq s2 n data 0 (lon_wf _ Hon2) Hv2 ltac:(lia)) as Hread.
  unfold alloc_ok in Hread. rewrite Hmach, Hal1 in Hread.
  specialize (Hread eq_refl ltac:(done)). cbv zeta in Hread.
  change (spec_read data 0) with data in Hread.
  assert (Hpos : zlen data = 0 \/ 76 <= zlen data) by (rewrite Hlen; unfold zlen, ENTRY_SIZE; lia).
  pose proof (parse_roundtrip _ [] Hkept) as Hparse. rewrite app_nil_r in Hparse. fold data in Hparse.
  destruct Hpos as [Hz|Hbig].
  - rewrite Hz in Hread. eexists s1, s2, _, data. rewrite Hz in *.
    split_and!; [done|done|exact Hread| |done|done].
    cbn -[header le_bytes]. destruct data; [by rewrite app_nil_r|]. unfold zlen in Hz. simpl in Hz. lia.
  - rewrite (proj2 (Z.eqb_neq _ _)), (proj2 (Z.ltb_ge _ _)) in Hread by lia.
    eexists s1, s2, _, data. by split_and!; [exact Hrun1|exact Hrun2|exact Hread|..].
Qed.

Lemma pmu_log_session_witness :
  let e i := {| timestamp := 1000 * i; entry_core_id := i; pmu_values := replicate 8 (i + 7) |} in
  exists s1 s2 s3 data,
    api_pmu_log_control (L := eight_cpus) 0 (log_control_msg 200 0) (kstate0 hw0) = Ok (0, s1) /\
    append_all api_pmu_log_append_data (map log_entry_bytes [e 1; e 2; e 3]) s1 = Ok (tt, s2) /\
    api_pmu_log_read (log_read_msg 0) s2 = Ok (0, s3) /\
    zlen data = 152 /\ parse_log 2 data = [e 1; e 2].
Proof.
  cbv zeta. set (e := fun i => {| timestamp := 1000 * i; entry_core_id := i;
    pmu_values := replicate 8 (i + 7) |}).
  assert (He : Forall entry_ok [e 1; e 2; e 3]).
  { repeat (apply Forall_cons_2; [constructor; try done; by apply (Forall_replicate _ 8%nat)|]).
    apply Forall_nil_2. }
  destruct (pmu_log_session (L := eight_cpus) 0 200 (kstate0 hw0) [e 1; e 2; e 3] (kstate0_wf hw0)
    ltac:(done) ltac:(done) eq_refl He) as (s1 & s2 & s3 & data & H1 & H2 & H3 & _ & H4 & H5).
  exists s1, s2, s3, data. split; [exact H1|]. split; [exact H2|]. split; [exact H3|].
  split; [exact H4|exact H5].
Defined.

(** [api_pmu_log_read] prints the first entry of what it has copied without
    looking at how much that is: a request for fewer than twelve bytes of a
    non-empty log reads past the end of the response. *)
Theorem log_read_short_request (s : kstate) (cap max_bytes : Z) (content : list Z) :
  kwf s -> log_view s = Some (cap, content) -> 0 < zlen content -> cap <> 0 ->
  alloc_ok s = true -> 0 < max_bytes < 12 ->
  api_pmu_log_read (log_read_msg max_bytes) s = Stop OutOfBounds.
Proof.
  intros Hs Hv Hc Hcap Hal Hm. assert (Hm32 : in_u 32 max_bytes) by (unfold in_u; lia).
  rewrite (log_read_eq s cap content max_bytes Hs Hv Hcap Hal Hm32). cbv zeta.
  rewrite (proj2 (Z.eqb_neq (zlen content) 0)) by lia.
  rewrite (proj2 (Z.ltb_lt _ _)); [done|]. unfold spec_read.
  rewrite (proj2 (Z.eqb_neq max_bytes 0)) by lia. unfold zlen. rewrite length_take. lia.
Qed.

(** A log of 100 bytes that holds 76. *)
Definition example_log : kstate :=
  kstate0 hw0 <| pmu_log_buffer := Some (replicate 100 0) |> <| pmu_log_buffer_size := 100 |>
    <| pmu_log_data_size := 76 |> <| pmu_logging_active := true |>.

Lemma log_read_short_request_witness :
  api_pmu_log_read (log_read_msg 8) example_log = Stop OutOfBounds.
Proof.
  apply (log_read_short_request example_log 100 8 (replicate 76 0)); try done. kwf_compute.
Defined.
