(* ===== verification/KDpf.v ===== *)
(** * The kernel module's entry points ([kernel_dpf.c])

    The [/proc] file's read and write operations, the periodic work on every
    core, the timer that triggers it, and loading and unloading the module.
    The events of a loaded module are the constructors of [kevent]; [kstep] is
    its step relation.  Cross-calls run one core after the other, in the order
    [smp_call_cpus] gives. *)

From S2P Require Import Prelude Bitfields KState KCommon KPmuDdr KMab KApi.

Definition TIMER_INTERVAL_SEC : Z := 1.

Definition PROC_BUFFER_SIZE : Z := 1024.

(** ** The [/proc] file *)

(** [proc_read(file, buffer, count, pos)]: the return value, the bytes copied
    and the new [*pos].  [count] and [pos] are not negative. *)
Definition proc_read (count pos : Z) : K (Z * list Z * Z) :=
  s ← get_state;
  match proc_buffer s with
  | None => mret (0, [], pos)
  | Some buf =>
      if proc_buffer_size s =? 0 then mret (0, [], pos) else
      if proc_buffer_size s <=? pos then mret (0, [], pos) else
      let bytes_to_copy := Z.min count (proc_buffer_size s - pos) in
      match sub_bytes buf (Z.to_nat pos) (Z.to_nat bytes_to_copy) with
      | None => stop_with OutOfBounds
      | Some bytes =>
          ok ← user_copy;
          if negb ok then mret (- EFAULT, [], pos)
          else mret (bytes_to_copy, bytes, pos + bytes_to_copy)
      end
  end.

Section dpf.
Context {L : Linux}.

(** The [switch] on the message type. *)
Definition dispatch (cpu type : Z) (msg : list Z) : K Z :=
  if type =? DPF_MSG_INIT then api_init
  else if type =? DPF_MSG_CORE_RANGE then api_core_range cpu msg
  else if type =? DPF_MSG_CORE_WEIGHT then api_core_weight msg
  else if type =? DPF_MSG_TUNING then api_tuning cpu msg
  else if type =? DPF_MSG_DDRBW_SET then api_ddrbw_set msg
  else if type =? DPF_MSG_PMU_READ then api_pmu_read cpu msg
  else if type =? DPF_MSG_MSR_READ then api_msr_read cpu msg
  else if type =? DPF_MSG_DDR_CONFIG then api_ddr_config msg
  else if type =? DPF_MSG_DDR_BW_READ then api_ddr_bw_read
  else if type =? DPF_MSG_PMU_LOG_CONTROL then api_pmu_log_control cpu msg
  else if type =? DPF_MSG_PMU_LOG_STOP then api_pmu_log_stop cpu
  else if type =? DPF_MSG_PMU_LOG_READ then api_pmu_log_read msg
  else mret (- EINVAL).

(** [dpf_proc_write]: [msg] is the user's buffer, [count] its length. *)
Definition dpf_proc_write (cpu : Z) (msg : list Z) : K Z :=
  let count := zlen msg in
  if (count <? 8) || (MAX_MSG_SIZE <? count) then mret (- EINVAL) else
  modify (fun s => s <| proc_buffer := None |> <| proc_buffer_size := 0 |>) ;;
  ok ← user_copy;
  if negb ok then mret (- EFAULT) else
  ok ← kmalloc;
  if negb ok then mret (- ENOMEM) else
  ok ← user_copy;
  if negb ok then mret (- EFAULT) else
  type ← req_u32 msg 0;
  ret ← dispatch cpu type msg;
  mret (if ret <? 0 then ret else count).
End dpf.

(** ** Periodic work *)

(** The logging part of [per_core_work]. *)
Definition log_pmu (core_id : Z) : K unit :=
  s ← get_state;
  if pmu_logging_active s && bool_decide (is_Some (pmu_log_buffer s)) then
    t ← ktime_get_ns;
    c ← core_at core_id;
    api_pmu_log_append_data
      (log_entry_bytes {| timestamp := t; entry_core_id := core_id; pmu_values := pmu_raw c |}) ;;
    mret tt
  else mret tt.

(** An idle tick: count it, and let the module's first enabled core count it
    for the module and restart the scan when the module has been idle. *)
Definition mab_idle_tick (core_id : Z) : K unit :=
  m ← mab_core_at core_id;
  put_mab_core core_id (m <| mc_idle_counter := s32 (mc_idle_counter m + 1) |>) ;;
  mid ← module_id core_id;
  first ← mab_first_enabled_core mid;
  if core_id =? first then
    md ← mab_module_at mid;
    put_mab_module mid (md <| mm_idle_counter := s32 (mm_idle_counter md + 1) |>) ;;
    md ← mab_module_at mid;
    if IDLE_THRESHOLD <? mm_idle_counter md
    then put_mab_module mid (md <| mm_initialized := MAB_INIT_NOT_STARTED |>)
    else mret tt
  else mret tt.

(** An active tick: tune, or take a step of the scan; the result is the module's
    leader. *)
Definition mab_active_tick (core_id : Z) : K Z :=
  m ← mab_core_at core_id;
  put_mab_core core_id (m <| mc_idle_counter := 0 |>) ;;
  mid ← module_id core_id;
  module_leader ← mab_first_active_core mid;
  md ← mab_module_at mid;
  put_mab_module mid (md <| mm_idle_counter := 0 |>) ;;
  md ← mab_module_at mid;
  (if mm_initialized md =? MAB_INIT_DONE then mab_tuning core_id
   else if core_id =? module_leader then mab_init_module_step core_id
   else mret 0) ;;
  mret module_leader.

(** [per_core_work] on CPU [core_id]. *)
Definition per_core_work (core_id : Z) : K unit :=
  c ← core_at core_id;
  if negb (core_disabled c =? 0) then mret tt else
  pmu_update core_id core_id ;;
  log_pmu core_id ;;
  act ← mab_core_is_active core_id;
  module_leader ←
    (if act <? 0 then mret (-1)
     else if act =? 0 then mab_idle_tick core_id ;; mret (-1)
     else if act =? 1 then mab_active_tick core_id
     else mret (-1));
  if core_id =? module_leader then
    d ← is_msr_dirty core_id;
    if d =? 1 then msr_update core_id core_id ;; mret tt else mret tt
  else mret tt.

Section work.
Context {L : Linux}.

(** [monitor_work_func], run by a worker on CPU [cpu]; [irq] is what
    [in_interrupt()] answers. *)
Definition monitor_work_func (irq : bool) (cpu : Z) : K unit :=
  if irq then mret tt else
  running ← gets keep_running;
  if negb running then mret tt else
  mask ← gets enabled_cpus;
  if bool_decide (mask = []) then mret tt else
  per_core_work cpu ;;
  for_each (smp_call_cpus cpu mask) per_core_work.

(** [monitor_callback]: whether the timer is to be restarted. *)
Definition monitor_callback : K bool :=
  running ← gets keep_running;
  if negb running then mret false else
  schedule_work ;;
  mret true.

(** ** Loading and unloading *)

Definition module_init_cores : K unit :=
  for_each (seqZ 0 MAX_NUM_CORES) (fun core_id =>
    c ← core_at core_id;
    put_core core_id (c <| core_disabled := 1 |>)) ;;
  for_each online_cpus set_boot_default_on_core ;;
  for_each online_cpus configure_pmu_on_core.

Definition module_init_mab : K unit :=
  mab_setup_default_arms ;;
  for_each (seqZ 0 MAX_NUM_CORES) (fun core_id =>
    m ← mab_core_at core_id;
    put_mab_core core_id (m <| mc_initialized := MAB_INIT_NOT_STARTED |>)) ;;
  for_each (seqZ 0 MAX_MODULES) (fun module_idx =>
    m ← mab_module_at module_idx;
    put_mab_module module_idx (m <| mm_initialized := MAB_INIT_NOT_STARTED |>)).

Definition dpf_module_init : K Z :=
  module_init_cores ;;
  ok ← kmalloc;
  if negb ok then mret (- ENOMEM) else
  buf ← junk_bytes 1024;
  modify (fun s => s <| proc_buffer := Some buf |>) ;;
  ok ← proc_create;
  if negb ok then modify (fun s => s <| proc_buffer := None |>) ;; mret (- ENOMEM) else
  module_init_mab ;;
  modify (fun s => s <| kt_period := TIMER_INTERVAL_SEC * NSEC_PER_SEC |>) ;;
  mret 0.

Definition dpf_module_exit : K unit :=
  modify (fun s => s <| keep_running := false |>) ;;
  hrtimer_cancel ;;
  cancel_work_sync ;;
  modify (fun s => s <| proc_entry := false |> <| proc_buffer := None |>) ;;
  log ← gets pmu_log_buffer;
  (if bool_decide (is_Some log) then
     modify (fun s => s <| pmu_log_buffer := None |> <| pmu_log_buffer_size := 0 |>
                        <| pmu_log_data_size := 0 |> <| pmu_logging_active := false |>)
   else mret tt) ;;
  for_each (seqZ 0 MAX_NUM_DDR_CONTROLLERS) unmap_controller.

(** ** The loaded module as a state machine *)

Inductive kevent : Type :=
  | Write (cpu : Z) (msg : list Z)   (** a write to the /proc file *)
  | Read (count pos : Z)             (** a read of it *)
  | Timer                            (** the timer expires *)
  | Work (cpu : Z)                   (** a worker takes the work item *)
  | Environment (h : hw)             (** the machine moves on *).

Inductive kstep : kstate -> kevent -> kstate -> Prop :=
  | step_write s cpu msg r s' :
      Forall (in_u 8) msg -> dpf_proc_write cpu msg s = Ok (r, s') ->
      kstep s (Write cpu msg) s'
  | step_read s count pos r s' :
      0 <= count -> 0 <= pos -> proc_read count pos s = Ok (r, s') ->
      kstep s (Read count pos) s'
  | step_timer s restart s' :
      monitor_timer s = true -> monitor_callback s = Ok (restart, s') ->
      kstep s Timer (s' <| monitor_timer := restart |>)
  | step_work s cpu s' :
      monitor_work s = true ->
      monitor_work_func false cpu (s <| monitor_work := false |>) = Ok (tt, s') ->
      kstep s (Work cpu) s'
  | step_environment s h : kstep s (Environment h) (s <| machine := h |>).

(** The states of a loaded module. *)
Inductive reachable : kstate -> Prop :=
  | reach_load h s : dpf_module_init (kstate0 h) = Ok (0, s) -> reachable s
  | reach_step s e s' : reachable s -> kstep s e s' -> reachable s'.
End work.

(** ** Invariance *)

Lemma preserves_proc_read count pos : preserves kwf (proc_read count pos).
Proof.
  unfold proc_read. apply (preserves_returns kwf); [by intros s Hs|]. intros s Hs. kpreserve.
Qed.

Lemma preserves_dispatch {L : Linux} cpu type msg :
  Forall (in_u 8) msg -> preserves kwf (dispatch cpu type msg).
Proof. intros Hm. unfold dispatch. preserve. Qed.

Lemma preserves_proc_write {L : Linux} cpu msg :
  Forall (in_u 8) msg -> preserves kwf (dpf_proc_write cpu msg).
Proof.
  intros Hm. unfold dpf_proc_write. pose proof (preserves_dispatch cpu) as Hd. preserve.
  apply preserves_modify. intros s Hs. kwf_update Hs. by intros b.
Qed.

Lemma preserves_log_pmu i : preserves kwf (log_pmu i).
Proof.
  unfold log_pmu. apply (preserves_returns kwf); [by intros s Hs|]. intros s0 _.
  destruct (_ && _); [|preserve]. apply preserves_ktime. intros t Ht. kpreserve.
  apply preserves_log_append.
  - apply Forall_app_2; [apply le_bytes_range|]. apply Forall_app_2; [apply le_bytes_range|].
    apply (words_bytes_range (pmu_raw c)).
  - pose proof (cwf_raw c H) as Hl. unfold log_entry_bytes, zlen, PMU_COUNTERS in *.
    cbn [timestamp entry_core_id pmu_values].
    rewrite !length_app, !length_le_bytes.
    rewrite length_words_bytes. lia.
Qed.

Lemma preserves_idle_tick i : preserves kwf (mab_idle_tick i).
Proof.
  unfold mab_idle_tick, module_id. kpreserve.
Qed.

Lemma preserves_active_tick i : preserves kwf (mab_active_tick i).
Proof. unfold mab_active_tick, module_id. kpreserve. Qed.

#[export] Hint Resolve preserves_log_pmu preserves_idle_tick preserves_active_tick : preserve.

Lemma preserves_per_core_work i : preserves kwf (per_core_work i).
Proof. unfold per_core_work. kpreserve. Qed.

#[export] Hint Resolve preserves_per_core_work : preserve.

Lemma preserves_monitor_work {L : Linux} irq cpu : preserves kwf (monitor_work_func irq cpu).
Proof. unfold monitor_work_func. kpreserve. Qed.

Lemma preserves_monitor_callback : preserves kwf monitor_callback.
Proof. unfold monitor_callback. kpreserve. Qed.

Lemma kwf_arm_configs_set s :
  kwf s ->
  kwf (s <| mab_arm_configs ::= fun l => aset (aset l 0 boot_default_arm) 1 aggressive_arm |>).
Proof.
  intros [? ? ? ? ? ? Hl Hc ? ? ? [? ? ? ?] ?]. constructor; try done.
  - change (zlen (aset (aset (mab_arm_configs s) 0 boot_default_arm) 1 aggressive_arm) = MAX_ARMS).
    by rewrite !zlen_aset.
  - apply Forall_aset; [apply Forall_aset; [done|]|]; (split; [done|]);
      unfold boot_default_arm, aggressive_arm; forall_u64.
Qed.

Lemma kwf_proc_buffer s b :
  kwf s -> 0 <= proc_buffer_size s <= zlen b -> Forall (in_u 8) b ->
  kwf (s <| proc_buffer := Some b |>).
Proof. intros Hs Hl Hb. kwf_update Hs. by intros b' [= <-]. Qed.

Lemma kwf_no_proc_buffer s : kwf s -> kwf (s <| proc_buffer := None |>).
Proof. intros Hs. kwf_update Hs. by intros b. Qed.

Lemma kwf_kt_period s v : kwf s -> kwf (s <| kt_period := v |>).
Proof. intros Hs. kwf_update Hs. Qed.

Section load.
Context {L : Linux}.

Lemma preserves_init_cores : preserves kwf module_init_cores.
Proof.
  unfold module_init_cores, configure_pmu_on_core.
  assert (Hdis : forall i c, core_wf c -> preserves kwf (put_core i (c <| core_disabled := 1 |>)))
    by (intros; apply preserves_put_core, core_wf_disabled; auto).
  kpreserve.
Qed.

Lemma preserves_init_mab : preserves kwf module_init_mab.
Proof.
  unfold module_init_mab, mab_setup_default_arms. kpreserve_step;
    [apply preserves_modify; intros s Hs; by apply kwf_arm_configs_set|].
  kpreserve. 
Qed.

(** Nothing before the allocation of [proc_buffer] touches its size. *)
Lemma init_cores_size : preserves (fun s => proc_buffer_size s = 0) module_init_cores.
Proof.
  assert (Hput : forall i c, preserves (fun s => proc_buffer_size s = 0) (put_core i c)).
  { intros i c s Hs. by apply wp_put_core. }
  assert (Hat : forall i, preserves (fun s => proc_buffer_size s = 0) (core_at i)).
  { intros i s Hs. by apply wp_core_at. }
  assert (Hwr : forall a b c d, preserves (fun s => proc_buffer_size s = 0) (wrmsr a b c d)).
  { intros. by apply preserves_modify. }
  unfold module_init_cores, set_boot_default_on_core, configure_pmu_on_core. preserve.
Qed.

Lemma module_init_wf h r s : dpf_module_init (kstate0 h) = Ok (r, s) -> kwf s.
Proof.
  intros Hrun. eapply (wp_Ok _ _ _ _ (fun _ => kwf) any_stop); [exact Hrun|]. clear Hrun.
  unfold dpf_module_init. apply wp_bind.
  pose proof (preserves_init_cores _ (kstate0_wf h)) as H1.
  pose proof (init_cores_size (kstate0 h) eq_refl) as H2.
  eapply wp_mono; [exact (wp_conj _ _ _ _ _ H1 H2)| |done].
  intros [] s1 [Hs1 Hsz]. apply wp_bind. unfold wp at 1. rewrite kmalloc_eq.
  destruct (alloc_next_machine s1) as (h1 & -> & _).
  assert (Hs1' : kwf (s1 <| machine := h1 |>)) by by apply kwf_machine.
  destruct (negb _); [by apply wp_ret|]. apply wp_bind, wp_gets.
  pose proof (junk_bytes_range 1024 (s1 <| machine := h1 |>)) as Hj.
  set (buf := map _ (seq 0 1024)) in *. clearbody buf. apply wp_bind, wp_modify.
  assert (Hs2 : kwf (s1 <| machine := h1 |> <| proc_buffer := Some buf |>)).
  { apply kwf_proc_buffer; [done| |done]. cbn. rewrite Hsz. unfold zlen. lia. }
  revert Hs2. generalize (s1 <| machine := h1 |> <| proc_buffer := Some buf |>).
  match goal with |- forall s2, kwf s2 -> wp ?m s2 _ _ => assert (Hp : preserves kwf m); [|exact Hp] end.
  apply preserves_bind; [apply preserves_proc_create|intros ok].
  destruct (negb ok).
  { apply preserves_bind; [|intros _; apply preserves_ret].
    apply preserves_modify. intros s0 Hs0. by apply kwf_no_proc_buffer. }
  apply preserves_bind; [apply preserves_init_mab|intros _].
  apply preserves_bind; [|intros _; apply preserves_ret].
  apply preserves_modify. intros s0 Hs0. by apply kwf_kt_period.
Qed.
End load.
