(* ===== verification/KInv.v ===== *)
(** * Invariants of the loaded module

    What holds in every state the loaded module can reach: the data are well
    formed ([kwf]), the live I/O mappings are the ones recorded in [ddr]
    ([maps_ok]), and the timer is queued whenever the monitor is supposed to
    run.  From these follow that unloading releases everything and that a
    stopped monitor stays quiet. *)

From S2P Require Import Prelude Bitfields KState KCommon KPmuDdr KMab KApi KDpf.

(** The part of the invariant that is not about the data's shape. *)
Definition aux (s : kstate) : Prop :=
  maps_ok s /\ (keep_running s = true -> monitor_timer s = true).

Definition kinv (s : kstate) : Prop := kwf s /\ aux s.

(** ** Steps that do not touch the mappings or the timer *)

Lemma aux_put_core i c : preserves aux (put_core i c).
Proof. intros s Hs. by apply wp_put_core. Qed.

Lemma aux_core_at i : preserves aux (core_at i).
Proof. intros s Hs. by apply wp_core_at. Qed.

Lemma aux_put_mab_core i c : preserves aux (put_mab_core i c).
Proof. intros s Hs. by apply wp_put_mab_core. Qed.

Lemma aux_mab_core_at i : preserves aux (mab_core_at i).
Proof. intros s Hs. by apply wp_mab_core_at. Qed.

Lemma aux_put_mab_module i c : preserves aux (put_mab_module i c).
Proof. intros s Hs. by apply wp_put_mab_module. Qed.

Lemma aux_mab_module_at i : preserves aux (mab_module_at i).
Proof. intros s Hs. by apply wp_mab_module_at. Qed.

Lemma aux_kmalloc : preserves aux kmalloc.
Proof. intros s Hs. unfold wp, kmalloc. by destruct (hw_alloc _). Qed.

Lemma aux_user_copy : preserves aux user_copy.
Proof. intros s Hs. unfold wp, user_copy. by destruct (hw_copy _). Qed.

Lemma aux_ktime : preserves aux ktime_get_ns.
Proof. intros s Hs. unfold wp, ktime_get_ns. by destruct (hw_clock _). Qed.

Lemma aux_modify_hw f : preserves aux (modify_hw f).
Proof. by apply preserves_modify. Qed.

Lemma aux_rdmsr cpu a : preserves aux (rdmsr cpu a).
Proof. apply preserves_gets. Qed.

Lemma aux_wrmsr cpu a lo hi : preserves aux (wrmsr cpu a lo hi).
Proof. apply aux_modify_hw. Qed.

Lemma aux_read_pmc cpu n : preserves aux (native_read_pmc cpu n).
Proof. apply preserves_gets. Qed.

Lemma aux_req_int n msg off : preserves aux (req_int n msg off).
Proof. intros s Hs. unfold wp, req_int. by destruct (sub_bytes msg off n). Qed.

Lemma aux_req_u32 msg off : preserves aux (req_u32 msg off).
Proof. apply aux_req_int. Qed.

Lemma aux_req_u64 msg off : preserves aux (req_u64 msg off).
Proof. apply aux_req_int. Qed.

Lemma aux_respond b : preserves aux (respond b).
Proof. by apply preserves_modify. Qed.

Lemma aux_get_state : preserves aux get_state.
Proof. by intros s Hs. Qed.

Lemma aux_schedule_work : preserves aux schedule_work.
Proof. by apply preserves_modify. Qed.

#[export] Hint Resolve aux_put_core aux_core_at aux_put_mab_core aux_mab_core_at
  aux_put_mab_module aux_mab_module_at aux_kmalloc aux_user_copy aux_ktime aux_modify_hw
  aux_rdmsr aux_wrmsr aux_read_pmc aux_req_u32 aux_req_u64 aux_respond aux_get_state
  aux_schedule_work : preserve.

(** An assignment to other globals. *)
Ltac aux_plain := by apply preserves_modify.

Lemma aux_pmu_update cpu i : preserves aux (pmu_update cpu i).
Proof. unfold pmu_update. preserve. Qed.

Lemma aux_msr_load cpu i : preserves aux (msr_load cpu i).
Proof. unfold msr_load. preserve. Qed.

Lemma aux_msr_update cpu i : preserves aux (msr_update cpu i).
Proof. unfold msr_update, write_pf_msr. preserve. Qed.

Lemma aux_is_msr_dirty i : preserves aux (is_msr_dirty i).
Proof. unfold is_msr_dirty. preserve. Qed.

Lemma aux_msr_set_dirty i : preserves aux (msr_set_dirty i).
Proof. unfold msr_set_dirty. preserve. Qed.

Lemma aux_configure_pmu_on_core cpu : preserves aux (configure_pmu_on_core cpu).
Proof. unfold configure_pmu_on_core. preserve. Qed.

Lemma aux_set_boot_default cpu : preserves aux (set_boot_default_on_core cpu).
Proof. unfold set_boot_default_on_core. preserve. Qed.

#[export] Hint Resolve aux_pmu_update aux_msr_load aux_msr_update aux_is_msr_dirty
  aux_msr_set_dirty aux_configure_pmu_on_core aux_set_boot_default : preserve.

Lemma aux_configure_pmu {L : Linux} cpu i : preserves aux (configure_pmu cpu i).
Proof. unfold configure_pmu. preserve. Qed.

#[export] Hint Resolve aux_configure_pmu : preserve.

(** *** The bandit *)

Lemma aux_find_first l p : (forall i, preserves aux (p i)) -> preserves aux (find_first l p).
Proof. apply preserves_find_first. Qed.

Lemma aux_skipped i : preserves aux (mab_core_skipped i).
Proof. unfold mab_core_skipped. preserve. Qed.

#[export] Hint Resolve aux_skipped : preserve.

Lemma aux_first_enabled m : preserves aux (mab_first_enabled_core m).
Proof.
  unfold mab_first_enabled_core, module_start_of. preserve. apply aux_find_first. intros i. preserve.
Qed.

Lemma aux_first_active m : preserves aux (mab_first_active_core m).
Proof.
  unfold mab_first_active_core, module_start_of. preserve. apply aux_find_first. intros i. preserve.
Qed.

Lemma aux_module_score m a : preserves aux (mab_module_score m a).
Proof. unfold mab_module_score, module_start_of. preserve. Qed.

Lemma aux_apply_msr_config i a : preserves aux (mab_apply_msr_config i a).
Proof. unfold mab_apply_msr_config. preserve. Qed.

Lemma aux_pmu_event i ev : preserves aux (pmu_event i ev).
Proof. unfold pmu_event. preserve. Qed.

#[export] Hint Resolve aux_first_enabled aux_first_active aux_module_score aux_apply_msr_config
  aux_pmu_event : preserve.

Lemma aux_compute_score i : preserves aux (mab_compute_score i).
Proof. unfold mab_compute_score. preserve. Qed.

Lemma aux_is_active i : preserves aux (mab_core_is_active i).
Proof. unfold mab_core_is_active. preserve. Qed.

Lemma aux_update_arm i a f : preserves aux (update_arm i a f).
Proof. unfold update_arm. preserve. Qed.

Lemma aux_arm_score i a : preserves aux (arm_score i a).
Proof. unfold arm_score. preserve. Qed.

#[export] Hint Resolve aux_compute_score aux_is_active aux_update_arm aux_arm_score : preserve.

Lemma aux_best_arm i : preserves aux (best_arm_of i).
Proof. unfold best_arm_of. preserve. Qed.

Lemma aux_select_arm m a sc : preserves aux (mab_select_arm m a sc).
Proof. unfold mab_select_arm, mab_select_step. preserve. Qed.

#[export] Hint Resolve aux_best_arm aux_select_arm : preserve.

Lemma aux_tuning i : preserves aux (mab_tuning i).
Proof. unfold mab_tuning, module_id, stack_junk. preserve. Qed.

Lemma aux_init_module_step i : preserves aux (mab_init_module_step i).
Proof.
  unfold mab_init_module_step, module_id, module_start_of, mab_score_module. preserve.
Qed.

#[export] Hint Resolve aux_tuning aux_init_module_step : preserve.

(** *** Periodic work *)

Lemma aux_log_append data : preserves aux (api_pmu_log_append_data data).
Proof. unfold api_pmu_log_append_data. preserve. Qed.

#[export] Hint Resolve aux_log_append : preserve.

Lemma aux_log_pmu i : preserves aux (log_pmu i).
Proof. unfold log_pmu. preserve. Qed.

Lemma aux_idle_tick i : preserves aux (mab_idle_tick i).
Proof. unfold mab_idle_tick, module_id. preserve. Qed.

Lemma aux_active_tick i : preserves aux (mab_active_tick i).
Proof. unfold mab_active_tick, module_id. preserve. Qed.

#[export] Hint Resolve aux_log_pmu aux_idle_tick aux_active_tick : preserve.

Lemma aux_per_core_work i : preserves aux (per_core_work i).
Proof. unfold per_core_work. preserve. Qed.

#[export] Hint Resolve aux_per_core_work : preserve.

Lemma aux_monitor_work {L : Linux} irq cpu : preserves aux (monitor_work_func irq cpu).
Proof. unfold monitor_work_func. preserve. Qed.

(** ** Handlers *)

(** Starting and stopping the timer together with the flag. *)
Lemma aux_start (f : kstate -> kstate) :
  (forall s, iomaps (f s) = iomaps s /\ ddr (f s) = ddr s) ->
  preserves aux (modify f ;; hrtimer_start).
Proof.
  intros Hf s [Hm _]. apply wp_bind, wp_modify, wp_modify. split; [|done].
  unfold maps_ok in *. cbn. by destruct (Hf s) as [-> ->].
Qed.

Lemma aux_stop {A} (f : kstate -> kstate) (k : K A) :
  (forall s, iomaps (f s) = iomaps s /\ ddr (f s) = ddr s /\ keep_running (f s) = false) ->
  preserves aux k -> preserves aux (modify f ;; hrtimer_cancel ;; k).
Proof.
  intros Hf Hk s [Hm _]. apply wp_bind, wp_modify, wp_bind, wp_modify.
  apply Hk. destruct (Hf s) as (Hi & Hd & Hr). split.
  - unfold maps_ok in *. cbn. by rewrite Hi, Hd.
  - cbn. by rewrite Hr.
Qed.

Lemma aux_stop_last (f : kstate -> kstate) :
  (forall s, iomaps (f s) = iomaps s /\ ddr (f s) = ddr s /\ keep_running (f s) = false) ->
  preserves aux (modify f ;; hrtimer_cancel).
Proof.
  intros Hf s [Hm _]. apply wp_bind, wp_modify, wp_modify.
  destruct (Hf s) as (Hi & Hd & Hr). split; [|cbn; by rewrite Hr].
  unfold maps_ok in *. cbn. by rewrite Hi, Hd.
Qed.

Section handlers.
Context {L : Linux}.

Lemma aux_core_range_step cpu a b i : preserves aux (core_range_step cpu a b i).
Proof. unfold core_range_step. preserve. Qed.

Hint Resolve aux_core_range_step : preserve.

Lemma aux_api_core_range cpu msg : preserves aux (api_core_range cpu msg).
Proof. unfold api_core_range. preserve. Qed.

Lemma aux_api_core_weight msg : preserves aux (api_core_weight msg).
Proof. unfold api_core_weight. preserve. Qed.

Lemma aux_tuning_load cpu i : preserves aux (tuning_load cpu i).
Proof. unfold tuning_load, core_in_module. preserve. Qed.

Hint Resolve aux_tuning_load : preserve.

Lemma aux_api_tuning cpu msg : preserves aux (api_tuning cpu msg).
Proof.
  unfold api_tuning. preserve_step; [by eauto with preserve|].
  destruct (negb _); [preserve|]. do 2 (preserve_step; [by eauto with preserve|]).
  cbv zeta. do 2 (preserve_step; [by eauto with preserve|]).
  preserve_step; [|preserve]. destruct (_ =? 1).
  - preserve_step; [preserve|]. by apply aux_start.
  - by apply aux_stop_last.
Qed.

Lemma aux_api_ddrbw_set msg : preserves aux (api_ddrbw_set msg).
Proof. unfold api_ddrbw_set. preserve. Qed.

Lemma aux_api_msr_read cpu msg : preserves aux (api_msr_read cpu msg).
Proof. unfold api_msr_read. preserve. Qed.

Lemma aux_api_pmu_read cpu msg : preserves aux (api_pmu_read cpu msg).
Proof. unfold api_pmu_read. preserve. Qed.

Lemma aux_log_buffer_setup n m : preserves aux (log_buffer_setup n m).
Proof. unfold log_buffer_setup. preserve. Qed.

Hint Resolve aux_log_buffer_setup : preserve.

Lemma aux_api_pmu_log_control cpu msg : preserves aux (api_pmu_log_control cpu msg).
Proof.
  unfold api_pmu_log_control, log_reset_core. do 3 (preserve_step; [by eauto with preserve|]).
  destruct (negb _); [preserve|]. destruct (1 <? _); [preserve|].
  preserve_step; [by eauto with preserve|]. destruct (_ : option Z); [preserve|].
  preserve_step; [by eauto with preserve|]. preserve_step; [preserve|].
  preserve_step; [by eauto with preserve|]. preserve_step; [|preserve].
  destruct (negb _); [by apply aux_start|preserve].
Qed.

Lemma aux_api_pmu_log_stop cpu : preserves aux (api_pmu_log_stop cpu).
Proof.
  unfold api_pmu_log_stop, log_stop_core. preserve_step; [by eauto with preserve|].
  destruct (negb _); [preserve|]. preserve_step; [by eauto with preserve|].
  destruct (negb _); [preserve|]. apply aux_stop; [done|]. preserve.
Qed.

Lemma aux_api_pmu_log_read msg : preserves aux (api_pmu_log_read msg).
Proof. unfold api_pmu_log_read. preserve. Qed.
End handlers.

(** *** The DDR handlers *)

Lemma kinv_kernel_pmu_ddr s d :
  kinv s -> wp (kernel_pmu_ddr (pmu_type d)) s (fun _ => kinv) any_stop.
Proof.
  intros [Hs [Hm Hk]]. unfold wp.
  destruct (decide (ddr_cpu_type s = DDR_CLIENT \/ ddr_cpu_type s = DDR_GRR_SRF)) as [Ht|Ht].
  - destruct (kernel_pmu_ddr_eq s d Hs Ht) as (l' & Hsam & Hrun).
    destruct (kernel_pmu_ddr_step s d Hs Ht) as (s' & Hrun' & Hs' & _).
    rewrite Hrun in *. injection Hrun' as _ <-. split; [done|]. split; [|done].
    unfold maps_ok in *. cbn. by destruct (set_last_update_same d (ddr s) l') as [_ ->].
  - unfold kernel_pmu_ddr. rewrite bind_gets.
    rewrite (proj2 (Z.eqb_neq _ _)), (proj2 (Z.eqb_neq _ _)) by tauto. done.
Qed.

Lemma kinv_ddr_bw_read : preserves kinv api_ddr_bw_read.
Proof.
  assert (Hk : preserves kinv kmalloc).
  { intros s [Hs Ha]. eapply wp_mono; [apply wp_conj;
      [by apply preserves_kmalloc|by apply aux_kmalloc]|done|done]. }
  unfold api_ddr_bw_read, read_ddr_counters. preserve.
  - intros s Hs. by apply (kinv_kernel_pmu_ddr s Rd).
  - intros s Hs. by apply (kinv_kernel_pmu_ddr s Wr).
  - intros s [Hs Ha]. apply wp_modify. split; [|done].
    apply kwf_respond; [done|]. repeat apply Forall_app_2; apply le_bytes_range.
Qed.

(** The unmapping loop of [api_ddr_config] and [dpf_module_exit]. *)
Lemma unmap_controller_spec s i :
  kwf s -> maps_ok s -> 0 <= i < MAX_NUM_DDR_CONTROLLERS ->
  exists s', unmap_controller i s = Ok (tt, s') /\ kwf s' /\ maps_ok s' /\
    aget (mmap (ddr s')) i = Some 0 /\
    (forall j, j <> i -> aget (mmap (ddr s')) j = aget (mmap (ddr s)) j) /\
    (exists d io, s' = s <| ddr := d |> <| iomaps := io |>).
Proof.
  intros Hs Hm Hi. pose proof (kwf_ddr s Hs) as Hd.
  destruct (aget_is_Some (mmap (ddr s)) i) as [a Ha]; [by rewrite (dwf_mmap _ Hd)|].
  unfold unmap_controller. rewrite bind_gets, (bind_Ok _ _ _ _ _ (read_Some _ _ _ _ Ha)).
  destruct (Z.eqb_spec a 0) as [->|Hne].
  - exists s. split_and!; try done. exists (ddr s), (iomaps s). by destruct s.
  - destruct (iounmap_set_mmap s i a Ha Hne Hm) as (s' & Hrun & Hm' & ->).
    eexists. split; [exact Hrun|]. split_and!; try done.
    + eapply (wp_Ok _ _ _ _ (fun _ => kwf) any_stop); [exact Hrun|].
      apply preserves_bind; [apply preserves_iounmap|intros; apply preserves_set_mmap|done].
    + cbn -[aget aset]. apply aget_aset_eq. by rewrite (dwf_mmap _ Hd).
    + intros j Hj. cbn -[aget aset]. by rewrite aget_aset_ne.
    + eexists _, _. reflexivity.
Qed.

Lemma unmap_all_spec s :
  kwf s -> maps_ok s ->
  exists s', for_each (seqZ 0 MAX_NUM_DDR_CONTROLLERS) unmap_controller s = Ok (tt, s') /\
    kwf s' /\ iomaps s' = [] /\ maps_ok s' /\
    (exists d io, s' = s <| ddr := d |> <| iomaps := io |>).
Proof.
  intros Hs Hm.
  assert (H : forall n k s, n = Z.to_nat (16 - k) -> 0 <= k <= 16 -> kwf s -> maps_ok s ->
    (forall j a, j < k -> aget (mmap (ddr s)) j = Some a -> a = 0) ->
    exists s', for_each (seqZ k (16 - k)) unmap_controller s = Ok (tt, s') /\ kwf s' /\ maps_ok s' /\
      (forall j a, aget (mmap (ddr s')) j = Some a -> a = 0) /\
      (exists d io, s' = s <| ddr := d |> <| iomaps := io |>)).
  { induction n as [|n IH]; intros k s0 Hn Hk Hs0 Hm0 Hz.
    - rewrite seqZ_nil by lia. exists s0. split_and!; try done.
      + intros j a Hj. apply (Hz j); [|done]. apply aget_Some_range in Hj.
        rewrite (dwf_mmap _ (kwf_ddr _ Hs0)) in Hj. unfold MAX_NUM_DDR_CONTROLLERS in Hj. lia.
      + exists (ddr s0), (iomaps s0). by destruct s0.
    - rewrite seqZ_cons by lia. cbn [for_each].
      destruct (unmap_controller_spec s0 k Hs0 Hm0) as (s1 & Hrun & Hs1 & Hm1 & Hzk & Hne & d1 & io1 & He1);
        [unfold MAX_NUM_DDR_CONTROLLERS; lia|].
      rewrite (bind_Ok _ _ _ _ _ Hrun). replace (Z.pred (16 - k)) with (16 - Z.succ k) by lia.
      destruct (IH (Z.succ k) s1) as (s2 & Hrun2 & Hs2 & Hm2 & Hz2 & d2 & io2 & He2); try done; try lia.
      + intros j a Hj Ha. destruct (decide (j = k)) as [->|Hj']; [congruence|].
        rewrite Hne in Ha by done. apply (Hz j); [lia|done].
      + exists s2. split_and!; try done. exists d2, io2. by rewrite He2, He1. }
  destruct (H 16%nat 0 s) as (s' & Hrun & Hs' & Hm' & Hz & Hfr); try done.
  { intros j a Hj Ha. apply aget_Some_range in Ha. lia. }
  exists s'. split_and!; try done. pose proof (nonnull_zero _ Hz) as Hn.
  unfold maps_ok in Hm'. rewrite Hn in Hm'. by apply Permutation_nil_r.
Qed.

(** The DDR code leaves the timer alone. *)
Definition timer_ok (s : kstate) : Prop := keep_running s = true -> monitor_timer s = true.

Lemma timer_ddr_free : ddr_free timer_ok.
Proof. by intros s d io n Hs. Qed.

(** The three parts of the invariant, proved separately. *)
Lemma wp_kinv {A} (m : K A) s :
  preserves kwf m -> preserves timer_ok m -> kwf s -> timer_ok s ->
  wp m s (fun _ => maps_ok) any_stop -> wp m s (fun _ => kinv) any_stop.
Proof.
  intros H1 H2 Hs Ht Hm. eapply wp_mono;
    [exact (wp_conj _ _ _ _ _ (H1 s Hs) (wp_conj _ _ _ _ _ (H2 s Ht) Hm))| |done].
  intros a s' (? & ? & ?). by split.
Qed.

Lemma init_client_maps s bar :
  kwf s -> iomaps s = [] -> ddr_cpu_type s = DDR_CLIENT ->
  wp (kernel_pmu_ddr_init_client bar) s (fun _ => maps_ok) any_stop.
Proof.
  intros Hs Hio Ht. unfold kernel_pmu_ddr_init_client.
  destruct (ddr_reset_spec s DDR_CLIENT bar Hs Hio) as (s1 & Hrun & Hs1 & Hok & Hz & Ht1 & Hn).
  apply wp_bind. unfold wp at 1. rewrite Hrun.
  eapply wp_mono; [apply map_or_cleanup_spec with (E := any_stop); try done| |done].
  - left. by rewrite Ht1, Ht.
  - intros i s0 _. unfold client_reg_base. by apply wp_bind, wp_read.
  - by right.
  - intros i. unfold client_reg_base. preserve.
  - by intros r s' [Hm _].
Qed.

Lemma init_grr_srf_maps s bar :
  kwf s -> iomaps s = [] -> ddr_cpu_type s = DDR_GRR_SRF ->
  wp (kernel_pmu_ddr_init_grr_srf bar) s (fun _ => maps_ok) any_stop.
Proof.
  intros Hs Hio Ht. unfold kernel_pmu_ddr_init_grr_srf. apply wp_bind, wp_gets.
  rewrite (proj2 (Z.ltb_ge _ _)) by apply (kwf_controllers s Hs). apply wp_bind, wp_ret.
  destruct (ddr_reset_spec s DDR_GRR_SRF bar Hs Hio) as (s1 & Hrun & Hs1 & Hok & Hz & Ht1 & Hn).
  apply wp_bind. unfold wp at 1. rewrite Hrun. apply wp_bind, wp_gets.
  destruct (_ <=? 0); [by apply wp_ret|].
  eapply wp_mono; [apply map_or_cleanup_spec with (E := any_stop); try done| |done].
  - right. by rewrite Ht1, Ht.
  - by right.
  - intros i. unfold grr_srf_reg_base. preserve.
  - by intros r s' [Hm _].
Qed.

(** The initialisation chosen by the CPU type, with any number of controllers. *)
Lemma ddr_init_maps s bar t :
  kinv s -> iomaps s = [] -> ddr_cpu_type s = t ->
  wp (if t =? DDR_CLIENT then kernel_pmu_ddr_init_client bar
      else if t =? DDR_GRR_SRF then kernel_pmu_ddr_init_grr_srf bar
      else mret (- EINVAL)) s (fun _ => kinv) any_stop.
Proof.
  intros [Hs [Hm Hti]] Hio Ht. destruct (Z.eqb_spec t DDR_CLIENT) as [Htc|Htc];
    [|destruct (Z.eqb_spec t DDR_GRR_SRF) as [Htg|Htg]; [|by apply wp_ret]].
  - apply wp_kinv; try done; [apply preserves_init_client|apply ddr_free_init_client, timer_ddr_free|].
    apply init_client_maps; congruence.
  - apply wp_kinv; try done; [apply preserves_init_grr_srf|apply ddr_free_init_grr_srf, timer_ddr_free|].
    apply init_grr_srf_maps; congruence.
Qed.

(** A request field, whatever it holds, is a value of its type. *)
Lemma wp_req_field {A} n msg off (k : Z -> K A) s Q :
  Forall (in_u 8) msg ->
  (forall v, 0 <= v < 256 ^ Z.of_nat n -> wp (k v) s Q any_stop) ->
  wp (mbind k (req_int n msg off)) s Q any_stop.
Proof.
  intros Hm Hk. apply wp_bind. unfold wp at 1, req_int.
  destruct (sub_bytes msg off n) as [bs|] eqn:Hb; [|done]. apply Hk.
  pose proof (le_val_range bs (sub_bytes_range _ _ _ _ Hm Hb)) as Hr.
  by rewrite (sub_bytes_length _ _ _ _ Hb) in Hr.
Qed.

Lemma kinv_parts {A} (m : K A) : preserves kwf m -> preserves aux m -> preserves kinv m.
Proof.
  intros H1 H2 s [Hs Ha]. exact (wp_conj _ _ _ _ _ (H1 s Hs) (H2 s Ha)).
Qed.

Lemma kinv_kmalloc : preserves kinv kmalloc.
Proof. apply kinv_parts; [apply preserves_kmalloc|apply aux_kmalloc]. Qed.

Lemma kinv_respond bytes : Forall (in_u 8) bytes -> preserves kinv (respond bytes).
Proof. intros Hb. apply kinv_parts; [by apply preserves_respond|apply aux_respond]. Qed.

Lemma kinv_ddr_config msg : Forall (in_u 8) msg -> preserves kinv (api_ddr_config msg).
Proof.
  intros Hmsg s Hs. unfold api_ddr_config.
  apply wp_req_field; [done|]. intros bar Hbar. apply wp_req_field; [done|]. intros t Ht.
  apply wp_req_field; [done|]. intros n [Hn _].
  destruct (_ || _) eqn:Hb; [by apply wp_ret|]. apply orb_false_iff in Hb as [_ Hn1%Z.ltb_ge].
  apply wp_bind. eapply wp_mono; [by apply kinv_kmalloc| |done]. intros ok s1 [Hs1 [Hm1 Ht1]].
  destruct (negb ok); [by apply wp_ret|]. apply wp_bind, wp_gets.
  set (pad := map _ _). assert (Hpad : Forall (in_u 8) pad) by apply junk_bytes_range. clearbody pad.
  apply wp_bind.
  destruct (unmap_all_spec s1 Hs1 Hm1) as (s2 & Hrun & Hs2 & Hio & Hm2 & d & io & He).
  unfold wp at 1. rewrite Hrun. apply wp_bind, wp_modify, wp_bind.
  eapply wp_mono; [apply ddr_init_maps; [|done|done]| |done].
  - split; [by kwf_update Hs2|]. split; [done|]. by rewrite He.
  - intros r s3 Hs3. destruct (r <? 0); [by apply wp_ret|].
    apply wp_bind. eapply wp_mono; [apply kinv_respond; [|done]| |done].
    + apply Forall_app_2; [apply Forall_app_2; apply le_bytes_range|].
      repeat (apply Forall_app_2; [apply le_bytes_range|]). exact Hpad.
    + intros [] s4 Hs4. by apply wp_ret.
Qed.

(** ** Events *)

Section events.
Context {L : Linux}.

(** The handlers other than the DDR ones, by the two halves of the invariant. *)
Lemma kinv_dispatch cpu type msg :
  Forall (in_u 8) msg -> preserves kinv (dispatch cpu type msg).
Proof.
  intros Hm. unfold dispatch.
  repeat match goal with
  | |- preserves kinv (if ?b then _ else _) => destruct b
  | |- preserves kinv (api_ddr_config _) => by apply kinv_ddr_config
  | |- preserves kinv api_ddr_bw_read => apply kinv_ddr_bw_read
  | |- preserves kinv (mret _) => apply preserves_ret
  | |- preserves kinv _ => apply kinv_parts
  end; eauto using aux_api_core_range, aux_api_core_weight, aux_api_tuning, aux_api_ddrbw_set,
    aux_api_msr_read, aux_api_pmu_read, aux_api_pmu_log_control, aux_api_pmu_log_stop,
    aux_api_pmu_log_read with preserve.
  unfold api_init. preserve.
Qed.

Lemma kinv_proc_write cpu msg : Forall (in_u 8) msg -> preserves kinv (dpf_proc_write cpu msg).
Proof.
  intros Hm. unfold dpf_proc_write. pose proof (kinv_dispatch cpu) as Hd.
  pose proof kinv_kmalloc as Hk.
  assert (Hu : preserves kinv user_copy)
    by (apply kinv_parts; [apply preserves_user_copy|apply aux_user_copy]).
  assert (Hr : preserves kinv (req_u32 msg 0))
    by (apply kinv_parts; [apply preserves_req_int|apply aux_req_int]).
  preserve. apply preserves_modify. intros s [Hs Ha]. split; [|done].
  kwf_update Hs. by intros b.
Qed.

Lemma kinv_proc_read count pos : preserves kinv (proc_read count pos).
Proof.
  apply kinv_parts; [apply preserves_proc_read|]. unfold proc_read. preserve.
Qed.

Lemma kinv_step s e s' : kinv s -> kstep s e s' -> kinv s'.
Proof.
  intros Hs Hstep. destruct Hstep as [s cpu msg r s' Hm Hrun|s count pos r s' Hc Hp Hrun|
    s restart s' Hti Hrun|s cpu s' Hw Hrun|s h].
  - eapply (wp_Ok _ _ _ _ (fun _ => kinv)); [exact Hrun|]. by apply kinv_proc_write.
  - eapply (wp_Ok _ _ _ _ (fun _ => kinv)); [exact Hrun|]. by apply kinv_proc_read.
  - unfold monitor_callback in Hrun. rewrite bind_gets in Hrun.
    destruct Hs as [Hs [Hm Hk]]. destruct (keep_running s) eqn:Hr; cbn in Hrun;
      injection Hrun as <- <-; (split; [kwf_update Hs|]); (split; [done|]); cbn; congruence.
  - eapply (wp_Ok _ _ _ _ (fun _ => kinv)); [exact Hrun|].
    apply kinv_parts; [apply preserves_monitor_work|apply aux_monitor_work|].
    destruct Hs as [Hs Ha]. split; [kwf_update Hs|done].
  - destruct Hs as [Hs Ha]. split; [kwf_update Hs|done].
Qed.

(** Loading maps nothing and starts nothing. *)
Lemma aux_init_cores : preserves aux module_init_cores.
Proof. unfold module_init_cores. preserve. Qed.

Lemma aux_init_mab : preserves aux module_init_mab.
Proof. unfold module_init_mab, mab_setup_default_arms. preserve. Qed.

Lemma aux_module_init : preserves aux dpf_module_init.
Proof.
  unfold dpf_module_init. apply preserves_bind; [apply aux_init_cores|intros _].
  apply preserves_bind; [apply aux_kmalloc|intros ok]. destruct (negb ok); [apply preserves_ret|].
  apply preserves_bind; [apply preserves_gets|intros buf].
  apply preserves_bind; [by apply preserves_modify|intros _].
  apply preserves_bind; [|intros ok'].
  { apply preserves_bind; [apply aux_kmalloc|intros ?].
    apply preserves_bind; [by apply preserves_modify|intros _; apply preserves_ret]. }
  destruct (negb ok').
  { apply preserves_bind; [by apply preserves_modify|intros _; apply preserves_ret]. }
  apply preserves_bind; [apply aux_init_mab|intros _].
  apply preserves_bind; [by apply preserves_modify|intros _; apply preserves_ret].
Qed.

Lemma module_init_inv h r s : dpf_module_init (kstate0 h) = Ok (r, s) -> kinv s.
Proof.
  intros Hrun. split; [exact (module_init_wf h r s Hrun)|].
  refine (wp_Ok _ _ _ _ (fun _ => aux) any_stop Hrun (aux_module_init (kstate0 h) _)).
  split; [apply Permutation_refl|done].
Qed.
End events.

(** ** What follows from the invariant *)

Lemma reachable_kinv {L : Linux} s : reachable s -> kinv s.
Proof.
  induction 1 as [h s Hrun|s e s' _ IH Hstep]; [exact (module_init_inv h 0 s Hrun)|].
  exact (kinv_step s e s' IH Hstep).
Qed.

(** C1: in every state the loaded module can reach, by any sequence of writes
    to and reads of its /proc file, timer expirations, work items and changes of
    the machine, the module's arrays have their declared sizes and its fields
    values of their types, the log and the response fit their buffers ([kwf]);
    the live I/O mappings are exactly the non-null entries of [ddr.mmap] (none
    is leaked or unmapped twice); and the timer is queued whenever the monitor
    is meant to run ([timer_ok]). *)
Theorem reachable_invariant {L : Linux} (s : kstate) :
  reachable s ->
  kwf s /\ iomaps s ≡ₚ nonnull (mmap (ddr s)) /\ timer_ok s.
Proof. intros Hr. by destruct (reachable_kinv s Hr) as [Hs [Hm Hk]]. Qed.

(** The module loaded on eight CPUs. *)
Definition loaded_module : kstate := after (dpf_module_init (L := eight_cpus)) (kstate0 hw0).

Lemma loaded_module_eq : dpf_module_init (L := eight_cpus) (kstate0 hw0) = Ok (0, loaded_module).
Proof. vm_compute. reflexivity. Qed.

(** A DDR configuration request: two controllers at [bar]. *)
Definition ddr_config_msg (bar cpu_type num : Z) : list Z :=
  header DPF_MSG_DDR_CONFIG 24 ++ le_bytes 8 bar ++ le_bytes 4 cpu_type ++ le_bytes 4 num.

Definition configured : kstate :=
  after (dpf_proc_write (L := eight_cpus) 0 (ddr_config_msg 4096 DDR_CLIENT 2)) loaded_module.

Lemma configured_reachable : reachable (L := eight_cpus) configured.
Proof.
  apply (reach_step loaded_module (Write 0 (ddr_config_msg 4096 DDR_CLIENT 2)));
    [exact (reach_load hw0 loaded_module loaded_module_eq)|].
  apply (step_write _ _ _ 24); [apply (bool_decide_unpack _); by vm_compute|].
  vm_compute. reflexivity.
Qed.

Lemma reachable_invariant_witness :
  reachable (L := eight_cpus) configured /\ length (iomaps configured) = 2%nat /\
  iomaps configured ≡ₚ nonnull (mmap (ddr configured)).
Proof.
  split; [exact configured_reachable|]. split; [by vm_compute|].
  exact (proj1 (proj2 (reachable_invariant configured configured_reachable))).
Defined.

(** Nothing of the module is left in the kernel. *)
Record released (s : kstate) : Prop := {
  rel_maps : iomaps s = [];
  rel_log : pmu_log_buffer s = None;
  rel_response : proc_buffer s = None;
  rel_entry : proc_entry s = false;
  rel_timer : monitor_timer s = false;
  rel_work : monitor_work s = false;
  rel_running : keep_running s = false }.

(** C2: unloading always completes and gives everything back: from every
    reachable state [dpf_module_exit] returns with no I/O mapping, no log
    buffer, no response buffer, no /proc entry, no queued timer and no queued
    work left. *)
Theorem exit_releases_everything {L : Linux} (s : kstate) :
  reachable s ->
  exists s', dpf_module_exit s = Ok (tt, s') /\ released s'.
Proof.
  intros Hr. destruct (reachable_kinv s Hr) as [Hs [Hm _]].
  unfold dpf_module_exit, hrtimer_cancel, cancel_work_sync.
  rewrite !bind_modify, bind_gets. cbn [pmu_log_buffer set].
  set (s1 := s <| keep_running := false |> <| monitor_timer := false |> <| monitor_work := false |>
               <| proc_entry := false |> <| proc_buffer := None |>).
  set (s2 := s1 <| pmu_log_buffer := None |> <| pmu_log_buffer_size := 0 |>
                <| pmu_log_data_size := 0 |> <| pmu_logging_active := false |>).
  assert (Hs1 : kwf s1) by (apply kwf_no_proc_buffer; kwf_update Hs).
  assert (Hs2 : kwf s2) by (unfold s2; kwf_update Hs1; by constructor).
  destruct (pmu_log_buffer s) as [b|] eqn:Hb.
  - destruct (unmap_all_spec s2 Hs2 Hm) as (s' & Hrun & _ & Hio & _ & d & io & He).
    exists s'. split; [exact Hrun|]. constructor; [exact Hio|by rewrite He..].
  - destruct (unmap_all_spec s1 Hs1 Hm) as (s' & Hrun & _ & Hio & _ & d & io & He).
    exists s'. split; [exact Hrun|]. constructor; [exact Hio|by rewrite He..].
Qed.

Lemma exit_releases_everything_witness :
  length (iomaps configured) = 2%nat /\
  exists s', dpf_module_exit configured = Ok (tt, s') /\ released s'.
Proof.
  split; [by vm_compute|].
  exact (exit_releases_everything configured configured_reachable).
Defined.

(** *** Reading a response in pieces *)

(** Successive reads of at most [counts] bytes from position [pos]: the bytes
    and the final position. *)
Fixpoint read_chunks (counts : list Z) (pos : Z) : K (list Z * Z) :=
  match counts with
  | [] => mret ([], pos)
  | c :: counts' =>
      r ← proc_read c pos;
      let '(_, bytes, pos') := r in
      r' ← read_chunks counts' pos';
      mret (bytes ++ r'.1, r'.2)
  end.

Lemma sumZ_nonneg l : Forall (fun c => 0 <= c) l -> 0 <= sumZ l.
Proof. induction 1; cbn [sumZ]; lia. Qed.

(** One read: the next [min count (size - pos)] bytes. *)
Lemma proc_read_eq s b count pos :
  kwf s -> proc_buffer s = Some b -> hw_copy (machine s) = [] ->
  0 <= count -> 0 <= pos <= proc_buffer_size s ->
  let n := Z.min count (proc_buffer_size s - pos) in
  exists r, proc_read count pos s =
    Ok (r, take (Z.to_nat n) (drop (Z.to_nat pos) b), pos + n, s).
Proof.
  intros Hs Hb Hcp Hc Hp n. destruct (kwf_proc s Hs b Hb) as [Hsz _].
  unfold proc_read, get_state. unfold mbind at 1, ST_bind at 1. rewrite Hb.
  destruct (Z.eqb_spec (proc_buffer_size s) 0) as [H0|H0].
  { exists 0. replace n with 0 by lia. by replace (pos + 0) with pos by lia. }
  destruct (Z.leb_spec (proc_buffer_size s) pos) as [H1|H1].
  { exists 0. replace n with 0 by lia. by replace (pos + 0) with pos by lia. }
  unfold sub_bytes. rewrite (proj2 (Nat.leb_le _ _)) by (unfold zlen in Hsz; lia).
  exists n. unfold mbind, ST_bind, user_copy. by rewrite Hcp.
Qed.

(** A response is delivered whole however it is read: reads of sizes
    [counts], one after the other from position 0, return together the first
    [min (sum of counts) size] bytes of the response, in order and without gap
    or repetition, and change nothing in the module. *)
Theorem proc_read_chunks (s : kstate) (b : list Z) (counts : list Z) :
  kwf s -> proc_buffer s = Some b -> hw_copy (machine s) = [] -> Forall (fun c => 0 <= c) counts ->
  let n := Z.min (sumZ counts) (proc_buffer_size s) in
  read_chunks counts 0 s = Ok (take (Z.to_nat n) b, n, s).
Proof.
  intros Hs Hb Hcp Hc. destruct (kwf_proc s Hs b Hb) as [Hsz _].
  assert (H : forall pos, 0 <= pos <= proc_buffer_size s ->
    let n := Z.min (sumZ counts) (proc_buffer_size s - pos) in
    read_chunks counts pos s = Ok (take (Z.to_nat n) (drop (Z.to_nat pos) b), pos + n, s)).
  { induction Hc as [|c counts Hc Hcs IH]; intros pos Hp.
    - intros n. replace n with 0 by (unfold n; cbn [sumZ]; lia). cbn [read_chunks].
      by rewrite Z.add_0_r.
    - intros n. cbn [read_chunks].
      destruct (proc_read_eq s b c pos Hs Hb Hcp Hc Hp) as [r Hr].
      set (m := Z.min c (proc_buffer_size s - pos)) in *.
      rewrite (bind_Ok _ _ _ _ _ Hr). cbn beta iota.
      assert (Hsum : 0 <= sumZ counts) by by apply sumZ_nonneg.
      erewrite bind_Ok by (apply IH; lia). cbn [fst snd].
      change (sumZ (c :: counts)) with (c + sumZ counts) in n.
      set (k := Z.min (sumZ counts) (proc_buffer_size s - (pos + m))).
      assert (Hn : n = m + k) by lia.
      rewrite Hn, Z2Nat.inj_add, Z2Nat.inj_add by lia. rewrite <- drop_drop, take_take_drop.
      by rewrite Z.add_assoc. }
  specialize (H 0 ltac:(lia)). cbv zeta in *. rewrite Z.sub_0_r in H. exact H.
Qed.

Lemma proc_read_chunks_witness :
  exists b, proc_buffer configured = Some b /\
    read_chunks [5; 0; 100; 3] 0 configured = Ok (take 24 b, 24, configured).
Proof.
  assert (Hb : exists b, proc_buffer configured = Some b) by (vm_compute; by eexists).
  assert (Hn : proc_buffer_size configured = 24) by (vm_compute; reflexivity).
  assert (Hc : hw_copy (machine configured) = []) by (vm_compute; reflexivity).
  destruct Hb as [b Hb]. exists b. split; [exact Hb|].
  pose proof (proc_read_chunks configured b [5; 0; 100; 3] (proj1 (reachable_kinv _ configured_reachable))
    Hb Hc ltac:(repeat constructor; done)) as H.
  cbv zeta in H. rewrite Hn in H. exact H.
Defined.

(** *** A stopped monitor *)

(** The events that user space does not cause by a write. *)
Definition passive (e : kevent) : Prop :=
  match e with Timer | Work _ | Read _ _ => True | Write _ _ | Environment _ => False end.

Inductive ksteps {L : Linux} : kstate -> list kevent -> kstate -> Prop :=
  | ksteps_nil s : ksteps s [] s
  | ksteps_cons s e s1 es s2 : kstep s e s1 -> ksteps s1 es s2 -> ksteps s (e :: es) s2.

(** Everything but the flags of the timer and the work item and the record of
    user copies. *)
Definition same_but_queues (s s' : kstate) : Prop :=
  exists t w h, s' = s <| monitor_timer := t |> <| monitor_work := w |> <| machine := h |> /\
    h <| hw_copy := [] |> = machine s <| hw_copy := [] |>.

Lemma same_but_queues_refl s : same_but_queues s s.
Proof. exists (monitor_timer s), (monitor_work s), (machine s). by destruct s. Qed.

Lemma same_but_queues_trans s1 s2 s3 :
  same_but_queues s1 s2 -> same_but_queues s2 s3 -> same_but_queues s1 s3.
Proof.
  intros (t1 & w1 & h1 & -> & H1) (t2 & w2 & h2 & -> & H2). exists t2, w2, h2.
  split; [done|]. cbn in H2. by rewrite H2.
Qed.

#[export] Instance same_but_queues_preorder : PreOrder same_but_queues.
Proof. split; [exact same_but_queues_refl|exact same_but_queues_trans]. Qed.

Lemma user_copy_queues s r s' : user_copy s = Ok (r, s') -> same_but_queues s s'.
Proof.
  unfold user_copy. destruct (hw_copy (machine s)) as [|b rest] eqn:Hc; intros [= <- <-];
    [apply same_but_queues_refl|].
  exists (monitor_timer s), (monitor_work s), (machine s <| hw_copy := rest |>).
  split; [by destruct s|done].
Qed.

Lemma proc_read_queues count pos s r s' :
  proc_read count pos s = Ok (r, s') -> same_but_queues s s'.
Proof.
  unfold proc_read, get_state. unfold mbind at 1, ST_bind at 1.
  destruct (proc_buffer s) as [buf|]; [|intros [= <- <-]; apply same_but_queues_refl].
  destruct (_ =? 0); [intros [= <- <-]; apply same_but_queues_refl|].
  destruct (_ <=? _); [intros [= <- <-]; apply same_but_queues_refl|].
  destruct (sub_bytes _ _ _); [|done]. unfold mbind, ST_bind.
  destruct (user_copy s) as [[ok s1]|] eqn:Hu; [|done]. apply user_copy_queues in Hu.
  destruct ok; intros [= <- <-]; exact Hu.
Qed.

Lemma stopped_step {L : Linux} s e s' :
  keep_running s = false -> passive e -> kstep s e s' -> same_but_queues s s'.
Proof.
  intros Hk Hp Hstep. destruct Hstep as [| s count pos r s' _ _ Hrun|s restart s' _ Hrun|
    s cpu s' _ Hrun|]; try done.
  - by apply proc_read_queues in Hrun.
  - unfold monitor_callback in Hrun. rewrite bind_gets, Hk in Hrun. injection Hrun as <- <-.
    exists false, (monitor_work s), (machine s). split; [by destruct s|done].
  - unfold monitor_work_func in Hrun. rewrite bind_gets in Hrun. cbn [keep_running set] in Hrun.
    change (keep_running (s <| monitor_work := false |>)) with (keep_running s) in Hrun.
    rewrite Hk in Hrun. injection Hrun as <-.
    exists (monitor_timer s), false, (machine s). split; [by destruct s|done].
Qed.

(** C35: a stopped monitor does nothing: while [keep_running] is false no
    sequence of timer expirations, work items and reads, in whatever order they
    are delivered, changes anything but the queue flags: no MSR is written, no
    counter sampled, no bandit state or log touched, and the monitor stays
    stopped. *)
Theorem stopped_monitor_quiet {L : Linux} (s s' : kstate) (es : list kevent) :
  keep_running s = false -> Forall passive es -> ksteps s es s' -> same_but_queues s s'.
Proof.
  intros Hk Hes Hst. revert Hk Hes.
  induction Hst as [s|s e s1 es s2 Hstep _ IH]; intros Hk Hes; [reflexivity|].
  inversion Hes as [|? ? He Hes']; subst.
  pose proof (stopped_step s e s1 Hk He Hstep) as H1. etransitivity; [exact H1|].
  apply IH; [|done]. by destruct H1 as (t & w & h & -> & _).
Qed.

(** A timer and a work item left in the queues by a stop find the flag cleared. *)
Lemma stopped_run {L : Linux} s :
  keep_running s = false -> monitor_timer s = true -> monitor_work s = true ->
  proc_buffer s = None ->
  ksteps s [Timer; Work 3; Read 8 0] (s <| monitor_timer := false |> <| monitor_work := false |>).
Proof.
  intros Hk Ht Hw Hb. eapply ksteps_cons; [|eapply ksteps_cons; [|eapply ksteps_cons; [|apply ksteps_nil]]].
  - apply (step_timer s false s); [done|]. unfold monitor_callback. by rewrite bind_gets, Hk.
  - apply (step_work (s <| monitor_timer := false |>) 3); [done|].
    unfold monitor_work_func. rewrite bind_gets. cbn. by rewrite Hk.
  - apply (step_read _ 8 0 (0, [], 0)); [done|done|]. unfold proc_read, get_state.
    unfold mbind, ST_bind. cbn. by rewrite Hb.
Qed.

Lemma stopped_monitor_quiet_witness :
  let s := kstate0 hw0 <| monitor_work := true |> <| monitor_timer := true |> in
  exists s', ksteps (L := eight_cpus) s [Timer; Work 3; Read 8 0] s' /\ monitor_timer s' = false /\
    same_but_queues s s'.
Proof.
  intros s. pose proof (stopped_run (L := eight_cpus) s eq_refl eq_refl eq_refl eq_refl) as H.
  eexists. split; [exact H|]. split; [reflexivity|].
  apply (stopped_monitor_quiet (L := eight_cpus) s _ [Timer; Work 3; Read 8 0]);
    [reflexivity|by repeat constructor|exact H].
Defined.

(** *** The write boundary *)

(** The state in which a handler is entered: the previous response is gone. *)
Definition entered (s : kstate) : kstate := s <| proc_buffer := None |> <| proc_buffer_size := 0 |>.

Lemma entered_wf s : kwf s -> kwf (entered s).
Proof. intros Hs. unfold entered. kwf_update Hs. by intros b. Qed.

(** The errors of a write.  A message shorter than a header or longer than
    [MAX_MSG_SIZE] is refused with [-EINVAL] and changes nothing; a message of
    an unknown type is refused with [-EINVAL] after the previous response has
    been dropped; whatever the message and the state, a write that returns
    returns the length of the message or a negative error. *)
Theorem proc_write_errors {L : Linux} (cpu : Z) (msg : list Z) (s : kstate) :
  (zlen msg < 8 \/ MAX_MSG_SIZE < zlen msg -> dpf_proc_write cpu msg s = Ok (- EINVAL, s)) /\
  (forall bs, 8 <= zlen msg <= MAX_MSG_SIZE -> sub_bytes msg 0 4 = Some bs ->
     DPF_MSG_PMU_LOG_READ < le_val bs -> hw_alloc (machine s) = [] -> hw_copy (machine s) = [] ->
     dpf_proc_write cpu msg s = Ok (- EINVAL, entered s)) /\
  (forall r s', dpf_proc_write cpu msg s = Ok (r, s') -> r = zlen msg \/ r < 0).
Proof.
  unfold dpf_proc_write. split; [|split].
  - intros [Hl|Hl]; [by rewrite (proj2 (Z.ltb_lt _ _) Hl)|].
    by rewrite (proj2 (Z.ltb_lt _ _) Hl), orb_true_r.
  - intros bs [H1 H2] Hb Ht Ha Hc. rewrite (proj2 (Z.ltb_ge _ _) H1), (proj2 (Z.ltb_ge _ _) H2).
    cbn [orb]. rewrite bind_modify. unfold mbind, ST_bind, user_copy, kmalloc, req_u32, req_int.
    cbn. rewrite Hc. cbn. rewrite Ha. cbn. rewrite Hc. cbn. rewrite Hb. cbn.
    unfold dispatch. repeat match goal with |- context [?t =? ?c] =>
      destruct (Z.eqb_spec t c) as [He|_]; [exfalso; rewrite He in Ht; done|] end. done.
  - intros r s'. destruct (_ || _); [intros [= <- <-]; by right|]. rewrite bind_modify.
    set (s1 := s <| proc_buffer := None |> <| proc_buffer_size := 0 |>). clearbody s1.
    intros Hrun. eapply (wp_Ok _ _ _ _ (fun r _ => r = zlen msg \/ r < 0)); [exact Hrun|]. clear.
    do 3 (apply wp_bind_any; intros [] ?; cbn [negb]; [|apply wp_ret; by right]).
    do 2 (apply wp_bind_any; intros ? ?). apply wp_ret.
    destruct (Z.ltb_spec a0 0); [by right|by left].
Qed.

Lemma proc_write_errors_witness :
  dpf_proc_write (L := eight_cpus) 0 [1; 2; 3] (kstate0 hw0) = Ok (- EINVAL, kstate0 hw0) /\
  exists s', dpf_proc_write (L := eight_cpus) 0 (header 99 8) (kstate0 hw0) = Ok (- EINVAL, s').
Proof.
  split; [exact (proj1 (proc_write_errors (L := eight_cpus) 0 [1; 2; 3] (kstate0 hw0))
    (or_introl eq_refl))|].
  eexists. exact (proj1 (proj2 (proc_write_errors (L := eight_cpus) 0 (header 99 8) (kstate0 hw0)))
    (le_bytes 4 99) ltac:(done) eq_refl eq_refl eq_refl eq_refl).
Defined.
