(* ===== verification/UserApi.v ===== *)
(** * The client library of the kernel module ([user_api.c])

    One definition per function: the request it builds, the system calls it
    makes on [/proc/dynamicPrefetch], the checks on their results and what it
    hands to its caller.  The system calls run the module's own code
    ([KDpf.dpf_proc_write], [KDpf.proc_read]), so the theorems are about client
    and module together.  The log lines are not modelled.  The single-precision
    arithmetic of [kernel_tuning_control] is the Standard Library's executable
    IEEE 754 specification. *)

From S2P Require Import Prelude Floats Bitfields KState KCommon KPmuDdr KMab KApi KLog KDpf KInv.

(** ** State *)

(** The process and the module it talks to. *)
Record client := {
  kern : kstate;
  run_cpu : Z             (** the CPU its system calls run on *);
  privileged : bool       (** whether it may open the file for writing *);
  open_fds : Z            (** open file descriptors of the device *);
  heap_ok : list bool     (** whether the next [malloc]s succeed *);
  uninit : nat -> Z       (** what uninitialised memory holds *);
  time_old : Z            (** the static variable of [kernel_log_ddr_bw] *);
  clock_ms : Z            (** what [get_time_ms] answers *) }.

#[export] Instance client_settable : Settable client := fun r =>
  {| kern := kern r; run_cpu := run_cpu r; privileged := privileged r; open_fds := open_fds r;
     heap_ok := heap_ok r; uninit := uninit r; time_old := time_old r; clock_ms := clock_ms r |}.

Abbreviation U := (ST client).

(** Code of the module, run by a system call. *)
Definition in_kernel {A} (m : K A) : U A := fun c =>
  match m (kern c) with
  | Ok (a, s) => Ok (a, c <| kern := s |>)
  | Stop e => Stop e
  end.

Definition malloc : U bool := fun c =>
  match heap_ok c with
  | [] => Ok (true, c)
  | b :: rest => Ok (b, c <| heap_ok := rest |>)
  end.

(** [n] bytes of uninitialised memory. *)
Definition uninit_bytes (n : nat) : U (list Z) :=
  gets (fun c => map (fun i => u8 (uninit c i)) (seq 0 n)).

(** ** System calls on the device *)

Definition open_device : U bool := fun c =>
  if proc_entry (kern c) && privileged c then Ok (true, c <| open_fds ::= Z.succ |>)
  else Ok (false, c).

Definition close_device : U unit := modify (fun c => c <| open_fds ::= Z.pred |>).

Section api.
Context {L : Linux}.

Definition write_device (req : list Z) : U Z :=
  cpu ← gets run_cpu;
  in_kernel (dpf_proc_write cpu req).

(** [read(fd, buf, n)] at file position [pos] into uninitialised memory: the
    return value, what [buf] holds, the new position. *)
Definition read_device (n pos : Z) : U (Z * list Z * Z) :=
  r ← in_kernel (proc_read n pos);
  let '(ret, bytes, pos') := r in
  junk ← uninit_bytes (Z.to_nat n);
  mret (ret, bytes ++ drop (length bytes) junk, pos').

(** The exchange all functions but the log reader make: open, write the
    request, read [n] bytes of response, close.  [None] is an early
    [return -1]; [closes] says whether the function closes the device there.
    [exact] is the test [ret != sizeof(resp)]. *)
Definition transact (closes exact : bool) (req : list Z) (n : Z) : U (option (list Z)) :=
  ok ← open_device;
  if negb ok then mret None else
  ret ← write_device req;
  if ret <? 0 then (if closes then close_device else mret tt) ;; mret None else
  r ← read_device n 0;
  let '(ret, resp, _) := r in
  if (ret <? 0) || (exact && negb (ret =? n))
  then (if closes then close_device else mret tt) ;; mret None
  else close_device ;; mret (Some resp).

(** [return 0] or [return -1]. *)
Definition status (r : option (list Z)) : Z := if bool_decide (is_Some r) then 0 else -1.

(** ** The functions *)

Definition kernel_pmu_log_start (buffer_size reset : Z) : U Z :=
  r ← transact true false (header DPF_MSG_PMU_LOG_CONTROL 16 ++ le_bytes 4 buffer_size ++
                           le_bytes 4 (u32 reset)) 20;
  mret (status r).

Definition kernel_pmu_log_stop : U Z :=
  r ← transact true false (header DPF_MSG_PMU_LOG_STOP 8) 12;
  mret (status r).

(** The members of the response to a log read. *)
Definition resp_data_size (resp : list Z) : Z := le_val (take 8 (drop 8 resp)).

(** [kernel_pmu_log_read(buffer, max_bytes, &bytes_read)] for a [buffer] of
    [capacity] bytes: the return value, [*bytes_read] and the bytes copied. *)
Definition kernel_pmu_log_read (capacity max_bytes : Z) : U (Z * Z * list Z) :=
  ok ← open_device;
  if negb ok then mret (-1, 0, []) else
  ret ← write_device (header DPF_MSG_PMU_LOG_READ 12 ++ le_bytes 4 (u32 max_bytes));
  if ret <? 0 then close_device ;; mret (-1, 0, []) else
  ok ← malloc;
  if negb ok then close_device ;; mret (-1, 0, []) else
  r ← read_device 16 0;
  let '(ret, resp, pos) := r in
  if ret <? 0 then close_device ;; mret (-1, 0, []) else
  let data_size := resp_data_size resp in
  ok ← malloc;
  if negb ok then close_device ;; mret (-1, 0, []) else
  r ← read_device data_size pos;
  let '(ret, data, _) := r in
  if ret <? 0 then close_device ;; mret (-1, 0, []) else
  if capacity <? data_size then stop_with OutOfBounds else
  close_device ;;
  mret (0, data_size, data).

Definition kernel_mode_init : U Z :=
  r ← transact true false (header DPF_MSG_INIT 8) 12;
  mret (status r).

Definition kernel_core_range (start end_ : Z) : U Z :=
  r ← transact false false (header DPF_MSG_CORE_RANGE 16 ++ le_bytes 4 start ++ le_bytes 4 end_) 20;
  mret (status r).

(** [core_priority] is the caller's array. *)
Definition kernel_set_core_weights (count : Z) (core_priority : list Z) : U Z :=
  if count <=? 0 then mret (-1) else
  let req_size := 12 + count * 4 in
  ok1 ← malloc;
  ok2 ← malloc;
  if negb ok1 || negb ok2 then mret (-1) else
  if zlen core_priority <? count then stop_with OutOfBounds else
  r ← transact false false
        (header DPF_MSG_CORE_WEIGHT (u32 req_size) ++ le_bytes 4 count ++
         mjoin (map (fun w => le_bytes 4 (u32 w)) (take (Z.to_nat count) core_priority)))
        req_size;
  mret (status r).

Definition kernel_set_ddr_bandwidth (bandwidth : Z) : U Z :=
  r ← transact true false (header DPF_MSG_DDRBW_SET 12 ++ le_bytes 4 bandwidth) 12;
  mret (status r).

Definition kernel_tuning_control (tuning_status tunealg : Z) (aggr_factor : spec_float) : U Z :=
  if SFltb aggr_factor (f32_of_Z 0) || SFltb (f32_of_Z 5) aggr_factor then mret (-1) else
  match f32_to_u32 (f32_mul aggr_factor (f32_of_Z 10)) with
  | None => stop_with BadConversion
  | Some aggr_scaled =>
      r ← transact false false
            (header DPF_MSG_TUNING 20 ++ le_bytes 4 tuning_status ++ le_bytes 4 tunealg ++
             le_bytes 4 aggr_scaled) 20;
      mret (status r)
  end.

(** [n] 64-bit members of a response, after its header. *)
Definition resp_words (n : nat) (resp : list Z) : list Z := words_of_bytes n (drop 8 resp).

(** The return value and [msr_values]. *)
Definition kernel_msr_read (core_id : Z) : U (Z * list Z) :=
  r ← transact true true (header DPF_MSG_MSR_READ 12 ++ le_bytes 4 core_id) 64;
  mret (status r, from_option (resp_words 7) [] r).

Definition kernel_pmu_read (core_id : Z) : U (Z * list Z) :=
  r ← transact true true (header DPF_MSG_PMU_READ 12 ++ le_bytes 4 core_id) 72;
  mret (status r, from_option (resp_words 8) [] r).

Definition kernel_ddr_bw_read : U (Z * list Z) :=
  r ← transact true true (header DPF_MSG_DDR_BW_READ 8) 24;
  mret (status r, from_option (resp_words 2) [] r).

Definition kernel_log_msr_values (core_id : Z) : U Z :=
  r ← kernel_msr_read core_id;
  if r.1 <? 0 then mret (-1) else mret 0.

Definition kernel_log_pmu_values (core_id : Z) : U Z :=
  r ← kernel_pmu_read core_id;
  if r.1 <? 0 then mret (-1) else mret 0.

Definition kernel_log_ddr_bw : U Z :=
  r ← kernel_ddr_bw_read;
  if r.1 <? 0 then mret (-1) else
  t ← gets time_old;
  if t =? 0 then
    modify (fun c => c <| time_old := clock_ms c |>) ;;
    mret 0
  else
    modify (fun c => c <| time_old := clock_ms c |>) ;;
    mret 0.

Definition kernel_set_ddr_config (d : ddr_s) : U Z :=
  if ddr_interface_type d =? DDR_NONE then mret (-1) else
  r ← transact true false
        (header DPF_MSG_DDR_CONFIG 24 ++ le_bytes 8 (bar_address d) ++
         le_bytes 4 (u32 (ddr_interface_type d)) ++ le_bytes 4 (u32 (ddr_num_controllers d))) 24;
  mret (status r).
End api.

(** ** Client and module together *)

(** A client that may use the device of a loaded module, with memory to spare. *)
Record ready (c : client) : Prop := {
  rd_wf : kwf (kern c);
  rd_entry : proc_entry (kern c) = true;
  rd_priv : privileged c = true;
  rd_copy : hw_copy (machine (kern c)) = [];
  rd_alloc : hw_alloc (machine (kern c)) = [];
  rd_heap : heap_ok c = [] }.

Lemma ready_kern c s h :
  ready c -> kwf s -> proc_entry s = true -> machine s = h ->
  hw_copy h = hw_copy (machine (kern c)) -> hw_alloc h = hw_alloc (machine (kern c)) ->
  ready (c <| kern := s |>).
Proof. intros [] Hs He <- Hc Ha. constructor; cbn; congruence. Qed.

Section client_lemmas.
Context {L : Linux}.

Lemma open_device_eq c : ready c -> open_device c = Ok (true, c <| open_fds ::= Z.succ |>).
Proof. intros []. unfold open_device. by rewrite rd_entry0, rd_priv0. Qed.

Lemma write_device_eq c type payload :
  ready c -> in_u 32 type -> 4 <= zlen payload <= 1020 ->
  let req := le_bytes 4 type ++ payload in
  write_device req c =
    match dispatch (run_cpu c) type req (entered (kern c)) with
    | Ok (r, s') => Ok (if r <? 0 then r else zlen req, c <| kern := s' |>)
    | Stop e => Stop e
    end.
Proof.
  intros [] Ht Hlen req. unfold write_device. rewrite bind_gets. unfold in_kernel, dpf_proc_write.
  assert (Hz : zlen req = 4 + zlen payload).
  { unfold req, zlen. rewrite length_app, length_le_bytes. lia. }
  rewrite Hz. unfold MAX_MSG_SIZE.
  rewrite (proj2 (Z.ltb_ge _ 8)), (proj2 (Z.ltb_ge 1024 _)) by lia. cbn [orb].
  rewrite bind_modify. fold (entered (kern c)).
  assert (Hcp : user_copy (entered (kern c)) = Ok (true, entered (kern c)))
    by (unfold user_copy; cbn; by rewrite rd_copy0).
  assert (Hal : kmalloc (entered (kern c)) = Ok (true, entered (kern c)))
    by (unfold kmalloc; cbn; by rewrite rd_alloc0).
  rewrite (bind_Ok _ _ _ _ _ Hcp). cbn [negb]. rewrite (bind_Ok _ _ _ _ _ Hal). cbn [negb].
  rewrite (bind_Ok _ _ _ _ _ Hcp). cbn [negb].
  erewrite (bind_Ok (req_u32 req 0)) by (by apply (req_u32_at _ _ [] _ payload)).
  unfold mbind, ST_bind. by destruct (dispatch _ _ _ _) as [[r s']|].
Qed.

(** A read of a whole response of [n] bytes. *)
Lemma read_device_eq c b n pos :
  ready c -> proc_buffer (kern c) = Some b -> 0 <= n -> 0 <= pos -> 
  proc_buffer_size (kern c) = zlen b -> pos + n <= zlen b -> 0 < n ->
  read_device n pos c = Ok (n, take (Z.to_nat n) (drop (Z.to_nat pos) b), pos + n, c).
Proof.
  intros [] Hb Hn Hp Hsz Hle Hn0. unfold read_device.
  assert (Hrd : proc_read n pos (kern c) =
    Ok (n, take (Z.to_nat n) (drop (Z.to_nat pos) b), pos + n, kern c)).
  { unfold proc_read, get_state. unfold mbind at 1, ST_bind at 1. rewrite Hb, Hsz.
    rewrite (proj2 (Z.eqb_neq _ 0)), (proj2 (Z.leb_gt _ pos)) by lia.
    rewrite Z.min_l by lia. unfold sub_bytes, zlen in *.
    rewrite (proj2 (Nat.leb_le _ _)) by lia. unfold mbind, ST_bind, user_copy. by rewrite rd_copy0. }
  unfold in_kernel. erewrite bind_Ok by (by rewrite Hrd). cbn beta iota.
  unfold uninit_bytes. rewrite bind_gets. rewrite (drop_ge (map _ _)), app_nil_r.
  - by destruct c.
  - rewrite length_map, length_seq, length_take, length_drop. unfold zlen in *. lia.
Qed.

(** The exchange when the handler succeeds and answers [n] bytes. *)
Lemma transact_ok closes exact c type payload n s' b :
  ready c -> in_u 32 type -> 4 <= zlen payload <= 1020 -> 0 < n ->
  dispatch (run_cpu c) type (le_bytes 4 type ++ payload) (entered (kern c)) = Ok (0, s') ->
  ready (c <| kern := s' |>) -> proc_buffer s' = Some b -> proc_buffer_size s' = zlen b ->
  zlen b = n ->
  transact closes exact (le_bytes 4 type ++ payload) n c = Ok (Some b, c <| kern := s' |>).
Proof.
  intros Hc Ht Hl Hn Hd Hc' Hb Hsz Hbn. unfold transact.
  rewrite (bind_Ok _ _ _ _ _ (open_device_eq c Hc)). cbn [negb].
  set (c1 := c <| open_fds ::= Z.succ |>).
  assert (Hc1 : ready c1) by (destruct Hc; by constructor).
  erewrite bind_Ok by (rewrite (write_device_eq c1 type payload Hc1 Ht Hl);
    change (run_cpu c1) with (run_cpu c); change (kern c1) with (kern c); rewrite Hd; reflexivity).
  cbn [Z.ltb Z.compare].
  assert (Hz : 0 <= zlen (le_bytes 4 type ++ payload)) by (unfold zlen; lia).
  rewrite (proj2 (Z.ltb_ge _ 0) Hz).
  assert (Hc2 : ready (c1 <| kern := s' |>)) by (destruct Hc'; by constructor).
  erewrite bind_Ok by (apply (read_device_eq _ b n 0 Hc2); cbn; try done; lia).
  cbn beta iota. rewrite (proj2 (Z.ltb_ge n 0)), Z.eqb_refl, andb_false_r by lia. cbn [orb].
  unfold close_device. rewrite bind_modify. rewrite drop_0, take_ge by (unfold zlen in Hbn; lia).
  unfold c1. destruct c; cbn. unfold set; cbn. by rewrite Z.pred_succ.
Qed.

(** The exchange when the handler refuses the request. *)
Lemma transact_refused closes exact c type payload n r s' :
  ready c -> in_u 32 type -> 4 <= zlen payload <= 1020 -> r < 0 ->
  dispatch (run_cpu c) type (le_bytes 4 type ++ payload) (entered (kern c)) = Ok (r, s') ->
  transact closes exact (le_bytes 4 type ++ payload) n c =
    Ok (None, c <| kern := s' |> <| open_fds := open_fds c + b2z (negb closes) |>).
Proof.
  intros Hc Ht Hl Hr Hd. unfold transact.
  rewrite (bind_Ok _ _ _ _ _ (open_device_eq c Hc)). cbn [negb].
  set (c1 := c <| open_fds ::= Z.succ |>).
  assert (Hc1 : ready c1) by (destruct Hc; by constructor).
  erewrite bind_Ok by (rewrite (write_device_eq c1 type payload Hc1 Ht Hl);
    change (run_cpu c1) with (run_cpu c); change (kern c1) with (kern c); rewrite Hd; reflexivity).
  rewrite (proj2 (Z.ltb_lt r 0) Hr). rewrite (proj2 (Z.ltb_lt r 0) Hr).
  destruct closes; cbn [negb b2z].
  - unfold close_device. rewrite bind_modify. unfold c1. destruct c; cbn. unfold set; cbn.
    by rewrite Z.pred_succ, Z.add_0_r.
  - unfold c1. destruct c; cbn. unfold set; cbn. done.
Qed.
End client_lemmas.

(** ** Reading a core's MSR table *)

Section msr_read.
Context {L : Linux}.

Definition msr_read_msg (core_id : Z) : list Z := header DPF_MSG_MSR_READ 12 ++ le_bytes 4 core_id.

(** The table a request returns: the cached one, or a fresh one when the cache
    looks empty. *)
Definition msr_answer (s : kstate) (cpu : Z) (c : core_state_s) : core_state_s :=
  if default 0 (aget (pf_msr c) MSR_1320_INDEX) =? 0
  then c <| pf_msr := cpu_words (machine s) cpu |> else c.

Lemma msr_answer_len s cpu c : core_wf c -> length (pf_msr (msr_answer s cpu c)) = 7%nat.
Proof.
  intros Hc. unfold msr_answer. destruct (_ =? 0); [done|].
  pose proof (cwf_msr c Hc) as H. unfold zlen, NR_OF_MSR in H. lia.
Qed.

Lemma msr_answer_u64 s cpu c : core_wf c -> Forall (in_u 64) (pf_msr (msr_answer s cpu c)).
Proof.
  intros Hc. unfold msr_answer. destruct (_ =? 0); [|apply (cwf_msr_u64 c Hc)].
  change (Forall (in_u 64) (cpu_words (machine s) cpu)). unfold cpu_words.
  apply Forall_map, Forall_forall. intros a _. apply u64_range.
Qed.

Lemma api_msr_read_eq cpu j s :
  kwf s -> in_u 32 j -> hw_alloc (machine s) = [] ->
  api_msr_read cpu (msr_read_msg j) s =
    match aget (corestate s) j with
    | Some c =>
        if core_disabled c =? 0 then
          let c' := msr_answer s cpu c in
          Ok (0, s <| corestate := aset (corestate s) j c' |>
                   <| proc_buffer := Some (header DPF_MSG_MSR_READ 64 ++ words_bytes (pf_msr c')) |>
                   <| proc_buffer_size := 64 |>)
        else Ok (- EINVAL, s)
    | None => Ok (- EINVAL, s)
    end.
Proof.
  intros Hs Hj Hal. unfold api_msr_read.
  rewrite (bind_Ok _ _ _ _ _ (req_u32_at (msr_read_msg j) 8 (header DPF_MSG_MSR_READ 12) j [] s
    eq_refl eq_refl Hj)).
  pose proof (kwf_cores s Hs) as Hlen. destruct Hj as [Hj0 _].
  destruct (Z.leb_spec MAX_NUM_CORES j) as [Hge|Hlt].
  { destruct (aget (corestate s) j) eqn:Hg; [|done]. apply aget_Some_range in Hg. lia. }
  destruct (aget_is_Some (corestate s) j) as [c Hc]; [lia|]. rewrite Hc.
  rewrite (bind_Ok _ _ _ _ _ (core_at_Some _ _ _ Hc)).
  destruct (core_disabled c =? 0); cbn [negb]; [|done].
  assert (Hcw : core_wf c) by by apply (Forall_aget _ _ _ _ (kwf_core s Hs) Hc).
  pose proof (msr_answer_len s cpu c Hcw) as H7.
  rewrite (bind_Ok _ _ _ _ _ (kmalloc_eq s)). unfold alloc_ok, alloc_next. rewrite Hal. cbn [negb].
  destruct (aget_is_Some (pf_msr c) MSR_1320_INDEX) as [v Hv];
    [by rewrite (cwf_msr c Hcw)|].
  rewrite (bind_Ok _ _ _ _ _ (read_Some _ _ _ _ Hv)).
  assert (Hz : zlen (header DPF_MSG_MSR_READ 64 ++ words_bytes (pf_msr (msr_answer s cpu c))) = 64).
  { unfold zlen, words_bytes. rewrite length_app, length_words_bytes, H7. done. }
  cbv zeta. revert H7 Hz. unfold msr_answer. rewrite Hv. change (default 0 (Some v)) with v.
  destruct (v =? 0) eqn:Hv0; intros H7 Hz.
  - erewrite bind_Ok by (erewrite bind_Ok by (by apply msr_load_eq); reflexivity).
    set (ans := c <| pf_msr := cpu_words (machine s) cpu |>) in *.
    assert (Ha : aget (corestate (s <| corestate := aset (corestate s) j ans |>)) j = Some ans)
      by (cbn -[aget aset]; apply aget_aset_eq; lia).
    rewrite (bind_Ok _ _ _ _ _ (core_at_Some _ _ _ Ha)).
    unfold respond. rewrite bind_modify. unfold mret, ST_ret. by rewrite Hz.
  - erewrite bind_Ok by reflexivity. rewrite (bind_Ok _ _ _ _ _ (core_at_Some _ _ _ Hc)).
    unfold respond. rewrite bind_modify, Hz, aset_id by done. by destruct s.
Qed.
End msr_read.

(** C5: what the client reads is what the module holds.  For an enabled core
    [kernel_msr_read] returns 0 and exactly the seven words of the core's MSR
    table in the module's state after the call, every bit of them, and leaves no
    file open; the table itself is the cached one, refreshed from the calling
    CPU only when its first word was zero.  For a disabled or unknown core it
    returns -1 and the module drops the old response and changes nothing else. *)
Theorem client_msr_read {L : Linux} (c : client) (j : Z) :
  ready c -> in_u 32 j ->
  match aget (corestate (kern c)) j with
  | Some ci =>
      if core_disabled ci =? 0 then
        exists s', kernel_msr_read j c =
            Ok (0, pf_msr (msr_answer (kern c) (run_cpu c) ci), c <| kern := s' |>) /\
          corestate s' = aset (corestate (kern c)) j (msr_answer (kern c) (run_cpu c) ci)
      else kernel_msr_read j c = Ok (-1, [], c <| kern := entered (kern c) |>)
  | None => kernel_msr_read j c = Ok (-1, [], c <| kern := entered (kern c) |>)
  end.
Proof.
  intros Hc Hj. pose proof (entered_wf _ (rd_wf c Hc)) as Hs.
  assert (Hmsg : header DPF_MSG_MSR_READ 12 ++ le_bytes 4 j =
    le_bytes 4 DPF_MSG_MSR_READ ++ le_bytes 4 12 ++ le_bytes 4 j) by done.
  pose proof (api_msr_read_eq (run_cpu c) j (entered (kern c)) Hs Hj (rd_alloc c Hc)) as Hrun.
  change (corestate (entered (kern c))) with (corestate (kern c)) in Hrun.
  unfold kernel_msr_read. rewrite Hmsg.
  assert (Href : api_msr_read (run_cpu c) (msr_read_msg j) (entered (kern c)) =
      Ok (- EINVAL, entered (kern c)) ->
    (r ← transact true true (le_bytes 4 DPF_MSG_MSR_READ ++ le_bytes 4 12 ++ le_bytes 4 j) 64;
     mret (status r, from_option (resp_words 7) [] r)) c = Ok (-1, [], c <| kern := entered (kern c) |>)).
  { intros Hr. erewrite bind_Ok by (apply transact_refused with (r := - EINVAL); [done..|exact Hr]).
    cbn. unfold set; cbn. by rewrite Z.add_0_r. }
  destruct (aget (corestate (kern c)) j) as [ci|] eqn:Hci; [|by apply Href].
  destruct (core_disabled ci =? 0); [|by apply Href]. clear Href. cbv zeta in Hrun.
  change (msr_answer (entered (kern c))) with (msr_answer (kern c)) in Hrun.
  set (ans := msr_answer (kern c) (run_cpu c) ci) in *.
  assert (Hcw : core_wf ci) by by apply (Forall_aget _ _ _ _ (kwf_core _ (rd_wf c Hc)) Hci).
  pose proof (msr_answer_len (kern c) (run_cpu c) ci Hcw) as H7. fold ans in H7.
  pose proof (msr_answer_u64 (kern c) (run_cpu c) ci Hcw) as H64. fold ans in H64.
  match type of Hrun with _ = Ok (0, ?st) => set (s' := st) in Hrun end. exists s'.
  assert (Hs' : kwf s').
  { eapply (wp_Ok _ _ _ _ (fun _ => kwf) any_stop); [exact Hrun|].
    by apply preserves_api_msr_read. }
  split; [|done].
  erewrite bind_Ok; [| apply (transact_ok true true c DPF_MSG_MSR_READ _ 64 s'
    (header DPF_MSG_MSR_READ 64 ++ words_bytes (pf_msr ans)) Hc); try done].
  - cbn [status from_option]. unfold mret, ST_ret, resp_words. f_equal. f_equal. f_equal.
    pose proof (words_of_words_bytes (pf_msr ans) [] H64) as Hw. rewrite H7, app_nil_r in Hw. exact Hw.
  - exact (ready_kern c s' _ Hc Hs' (rd_entry c Hc) eq_refl eq_refl eq_refl).
  - cbn -[header words_bytes]. unfold zlen, words_bytes. by rewrite length_app, length_words_bytes, H7.
  - unfold zlen, words_bytes. by rewrite length_app, length_words_bytes, H7.
Qed.

(** A client of a module with core 2 enabled. *)
Definition example_client : client :=
  {| kern := kstate0 hw0 <| proc_entry := true |>
       <| corestate := aset (replicate 512 (core_zero <| core_disabled := 1 |>)) 2
            (core_zero <| pf_msr := [11; 12; 13; 14; 15; 16; 2 ^ 63] |>) |>;
     run_cpu := 1; privileged := true; open_fds := 0; heap_ok := []; uninit := fun _ => 170;
     time_old := 0; clock_ms := 5 |}.

Lemma example_client_ready : ready example_client.
Proof. constructor; try done. kwf_compute. Qed.

Lemma client_msr_read_witness :
  (exists s', kernel_msr_read (L := eight_cpus) 2 example_client =
     Ok (0, [11; 12; 13; 14; 15; 16; 2 ^ 63], example_client <| kern := s' |>)) /\
  kernel_msr_read (L := eight_cpus) 3 example_client =
    Ok (-1, [], example_client <| kern := entered (kern example_client) |>).
Proof.
  split.
  - pose proof (client_msr_read (L := eight_cpus) example_client 2 example_client_ready ltac:(done)) as H.
    assert (Ha : aget (corestate (kern example_client)) 2 =
      Some (core_zero <| pf_msr := [11; 12; 13; 14; 15; 16; 2 ^ 63] |>)) by (vm_compute; reflexivity).
    rewrite Ha in H. destruct H as (s' & Hrun & _). exists s'. exact Hrun.
  - pose proof (client_msr_read (L := eight_cpus) example_client 3 example_client_ready ltac:(done)) as H.
    assert (Ha : aget (corestate (kern example_client)) 3 = Some (core_zero <| core_disabled := 1 |>))
      by (vm_compute; reflexivity).
    rewrite Ha in H. exact H.
Defined.

(** ** Reading the log *)

Lemma le_bytes_8 v : in_u 64 v -> le_val (le_bytes 8 v) = v.
Proof. intros Hv. rewrite le_val_bytes. by apply Z.mod_small. Qed.

Lemma malloc_eq c : ready c -> malloc c = Ok (true, c).
Proof. intros Hc. unfold malloc. by rewrite (rd_heap c Hc). Qed.

Section log_read.
Context {L : Linux}.

(** The second half of [kernel_pmu_log_read]: taking the module's response. *)
Definition log_reply (cap : Z) : U (Z * Z * list Z) :=
  r ← read_device 16 0;
  let '(ret, resp, pos) := r in
  if ret <? 0 then close_device ;; mret (-1, 0, []) else
  let data_size := resp_data_size resp in
  ok ← malloc;
  if negb ok then close_device ;; mret (-1, 0, []) else
  r ← read_device data_size pos;
  let '(ret, data, _) := r in
  if ret <? 0 then close_device ;; mret (-1, 0, []) else
  if cap <? data_size then stop_with OutOfBounds else
  close_device ;;
  mret (0, data_size, data).

Lemma log_response c cap data t :
  ready c -> zlen data <= cap -> zlen data < 2 ^ 32 ->
  proc_buffer (kern c) = Some (header DPF_MSG_PMU_LOG_READ t ++ le_bytes 8 (zlen data) ++ data) ->
  proc_buffer_size (kern c) = 16 + zlen data -> 0 < zlen data ->
  log_reply cap c = Ok (0, zlen data, data, c <| open_fds ::= Z.pred |>).
Proof.
  intros Hc Hcap H32 Hb Hsz Hpos. unfold log_reply. set (b := header _ t ++ _) in *.
  assert (Hlen : zlen b = 16 + zlen data).
  { unfold b, zlen, header. rewrite !length_app, !length_le_bytes. lia. }
  erewrite bind_Ok by (apply (read_device_eq c b 16 0 Hc Hb); lia). cbn beta iota.
  change (16 <? 0) with false. cbv iota zeta. rewrite drop_0.
  assert (Hds : resp_data_size (take (Z.to_nat 16) b) = zlen data).
  { unfold resp_data_size, b.
    change (Z.to_nat 16) with 16%nat. unfold header. rewrite <- !app_assoc.
    change 16%nat with (length (le_bytes 4 DPF_MSG_PMU_LOG_READ ++ le_bytes 4 t ++ le_bytes 8 (zlen data))).
    rewrite !app_assoc, take_app_length. rewrite <- !app_assoc.
    rewrite app_assoc, drop_app_length' by done. rewrite take_ge by (by rewrite length_le_bytes).
    apply le_bytes_8. unfold in_u. lia. }
  rewrite Hds, (bind_Ok _ _ _ _ _ (malloc_eq c Hc)). cbn [negb].
  erewrite bind_Ok by (apply (read_device_eq c b (zlen data) (0 + 16) Hc Hb); lia). cbn beta iota.
  rewrite (proj2 (Z.ltb_ge (zlen data) 0)), (proj2 (Z.ltb_ge cap _)) by lia.
  unfold close_device. rewrite bind_modify. unfold mret, ST_ret. do 3 f_equal.
  unfold b. rewrite app_assoc, drop_app_length' by done.
  apply take_ge. unfold zlen. lia.
Qed.

(** An empty log: the second read finds nothing left. *)
Lemma log_response_empty c cap t :
  ready c -> 0 <= cap -> proc_buffer (kern c) = Some (header DPF_MSG_PMU_LOG_READ t ++ le_bytes 8 0) ->
  proc_buffer_size (kern c) = 16 ->
  log_reply cap c = Ok (0, 0, [], c <| open_fds ::= Z.pred |>).
Proof.
  intros Hc Hcap Hb Hsz.
  assert (R1 : read_device 16 0 c = Ok (16, header DPF_MSG_PMU_LOG_READ t ++ le_bytes 8 0, 16, c)).
  { by rewrite (read_device_eq c _ 16 0 Hc Hb) by done. }
  assert (R2 : read_device 0 16 c = Ok (0, [], 16, c)).
  { unfold read_device, in_kernel, proc_read, get_state, mbind, ST_bind. rewrite Hb, Hsz.
    cbn -[header le_bytes]. by destruct c. }
  unfold log_reply. rewrite (bind_Ok _ _ _ _ _ R1). cbn beta iota. change (16 <? 0) with false. cbv iota zeta.
  change (resp_data_size (header DPF_MSG_PMU_LOG_READ t ++ le_bytes 8 0)) with 0.
  rewrite (bind_Ok _ _ _ _ _ (malloc_eq _ Hc)). cbn [negb].
  rewrite (bind_Ok _ _ _ _ _ R2). cbn beta iota. change (0 <? 0) with false. cbv iota.
  by rewrite (proj2 (Z.ltb_ge cap 0) Hcap).
Qed.

Lemma dispatch_log_read cpu msg : dispatch cpu DPF_MSG_PMU_LOG_READ msg = api_pmu_log_read msg.
Proof. done. Qed.

(** The first half: the request, from a client about to open the device. *)
Lemma log_request c capacity max_bytes s' :
  ready c -> in_u 32 max_bytes ->
  api_pmu_log_read (log_read_msg max_bytes) (entered (kern c)) = Ok (0, s') ->
  ready (c <| open_fds ::= Z.succ |> <| kern := s' |>) ->
  kernel_pmu_log_read capacity max_bytes c = log_reply capacity (c <| open_fds ::= Z.succ |> <| kern := s' |>).
Proof.
  intros Hc Hm Hrun Hc2. set (c1 := c <| open_fds ::= Z.succ |>) in *.
  assert (Hc1 : ready c1) by (destruct Hc; by constructor).
  unfold kernel_pmu_log_read. rewrite (bind_Ok _ _ _ _ _ (open_device_eq c Hc)). cbn [negb]. fold c1.
  rewrite (bind_Ok _ _ _ 12 (c1 <| kern := s' |>)).
  { change (12 <? 0) with false. cbv iota. by rewrite (bind_Ok _ _ _ _ _ (malloc_eq _ Hc2)). }
  rewrite (u32_small max_bytes Hm).
  change (header DPF_MSG_PMU_LOG_READ 12 ++ le_bytes 4 max_bytes) with
    (le_bytes 4 DPF_MSG_PMU_LOG_READ ++ le_bytes 4 12 ++ le_bytes 4 max_bytes).
  rewrite (write_device_eq c1 DPF_MSG_PMU_LOG_READ _ Hc1)
    by (done || (repeat apply Forall_app_2; apply le_bytes_range)).
  rewrite dispatch_log_read. change (kern c1) with (kern c).
  change (le_bytes 4 DPF_MSG_PMU_LOG_READ ++ _) with (log_read_msg max_bytes). by rewrite Hrun.
Qed.

(** The state in which the module leaves a log read: only the response and
    the machine have changed. *)
Lemma ready_after_log_read c b n :
  ready c -> kwf (entered (kern c) <| proc_buffer := Some b |> <| proc_buffer_size := n |>) ->
  ready (c <| open_fds ::= Z.succ |>
           <| kern := entered (kern c) <| proc_buffer := Some b |> <| proc_buffer_size := n |> |>).
Proof. intros [] Hs. by constructor. Qed.
End log_read.

(** A whole exchange, for a log with contents [content]. *)
Lemma log_read_run {L : Linux} (c : client) (cap capacity max_bytes : Z) (content : list Z) :
  ready c -> log_view (kern c) = Some (cap, content) -> cap <> 0 -> in_u 32 max_bytes ->
  let data := spec_read content max_bytes in
  content = [] \/ 12 <= zlen data -> zlen data <= capacity ->
  exists s', kernel_pmu_log_read capacity max_bytes c = Ok (0, zlen data, data, c <| kern := s' |>) /\
    log_view s' = Some (cap, content).
Proof.
  intros Hc Hv Hcap Hm data Hok Hfit. pose proof (entered_wf _ (rd_wf c Hc)) as Hs.
  assert (Hal : alloc_ok (entered (kern c)) = true /\ alloc_next (entered (kern c)) = entered (kern c)).
  { unfold alloc_ok, alloc_next. cbn. by rewrite (rd_alloc c Hc). }
  destruct Hal as [Hal1 Hal2].
  pose proof (log_read_eq (entered (kern c)) cap content max_bytes Hs Hv Hcap Hal1 Hm) as Hrun.
  cbv zeta in Hrun. fold data in Hrun. rewrite Hal2 in Hrun.
  pose proof (preserves_api_pmu_log_read (log_read_msg max_bytes) _ Hs) as Hwf.
  unfold wp in Hwf. rewrite Hrun in Hwf.
  destruct (log_view_inv (kern c) cap content (rd_wf c Hc) Hv) as (buf & _ & _ & _ & Hlt & _ & Hcl & Hda).
  assert (Hfd : forall s', c <| open_fds ::= Z.succ |> <| kern := s' |> <| open_fds ::= Z.pred |> = c <| kern := s' |>).
  { intros s'. destruct c; unfold set; cbn. by rewrite Z.pred_succ. }
  destruct (Z.eqb_spec (zlen content) 0) as [Hz|Hz].
  - assert (content = []) as -> by (destruct content; [done|unfold zlen in Hz; simpl in Hz; lia]).
    assert (Hd : data = []) by (unfold data, spec_read; destruct (_ =? 0); [done|apply take_nil]).
    pose proof (ready_after_log_read c _ _ Hc Hwf) as Hc2.
    match type of Hrun with _ = Ok (0, ?st) => exists st end. split; [|exact Hv].
    rewrite (log_request c capacity max_bytes _ Hc Hm Hrun Hc2), <- Hfd, Hd.
    apply (log_response_empty _ capacity 16 Hc2); [rewrite Hd in Hfit; exact Hfit|done|done].
  - destruct Hok as [->|Hge]; [done|]. rewrite (proj2 (Z.ltb_ge (zlen data) 12) Hge) in *.
    pose proof (ready_after_log_read c _ _ Hc Hwf) as Hc2.
    match type of Hrun with _ = Ok (0, ?st) => exists st end. split; [|exact Hv].
    rewrite (log_request c capacity max_bytes _ Hc Hm Hrun Hc2), <- Hfd. assert (Hdl : zlen data <= zlen content).
    { unfold data, spec_read, zlen. destruct (_ =? 0); [done|]. rewrite length_take. lia. }
    apply (log_response _ capacity data (u32 (16 + zlen data)) Hc2); try done; try lia.
    cbn -[header le_bytes zlen]. unfold header, zlen. rewrite !length_app, !length_le_bytes. lia.
Qed.

(** C4: the log reaches the caller byte for byte: for a log with contents
    [content], [kernel_pmu_log_read] returns 0, the number of bytes and exactly
    the prefix of at most [max_bytes] bytes (all of it for 0) that the log's
    specification promises, in two reads of the device, and closes it.  It needs
    a buffer that holds the answer, and a request the module can answer (an empty
    log, or at least twelve bytes). *)
Theorem client_log_read {L : Linux} (c : client) (cap capacity max_bytes : Z) (content : list Z) :
  ready c -> log_view (kern c) = Some (cap, content) -> cap <> 0 -> in_u 32 max_bytes ->
  let data := spec_read content max_bytes in
  content = [] \/ 12 <= zlen data -> zlen data <= capacity ->
  exists s', kernel_pmu_log_read capacity max_bytes c = Ok (0, zlen data, data, c <| kern := s' |>) /\
    log_view s' = Some (cap, content).
Proof. apply log_read_run. Qed.

Lemma client_log_read_witness :
  exists s', kernel_pmu_log_read (L := eight_cpus) 128 0
      (example_client <| kern := example_log <| proc_entry := true |> |>) =
    Ok (0, 76, replicate 76 0, example_client <| kern := s' |>).
Proof.
  destruct (client_log_read (L := eight_cpus)
    (example_client <| kern := example_log <| proc_entry := true |> |>) 100 128 0 (replicate 76 0))
    as (s' & Hrun & _); try done.
  - constructor; try done. kwf_compute.
  - by right.
  - exists s'. exact Hrun.
Defined.

(** ** File descriptors *)

(** The exchange leaves the device open exactly when it could open it, failed
    later, and its function does not close it on that path. *)
Definition leaks (c : client) (closes : bool) (r : option (list Z)) : Z :=
  b2z (proc_entry (kern c) && privileged c && negb closes && bool_decide (r = None)).

Lemma transact_fds {L : Linux} closes exact req n c r c' :
  transact closes exact req n c = Ok (r, c') -> open_fds c' = open_fds c + leaks c closes r.
Proof.
  intros Hrun. eapply (wp_Ok _ _ _ _ (fun r c' => open_fds c' = open_fds c + leaks c closes r)
    any_stop); [exact Hrun|]. clear Hrun. unfold transact, leaks. apply wp_bind. unfold wp at 1, open_device.
  destruct (proc_entry (kern c) && privileged c); [|apply wp_ret; cbn; lia]. cbn [negb andb].
  apply wp_bind. apply wp_mono with (Q := fun _ c1 => open_fds c1 = Z.succ (open_fds c)) (E := any_stop); [| |done].
  { unfold write_device. apply wp_bind, wp_gets. unfold wp, in_kernel.
    by destruct (dpf_proc_write _ _ _) as [[? ?]|]. }
  intros ret c1 H1. destruct (ret <? 0).
  { destruct closes; [apply wp_bind, wp_modify, wp_ret|apply wp_bind, wp_ret, wp_ret]; cbn; lia. }
  apply wp_bind. apply wp_mono with (Q := fun _ c1 => open_fds c1 = Z.succ (open_fds c)) (E := any_stop); [| |done].
  { unfold read_device. apply wp_bind. unfold wp at 1, in_kernel.
    destruct (proc_read _ _ _) as [[[[? ?] ?] ?]|]; [|done]. by apply wp_bind, wp_gets, wp_ret. }
  intros [[ret' resp] pos] c2 H2. destruct (_ || _).
  { destruct closes; [apply wp_bind, wp_modify, wp_ret|apply wp_bind, wp_ret, wp_ret]; cbn; lia. }
  apply wp_bind, wp_modify, wp_ret. rewrite bool_decide_eq_false_2, andb_false_r by done. cbn. lia.
Qed.

(** A function that is one exchange and reports its success. *)
Lemma exchange_fds {L : Linux} closes req n c v c' :
  (r ← transact closes false req n; mret (status r)) c = Ok (v, c') ->
  open_fds c' = open_fds c + b2z (proc_entry (kern c) && privileged c && negb closes && (v =? -1)).
Proof.
  unfold mbind, ST_bind. destruct (transact _ _ _ _ c) as [[r c1]|] eqn:Hrun; [|done].
  intros [= <- <-]. rewrite (transact_fds _ _ _ _ _ _ _ Hrun). unfold leaks, status. by destruct r.
Qed.

(** Which functions keep the number of open files.  The ones that close the
    device on every path never leave it open; [kernel_core_range] leaves it open
    whenever it opens it and fails, so a client that retries a refused range
    runs out of descriptors. *)
Theorem client_descriptors {L : Linux} (c : client) :
  (forall v c', kernel_mode_init c = Ok (v, c') -> open_fds c' = open_fds c) /\
  (forall w v c', kernel_set_ddr_bandwidth w c = Ok (v, c') -> open_fds c' = open_fds c) /\
  (forall n m v c', kernel_pmu_log_start n m c = Ok (v, c') -> open_fds c' = open_fds c) /\
  (forall v c', kernel_pmu_log_stop c = Ok (v, c') -> open_fds c' = open_fds c) /\
  (forall a b v c', kernel_core_range a b c = Ok (v, c') ->
     open_fds c' = open_fds c + b2z (proc_entry (kern c) && privileged c && (v =? -1))).
Proof.
  split_and!; intros *; intros Hrun; apply exchange_fds in Hrun; rewrite Hrun;
    cbn [negb]; rewrite ?andb_true_r, ?andb_false_r; cbn [andb b2z]; lia.
Qed.

Lemma client_descriptors_witness :
  exists c', kernel_core_range (L := eight_cpus) 7 3 example_client = Ok (-1, c') /\ open_fds c' = 1.
Proof.
  assert (H : exists c', kernel_core_range (L := eight_cpus) 7 3 example_client = Ok (-1, c'))
    by (vm_compute; by eexists).
  destruct H as [c' Hc]. exists c'. split; [exact Hc|].
  destruct (client_descriptors (L := eight_cpus) example_client) as (_ & _ & _ & _ & H).
  exact (H 7 3 (-1) c' Hc).
Defined.

(** ** The aggressiveness factor *)

(** The single-precision number nearest to [k / 10]. *)
Definition tenths (k : Z) : spec_float := f32_div (f32_of_Z k) (f32_of_Z 10).

(** What the client sends for a factor. *)
Definition sent_aggr (x : spec_float) : option Z := f32_to_u32 (f32_mul x (f32_of_Z 10)).

Definition tenths_exact (k : Z) : bool :=
  bool_decide (sent_aggr (tenths k) = Some k) &&
  negb (SFltb (tenths k) (f32_of_Z 0) || SFltb (f32_of_Z 5) (tenths k)).

(** The message of [kernel_tuning_control] for a factor of [k] tenths. *)
Lemma tuning_control_tenths {L : Linux} (k e t : Z) (c : client) :
  tenths_exact k = true ->
  kernel_tuning_control e t (tenths k) c =
    (r ← transact false false (tuning_msg e t k) 20; mret (status r)) c.
Proof.
  unfold tenths_exact. intros [Hs Hr]%andb_true_iff. apply bool_decide_eq_true_1 in Hs.
  apply negb_true_iff in Hr. unfold kernel_tuning_control. rewrite Hr.
  unfold sent_aggr in Hs. by rewrite Hs.
Qed.

(** A factor given in tenths, from 0.0 to 5.0, survives the conversion to
    single precision, the multiplication by ten and the truncation: the request
    that [kernel_tuning_control] writes carries exactly that number of tenths. *)
Theorem tuning_factor_exact {L : Linux} (k e t : Z) (c : client) :
  0 <= k <= 50 ->
  kernel_tuning_control e t (tenths k) c =
    (r ← transact false false (tuning_msg e t k) 20; mret (status r)) c.
Proof.
  intros Hk. apply tuning_control_tenths.
  assert (Hall : forallb tenths_exact (seqZ 0 51) = true) by (vm_compute; reflexivity).
  rewrite forallb_forall in Hall. apply Hall. apply list_elem_of_In, elem_of_seqZ. lia.
Qed.

Lemma tuning_factor_exact_witness :
  kernel_tuning_control (L := eight_cpus) 1 1 (tenths 37) example_client =
    (r ← transact (L := eight_cpus) false false (tuning_msg 1 1 37) 20; mret (status r))
      example_client.
Proof. apply (tuning_factor_exact (L := eight_cpus) 37 1 1 example_client). lia. Defined.
