(* ===== verification/ClientRuns.v ===== *)
(** * Requests that succeed, and what the module is left with

    The exchanges of the client library ([user_api.c]) against the module, as
    runs: every request leaves the module fit to serve the next one, and each
    request used at start-up is given by the state it leaves behind.  The clients
    that make several requests in a row (the kernel mode of the main program, the
    console) are proved on top of these lemmas. *)

From S2P Require Import Prelude Floats Bitfields KState KCommon KPmuDdr KMab KApi KLog KDpf KInv UserApi.

(** ** The module stays able to answer *)

(** The device exists, and neither memory nor user copies run out. *)
Definition served (s : kstate) : Prop :=
  proc_entry s = true /\ hw_alloc (machine s) = [] /\ hw_copy (machine s) = [].

Lemma served_put_core i c : preserves served (put_core i c).
Proof. intros s Hs. by apply wp_put_core. Qed.

Lemma served_core_at i : preserves served (core_at i).
Proof. intros s Hs. by apply wp_core_at. Qed.

Lemma served_kmalloc : preserves served kmalloc.
Proof. intros s (? & Ha & ?). unfold wp, kmalloc. by rewrite Ha. Qed.

Lemma served_user_copy : preserves served user_copy.
Proof. intros s (? & ? & Hc). unfold wp, user_copy. by rewrite Hc. Qed.

Lemma served_wrmsr cpu a lo hi : preserves served (wrmsr cpu a lo hi).
Proof. by apply preserves_modify. Qed.

Lemma served_rdmsr cpu a : preserves served (rdmsr cpu a).
Proof. apply preserves_gets. Qed.

Lemma served_read_pmc cpu n : preserves served (native_read_pmc cpu n).
Proof. apply preserves_gets. Qed.

Lemma served_req_int n msg off : preserves served (req_int n msg off).
Proof. intros s Hs. unfold wp, req_int. by destruct (sub_bytes msg off n). Qed.

Lemma served_req_u32 msg off : preserves served (req_u32 msg off).
Proof. apply served_req_int. Qed.

Lemma served_req_u64 msg off : preserves served (req_u64 msg off).
Proof. apply served_req_int. Qed.

Lemma served_respond b : preserves served (respond b).
Proof. by apply preserves_modify. Qed.

Lemma served_get_state : preserves served get_state.
Proof. by intros s Hs. Qed.

Lemma served_ddr_free : ddr_free served.
Proof. by intros s d io n Hs. Qed.

#[export] Hint Resolve served_put_core served_core_at served_kmalloc served_user_copy served_wrmsr
  served_rdmsr served_read_pmc served_req_u32 served_req_u64 served_respond served_get_state
  : preserve.

#[export] Hint Extern 1 (preserves served _) => (apply ddr_free_iounmap || apply ddr_free_set_mmap ||
  apply ddr_free_read_counters || apply ddr_free_init_client || apply ddr_free_init_grr_srf);
  exact served_ddr_free : preserve.

(** An assignment to other globals. *)
#[export] Hint Extern 2 (preserves served (modify _)) => (by apply preserves_modify) : preserve.

Section handlers.
Context {L : Linux}.

Lemma served_configure_pmu cpu i : preserves served (configure_pmu cpu i).
Proof. unfold configure_pmu, configure_pmu_on_core. preserve. Qed.

Lemma served_msr_load cpu i : preserves served (msr_load cpu i).
Proof. unfold msr_load. preserve. Qed.

Lemma served_pmu_update cpu i : preserves served (pmu_update cpu i).
Proof. unfold pmu_update. preserve. Qed.

Hint Resolve served_configure_pmu served_msr_load served_pmu_update : preserve.

(** Every handler. *)
Lemma served_dispatch cpu type msg : preserves served (dispatch cpu type msg).
Proof.
  unfold dispatch, api_init, api_core_range, core_range_step, api_core_weight, api_tuning, tuning_load,
    core_in_module, hrtimer_start, hrtimer_cancel, api_ddrbw_set, api_pmu_read, api_msr_read,
    api_ddr_config, unmap_controller, junk_bytes, api_ddr_bw_read,
    api_pmu_log_control, log_buffer_setup, log_reset_core, api_pmu_log_stop, log_stop_core,
    api_pmu_log_read.
  preserve.
Qed.

Hint Resolve served_dispatch : preserve.

Lemma served_proc_write cpu msg : preserves served (dpf_proc_write cpu msg).
Proof. unfold dpf_proc_write. preserve. Qed.

Lemma served_proc_read n pos : preserves served (proc_read n pos).
Proof. unfold proc_read. preserve. Qed.
End handlers.

(** ** Clients *)

(** A client that may use the device of a module in one of its regular states,
    with memory to spare on both sides. *)
Definition attached (c : client) : Prop :=
  kinv (kern c) /\ served (kern c) /\ privileged c = true /\ heap_ok c = [].

Lemma attached_ready c : attached c -> ready c.
Proof. intros ([Hs _] & (He & Ha & Hc) & Hp & Hh). by constructor. Qed.

#[export] Hint Resolve attached_ready : core.

Lemma attached_kern c s : attached c -> kinv s -> served s -> attached (c <| kern := s |>).
Proof. by intros (_ & _ & ? & ?) ? ?. Qed.

Section client_invariant.
Context {L : Linux}.

Lemma attached_in_kernel {A} (m : K A) :
  preserves kinv m -> preserves served m -> preserves attached (in_kernel m).
Proof.
  intros Hk Hv c Hc. pose proof Hc as (Hi & Hs & Hp & Hh). specialize (Hk _ Hi). specialize (Hv _ Hs).
  unfold wp, in_kernel in *. destruct (m (kern c)) as [[a s]|]; [|done]. by apply attached_kern.
Qed.

Lemma attached_malloc : preserves attached malloc.
Proof. intros c (? & ? & ? & Hh). unfold wp, malloc. by rewrite Hh. Qed.

Lemma attached_open : preserves attached open_device.
Proof. intros c Hc. unfold wp, open_device. by destruct (_ && _). Qed.

Lemma attached_close : preserves attached close_device.
Proof. by apply preserves_modify. Qed.

Lemma attached_write req : Forall (in_u 8) req -> preserves attached (write_device req).
Proof.
  intros Hr. unfold write_device. preserve.
  apply attached_in_kernel; [by apply kinv_proc_write|apply served_proc_write].
Qed.

Lemma attached_read n pos : preserves attached (read_device n pos).
Proof.
  unfold read_device, uninit_bytes. preserve. apply attached_in_kernel; [apply kinv_proc_read|apply served_proc_read].
Qed.

Hint Resolve attached_malloc attached_open attached_close attached_write attached_read : preserve.

Lemma attached_transact closes exact req n :
  Forall (in_u 8) req -> preserves attached (transact closes exact req n).
Proof. intros Hr. unfold transact. preserve. Qed.

Hint Resolve attached_transact : preserve.

Lemma weights_bytes_range ws : Forall (in_u 8) (mjoin (map (fun w => le_bytes 4 (u32 w)) ws)).
Proof. apply Forall_join, Forall_map, Forall_true. intros w. apply le_bytes_range. Qed.

Hint Resolve weights_bytes_range : preserve.

(** The calls of the library, with their arguments. *)
Inductive call : Type :=
  | Init
  | CoreRange (first last : Z)
  | CoreWeights (count : Z) (ws : list Z)
  | Bandwidth (mbps : Z)
  | Tuning (enable alg : Z) (factor : spec_float)
  | MsrRead (core : Z)
  | PmuRead (core : Z)
  | DdrBwRead
  | DdrConfig (d : ddr_s)
  | LogStart (size mode : Z)
  | LogStop
  | LogRead (capacity max_bytes : Z).

Definition run_call (k : call) : U unit :=
  match k with
  | Init => kernel_mode_init ;; mret tt
  | CoreRange a b => kernel_core_range a b ;; mret tt
  | CoreWeights n ws => kernel_set_core_weights n ws ;; mret tt
  | Bandwidth w => kernel_set_ddr_bandwidth w ;; mret tt
  | Tuning e t x => kernel_tuning_control e t x ;; mret tt
  | MsrRead i => kernel_msr_read i ;; mret tt
  | PmuRead i => kernel_pmu_read i ;; mret tt
  | DdrBwRead => kernel_ddr_bw_read ;; mret tt
  | DdrConfig d => kernel_set_ddr_config d ;; mret tt
  | LogStart n m => kernel_pmu_log_start n m ;; mret tt
  | LogStop => kernel_pmu_log_stop ;; mret tt
  | LogRead cap n => kernel_pmu_log_read cap n ;; mret tt
  end.

Lemma attached_call k : preserves attached (run_call k).
Proof.
  destruct k; unfold run_call, kernel_mode_init, kernel_core_range, kernel_set_core_weights,
    kernel_set_ddr_bandwidth, kernel_tuning_control, kernel_msr_read, kernel_pmu_read, kernel_ddr_bw_read,
    kernel_set_ddr_config, kernel_pmu_log_start, kernel_pmu_log_stop, kernel_pmu_log_read; preserve.
Qed.

(** Whatever calls a client makes, in whatever order and with whatever
    arguments, the module it leaves is in one of its regular states and answers
    the next call. *)
Theorem client_session_attached (calls : list call) : preserves attached (for_each calls run_call).
Proof. apply preserves_for_each. intros k _. apply attached_call. Qed.
End client_invariant.

(** ** Single requests *)

(** What the requests below keep: the cores, the target and the monitor. *)
Definition settings (s : kstate) : Z * Z * list Z * Z * list core_state_s * Z * Z * bool * bool :=
  (setup_of s, corestate s, tune_alg s, aggr s, keep_running s, monitor_timer s).

Lemma settings_ddr_free v : ddr_free (fun s => settings s = v).
Proof. by intros s d io n Hs. Qed.

Section requests.
Context {L : Linux}.

(** An exchange that the handler answers with [b]. *)
Lemma exchange_run closes exact c type size rest s' b n :
  attached c -> in_u 32 type -> Forall (in_u 8) rest -> zlen rest <= 1016 ->
  dispatch (run_cpu c) type (header type size ++ rest) (entered (kern c)) = Ok (0, s') ->
  proc_buffer s' = Some b -> proc_buffer_size s' = n -> zlen b = n -> 0 < n ->
  transact closes exact (header type size ++ rest) n c = Ok (Some b, c <| kern := s' |>) /\
  attached (c <| kern := s' |>).
Proof.
  intros Hc Ht Hp Hl Hd Hb Hsz Hbn Hn. pose proof Hc as (Hi & Hv & _ & _).
  assert (Hi1 : kinv (entered (kern c))) by (split; [apply entered_wf, Hi|apply Hi]).
  assert (Hc' : attached (c <| kern := s' |>)).
  { apply attached_kern; [done|..].
    - eapply (wp_Ok _ _ _ _ (fun _ => kinv) any_stop); [exact Hd|]. apply kinv_dispatch; [|done].
      apply Forall_app_2; [apply header_range|done].
    - eapply (wp_Ok _ _ _ _ (fun _ => served) any_stop); [exact Hd|]. by apply served_dispatch. }
  split; [|done]. unfold header in *. rewrite <- app_assoc in *. apply transact_ok; auto; [|congruence].
  unfold zlen in *. rewrite length_app, length_le_bytes. lia.
Qed.

(** An exchange that the handler refuses, of a function that closes the device. *)
Lemma exchange_refused exact c type size rest n r s' :
  attached c -> in_u 32 type -> Forall (in_u 8) rest -> zlen rest <= 1016 -> r < 0 ->
  dispatch (run_cpu c) type (header type size ++ rest) (entered (kern c)) = Ok (r, s') ->
  transact true exact (header type size ++ rest) n c = Ok (None, c <| kern := s' |>) /\
  attached (c <| kern := s' |>).
Proof.
  intros Hc Ht Hp Hl Hr Hd. pose proof (attached_transact true exact (header type size ++ rest) n
    ltac:(apply Forall_app_2; [apply header_range|done]) c Hc) as Hw. unfold wp in Hw.
  assert (Hrun : transact true exact (header type size ++ rest) n c = Ok (None, c <| kern := s' |>)).
  { unfold header in *. rewrite <- app_assoc in *. rewrite (transact_refused true exact c type _ n r s'); auto.
    - cbn [negb b2z]. destruct c. cbn. unfold set. cbn. by rewrite Z.add_0_r.
    - unfold zlen in *. rewrite length_app, length_le_bytes. lia. }
  by rewrite Hrun in Hw.
Qed.

Lemma kmalloc_served s : hw_alloc (machine s) = [] -> kmalloc s = Ok (true, s).
Proof. unfold kmalloc. by intros ->. Qed.

(** The state in which a handler leaves its answer. *)
Definition answered (s : kstate) (b : list Z) : kstate :=
  entered s <| proc_buffer := Some b |> <| proc_buffer_size := zlen b |>.

Lemma init_request c :
  attached c -> exists b, let s' := answered (kern c) b in
  kernel_mode_init c = Ok (0, c <| kern := s' |>) /\ attached (c <| kern := s' |>).
Proof.
  intros Hc. pose proof Hc as (_ & (_ & Ha & _) & _).
  set (b := header DPF_MSG_INIT 12 ++ le_bytes 4 DPF_API_VERSION). exists b. intros s'.
  destruct (exchange_run true false c DPF_MSG_INIT 8 [] s' b 12 Hc) as [Hrun Hat]; try done.
  - change (api_init (entered (kern c)) = Ok (0, s')). unfold api_init.
    by rewrite (bind_Ok _ _ _ _ _ (kmalloc_served (entered (kern c)) Ha)).
  - split; [|done]. unfold kernel_mode_init. by rewrite (bind_Ok _ _ _ _ _ Hrun).
Qed.

Lemma bandwidth_request c w :
  attached c -> in_u 32 w ->
  exists b, let s' := answered (kern c) b <| ddr_bw_target := s32 w |> in
  kernel_set_ddr_bandwidth w c = Ok (0, c <| kern := s' |>) /\ attached (c <| kern := s' |>).
Proof.
  intros Hc Hw. pose proof Hc as (_ & (_ & Ha & _) & _).
  set (b := header DPF_MSG_DDRBW_SET 12 ++ le_bytes 4 w). exists b. intros s'.
  destruct (exchange_run true false c DPF_MSG_DDRBW_SET 12 (le_bytes 4 w) s' b 12 Hc) as [Hrun Hat]; try done.
  - apply le_bytes_range.
  - change (api_ddrbw_set b (entered (kern c)) = Ok (0, s')).
    unfold api_ddrbw_set. rewrite (bind_Ok _ _ _ _ _ (kmalloc_served (entered (kern c)) Ha)). cbn [negb].
    erewrite bind_Ok by (by apply (req_u32_at _ _ (header DPF_MSG_DDRBW_SET 12) w [])). done.
  - split; [|done]. unfold kernel_set_ddr_bandwidth. by rewrite (bind_Ok _ _ _ _ _ Hrun).
Qed.

Lemma core_range_request c a b :
  attached c -> 0 <= a <= b -> b < MAX_NUM_CORES ->
  exists s', kernel_core_range a b c = Ok (0, c <| kern := s' |>) /\ attached (c <| kern := s' |>) /\
    sys_first_core s' = a /\ sys_active_cores s' = b - a + 1 /\
    (forall j ci, aget (corestate (kern c)) j = Some ci ->
       aget (corestate s') j = Some (ci <| core_disabled := b2z (negb (selected a b j)) |>)) /\
    (forall j, j ∈ enabled_cpus s' <-> a <= j <= b /\ cpu_online j = true) /\
    ddr_bw_target s' = ddr_bw_target (kern c).
Proof.
  intros Hc Ha Hb. unfold MAX_NUM_CORES in Hb. pose proof Hc as ((Hs & _) & (_ & Hal & _) & _).
  destruct (api_core_range_spec (run_cpu c) a b (entered (kern c)) (entered_wf _ Hs)) as (_ & _ & H);
    [unfold in_u; lia..|].
  destruct H as (s' & Hrun & H1 & H2 & H3 & H4 & Hbuf & Hsz & Ht);
    [unfold MAX_NUM_CORES; lia|unfold alloc_ok; cbn; by rewrite Hal|].
  exists s'. destruct (exchange_run false false c DPF_MSG_CORE_RANGE 16 (le_bytes 4 a ++ le_bytes 4 b) s' _ 20 Hc
    ltac:(done) ltac:(apply Forall_app_2; apply le_bytes_range) ltac:(done) Hrun Hbuf Hsz eq_refl ltac:(done)) as [Hx Hat].
  split_and!; try done. unfold kernel_core_range. by rewrite (bind_Ok _ _ _ _ _ Hx).
Qed.

Lemma tuning_request c e t k :
  attached c -> in_u 32 e -> in_u 32 t -> 0 <= k <= 50 -> (forall j, j ∈ online_cpus -> 0 <= j < MAX_NUM_CORES) ->
  exists s', kernel_tuning_control e t (tenths k) c = Ok (0, c <| kern := s' |>) /\
    attached (c <| kern := s' |>) /\
    tune_alg s' = s32 t /\ aggr s' = k / 10 /\ keep_running s' = (e =? 1) /\ monitor_timer s' = (e =? 1) /\
    setup_of s' = setup_of (kern c) /\
    (forall j ci, aget (corestate (kern c)) j = Some ci ->
       exists ci', aget (corestate s') j = Some ci' /\ core_disabled ci' = core_disabled ci).
Proof.
  intros Hc He Ht Hk Hon. pose proof Hc as ((Hs & _) & (_ & Hal & _) & _).
  destruct (api_tuning_run (run_cpu c) e t k (entered (kern c)) (entered_wf _ Hs) He Ht)
    as (s' & Hrun & H1 & H2 & _ & H3 & H4 & Hbuf & Hsz & H5 & H6);
    [unfold in_u; lia|unfold alloc_ok; cbn; by rewrite Hal|done|].
  exists s'. destruct (exchange_run false false c DPF_MSG_TUNING 20 (le_bytes 4 e ++ le_bytes 4 t ++ le_bytes 4 k) s' _ 20 Hc
    ltac:(done) ltac:(repeat apply Forall_app_2; apply le_bytes_range) ltac:(done) Hrun Hbuf Hsz eq_refl ltac:(done)) as [Hx Hat].
  split_and!; try done; [|by rewrite H2, Z.min_l by lia|].
  - rewrite tuning_factor_exact by done. by rewrite (bind_Ok _ _ _ _ _ Hx).
  - intros j ci Hj. rewrite (H6 j ci Hj). eexists. split; [done|]. by destruct (_ && _ && _).
Qed.

Lemma resp_words_of t n ws : Forall (in_u 64) ws -> resp_words (length ws) (header t n ++ words_bytes ws) = ws.
Proof.
  intros Hw. unfold resp_words. rewrite drop_app_length' by done.
  rewrite <- (app_nil_r (words_bytes ws)). by apply words_of_words_bytes.
Qed.

(** The bandwidth counters: the handler answers in any state. *)
Lemma read_ddr_counters_run s :
  kwf s -> exists r rd wr d, read_ddr_counters s = Ok (r, rd, wr, s <| ddr := d |>) /\ in_u 64 rd /\ in_u 64 wr.
Proof.
  intros Hs. unfold read_ddr_counters. rewrite bind_gets.
  assert (Hid : s = s <| ddr := ddr s |>) by by destruct s.
  destruct (decide (ddr_cpu_type s = DDR_CLIENT \/ ddr_cpu_type s = DDR_GRR_SRF)) as [Ht|Ht].
  - replace (negb _ && negb _) with false by (destruct Ht as [-> | ->]; done). rewrite bind_gets.
    destruct (_ <=? 0); [eexists _, _, _, _; split; [by rewrite Hid at 1|done]|].
    destruct (kernel_pmu_ddr_eq s Rd Hs Ht) as (l1 & _ & R1).
    destruct (kernel_pmu_ddr_step s Rd Hs Ht) as (s1 & R1' & Hs1 & Ht1 & _).
    assert (s1 = s <| ddr := set_last_update Rd (ddr s) l1 |>) as -> by congruence. clear R1'.
    destruct (kernel_pmu_ddr_eq _ Wr Hs1) as (l2 & _ & R2); [by rewrite Ht1|].
    rewrite (bind_Ok _ _ _ _ _ R1), (bind_Ok _ _ _ _ _ R2).
    destruct (_ || _); eexists _, _, _, _; (split; [reflexivity|]); split; done || apply u64_range.
  - rewrite (proj2 (Z.eqb_neq _ _)), (proj2 (Z.eqb_neq _ _)) by tauto.
    eexists _, _, _, _. split; [by rewrite Hid at 1|done].
Qed.

Lemma ddr_bw_request c :
  attached c -> exists rd wr b d, let s' := answered (kern c) b <| ddr := d |> in
    kernel_ddr_bw_read c = Ok (0, [rd; wr], c <| kern := s' |>) /\ attached (c <| kern := s' |>) /\
    in_u 64 rd /\ in_u 64 wr.
Proof.
  intros Hc. pose proof Hc as ((Hs & _) & (_ & Hal & _) & _).
  destruct (read_ddr_counters_run (entered (kern c)) (entered_wf _ Hs)) as (r & rd & wr & d & Hrd & H1 & H2).
  set (b := header DPF_MSG_DDR_BW_READ 24 ++ le_bytes 8 rd ++ le_bytes 8 wr). exists rd, wr, b, d. intros s'.
  destruct (exchange_run true true c DPF_MSG_DDR_BW_READ 8 [] s' b 24 Hc) as [Hrun Hat]; try done.
  - change (api_ddr_bw_read (entered (kern c)) = Ok (0, s')). unfold api_ddr_bw_read.
    rewrite (bind_Ok _ _ _ _ _ (kmalloc_served (entered (kern c)) Hal)). cbn [negb].
    by rewrite (bind_Ok _ _ _ _ _ Hrd).
  - split_and!; try done. unfold kernel_ddr_bw_read. rewrite (bind_Ok _ _ _ _ _ Hrun).
    unfold mret, ST_ret. cbn [from_option]. change b with (header DPF_MSG_DDR_BW_READ 24 ++ words_bytes [rd; wr]).
    rewrite (resp_words_of _ _ [rd; wr]); [done|]. apply Forall_cons_2; [done|]. by apply Forall_singleton.
Qed.

Lemma log_ddr_bw_request c :
  attached c -> exists b d, let c' := c <| kern := answered (kern c) b <| ddr := d |> |> <| time_old := clock_ms c |> in
    kernel_log_ddr_bw c = Ok (0, c') /\ attached c'.
Proof.
  intros Hc. destruct (ddr_bw_request c Hc) as (rd & wr & b & d & Hrun & Hat & _). exists b, d. split; [|done].
  unfold kernel_log_ddr_bw. rewrite (bind_Ok _ _ _ _ _ Hrun). change ((0, [rd; wr]).1 <? 0) with false. cbv iota.
  rewrite bind_gets. by destruct (_ =? 0).
Qed.

(** *** Reading a core *)

(** What a request for core [j] finds: a core the module works with. *)
Definition enabled_core (s : kstate) (j : Z) : option core_state_s :=
  match aget (corestate s) j with
  | Some ci => if core_disabled ci =? 0 then Some ci else None
  | None => None
  end.

Lemma enabled_core_Some s j ci :
  enabled_core s j = Some ci <-> aget (corestate s) j = Some ci /\ core_disabled ci = 0.
Proof.
  unfold enabled_core. destruct (aget _ _) as [ci'|]; [|naive_solver].
  destruct (Z.eqb_spec (core_disabled ci') 0); naive_solver.
Qed.

Definition pmu_answer (s : kstate) (cpu : Z) (c : core_state_s) : core_state_s :=
  c <| pmu_old := pmu_raw c |> <| pmu_raw := pmc_reading (machine s) cpu |>.

Lemma api_pmu_read_eq cpu j s :
  kwf s -> in_u 32 j -> hw_alloc (machine s) = [] ->
  api_pmu_read cpu (header DPF_MSG_PMU_READ 12 ++ le_bytes 4 j) s =
    match enabled_core s j with
    | Some c =>
        Ok (0, s <| corestate := aset (corestate s) j (pmu_answer s cpu c) |>
                 <| proc_buffer := Some (header DPF_MSG_PMU_READ 72 ++ words_bytes (pmc_reading (machine s) cpu)) |>
                 <| proc_buffer_size := 72 |>)
    | None => Ok (- EINVAL, s)
    end.
Proof.
  intros Hs Hj Hal. unfold api_pmu_read, enabled_core.
  rewrite (bind_Ok _ _ _ _ _ (req_u32_at _ 8 (header DPF_MSG_PMU_READ 12) j [] s eq_refl eq_refl Hj)).
  pose proof (kwf_cores s Hs) as Hlen. destruct Hj as [Hj0 _].
  destruct (Z.leb_spec MAX_NUM_CORES j) as [Hge|Hlt].
  { destruct (aget (corestate s) j) eqn:Hg; [|done]. apply aget_Some_range in Hg. lia. }
  destruct (aget_is_Some (corestate s) j) as [c Hc]; [lia|]. rewrite Hc.
  rewrite (bind_Ok _ _ _ _ _ (core_at_Some _ _ _ Hc)).
  destruct (Z.eqb_spec (core_disabled c) 0) as [Hd|Hd]; cbn [negb]; [|done].
  rewrite (bind_Ok _ _ _ _ _ (kmalloc_served s Hal)). cbn [negb].
  rewrite (bind_Ok _ _ _ _ _ (pmu_update_eq cpu j s c Hc Hlen Hd)).
  fold (pmu_answer s cpu c). set (s1 := Prelude.set corestate _ s).
  assert (Ha : aget (corestate s1) j = Some (pmu_answer s cpu c)) by (cbn -[aget aset]; apply aget_aset_eq; lia).
  by rewrite (bind_Ok _ _ _ _ _ (core_at_Some _ _ _ Ha)).
Qed.

(** The exchange of a core's counters: those of the CPU the call runs on. *)
Lemma pmu_request c j :
  attached c -> in_u 32 j ->
  match enabled_core (kern c) j with
  | Some ci => exists b,
      let s' := answered (kern c) b <| corestate := aset (corestate (kern c)) j (pmu_answer (kern c) (run_cpu c) ci) |> in
      kernel_pmu_read j c = Ok (0, pmc_reading (machine (kern c)) (run_cpu c), c <| kern := s' |>) /\
      attached (c <| kern := s' |>)
  | None => kernel_pmu_read j c = Ok (-1, [], c <| kern := entered (kern c) |>) /\
      attached (c <| kern := entered (kern c) |>)
  end.
Proof.
  intros Hc Hj. pose proof Hc as ((Hs & _) & (_ & Hal & _) & _).
  pose proof (api_pmu_read_eq (run_cpu c) j (entered (kern c)) (entered_wf _ Hs) Hj Hal) as Hrun.
  change (enabled_core (entered (kern c)) j) with (enabled_core (kern c) j) in Hrun.
  destruct (enabled_core (kern c) j) as [ci|].
  - exists (header DPF_MSG_PMU_READ 72 ++ words_bytes (pmc_reading (machine (kern c)) (run_cpu c))). intros s'.
    destruct (exchange_run true true c DPF_MSG_PMU_READ 12 (le_bytes 4 j) s' _ 72 Hc
      ltac:(done) ltac:(apply le_bytes_range) ltac:(done) Hrun eq_refl eq_refl eq_refl ltac:(done)) as [Hx Hat].
    split; [|done]. unfold kernel_pmu_read. rewrite (bind_Ok _ _ _ _ _ Hx). unfold mret, ST_ret. cbn [from_option].
    change 8%nat with (length (pmc_reading (machine (kern c)) (run_cpu c))).
    rewrite resp_words_of; [done|]. apply Forall_map, Forall_true. intros n. apply u64_range.
  - destruct (exchange_refused true c DPF_MSG_PMU_READ 12 (le_bytes 4 j) 72 (- EINVAL) _ Hc
      ltac:(done) ltac:(apply le_bytes_range) ltac:(done) ltac:(done) Hrun) as [Hx Hat].
    unfold kernel_pmu_read. by rewrite (bind_Ok _ _ _ _ _ Hx).
Qed.

(** The exchange of a core's prefetcher words. *)
Lemma msr_request c j :
  attached c -> in_u 32 j ->
  match enabled_core (kern c) j with
  | Some ci => exists b,
      let ans := msr_answer (kern c) (run_cpu c) ci in
      let s' := answered (kern c) b <| corestate := aset (corestate (kern c)) j ans |> in
      kernel_msr_read j c = Ok (0, pf_msr ans, c <| kern := s' |>) /\ attached (c <| kern := s' |>)
  | None => kernel_msr_read j c = Ok (-1, [], c <| kern := entered (kern c) |>) /\
      attached (c <| kern := entered (kern c) |>)
  end.
Proof.
  intros Hc Hj. pose proof Hc as ((Hs & _) & (_ & Hal & _) & _).
  pose proof (api_msr_read_eq (run_cpu c) j (entered (kern c)) (entered_wf _ Hs) Hj Hal) as Hrun.
  assert (Hrun' : api_msr_read (run_cpu c) (msr_read_msg j) (entered (kern c)) =
    match enabled_core (kern c) j with
    | Some ci => let c' := msr_answer (kern c) (run_cpu c) ci in
        Ok (0, entered (kern c) <| corestate := aset (corestate (kern c)) j c' |>
                 <| proc_buffer := Some (header DPF_MSG_MSR_READ 64 ++ words_bytes (pf_msr c')) |> <| proc_buffer_size := 64 |>)
    | None => Ok (- EINVAL, entered (kern c))
    end).
  { rewrite Hrun. unfold enabled_core. cbn [corestate entered]. 
    change (corestate (entered (kern c))) with (corestate (kern c)). destruct (aget _ _); [|done]. by destruct (_ =? 0). }
  clear Hrun. destruct (enabled_core (kern c) j) as [ci|] eqn:Hci.
  - apply enabled_core_Some in Hci as [Hci _]. assert (Hcw : core_wf ci) by by apply (Forall_aget _ _ _ _ (kwf_core _ Hs) Hci).
    pose proof (msr_answer_len (kern c) (run_cpu c) ci Hcw) as H7. pose proof (msr_answer_u64 (kern c) (run_cpu c) ci Hcw) as H64.
    cbv zeta in Hrun'. set (ans := msr_answer (kern c) (run_cpu c) ci) in *.
    assert (Hlen : zlen (header DPF_MSG_MSR_READ 64 ++ words_bytes (pf_msr ans)) = 64)
      by (unfold zlen, words_bytes; by rewrite length_app, length_words_bytes, H7).
    exists (header DPF_MSG_MSR_READ 64 ++ words_bytes (pf_msr ans)). intros ans' s'. unfold ans' in *. fold ans in s' |- *.
    destruct (exchange_run true true c DPF_MSG_MSR_READ 12 (le_bytes 4 j) s'
      (header DPF_MSG_MSR_READ 64 ++ words_bytes (pf_msr ans)) 64 Hc) as [Hx Hat]; try done.
    + apply le_bytes_range.
    + unfold s', answered. rewrite Hlen. exact Hrun'.
    + split; [|done]. unfold kernel_msr_read. rewrite (bind_Ok _ _ _ _ _ Hx). unfold mret, ST_ret. cbn [from_option].
      rewrite <- H7. by rewrite resp_words_of.
  - destruct (exchange_refused true c DPF_MSG_MSR_READ 12 (le_bytes 4 j) 64 (- EINVAL) _ Hc
      ltac:(done) ltac:(apply le_bytes_range) ltac:(done) ltac:(done) Hrun') as [Hx Hat].
    unfold kernel_msr_read. by rewrite (bind_Ok _ _ _ _ _ Hx).
Qed.

(** *** The DDR configuration *)

(** A configuration the module has tables for. *)
Definition supported (d : ddr_s) : Prop :=
  in_u 64 (bar_address d) /\
  ((ddr_interface_type d = DDR_CLIENT /\ 1 <= ddr_num_controllers d <= 2) \/
   (ddr_interface_type d = DDR_GRR_SRF /\ 1 <= ddr_num_controllers d <= MAX_NUM_DDR_CONTROLLERS)).

(** The fields of the request. *)
Lemma ddr_config_fields bar t n :
  in_u 64 bar -> in_u 32 t -> in_u 32 n ->
  (forall s, req_u64 (ddr_config_msg bar t n) 8 s = Ok (bar, s)) /\
  (forall s, req_u32 (ddr_config_msg bar t n) 16 s = Ok (t, s)) /\
  (forall s, req_u32 (ddr_config_msg bar t n) 20 s = Ok (n, s)).
Proof.
  intros Hb Ht Hn. split_and!; intros s.
  - unfold req_u64, req_int, ddr_config_msg. rewrite (sub_bytes_skip (header DPF_MSG_DDR_CONFIG 24)) by done.
    rewrite sub_bytes_app_l, sub_bytes_all by by rewrite length_le_bytes. by rewrite le_bytes_8.
  - by apply (req_u32_at _ _ (header DPF_MSG_DDR_CONFIG 24 ++ le_bytes 8 bar) _ (le_bytes 4 n)).
  - by apply (req_u32_at _ _ (header DPF_MSG_DDR_CONFIG 24 ++ le_bytes 8 bar ++ le_bytes 4 t) _ []).
Qed.

(** The initialisation for the chosen type. *)
Lemma ddr_init_run s bar t :
  kwf s -> iomaps s = [] -> ddr_cpu_type s = t ->
  t = DDR_CLIENT /\ 1 <= num_ddr_controllers s <= 2 \/ t = DDR_GRR_SRF /\ 1 <= num_ddr_controllers s ->
  wp (if t =? DDR_CLIENT then kernel_pmu_ddr_init_client bar
      else if t =? DDR_GRR_SRF then kernel_pmu_ddr_init_grr_srf bar else mret (- EINVAL)) s
    (fun r s' => all_or_nothing (num_ddr_controllers s) r s' /\ settings s' = settings s) no_stop.
Proof.
  intros Hs Hio Ht H.
  assert (Hk : forall m : K Z, wp m s (all_or_nothing (num_ddr_controllers s)) no_stop ->
    preserves (fun s' => settings s' = settings s) m ->
    wp m s (fun r s' => all_or_nothing (num_ddr_controllers s) r s' /\ settings s' = settings s) no_stop).
  { intros m Hm Hf. specialize (Hf s eq_refl). unfold wp in *. by destruct (m s) as [[r s']|]. }
  destruct H as [[-> Hn]|[-> Hn]]; cbn [Z.eqb Pos.eqb]; apply Hk;
    first [by apply init_client_spec|by apply init_grr_srf_spec|apply ddr_free_init_client, settings_ddr_free
          |apply ddr_free_init_grr_srf, settings_ddr_free].
Qed.

(** [api_ddr_config] maps every controller and answers, or maps none and refuses. *)
Lemma api_ddr_config_run s d :
  kinv s -> served s -> supported d ->
  exists r s', api_ddr_config (ddr_config_msg (bar_address d) (ddr_interface_type d) (ddr_num_controllers d)) s = Ok (r, s') /\
    settings s' = settings s /\
    ((r = 0 /\ (forall j, 0 <= j < ddr_num_controllers d -> exists a, aget (mmap (ddr s')) j = Some a /\ a <> 0) /\
      exists b, proc_buffer s' = Some b /\ proc_buffer_size s' = 24 /\ zlen b = 24) \/
     (r = - EINVAL /\ iomaps s' = [])).
Proof.
  intros (Hs & Hm & _) (_ & Hal & _) [Hbar Hd]. set (t := ddr_interface_type d) in *. set (n := ddr_num_controllers d) in *.
  assert (Hn : 1 <= n <= 16) by (unfold MAX_NUM_DDR_CONTROLLERS in Hd; lia).
  assert (Ht : in_u 32 t) by (unfold in_u, DDR_CLIENT, DDR_GRR_SRF in *; lia).
  destruct (ddr_config_fields (bar_address d) t n Hbar Ht ltac:(unfold in_u; lia)) as (R8 & R16 & R20).
  unfold api_ddr_config.
  rewrite (bind_Ok _ _ _ _ _ (R8 _)), (bind_Ok _ _ _ _ _ (R16 _)), (bind_Ok _ _ _ _ _ (R20 _)).
  rewrite (proj2 (Z.eqb_neq _ _)), (proj2 (Z.ltb_ge _ _)) by (unfold MAX_NUM_DDR_CONTROLLERS; lia). cbn [orb].
  rewrite (bind_Ok _ _ _ _ _ (kmalloc_served s Hal)). cbn [negb]. unfold junk_bytes. rewrite bind_gets.
  set (pad := map _ _).
  destruct (unmap_all_spec s Hs Hm) as (s2 & Hrun & Hs2 & Hio & Hm2 & d2 & io & He).
  rewrite (bind_Ok _ _ _ _ _ Hrun), bind_modify. set (s3 := s2 <| ddr_bar_address := _ |> <| ddr_cpu_type := _ |> <| num_ddr_controllers := _ |>).
  assert (Hset : settings s3 = settings s) by (unfold s3; by rewrite He).
  assert (Hs3 : kwf s3) by (unfold s3; kwf_update Hs2; unfold MAX_NUM_DDR_CONTROLLERS; lia).
  destruct (wp_no_stop _ _ _ (ddr_init_run s3 (bar_address d) t Hs3 Hio eq_refl
    ltac:(destruct Hd as [[]|[? []]]; [by left|by right]))) as (r & s4 & Hinit & [_ Hor] & Hset4).
  rewrite (bind_Ok _ _ _ _ _ Hinit). destruct Hor as [[-> Hmap]|(-> & Hnone & _)].
  - change (0 <? 0) with false. cbv iota. unfold respond. rewrite bind_modify. eexists 0, _. split; [reflexivity|].
    split; [by rewrite <- Hset, <- Hset4|]. left. split_and!; [done|exact Hmap|]. eexists. by split_and!.
  - exists (- EINVAL), s4. split_and!; [done|congruence|]. by right.
Qed.

(** The exchange: the client learns which of the two it was. *)
Lemma ddr_config_request c d :
  attached c -> supported d ->
  exists r s', kernel_set_ddr_config d c = Ok (r, c <| kern := s' |>) /\ attached (c <| kern := s' |>) /\
    settings s' = settings (kern c) /\
    ((r = 0 /\ forall j, 0 <= j < ddr_num_controllers d -> exists a, aget (mmap (ddr s')) j = Some a /\ a <> 0) \/
     (r = -1 /\ iomaps s' = [])).
Proof.
  intros Hc Hd. pose proof Hc as (Hi & Hv & _).
  assert (Hi1 : kinv (entered (kern c))) by (split; [apply entered_wf, Hi|apply Hi]).
  destruct (api_ddr_config_run (entered (kern c)) d Hi1 Hv Hd) as (r & s' & Hrun & Hset & Hor).
  assert (Hno : ddr_interface_type d <> DDR_NONE) by (destruct Hd as [_ [[-> _]|[-> _]]]; done).
  assert (Hty : u32 (ddr_interface_type d) = ddr_interface_type d) by (destruct Hd as [_ [[-> _]|[-> _]]]; done).
  assert (Hnu : u32 (ddr_num_controllers d) = ddr_num_controllers d)
    by (apply u32_small; destruct Hd as [_ [[_ ?]|[_ ?]]]; unfold MAX_NUM_DDR_CONTROLLERS in *; lia).
  set (rest := le_bytes 8 (bar_address d) ++ le_bytes 4 (ddr_interface_type d) ++ le_bytes 4 (ddr_num_controllers d)).
  assert (Hrest : Forall (in_u 8) rest) by (unfold rest; repeat apply Forall_app_2; apply le_bytes_range).
  assert (Hlen : zlen rest = 16) by (unfold rest, zlen; rewrite !length_app, !length_le_bytes; done).
  unfold kernel_set_ddr_config. rewrite (proj2 (Z.eqb_neq _ _) Hno), Hty, Hnu. fold rest.
  destruct Hor as [(-> & Hmap & b & Hb & Hsz & Hbl)|[-> Hnone]].
  - destruct (exchange_run true false c DPF_MSG_DDR_CONFIG 24 rest s' b 24 Hc ltac:(done) Hrest ltac:(lia) Hrun Hb Hsz Hbl
      ltac:(done)) as [Hx Hat].
    exists 0, s'. rewrite (bind_Ok _ _ _ _ _ Hx). split_and!; try done. by left.
  - destruct (exchange_refused false c DPF_MSG_DDR_CONFIG 24 rest 24 (- EINVAL) s' Hc ltac:(done) Hrest ltac:(lia)
      ltac:(done) Hrun) as [Hx Hat].
    exists (-1), s'. rewrite (bind_Ok _ _ _ _ _ Hx). split_and!; try done. by right.
Qed.
End requests.
