(* ===== verification/MsrDev.v ===== *)
(** * Access to the MSR devices ([msr.c], [pmu_core.c])

    The user-space tuner reads and writes MSRs through [/dev/cpu/N/msr]: a
    [pread] or [pwrite] of eight bytes at offset [a] is an access to MSR [a] of
    CPU [N].  [proc] is the state of the process: its open devices, the table
    [msr_file_id], and, for the files that follow, the variables of
    [rdt_mbm.c].  Every system call may fail; the failures come from a list.
    The perf-event functions of [pmu_core.c] are in [PerfEvents]. *)

From S2P Require Import Prelude Bitfields Msr.

(** ** Constants of [msr.h] and [pmu_core.h] *)

Definition HWPF_MSR_BASE : Z := 0x1320.

Definition HWPF_MSR_0X1A4 : Z := 0x1A4.

Definition MSR_FIXED_CTR0 : Z := 0x309.

Definition MSR_FIXED_CTR1 : Z := 0x30A.

Definition IA32_FIXED_CTR_CTRL : Z := 0x38D.

Definition PQOS_MSR_ASSOC : Z := 0xC8F.

Definition PQOS_MSR_MON_EVTSEL : Z := 0xC8D.

Definition PQOS_MSR_MON_QMC : Z := 0xC8E.

Definition PMU_COUNTERS : Z := 7.

Definition PMU_PMC0 : Z := 0xc1.

Definition PMU_PERFEVTSEL0 : Z := 0x186.

Definition PMU_CORE_EVENT_COUNT : Z := 7.

Definition MAX_NUM_CORES : Z := 512.

(** [MAB] of [mab.h], a value of [tunealg]. *)
Definition MAB : Z := 2.

(** ** The process *)

(** How a [pread] or [pwrite] ends: complete, failed with [EIO], or failed for
    another reason. *)
Inductive io : Type := IoOk | IoEIO | IoFail.

#[export] Instance io_eq_dec : EqDecision io.
Proof. solve_decision. Defined.

(** [struct mbm_data_st] of [rdt_mbm.h]. *)
Record mbm_data_st := { rmid : Z; delta : Z; old_count : Z }.

#[export] Instance mbm_settable : Settable mbm_data_st := fun r =>
  {| rmid := rmid r; delta := delta r; old_count := old_count r |}.

Record proc := {
  regs : gmap (Z * Z) Z      (** the MSRs, by CPU and address *);
  fds : gmap Z Z             (** open device files: descriptor to CPU *);
  low_fd : Z                 (** the descriptors below belong to the rest of the process *);
  msr_file_id : list Z       (** [msr_file_id[]]: 0 when not open *);
  tunealg : Z;
  opens : list bool          (** whether the next [open]s succeed *);
  ios : list io              (** how the next accesses end *);
  tsc : Z                    (** what [rdtsc] answers *);
  mon : list Z               (** the next answers of the monitoring counter *);
  foreign : list (option Z)  (** what others write to the event selector before its next reads *);
  (* rdt_mbm.c *)
  mbm_data : list mbm_data_st; total_mbt : Z; scale_factor : Z; counter_length : Z;
  max_rmid : Z; num_cores : Z }.

#[export] Instance proc_settable : Settable proc := fun r =>
  {| regs := regs r; fds := fds r; low_fd := low_fd r; msr_file_id := msr_file_id r;
     tunealg := tunealg r; opens := opens r; ios := ios r; tsc := tsc r; mon := mon r;
     foreign := foreign r;
     mbm_data := mbm_data r; total_mbt := total_mbt r; scale_factor := scale_factor r;
     counter_length := counter_length r; max_rmid := max_rmid r; num_cores := num_cores r |}.

Abbreviation D := (ST proc).

(** ** System calls *)

Definition next_io : D io := fun p =>
  match ios p with
  | [] => Ok (IoOk, p)
  | e :: rest => Ok (e, p <| ios := rest |>)
  end.

(** The lowest descriptor that is not open; a closed one is used again. *)
Definition free_fd (p : proc) : Z :=
  default (low_fd p) (head (filter (fun fd => fds p !! fd = None) (seqZ (low_fd p) (Z.of_nat (S (size (fds p))))))).

(** [open("/dev/cpu/<core>/msr", O_RDWR)]: -1 when it fails. *)
Definition open_msr (core : Z) : D Z := fun p =>
  let '(ok, rest) := match opens p with [] => (true, []) | b :: r => (b, r) end in
  let p := p <| opens := rest |> in
  if ok : bool then
    Ok (free_fd p, p <| fds ::= <[free_fd p := core]> |>)
  else Ok (-1, p).

(** The first element of a list that satisfies a predicate. *)
Lemma head_filter {A} (P : A -> Prop) `{!forall x, Decision (P x)} (l : list A) (x : A) :
  head (filter P l) = Some x -> exists l1 l2, l = l1 ++ x :: l2 /\ P x /\ Forall (fun y => ~ P y) l1.
Proof.
  induction l as [|y l IH]; [done|]. destruct (decide (P y)) as [Hy|Hy].
  - rewrite filter_cons_True by done. intros [= ->]. exists [], l. by split_and!.
  - rewrite filter_cons_False by done. intros (l1 & l2 & -> & Hx & Hl)%IH. exists (y :: l1), l2.
    split_and!; [done..|]. by constructor.
Qed.

Lemma free_fd_spec p :
  fds p !! free_fd p = None /\ low_fd p <= free_fd p /\
  forall fd, low_fd p <= fd < free_fd p -> is_Some (fds p !! fd).
Proof.
  unfold free_fd. set (l := seqZ _ _). destruct (head (filter _ l)) as [x|] eqn:Hh.
  - apply head_filter in Hh as (l1 & l2 & Hl & Hx & Hall). change (default (low_fd p) (Some x)) with x.
    assert (Hat : forall k y, l !! k = Some y -> y = low_fd p + Z.of_nat k) by (by intros k y (-> & _)%lookup_seqZ).
    assert (Hxk : x = low_fd p + Z.of_nat (length l1)) by (apply Hat; by rewrite Hl, list_lookup_middle).
    split_and!; [done|lia|]. intros fd Hfd.
    destruct (lookup_lt_is_Some_2 l1 (Z.to_nat (fd - low_fd p))) as [y Hy]; [lia|].
    assert (y = fd) as ->.
    { assert (Hly : l !! Z.to_nat (fd - low_fd p) = Some y) by (rewrite Hl; by apply lookup_app_l_Some).
      apply Hat in Hly. lia. }
    rewrite Forall_lookup in Hall. apply not_eq_None_Some. by eapply Hall.
  - exfalso. assert (Hsub : list_to_set l ⊆ dom (fds p)).
    { intros fd Hfd%elem_of_list_to_set. apply elem_of_dom, not_eq_None_Some. intros Hno.
      assert (fd ∈ filter (fun fd => fds p !! fd = None) l) as Hin by by apply list_elem_of_filter.
      destruct (filter _ l); [by apply not_elem_of_nil in Hin|done]. }
    apply subseteq_size in Hsub. rewrite size_list_to_set, size_dom in Hsub by apply NoDup_seqZ.
    unfold l in Hsub. rewrite length_seqZ in Hsub. lia.
Qed.

(** The value of a register on a read.  The monitoring counter answers from
    [mon]; the event selector is shared by the CPUs of a package, and another
    user may have changed it. *)
Definition read_reg (core a : Z) : D Z :=
  p ← get_state;
  if a =? PQOS_MSR_MON_QMC then
    modify (fun p => p <| mon ::= tail |>) ;; mret (u64 (default 0 (head (mon p))))
  else if a =? PQOS_MSR_MON_EVTSEL then
    modify (fun p => p <| foreign ::= tail |>) ;;
    match head (foreign p) with
    | Some (Some x) => modify (fun p => p <| regs ::= <[(core, a) := x]> |>) ;; mret (u64 x)
    | _ => mret (u64 (default 0 (regs p !! (core, a))))
    end
  else mret (u64 (default 0 (regs p !! (core, a)))).

(** [pread(fd, &x, 8, a)]: how it ends, and [x]. *)
Definition pread (fd a : Z) : D (io * Z) :=
  e ← next_io;
  p ← get_state;
  match fds p !! fd, e with
  | Some core, IoOk => x ← read_reg core a; mret (IoOk, x)
  | Some _, _ => mret (e, 0)
  | None, _ => mret (IoFail, 0)
  end.

(** [pwrite(fd, &x, 8, a)]. *)
Definition pwrite (fd x a : Z) : D io :=
  e ← next_io;
  p ← get_state;
  match fds p !! fd, e with
  | Some core, IoOk => modify (fun p => p <| regs ::= <[(core, a) := x]> |>) ;; mret IoOk
  | Some _, _ => mret e
  | None, _ => mret IoFail
  end.

Definition close_fd (fd : Z) : D unit := modify (fun p => p <| fds ::= delete fd |>).

Definition exit {A} (code : Z) : D A := stop_with (ExitWith code).

(** ** Prefetcher MSRs *)

Definition msr_open (core : Z) : D Z :=
  msr_file ← open_msr core;
  if msr_file <? 0 then exit (-1) else mret msr_file.

(** [msr_init(core, msr)]: the file and the table. *)
Definition msr_init (core : Z) (msr : list Z) : D (Z * list Z) :=
  ids ← gets msr_file_id;
  id ← read ids core;
  msr_file ← (if negb (id =? 0) then mret id else msr_open core);
  msr ← fold_each (seqZ 0 (HWPF_MSR_FIELDS - 1)) msr (fun msr i =>
    r ← pread msr_file (HWPF_MSR_BASE + i);
    if bool_decide (r.1 = IoOk) then mret (aset msr i r.2) else exit (-1));
  modify (fun p => p <| msr_file_id ::= fun ids => aset ids core msr_file |>) ;;
  r ← pread msr_file HWPF_MSR_0X1A4;
  if bool_decide (r.1 = IoOk) then mret (msr_file, aset msr (HWPF_MSR_FIELDS - 1) r.2) else exit (-1).

Definition msr_fixed_int (core : Z) : D Z :=
  msr_file ← open_msr core;
  if msr_file <? 0 then exit (-1) else mret msr_file.

(** A loop of writes that stops at the first failure: the value and the
    address of each; a value outside of its array has no meaning. *)
Fixpoint write_all (fd : Z) (ws : list (option Z * Z)) : D bool :=
  match ws with
  | [] => mret true
  | (None, _) :: _ => stop_with OutOfBounds
  | (Some x, a) :: ws' =>
      e ← pwrite fd x a;
      if bool_decide (e = IoOk) then write_all fd ws' else mret false
  end.

(** The writes of [for (i = 0; i < n; i++) pwrite(fd, &t[i], 8, base + i)]. *)
Definition table_writes (t : list Z) (n base : Z) : list (option Z * Z) :=
  map (fun i => (aget t i, base + i)) (seqZ 0 n).

Definition hwpf_writes (msr : list Z) : list (option Z * Z) :=
  table_writes msr (HWPF_MSR_FIELDS - 1) HWPF_MSR_BASE ++
  [(aget msr (HWPF_MSR_FIELDS - 1), HWPF_MSR_0X1A4)].

Definition msr_hwpf_write (msr_file : Z) (msr : list Z) : D Z :=
  ok ← write_all msr_file (hwpf_writes msr);
  mret (if ok : bool then 0 else -1).

(** ** Core counters *)

Definition msr_corepmu_setup (msr_file nr_events : Z) (event : list Z) : D Z :=
  if PMU_COUNTERS <? nr_events then exit (-1) else
  ok ← write_all msr_file (table_writes event nr_events PMU_PERFEVTSEL0);
  mret (if ok : bool then 0 else -1).

(** [msr_corepmu_read(msr_file, nr_events, result, &inst_retired, &cpu_cycles)]:
    the return value, [result], [inst_retired] and [cpu_cycles]. *)
Definition msr_corepmu_read (msr_file nr_events : Z) (result : list Z) (inst_retired cpu_cycles : Z) :
    D (Z * list Z * Z * Z) :=
  if PMU_COUNTERS <? nr_events then exit (-1) else
  alg ← gets tunealg;
  result ← (if negb (alg =? MAB) then
              fold_each (seqZ 0 nr_events) result (fun result i =>
                r ← pread msr_file (PMU_PMC0 + i);
                if bool_decide (r.1 = IoOk) then
                  check_index result i ;; mret (aset result i r.2)
                else exit (-1))
            else mret result);
  r ← pread msr_file MSR_FIXED_CTR0;
  if negb (bool_decide (r.1 = IoOk)) then mret (-1, result, inst_retired, cpu_cycles) else
  t ← gets tsc;
  mret (0, result, r.2, u64 t).

Definition msr_enable_fixed (msr_file : Z) : D Z :=
  ok ← write_all msr_file 
         [(Some 0x33, IA32_FIXED_CTR_CTRL); (Some 0, MSR_FIXED_CTR0); (Some 0, MSR_FIXED_CTR1)];
  mret (if ok : bool then 0 else -1).

Definition pmu_core_clear (msr_file : Z) : D Z :=
  msr_corepmu_setup msr_file PMU_COUNTERS (replicate 20 0) ;;
  ok ← write_all msr_file (table_writes (replicate 7 0) PMU_COUNTERS PMU_PMC0);
  mret (if ok : bool then 0 else -1).

(** The events of [pmu_core.h]; the array has seven entries. *)
Definition core_events : list Z :=
  [0x4381d0; 0x4302d1; 0x4304d1; 0x4380d1; 0x4300f4; 0; 0].

Definition pmu_core_config (msr_file : Z) : D Z :=
  pmu_core_clear msr_file ;;
  msr_corepmu_setup msr_file PMU_CORE_EVENT_COUNT core_events ;;
  mret 0.

Definition pmu_core_read (msr_file : Z) (result : list Z) (inst_retired cpu_cycles : Z) :
    D (Z * list Z * Z * Z) :=
  r ← msr_corepmu_read msr_file PMU_CORE_EVENT_COUNT result inst_retired cpu_cycles;
  let '(_, result, inst, cyc) := r in
  mret (0, result, inst, cyc).

(** ** Monitoring MSRs *)

(** [pread(msr_file_id[core], ...)] with the error handling of the getters. *)
Definition read_core_msr (core a : Z) : D Z :=
  ids ← gets msr_file_id;
  fd ← read ids core;
  r ← pread fd a;
  match r.1 with
  | IoOk => mret r.2
  | IoEIO => exit 4
  | IoFail => exit 127
  end.

(** [pwrite(msr_file_id[core], ...)] with the error handling of the setters. *)
Definition write_core_msr (core x a : Z) : D Z :=
  ids ← gets msr_file_id;
  fd ← read ids core;
  e ← pwrite fd x a;
  match e with
  | IoOk => mret 0
  | IoEIO => mret (-1)
  | IoFail => exit 127
  end.

(** The getters return 0 and the value. *)
Definition msr_get_rmid (core : Z) : D (Z * Z) :=
  v ← read_core_msr core PQOS_MSR_ASSOC;
  mret (0, v).

Definition msr_set_rmid (core rmid : Z) : D Z := write_core_msr core rmid PQOS_MSR_ASSOC.

Definition msr_get_evtsel (core : Z) : D (Z * Z) :=
  v ← read_core_msr core PQOS_MSR_MON_EVTSEL;
  mret (0, v).

Definition msr_set_evtsel (core event : Z) : D Z := write_core_msr core event PQOS_MSR_MON_EVTSEL.

Definition msr_get_mon_count (core : Z) : D (Z * Z) :=
  v ← read_core_msr core PQOS_MSR_MON_QMC;
  mret (0, v).

(** ** Runs of accesses *)

(** How many of the next [n] accesses succeed before the first failure. *)
Fixpoint granted (n : nat) (es : list io) : nat :=
  match n, es with
  | O, _ => O
  | S _, [] => n
  | S n', IoOk :: es' => S (granted n' es')
  | S _, _ :: _ => O
  end.

(** The registers after the writes [ws] to [core]. *)
Definition wrote (core : Z) (ws : list (option Z * Z)) (r : gmap (Z * Z) Z) : gmap (Z * Z) Z :=
  foldl (fun r w => <[(core, w.2) := default 0 w.1]> r) r ws.

(** The registers a plain read answers from. *)
Definition plain (a : Z) : Prop := a <> PQOS_MSR_MON_QMC /\ a <> PQOS_MSR_MON_EVTSEL.

Lemma granted_le n es : (granted n es <= n)%nat.
Proof.
  revert es. induction n as [|n IH]; intros es; simpl; [lia|].
  destruct es as [|[] es]; try lia. specialize (IH es). lia.
Qed.

Lemma granted_all n es :
  granted (S n) es = S n -> granted n (tail es) = n /\ (es = [] \/ exists es', es = IoOk :: es').
Proof.
  destruct es as [|[] es]; simpl; try done.
  - intros _. split; [by destruct n|by left].
  - intros [= H]. split; [done|]. right. by exists es.
Qed.

Lemma granted_add n m es :
  granted (n + m) es = (n + m)%nat -> granted n es = n /\ granted m (drop n es) = m.
Proof.
  revert es. induction n as [|n IH]; intros es Hg; [done|].
  destruct (granted_all _ _ Hg) as [Hg' [->|[es' ->]]].
  - split; [done|]. by destruct m.
  - destruct (IH es' Hg') as [H1 H2]. split; [by rewrite <- H1 at 2|done].
Qed.

Lemma map_u64_id ws : Forall (in_u 64) ws -> map u64 ws = ws.
Proof. induction 1 as [|x ws Hx _ IH]; [done|]. cbn. by rewrite IH, u64_small. Qed.

Lemma next_io_ok p : ios p = [] \/ (exists es, ios p = IoOk :: es) ->
  next_io p = Ok (IoOk, p <| ios ::= tail |>).
Proof.
  unfold next_io. intros [H|[es H]]; rewrite H; do 2 f_equal.
  - destruct p. simpl in *. by subst.
  - destruct p. simpl in *. by subst.
Qed.

Lemma pwrite_ok fd x a core p :
  fds p !! fd = Some core -> granted 1 (ios p) = 1%nat ->
  pwrite fd x a p = Ok (IoOk, p <| regs ::= <[(core, a) := x]> |> <| ios ::= tail |>).
Proof.
  intros Hfd Hg. unfold pwrite. rewrite (bind_Ok _ _ _ _ _ (next_io_ok p (proj2 (granted_all _ _ Hg)))).
  unfold mbind, ST_bind, get_state.
  change (fds (p <| ios ::= tail |>)) with (fds p). by rewrite Hfd.
Qed.

Lemma pwrite_fail fd x a core p e es :
  fds p !! fd = Some core -> ios p = e :: es -> e <> IoOk ->
  pwrite fd x a p = Ok (e, p <| ios := es |>).
Proof. intros Hfd Hi He. unfold pwrite, next_io, mbind, ST_bind, get_state.
  rewrite Hi. change (fds (p <| ios := es |>)) with (fds p). rewrite Hfd. by destruct e. Qed.

Lemma pread_ok fd a core p :
  plain a -> fds p !! fd = Some core -> granted 1 (ios p) = 1%nat ->
  pread fd a p = Ok ((IoOk, u64 (default 0 (regs p !! (core, a)))), p <| ios ::= tail |>).
Proof.
  intros [Hq Hs] Hfd Hg. unfold pread.
  rewrite (bind_Ok _ _ _ _ _ (next_io_ok p (proj2 (granted_all _ _ Hg)))).
  unfold mbind, ST_bind, get_state.
  change (fds (p <| ios ::= tail |>)) with (fds p). rewrite Hfd.
  unfold read_reg, mbind, ST_bind, get_state.
  by rewrite (proj2 (Z.eqb_neq _ _) Hq), (proj2 (Z.eqb_neq _ _) Hs).
Qed.

(** A loop of writes performs the accesses up to the first failure. *)
Lemma write_all_run fd core ws p :
  fds p !! fd = Some core -> Forall (fun w => is_Some w.1) ws ->
  let n := length ws in
  let g := granted n (ios p) in
  write_all fd ws p =
    Ok (bool_decide (g = n),
        p <| regs ::= wrote core (take g ws) |>
          <| ios ::= drop (if decide (g = n) then n else S g) |>).
Proof.
  revert p. induction ws as [|[w a] ws IH]; intros p Hfd Hws; cbn zeta.
  { cbn. by destruct p. }
  apply Forall_cons in Hws as [[x Hx] Hws]. simpl in Hx. subst w.
  destruct (ios p) as [|e es] eqn:Hi.
  - cbn [write_all]. rewrite (bind_Ok _ _ _ _ _ (pwrite_ok fd x a core p Hfd ltac:(by rewrite Hi))).
    cbn -[write_all]. rewrite IH by done.
    change (ios (p <| regs ::= _ |> <| ios ::= tail |>)) with (tail (ios p)). rewrite Hi. cbn.
    assert (Hg : granted (length ws) [] = length ws) by (by destruct ws). rewrite Hg.
    rewrite bool_decide_true, decide_True by done. rewrite bool_decide_true, decide_True by done.
    do 2 f_equal. destruct p; simpl in *; subst. cbn. unfold set. cbn. by rewrite !drop_nil.
  - destruct (decide (e = IoOk)) as [->|He].
    + cbn [write_all]. rewrite (bind_Ok _ _ _ _ _ (pwrite_ok fd x a core p Hfd ltac:(by rewrite Hi))).
      cbn -[write_all]. rewrite IH by done.
      change (ios (p <| regs ::= _ |> <| ios ::= tail |>)) with (tail (ios p)). rewrite Hi. cbn.
      do 2 f_equal; [apply bool_decide_ext; lia|].
      destruct (decide (granted (length ws) es = length ws)) as [H1|H1],
        (decide (S (granted (length ws) es) = S (length ws))) as [H2|H2]; try lia;
        destruct p; simpl in *; subst; done.
    + cbn [write_all]. rewrite (bind_Ok _ _ _ _ _ (pwrite_fail fd x a core p e es Hfd Hi He)).
      cbn [length granted]. rewrite (bool_decide_false (e = IoOk)) by done.
      assert (Hg : match e with IoOk => S (granted (length ws) es) | _ => 0%nat end = 0%nat) by (by destruct e).
      rewrite Hg. rewrite (bool_decide_false) by lia. rewrite decide_False by lia.
      do 2 f_equal. destruct p; simpl in *; by subst.
Qed.

Lemma tail_drop_S {A} n (l : list A) : tail (drop n l) = drop (S n) l.
Proof. revert l. induction n as [|n IH]; intros [|x l]; try done. apply IH. Qed.

Lemma ios_drop_tail n p : p <| ios ::= tail |> <| ios ::= drop n |> = p <| ios ::= drop (S n) |>.
Proof.
  destruct p as [? ? ? ? ? ? es]. unfold set. cbn. f_equal. by destruct es, n.
Qed.

(** A loop of successful reads into a table. *)
Lemma read_table_run fd core base l t p :
  fds p !! fd = Some core -> granted (length l) (ios p) = length l ->
  Forall (fun i => plain (base + i)) l ->
  fold_each l t (fun t i =>
    r ← pread fd (base + i);
    if bool_decide (r.1 = IoOk) then mret (aset t i r.2) else exit (-1)) p =
  Ok (foldl (fun t i => aset t i (u64 (default 0 (regs p !! (core, base + i))))) t l,
      p <| ios ::= drop (length l) |>).
Proof.
  revert t p. induction l as [|i l IH]; intros t p Hfd Hg Hl.
  { cbn. by destruct p. }
  apply Forall_cons in Hl as [Hi Hl]. cbn [length] in Hg. destruct (granted_all _ _ Hg) as [Hg' Hes].
  assert (H1 : granted 1 (ios p) = 1%nat) by (by destruct Hes as [->|[? ->]]).
  cbn [fold_each foldl]. rewrite (bind_Ok _ _ _ (aset t i (u64 (default 0 (regs p !! (core, base + i)))))
    (p <| ios ::= tail |>)) by (rewrite (bind_Ok _ _ _ _ _ (pread_ok fd _ core p Hi Hfd H1)); done).
  rewrite (IH _ (p <| ios ::= tail |>)) by done. do 2 f_equal. apply ios_drop_tail.
Qed.

Lemma hwpf_plain : Forall (fun i => plain (HWPF_MSR_BASE + i)) (seqZ 0 (HWPF_MSR_FIELDS - 1)).
Proof.
  apply Forall_forall. intros i Hi%elem_of_seqZ.
  unfold plain, HWPF_MSR_BASE, HWPF_MSR_FIELDS, PQOS_MSR_MON_QMC, PQOS_MSR_MON_EVTSEL in *. lia.
Qed.

(** The file the device functions use for a core: the open one, or a new one. *)
Lemma msr_init_run fd core t p msr :
  aget (msr_file_id p) core = Some fd -> fd <> 0 -> fds p !! fd = Some core ->
  granted 6 (ios p) = 6%nat -> zlen t = HWPF_MSR_FIELDS -> zlen msr = HWPF_MSR_FIELDS ->
  (forall i x, 0 <= i < 5 -> aget msr i = Some x -> regs p !! (core, HWPF_MSR_BASE + i) = Some x) ->
  (forall x, aget msr 5 = Some x -> regs p !! (core, HWPF_MSR_0X1A4) = Some x) ->
  msr_init core t p = Ok ((fd, map u64 msr), p <| ios ::= drop 6 |>).
Proof.
  intros Hid Hfd Hf Hg Ht Hm Hr Hl.
  unfold msr_init. rewrite bind_gets, (bind_Ok _ _ _ _ _ (read_Some _ _ _ p Hid)).
  rewrite (proj2 (Z.eqb_neq _ _) Hfd). change (negb false) with true. cbv iota.
  rewrite (bind_Ok (mret fd) _ _ fd p eq_refl).
  assert (Hsplit : granted 5 (ios p) = 5%nat /\ granted 1 (drop 5 (ios p)) = 1%nat).
  { destruct (ios p) as [|[] [|[] [|[] [|[] [|[] [|[] ?]]]]]]; simpl in Hg; try done. }
  destruct Hsplit as [Hg5 Hg1].
  rewrite (bind_Ok _ _ _ _ _ (read_table_run fd core HWPF_MSR_BASE (seqZ 0 (HWPF_MSR_FIELDS - 1)) t p Hf Hg5
    hwpf_plain)).
  rewrite bind_modify.
  erewrite bind_Ok; [|by apply (pread_ok fd HWPF_MSR_0X1A4 core); [split|apply Hf|apply Hg1]].
  unfold zlen, HWPF_MSR_FIELDS in Ht, Hm.
  do 7 (destruct t as [|? t]; try (simpl in Ht; lia)).
  do 7 (destruct msr as [|? msr]; try (simpl in Hm; lia)).
  cbn [fst snd]. rewrite bool_decide_true by done.
  change (seqZ 0 (HWPF_MSR_FIELDS - 1)) with [0; 1; 2; 3; 4]. cbn [foldl].
  rewrite (Hr 0 z5), (Hr 1 z6), (Hr 2 z7), (Hr 3 z8), (Hr 4 z9) by (done || lia).
  match goal with |- context [regs ?q !! (core, HWPF_MSR_0X1A4)] => change (regs q) with (regs p) end.
  rewrite (Hl z10) by done.
  unfold mret, ST_ret. do 2 f_equal. destruct p; unfold set; cbn in *. f_equal.
  - by apply aset_id.
  - apply (tail_drop_S 5).
Qed.

Lemma hwpf_writes_some msr :
  zlen msr = HWPF_MSR_FIELDS -> Forall (fun w => is_Some w.1) (hwpf_writes msr).
Proof.
  intros Hm. unfold zlen, HWPF_MSR_FIELDS in Hm.
  do 7 (destruct msr as [|? msr]; try (simpl in Hm; lia)). by repeat constructor.
Qed.

Lemma hwpf_write_run fd core msr p :
  fds p !! fd = Some core -> zlen msr = HWPF_MSR_FIELDS ->
  let g := granted 6 (ios p) in
  msr_hwpf_write fd msr p =
    Ok (if decide (g = 6%nat) then 0 else -1,
        p <| regs ::= wrote core (take g (hwpf_writes msr)) |>
          <| ios ::= drop (if decide (g = 6%nat) then 6 else S g) |>).
Proof.
  intros Hf Hm g.
  pose proof (write_all_run fd core (hwpf_writes msr) p Hf (hwpf_writes_some msr Hm)) as Hrun.
  cbn zeta in Hrun. change (length (hwpf_writes msr)) with 6%nat in Hrun. fold g in Hrun.
  unfold msr_hwpf_write. rewrite (bind_Ok _ _ _ _ _ Hrun). clearbody g. unfold mret, ST_ret.
  case_decide; [by rewrite bool_decide_true|by rewrite bool_decide_false].
Qed.

(** The six addresses are distinct, so each register holds its word. *)
Lemma wrote_hwpf core msr r :
  zlen msr = HWPF_MSR_FIELDS ->
  (forall i x, 0 <= i < 5 -> aget msr i = Some x ->
     wrote core (hwpf_writes msr) r !! (core, HWPF_MSR_BASE + i) = Some x) /\
  (forall x, aget msr 5 = Some x -> wrote core (hwpf_writes msr) r !! (core, HWPF_MSR_0X1A4) = Some x).
Proof.
  intros Hm. unfold zlen, HWPF_MSR_FIELDS in Hm.
  do 7 (destruct msr as [|? msr]; try (simpl in Hm; lia)).
  unfold hwpf_writes, table_writes. change (seqZ 0 (HWPF_MSR_FIELDS - 1)) with [0; 1; 2; 3; 4].
  unfold wrote. cbn [map app foldl snd fst aget Z.leb]. split.
  - intros i x Hi Hx.
    assert (Hc : i = 0 \/ i = 1 \/ i = 2 \/ i = 3 \/ i = 4) by lia.
    destruct Hc as [->|[->|[->|[->| ->]]]]; cbn in Hx; simplify_eq; cbn;
      repeat first [rewrite lookup_insert_eq; done | rewrite lookup_insert_ne by done].
  - intros x Hx. cbn in Hx. simplify_eq. cbn. by rewrite lookup_insert_eq.
Qed.

(** Writing a core's table of prefetcher words performs the six writes, in
    the order of the table, up to the first one the device refuses: it returns
    0 exactly when none is refused, and otherwise -1 with the words before the
    refused one already in the registers and no other register changed. *)
Theorem hwpf_write_outcome fd core msr p :
  fds p !! fd = Some core -> zlen msr = HWPF_MSR_FIELDS ->
  let g := granted 6 (ios p) in
  exists p', msr_hwpf_write fd msr p = Ok (if decide (g = 6%nat) then 0 else -1, p') /\
    regs p' = wrote core (take g (hwpf_writes msr)) (regs p) /\
    ios p' = drop (if decide (g = 6%nat) then 6 else S g) (ios p) /\
    fds p' = fds p /\ msr_file_id p' = msr_file_id p.
Proof. intros Hf Hm g. eexists. by rewrite (hwpf_write_run fd core msr p Hf Hm). Qed.

(** C37: a table written to a core and accepted is read back: when all six
    writes are accepted, [msr_init] on the same core, if its six reads succeed,
    answers the words written, whatever its table held. *)
Theorem hwpf_write_then_init fd core msr t p :
  fds p !! fd = Some core -> aget (msr_file_id p) core = Some fd -> fd <> 0 ->
  msr_table msr -> zlen t = HWPF_MSR_FIELDS -> granted 12 (ios p) = 12%nat ->
  exists p1 p2, msr_hwpf_write fd msr p = Ok (0, p1) /\ msr_init core t p1 = Ok ((fd, msr), p2).
Proof.
  intros Hf Hid Hfd [Hm Hw] Ht Hg. destruct (granted_add 6 6 _ Hg) as [Hg1 Hg2].
  rewrite (hwpf_write_run fd core msr p Hf Hm), Hg1. rewrite decide_True by done.
  do 2 eexists. split; [done|]. destruct (wrote_hwpf core msr (regs p) Hm) as [H1 H2].
  rewrite <- (map_u64_id msr Hw) at 2. by apply msr_init_run.
Qed.

(** A process on a two-core machine with core 1's device open. *)
Definition dev0 : proc :=
  {| regs := ∅; fds := {[3 := 1]}; low_fd := 3; msr_file_id := [0; 3]; tunealg := 0;
     opens := []; ios := []; tsc := 0; mon := []; foreign := [];
     mbm_data := replicate 2 {| rmid := 0; delta := 0; old_count := 0 |};
     total_mbt := 0; scale_factor := 1; counter_length := 24; max_rmid := 4; num_cores := 2 |}.

Lemma hwpf_write_outcome_witness :
  exists p', msr_hwpf_write 3 [1; 2; 3; 4; 5; 6] (dev0 <| ios := [IoOk; IoOk; IoEIO] |>) = Ok (-1, p') /\
    regs p' !! (1, 0x1321) = Some 2 /\ regs p' !! (1, 0x1322) = None.
Proof.
  destruct (hwpf_write_outcome 3 1 [1; 2; 3; 4; 5; 6] (dev0 <| ios := [IoOk; IoOk; IoEIO] |>)
    ltac:(by vm_compute) ltac:(by vm_compute)) as (p' & H & Hr & _).
  exists p'. split; [apply H|]. rewrite Hr. split; vm_compute; reflexivity.
Defined.

Lemma hwpf_write_then_init_witness :
  exists p1 p2, msr_hwpf_write 3 [1; 2; 3; 4; 5; 6] dev0 = Ok (0, p1) /\
    msr_init 1 (replicate 6 0) p1 = Ok ((3, [1; 2; 3; 4; 5; 6]), p2).
Proof.
  apply (hwpf_write_then_init 3 1); [vm_compute; reflexivity|reflexivity|lia| |reflexivity|reflexivity].
  split; [reflexivity|]. repeat constructor; lia.
Defined.
