(* ===== verification/PerfEvents.v ===== *)
(** * Perf events ([pmu_core.c])

    The second way of counting: seven kernel perf events per core, opened and
    enabled one by one, read together, closed at the end.  The state is the set
    of open descriptors; which descriptor [perf_event_open] hands out is the
    parameter [pick], and whether each call succeeds comes from lists. *)

From S2P Require Import Prelude.

Definition PMU_CORE_EVENT_COUNT : Z := 7.

Definition PERF_TYPE_RAW : Z := 4.

(** The fields of [struct perf_event_attr] the code sets. *)
Record perf_event_attr := { attr_type : Z; disabled : Z; config : Z }.

Record pstate := {
  popen : gset Z              (** open descriptors *);
  opens : list bool           (** whether the next [perf_event_open]s succeed *);
  ioctls : list bool          (** whether the next [ioctl]s succeed *);
  reads : list (option Z)     (** the next [read]s: the counter, or a failure *) }.

#[export] Instance pstate_settable : Settable pstate := fun r =>
  {| popen := popen r; opens := opens r; ioctls := ioctls r; reads := reads r |}.

Abbreviation P := (ST pstate).

Definition event_configs : list Z := [0x81d0; 0x02d1; 0x04d1; 0x80d1; 0x00f4; 0x00c0; 0x00c2].

(** [perf_configure_events(event_attrs, &num_events)]: the array and the number. *)
Definition perf_configure_events (event_attrs : list perf_event_attr) : P (list perf_event_attr * Z) :=
  attrs ← fold_each (seqZ 0 PMU_CORE_EVENT_COUNT) event_attrs (fun attrs i =>
    c ← read event_configs i;
    check_index attrs i ;;
    mret (aset attrs i {| attr_type := PERF_TYPE_RAW; disabled := 1; config := c |}));
  mret (attrs, PMU_CORE_EVENT_COUNT).

Definition close (fd : Z) : P unit := modify (fun s => s <| popen ::= fun o => o ∖ {[fd]} |>).

Section descriptors.
Context (pick : gset Z -> Z).

Definition open_perf_event : P Z := fun s =>
  let ok := default true (head (opens s)) in
  let s := s <| opens ::= tail |> in
  let fd := pick (popen s) in
  if ok then Ok (fd, s <| popen ::= fun o => {[fd]} ∪ o |>) else Ok (-1, s).

Definition ioctl_enable : P bool := fun s =>
  Ok (default true (head (ioctls s)), s <| ioctls ::= tail |>).

(** The clean-up loops: close the first [n] descriptors. *)
Definition cleanup (n : Z) (event_fds : list Z) : P (list Z) :=
  fold_each (seqZ 0 n) event_fds (fun fds j =>
    fd ← read fds j;
    if fd =? (-1) then mret fds else close fd ;; mret (aset fds j (-1))).

(** The loop of [perf_init] over the events [is]. *)
Fixpoint perf_init_loop (idx : list Z) (event_fds : list Z) : P (Z * list Z) :=
  match idx with
  | [] => mret (0, event_fds)
  | i :: idx' =>
      check_index event_fds i ;;
      fd ← open_perf_event;
      let event_fds := aset event_fds i fd in
      if fd =? (-1) then
        event_fds ← cleanup i event_fds;
        mret (-1, event_fds)
      else
        ok ← ioctl_enable;
        if negb ok then
          event_fds ← cleanup (i + 1) event_fds;
          mret (-1, event_fds)
        else perf_init_loop idx' event_fds
  end.

(** [perf_init(event_attrs, event_fds, num_events, core_id)]: the return value
    and [event_fds]. *)
Definition perf_init (event_fds : list Z) (num_events core_id : Z) : P (Z * list Z) :=
  if core_id <? 0 then mret (-1, event_fds) else
  perf_init_loop (seqZ 0 num_events) event_fds.
End descriptors.

(** One [read]: [None] when it fails. *)
Definition read_counter : P (option Z) := fun s =>
  Ok (default (Some 0) (head (reads s)), s <| reads ::= tail |>).

Fixpoint perf_read_loop (idx : list Z) (event_fds event_counts : list Z) : P (Z * list Z) :=
  match idx with
  | [] => mret (0, event_counts)
  | i :: idx' =>
      read event_fds i ;;
      r ← read_counter;
      match r with
      | None => mret (-1, event_counts)
      | Some x => check_index event_counts i ;; perf_read_loop idx' event_fds (aset event_counts i x)
      end
  end.

Definition perf_read (event_fds event_counts : list Z) (num_events : Z) : P (Z * list Z) :=
  perf_read_loop (seqZ 0 num_events) event_fds event_counts.

Definition perf_deinit (event_fds : list Z) (num_events : Z) : P Z :=
  for_each (seqZ 0 num_events) (fun i =>
    fd ← read event_fds i;
    if negb (fd =? (-1)) then close fd else mret tt) ;;
  mret 0.

(** ** Descriptors do not leak *)

(** [fds] starts with [k] descriptors opened after the set was [base]. *)
Record holds (base : gset Z) (k : nat) (fds : list Z) (s : pstate) : Prop := {
  holds_set : popen s = base ∪ list_to_set (take k fds);
  holds_new : Forall (fun fd => (fd ∉ base) /\ fd <> -1) (take k fds);
  holds_nodup : NoDup (take k fds) }.

Lemma seqZ_snoc n : 0 <= n -> seqZ 0 (n + 1) = seqZ 0 n ++ [n].
Proof. intros Hn. rewrite seqZ_app by lia. done. Qed.

(** Cleaning up closes the first [n] descriptors and forgets them. *)
Lemma cleanup_run n fds s :
  (n <= length fds)%nat -> Forall (fun fd => fd <> -1) (take n fds) ->
  cleanup (Z.of_nat n) fds s =
    Ok (replicate n (-1) ++ drop n fds, s <| popen ::= fun o => o ∖ list_to_set (take n fds) |>).
Proof.
  intros Hn. unfold cleanup. induction n as [|n IH]; intros Hf.
  { change (seqZ 0 (Z.of_nat 0)) with (@nil Z). cbn [fold_each replicate app]. unfold mret, ST_ret.
    do 2 f_equal. destruct s as [o ? ? ?]. unfold set. cbn. f_equal. symmetry. apply (difference_empty_L o). }
  destruct (lookup_lt_is_Some_2 fds n ltac:(lia)) as [fd Hfd].
  rewrite (take_S_r _ _ _ Hfd) in Hf |- *. apply Forall_app in Hf as [Hf Hlast].
  apply Forall_cons in Hlast as [Hlast _]. rewrite Nat2Z.inj_succ, <- Z.add_1_r, seqZ_snoc, fold_each_app by lia.
  rewrite (bind_Ok _ _ _ _ _ (IH ltac:(lia) Hf)). cbn [fold_each].
  assert (Hlk : aget (replicate n (-1) ++ drop n fds) (Z.of_nat n) = Some fd).
  { unfold aget. rewrite (proj2 (Z.leb_le _ _)), Nat2Z.id by lia.
    rewrite lookup_app_r, length_replicate by (rewrite length_replicate; lia).
    by rewrite Nat.sub_diag, lookup_drop, Nat.add_0_r. }
  unfold mbind at 1 2, ST_bind at 1 2. rewrite (read_Some _ _ _ _ Hlk). rewrite (proj2 (Z.eqb_neq _ _) Hlast).
  unfold close, modify, mbind, ST_bind, mret, ST_ret. do 2 f_equal.
  - unfold aset. rewrite (proj2 (Z.leb_le _ _)), Nat2Z.id by lia.
    rewrite (drop_S _ _ _ Hfd), insert_app_r_alt, length_replicate, Nat.sub_diag by (by rewrite length_replicate).
    by rewrite replicate_S_end, <- app_assoc.
  - destruct s. unfold set; cbn. f_equal. rewrite list_to_set_app_L. cbn. set_solver.
Qed.

Lemma cleanup_holds base k fds s :
  holds base k fds s -> (k <= length fds)%nat ->
  exists s', cleanup (Z.of_nat k) fds s = Ok (replicate k (-1) ++ drop k fds, s') /\ popen s' = base.
Proof.
  intros [Hs Hn _] Hk. eexists. split.
  - apply cleanup_run; [done|]. eapply Forall_impl; [exact Hn|]. naive_solver.
  - unfold set; cbn. rewrite Hs. apply set_eq. intros x. rewrite Forall_forall in Hn.
    rewrite elem_of_difference, elem_of_union, elem_of_list_to_set. split; [naive_solver|].
    intros Hx. split; [by left|]. intros Hin. by destruct (Hn x Hin).
Qed.

Section no_leak.
Context (pick : gset Z -> Z).
Hypothesis pick_fresh : forall o, pick o ∉ o.
Hypothesis pick_nonneg : forall o, 0 <= pick o.

(** Opening one more event. *)
Lemma open_holds base k fds s :
  holds base k fds s -> (k < length fds)%nat ->
  exists fd s', open_perf_event pick s = Ok (fd, s') /\
    if fd =? (-1) then holds base k (aset fds (Z.of_nat k) fd) s'
    else holds base (S k) (aset fds (Z.of_nat k) fd) s'.
Proof.
  intros [Hs Hn Hnd] Hk. unfold open_perf_event.
  assert (Ha : forall fd, aset fds (Z.of_nat k) fd = <[k := fd]> fds).
  { intros fd. unfold aset. by rewrite (proj2 (Z.leb_le _ _)), Nat2Z.id by lia. }
  destruct (default true (head (opens s))).
  - do 2 eexists. split; [reflexivity|]. pose proof (pick_nonneg (popen s)) as Hp.
    change (popen (s <| opens ::= tail |>)) with (popen s).
    rewrite (proj2 (Z.eqb_neq _ _)) by lia. rewrite Ha.
    assert (Htake : take (S k) (<[k := pick (popen s)]> fds) = take k fds ++ [pick (popen s)]).
    { erewrite take_S_r by (by apply list_lookup_insert_eq). by rewrite take_insert_ge. }
    split; rewrite Htake.
    + unfold set; cbn. rewrite Hs, list_to_set_app_L. cbn. set_solver.
    + apply Forall_app. split; [done|]. apply Forall_cons. split; [|done]. split; [|lia].
      pose proof (pick_fresh (popen s)) as Hf. rewrite Hs in Hf at 2. set_solver.
    + apply NoDup_app. split_and!; [done| |apply NoDup_singleton].
      intros x Hx Hin. apply list_elem_of_singleton in Hin as ->.
      pose proof (pick_fresh (popen s)) as Hf. rewrite Hs in Hf at 2. set_solver.
  - do 2 eexists. split; [reflexivity|]. cbn. rewrite Ha. split; by rewrite take_insert_ge.
Qed.

(** The descriptors of a set of events, from the [k]-th on. *)
Lemma perf_init_loop_run base n : forall k fds s,
  holds base k fds s -> (k + n <= length fds)%nat ->
  exists r fds' s', perf_init_loop pick (seqZ (Z.of_nat k) (Z.of_nat n)) fds s = Ok ((r, fds'), s') /\
    length fds' = length fds /\
    ((r = -1 /\ popen s' = base) \/ (r = 0 /\ holds base (k + n) fds' s')).
Proof.
  induction n as [|n IH]; intros k fds s Hh Hlen.
  { change (Z.of_nat 0) with 0. exists 0, fds, s. rewrite Nat.add_0_r. split_and!; [done..|]. by right. }
  rewrite seqZ_cons by lia. cbn [perf_init_loop].
  rewrite (bind_Ok (check_index fds (Z.of_nat k)) _ _ tt s) by
    (unfold check_index; by rewrite (proj2 (in_range_zlen _ _)) by (unfold zlen; lia)).
  destruct (open_holds base k fds s Hh ltac:(lia)) as (fd & s1 & Hopen & Hh1).
  rewrite (bind_Ok _ _ _ _ _ Hopen). cbv zeta.
  destruct (fd =? (-1)).
  { destruct (cleanup_holds base k _ s1 Hh1) as (s2 & Hc & Hp); [rewrite length_aset; lia|].
    rewrite (bind_Ok _ _ _ _ _ Hc). do 3 eexists. split; [reflexivity|].
    split; [|by left]. rewrite length_app, length_replicate, length_drop, length_aset. lia. }
  unfold mbind at 1, ST_bind at 1, ioctl_enable.
  assert (Hh2 : holds base (S k) (aset fds (Z.of_nat k) fd) (s1 <| ioctls ::= tail |>)) by (by destruct Hh1).
  destruct (default true (head (ioctls s1))); cbn [negb].
  - replace (Z.succ (Z.of_nat k)) with (Z.of_nat (S k)) by lia.
    replace (Z.pred (Z.of_nat (S n))) with (Z.of_nat n) by lia.
    destruct (IH (S k) _ _ Hh2 ltac:(rewrite length_aset; lia)) as (r & fds' & s' & Hrun & Hl & Hr).
    exists r, fds', s'. rewrite length_aset in Hl. replace (k + S n)%nat with (S k + n)%nat by lia. done.
  - destruct (cleanup_holds base (S k) _ _ Hh2) as (s2 & Hc & Hp); [rewrite length_aset; lia|].
    replace (Z.of_nat k + 1) with (Z.of_nat (S k)) by lia.
    rewrite (bind_Ok _ _ _ _ _ Hc). do 3 eexists. split; [reflexivity|].
    split; [|by left]. rewrite length_app, length_replicate, length_drop, length_aset. lia.
Qed.
End no_leak.

Lemma perf_deinit_run base n fds s :
  holds base n fds s -> (n <= length fds)%nat ->
  exists s', perf_deinit fds (Z.of_nat n) s = Ok (0, s') /\ popen s' = base.
Proof.
  intros [Hs Hn _] Hl. unfold perf_deinit.
  assert (Hrun : for_each (seqZ 0 (Z.of_nat n)) (fun i =>
      fd ← read fds i; if negb (fd =? (-1)) then close fd else mret tt) s =
    Ok (tt, s <| popen ::= fun o => o ∖ list_to_set (take n fds) |>)).
  { clear Hs. induction n as [|n IH].
    { change (seqZ 0 (Z.of_nat 0)) with (@nil Z). cbn [for_each]. unfold mret, ST_ret. do 2 f_equal.
      destruct s as [o ? ? ?]. unfold set. cbn. f_equal. symmetry. apply (difference_empty_L o). }
    destruct (lookup_lt_is_Some_2 fds n ltac:(lia)) as [fd Hfd].
    rewrite (take_S_r _ _ _ Hfd) in Hn |- *. apply Forall_app in Hn as [Hn Hlast].
    apply Forall_cons in Hlast as [[_ Hlast] _].
    rewrite Nat2Z.inj_succ, <- Z.add_1_r, seqZ_snoc, for_each_app by lia.
    rewrite (bind_Ok _ _ _ _ _ (IH Hn ltac:(lia))). cbn [for_each].
    assert (Hlk : aget fds (Z.of_nat n) = Some fd).
    { unfold aget. by rewrite (proj2 (Z.leb_le _ _)), Nat2Z.id by lia. }
    unfold mbind, ST_bind. rewrite (read_Some _ _ _ _ Hlk), (proj2 (Z.eqb_neq _ _) Hlast).
    unfold close, modify, mret, ST_ret. cbn [negb]. do 2 f_equal.
    destruct s. unfold set; cbn. f_equal. rewrite list_to_set_app_L. cbn. set_solver. }
  rewrite (bind_Ok _ _ _ _ _ Hrun). eexists. split; [reflexivity|]. unfold set; cbn. rewrite Hs.
  apply set_eq. intros x. rewrite Forall_forall in Hn. set_solver.
Qed.

(** C38: perf events leave no descriptor behind.  Opening the events of a core
    either opens one new descriptor per event, all different, and closing them
    afterwards restores the set of open files, or fails with -1 and has closed
    every descriptor it opened, whichever event failed to open or to be
    enabled. *)
Theorem perf_init_no_leak pick fds num_events core_id s
    (pick_fresh : forall o, pick o ∉ o) (pick_nonneg : forall o, 0 <= pick o) :
  0 <= num_events <= zlen fds ->
  exists r fds' s', perf_init pick fds num_events core_id s = Ok ((r, fds'), s') /\
    ((r = -1 /\ popen s' = popen s) \/
     (r = 0 /\ size (popen s') = (size (popen s) + Z.to_nat num_events)%nat /\
      exists s'', perf_deinit fds' num_events s' = Ok (0, s'') /\ popen s'' = popen s)).
Proof.
  intros Hn. unfold perf_init. destruct (core_id <? 0).
  { exists (-1), fds, s. split; [done|]. by left. }
  unfold zlen in Hn.
  assert (Hh : holds (popen s) 0 fds s).
  { split; cbn; [set_solver|done|apply NoDup_nil_2]. }
  destruct (perf_init_loop_run pick pick_fresh pick_nonneg (popen s) (Z.to_nat num_events) 0 fds s Hh
    ltac:(lia)) as (r & fds' & s' & Hrun & Hl & Hr).
  rewrite Z2Nat.id in Hrun by lia. exists r, fds', s'. split; [done|].
  destruct Hr as [?|[-> Hh']]; [by left|]. right. split; [done|]. cbn in Hh'. split.
  - destruct Hh' as [Hs Hnew Hnd]. rewrite Hs, size_union, size_list_to_set by
      (done || (rewrite Forall_forall in Hnew; set_solver)).
    rewrite length_take. lia.
  - destruct (perf_deinit_run _ _ _ _ Hh' ltac:(lia)) as (s'' & Hd & Hp).
    rewrite Z2Nat.id in Hd by lia. by exists s''.
Qed.

(** A descriptor above all open ones. *)
Definition pick_max (o : gset Z) : Z := 1 + foldr Z.max 2 (elements o).

Lemma foldr_max_ge (l : list Z) x : x ∈ l -> x <= foldr Z.max 2 l.
Proof.
  induction l as [|y l IH]; intros Hx; [by apply elem_of_nil in Hx|]. cbn.
  apply elem_of_cons in Hx as [->|Hx]; [lia|]. specialize (IH Hx). lia.
Qed.

Lemma pick_max_fresh o : pick_max o ∉ o.
Proof. intros H. apply elem_of_elements, foldr_max_ge in H. unfold pick_max in *. lia. Qed.

Lemma pick_max_nonneg o : 0 <= pick_max o.
Proof.
  unfold pick_max. assert (2 <= foldr Z.max 2 (elements o)); [|lia].
  induction (elements o); cbn; lia.
Qed.

(** The fourth event cannot be enabled. *)
Definition perf0 : pstate :=
  {| popen := {[0; 1; 2]}; opens := []; ioctls := [true; true; true; false]; reads := [] |}.

Lemma perf_init_no_leak_witness :
  exists fds' s', perf_init pick_max (replicate 8 0) 7 0 perf0 = Ok ((-1, fds'), s') /\
    popen s' = popen perf0.
Proof.
  destruct (perf_init_no_leak pick_max (replicate 8 0) 7 0 perf0 pick_max_fresh pick_max_nonneg)
    as (r & fds' & s' & Hrun & [[-> Hp]|[-> _]]).
  - vm_compute. split; discriminate.
  - exists fds', s'. split; [exact Hrun|exact Hp].
  - exfalso. apply (f_equal (fun o => match o with Ok ((r, _), _) => r | Stop _ => 1 end)) in Hrun.
    vm_compute in Hrun. discriminate.
Defined.
