(* ===== verification/RdtMbm.v ===== *)
(** * Memory bandwidth by RDT monitoring ([rdt_mbm.c])

    On servers without a known DDR controller the tuner measures bandwidth with
    the resource monitoring of the CPU: each core is given a monitoring id
    (RMID), and a pair of MSRs, the event selector and the monitoring counter,
    answers the bytes moved under an id.  The functions run on the process of
    [MsrDev]; [cpuid] and the number of online CPUs are parameters. *)

From S2P Require Import Prelude Bitfields Msr MsrDev.

(** ** Constants *)

Definition PQOS_MSR_ASSOC_QECOS_MASK : Z := 0xffffffff00000000.

Definition PQOS_MSR_ASSOC_RMID_MASK : Z := Z.shiftl 1 10 - 1.

Definition PQOS_MSR_MON_EVTSEL_RMID_SHIFT : Z := 32.

Definition PQOS_MSR_MON_EVTSEL_RMID_MASK : Z := Z.shiftl 1 10 - 1.

Definition PQOS_MSR_MON_EVTSEL_EVTID_MASK : Z := Z.shiftl 1 8 - 1.

Definition PQOS_MSR_MON_QMC_DATA_MASK : Z := Z.shiftl 1 62 - 1.

Definition PQOS_MSR_MON_QMC_ERROR : Z := Z.shiftl 1 63.

Definition PQOS_MSR_MON_QMC_UNAVAILABLE : Z := Z.shiftl 1 62.

Definition PQOS_CPUID_MON_TMEM_BW_BIT : Z := 2.

Definition PQOS_CPUID_MON_LMEM_BW_BIT : Z := 4.

Definition MIN_MBM_COUNTER_LEN : Z := 24.

Definition min_rmid : Z := 1.

(** [enum pqos_mon_event]. *)
Definition PQOS_MON_EVENT_LMEM_BW : Z := 2.

Definition PQOS_MON_EVENT_TMEM_BW : Z := 4.

(** ** Operations *)

Record cpuid_out := { eax : Z; ebx : Z; ecx : Z; edx : Z }.

Section support.
Context (cpuid : Z -> Z -> cpuid_out) (nprocessors_onln : Z).

Definition rdt_mbm_support_check : D Z :=
  let reg := cpuid 0x07 0x00 in
  if Z.land (ebx reg) (Z.shiftl 1 12) =? 0 then mret (-1) else
  let reg := cpuid 0x0f 0x00 in
  if Z.land (edx reg) (Z.shiftl 1 1) =? 0 then mret (-2) else
  modify (fun p => p <| max_rmid := u32 (ebx reg + 1) |>) ;;
  let reg := cpuid 0x0f 0x01 in
  if Z.land (edx reg) PQOS_CPUID_MON_TMEM_BW_BIT =? 0 then mret (-3) else
  if Z.land (edx reg) PQOS_CPUID_MON_LMEM_BW_BIT =? 0 then mret (-4) else
  modify (fun p => p <| scale_factor := ebx reg |>
                     <| counter_length := u32 (Z.land (eax reg) 0x7f + MIN_MBM_COUNTER_LEN) |>
                     <| num_cores := u32 nprocessors_onln |>) ;;
  mret 0.
End support.

Definition core2rmid (core : Z) : D Z :=
  p ← get_state;
  let rmid := u32 (core + 1) in
  mret (if max_rmid p <? rmid then min_rmid else rmid).

(** The cores of the loops [for (core = 0; core <= (unsigned)(num_cores - 1); core++)]. *)
Definition all_cores (p : proc) : list Z := seqZ 0 (u32 (num_cores p - 1) + 1).

(** The loop of [rdt_mbm_reset]; [true] when it ends. *)
Fixpoint reset_loop (cores : list Z) : D bool :=
  match cores with
  | [] => mret true
  | core :: rest =>
      retval ← msr_set_rmid core 0;
      if negb (retval =? 0) then mret false else
      ids ← gets msr_file_id;
      fd ← read ids core;
      close_fd fd ;;
      reset_loop rest
  end.

Definition rdt_mbm_reset : D Z :=
  cores ← gets all_cores;
  ok ← reset_loop cores;
  mret (if ok : bool then 0 else -1).

Definition get_event_id (event : Z) : D Z :=
  if event =? PQOS_MON_EVENT_LMEM_BW then mret 3 else
  if event =? PQOS_MON_EVENT_TMEM_BW then mret 2 else
  rdt_mbm_reset ;; mret 0.

Definition rdt_mbm_set_rmid (core rmid : Z) : D Z :=
  r ← msr_get_rmid core;
  let '(ret, val) := r in
  if negb (ret =? 0) then mret (-1) else
  let val := Z.land val PQOS_MSR_ASSOC_QECOS_MASK in
  let val := Z.lor val (Z.land rmid PQOS_MSR_ASSOC_RMID_MASK) in
  msr_set_rmid core val.

(** The word of the event selector for an id and an event. *)
Definition evtsel (rmid event : Z) : Z :=
  Z.lor (u64 (Z.shiftl (Z.land rmid PQOS_MSR_MON_EVTSEL_RMID_MASK) PQOS_MSR_MON_EVTSEL_RMID_SHIFT))
        (Z.land event PQOS_MSR_MON_EVTSEL_EVTID_MASK).

(** The loop of [rdt_mbm_bw_count], [n] tries left: [retval] and [val]. *)
Fixpoint bw_count_loop (n : nat) (core val_evtsel : Z) (flag_wrt : bool) (val : Z) : D (Z * Z) :=
  match n with
  | O => mret (-1, val)
  | S n' =>
      w ← (if flag_wrt then msr_set_evtsel core val_evtsel else mret 0);
      if negb (w =? 0) then mret (-1, val) else
      r ← msr_get_mon_count core;
      let '(ret, val) := r in
      if negb (ret =? 0) then mret (-1, val) else
      if negb (Z.land val PQOS_MSR_MON_QMC_ERROR =? 0) then
        r ← msr_get_evtsel core;
        let '(ret, val) := r in
        if negb (ret =? 0) then mret (-1, val) else
        if negb (val =? val_evtsel) then bw_count_loop n' core val_evtsel true val else
        if negb (Z.land val PQOS_MSR_MON_QMC_UNAVAILABLE =? 0)
        then bw_count_loop n' core val_evtsel false val
        else mret (0, val)
      else if negb (Z.land val PQOS_MSR_MON_QMC_UNAVAILABLE =? 0)
      then bw_count_loop n' core val_evtsel false val
      else mret (0, val)
  end.

(** [rdt_mbm_bw_count(core, rmid, event, &value)]: the return value and [value]. *)
Definition rdt_mbm_bw_count (core rmid event value : Z) : D (Z * Z) :=
  r ← bw_count_loop 4 core (evtsel rmid event) true 0;
  let '(retval, val) := r in
  mret (if retval =? 0 then (0, Z.land val PQOS_MSR_MON_QMC_DATA_MASK) else (retval, value)).

(** The loop of [rdt_mbm_bw_get], with [bw_count]; [Some] is an early return. *)
Fixpoint bw_get_loop (cores : list Z) (bw_count : Z) : D (option Z) :=
  match cores with
  | [] => mret None
  | core :: rest =>
      ds ← gets mbm_data;
      d ← read ds core;
      if rmid d =? 0 then bw_get_loop rest bw_count else
      event ← get_event_id PQOS_MON_EVENT_TMEM_BW;
      r ← rdt_mbm_bw_count core (rmid d) event bw_count;
      let '(ret, bw_count) := r in
      if negb (ret =? 0) then mret (Some (u64 ret)) else
      let delta' := u64 (bw_count - old_count d) in
      modify (fun p => p <| mbm_data ::= fun ds => aset ds core (d <| delta := delta' |> <| old_count := bw_count |>) |>
                         <| total_mbt ::= fun t => u64 (t + delta') |>) ;;
      bw_get_loop rest bw_count
  end.

Definition rdt_mbm_bw_get : D Z :=
  modify (fun p => p <| total_mbt := 0 |>) ;;
  cores ← gets all_cores;
  r ← bw_get_loop cores 0;
  match r with
  | Some ret => mret ret
  | None => p ← get_state; mret (u64 (total_mbt p * scale_factor p))
  end.

(** One core of the loop of [rdt_mbm_init]. *)
Definition init_core (mon_count core : Z) : D Z :=
  rmid' ← core2rmid core;
  ids ← gets msr_file_id;
  id ← read ids core;
  (if id =? 0 then
     fd ← msr_open core;
     modify (fun p => p <| msr_file_id ::= fun ids => aset ids core fd |>)
   else mret tt) ;;
  ret ← rdt_mbm_set_rmid core rmid';
  if negb (ret =? 0) then mret mon_count else
  ds ← gets mbm_data;
  d ← read ds core;
  modify (fun p => p <| mbm_data ::= fun ds => aset ds core (d <| rmid := rmid' |>) |>) ;;
  mret (mon_count + 1).

Definition rdt_mbm_init : D Z :=
  cores ← gets all_cores;
  mon_count ← fold_each cores 0 init_core;
  if mon_count =? 0 then mret (-1) else
  rdt_mbm_bw_get ;; rdt_mbm_bw_get ;; mret 0.

(** ** Device accesses that succeed *)

(** The device of [core] is open and no access is refused. *)
Record ready (core : Z) (p : proc) : Prop := {
  ready_fd : exists fd, aget (msr_file_id p) core = Some fd /\ fds p !! fd = Some core;
  ready_ios : ios p = [] }.

Lemma ios_tail_nil p : ios p = [] -> p <| ios ::= tail |> = p.
Proof. intros H. destruct p. cbn in *. by subst. Qed.

Lemma write_core_msr_run core x a p :
  ready core p -> write_core_msr core x a p = Ok (0, p <| regs ::= <[(core, a) := x]> |>).
Proof.
  intros [(fd & Hid & Hf) Hi]. unfold write_core_msr.
  rewrite bind_gets, (bind_Ok _ _ _ _ _ (read_Some _ _ _ p Hid)).
  rewrite (bind_Ok _ _ _ _ _ (pwrite_ok fd x a core p Hf ltac:(by rewrite Hi))).
  by rewrite ios_tail_nil.
Qed.

Lemma read_core_msr_run core a p :
  ready core p -> plain a -> read_core_msr core a p = Ok (u64 (default 0 (regs p !! (core, a))), p).
Proof.
  intros [(fd & Hid & Hf) Hi] Ha. unfold read_core_msr.
  rewrite bind_gets, (bind_Ok _ _ _ _ _ (read_Some _ _ _ p Hid)).
  rewrite (bind_Ok _ _ _ _ _ (pread_ok fd a core p Ha Hf ltac:(by rewrite Hi))).
  by rewrite ios_tail_nil.
Qed.

(** The counter and the selector have values of their own. *)
Lemma read_core_msr_special core a p x p' :
  ready core p -> read_reg core a p = Ok (x, p') -> read_core_msr core a p = Ok (x, p').
Proof.
  intros [(fd & Hid & Hf) Hi] Hr. unfold read_core_msr.
  rewrite bind_gets, (bind_Ok _ _ _ _ _ (read_Some _ _ _ p Hid)).
  rewrite (bind_Ok _ _ _ (IoOk, x) p'); [done|].
  unfold pread. rewrite (bind_Ok _ _ _ IoOk p) by (unfold next_io; by rewrite Hi).
  unfold mbind, ST_bind, get_state. rewrite Hf. by rewrite Hr.
Qed.

Lemma get_mon_count_run core p v vs :
  ready core p -> mon p = v :: vs -> msr_get_mon_count core p = Ok ((0, u64 v), p <| mon := vs |>).
Proof.
  intros Hrd Hm. unfold msr_get_mon_count.
  rewrite (bind_Ok _ _ _ (u64 v) (p <| mon := vs |>)); [done|].
  apply read_core_msr_special; [done|]. unfold read_reg, get_state, modify, mbind, ST_bind, set.
  change (PQOS_MSR_MON_QMC =? PQOS_MSR_MON_QMC) with true. cbn. by rewrite Hm.
Qed.

Lemma get_evtsel_run core p :
  ready core p -> foreign p = [] ->
  msr_get_evtsel core p = Ok ((0, u64 (default 0 (regs p !! (core, PQOS_MSR_MON_EVTSEL)))), p).
Proof.
  intros Hrd Hn. unfold msr_get_evtsel.
  rewrite (bind_Ok _ _ _ (u64 (default 0 (regs p !! (core, PQOS_MSR_MON_EVTSEL)))) p); [done|].
  apply read_core_msr_special; [done|]. unfold read_reg, get_state, modify, mbind, ST_bind, mret, ST_ret.
  change (PQOS_MSR_MON_EVTSEL =? PQOS_MSR_MON_QMC) with false.
  change (PQOS_MSR_MON_EVTSEL =? PQOS_MSR_MON_EVTSEL) with true. cbv iota. rewrite Hn. cbn [head].
  do 2 f_equal. destruct p; cbn in *. by subst.
Qed.

(** ** The retry loop *)

(** The counter has no data yet: bit 62 set, bit 63 clear. *)
Definition waiting (v : Z) : Prop := in_u 64 v /\ Z.testbit v 62 = true /\ Z.testbit v 63 = false.

Lemma land_bit v k : 0 <= k -> (Z.land v (Z.shiftl 1 k) =? 0) = negb (Z.testbit v k).
Proof.
  intros Hk. rewrite Z.shiftl_1_l. destruct (Z.testbit v k) eqn:Hb; simpl.
  - apply Z.eqb_neq. intros H0. assert (Z.testbit (Z.land v (2 ^ k)) k = true) as Ht.
    { by rewrite Z.land_spec, Hb, Z.pow2_bits_true. }
    by rewrite H0, Z.bits_0 in Ht.
  - apply Z.eqb_eq. apply Z.bits_inj'. intros i Hi. rewrite Z.land_spec, Z.bits_0.
    destruct (decide (i = k)) as [->|Hne]; [by rewrite Hb|].
    by rewrite Z.pow2_bits_false, andb_false_r by lia.
Qed.

Lemma testbit_small v k n : 0 <= v < 2 ^ n -> n <= k -> Z.testbit v k = false.
Proof.
  intros Hv Hk. assert (0 <= n) by (destruct (Z.neg_nonneg_cases n); [rewrite Z.pow_neg_r in Hv; lia|done]).
  destruct (decide (v = 0)) as [->|]; [apply Z.bits_0|].
  apply Z.bits_above_log2; [lia|]. apply Z.lt_le_trans with n; [|done]. apply Z.log2_lt_pow2; lia.
Qed.

Lemma ready_mon core p vs : ready core p -> ready core (p <| mon := vs |>).
Proof. by intros [? ?]. Qed.

Lemma ready_regs core p f : ready core p -> ready core (p <| regs ::= f |>).
Proof. by intros [? ?]. Qed.

#[local] Hint Resolve ready_mon ready_regs : core.

(** One turn of the loop, the selector in place. *)
Lemma loop_turn n core sel val p v vs :
  ready core p -> mon p = v :: vs -> in_u 64 v -> Z.testbit v 63 = false ->
  bw_count_loop (S n) core sel false val p =
    (if Z.testbit v 62 then bw_count_loop n core sel false v (p <| mon := vs |>)
     else Ok ((0, v), p <| mon := vs |>)).
Proof.
  intros Hrd Hm Hv Hb. cbn [bw_count_loop].
  rewrite (bind_Ok (mret 0) _ _ 0 p eq_refl). change (negb (0 =? 0)) with false. cbv iota.
  rewrite (bind_Ok _ _ _ _ _ (get_mon_count_run core p v vs Hrd Hm)).
  change (negb (0 =? 0)) with false. cbv iota. rewrite (u64_small v) by done.
  unfold PQOS_MSR_MON_QMC_ERROR, PQOS_MSR_MON_QMC_UNAVAILABLE.
  rewrite !land_bit by lia. rewrite Hb, negb_involutive. cbn [negb]. by destruct (Z.testbit v 62).
Qed.

Lemma loop_waits us : forall n core sel val p rest,
  ready core p -> mon p = us ++ rest -> Forall waiting us -> (length us <= n)%nat ->
  exists val', bw_count_loop n core sel false val p =
               bw_count_loop (n - length us) core sel false val' (p <| mon := rest |>).
Proof.
  induction us as [|u us IH]; intros n core sel val p rest Hrd Hm Hus Hn.
  { exists val. rewrite Nat.sub_0_r. f_equal. destruct p. cbn in *. by subst. }
  apply Forall_cons in Hus as [(Hu & H62 & H63) Hus]. cbn [length] in Hn |- *.
  destruct n as [|n]; [lia|].
  rewrite (loop_turn n core sel val p u (us ++ rest)), H62 by done.
  destruct (IH n core sel u (p <| mon := us ++ rest |>) rest) as [val' ->]; try done; [auto|lia|].
  by exists val'.
Qed.

(** A counter value with data is taken whole. *)
Lemma land_data_mask v : 0 <= v < 2 ^ 62 -> Z.land v PQOS_MSR_MON_QMC_DATA_MASK = v.
Proof.
  intros Hv. change PQOS_MSR_MON_QMC_DATA_MASK with (Z.ones 62).
  rewrite Z.land_ones by lia. by apply Z.mod_small.
Qed.

(** The first turn writes the selector. *)
Lemma loop_first n core sel val p :
  ready core p ->
  bw_count_loop (S n) core sel true val p =
  bw_count_loop (S n) core sel false val (p <| regs ::= <[(core, PQOS_MSR_MON_EVTSEL) := sel]> |>).
Proof.
  intros Hrd. cbn [bw_count_loop]. unfold msr_set_evtsel.
  by rewrite (bind_Ok _ _ _ _ _ (write_core_msr_run core sel _ p Hrd)).
Qed.

(** A count is the first answer with data. *)
Lemma bw_count_data core rmid event value p us v rest :
  ready core p -> Forall waiting us -> mon p = us ++ v :: rest -> (length us < 4)%nat ->
  0 <= v < 2 ^ 62 ->
  rdt_mbm_bw_count core rmid event value p =
    Ok ((0, v), p <| regs ::= <[(core, PQOS_MSR_MON_EVTSEL) := evtsel rmid event]> |> <| mon := rest |>).
Proof.
  intros Hrd Hus Hm Hl Hv. unfold rdt_mbm_bw_count.
  set (q := p <| regs ::= <[(core, PQOS_MSR_MON_EVTSEL) := evtsel rmid event]> |>).
  assert (Hrq : ready core q) by (by apply ready_regs).
  rewrite (bind_Ok _ _ _ (0, v) (q <| mon := rest |>)).
  { unfold mret, ST_ret. change (0 =? 0) with true. cbv iota. by rewrite land_data_mask. }
  destruct (loop_waits us 4 core (evtsel rmid event) 0 q (v :: rest)) as [val' Hw]; try done; [lia|].
  rewrite loop_first by done. fold q. rewrite Hw. destruct (4 - length us)%nat as [|k] eqn:Hk; [lia|].
  assert (in_u 64 v) by (unfold in_u; lia).
  rewrite (loop_turn k core _ _ _ v rest) by (auto; apply (testbit_small v 63 62); lia).
  by rewrite (testbit_small v 62 62).
Qed.

(** Reading the counter of a core selects the core's id and event and waits
    for data: when fewer than four answers say that there is none yet, the
    value is the first one that has data, taken whole, and the later answers
    are left; after four answers without data the call fails and the caller's
    value is kept. *)
Theorem bw_count_waits core rmid event value p us rest :
  ready core p -> Forall waiting us -> mon p = us ++ rest ->
  let selected := p <| regs ::= <[(core, PQOS_MSR_MON_EVTSEL) := evtsel rmid event]> |> in
  (length us = 4%nat ->
     rdt_mbm_bw_count core rmid event value p = Ok ((-1, value), selected <| mon := rest |>)) /\
  (forall v rest', (length us < 4)%nat -> rest = v :: rest' -> 0 <= v < 2 ^ 62 ->
     rdt_mbm_bw_count core rmid event value p = Ok ((0, v), selected <| mon := rest' |>)).
Proof.
  intros Hrd Hus Hm selected. split.
  - intros Hl. assert (Hrd' : ready core selected) by (by apply ready_regs).
    destruct (loop_waits us 4 core (evtsel rmid event) 0 selected rest) as [val' Hw]; try done; [lia|].
    unfold rdt_mbm_bw_count.
    rewrite (bind_Ok _ _ _ (-1, val') (selected <| mon := rest |>)); [done|].
    rewrite loop_first by done. fold selected. by rewrite Hw, Hl.
  - intros v rest' Hl -> Hv. by apply (bw_count_data _ _ _ _ _ us).
Qed.

(** The fields of the selector do not overlap. *)
Lemma evtsel_value rmid event :
  evtsel rmid event = rmid mod 2 ^ 10 * 2 ^ 32 + event mod 2 ^ 8.
Proof.
  unfold evtsel, PQOS_MSR_MON_EVTSEL_RMID_SHIFT.
  change PQOS_MSR_MON_EVTSEL_RMID_MASK with (Z.ones 10). change PQOS_MSR_MON_EVTSEL_EVTID_MASK with (Z.ones 8).
  rewrite !Z.land_ones by lia.
  pose proof (Z.mod_pos_bound rmid (2 ^ 10) ltac:(lia)) as Hr.
  pose proof (Z.mod_pos_bound event (2 ^ 8) ltac:(lia)) as He.
  rewrite Z.shiftl_mul_pow2, u64_small by lia.
  rewrite <- Z.shiftl_mul_pow2 by lia. apply eq_sym, Z.add_nocarry_lor.
  apply Z.bits_inj'. intros i Hi. rewrite Z.land_spec, Z.bits_0, Z.shiftl_spec by done.
  destruct (Z.lt_ge_cases i 32).
  - by rewrite (Z.testbit_neg_r _ (i - 32)) by lia.
  - by rewrite (testbit_small (event mod 2 ^ 8) i 8), andb_false_r by lia.
Qed.

Lemma evtsel_range rmid event : 0 <= evtsel rmid event < 2 ^ 62.
Proof.
  rewrite evtsel_value.
  pose proof (Z.mod_pos_bound rmid (2 ^ 10) ltac:(lia)). pose proof (Z.mod_pos_bound event (2 ^ 8) ltac:(lia)). lia.
Qed.

(** An answer with the error bit is taken for a count.  When the counter
    reports an error and the selector still holds what was written, the call
    succeeds, and the count it returns is the selector word itself, id and
    event, not a number of bytes. *)
Theorem bw_count_error_value core rmid event value p v rest :
  ready core p -> foreign p = [] -> mon p = v :: rest -> in_u 64 v -> Z.testbit v 63 = true ->
  rdt_mbm_bw_count core rmid event value p =
    Ok ((0, rmid mod 2 ^ 10 * 2 ^ 32 + event mod 2 ^ 8),
        p <| regs ::= <[(core, PQOS_MSR_MON_EVTSEL) := evtsel rmid event]> |> <| mon := rest |>).
Proof.
  intros Hrd Hn Hm Hv Hb. unfold rdt_mbm_bw_count.
  rewrite <- evtsel_value. set (sel := evtsel rmid event).
  pose proof (evtsel_range rmid event : 0 <= sel < 2 ^ 62) as Hs.
  set (q := p <| regs ::= <[(core, PQOS_MSR_MON_EVTSEL) := sel]> |>).
  assert (Hrq : ready core q) by (by apply ready_regs).
  rewrite (bind_Ok _ _ _ (0, sel) (q <| mon := rest |>)).
  { unfold mret, ST_ret. change (0 =? 0) with true. cbv iota. by rewrite land_data_mask. }
  rewrite loop_first by done. fold q. cbn [bw_count_loop].
  rewrite (bind_Ok (mret 0) _ _ 0 q eq_refl). change (negb (0 =? 0)) with false. cbv iota.
  rewrite (bind_Ok _ _ _ _ _ (get_mon_count_run core q v rest Hrq Hm)).
  change (negb (0 =? 0)) with false. cbv iota. rewrite (u64_small v) by done.
  unfold PQOS_MSR_MON_QMC_ERROR, PQOS_MSR_MON_QMC_UNAVAILABLE.
  rewrite land_bit, Hb by lia. cbn [negb].
  rewrite (bind_Ok _ _ _ _ _ (get_evtsel_run core (q <| mon := rest |>) (ready_mon _ _ _ Hrq) Hn)).
  change (negb (0 =? 0)) with false. cbv iota.
  change (regs (q <| mon := rest |>)) with (<[(core, PQOS_MSR_MON_EVTSEL) := sel]> (regs p)).
  rewrite lookup_insert_eq. cbn [default]. rewrite u64_small by (unfold id; lia). unfold id.
  rewrite Z.eqb_refl. cbn [negb]. rewrite land_bit, (testbit_small sel 62 62) by (done || lia). done.
Qed.

(** ** Resetting *)

(** A write through a file that is not open ends the process. *)
Lemma write_core_msr_closed core x a p fd :
  aget (msr_file_id p) core = Some fd -> fds p !! fd = None ->
  write_core_msr core x a p = Stop (ExitWith 127).
Proof.
  intros Hid Hf. unfold write_core_msr.
  rewrite bind_gets, (bind_Ok _ _ _ _ _ (read_Some _ _ _ p Hid)).
  unfold pwrite, next_io, get_state, mbind, ST_bind. destruct (ios p); [by rewrite Hf|].
  match goal with |- context [fds ?q] => change (fds q) with (fds p) end. by rewrite Hf.
Qed.

(** What every write to a core's device keeps. *)
Lemma write_core_msr_frame core x a p :
  wp (write_core_msr core x a) p (fun _ p' =>
    fds p' = fds p /\ msr_file_id p' = msr_file_id p /\ num_cores p' = num_cores p) any_stop.
Proof.
  unfold write_core_msr. wp_steps. apply wp_read; [|done]. intros fd Hfd. wp_steps.
  unfold wp, pwrite, next_io, get_state, modify, mbind, ST_bind, mret, ST_ret.
  destruct (ios p) as [|e es].
  - by destruct (fds p !! fd).
  - match goal with |- context [fds ?q !! fd] => change (fds q) with (fds p) end.
    by destruct (fds p !! fd), e.
Qed.

(** A reset that ends has closed the file of every core it visited, and still
    has its number. *)
Lemma reset_loop_closes cores p :
  wp (reset_loop cores) p (fun ok p' =>
    msr_file_id p' = msr_file_id p /\ num_cores p' = num_cores p /\
    (forall fd, fds p !! fd = None -> fds p' !! fd = None) /\
    (ok = true -> forall core, core ∈ cores ->
       exists fd, aget (msr_file_id p) core = Some fd /\ fds p' !! fd = None)) any_stop.
Proof.
  revert p. induction cores as [|core cores IH]; intros p; cbn [reset_loop].
  { apply wp_ret. split_and!; try done. intros _ core Hc. by apply elem_of_nil in Hc. }
  apply wp_bind. eapply wp_mono; [apply write_core_msr_frame| |done].
  intros r p1 (Hf & Hid & Hnc). destruct (negb (r =? 0)); [by apply wp_ret; rewrite Hf|].
  wp_steps. apply wp_read; [|done]. intros fd Hfd. apply wp_bind. unfold close_fd. apply wp_modify.
  eapply wp_mono; [apply IH| |done]. cbn beta. intros ok p2 (Hid2 & Hnc2 & Hk & Hc).
  unfold set in Hid2, Hnc2, Hk, Hc; cbn in Hid2, Hnc2, Hk, Hc.
  assert (Hclosed : forall fd', fds p !! fd' = None \/ fd' = fd -> fds p2 !! fd' = None).
  { intros fd' [Hn| ->]; apply Hk, lookup_delete_None; rewrite Hf; auto. }
  split_and!; [congruence|congruence|auto|].
  intros -> c Hin. apply elem_of_cons in Hin as [->|Hin].
  - exists fd. rewrite <- Hid. auto.
  - rewrite <- Hid. auto.
Qed.

(** Resetting twice ends the process.  A reset closes the device of each
    core and keeps the number of the closed file, so a second reset, as when an
    interrupt and then the end of [main] both reset, writes to a closed file
    and exits with status 127. *)
Theorem reset_twice_exits p p' :
  1 <= num_cores p <= 2 ^ 31 -> rdt_mbm_reset p = Ok (0, p') ->
  rdt_mbm_reset p' = Stop (ExitWith 127).
Proof.
  intros Hn. unfold rdt_mbm_reset. rewrite !bind_gets. intros Hrun.
  pose proof (reset_loop_closes (all_cores p) p) as Hw. unfold wp in Hw.
  unfold mbind, ST_bind in Hrun. destruct (reset_loop (all_cores p) p) as [[ok q]|e]; [|done].
  unfold mret, ST_ret in Hrun. destruct ok; [|done]. injection Hrun as <-.
  destruct Hw as (Hid & Hnc & _ & Hc).
  assert (Hcores : exists l, all_cores p = 0 :: l).
  { exists (seqZ 1 (u32 (num_cores p - 1))). unfold all_cores. rewrite u32_small by lia.
    rewrite seqZ_cons by lia. do 2 f_equal; lia. }
  destruct Hcores as [l Hl]. destruct (Hc eq_refl 0) as (fd & Hfd & Hclosed).
  { rewrite Hl. left. }
  assert (Hq : all_cores q = 0 :: l) by (unfold all_cores; by rewrite Hnc).
  rewrite Hq. cbn [reset_loop]. apply bind_Stop, bind_Stop.
  apply (write_core_msr_closed _ _ _ _ fd); [by rewrite Hid|done].
Qed.

(** Resetting visits the open cores and stops at the first that is not. *)
Lemma reset_loop_unopened cores core rest p :
  NoDup cores -> Forall (fun c => ready c p) cores ->
  aget (msr_file_id p) core = Some 0 -> fds p !! 0 = None ->
  reset_loop (cores ++ core :: rest) p = Stop (ExitWith 127).
Proof.
  revert p. induction cores as [|c cores IH]; intros p Hnd Hrd Hid H0; cbn [reset_loop app].
  { by apply bind_Stop, (write_core_msr_closed _ _ _ _ 0). }
  apply NoDup_cons in Hnd as [Hnin Hnd]. apply Forall_cons in Hrd as [Hc Hrd].
  unfold msr_set_rmid. rewrite (bind_Ok _ _ _ _ _ (write_core_msr_run c 0 _ p Hc)).
  change (negb (0 =? 0)) with false. cbv iota. rewrite bind_gets.
  destruct Hc as [(fd & Hfd & Hopen) Hi].
  rewrite (bind_Ok _ _ _ fd (p <| regs ::= <[(c, PQOS_MSR_ASSOC) := 0]> |>)) by (by apply read_Some).
  unfold close_fd. rewrite bind_modify. apply IH; [done| |done|].
  - apply Forall_forall. intros c' Hc'. rewrite Forall_forall in Hrd.
    destruct (Hrd c' Hc') as [(fd' & Hfd' & Hopen') _]. split; [|done].
    exists fd'. split; [done|]. unfold set; cbn. rewrite lookup_delete_ne; [done|].
    intros ->. naive_solver.
  - unfold set; cbn. apply lookup_delete_None. by right.
Qed.

(** The end of [main] resets monitoring also when it was never set up: the
    number of cores is then still 0, the loop's bound wraps around, and the
    reset runs past the cores in use and exits with status 127 at the first
    core whose device is not open. *)
Theorem reset_without_rdt k p :
  num_cores p = 0 -> 0 <= k < MAX_NUM_CORES ->
  (forall c, 0 <= c < k -> ready c p) ->
  aget (msr_file_id p) k = Some 0 -> fds p !! 0 = None ->
  rdt_mbm_reset p = Stop (ExitWith 127).
Proof.
  intros Hn Hk Hopen Hid H0. unfold MAX_NUM_CORES in Hk. unfold rdt_mbm_reset. rewrite bind_gets.
  apply bind_Stop.
  assert (Hcores : all_cores p = seqZ 0 k ++ k :: seqZ (k + 1) (2 ^ 32 - k - 1)).
  { unfold all_cores. rewrite Hn. change (u32 (0 - 1) + 1) with (2 ^ 32).
    replace (2 ^ 32) with (k + (2 ^ 32 - k)) at 1 by lia. rewrite seqZ_app by lia. f_equal.
    rewrite seqZ_cons by lia. f_equal. }
  rewrite Hcores. apply reset_loop_unopened; [apply NoDup_seqZ| |done|done].
  apply Forall_forall. intros c Hc%elem_of_seqZ. apply Hopen. lia.
Qed.

(** ** Measuring all cores *)

(** What a measurement does to a core's data, when its counter is at [n]. *)
Definition measure (n : Z) (d : mbm_data_st) : mbm_data_st :=
  if rmid d =? 0 then d else d <| delta := u64 (n - old_count d) |> <| old_count := n |>.

Definition monitored (p : proc) (core : Z) : bool :=
  match aget (mbm_data p) core with Some d => negb (rmid d =? 0) | None => false end.

(** The bytes (in counter units) a core moved since its last measurement. *)
Definition gain (p : proc) (count : Z -> Z) (core : Z) : Z :=
  match aget (mbm_data p) core with
  | Some d => if rmid d =? 0 then 0 else count core - old_count d
  | None => 0
  end.

Definition sumZ (l : list Z) : Z := foldr Z.add 0 l.

(** [p'] is [p] after the cores [cores] were measured. *)
Record after (count : Z -> Z) (cores : list Z) (p p' : proc) : Prop := {
  after_data : forall c, aget (mbm_data p') c =
    (if bool_decide (c ∈ cores) then measure (count c) <$> aget (mbm_data p) c else aget (mbm_data p) c);
  after_total : u64 (total_mbt p') = u64 (total_mbt p + sumZ (map (gain p count) cores));
  after_scale : scale_factor p' = scale_factor p;
  after_cores : num_cores p' = num_cores p;
  after_ready : forall c, ready c p -> ready c p';
  after_len : zlen (mbm_data p') = zlen (mbm_data p) }.

Lemma u64_add_l x y : u64 (u64 x + y) = u64 (x + y).
Proof. apply Z.add_mod_idemp_l. done. Qed.

Lemma u64_add_r x y : u64 (x + u64 y) = u64 (x + y).
Proof. apply Z.add_mod_idemp_r. done. Qed.

Lemma u64_mul_l x y : u64 (u64 x * y) = u64 (x * y).
Proof. apply Z.mul_mod_idemp_l. done. Qed.

(** One core of the loop, its counter at [count core]. *)
Lemma bw_get_loop_step count core cores b p d rest :
  ready core p -> aget (mbm_data p) core = Some d -> 0 <= count core < 2 ^ 62 ->
  mon p = (if rmid d =? 0 then [] else [count core]) ++ rest ->
  exists b' p1, bw_get_loop (core :: cores) b p = bw_get_loop cores b' p1 /\
    after count [core] p p1 /\ mon p1 = rest.
Proof.
  intros Hrd Hd Hv Hm. cbn [bw_get_loop].
  rewrite bind_gets, (bind_Ok _ _ _ _ _ (read_Some _ _ _ p Hd)).
  pose proof (aget_Some_range _ _ _ Hd) as Hrange.
  destruct (rmid d =? 0) eqn:Hz.
  - exists b, p. split; [done|]. split; [|done]. split; try done.
    + intros c. case_bool_decide as Hc; [|done]. apply list_elem_of_singleton in Hc as ->.
      rewrite Hd. cbn. unfold measure. by rewrite Hz.
    + cbn. unfold gain. rewrite Hd, Hz. f_equal. lia.
  - rewrite (bind_Ok (get_event_id PQOS_MON_EVENT_TMEM_BW) _ _ 2 p eq_refl).
    rewrite (bind_Ok _ _ _ _ _ (bw_count_data core (rmid d) 2 b p [] (count core) rest Hrd
      (Forall_nil_2 _) Hm ltac:(simpl; lia) Hv)).
    change (negb (0 =? 0)) with false. cbv iota zeta. rewrite bind_modify.
    do 2 eexists. split; [reflexivity|]. split; [|done]. split; try done.
    + intros c. set (d' := d <| delta := u64 (count core - old_count d) |> <| old_count := count core |>).
      match goal with |- aget (mbm_data ?q) c = _ =>
        change (mbm_data q) with (aset (mbm_data p) core d') end.
      case_bool_decide as Hc.
      * apply list_elem_of_singleton in Hc as ->. rewrite aget_aset_eq, Hd by done. cbn.
        unfold measure. by rewrite Hz.
      * rewrite aget_aset_ne; [done|]. intros ->. apply Hc. left.
    + match goal with |- u64 (total_mbt ?q) = _ =>
        change (total_mbt q) with (u64 (total_mbt p + u64 (count core - old_count d))) end.
      cbn [map sumZ foldr]. unfold gain. rewrite Hd, Hz. rewrite u64_add_r.
      unfold u64, wrap. rewrite Z.mod_mod by done. f_equal. lia.
    + by intros c [? ?].
    + apply zlen_aset.
Qed.

Lemma gain_after count core p p1 c :
  after count [core] p p1 -> c <> core -> gain p1 count c = gain p count c.
Proof.
  intros [Hd _ _ _ _ _] Hne. unfold gain. rewrite Hd, bool_decide_false; [done|].
  by rewrite list_elem_of_singleton.
Qed.

Lemma after_cons count core cores p p1 p2 :
  core ∉ cores -> after count [core] p p1 -> after count cores p1 p2 -> after count (core :: cores) p p2.
Proof.
  intros Hnin H1 H2. split.
  - intros c. rewrite (after_data _ _ _ _ H2), (after_data _ _ _ _ H1).
    destruct (decide (c = core)) as [->|Hne].
    + rewrite (bool_decide_false (core ∈ cores)) by done.
      rewrite !bool_decide_true by set_solver. done.
    + rewrite (bool_decide_false (c ∈ [core])) by (by rewrite list_elem_of_singleton).
      rewrite (bool_decide_ext (c ∈ core :: cores) (c ∈ cores)); [done|]. rewrite elem_of_cons. tauto.
  - rewrite (after_total _ _ _ _ H2). rewrite <- u64_add_l, (after_total _ _ _ _ H1), u64_add_l.
    unfold sumZ. cbn [map foldr]. f_equal.
    rewrite (map_ext_in (gain p1 count) (gain p count) cores); [lia|].
    intros c Hc. apply (gain_after _ core); [done|]. intros ->. apply Hnin. by apply list_elem_of_In.
  - by rewrite (after_scale _ _ _ _ H2), (after_scale _ _ _ _ H1).
  - by rewrite (after_cores _ _ _ _ H2), (after_cores _ _ _ _ H1).
  - intros c Hc. by apply (after_ready _ _ _ _ H2), (after_ready _ _ _ _ H1).
  - by rewrite (after_len _ _ _ _ H2), (after_len _ _ _ _ H1).
Qed.

Lemma filter_ext_in {A} (f g : A -> bool) (l : list A) :
  (forall x, x ∈ l -> f x = g x) ->
  filter (fun x => f x = true) l = filter (fun x => g x = true) l.
Proof.
  induction l as [|x l IH]; intros H; [done|]. rewrite !filter_cons, (IH ltac:(intros; apply H; by right)).
  pose proof (H x ltac:(left)) as Hx. repeat case_decide; congruence.
Qed.

(** The counters answer in the order of the cores. *)
Lemma bw_get_loop_run count cores : forall b p rest,
  NoDup cores -> Forall (fun c => ready c p) cores ->
  Forall (fun c => 0 <= c < zlen (mbm_data p)) cores -> (forall c, 0 <= count c < 2 ^ 62) ->
  mon p = map count (filter (fun c => monitored p c = true) cores) ++ rest ->
  exists p', bw_get_loop cores b p = Ok (None, p') /\ after count cores p p' /\ mon p' = rest.
Proof.
  induction cores as [|core cores IH]; intros b p rest Hnd Hrd Hlen Hv Hm.
  { exists p. split; [done|]. split; [|done]. split; try done. cbn. f_equal. lia. }
  apply NoDup_cons in Hnd as [Hnin Hnd]. apply Forall_cons in Hrd as [Hr Hrd].
  apply Forall_cons in Hlen as [Hl Hlen]. destruct (aget_is_Some _ _ Hl) as [d Hd].
  destruct (bw_get_loop_step count core cores b p d
    (map count (filter (fun c => monitored p c = true) cores) ++ rest)) as (b' & p1 & -> & H1 & Hm1); try done.
  { assert (Hmon : monitored p core = negb (rmid d =? 0)) by (unfold monitored; by rewrite Hd).
    rewrite Hm, filter_cons. case_decide as Hc; rewrite Hmon in Hc; by destruct (rmid d =? 0). }
  destruct (IH b' p1 rest) as (p2 & -> & H2 & Hm2); try done.
  - eapply Forall_impl; [exact Hrd|]. apply H1.
  - by rewrite (after_len _ _ _ _ H1).
  - rewrite Hm1. do 2 f_equal. apply filter_ext_in. intros c Hc.
    unfold monitored. rewrite (after_data _ _ _ _ H1), bool_decide_false; [done|].
    rewrite list_elem_of_singleton. by intros ->.
  - exists p2. split; [done|]. split; [|done]. by apply (after_cons _ _ _ p p1).
Qed.

(** What a measurement of the machine needs: every core's device is open and
    its counter, if the core has an id, answers [count core]. *)
Record measurable (count : Z -> Z) (rest : list Z) (p : proc) : Prop := {
  meas_cores : 1 <= num_cores p <= zlen (mbm_data p);
  meas_max : num_cores p <= 2 ^ 31;
  meas_ready : forall c, 0 <= c < num_cores p -> ready c p;
  meas_count : forall c, 0 <= count c < 2 ^ 62;
  meas_mon : mon p = map count (filter (fun c => monitored p c = true) (seqZ 0 (num_cores p))) ++ rest }.

Lemma all_cores_seqZ p : 1 <= num_cores p <= 2 ^ 31 -> all_cores p = seqZ 0 (num_cores p).
Proof. intros H. unfold all_cores. rewrite u32_small by lia. f_equal. lia. Qed.

Lemma bw_get_run count rest p :
  measurable count rest p ->
  exists p', rdt_mbm_bw_get p =
      Ok (u64 (sumZ (map (gain p count) (seqZ 0 (num_cores p))) * scale_factor p), p') /\
    after count (seqZ 0 (num_cores p)) (p <| total_mbt := 0 |>) p' /\ mon p' = rest.
Proof.
  intros [Hn Hmax Hrd Hv Hm]. unfold rdt_mbm_bw_get. rewrite bind_modify, bind_gets.
  set (q := p <| total_mbt := 0 |>).
  assert (Hq : all_cores q = seqZ 0 (num_cores p)) by exact (all_cores_seqZ q (conj (proj1 Hn) Hmax)).
  rewrite Hq. destruct (bw_get_loop_run count (seqZ 0 (num_cores p)) 0 q rest) as (p' & Hrun & Ha & Hm').
  - apply NoDup_seqZ.
  - apply Forall_forall. intros c Hc%elem_of_seqZ. destruct (Hrd c ltac:(lia)) as [? ?]. by split.
  - apply Forall_forall. intros c Hc%elem_of_seqZ. change (mbm_data q) with (mbm_data p). lia.
  - done.
  - done.
  - exists p'. split; [|done]. rewrite (bind_Ok _ _ _ _ _ Hrun).
    unfold mbind, ST_bind, get_state, mret, ST_ret. do 2 f_equal.
    rewrite <- u64_mul_l, (after_total _ _ _ _ Ha), u64_mul_l. rewrite (after_scale _ _ _ _ Ha).
    done.
Qed.

(** Successive measurements of the same cores. *)
Lemma sum_gain_telescope count1 count2 cores p p1 :
  (forall c, c ∈ cores -> aget (mbm_data p1) c = measure (count1 c) <$> aget (mbm_data p) c) ->
  sumZ (map (gain p count1) cores) + sumZ (map (gain p1 count2) cores) =
  sumZ (map (gain p count2) cores).
Proof.
  unfold sumZ. induction cores as [|c cores IH]; intros Hd; [done|]. cbn [map foldr].
  rewrite <- IH by (intros; apply Hd; by right). unfold gain at 1 3 5. rewrite (Hd c) by left.
  destruct (aget (mbm_data p) c) as [d|]; cbn; [|lia]. unfold measure.
  destruct (rmid d =? 0) eqn:Hz; cbn; rewrite Hz; cbn; lia.
Qed.

Lemma measurable_again count1 count2 p p1 :
  measurable count1 (map count2 (filter (fun c => monitored p c = true) (seqZ 0 (num_cores p)))) p ->
  (forall c, 0 <= count2 c < 2 ^ 62) ->
  after count1 (seqZ 0 (num_cores p)) (p <| total_mbt := 0 |>) p1 ->
  mon p1 = map count2 (filter (fun c => monitored p c = true) (seqZ 0 (num_cores p))) ->
  measurable count2 [] p1.
Proof.
  intros Hmeas Hv2 H1 Hm1.
  split; rewrite ?(after_cores _ _ _ _ H1), ?(after_len _ _ _ _ H1); cbn; try apply Hmeas; [|done|].
  - intros c Hc. apply (after_ready _ _ _ _ H1). destruct (meas_ready _ _ _ Hmeas c Hc). by split.
  - rewrite Hm1, app_nil_r. f_equal. apply filter_ext_in. intros c Hc. unfold monitored.
    rewrite (after_data _ _ _ _ H1), bool_decide_true by done. cbn.
    destruct (aget (mbm_data p) c) as [d|]; [|done]. cbn. unfold measure.
    destruct (rmid d =? 0) eqn:Hz; cbn; by rewrite Hz.
Qed.

(** C36: measuring the machine answers the bytes moved since the last
    measurement.  One call returns the scaled sum, modulo 2^64, of the progress
    of the counters of the cores with an id, and leaves each such counter as
    the base of the next call; so two calls in a row add up to the progress
    over both, however the counters moved in between. *)
Theorem bw_get_telescopes count1 count2 rest1 p :
  measurable count1 rest1 p ->
  (forall c, 0 <= count2 c < 2 ^ 62) ->
  rest1 = map count2 (filter (fun c => monitored p c = true) (seqZ 0 (num_cores p))) ->
  let sum count := sumZ (map (gain p count) (seqZ 0 (num_cores p))) in
  exists r1 r2 p1 p2,
    rdt_mbm_bw_get p = Ok (r1, p1) /\ rdt_mbm_bw_get p1 = Ok (r2, p2) /\
    r1 = u64 (sum count1 * scale_factor p) /\
    u64 (r1 + r2) = u64 (sum count2 * scale_factor p) /\
    (forall c d, 0 <= c < num_cores p -> aget (mbm_data p) c = Some d ->
       rmid d <> 0 -> old_count <$> aget (mbm_data p2) c = Some (count2 c)).
Proof.
  intros Hmeas Hv2 -> sum.
  destruct (bw_get_run _ _ _ Hmeas) as (p1 & Hrun1 & H1 & Hm1).
  destruct (bw_get_run _ _ _ (measurable_again _ _ _ _ Hmeas Hv2 H1 Hm1)) as (p2 & Hrun2 & H2 & _).
  rewrite (after_cores _ _ _ _ H1) in Hrun2, H2. cbn in Hrun2, H2.
  rewrite (after_scale _ _ _ _ H1) in Hrun2.
  assert (Hd1 : forall c, c ∈ seqZ 0 (num_cores p) ->
    aget (mbm_data p1) c = measure (count1 c) <$> aget (mbm_data p) c).
  { intros c Hc. by rewrite (after_data _ _ _ _ H1), bool_decide_true. }
  do 4 eexists. split_and!; [exact Hrun1|exact Hrun2|done| |].
  - rewrite u64_add_l, u64_add_r. cbn. rewrite <- Z.mul_add_distr_r. unfold sum.
    by rewrite (sum_gain_telescope count1 count2 _ p p1 Hd1).
  - intros c d Hc Hd Hne. assert (Hin : c ∈ seqZ 0 (num_cores p)) by (apply elem_of_seqZ; lia).
    rewrite (after_data _ _ _ _ H2), bool_decide_true by done. cbn. rewrite (Hd1 c Hin), Hd. cbn.
    unfold measure. apply Z.eqb_neq in Hne. rewrite Hne. cbn. by rewrite Hne.
Qed.

(** ** Assigning ids *)

(** The association word keeps its upper half and holds the id below. *)
Lemma assoc_word old rmid :
  0 <= old < 2 ^ 64 ->
  Z.lor (Z.land old PQOS_MSR_ASSOC_QECOS_MASK) (Z.land rmid PQOS_MSR_ASSOC_RMID_MASK) =
  old / 2 ^ 32 * 2 ^ 32 + rmid mod 2 ^ 10.
Proof.
  intros Ho. change PQOS_MSR_ASSOC_RMID_MASK with (Z.ones 10). rewrite Z.land_ones by lia.
  pose proof (Z.mod_pos_bound rmid (2 ^ 10) ltac:(lia)) as Hr.
  assert (Hhigh : Z.land old PQOS_MSR_ASSOC_QECOS_MASK = old / 2 ^ 32 * 2 ^ 32).
  { change PQOS_MSR_ASSOC_QECOS_MASK with (Z.shiftl (Z.ones 32) 32).
    rewrite <- Z.shiftl_mul_pow2, <- Z.shiftr_div_pow2 by lia.
    apply Z.bits_inj'. intros i Hi. rewrite Z.land_spec, !Z.shiftl_spec by done.
    destruct (Z.lt_ge_cases i 32).
    - by rewrite !(Z.testbit_neg_r _ (i - 32)), andb_false_r by lia.
    - rewrite Z.shiftr_spec by lia. replace (i - 32 + 32) with i by lia.
      destruct (Z.lt_ge_cases i 64).
      + by rewrite Z.ones_spec_low, andb_true_r by lia.
      + by rewrite (testbit_small old i 64) by lia. }
  rewrite Hhigh, <- Z.shiftl_mul_pow2 by lia. apply eq_sym, Z.add_nocarry_lor.
  apply Z.bits_inj'. intros i Hi. rewrite Z.land_spec, Z.bits_0, Z.shiftl_spec by done.
  destruct (Z.lt_ge_cases i 32).
  - by rewrite (Z.testbit_neg_r _ (i - 32)) by lia.
  - by rewrite (testbit_small (rmid mod 2 ^ 10) i 10), andb_false_r by lia.
Qed.

Lemma set_rmid_run core rmid p :
  ready core p ->
  let old := u64 (default 0 (regs p !! (core, PQOS_MSR_ASSOC))) in
  rdt_mbm_set_rmid core rmid p =
    Ok (0, p <| regs ::= <[(core, PQOS_MSR_ASSOC) := old / 2 ^ 32 * 2 ^ 32 + rmid mod 2 ^ 10]> |>).
Proof.
  intros Hrd old. unfold rdt_mbm_set_rmid, msr_get_rmid.
  rewrite (bind_Ok _ _ _ (0, old) p) by
    (by rewrite (bind_Ok _ _ _ _ _ (read_core_msr_run core PQOS_MSR_ASSOC p Hrd ltac:(by split)))).
  change (negb (0 =? 0)) with false. cbv iota zeta. unfold msr_set_rmid.
  rewrite write_core_msr_run by done. rewrite assoc_word; [done|]. apply u64_range.
Qed.

Lemma core2rmid_run core p :
  0 <= core < max_rmid p -> max_rmid p < 2 ^ 32 -> core2rmid core p = Ok (core + 1, p).
Proof.
  intros Hc Hm. unfold core2rmid, get_state, mbind, ST_bind, mret, ST_ret.
  rewrite u32_small by lia. by rewrite (proj2 (Z.ltb_ge _ _)) by lia.
Qed.

(** Initialization gives core [c] the id [c + 1], as long as there are that
    many ids and an id has ten bits: the association register of the core keeps
    its upper half (the class of service) and holds the id below it, the core
    counts as monitored under the same id, and the other cores keep theirs.
    Hence different cores have different ids. *)
Theorem init_core_assigns core p d fd mon_count :
  ready core p -> aget (msr_file_id p) core = Some fd -> fd <> 0 -> aget (mbm_data p) core = Some d ->
  0 <= core < max_rmid p -> max_rmid p < 2 ^ 10 ->
  let old := u64 (default 0 (regs p !! (core, PQOS_MSR_ASSOC))) in
  exists p', init_core mon_count core p = Ok (mon_count + 1, p') /\
    regs p' = <[(core, PQOS_MSR_ASSOC) := old / 2 ^ 32 * 2 ^ 32 + (core + 1)]> (regs p) /\
    mbm_data p' = aset (mbm_data p) core (d <| rmid := core + 1 |>).
Proof.
  intros Hrd Hid Hfd Hd Hc Hm old. unfold init_core.
  rewrite (bind_Ok _ _ _ _ _ (core2rmid_run core p Hc ltac:(lia))), bind_gets.
  rewrite (bind_Ok _ _ _ _ _ (read_Some _ _ _ p Hid)), (proj2 (Z.eqb_neq _ _) Hfd).
  rewrite (bind_Ok (mret tt) _ _ tt p eq_refl).
  rewrite (bind_Ok _ _ _ _ _ (set_rmid_run core (core + 1) p Hrd)). fold old.
  change (negb (0 =? 0)) with false. cbv iota. rewrite bind_gets.
  rewrite (bind_Ok _ _ _ d (p <| regs ::= _ |>) (read_Some _ _ _ _ Hd)), bind_modify.
  eexists. split; [reflexivity|]. split; [|done].
  rewrite (Z.mod_small (core + 1)) by lia. done.
Qed.

(** On a machine without memory bandwidth monitoring the check says which
    feature is missing, in the order of the manual, and leaves the scale, the
    counter length and the number of cores alone; it answers 0 exactly when all
    four features are present. *)
Lemma support_check_outcome cpuid n p :
  let bit r k := Z.testbit r k in
  let result :=
    if negb (bit (ebx (cpuid 0x07 0x00)) 12) then -1 else
    if negb (bit (edx (cpuid 0x0f 0x00)) 1) then -2 else
    if negb (bit (edx (cpuid 0x0f 0x01)) 1) then -3 else
    if negb (bit (edx (cpuid 0x0f 0x01)) 2) then -4 else 0 in
  exists p', rdt_mbm_support_check cpuid n p = Ok (result, p') /\
    (result <> 0 -> scale_factor p' = scale_factor p /\ num_cores p' = num_cores p) /\
    (result = 0 -> scale_factor p' = ebx (cpuid 0x0f 0x01) /\ num_cores p' = u32 n /\
       max_rmid p' = u32 (ebx (cpuid 0x0f 0x00) + 1) /\
       24 <= counter_length p' <= 151).
Proof.
  cbn zeta. unfold rdt_mbm_support_check.
  assert (Htmem : forall v, (Z.land v PQOS_CPUID_MON_TMEM_BW_BIT =? 0) = negb (Z.testbit v 1)).
  { intros v. exact (land_bit v 1 ltac:(lia)). }
  assert (Hlmem : forall v, (Z.land v PQOS_CPUID_MON_LMEM_BW_BIT =? 0) = negb (Z.testbit v 2)).
  { intros v. exact (land_bit v 2 ltac:(lia)). }
  rewrite !land_bit by lia. rewrite Htmem, Hlmem.
  destruct (negb (Z.testbit (ebx (cpuid 7 0)) 12)); [by exists p|].
  destruct (negb (Z.testbit (edx (cpuid 15 0)) 1)); [by exists p|]. rewrite bind_modify.
  destruct (negb (Z.testbit (edx (cpuid 15 1)) 1)); [by eexists|].
  destruct (negb (Z.testbit (edx (cpuid 15 1)) 2)); [by eexists|]. rewrite bind_modify.
  eexists. split; [reflexivity|]. split; [done|]. intros _. split_and!; try done; cbn.
  all: change 127 with (Z.ones 7); rewrite Z.land_ones by lia;
    pose proof (Z.mod_pos_bound (eax (cpuid 15 1)) (2 ^ 7) ltac:(lia)); unfold MIN_MBM_COUNTER_LEN;
    rewrite u32_small by lia; lia.
Qed.

(** ** Concrete runs *)

(** Two cores, both devices open, core 1 without an id. *)
Definition rdt0 : proc :=
  dev0 <| fds := {[3 := 0; 4 := 1]} |> <| msr_file_id := 3 :: 4 :: replicate 510 0 |>
       <| mbm_data := [{| rmid := 1; delta := 0; old_count := 10 |}; {| rmid := 0; delta := 0; old_count := 0 |}] |>
       <| scale_factor := 64 |>.

Lemma rdt0_ready vs c : 0 <= c < 2 -> ready c (rdt0 <| mon := vs |>).
Proof.
  intros Hc. assert (c = 0 \/ c = 1) as [->| ->] by lia; split; try done; [exists 3|exists 4]; done.
Qed.

Lemma bw_count_waits_witness :
  exists p', rdt_mbm_bw_count 0 1 2 7 (rdt0 <| mon := [2 ^ 62; 100; 5] |>) = Ok ((0, 100), p').
Proof.
  destruct (bw_count_waits 0 1 2 7 (rdt0 <| mon := [2 ^ 62; 100; 5] |>) [2 ^ 62] [100; 5]) as [_ H].
  - apply rdt0_ready. lia.
  - repeat constructor; lia.
  - reflexivity.
  - eexists. apply (H 100 [5]); [simpl; lia|reflexivity|lia].
Defined.

Lemma bw_count_error_value_witness :
  exists p', rdt_mbm_bw_count 0 1 2 7 (rdt0 <| mon := [2 ^ 63] |>) = Ok ((0, 2 ^ 32 + 2), p').
Proof.
  eexists. apply (bw_count_error_value 0 1 2 7 (rdt0 <| mon := [2 ^ 63] |>) (2 ^ 63) []);
    [apply rdt0_ready; lia|reflexivity|reflexivity|split; lia|reflexivity].
Defined.

Lemma reset_twice_exits_witness :
  exists p', rdt_mbm_reset rdt0 = Ok (0, p') /\ rdt_mbm_reset p' = Stop (ExitWith 127).
Proof.
  destruct (rdt_mbm_reset rdt0) as [[r p']|e] eqn:Hrun.
  - assert (r = 0) as ->.
    { apply (f_equal (fun o => match o with Ok (r, _) => r | Stop _ => -1 end)) in Hrun.
      vm_compute in Hrun. by symmetry. }
    exists p'. split; [reflexivity|].
    apply (reset_twice_exits rdt0 p'); [vm_compute; split; discriminate|exact Hrun].
  - exfalso. apply (f_equal (fun o => match o with Ok _ => true | Stop _ => false end)) in Hrun.
    vm_compute in Hrun. discriminate.
Defined.

Lemma reset_without_rdt_witness :
  rdt_mbm_reset (rdt0 <| num_cores := 0 |>) = Stop (ExitWith 127).
Proof.
  apply (reset_without_rdt 2); [reflexivity|vm_compute; split; [discriminate|reflexivity]| | |].
  - intros c Hc. destruct (rdt0_ready [] c Hc). split; assumption.
  - reflexivity.
  - vm_compute. reflexivity.
Defined.

Lemma bw_get_telescopes_witness :
  exists r1 r2 p1 p2, rdt_mbm_bw_get (rdt0 <| mon := [30; 35] |>) = Ok (r1, p1) /\
    rdt_mbm_bw_get p1 = Ok (r2, p2) /\ r1 = 20 * 64 /\ u64 (r1 + r2) = 25 * 64.
Proof.
  destruct (bw_get_telescopes (fun _ => 30) (fun _ => 35) [35] (rdt0 <| mon := [30; 35] |>))
    as (r1 & r2 & p1 & p2 & H1 & H2 & H3 & H4 & _).
  - split; [vm_compute; split; discriminate|vm_compute; discriminate| |lia|reflexivity].
    intros c Hc. apply rdt0_ready. exact Hc.
  - lia.
  - reflexivity.
  - exists r1, r2, p1, p2. split; [exact H1|]. split; [exact H2|]. split; [exact H3|exact H4].
Defined.

Lemma init_core_assigns_witness :
  exists p', init_core 0 1 rdt0 = Ok (1, p') /\ rmid <$> aget (mbm_data p') 1 = Some 2.
Proof.
  destruct (init_core_assigns 1 rdt0 {| rmid := 0; delta := 0; old_count := 0 |} 4 0)
    as (p' & H & _ & Hd); [apply (rdt0_ready []); lia|reflexivity|lia|reflexivity| | |].
  - vm_compute. split; [discriminate|reflexivity].
  - vm_compute. reflexivity.
  - exists p'. split; [exact H|]. rewrite Hd. reflexivity.
Defined.
