(* ===== verification/Msr2Settings.v ===== *)
(** * The MSR decoder ([tools/msr2settings.c])

    The tool converts between an MSR's word and its settings: mode [a] prints
    the bit-fields of a word, mode [b] builds the word of a list of settings.
    The arguments are C strings, read with [strtol] and [strtoll] in base 16;
    the output is the list of lines printed (a note behind a value is left
    out). *)

From Stdlib Require Import Ascii.
From S2P Require Import Prelude Bitfields.

(** ** [strtol(s, NULL, 16)] *)

Definition hex_digit (c : Ascii.ascii) : option Z :=
  let n := Z.of_nat (Ascii.nat_of_ascii c) in
  if (48 <=? n) && (n <=? 57) then Some (n - 48)
  else if (97 <=? n) && (n <=? 102) then Some (n - 87)
  else if (65 <=? n) && (n <=? 70) then Some (n - 55)
  else None.

Fixpoint hex_value (s : string) (acc : Z) : Z :=
  match s with
  | EmptyString => acc
  | String c s' =>
      match hex_digit c with
      | Some d => hex_value s' (16 * acc + d)
      | None => acc
      end
  end.

Definition is_space (c : Ascii.ascii) : bool :=
  let n := Ascii.nat_of_ascii c in (n =? 32)%nat || ((9 <=? n)%nat && (n <=? 13)%nat).

Fixpoint skip_spaces (s : string) : string :=
  match s with
  | String c s' => if is_space c then skip_spaces s' else s
  | EmptyString => s
  end.

(** The sign, if there is one. *)
Definition take_sign (s : string) : bool * string :=
  match s with
  | String "-"%char s' => (true, s')
  | String "+"%char s' => (false, s')
  | _ => (false, s)
  end.

Definition skip_prefix (s : string) : string :=
  match s with
  | String "0"%char (String "x"%char s') => s'
  | String "0"%char (String "X"%char s') => s'
  | _ => s
  end.

(** The value saturates at the limits of a 64-bit [long]. *)
Definition strtol16 (s : string) : Z :=
  let '(neg, s) := take_sign (skip_spaces s) in
  let v := hex_value (skip_prefix s) 0 in
  if neg then Z.max (- 2 ^ 63) (- v) else Z.min (2 ^ 63 - 1) v.

(** ** Settings *)

(** The settings that [a] prints for each MSR: label and bit-field. *)
Definition printed (s : msr_struct) : list (string * string) :=
  match s with
  | msr1A4 => (* 0x1a4 *)
      [("L2_STREAM_DISABLED", "L2_STREAM_DISABLED");
       ("L2_ADJACENT_CACHE_LINE_PREFETCHER_DISABLE", "L2_ADJACENT_CACHE_LINE_PREFETCHER_DISABLE");
       ("L1_DATA_STREAM_DISABLED", "L1_DATA_STREAM_DISABLED");
       ("L1_INSTRUCTION_STREAM_DISABLED", "L1_INSTRUCTION_STREAM_DISABLED");
       ("L1_NEXT_PAGE_DISABLED", "L1_NEXT_PAGE_DISABLED");
       ("L2_AMP_DISABLED", "L2_AMP_DISABLED");
       ("LLC_PAGE_PREFETCH_DISABLE", "LLC_PAGE_PREFETCH_DISABLE");
       ("AOP_PREFETCH_DISABLE", "AOP_PREFETCH_DISABLE");
       ("STREAM_PREFETCH_CODE_FETCH_DISABLE", "STREAM_PREFETCH_CODE_FETCH_DISABLE");
       ("DYNAMIC_L2PREFETCHER_CONFIG_DISABLE", "DYNAMIC_L2PREFETCHER_CONFIG_DISABLE")]%string
  | msr1320 => (* 0x1320 *)
      [(" L2_STREAM_AMP_XQ_THRESHOLD", "L2_STREAM_AMP_XQ_THRESHOLD");
       (" INIT_PRE_PENDING", "INIT_PRE_PENDING"); (" SKPAHD_PREF", "SKPAHD_PREF");
       (" MAX_PREF_PENDING", "MAX_PREF_PENDING"); (" INIT_TRIG_WINDOW", "INIT_TRIG_WINDOW");
       (" L2_STREAM_MAX_DISTANCE", "L2_STREAM_MAX_DISTANCE");
       (" TRIG_PREF_HIT", "TRIG_PREF_HIT");
       (" L2_AMP_DISABLE_RECURSION", "L2_AMP_DISABLE_RECURSION");
       (" DIS_AMP_TRIV_REC", "DIS_AMP_TRIV_REC");
       (" L2HL_LLCHL_MIN_DIST", "L2HL_LLCHL_MIN_DIST");
       (" LLC_STREAM_MAX_DISTANCE", "LLC_STREAM_MAX_DISTANCE");
       (" LLC_STREAM_DISABLE", "LLC_STREAM_DISABLE");
       (" LLC_INIT_PREF_PEND", "LLC_INIT_PREF_PEND");
       (" LLC_MAX_PREF_PEND", "LLC_MAX_PREF_PEND");
       (" LLCPREF_LQ_THRESHOLD", "LLCPREF_LQ_THRESHOLD");
       (" LLC_STREAM_XQ_THRESHOLD", "LLC_STREAM_XQ_THRESHOLD")]%string
  | msr1321 => (* 0x1321 *)
      [("L2_STREAM_AMP_CREATE_IL1", "L2_STREAM_AMP_CREATE_IL1");
       ("ALTERNATIVE_ISIDE_PREFETCH_ENABLE", "ALTERNATIVE_ISIDE_PREFETCH_ENABLE");
       ("ALTERNATIVE_KICKSTART_PREFETCHES", "ALTERNATIVE_KICKSTART_PREFETCHES");
       ("ALTERNATIVE_REGULAR_PREFETCHES", "ALTERNATIVE_REGULAR_PREFETCHES");
       ("DTP_ENABLE", "DTP_ENABLE"); ("L2_STREAM_DEMAND_DENSITY", "L2_STREAM_DEMAND_DENSITY");
       ("L2_STREAM_DEMAND_DENSITY_OVR", "L2_STREAM_DEMAND_DENSITY_OVR");
       ("CREATE_PMH", "CREATE_PMH");
       ("L2_DISABLE_NEXT_LINE_PREFETCH", "L2_DISABLE_NEXT_LINE_PREFETCH");
       ("L2_LLC_STREAM_AMP_XQ_THRESHOLD", "L2_LLC_STREAM_AMP_XQ_THRESHOLD");
       ("RESTORE_L2PREFETCHER_DEFAULTS (write only)", "RESTORE_L2PREFETCHER_DEFAULTS")]%string
  | msr1322 => (* 0x1322 *)
      [("LLPREF_THROTTLE_ISSUE_FACTOR", "LLPREF_THROTTLE_ISSUE_FACTOR");
       ("LLPREF_THROTTLE_HIT_FACTOR", "LLPREF_THROTTLE_HIT_FACTOR");
       ("LLPREF_UNTHROTTLE_ISSUE_FACTOR", "LLPREF_UNTHROTTLE_ISSUE_FACTOR");
       ("LLPREF_UNTHROTTLE_HIT_FACTOR", "LLPREF_UNTHROTTLE_HIT_FACTOR");
       ("LLC_STREAM_DEMAND_DENSITY", "LLC_STREAM_DEMAND_DENSITY");
       ("LLC_STREAM_DEMAND_DENSITY_OVR", "LLC_STREAM_DEMAND_DENSITY_OVR");
       ("L2_AMP_CONFIDENCE_DPT0", "L2_AMP_CONFIDENCE_DPT0");
       ("L2_AMP_CONFIDENCE_DPT1", "L2_AMP_CONFIDENCE_DPT1");
       ("L2_AMP_CONFIDENCE_DPT2", "L2_AMP_CONFIDENCE_DPT2");
       ("L2_AMP_CONFIDENCE_DPT3", "L2_AMP_CONFIDENCE_DPT3");
       ("L2_LLC_STREAM_DEMAND_DENSITY_XQ", "L2_LLC_STREAM_DEMAND_DENSITY_XQ")]%string
  | msr1323 => (* 0x1323 *)
      [(" L2_STREAM_AMP_CREATE_SWPFRFO", "L2_STREAM_AMP_CREATE_SWPFRFO");
       (" L2_STREAM_AMP_CREATE_SWPFRD", "L2_STREAM_AMP_CREATE_SWPFRD");
       (" L2_STREAM_AMP_CREATE_HWPFD", "L2_STREAM_AMP_CREATE_HWPFD");
       (" L2_STREAM_AMP_CREATE_DRFO", "L2_STREAM_AMP_CREATE_DRFO");
       (" STABILIZE_PREF_ON_SWPFRFO", "STABILIZE_PREF_ON_SWPFRFO");
       (" STABILIZE_PREF_ON_SWPFRD", "STABILIZE_PREF_ON_SWPFRD");
       (" STABILIZE_PREF_ON_IL1", "STABILIZE_PREF_ON_IL1");
       (" STABILIZE_PREF_ON_HWPFD", "STABILIZE_PREF_ON_HWPFD");
       (" STABILIZE_PREF_ON_DRFO", "STABILIZE_PREF_ON_DRFO");
       (" L2_STREAM_AMP_CREATE_PFNPP", "L2_STREAM_AMP_CREATE_PFNPP");
       (" L2_STREAM_AMP_CREATE_PFIPP", "L2_STREAM_AMP_CREATE_PFIPP");
       (" STABILIZE_PREF_ON_PFNPP", "STABILIZE_PREF_ON_PFNPP");
       (" STABILIZE_PREF_ON_PFIPP", "STABILIZE_PREF_ON_PFIPP")]%string
  | msr1324 => (* 0x1324 *)
      [("L1_HOMELESS_THRESHOLD", "L1_HOMELESS_THRESHOLD")]%string
  | msr1325 => (* 0x1325 *)
      [("STR_WINDOW_SIZE", "STR_WINDOW_SIZE"); ("KICK_START", "KICK_START");
       ("LQ_THRESHOLD", "LQ_THRESHOLD"); ("AMP_MAX_TRIV_REC_PREF", "AMP_MAX_TRIV_REC_PREF");
       ("AMP_DELTA_CNT_INC_VAL", "AMP_DELTA_CNT_INC_VAL");
       ("PREFACC_COUNTER_THRESHOLD", "PREFACC_COUNTER_THRESHOLD");
       ("PREFACC_DISABLE_LQ2_THRESHOLD", "PREFACC_DISABLE_LQ2_THRESHOLD");
       ("PREFACC_DISABLE_XQ_THRESHOLD", "PREFACC_DISABLE_XQ_THRESHOLD");
       ("PREFACC_COUNTER_INCR", "PREFACC_COUNTER_INCR"); ("PREFACC_COUNT", "PREFACC_COUNT");
       ("PREFACC_DISABLE", "PREFACC_DISABLE")]%string
  | msr1326 => (* 0x1326 *)
      [("AMP_RECUR_PREFETCHMINCOUNT", "AMP_RECUR_PREFETCHMINCOUNT")]%string
  | msr1327 => (* 0x1327 *)
      [("RMT_INC", "RMT_INC"); ("RMT_DEC", "RMT_DEC");
       ("RMT_POSITIVE_SATURATIONRMT_POSITIVE_SATURATION", "RMT_POSITIVE_SATURATION");
       ("RMT_POSITIVE_UPPER_QUARTILE", "RMT_POSITIVE_UPPER_QUARTILE");
       ("RMT_POSITIVE_LOWER_QUARTILE", "RMT_POSITIVE_LOWER_QUARTILE");
       ("RMT_NEGATIVE_LOWER_QUARTILE", "RMT_NEGATIVE_LOWER_QUARTILE");
       ("RMT_NEGATIVE_UPPER_QUARTILE", "RMT_NEGATIVE_UPPER_QUARTILE");
       ("RMT_NEGATIVE_SATURATION", "RMT_NEGATIVE_SATURATION"); ("RMT_ENRMT_EN", "RMT_EN")]%string
  end.

(** The bit-fields that [b] assigns, in the order of the arguments from [argv[3]]. *)
Definition assigned (s : msr_struct) : list string :=
  match s with
  | msr1A4 => (* 0x1a4 *)
      ["L2_STREAM_DISABLED"; "L2_ADJACENT_CACHE_LINE_PREFETCHER_DISABLE";
       "L1_DATA_STREAM_DISABLED"; "L1_INSTRUCTION_STREAM_DISABLED"; "L1_NEXT_PAGE_DISABLED";
       "L2_AMP_DISABLED"; "LLC_PAGE_PREFETCH_DISABLE"; "AOP_PREFETCH_DISABLE";
       "STREAM_PREFETCH_CODE_FETCH_DISABLE"; "DYNAMIC_L2PREFETCHER_CONFIG_DISABLE"]%string
  | msr1320 => (* 0x1320 *)
      ["L2_STREAM_AMP_XQ_THRESHOLD"; "INIT_PRE_PENDING"; "SKPAHD_PREF"; "MAX_PREF_PENDING";
       "INIT_TRIG_WINDOW"; "L2_STREAM_MAX_DISTANCE"; "TRIG_PREF_HIT";
       "L2_AMP_DISABLE_RECURSION"; "DIS_AMP_TRIV_REC"; "L2HL_LLCHL_MIN_DIST";
       "LLC_STREAM_MAX_DISTANCE"; "LLC_STREAM_DISABLE"; "LLC_INIT_PREF_PEND";
       "LLC_MAX_PREF_PEND"; "LLCPREF_LQ_THRESHOLD"; "LLC_STREAM_XQ_THRESHOLD"]%string
  | msr1321 => (* 0x1321 *)
      ["L2_STREAM_AMP_CREATE_IL1"; "ALTERNATIVE_ISIDE_PREFETCH_ENABLE";
       "ALTERNATIVE_KICKSTART_PREFETCHES"; "ALTERNATIVE_REGULAR_PREFETCHES"; "DTP_ENABLE";
       "L2_STREAM_DEMAND_DENSITY"; "L2_STREAM_DEMAND_DENSITY_OVR"; "CREATE_PMH";
       "L2_DISABLE_NEXT_LINE_PREFETCH"; "L2_LLC_STREAM_AMP_XQ_THRESHOLD";
       "RESTORE_L2PREFETCHER_DEFAULTS"]%string
  | msr1322 => (* 0x1322 *)
      ["LLPREF_THROTTLE_ISSUE_FACTOR"; "LLPREF_THROTTLE_HIT_FACTOR";
       "LLPREF_UNTHROTTLE_ISSUE_FACTOR"; "LLPREF_UNTHROTTLE_HIT_FACTOR";
       "LLC_STREAM_DEMAND_DENSITY"; "LLC_STREAM_DEMAND_DENSITY_OVR"; "L2_AMP_CONFIDENCE_DPT0";
       "L2_AMP_CONFIDENCE_DPT1"; "L2_AMP_CONFIDENCE_DPT2"; "L2_AMP_CONFIDENCE_DPT3";
       "L2_LLC_STREAM_DEMAND_DENSITY_XQ"]%string
  | msr1323 => (* 0x1323 *)
      ["L2_STREAM_AMP_CREATE_SWPFRFO"; "L2_STREAM_AMP_CREATE_SWPFRD";
       "L2_STREAM_AMP_CREATE_HWPFD"; "L2_STREAM_AMP_CREATE_DRFO"; "STABILIZE_PREF_ON_SWPFRFO";
       "STABILIZE_PREF_ON_SWPFRD"; "STABILIZE_PREF_ON_IL1"; "STABILIZE_PREF_ON_HWPFD";
       "STABILIZE_PREF_ON_DRFO"; "L2_STREAM_AMP_CREATE_PFNPP"; "L2_STREAM_AMP_CREATE_PFIPP";
       "STABILIZE_PREF_ON_PFNPP"; "STABILIZE_PREF_ON_PFIPP"]%string
  | msr1324 => (* 0x1324 *)
      ["L1_HOMELESS_THRESHOLD"]%string
  | msr1325 => (* 0x1325 *)
      ["STR_WINDOW_SIZE"; "KICK_START"; "LQ_THRESHOLD"; "AMP_MAX_TRIV_REC_PREF";
       "AMP_DELTA_CNT_INC_VAL"; "PREFACC_COUNTER_THRESHOLD"; "PREFACC_DISABLE_LQ2_THRESHOLD";
       "PREFACC_DISABLE_XQ_THRESHOLD"; "PREFACC_COUNTER_INCR"; "PREFACC_COUNT";
       "PREFACC_DISABLE"]%string
  | msr1326 => (* 0x1326 *)
      ["AMP_RECUR_PREFETCHMINCOUNT"]%string
  | msr1327 => (* 0x1327 *)
      ["RMT_INC"; "RMT_DEC"; "RMT_POSITIVE_SATURATION"; "RMT_POSITIVE_UPPER_QUARTILE";
       "RMT_POSITIVE_LOWER_QUARTILE"; "RMT_NEGATIVE_LOWER_QUARTILE";
       "RMT_NEGATIVE_UPPER_QUARTILE"; "RMT_NEGATIVE_SATURATION"; "RMT_EN"]%string
  end.

Definition msr_of_id (id : Z) : option msr_struct :=
  if id =? 0x1a4 then Some msr1A4
  else if id =? 0x1320 then Some msr1320
  else if id =? 0x1321 then Some msr1321
  else if id =? 0x1322 then Some msr1322
  else if id =? 0x1323 then Some msr1323
  else if id =? 0x1324 then Some msr1324
  else if id =? 0x1325 then Some msr1325
  else if id =? 0x1326 then Some msr1326
  else if id =? 0x1327 then Some msr1327
  else None.

(** ** The program *)

Inductive line : Type :=
  | Banner
  | Usage
  | MsrValue (id v : Z)
  | Setting (label : string) (v : Z)
  | BadId
  | BadMode
  | Done.

(** [argv[i]]: the entry after the last argument is a null pointer. *)
Definition arg (argv : list string) (i : Z) : ST unit string := fun s =>
  match aget argv i with
  | Some a => Ok (a, s)
  | None => Stop (if i =? zlen argv then NullDeref else OutOfBounds)
  end.

Definition decode (s : msr_struct) (w : Z) : list line :=
  map (fun '(label, n) => Setting label (msr_u_get s n w)) (printed s).

(** The assignments of mode [b], from argument [i] on. *)
Fixpoint encode_args (s : msr_struct) (argv names : list string) (i w : Z) : ST unit Z :=
  match names with
  | [] => mret w
  | n :: names' =>
      a ← arg argv i;
      encode_args s argv names' (i + 1) (msr_u_set s n w (strtol16 a))
  end.

Definition first_char (s : string) : option Ascii.ascii :=
  match s with
  | String c _ => Some c
  | EmptyString => None
  end.

(** [main]: the exit status and the lines printed. *)
Definition msr2settings (argv : list string) : ST unit (Z * list line) :=
  if zlen argv <? 4 then mret (-1, [Banner; Usage]) else
  a2 ← arg argv 2;
  let msr_id := u32 (strtol16 a2) in
  a1 ← arg argv 1;
  if bool_decide (first_char a1 = Some "a"%char) then
    a3 ← arg argv 3;
    let v := u64 (strtol16 a3) in
    mret (0, [Banner; MsrValue msr_id v] ++
             from_option (fun s => decode s v) [BadId] (msr_of_id msr_id) ++ [Done])
  else if bool_decide (first_char a1 = Some "b"%char) then
    match msr_of_id msr_id with
    | Some s =>
        v ← encode_args s argv (assigned s) 3 0;
        mret (0, [Banner; MsrValue msr_id v; Done])
    | None => mret (0, [Banner; BadId; MsrValue msr_id 0; Done])
    end
  else mret (0, [Banner; BadMode; Done]).

(** ** Hexadecimal output *)

(** The digits that [printf] prints for [%lx]. *)
Definition digit (d : Z) : Ascii.ascii :=
  Ascii.ascii_of_nat (Z.to_nat (if d <? 10 then 48 + d else 87 + d)).

Fixpoint hex_digits (fuel : nat) (v : Z) (rest : string) : string :=
  match fuel with
  | O => rest
  | S fuel' =>
      let rest' := String (digit (v mod 16)) rest in
      if v / 16 =? 0 then rest' else hex_digits fuel' (v / 16) rest'
  end.

Definition hex (v : Z) : string := ("0x" ++ hex_digits 16 v "")%string.

Lemma hex_digit_digit d : 0 <= d < 16 -> hex_digit (digit d) = Some d.
Proof.
  intros Hd. assert (H : forallb (fun d => bool_decide (hex_digit (digit d) = Some d)) (seqZ 0 16) = true)
    by (vm_compute; reflexivity).
  rewrite forallb_forall in H. eapply bool_decide_eq_true_1, H.
  apply list_elem_of_In, elem_of_seqZ. lia.
Qed.

Lemma hex_value_digits n v rest :
  0 <= v < 16 ^ Z.of_nat n -> (n <> 0)%nat ->
  hex_value (hex_digits n v rest) 0 = hex_value rest v.
Proof.
  revert v rest. induction n as [|n IH]; intros v rest Hv Hn; [done|]. cbn [hex_digits].
  rewrite Nat2Z.inj_succ, Z.pow_succ_r in Hv by lia.
  pose proof (Z.div_mod v 16 ltac:(lia)) as Hdm. pose proof (Z.mod_pos_bound v 16 ltac:(lia)) as Hm.
  destruct (Z.eqb_spec (v / 16) 0) as [H0|H0].
  - cbn [hex_value]. rewrite hex_digit_digit by done. f_equal. lia.
  - assert (Hd : 0 <= v / 16 < 16 ^ Z.of_nat n)
      by (split; [apply Z.div_pos; lia|apply Z.div_lt_upper_bound; lia]).
    rewrite IH; [|done|].
    + cbn [hex_value]. rewrite hex_digit_digit by done. f_equal. lia.
    + intros ->. simpl in Hd. lia.
Qed.

(** Reading back what was printed: exact below [2 ^ 63], saturated above. *)
Lemma strtol16_hex v : in_u 64 v -> strtol16 (hex v) = Z.min (2 ^ 63 - 1) v.
Proof.
  intros Hv. unfold strtol16, hex. set (ds := hex_digits 16 v "").
  change (take_sign (skip_spaces ("0x" ++ ds)%string)) with (false, ("0x" ++ ds)%string).
  cbv beta iota. change (skip_prefix ("0x" ++ ds)%string) with ds. cbv zeta.
  unfold ds. rewrite hex_value_digits; [done|exact Hv|done].
Qed.

(** ** The word of a list of settings *)

Definition encode (s : msr_struct) (vs : list Z) : Z :=
  foldl (fun w '(n, v) => msr_u_set s n w v) 0 (zip (assigned s) vs).

(** A value that fits its bit-field. *)
Definition fits (s : msr_struct) (n : string) (v : Z) : Prop :=
  exists f, field_of s n = Some f /\ 0 <= v < 2 ^ f_width f.

Lemma fits_small s n v : fits s n v -> 0 <= v < 2 ^ 63.
Proof.
  intros (f & Hf & Hv). split; [lia|]. eapply Z.lt_le_trans; [apply Hv|].
  assert (H : forallb (fun s => forallb (fun '(_, f) => f_width f <=? 63) (layout s))
    [msr1A4; msr1320; msr1321; msr1322; msr1323; msr1324; msr1325; msr1326; msr1327] = true)
    by (vm_compute; reflexivity).
  rewrite forallb_forall in H. specialize (H s ltac:(destruct s; simpl; tauto)).
  rewrite forallb_forall in H. specialize (H (n, f) (assoc_In _ _ _ Hf)). simpl in H.
  apply Z.pow_le_mono_r; lia.
Qed.

Lemma assigned_nodup s : NoDup (assigned s).
Proof. apply (bool_decide_unpack _). destruct s; vm_compute; exact I. Qed.

(** The labels are printed for the fields that are assigned, in their order. *)
Lemma printed_assigned s : map snd (printed s) = assigned s.
Proof. by destruct s. Qed.

Lemma encode_from_other s names vs w m :
  m ∉ names ->
  msr_u_get s m (foldl (fun w '(n, v) => msr_u_set s n w v) w (zip names vs)) = msr_u_get s m w.
Proof.
  revert vs w. induction names as [|n names IH]; intros vs w Hm; [done|].
  destruct vs as [|v vs]; [done|]. cbn [zip zip_with foldl].
  apply not_elem_of_cons in Hm as [Hne Hm]. rewrite IH by done.
  by rewrite msr_u_get_set_other.
Qed.

Lemma encode_from_get s names vs w :
  NoDup names -> Forall2 (fits s) names vs ->
  map (fun n => msr_u_get s n (foldl (fun w '(n, v) => msr_u_set s n w v) w (zip names vs))) names = vs.
Proof.
  intros Hnd Hf. revert w Hnd. induction Hf as [|n v names vs (f & Hfo & Hv) _ IH]; intros w Hnd; [done|].
  apply NoDup_cons in Hnd as [Hn Hnd]. cbn [zip zip_with foldl map]. f_equal.
  - rewrite encode_from_other by done. rewrite (msr_u_get_set_same _ _ f) by done. by apply Z.mod_small.
  - by apply IH.
Qed.

Lemma encode_range s vs : in_u 64 (encode s vs).
Proof.
  unfold encode. assert (H : in_u 64 0) by done. revert H. generalize 0.
  generalize (zip (assigned s) vs). intros l. induction l as [|[n v] l IH]; intros w Hw; [done|].
  cbn [foldl]. apply IH. by apply msr_u_set_range.
Qed.

(** The lines printed for a word, by value. *)
Lemma decode_encode s vs :
  Forall2 (fits s) (assigned s) vs ->
  decode s (encode s vs) = zip_with Setting (map fst (printed s)) vs.
Proof.
  intros Hf. pose proof (encode_from_get s (assigned s) vs 0 (assigned_nodup s) Hf) as Hg.
  fold (encode s vs) in Hg. rewrite <- (printed_assigned s) in Hg.
  set (w := encode s vs) in *. rewrite <- Hg. clearbody w. clear Hf Hg. unfold decode.
  induction (printed s) as [|[l n] p IH]; [done|]. cbn [map zip_with fst snd]. by rewrite <- IH.
Qed.

(** The arguments of mode [b] are read one after the other. *)
Lemma encode_args_eq s argv names vs i w t :
  (forall k v, vs !! k = Some v -> aget argv (i + Z.of_nat k) = Some (hex v)) ->
  Forall2 (fits s) names vs ->
  encode_args s argv names i w t =
    Ok (foldl (fun w '(n, v) => msr_u_set s n w v) w (zip names vs), t).
Proof.
  intros Hargs Hf. revert i w Hargs. induction Hf as [|n v names vs Hv _ IH]; intros i w Hargs; [done|].
  cbn [encode_args zip zip_with foldl]. pose proof (fits_small _ _ _ Hv) as Hs.
  assert (Ha : arg argv i t = Ok (hex v, t)).
  { unfold arg. pose proof (Hargs 0%nat v eq_refl) as H0. by rewrite Z.add_0_r in H0; rewrite H0. }
  rewrite (bind_Ok _ _ _ _ _ Ha), strtol16_hex by (unfold in_u; lia).
  rewrite Z.min_r by lia. apply IH. intros k v' Hk.
  rewrite <- (Hargs (S k) v' Hk). f_equal. lia.
Qed.

Definition msr_id_of (s : msr_struct) : Z :=
  match s with
  | msr1A4 => 0x1a4 | msr1320 => 0x1320 | msr1321 => 0x1321 | msr1322 => 0x1322
  | msr1323 => 0x1323 | msr1324 => 0x1324 | msr1325 => 0x1325 | msr1326 => 0x1326
  | msr1327 => 0x1327
  end.

Lemma msr_id_parse s : u32 (strtol16 (hex (msr_id_of s))) = msr_id_of s.
Proof. by destruct s; vm_compute. Qed.

Lemma msr_of_msr_id s : msr_of_id (msr_id_of s) = Some s.
Proof. by destruct s. Qed.

Lemma zlen_args (a b c d : string) l : (zlen (a :: b :: c :: d :: l) <? 4) = false.
Proof. apply Z.ltb_ge. unfold zlen. cbn [length]. lia. Qed.

(** The run of mode [a] on a printed word. *)
Lemma decode_run s w t :
  in_u 64 w ->
  msr2settings ["msr2settings"; "a"; hex (msr_id_of s); hex w] t =
    Ok (0, [Banner; MsrValue (msr_id_of s) (Z.min (2 ^ 63 - 1) w)] ++
           decode s (Z.min (2 ^ 63 - 1) w) ++ [Done], t).
Proof.
  intros Hw. unfold msr2settings. rewrite zlen_args.
  set (argv := [_; _; _; _]).
  rewrite (bind_Ok _ _ _ _ _ (eq_refl : arg argv 2 t = Ok (hex (msr_id_of s), t))). rewrite msr_id_parse.
  rewrite (bind_Ok _ _ _ _ _ (eq_refl : arg argv 1 t = Ok ("a"%string, t))).
  rewrite bool_decide_eq_true_2 by done.
  rewrite (bind_Ok _ _ _ _ _ (eq_refl : arg argv 3 t = Ok (hex w, t))).
  rewrite strtol16_hex, msr_of_msr_id by done. rewrite u64_small; [done|]. unfold in_u in Hw. lia.
Qed.

(** ** Properties *)

(** C39: the two modes are inverse to each other.  For each supported MSR and any
    settings that fit their bit-fields, mode [b] prints a word, and mode [a]
    given that word, as printed, prints exactly those settings under their
    labels, in the same order; the only condition is that the word is below
    [2 ^ 63]. *)
Theorem msr2settings_roundtrip (s : msr_struct) (vs : list Z) :
  Forall2 (fits s) (assigned s) vs -> encode s vs < 2 ^ 63 ->
  let w := encode s vs in
  msr2settings (["msr2settings"; "b"; hex (msr_id_of s)]%string ++ map hex vs) tt =
    Ok (0, [Banner; MsrValue (msr_id_of s) w; Done], tt) /\
  msr2settings ["msr2settings"; "a"; hex (msr_id_of s); hex w]%string tt =
    Ok (0, [Banner; MsrValue (msr_id_of s) w] ++ zip_with Setting (map fst (printed s)) vs ++ [Done], tt).
Proof.
  intros Hf Hlt w. pose proof (encode_range s vs) as Hw. fold w in Hw, Hlt. split.
  - assert (Hv : exists v vs', vs = v :: vs').
    { destruct vs as [|v vs']; [|eauto]. apply Forall2_nil_inv_r in Hf. by destruct s. }
    destruct Hv as (v & vs' & Hvs). unfold msr2settings. rewrite Hvs. cbn [map app].
    rewrite zlen_args, <- (map_cons hex v vs'), <- Hvs.
    set (argv := "msr2settings"%string :: _).
    rewrite (bind_Ok _ _ _ _ _ (eq_refl : arg argv 2 tt = Ok (hex (msr_id_of s), tt))), msr_id_parse.
    rewrite (bind_Ok _ _ _ _ _ (eq_refl : arg argv 1 tt = Ok ("b"%string, tt))).
    rewrite bool_decide_eq_false_2, bool_decide_eq_true_2, msr_of_msr_id by done.
    assert (He : encode_args s argv (assigned s) 3 0 tt = Ok (w, tt)).
    { apply encode_args_eq; [|done]. intros k x Hk. unfold argv, aget.
      rewrite (proj2 (Z.leb_le 0 _)) by lia. replace (Z.to_nat (3 + Z.of_nat k)) with (S (S (S k))) by lia.
      change ((hex <$> vs) !! k = Some (hex x)). by rewrite list_lookup_fmap, Hk. }
    by rewrite (bind_Ok _ _ _ _ _ He).
  - rewrite decode_run by done. rewrite Z.min_r by lia. unfold w. by rewrite decode_encode.
Qed.

Lemma msr2settings_roundtrip_witness :
  let w := encode msr1327 [4; 1; 0; 0; 1; 2; 3; 4; 1] in
  msr2settings ["msr2settings"; "a"; "0x1327"; hex w]%string tt =
    Ok (0, [Banner; MsrValue 0x1327 w] ++
           zip_with Setting (map fst (printed msr1327)) [4; 1; 0; 0; 1; 2; 3; 4; 1] ++ [Done], tt).
Proof.
  apply (msr2settings_roundtrip msr1327 [4; 1; 0; 0; 1; 2; 3; 4; 1]).
  - repeat (apply Forall2_cons_2; [eexists; split; [vm_compute; reflexivity|by vm_compute]|]).
    apply Forall2_nil_2.
  - vm_compute. reflexivity.
Defined.

(** A word with bit 63 set is not decoded: [strtoll] saturates, so mode [a]
    prints the settings of [2 ^ 63 - 1] instead.  The word that mode [b] prints
    for MSR 0x1321 with RESTORE_L2PREFETCHER_DEFAULTS is such a word. *)
Theorem msr2settings_saturates (s : msr_struct) (w : Z) :
  2 ^ 63 <= w < 2 ^ 64 ->
  msr2settings ["msr2settings"; "a"; hex (msr_id_of s); hex w]%string tt =
    Ok (0, [Banner; MsrValue (msr_id_of s) (2 ^ 63 - 1)] ++ decode s (2 ^ 63 - 1) ++ [Done], tt).
Proof. intros Hw. rewrite decode_run by (unfold in_u; lia). by rewrite Z.min_l by lia. Qed.

Lemma msr2settings_saturates_witness :
  let w := encode msr1321 [0; 0; 0; 0; 0; 0; 0; 0; 0; 0; 1] in
  w = 2 ^ 63 /\
  exists rest, msr2settings ["msr2settings"; "a"; "0x1321"; hex w]%string tt =
    Ok (0, Banner :: MsrValue 0x1321 (2 ^ 63 - 1) :: Setting "L2_STREAM_AMP_CREATE_IL1" 1 :: rest, tt).
Proof.
  split; [vm_compute; reflexivity|]. eexists.
  etransitivity; [apply (msr2settings_saturates msr1321 (encode msr1321 [0; 0; 0; 0; 0; 0; 0; 0; 0; 0; 1]))|].
  - vm_compute. split; [discriminate|reflexivity].
  - vm_compute. reflexivity.
Defined.
