(* ===== verification/PmuDdr.v ===== *)
(** * DDR bandwidth counters of the user-space program ([pmu_ddr.c], [pcie.c])

    The memory controllers are found on the PCI bus, their counters are mapped
    through [/dev/mem], and a reading answers the bytes moved since the last one.
    The struct [ddr_s], the offsets and the directions are those of the kernel
    module ([include/pmu_ddr.h] is shared).  The PCI library is a list of
    devices with their configuration words; the memory is a function of the
    physical address. *)

From S2P Require Import Prelude KState KPmuDdr.

(** ** State *)

(** What the code reads of a [struct pci_dev]. *)
Record pci_dev := { vendor_id : Z; device_id : Z; pci_read_long : Z -> Z }.

Record dstate := {
  uddr : ddr_s                (** the global [ddr] of [main.c] *);
  if_type : Z                 (** [static int ddr_interface_type] *);
  num_controllers : Z         (** [num_ddr_controllers] *);
  devices : option (list pci_dev)  (** [pacc->devices]; [None] before [pcie_init] *);
  phys : Z -> Z               (** the 64-bit word at a physical address *);
  vmaps : gmap Z Z            (** live mappings: address to physical base *);
  next_va : Z                 (** where the next mapping goes *);
  mem_opens : list bool       (** whether the next [open]s of [/dev/mem] succeed *);
  mmaps : list bool           (** whether the next [mmap]s succeed *) }.

#[export] Instance dstate_settable : Settable dstate := fun r =>
  {| uddr := uddr r; if_type := if_type r; num_controllers := num_controllers r;
     devices := devices r; phys := phys r; vmaps := vmaps r; next_va := next_va r;
     mem_opens := mem_opens r; mmaps := mmaps r |}.

Abbreviation M := (ST dstate).

Definition MAP_FAILED : Z := u64 (-1).

(** [open("/dev/mem", O_RDONLY)]. *)
Definition open_mem : M Z := fun s =>
  Ok (if default true (head (mem_opens s)) then 3 else -1, s <| mem_opens ::= tail |>).

(** [mmap(NULL, range, PROT_READ, MAP_SHARED, mem_file, base)]. *)
Definition mmap_mem (range base : Z) : M Z := fun s =>
  let ok := default true (head (mmaps s)) in
  let s := s <| mmaps ::= tail |> in
  if ok then Ok (next_va s, s <| vmaps ::= <[next_va s := base]> |> <| next_va ::= fun a => a + range |>)
  else Ok (MAP_FAILED, s).

(** [*((uint64_t * )(a + off))]: a fault when [a] is not mapped. *)
Definition load (a off : Z) : M Z := fun s =>
  match vmaps s !! a with
  | Some base => Ok (u64 (phys s (base + off)), s)
  | None => Stop NullDeref
  end.

(** ** The PCI bus *)

(** [pcie_init()], when the library finds [found]: [None] when it cannot be
    allocated. *)
Definition pcie_init (found : option (list pci_dev)) : M Z :=
  match found with
  | None => mret (-1)
  | Some devs =>
      modify (fun s => s <| devices := Some devs |>) ;;
      mret (match devs with [] => -1 | _ => 0 end)
  end.

Definition pcie_get_devices : M (list pci_dev) :=
  d ← gets devices;
  match d with
  | Some devs => mret devs
  | None => stop_with NullDeref
  end.

(** [pci_cleanup] frees the list: it may not be used afterwards. *)
Definition pcie_deinit : M unit := modify (fun s => s <| devices := None |>).

(** ** Readings *)

Definition ddr_step (d : ddr_dir) (off total i : Z) : M Z :=
  x ← gets uddr;
  oldvalue ← read (last_update d x) i;
  a ← read (mmap x) i;
  new ← load a off;
  modify (fun s => s <| uddr ::= fun x => set_last_update d x (aset (last_update d x) i new) |>) ;;
  mret (u64 (total + u64 (new - oldvalue))).

Definition ddr_loop (d : ddr_dir) (off : Z) : M Z :=
  n ← gets num_controllers;
  fold_each (seqZ 0 n) 0 (ddr_step d off).

Definition pmu_ddr_client (type : Z) : M Z :=
  total ←
    (if type =? DDR_PMU_RD then ddr_loop Rd CLIENT_DDR_RD_BW
     else if type =? DDR_PMU_WR then ddr_loop Wr CLIENT_DDR_WR_BW
     else mret 0);
  mret (u64 (total * 64)).

Definition pmu_ddr_grr_srf (type : Z) : M Z :=
  total ←
    (if type =? DDR_PMU_RD then ddr_loop Rd GRR_SRF_FREE_RUN_CNTR_READ
     else if type =? DDR_PMU_WR then ddr_loop Wr GRR_SRF_FREE_RUN_CNTR_WRITE
     else mret 0);
  mret (u64 (total * 64)).

Definition pmu_ddr (type : Z) : M Z :=
  t ← gets if_type;
  if t =? DDR_CLIENT then pmu_ddr_client type
  else if t =? DDR_GRR_SRF then pmu_ddr_grr_srf type
  else mret (u64 (-1)).

(** ** Initialisation *)

(** [ddr->mmap[i] = mmap(...)]: [false] when the mapping failed. *)
Definition map_controller (range base i : Z) : M bool :=
  a ← mmap_mem range base;
  x ← gets uddr;
  check_index (mmap x) i ;;
  modify (fun s => s <| uddr ::= fun x => x <| mmap ::= fun l => aset l i a |> |>) ;;
  mret (negb (a =? MAP_FAILED)).

Fixpoint map_all (range : Z) (base : Z -> Z) (l : list Z) : M bool :=
  match l with
  | [] => mret true
  | i :: l' =>
      ok ← map_controller range (base i) i;
      if ok : bool then map_all range base l' else mret false
  end.

(** The end of both init functions, from the mappings of [l]. *)
Definition map_and_clean (range : Z) (base : Z -> Z) (l : list Z) : M Z :=
  fd ← open_mem;
  if fd <? 0 then mret (-1) else
  modify (fun s => s <| uddr ::= fun x => x <| mem_file := fd |> |>) ;;
  ok ← map_all range base l;
  if negb ok then mret (-1) else
  pmu_ddr DDR_PMU_RD ;;
  pmu_ddr DDR_PMU_WR ;;
  mret 0.

Definition pmu_ddr_init_grr_srf (ddr_bar : Z) : M Z :=
  n ← gets num_controllers;
  map_and_clean GRR_SRF_DDR_RANGE (fun i => u64 (ddr_bar + GRR_SRF_MC_ADDRESS i)) (seqZ 0 n).

Definition pmu_ddr_init_client (ddr_bar : Z) : M Z :=
  map_and_clean CLIENT_DDR_RANGE
    (fun i => u64 (ddr_bar + (if i =? 0 then CLIENT_DDR0_OFFSET else CLIENT_DDR1_OFFSET))) [0; 1].

(** The body of the search: [ddr_bar] after a device. *)
Definition scan_device (ddr_bar : Z) (dev : pci_dev) : M Z :=
  if negb (vendor_id dev =? 0x8086) then mret ddr_bar else
  if (device_id dev =? 0xa700) || (device_id dev =? 0x7d05) then
    modify (fun s => s <| if_type := DDR_CLIENT |> <| num_controllers ::= Z.succ |>) ;;
    mret (Z.land (u32 (pci_read_long dev 0x48)) 0xfffffff0)
  else if device_id dev =? 0x3251 then
    let mmio_base := Z.shiftl (Z.land (u32 (pci_read_long dev 0xD0)) 0x1FFFFFF) 23 in
    let scf_bar := Z.shiftl (Z.land (u32 (pci_read_long dev 0xD4)) 0x7FF) 12 in
    modify (fun s => s <| if_type := DDR_GRR_SRF |>) ;;
    mret (Z.lor mmio_base scf_bar)
  else if device_id dev =? 0x324a then
    modify (fun s => s <| num_controllers ::= Z.succ |>) ;; mret ddr_bar
  else mret ddr_bar.

Definition pmu_ddr_init (kernel_mode : Z) : M Z :=
  devs ← pcie_get_devices;
  ddr_bar ← fold_each devs 0 scan_device;
  modify (fun s => s <| uddr ::= fun x => x <| ddr_interface_type := if_type s |>
                                            <| bar_address := ddr_bar |>
                                            <| ddr_num_controllers := num_controllers s |> |>) ;;
  t ← gets if_type;
  (if kernel_mode =? 1 then mret tt else
   if t =? DDR_CLIENT then
     ret ← pmu_ddr_init_client ddr_bar;
     if ret <? 0 then modify (fun s => s <| if_type := DDR_NONE |>) else mret tt
   else if t =? DDR_GRR_SRF then
     ret ← pmu_ddr_init_grr_srf ddr_bar;
     if ret <? 0 then modify (fun s => s <| if_type := DDR_NONE |>) else mret tt
   else mret tt) ;;
  gets if_type.

(** ** Agreement with the kernel module *)

(** Where the counter of direction [d] is, from the address of the mapping in
    user space ([uoff]) and in the module ([koff]). *)
Definition uoff (t : Z) (d : ddr_dir) : Z :=
  if t =? DDR_CLIENT then match d with Rd => CLIENT_DDR_RD_BW | Wr => CLIENT_DDR_WR_BW end
  else match d with Rd => GRR_SRF_FREE_RUN_CNTR_READ | Wr => GRR_SRF_FREE_RUN_CNTR_WRITE end.

(** The two programs look at the same controllers: the same number and kind,
    the same last readings, and mappings under which each counter has the same
    value. *)
Record same_counters (d : ddr_dir) (u : dstate) (s : kstate) : Prop := {
  sc_type : if_type u = ddr_cpu_type s;
  sc_num : num_controllers u = num_ddr_controllers s;
  sc_max : 0 <= num_controllers u <= 16;
  sc_lens : zlen (last_update d (ddr s)) = 16 /\ zlen (mmap (ddr s)) = 16 /\ zlen (mmap (uddr u)) = 16;
  sc_last : last_update d (uddr u) = last_update d (ddr s);
  sc_maps : forall i, 0 <= i < num_controllers u ->
    exists a base m, aget (mmap (uddr u)) i = Some a /\ vmaps u !! a = Some base /\
      aget (mmap (ddr s)) i = Some m /\ m <> 0 /\
      u64 (phys u (base + uoff (if_type u) d)) = u64 (hw_mmio (machine s) (m + counter_off (ddr_cpu_type s) d)) }.

Lemma last_set d x l : last_update d (set_last_update d x l) = l.
Proof. by destruct d. Qed.

Lemma mmap_set d x l : mmap (set_last_update d x l) = mmap x.
Proof. by destruct d. Qed.

(** One controller: both programs add the same amount and stay in agreement. *)
Lemma steps_agree d acc i u s :
  same_counters d u s -> 0 <= i < num_controllers u ->
  exists r u' s', ddr_step d (uoff (if_type u) d) acc i u = Ok (r, u') /\
    ddr_counter_step d (counter_off (ddr_cpu_type s) d) acc i s = Ok (r, s') /\
    if_type u' = if_type u /\ num_controllers u' = num_controllers u /\
    ddr_cpu_type s' = ddr_cpu_type s /\ num_ddr_controllers s' = num_ddr_controllers s /\
    same_counters d u' s'.
Proof.
  intros [Ht Hn Hmax (Hl1 & Hl2 & Hl3) Hlast Hmaps] Hi.
  destruct (Hmaps i Hi) as (a & base & m & Ha & Hb & Hm & Hm0 & Hv).
  destruct (aget_is_Some (last_update d (ddr s)) i) as [old Hold]; [lia|].
  set (new := u64 (hw_mmio (machine s) (m + counter_off (ddr_cpu_type s) d))) in *.
  exists (u64 (acc + u64 (new - old))). do 2 eexists.
  split; [|split].
  - unfold ddr_step. rewrite bind_gets, Hlast, (bind_Ok _ _ _ _ _ (read_Some _ _ _ u Hold)).
    rewrite (bind_Ok _ _ _ _ _ (read_Some _ _ _ u Ha)).
    rewrite (bind_Ok _ _ _ new u) by (unfold load; by rewrite Hb, Hv).
    rewrite bind_modify. reflexivity.
  - unfold ddr_counter_step. rewrite bind_gets, (bind_Ok _ _ _ _ _ (read_Some _ _ _ s Hm)).
    rewrite (proj2 (Z.eqb_neq _ _) Hm0), (bind_Ok _ _ _ _ _ (read_Some _ _ _ s Hold)).
    unfold readq. rewrite bind_gets. fold new. rewrite bind_modify. reflexivity.
  - split_and!; try done. split; cbn -[last_update set_last_update mmap]; try done.
    + rewrite last_set, zlen_aset, !mmap_set. done.
    + by rewrite !last_set, Hlast.
    + intros j Hj. rewrite !mmap_set. by apply Hmaps.
Qed.

Lemma loops_agree d l : forall acc u s,
  same_counters d u s -> Forall (fun i => 0 <= i < num_controllers u) l ->
  exists r u' s', fold_each l acc (ddr_step d (uoff (if_type u) d)) u = Ok (r, u') /\
    fold_each l acc (ddr_counter_step d (counter_off (ddr_cpu_type s) d)) s = Ok (r, s') /\
    same_counters d u' s'.
Proof.
  induction l as [|i l IH]; intros acc u s Hsc Hl; [by exists acc, u, s|].
  apply Forall_cons in Hl as [Hi Hl].
  destruct (steps_agree d acc i u s Hsc Hi) as (r & u1 & s1 & Hu & Hs & Ht1 & Hn1 & Ht2 & Hn2 & Hsc1).
  destruct (IH r u1 s1 Hsc1) as (r' & u' & s' & Hu' & Hs' & Hsc'); [by rewrite Hn1|].
  exists r', u', s'. cbn [fold_each]. rewrite (bind_Ok _ _ _ _ _ Hu), (bind_Ok _ _ _ _ _ Hs).
  rewrite Ht1 in Hu'. rewrite Ht2 in Hs'. done.
Qed.

(** C30: the user-space program and the kernel module measure the same bandwidth.
    When both look at the same controllers with the same last readings, a
    reading of either direction gives the same number of bytes and leaves them
    in agreement, so all later readings agree as well. *)
Theorem user_kernel_bandwidth d u s :
  same_counters d u s -> if_type u = DDR_CLIENT \/ if_type u = DDR_GRR_SRF ->
  exists r u' s', pmu_ddr (pmu_type d) u = Ok (r, u') /\ kernel_pmu_ddr (pmu_type d) s = Ok (r, s') /\
    same_counters d u' s'.
Proof.
  intros Hsc Ht. pose proof (sc_type _ _ _ Hsc) as Htt. pose proof (sc_num _ _ _ Hsc) as Hnn.
  destruct (loops_agree d (seqZ 0 (num_controllers u)) 0 u s Hsc) as (r & u' & s' & Hu & Hs & Hsc').
  { apply Forall_forall. intros i Hi%elem_of_seqZ. lia. }
  exists (u64 (r * 64)), u', s'. split; [|split; [|done]].
  - unfold pmu_ddr. rewrite bind_gets.
    destruct Ht as [Ht|Ht]; rewrite Ht in Hu |- *; destruct d; cbn in Hu |- *;
      unfold mbind, ST_bind; unfold ddr_loop, mbind, ST_bind, gets; rewrite Hu; done.
  - rewrite Hnn in Hs. unfold kernel_pmu_ddr. rewrite bind_gets. rewrite Htt in Ht.
    destruct Ht as [Ht|Ht]; rewrite Ht in Hs |- *; destruct d; cbn in Hs |- *;
      unfold mbind, ST_bind; unfold ddr_counter_loop, mbind, ST_bind, gets; rewrite Hs; done.
Qed.

(** ** Finding the controllers *)

Definition known_ids : list Z := [0xa700; 0x7d05; 0x3251; 0x324a].

Definition known (dev : pci_dev) : bool :=
  (vendor_id dev =? 0x8086) && bool_decide (device_id dev ∈ known_ids).

Lemma scan_unknown bar dev s : known dev = false -> scan_device bar dev s = Ok (bar, s).
Proof.
  unfold known, scan_device. destruct (vendor_id dev =? 0x8086); cbn [negb andb]; [|done].
  intros Hid%bool_decide_eq_false_1. unfold known_ids in Hid.
  rewrite !(proj2 (Z.eqb_neq (device_id dev) _)); [done|..]; intros Heq; apply Hid; rewrite Heq; set_solver.
Qed.

Lemma scan_all_unknown devs bar s :
  Forall (fun dev => known dev = false) devs -> fold_each devs bar scan_device s = Ok (bar, s).
Proof.
  induction 1 as [|dev devs Hd _ IH]; [done|]. cbn [fold_each].
  by rewrite (bind_Ok _ _ _ _ _ (scan_unknown bar dev s Hd)).
Qed.

(** When the bus has no memory controller the program knows, the search
    answers 0 instead of [DDR_NONE], the value its caller tests to fall back on
    RDT monitoring; readings then answer 2^64 - 1 bytes. *)
Theorem ddr_init_not_found devs mode s :
  devices s = Some devs -> if_type s = 0 -> Forall (fun dev => known dev = false) devs ->
  exists s', pmu_ddr_init mode s = Ok (0, s') /\ 0 <> DDR_NONE /\
    forall type, pmu_ddr type s' = Ok (2 ^ 64 - 1, s').
Proof.
  intros Hd Ht Hu. unfold pmu_ddr_init, pcie_get_devices.
  rewrite (bind_Ok _ _ _ devs s) by (rewrite bind_gets; by rewrite Hd).
  rewrite (bind_Ok _ _ _ _ _ (scan_all_unknown devs 0 s Hu)), bind_modify, bind_gets.
  match goal with |- context [if_type ?q =? DDR_CLIENT] => set (s' := q) end.
  assert (Ht' : if_type s' = 0) by done. rewrite Ht'. cbn [Z.eqb DDR_CLIENT DDR_GRR_SRF].
  exists s'. split; [|split; [done|]].
  - rewrite (bind_Ok _ _ _ tt s') by (by destruct (mode =? 1)). unfold gets. by rewrite Ht'.
  - intros type. unfold pmu_ddr. rewrite bind_gets, Ht'. done.
Qed.

(** The first [k] controllers are mapped to [base]. *)
Definition mapped_to (base : Z -> Z) (k : Z) (s : dstate) : Prop :=
  forall j, 0 <= j < k -> exists a, aget (mmap (uddr s)) j = Some a /\ vmaps s !! a = Some (base j) /\
    a < next_va s.

Record mappable (s : dstate) : Prop := {
  mp_len : zlen (mmap (uddr s)) = 16;
  mp_rd : zlen (rd_last_update (uddr s)) = 16;
  mp_wr : zlen (wr_last_update (uddr s)) = 16;
  mp_ok : mmaps s = [];
  mp_va : 0 < next_va s < 2 ^ 63 }.

Lemma map_controller_run range base i s :
  mappable s -> 0 <= i < 16 -> 0 < range <= 2 ^ 20 -> next_va s + 2 ^ 20 < 2 ^ 63 ->
  mapped_to base i s ->
  exists s', map_controller range (base i) i s = Ok (true, s') /\ mappable s' /\
    mapped_to base (i + 1) s' /\ next_va s' = next_va s + range /\
    num_controllers s' = num_controllers s /\ if_type s' = if_type s.
Proof.
  intros [Hl Hrd Hwr Hok Hva] Hi Hr Hva' Hm. unfold map_controller.
  assert (Hmm : mmap_mem range (base i) s =
    Ok (next_va s, s <| vmaps ::= <[next_va s := base i]> |> <| next_va ::= fun a => a + range |>)).
  { unfold mmap_mem. rewrite Hok. destruct s; cbn in *. by subst. }
  rewrite (bind_Ok _ _ _ _ _ Hmm), bind_gets.
  erewrite bind_Ok by (apply check_index_Ok; cbn; lia).
  rewrite bind_modify. eexists. split.
  { unfold mret, ST_ret. rewrite (proj2 (Z.eqb_neq _ _)); [reflexivity|].
    change MAP_FAILED with (2 ^ 64 - 1). lia. }
  split_and!; try done.
  - split; cbn; try done; [by rewrite zlen_aset|lia].
  - intros j Hj. cbn. destruct (decide (j = i)) as [->|Hne].
    + eexists. rewrite aget_aset_eq by lia. split; [done|]. rewrite lookup_insert_eq. split; [done|lia].
    + destruct (Hm j ltac:(lia)) as (a & Ha & Hb & Hlt). exists a.
      rewrite aget_aset_ne by done. split; [done|]. rewrite lookup_insert_ne by lia. split; [done|lia].
Qed.

Lemma map_all_run range base n : forall i s,
  mappable s -> 0 <= i -> i + Z.of_nat n <= 16 -> 0 < range <= 2 ^ 20 ->
  next_va s + Z.of_nat n * range + 2 ^ 20 < 2 ^ 63 -> mapped_to base i s ->
  exists s', map_all range base (seqZ i (Z.of_nat n)) s = Ok (true, s') /\ mappable s' /\
    mapped_to base (i + Z.of_nat n) s' /\ num_controllers s' = num_controllers s /\ if_type s' = if_type s.
Proof.
  induction n as [|n IH]; intros i s Hmp Hi Hn Hr Hva Hm.
  { exists s. rewrite Z.add_0_r. done. }
  rewrite seqZ_cons by lia. cbn [map_all].
  destruct (map_controller_run range base i s) as (s1 & Hrun & Hmp1 & Hm1 & Hva1 & Hn1 & Ht1); try done; [lia..|].
  rewrite (bind_Ok _ _ _ _ _ Hrun). replace (Z.pred (Z.of_nat (S n))) with (Z.of_nat n) by lia.
  destruct (IH (Z.succ i) s1) as (s2 & Hrun2 & Hmp2 & Hm2 & Hn2 & Ht2); try done; try lia.
  exists s2. rewrite Hrun2, Hn2, Ht2. replace (Z.succ i + Z.of_nat n) with (i + Z.of_nat (S n)) in Hm2 by lia. done.
Qed.

(** A reading of mapped controllers returns, and keeps them mapped. *)
Lemma ddr_step_run d off acc i base n s :
  mappable s -> mapped_to base n s -> 0 <= i < n -> n <= 16 ->
  exists r s', ddr_step d off acc i s = Ok (r, s') /\ mappable s' /\ mapped_to base n s' /\
    num_controllers s' = num_controllers s /\ if_type s' = if_type s.
Proof.
  intros Hmp Hm Hi Hn. destruct (Hm i Hi) as (a & Ha & Hb & _). destruct Hmp as [Hl Hrd Hwr Hok Hva].
  destruct (aget_is_Some (last_update d (uddr s)) i) as [old Hold]; [destruct d; cbn; lia|].
  unfold ddr_step. rewrite bind_gets, (bind_Ok _ _ _ _ _ (read_Some _ _ _ s Hold)).
  rewrite (bind_Ok _ _ _ _ _ (read_Some _ _ _ s Ha)).
  erewrite bind_Ok by (unfold load; by rewrite Hb). rewrite bind_modify.
  do 2 eexists. split; [reflexivity|]. split_and!; try done.
  - split; cbn -[set_last_update]; try done; destruct d; cbn; by rewrite ?zlen_aset.
  - intros j Hj. cbn -[set_last_update]. rewrite mmap_set. by apply Hm.
Qed.

Lemma ddr_loop_run d off base s :
  mappable s -> mapped_to base (num_controllers s) s -> num_controllers s <= 16 ->
  exists r s', ddr_loop d off s = Ok (r, s') /\ mappable s' /\ mapped_to base (num_controllers s) s' /\
    num_controllers s' = num_controllers s /\ if_type s' = if_type s.
Proof.
  intros Hmp Hm Hn. unfold ddr_loop. rewrite bind_gets. set (n := num_controllers s) in *.
  destruct (wp_no_stop (fold_each (seqZ 0 n) 0 (ddr_step d off)) s
    (fun _ s' => mappable s' /\ mapped_to base n s' /\ num_controllers s' = n /\ if_type s' = if_type s))
    as (r & s' & Hrun & H); [|by exists r, s'].
  eapply wp_mono; [apply (wp_fold_each (fun rest _ s' => Forall (fun i => 0 <= i < n) rest /\
    mappable s' /\ mapped_to base n s' /\ num_controllers s' = n /\ if_type s' = if_type s))| |done].
  - split_and!; try done. apply Forall_forall. intros i Hi%elem_of_seqZ. lia.
  - intros i rest acc s' (Hall & Hmp' & Hm' & Hn' & Ht'). apply Forall_cons in Hall as [Hi Hall].
    destruct (ddr_step_run d off acc i base n s' Hmp' Hm' Hi Hn) as (r & s2 & Hrun & H1 & H2 & H3 & H4).
    unfold wp. rewrite Hrun. split_and!; try done; congruence.
  - by intros r s' (_ & H).
Qed.

(** ** A server's controllers *)

Definition is_client (dev : pci_dev) : bool :=
  (vendor_id dev =? 0x8086) && ((device_id dev =? 0xa700) || (device_id dev =? 0x7d05)).

Definition is_ubox (dev : pci_dev) : bool := (vendor_id dev =? 0x8086) && (device_id dev =? 0x3251).

Definition is_controller (dev : pci_dev) : bool := (vendor_id dev =? 0x8086) && (device_id dev =? 0x324a).

(** The base address a server's configuration device gives. *)
Definition ubox_bar (dev : pci_dev) : Z :=
  Z.lor (Z.shiftl (Z.land (u32 (pci_read_long dev 0xD0)) 0x1FFFFFF) 23)
        (Z.shiftl (Z.land (u32 (pci_read_long dev 0xD4)) 0x7FF) 12).

Definition controllers (devs : list pci_dev) : Z := zlen (filter (fun dev => is_controller dev = true) devs).

Lemma scan_server_device bar dev s :
  is_client dev = false -> is_ubox dev = false ->
  scan_device bar dev s = Ok (bar, s <| num_controllers ::= fun n => n + controllers [dev] |>).
Proof.
  unfold is_client, is_ubox, scan_device, controllers. rewrite filter_cons, filter_nil.
  unfold is_controller. destruct (vendor_id dev =? 0x8086); cbn [negb andb].
  - intros -> ->. destruct (device_id dev =? 0x324a); cbn.
    + done.
    + destruct s; unfold set; cbn. by rewrite Z.add_0_r.
  - intros _ _. destruct s; unfold set; cbn. by rewrite Z.add_0_r.
Qed.

Lemma controllers_cons dev devs : controllers (dev :: devs) = controllers [dev] + controllers devs.
Proof.
  unfold controllers, zlen. rewrite !filter_cons, filter_nil. case_decide; cbn [length]; lia.
Qed.

Lemma controllers_app l1 l2 : controllers (l1 ++ l2) = controllers l1 + controllers l2.
Proof. unfold controllers, zlen. rewrite filter_app, length_app. lia. Qed.

Lemma scan_server devs bar s :
  Forall (fun dev => is_client dev = false /\ is_ubox dev = false) devs ->
  fold_each devs bar scan_device s = Ok (bar, s <| num_controllers ::= fun n => n + controllers devs |>).
Proof.
  intros Hd. revert s. induction Hd as [|dev devs [H1 H2] _ IH]; intros s.
  { cbn. destruct s; unfold set; cbn. by rewrite Z.add_0_r. }
  cbn [fold_each]. rewrite (bind_Ok _ _ _ _ _ (scan_server_device bar dev s H1 H2)), IH.
  do 2 f_equal. destruct s; unfold set; cbn -[controllers]. rewrite (controllers_cons dev devs). f_equal; lia.
Qed.

Lemma scan_ubox bar dev s :
  is_ubox dev = true -> scan_device bar dev s = Ok (ubox_bar dev, s <| if_type := DDR_GRR_SRF |>).
Proof.
  unfold is_ubox, scan_device, ubox_bar. intros [Hv Hd]%andb_true_iff. rewrite Hv.
  apply Z.eqb_eq in Hd. by rewrite Hd.
Qed.

(** The kinds of controllers the program can read. *)
Definition readable_type (t : Z) : Prop := t = DDR_CLIENT \/ t = DDR_GRR_SRF.

(** Readings of controllers that are mapped. *)
Lemma mapped_reads base d s :
  mappable s -> mapped_to base (num_controllers s) s -> num_controllers s <= 16 -> readable_type (if_type s) ->
  exists r s', pmu_ddr (pmu_type d) s = Ok (r, s') /\ mappable s' /\
    mapped_to base (num_controllers s) s' /\ num_controllers s' = num_controllers s /\ if_type s' = if_type s.
Proof.
  intros Hmp Hm Hn Ht.
  destruct (ddr_loop_run d (uoff (if_type s) d) base s Hmp Hm Hn) as (r & s' & Hrun & H1 & H2 & H3 & H4).
  exists (u64 (r * 64)), s'. split_and!; try done. unfold pmu_ddr. rewrite bind_gets.
  destruct Ht as [Ht|Ht]; rewrite Ht in Hrun |- *; cbn [Z.eqb Pos.eqb DDR_GRR_SRF DDR_CLIENT];
    unfold pmu_ddr_grr_srf, pmu_ddr_client; destruct d; cbn [pmu_type]; cbn -[ddr_loop u64 Z.mul]; cbn in Hrun;
    by rewrite (bind_Ok _ _ _ _ _ Hrun).
Qed.

Lemma mapped_to_le base k n s : mapped_to base k s -> n <= k -> mapped_to base n s.
Proof. intros Hm Hn j Hj. apply Hm. lia. Qed.

(** The end of the initialisation, when nothing is refused: [k] controllers are
    mapped, of which the readings use the first. *)
Lemma map_and_clean_run range base k s :
  mappable s -> mem_opens s = [] -> 0 <= num_controllers s <= k -> k <= 16 -> 0 < range <= 2 ^ 20 ->
  next_va s + 2 ^ 30 < 2 ^ 63 -> readable_type (if_type s) ->
  exists s', map_and_clean range base (seqZ 0 k) s = Ok (0, s') /\ mappable s' /\
    mapped_to base (num_controllers s) s' /\ num_controllers s' = num_controllers s /\ if_type s' = if_type s.
Proof.
  intros Hmp Ho Hn Hk Hr Hva Ht. unfold map_and_clean.
  assert (Hopen : open_mem s = Ok (3, s)).
  { unfold open_mem. rewrite Ho. destruct s; cbn in *. by subst. }
  rewrite (bind_Ok _ _ _ _ _ Hopen). change (3 <? 0) with false. cbv iota. rewrite bind_modify.
  set (s0 := s <| uddr ::= _ |>). set (n := num_controllers s) in *.
  assert (Hmul : k * range <= 16 * 2 ^ 20) by (apply Z.mul_le_mono_nonneg; lia).
  destruct (map_all_run range base (Z.to_nat k) 0 s0) as (s1 & Hrun & Hmp1 & Hm1 & Hn1 & Ht1);
    rewrite ?Z2Nat.id by lia; try lia.
  { destruct Hmp. by split. }
  { change (next_va s0) with (next_va s). lia. }
  { intros j Hj. lia. }
  rewrite Z2Nat.id in Hrun, Hm1 by lia. rewrite (bind_Ok _ _ _ _ _ Hrun). cbn [negb].
  change (num_controllers s0) with n in Hn1. change (if_type s0) with (if_type s) in Ht1.
  rewrite Z.add_0_l in Hm1. apply (mapped_to_le _ _ n) in Hm1; [|lia].
  destruct (mapped_reads base Rd s1) as (r1 & s2 & Hr2 & Hmp2 & Hm2 & Hn2 & Ht2);
    [done|by rewrite Hn1|lia|by rewrite Ht1|].
  destruct (mapped_reads base Wr s2) as (r2 & s3 & Hr3 & Hmp3 & Hm3 & Hn3 & Ht3);
    [done|by rewrite Hn2|lia|by rewrite Ht2, Ht1|].
  cbn in Hr2, Hr3. exists s3. rewrite (bind_Ok _ _ _ _ _ Hr2), (bind_Ok _ _ _ _ _ Hr3).
  rewrite Hn2, Hn1 in Hm3. split_and!; try done; congruence.
Qed.

(** ** The buses the program knows *)

(** The base address in a client's host bridge. *)
Definition client_bar (dev : pci_dev) : Z := Z.land (u32 (pci_read_long dev 0x48)) 0xfffffff0.

(** The devices of a bus, with the kind of its controllers, their number and their
    base address: one configuration device and up to sixteen controllers, in any
    order among other devices, on a server; one host bridge on a client. *)
Inductive bus (devs : list pci_dev) : Z -> Z -> Z -> Prop :=
  | server_bus l1 ubox l2 :
      devs = l1 ++ ubox :: l2 -> is_ubox ubox = true ->
      Forall (fun dev => is_client dev = false /\ is_ubox dev = false) (l1 ++ l2) -> controllers (l1 ++ l2) <= 16 ->
      bus devs DDR_GRR_SRF (controllers (l1 ++ l2)) (ubox_bar ubox)
  | client_bus l1 bridge l2 :
      devs = l1 ++ bridge :: l2 -> is_client bridge = true -> Forall (fun dev => known dev = false) (l1 ++ l2) ->
      bus devs DDR_CLIENT 1 (client_bar bridge).

Lemma scan_client bar dev s :
  is_client dev = true ->
  scan_device bar dev s = Ok (client_bar dev, s <| if_type := DDR_CLIENT |> <| num_controllers ::= Z.succ |>).
Proof. unfold is_client, scan_device, client_bar. intros [Hv Hd]%andb_true_iff. by rewrite Hv, Hd. Qed.

Lemma bus_scan devs t n bar s :
  bus devs t n bar -> num_controllers s = 0 ->
  fold_each devs 0 scan_device s = Ok (bar, s <| num_controllers := n |> <| if_type := t |>).
Proof.
  intros [l1 ubox l2 -> Hu [Hl1 Hl2]%Forall_app _|l1 bridge l2 -> Hb [Hl1 Hl2]%Forall_app] Hn.
  - rewrite fold_each_app, (bind_Ok _ _ _ _ _ (scan_server l1 0 s Hl1)). cbn [fold_each].
    rewrite (bind_Ok _ _ _ _ _ (scan_ubox 0 ubox _ Hu)), (scan_server l2 _ _ Hl2).
    do 2 f_equal. destruct s; unfold set; cbn -[controllers] in *. subst. f_equal. rewrite controllers_app. lia.
  - rewrite fold_each_app, (bind_Ok _ _ _ _ _ (scan_all_unknown l1 0 s Hl1)). cbn [fold_each].
    rewrite (bind_Ok _ _ _ _ _ (scan_client 0 bridge _ Hb)), (scan_all_unknown l2 _ _ Hl2).
    do 2 f_equal. destruct s; unfold set; cbn in *. by subst.
Qed.

(** What the search leaves in [ddr] for the kernel module. *)
Definition found_ddr (t n bar : Z) (s : dstate) : dstate :=
  s <| num_controllers := n |> <| if_type := t |>
    <| uddr ::= fun x => x <| ddr_interface_type := t |> <| bar_address := bar |> <| ddr_num_controllers := n |> |>.

(** Where the controllers are mapped. *)
Definition controller_base (t bar i : Z) : Z :=
  u64 (bar + (if t =? DDR_CLIENT then if i =? 0 then CLIENT_DDR0_OFFSET else CLIENT_DDR1_OFFSET else GRR_SRF_MC_ADDRESS i)).

Lemma bus_count devs t n bar : bus devs t n bar -> readable_type t /\ 0 <= n <= 16 /\ (t = DDR_CLIENT -> n = 1).
Proof.
  intros [l1 ubox l2 _ _ _ Hc|l1 bridge l2 _ _ _].
  - split; [by right|]. split; [|done]. unfold controllers, zlen in *. lia.
  - split; [by left|]. split; [lia|done].
Qed.

Lemma land_mask x m : 0 <= m -> 0 <= Z.land x m <= m.
Proof.
  intros Hm. split; [apply Z.land_nonneg; by right|].
  assert (Hd : Z.ldiff (Z.land x m) m = 0).
  { apply Z.bits_inj'. intros i Hi. rewrite Z.ldiff_spec, Z.land_spec, Z.bits_0.
    by destruct (Z.testbit x i), (Z.testbit m i). }
  apply Z.sub_nocarry_ldiff in Hd. pose proof (proj2 (Z.ldiff_nonneg m (Z.land x m)) (or_introl Hm)). lia.
Qed.

Lemma bus_bar devs t n bar : bus devs t n bar -> in_u 64 bar.
Proof.
  intros [l1 ubox l2 _ _ _ _|l1 bridge l2 _ _ _]; unfold ubox_bar, client_bar, in_u.
  - rewrite !Z.shiftl_mul_pow2 by lia. set (x := Z.land _ 0x1FFFFFF). set (y := Z.land _ 0x7FF).
    pose proof (land_mask (u32 (pci_read_long ubox 0xD0)) 0x1FFFFFF ltac:(lia)). fold x in H.
    pose proof (land_mask (u32 (pci_read_long ubox 0xD4)) 0x7FF ltac:(lia)). fold y in H0.
    pose proof (Z.add_lor_land (x * 2 ^ 23) (y * 2 ^ 12)).
    assert (0 <= Z.land (x * 2 ^ 23) (y * 2 ^ 12)) by (apply Z.land_nonneg; lia).
    split; [apply Z.lor_nonneg; lia|lia].
  - pose proof (land_mask (u32 (pci_read_long bridge 0x48)) 0xfffffff0 ltac:(lia)). lia.
Qed.

(** In kernel mode nothing is mapped. *)
Lemma ddr_init_kernel devs t n bar s :
  devices s = Some devs -> bus devs t n bar -> num_controllers s = 0 ->
  pmu_ddr_init 1 s = Ok (t, found_ddr t n bar s).
Proof.
  intros Hd Hb Hn. unfold pmu_ddr_init, pcie_get_devices.
  rewrite (bind_Ok _ _ _ devs s) by (rewrite bind_gets; by rewrite Hd).
  by rewrite (bind_Ok _ _ _ _ _ (bus_scan _ _ _ _ s Hb Hn)), bind_modify, bind_gets.
Qed.

(** On a bus the program knows, the search finds the controllers and makes them
    readable: there are as many as on the bus, controller [i] is mapped at the
    base address plus its offset, and readings return. *)
Theorem bus_init_readable devs t n bar s :
  devices s = Some devs -> bus devs t n bar -> num_controllers s = 0 ->
  mappable s -> mem_opens s = [] -> next_va s < 2 ^ 62 ->
  exists s', pmu_ddr_init 0 s = Ok (t, s') /\ num_controllers s' = n /\ mappable s' /\
    mapped_to (controller_base t bar) n s' /\ forall d, exists r s'', pmu_ddr (pmu_type d) s' = Ok (r, s'').
Proof.
  intros Hd Hb Hn Hmp Ho Hva. destruct (bus_count _ _ _ _ Hb) as (Ht & Hcount & Hone).
  set (s2 := found_ddr t n bar s).
  assert (Hmp2 : mappable s2) by (destruct Hmp; by split).
  assert (Hinit : exists s3, (if t =? DDR_CLIENT then pmu_ddr_init_client bar else pmu_ddr_init_grr_srf bar) s2 = Ok (0, s3) /\
    mappable s3 /\ mapped_to (controller_base t bar) n s3 /\ num_controllers s3 = n /\ if_type s3 = t).
  { destruct Ht as [-> | ->]; cbn [Z.eqb Pos.eqb DDR_GRR_SRF DDR_CLIENT].
    - apply (map_and_clean_run CLIENT_DDR_RANGE (controller_base DDR_CLIENT bar) 2 s2); try done; try (cbn; lia); try (by left).
    - unfold pmu_ddr_init_grr_srf. rewrite bind_gets. change (num_controllers s2) with n.
      apply (map_and_clean_run GRR_SRF_DDR_RANGE (controller_base DDR_GRR_SRF bar) n s2); try done; try (cbn; lia); try (by right). }
  destruct Hinit as (s3 & Hrun & Hmp3 & Hm3 & Hn3 & Ht3). exists s3. split; [|split_and!; try done].
  - unfold pmu_ddr_init, pcie_get_devices.
    rewrite (bind_Ok _ _ _ devs s) by (rewrite bind_gets; by rewrite Hd).
    rewrite (bind_Ok _ _ _ _ _ (bus_scan _ _ _ _ s Hb Hn)), bind_modify, bind_gets.
    match goal with |- context [if_type ?q =? DDR_CLIENT] => change q with s2 end. change (if_type s2) with t. rewrite (bind_Ok _ _ s2 tt s3); [unfold gets; by rewrite Ht3|].
    destruct Ht as [-> | ->]; cbn [Z.eqb Pos.eqb DDR_GRR_SRF DDR_CLIENT] in *; by rewrite (bind_Ok _ _ _ _ _ Hrun).
  - intros d. destruct (mapped_reads (controller_base t bar) d s3) as (r & s'' & Hr & _);
      [done|by rewrite Hn3|lia|by rewrite Ht3|]. by exists r, s''.
Qed.

(** ** Concrete runs *)

(** A process before the search, on a bus with the devices [devs]. *)
Definition dstate0 (devs : list pci_dev) : dstate :=
  {| uddr := ddr_zero; if_type := 0; num_controllers := 0; devices := Some devs;
     phys := fun a => a; vmaps := ∅; next_va := 0x10000; mem_opens := []; mmaps := [] |}.

Definition a_device (vendor device : Z) : pci_dev :=
  {| vendor_id := vendor; device_id := device; pci_read_long := fun off => if off =? 0xD0 then 0x1ec else 0x80fdc000 |}.

Lemma mappable_dstate0 devs : mappable (dstate0 devs).
Proof. by split. Qed.

(** Two controllers, seen by both programs. *)
Definition two_mapped : dstate :=
  dstate0 [] <| if_type := DDR_GRR_SRF |> <| num_controllers := 2 |>
    <| uddr := ddr_zero <| mmap := [5; 6] ++ replicate 14 0 |> |>
    <| vmaps := {[5 := 0x1000; 6 := 0x2000]} |> <| phys := fun a => if a =? 0x2A40 then 7 else 35 |>.

Definition two_remapped : kstate :=
  two_controllers <| machine ::= fun h => h <| hw_mmio := fun a => if a =? 100 then 7 else 35 |> |>.

Lemma user_kernel_bandwidth_witness :
  exists u' s', pmu_ddr DDR_PMU_RD two_mapped = Ok (42 * 64, u') /\
    kernel_pmu_ddr DDR_PMU_RD two_remapped = Ok (42 * 64, s').
Proof.
  destruct (user_kernel_bandwidth Rd two_mapped two_remapped) as (r & u' & s' & H1 & H2 & _).
  - split; try reflexivity; [split; discriminate|split; [reflexivity|split; reflexivity]|].
    intros i Hi. assert (i = 0 \/ i = 1) as [->| ->] by (cbn in Hi; lia).
    + exists 5, 0x1000, 100. repeat split; try reflexivity. discriminate.
    + exists 6, 0x2000, 200. repeat split; try reflexivity. discriminate.
  - right. reflexivity.
  - exists u', s'. assert (r = 42 * 64) as <-.
    { apply (f_equal (fun o => match o with Ok (r, _) => r | Stop _ => 0 end)) in H1.
      vm_compute in H1. symmetry. exact H1. }
    split; [exact H1|exact H2].
Defined.

Lemma ddr_init_not_found_witness :
  exists s', pmu_ddr_init 0 (dstate0 [a_device 0x8086 0x1234; a_device 0x10de 0xa700]) = Ok (0, s').
Proof.
  destruct (ddr_init_not_found [a_device 0x8086 0x1234; a_device 0x10de 0xa700] 0
    (dstate0 [a_device 0x8086 0x1234; a_device 0x10de 0xa700])) as (s' & H & _).
  - reflexivity.
  - reflexivity.
  - repeat constructor.
  - exists s'. exact H.
Defined.

(** A server with two controllers. *)
Definition server_devs : list pci_dev := [a_device 0x8086 0x324a; a_device 0x8086 0x3251; a_device 0x8086 0x324a].

Lemma server_devs_bus : bus server_devs DDR_GRR_SRF 2 (ubox_bar (a_device 0x8086 0x3251)).
Proof.
  apply (server_bus server_devs [a_device 0x8086 0x324a] (a_device 0x8086 0x3251) [a_device 0x8086 0x324a]);
    [reflexivity|reflexivity|by repeat constructor|by vm_compute].
Qed.

Lemma bus_init_readable_witness :
  exists s', pmu_ddr_init 0 (dstate0 server_devs) = Ok (DDR_GRR_SRF, s') /\ num_controllers s' = 2.
Proof.
  destruct (bus_init_readable server_devs DDR_GRR_SRF 2 (ubox_bar (a_device 0x8086 0x3251)) (dstate0 server_devs)) as (s' & H & Hn & _).
  - reflexivity.
  - exact server_devs_bus.
  - reflexivity.
  - apply mappable_dstate0.
  - reflexivity.
  - vm_compute. reflexivity.
  - exists s'. split; [exact H|exact Hn].
Defined.
