(* ===== verification/UState.v ===== *)
(** * State of the user-space tuner

    The globals of [main.c], [tuners/mab.c] and the static data of
    [tuners/primitive.c] as one record, with the process of [MsrDev] and the
    counters of [PmuDdr] as components.  What the environment answers (random
    numbers, the clock) comes from lists. *)

From S2P Require Import Prelude Floats PerfEvents Msr MsrDev PmuDdr.

(** ** Constants of [common.h] and [mab.h] *)

Definition MAX_THREADS : Z := 1024.

Definition MAX_ARMS : Z := 1000.

Definition ROUND_ROBIN : Z := 0.

Definition MAIN_LOOP : Z := 1.

Definition MAIN_LOOP_TRANSITION : Z := 2.

Definition RR_RESTART : Z := 3.

Definition E_GREEDY : Z := 0.

Definition UCB : Z := 1.

Definition DUCB : Z := 2.

Definition RANDOM : Z := 3.

Definition ONCE : Z := 1.

Definition PERIODIC : Z := 3.

Definition OFF : Z := 0.

Definition ON : Z := 1.

Definition STEP : Z := 2.

Definition PMU_PERF : Z := 0.

Definition PMU_RAW : Z := 1.

Definition MAX_EVENTS : Z := 8.

Definition RAND_MAX : Z := 2 ^ 31 - 1.

(** ** Data *)

(** [struct thread_state], without the thread handle. *)
Record thread_state := {
  core_id : Z;
  hwpf_msr_dirty : Z;
  hwpf_msr_value : list Z;
  pmu_result : list Z;
  instructions_retired : Z;
  cpu_cycles : Z }.

#[export] Instance thread_settable : Settable thread_state := fun r =>
  {| core_id := core_id r; hwpf_msr_dirty := hwpf_msr_dirty r; hwpf_msr_value := hwpf_msr_value r;
     pmu_result := pmu_result r; instructions_retired := instructions_retired r;
     cpu_cycles := cpu_cycles r |}.

(** The functions a [next_arm_strategy_t] and an [update_strategy_t] point to. *)
Inductive next_arm_strategy : Type :=
  | next_arm_rr_ | next_arm_max_ | next_arm_random_ | next_arm_potential_ | next_arm_default_.

Inductive update_strategy : Type :=
  | update_rr_ | update_increment_ | update_discounted_ | update_none_.

Record mab_state := {
  mode : Z; algorithm : Z; num_total : spec_float; arm : Z; num_arms : Z; arm_configuration : Z;
  epsilon : spec_float; gamma : spec_float; mab_c : spec_float; avg_reward : spec_float;
  normalise : Z; norm_freq : Z; num_threads : Z; rr_counter : Z;
  next_arm_func : option next_arm_strategy; update_func : option update_strategy;
  iterations : Z;
  dynamic_sd : Z;
  ipc_buffer : option (list spec_float); ipc_index : Z; current_ipc_mean : spec_float;
  current_ipc_M2 : spec_float; ipc_n : Z; ipc_window_size : Z;
  sd_buffer : option (list spec_float); sd_index : Z; current_sd_mean : spec_float; sd_n : Z;
  sd_window_size : Z; sd_mean_threshold : spec_float; sd_mean_min_threshold : spec_float }.

#[export] Instance mab_state_settable : Settable mab_state := fun r =>
  {| mode := mode r; algorithm := algorithm r; num_total := num_total r; arm := arm r;
     num_arms := num_arms r; arm_configuration := arm_configuration r; epsilon := epsilon r;
     gamma := gamma r; mab_c := mab_c r; avg_reward := avg_reward r; normalise := normalise r;
     norm_freq := norm_freq r; num_threads := num_threads r; rr_counter := rr_counter r;
     next_arm_func := next_arm_func r; update_func := update_func r; iterations := iterations r;
     dynamic_sd := dynamic_sd r; ipc_buffer := ipc_buffer r; ipc_index := ipc_index r;
     current_ipc_mean := current_ipc_mean r; current_ipc_M2 := current_ipc_M2 r; ipc_n := ipc_n r;
     ipc_window_size := ipc_window_size r; sd_buffer := sd_buffer r; sd_index := sd_index r;
     current_sd_mean := current_sd_mean r; sd_n := sd_n r; sd_window_size := sd_window_size r;
     sd_mean_threshold := sd_mean_threshold r; sd_mean_min_threshold := sd_mean_min_threshold r |}.

(** [arms_t]; [exploration_factors] is never used. *)
Record arms_t := {
  hwpf_msr_values : list (list Z);
  rewards : list spec_float;
  ipcs : list spec_float;
  nums : list spec_float }.

#[export] Instance arms_settable : Settable arms_t := fun r =>
  {| hwpf_msr_values := hwpf_msr_values r; rewards := rewards r; ipcs := ipcs r; nums := nums r |}.

Record ustate := {
  gtinfo : list thread_state;
  mstate : mab_state;
  arms : arms_t;
  core_first : Z; core_last : Z;
  aggr : spec_float; time_intervall : spec_float; ddr_bw_target : Z; rdt_enabled : Z;
  time_old : Z                (** static variable of [basicalg] *);
  rands : list Z              (** the next answers of [rand] *);
  clocks : list Z             (** the next answers of [time_ms] *);
  mem : dstate                (** [pmu_ddr.c] *);
  dev : proc                  (** [msr.c], [rdt_mbm.c] *);
  pmu_method : Z; num_events : Z;
  perf : pstate               (** perf events of [pmu_core.c] *) }.

#[export] Instance ustate_settable : Settable ustate := fun r =>
  {| gtinfo := gtinfo r; mstate := mstate r; arms := arms r; core_first := core_first r;
     core_last := core_last r; aggr := aggr r; time_intervall := time_intervall r;
     ddr_bw_target := ddr_bw_target r; rdt_enabled := rdt_enabled r; time_old := time_old r;
     rands := rands r; clocks := clocks r; mem := mem r; dev := dev r; pmu_method := pmu_method r;
     num_events := num_events r; perf := perf r |}.

Abbreviation T := (ST ustate).

(** [ACTIVE_THREADS]. *)
Definition active_threads (s : ustate) : Z := core_last s - core_first s + 1.

(** ** Access *)

Definition on_mem {A} (m : ST dstate A) : T A := zoom mem (fun d s => s <| mem := d |>) m.

Definition on_dev {A} (m : ST proc A) : T A := zoom dev (fun d s => s <| dev := d |>) m.

Definition on_perf {A} (m : ST pstate A) : T A := zoom perf (fun d s => s <| perf := d |>) m.

Definition rand : T Z := fun s => Ok (default 0 (head (rands s)), s <| rands ::= tail |>).

Definition time_ms : T Z := fun s => Ok (u64 (default 0 (head (clocks s))), s <| clocks ::= tail |>).

Definition thread_at (i : Z) : T thread_state := fun s => read (gtinfo s) i s.

Definition put_thread (i : Z) (t : thread_state) : T unit := fun s =>
  if in_range (gtinfo s) i then Ok (tt, s <| gtinfo := aset (gtinfo s) i t |>) else Stop OutOfBounds.

Definition modify_mab (f : mab_state -> mab_state) : T unit := modify (fun s => s <| mstate ::= f |>).

(** ** Initial values *)

Definition f32_zero : spec_float := S754_zero false.

Definition thread_zero : thread_state :=
  {| core_id := 0; hwpf_msr_dirty := 0; hwpf_msr_value := replicate 6 0; pmu_result := replicate 7 0;
     instructions_retired := 0; cpu_cycles := 0 |}.

Definition mab_zero : mab_state :=
  {| mode := 0; algorithm := 0; num_total := f32_zero; arm := 0; num_arms := 0; arm_configuration := 0;
     epsilon := f32_zero; gamma := f32_zero; mab_c := f32_zero; avg_reward := f32_zero; normalise := 0;
     norm_freq := 0; num_threads := 0; rr_counter := 0; next_arm_func := None; update_func := None;
     iterations := 0; dynamic_sd := 0; ipc_buffer := None; ipc_index := 0; current_ipc_mean := f32_zero;
     current_ipc_M2 := f32_zero; ipc_n := 0; ipc_window_size := 0; sd_buffer := None; sd_index := 0;
     current_sd_mean := f32_zero; sd_n := 0; sd_window_size := 0; sd_mean_threshold := f32_zero;
     sd_mean_min_threshold := f32_zero |}.

Definition arms_zero : arms_t :=
  {| hwpf_msr_values := replicate 1000 (replicate 6 0); rewards := replicate 1000 f32_zero;
     ipcs := replicate 1000 f32_zero; nums := replicate 1000 f32_zero |}.

(** The program on cores [first] to [last], before any initialisation. *)
Definition ustate0 (first last : Z) : ustate :=
  {| gtinfo := replicate 1024 thread_zero; mstate := mab_zero; arms := arms_zero; core_first := first;
     core_last := last; aggr := f32_of_Z 1; time_intervall := f32_of_Z 1; ddr_bw_target := -1;
     rdt_enabled := 0; time_old := 0; rands := []; clocks := []; mem := dstate0 []; dev := dev0; pmu_method := PMU_RAW; num_events := 0;
     perf := {| popen := {[0; 1; 2]}; PerfEvents.opens := []; ioctls := []; reads := [] |} |}.

(** ** Well-formed data *)

Record thread_wf (t : thread_state) : Prop := {
  tw_msr : msr_table (hwpf_msr_value t);
  tw_pmu : zlen (pmu_result t) = 7 }.

Definition threads_wf (s : ustate) : Prop :=
  zlen (gtinfo s) = MAX_THREADS /\ Forall thread_wf (gtinfo s).

Lemma on_mem_Ok {A} (m : ST dstate A) s a d :
  m (mem s) = Ok (a, d) -> on_mem m s = Ok (a, s <| mem := d |>).
Proof. intros H. exact (zoom_Ok mem _ m s a d H). Qed.

Lemma on_dev_Ok {A} (m : ST proc A) s a d :
  m (dev s) = Ok (a, d) -> on_dev m s = Ok (a, s <| dev := d |>).
Proof. intros H. exact (zoom_Ok dev _ m s a d H). Qed.

Lemma time_ms_run s now rest :
  default 0 (head (clocks s)) = now -> tail (clocks s) = rest -> time_ms s = Ok (u64 now, s <| clocks := rest |>).
Proof. intros <- <-. by destruct s. Qed.

Lemma rand_Ok s r rest : rands s = r :: rest -> rand s = Ok (r, s <| rands := rest |>).
Proof. destruct s. cbn. intros ->. reflexivity. Qed.

Lemma thread_at_Some i s t : aget (gtinfo s) i = Some t -> thread_at i s = Ok (t, s).
Proof. apply read_Some. Qed.

Lemma put_thread_Ok i t s :
  0 <= i < zlen (gtinfo s) -> put_thread i t s = Ok (tt, s <| gtinfo := aset (gtinfo s) i t |>).
Proof. intros Hi. unfold put_thread. by rewrite (proj2 (in_range_zlen _ _) Hi). Qed.

Lemma threads_wf_at s i : threads_wf s -> 0 <= i < MAX_THREADS ->
  exists t, aget (gtinfo s) i = Some t /\ thread_wf t.
Proof.
  intros [Hl Hw] Hi. destruct (aget_is_Some (gtinfo s) i) as [t Ht]; [lia|].
  exists t. split; [done|]. by apply (Forall_aget _ _ _ _ Hw Ht).
Qed.

Lemma threads_wf_set s i t : threads_wf s -> thread_wf t -> threads_wf (s <| gtinfo := aset (gtinfo s) i t |>).
Proof. intros [Hl Hw] Ht. split; cbn; [by rewrite zlen_aset|by apply Forall_aset]. Qed.

Lemma threads_wf_ustate0 first last : threads_wf (ustate0 first last).
Proof.
  split; [reflexivity|]. apply (Forall_replicate _ 1024 thread_zero). repeat split.
  repeat constructor; vm_compute; intuition discriminate.
Qed.
