(* ===== verification/Primitive.v ===== *)
(** * The bandwidth tuner of the user-space program ([tuners/primitive.c])

    Once per interval the master thread compares the DDR read bandwidth with
    its target and moves two fields of the prefetcher MSRs of every core: the
    XQ thresholds ([tunealg] 0) or the maximal distances ([tunealg] 1).  The
    write bandwidth and the hit ratios only go to the log. *)

From S2P Require Import Prelude Floats Bitfields Msr KState KPmuDdr KPrimitive MsrDev PmuDdr RdtMbm UState.

Definition L2XQ_MAX : Z := 31.

Definition L3XQ_MAX : Z := 31.

Definition L2MAXDIST_MAX : Z := 31.

Definition L3MAXDIST_MAX : Z := 63.

(** ** Bandwidth bands *)

(** [ddr_rd_percent < m / 100], the constant being a [double]. *)
Definition below (pct : spec_float) (m : Z) : bool := SFltb (to_f64 pct) (literal m 100).

(** The factor of the band a bandwidth falls in; [None] on an idle system. *)
Definition band_factor (pct : spec_float) : option Z :=
  if below pct 10 then None
  else if below pct 20 then Some (-8)
  else if below pct 30 then Some (-4)
  else if below pct 40 then Some (-2)
  else if below pct 50 then Some (-1)
  else if below pct 60 then Some (-1)
  else if below pct 70 then Some (-1)
  else if below pct 80 then Some (-1)
  else if below pct 90 then Some 1
  else if below pct 93 then Some 2
  else if below pct 96 then Some 4
  else Some 8.

(** [lround(k * aggr)]. *)
Definition scaled_step (aggr : spec_float) (k : Z) : option Z :=
  lround (to_f64 (f32_mul (f32_of_Z k) aggr)).

(** The new value of a setting: the step, then the bounds. *)
Definition next_value (aggr : spec_float) (k : option Z) (max v : Z) : option Z :=
  v ← match k with
      | None => Some v
      | Some k => n ← scaled_step aggr k; Some (s32 (v + n))
      end;
  let v := if v <=? 0 then 1 else v in
  Some (if max <? v then max else v).

(** One setting of one core. *)
Definition tune_field (get : list Z -> Z) (put : list Z -> Z -> list Z) (k : option Z) (max i : Z) : T unit :=
  a ← gets aggr;
  t ← thread_at i;
  let old := get (hwpf_msr_value t) in
  match next_value a k max old with
  | None => stop_with BadConversion
  | Some v =>
      if negb (old =? v) then
        put_thread i (t <| hwpf_msr_value ::= fun m => put m v |> <| hwpf_msr_dirty := 1 |>)
      else mret tt
  end.

(** The loop bodies of the two algorithms. *)
Definition tune_xq (k : option Z) (i : Z) : T unit :=
  tune_field msr_get_l2xq msr_set_l2xq k L2XQ_MAX i ;;
  tune_field msr_get_l3xq msr_set_l3xq k L3XQ_MAX i.

Definition tune_maxdist (k : option Z) (i : Z) : T unit :=
  let k := Z.opp <$> k in
  tune_field msr_get_l2maxdist msr_set_l2maxdist k L2MAXDIST_MAX i ;;
  tune_field msr_get_l3maxdist msr_set_l3maxdist k L3MAXDIST_MAX i.

(** ** The algorithm *)

(** [ddr_rd_percent]. *)
Definition rd_percent (ddr_rd_bw ddr_bw_target : Z) (time_delta : spec_float) : spec_float :=
  f32_div (f32_div (f32_div (f32_of_Z ddr_rd_bw) (f32_of_Z (1024 * 1024))) (f32_of_Z ddr_bw_target))
          time_delta.

(** [(time_now - time_old) / 1000.0], stored in a [float]. *)
Definition seconds (now old : Z) : spec_float :=
  to_f32 (f64_div (f64_of_Z (u64 (now - old))) (f64_of_Z 1000)).

(** The threads whose counters the function reads for its log lines. *)
Definition read_counters (n : Z) : T unit := for_each (seqZ 0 n) (fun i => thread_at i ;; mret tt).

(** [basicalg(tunealg)].  The log line of [tunealg] 1 reads sixteen entries of
    an array that has one per thread. *)
Definition basicalg (tunealg : Z) : T Z :=
  rdt ← gets rdt_enabled;
  ddr_rd_bw ← (if rdt =? 0 then on_mem (pmu_ddr DDR_PMU_RD) else on_dev rdt_mbm_bw_get);
  (if rdt =? 0 then on_mem (pmu_ddr DDR_PMU_WR) else on_dev rdt_mbm_bw_get) ;;
  old ← gets time_old;
  if old =? 0 then
    now ← time_ms;
    modify (fun s => s <| time_old := now |>) ;;
    mret 0
  else
  now ← time_ms;
  modify (fun s => s <| time_old := now |>) ;;
  target ← gets ddr_bw_target;
  let pct := rd_percent ddr_rd_bw target (seconds now old) in
  n ← gets active_threads;
  read_counters n ;;
  (if tunealg =? 0 then for_each (seqZ 0 n) (tune_xq (band_factor pct))
   else if tunealg =? 1 then
     if n <? 16 then stop_with OutOfBounds
     else for_each (seqZ 0 n) (tune_maxdist (band_factor pct))
   else mret tt) ;;
  mret 0.

(** ** Bounds *)

Lemma next_value_range aggr k max v v' :
  1 <= max -> next_value aggr k max v = Some v' -> 1 <= v' <= max.
Proof.
  intros Hmax. unfold next_value. intros (w & _ & [= <-])%bind_Some.
  destruct (Z.leb_spec w 0); match goal with |- context [max <? ?x] => destruct (Z.ltb_spec max x) end; lia.
Qed.

(** ** No target *)

(** Not negative, as far as the sign goes. *)
Definition nonneg (x : spec_float) : Prop :=
  match x with S754_zero s | S754_infinity s | S754_finite s _ _ => s = false | S754_nan => True end.

(** Beyond every number. *)
Definition unbounded (x : spec_float) : Prop := x = S754_nan \/ x = S754_infinity false.

Lemma nonneg_round prec emax m e l : nonneg (binary_round_aux prec emax false m e l).
Proof.
  unfold binary_round_aux. destruct (shr_fexp _ _ _ _ _) as [a b].
  destruct (shr_fexp _ _ _ _ _) as [c d]. destruct (shr_m c); try done. by destruct (_ <=? _).
Qed.

Lemma nonneg_of_Z prec emax z : 0 <= z -> nonneg (binary_normalize prec emax z 0 false).
Proof.
  intros Hz. destruct z as [|p|p]; [done| |lia]. unfold binary_normalize, binary_round.
  destruct (shl_align _ _ _). apply nonneg_round.
Qed.

Lemma nonneg_div prec emax x y : nonneg x -> nonneg y -> nonneg (SFdiv prec emax x y).
Proof.
  destruct x as [[]|[]| |[] mx ex], y as [[]|[]| |[] my ey]; try done. intros _ _. unfold SFdiv. cbn.
  destruct (SFdiv_core_binary _ _ _ _ _ _) as [[? ?] ?]. apply nonneg_round.
Qed.

Lemma nonneg_convert prec emax x : nonneg x -> nonneg (convert prec emax x).
Proof.
  destruct x as [[]|[]| |[] m e]; try done. intros _. unfold convert, binary_normalize, binary_round.
  destruct (shl_align _ _ _). apply nonneg_round.
Qed.

Lemma unbounded_over_zero prec emax x : nonneg x -> unbounded (SFdiv prec emax x (S754_zero false)).
Proof. unfold unbounded. destruct x as [[]|[]| |[] m e]; try done; cbn; auto. Qed.

Lemma unbounded_div prec emax x y : unbounded x -> nonneg y -> unbounded (SFdiv prec emax x y).
Proof. unfold unbounded. intros [->| ->]; destruct y as [[]|[]| |[] m e]; try done; cbn; auto. Qed.

Lemma unbounded_band pct : unbounded pct -> band_factor pct = Some 8.
Proof. intros [->| ->]; vm_compute; reflexivity. Qed.

Lemma seconds_nonneg now old : nonneg (seconds now old).
Proof.
  apply nonneg_convert, nonneg_div; apply nonneg_of_Z; [|lia]. by apply u64_range.
Qed.

(** With a bandwidth target of 0 the tuner acts as on a saturated memory,
    whatever the bandwidth is: the quotient is infinite or not a number, no
    comparison holds, and the last band is taken. *)
Lemma zero_target_saturates bw now old :
  0 <= bw -> band_factor (rd_percent bw 0 (seconds now old)) = Some 8.
Proof.
  intros Hbw. apply unbounded_band. unfold rd_percent.
  apply unbounded_div; [|apply seconds_nonneg].
  change (f32_of_Z 0) with (S754_zero false). apply unbounded_over_zero, nonneg_div; by apply nonneg_of_Z.
Qed.

(** ** The settings after a run *)

(** A thread whose setting [a] has been given the value [v]. *)
Definition moved (a : accessor) (v : Z) (t : thread_state) : thread_state :=
  if acc_get a (hwpf_msr_value t) =? v then t
  else t <| hwpf_msr_value ::= fun m => acc_set a m v |> <| hwpf_msr_dirty := 1 |>.

(** The step of the band is defined: [lround] has a value. *)
Definition step_defined (aggr : spec_float) (k : option Z) : Prop :=
  forall z, k = Some z -> is_Some (scaled_step aggr z).

Definition next_of (aggr : spec_float) (k : option Z) (max v : Z) : Z :=
  default v (next_value aggr k max v).

Lemma next_of_Some aggr k max v :
  step_defined aggr k -> next_value aggr k max v = Some (next_of aggr k max v).
Proof.
  intros Hd. unfold next_of, next_value. destruct k as [z|]; [|done].
  destruct (Hd z eq_refl) as [n ->]. done.
Qed.

Lemma thread_wf_moved a v t : In a msr_accessors -> thread_wf t -> thread_wf (moved a v t).
Proof.
  intros Ha [Hm Hp]. unfold moved. destruct (_ =? v); split; try done. by apply accessor_table.
Qed.

Lemma moved_get a v t f :
  In a msr_accessors -> thread_wf t -> field_of (acc_struct a) (acc_field a) = Some f ->
  0 <= v < 2 ^ f_width f -> acc_get a (hwpf_msr_value (moved a v t)) = v.
Proof.
  intros Ha [Hm Hp] Hf Hv. unfold moved.
  destruct (Z.eqb_spec (acc_get a (hwpf_msr_value t)) v) as [|Hne]; [done|]. by apply (accessor_same a _ v f).
Qed.

Lemma moved_frame a b v t :
  In a msr_accessors -> In b msr_accessors ->
  (acc_index a <> acc_index b \/ acc_field a <> acc_field b) -> thread_wf t ->
  acc_get b (hwpf_msr_value (moved a v t)) = acc_get b (hwpf_msr_value t).
Proof.
  intros Ha Hb Hne [Hm Hp]. unfold moved.
  destruct (acc_get a (hwpf_msr_value t) =? v); [done|]. by apply accessor_frame.
Qed.

Lemma tune_field_eq a k max i s t :
  aget (gtinfo s) i = Some t -> step_defined (aggr s) k ->
  tune_field (acc_get a) (acc_set a) k max i s =
    Ok (tt, s <| gtinfo := aset (gtinfo s) i (moved a (next_of (aggr s) k max (acc_get a (hwpf_msr_value t))) t) |>).
Proof.
  intros Ht Hd. pose proof (aget_Some_range _ _ _ Ht) as Hr. unfold tune_field.
  rewrite bind_gets. cbn beta. rewrite (bind_Ok _ _ s t s) by by apply thread_at_Some. cbv zeta.
  rewrite next_of_Some by done. cbn [mbind]. unfold moved.
  destruct (Z.eqb_spec (acc_get a (hwpf_msr_value t)) (next_of (aggr s) k max (acc_get a (hwpf_msr_value t))));
    cbn [negb].
  - rewrite aset_id by done. by destruct s.
  - by apply put_thread_Ok.
Qed.

(** Two settings of one core, in order. *)
Definition moved2 (a b : accessor) (aggr : spec_float) (k : option Z) (maxa maxb : Z) (t : thread_state) : thread_state :=
  let t := moved a (next_of aggr k maxa (acc_get a (hwpf_msr_value t))) t in
  moved b (next_of aggr k maxb (acc_get b (hwpf_msr_value t))) t.

Lemma aset_aset {A} (l : list A) i x y : aset (aset l i x) i y = aset l i y.
Proof. unfold aset. destruct (0 <=? i); [|done]. apply list_insert_insert_eq. Qed.

Lemma tune_pair_eq a b k maxa maxb i s t :
  aget (gtinfo s) i = Some t -> step_defined (aggr s) k ->
  (tune_field (acc_get a) (acc_set a) k maxa i ;; tune_field (acc_get b) (acc_set b) k maxb i) s =
    Ok (tt, s <| gtinfo := aset (gtinfo s) i (moved2 a b (aggr s) k maxa maxb t) |>).
Proof.
  intros Ht Hd. pose proof (aget_Some_range _ _ _ Ht) as Hr.
  rewrite (bind_Ok _ _ _ _ _ (tune_field_eq a k maxa i s t Ht Hd)).
  set (t1 := moved a _ t).
  rewrite (tune_field_eq b k maxb i _ t1) by (cbn; by rewrite ?aget_aset_eq). cbn.
  by rewrite aset_aset.
Qed.

(** A loop over the first [n] threads that replaces each by [f] of it. *)
Lemma for_threads_eq (f : thread_state -> thread_state) (body : Z -> T unit) (a : spec_float) n s :
  (forall i s t, aggr s = a -> aget (gtinfo s) i = Some t ->
    body i s = Ok (tt, s <| gtinfo := aset (gtinfo s) i (f t) |>)) ->
  aggr s = a -> Z.of_nat n <= zlen (gtinfo s) ->
  for_each (seqZ 0 (Z.of_nat n)) body s =
    Ok (tt, s <| gtinfo := map f (take n (gtinfo s)) ++ drop n (gtinfo s) |>).
Proof.
  intros Hb Ha. induction n as [|n IH]; intros Hn.
  - cbn. by destruct s.
  - rewrite seqZ_S, for_each_app.
    rewrite (bind_Ok _ _ _ _ _ (IH ltac:(lia))). cbn [for_each]. rewrite Z.add_0_l.
    set (g := map f (take n (gtinfo s)) ++ drop n (gtinfo s)).
    destruct (lookup_lt_is_Some_2 (gtinfo s) n) as [t Ht]; [unfold zlen in Hn; lia|].
    assert (Hlen : length (map f (take n (gtinfo s))) = n).
    { rewrite length_map, length_take. unfold zlen in Hn. lia. }
    assert (Hdrop : drop n (gtinfo s) = t :: drop (S n) (gtinfo s)) by by rewrite (drop_S _ t).
    assert (Hg : aget g (Z.of_nat n) = Some t).
    { unfold aget. rewrite (proj2 (Z.leb_le 0 _)), Nat2Z.id by lia. unfold g.
      rewrite lookup_app_r, Hlen, Nat.sub_diag, Hdrop by lia. done. }
    set (s1 := s <| gtinfo := g |>). rewrite (bind_Ok _ _ _ _ _ (Hb (Z.of_nat n) s1 t Ha Hg)). cbn.
    do 3 f_equal. unfold aset. rewrite (proj2 (Z.leb_le 0 _)), Nat2Z.id by lia. unfold g.
    rewrite insert_app_r_alt, Hlen, Nat.sub_diag, Hdrop by lia. cbn.
    rewrite (take_S_r _ _ t) by done. by rewrite map_app, <- app_assoc.
Qed.

Definition other_setting (a b : accessor) : Prop :=
  acc_index a <> acc_index b \/ acc_field a <> acc_field b.

Lemma other_setting_sym a b : other_setting a b -> other_setting b a.
Proof. intros [H|H]; [left|right]; congruence. Qed.

(** A setting of the table whose field holds the values up to [max]. *)
Definition setting (a : accessor) (max : Z) : Prop :=
  In a msr_accessors /\ 1 <= max /\
  exists f, field_of (acc_struct a) (acc_field a) = Some f /\ max < 2 ^ f_width f.

(** What a step of the tuner does to a thread: both settings get their next
    value, no other setting changes, and the thread is marked for writing when
    one of them moved. *)
Definition tuned (a b : accessor) (aggr : spec_float) (k : option Z) (maxa maxb : Z) (t t' : thread_state) : Prop :=
  let va := acc_get a (hwpf_msr_value t) in
  let vb := acc_get b (hwpf_msr_value t) in
  let va' := acc_get a (hwpf_msr_value t') in
  let vb' := acc_get b (hwpf_msr_value t') in
  next_value aggr k maxa va = Some va' /\ next_value aggr k maxb vb = Some vb' /\
  1 <= va' <= maxa /\ 1 <= vb' <= maxb /\
  (forall c, In c msr_accessors -> other_setting a c -> other_setting b c ->
    acc_get c (hwpf_msr_value t') = acc_get c (hwpf_msr_value t)) /\
  hwpf_msr_dirty t' = (if (va =? va') && (vb =? vb') then hwpf_msr_dirty t else 1).

Lemma moved2_tuned a b aggr k maxa maxb t :
  setting a maxa -> setting b maxb -> other_setting a b -> thread_wf t -> step_defined aggr k ->
  thread_wf (moved2 a b aggr k maxa maxb t) /\
  tuned a b aggr k maxa maxb t (moved2 a b aggr k maxa maxb t).
Proof.
  intros (Ha & Hma & f & Hf & Hwf) (Hb & Hmb & g & Hg & Hwg) Hab Ht Hd. unfold moved2. cbv zeta.
  set (na := next_of aggr k maxa (acc_get a (hwpf_msr_value t))).
  assert (Hna : next_value aggr k maxa (acc_get a (hwpf_msr_value t)) = Some na) by by apply next_of_Some.
  pose proof (next_value_range _ _ _ _ _ Hma Hna) as Hra.
  set (t1 := moved a na t). assert (Ht1 : thread_wf t1) by by apply thread_wf_moved.
  assert (Hb1 : acc_get b (hwpf_msr_value t1) = acc_get b (hwpf_msr_value t)) by by apply moved_frame.
  set (nb := next_of aggr k maxb (acc_get b (hwpf_msr_value t1))).
  assert (Hnb : next_value aggr k maxb (acc_get b (hwpf_msr_value t)) = Some nb).
  { rewrite <- Hb1. by apply next_of_Some. }
  pose proof (next_value_range _ _ _ _ _ Hmb Hnb) as Hrb.
  assert (Ha2 : acc_get a (hwpf_msr_value (moved b nb t1)) = na).
  { rewrite (moved_frame b a nb t1 Hb Ha) by (done || by apply other_setting_sym).
    apply (moved_get _ _ _ f); [done..|lia]. }
  assert (Hb2 : acc_get b (hwpf_msr_value (moved b nb t1)) = nb) by (apply (moved_get _ _ _ g); [done..|lia]).
  split; [by apply thread_wf_moved|]. unfold tuned. rewrite Ha2, Hb2. split_and!; try done; try lia.
  - intros c Hc Hac Hbc. rewrite (moved_frame b c) by done. by apply moved_frame.
  - unfold moved at 1. rewrite Hb1. unfold t1, moved at 1.
    destruct (acc_get a (hwpf_msr_value t) =? na), (acc_get b (hwpf_msr_value t) =? nb); done.
Qed.

Lemma map_prefix_at (f : thread_state -> thread_state) n (l : list thread_state) i t :
  Z.of_nat n <= zlen l -> aget l i = Some t ->
  aget (map f (take n l) ++ drop n l) i = Some (if i <? Z.of_nat n then f t else t).
Proof.
  intros Hn Hi. pose proof (aget_Some_range _ _ _ Hi) as Hr. unfold aget, zlen in *.
  rewrite (proj2 (Z.leb_le 0 i)) in * by lia.
  assert (Hlen : length (map f (take n l)) = n) by (rewrite length_map, length_take; lia).
  destruct (Z.ltb_spec i (Z.of_nat n)).
  - rewrite lookup_app_l by lia. change (f <$> take n l !! Z.to_nat i = Some (f t)) || idtac.
    rewrite list_lookup_fmap, lookup_take_lt by lia. by rewrite Hi.
  - rewrite lookup_app_r, Hlen, lookup_drop by lia. rewrite <- Hi. f_equal. lia.
Qed.

Definition acc_l2xq : accessor := Accessor msr_set_l2xq msr_get_l2xq 0 msr1320 "L2_STREAM_AMP_XQ_THRESHOLD".

Definition acc_l3xq : accessor := Accessor msr_set_l3xq msr_get_l3xq 0 msr1320 "LLC_STREAM_XQ_THRESHOLD".

Definition acc_l2maxdist : accessor := Accessor msr_set_l2maxdist msr_get_l2maxdist 0 msr1320 "L2_STREAM_MAX_DISTANCE".

Definition acc_l3maxdist : accessor := Accessor msr_set_l3maxdist msr_get_l3maxdist 0 msr1320 "LLC_STREAM_MAX_DISTANCE".

Lemma setting_l2xq : setting acc_l2xq L2XQ_MAX.
Proof.
  split_and!; [unfold msr_accessors; do 5 right; by left|done|]. eexists. split; [reflexivity|done].
Qed.

Lemma setting_l3xq : setting acc_l3xq L3XQ_MAX.
Proof.
  split_and!; [unfold msr_accessors; do 6 right; by left|done|]. eexists. split; [reflexivity|done].
Qed.

Lemma setting_l2maxdist : setting acc_l2maxdist L2MAXDIST_MAX.
Proof.
  split_and!; [unfold msr_accessors; do 7 right; by left|done|]. eexists. split; [reflexivity|done].
Qed.

Lemma setting_l3maxdist : setting acc_l3maxdist L3MAXDIST_MAX.
Proof.
  split_and!; [unfold msr_accessors; do 8 right; by left|done|]. eexists. split; [reflexivity|done].
Qed.

Lemma read_counters_Ok n s : n <= zlen (gtinfo s) -> read_counters n s = Ok (tt, s).
Proof.
  intros Hn. unfold read_counters.
  assert (H : forall l, Forall (fun i => 0 <= i < zlen (gtinfo s)) l ->
    for_each l (fun i => thread_at i ;; mret tt) s = Ok (tt, s)).
  { induction l as [|i l IH]; intros Hl; [done|]. apply Forall_cons in Hl as [Hi Hl]. cbn.
    destruct (aget_is_Some _ _ Hi) as [t Ht].
    rewrite (bind_Ok _ _ s tt s); [by apply IH|]. by rewrite (bind_Ok _ _ s t s) by by apply thread_at_Some. }
  apply H, Forall_forall. intros i Hi%elem_of_seqZ. lia.
Qed.

(** The state in which the tuning loop of [basicalg] starts. *)
Lemma basicalg_prefix alg s bw d1 wr d2 now rest :
  rdt_enabled s = 0 -> time_old s <> 0 -> active_threads s <= zlen (gtinfo s) ->
  pmu_ddr DDR_PMU_RD (mem s) = Ok (bw, d1) -> pmu_ddr DDR_PMU_WR d1 = Ok (wr, d2) ->
  default 0 (head (clocks s)) = now -> tail (clocks s) = rest ->
  let s1 := s <| mem := d2 |> <| clocks := rest |> <| time_old := u64 now |> in
  let n := active_threads s in
  let k := band_factor (rd_percent bw (ddr_bw_target s) (seconds (u64 now) (time_old s))) in
  basicalg alg s =
    ((if alg =? 0 then for_each (seqZ 0 n) (tune_xq k)
      else if alg =? 1 then
        if n <? 16 then stop_with OutOfBounds else for_each (seqZ 0 n) (tune_maxdist k)
      else mret tt) ;; mret 0) s1.
Proof.
  intros Hrdt Hold Hn Hrd Hwr Hnow Hrest. cbv zeta. unfold basicalg. rewrite bind_gets, Hrdt. cbn [Z.eqb].
  rewrite (bind_Ok _ _ _ _ _ (on_mem_Ok _ s _ _ Hrd)).
  set (sa := s <| mem := d1 |>). rewrite (bind_Ok _ _ _ _ _ (on_mem_Ok _ sa _ _ Hwr)). unfold sa.
  rewrite bind_gets.
  match goal with |- context [if ?b then _ else _] => replace b with false by (symmetry; by apply Z.eqb_neq) end.
  set (sb := _ <| mem := d2 |>).
  rewrite (bind_Ok _ _ _ _ _ (time_ms_run sb now rest Hnow Hrest)), bind_modify, !bind_gets. cbv zeta.
  erewrite bind_Ok by by apply read_counters_Ok. reflexivity.
Qed.

(** ** Properties *)

(** The loop of either algorithm over the active threads. *)
Lemma tune_loop a b k maxa maxb s n :
  step_defined (aggr s) k -> 0 <= n <= zlen (gtinfo s) ->
  let f := moved2 a b (aggr s) k maxa maxb in
  for_each (seqZ 0 n) (fun i => tune_field (acc_get a) (acc_set a) k maxa i ;; tune_field (acc_get b) (acc_set b) k maxb i) s =
    Ok (tt, s <| gtinfo := map f (take (Z.to_nat n) (gtinfo s)) ++ drop (Z.to_nat n) (gtinfo s) |>).
Proof.
  intros Hd Hn f. rewrite <- (Z2Nat.id n) at 1 by lia. apply (for_threads_eq f _ (aggr s)); [|done|lia].
  intros i s2 t Ha Ht. rewrite <- Ha in Hd. unfold f. rewrite <- Ha. by apply tune_pair_eq.
Qed.

(** The state after a step of algorithm 0. *)
Lemma basicalg_xq_run s bw d1 wr d2 now rest :
  threads_wf s -> 0 <= active_threads s <= MAX_THREADS -> rdt_enabled s = 0 -> time_old s <> 0 ->
  pmu_ddr DDR_PMU_RD (mem s) = Ok (bw, d1) -> pmu_ddr DDR_PMU_WR d1 = Ok (wr, d2) ->
  default 0 (head (clocks s)) = now -> tail (clocks s) = rest ->
  let k := band_factor (rd_percent bw (ddr_bw_target s) (seconds (u64 now) (time_old s))) in
  let f := moved2 acc_l2xq acc_l3xq (aggr s) k L2XQ_MAX L3XQ_MAX in
  let n := Z.to_nat (active_threads s) in
  step_defined (aggr s) k ->
  basicalg 0 s = Ok (0, s <| mem := d2 |> <| clocks := rest |> <| time_old := u64 now |>
                          <| gtinfo := map f (take n (gtinfo s)) ++ drop n (gtinfo s) |>).
Proof.
  intros [Hlen Hall] Hn Hrdt Hold Hrd Hwr Hnow Hrest k f n Hd.
  rewrite (basicalg_prefix 0 s bw d1 wr d2 now rest) by (done || lia). fold k. cbn [Z.eqb].
  set (s1 := _ <| time_old := u64 now |>).
  change (tune_xq k) with (fun i => tune_field (acc_get acc_l2xq) (acc_set acc_l2xq) k L2XQ_MAX i ;;
    tune_field (acc_get acc_l3xq) (acc_set acc_l3xq) k L3XQ_MAX i).
  by rewrite (bind_Ok _ _ s1 _ _ (tune_loop acc_l2xq acc_l3xq k L2XQ_MAX L3XQ_MAX s1 (active_threads s) Hd ltac:(change (gtinfo s1) with (gtinfo s); lia))).
Qed.

(** The state after a step of algorithm 1, which goes the other way. *)
Lemma basicalg_maxdist_run s bw d1 wr d2 now rest :
  threads_wf s -> 16 <= active_threads s <= MAX_THREADS -> rdt_enabled s = 0 -> time_old s <> 0 ->
  pmu_ddr DDR_PMU_RD (mem s) = Ok (bw, d1) -> pmu_ddr DDR_PMU_WR d1 = Ok (wr, d2) ->
  default 0 (head (clocks s)) = now -> tail (clocks s) = rest ->
  let k := Z.opp <$> band_factor (rd_percent bw (ddr_bw_target s) (seconds (u64 now) (time_old s))) in
  let f := moved2 acc_l2maxdist acc_l3maxdist (aggr s) k L2MAXDIST_MAX L3MAXDIST_MAX in
  let n := Z.to_nat (active_threads s) in
  step_defined (aggr s) k ->
  basicalg 1 s = Ok (0, s <| mem := d2 |> <| clocks := rest |> <| time_old := u64 now |>
                          <| gtinfo := map f (take n (gtinfo s)) ++ drop n (gtinfo s) |>).
Proof.
  intros [Hlen Hall] Hn Hrdt Hold Hrd Hwr Hnow Hrest k f n Hd.
  rewrite (basicalg_prefix 1 s bw d1 wr d2 now rest) by (done || lia). cbn [Z.eqb].
  rewrite (proj2 (Z.ltb_ge _ _)) by lia.
  set (s1 := _ <| time_old := u64 now |>).
  change (tune_maxdist _) with (fun i => tune_field (acc_get acc_l2maxdist) (acc_set acc_l2maxdist) k L2MAXDIST_MAX i ;;
    tune_field (acc_get acc_l3maxdist) (acc_set acc_l3maxdist) k L3MAXDIST_MAX i).
  by rewrite (bind_Ok _ _ s1 _ _ (tune_loop acc_l2maxdist acc_l3maxdist k L2MAXDIST_MAX L3MAXDIST_MAX s1 (active_threads s) Hd ltac:(change (gtinfo s1) with (gtinfo s); lia))).
Qed.

(** Each thread after it. *)
Lemma moved2_thread a b maxa maxb s k i t :
  setting a maxa -> setting b maxb -> other_setting a b ->
  threads_wf s -> 0 <= active_threads s <= MAX_THREADS -> step_defined (aggr s) k ->
  let f := moved2 a b (aggr s) k maxa maxb in
  let n := Z.to_nat (active_threads s) in
  aget (gtinfo s) i = Some t ->
  exists t', aget (map f (take n (gtinfo s)) ++ drop n (gtinfo s)) i = Some t' /\ thread_wf t' /\
    if i <? active_threads s then tuned a b (aggr s) k maxa maxb t t' else t' = t.
Proof.
  intros Ha Hb Hab [Hlen Hall] Hn Hd f n Ht. exists (if i <? Z.of_nat n then f t else t).
  pose proof (Forall_aget _ _ _ _ Hall Ht) as Htw.
  split; [apply map_prefix_at; [unfold n; lia|done]|].
  unfold n. rewrite Z2Nat.id by lia. destruct (i <? active_threads s); [|done]. by apply moved2_tuned.
Qed.

Lemma xq_thread s k i t :
  threads_wf s -> 0 <= active_threads s <= MAX_THREADS -> step_defined (aggr s) k ->
  let f := moved2 acc_l2xq acc_l3xq (aggr s) k L2XQ_MAX L3XQ_MAX in
  let n := Z.to_nat (active_threads s) in
  aget (gtinfo s) i = Some t ->
  exists t', aget (map f (take n (gtinfo s)) ++ drop n (gtinfo s)) i = Some t' /\ thread_wf t' /\
    if i <? active_threads s then tuned acc_l2xq acc_l3xq (aggr s) k L2XQ_MAX L3XQ_MAX t t' else t' = t.
Proof. apply moved2_thread; [apply setting_l2xq|apply setting_l3xq|by right]. Qed.


(** A step of algorithm 1, on at least sixteen cores: both maximal distances of
    every active core get their next value for the bandwidth measured, in the
    other direction than the thresholds, within 1 and 31 and 1 and 63. *)
Theorem basicalg_tunes_maxdist s bw d1 wr d2 now rest :
  threads_wf s -> 16 <= active_threads s <= MAX_THREADS -> rdt_enabled s = 0 -> time_old s <> 0 ->
  pmu_ddr DDR_PMU_RD (mem s) = Ok (bw, d1) -> pmu_ddr DDR_PMU_WR d1 = Ok (wr, d2) ->
  clocks s = now :: rest ->
  let k := Z.opp <$> band_factor (rd_percent bw (ddr_bw_target s) (seconds (u64 now) (time_old s))) in
  step_defined (aggr s) k ->
  exists s', basicalg 1 s = Ok (0, s') /\ time_old s' = u64 now /\
    forall i t, aget (gtinfo s) i = Some t ->
      exists t', aget (gtinfo s') i = Some t' /\ thread_wf t' /\
        if i <? active_threads s then tuned acc_l2maxdist acc_l3maxdist (aggr s) k L2MAXDIST_MAX L3MAXDIST_MAX t t'
        else t' = t.
Proof.
  intros Hwf Hn Hrdt Hold Hrd Hwr Hclk k Hd.
  rewrite (basicalg_maxdist_run s bw d1 wr d2 now rest) by (done || by rewrite Hclk).
  eexists. split; [reflexivity|]. split; [done|]. intros i t Ht.
  apply moved2_thread; [apply setting_l2maxdist|apply setting_l3maxdist|by right|done|lia|done..].
Qed.

(** Two active cores, the counters of two controllers, 1 ms and a target of 1 MB/s. *)
Definition tuner_state : ustate :=
  ustate0 0 1 <| mem := two_mapped |> <| time_old := 1000 |> <| clocks := [1001] |> <| ddr_bw_target := 1 |>.

Lemma tuner_state_wf : threads_wf tuner_state.
Proof. apply threads_wf_ustate0. Qed.


(** *** Agreement with the kernel module *)

Lemma literal_lt a b : 0 <= a < b -> b <= 100 -> SFltb (literal a 100) (literal b 100) = true.
Proof.
  intros Ha Hb.
  assert (Hc : Forall (fun a => SFltb (literal a 100) (literal (a + 1) 100) = true) (seqZ 0 100)).
  { apply Forall_forall. intros x Hx. revert x Hx. apply Forall_forall.
    apply (bool_decide_unpack _). vm_compute. exact I. }
  rewrite Forall_forall in Hc.
  replace b with (a + 1 + Z.of_nat (Z.to_nat (b - a - 1))) by lia.
  assert (Hm : a + 1 + Z.of_nat (Z.to_nat (b - a - 1)) <= 100) by lia. revert Hm.
  induction (Z.to_nat (b - a - 1)) as [|m IH]; intros Hm.
  - rewrite Z.add_0_r. apply Hc, elem_of_seqZ. lia.
  - apply (SFltb_trans _ (literal (a + 1 + Z.of_nat m) 100)); [apply IH; lia|].
    replace (a + 1 + Z.of_nat (S m)) with (a + 1 + Z.of_nat m + 1) by lia. apply Hc, elem_of_seqZ. lia.
Qed.

(** The percent a bandwidth falls in decides every comparison of the bands. *)
Lemma below_percent pct p m :
  0 <= p < 100 -> 0 <= m <= 100 -> below pct p = false -> below pct (p + 1) = true ->
  below pct m = (p <? m).
Proof.
  unfold below. intros Hp Hm Hlo Hhi. destruct (Z.ltb_spec p m) as [Hpm|Hpm].
  - destruct (decide (p + 1 = m)) as [<-|]; [done|].
    apply (SFltb_trans _ (literal (p + 1) 100)); [done|]. apply literal_lt; lia.
  - destruct (decide (m = p)) as [->|]; [done|]. apply not_true_is_false. intros H.
    rewrite (SFltb_trans _ (literal m 100) (literal p 100)) in Hlo; [done..|]. apply literal_lt; lia.
Qed.

(** With an aggressiveness of 1 the user-space tuner moves the L2 threshold
    as the kernel module does, for every bandwidth below the target, except
    between 60 and 80 percent of it, where the kernel raises the threshold and
    the user-space program lowers it. *)
Theorem user_kernel_l2xq pct p v :
  0 <= p < 100 -> below pct p = false -> below pct (p + 1) = true -> 0 <= v <= 31 ->
  next_value (f32_of_Z 1) (band_factor pct) L2XQ_MAX v =
    Some (if (60 <=? p) && (p <? 80) then Z.max 1 (v - 1) else l2xq_next p v).
Proof.
  intros Hp Hlo Hhi Hv. unfold band_factor, l2xq_next, l2xq_step.
  rewrite !(below_percent pct p) by (done || lia).
  assert (Hs : forall k, -8 <= k <= 8 -> s32 (v + k) = v + k) by (intros; apply s32_small; unfold in_s32; lia).
  repeat match goal with |- context [p <? ?m] => destruct (Z.ltb_spec p m) end;
    destruct (Z.leb_spec 60 p); try lia; cbn [andb]; unfold next_value, scaled_step;
    match goal with
    | |- context [lround ?x] => let y := eval vm_compute in (lround x) in change (lround x) with y
    | _ => idtac
    end; cbn [mbind option_bind]; cbv zeta; rewrite ?Hs by lia; unfold L2XQ_MAX, KPrimitive.L2XQ_MAX;
    repeat case_match; f_equal; lia.
Qed.

Lemma user_kernel_l2xq_witness :
  next_value (f32_of_Z 1) (band_factor (f32_div (f32_of_Z 3) (f32_of_Z 4))) L2XQ_MAX 10 = Some 9 /\
  l2xq_next 75 10 = 11.
Proof.
  split; [|reflexivity].
  rewrite (user_kernel_l2xq _ 75 10); [reflexivity|lia|vm_compute; reflexivity..|lia].
Defined.

(** Algorithm 1 on fewer than sixteen cores reads past the array of hit
    ratios, whatever the bandwidth is, and before any core is tuned. *)
Theorem maxdist_few_cores s bw d1 wr d2 now rest :
  threads_wf s -> active_threads s < 16 -> rdt_enabled s = 0 -> time_old s <> 0 ->
  pmu_ddr DDR_PMU_RD (mem s) = Ok (bw, d1) -> pmu_ddr DDR_PMU_WR d1 = Ok (wr, d2) ->
  clocks s = now :: rest ->
  basicalg 1 s = Stop OutOfBounds.
Proof.
  intros [Hlen _] Hn Hrdt Hold Hrd Hwr Hclk.
  rewrite (basicalg_prefix 1 s bw d1 wr d2 now rest) by (done || by rewrite Hclk || (rewrite Hlen; unfold MAX_THREADS; lia)).
  cbn [Z.eqb]. by rewrite (proj2 (Z.ltb_lt _ _) Hn).
Qed.

Lemma maxdist_few_cores_witness : basicalg 1 tuner_state = Stop OutOfBounds.
Proof.
  destruct (pmu_ddr DDR_PMU_RD (mem tuner_state)) as [[bw d1]|] eqn:Hrd; [|vm_compute in Hrd; discriminate].
  destruct (pmu_ddr DDR_PMU_WR d1) as [[wr d2]|] eqn:Hwr;
    [|vm_compute in Hrd; injection Hrd as _ <-; vm_compute in Hwr; discriminate].
  apply (maxdist_few_cores tuner_state bw d1 wr d2 1001 []).
  - apply tuner_state_wf.
  - reflexivity.
  - reflexivity.
  - discriminate.
  - exact Hrd.
  - exact Hwr.
  - reflexivity.
Defined.
