(* ===== verification/Mab.v ===== *)
(** * The multi-armed bandit of the user-space program ([tuners/mab.c])

    An arm is a setting of the prefetcher MSRs.  In its first [num_arms] runs
    [mab] plays every arm once (round robin); afterwards the arm of the next
    interval is the one of greatest average reward (epsilon-greedy) or of
    greatest potential (UCB, DUCB).  The reward is the number of instructions
    per cycle of the second core.

    [log] of the C library is not specified to the last bit; it is a parameter
    of the definitions that use it. *)

From S2P Require Import Prelude Floats Msr MsrDev PmuDdr UState.

Definition one : spec_float := f32_of_Z 1.

Definition MAX_TIME_INTERVAL : spec_float := literal 1 10.

Definition MIN_TIME_INTERVAL : spec_float := literal 1 100.

(** ** Arrays of [arms] *)

Definition reward_at (i : Z) : T spec_float := fun s => read (rewards (arms s)) i s.

Definition ipc_at (i : Z) : T spec_float := fun s => read (ipcs (arms s)) i s.

Definition num_at (i : Z) : T spec_float := fun s => read (nums (arms s)) i s.

Definition set_reward (i : Z) (x : spec_float) : T unit := fun s =>
  (check_index (rewards (arms s)) i ;;
   modify (fun s => s <| arms ::= fun a => a <| rewards ::= fun l => aset l i x |> |>)) s.

Definition set_ipc (i : Z) (x : spec_float) : T unit := fun s =>
  (check_index (ipcs (arms s)) i ;;
   modify (fun s => s <| arms ::= fun a => a <| ipcs ::= fun l => aset l i x |> |>)) s.

Definition set_num (i : Z) (x : spec_float) : T unit := fun s =>
  (check_index (nums (arms s)) i ;;
   modify (fun s => s <| arms ::= fun a => a <| nums ::= fun l => aset l i x |> |>)) s.

(** ** Choice of the next arm *)

Definition next_arm_rr : T Z := gets (fun s => rr_counter (mstate s)).

(** The loops of [next_arm_max] and [next_arm_potential] from index 1 on: the
    greatest [value] so far and its index. *)
Definition max_step (value : Z -> T spec_float) (best : Z * spec_float) (i : Z) : T (Z * spec_float) :=
  x ← value i;
  mret (if SFltb (snd best) x then (i, x) else best).

Definition max_index (value : Z -> T spec_float) (num_arms : Z) : T Z :=
  x ← value 0;
  best ← fold_each (seqZ 1 (num_arms - 1)) (0, x) (max_step value);
  mret (fst best).

Definition next_arm_max : T Z :=
  m ← gets mstate;
  r ← rand;
  if SFltb (f32_div (f32_of_Z r) (f32_of_Z RAND_MAX)) (epsilon m) then
    r2 ← rand;
    if num_arms m =? 0 then stop_with DivByZero else mret (u64 r2 mod num_arms m)
  else max_index reward_at (num_arms m).

Definition next_arm_random : T Z :=
  m ← gets mstate;
  r ← rand;
  q ← div_u RAND_MAX (num_arms m);
  div_u (u64 r) q.

(** [exploration_factor]: the square root and the sum are computed in double
    precision, the quotient in single. *)
Definition exploration_factor (log_num_total : spec_float) (arm_num : Z) : T spec_float :=
  r ← reward_at arm_num;
  c ← gets (fun s => mab_c (mstate s));
  n ← num_at arm_num;
  mret (to_f32 (f64_add (to_f64 r) (f64_mul (to_f64 c) (f64_sqrt (to_f64 (f32_div log_num_total n)))))).

Definition next_arm_default : T Z := mret 0.

(** ** Counting selections *)

Definition update_selections_rr : T unit :=
  a ← gets (fun s => arm (mstate s));
  set_num a one ;;
  modify_mab (fun m => m <| num_total ::= fun x => f32_add x one |>
                         <| rr_counter ::= fun n => u64 (n + 1) |>).

(** [arms.nums[mstate->arm]++]. *)
Definition count_arm : T unit :=
  a ← gets (fun s => arm (mstate s));
  n ← num_at a;
  set_num a (f32_add n one).

Definition update_selections_increment : T unit :=
  count_arm ;;
  modify_mab (fun m => m <| num_total ::= fun x => f32_add x one |>).

Definition update_selections_discounted : T unit :=
  m ← gets mstate;
  for_each (seqZ 0 (num_arms m)) (fun i => n ← num_at i; set_num i (f32_mul n (gamma m))) ;;
  count_arm ;;
  modify_mab (fun m => m <| num_total ::= fun x => f32_add (f32_mul (gamma m) x) one |>).

Definition update_selections_none : T unit := mret tt.

(** ** Rewards *)

(** [(double)instructions_retired / (double)cpu_cycles] of the second thread. *)
Definition measured_ipc : T spec_float :=
  t ← thread_at 1;
  mret (to_f32 (f64_div (f64_of_Z (instructions_retired t)) (f64_of_Z (cpu_cycles t)))).

(** The test of the mode is [mode == RR_RESTART || MAIN_LOOP_TRANSITION], whose
    second operand is the constant 2. *)
Definition get_reward (arm_num : Z) : T spec_float :=
  reward ← measured_ipc;
  m ← gets mstate;
  (if (mode m =? RR_RESTART) || negb (MAIN_LOOP_TRANSITION =? 0) then set_ipc arm_num reward
   else
     x ← ipc_at arm_num;
     n ← num_at arm_num;
     set_ipc arm_num (f32_div (f32_add (f32_mul x (f32_sub n one)) reward) n)) ;;
  mret reward.

Definition update_reward (arm_num : Z) : T spec_float :=
  rstep ← get_reward arm_num;
  m ← gets mstate;
  let normalised_reward := f32_div rstep (avg_reward m) in
  x ← reward_at arm_num;
  n ← num_at arm_num;
  mret (f32_div (f32_add (f32_mul x (f32_sub n one)) normalised_reward) n).

(** ** Evaluating and switching arms *)

Definition set_msrs (arm_num : Z) : T unit :=
  m ← gets mstate;
  if negb (arm_num =? arm m) then
    for_each (seqZ 0 (num_threads m)) (fun i =>
      t ← thread_at i;
      put_thread i (t <| hwpf_msr_dirty := 1 |>))
  else mret tt.

(** [prev_arm] is an [int] in between. *)
Definition setup_arm (next_arm_strategy : T Z) (update_strategy : T unit) : T unit :=
  m ← gets mstate;
  let prev_arm := u64 (s32 (arm m)) in
  a ← next_arm_strategy;
  modify_mab (fun m => m <| arm := a |> <| iterations ::= fun n => u64 (n + 1) |>) ;;
  set_msrs prev_arm ;;
  update_strategy.

Definition evaluate_arm (rewardFunc : Z -> T spec_float) : T Z :=
  m ← gets mstate;
  r ← rewardFunc (arm m);
  set_reward (arm m) r ;;
  mret (arm m).

(** The second loop runs to [core_last], an [int]. *)
Definition normalise_rewards : T unit :=
  m ← gets mstate;
  total ← fold_each (seqZ 0 (num_arms m)) f32_zero (fun acc i => x ← ipc_at i; mret (f32_add acc x));
  let avg := f32_div total (f32_of_Z (num_arms m)) in
  last ← gets core_last;
  for_each (seqZ 0 last) (fun i => x ← reward_at i; set_reward i (f32_div x avg)) ;;
  modify_mab (fun m => m <| avg_reward := avg |>).

(** ** Rolling standard deviation *)

(** Replacing an entry of one of the two circular buffers: the old entry and
    the buffer after the assignment. *)
Definition replace_entry (b : option (list spec_float)) (i : Z) (x : spec_float) : T (spec_float * list spec_float) :=
  match b with
  | None => stop_with NullDeref
  | Some l => old ← read l i; mret (old, aset l i x)
  end.

Definition rem_u (a b : Z) : T Z := if b =? 0 then stop_with DivByZero else mret (a mod b).

(** The part for the standard deviations, once the IPC window is full. *)
Definition update_sd (new_sd : spec_float) : T unit :=
  m ← gets mstate;
  old ← replace_entry (sd_buffer m) (sd_index m) new_sd;
  modify_mab (fun m => m <| sd_buffer := Some (snd old) |>) ;;
  i ← rem_u (u64 (sd_index m + 1)) (sd_window_size m);
  modify_mab (fun m => m <| sd_index := i |>) ;;
  if sd_n m <? sd_window_size m then
    modify_mab (fun m => m <| sd_n ::= fun n => n + 1 |>
      <| current_sd_mean ::= fun x => f32_add x (f32_div (f32_sub new_sd x) (f32_of_Z (sd_n m + 1))) |>)
  else
    modify_mab (fun m => m <| current_sd_mean ::= fun x =>
      f32_add x (f32_div (f32_sub new_sd (fst old)) (f32_of_Z (sd_window_size m))) |>).

Definition update_and_fetch_sd_mean (new_ipc : spec_float) : T spec_float :=
  m ← gets mstate;
  old ← replace_entry (ipc_buffer m) (ipc_index m) new_ipc;
  modify_mab (fun m => m <| ipc_buffer := Some (snd old) |>) ;;
  i ← rem_u (u64 (ipc_index m + 1)) (ipc_window_size m);
  let n := if ipc_n m <? ipc_window_size m then ipc_n m + 1 else ipc_n m in
  let old_ipc := fst old in
  let window := f32_of_Z (ipc_window_size m) in
  let mean := current_ipc_mean m in
  let new_mean := f32_add mean (f32_div (f32_sub new_ipc old_ipc) window) in
  let M2 := f32_add (current_ipc_M2 m)
    (f32_mul (f32_sub new_ipc old_ipc)
             (f32_sub (f32_add (f32_sub new_ipc new_mean) old_ipc) mean)) in
  modify_mab (fun m => m <| ipc_index := i |> <| ipc_n := n |> <| current_ipc_M2 := M2 |>
                         <| current_ipc_mean := new_mean |>) ;;
  (if n =? ipc_window_size m then update_sd (to_f32 (f64_sqrt (to_f64 (f32_div M2 window)))) else mret tt) ;;
  gets (fun s => current_sd_mean (mstate s)).

Definition check_dynamic_sd : T Z :=
  m ← gets mstate;
  if (dynamic_sd m =? ON) || (dynamic_sd m =? STEP) then
    ipc ← measured_ipc;
    sd_mean ← update_and_fetch_sd_mean ipc;
    t ← gets time_intervall;
    if SFltb (sd_mean_threshold m) sd_mean then
      if dynamic_sd m =? ON then mret 1
      else if (dynamic_sd m =? STEP) && SFltb (to_f64 t) MAX_TIME_INTERVAL then
        modify (fun s => s <| time_intervall := to_f32 MAX_TIME_INTERVAL |>) ;; mret 0
      else mret 0
    else if (dynamic_sd m =? STEP) && SFltb sd_mean (sd_mean_threshold m) &&
            SFltb MIN_TIME_INTERVAL (to_f64 t) then
      modify (fun s => s <| time_intervall := to_f32 MIN_TIME_INTERVAL |>) ;; mret 0
    else mret 0
  else mret 0.

(** ** One run of the algorithm *)

Section mab.
Context (log : spec_float -> spec_float).

Definition next_arm_potential : T Z :=
  m ← gets mstate;
  let log_num_total := to_f32 (log (to_f64 (num_total m))) in
  max_index (exploration_factor log_num_total) (num_arms m).

(** A call through [next_arm_func] or [update_func]. *)
Definition call_next_arm (f : option next_arm_strategy) : T Z :=
  match f with
  | None => stop_with NullDeref
  | Some next_arm_rr_ => next_arm_rr
  | Some next_arm_max_ => next_arm_max
  | Some next_arm_random_ => next_arm_random
  | Some next_arm_potential_ => next_arm_potential
  | Some next_arm_default_ => next_arm_default
  end.

Definition call_update (f : option update_strategy) : T unit :=
  match f with
  | None => stop_with NullDeref
  | Some update_rr_ => update_selections_rr
  | Some update_increment_ => update_selections_increment
  | Some update_discounted_ => update_selections_discounted
  | Some update_none_ => update_selections_none
  end.

(** [setup_arm(mstate, mstate->next_arm_func, mstate->update_func)]. *)
Definition setup_chosen_arm : T unit :=
  m ← gets mstate;
  setup_arm (call_next_arm (next_arm_func m)) (call_update (update_func m)).

(** [(normalise == PERIODIC) && ((iterations + 1) % norm_freq == 0)]. *)
Definition normalise_due : T bool :=
  m ← gets mstate;
  if normalise m =? PERIODIC then
    r ← rem_u (u64 (iterations m + 1)) (norm_freq m);
    mret (r =? 0)
  else mret false.

Definition round_robin : T unit :=
  m ← gets mstate;
  (if negb (rr_counter m =? 0) then evaluate_arm get_reward ;; mret tt else mret tt) ;;
  setup_arm next_arm_rr update_selections_rr ;;
  m ← gets mstate;
  if rr_counter m =? num_arms m then
    modify_mab (fun m => m <| rr_counter := 0 |> <| mode := MAIN_LOOP_TRANSITION |>)
  else mret tt.

Definition transition : T unit :=
  evaluate_arm get_reward ;;
  m ← gets mstate;
  (if (normalise m =? ONCE) || (normalise m =? PERIODIC) then normalise_rewards else mret tt) ;;
  setup_chosen_arm ;;
  modify_mab (fun m => m <| mode := MAIN_LOOP |>).

Definition main_loop : T unit :=
  evaluate_arm update_reward ;;
  setup_chosen_arm.

(** The run when the filter does not ask for a pause. *)
Definition mab_awake : T Z :=
  m ← gets mstate;
  if algorithm m =? RANDOM then
    setup_arm next_arm_random update_selections_increment ;; mret 0
  else
  due ← normalise_due;
  (if due : bool then normalise_rewards else mret tt) ;;
  m ← gets mstate;
  (if mode m =? ROUND_ROBIN then round_robin
   else if mode m =? MAIN_LOOP_TRANSITION then transition
   else main_loop) ;;
  mret 0.

Definition mab : T Z :=
  sleep ← check_dynamic_sd;
  if negb (sleep =? 0) then
    setup_arm next_arm_default update_selections_none ;; mret 0
  else mab_awake.
End mab.

(** ** The invariant *)

(** A circular buffer of [w] entries, [i] the next to be replaced. *)
Definition window (b : option (list spec_float)) (i w : Z) : Prop :=
  exists l, b = Some l /\ zlen l = w /\ 0 <= i < w.

Definition sd_active (m : mab_state) : Prop := dynamic_sd m = ON \/ dynamic_sd m = STEP.

Definition sd_ready (m : mab_state) : Prop :=
  sd_active m ->
  window (ipc_buffer m) (ipc_index m) (ipc_window_size m) /\
  window (sd_buffer m) (sd_index m) (sd_window_size m).

(** A bandit with [n] arms whose round-robin counter is below [b]. *)
Record mab_shape (n b : Z) (m : mab_state) : Prop := {
  ms_arms : num_arms m = n;
  ms_arm : 0 <= arm m < n;
  ms_rr : 0 <= rr_counter m < b;
  ms_threads : 0 <= num_threads m <= MAX_THREADS;
  ms_freq : 0 < norm_freq m;
  ms_alg : algorithm m <> RANDOM;
  ms_next : next_arm_func m = Some next_arm_max_ \/ next_arm_func m = Some next_arm_potential_;
  ms_update : update_func m = Some update_increment_ \/ update_func m = Some update_discounted_;
  ms_sd : sd_ready m }.

Record mab_world (s : ustate) : Prop := {
  mw_rewards : zlen (rewards (arms s)) = MAX_ARMS;
  mw_ipcs : zlen (ipcs (arms s)) = MAX_ARMS;
  mw_nums : zlen (nums (arms s)) = MAX_ARMS;
  mw_tables : zlen (hwpf_msr_values (arms s)) = MAX_ARMS;
  mw_threads : zlen (gtinfo s) = MAX_THREADS;
  mw_core : core_last s <= MAX_ARMS;
  mw_rands : Forall (fun r => 0 <= r <= RAND_MAX) (rands s) }.

Definition mab_inv (n b : Z) (s : ustate) : Prop := mab_shape n b (mstate s) /\ mab_world s.

(** ** Every run keeps it *)

(** What the bandit may do to its records: [m] gets to [m'] without touching what
    the invariant speaks of, except as stated by the caller. *)
Ltac shape := match goal with H : mab_shape _ _ _ |- _ => destruct H; split; cbn; try done; try lia end.

Section invariant.
Context (n : Z) (Hn : 1 <= n <= MAX_ARMS).

Lemma runs_modify_mab (I J : mab_state -> Prop) f :
  (forall m, I m -> J (f m)) ->
  runs (fun s => I (mstate s) /\ mab_world s) (modify_mab f) (fun _ => True) (fun s => J (mstate s) /\ mab_world s).
Proof. intros Hf. apply runs_modify. intros s [HI []]. split; [by apply Hf|by split]. Qed.

Lemma runs_mstate (I : mab_state -> Prop) :
  runs (fun s => I (mstate s) /\ mab_world s) (gets mstate) I (fun s => I (mstate s) /\ mab_world s).
Proof. apply runs_gets. by intros s []. Qed.

(** Accesses to the arrays of [arms] and to the threads, under any condition on
    the bandit's record. *)
Section access.
Context (I : mab_state -> Prop).
Let W (s : ustate) : Prop := I (mstate s) /\ mab_world s.

Lemma runs_read_arm (f : arms_t -> list spec_float) i :
  (forall s, mab_world s -> zlen (f (arms s)) = MAX_ARMS) -> 0 <= i < MAX_ARMS ->
  runs W (fun s => read (f (arms s)) i s) (fun _ => True) W.
Proof.
  intros Hf Hi s HW. destruct (aget_is_Some (f (arms s)) i) as [x Hx].
  { rewrite Hf by apply HW. done. }
  unfold wp. rewrite (read_Some _ _ x) by done. done.
Qed.

Lemma runs_reward_at i : 0 <= i < MAX_ARMS -> runs W (reward_at i) (fun _ => True) W.
Proof. apply (runs_read_arm rewards). by intros s []. Qed.

Lemma runs_ipc_at i : 0 <= i < MAX_ARMS -> runs W (ipc_at i) (fun _ => True) W.
Proof. apply (runs_read_arm ipcs). by intros s []. Qed.

Lemma runs_num_at i : 0 <= i < MAX_ARMS -> runs W (num_at i) (fun _ => True) W.
Proof. apply (runs_read_arm nums). by intros s []. Qed.

Ltac set_arm := intros Hi s [HI Hw]; pose proof Hw as []; unfold wp, set_reward, set_ipc, set_num;
  rewrite (bind_Ok _ _ s tt s) by (apply check_index_Ok; lia); split; [done|];
  split; [done|split; cbn; by rewrite ?zlen_aset].

Lemma runs_set_reward i x : 0 <= i < MAX_ARMS -> runs W (set_reward i x) (fun _ => True) W.
Proof. set_arm. Qed.

Lemma runs_set_ipc i x : 0 <= i < MAX_ARMS -> runs W (set_ipc i x) (fun _ => True) W.
Proof. set_arm. Qed.

Lemma runs_set_num i x : 0 <= i < MAX_ARMS -> runs W (set_num i x) (fun _ => True) W.
Proof. set_arm. Qed.

Lemma runs_thread_at i : 0 <= i < MAX_THREADS -> runs W (thread_at i) (fun _ => True) W.
Proof.
  intros Hi s [HI Hw]. destruct (aget_is_Some (gtinfo s) i) as [t Ht]; [by rewrite (mw_threads s Hw)|].
  unfold wp. by rewrite (thread_at_Some _ _ t).
Qed.

Lemma runs_put_thread i t : 0 <= i < MAX_THREADS -> runs W (put_thread i t) (fun _ => True) W.
Proof.
  intros Hi s [HI Hw]. unfold wp. rewrite put_thread_Ok by by rewrite (mw_threads s Hw).
  split; [done|]. split; [done|]. destruct Hw. split; cbn; by rewrite ?zlen_aset.
Qed.

Lemma runs_rand : runs W rand (fun r => 0 <= r <= RAND_MAX) W.
Proof.
  intros s [HI []]. cbn. split.
  - destruct (rands s) as [|r l]; [done|]. by apply (Forall_cons_1 _ _ _ mw_rands0).
  - split; [done|]. split; cbn; try done. destruct (rands s); [done|]. by apply (Forall_cons_1 _ _ _ mw_rands0).
Qed.

Lemma runs_max_index value :
  (forall i, 0 <= i < n -> runs W (value i) (fun _ => True) W) ->
  runs W (max_index value n) (fun a => 0 <= a < n) W.
Proof.
  intros Hv. eapply runs_bind; [apply Hv; lia|]. intros x _.
  eapply runs_bind; [apply (runs_fold_each _ (fun b => 0 <= fst b < n)); [cbn; lia|]|].
  - intros b i Hb Hi%elem_of_seqZ. eapply runs_bind; [apply Hv; lia|]. intros y _. apply runs_ret.
    destruct (SFltb _ _); cbn; lia.
  - intros b Hb. by apply runs_ret.
Qed.

Lemma runs_measured_ipc : runs W measured_ipc (fun _ => True) W.
Proof. eapply runs_bind; [by apply runs_thread_at|]. intros t _. by apply runs_ret. Qed.

Lemma runs_get_reward i : 0 <= i < MAX_ARMS -> runs W (get_reward i) (fun _ => True) W.
Proof.
  intros Hi. eapply runs_bind; [apply runs_measured_ipc|]. intros r _.
  eapply runs_bind; [apply runs_mstate|]. intros m _.
  eapply runs_bind; [|intros _ _; by apply runs_ret].
  apply runs_if; [by apply runs_set_ipc|].
  eapply runs_bind; [by apply runs_ipc_at|]. intros x _.
  eapply runs_bind; [by apply runs_num_at|]. intros y _. by apply runs_set_ipc.
Qed.

Lemma runs_update_reward i : 0 <= i < MAX_ARMS -> runs W (update_reward i) (fun _ => True) W.
Proof.
  intros Hi. eapply runs_bind; [by apply runs_get_reward|]. intros r _.
  eapply runs_bind; [apply runs_mstate|]. intros m _.
  eapply runs_bind; [by apply runs_reward_at|]. intros x _.
  eapply runs_bind; [by apply runs_num_at|]. intros y _. by apply runs_ret.
Qed.
End access.

(** *** Operations on the whole state *)

Lemma runs_next_arm_max b : runs (mab_inv n b) next_arm_max (fun a => 0 <= a < n) (mab_inv n b).
Proof.
  eapply runs_bind; [apply runs_mstate|]. intros m Hm. rewrite (ms_arms _ _ _ Hm).
  eapply runs_bind; [apply runs_rand|]. intros r Hr. apply runs_if.
  - eapply runs_bind; [apply runs_rand|]. intros r2 Hr2. rewrite (proj2 (Z.eqb_neq n 0)) by lia.
    apply runs_ret. apply Z.mod_pos_bound. lia.
  - apply runs_max_index. intros i Hi. apply runs_reward_at. lia.
Qed.

Lemma runs_exploration_factor b x i :
  0 <= i < n -> runs (mab_inv n b) (exploration_factor x i) (fun _ => True) (mab_inv n b).
Proof.
  intros Hi. eapply runs_bind; [apply runs_reward_at; lia|]. intros r _.
  eapply runs_bind; [by apply (runs_gets _ _ (fun _ => True))|]. intros c _.
  eapply runs_bind; [apply runs_num_at; lia|]. intros y _. by apply runs_ret.
Qed.

Lemma runs_next_arm_potential log b :
  runs (mab_inv n b) (next_arm_potential log) (fun a => 0 <= a < n) (mab_inv n b).
Proof.
  eapply runs_bind; [apply runs_mstate|]. intros m Hm. rewrite (ms_arms _ _ _ Hm).
  apply runs_max_index. intros i Hi. by apply runs_exploration_factor.
Qed.

Lemma runs_count_arm b : runs (mab_inv n b) count_arm (fun _ => True) (mab_inv n b).
Proof.
  eapply runs_bind; [apply (runs_gets _ _ (fun a => 0 <= a < n)); intros s [[] _]; lia|]. intros a Ha. cbv beta in Ha.
  eapply runs_bind; [apply runs_num_at; lia|]. intros x _. apply runs_set_num. lia.
Qed.

Lemma runs_update_increment b :
  runs (mab_inv n b) update_selections_increment (fun _ => True) (mab_inv n b).
Proof.
  eapply runs_bind; [apply runs_count_arm|]. intros _ _. apply runs_modify_mab. intros m Hm. shape.
Qed.

Lemma runs_update_discounted b :
  runs (mab_inv n b) update_selections_discounted (fun _ => True) (mab_inv n b).
Proof.
  eapply runs_bind; [apply runs_mstate|]. intros m Hm. rewrite (ms_arms _ _ _ Hm).
  eapply runs_bind; [apply runs_for_each|intros _ _].
  - intros i Hi%elem_of_seqZ. eapply runs_bind; [apply runs_num_at; lia|]. intros x _. apply runs_set_num. lia.
  - eapply runs_bind; [apply runs_count_arm|]. intros _ _. apply runs_modify_mab. intros m' Hm'. shape.
Qed.

Lemma runs_update_rr b :
  b <= MAX_ARMS -> runs (mab_inv n b) update_selections_rr (fun _ => True) (mab_inv n (b + 1)).
Proof.
  intros Hb.
  eapply runs_bind; [apply (runs_gets _ _ (fun a => 0 <= a < n)); intros s [[] _]; lia|]. intros a Ha. cbv beta in Ha.
  eapply runs_bind; [apply runs_set_num; lia|]. intros _ _. apply runs_modify_mab. intros m Hm.
  unfold MAX_ARMS in *. pose proof (ms_rr _ _ _ Hm). shape. rewrite u64_small; lia.
Qed.

Lemma runs_rem_u (I : ustate -> Prop) a w : 0 < w -> runs I (rem_u a w) (fun i => 0 <= i < w) I.
Proof.
  intros Hw. unfold rem_u. rewrite (proj2 (Z.eqb_neq w 0)) by lia. apply runs_ret.
  by apply Z.mod_pos_bound.
Qed.

(** The next lemmas hold under any condition on the bandit's record that implies
    what the operation needs. *)
Section conditions.
Context (I : mab_state -> Prop) (HI : forall m, I m -> exists b, mab_shape n b m).
Let W (s : ustate) : Prop := I (mstate s) /\ mab_world s.

Lemma runs_set_msrs a : runs W (set_msrs a) (fun _ => True) W.
Proof.
  eapply runs_bind; [apply runs_mstate|]. intros m Hm. destruct (HI m Hm) as [b []].
  apply runs_if; [|by apply runs_ret].
  apply runs_for_each. intros i Hi%elem_of_seqZ.
  eapply runs_bind; [apply runs_thread_at; lia|]. intros t _. apply runs_put_thread. lia.
Qed.

Lemma runs_evaluate_arm f :
  (forall i, 0 <= i < n -> runs W (f i) (fun _ => True) W) -> runs W (evaluate_arm f) (fun _ => True) W.
Proof.
  intros Hf. eapply runs_bind; [apply runs_mstate|]. intros m Hm. destruct (HI m Hm) as [b []].
  eapply runs_bind; [by apply Hf|]. intros r _.
  eapply runs_bind; [apply runs_set_reward; lia|]. intros _ _. by apply runs_ret.
Qed.

Lemma runs_normalise :
  (forall m x, I m -> I (m <| avg_reward := x |>)) -> runs W normalise_rewards (fun _ => True) W.
Proof.
  intros Havg. eapply runs_bind; [apply runs_mstate|]. intros m Hm. destruct (HI m Hm) as [b []].
  rewrite ms_arms0. eapply runs_bind; [apply (runs_fold_each _ (fun _ => True)); [done|]|].
  { intros acc i _ Hi%elem_of_seqZ. eapply runs_bind; [apply runs_ipc_at; lia|].
    intros x _. by apply runs_ret. }
  intros total _.
  eapply runs_bind; [apply (runs_gets _ _ (fun l => l <= MAX_ARMS)); by intros s [_ []]|].
  intros last Hl. cbv beta in Hl.
  eapply runs_bind; [apply runs_for_each|intros _ _].
  - intros i Hi%elem_of_seqZ. eapply runs_bind; [apply runs_reward_at; lia|].
    intros x _. apply runs_set_reward. lia.
  - apply runs_modify_mab. auto.
Qed.

Lemma runs_normalise_due : runs W normalise_due (fun _ => True) W.
Proof.
  eapply runs_bind; [apply runs_mstate|]. intros m Hm. destruct (HI m Hm) as [b []].
  apply runs_if; [|by apply runs_ret].
  eapply runs_bind; [by apply runs_rem_u|]. intros r _. by apply runs_ret.
Qed.
End conditions.

(** [setup_arm], whose first part takes [I] to [J] by the new arm. *)
Lemma runs_setup_arm (I J K : mab_state -> Prop) (P : Z -> Prop) next update :
  (forall m, J m -> exists b, mab_shape n b m) ->
  runs (fun s => I (mstate s) /\ mab_world s) next P (fun s => I (mstate s) /\ mab_world s) ->
  (forall m a k, I m -> P a -> J (m <| arm := a |> <| iterations := k |>)) ->
  runs (fun s => J (mstate s) /\ mab_world s) update (fun _ => True) (fun s => K (mstate s) /\ mab_world s) ->
  runs (fun s => I (mstate s) /\ mab_world s) (setup_arm next update) (fun _ => True)
       (fun s => K (mstate s) /\ mab_world s).
Proof.
  intros HJ Hnext Hset Hup. eapply runs_bind; [apply runs_mstate|]. intros m _.
  eapply runs_bind; [apply Hnext|]. intros a Ha.
  eapply runs_bind; [apply (runs_modify_mab I J); intros m' Hm'; by apply (Hset m' a)|]. intros _ _.
  eapply runs_bind; [by apply runs_set_msrs|]. intros _ _. apply Hup.
Qed.

Lemma shape_exists b m : mab_shape n b m -> exists b, mab_shape n b m.
Proof. eauto. Qed.

Lemma runs_setup_arm_inv b b' next update :
  runs (mab_inv n b) next (fun a => 0 <= a < n) (mab_inv n b) ->
  runs (mab_inv n b) update (fun _ => True) (mab_inv n b') ->
  runs (mab_inv n b) (setup_arm next update) (fun _ => True) (mab_inv n b').
Proof.
  intros Hnext Hup. eapply (runs_setup_arm _ (mab_shape n b)); [apply shape_exists|done| |done].
  intros m a k Hm Ha. cbv beta in Ha. shape.
Qed.

Lemma runs_normalise_inv b : runs (mab_inv n b) normalise_rewards (fun _ => True) (mab_inv n b).
Proof. apply runs_normalise; [apply shape_exists|]. intros m x Hm. shape. Qed.

Lemma runs_setup_chosen log b :
  runs (mab_inv n b) (setup_chosen_arm log) (fun _ => True) (mab_inv n b).
Proof.
  eapply runs_bind; [apply runs_mstate|]. intros m Hm. apply runs_setup_arm_inv.
  - destruct (ms_next _ _ _ Hm) as [->| ->]; [apply runs_next_arm_max|apply runs_next_arm_potential].
  - destruct (ms_update _ _ _ Hm) as [->| ->]; [apply runs_update_increment|apply runs_update_discounted].
Qed.

Lemma runs_round_robin : runs (mab_inv n n) round_robin (fun _ => True) (mab_inv n n).
Proof.
  eapply runs_bind; [apply runs_mstate|]. intros m Hm. eapply runs_bind.
  { apply runs_if; [|by apply (runs_ret _ _ (fun _ => True))].
    eapply runs_bind; [apply runs_evaluate_arm; [apply shape_exists|]|intros _ _; by apply (runs_ret _ _ (fun _ => True))].
    intros i Hi. apply runs_get_reward. lia. }
  intros _ _. eapply runs_bind.
  { apply (runs_setup_arm_inv n (n + 1)); [|apply runs_update_rr; lia].
    apply runs_gets. intros s [[] _]. done. }
  intros _ _. intros s [Hs Hw]. apply wp_bind, wp_gets. rewrite (ms_arms _ _ _ Hs).
  destruct (Z.eqb_spec (rr_counter (mstate s)) n) as [Heq|Hne].
  - eapply (runs_modify_mab (mab_shape n (n + 1)) (mab_shape n n)); [|done]. intros m' Hm'. shape.
  - apply wp_ret. split; [done|]. split; [|done]. shape.
Qed.

(** *** The rolling standard deviation *)

Lemma window_pos b i w : window b i w -> 0 < w.
Proof. intros (l & _ & _ & ?). lia. Qed.

Lemma runs_replace_entry (I : ustate -> Prop) b i w x :
  window b i w -> runs I (replace_entry b i x) (fun old => zlen (snd old) = w) I.
Proof.
  intros (l & -> & Hl & Hi) s HI. destruct (aget_is_Some l i) as [y Hy]; [lia|].
  unfold wp, replace_entry. rewrite (bind_Ok _ _ s y s) by by apply read_Some.
  split; [|done]. cbn. by rewrite zlen_aset.
Qed.

(** The bandit while it follows the deviations, with windows of the given sizes. *)
Definition sd_shape (b wi ws : Z) (m : mab_state) : Prop :=
  mab_shape n b m /\ sd_active m /\ ipc_window_size m = wi /\ sd_window_size m = ws.

Lemma sd_shape_windows b wi ws m :
  sd_shape b wi ws m ->
  window (ipc_buffer m) (ipc_index m) wi /\ window (sd_buffer m) (sd_index m) ws.
Proof. intros ([] & Ha & <- & <-). by apply ms_sd0. Qed.

(** Replacing one or both of the windows of a bandit. *)
Lemma sd_shape_change b wi ws m m' :
  sd_shape b wi ws m ->
  window (ipc_buffer m') (ipc_index m') wi -> window (sd_buffer m') (sd_index m') ws ->
  num_arms m' = num_arms m -> arm m' = arm m -> rr_counter m' = rr_counter m ->
  num_threads m' = num_threads m -> norm_freq m' = norm_freq m -> algorithm m' = algorithm m ->
  next_arm_func m' = next_arm_func m -> update_func m' = update_func m ->
  dynamic_sd m' = dynamic_sd m -> ipc_window_size m' = ipc_window_size m ->
  sd_window_size m' = sd_window_size m -> sd_shape b wi ws m'.
Proof.
  intros ([] & Ha & Hwi & Hws) Hi Hs. intros. split; [split; try congruence|].
  - intros _. split; congruence.
  - unfold sd_active in *. split_and!; congruence.
Qed.

Ltac sd_change H := eapply sd_shape_change; [exact H|cbn|cbn|reflexivity..];
  destruct (sd_shape_windows _ _ _ _ H) as [(?l & ? & ? & ?) (?l' & ? & ? & ?)];
  unfold window; eauto.

Lemma runs_update_sd b wi ws x :
  runs (fun s => sd_shape b wi ws (mstate s) /\ mab_world s) (update_sd x) (fun _ => True)
       (fun s => sd_shape b wi ws (mstate s) /\ mab_world s).
Proof.
  eapply runs_bind; [apply runs_mstate|]. intros m Hm.
  destruct (sd_shape_windows _ _ _ _ Hm) as [Hwi Hws].
  eapply runs_bind; [by apply runs_replace_entry|]. intros old Hold.
  eapply runs_bind; [apply runs_modify_mab; intros m' Hm'; sd_change Hm'|]. intros _ _.
  destruct Hm as (_ & _ & _ & ->).
  eapply runs_bind; [apply runs_rem_u; by eapply window_pos|]. intros i Hi. cbv beta in Hi.
  eapply runs_bind; [apply runs_modify_mab; intros m' Hm'; sd_change Hm'|]. intros _ _.
  apply runs_if; apply runs_modify_mab; intros m' Hm'; sd_change Hm'.
Qed.

Lemma runs_update_and_fetch b wi ws x :
  runs (fun s => sd_shape b wi ws (mstate s) /\ mab_world s) (update_and_fetch_sd_mean x) (fun _ => True)
       (fun s => sd_shape b wi ws (mstate s) /\ mab_world s).
Proof.
  eapply runs_bind; [apply runs_mstate|]. intros m Hm.
  destruct (sd_shape_windows _ _ _ _ Hm) as [Hwi Hws].
  eapply runs_bind; [by apply runs_replace_entry|]. intros old Hold.
  eapply runs_bind; [apply runs_modify_mab; intros m' Hm'; sd_change Hm'|]. intros _ _.
  destruct Hm as (_ & _ & -> & _).
  eapply runs_bind; [apply runs_rem_u; by eapply window_pos|]. intros i Hi. cbv beta in Hi.
  eapply runs_bind; [apply runs_modify_mab; intros m' Hm'; sd_change Hm'|]. intros _ _.
  eapply runs_bind; [apply runs_if; [apply runs_update_sd|by apply (runs_ret _ _ (fun _ => True))]|].
  intros _ _. by apply runs_gets.
Qed.

Lemma runs_check_dynamic_sd b : runs (mab_inv n b) check_dynamic_sd (fun _ => True) (mab_inv n b).
Proof.
  intros s [Hs Hw]. unfold check_dynamic_sd. apply wp_bind, wp_gets.
  remember (mstate s) as m eqn:Hm.
  destruct ((dynamic_sd m =? ON) || (dynamic_sd m =? STEP)) eqn:Ha; [|apply wp_ret; subst m; by split].
  assert (Hact : sd_active m) by (apply orb_true_iff in Ha; rewrite !Z.eqb_eq in Ha; done).
  set (J := fun s => sd_shape b (ipc_window_size m) (sd_window_size m) (mstate s) /\ mab_world s).
  assert (HJ : J s) by (unfold J; rewrite <- Hm; by split_and!).
  assert (Hend : forall s, J s -> mab_inv n b s) by (intros s' [[] ?]; done).
  eapply wp_mono; [eapply (runs_bind J J J)| |done].
  - apply runs_measured_ipc.
  - intros ipc _. eapply (runs_bind J J J); [apply runs_update_and_fetch|]. intros mean _.
    eapply (runs_bind J J J _ _ (fun _ => True)); [by apply runs_gets|]. intros t _.
    assert (Hset : forall y, runs J (modify (fun s => s <| time_intervall := y |>) ;; mret 0) (fun _ => True) J).
    { intros y. eapply runs_bind; [|intros; by apply runs_ret]. apply runs_modify. intros s' [? []]. by split. }
    repeat apply runs_if; auto using runs_ret.
    all: by apply runs_ret.
  - done.
  - intros a s' [_ Hs']. split; [done|by apply Hend].
Qed.

(** *** The run *)

Lemma runs_mab_awake log : runs (mab_inv n n) (mab_awake log) (fun r => r = 0) (mab_inv n n).
Proof.
  eapply runs_bind; [apply runs_mstate|]. intros m Hm. rewrite (proj2 (Z.eqb_neq _ _) (ms_alg _ _ _ Hm)).
  eapply (runs_bind _ _ _ _ _ (fun _ => True)).
  { apply runs_normalise_due, shape_exists. }
  intros due _.
  eapply runs_bind; [apply runs_if; [apply runs_normalise_inv|by apply (runs_ret _ _ (fun _ => True))]|].
  intros _ _. eapply runs_bind; [apply runs_mstate|]. intros m' Hm'.
  eapply runs_bind; [|intros _ _; by apply runs_ret]. apply runs_if; [apply runs_round_robin|].
  apply runs_if.
  - eapply runs_bind; [apply runs_evaluate_arm; [apply shape_exists|]; intros; apply runs_get_reward; lia|]. intros _ _.
    eapply runs_bind; [apply runs_mstate|]. intros m2 _.
    eapply runs_bind; [apply runs_if; [apply runs_normalise_inv|by apply (runs_ret _ _ (fun _ => True))]|].
    intros _ _. eapply runs_bind; [apply runs_setup_chosen|]. intros _ _.
    apply runs_modify_mab. intros m3 Hm3. shape.
  - eapply runs_bind; [apply runs_evaluate_arm; [apply shape_exists|]; intros; apply runs_update_reward; lia|]. intros _ _.
    apply runs_setup_chosen.
Qed.

Lemma runs_mab log : runs (mab_inv n n) (mab log) (fun r => r = 0) (mab_inv n n).
Proof.
  eapply runs_bind; [apply runs_check_dynamic_sd|]. intros sleep _. apply runs_if; [|apply runs_mab_awake].
  eapply runs_bind; [apply (runs_setup_arm_inv n n)|intros _ _; by apply runs_ret].
  - apply runs_ret. lia.
  - by apply runs_ret.
Qed.
End invariant.

(** ** The greatest value *)

(** [value] reads a table and leaves the state alone. *)
Definition tabulated (value : Z -> T spec_float) (v : Z -> spec_float) (n : Z) (s : ustate) : Prop :=
  forall i, 0 <= i < n -> value i s = Ok (v i, s).

(** The least index among the greatest values, up to [n]. *)
Definition first_max (v : Z -> spec_float) (n a : Z) : Prop :=
  0 <= a < n /\
  (forall i, 0 <= i < n -> SFltb (v a) (v i) = false) /\
  (forall i, 0 <= i < a -> is_nan (v i) = false -> SFltb (v i) (v a) = true).

Lemma max_step_first v m a b :
  first_max v m a ->
  b = (if SFltb (v a) (v m) then m else a) -> first_max v (m + 1) b.
Proof.
  intros (Ha & Hmax & Hfst) ->. destruct (SFltb (v a) (v m)) eqn:Hlt; split_and!; try lia.
  - intros i Hi. destruct (decide (i = m)) as [->|]; [apply SFltb_irrefl|].
    apply (SFltb_le_lt _ (v a)); [apply Hmax; lia|done].
  - intros i Hi Hnan. apply (SFltb_lt_le _ (v a)); [apply Hmax; lia|done..].
  - intros i Hi. destruct (decide (i = m)) as [->|]; [done|]. apply Hmax; lia.
  - intros i Hi. apply Hfst. lia.
Qed.

Lemma max_index_spec value v n s :
  1 <= n -> tabulated value v n s ->
  exists a, max_index value n s = Ok (a, s) /\ first_max v n a.
Proof.
  intros Hn Hv. unfold max_index. rewrite (bind_Ok _ _ _ _ _ (Hv 0 ltac:(lia))).
  assert (H : forall k : nat, Z.of_nat k <= n - 1 ->
    exists a, fold_each (seqZ 1 (Z.of_nat k)) (0, v 0) (max_step value) s = Ok ((a, v a), s) /\
      first_max v (Z.of_nat k + 1) a).
  { induction k as [|k IH]; intros Hk.
    - exists 0. split; [done|]. split; [lia|]. split; [|lia].
      intros i Hi. replace i with 0 by lia. apply SFltb_irrefl.
    - destruct IH as (a & Hrun & Hmax); [lia|].
      set (m := Z.of_nat k + 1) in *.
      exists (if SFltb (v a) (v m) then m else a).
      split; [|replace (Z.of_nat (S k) + 1) with (m + 1) by lia; by eapply max_step_first].
      rewrite seqZ_S, fold_each_app, (bind_Ok _ _ _ _ _ Hrun). replace (1 + Z.of_nat k) with m by lia.
      cbn [fold_each]. rewrite (bind_Ok _ _ s (if SFltb (v a) (v m) then (m, v m) else (a, v a)) s).
      + by destruct (SFltb (v a) (v m)).
      + unfold max_step. rewrite (bind_Ok _ _ _ _ _ (Hv m ltac:(lia))). done. }
  destruct (H (Z.to_nat (n - 1))) as (a & Hrun & Hmax); [lia|].
  rewrite Z2Nat.id in * by lia. exists a. rewrite (bind_Ok _ _ _ _ _ Hrun).
  split; [done|]. by replace n with (n - 1 + 1) by lia.
Qed.

(** The entry of an array, where it has one. *)
Definition entry (l : list spec_float) (i : Z) : spec_float := default S754_nan (aget l i).

Lemma read_entry l i (s : ustate) : 0 <= i < zlen l -> read l i s = Ok (entry l i, s).
Proof. intros Hi. destruct (aget_is_Some l i Hi) as [x Hx]. unfold read, entry. by rewrite Hx. Qed.

Lemma reward_at_entry s i :
  mab_world s -> 0 <= i < MAX_ARMS -> reward_at i s = Ok (entry (rewards (arms s)) i, s).
Proof. intros Hw Hi. apply read_entry. by rewrite (mw_rewards s Hw). Qed.

Lemma num_at_entry s i :
  mab_world s -> 0 <= i < MAX_ARMS -> num_at i s = Ok (entry (nums (arms s)) i, s).
Proof. intros Hw Hi. apply read_entry. by rewrite (mw_nums s Hw). Qed.

(** ** Properties *)

(** A greedy choice (the draw is not below epsilon) is the first arm of
    maximal average reward: no arm has a greater reward, and every arm before
    it that has a reward at all has a smaller one.  Nothing but the draw is
    consumed. *)
Theorem greedy_choice_is_best s n b r rest :
  mab_inv n b s -> 1 <= n <= MAX_ARMS -> rands s = r :: rest ->
  SFltb (f32_div (f32_of_Z r) (f32_of_Z RAND_MAX)) (epsilon (mstate s)) = false ->
  exists a, next_arm_max s = Ok (a, s <| rands := rest |>) /\
    first_max (entry (rewards (arms s))) n a.
Proof.
  intros [Hs Hw] Hn Hr Hge. unfold next_arm_max. rewrite bind_gets, (ms_arms _ _ _ Hs).
  rewrite (bind_Ok _ _ _ _ _ (rand_Ok s r rest Hr)), Hge.
  destruct (max_index_spec reward_at (entry (rewards (arms s))) n (s <| rands := rest |>)) as (a & Ha & Hmax);
    [lia| |by exists a].
  intros i Hi. apply read_entry. cbn. rewrite (mw_rewards s Hw). lia.
Qed.

(** The potential of an arm, as [exploration_factor] computes it. *)
Definition potential (log_num_total : spec_float) (s : ustate) (i : Z) : spec_float :=
  to_f32 (f64_add (to_f64 (entry (rewards (arms s)) i))
    (f64_mul (to_f64 (mab_c (mstate s)))
      (f64_sqrt (to_f64 (f32_div log_num_total (entry (nums (arms s)) i)))))).

(** C28: the choice of UCB and DUCB is the first arm of maximal potential,
    whatever the C library computes for the logarithm, and it changes nothing. *)
Theorem ucb_choice_is_best log s n b :
  mab_inv n b s -> 1 <= n <= MAX_ARMS ->
  exists a, next_arm_potential log s = Ok (a, s) /\
    first_max (potential (to_f32 (log (to_f64 (num_total (mstate s))))) s) n a.
Proof.
  intros [Hs Hw] Hn. unfold next_arm_potential. rewrite bind_gets, (ms_arms _ _ _ Hs). cbv zeta.
  apply max_index_spec; [lia|]. intros i Hi. unfold exploration_factor.
  rewrite (bind_Ok _ _ _ _ _ (reward_at_entry s i Hw ltac:(lia))).
  rewrite bind_gets.
  rewrite (bind_Ok _ _ _ _ _ (num_at_entry s i Hw ltac:(lia))). done.
Qed.

(** The random strategy stays within the arms except for the largest
    draws: it answers [num_arms], one past the last arm, exactly when the draw
    is at least [num_arms * (RAND_MAX / num_arms)], which happens for every
    number of arms. *)
Theorem random_choice s r rest n :
  num_arms (mstate s) = n -> 1 <= n <= MAX_ARMS -> rands s = r :: rest -> 0 <= r <= RAND_MAX ->
  exists a, next_arm_random s = Ok (a, s <| rands := rest |>) /\ 0 <= a <= n /\
    (a = n <-> n * (RAND_MAX / n) <= r) /\ n * (RAND_MAX / n) <= RAND_MAX.
Proof.
  intros Hn Hrange Hr Hb. unfold next_arm_random.
  rewrite bind_gets, (bind_Ok _ _ _ _ _ (rand_Ok s r rest Hr)), Hn.
  rewrite (bind_Ok _ _ _ _ _ (div_u_Ok RAND_MAX n _ ltac:(lia))).
  unfold MAX_ARMS in Hrange. set (q := RAND_MAX / n).
  assert (Hq : RAND_MAX = n * q + RAND_MAX mod n) by (apply Z.div_mod; lia).
  pose proof (Z.mod_pos_bound RAND_MAX n ltac:(lia)) as Hm.
  assert (Hqn : n < q).
  { unfold q. apply Z.lt_le_trans with 2147483; [lia|]. change 2147483 with (RAND_MAX / 1000).
    apply Z.div_le_compat_l; [done|lia]. }
  rewrite div_u_Ok by lia. rewrite u64_small by (unfold RAND_MAX in Hb; lia).
  exists (r / q). split; [done|]. pose proof (Z.div_mod r q ltac:(lia)) as Hr'.
  pose proof (Z.mod_pos_bound r q ltac:(lia)) as Hrm. split_and!.
  - apply Z.div_pos; lia.
  - assert (r / q < n + 1) by (apply Z.div_lt_upper_bound; nia). lia.
  - split; [nia|]. intros Hle.
    assert (r / q < n + 1) by (apply Z.div_lt_upper_bound; nia).
    assert (n <= r / q) by (apply Z.div_le_lower_bound; nia). lia.
  - lia.
Qed.

(** ** Phases *)

(** One interval: the threads have stored new counts, [mab] runs. *)
Definition interval (log : spec_float -> spec_float) (input : list thread_state * list Z) : T unit :=
  modify (fun s => s <| gtinfo := fst input |> <| rands := snd input |>) ;;
  mab log ;;
  mret tt.

Definition play (log : spec_float -> spec_float) (inputs : list (list thread_state * list Z)) : T unit :=
  for_each inputs (interval log).

Definition input_ok (input : list thread_state * list Z) : Prop :=
  zlen (fst input) = MAX_THREADS /\ Forall (fun r => 0 <= r <= RAND_MAX) (snd input).

(** The part of the record that only [mab] itself writes. *)
Definition in_mode (q d : Z) (s : ustate) : Prop := mode (mstate s) = q /\ dynamic_sd (mstate s) = d.

Section phases.
Context (log : spec_float -> spec_float) (n : Z) (Hn : 1 <= n <= MAX_ARMS).

Lemma keep_mode q d f :
  (forall m, mode (f m) = mode m /\ dynamic_sd (f m) = dynamic_sd m) ->
  preserves (in_mode q d) (modify_mab f).
Proof.
  intros Hf. apply preserves_modify. intros s [Hq Hd]. destruct (Hf (mstate s)) as [Hm Hm'].
  split; cbn; congruence.
Qed.

Lemma keep_mode_world q d (f : ustate -> ustate) :
  (forall s, mstate (f s) = mstate s) -> preserves (in_mode q d) (modify f).
Proof. intros Hf. apply preserves_modify. intros s. unfold in_mode. by rewrite Hf. Qed.

Lemma keep_read {A} q d (f : ustate -> list A) i : preserves (in_mode q d) (fun s => read (f s) i s).
Proof. intros s Hs. unfold wp. destruct (read (f s) i s) as [[x s']|] eqn:Hr; [|done].
  unfold read in Hr. destruct (aget (f s) i); by simplify_eq. Qed.

Lemma keep_write {A} q d (l : ustate -> list A) i (f : ustate -> ustate) :
  (forall s, mstate (f s) = mstate s) ->
  preserves (in_mode q d) (fun s => (check_index (l s) i ;; modify f) s).
Proof.
  intros Hf s Hs. apply wp_bind. apply wp_check_index; [|done]. intros _. by apply keep_mode_world.
Qed.

Lemma keep_put_thread q d i t : preserves (in_mode q d) (put_thread i t).
Proof. intros s Hs. unfold wp, put_thread. by destruct (in_range _ _). Qed.

Lemma keep_rand q d : preserves (in_mode q d) rand.
Proof. by intros s Hs. Qed.
End phases.

#[local] Hint Extern 1 (preserves (in_mode _ _) (modify_mab _)) => apply keep_mode; by intros [] : preserve.
#[local] Hint Resolve keep_read keep_write keep_put_thread keep_rand : preserve.

Section phases.
Context (log : spec_float -> spec_float) (n : Z) (Hn : 1 <= n <= MAX_ARMS).

Lemma keep_reward_at q d i : preserves (in_mode q d) (reward_at i).
Proof. apply keep_read. Qed.

Lemma keep_num_at q d i : preserves (in_mode q d) (num_at i).
Proof. apply keep_read. Qed.

Lemma keep_ipc_at q d i : preserves (in_mode q d) (ipc_at i).
Proof. apply keep_read. Qed.

Lemma keep_thread_at q d i : preserves (in_mode q d) (thread_at i).
Proof. apply (keep_read q d gtinfo). Qed.

Lemma keep_set_reward q d i x : preserves (in_mode q d) (set_reward i x).
Proof. by apply keep_write. Qed.

Lemma keep_set_num q d i x : preserves (in_mode q d) (set_num i x).
Proof. by apply keep_write. Qed.

Lemma keep_set_ipc q d i x : preserves (in_mode q d) (set_ipc i x).
Proof. by apply keep_write. Qed.

#[local] Hint Resolve keep_reward_at keep_num_at keep_ipc_at keep_thread_at keep_set_reward keep_set_num
  keep_set_ipc : preserve.

Lemma keep_max_index q d value m :
  (forall i, preserves (in_mode q d) (value i)) -> preserves (in_mode q d) (max_index value m).
Proof. intros Hv. unfold max_index, max_step. preserve. Qed.

Lemma keep_setup_chosen q d : preserves (in_mode q d) (setup_chosen_arm log).
Proof.
  unfold setup_chosen_arm, setup_arm, call_next_arm, call_update, next_arm_max, next_arm_potential,
    next_arm_random, next_arm_rr, next_arm_default, set_msrs, update_selections_rr, update_selections_increment,
    update_selections_discounted, update_selections_none, count_arm.
  preserve; apply keep_max_index; intros; unfold exploration_factor; preserve.
Qed.

Lemma keep_evaluate q d f :
  (forall i, preserves (in_mode q d) (f i)) -> preserves (in_mode q d) (evaluate_arm f).
Proof. intros Hf. unfold evaluate_arm. preserve. Qed.

Lemma keep_get_reward q d i : preserves (in_mode q d) (get_reward i).
Proof. unfold get_reward, measured_ipc. preserve. Qed.

Lemma keep_update_reward q d i : preserves (in_mode q d) (update_reward i).
Proof. unfold update_reward. preserve. apply keep_get_reward. Qed.

Lemma keep_normalise q d : preserves (in_mode q d) normalise_rewards.
Proof. unfold normalise_rewards. preserve. Qed.

Lemma keep_normalise_due q d : preserves (in_mode q d) normalise_due.
Proof. unfold normalise_due, rem_u. preserve. Qed.

(** After the choice of the algorithm, a run is the normalisation that is due and
    the work of the mode. *)
Definition mode_work (q : Z) : T unit :=
  if q =? ROUND_ROBIN then round_robin else if q =? MAIN_LOOP_TRANSITION then transition log else main_loop log.

Lemma wp_mab_mode q d s (Q : Z -> ustate -> Prop) :
  algorithm (mstate s) <> RANDOM -> in_mode q d s ->
  (forall s1, in_mode q d s1 -> wp (mode_work q ;; mret 0) s1 Q any_stop) -> wp (mab_awake log) s Q any_stop.
Proof.
  intros Halg Hq Hwork. unfold mab_awake. apply wp_bind, wp_gets. rewrite (proj2 (Z.eqb_neq _ _) Halg).
  apply wp_bind. eapply wp_mono; [by apply keep_normalise_due| |done]. intros due s1 H1.
  apply wp_bind. eapply wp_mono; [apply (preserves_if (in_mode q d)); [apply keep_normalise|apply preserves_ret|done]| |done].
  intros [] s2 H2. apply wp_bind, wp_gets. destruct H2 as [Hm2 Hd2]. rewrite Hm2. by apply Hwork.
Qed.

Lemma mab_mode_main q d s :
  mab_inv n n s -> in_mode q d s -> q = MAIN_LOOP_TRANSITION \/ q = MAIN_LOOP ->
  wp (mab_awake log) s (fun _ => in_mode MAIN_LOOP d) any_stop.
Proof.
  intros [[] _] Hq Hcase. apply (wp_mab_mode q d); [done..|]. intros s1 H1.
  apply wp_bind. destruct Hcase as [->| ->]; unfold mode_work; cbn [Z.eqb].
  - apply (wp_mono _ _ (fun _ => in_mode MAIN_LOOP d) _ any_stop); [|done..]. unfold transition.
    apply wp_bind. eapply wp_mono; [apply keep_evaluate; [intros; apply keep_get_reward|exact H1]| |done].
    intros ? s2 H2. apply wp_bind, wp_gets. apply wp_bind.
    eapply wp_mono; [apply (preserves_if (in_mode MAIN_LOOP_TRANSITION d));
      [apply keep_normalise|apply preserves_ret|exact H2]| |done].
    intros ? s3 H3. apply wp_bind. eapply wp_mono; [apply (keep_setup_chosen MAIN_LOOP_TRANSITION d), H3| |done].
    intros ? s4 [_ H4]. apply wp_modify. split; [done|exact H4].
  - apply (wp_mono _ _ (fun _ => in_mode MAIN_LOOP d) _ any_stop); [|done..]. unfold main_loop.
    apply wp_bind. eapply wp_mono; [apply keep_evaluate; [intros; apply keep_update_reward|exact H1]| |done].
    intros ? s2 H2. apply (keep_setup_chosen MAIN_LOOP d), H2.
Qed.

(** The bandit about to play arm [k] of the round robin, and after it. *)
Definition rr_at (d k : Z) (m : mab_state) : Prop :=
  mab_shape n n m /\ mode m = ROUND_ROBIN /\ dynamic_sd m = d /\ rr_counter m = k.

Definition rr_after (d k : Z) (m : mab_state) : Prop :=
  mab_shape n n m /\ arm m = k /\ dynamic_sd m = d /\
  if k + 1 =? n then mode m = MAIN_LOOP_TRANSITION /\ rr_counter m = 0
  else mode m = ROUND_ROBIN /\ rr_counter m = k + 1.

Lemma rr_at_shape d k m : rr_at d k m -> exists b, mab_shape n b m.
Proof. intros [Hm _]. eauto. Qed.

Lemma runs_round_robin_at d k :
  0 <= k < n ->
  runs (fun s => rr_at d k (mstate s) /\ mab_world s) round_robin (fun _ => True)
       (fun s => rr_after d k (mstate s) /\ mab_world s).
Proof.
  intros Hk. set (I := rr_at d k).
  set (J := fun m => mab_shape n n m /\ mode m = ROUND_ROBIN /\ dynamic_sd m = d /\ rr_counter m = k /\ arm m = k).
  set (K := fun m => mab_shape n (n + 1) m /\ mode m = ROUND_ROBIN /\ dynamic_sd m = d /\
                     rr_counter m = k + 1 /\ arm m = k).
  eapply runs_bind; [apply runs_mstate|]. intros m0 Hm0. eapply runs_bind.
  { apply runs_if; [|by apply (runs_ret _ _ (fun _ => True))].
    eapply runs_bind; [apply (runs_evaluate_arm n); [done|apply rr_at_shape|]|
      intros _ _; by apply (runs_ret _ _ (fun _ => True))].
    intros i Hi. apply runs_get_reward. lia. }
  intros _ _. eapply runs_bind.
  { apply (runs_setup_arm n I J K (fun a => a = k)).
    - intros m [Hm _]. eauto.
    - apply runs_gets. by intros s [(_ & _ & _ & ?) _].
    - intros m a c (Hm & H1 & H2 & H3) ->. unfold J. cbn. split_and!; try done. shape.
    - eapply runs_bind; [apply (runs_gets _ _ (fun a => a = k)); by intros s [(_ & _ & _ & _ & ?) _]|].
      intros a ->. eapply runs_bind; [apply runs_set_num; lia|]. intros _ _.
      apply runs_modify_mab. intros m (Hm & H1 & H2 & H3 & H4). unfold K. cbn. unfold MAX_ARMS in Hn.
      rewrite H3, u64_small by lia. split_and!; try done. shape. rewrite H3, u64_small; lia. }
  intros _ _ s [(Hm & H1 & H2 & H3 & H4) Hw]. apply wp_bind, wp_gets.
  rewrite (ms_arms _ _ _ Hm), H3. unfold rr_after. destruct (Z.eqb_spec (k + 1) n) as [He|He].
  - apply wp_modify. split; [done|]. split; [|by destruct Hw; split]. split_and!; try done. shape.
  - apply wp_ret. split; [done|]. split; [|done]. split_and!; try done. shape.
Qed.

Lemma runs_awake_rr d k :
  0 <= k < n ->
  runs (fun s => rr_at d k (mstate s) /\ mab_world s) (mab_awake log) (fun r => r = 0)
       (fun s => rr_after d k (mstate s) /\ mab_world s).
Proof.
  intros Hk. eapply runs_bind; [apply runs_mstate|]. intros m0 [Hm0 _]. rewrite (proj2 (Z.eqb_neq _ _) (ms_alg _ _ _ Hm0)).
  eapply runs_bind; [apply (runs_normalise_due n), rr_at_shape|]. intros due _.
  eapply runs_bind; [apply runs_if; [apply (runs_normalise n); [done|apply rr_at_shape|]|
    by apply (runs_ret _ _ (fun _ => True))]|].
  { intros m x (Hm & H1 & H2 & H3). unfold rr_at. cbn. split_and!; try done. shape. }
  intros _ _. eapply runs_bind; [apply runs_mstate|]. intros m (_ & -> & _ & _). cbn [Z.eqb].
  eapply runs_bind; [by apply runs_round_robin_at|]. intros _ _. by apply runs_ret.
Qed.

(** New counts do not touch the bandit's record. *)
Lemma interval_input input s :
  input_ok input -> mab_world s -> mab_world (s <| gtinfo := fst input |> <| rands := snd input |>).
Proof. intros [Hg Hr] []. by split. Qed.

Lemma runs_interval (I J : mab_state -> Prop) input :
  input_ok input ->
  runs (fun s => I (mstate s) /\ mab_world s) (mab log) (fun r => r = 0) (fun s => J (mstate s) /\ mab_world s) ->
  runs (fun s => I (mstate s) /\ mab_world s) (interval log input) (fun _ => True)
       (fun s => J (mstate s) /\ mab_world s).
Proof.
  intros Hin Hrun.
  eapply runs_bind; [apply (runs_modify _ (fun s => I (mstate s) /\ mab_world s))|intros _ _].
  - intros s [HI Hw]. split; [done|]. by apply interval_input.
  - eapply runs_bind; [exact Hrun|]. intros r _. by apply runs_ret.
Qed.

(** Where the bandit is after [j] runs without a pause. *)
Definition mode_at (j : Z) : Z :=
  if j <? n then ROUND_ROBIN else if j =? n then MAIN_LOOP_TRANSITION else MAIN_LOOP.

Definition progress (d j : Z) (m : mab_state) : Prop :=
  mab_shape n n m /\ dynamic_sd m = d /\ mode m = mode_at j /\ (j < n -> rr_counter m = j).

Lemma runs_awake_progress d j :
  0 <= j ->
  runs (fun s => progress d j (mstate s) /\ mab_world s) (mab_awake log) (fun r => r = 0)
       (fun s => (progress d (j + 1) (mstate s) /\ (j < n -> arm (mstate s) = j)) /\ mab_world s).
Proof.
  intros Hj. unfold progress, mode_at. destruct (Z.ltb_spec j n) as [Hlt|Hge].
  - eapply runs_weaken; [apply (runs_awake_rr d j); lia| |done|].
    + intros s [(Hm & Hd & Hq & Hrr) Hw]. split; [|done]. split_and!; auto.
    + intros s [(Hm & Ha & Hd & Hp) Hw]. split; [|done]. split; [|done]. split_and!; try done.
      * destruct (Z.ltb_spec (j + 1) n), (Z.eqb_spec (j + 1) n); try lia; tauto.
      * intros Hlt'. destruct (Z.eqb_spec (j + 1) n); [lia|tauto].
  - intros s [(Hm & Hd & Hq & _) Hw].
    eapply wp_mono; [apply wp_conj; [eapply (mab_mode_main (mode (mstate s)) d); [by split|by split|]|
      by apply (runs_mab_awake n Hn log)]| |done].
    + rewrite Hq. destruct (j =? n); auto.
    + intros r s' ([H1 H2] & -> & [H3 H4]). split; [done|]. split; [|done]. split; [|lia].
      destruct (Z.ltb_spec (j + 1) n), (Z.eqb_spec (j + 1) n); try lia. split_and!; try done. lia.
Qed.

(** A pause plays arm 0 and leaves the rest of the record alone. *)
Lemma runs_pause_progress d j :
  runs (fun s => progress d j (mstate s) /\ mab_world s) (setup_arm next_arm_default update_selections_none ;; mret 0) (fun r => r = 0)
       (fun s => (progress d j (mstate s) /\ arm (mstate s) = 0) /\ mab_world s).
Proof.
  eapply runs_bind; [|intros _ _; by apply runs_ret].
  apply (runs_setup_arm n (progress d j) (fun m => progress d j m /\ arm m = 0) (fun m => progress d j m /\ arm m = 0) (fun a => a = 0)).
  - intros m [[Hm _] _]. eauto.
  - by apply runs_ret.
  - intros m a k (Hm & H1 & H2 & H3) ->. split; [|done]. split_and!; try done. shape.
  - by apply runs_ret.
Qed.

(** The filter changes its own buffers only. *)
Lemma keep_check_dynamic_sd c :
  preserves (fun s => (mode (mstate s), dynamic_sd (mstate s), rr_counter (mstate s)) = c) check_dynamic_sd.
Proof.
  assert (Hmab : forall f, (forall m, (mode (f m), dynamic_sd (f m), rr_counter (f m)) = (mode m, dynamic_sd m, rr_counter m)) ->
    preserves (fun s => (mode (mstate s), dynamic_sd (mstate s), rr_counter (mstate s)) = c) (modify_mab f)).
  { intros f Hf. apply preserves_modify. intros s <-. apply Hf. }
  unfold check_dynamic_sd, measured_ipc, update_and_fetch_sd_mean, update_sd, replace_entry, rem_u. cbv zeta.
  preserve; try (by apply Hmab; intros []); try by apply preserves_modify.
  intros s Hs. unfold wp, thread_at, read. by destruct (aget (gtinfo s) 1).
Qed.

Lemma runs_check_progress d j :
  runs (fun s => progress d j (mstate s) /\ mab_world s) check_dynamic_sd (fun _ => True)
       (fun s => progress d j (mstate s) /\ mab_world s).
Proof.
  intros s [(Hm & Hd & Hq & Hrr) Hw].
  eapply wp_mono; [apply wp_conj; [exact (keep_check_dynamic_sd _ s eq_refl)|by apply (runs_check_dynamic_sd n n)]| |done].
  intros r s' ([= H1 H2 H3] & _ & [Hm' Hw']). split; [done|]. split; [|done]. unfold progress. rewrite H1, H2, H3. done.
Qed.

(** Whether the filter asks for a pause in the interval with the given input. *)
Definition asleep (input : list thread_state * list Z) (s : ustate) : bool :=
  match check_dynamic_sd (s <| gtinfo := fst input |> <| rands := snd input |>) with
  | Ok (r, _) => negb (r =? 0)
  | Stop _ => false
  end.

(** The number of intervals without a pause. *)
Fixpoint awake (inputs : list (list thread_state * list Z)) (s : ustate) : Z :=
  match inputs with
  | [] => 0
  | input :: inputs' =>
      match interval log input s with
      | Ok (_, s') => (if asleep input s then 0 else 1) + awake inputs' s'
      | Stop _ => 0
      end
  end.

(** Only the filter that is on pauses. *)
Lemma asleep_off input s : dynamic_sd (mstate s) <> ON -> asleep input s = false.
Proof.
  intros Hd. unfold asleep. set (s0 := s <| gtinfo := _ |> <| rands := _ |>).
  assert (Hwp : wp check_dynamic_sd s0 (fun r _ => r = 0) any_stop).
  { unfold check_dynamic_sd. apply wp_bind, wp_gets. change (dynamic_sd (mstate s0)) with (dynamic_sd (mstate s)).
    rewrite (proj2 (Z.eqb_neq _ _) Hd). destruct (_ || _); [|done].
    apply wp_bind_any. intros ipc s1. apply wp_bind_any. intros mean s2. apply wp_bind, wp_gets.
    repeat case_match; done || (apply wp_bind_any; by intros). }
  unfold wp in Hwp. destruct (check_dynamic_sd s0) as [[r s1]|]; [by rewrite Hwp|done].
Qed.

(** An interval of a bandit after [j] runs without a pause. *)
Lemma interval_progress d j input s :
  0 <= j -> input_ok input -> progress d j (mstate s) -> mab_world s ->
  exists s', interval log input s = Ok (tt, s') /\ mab_world s' /\
    if asleep input s then progress d j (mstate s') /\ arm (mstate s') = 0
    else progress d (j + 1) (mstate s') /\ (j < n -> arm (mstate s') = j).
Proof.
  intros Hj Hin Hp Hw. unfold interval, asleep. rewrite bind_modify. set (s0 := s <| gtinfo := _ |> <| rands := _ |>).
  destruct (runs_Ok _ _ _ _ s0 (runs_check_progress d j)) as (r & s1 & Hc & _ & Hs1); [split; [exact Hp|by apply interval_input]|].
  rewrite Hc. unfold mab. destruct (negb (r =? 0)) eqn:Hr.
  - destruct (runs_Ok _ _ _ _ s1 (runs_pause_progress d j) Hs1) as (x & s2 & Hrun & _ & Hs2 & Hw2).
    exists s2. split; [|done]. erewrite bind_Ok; [reflexivity|]. rewrite (bind_Ok _ _ _ _ _ Hc), Hr. exact Hrun.
  - destruct (runs_Ok _ _ _ _ s1 (runs_awake_progress d j Hj) Hs1) as (x & s2 & Hrun & _ & Hs2 & Hw2).
    exists s2. split; [|done]. erewrite bind_Ok; [reflexivity|]. rewrite (bind_Ok _ _ _ _ _ Hc), Hr. exact Hrun.
Qed.

Lemma awake_nonneg inputs s : 0 <= awake inputs s.
Proof.
  revert s. induction inputs as [|input inputs IH]; intros s; cbn [awake]; [done|].
  destruct (interval log input s) as [[[] s']|]; [|done]. specialize (IH s'). destruct (asleep input s); lia.
Qed.

Lemma play_progress d j inputs s :
  0 <= j -> Forall input_ok inputs -> progress d j (mstate s) -> mab_world s ->
  exists s', play log inputs s = Ok (tt, s') /\ mab_world s' /\ progress d (j + awake inputs s) (mstate s') /\
    (d <> ON -> awake inputs s = zlen inputs).
Proof.
  intros Hj Hin. revert j s Hj. induction Hin as [|input inputs Hi _ IH]; intros j s Hj Hp Hw.
  { exists s. cbn [awake]. by rewrite Z.add_0_r. }
  destruct (interval_progress d j input s Hj Hi Hp Hw) as (s1 & Hrun & Hw1 & Hs1). cbn [awake]. rewrite Hrun.
  unfold play. cbn [for_each]. rewrite (bind_Ok _ _ _ _ _ Hrun). fold (play log inputs).
  assert (Hlen : zlen (input :: inputs) = 1 + zlen inputs) by (unfold zlen; cbn; lia).
  destruct (asleep input s) eqn:Ha; destruct Hs1 as [Hp1 _].
  - destruct (IH j s1 Hj Hp1 Hw1) as (s' & Hs' & Hw' & Hp' & _). exists s'. rewrite Z.add_0_l. split_and!; try done.
    intros Hd. rewrite asleep_off in Ha; [done|]. by destruct Hp as (_ & -> & _).
  - destruct (IH (j + 1) s1 ltac:(lia) Hp1 Hw1) as (s' & Hs' & Hw' & Hp' & Hz). exists s'.
    rewrite Z.add_assoc. split_and!; try done. intros Hd. rewrite (Hz Hd). lia.
Qed.

End phases.

(** A fresh bandit with two arms on two cores, epsilon-greedy. *)
Definition bandit_state : ustate :=
  ustate0 0 1 <| mstate := mab_zero <| num_arms := 2 |> <| num_threads := 2 |> <| norm_freq := 1000 |>
    <| next_arm_func := Some next_arm_max_ |> <| update_func := Some update_increment_ |>
    <| avg_reward := one |> |>.

Lemma bandit_state_inv : mab_inv 2 2 bandit_state.
Proof.
  split; split; try (cbn; lia); try done; try reflexivity; try by left. by intros [|].
Qed.

Lemma greedy_choice_is_best_witness :
  let s := bandit_state <| rands := [7] |> in
  exists a, next_arm_max s = Ok (a, s <| rands := [] |>) /\ first_max (entry (rewards (arms s))) 2 a.
Proof.
  intros s. apply (greedy_choice_is_best s 2 2 7 []).
  - destruct bandit_state_inv as [Hs []]. split; [exact Hs|split; try assumption].
    repeat constructor; cbn; unfold RAND_MAX; lia.
  - unfold MAX_ARMS. lia.
  - reflexivity.
  - vm_compute. reflexivity.
Defined.

Lemma ucb_choice_is_best_witness :
  exists a, next_arm_potential (fun x => x) bandit_state = Ok (a, bandit_state) /\
    first_max (potential (to_f32 (to_f64 (num_total (mstate bandit_state)))) bandit_state) 2 a.
Proof.
  apply (ucb_choice_is_best (fun x => x) bandit_state 2 2); [apply bandit_state_inv|unfold MAX_ARMS; lia].
Defined.

Lemma random_choice_witness :
  exists s', next_arm_random (bandit_state <| rands := [RAND_MAX] |>) = Ok (2, s').
Proof.
  destruct (random_choice (bandit_state <| rands := [RAND_MAX] |>) RAND_MAX [] 2) as (a & Ha & _ & [_ Heq] & Hle).
  - reflexivity.
  - unfold MAX_ARMS. lia.
  - reflexivity.
  - unfold RAND_MAX. lia.
  - rewrite (Heq Hle) in Ha. eexists. exact Ha.
Defined.


(** *** Without a second core *)

Lemma nan_div x : f32_div S754_nan x = S754_nan.
Proof. by destruct x as [| | |]. Qed.

Lemma nan_add x : f32_add x S754_nan = S754_nan.
Proof. by destruct x as [| | |]. Qed.

(** The reward is measured on the second entry of [gtinfo].  When no thread runs
    there, its counts stay 0, and the evaluation of an arm in the main loop
    replaces the arm's average reward by NaN, whatever it was. *)
Theorem reward_without_second_core s n b t :
  mab_inv n b s -> 1 <= n <= MAX_ARMS -> aget (gtinfo s) 1 = Some t ->
  instructions_retired t = 0 -> cpu_cycles t = 0 ->
  exists s', evaluate_arm update_reward s = Ok (arm (mstate s), s') /\
    aget (rewards (arms s')) (arm (mstate s)) = Some S754_nan.
Proof.
  intros [Hs Hw] Hn Ht Hi Hc. pose proof (ms_arm _ _ _ Hs) as Ha.
  assert (Hr : exists s1, get_reward (arm (mstate s)) s = Ok (S754_nan, s1) /\ mab_world s1 /\
    mstate s1 = mstate s).
  { unfold get_reward, measured_ipc. rewrite (bind_Ok _ _ s S754_nan s).
    - rewrite bind_gets, orb_true_r. unfold set_ipc. eexists. split; [|split].
      + rewrite (bind_Ok _ _ s tt (s <| arms ::= fun a => a <| ipcs ::= fun l => aset l (arm (mstate s)) S754_nan |> |>));
          [reflexivity|].
        rewrite (bind_Ok _ _ s tt s); [done|]. apply check_index_Ok. rewrite (mw_ipcs s Hw). lia.
      + destruct Hw. split; cbn; by rewrite ?zlen_aset.
      + done.
    - rewrite (bind_Ok _ _ s t s) by by apply thread_at_Some. by rewrite Hi, Hc. }
  destruct Hr as (s1 & Hr & Hw1 & Hm1). unfold evaluate_arm. rewrite bind_gets.
  rewrite (bind_Ok _ _ s S754_nan s1).
  - unfold set_reward. eexists. split.
    + rewrite (bind_Ok _ _ s1 tt (s1 <| arms ::= fun a => a <| rewards ::= fun l => aset l (arm (mstate s)) S754_nan |> |>));
        [reflexivity|].
      rewrite (bind_Ok _ _ s1 tt s1); [done|]. apply check_index_Ok. rewrite (mw_rewards s1 Hw1). lia.
    + cbn. apply aget_aset_eq. rewrite (mw_rewards s1 Hw1). lia.
  - unfold update_reward. rewrite (bind_Ok _ _ _ _ _ Hr), bind_gets. cbv zeta.
    rewrite nan_div, (bind_Ok _ _ _ _ _ (reward_at_entry s1 (arm (mstate s)) Hw1 ltac:(lia))).
    rewrite (bind_Ok _ _ _ _ _ (num_at_entry s1 (arm (mstate s)) Hw1 ltac:(lia))). by rewrite nan_add, nan_div.
Qed.
