(* ===== verification/MabSetup.v ===== *)
(** * Set-up of the bandit ([tuners/mab_setup.c])

    Reads [mab_config.json], fills the record of the bandit, builds the tables
    of its arms and chooses its strategies.  The JSON parser is a library
    outside the program: [parse] stands for [cJSON_Parse] followed by
    [cJSON_GetObjectItemCaseSensitive], and the theorems hold for any. *)

From S2P Require Import Prelude Floats Bitfields Msr MsrDev PmuDdr UState Mab.

(** ** Configuration file *)

(** What [read_file] sees: the file's length and the bytes that can be read. *)
Record file := { file_length : Z; file_bytes : list Z }.

Definition read_file (f : option file) : option (list Z) :=
  match f with
  | None => None
  | Some f => if zlen (file_bytes f) <? file_length f then None else Some (take (Z.to_nat (file_length f)) (file_bytes f))
  end.

(** The fields of a [cJSON] item that the program looks at. *)
Inductive item : Type :=
  | JString (valuestring : option string)
  | JNumber (valueint : Z) (valuedouble : spec_float)
  | JOther.

Definition map_algorithm_to_enum (algorithm : string) : Z :=
  if bool_decide (algorithm = "E_GREEDY") then E_GREEDY
  else if bool_decide (algorithm = "UCB") then UCB
  else if bool_decide (algorithm = "DUCB") then DUCB
  else if bool_decide (algorithm = "RANDOM") then RANDOM
  else -1.

(** [if (cJSON_IsNumber(it) && cond) assign]. *)
Definition when_int (it : option item) (cond : Z -> bool) (assign : Z -> mab_state -> mab_state) : T unit :=
  match it with
  | Some (JNumber i _) => if cond i then modify_mab (assign i) else mret tt
  | _ => mret tt
  end.

Definition when_double (it : option item) (cond : spec_float -> bool) (assign : spec_float -> mab_state -> mab_state) : T unit :=
  match it with
  | Some (JNumber _ x) => if cond x then modify_mab (assign x) else mret tt
  | _ => mret tt
  end.

Definition f64_zero : spec_float := S754_zero false.

Definition unit_interval (x : spec_float) : bool := SFleb f64_zero x && SFleb x (f64_of_Z 1).

(** The fields, in the order in which the function takes them. *)
Definition setup_algorithm (it : option item) : T unit :=
  match it with
  | Some (JString (Some a)) =>
      modify_mab (fun m => m <| algorithm := map_algorithm_to_enum a |>) ;;
      if map_algorithm_to_enum a =? -1 then stop_with (ExitWith (-1)) else mret tt
  | _ => mret tt
  end.

Definition setup_arm_configuration (it : option item) : T unit :=
  match it with
  | Some (JNumber i _) =>
      if (0 <=? i) && (i <=? 5) then modify_mab (fun m => m <| arm_configuration := i |>)
      else stop_with (ExitWith (-1))
  | _ => stop_with (ExitWith (-1))
  end.

Definition setup_rest (get : string -> option item) : T unit :=
  when_int (get "norm_freq") (Z.ltb 0) (fun i m => m <| norm_freq := i |>) ;;
  when_double (get "epsilon") unit_interval (fun x m => m <| epsilon := to_f32 x |>) ;;
  when_double (get "gamma") unit_interval (fun x m => m <| gamma := to_f32 x |>) ;;
  when_double (get "c") (SFltb f64_zero) (fun x m => m <| mab_c := to_f32 x |>) ;;
  when_int (get "normalisation") (Z.leb 0) (fun i m => m <| normalise := i |>) ;;
  when_int (get "dynamic_sd") (Z.leb 0) (fun i m => m <| dynamic_sd := i |>) ;;
  when_int (get "ipc_window_size") (Z.leb 0) (fun i m => m <| ipc_window_size := i |>) ;;
  when_int (get "sd_window_size") (Z.leb 0) (fun i m => m <| sd_window_size := i |>) ;;
  when_double (get "sd_mean_threshold") (SFleb f64_zero) (fun x m => m <| sd_mean_threshold := to_f32 x |>).

Definition setup_fields (get : string -> option item) : T unit :=
  setup_algorithm (get "algorithm") ;;
  setup_arm_configuration (get "arm_configuration") ;;
  setup_rest get.

Definition setup_mab_state_from_json (parse : list Z -> option (string -> option item)) (f : option file) : T unit :=
  match read_file f with
  | None => stop_with (ExitWith (-1))
  | Some data =>
      match parse data with
      | None => stop_with (ExitWith (-1))
      | Some get => setup_fields get
      end
  end.

(** ** Arms *)

Definition populate_msr_u (msr : list Z) : list Z :=
  populate_msr1323 (populate_msr1322 (populate_msr1321 (populate_msr1320 msr))).

(** A change of [arms->hwpf_msr_values[i]]. *)
Definition on_table (i : Z) (f : list Z -> list Z) : T unit := fun s =>
  (t ← read (hwpf_msr_values (arms s)) i;
   modify (fun s => s <| arms ::= fun a => a <| hwpf_msr_values ::= fun l => aset l i (f t) |> |>)) s.

(** The settings of arm [i] in the five configurations. *)
Definition arm_16 (i : Z) (t : list Z) : list Z :=
  let mlc_disable := b2z (0 <? Z.land i 0x1) in
  let amp_disable := b2z (0 <? Z.land i 0x2) in
  let llcoff := b2z (0 <? Z.land i 0x4) in
  let nlpoff := b2z (0 <? Z.land i 0x8) in
  msr_set_nlpoff (msr_set_llcoff (msr_set_amp_disable (msr_set_mlc_disable t mlc_disable) amp_disable) llcoff) nlpoff.

Definition create_16_arms : T unit := for_each (seqZ 0 16) (fun i => on_table i (arm_16 i)).

Definition arm_4 (i : Z) (t : list Z) : list Z :=
  let mlc_disable := b2z (0 <? Z.land i 0x1) in
  let amp_disable := b2z (0 <? Z.land i 0x2) in
  msr_set_amp_disable (msr_set_mlc_disable t mlc_disable) amp_disable.

Definition create_4_arms : T unit := for_each (seqZ 0 4) (fun i => on_table i (arm_4 i)).

Definition create_2_arms : T unit := for_each (seqZ 0 2) (fun i => on_table i (fun t => msr_set_mlc_disable t i)).

(** The parameter values of the last two configurations, then the arm without MLC. *)
Definition create_combos (set : list Z -> Z -> list Z) (parameter_values : list Z) : T unit :=
  for_each (seqZ 0 (zlen parameter_values)) (fun i =>
    value ← read parameter_values i;
    on_table i (fun t => set t value)) ;;
  on_table (zlen parameter_values) (fun t => msr_set_mlc_disable t 1).

Definition l2dd_values : list Z := [0; 16; 64; 255].

Definition create_5_combos_l2dd : T unit := create_combos msr_set_l2dd l2dd_values.

Definition l2xq_values : list Z := [0; 4; 8; 16; 31].

Definition create_6_combos_l2xq : T unit := create_combos msr_set_l2xq l2xq_values.

Definition set_num_arms (n : Z) : T unit := modify_mab (fun m => m <| num_arms := n |>).

Definition create_switch (arm_configuration : Z) : T unit :=
  match arm_configuration with
  | 0 => create_16_arms ;; set_num_arms 16
  | 1 => create_4_arms ;; set_num_arms 4
  | 2 => create_5_combos_l2dd ;; set_num_arms 5
  | 3 => create_6_combos_l2xq ;; set_num_arms 6
  | 4 => create_2_arms ;; set_num_arms 2
  | _ => stop_with (ExitWith (-1))
  end.

Definition init_arm (i : Z) : T unit :=
  on_table i populate_msr_u ;;
  set_reward i f32_zero ;;
  set_num i f32_zero ;;
  set_ipc i one.

Definition create_arms : T unit :=
  m ← gets mstate;
  create_switch (arm_configuration m) ;;
  m ← gets mstate;
  for_each (seqZ 0 (num_arms m)) init_arm.

(** ** Strategies, buffers, initialisation *)

Definition init_mab_strategies : T unit :=
  m ← gets mstate;
  if algorithm m =? E_GREEDY then
    modify_mab (fun m => m <| next_arm_func := Some next_arm_max_ |> <| update_func := Some update_increment_ |>)
  else if algorithm m =? UCB then
    modify_mab (fun m => m <| next_arm_func := Some next_arm_potential_ |> <| update_func := Some update_increment_ |>)
  else if algorithm m =? DUCB then
    modify_mab (fun m => m <| next_arm_func := Some next_arm_potential_ |> <| update_func := Some update_discounted_ |>)
  else mret tt.

(** [calloc_ipc] and [calloc_sd]: whether the allocations succeed. *)
Definition allocate_buffers (calloc_ipc calloc_sd : bool) (ipc_window_size sd_window_size : Z) : T unit :=
  let zeros n := replicate (Z.to_nat n) f32_zero in
  let ipc := if calloc_ipc then Some (zeros ipc_window_size) else None in
  let sd := if calloc_sd then Some (zeros sd_window_size) else None in
  modify_mab (fun m => m <| ipc_buffer := ipc |> <| sd_buffer := sd |>) ;;
  if negb calloc_ipc || negb calloc_sd then stop_with (ExitWith 1) else
  modify_mab (fun m => m <| ipc_index := 0 |> <| sd_index := 0 |> <| current_ipc_mean := f32_zero |>
    <| current_ipc_M2 := f32_zero |> <| ipc_n := 0 |> <| current_sd_mean := f32_zero |> <| sd_n := 0 |>).

(** The values before the configuration is read. *)
Definition mab_defaults (active_threads : Z) (m : mab_state) : mab_state :=
  m <| num_total := f32_zero |> <| arm := 0 |> <| num_threads := active_threads |> <| rr_counter := 0 |>
    <| normalise := ONCE |> <| avg_reward := one |> <| iterations := 0 |> <| dynamic_sd := OFF |>
    <| norm_freq := 1000 |> <| sd_mean_threshold := f32_zero |>
    <| sd_mean_min_threshold := to_f32 (literal 3 10) |>.

Definition mab_init (parse : list Z -> option (string -> option item)) (f : option file)
    (calloc_ipc calloc_sd : bool) (active_threads : Z) : T unit :=
  modify_mab (mab_defaults active_threads) ;;
  setup_mab_state_from_json parse f ;;
  m ← gets mstate;
  (if (dynamic_sd m =? ON) || (dynamic_sd m =? STEP) then
     allocate_buffers calloc_ipc calloc_sd (ipc_window_size m) (sd_window_size m)
   else mret tt) ;;
  init_mab_strategies ;;
  create_arms.

(** ** What [create_arms] makes of the tables *)

Definition tables (s : ustate) : list (list Z) := hwpf_msr_values (arms s).

Lemma on_table_run i f s t :
  aget (tables s) i = Some t ->
  on_table i f s = Ok (tt, s <| arms ::= fun a => a <| hwpf_msr_values ::= fun l => aset l i (f t) |> |>).
Proof. intros Ht. unfold on_table. by rewrite (bind_Ok _ _ s t s) by by apply read_Some. Qed.

(** The tables [l], of which those before [k] have been replaced by [g]. *)
Definition replaced (g : Z -> list Z -> list Z) (l l' : list (list Z)) (k : Z) : Prop :=
  forall i t, aget l i = Some t -> aget l' i = Some (if i <? k then g i t else t).

Lemma replaced_next g l l' k t :
  aget l k = Some t -> replaced g l l' k -> replaced g l (aset l' k (g k t)) (k + 1).
Proof.
  intros Hk Hr i u Hi. pose proof (aget_Some_range _ _ _ (Hr k t Hk)) as Hlen.
  destruct (decide (i = k)) as [->|Hne].
  - rewrite aget_aset_eq by done. rewrite Hk in Hi. simplify_eq. by rewrite (proj2 (Z.ltb_lt k (k + 1))) by lia.
  - rewrite aget_aset_ne by done. rewrite (Hr i u Hi).
    destruct (Z.ltb_spec i k), (Z.ltb_spec i (k + 1)); done || lia.
Qed.

(** A loop whose body replaces the table of its index. *)
Lemma for_tables (g : Z -> list Z -> list Z) (body : Z -> T unit) (I : mab_state -> Prop) l n :
  (forall i t, 0 <= i < Z.of_nat n -> aget l i = Some t ->
    runs (fun s => (I (mstate s) /\ mab_world s) /\ replaced g l (tables s) i) (body i) (fun _ => True)
         (fun s => (I (mstate s) /\ mab_world s) /\ replaced g l (tables s) (i + 1))) ->
  Z.of_nat n <= zlen l ->
  runs (fun s => (I (mstate s) /\ mab_world s) /\ tables s = l) (for_each (seqZ 0 (Z.of_nat n)) body) (fun _ => True)
       (fun s => (I (mstate s) /\ mab_world s) /\ replaced g l (tables s) (Z.of_nat n)).
Proof.
  induction n as [|n IH]; intros Hb Hn.
  - cbn. intros s [Hs Hl]. apply wp_ret. split; [done|]. split; [done|]. intros i t Hi. rewrite Hl.
    pose proof (aget_Some_range _ _ _ Hi). by destruct (Z.ltb_spec i (Z.of_nat 0)); [lia|].
  - rewrite seqZ_S. intros s Hs. unfold wp. rewrite for_each_app. revert s Hs.
    change (runs (fun s => (I (mstate s) /\ mab_world s) /\ tables s = l)
      (for_each (seqZ 0 (Z.of_nat n)) body ;; for_each [0 + Z.of_nat n] body) (fun _ => True)
      (fun s => (I (mstate s) /\ mab_world s) /\ replaced g l (tables s) (Z.of_nat (S n)))).
    eapply runs_bind; [apply IH; [intros i u Hi Hu; apply (Hb i u); [lia|done]|lia]|]. intros _ _. cbn [for_each].
    destruct (aget_is_Some l (Z.of_nat n)) as [t Ht]; [lia|].
    eapply runs_bind; [apply (Hb (Z.of_nat n) t); [lia|done]|]. intros _ _.
    replace (Z.of_nat (S n)) with (Z.of_nat n + 1) by lia. by apply runs_ret.
Qed.

(** Any write to a table keeps the rest of the state. *)
Lemma runs_on_table (g : Z -> list Z -> list Z) (I : mab_state -> Prop) l i t f :
  aget l i = Some t -> f t = g i t ->
  runs (fun s => (I (mstate s) /\ mab_world s) /\ replaced g l (tables s) i) (on_table i f) (fun _ => True)
       (fun s => (I (mstate s) /\ mab_world s) /\ replaced g l (tables s) (i + 1)).
Proof.
  intros Ht Hf s [[HI Hw] Hr]. pose proof (Hr i t Ht) as Hi. rewrite Z.ltb_irrefl in Hi.
  unfold wp. rewrite (on_table_run i f s t) by done. split; [done|]. split.
  - split; [done|]. destruct Hw. split; cbn; by rewrite ?zlen_aset.
  - change (replaced g l (aset (tables s) i (f t)) (i + 1)). rewrite Hf. by apply replaced_next.
Qed.

Lemma runs_preserves {A} (I J K : ustate -> Prop) (m : T A) P :
  runs I m P J -> preserves K m -> runs (fun s => I s /\ K s) m P (fun s => J s /\ K s).
Proof.
  intros Hm HK s [HI Hs]. eapply wp_mono; [apply wp_conj; [apply HK, Hs|apply Hm, HI]| |done].
  intros a s' (HK' & HP & HJ). done.
Qed.

(** Writing a reward, a count or an IPC leaves the tables alone. *)
Lemma keep_tables {A} (R : list (list Z) -> Prop) (l : ustate -> list A) i (f : ustate -> ustate) :
  (forall s, tables (f s) = tables s) ->
  preserves (fun s => R (tables s)) (fun s => (check_index (l s) i ;; modify f) s).
Proof.
  intros Hf s Hs. apply wp_bind. apply wp_check_index; [|done]. intros _. apply wp_modify. by rewrite Hf.
Qed.

Lemma runs_init_arm (I : mab_state -> Prop) l i t :
  0 <= i < MAX_ARMS -> aget l i = Some t ->
  let g := fun (_ : Z) t => populate_msr_u t in
  runs (fun s => (I (mstate s) /\ mab_world s) /\ replaced g l (tables s) i) (init_arm i) (fun _ => True)
       (fun s => (I (mstate s) /\ mab_world s) /\ replaced g l (tables s) (i + 1)).
Proof.
  intros Hi Ht g. eapply runs_bind; [by apply (runs_on_table g I l i t)|]. intros _ _.
  assert (Hkeep : forall set : T unit,
    runs (fun s => I (mstate s) /\ mab_world s) set (fun _ => True) (fun s => I (mstate s) /\ mab_world s) ->
    preserves (fun s => replaced g l (tables s) (i + 1)) set ->
    runs (fun s => (I (mstate s) /\ mab_world s) /\ replaced g l (tables s) (i + 1)) set (fun _ => True)
         (fun s => (I (mstate s) /\ mab_world s) /\ replaced g l (tables s) (i + 1))).
  { intros set. apply runs_preserves. }
  eapply runs_bind; [apply Hkeep; [by apply runs_set_reward|by apply (keep_tables (fun l' => replaced g l l' (i + 1)))]|].
  intros _ _.
  eapply runs_bind; [apply Hkeep; [by apply runs_set_num|by apply (keep_tables (fun l' => replaced g l l' (i + 1)))]|].
  intros _ _. apply Hkeep; [by apply runs_set_ipc|by apply (keep_tables (fun l' => replaced g l l' (i + 1)))].
Qed.

Definition n_arms (c : Z) : Z :=
  match c with 0 => 16 | 1 => 4 | 2 => 5 | 3 => 6 | _ => 2 end.

(** The table of arm [i] after the switch of [create_arms]. *)
Definition combo (set : list Z -> Z -> list Z) (values : list Z) (i : Z) (t : list Z) : list Z :=
  match aget values i with Some v => set t v | None => msr_set_mlc_disable t 1 end.

Definition made (c : Z) : Z -> list Z -> list Z :=
  match c with
  | 0 => arm_16
  | 1 => arm_4
  | 2 => combo msr_set_l2dd l2dd_values
  | 3 => combo msr_set_l2xq l2xq_values
  | _ => fun i t => msr_set_mlc_disable t i
  end.

Lemma runs_combos (set : list Z -> Z -> list Z) values (I : mab_state -> Prop) l :
  zlen values < MAX_ARMS -> zlen l = MAX_ARMS ->
  runs (fun s => (I (mstate s) /\ mab_world s) /\ tables s = l) (create_combos set values) (fun _ => True)
       (fun s => (I (mstate s) /\ mab_world s) /\ replaced (combo set values) l (tables s) (zlen values + 1)).
Proof.
  intros Hv Hl. eapply runs_bind.
  { apply (for_tables (combo set values) _ I l (length values)); [|unfold zlen in *; lia].
    intros i t Hi Ht. destruct (aget_is_Some values i) as [v Hval]; [done|].
    eapply runs_bind; [intros s Hs; unfold wp; rewrite (read_Some _ _ v) by done; split; [exact (eq_refl v)|exact Hs]|].
    intros a <-. apply (runs_on_table (combo set values) I l i t); [done|]. unfold combo. by rewrite Hval. }
  intros _ _. destruct (aget_is_Some l (zlen values)) as [t Ht]; [unfold zlen in *; lia|].
  apply (runs_on_table (combo set values) I l (zlen values) t); [done|]. unfold combo.
  destruct (aget values (zlen values)) eqn:Ha; [|done]. apply aget_Some_range in Ha. lia.
Qed.

(** The loops that set every arm from its index. *)
Lemma runs_arms (g : Z -> list Z -> list Z) (I : mab_state -> Prop) l k :
  0 <= k < MAX_ARMS -> zlen l = MAX_ARMS ->
  runs (fun s => (I (mstate s) /\ mab_world s) /\ tables s = l) (for_each (seqZ 0 k) (fun i => on_table i (g i)))
       (fun _ => True) (fun s => (I (mstate s) /\ mab_world s) /\ replaced g l (tables s) k).
Proof.
  intros Hk Hl. rewrite <- (Z2Nat.id k) by lia. apply for_tables; [|lia].
  intros i t Hi Ht. by apply (runs_on_table g I l i t).
Qed.

Lemma runs_set_num_arms (I J : mab_state -> Prop) g l k c :
  (forall m, I m -> J (m <| num_arms := c |>)) ->
  runs (fun s => (I (mstate s) /\ mab_world s) /\ replaced g l (tables s) k) (set_num_arms c) (fun _ => True)
       (fun s => (J (mstate s) /\ mab_world s) /\ replaced g l (tables s) k).
Proof.
  intros HJ. apply runs_modify. intros s [[HI Hw] Hr]. split; [|exact Hr].
  split; [by apply HJ|]. by destruct Hw.
Qed.

Lemma runs_create_switch (I J : mab_state -> Prop) l c :
  0 <= c <= 4 -> zlen l = MAX_ARMS -> (forall m, I m -> J (m <| num_arms := n_arms c |>)) ->
  runs (fun s => (I (mstate s) /\ mab_world s) /\ tables s = l) (create_switch c) (fun _ => True)
       (fun s => (J (mstate s) /\ mab_world s) /\ replaced (made c) l (tables s) (n_arms c)).
Proof.
  intros Hc Hl HJ.
  assert (c = 0 \/ c = 1 \/ c = 2 \/ c = 3 \/ c = 4) as [->|[->|[->|[->| ->]]]] by lia; cbn [create_switch n_arms made];
    (eapply runs_bind; [|intros _ _; apply runs_set_num_arms, HJ]).
  - by apply runs_arms.
  - by apply runs_arms.
  - by apply runs_combos.
  - by apply runs_combos.
  - by apply runs_arms.
Qed.

Lemma replaced_trans g h l l1 l2 k :
  replaced g l l1 k -> replaced h l1 l2 k -> replaced (fun i t => h i (g i t)) l l2 k.
Proof.
  intros Hg Hh i t Hi. specialize (Hg i t Hi). specialize (Hh i _ Hg). by destruct (i <? k).
Qed.

Lemma runs_create_arms (I J : mab_state -> Prop) l c :
  0 <= c <= 4 -> zlen l = MAX_ARMS -> (forall m, I m -> arm_configuration m = c) ->
  (forall m, I m -> J (m <| num_arms := n_arms c |>)) -> (forall m, J m -> num_arms m = n_arms c) ->
  runs (fun s => (I (mstate s) /\ mab_world s) /\ tables s = l) create_arms (fun _ => True)
       (fun s => (J (mstate s) /\ mab_world s) /\
          replaced (fun i t => populate_msr_u (made c i t)) l (tables s) (n_arms c)).
Proof.
  intros Hc Hl HI HJ HJn. set (W := fun s => (I (mstate s) /\ mab_world s) /\ tables s = l).
  eapply runs_bind; [apply (runs_gets _ _ (fun m => arm_configuration m = c)); intros s [[Hs _] _]; by apply HI|].
  intros m ->. eapply runs_bind; [by apply (runs_create_switch I J l c)|]. intros _ _.
  assert (Hk : 0 <= n_arms c < MAX_ARMS).
  { assert (c = 0 \/ c = 1 \/ c = 2 \/ c = 3 \/ c = 4) as [->|[->|[->|[->| ->]]]] by lia; done. }
  intros s [[Hs Hw] Hr]. apply wp_bind, wp_gets. rewrite (HJn _ Hs).
  rewrite <- (Z2Nat.id (n_arms c)) in Hr |- * by lia. set (k := Z.to_nat (n_arms c)) in *.
  pose proof (mw_tables s Hw) as Hlen.
  assert (Hrun := for_tables (fun _ t => populate_msr_u t) init_arm J (tables s) k).
  eapply wp_mono; [apply Hrun| |done].
  - intros i t Hi Ht. apply (runs_init_arm J (tables s) i t); [lia|done].
  - unfold tables. lia.
  - done.
  - intros ? s' [_ [HW' Hr']]. split; [done|]. split; [exact HW'|].
    exact (replaced_trans _ (fun _ t => populate_msr_u t) _ _ _ _ Hr Hr').
Qed.

(** ** Assignments that [populate_msr_u] overwrites *)

Lemma union_set_swap msr i j s n v s' n' v' :
  i <> j -> 0 <= i -> 0 <= j ->
  union_set (union_set msr i s n v) j s' n' v' = union_set (union_set msr j s' n' v') i s n v.
Proof.
  intros Hij Hi Hj. unfold union_set. rewrite (aget_aset_ne _ i j) by done. rewrite (aget_aset_ne _ j i) by done.
  unfold aset. rewrite (proj2 (Z.leb_le 0 i)), (proj2 (Z.leb_le 0 j)) by done.
  rewrite list_insert_insert_ne; [done|lia].
Qed.

Lemma populate_word_swap i j s fs s' n' v' msr :
  i <> j -> 0 <= i -> 0 <= j ->
  populate_word i s fs (union_set msr j s' n' v') = union_set (populate_word i s fs msr) j s' n' v'.
Proof.
  intros Hij Hi Hj. revert msr. induction fs as [|[n v] fs IH]; intros msr; simpl; [done|].
  rewrite <- IH. by rewrite (union_set_swap msr j i).
Qed.

Lemma populate_absorbs_1320 msr n v :
  zlen msr = HWPF_MSR_FIELDS -> In n (map fst populate_msr1320_fields) ->
  populate_msr_u (union_set msr 0 msr1320 n v) = populate_msr_u msr.
Proof.
  intros Hl Hn. unfold populate_msr_u, populate_msr1320. rewrite populate_word_absorb; [done| |done].
  rewrite Hl. by vm_compute.
Qed.

Lemma populate_absorbs_1321 msr n v :
  zlen msr = HWPF_MSR_FIELDS -> In n (map fst populate_msr1321_fields) ->
  populate_msr_u (union_set msr 1 msr1321 n v) = populate_msr_u msr.
Proof.
  intros Hl Hn. unfold populate_msr_u, populate_msr1321 at 1, populate_msr1320 at 1.
  rewrite populate_word_swap by done. rewrite populate_word_absorb; [done| |done].
  rewrite populate_word_length, Hl. by vm_compute.
Qed.

(** What is left of the settings of arm [i]. *)
Definition kept (c i : Z) (t : list Z) : list Z :=
  match c with
  | 0 => arm_4 i t
  | 1 => arm_4 i t
  | 2 => if i <? 4 then t else msr_set_mlc_disable t 1
  | 3 => if i <? 5 then t else msr_set_mlc_disable t 1
  | _ => msr_set_mlc_disable t i
  end.

Lemma zlen_arm_4 i t : zlen (arm_4 i t) = zlen t.
Proof. unfold arm_4. unfold msr_set_amp_disable, msr_set_mlc_disable. by rewrite !union_set_length. Qed.

Lemma populate_made c i t :
  0 <= c <= 4 -> 0 <= i < n_arms c -> zlen t = HWPF_MSR_FIELDS ->
  populate_msr_u (made c i t) = populate_msr_u (kept c i t).
Proof.
  intros Hc Hi Hl.
  assert (c = 0 \/ c = 1 \/ c = 2 \/ c = 3 \/ c = 4) as [->|[->|[->|[->| ->]]]] by lia;
    cbn [made kept n_arms] in *; try done.
  - change (arm_16 i t) with (msr_set_nlpoff (msr_set_llcoff (arm_4 i t) (b2z (0 <? Z.land i 0x4)))
      (b2z (0 <? Z.land i 0x8))). unfold msr_set_nlpoff, msr_set_llcoff.
    rewrite populate_absorbs_1321, populate_absorbs_1320; [done|by rewrite zlen_arm_4| | |].
    + cbn. tauto.
    + by rewrite union_set_length, zlen_arm_4.
    + cbn. tauto.
  - unfold combo. destruct (aget l2dd_values i) as [v|] eqn:Hv.
    + apply aget_Some_range in Hv. change (zlen l2dd_values) with 4 in Hv. rewrite (proj2 (Z.ltb_lt i 4)) by lia.
      apply populate_absorbs_1321; [done|]. cbn. tauto.
    + destruct (Z.ltb_spec i 4); [|done].
      destruct (aget_is_Some l2dd_values i) as [v Hv']; [change (zlen l2dd_values) with 4; lia|congruence].
  - unfold combo. destruct (aget l2xq_values i) as [v|] eqn:Hv.
    + apply aget_Some_range in Hv. change (zlen l2xq_values) with 5 in Hv. rewrite (proj2 (Z.ltb_lt i 5)) by lia.
      apply populate_absorbs_1320; [done|]. cbn. tauto.
    + destruct (Z.ltb_spec i 5); [|done].
      destruct (aget_is_Some l2xq_values i) as [v Hv']; [change (zlen l2xq_values) with 5; lia|congruence].
Qed.

(** [create_arms] makes the number of arms its configuration names, but
    [populate_msr_u] then overwrites the fields that distinguish them: of the
    sixteen combinations of configuration 0 only the four of MLC and AMP remain,
    and the demand densities and thresholds of configurations 2 and 3 are all
    replaced by the same default.  Tables past the last arm are not touched. *)
Theorem created_arms s c :
  mab_world s -> Forall (fun t => zlen t = HWPF_MSR_FIELDS) (tables s) ->
  arm_configuration (mstate s) = c -> 0 <= c <= 4 ->
  exists s', create_arms s = Ok (tt, s') /\ num_arms (mstate s') = n_arms c /\
    forall i t, aget (tables s) i = Some t ->
      aget (tables s') i = Some (if i <? n_arms c then populate_msr_u (kept c i t) else t).
Proof.
  intros Hw Htab Hcfg Hc.
  assert (Hrun := runs_create_arms (fun m => arm_configuration m = c) (fun m => num_arms m = n_arms c)
    (tables s) c Hc (mw_tables s Hw)).
  destruct (runs_Ok _ _ _ _ s (Hrun ltac:(done) ltac:(done) ltac:(done))) as ([] & s' & Hs' & _ & [Hn _] & Hr);
    [done|].
  exists s'. split; [done|]. split; [done|]. intros i t Hi. rewrite (Hr i t Hi).
  destruct (Z.ltb_spec i (n_arms c)); [|done]. f_equal. apply populate_made; [done| |].
  - apply aget_Some_range in Hi. lia.
  - by apply (Forall_aget _ _ _ _ Htab Hi).
Qed.

(** The arms of configuration 2 are two, not five. *)
Lemma created_arms_witness :
  exists s', create_arms (ustate0 0 1 <| mstate := mab_zero <| arm_configuration := 2 |> |>) = Ok (tt, s') /\
    aget (tables s') 0 = aget (tables s') 3 /\ aget (tables s') 3 <> aget (tables s') 4.
Proof.
  set (s := ustate0 0 1 <| mstate := mab_zero <| arm_configuration := 2 |> |>).
  destruct (created_arms s 2) as (s' & Hs' & _ & Ht).
  - split; try (cbn; unfold MAX_ARMS; lia); try reflexivity. constructor.
  - apply (Forall_replicate _ 1000 (replicate 6 0)). reflexivity.
  - reflexivity.
  - lia.
  - exists s'. split; [exact Hs'|].
    rewrite (Ht 0 (replicate 6 0)), (Ht 3 (replicate 6 0)), (Ht 4 (replicate 6 0)) by reflexivity.
    split; vm_compute; [reflexivity|discriminate].
Defined.

(** ** Initialisation establishes the invariant *)

Section init.
Context (get : string -> option item) (active c : Z) (calloc_ipc calloc_sd : bool).

(** The configuration asks for the filter of high deviations. *)
Definition asks_sd : Prop :=
  exists d x, get "dynamic_sd" = Some (JNumber d x) /\ (d = ON \/ d = STEP).

(** A configuration that names one of the five sets of arms and a learning
    algorithm, with windows of positive size where they are used. *)
Record config_ok : Prop := {
  co_arms : exists x, get "arm_configuration" = Some (JNumber c x);
  co_range : 0 <= c <= 4;
  co_algorithm : forall a, get "algorithm" = Some (JString (Some a)) -> a = "E_GREEDY" \/ a = "UCB" \/ a = "DUCB";
  co_ipc : asks_sd -> exists w x, get "ipc_window_size" = Some (JNumber w x) /\ 0 < w;
  co_sd : asks_sd -> exists w x, get "sd_window_size" = Some (JNumber w x) /\ 0 < w }.

Context (Hcfg : config_ok) (Hcalloc : asks_sd -> calloc_ipc = true /\ calloc_sd = true).

(** The record while the fields are read: what is known once [c] and the two
    windows have been taken. *)
Record reading (cfg ipc sd : bool) (m : mab_state) : Prop := {
  rd_arm : arm m = 0;
  rd_rr : rr_counter m = 0;
  rd_threads : num_threads m = active;
  rd_freq : 0 < norm_freq m;
  rd_alg : 0 <= algorithm m <= 2;
  rd_cfg : cfg = true -> arm_configuration m = c;
  rd_active : sd_active m -> asks_sd;
  rd_ipc : ipc = true -> asks_sd -> 0 < ipc_window_size m;
  rd_sd : sd = true -> asks_sd -> 0 < sd_window_size m }.

Lemma runs_when_int (I J : mab_state -> Prop) it cond assign :
  (forall i x m, it = Some (JNumber i x) -> cond i = true -> I m -> J (assign i m)) ->
  (forall m, I m -> (forall i x, it = Some (JNumber i x) -> cond i = false) -> J m) ->
  runs (fun s => I (mstate s) /\ mab_world s) (when_int it cond assign) (fun _ => True)
       (fun s => J (mstate s) /\ mab_world s).
Proof.
  intros Hset Hskip.
  assert (Hno : (forall i x, it = Some (JNumber i x) -> cond i = false) ->
    runs (fun s => I (mstate s) /\ mab_world s) (mret tt) (fun _ => True) (fun s => J (mstate s) /\ mab_world s)).
  { intros Hc s [HI Hw]. apply wp_ret. auto. }
  unfold when_int. destruct it as [[v|i x|]|]; try (by apply Hno).
  destruct (cond i) eqn:Hi; [apply runs_modify_mab; eauto|]. apply Hno. by intros ? ? [= -> ->].
Qed.

Lemma runs_when_double (I : mab_state -> Prop) it cond assign :
  (forall x m, I m -> I (assign x m)) ->
  runs (fun s => I (mstate s) /\ mab_world s) (when_double it cond assign) (fun _ => True)
       (fun s => I (mstate s) /\ mab_world s).
Proof.
  intros Hset. unfold when_double. destruct it as [[v|i x|]|]; try (by apply runs_ret).
  apply runs_if; [apply runs_modify_mab; auto|by apply runs_ret].
Qed.

Ltac reading := match goal with H : reading _ _ _ _ |- _ => destruct H; split; cbn; try done; try lia; auto end.

Lemma algorithm_range a : a = "E_GREEDY" \/ a = "UCB" \/ a = "DUCB" -> 0 <= map_algorithm_to_enum a <= 2.
Proof. intros [->|[->| ->]]; vm_compute; intuition discriminate. Qed.

Lemma runs_setup_fields :
  runs (fun s => reading false false false (mstate s) /\ mab_world s) (setup_fields get) (fun _ => True)
       (fun s => reading true true true (mstate s) /\ mab_world s).
Proof.
  unfold setup_fields, setup_rest.
  eapply (runs_bind _ (fun s => reading false false false (mstate s) /\ mab_world s) _ _ _ (fun _ => True)).
  { unfold setup_algorithm. destruct (get "algorithm") as [[[a|]|i x|]|] eqn:Ha; try (by apply runs_ret).
    pose proof (algorithm_range a (co_algorithm Hcfg a Ha)) as Hr.
    eapply runs_bind; [apply (runs_modify_mab _ (reading false false false)); intros m Hm; reading|].
    intros _ _. rewrite (proj2 (Z.eqb_neq _ _)) by lia. by apply runs_ret. }
  intros _ _.
  eapply (runs_bind _ (fun s => reading true false false (mstate s) /\ mab_world s) _ _ _ (fun _ => True)).
  { destruct (co_arms Hcfg) as [x ->]. pose proof (co_range Hcfg). unfold setup_arm_configuration.
    rewrite (proj2 (Z.leb_le 0 c)), (proj2 (Z.leb_le c 5)) by lia. cbn [andb].
    apply runs_modify_mab. intros m Hm. reading. }
  intros _ _.
  eapply runs_bind; [apply (runs_when_int _ (reading true false false))|intros _ _].
  { intros i x m _ Hi Hm. apply Z.ltb_lt in Hi. reading. }
  { done. }
  eapply runs_bind; [apply (runs_when_double (reading true false false)); intros x m Hm; reading|intros _ _].
  eapply runs_bind; [apply (runs_when_double (reading true false false)); intros x m Hm; reading|intros _ _].
  eapply runs_bind; [apply (runs_when_double (reading true false false)); intros x m Hm; reading|intros _ _].
  eapply runs_bind; [apply (runs_when_int _ (reading true false false))|intros _ _].
  { intros i x m _ _ Hm. reading. }
  { done. }
  eapply runs_bind; [apply (runs_when_int _ (reading true false false))|intros _ _].
  { intros i x m Hi _ Hm. reading. intros Hact. by exists i, x. }
  { done. }
  eapply runs_bind; [apply (runs_when_int _ (reading true true false))|intros _ _].
  { intros i x m Hi _ Hm. reading. intros _ (w & y & Hw & Hpos)%(co_ipc Hcfg). naive_solver lia. }
  { intros m Hm Hno. reading. intros _ (w & y & Hw & Hpos)%(co_ipc Hcfg).
    specialize (Hno w y Hw). apply Z.leb_gt in Hno. lia. }
  eapply runs_bind; [apply (runs_when_int _ (reading true true true))|intros _ _].
  { intros i x m Hi _ Hm. reading. intros _ (w & y & Hw & Hpos)%(co_sd Hcfg). naive_solver lia. }
  { intros m Hm Hno. reading. intros _ (w & y & Hw & Hpos)%(co_sd Hcfg).
    specialize (Hno w y Hw). apply Z.leb_gt in Hno. lia. }
  apply runs_when_double. intros x m Hm. reading.
Qed.

(** The record after the buffers, and with the strategies. *)
Definition prepared (strategies : bool) (m : mab_state) : Prop :=
  reading true true true m /\ sd_ready m /\
  (strategies = true ->
    (next_arm_func m = Some next_arm_max_ \/ next_arm_func m = Some next_arm_potential_) /\
    (update_func m = Some update_increment_ \/ update_func m = Some update_discounted_)).

Lemma window_zeros w : 0 < w -> window (Some (replicate (Z.to_nat w) f32_zero)) 0 w.
Proof.
  intros Hw. exists (replicate (Z.to_nat w) f32_zero). unfold zlen. rewrite length_replicate. split; [done|lia].
Qed.

Lemma runs_buffers :
  runs (fun s => reading true true true (mstate s) /\ mab_world s)
    (m ← gets mstate;
     if (dynamic_sd m =? ON) || (dynamic_sd m =? STEP) then
       allocate_buffers calloc_ipc calloc_sd (ipc_window_size m) (sd_window_size m)
     else mret tt) (fun _ => True)
    (fun s => prepared false (mstate s) /\ mab_world s).
Proof.
  intros s [Hm Hw]. apply wp_bind, wp_gets.
  destruct ((dynamic_sd (mstate s) =? ON) || (dynamic_sd (mstate s) =? STEP)) eqn:Ha.
  - assert (Hact : sd_active (mstate s)) by (apply orb_true_iff in Ha; rewrite !Z.eqb_eq in Ha; done).
    pose proof (rd_active _ _ _ _ Hm Hact) as Hsd.
    pose proof (rd_ipc _ _ _ _ Hm eq_refl Hsd). pose proof (rd_sd _ _ _ _ Hm eq_refl Hsd).
    destruct (Hcalloc Hsd) as [-> ->]. unfold allocate_buffers. cbn [negb orb]. apply wp_bind. apply wp_modify. apply wp_modify.
    split; [done|]. split; [|by destruct Hw; split]. split_and!; [destruct Hm; by split| |done].
    intros _. cbn. split; by apply window_zeros.
  - apply wp_ret. split; [done|]. split; [|done]. split_and!; [done| |done].
    intros [H|H]; rewrite H in Ha; discriminate Ha.
Qed.

Lemma runs_strategies :
  runs (fun s => prepared false (mstate s) /\ mab_world s) init_mab_strategies (fun _ => True)
       (fun s => prepared true (mstate s) /\ mab_world s).
Proof.
  eapply runs_bind; [apply runs_mstate|]. intros m (Hm & _ & _). pose proof (rd_alg _ _ _ _ Hm) as Halg.
  assert (Hset : forall f g,
    (f = next_arm_max_ \/ f = next_arm_potential_) -> (g = update_increment_ \/ g = update_discounted_) ->
    runs (fun s => prepared false (mstate s) /\ mab_world s)
      (modify_mab (fun m => m <| next_arm_func := Some f |> <| update_func := Some g |>)) (fun _ => True)
      (fun s => prepared true (mstate s) /\ mab_world s)).
  { intros f g Hf Hg. apply runs_modify_mab. intros m' (Hm' & Hsd & _).
    split_and!; [reading|done|]. intros _. cbn. split; [destruct Hf as [->| ->]|destruct Hg as [->| ->]]; auto. }
  destruct (Z.eqb_spec (algorithm m) E_GREEDY); [apply Hset; auto|].
  destruct (Z.eqb_spec (algorithm m) UCB); [apply Hset; auto|].
  destruct (Z.eqb_spec (algorithm m) DUCB); [apply Hset; auto|].
  unfold E_GREEDY, UCB, DUCB in *. lia.
Qed.

(** The record when [mab_init] returns. *)
Record initialised (m : mab_state) : Prop := {
  in_shape : mab_shape (n_arms c) (n_arms c) m;
  in_arm : arm m = 0;
  in_threads : num_threads m = active;
  in_sd : sd_active m -> asks_sd }.

Lemma runs_mab_init parse f data :
  read_file f = Some data -> parse data = Some get -> 0 <= active <= MAX_THREADS ->
  runs (fun s => 0 <= algorithm (mstate s) <= 2 /\ mab_world s) (mab_init parse f calloc_ipc calloc_sd active)
       (fun _ => True) (fun s => initialised (mstate s) /\ mab_world s).
Proof.
  intros Hf Hp Hact. pose proof (co_range Hcfg) as Hc. unfold mab_init.
  eapply runs_bind; [apply (runs_modify_mab (fun m => 0 <= algorithm m <= 2) (reading false false false))|intros _ _].
  { intros m Hm. split; cbn; try done. intros [|]; discriminate. }
  unfold setup_mab_state_from_json. rewrite Hf, Hp.
  eapply runs_bind; [apply runs_setup_fields|intros _ _].
  assert (Hassoc : forall (k : T unit) P J,
    runs (fun s => reading true true true (mstate s) /\ mab_world s)
      ((m ← gets mstate;
        if (dynamic_sd m =? ON) || (dynamic_sd m =? STEP) then
          allocate_buffers calloc_ipc calloc_sd (ipc_window_size m) (sd_window_size m)
        else mret tt) ;; k) P J ->
    runs (fun s => reading true true true (mstate s) /\ mab_world s)
      (m ← gets mstate;
       (if (dynamic_sd m =? ON) || (dynamic_sd m =? STEP) then
          allocate_buffers calloc_ipc calloc_sd (ipc_window_size m) (sd_window_size m)
        else mret tt) ;; k) P J) by done.
  apply Hassoc. eapply runs_bind; [apply runs_buffers|intros _ _].
  eapply runs_bind; [apply runs_strategies|intros _ _].
  intros s [Hm Hw].
  assert (Hrun := runs_create_arms (prepared true) initialised (tables s) c Hc (mw_tables s Hw)).
  assert (Hn : 0 < n_arms c).
  { assert (c = 0 \/ c = 1 \/ c = 2 \/ c = 3 \/ c = 4) as [->|[->|[->|[->| ->]]]] by lia; done. }
  eapply wp_mono; [apply Hrun| |done].
  - intros m ([] & _). auto.
  - intros m ([] & Hsd & Hst). destruct (Hst eq_refl). split; cbn; try done; try lia.
    split; cbn; try done; try lia. unfold RANDOM. lia.
  - intros m [[]]. done.
  - done.
  - intros ? s' (_ & [Hs' Hw'] & _). done.
Qed.
End init.

Lemma runs_play_inv log n inputs :
  1 <= n <= MAX_ARMS -> Forall input_ok inputs ->
  runs (mab_inv n n) (play log inputs) (fun _ => True) (mab_inv n n).
Proof.
  intros Hn Hin. apply runs_for_each. intros input Hi. rewrite Forall_forall in Hin.
  apply (runs_interval log (mab_shape n n) (mab_shape n n)); [by apply Hin|by apply runs_mab].
Qed.

(** C6: with a configuration file that can be read and names one of the five sets
    of arms, a learning algorithm and positive window sizes, initialisation
    succeeds, and the bandit then runs for any number of intervals without a
    fault, whatever the counters, the draws and the logarithm are; the arm
    played is always one of the arms created. *)
Theorem bandit_session parse f data get c active log s inputs :
  mab_world s -> 0 <= algorithm (mstate s) <= 2 -> 0 <= active <= MAX_THREADS ->
  read_file f = Some data -> parse data = Some get -> config_ok get c -> Forall input_ok inputs ->
  exists s1 s2, mab_init parse f true true active s = Ok (tt, s1) /\
    play log inputs s1 = Ok (tt, s2) /\ mab_inv (n_arms c) (n_arms c) s2 /\
    0 <= arm (mstate s2) < n_arms c.
Proof.
  intros Hw Halg Hact Hf Hp Hcfg Hin. pose proof (co_range _ _ Hcfg) as Hc.
  destruct (runs_Ok _ _ _ _ s (runs_mab_init get active c true true Hcfg ltac:(done) parse f data Hf Hp Hact))
    as ([] & s1 & H1 & _ & [[Hshape _ _ _] Hw1]); [done|].
  assert (Hn : 1 <= n_arms c <= MAX_ARMS).
  { assert (c = 0 \/ c = 1 \/ c = 2 \/ c = 3 \/ c = 4) as [->|[->|[->|[->| ->]]]] by lia; done. }
  destruct (runs_Ok _ _ _ _ s1 (runs_play_inv log (n_arms c) inputs Hn Hin)) as ([] & s2 & H2 & _ & Hinv2); [by split|].
  exists s1, s2. split_and!; try done; destruct Hinv2 as [[] _]; lia.
Qed.

(** Arms of MLC and AMP, UCB, with the filter on. *)
Definition sample_config (key : string) : option item :=
  if bool_decide (key = "algorithm") then Some (JString (Some "UCB"))
  else if bool_decide (key = "arm_configuration") then Some (JNumber 1 (f64_of_Z 1))
  else if bool_decide (key = "dynamic_sd") then Some (JNumber ON (f64_of_Z 1))
  else if bool_decide (key = "ipc_window_size") then Some (JNumber 3 (f64_of_Z 3))
  else if bool_decide (key = "sd_window_size") then Some (JNumber 2 (f64_of_Z 2))
  else None.

Lemma sample_config_ok : config_ok sample_config 1.
Proof.
  split.
  - by exists (f64_of_Z 1).
  - lia.
  - intros a Ha. right; left. by injection Ha as <-.
  - intros _. exists 3, (f64_of_Z 3). split; [reflexivity|lia].
  - intros _. exists 2, (f64_of_Z 2). split; [reflexivity|lia].
Qed.

Lemma bandit_session_witness :
  let parse := fun _ => Some sample_config in
  let f := Some {| file_length := 2; file_bytes := [123; 125] |} in
  let input := (gtinfo (ustate0 0 1), [5; 7]) in
  exists s1 s2, mab_init parse f true true 2 (ustate0 0 1) = Ok (tt, s1) /\
    play (fun x => x) [input; input] s1 = Ok (tt, s2) /\ 0 <= arm (mstate s2) < 4.
Proof.
  intros parse f input.
  destruct (bandit_session parse f [123; 125] sample_config 1 2 (fun x => x) (ustate0 0 1) [input; input])
    as (s1 & s2 & H1 & H2 & _ & H3).
  - split; try (cbn; unfold MAX_ARMS; lia); try reflexivity. constructor.
  - cbn. lia.
  - unfold MAX_THREADS. lia.
  - reflexivity.
  - reflexivity.
  - apply sample_config_ok.
  - repeat constructor; cbn; unfold RAND_MAX; try lia; reflexivity.
  - exists s1, s2. split; [exact H1|]. split; [exact H2|exact H3].
Defined.

(** *** A configuration without arms *)

Definition is_exit (e : stop) : Prop := exists code, e = ExitWith code.

Definition configured (c : Z) (s : ustate) : Prop := arm_configuration (mstate s) = c.

(** The steps after the configuration has been taken keep it, or exit. *)
Definition keeps_configuration (m : T unit) : Prop :=
  forall c s, configured c s -> wp m s (fun _ => configured c) is_exit.

Lemma keeps_bind (m k : T unit) : keeps_configuration m -> keeps_configuration k -> keeps_configuration (m ;; k).
Proof.
  intros Hm Hk c s Hs. apply wp_bind. eapply wp_mono; [by apply (Hm c)| |done]. intros ? s' Hs'. by apply Hk.
Qed.

Lemma keeps_when_int it cond assign :
  (forall i m, arm_configuration (assign i m) = arm_configuration m) -> keeps_configuration (when_int it cond assign).
Proof.
  intros Ha c s Hs. unfold when_int. destruct it as [[v|i x|]|]; try done. destruct (cond i); [|done].
  apply wp_modify. unfold configured. cbn. by rewrite Ha.
Qed.

Lemma keeps_when_double it cond assign :
  (forall x m, arm_configuration (assign x m) = arm_configuration m) -> keeps_configuration (when_double it cond assign).
Proof.
  intros Ha c s Hs. unfold when_double. destruct it as [[v|i x|]|]; try done. destruct (cond x); [|done].
  apply wp_modify. unfold configured. cbn. by rewrite Ha.
Qed.

Lemma keeps_algorithm it : keeps_configuration (setup_algorithm it).
Proof.
  intros c s Hs. unfold setup_algorithm. destruct it as [[[a|]|i x|]|]; try done.
  apply wp_bind, wp_modify. destruct (_ =? -1); [by eexists|done].
Qed.

Lemma keeps_strategies : keeps_configuration init_mab_strategies.
Proof. intros c s Hs. apply wp_bind, wp_gets. repeat case_match; done. Qed.

Lemma keeps_allocate a b w v : keeps_configuration (allocate_buffers a b w v).
Proof. intros c s Hs. apply wp_bind, wp_modify. destruct a, b; cbn [negb orb]; (done || by eexists). Qed.

(** Arm configuration 5 passes the check of the configuration file, but there
    are no arms for it: whatever else the file says, the program exits before
    the bandit is initialised. *)
Theorem configuration_5_exits parse f data get x ci cs active s :
  read_file f = Some data -> parse data = Some get ->
  get "arm_configuration" = Some (JNumber 5 x) ->
  (exists s1, setup_arm_configuration (get "arm_configuration") s = Ok (tt, s1)) /\
  exists code, mab_init parse f ci cs active s = Stop (ExitWith code).
Proof.
  intros Hf Hp Hget. split; [rewrite Hget; eexists; reflexivity|].
  assert (Hwp : wp (mab_init parse f ci cs active) s (fun _ _ => False) is_exit).
  { unfold mab_init, setup_mab_state_from_json. rewrite Hf, Hp. apply wp_bind, wp_modify.
    set (s0 := _ <| mstate ::= _ |>). apply wp_bind.
    apply (wp_mono _ _ (fun _ => configured 5) _ is_exit); [| |done].
    - apply wp_bind. eapply wp_mono; [by apply (keeps_algorithm _ (arm_configuration (mstate s0)))| |done].
      intros ? s1 _. apply wp_bind. rewrite Hget. apply wp_modify.
      enough (Hk : keeps_configuration (setup_rest get)) by by apply Hk. unfold setup_rest.
      repeat apply keeps_bind; (apply keeps_when_int || apply keeps_when_double); done.
    - intros ? s1 H1. apply wp_bind, wp_gets, wp_bind.
      apply (wp_mono _ _ (fun _ => configured 5) _ is_exit); [destruct (_ || _); [by apply keeps_allocate|done]| |done].
      intros ? s2 H2. apply wp_bind. eapply wp_mono; [by apply (keeps_strategies 5)| |done].
      intros ? s3 H3. apply wp_bind, wp_gets, wp_bind. rewrite H3. by eexists. }
  unfold wp in Hwp. destruct (mab_init _ _ _ _ _ _) as [[? ?]|e]; [done|]. destruct Hwp as [code ->]. by exists code.
Qed.

Lemma configuration_5_exits_witness :
  mab_init (fun _ => Some (fun key => if bool_decide (key = "arm_configuration")%string then Some (JNumber 5 (f64_of_Z 5)) else None))
    (Some {| file_length := 0; file_bytes := [] |}) true true 2 (ustate0 0 1) = Stop (ExitWith (-1)).
Proof.
  set (get := fun key => if bool_decide (key = "arm_configuration")%string then Some (JNumber 5 (f64_of_Z 5)) else None).
  destruct (configuration_5_exits (fun _ => Some get) (Some {| file_length := 0; file_bytes := [] |}) [] get
    (f64_of_Z 5) true true 2 (ustate0 0 1)) as [_ [code Hcode]]; [reflexivity..|].
  rewrite Hcode. vm_compute in Hcode. rewrite <- Hcode. reflexivity.
Defined.
