(* ===== verification/Sync.v ===== *)
(** * How the tuning threads synchronise ([main.c], [thread_start])

    One thread per core; the one on [core_first] is the master.  They meet at two
    places, both built from a shared counter that each thread increments and
    then polls: the bandwidth test before the main loop ([ddrbwflag]) and the
    decision of the master in each round ([syncflag]).

    The model is the skeleton of [thread_start] between accesses to the shared
    flags: a program counter per thread and one step per access, in any
    interleaving.  What a thread computes between two accesses is in
    [Threads]. *)

From stdpp Require Import relations.
From S2P Require Import Prelude.

Definition DDR_BW_AUTOTEST : Z := -2.

(** Where a thread is, by the line it executes next. *)
Inductive pc : Type :=
  | TestTarget   (** [if (ddr_bw_target == DDR_BW_AUTOTEST)] *)
  | InitBw       (** [ddrmembw_init(); ddr_bw_target = 0], master only *)
  | AddBw        (** [atomic_fetch_add(&ddrbwflag, 1)] *)
  | WaitBw       (** [while (ddrbwflag < ACTIVE_THREADS)] *)
  | MeasureBw    (** [atomic_fetch_add(&ddr_bw_target, ddrmembw_measurement())] *)
  | SubBw        (** [atomic_fetch_add(&ddrbwflag, -1)] *)
  | DrainBw      (** [while (ddrbwflag != 0)] *)
  | EndBw        (** [ddrmembw_deinit(); if (ddr_bw_target == 0) exit(-1)], master only *)
  | Setup        (** MSRs and counters *)
  | LoopTest     (** [while (quitflag == 0)] *)
  | Sample       (** the counters of the interval *)
  | AddSync      (** [atomic_fetch_add(&syncflag, 1)] *)
  | WaitAll      (** [while (syncflag < ACTIVE_THREADS)], master only *)
  | Decide       (** [calculate_settings()], master only *)
  | Release      (** [syncflag = 0], master only *)
  | WaitMaster   (** [while (syncflag != 0)], first core of a module *)
  | WriteMsrs    (** the settings of the round *)
  | Finished.

#[export] Instance pc_eq_dec : EqDecision pc.
Proof. solve_decision. Defined.

Record sync := {
  pcs : list pc;
  ddrbwflag : Z;
  syncflag : Z;
  ddr_bw_target : Z;
  quitflag : bool;
  exited : bool }.

#[export] Instance sync_settable : Settable sync := fun r =>
  {| pcs := pcs r; ddrbwflag := ddrbwflag r; syncflag := syncflag r; ddr_bw_target := ddr_bw_target r;
     quitflag := quitflag r; exited := exited r |}.

Definition goto (i : nat) (p : pc) (s : sync) : sync := s <| pcs ::= <[i := p]> |>.

(** [CORE_IN_MODULE == 0]. *)
Definition primary (i : nat) : bool := (i mod 4 =? 0)%nat.

Section threads.
Context (measurement : nat -> Z).

(** The threads: [ACTIVE_THREADS] of them. *)
Definition active (s : sync) : Z := zlen (pcs s).

(** A step of thread [i] at [p]; [None] when it spins, or has finished. *)
Definition step_at (i : nat) (p : pc) (s : sync) : option sync :=
  match p with
  | TestTarget =>
      Some (if ddr_bw_target s =? DDR_BW_AUTOTEST then goto i (if (i =? 0)%nat then InitBw else AddBw) s
            else goto i Setup s)
  | InitBw => Some (goto i AddBw (s <| ddr_bw_target := 0 |>))
  | AddBw => Some (goto i WaitBw (s <| ddrbwflag ::= fun n => s32 (n + 1) |>))
  | WaitBw => if ddrbwflag s <? active s then None else Some (goto i MeasureBw s)
  | MeasureBw => Some (goto i SubBw (s <| ddr_bw_target ::= fun n => s32 (n + measurement i) |>))
  | SubBw => Some (goto i DrainBw (s <| ddrbwflag ::= fun n => s32 (n - 1) |>))
  | DrainBw => if negb (ddrbwflag s =? 0) then None else Some (goto i (if (i =? 0)%nat then EndBw else Setup) s)
  | EndBw => Some (if ddr_bw_target s =? 0 then s <| exited := true |> else goto i Setup s)
  | Setup => Some (goto i LoopTest s)
  | LoopTest => Some (goto i (if quitflag s then Finished else Sample) s)
  | Sample => Some (goto i AddSync s)
  | AddSync =>
      Some (goto i (if (i =? 0)%nat then WaitAll else if primary i then WaitMaster else WriteMsrs)
              (s <| syncflag ::= fun n => s32 (n + 1) |>))
  | WaitAll => if syncflag s <? active s then None else Some (goto i Decide s)
  | Decide => Some (goto i Release s)
  | Release => Some (goto i WriteMsrs (s <| syncflag := 0 |>))
  | WaitMaster => if negb (syncflag s =? 0) then None else Some (goto i WriteMsrs s)
  | WriteMsrs => Some (goto i LoopTest s)
  | Finished => None
  end.

Definition thread_step (i : nat) (s : sync) : option sync :=
  if exited s then None else p ← pcs s !! i; step_at i p s.

(** The interleavings, with the signal handler of [SIGINT]. *)
Inductive sync_step : sync -> sync -> Prop :=
  | step_thread i s s' : thread_step i s = Some s' -> sync_step s s'
  | step_sigint s : sync_step s (s <| quitflag := true |>).

Definition started (n : nat) (target : Z) : sync :=
  {| pcs := replicate n TestTarget; ddrbwflag := 0; syncflag := 0; ddr_bw_target := target;
     quitflag := false; exited := false |}.

(** ** Runs of chosen threads *)

(** A schedule: the threads that make the next steps, in order. *)
Fixpoint run (sched : list nat) (s : sync) : option sync :=
  match sched with
  | [] => Some s
  | i :: sched => s' ← thread_step i s; run sched s'
  end.

Lemma run_steps sched s s' : run sched s = Some s' -> rtc sync_step s s'.
Proof.
  revert s. induction sched as [|i sched IH]; intros s; cbn; [by intros [= <-]|].
  intros (s1 & H1 & H2)%bind_Some. eapply rtc_l; [by apply (step_thread i)|]. by apply IH.
Qed.

Lemma run_app l1 l2 s s1 s2 : run l1 s = Some s1 -> run l2 s1 = Some s2 -> run (l1 ++ l2) s = Some s2.
Proof.
  revert s. induction l1 as [|i l1 IH]; intros s; cbn; [by intros [= ->]|].
  intros (s' & -> & H1)%bind_Some H2. cbn. by apply IH.
Qed.
End threads.

(** ** The bandwidth test *)

Section bandwidth.
Context (measurement : nat -> Z).

Lemma thread_step_at i p s :
  exited s = false -> pcs s !! i = Some p -> thread_step measurement i s = step_at measurement i p s.
Proof. intros He Hp. unfold thread_step. by rewrite He, Hp. Qed.

Lemma run_cons i sched s s1 :
  thread_step measurement i s = Some s1 -> run measurement (i :: sched) s = run measurement sched s1.
Proof. intros H. cbn [run]. by rewrite H. Qed.

(** A state before the main loop. *)
Definition testing (l : list pc) (flag target : Z) : sync :=
  {| pcs := l; ddrbwflag := flag; syncflag := 0; ddr_bw_target := target; quitflag := false; exited := false |}.

Lemma insert_middle {A} (l1 l2 : list A) x y n : length l1 = n -> <[n := y]> (l1 ++ x :: l2) = l1 ++ y :: l2.
Proof. intros <-. by rewrite insert_app_r_alt, Nat.sub_diag by lia. Qed.

Lemma lookup_middle {A} (l1 l2 : list A) x n : length l1 = n -> (l1 ++ x :: l2) !! n = Some x.
Proof. intros <-. by rewrite lookup_app_r, Nat.sub_diag by lia. Qed.

(** A thread other than the master enters the test while the target still asks for it. *)
Lemma enter_test l1 l2 i flag :
  length l1 = i -> (0 < i)%nat -> 0 <= flag < 2 ^ 31 - 1 ->
  run measurement [i; i] (testing (l1 ++ TestTarget :: l2) flag DDR_BW_AUTOTEST) =
    Some (testing (l1 ++ WaitBw :: l2) (flag + 1) DDR_BW_AUTOTEST).
Proof.
  intros Hi Hpos Hf.
  rewrite (run_cons _ _ _ (testing (l1 ++ AddBw :: l2) flag DDR_BW_AUTOTEST)).
  - rewrite (run_cons _ _ _ (testing (l1 ++ WaitBw :: l2) (flag + 1) DDR_BW_AUTOTEST)); [done|].
    rewrite (thread_step_at i AddBw) by (done || by apply lookup_middle). unfold step_at, goto, testing, set.
    cbn -[s32]. by rewrite s32_small, insert_middle by (done || unfold in_s32; lia).
  - rewrite (thread_step_at i TestTarget) by (done || by apply lookup_middle). unfold step_at, goto, testing, set.
    cbn -[s32]. by rewrite (proj2 (Nat.eqb_neq i 0)), insert_middle by (done || lia).
Qed.

Lemma all_enter k m :
  Z.of_nat (k + m) < 2 ^ 31 - 1 ->
  exists sched, run measurement sched (testing (TestTarget :: replicate k WaitBw ++ replicate m TestTarget) (Z.of_nat k) DDR_BW_AUTOTEST)
    = Some (testing (TestTarget :: replicate (k + m) WaitBw) (Z.of_nat (k + m)) DDR_BW_AUTOTEST).
Proof.
  revert k. induction m as [|m IH]; intros k Hk.
  - exists []. cbn. by rewrite app_nil_r, Nat.add_0_r.
  - destruct (IH (S k)) as [sched Hs]; [lia|]. exists ([S k; S k] ++ sched).
    eapply run_app; [|replace (k + S m)%nat with (S k + m)%nat by lia; exact Hs].
    change (TestTarget :: replicate k WaitBw ++ replicate (S m) TestTarget)
      with ((TestTarget :: replicate k WaitBw) ++ TestTarget :: replicate m TestTarget).
    rewrite (enter_test _ _ (S k)); [|cbn; by rewrite length_replicate|lia..].
    rewrite replicate_S_end, <- app_assoc. cbn [app]. do 2 f_equal. lia.
Qed.

(** The master enters last, measures first and leaves the others waiting. *)
Lemma master_overtakes n :
  (0 < n)%nat -> Z.of_nat n < 2 ^ 31 - 1 ->
  run measurement [0; 0; 0; 0; 0; 0]%nat (testing (TestTarget :: replicate n WaitBw) (Z.of_nat n) DDR_BW_AUTOTEST) =
    Some (testing (DrainBw :: replicate n WaitBw) (Z.of_nat n) (s32 (measurement 0%nat))).
Proof.
  intros Hpos Hn. set (l := replicate n WaitBw).
  assert (Hlen : zlen (WaitBw :: l) = Z.of_nat n + 1) by (unfold zlen, l; cbn; rewrite length_replicate; lia).
  rewrite (run_cons _ _ _ (testing (InitBw :: l) (Z.of_nat n) DDR_BW_AUTOTEST)) by done.
  rewrite (run_cons _ _ _ (testing (AddBw :: l) (Z.of_nat n) 0)) by done.
  rewrite (run_cons _ _ _ (testing (WaitBw :: l) (Z.of_nat n + 1) 0)).
  2: { rewrite (thread_step_at 0 AddBw) by done. unfold step_at, testing, goto, set. cbn -[s32]. by rewrite s32_small by (unfold in_s32; lia). }
  rewrite (run_cons _ _ _ (testing (MeasureBw :: l) (Z.of_nat n + 1) 0)).
  2: { rewrite (thread_step_at 0 WaitBw) by done. unfold step_at, active. cbn [pcs testing ddrbwflag].
       by rewrite Hlen, (proj2 (Z.ltb_ge _ _)) by lia. }
  rewrite (run_cons _ _ _ (testing (SubBw :: l) (Z.of_nat n + 1) (s32 (measurement 0%nat)))) by done.
  rewrite (run_cons _ _ _ (testing (DrainBw :: l) (Z.of_nat n) (s32 (measurement 0%nat)))); [done|].
  rewrite (thread_step_at 0 SubBw) by done. unfold step_at, testing, goto, set. cbn -[s32]. rewrite s32_small by (unfold in_s32; lia).
  do 2 f_equal. lia.
Qed.

(** *** The flag counts the threads in the test *)

Definition counted (p : pc) : bool :=
  match p with WaitBw | MeasureBw | SubBw => true | _ => false end.

Definition past_wait (p : pc) : bool :=
  match p with MeasureBw | SubBw | DrainBw | EndBw => true | _ => false end.

(** In the bandwidth test, after its first line. *)
Definition in_test (p : pc) : bool :=
  match p with InitBw | AddBw | WaitBw | MeasureBw | SubBw | DrainBw | EndBw => true | _ => false end.

Definition count (l : list pc) : Z := foldr (fun p n => b2z (counted p) + n) 0 l.

Lemma count_cons p l : count (p :: l) = b2z (counted p) + count l.
Proof. done. Qed.

Lemma count_insert l i p q :
  l !! i = Some q -> count (<[i := p]> l) = count l - b2z (counted q) + b2z (counted p).
Proof.
  revert i. induction l as [|x l IH]; intros [|i] H; simplify_eq.
  - cbn. injection H as ->. lia.
  - change (count (x :: <[i := p]> l) = count (x :: l) - b2z (counted q) + b2z (counted p)).
    rewrite !count_cons, (IH i H). lia.
Qed.

Lemma count_range l : 0 <= count l <= zlen l.
Proof.
  induction l as [|x l IH]; [done|]. rewrite count_cons. unfold zlen in *. cbn [length].
  unfold b2z. destruct (counted x); lia.
Qed.

Lemma count_outside l j q : l !! j = Some q -> counted q = false -> count l < zlen l.
Proof.
  revert j. induction l as [|x l IH]; intros [|j] H Hq; try done; rewrite count_cons.
  - injection H as ->. rewrite Hq. pose proof (count_range l). unfold zlen in *. cbn. lia.
  - specialize (IH j H Hq). unfold zlen in *. cbn [length]. unfold b2z. destruct (counted x); lia.
Qed.

(** What holds in every state the threads reach. *)
Record flag_inv (n : nat) (s : sync) : Prop := {
  fi_len : length (pcs s) = n;
  fi_flag : ddrbwflag s = count (pcs s);
  fi_enter : forall j, pcs s !! j = Some TestTarget -> Forall (fun p => past_wait p = false) (pcs s) }.

Section flag.
Context (n : nat) (Hn : Z.of_nat n < 2 ^ 31 - 1).

(** A step of thread [i] from [q] to [p] that changes the flag by what it should. *)
Lemma flag_inv_goto s s' i q p :
  flag_inv n s -> pcs s !! i = Some q -> pcs s' = <[i := p]> (pcs s) ->
  ddrbwflag s' = ddrbwflag s - b2z (counted q) + b2z (counted p) ->
  p <> TestTarget -> (past_wait p = true -> past_wait q = true \/ q = WaitBw /\ ~ ddrbwflag s < active s) ->
  flag_inv n s'.
Proof.
  intros [Hlen Hflag Henter] Hq Hpcs Hf Hp Hpast. split.
  - by rewrite Hpcs, length_insert.
  - by rewrite Hf, Hpcs, (count_insert _ _ _ _ Hq), Hflag.
  - intros j Hj. rewrite Hpcs in Hj |- *.
    assert (Hj' : pcs s !! j = Some TestTarget).
    { destruct (decide (j = i)) as [->|]; [|by rewrite list_lookup_insert_ne in Hj].
      rewrite list_lookup_insert_eq in Hj by (by eapply lookup_lt_Some). congruence. }
    specialize (Henter j Hj'). apply Forall_insert; [done|]. apply not_true_is_false. intros Hpw.
    destruct (Hpast Hpw) as [Hqw|[-> Hge]].
    + rewrite Forall_lookup in Henter. by rewrite (Henter i q Hq) in Hqw.
    + apply Hge. rewrite Hflag. unfold active. by apply (count_outside _ j TestTarget).
Qed.

Lemma flag_bounds s : flag_inv n s -> 0 <= ddrbwflag s <= Z.of_nat n.
Proof. intros [Hlen -> _]. rewrite <- Hlen. apply count_range. Qed.

Lemma flag_inv_step s s' : flag_inv n s -> sync_step measurement s s' -> flag_inv n s'.
Proof.
  intros Hs Hstep. pose proof (flag_bounds s Hs) as Hb. destruct Hstep as [i s s' Hstep|s]; [|by destruct Hs].
  unfold thread_step in Hstep. destruct (exited s); [done|].
  destruct (pcs s !! i) as [q|] eqn:Hq; [|done]. cbn in Hstep.
  assert (Hplus : s32 (ddrbwflag s + 1) = ddrbwflag s + 1) by (apply s32_small; unfold in_s32; lia).
  assert (Hminus : s32 (ddrbwflag s - 1) = ddrbwflag s - 1) by (apply s32_small; unfold in_s32; lia).
  destruct q; cbn -[s32] in Hstep; repeat case_match; simplify_eq; try done;
    try (eapply flag_inv_goto; [exact Hs|exact Hq|reflexivity|cbn -[s32]; rewrite ?Hplus, ?Hminus; lia|done|]);
    try (by intros; discriminate); try (by left); try (by right; split; [|apply Z.ltb_ge]).
  all: try (by destruct Hs).
  right. split; [done|]. apply Z.nlt_ge. by apply Z.ltb_ge.
Qed.
End flag.

(** A thread has read the target after the master changed it, so it stays out
    of the test; the others wait for it. *)
Record hung (n : nat) (j : nat) (s : sync) : Prop := {
  hg_flag : flag_inv n s;
  hg_target : ddr_bw_target s <> DDR_BW_AUTOTEST;
  hg_out : exists q, pcs s !! j = Some q /\ in_test q = false;
  hg_wait : Forall (fun p => past_wait p = false) (pcs s) }.

Lemma hung_goto n (Hn : Z.of_nat n < 2 ^ 31 - 1) j s s' i q p :
  hung n j s -> flag_inv n s' -> pcs s !! i = Some q -> pcs s' = <[i := p]> (pcs s) ->
  ddr_bw_target s' <> DDR_BW_AUTOTEST -> (in_test q = false -> in_test p = false) -> past_wait p = false ->
  hung n j s'.
Proof.
  intros [Hf Ht (r & Hj & Hr) Hw] Hf' Hq Hpcs Ht' Hin Hp. split; try done.
  - destruct (decide (i = j)) as [->|Hne].
    + exists p. rewrite Hq in Hj. simplify_eq. split; [|by apply Hin].
      rewrite Hpcs, list_lookup_insert_eq; [done|by eapply lookup_lt_Some].
    + exists r. by rewrite Hpcs, list_lookup_insert_ne.
  - rewrite Hpcs. by apply Forall_insert.
Qed.

Lemma hung_step n j s s' :
  Z.of_nat n < 2 ^ 31 - 1 -> hung n j s -> sync_step measurement s s' ->
  hung n j s' /\ forall i, pcs s !! i = Some WaitBw -> pcs s' !! i = Some WaitBw.
Proof.
  intros Hn Hs Hstep. pose proof (flag_inv_step n Hn s s' (hg_flag _ _ _ Hs) Hstep) as Hf'.
  destruct Hstep as [i s s' Hstep|s]; [|by destruct Hs].
  pose proof Hs as [Hf Ht (r & Hj & Hr) Hw].
  assert (Hlt : (ddrbwflag s <? active s) = true).
  { apply Z.ltb_lt. rewrite (fi_flag _ _ Hf). unfold active. apply (count_outside _ j r); [done|by destruct r]. }
  unfold thread_step in Hstep. destruct (exited s); [done|].
  destruct (pcs s !! i) as [q|] eqn:Hq; [|done]. cbn in Hstep.
  pose proof (Forall_lookup_1 _ _ _ _ Hw Hq) as Hpw. cbv beta in Hpw.
  assert (Hkeep : forall p k, p <> WaitBw -> q <> WaitBw -> pcs s !! k = Some WaitBw -> <[i := p]> (pcs s) !! k = Some WaitBw).
  { intros p k _ Hqw Hk. rewrite list_lookup_insert_ne; [done|]. intros <-. congruence. }
  destruct q; try discriminate Hpw; cbn -[s32 active] in Hstep;
    rewrite ?Hlt, ?(proj2 (Z.eqb_neq _ _) Ht) in Hstep; repeat case_match; simplify_eq; try done.
  all: split; [eapply (hung_goto n Hn j s _ i); [exact Hs|exact Hf'|exact Hq|reflexivity|first [exact Ht|discriminate]|done|done]|].
  all: intros k Hk; cbn; rewrite list_lookup_insert_ne; [done|]; intros <-; congruence.
Qed.

Lemma hung_forever n j s s' :
  Z.of_nat n < 2 ^ 31 - 1 -> hung n j s -> rtc (sync_step measurement) s s' ->
  forall i, pcs s !! i = Some WaitBw -> pcs s' !! i = Some WaitBw.
Proof.
  intros Hn Hs Hsteps. induction Hsteps as [|s s1 s' Hstep _ IH]; intros i Hi; [done|].
  destruct (hung_step n j s s1 Hn Hs Hstep) as [H1 Hk]. auto.
Qed.

Lemma flag_inv_started n target : flag_inv n (started n target).
Proof.
  split; cbn.
  - apply length_replicate.
  - induction n; [done|]. cbn. by rewrite <- IHn.
  - intros j _. by apply Forall_replicate.
Qed.

Lemma flag_inv_reachable n target s :
  Z.of_nat n < 2 ^ 31 - 1 -> rtc (sync_step measurement) (started n target) s -> flag_inv n s.
Proof.
  intros Hn Hsteps. remember (started n target) as s0 eqn:Hs0.
  assert (H0 : flag_inv n s0) by (subst; apply flag_inv_started). clear Hs0.
  induction Hsteps as [|s0 s1 s Hstep _ IH]; [done|]. apply IH. by eapply flag_inv_step.
Qed.
End bandwidth.

(** ** Properties of the test *)

(** C27: the barrier of the bandwidth test can deadlock for every number of threads
    but one: the master may measure and decrement the flag before the others
    have seen it full.  They then wait for it to fill and the master for it to
    drain, for ever, whatever signals arrive. *)
Theorem bandwidth_test_deadlock measurement n :
  (2 <= n)%nat -> Z.of_nat n < 2 ^ 31 - 1 ->
  exists s, rtc (sync_step measurement) (started n DDR_BW_AUTOTEST) s /\
    Forall (fun p => p = WaitBw \/ p = DrainBw) (pcs s) /\ length (pcs s) = n /\
    forall s', rtc (sync_step measurement) s s' -> pcs s' = pcs s /\ forall i, thread_step measurement i s' = None.
Proof.
  intros Hn Hb. destruct n as [|n]; [lia|].
  destruct (all_enter measurement 0 n) as [sched Hs]; [lia|].
  pose proof (master_overtakes measurement n ltac:(lia) ltac:(lia)) as Hm.
  set (s := testing (DrainBw :: replicate n WaitBw) (Z.of_nat n) (s32 (measurement 0%nat))).
  exists s. split; [|split; [|split]].
  - apply run_steps with (sched ++ [0; 0; 0; 0; 0; 0]%nat).
    by eapply run_app; [exact Hs|exact Hm].
  - constructor; [by right|]. apply Forall_replicate. by left.
  - cbn. by rewrite length_replicate.
  - assert (Hstuck : forall q, let s1 := s <| quitflag := q |> in forall i, thread_step measurement i s1 = None).
    { intros q s1 i. unfold thread_step. cbn. destruct i as [|i]; cbn.
      - by rewrite (proj2 (Z.eqb_neq _ 0)) by lia.
      - destruct (replicate n WaitBw !! i) as [p|] eqn:Hp; [|done]. apply lookup_replicate in Hp as [-> _]. cbn.
        unfold active. cbn. rewrite (proj2 (Z.ltb_lt _ _)); [done|].
        unfold zlen. cbn. rewrite length_replicate. lia. }
    assert (Hq : forall s0 s', rtc (sync_step measurement) s0 s' -> (exists q, s0 = s <| quitflag := q |>) ->
      exists q, s' = s <| quitflag := q |>).
    { induction 1 as [|s0 s1 s' Hstep _ IH]; intros H0; [done|]. apply IH.
      destruct H0 as [q ->]. inversion Hstep as [i ? ? Hi|]; subst; [|by exists true].
      by rewrite Hstuck in Hi. }
    intros s' Hsteps. destruct (Hq s s' Hsteps) as [q ->]; [by exists false|]. split; [done|]. apply Hstuck.
Qed.

Lemma bandwidth_test_deadlock_witness :
  exists s, rtc (sync_step (fun _ => 1000)) (started 4 DDR_BW_AUTOTEST) s /\
    forall i, thread_step (fun _ => 1000) i s = None.
Proof.
  destruct (bandwidth_test_deadlock (fun _ => 1000) 4) as (s & Hs & _ & _ & Hstuck); [lia|lia|].
  exists s. split; [exact Hs|]. apply (Hstuck s). constructor.
Defined.

(** The master resets the target that the other threads test.  A thread that
    comes to the test after that skips it, and then no thread that is waiting
    in the test, the master included, ever leaves it. *)
Theorem late_thread_hangs_the_test measurement n j s s' :
  Z.of_nat n < 2 ^ 31 - 1 -> rtc (sync_step measurement) (started n DDR_BW_AUTOTEST) s ->
  pcs s !! j = Some TestTarget -> ddr_bw_target s <> DDR_BW_AUTOTEST ->
  rtc (sync_step measurement) s s' ->
  forall i, pcs s !! i = Some WaitBw -> pcs s' !! i = Some WaitBw.
Proof.
  intros Hn Hreach Hj Ht Hsteps. pose proof (flag_inv_reachable measurement n _ s Hn Hreach) as Hf.
  apply (hung_forever measurement n j); [done| |done]. split; [done|done| |by apply (fi_enter _ _ Hf j)].
  by exists TestTarget.
Qed.

(** The master alone, before the second of two threads starts. *)
Lemma late_thread_hangs_the_test_witness :
  exists s, rtc (sync_step (fun _ => 7)) (started 2 DDR_BW_AUTOTEST) s /\ pcs s !! 0%nat = Some WaitBw /\
    forall s', rtc (sync_step (fun _ => 7)) s s' -> pcs s' !! 0%nat = Some WaitBw.
Proof.
  destruct (run (fun _ => 7) [0; 0; 0]%nat (started 2 DDR_BW_AUTOTEST)) as [s|] eqn:Hs; [|discriminate].
  assert (Hreach := run_steps (fun _ => 7) _ _ _ Hs). injection Hs as <-.
  eexists. split; [exact Hreach|]. split; [reflexivity|]. intros s' Hs'.
  apply (late_thread_hangs_the_test (fun _ => 7) 2 1 _ s' ltac:(lia) Hreach); [reflexivity|discriminate|exact Hs'|reflexivity].
Defined.

(** ** The main loop *)

(** All threads at the head of the loop. *)
Definition loop_start (n : nat) (target : Z) : sync :=
  {| pcs := replicate n LoopTest; ddrbwflag := 0; syncflag := 0; ddr_bw_target := target;
     quitflag := false; exited := false |}.

Definition master_pc (p : pc) : bool :=
  match p with LoopTest | Sample | AddSync | WaitAll | Decide | Release | WriteMsrs => true | _ => false end.

(** A core that is not the first of its module never waits. *)
Definition free_pc (p : pc) : bool :=
  match p with LoopTest | Sample | AddSync | WriteMsrs => true | _ => false end.

Section loop.
Context (measurement : nat -> Z).

(** The second thread makes a round by itself. *)
Lemma free_round s :
  exited s = false -> quitflag s = false -> pcs s !! 1%nat = Some LoopTest ->
  run measurement [1; 1; 1; 1]%nat s = Some (s <| syncflag ::= fun f => s32 (f + 1) |>).
Proof.
  intros He Hq Hp. destruct s as [l d f t q e]. cbn in He, Hq, Hp. subst.
  assert (Hl : forall p, <[1%nat := p]> l !! 1%nat = Some p).
  { intros p. apply list_lookup_insert_eq. by eapply lookup_lt_Some. }
  set (st p f := {| pcs := <[1%nat := p]> l; ddrbwflag := d; syncflag := f; ddr_bw_target := t;
                    quitflag := false; exited := false |}).
  assert (Hgo : forall p p' f, goto 1 p' (st p f) = st p' f).
  { intros p p' g. unfold goto, st, Prelude.set. cbn. by rewrite list_insert_insert_eq. }
  rewrite (run_cons _ _ _ _ (st Sample f)) by (rewrite (thread_step_at _ _ LoopTest) by done; done).
  rewrite (run_cons _ _ _ _ (st AddSync f)) by (rewrite (thread_step_at _ _ Sample) by (done || apply Hl); cbn; by rewrite Hgo).
  rewrite (run_cons _ _ _ _ (st WriteMsrs (s32 (f + 1)))).
  2: { rewrite (thread_step_at _ _ AddSync) by (done || apply Hl). exact (f_equal Some (Hgo AddSync WriteMsrs (s32 (f + 1)))). }
  rewrite (run_cons _ _ _ _ (st LoopTest (s32 (f + 1)))) by (rewrite (thread_step_at _ _ WriteMsrs) by (done || apply Hl); cbn; by rewrite Hgo).
  cbn [run]. unfold st, Prelude.set. cbn. by rewrite list_insert_id.
Qed.

Lemma s32_s32_add x y : s32 (s32 x + y) = s32 (x + y).
Proof.
  unfold s32. f_equal. replace ((x + 2 ^ 31) mod 2 ^ 32 - 2 ^ 31 + y + 2 ^ 31) with ((x + 2 ^ 31) mod 2 ^ 32 + y) by lia.
  rewrite Zplus_mod_idemp_l. f_equal. lia.
Qed.

Lemma free_rounds k s :
  exited s = false -> quitflag s = false -> pcs s !! 1%nat = Some LoopTest -> in_s32 (syncflag s) ->
  exists sched, run measurement sched s = Some (s <| syncflag := s32 (syncflag s + Z.of_nat k) |>).
Proof.
  intros He Hq Hp Hf. induction k as [|k [sched IH]].
  - exists []. cbn [run]. rewrite Z.add_0_r, s32_small by done. by destruct s.
  - exists (sched ++ [1; 1; 1; 1]%nat). eapply run_app; [exact IH|].
    rewrite free_round by done. f_equal. unfold Prelude.set. cbn. f_equal.
    rewrite s32_s32_add. f_equal. lia.
Qed.

(** What holds of the first two threads until the program is interrupted. *)
Record loop_inv (n : nat) (s : sync) : Prop := {
  li_len : length (pcs s) = n;
  li_exit : exited s = false;
  li_flag : in_s32 (syncflag s);
  li_master : exists p, pcs s !! 0%nat = Some p /\ (master_pc p = true \/ p = Finished /\ quitflag s = true);
  li_free : exists p, pcs s !! 1%nat = Some p /\ (free_pc p = true \/ p = Finished /\ quitflag s = true);
  li_rest : Forall (fun p => in_test p = false /\ p <> TestTarget) (pcs s) }.

Lemma sync_loop_inv_step n s s' : loop_inv n s -> sync_step measurement s s' -> loop_inv n s'.
Proof.
  intros Hs Hstep. destruct Hstep as [i s0 s1 Hstep|s0]; destruct Hs as [Hlen He Hf (p0 & H0 & Hm) (p1 & H1 & Hfr) Hr].
  2: { split; try done; cbn; [exists p0|exists p1]; split; try done; naive_solver. }
  unfold thread_step in Hstep. rewrite He in Hstep. destruct (pcs s0 !! i) as [q|] eqn:Hq; [|done]. cbn in Hstep.
  destruct (Forall_lookup_1 _ _ _ _ Hr Hq) as [Hin Ht].
  assert (Hgo : forall p s2, s1 = goto i p s2 -> pcs s2 = pcs s0 -> exited s2 = false -> in_s32 (syncflag s2) ->
    quitflag s2 = quitflag s0 -> in_test p = false -> p <> TestTarget ->
    (i = 0%nat -> master_pc p = true \/ p = Finished /\ quitflag s0 = true) ->
    (i = 1%nat -> free_pc p = true \/ p = Finished /\ quitflag s0 = true) -> loop_inv n s1).
  { intros p s2 -> Hp He2 Hf2 Hq2 Hin2 Ht2 Hm2 Hfr2.
    assert (Hget : forall k, <[i := p]> (pcs s0) !! k = if decide (i = k) then Some p else pcs s0 !! k).
    { intros k. destruct (decide (i = k)) as [<-|]; [|by apply list_lookup_insert_ne].
      apply list_lookup_insert_eq. by eapply lookup_lt_Some. }
    split; cbn; rewrite ?Hp, ?Hq2; try done.
    - by rewrite length_insert.
    - rewrite Hget. destruct (decide (i = 0%nat)) as [->|]; [exists p|exists p0]; auto.
    - rewrite Hget. destruct (decide (i = 1%nat)) as [->|]; [exists p|exists p1]; auto.
    - by apply Forall_insert. }
  assert (Hadd : in_s32 (s32 (syncflag s0 + 1))) by apply s32_range.
  destruct q; try discriminate Hin; try done; cbn -[s32 active goto] in Hstep; repeat case_match; simplify_eq;
    try (eapply Hgo; [reflexivity|done..|intros ->|intros ->]); try done; auto; rewrite ?H0, ?H1 in Hq; simplify_eq;
    naive_solver.
Qed.

Lemma loop_inv_start n target : (2 <= n)%nat -> loop_inv n (loop_start n target).
Proof.
  intros Hn. destruct n as [|[|n]]; [lia..|]. split; cbn; try done.
  - by rewrite length_replicate.
  - exists LoopTest. auto.
  - exists LoopTest. auto.
  - repeat constructor; try done. by apply Forall_replicate.
Qed.

Lemma loop_inv_reachable n target s :
  (2 <= n)%nat -> rtc (sync_step measurement) (loop_start n target) s -> loop_inv n s.
Proof.
  intros Hn Hsteps. pose proof (loop_inv_start n target Hn) as H0. revert H0.
  induction Hsteps as [|s0 s1 s Hstep _ IH]; intros H0; [done|]. apply IH. by eapply sync_loop_inv_step.
Qed.

(** From anywhere in its loop the second thread comes back to the head of it by
    itself. *)
Lemma free_home s :
  exited s = false -> quitflag s = false -> in_s32 (syncflag s) ->
  (exists p, pcs s !! 1%nat = Some p /\ free_pc p = true) ->
  exists s', rtc (sync_step measurement) s s' /\ pcs s' = <[1%nat := LoopTest]> (pcs s) /\
    exited s' = false /\ quitflag s' = false /\ in_s32 (syncflag s').
Proof.
  intros He Hq Hf (p & Hp & Hfree).
  assert (Hw : forall s, exited s = false -> quitflag s = false -> in_s32 (syncflag s) -> pcs s !! 1%nat = Some WriteMsrs ->
    exists s', rtc (sync_step measurement) s s' /\ pcs s' = <[1%nat := LoopTest]> (pcs s) /\
      exited s' = false /\ quitflag s' = false /\ in_s32 (syncflag s')).
  { intros s0 He0 Hq0 Hf0 H0. exists (goto 1 LoopTest s0). split; [|done].
    apply rtc_once, (step_thread _ 1). by rewrite (thread_step_at _ 1 WriteMsrs). }
  assert (Ha : forall s, exited s = false -> quitflag s = false -> pcs s !! 1%nat = Some AddSync ->
    exists s', rtc (sync_step measurement) s s' /\ pcs s' = <[1%nat := LoopTest]> (pcs s) /\
      exited s' = false /\ quitflag s' = false /\ in_s32 (syncflag s')).
  { intros s0 He0 Hq0 H0.
    destruct (Hw (goto 1 WriteMsrs (s0 <| syncflag ::= fun n => s32 (n + 1) |>))) as (s' & Hr & Hp' & Hrest); try done.
    - apply s32_range.
    - cbn. apply list_lookup_insert_eq. by eapply lookup_lt_Some.
    - exists s'. split; [|split; [|done]].
      + eapply rtc_l; [|exact Hr]. apply (step_thread _ 1). by rewrite (thread_step_at _ 1 AddSync).
      + rewrite Hp'. cbn. by rewrite list_insert_insert_eq. }
  destruct p; try discriminate Hfree.
  - exists s. split; [done|]. by rewrite list_insert_id.
  - destruct (Ha (goto 1 AddSync s)) as (s' & Hr & Hp' & Hrest); try done.
    + cbn. apply list_lookup_insert_eq. by eapply lookup_lt_Some.
    + exists s'. split; [|split; [|done]].
      * eapply rtc_l; [|exact Hr]. apply (step_thread _ 1). by rewrite (thread_step_at _ 1 Sample).
      * rewrite Hp'. cbn. by rewrite list_insert_insert_eq.
  - by apply Ha.
  - by apply Hw.
Qed.

(** A waiting master gets its round when the second thread runs alone for a while. *)
Lemma waiting_decides n s :
  loop_inv n s -> Z.of_nat n < 2 ^ 31 -> quitflag s = false -> pcs s !! 0%nat = Some WaitAll ->
  exists s', rtc (sync_step measurement) s s' /\ pcs s' !! 0%nat = Some Decide.
Proof.
  intros Hs Hn Hq H0. destruct (li_free _ _ Hs) as (p1 & H1 & [Hfree|[_ Hquit]]); [|congruence].
  destruct (free_home s) as (s1 & Hr1 & Hp1 & He1 & Hq1 & Hf1); [by destruct Hs..|by exists p1|].
  assert (Hlt : (1 < length (pcs s))%nat) by by eapply lookup_lt_Some.
  destruct (free_rounds (Z.to_nat ((Z.of_nat n - syncflag s1) mod 2 ^ 32)) s1) as [sched Hs2]; [done..| |done|].
  { rewrite Hp1. by apply list_lookup_insert_eq. }
  set (s2 := s1 <| syncflag := _ |>) in Hs2.
  assert (Hf2 : syncflag s2 = Z.of_nat n).
  { cbn. rewrite Z2Nat.id by (apply Z.mod_pos_bound; done). unfold s32.
    replace (syncflag s1 + (Z.of_nat n - syncflag s1) mod 2 ^ 32 + 2 ^ 31)
      with ((Z.of_nat n - syncflag s1) mod 2 ^ 32 + (syncflag s1 + 2 ^ 31)) by lia.
    rewrite Zplus_mod_idemp_l, Z.mod_small; lia. }
  exists (goto 0 Decide s2). split.
  - etrans; [exact Hr1|]. etrans; [by eapply run_steps|]. apply rtc_once, (step_thread _ 0).
    rewrite (thread_step_at _ 0 WaitAll); [|done|].
    + unfold step_at. rewrite Hf2. unfold active. cbn [pcs]. rewrite (proj2 (Z.ltb_ge _ _)); [done|].
      change (zlen (pcs s1) <= Z.of_nat n). rewrite Hp1. unfold zlen. rewrite length_insert, (li_len _ _ Hs). lia.
    + change (pcs s1 !! 0%nat = Some WaitAll). rewrite Hp1. by rewrite list_lookup_insert_ne.
  - cbn. rewrite Hp1. apply list_lookup_insert_eq. rewrite length_insert. lia.
Qed.

(** How far the master is from its wait, alone. *)
Definition master_rank (p : pc) : nat :=
  match p with AddSync => 1 | Sample => 2 | LoopTest => 3 | WriteMsrs => 4 | Release => 5 | _ => 0 end.

Lemma master_advances n s p :
  loop_inv n s -> quitflag s = false -> pcs s !! 0%nat = Some p -> master_pc p = true -> (0 < master_rank p)%nat ->
  exists s' p', sync_step measurement s s' /\ quitflag s' = false /\ pcs s' !! 0%nat = Some p' /\
    master_pc p' = true /\ (master_rank p' < master_rank p)%nat.
Proof.
  intros Hs Hq Hp Hm Hr.
  assert (Hin : forall q, <[0%nat := q]> (pcs s) !! 0%nat = Some q).
  { intros q. apply list_lookup_insert_eq. by eapply lookup_lt_Some. }
  assert (Hgo : forall s', step_at measurement 0 p s = Some s' -> sync_step measurement s s').
  { intros s' H. apply (step_thread _ 0). rewrite (thread_step_at _ 0 p); [done|apply Hs|done]. }
  destruct p; try (cbn in Hr; lia); try discriminate Hm; do 2 eexists;
    (split; [apply Hgo; cbn; rewrite ?Hq; reflexivity|]; split; [exact Hq|split; [apply Hin|split; [done|cbn; lia]]]).
Qed.

Lemma master_waits n s p :
  loop_inv n s -> quitflag s = false -> pcs s !! 0%nat = Some p -> master_pc p = true ->
  exists s', rtc (sync_step measurement) s s' /\ loop_inv n s' /\ quitflag s' = false /\
    (pcs s' !! 0%nat = Some WaitAll \/ pcs s' !! 0%nat = Some Decide).
Proof.
  remember (master_rank p) as k eqn:Hk. revert s p Hk. induction k as [k IH] using lt_wf_ind.
  intros s p -> Hs Hq Hp Hm. destruct (decide (master_rank p = 0%nat)) as [Hz|Hnz].
  - exists s. split; [done|]. split; [done|]. split; [done|]. destruct p; try discriminate; auto.
  - destruct (master_advances n s p) as (s1 & p1 & H1 & Hq1 & Hp1 & Hm1 & Hr1); [done..|lia|].
    destruct (IH _ Hr1 s1 p1 eq_refl) as (s' & Hs' & Hrest); [by eapply sync_loop_inv_step|done..|].
    exists s'. split; [|done]. by eapply rtc_l.
Qed.
End loop.

(** ** Properties of the loop *)

(** C26: with two or more threads the main loop cannot block the master for good:
    from every state the threads reach before an interrupt, there is a schedule
    in which the master decides again.  Nothing is assumed of the flag, which
    the cores that do not wait may have driven to overflow. *)
Theorem master_can_always_decide measurement n target s :
  (2 <= n)%nat -> Z.of_nat n < 2 ^ 31 ->
  rtc (sync_step measurement) (loop_start n target) s -> quitflag s = false ->
  exists s', rtc (sync_step measurement) s s' /\ pcs s' !! 0%nat = Some Decide.
Proof.
  intros Hn Hb Hreach Hq. pose proof (loop_inv_reachable measurement n target s Hn Hreach) as Hs.
  destruct (li_master _ _ Hs) as (p & Hp & [Hm|[_ Hquit]]); [|congruence].
  destruct (master_waits measurement n s p) as (s1 & Hr1 & Hs1 & Hq1 & [Hw|Hd]); [done..| |by exists s1].
  destruct (waiting_decides measurement n s1) as (s' & Hr' & Hd'); [done..|].
  exists s'. split; [|done]. by etrans.
Qed.

Lemma master_can_always_decide_witness :
  exists s', rtc (sync_step (fun _ => 0)) (loop_start 5 46000) s' /\ pcs s' !! 0%nat = Some Decide.
Proof.
  apply (master_can_always_decide (fun _ => 0) 5 46000 (loop_start 5 46000)); [lia|lia|constructor|reflexivity].
Defined.

(** The flag counts increments, not threads.  For three or more threads the
    master may decide while all threads but one still have to take the
    samples of the round: the second thread, which does not wait, has
    incremented the flag once for each of them. *)
Theorem decision_without_samples measurement n target :
  (3 <= n)%nat -> Z.of_nat n < 2 ^ 31 ->
  exists s, rtc (sync_step measurement) (loop_start n target) s /\
    pcs s = Decide :: replicate (n - 1) LoopTest.
Proof.
  intros Hn Hb. destruct n as [|n]; [lia|].
  set (s1 := {| pcs := WaitAll :: replicate n LoopTest; ddrbwflag := 0; syncflag := 1; ddr_bw_target := target;
                quitflag := false; exited := false |}).
  destruct (free_rounds measurement n s1) as [sched Hs]; try done.
  { destruct n; [lia|done]. }
  exists (goto 0 Decide (s1 <| syncflag := s32 (1 + Z.of_nat n) |>)). split.
  - etrans; [apply (run_steps measurement [0; 0; 0]%nat (loop_start (S n) target) s1); reflexivity|].
    etrans; [by apply (run_steps measurement sched)|]. apply rtc_once, (step_thread _ 0).
    rewrite (thread_step_at _ 0 WaitAll) by done. unfold step_at, active. cbn -[s32].
    rewrite s32_small by (unfold in_s32; lia). rewrite (proj2 (Z.ltb_ge _ _)); [done|].
    unfold zlen. cbn. rewrite length_replicate. lia.
  - cbn. by rewrite Nat.sub_0_r.
Qed.

Lemma decision_without_samples_witness :
  exists s, rtc (sync_step (fun _ => 0)) (loop_start 4 46000) s /\ pcs s = [Decide; LoopTest; LoopTest; LoopTest].
Proof. apply (decision_without_samples (fun _ => 0) 4 46000); lia. Defined.
