(* ===== verification/BwTest.v ===== *)
(** * The bandwidth test ([sysdetect.c], [ddrmembw_]; run by [thread_start] of [main.c])

    Two arrays that the master thread allocates, all threads copy at once while
    they take the time, and the master frees.  The memory of the process is a
    map from addresses to blocks; an access through a null pointer, to a block
    that is not allocated or outside of a block has no value.

    The threads are those of [Sync]: the steps [InitBw], [MeasureBw] and [EndBw]
    of a thread call the functions of this file. *)

From stdpp Require Import relations.
From S2P Require Import Prelude Floats Sync.

Definition NTIMES : Z := 10.

Definition BWTEST_ARRAY_SIZE : Z := (150 * 1024 * 1024) / 8.

Definition MEGABYTE : Z := 1024 * 1024.

(** ** Memory *)

(** The blocks of the heap by address, and the two pointers; 0 is [NULL]. *)
Record membw := { heap : gmap Z (list Z); parray_one : Z; parray_two : Z }.

#[export] Instance membw_settable : Settable membw := fun r =>
  {| heap := heap r; parray_one := parray_one r; parray_two := parray_two r |}.

Abbreviation B := (ST membw).

(** What a call of [malloc] answers: nothing, or an address and what is there. *)
Definition malloc (answer : option (Z * list Z)) : B Z :=
  match answer with
  | None => mret 0
  | Some (p, junk) => modify (fun m => m <| heap ::= <[p := junk]> |>) ;; mret p
  end.

Definition free (p : Z) : B unit :=
  if p =? 0 then mret tt else
  h ← gets heap;
  match h !! p with
  | None => stop_with OutOfBounds
  | Some _ => modify (fun m => m <| heap ::= delete p |>)
  end.

(** The block a pointer points to. *)
Definition block (p : Z) : B (list Z) :=
  if p =? 0 then stop_with NullDeref else
  h ← gets heap;
  match h !! p with None => stop_with OutOfBounds | Some b => mret b end.

(** [p[i]] and [p[i] = v]. *)
Definition load (p i : Z) : B Z := b ← block p; read b i.

Definition store (p i v : Z) : B unit :=
  b ← block p;
  check_index b i ;;
  modify (fun m => m <| heap ::= <[p := aset b i v]> |>).

Section test.

(** The length of the arrays; the program has [BWTEST_ARRAY_SIZE]. *)
Context (size : Z).

Definition ddrmembw_init (m1 m2 : option (Z * list Z)) : B Z :=
  one ← malloc m1;
  modify (fun m => m <| parray_one := one |>) ;;
  if one =? 0 then mret (-1) else
  two ← malloc m2;
  modify (fun m => m <| parray_two := two |>) ;;
  if two =? 0 then free one ;; mret (-1) else
  for_each (seqZ 0 size) (fun i => store one i 1 ;; store two i 0) ;;
  mret 0.

Definition ddrmembw_deinit : B Z :=
  one ← gets parray_one;
  free one ;;
  two ← gets parray_two;
  free two ;;
  mret 0.

Definition ddrmembw_copy : B Z :=
  one ← gets parray_one;
  two ← gets parray_two;
  for_each (seqZ 0 size) (fun i => v ← load one i; store two i v) ;;
  mret 0.

Definition ddrmembw_min_time (time_array : list spec_float) : B spec_float :=
  t0 ← read time_array 0;
  if SFeqb t0 (S754_zero false) then mret (f64_of_Z (-1)) else
  t1 ← read time_array 1;
  fold_each (seqZ 1 (NTIMES - 1)) t1 (fun min i =>
    t ← read time_array i;
    mret (if SFltb t min then t else min)).

(** [ticks i] is the difference of [clock()] around the copy [i]. *)
Definition ddrmembw_measurement (ticks : Z -> Z) : B Z :=
  for_each (seqZ 0 NTIMES) (fun _ => ddrmembw_copy ;; mret tt) ;;
  let time_taken_array := map (fun i => f64_div (f64_of_Z (ticks i)) (f64_of_Z 1000000)) (seqZ 0 NTIMES) in
  min_time ← ddrmembw_min_time time_taken_array;
  if SFltb min_time (S754_zero false) then mret (-1) else
  let total_byte := 2 * BWTEST_ARRAY_SIZE * 8 in
  let bandwidth := f64_div (f64_div (f64_of_Z total_byte) min_time) (f64_of_Z MEGABYTE) in
  if SFltb bandwidth (f64_of_Z 1) then mret 0 else
  match to_s32 bandwidth with Some b => mret b | None => stop_with BadConversion end.

(** ** The threads in the test *)

(** The threads and the memory they share. *)
Record testing_threads := { threads : sync; mem : membw }.

Context (m1 m2 : option (Z * list Z)) (ticks : nat -> Z -> Z).

(** A call of thread [i] at [p] that accesses the arrays: the value it returns,
    0 where the thread makes no such call. *)
Definition test_call (i : nat) (p : pc) : B Z :=
  match p with
  | InitBw => ddrmembw_init m1 m2
  | MeasureBw => ddrmembw_measurement (ticks i)
  | EndBw => ddrmembw_deinit
  | _ => mret 0
  end.

(** A step of thread [i]: its call, then the step of [Sync] with the value the
    call returned.  When the allocation fails the process exits. *)
Definition test_step (i : nat) (s : testing_threads) : option (outcome testing_threads) :=
  if exited (threads s) then None else
  p ← pcs (threads s) !! i;
  match test_call i p (mem s) with
  | Stop e => Some (Stop e)
  | Ok (v, m) =>
      if bool_decide (p = InitBw) && (v <? 0) then Some (Ok {| threads := threads s <| exited := true |>; mem := m |})
      else t ← step_at (fun _ => v) i p (threads s); Some (Ok {| threads := t; mem := m |})
  end.

Inductive test_reaches : testing_threads -> testing_threads -> Prop :=
  | reaches_thread i s s' : test_step i s = Some (Ok s') -> test_reaches s s'
  | reaches_sigint s : test_reaches s {| threads := threads s <| quitflag := true |>; mem := mem s |}.

(** The steps of a schedule. *)
Fixpoint test_run (sched : list nat) (s : testing_threads) : option testing_threads :=
  match sched with
  | [] => Some s
  | i :: sched => match test_step i s with Some (Ok s') => test_run sched s' | _ => None end
  end.

Lemma test_run_reaches sched s s' : test_run sched s = Some s' -> rtc test_reaches s s'.
Proof.
  revert s. induction sched as [|i sched IH]; intros s; cbn; [by intros [= <-]|].
  destruct (test_step i s) as [[s1|]|] eqn:H1; [|done..]. intros H2.
  eapply rtc_l; [by apply (reaches_thread i)|]. by apply IH.
Qed.
End test.

(** ** Runs of the functions *)

Lemma insert_take_drop {A} (l1 l2 : list A) k x :
  l1 !! k = Some x -> length l2 = length l1 -> <[k := x]> (take k l1 ++ drop k l2) = take (S k) l1 ++ drop (S k) l2.
Proof.
  intros Hk Hlen. assert (Hlt := lookup_lt_Some _ _ _ Hk).
  rewrite (take_S_r _ _ _ Hk), <- app_assoc. cbn [app].
  destruct (drop k l2) as [|y l] eqn:Hd.
  { apply (f_equal length) in Hd. rewrite length_drop in Hd. cbn in Hd. lia. }
  rewrite (drop_S _ y k) in Hd.
  - injection Hd as <-. apply insert_middle. rewrite length_take. lia.
  - rewrite <- (Nat.add_0_r k), <- lookup_drop, Hd. done.
Qed.

(** The two arrays at [a1] and [a2], with these contents, over the heap [h]. *)
Definition arrays (h : gmap Z (list Z)) (a1 a2 : Z) (c1 c2 : list Z) : membw :=
  {| heap := <[a2 := c2]> (<[a1 := c1]> h); parray_one := a1; parray_two := a2 |}.

Section runs.
Context (h : gmap Z (list Z)) (a1 a2 : Z).
Context (H1 : a1 <> 0) (H2 : a2 <> 0) (H12 : a1 <> a2).

Lemma block_run p b m : p <> 0 -> heap m !! p = Some b -> block p m = Ok (b, m).
Proof.
  intros Hp Hb. unfold block. rewrite (proj2 (Z.eqb_neq _ _) Hp), bind_gets, Hb. done.
Qed.

Lemma arrays_one c1 c2 : heap (arrays h a1 a2 c1 c2) !! a1 = Some c1.
Proof. cbn. rewrite lookup_insert_ne by done. apply lookup_insert_eq. Qed.

Lemma arrays_two c1 c2 : heap (arrays h a1 a2 c1 c2) !! a2 = Some c2.
Proof. apply lookup_insert_eq. Qed.

Lemma load_one c1 c2 k x :
  c1 !! k = Some x -> load a1 (Z.of_nat k) (arrays h a1 a2 c1 c2) = Ok (x, arrays h a1 a2 c1 c2).
Proof.
  intros Hx. unfold load. rewrite (bind_Ok _ _ _ _ _ (block_run _ _ _ H1 (arrays_one c1 c2))).
  apply read_Some. unfold aget. rewrite (proj2 (Z.leb_le _ _)) by lia. by rewrite Nat2Z.id.
Qed.

Lemma aset_nat {A} (l : list A) k x : aset l (Z.of_nat k) x = <[k := x]> l.
Proof. unfold aset. rewrite (proj2 (Z.leb_le _ _)) by lia. by rewrite Nat2Z.id. Qed.

Lemma store_one c1 c2 k x :
  (k < length c1)%nat -> store a1 (Z.of_nat k) x (arrays h a1 a2 c1 c2) = Ok (tt, arrays h a1 a2 (<[k := x]> c1) c2).
Proof.
  intros Hk. unfold store. rewrite (bind_Ok _ _ _ _ _ (block_run _ _ _ H1 (arrays_one c1 c2))).
  rewrite (bind_Ok _ _ _ _ _ (check_index_Ok c1 (Z.of_nat k) _ ltac:(unfold zlen; lia))), aset_nat.
  unfold modify, arrays, set. cbn. by rewrite insert_insert_ne, insert_insert_eq by done.
Qed.

Lemma store_two c1 c2 k x :
  (k < length c2)%nat -> store a2 (Z.of_nat k) x (arrays h a1 a2 c1 c2) = Ok (tt, arrays h a1 a2 c1 (<[k := x]> c2)).
Proof.
  intros Hk. unfold store. rewrite (bind_Ok _ _ _ _ _ (block_run _ _ _ H2 (arrays_two c1 c2))).
  rewrite (bind_Ok _ _ _ _ _ (check_index_Ok c2 (Z.of_nat k) _ ltac:(unfold zlen; lia))), aset_nat.
  unfold modify, arrays, set. cbn. by rewrite insert_insert_eq.
Qed.

(** A loop over the arrays whose step [k] puts the elements [k] of [d1] and [d2]
    into them. *)
Lemma fill_run (body : Z -> B unit) d1 d2 c1 c2 k :
  (forall j, (j < k)%nat -> body (Z.of_nat j) (arrays h a1 a2 (take j d1 ++ drop j c1) (take j d2 ++ drop j c2)) =
     Ok (tt, arrays h a1 a2 (take (S j) d1 ++ drop (S j) c1) (take (S j) d2 ++ drop (S j) c2))) ->
  for_each (seqZ 0 (Z.of_nat k)) body (arrays h a1 a2 c1 c2) =
    Ok (tt, arrays h a1 a2 (take k d1 ++ drop k c1) (take k d2 ++ drop k c2)).
Proof.
  intros Hbody. induction k as [|k IH]; [done|].
  rewrite Nat2Z.inj_succ, <- Z.add_1_r, seqZ_app, for_each_app by lia.
  rewrite (bind_Ok _ _ _ _ _ (IH ltac:(intros; apply Hbody; lia))).
  change (seqZ (0 + Z.of_nat k) 1) with [Z.of_nat k]. cbn [for_each].
  by rewrite (bind_Ok _ _ _ _ _ (Hbody k ltac:(lia))).
Qed.

Lemma init_loop_run c1 c2 n :
  length c1 = n -> length c2 = n ->
  for_each (seqZ 0 (Z.of_nat n)) (fun i => store a1 i 1 ;; store a2 i 0) (arrays h a1 a2 c1 c2) =
    Ok (tt, arrays h a1 a2 (replicate n 1) (replicate n 0)).
Proof.
  intros L1 L2. rewrite (fill_run _ (replicate n 1) (replicate n 0)).
  - by rewrite !take_ge, !drop_ge, !app_nil_r by (rewrite ?length_replicate; lia).
  - intros j Hj. rewrite (bind_Ok _ _ _ _ _ (store_one (take j (replicate n 1) ++ drop j c1) _ j 1
      ltac:(rewrite length_app, length_take, length_drop, length_replicate; lia))).
    rewrite store_two by (rewrite length_app, length_take, length_drop, length_replicate; lia).
    by rewrite !insert_take_drop by (rewrite ?length_replicate; (apply lookup_replicate_2 || idtac); lia).
Qed.

Lemma copy_run c1 c2 n :
  length c1 = n -> length c2 = n ->
  for_each (seqZ 0 NTIMES) (fun _ => ddrmembw_copy (Z.of_nat n) ;; mret tt) (arrays h a1 a2 c1 c2) =
    Ok (tt, arrays h a1 a2 c1 c1).
Proof.
  intros L1 L2.
  assert (Hcopy : forall c2, length c2 = n -> ddrmembw_copy (Z.of_nat n) (arrays h a1 a2 c1 c2) = Ok (0, arrays h a1 a2 c1 c1)).
  { clear c2 L2. intros c2 L2. unfold ddrmembw_copy. rewrite !bind_gets. cbn [arrays parray_one parray_two].
    rewrite (bind_Ok _ _ _ tt (arrays h a1 a2 c1 c1)); [done|].
    rewrite (fill_run _ c1 c1).
    - by rewrite !take_ge, !drop_ge, !app_nil_r by lia.
    - intros j Hj. destruct (lookup_lt_is_Some_2 c1 j ltac:(lia)) as [x Hx]. rewrite !take_drop.
      rewrite (bind_Ok _ _ _ _ _ (load_one _ _ j x Hx)).
      rewrite store_two by (rewrite length_app, length_take, length_drop; lia).
      by rewrite insert_take_drop by (done || lia). }
  assert (Hloop : forall l c2, length c2 = n -> l <> [] ->
    for_each (A := Z) l (fun _ => ddrmembw_copy (Z.of_nat n) ;; mret tt) (arrays h a1 a2 c1 c2) = Ok (tt, arrays h a1 a2 c1 c1)).
  { induction l as [|i l IH]; intros c3 L3 Hl; [done|]. cbn [for_each].
    rewrite (bind_Ok _ _ _ tt (arrays h a1 a2 c1 c1)) by (by rewrite (bind_Ok _ _ _ _ _ (Hcopy c3 L3))).
    destruct l; [done|]. by apply IH. }
  by apply Hloop.
Qed.

Lemma free_run p b m : heap m !! p = Some b -> free p m = Ok (tt, if p =? 0 then m else m <| heap ::= delete p |>).
Proof. intros Hb. unfold free. destruct (p =? 0); [done|]. by rewrite bind_gets, Hb. Qed.

Lemma deinit_run c1 c2 :
  h !! a1 = None -> h !! a2 = None ->
  ddrmembw_deinit (arrays h a1 a2 c1 c2) = Ok (0, {| heap := h; parray_one := a1; parray_two := a2 |}).
Proof.
  intros F1 F2. unfold ddrmembw_deinit. rewrite bind_gets. cbn [arrays parray_one].
  rewrite (bind_Ok _ _ _ _ _ (free_run _ _ _ (arrays_one c1 c2))), (proj2 (Z.eqb_neq _ _) H1).
  rewrite bind_gets. cbn [set parray_two].
  set (m := _ <| heap ::= _ |>).
  assert (Hm : heap m !! a2 = Some c2) by (cbn; rewrite lookup_delete_ne by done; apply lookup_insert_eq).
  rewrite (bind_Ok _ _ _ _ _ (free_run a2 c2 m Hm)). unfold m.
  rewrite (proj2 (Z.eqb_neq _ _) H2). unfold mret, ST_ret, set. cbn. do 3 f_equal.
  rewrite (delete_insert_ne _ a1 a2) by done. rewrite delete_insert_eq.
  by rewrite delete_insert_id, delete_id.
Qed.
End runs.

(** What [malloc] promises: new blocks of the size asked for, not at [NULL]. *)
Definition fresh_block (n : nat) (h : gmap Z (list Z)) (answer : option (Z * list Z)) : Prop :=
  match answer with
  | None => True
  | Some (p, junk) => p <> 0 /\ h !! p = None /\ length junk = n
  end.

Definition fresh_blocks (n : nat) (h : gmap Z (list Z)) (m1 m2 : option (Z * list Z)) : Prop :=
  fresh_block n h m1 /\ fresh_block n (match m1 with Some (p, junk) => <[p := junk]> h | None => h end) m2.

(** The arrays of the test are allocated, the first is filled with ones. *)
Definition allocated (n : nat) (h : gmap Z (list Z)) (m1 m2 : option (Z * list Z)) (m : membw) : Prop :=
  exists p1 p2 j1 j2 c2, m1 = Some (p1, j1) /\ m2 = Some (p2, j2) /\ length c2 = n /\
    m = arrays h p1 p2 (replicate n 1) c2.

(** Both arrays hold ones. *)
Definition copied (n : nat) (h : gmap Z (list Z)) (m1 m2 : option (Z * list Z)) (m : membw) : Prop :=
  exists p1 p2 j1 j2, m1 = Some (p1, j1) /\ m2 = Some (p2, j2) /\
    m = arrays h p1 p2 (replicate n 1) (replicate n 1).

Section memory.
Context (n : nat) (h : gmap Z (list Z)) (m1 m2 : option (Z * list Z)) (Hfresh : fresh_blocks n h m1 m2).

Lemma fresh_pair p1 j1 p2 j2 :
  m1 = Some (p1, j1) -> m2 = Some (p2, j2) ->
  p1 <> 0 /\ p2 <> 0 /\ p1 <> p2 /\ h !! p1 = None /\ h !! p2 = None /\ length j1 = n /\ length j2 = n.
Proof.
  destruct Hfresh as [F1 F2]. intros -> ->. cbn in F1, F2. destruct F1 as (? & ? & ?), F2 as (? & F & ?).
  apply lookup_insert_None in F as [? ?]. done.
Qed.

Lemma init_run m :
  heap m = h ->
  exists r m', ddrmembw_init (Z.of_nat n) m1 m2 m = Ok (r, m') /\
    (r = -1 /\ heap m' = h \/ r = 0 /\ allocated n h m1 m2 m').
Proof.
  intros Hm. unfold ddrmembw_init. destruct m as [h' q1 q2]. cbn in Hm. subst h'.
  destruct m1 as [[p1 j1]|] eqn:E1.
  2: { cbn [malloc]. eexists _, _. split; [reflexivity|]. by left. }
  destruct Hfresh as [F1 F2]. cbn [fresh_block] in F1. destruct F1 as (Z1 & N1 & L1).
  unfold malloc at 1. rewrite (bind_Ok _ _ _ p1 {| heap := <[p1 := j1]> h; parray_one := q1; parray_two := q2 |}) by done.
  rewrite bind_modify, (proj2 (Z.eqb_neq _ _) Z1).
  destruct m2 as [[p2 j2]|] eqn:E2.
  - cbn [fresh_block] in F2. destruct F2 as (Z2 & N2 & L2). apply lookup_insert_None in N2 as [N2 N12].
    rewrite (bind_Ok _ _ _ p2 {| heap := <[p2 := j2]> (<[p1 := j1]> h); parray_one := p1; parray_two := q2 |}) by done.
    rewrite bind_modify, (proj2 (Z.eqb_neq _ _) Z2).
    rewrite (bind_Ok _ _ _ _ _ (init_loop_run h p1 p2 Z1 Z2 N12 j1 j2 n L1 L2)).
    eexists _, _. split; [reflexivity|]. right. split; [done|].
    exists p1, p2, j1, j2, (replicate n 0). by rewrite length_replicate.
  - cbn [malloc]. rewrite (bind_Ok _ _ _ 0 _ eq_refl), bind_modify. cbn [Z.eqb].
    set (m := _ <| parray_two := 0 |>).
    assert (Hm : heap m !! p1 = Some j1) by apply lookup_insert_eq.
    rewrite (bind_Ok _ _ _ _ _ (free_run _ _ _ Hm)), (proj2 (Z.eqb_neq _ _) Z1).
    eexists _, _. split; [reflexivity|]. left. split; [done|]. cbn. by rewrite delete_insert_id.
Qed.

Lemma min_loop_run (times : list spec_float) l acc :
  Forall (fun i => 0 <= i < zlen times) l ->
  exists t, forall m : membw, fold_each l acc (fun min i => t ← read times i; mret (if SFltb t min then t else min)) m = Ok (t, m).
Proof.
  revert acc. induction l as [|i l IH]; intros acc Hl; [by exists acc|].
  apply Forall_cons in Hl as [Hi Hl]. destruct (aget_is_Some times i Hi) as [x Hx].
  destruct (IH (if SFltb x acc then x else acc) Hl) as [t Ht]. exists t. intros m. cbn [fold_each].
  rewrite (bind_Ok _ _ _ (if SFltb x acc then x else acc) m); [apply Ht|].
  by rewrite (bind_Ok _ _ _ _ _ (read_Some _ _ _ _ Hx)).
Qed.

Lemma min_time_run (times : list spec_float) :
  zlen times = NTIMES -> exists t, forall m, ddrmembw_min_time times m = Ok (t, m).
Proof.
  intros Hl. unfold ddrmembw_min_time.
  destruct (aget_is_Some times 0) as [x0 H0]; [by rewrite Hl|].
  destruct (aget_is_Some times 1) as [x1 H1]; [by rewrite Hl|].
  destruct (min_loop_run times (seqZ 1 (NTIMES - 1)) x1) as [t Ht].
  { apply Forall_seqZ. rewrite Hl. unfold NTIMES. lia. }
  destruct (SFeqb x0 (S754_zero false)) eqn:E; [exists (f64_of_Z (-1))|exists t]; intros m;
    rewrite (bind_Ok _ _ _ _ _ (read_Some _ _ _ _ H0)), E; [done|].
  rewrite (bind_Ok _ _ _ _ _ (read_Some _ _ _ _ H1)). apply Ht.
Qed.

(** A measurement copies the first array to the second; it can only fail when
    the time it took is not a number of megabytes per second that an [int] holds. *)
Lemma measurement_run ticks m :
  allocated n h m1 m2 m ->
  exists r m', ddrmembw_measurement (Z.of_nat n) ticks m = match r with Some v => Ok (v, m') | None => Stop BadConversion end /\
    copied n h m1 m2 m'.
Proof.
  intros (p1 & p2 & j1 & j2 & c2 & E1 & E2 & L2 & ->).
  destruct (fresh_pair _ _ _ _ E1 E2) as (Z1 & Z2 & N12 & _).
  unfold ddrmembw_measurement.
  rewrite (bind_Ok _ _ _ _ _ (copy_run h p1 p2 Z1 Z2 N12 _ _ n (length_replicate n 1) L2)). cbv zeta.
  destruct (min_time_run (map (fun i => f64_div (f64_of_Z (ticks i)) (f64_of_Z 1000000)) (seqZ 0 NTIMES))) as [t Ht].
  { unfold zlen. by rewrite length_map, length_seqZ. }
  rewrite (bind_Ok _ _ _ _ _ (Ht _)). set (m' := arrays _ _ _ _ _).
  assert (Hc : copied n h m1 m2 m') by (by exists p1, p2, j1, j2).
  destruct (SFltb t _); [by exists (Some (-1)), m'|]. destruct (SFltb _ _); [by exists (Some 0), m'|].
  destruct (to_s32 _) as [b|]; [by exists (Some b), m'|by exists None, m'].
Qed.

Lemma end_run m :
  allocated n h m1 m2 m -> exists m', ddrmembw_deinit m = Ok (0, m') /\ heap m' = h.
Proof.
  intros (p1 & p2 & j1 & j2 & c2 & E1 & E2 & L2 & ->).
  destruct (fresh_pair _ _ _ _ E1 E2) as (Z1 & Z2 & N12 & F1 & F2 & _).
  eexists. split; [by apply deinit_run|done].
Qed.

Lemma copied_allocated m : copied n h m1 m2 m -> allocated n h m1 m2 m.
Proof.
  intros (p1 & p2 & j1 & j2 & E1 & E2 & ->). exists p1, p2, j1, j2, (replicate n 1). by rewrite length_replicate.
Qed.
End memory.

(** ** What holds while the threads run *)

(** Not yet counted by the flag of the test. *)
Definition early (p : pc) : bool :=
  match p with TestTarget | InitBw | AddBw => true | _ => false end.

(** The arrays exist while the master is at these places. *)
Definition holding (p : pc) : bool :=
  match p with AddBw | WaitBw | MeasureBw | SubBw | DrainBw | EndBw => true | _ => false end.

(** The master has seen the flag drained. *)
Definition drained (p : pc) : bool := negb (early p) && negb (counted p) && bool_decide (p <> DrainBw).

Section invariant.
Context (n : nat) (Hn : Z.of_nat n < 2 ^ 31 - 1).
Context (size : nat) (h : gmap Z (list Z)) (m1 m2 : option (Z * list Z)) (Hfresh : fresh_blocks size h m1 m2).
Context (ticks : nat -> Z -> Z).

(** The memory, by where the master is. *)
Definition memory_at (p : pc) (over : bool) (m : membw) : Prop :=
  if holding p && negb over then allocated size h m1 m2 m else heap m = h.

Record test_inv (s : testing_threads) : Prop := {
  ti_flag : flag_inv n (threads s);
  ti_early : forall j p, pcs (threads s) !! j = Some p -> early p = true -> Forall (fun q => past_wait q = false) (pcs (threads s));
  ti_master : forall j p, pcs (threads s) !! j = Some p -> p = InitBw \/ p = EndBw -> j = 0%nat;
  ti_target : pcs (threads s) !! 0%nat = Some TestTarget -> ddr_bw_target (threads s) = DDR_BW_AUTOTEST;
  ti_drained : forall p, pcs (threads s) !! 0%nat = Some p -> drained p = true ->
    Forall (fun q => early q = false /\ counted q = false) (pcs (threads s));
  ti_memory : forall p, pcs (threads s) !! 0%nat = Some p -> memory_at p (exited (threads s)) (mem s) }.

Lemma lookup_after {A} (l : list A) i j p q x :
  l !! i = Some q -> <[i := p]> l !! j = Some x -> i = j /\ x = p \/ l !! j = Some x.
Proof.
  intros Hi Hj. destruct (decide (i = j)) as [->|]; [|right; by rewrite list_lookup_insert_ne in Hj].
  rewrite list_lookup_insert_eq in Hj by (by eapply lookup_lt_Some). left. split; congruence.
Qed.

(** A thread past the barrier of the test found every thread counted. *)
Lemma full_flag s j q :
  flag_inv n (threads s) -> ~ ddrbwflag (threads s) < active (threads s) ->
  pcs (threads s) !! j = Some q -> counted q = true.
Proof.
  intros Hf Hge Hj. apply not_false_is_true. intros Hq. apply Hge.
  rewrite (fi_flag _ _ Hf). by apply (count_outside _ j q).
Qed.

Lemma empty_flag l : count l = 0 -> Forall (fun q => counted q = false) l.
Proof.
  induction l as [|x l IH]; intros H; [done|]. rewrite count_cons in H. pose proof (count_range l).
  unfold b2z in H. destruct (counted x) eqn:E; [lia|]. constructor; [done|]. apply IH. lia.
Qed.

Lemma test_inv_goto s t m i q p :
  test_inv s -> pcs (threads s) !! i = Some q -> pcs t = <[i := p]> (pcs (threads s)) -> flag_inv n t ->
  (past_wait p = true -> past_wait q = true \/ q = WaitBw /\ ~ ddrbwflag (threads s) < active (threads s)) ->
  (early p = true -> early q = true) -> (p = InitBw \/ p = EndBw -> i = 0%nat) -> p <> TestTarget ->
  (ddr_bw_target t = ddr_bw_target (threads s) \/ i = 0%nat \/ past_wait q = true) ->
  (i = 0%nat -> drained p = true -> drained q = true \/ q = DrainBw /\ ddrbwflag (threads s) = 0) ->
  (early p = true \/ counted p = true -> early q = true \/ counted q = true) ->
  (forall p', pcs t !! 0%nat = Some p' -> memory_at p' (exited t) m) ->
  test_inv {| threads := t; mem := m |}.
Proof.
  intros [Hf He Hm Ht Hd _] Hq Hpcs Hf' Hpast Hearly H0 Hp Htar Hdr Hcnt Hmem. split; cbn; rewrite ?Hpcs; try done.
  - intros j x Hj Hx. assert (Hj' : exists y, pcs (threads s) !! j = Some y /\ early y = true).
    { destruct (lookup_after _ _ _ _ _ _ Hq Hj) as [[<- ->]|?]; eauto. }
    destruct Hj' as (y & Hy & Hye). pose proof (He j y Hy Hye) as Hall.
    apply Forall_insert; [done|]. apply not_true_is_false. intros Hpw. destruct (Hpast Hpw) as [Hqw|[-> Hge]].
    + by rewrite (Forall_lookup_1 _ _ _ _ Hall Hq) in Hqw.
    + pose proof (full_flag s j y Hf Hge Hy). by destruct y.
  - intros j x Hj Hx. destruct (lookup_after _ _ _ _ _ _ Hq Hj) as [[<- ->]|Hj']; eauto.
  - intros Hz. destruct (lookup_after _ _ _ _ _ _ Hq Hz) as [[_ ?]|Hz']; [congruence|].
    destruct Htar as [Hsame|[Hi|Hqw]]; [rewrite Hsame; by apply Ht|subst i|].
    + rewrite list_lookup_insert_eq in Hz by (by eapply lookup_lt_Some). congruence.
    + by rewrite (Forall_lookup_1 _ _ _ _ (He _ _ Hz' eq_refl) Hq) in Hqw.
  - intros x Hz Hx. destruct (lookup_after _ _ _ _ _ _ Hq Hz) as [[-> ->]|Hz'].
    + assert (Hall : Forall (fun r => early r = false /\ counted r = false) (pcs (threads s))).
      { destruct (Hdr eq_refl Hx) as [Hqd|[-> Hzero]]; [by eapply Hd|].
        rewrite (fi_flag _ _ Hf) in Hzero. apply empty_flag in Hzero.
        apply Forall_lookup. intros k r Hr. split; [|by eapply (Forall_lookup_1 _ _ _ _ Hzero)].
        apply not_true_is_false. intros Hre. by discriminate (Forall_lookup_1 _ _ _ _ (He _ _ Hr Hre) Hq). }
      apply Forall_insert; [done|]. unfold drained in Hx. by destruct (early p), (counted p).
    + pose proof (Hd _ Hz' Hx) as Hall. apply Forall_insert; [done|].
      destruct (Forall_lookup_1 _ _ _ _ Hall Hq) as [Hqe Hqc].
      destruct (early p), (counted p); try done; naive_solver congruence.
  - intros x Hz. apply Hmem. by rewrite Hpcs.
Qed.

(** A thread that measures finds the master in the test. *)
Lemma measuring_holds s i pm :
  test_inv s -> pcs (threads s) !! i = Some MeasureBw -> pcs (threads s) !! 0%nat = Some pm -> holding pm = true.
Proof.
  intros [_ He _ _ Hd _] Hi H0. apply not_false_is_true. intros Hpm.
  destruct (early pm) eqn:Hpe; [by discriminate (Forall_lookup_1 _ _ _ _ (He _ _ H0 Hpe) Hi)|].
  assert (Hdr : drained pm = true) by (by destruct pm).
  by destruct (Forall_lookup_1 _ _ _ _ (Hd _ H0 Hdr) Hi) as [_ [=]].
Qed.

Lemma master_exists s i q : pcs (threads s) !! i = Some q -> exists pm, pcs (threads s) !! 0%nat = Some pm.
Proof. intros Hi%lookup_lt_Some. destruct (lookup_lt_is_Some_2 (pcs (threads s)) 0) as [pm ?]; [lia|eauto]. Qed.

(** The calls of a thread: they fail only in the conversion of the result, and
    leave the memory as it has to be where the thread goes next. *)
Lemma test_call_run s i q :
  test_inv s -> exited (threads s) = false -> pcs (threads s) !! i = Some q ->
  test_call (Z.of_nat size) m1 m2 ticks i q (mem s) = Stop BadConversion /\ q = MeasureBw \/
  exists v m, test_call (Z.of_nat size) m1 m2 ticks i q (mem s) = Ok (v, m) /\
    match q with
    | InitBw => i = 0%nat /\ (v = -1 /\ heap m = h \/ v = 0 /\ allocated size h m1 m2 m)
    | EndBw => i = 0%nat /\ heap m = h
    | MeasureBw => copied size h m1 m2 m
    | _ => m = mem s
    end.
Proof.
  intros Hs He Hq. destruct (master_exists _ _ _ Hq) as [pm Hpm].
  pose proof (ti_memory _ Hs pm Hpm) as Hmem. unfold memory_at in Hmem. rewrite He, andb_true_r in Hmem.
  destruct q; try (right; by eexists _, _).
  - pose proof (ti_master _ Hs i _ Hq ltac:(auto)) as ->. simplify_eq. cbn in Hmem.
    destruct (init_run size h m1 m2 Hfresh _ Hmem) as (r & m' & Hr & Hcase). right. by exists r, m'.
  - rewrite (measuring_holds s i pm Hs Hq Hpm) in Hmem.
    destruct (measurement_run size h m1 m2 Hfresh (ticks i) _ Hmem) as ([v|] & m' & Hr & Hc); [right; by exists v, m'|by left].
  - pose proof (ti_master _ Hs i _ Hq ltac:(auto)) as ->. simplify_eq. cbn in Hmem.
    destruct (end_run size h m1 m2 Hfresh _ Hmem) as (m' & Hr & Hh). right. by exists 0, m'.
Qed.

Lemma memory_same s t p' i p q :
  test_inv s -> pcs (threads s) !! i = Some q -> pcs t = <[i := p]> (pcs (threads s)) ->
  exited t = exited (threads s) -> holding p = holding q \/ i <> 0%nat ->
  pcs t !! 0%nat = Some p' -> memory_at p' (exited t) (mem s).
Proof.
  intros Hs Hq Hpcs He Hh Hp'. rewrite Hpcs in Hp'. rewrite He.
  destruct (lookup_after _ _ _ _ _ _ Hq Hp') as [[-> ->]|H0].
  - pose proof (ti_memory _ Hs q Hq) as Hmem. unfold memory_at in *. by destruct Hh as [->|].
  - by apply (ti_memory _ Hs).
Qed.

(** The steps that make no call on the arrays. *)
Lemma quiet_step s i q v t :
  test_inv s -> exited (threads s) = false -> pcs (threads s) !! i = Some q ->
  q <> InitBw -> q <> MeasureBw -> q <> EndBw -> flag_inv n t ->
  step_at (fun _ => v) i q (threads s) = Some t -> test_inv {| threads := t; mem := mem s |}.
Proof.
  intros Hs He Hq N1 N2 N3 Hf Hstep.
  assert (Htt : q = TestTarget -> i = 0%nat -> ddr_bw_target (threads s) = DDR_BW_AUTOTEST).
  { intros -> ->. by apply (ti_target _ Hs). }
  destruct q; try done; cbn -[active s32 Z.ltb Z.eqb Nat.eqb] in Hstep; repeat case_match; simplify_eq.
  all: try rewrite Z.eqb_eq in *; try rewrite Z.eqb_neq in *; try rewrite Nat.eqb_eq in *; try rewrite Nat.eqb_neq in *;
    rewrite ?negb_false_iff, ?Z.eqb_eq, ?Z.ltb_ge in *; subst.
  all: (eapply (test_inv_goto s); [exact Hs|exact Hq|reflexivity|exact Hf|..];
        [.. | intros p' Hp'; eapply (memory_same s); [exact Hs|exact Hq|reflexivity|done| |exact Hp']]);
    cbn -[active]; try done; try (by auto); try (by left); try (by intros [?|?]); try lia; auto.
  intros _. right. split; [done|]. lia.
Qed.

Lemma test_inv_step i s s' :
  test_inv s -> test_step (Z.of_nat size) m1 m2 ticks i s = Some (Ok s') -> test_inv s'.
Proof.
  intros Hs Hstep. unfold test_step in Hstep. destruct (exited (threads s)) eqn:He; [done|].
  destruct (pcs (threads s) !! i) as [q|] eqn:Hq; [|done]. cbn [mbind option_bind] in Hstep.
  destruct (test_call_run s i q Hs He Hq) as [[Hc _]|(v & m & Hc & Hm)]; rewrite Hc in Hstep; [done|].
  assert (Hflag : forall t, step_at (fun _ => v) i q (threads s) = Some t -> flag_inv n t).
  { intros t Ht. eapply (flag_inv_step (fun _ => v) n Hn _ _ (ti_flag _ Hs)), (step_thread _ i).
    by rewrite (thread_step_at _ _ q). }
  destruct (bool_decide (q = InitBw) && (v <? 0)) eqn:Hfail.
  { apply andb_true_iff in Hfail as [->%bool_decide_eq_true Hv%Z.ltb_lt]. destruct Hm as [-> [[_ Hh]|[-> _]]]; [|lia].
    injection Hstep as <-. destruct Hs as [[] ? ? ? ? Hmem]. split; try done.
    intros p Hp. cbn in Hp |- *. unfold memory_at. by rewrite andb_false_r. }
  destruct (step_at (fun _ => v) i q (threads s)) as [t|] eqn:Ht; [|done]. injection Hstep as <-.
  specialize (Hflag t eq_refl).
  destruct (decide (q = InitBw)) as [->|N1]; [|destruct (decide (q = MeasureBw)) as [->|N2]; [|destruct (decide (q = EndBw)) as [->|N3]]].
  - destruct Hm as [-> [[-> _]|[-> Hall]]]; [done|]. injection Ht as <-.
    eapply (test_inv_goto s); [exact Hs|exact Hq|reflexivity|exact Hflag|..]; try done; auto.
    intros p' Hp'. cbn in Hp'. rewrite list_lookup_insert_eq in Hp' by (by eapply lookup_lt_Some). simplify_eq.
    unfold memory_at. cbn. by rewrite He.
  - injection Ht as <-. eapply (test_inv_goto s); [exact Hs|exact Hq|reflexivity|exact Hflag|..]; try done; try (by left); try (by right; right); try (by intros [?|?]); auto.
    intros p' Hp'. cbn in Hp' |- *. unfold memory_at. rewrite He, andb_true_r.
    destruct (lookup_after _ _ _ _ _ _ Hq Hp') as [[_ ->]|H0]; [by apply copied_allocated|].
    rewrite (measuring_holds s i p' Hs Hq H0). by apply copied_allocated.
  - destruct Hm as [-> Hh]. cbn in Ht. destruct (_ =? 0); injection Ht as <-.
    + destruct Hs as [[] ? ? ? ? Hmem]. split; try done.
      intros p Hp. cbn. unfold memory_at. by rewrite andb_false_r.
    + eapply (test_inv_goto s); [exact Hs|exact Hq|reflexivity|exact Hflag|..]; try done; auto.
      intros p' Hp'. cbn in Hp'. rewrite list_lookup_insert_eq in Hp' by (by eapply lookup_lt_Some). by simplify_eq.
  - assert (Hsame : m = mem s) by (by destruct q). subst m. by eapply (quiet_step s i q v).
Qed.

(** All threads at the start of [thread_start]; nothing is allocated yet. *)
Definition test_started (m : membw) : testing_threads :=
  {| threads := started n DDR_BW_AUTOTEST; mem := m |}.

Lemma test_inv_started m : heap m = h -> test_inv (test_started m).
Proof.
  intros Hm. split; cbn.
  - apply flag_inv_started.
  - intros j p _ _. by apply Forall_replicate.
  - intros j p [-> _]%lookup_replicate [?|?]; done.
  - done.
  - by intros p [-> _]%lookup_replicate.
  - intros p [-> _]%lookup_replicate. done.
Qed.

Lemma test_inv_reachable m s :
  heap m = h -> rtc (test_reaches (Z.of_nat size) m1 m2 ticks) (test_started m) s -> test_inv s.
Proof.
  intros Hm Hsteps. pose proof (test_inv_started m Hm) as H0. revert H0.
  induction Hsteps as [|s0 s1 s Hstep _ IH]; intros H0; [done|]. apply IH.
  destruct Hstep as [i s0 s1 Hstep|s0]; [by eapply test_inv_step|]. destruct H0 as [[] ? ? ? ? ?]. by split.
Qed.
End invariant.

(** ** Property *)

(** C17: the bandwidth test is memory safe in every interleaving of the threads, for
    every number of threads, array length, outcome of the allocations and
    measured times.  No thread accesses an array before it is allocated or
    after it is freed, or outside of its bounds: a step can fail only in the
    conversion of a bandwidth that no [int] holds.  A thread that measures
    leaves the second array equal to the first.  Once the master has left the
    test, or the process exits in it, the heap is what it was before: no block
    is leaked or freed twice. *)
Theorem bandwidth_test_memory_safe n size h m1 m2 ticks m s :
  (0 < n)%nat -> Z.of_nat n < 2 ^ 31 - 1 -> fresh_blocks size h m1 m2 -> heap m = h ->
  rtc (test_reaches (Z.of_nat size) m1 m2 ticks) (test_started n m) s ->
  (forall i e, test_step (Z.of_nat size) m1 m2 ticks i s = Some (Stop e) -> e = BadConversion) /\
  (forall i s', pcs (threads s) !! i = Some MeasureBw -> test_step (Z.of_nat size) m1 m2 ticks i s = Some (Ok s') ->
     copied size h m1 m2 (mem s')) /\
  (exited (threads s) = true \/ (exists p, pcs (threads s) !! 0%nat = Some p /\ holding p = false) -> heap (mem s) = h).
Proof.
  intros Hpos Hn Hfresh Hm Hreach. pose proof (test_inv_reachable n Hn size h m1 m2 Hfresh ticks m s Hm Hreach) as Hs.
  assert (Hcall := fun i q => test_call_run n size h m1 m2 Hfresh ticks s i q Hs). unfold test_step. split; [|split].
  - intros i e Hstep. destruct (exited (threads s)) eqn:He; [done|].
    destruct (pcs (threads s) !! i) as [q|] eqn:Hq; [|done]. cbn [mbind option_bind] in Hstep.
    destruct (Hcall i q eq_refl Hq) as [[Hc _]|(v & m' & Hc & _)]; rewrite Hc in Hstep; [congruence|].
    destruct (_ && _); [done|]. by destruct (step_at _ _ _ _).
  - intros i s' Hq Hstep. destruct (exited (threads s)) eqn:He; [done|]. rewrite Hq in Hstep. cbn [mbind option_bind] in Hstep.
    destruct (Hcall i _ eq_refl Hq) as [[Hc _]|(v & m' & Hc & Hcopied)]; rewrite Hc in Hstep; [done|].
    by injection Hstep as <-.
  - intros Hover. destruct (pcs (threads s) !! 0%nat) as [p|] eqn:Hp.
    + pose proof (ti_memory _ _ _ _ _ _ Hs p Hp) as Hmem. unfold memory_at in Hmem.
      destruct Hover as [He|(p' & [= <-] & Hh)]; [by rewrite He, andb_false_r in Hmem|by rewrite Hh in Hmem].
    + apply lookup_ge_None in Hp. rewrite (fi_len _ _ (ti_flag _ _ _ _ _ _ Hs)) in Hp. lia.
Qed.

(** Two threads and arrays of three words: both measure, the master frees the
    arrays, and the target is the sum of the measurements. *)
Lemma bandwidth_test_memory_safe_witness :
  let m := {| heap := ∅; parray_one := 0; parray_two := 0 |} in
  let m1 := Some (0x1000, [9; 9; 9]) in
  let m2 := Some (0x2000, [7; 7; 7]) in
  let ticks := fun _ _ => 50000 in
  exists s, rtc (test_reaches (Z.of_nat 3) m1 m2 ticks) (test_started 2 m) s /\
    pcs (threads s) = [Setup; Setup] /\ ddr_bw_target (threads s) = 12000 /\ heap (mem s) = ∅.
Proof.
  intros m m1 m2 ticks.
  destruct (test_run (Z.of_nat 3) m1 m2 ticks [1; 1; 0; 0; 0; 1; 0; 1; 0; 1; 0; 1; 0; 0]%nat (test_started 2 m)) as [s|] eqn:Hs;
    [|vm_compute in Hs; discriminate].
  assert (Hreach := test_run_reaches _ _ _ _ _ _ _ Hs).
  destruct (bandwidth_test_memory_safe 2 3 ∅ m1 m2 ticks m s) as (_ & _ & Hheap); [lia|lia|by repeat split|reflexivity|exact Hreach|].
  vm_compute in Hs. injection Hs as <-. eexists. split; [exact Hreach|]. split; [reflexivity|]. split; [reflexivity|].
  apply Hheap. right. exists Setup. done.
Defined.
