(* ===== verification/Threads.v ===== *)
(** * The work of a tuning thread ([main.c])

    What [thread_start] does between its accesses to the shared flags (those
    are in [Sync]): opening the device and setting up the counters, sampling
    the counters of an interval, the decision of the master, and writing the
    settings.  The functions take the index of the thread in [gtinfo] and its
    local variables. *)

From S2P Require Import Prelude Floats Bitfields PerfEvents Msr KState KPmuDdr MsrDev PmuDdr RdtMbm UState Primitive Mab.

Definition PERF_INDEX_EVENT_CYCLES : Z := 5.

Definition PERF_INDEX_EVENT_INSTRUCTIONS : Z := 6.

(** The local variables of [thread_start]. *)
Record locals := {
  msr_file : Z;
  pmu_new : list Z; pmu_old : list Z;
  instructions_new : Z; instructions_old : Z;
  cpu_cycles_new : Z; cpu_cycles_old : Z;
  event_fds : list Z }.

#[export] Instance locals_settable : Settable locals := fun r =>
  {| msr_file := msr_file r; pmu_new := pmu_new r; pmu_old := pmu_old r;
     instructions_new := instructions_new r; instructions_old := instructions_old r;
     cpu_cycles_new := cpu_cycles_new r; cpu_cycles_old := cpu_cycles_old r; event_fds := event_fds r |}.

(** [CORE_IN_MODULE], C's remainder. *)
Definition core_in_module (s : ustate) (t : thread_state) : Z := Z.rem (core_id t - core_first s) 4.

Definition tunealg_of : T Z := on_dev (gets tunealg).

Section thread.
Context (log : spec_float -> spec_float) (pick : gset Z -> Z).

Definition calculate_settings : T Z :=
  alg ← tunealg_of;
  (if (alg =? 0) || (alg =? 1) then basicalg alg ;; mret tt
   else if alg =? MAB then mab log ;; mret tt
   else mret tt) ;;
  mret 0.

(** From [msr_init] to the loop; [stack] is what [event_fds] holds before. *)
Definition thread_setup (i : Z) (stack : list Z) : T locals :=
  t ← thread_at i;
  r ← on_dev (msr_init (core_id t) (hwpf_msr_value t));
  put_thread i (t <| hwpf_msr_value := snd r |>) ;;
  on_dev (msr_hwpf_write (fst r) (snd r)) ;;
  on_dev (msr_enable_fixed (fst r)) ;;
  meth ← gets pmu_method;
  n ← gets num_events;
  fds ← (if meth =? PMU_RAW then on_dev (pmu_core_config (fst r)) ;; mret stack
         else if meth =? PMU_PERF then
           x ← on_perf (perf_init pick stack n (core_id t)); mret (snd x)
         else mret stack);
  mret {| msr_file := fst r; pmu_new := replicate 8 0; pmu_old := replicate 8 0;
          instructions_new := 0; instructions_old := 0; cpu_cycles_new := 0; cpu_cycles_old := 0;
          event_fds := fds |}.

(** Reading the counters, by either method. *)
Definition read_pmu (l : locals) : T locals :=
  meth ← gets pmu_method;
  if meth =? PMU_RAW then
    r ← on_dev (pmu_core_read (msr_file l) (pmu_new l) (instructions_new l) (cpu_cycles_new l));
    let '(_, result, inst, cyc) := r in
    mret (l <| pmu_new := result |> <| instructions_new := inst |> <| cpu_cycles_new := cyc |>)
  else if meth =? PMU_PERF then
    n ← gets num_events;
    r ← on_perf (perf_read (event_fds l) (pmu_new l) n);
    inst ← read (snd r) PERF_INDEX_EVENT_INSTRUCTIONS;
    cyc ← read (snd r) PERF_INDEX_EVENT_CYCLES;
    mret (l <| pmu_new := snd r |> <| instructions_new := inst |> <| cpu_cycles_new := cyc |>)
  else mret l.

(** [a[i] = b[i]] for the counters, and the differences. *)
Definition copy_counters (a b : list Z) : list Z := take 7 b ++ drop 7 a.

Definition deltas (new old : list Z) : list Z := zip_with (fun x y => u64 (x - y)) (take 7 new) (take 7 old).

(** The body of the loop up to the increment of [syncflag]. *)
Definition thread_sample (i : Z) (l : locals) : T locals :=
  alg ← tunealg_of;
  let l := if negb (alg =? MAB) then l <| pmu_old := copy_counters (pmu_old l) (pmu_new l) |>
           else l <| instructions_old := instructions_new l |> <| cpu_cycles_old := cpu_cycles_new l |> in
  l ← read_pmu l;
  t ← thread_at i;
  (if negb (alg =? MAB) then put_thread i (t <| pmu_result := deltas (pmu_new l) (pmu_old l) |>)
   else put_thread i (t <| instructions_retired := u64 (instructions_new l - instructions_old l) |>
                        <| UState.cpu_cycles := u64 (cpu_cycles_new l - cpu_cycles_old l) |>)) ;;
  mret l.

(** The end of the body: writing the settings of a module. *)
Definition thread_apply (i : Z) (l : locals) : T unit :=
  t ← thread_at i;
  s ← get_state;
  if (core_in_module s t =? 0) && (hwpf_msr_dirty t =? 1) then
    put_thread i (t <| hwpf_msr_dirty := 0 |>) ;;
    alg ← tunealg_of;
    table ← (if alg =? MAB then read (hwpf_msr_values (arms s)) (arm (mstate s)) else mret (hwpf_msr_value t));
    on_dev (msr_hwpf_write (msr_file l) table) ;;
    mret tt
  else mret tt.

(** After the loop. *)
Definition thread_finish (l : locals) : T Z :=
  meth ← gets pmu_method;
  n ← gets num_events;
  (if meth =? PMU_PERF then on_perf (perf_deinit (event_fds l) n) ;; mret tt else mret tt) ;;
  on_dev (close_fd (msr_file l)) ;;
  mret 0.
End thread.

(** ** Applying the settings *)

(** The registers of [core] hold the words of [table]. *)
Definition holds_table (p : proc) (core : Z) (table : list Z) : Prop :=
  (forall j x, 0 <= j < 5 -> aget table j = Some x -> regs p !! (core, HWPF_MSR_BASE + j) = Some x) /\
  (forall x, aget table 5 = Some x -> regs p !! (core, HWPF_MSR_0X1A4) = Some x).

(** The table a thread writes. *)
Definition chosen_table (s : ustate) (t : thread_state) : option (list Z) :=
  if tunealg (dev s) =? MAB then aget (hwpf_msr_values (arms s)) (arm (mstate s)) else Some (hwpf_msr_value t).

Lemma tunealg_of_Ok s : tunealg_of s = Ok (tunealg (dev s), s).
Proof. unfold tunealg_of, on_dev, zoom, gets. by destruct s. Qed.

Lemma thread_apply_run i l s t core table :
  aget (gtinfo s) i = Some t -> core_in_module s t = 0 -> hwpf_msr_dirty t = 1 ->
  chosen_table s t = Some table -> zlen table = HWPF_MSR_FIELDS ->
  fds (dev s) !! msr_file l = Some core -> granted 6 (ios (dev s)) = 6%nat ->
  let d := dev s <| regs ::= wrote core (hwpf_writes table) |> <| ios ::= drop 6 |> in
  thread_apply i l s = Ok (tt, s <| gtinfo := aset (gtinfo s) i (t <| hwpf_msr_dirty := 0 |>) |> <| dev := d |>) /\
  holds_table d core table.
Proof.
  intros Ht Hmod Hdirty Htab Hlen Hfd Hg d. pose proof (aget_Some_range _ _ _ Ht) as Hr.
  unfold thread_apply. rewrite (bind_Ok _ _ s t s) by by apply thread_at_Some.
  rewrite (bind_Ok _ _ s s s) by done. rewrite Hmod, Hdirty. cbn [Z.eqb andb Pos.eqb].
  rewrite (bind_Ok _ _ _ _ _ (put_thread_Ok i _ s Hr)). set (s1 := s <| gtinfo := _ |>).
  rewrite (bind_Ok _ _ _ _ _ (tunealg_of_Ok s1)). change (tunealg (dev s1)) with (tunealg (dev s)).
  rewrite (bind_Ok _ _ s1 table s1).
  - assert (Hrun : msr_hwpf_write (msr_file l) table (dev s1) = Ok (0, dev s1 <| regs ::= wrote core (hwpf_writes table) |>
      <| ios ::= drop 6 |>)).
    { change (dev s1) with (dev s). rewrite (hwpf_write_run _ core) by done. rewrite Hg. rewrite decide_True by done.
      by rewrite (take_ge (hwpf_writes table)). }
    rewrite (bind_Ok _ _ _ _ _ (on_dev_Ok _ s1 _ _ Hrun)). split; [reflexivity|].
    destruct (wrote_hwpf core table (regs (dev s)) Hlen) as [H1 H2]. by split.
  - unfold chosen_table in Htab. destruct (tunealg (dev s) =? MAB); [by apply read_Some|by simplify_eq].
Qed.

(** What the last part of a round writes: the first core of a module, when its
    settings have changed, writes the six words of the settings (its own, or
    those of the bandit's arm) to its MSRs and clears the mark; any other
    thread leaves the state as it is. *)
Theorem thread_apply_spec i l s t :
  aget (gtinfo s) i = Some t ->
  (core_in_module s t <> 0 \/ hwpf_msr_dirty t <> 1 -> thread_apply i l s = Ok (tt, s)) /\
  (core_in_module s t = 0 -> hwpf_msr_dirty t = 1 -> forall core table,
    chosen_table s t = Some table -> zlen table = HWPF_MSR_FIELDS ->
    fds (dev s) !! msr_file l = Some core -> granted 6 (ios (dev s)) = 6%nat ->
    exists d, thread_apply i l s =
        Ok (tt, s <| gtinfo := aset (gtinfo s) i (t <| hwpf_msr_dirty := 0 |>) |> <| dev := d |>) /\
      holds_table d core table).
Proof.
  intros Ht. split.
  - intros Hno. unfold thread_apply. rewrite (bind_Ok _ _ s t s) by by apply thread_at_Some.
    rewrite (bind_Ok _ _ s s s) by done.
    destruct (Z.eqb_spec (core_in_module s t) 0), (Z.eqb_spec (hwpf_msr_dirty t) 1); cbn [andb]; try done. lia.
  - intros Hm Hd core table Htab Hlen Hfd Hg.
    destruct (thread_apply_run i l s t core table) as (Hrun & Hh); [done..|]. by eexists.
Qed.

(** C7: a round of algorithm 0 reaches the hardware, from the second round on, with
    RDT off and a device that takes all six writes.  The decision of the master
    gives both thresholds of the first core of a module their next value for the
    bandwidth measured; the core is marked when one of them moved or when it was
    marked before, and otherwise not.  When it is marked, applying the settings puts
    its whole table into its MSRs, with both thresholds in the word of MSR 0x1320, and
    clears the mark; when it is not, nothing is written. *)
Theorem tuning_reaches_hardware log s bw d1 wr d2 now rest i t l core :
  threads_wf s -> 0 <= i < active_threads s -> active_threads s <= MAX_THREADS -> rdt_enabled s = 0 -> time_old s <> 0 ->
  tunealg (dev s) = 0 ->
  pmu_ddr DDR_PMU_RD (mem s) = Ok (bw, d1) -> pmu_ddr DDR_PMU_WR d1 = Ok (wr, d2) ->
  clocks s = now :: rest ->
  let k := band_factor (rd_percent bw (ddr_bw_target s) (seconds (u64 now) (time_old s))) in
  step_defined (aggr s) k ->
  aget (gtinfo s) i = Some t -> Z.rem (core_id t - core_first s) 4 = 0 ->
  fds (dev s) !! msr_file l = Some core -> granted 6 (ios (dev s)) = 6%nat ->
  let l2 := msr_get_l2xq (hwpf_msr_value t) in
  let l3 := msr_get_l3xq (hwpf_msr_value t) in
  exists s1 t1 v2 v3, calculate_settings log s = Ok (0, s1) /\ aget (gtinfo s1) i = Some t1 /\
    next_value (aggr s) k L2XQ_MAX l2 = Some v2 /\ next_value (aggr s) k L3XQ_MAX l3 = Some v3 /\
    (hwpf_msr_dirty t1 = 1 <-> hwpf_msr_dirty t = 1 \/ v2 <> l2 \/ v3 <> l3) /\
    (hwpf_msr_dirty t1 <> 1 -> thread_apply i l s1 = Ok (tt, s1)) /\
    (hwpf_msr_dirty t1 = 1 ->
      exists s2 w, thread_apply i l s1 = Ok (tt, s2) /\ holds_table (dev s2) core (hwpf_msr_value t1) /\
        regs (dev s2) !! (core, HWPF_MSR_BASE) = Some w /\ msr_get_l2xq [w] = v2 /\ msr_get_l3xq [w] = v3 /\
        aget (gtinfo s2) i = Some (t1 <| hwpf_msr_dirty := 0 |>)).
Proof.
  intros Hwf Hi Hmax Hrdt Hold Halg Hrd Hwr Hclk k Hd Ht Hmod Hfd Hg l2 l3.
  assert (Hn : 0 <= active_threads s <= MAX_THREADS) by lia.
  pose proof (basicalg_xq_run s bw d1 wr d2 now rest Hwf Hn Hrdt Hold Hrd Hwr ltac:(by rewrite Hclk) ltac:(by rewrite Hclk) Hd) as Hrun.
  destruct (xq_thread s k i t Hwf Hn Hd Ht) as (t1 & Ht1 & Htw & Htu).
  rewrite (proj2 (Z.ltb_lt i (active_threads s))) in Htu by lia.
  set (s1 := _ <| gtinfo := _ |>) in Hrun. change (aget (gtinfo s1) i = Some t1) in Ht1.
  destruct Htu as (Ha & Hb & _ & _ & _ & Hdirty). cbn [acc_get acc_l2xq acc_l3xq] in Ha, Hb, Hdirty.
  set (v2 := msr_get_l2xq (hwpf_msr_value t1)) in *. set (v3 := msr_get_l3xq (hwpf_msr_value t1)) in *.
  assert (Hcore : core_id t1 = core_id t).
  { revert Ht1. unfold s1. cbn [gtinfo Prelude.set]. change (gtinfo (Prelude.set gtinfo _ _)) with
      (map (moved2 acc_l2xq acc_l3xq (aggr s) k L2XQ_MAX L3XQ_MAX) (take (Z.to_nat (active_threads s)) (gtinfo s)) ++ drop (Z.to_nat (active_threads s)) (gtinfo s)).
    rewrite (map_prefix_at _ _ _ i t); [|destruct Hwf as [Hl _]; rewrite Hl; lia|done]. intros [= <-].
    rewrite Z2Nat.id by lia. rewrite (proj2 (Z.ltb_lt i _)) by lia. unfold moved2, moved. by repeat case_match. }
  exists s1, t1, v2, v3. split_and!; try done.
  - unfold calculate_settings. rewrite (bind_Ok _ _ _ _ _ (tunealg_of_Ok s)), Halg. cbn [Z.eqb orb].
    rewrite (bind_Ok _ _ s tt s1); [done|]. by rewrite (bind_Ok _ _ _ _ _ Hrun).
  - rewrite Hdirty. unfold l2, l3. destruct (Z.eqb_spec (msr_get_l2xq (hwpf_msr_value t)) v2),
      (Z.eqb_spec (msr_get_l3xq (hwpf_msr_value t)) v3); cbn [andb]; split; intros; intuition congruence.
  - intros Hno. apply (proj1 (thread_apply_spec i l s1 t1 Ht1)). by right.
  - intros Hmarked. destruct (thread_apply_run i l s1 t1 core (hwpf_msr_value t1)) as (Happ & Hh); try done.
    { unfold core_in_module. by rewrite Hcore. }
    { unfold chosen_table. change (tunealg (dev s1)) with (tunealg (dev s)). by rewrite Halg. }
    { apply Htw. }
    destruct (aget_is_Some (hwpf_msr_value t1) 0) as [w Hw].
    { destruct Htw as [[Hl _] _]. rewrite Hl. by vm_compute. }
    assert (Hget : forall n, union_get [w] 0 msr1320 n = union_get (hwpf_msr_value t1) 0 msr1320 n).
    { intros n. unfold union_get. by rewrite Hw. }
    eexists _, w. split; [exact Happ|]. split; [exact Hh|]. split; [|split; [apply Hget|split; [apply Hget|]]].
    + by rewrite <- (proj1 Hh 0 w); [rewrite Z.add_0_r| |].
    + apply aget_aset_eq. by eapply aget_Some_range.
Qed.

(** The state of [tuner_state], with the device of core 0 open. *)
Definition tuning_state : ustate := tuner_state <| dev := dev0 <| fds := {[3 := 0]} |> |>.

Definition tuning_locals : locals :=
  {| msr_file := 3; pmu_new := replicate 8 0; pmu_old := replicate 8 0; instructions_new := 0; instructions_old := 0;
     cpu_cycles_new := 0; cpu_cycles_old := 0; event_fds := replicate 8 0 |}.

Lemma thread_apply_spec_witness :
  let t := thread_zero <| hwpf_msr_dirty := 1 |> in
  let s := tuning_state <| gtinfo := [t] |> in
  exists d, thread_apply 0 tuning_locals s =
      Ok (tt, s <| gtinfo := aset (gtinfo s) 0 (t <| hwpf_msr_dirty := 0 |>) |> <| dev := d |>) /\
    holds_table d 0 (replicate 6 0).
Proof.
  intros t s. apply (proj2 (thread_apply_spec 0 tuning_locals s t eq_refl)); reflexivity.
Defined.

Lemma tuning_reaches_hardware_witness :
  exists s1 s2 w, calculate_settings (fun x => x) tuning_state = Ok (0, s1) /\
    thread_apply 0 tuning_locals s1 = Ok (tt, s2) /\
    regs (dev s2) !! (0, HWPF_MSR_BASE) = Some w /\ msr_get_l2xq [w] = 8.
Proof.
  destruct (pmu_ddr DDR_PMU_RD (mem tuning_state)) as [[bw d1]|] eqn:Hrd; [|vm_compute in Hrd; discriminate].
  assert (Hbw : bw = 2688) by (vm_compute in Hrd; injection Hrd as <- _; reflexivity).
  destruct (pmu_ddr DDR_PMU_WR d1) as [[wr d2]|] eqn:Hwr;
    [|vm_compute in Hrd; injection Hrd as _ <-; vm_compute in Hwr; discriminate].
  destruct (tuning_reaches_hardware (fun x => x) tuning_state bw d1 wr d2 1001 [] 0 thread_zero tuning_locals 0)
    as (s1 & t1 & v2 & v3 & H1 & _ & H2 & _ & Hm & _ & Happ).
  - apply threads_wf_ustate0.
  - unfold active_threads. cbn. lia.
  - unfold active_threads, MAX_THREADS. cbn. lia.
  - reflexivity.
  - discriminate.
  - reflexivity.
  - exact Hrd.
  - exact Hwr.
  - reflexivity.
  - rewrite Hbw. intros z Hz. vm_compute in Hz. injection Hz as <-. eexists. vm_compute. reflexivity.
  - reflexivity.
  - reflexivity.
  - vm_compute. reflexivity.
  - reflexivity.
  - rewrite Hbw in H2. vm_compute in H2. injection H2 as <-.
    destruct Happ as (s2 & w & H3 & _ & H4 & H5 & _).
    { apply Hm. right. left. vm_compute. discriminate. }
    exists s1, s2, w. split; [exact H1|]. split; [exact H3|]. split; [exact H4|exact H5].
Defined.
