(* ===== verification/UserMode.v ===== *)
(** * The tuning program as a whole ([main.c], user mode)

    The end of [main] creates one thread per core; the threads interleave as in
    [Sync], and between two accesses to the shared flags a thread does the work
    of [Threads].  The state is the flags, the globals and devices ([ustate])
    and the local variables of each thread.  A step of a thread runs its work
    as a whole; the bandwidth test before the loop is in [BwTest].

    What the threads ask of a tuning algorithm is the class [Tuner]; [Tuners] has
    the instances.  For any tuner that satisfies it, whatever the schedule, no
    thread fails, and the prefetcher MSRs of every module hold the settings the
    tuner has chosen for it, or are marked to be written. *)

From stdpp Require Import relations.
From S2P Require Import Prelude Floats Bitfields PerfEvents Msr KState KPmuDdr MsrDev PmuDdr RdtMbm UState Primitive Mab MabSetup Sync Threads.

(** ** The program *)

(** The loop of [main] that fills [gtinfo] and creates the threads. *)
Definition create_threads : T unit :=
  s ← get_state;
  for_each (seqZ 0 (UState.core_last s - UState.core_first s + 1)) (fun tnum =>
    t ← thread_at tnum;
    put_thread tnum (t <| core_id := UState.core_first s + tnum |>)).

(** From the initialisation of the algorithm to the threads. *)
Definition start_tuners (parse : list Z -> option (string -> option item)) (f : option file)
    (calloc_ipc calloc_sd : bool) : T unit :=
  alg ← tunealg_of;
  n ← gets active_threads;
  (if alg =? MAB then mab_init parse f calloc_ipc calloc_sd n else mret tt) ;;
  create_threads.

(** The handler of [SIGINT]; it also sets [quitflag]. *)
Definition sigintHandler : T unit :=
  alg ← tunealg_of;
  m ← gets mstate;
  (if (alg =? MAB) && ((dynamic_sd m =? ON) || (dynamic_sd m =? STEP)) then
     modify_mab (fun m => m <| ipc_buffer := None |> <| sd_buffer := None |>)
   else mret tt) ;;
  rdt ← gets rdt_enabled;
  if negb (rdt =? 0) then on_dev rdt_mbm_reset ;; mret tt else mret tt.

(** The end of [main], when the thread of the first core has ended; closing
    [/dev/mem] changes nothing that is modelled. *)
Definition main_end : T Z := on_dev rdt_mbm_reset ;; on_mem pcie_deinit ;; mret 0.

Record program := { flags : sync; world : ustate; frames : list (option locals) }.

Section program.
Context (log : spec_float -> spec_float) (pick : gset Z -> Z) (stack : list Z) (measurement : nat -> Z).

(** What thread [i] does at [p], with its local variables before and after. *)
Definition work (i : nat) (p : pc) (quit : bool) (f : option locals) : T (option locals) :=
  match p, f with
  | Setup, _ => l ← thread_setup pick (Z.of_nat i) stack; mret (Some l)
  | Sample, Some l => l ← thread_sample (Z.of_nat i) l; mret (Some l)
  | Decide, _ => calculate_settings log ;; mret f
  | WriteMsrs, Some l => thread_apply (Z.of_nat i) l ;; mret f
  | LoopTest, Some l => if quit then thread_finish l ;; mret None else mret f
  | (Sample | WriteMsrs | LoopTest), None => stop_with NullDeref
  | _, _ => mret f
  end.

(** A step of thread [i]; the target of the test is a global of the program. *)
Definition program_step (i : nat) (s : program) : option (outcome program) :=
  p ← pcs (flags s) !! i;
  fl ← thread_step measurement i (flags s);
  match work i p (quitflag (flags s)) (mjoin (frames s !! i))
          (world s <| UState.ddr_bw_target := Sync.ddr_bw_target (flags s) |>) with
  | Stop e => Some (Stop e)
  | Ok (f, w) => Some (Ok {| flags := fl; world := w; frames := <[i := f]> (frames s) |})
  end.

(** A step of a thread or, in runs with interrupts, a signal. *)
Inductive program_reaches (interrupts : bool) : program -> program -> Prop :=
  | program_thread i s s' : program_step i s = Some (Ok s') -> program_reaches interrupts s s'
  | program_sigint s w : interrupts = true -> sigintHandler (world s) = Ok (tt, w) ->
      program_reaches interrupts s {| flags := flags s <| quitflag := true |>; world := w; frames := frames s |}.

(** The steps of a schedule. *)
Fixpoint program_run (sched : list nat) (s : program) : option program :=
  match sched with
  | [] => Some s
  | i :: sched => match program_step i s with Some (Ok s') => program_run sched s' | _ => None end
  end.

Lemma program_run_reaches interrupts sched s s' : program_run sched s = Some s' -> rtc (program_reaches interrupts) s s'.
Proof.
  revert s. induction sched as [|i sched IH]; intros s; cbn [program_run]; [by intros [= <-]|].
  destruct (program_step i s) as [[s1|]|] eqn:H1; [|done..]. intros H2.
  eapply rtc_l; [by apply (program_thread _ i)|]. by apply IH.
Qed.
End program.

(** The threads as [main] has created them. *)
Definition launched (w : ustate) : program :=
  let n := Z.to_nat (active_threads w) in
  {| flags := started n (UState.ddr_bw_target w); world := w; frames := replicate n None |}.

(** ** Devices that answer *)

Section devices.
Context (core fd : Z).

Lemma granted_nil n : granted n [] = n.
Proof. by destruct n. Qed.

Lemma ios_drop_nil n p : ios p = [] -> p <| ios ::= drop n |> = p.
Proof. destruct p. cbn. intros ->. unfold set. cbn. by rewrite drop_nil. Qed.

Lemma write_all_quiet ws p :
  fds p !! fd = Some core -> ios p = [] -> Forall (fun w => is_Some w.1) ws ->
  write_all fd ws p = Ok (true, p <| regs ::= wrote core ws |>).
Proof.
  intros Hfd Hio Hws. rewrite (write_all_run fd core ws p Hfd Hws). rewrite Hio, granted_nil.
  rewrite bool_decide_true by done. do 2 f_equal. rewrite take_ge by done.
  destruct p. cbn in Hio. subst. unfold set. cbn. by rewrite drop_nil.
Qed.

(** Registers a list of writes does not touch. *)
Lemma wrote_other ws r c a :
  c <> core \/ Forall (fun w => w.2 <> a) ws -> wrote core ws r !! (c, a) = r !! (c, a).
Proof.
  intros Ho. revert r. unfold wrote. induction ws as [|w ws IH]; intros r; [done|]. cbn. rewrite IH.
  - apply lookup_insert_ne. intros [= <- <-]. destruct Ho as [?|Ho]; [done|]. by apply Forall_cons in Ho as [? _].
  - destruct Ho as [?|Ho]; [by left|right]. by apply Forall_cons in Ho as [_ ?].
Qed.
End devices.

(** The prefetcher registers. *)
Definition hwpf_reg (a : Z) : Prop := HWPF_MSR_BASE <= a < HWPF_MSR_BASE + 5 \/ a = HWPF_MSR_0X1A4.

(** Only registers of [core] have changed. *)
Record touched (core : Z) (p p' : proc) : Prop := {
  to_rest : p' = p <| regs := regs p' |>;
  to_others : forall c a, c <> core -> regs p' !! (c, a) = regs p !! (c, a) }.

(** ... and none of its prefetcher registers. *)
Definition hwpf_kept (core : Z) (p p' : proc) : Prop :=
  forall a, hwpf_reg a -> regs p' !! (core, a) = regs p !! (core, a).

Lemma touched_trans core p1 p2 p3 : touched core p1 p2 -> touched core p2 p3 -> touched core p1 p3.
Proof.
  intros [H1 O1] [H2 O2]. split; [rewrite H2, H1; by destruct p1|].
  intros c a Hc. by rewrite O2, O1.
Qed.

Lemma touched_wrote core ws p : touched core p (p <| regs ::= wrote core ws |>).
Proof. split; [by destruct p|]. intros c a Hc. cbn. apply wrote_other. by left. Qed.

Lemma holds_table_kept core p p' t : hwpf_kept core p p' -> holds_table p core t -> holds_table p' core t.
Proof.
  intros Hk [H1 H2]. split.
  - intros j x Hj Hx. rewrite Hk by (left; lia). by apply H1.
  - intros x Hx. rewrite Hk by by right. by apply H2.
Qed.

Lemma holds_table_others core c p p' t : touched core p p' -> c <> core -> holds_table p c t -> holds_table p' c t.
Proof.
  intros [_ Ho] Hc [H1 H2]. split; [intros j x Hj Hx|intros x Hx]; rewrite Ho by done; auto.
Qed.

(** A write of registers other than the prefetchers'. *)
Lemma other_writes core fd ws p :
  fds p !! fd = Some core -> ios p = [] -> Forall (fun w => is_Some w.1 /\ w.2 < 0x1A4 \/ is_Some w.1 /\ 0x1A4 < w.2 < 0x1320) ws ->
  exists p', write_all fd ws p = Ok (true, p') /\ touched core p p' /\ hwpf_kept core p p'.
Proof.
  intros Hfd Hio Hws. eexists. split; [apply (write_all_quiet core); [done..|]|].
  { eapply Forall_impl; [exact Hws|]. naive_solver. }
  split; [apply touched_wrote|]. intros a Ha. cbn. apply wrote_other. right. eapply Forall_impl; [exact Hws|].
  unfold hwpf_reg, HWPF_MSR_BASE, HWPF_MSR_0X1A4 in Ha. intros w Hw. cbn in *. destruct Hw as [[_ ?]|[_ ?]]; lia.
Qed.

Lemma touched_fds core p p' fd : touched core p p' -> fds p' !! fd = fds p !! fd.
Proof. intros [-> _]. by destruct p. Qed.

Lemma touched_ios core p p' : touched core p p' -> ios p' = ios p.
Proof. intros [-> _]. by destruct p. Qed.

Lemma enable_fixed_run core fd p :
  fds p !! fd = Some core -> ios p = [] ->
  exists r p', msr_enable_fixed fd p = Ok (r, p') /\ touched core p p' /\ hwpf_kept core p p'.
Proof.
  intros Hfd Hio. unfold msr_enable_fixed.
  destruct (other_writes core fd [(Some 0x33, IA32_FIXED_CTR_CTRL); (Some 0, MSR_FIXED_CTR0); (Some 0, MSR_FIXED_CTR1)] p)
    as (p' & Hrun & Ht & Hk); [done..| |].
  { repeat (apply Forall_cons; split; [right; split; [by eexists|by vm_compute]|]). done. }
  rewrite (bind_Ok _ _ _ _ _ Hrun). by exists 0, p'.
Qed.

Lemma corepmu_setup_run core fd event p :
  fds p !! fd = Some core -> ios p = [] -> 7 <= zlen event ->
  exists r p', msr_corepmu_setup fd 7 event p = Ok (r, p') /\ touched core p p' /\ hwpf_kept core p p'.
Proof.
  intros Hfd Hio Hl. unfold msr_corepmu_setup. cbn [Z.ltb Z.compare Pos.compare Pos.compare_cont PMU_COUNTERS].
  destruct (other_writes core fd (table_writes event 7 PMU_PERFEVTSEL0) p) as (p' & Hrun & Ht & Hk); [done..| |].
  { unfold table_writes. apply Forall_map, Forall_seqZ. intros i Hi. left. split; [|unfold PMU_PERFEVTSEL0; cbn; lia].
    cbn. destruct (aget_is_Some event i) as [x Hx]; [lia|by exists x]. }
  rewrite (bind_Ok _ _ _ _ _ Hrun). by exists 0, p'.
Qed.

Lemma core_config_run core fd p :
  fds p !! fd = Some core -> ios p = [] ->
  exists r p', pmu_core_config fd p = Ok (r, p') /\ touched core p p' /\ hwpf_kept core p p'.
Proof.
  intros Hfd Hio. unfold pmu_core_config, pmu_core_clear, PMU_COUNTERS, PMU_CORE_EVENT_COUNT.
  destruct (corepmu_setup_run core fd (replicate 20 0) p) as (r1 & p1 & H1 & T1 & K1); [done..|].
  destruct (other_writes core fd (table_writes (replicate 7 0) 7 PMU_PMC0) p1) as (p2 & H2 & T2 & K2).
  { by rewrite (touched_fds core p). } { by rewrite (touched_ios core p). }
  { unfold table_writes. apply Forall_map, Forall_seqZ. intros i Hi. left. split; [|unfold PMU_PMC0; cbn; lia].
    cbn. destruct (aget_is_Some (replicate 7 0) i) as [x Hx]; [done|by exists x]. }
  pose proof (touched_trans _ _ _ _ T1 T2) as T12.
  destruct (corepmu_setup_run core fd core_events p2) as (r3 & p3 & H3 & T3 & K3); [|by rewrite (touched_ios core p)|done|].
  { by rewrite (touched_fds core p). }
  exists 0, p3. split; [|split; [by eapply touched_trans|intros a Ha; by rewrite K3, K2, K1]].
  rewrite (bind_Ok _ _ _ (if true then 0 else -1) p2); [by rewrite (bind_Ok _ _ _ _ _ H3)|].
  by rewrite (bind_Ok _ _ _ _ _ H1), (bind_Ok _ _ _ _ _ H2).
Qed.

(** Opening the device of a core and reading its prefetcher registers. *)
Lemma aset_fold_table (f : Z -> Z) l t :
  (forall i, in_u 64 (f i)) -> Forall (in_u 64) t ->
  zlen (foldl (fun t i => aset t i (f i)) t l) = zlen t /\ Forall (in_u 64) (foldl (fun t i => aset t i (f i)) t l).
Proof.
  intros Hf. revert t. induction l as [|i l IH]; intros t Ht; [done|]. cbn.
  destruct (IH (aset t i (f i))) as [H1 H2]; [by apply Forall_aset|]. by rewrite H1, zlen_aset.
Qed.

Definition opened (core : Z) (p : proc) : proc :=
  p <| fds ::= <[free_fd p := core]> |> <| msr_file_id ::= fun ids => aset ids core (free_fd p) |>.

Lemma msr_init_open core t p :
  aget (msr_file_id p) core = Some 0 -> 0 < low_fd p -> ios p = [] -> MsrDev.opens p = [] -> msr_table t ->
  exists t', msr_table t' /\ msr_init core t p = Ok ((free_fd p, t'), opened core p).
Proof.
  intros Hid Hfd Hio Hop [Hl Ht]. unfold msr_init. rewrite bind_gets, (bind_Ok _ _ _ _ _ (read_Some _ _ _ _ Hid)). cbn [Z.eqb negb].
  destruct (free_fd_spec p) as (_ & Hlow & _).
  set (p1 := p <| fds ::= <[free_fd p := core]> |>).
  rewrite (bind_Ok _ _ _ (free_fd p) p1).
  2: { unfold msr_open. rewrite (bind_Ok _ _ _ (free_fd p) p1).
       - by rewrite (proj2 (Z.ltb_ge _ _)) by lia.
       - unfold open_msr. rewrite Hop. unfold p1. destruct p. cbn in Hop. by subst. }
  assert (Hopen : fds p1 !! free_fd p = Some core) by apply lookup_insert_eq.
  assert (Hio1 : ios p1 = []) by done.
  assert (Hrun := read_table_run (free_fd p) core HWPF_MSR_BASE (seqZ 0 (HWPF_MSR_FIELDS - 1)) t p1 Hopen
    ltac:(by rewrite Hio1, granted_nil) hwpf_plain).
  rewrite ios_drop_nil in Hrun by done. rewrite (bind_Ok _ _ _ _ _ Hrun), bind_modify.
  set (f i := u64 (default 0 (regs p1 !! (core, HWPF_MSR_BASE + i)))).
  set (p2 := p1 <| msr_file_id ::= _ |>).
  assert (Hread := pread_ok (free_fd p) HWPF_MSR_0X1A4 core p2 ltac:(by split) Hopen ltac:(by rewrite (Hio1 : ios p2 = []))).
  destruct (aset_fold_table f (seqZ 0 (HWPF_MSR_FIELDS - 1)) t (fun i => u64_range _) Ht) as [Hl' Ht'].
  exists (aset (foldl (fun t i => aset t i (f i)) t (seqZ 0 (HWPF_MSR_FIELDS - 1))) (HWPF_MSR_FIELDS - 1)
    (u64 (default 0 (regs p2 !! (core, HWPF_MSR_0X1A4))))). split.
  - split; [by rewrite zlen_aset, Hl'|]. apply Forall_aset; [done|apply u64_range].
  - rewrite (bind_Ok _ _ _ _ _ Hread). cbn [fst snd]. rewrite bool_decide_true by done. unfold mret, ST_ret.
    do 2 f_equal. unfold opened, p2, p1. destruct p. cbn in Hio. by subst.
Qed.

(** ** Perf events that open *)

Definition perf_answers (q : pstate) : Prop := PerfEvents.opens q = [] /\ ioctls q = [].

Section perf.
Context (pick : gset Z -> Z).

Lemma runs_close fd : runs perf_answers (PerfEvents.close fd) (fun _ => True) perf_answers.
Proof. by apply runs_modify. Qed.

Lemma runs_read_list {A} (I : pstate -> Prop) (l : list A) i : 0 <= i < zlen l -> runs I (read l i) (fun _ => True) I.
Proof. intros Hi q Hq. destruct (aget_is_Some l i Hi) as [x Hx]. unfold wp. by rewrite (read_Some _ _ x). Qed.

Lemma runs_check_index {A} (I : pstate -> Prop) (l : list A) i : 0 <= i < zlen l -> runs I (check_index l i) (fun _ => True) I.
Proof. intros Hi q Hq. unfold wp. by rewrite check_index_Ok. Qed.

Lemma runs_cleanup n fds : 0 <= n <= 8 -> zlen fds = 8 -> runs perf_answers (cleanup n fds) (fun l => zlen l = 8) perf_answers.
Proof.
  intros Hn Hl. apply (runs_fold_each _ (fun l => zlen l = 8)); [done|]. intros l i Hl' Hi%elem_of_seqZ.
  eapply runs_bind; [apply runs_read_list; lia|]. intros fd _. apply runs_if; [by apply runs_ret|].
  eapply runs_bind; [apply runs_close|]. intros _ _. apply runs_ret. by rewrite zlen_aset.
Qed.

Lemma runs_perf_init n fds core :
  0 <= n <= 7 -> zlen fds = 8 -> runs perf_answers (perf_init pick fds n core) (fun r => zlen r.2 = 8) perf_answers.
Proof.
  intros Hn Hl. apply runs_if; [by apply runs_ret|].
  assert (Hall : Forall (fun i => 0 <= i < 7) (seqZ 0 n)) by (apply Forall_seqZ; lia). revert fds Hl.
  induction Hall as [|i idx Hi _ IH]; intros fds Hl; [by apply runs_ret|]. cbn [perf_init_loop].
  eapply runs_bind; [apply runs_check_index; lia|]. intros _ _.
  eapply (runs_bind _ perf_answers _ _ _ (fun _ => True)).
  { intros [o ? ? ?] [Ho Hio]. cbn in Ho, Hio. subst. done. }
  intros fd _. assert (Ha : zlen (aset fds i fd) = 8) by by rewrite zlen_aset.
  apply runs_if; [eapply runs_bind; [apply runs_cleanup; [lia|exact Ha]|]; cbv beta; intros l Hl'; apply runs_ret; exact Hl'|].
  eapply (runs_bind _ perf_answers _ _ _ (fun _ => True)).
  { intros [o ? ? ?] [Ho Hio]. cbn in Ho, Hio. subst. done. }
  intros ok _. apply runs_if; [eapply runs_bind; [apply runs_cleanup; [lia|exact Ha]|]; cbv beta; intros l Hl'; apply runs_ret; exact Hl'|]. by apply IH.
Qed.

Lemma runs_perf_read n fds counts :
  0 <= n <= 7 -> zlen fds = 8 -> zlen counts = 8 -> runs perf_answers (perf_read fds counts n) (fun r => zlen r.2 = 8) perf_answers.
Proof.
  intros Hn Hl. assert (Hall : Forall (fun i => 0 <= i < 7) (seqZ 0 n)) by (apply Forall_seqZ; lia). revert counts.
  unfold perf_read. induction Hall as [|i idx Hi _ IH]; intros counts Hc; [by apply runs_ret|]. cbn [perf_read_loop].
  eapply runs_bind; [apply runs_read_list; lia|]. intros _ _.
  eapply (runs_bind _ perf_answers _ _ _ (fun _ => True)); [by intros q Hq|]. intros [x|] _; [|by apply runs_ret].
  eapply runs_bind; [apply runs_check_index; lia|]. intros _ _.
  apply IH. by rewrite zlen_aset.
Qed.

Lemma runs_perf_deinit n fds : 0 <= n <= 7 -> zlen fds = 8 -> runs perf_answers (perf_deinit fds n) (fun _ => True) perf_answers.
Proof.
  intros Hn Hl. eapply runs_bind; [|intros _ _; by apply runs_ret]. apply runs_for_each. intros i Hi%elem_of_seqZ.
  eapply runs_bind; [apply runs_read_list; lia|]. intros fd _. apply runs_if; [apply runs_close|by apply runs_ret].
Qed.
End perf.

(** The counters can be read, by either method. *)
Definition counting (w : ustate) : Prop :=
  pmu_method w = PMU_RAW \/ pmu_method w = PMU_PERF /\ 0 <= num_events w <= 7 /\ perf_answers (perf w).

(** ** The work of a thread *)

(** Setting the counters up, by either method. *)
Lemma counters_run pick stack core fd w :
  fds (dev w) !! fd = Some core -> ios (dev w) = [] -> zlen stack = 8 -> counting w ->
  exists efds d q,
    (if pmu_method w =? PMU_RAW then on_dev (pmu_core_config fd) ;; mret stack
     else if pmu_method w =? PMU_PERF then x ← on_perf (perf_init pick stack (num_events w) core); mret (snd x)
     else mret stack) w = Ok (efds, w <| dev := d |> <| perf := q |>) /\
    zlen efds = 8 /\ touched core (dev w) d /\ hwpf_kept core (dev w) d /\ (perf_answers (perf w) -> perf_answers q).
Proof.
  intros Hfd Hio Hst Hcount. destruct Hcount as [Hm|(Hm & Hn & Hq)]; rewrite Hm; cbn [Z.eqb PMU_RAW PMU_PERF Pos.eqb].
  - destruct (core_config_run core fd (dev w)) as (r & d & Hrun & Ht & Hk); [done..|]. exists stack, d, (perf w).
    split; [rewrite (bind_Ok _ _ _ _ _ (on_dev_Ok _ w _ _ Hrun)); by destruct w|]. done.
  - destruct (runs_Ok _ _ _ _ (perf w) (runs_perf_init pick (num_events w) stack core Hn Hst) Hq) as ([r efds] & q & Hrun & Hl & Hq').
    exists efds, (dev w), q. split; [|split; [done|]; split; [by split; destruct (dev w)|by split]].
    rewrite (bind_Ok _ _ w (r, efds) (w <| perf := q |>)); [by destruct w|]. exact (zoom_Ok perf _ _ w _ _ Hrun).
Qed.

Lemma setup_run pick stack i w t :
  aget (gtinfo w) i = Some t -> msr_table (hwpf_msr_value t) -> counting w -> zlen stack = 8 ->
  aget (msr_file_id (dev w)) (core_id t) = Some 0 -> 0 < low_fd (dev w) -> ios (dev w) = [] -> MsrDev.opens (dev w) = [] ->
  exists l tab d q, thread_setup pick i stack w =
      Ok (l, w <| gtinfo := aset (gtinfo w) i (t <| hwpf_msr_value := tab |>) |> <| dev := d |> <| perf := q |>) /\
    msr_table tab /\ msr_file l = free_fd (dev w) /\ (zlen (pmu_new l) = 8 /\ zlen (pmu_old l) = 8 /\ zlen (event_fds l) = 8) /\
    touched (core_id t) (opened (core_id t) (dev w)) d /\ holds_table d (core_id t) tab /\ (perf_answers (perf w) -> perf_answers q).
Proof.
  intros Ht Htab Hcount Hst Hid Hfd Hio Hop. pose proof (aget_Some_range _ _ _ Ht) as Hr. set (c := core_id t) in *.
  destruct (msr_init_open c (hwpf_msr_value t) (dev w)) as (tab & Htab' & Hinit); [done..|].
  set (p1 := opened c (dev w)) in *. set (fd := free_fd (dev w)) in *.
  assert (Hopen : fds p1 !! fd = Some c) by apply lookup_insert_eq.
  assert (Hio1 : ios p1 = []) by done.
  assert (Hwrite : msr_hwpf_write fd tab p1 = Ok (0, p1 <| regs ::= wrote c (hwpf_writes tab) |>)).
  { rewrite (hwpf_write_run fd c) by (done || apply Htab'). rewrite Hio1, granted_nil, decide_True by done.
    by rewrite take_ge, ios_drop_nil by done. }
  set (p2 := p1 <| regs ::= wrote c (hwpf_writes tab) |>) in *.
  assert (Hheld : holds_table p2 c tab) by (destruct (wrote_hwpf c tab (regs p1)) as [? ?]; [apply Htab'|by split]).
  destruct (enable_fixed_run c fd p2) as (r3 & p3 & H3 & T3 & K3); [done..|].
  set (w3 := w <| gtinfo := aset (gtinfo w) i (t <| hwpf_msr_value := tab |>) |> <| dev := p3 |>).
  destruct (counters_run pick stack c fd w3) as (efds & p4 & q & H4 & He & T4 & K4 & Hq).
  { change (dev w3) with p3. by rewrite (touched_fds c p2). } { change (dev w3) with p3. by rewrite (touched_ios c p2). } { done. } { done. }
  eexists _, tab, p4, q. split; [|split; [done|]].
  - unfold thread_setup. rewrite (bind_Ok _ _ w t w) by by apply thread_at_Some.
    rewrite (bind_Ok _ _ _ _ _ (on_dev_Ok _ w _ _ Hinit)). cbn [fst snd].
    set (w1 := w <| dev := p1 |>). rewrite (bind_Ok _ _ _ _ _ (put_thread_Ok i _ w1 Hr)).
    set (w2 := w1 <| gtinfo := _ |>). rewrite (bind_Ok _ _ _ _ _ (on_dev_Ok _ w2 _ _ Hwrite)).
    set (w2' := w2 <| dev := p2 |>). rewrite (bind_Ok _ _ _ _ _ (on_dev_Ok _ w2' _ _ H3)).
    assert (w2' <| dev := p3 |> = w3) as -> by (unfold w3, w2', w2, w1; by destruct w).
    rewrite !bind_gets. rewrite (bind_Ok _ _ _ _ _ H4). unfold w3. by destruct w.
  - cbn [msr_file pmu_new pmu_old event_fds]. split_and!; try done.
    + eapply touched_trans; [apply touched_wrote|]. by eapply touched_trans.
    + eapply holds_table_kept; [exact K4|]. by eapply holds_table_kept.
Qed.

(** Reading the counters changes nothing but the local variables. *)
Lemma pread_quiet core fd a p :
  plain a -> fds p !! fd = Some core -> ios p = [] -> exists x, pread fd a p = Ok ((IoOk, x), p).
Proof.
  intros Ha Hfd Hio. rewrite (pread_ok fd a core p Ha Hfd) by (by rewrite Hio). eexists. do 2 f_equal.
  destruct p. cbn in Hio. by subst.
Qed.

Lemma core_read_run core fd result inst cyc p :
  fds p !! fd = Some core -> ios p = [] -> 7 <= zlen result ->
  exists res i c, pmu_core_read fd result inst cyc p = Ok ((0, res, i, c), p) /\ zlen res = zlen result.
Proof.
  intros Hfd Hio Hl. unfold pmu_core_read, msr_corepmu_read. cbn [Z.ltb Z.compare Pos.compare Pos.compare_cont PMU_COUNTERS PMU_CORE_EVENT_COUNT].
  destruct (pread_quiet core fd MSR_FIXED_CTR0 p) as [x Hx]; [by split|done..|].
  assert (Hloop : exists res, (if negb (tunealg p =? MAB) then
      fold_each (seqZ 0 7) result (fun result i =>
        r ← pread fd (PMU_PMC0 + i);
        if bool_decide (r.1 = IoOk) then check_index result i ;; mret (aset result i r.2) else exit (-1))
      else mret result) p = Ok (res, p) /\ zlen res = zlen result).
  { destruct (negb _); [|by exists result].
    assert (H : forall l res, Forall (fun i => 0 <= i < 7) l -> zlen res = zlen result ->
      exists res', fold_each l res (fun result i =>
        r ← pread fd (PMU_PMC0 + i);
        if bool_decide (r.1 = IoOk) then check_index result i ;; mret (aset result i r.2) else exit (-1)) p = Ok (res', p) /\
        zlen res' = zlen result).
    { induction l as [|i l IH]; intros res Hall Hres; [by exists res|]. apply Forall_cons in Hall as [Hi Hall].
      destruct (pread_quiet core fd (PMU_PMC0 + i) p) as [y Hy]; [|done..|].
      { unfold plain, PMU_PMC0, PQOS_MSR_MON_QMC, PQOS_MSR_MON_EVTSEL. lia. }
      destruct (IH (aset res i y) Hall) as (res' & H' & Hl'); [by rewrite zlen_aset|]. exists res'. split; [|done].
      cbn [fold_each]. rewrite (bind_Ok _ _ _ (aset res i y) p); [done|].
      rewrite (bind_Ok _ _ _ _ _ Hy). cbn [fst snd]. rewrite bool_decide_true by done.
      by rewrite (bind_Ok _ _ _ _ _ (check_index_Ok res i p ltac:(lia))). }
    apply H; [|done]. apply Forall_seqZ. lia. }
  destruct Hloop as (res & Hloop & Hres). exists res, x, (u64 (tsc p)). split; [|done].
  rewrite (bind_Ok _ _ _ (0, res, x, u64 (tsc p)) p); [done|]. rewrite bind_gets.
  rewrite (bind_Ok _ _ _ _ _ Hloop), (bind_Ok _ _ _ _ _ Hx). cbn [fst snd]. by rewrite bool_decide_true by done.
Qed.

Lemma zlen_copy_counters a b : zlen a = 8 -> zlen b = 8 -> zlen (copy_counters a b) = 8.
Proof. unfold copy_counters, zlen. intros. rewrite length_app, length_take, length_drop. lia. Qed.

Lemma zlen_deltas a b : zlen a = 8 -> zlen b = 8 -> zlen (deltas a b) = 7.
Proof. unfold deltas, zlen. intros. rewrite length_zip_with, !length_take. lia. Qed.

(** What a sample leaves of a thread's record. *)
Definition sampled (t t' : thread_state) : Prop :=
  core_id t' = core_id t /\ hwpf_msr_value t' = hwpf_msr_value t /\ hwpf_msr_dirty t' = hwpf_msr_dirty t /\
  (thread_wf t -> thread_wf t').

(** Reading the counters, by either method. *)
Lemma counters_read_run l w core :
  counting w -> fds (dev w) !! msr_file l = Some core -> ios (dev w) = [] -> zlen (pmu_new l) = 8 -> zlen (event_fds l) = 8 ->
  exists res x y q, Threads.read_pmu l w =
      Ok (l <| pmu_new := res |> <| instructions_new := x |> <| cpu_cycles_new := y |>, w <| perf := q |>) /\
    zlen res = 8 /\ (perf_answers (perf w) -> perf_answers q).
Proof.
  intros Hcount Hfd Hio Hn He. unfold Threads.read_pmu.
  destruct Hcount as [Hm|(Hm & Hnum & Hq)]; rewrite bind_gets, Hm; cbn [Z.eqb PMU_RAW PMU_PERF Pos.eqb].
  - destruct (core_read_run core (msr_file l) (pmu_new l) (instructions_new l) (cpu_cycles_new l) (dev w))
      as (res & x & y & Hrun & Hres); [done|done|lia|].
    exists res, x, y, (perf w). split; [|by rewrite Hres].
    rewrite (bind_Ok _ _ _ _ _ (on_dev_Ok _ w _ _ Hrun)). by destruct w.
  - destruct (runs_Ok _ _ _ _ (perf w) (runs_perf_read (num_events w) (event_fds l) (pmu_new l) Hnum He Hn) Hq)
      as ([r res] & q & Hrun & Hl & Hq'). cbn [snd] in Hl.
    destruct (aget_is_Some res PERF_INDEX_EVENT_INSTRUCTIONS) as [x Hx]; [rewrite Hl; by vm_compute|].
    destruct (aget_is_Some res PERF_INDEX_EVENT_CYCLES) as [y Hy]; [rewrite Hl; by vm_compute|].
    exists res, x, y, q. split; [|by split]. rewrite bind_gets.
    rewrite (bind_Ok _ _ w (r, res) (w <| perf := q |>)) by exact (zoom_Ok perf _ _ w _ _ Hrun). cbn [snd].
    by rewrite (bind_Ok _ _ _ _ _ (read_Some _ _ _ _ Hx)), (bind_Ok _ _ _ _ _ (read_Some _ _ _ _ Hy)).
Qed.

Lemma sample_run i l w t core :
  aget (gtinfo w) i = Some t -> counting w ->
  fds (dev w) !! msr_file l = Some core -> ios (dev w) = [] ->
  zlen (pmu_new l) = 8 -> zlen (pmu_old l) = 8 -> zlen (event_fds l) = 8 ->
  exists l' t' q, thread_sample i l w = Ok (l', w <| gtinfo := aset (gtinfo w) i t' |> <| perf := q |>) /\ sampled t t' /\
    msr_file l' = msr_file l /\ (zlen (pmu_new l') = 8 /\ zlen (pmu_old l') = 8 /\ zlen (event_fds l') = 8) /\
    (perf_answers (perf w) -> perf_answers q).
Proof.
  intros Ht Hcount Hfd Hio Hn Ho He. pose proof (aget_Some_range _ _ _ Ht) as Hr. unfold thread_sample.
  rewrite (bind_Ok _ _ _ _ _ (tunealg_of_Ok w)). set (mab := negb (tunealg (dev w) =? MAB)).
  set (l1 := if mab then _ else _).
  assert (H1 : msr_file l1 = msr_file l /\ pmu_new l1 = pmu_new l /\ event_fds l1 = event_fds l /\ zlen (pmu_old l1) = 8).
  { unfold l1. destruct mab; [|done]. split_and!; try done. by apply zlen_copy_counters. }
  destruct H1 as (Hf1 & Hn1 & He1 & Hold).
  destruct (counters_read_run l1 w core) as (res & x & y & q & Hread & Hres & Hq); [done|by rewrite Hf1|done|by rewrite Hn1|by rewrite He1|].
  set (l2 := l1 <| pmu_new := res |> <| instructions_new := x |> <| cpu_cycles_new := y |>) in *. set (w1 := w <| perf := q |>) in *.
  exists l2, (if mab then t <| pmu_result := deltas (pmu_new l2) (pmu_old l2) |>
    else t <| instructions_retired := u64 (instructions_new l2 - instructions_old l2) |>
           <| UState.cpu_cycles := u64 (cpu_cycles_new l2 - cpu_cycles_old l2) |>), q. split.
  - rewrite (bind_Ok _ _ _ _ _ Hread), (bind_Ok _ _ w1 t w1) by by apply thread_at_Some.
    destruct mab; by rewrite (bind_Ok _ _ _ _ _ (put_thread_Ok i _ w1 Hr)).
  - split; [|split_and!; [exact Hf1|exact Hres|exact Hold|exact (eq_trans (f_equal zlen He1) He)|exact Hq]]. destruct mab; (split; [done|]; split; [done|]; split; [done|]); intros []; split; try done.
    cbn. by apply zlen_deltas.
Qed.

(** The controllers the program found are mapped. *)
Definition readable (d : dstate) : Prop :=
  exists base, mappable d /\ mapped_to base (num_controllers d) d /\ num_controllers d <= 16.

Lemma readable_reads type d : readable d -> exists r d', pmu_ddr type d = Ok (r, d') /\ readable d'.
Proof.
  intros (base & Hmp & Hm & Hn).
  assert (Hloop : forall dir off, exists r d', ddr_loop dir off d = Ok (r, d') /\ readable d').
  { intros dir off. destruct (ddr_loop_run dir off base d) as (r & d' & Hrun & H1 & H2 & H3 & _); [done..|].
    exists r, d'. split; [done|]. exists base. by rewrite H3. }
  assert (Hread : forall off1 off2, exists r d', (total ← (if type =? DDR_PMU_RD then ddr_loop Rd off1
      else if type =? DDR_PMU_WR then ddr_loop Wr off2 else mret 0); mret (u64 (total * 64))) d = Ok (r, d') /\ readable d').
  { intros off1 off2.
    assert (H : exists r d', (if type =? DDR_PMU_RD then ddr_loop Rd off1
      else if type =? DDR_PMU_WR then ddr_loop Wr off2 else mret 0) d = Ok (r, d') /\ readable d').
    { destruct (type =? DDR_PMU_RD); [apply Hloop|]. destruct (type =? DDR_PMU_WR); [apply Hloop|].
      exists 0, d. split; [done|]. by exists base. }
    destruct H as (r & d' & Hrun & Hd'). rewrite (bind_Ok _ _ _ _ _ Hrun). by eexists _, d'. }
  unfold pmu_ddr. rewrite bind_gets. destruct (if_type d =? DDR_CLIENT); [apply Hread|].
  destruct (if_type d =? DDR_GRR_SRF); [apply Hread|]. eexists _, d. split; [done|]. by exists base.
Qed.

(** The steps of all bands are numbers. *)
Definition steps_ok (a : spec_float) : Prop :=
  Forall (fun k => is_Some (scaled_step a k)) [-8; -4; -2; -1; 1; 2; 4; 8].

Lemma steps_ok_defined a pct : steps_ok a -> step_defined a (band_factor pct).
Proof.
  intros Ha z Hz. unfold steps_ok in Ha. rewrite Forall_forall in Ha. apply Ha. unfold band_factor in Hz.
  repeat case_match; simplify_eq; set_solver.
Qed.

Lemma steps_ok_opposite a pct : steps_ok a -> step_defined a (Z.opp <$> band_factor pct).
Proof.
  intros Ha z Hz. unfold steps_ok in Ha. rewrite Forall_forall in Ha. apply Ha. unfold band_factor in Hz.
  repeat case_match; simplify_eq/=; set_solver.
Qed.

(** ** What the threads ask of a tuner *)

(** A table that the tuner means for a thread whose own table is [own]: its own,
    or that of the arm the bandit plays; arm 0 is not written as long as no other
    arm has been played. *)
Definition intended (w : ustate) (own tab : list Z) : Prop :=
  if tunealg (dev w) =? MAB then
    aget (hwpf_msr_values (arms w)) (arm (mstate w)) = Some tab \/ (arm (mstate w) = 0 /\ tab = own)
  else tab = own.

(** The settings a thread finds in its MSRs are as good as any. *)
Definition unplayed (w : ustate) : Prop := tunealg (dev w) = MAB -> arm (mstate w) = 0.

Lemma intended_own w own : unplayed w -> intended w own own.
Proof. unfold unplayed, intended. destruct (Z.eqb_spec (tunealg (dev w)) MAB); auto. Qed.

(** What happens to the record of a thread while others work: what is not marked
    to be written is still intended. *)
Definition decided (w w' : ustate) (t t' : thread_state) : Prop :=
  core_id t' = core_id t /\
  (hwpf_msr_dirty t' = 1 \/
   hwpf_msr_dirty t' = hwpf_msr_dirty t /\ (unplayed w -> unplayed w') /\
   forall tab, intended w (hwpf_msr_value t) tab -> intended w' (hwpf_msr_value t') tab).

Lemma decided_refl w w' t :
  tunealg (dev w') = tunealg (dev w) -> arm (mstate w') = arm (mstate w) ->
  hwpf_msr_values (arms w') = hwpf_msr_values (arms w) -> decided w w' t t.
Proof. unfold decided, unplayed, intended. intros -> -> ->. auto. Qed.

Lemma decided_trans w1 w2 w3 t1 t2 t3 : decided w1 w2 t1 t2 -> decided w2 w3 t2 t3 -> decided w1 w3 t1 t3.
Proof.
  intros [H1 D1] [H2 D2]. split; [congruence|]. destruct D2 as [|(E2 & U2 & I2)]; [auto|].
  destruct D1 as [|(E1 & U1 & I1)]; [left; congruence|]. right. split; [congruence|]. auto.
Qed.

(** The globals a decision leaves alone. *)
Record same_globals (w w' : ustate) : Prop := {
  sg_first : UState.core_first w' = UState.core_first w;
  sg_last : UState.core_last w' = UState.core_last w;
  sg_rdt : rdt_enabled w' = rdt_enabled w;
  sg_meth : pmu_method w' = pmu_method w /\ num_events w' = num_events w /\ perf w' = perf w;
  sg_sd : dynamic_sd (mstate w') = dynamic_sd (mstate w);
  sg_dev : dev w' = dev w }.

(** The handler of [SIGINT] frees the buffers of the bandit's filter. *)
Definition interruptible (w : ustate) : Prop := ~ (tunealg (dev w) = MAB /\ sd_active (mstate w)).

Lemma interruptible_same w w' :
  tunealg (dev w') = tunealg (dev w) -> dynamic_sd (mstate w') = dynamic_sd (mstate w) -> interruptible w -> interruptible w'.
Proof. unfold interruptible, sd_active. by intros -> ->. Qed.

Lemma sigint_run w : interruptible w -> rdt_enabled w = 0 -> sigintHandler w = Ok (tt, w).
Proof.
  intros Hint Hrdt. unfold sigintHandler. rewrite (bind_Ok _ _ _ _ _ (tunealg_of_Ok w)), bind_gets.
  rewrite (bind_Ok _ _ _ tt w); [by rewrite bind_gets, Hrdt|].
  destruct (Z.eqb_spec (tunealg (dev w)) MAB) as [Ha|]; [|done].
  destruct (Z.eqb_spec (dynamic_sd (mstate w)) ON) as [Hd|]; [destruct Hint; split; [done|by left]|].
  destruct (Z.eqb_spec (dynamic_sd (mstate w)) STEP) as [Hd|]; [destruct Hint; split; [done|by right]|done].
Qed.

(** A tuning algorithm for [n] threads: what it needs of the globals; that this
    survives what threads do to their devices and records; that it has a table
    for each thread; and that its decision succeeds and marks every thread whose
    settings it changes. *)
Class Tuner (log : spec_float -> spec_float) (n : nat) := {
  tuner_ok : ustate -> Prop;
  tuner_dev w d : tuner_ok w -> tunealg d = tunealg (dev w) -> tuner_ok (w <| dev := d |>);
  tuner_perf w q : tuner_ok w -> tuner_ok (w <| perf := q |>);
  tuner_threads w g : tuner_ok w -> zlen g = zlen (gtinfo w) -> tuner_ok (w <| gtinfo := g |>);
  tuner_target w x : tuner_ok w -> tuner_ok (w <| UState.ddr_bw_target := x |>);
  tuner_table w t : tuner_ok w -> thread_wf t ->
    exists tab, chosen_table w t = Some tab /\ zlen tab = HWPF_MSR_FIELDS /\ intended w (hwpf_msr_value t) tab;
  tuner_decides w :
    tuner_ok w -> threads_wf w -> active_threads w = Z.of_nat n -> Z.of_nat n <= MAX_THREADS -> rdt_enabled w = 0 ->
    exists w', calculate_settings log w = Ok (0, w') /\ tuner_ok w' /\ same_globals w w' /\ threads_wf w' /\
      forall i t, 0 <= i < Z.of_nat n -> aget (gtinfo w) i = Some t ->
        exists t', aget (gtinfo w') i = Some t' /\ decided w w' t t' }.

(** ** What holds while the program runs *)

(** Before the set-up of a thread, and in its loop. *)
Definition before (p : pc) : bool :=
  match p with TestTarget | InitBw | AddBw | WaitBw | MeasureBw | SubBw | DrainBw | EndBw | Setup => true | _ => false end.

Definition looping (p : pc) : bool :=
  match p with LoopTest | Sample | AddSync | WaitAll | Decide | Release | WaitMaster | WriteMsrs => true | _ => false end.

(** How a step moves the program counter of its thread. *)
Definition moves (quit : bool) (p p' : pc) : Prop :=
  (before p = true -> if decide (p = Setup) then p' = LoopTest else before p' = true) /\
  (looping p = true -> if decide (p = LoopTest) then p' = (if quit then Finished else Sample) else looping p' = true) /\
  (p = Finished -> False).

Lemma step_moves measurement i p s s' :
  pcs s !! i = Some p -> step_at measurement i p s = Some s' ->
  exists p', pcs s' = <[i := p']> (pcs s) /\ moves (quitflag s) p p'.
Proof.
  intros Hp Hs. destruct p; cbn -[s32 active] in Hs; repeat case_match; simplify_eq; try done;
    (eexists; split; [first [reflexivity|symmetry; apply (list_insert_id _ _ _ Hp)]|]); by repeat split.
Qed.

Section invariant.
Context (first : Z) (n : nat) (log : spec_float -> spec_float) {TU : Tuner log n} (interrupts : bool).
Context (Hfirst : 0 <= first) (Hlast : first + Z.of_nat n <= MAX_NUM_CORES).

(** The globals and devices. *)
Record world_ok (w : ustate) : Prop := {
  wo_first : UState.core_first w = first;
  wo_last : UState.core_last w = first + Z.of_nat n - 1;
  wo_tuner : tuner_ok w;
  wo_rdt : rdt_enabled w = 0;
  wo_meth : counting w;
  wo_sig : interrupts = true -> interruptible w;
  wo_ios : ios (dev w) = [];
  wo_opens : MsrDev.opens (dev w) = [];
  wo_wf : threads_wf w;
  wo_ids : zlen (msr_file_id (dev w)) = MAX_NUM_CORES;
  wo_low : 0 < low_fd (dev w);
  wo_rdt_cores : num_cores (dev w) = 0;
  wo_zero : fds (dev w) !! 0 = None /\ (first <> 0 -> aget (msr_file_id (dev w)) 0 = Some 0);
  wo_cores : forall i t, 0 <= i < Z.of_nat n -> aget (gtinfo w) i = Some t -> core_id t = first + i }.

(** Settings intended for thread [i] are in its MSRs, or marked. *)
Definition current (w : ustate) (i : nat) (t : thread_state) : Prop :=
  primary i = true -> hwpf_msr_dirty t = 1 \/
    exists tab, intended w (hwpf_msr_value t) tab /\ holds_table (dev w) (first + Z.of_nat i) tab.

Record in_loop (w : ustate) (i : nat) (l : locals) (t : thread_state) : Prop := {
  il_fd : fds (dev w) !! msr_file l = Some (first + Z.of_nat i);
  il_id : aget (msr_file_id (dev w)) (first + Z.of_nat i) = Some (msr_file l);
  il_new : zlen (pmu_new l) = 8;
  il_old : zlen (pmu_old l) = 8;
  il_events : zlen (event_fds l) = 8;
  il_thread : aget (gtinfo w) (Z.of_nat i) = Some t;
  il_current : current w i t }.

Record thread_ok (w : ustate) (i : nat) (p : pc) (f : option locals) : Prop := {
  th_before : before p = true -> aget (msr_file_id (dev w)) (first + Z.of_nat i) = Some 0 /\
    forall t, aget (gtinfo w) (Z.of_nat i) = Some t -> hwpf_msr_dirty t = 1 \/ unplayed w;
  th_loop : looping p = true -> exists l t, f = Some l /\ in_loop w i l t }.

(** The device of thread [i] is closed, and [msr_file_id] still has its descriptor. *)
Definition closed (w : ustate) (i : nat) : Prop :=
  exists fd, aget (msr_file_id (dev w)) (first + Z.of_nat i) = Some fd /\ fds (dev w) !! fd = None.

(** Nothing is opened. *)
Definition closing (w w' : ustate) : Prop := forall fd, fds (dev w) !! fd = None -> fds (dev w') !! fd = None.

Lemma closing_refl w : closing w w.
Proof. by intros fd. Qed.

(** What the work of thread [i] leaves to the others. *)
Record apart (i : nat) (w w' : ustate) : Prop := {
  ap_ids : forall j, j <> i -> aget (msr_file_id (dev w')) (first + Z.of_nat j) = aget (msr_file_id (dev w)) (first + Z.of_nat j);
  ap_fds : forall fd c, c <> first + Z.of_nat i -> fds (dev w) !! fd = Some c -> fds (dev w') !! fd = Some c;
  ap_regs : forall c x, c <> first + Z.of_nat i -> regs (dev w') !! (c, x) = regs (dev w) !! (c, x);
  ap_threads : forall j t, j <> i -> (j < n)%nat -> aget (gtinfo w) (Z.of_nat j) = Some t ->
    exists t', aget (gtinfo w') (Z.of_nat j) = Some t' /\ decided w w' t t' }.

Lemma holds_table_ext p p' core tab :
  (forall x, regs p' !! (core, x) = regs p !! (core, x)) -> holds_table p core tab -> holds_table p' core tab.
Proof. intros He [H1 H2]. split; [intros k x Hk Hx|intros x Hx]; rewrite He; auto. Qed.

Lemma thread_ok_apart i j w w' p f :
  threads_wf w -> apart i w w' -> j <> i -> (j < n)%nat -> thread_ok w j p f -> thread_ok w' j p f.
Proof.
  intros Hwf [Hids Hfds Hregs Hthr] Hj Hjn [Hb Hl]. split.
  - intros Hp. rewrite Hids by done. destruct (Hb Hp) as [Hid Hu]. split; [done|]. intros t' Ht'.
    unfold MAX_NUM_CORES in Hlast. destruct (threads_wf_at w (Z.of_nat j) Hwf) as (t & Ht & _); [unfold MAX_THREADS; lia|].
    destruct (Hthr j t Hj Hjn Ht) as (t2 & Ht2 & _ & D). assert (t2 = t') as -> by congruence.
    destruct D as [|(E & U & _)]; [by left|]. destruct (Hu t Ht); [left; congruence|right; auto].
  - intros Hp. destruct (Hl Hp) as (l & t & -> & [Hfd Hid Hn Ho He Ht Hc]). destruct (Hthr j t Hj Hjn Ht) as (t' & Ht' & _ & Hd).
    exists l, t'. split; [done|]. split; try done; [apply Hfds; [lia|done]|by rewrite Hids|]. intros Hprim.
    destruct Hd as [Hd|(Hd & _ & Hi)]; [by left|]. destruct (Hc Hprim) as [H1|(tab & H1 & H2)]; [left; congruence|right].
    exists tab. split; [auto|]. eapply holds_table_ext; [|exact H2]. intros x. rewrite Hregs by lia. done.
Qed.

Lemma thread_at_core w i :
  world_ok w -> (i < n)%nat -> exists t, aget (gtinfo w) (Z.of_nat i) = Some t /\ thread_wf t /\ core_id t = first + Z.of_nat i.
Proof.
  intros Hw Hi. unfold MAX_NUM_CORES in Hlast. destruct (threads_wf_at w (Z.of_nat i) (wo_wf w Hw)) as (t & Ht & Htw); [unfold MAX_THREADS; lia|].
  exists t. split_and!; try done. apply (wo_cores w Hw); [lia|done].
Qed.

Lemma active_ok w : world_ok w -> active_threads w = Z.of_nat n.
Proof. intros Hw. unfold active_threads. rewrite (wo_first w Hw), (wo_last w Hw). lia. Qed.

(** Changing the entry of thread [i]. *)
Lemma world_ok_put w i t t' :
  world_ok w -> aget (gtinfo w) i = Some t -> thread_wf t' -> core_id t' = core_id t ->
  world_ok (w <| gtinfo := aset (gtinfo w) i t' |>).
Proof.
  intros [] Ht Hwf Hc. split; try done; [apply tuner_threads; [done|by rewrite zlen_aset]|by apply threads_wf_set|].
  intros j u Hj Hu. cbn in Hu. pose proof (aget_Some_range _ _ _ Ht). destruct (decide (j = i)) as [->|Hne].
  - rewrite aget_aset_eq in Hu by done. simplify_eq. rewrite Hc. auto.
  - rewrite aget_aset_ne in Hu by done. auto.
Qed.

Lemma apart_put w i t' : apart i w (w <| gtinfo := aset (gtinfo w) (Z.of_nat i) t' |>).
Proof.
  split; try done. intros j t Hj _ Ht. exists t. cbn. rewrite aget_aset_ne by lia. split; [done|]. by apply decided_refl.
Qed.

Lemma apart_refl i w : apart i w w.
Proof. split; try done. intros j u _ _ Hu. exists u. split; [done|]. by apply decided_refl. Qed.

(** Perf events do not matter to the others. *)
Lemma apart_perf i w q : apart i w (w <| perf := q |>).
Proof. split; try done. intros j u _ _ Hu. exists u. split; [done|]. by apply decided_refl. Qed.

Lemma world_ok_perf w q : world_ok w -> (perf_answers (perf w) -> perf_answers q) -> world_ok (w <| perf := q |>).
Proof.
  intros [] Hq. split; try done; [by apply tuner_perf|]. destruct wo_meth0 as [?|(? & ? & ?)]; [by left|right; auto].
Qed.

Lemma apart_trans i w1 w2 w3 : apart i w1 w2 -> apart i w2 w3 -> apart i w1 w3.
Proof.
  intros [I1 F1 R1 T1] [I2 F2 R2 T2]. split.
  - intros j Hj. by rewrite I2, I1.
  - auto.
  - intros c x Hc. by rewrite R2, R1.
  - intros j t Hj Hn Ht. destruct (T1 j t Hj Hn Ht) as (t1 & H1 & D1). destruct (T2 j t1 Hj Hn H1) as (t2 & H2 & D2).
    exists t2. split; [done|]. by eapply decided_trans.
Qed.

(** Writing registers of the core of thread [i]. *)
Lemma world_ok_touched w d c : world_ok w -> touched c (dev w) d -> world_ok (w <| dev := d |>).
Proof.
  intros [] [Hd _]. assert (Ha : tunealg d = tunealg (dev w)) by (by rewrite Hd). pose proof (tuner_dev w d wo_tuner0 Ha) as Hok.
  rewrite Hd in Hok |- *. by split.
Qed.

Lemma apart_touched i w d : touched (first + Z.of_nat i) (dev w) d -> apart i w (w <| dev := d |>).
Proof.
  intros [Hd Ho]. split; cbn.
  - intros j Hj. by rewrite Hd.
  - intros fd c Hc. by rewrite Hd.
  - done.
  - intros j t Hj _ Ht. exists t. split; [done|]. apply decided_refl; [cbn; by rewrite Hd|done|done].
Qed.

Lemma touched_wrote_ios c ws p : ios p = [] -> touched c p (p <| regs ::= wrote c ws |> <| ios ::= drop 6 |>).
Proof. intros Hio. rewrite ios_drop_nil by done. apply touched_wrote. Qed.

Context (pick : gset Z -> Z) (stack : list Z) (Hstack : zlen stack = 8).

(** The pieces of a thread's work, each with what it leaves behind. *)
Lemma setup_step w i :
  world_ok w -> (i < n)%nat -> aget (msr_file_id (dev w)) (first + Z.of_nat i) = Some 0 ->
  (forall t, aget (gtinfo w) (Z.of_nat i) = Some t -> hwpf_msr_dirty t = 1 \/ unplayed w) ->
  exists l w' t, thread_setup pick (Z.of_nat i) stack w = Ok (l, w') /\ world_ok w' /\ apart i w w' /\ in_loop w' i l t.
Proof.
  intros Hw Hi Hid Hu. destruct (thread_at_core w i Hw Hi) as (t & Ht & [Htab Hpmu] & Hc). pose proof Hw as [].
  rewrite <- Hc in Hid.
  destruct (setup_run pick stack (Z.of_nat i) w t) as (l & tab & d & q & Hrun & Htab' & Hfd & (Hn & Ho & He) & Htouch & Hheld & Hq); [done..|].
  rewrite Hc in *. set (c := first + Z.of_nat i) in *. set (t' := t <| hwpf_msr_value := tab |>) in *.
  set (w1 := w <| dev := opened c (dev w) |>). destruct (free_fd_spec (dev w)) as (Hfree & Hlow & _).
  assert (Hids : forall j, aget (aset (msr_file_id (dev w)) c (free_fd (dev w))) (first + Z.of_nat j) =
    if decide (j = i) then Some (free_fd (dev w)) else aget (msr_file_id (dev w)) (first + Z.of_nat j)).
  { intros j. destruct (decide (j = i)) as [->|]; [apply aget_aset_eq; by eapply aget_Some_range|apply aget_aset_ne; unfold c; lia]. }
  assert (Hw1 : world_ok w1).
  { split; try done; cbn; [by apply tuner_dev|by rewrite zlen_aset|].
    destruct wo_zero0 as [Hz1 Hz2]. split; [by rewrite lookup_insert_ne by lia|]. intros Hf.
    change (aget (aset (msr_file_id (dev w)) c (free_fd (dev w))) 0 = Some 0). rewrite (aget_aset_ne _ c 0) by (unfold c; lia). auto. }
  assert (Hap1 : apart i w w1).
  { split; cbn; try done.
    - intros j Hj. by rewrite Hids, decide_False.
    - intros fd x Hx Hfdx. rewrite lookup_insert_ne; [done|]. intros <-. congruence.
    - intros j u Hj _ Hu'. exists u. split; [done|]. by apply decided_refl. }
  set (w2 := w1 <| dev := d |>). assert (Hw2 : world_ok w2) by by eapply world_ok_touched.
  set (w3 := w2 <| gtinfo := aset (gtinfo w2) (Z.of_nat i) t' |>). assert (Hw3 : world_ok w3) by by apply (world_ok_put _ _ t).
  assert (Hrange := aget_Some_range _ _ _ Ht).
  eexists l, _, t'. split; [exact Hrun|].
  change (w <| gtinfo := aset (gtinfo w) (Z.of_nat i) t' |> <| dev := d |> <| perf := q |>) with (w3 <| perf := q |>). split_and!.
  - by apply world_ok_perf.
  - eapply apart_trans; [exact Hap1|]. eapply apart_trans; [by apply apart_touched|]. eapply apart_trans; [apply apart_put|apply apart_perf].
  - split; try done; cbn.
    + rewrite (touched_fds _ _ _ _ Htouch), Hfd. apply lookup_insert_eq.
    + destruct Htouch as [-> _]. cbn. by rewrite Hids, decide_True, Hfd.
    + by apply aget_aset_eq.
    + intros _. destruct (Hu t Ht) as [?|Hun]; [by left|right]. exists tab. split; [|done]. apply intended_own.
      unfold unplayed in *. cbn. destruct Htouch as [-> _]. exact Hun.
Qed.

Lemma sample_step w i l t :
  world_ok w -> (i < n)%nat -> in_loop w i l t ->
  exists l' w' t', thread_sample (Z.of_nat i) l w = Ok (l', w') /\ world_ok w' /\ apart i w w' /\ in_loop w' i l' t' /\ closing w w'.
Proof.
  intros Hw Hi [Hfd Hid Hn Ho He Ht Hc]. pose proof Hw as [].
  destruct (sample_run (Z.of_nat i) l w t (first + Z.of_nat i))
    as (l' & t' & q & Hrun & (Hcore & Hv & Hdirty & Htw) & Hf' & (Hn' & Ho' & He') & Hq); [done..|].
  assert (Hrange := aget_Some_range _ _ _ Ht).
  exists l', (w <| gtinfo := aset (gtinfo w) (Z.of_nat i) t' |> <| perf := q |>), t'.
  split; [done|]. split; [|split; [eapply apart_trans; [apply apart_put|apply apart_perf]|split; [|by intros fd]]].
  - apply world_ok_perf; [|done]. apply (world_ok_put _ _ t); try done. apply Htw. by apply (Forall_aget _ _ _ _ (proj2 wo_wf0) Ht).
  - split; try done; cbn; [by rewrite Hf'..|by apply aget_aset_eq|]. intros Hp. rewrite Hdirty, Hv. exact (Hc Hp).
Qed.

Lemma decide_step w i l t :
  world_ok w -> (i < n)%nat -> in_loop w i l t ->
  exists w' t', calculate_settings log w = Ok (0, w') /\ world_ok w' /\ apart i w w' /\ in_loop w' i l t' /\ closing w w'.
Proof.
  intros Hw Hi [Hfd Hid Hn Ho He Ht Hc]. pose proof Hw as []. unfold MAX_NUM_CORES in Hlast.
  destruct (tuner_decides w) as (w' & Hrun & Hok & [G1 G2 G3 (G4 & G5 & G6) G7 G8] & Hwf & Hat); try done.
  { by apply active_ok. } { unfold MAX_THREADS. lia. }
  destruct (Hat (Z.of_nat i) t) as (t' & Ht' & Hcore & Hdec); [lia|done|]. exists w', t'. split; [done|]. split; [|split; [|split]].
  - split; try congruence; try (by rewrite G8); try done.
    + unfold counting in *. by rewrite G4, G5, G6.
    + intros Hs. apply (interruptible_same w); [by rewrite G8|done|auto].
    + intros j u Hj Hu.
      destruct (threads_wf_at w j wo_wf0) as (v & Hv & _); [unfold MAX_THREADS; lia|].
      destruct (Hat j v Hj Hv) as (u' & Hu' & Hcu & _). assert (u' = u) as -> by congruence. rewrite Hcu. auto.
  - split; rewrite ?G8; try done. intros j u _ Hj Hu. apply Hat; [lia|done].
  - split; rewrite ?G8; try done. intros Hprim. destruct Hdec as [?|(Hd & _ & Hi')]; [by left|]. rewrite Hd, G8.
    destruct (Hc Hprim) as [?|(tab & H1 & H2)]; [by left|right]. exists tab. auto.
  - intros fd. by rewrite G8.
Qed.

Lemma rem_primary i : (Z.rem (Z.of_nat i) 4 =? 0) = primary i.
Proof.
  unfold primary. rewrite Z.rem_mod_nonneg by lia. change 4 with (Z.of_nat 4). rewrite <- Nat2Z.inj_mod.
  destruct (Nat.eqb_spec (i mod 4) 0) as [->|Hne]; [done|]. apply Z.eqb_neq. lia.
Qed.

Lemma apply_step w i l t :
  world_ok w -> (i < n)%nat -> in_loop w i l t ->
  exists w' t', thread_apply (Z.of_nat i) l w = Ok (tt, w') /\ world_ok w' /\ apart i w w' /\ in_loop w' i l t' /\ closing w w' /\
    (primary i = true -> hwpf_msr_dirty t' <> 1).
Proof.
  intros Hw Hi [Hfd Hid Hn Ho He Ht Hc]. pose proof Hw as [].
  assert (Hmod : (core_in_module w t =? 0) = primary i).
  { unfold core_in_module. rewrite (wo_cores0 (Z.of_nat i) t) by (done || lia). rewrite wo_first0, <- rem_primary. do 2 f_equal. lia. }
  destruct (decide (primary i = true /\ hwpf_msr_dirty t = 1)) as [[Hprim Hdirty]|Hno].
  - rewrite Hprim in Hmod. apply Z.eqb_eq in Hmod.
    destruct (tuner_table w t wo_tuner0 (Forall_aget _ _ _ _ (proj2 wo_wf0) Ht)) as (tab & Htab & Hlen & Hint).
    destruct (thread_apply_run (Z.of_nat i) l w t (first + Z.of_nat i) tab) as [Hrun Hheld]; try done.
    { by rewrite wo_ios0. }
    assert (Htouch := touched_wrote_ios (first + Z.of_nat i) (hwpf_writes tab) (dev w) wo_ios0).
    set (d := dev w <| regs ::= _ |> <| ios ::= _ |>) in *. set (t' := t <| hwpf_msr_dirty := 0 |>) in *.
    assert (Hrange := aget_Some_range _ _ _ Ht).
    eexists _, t'. split; [exact Hrun|].
    change (w <| gtinfo := aset (gtinfo w) (Z.of_nat i) t' |> <| dev := d |>) with
      ((w <| dev := d |>) <| gtinfo := aset (gtinfo (w <| dev := d |>)) (Z.of_nat i) t' |>). split_and!; try done.
    + apply (world_ok_put _ _ t); try done; [by eapply world_ok_touched|].
      by destruct (Forall_aget _ _ _ _ (proj2 wo_wf0) Ht).
    + eapply apart_trans; [by apply apart_touched|apply apart_put].
    + split; try done; [by apply aget_aset_eq|]. intros _. right. by exists tab.
    + by intros fd.
  - exists w, t. split_and!; try done; [|apply apart_refl|apply closing_refl|intros Hp Hd; by apply Hno].
    apply (proj1 (thread_apply_spec (Z.of_nat i) l w t Ht)).
    destruct (primary i) eqn:Hprim; [right; intros Hd; by apply Hno|left; by apply Z.eqb_neq].
Qed.

Lemma finish_step w i l t :
  world_ok w -> (i < n)%nat -> in_loop w i l t ->
  exists w', thread_finish l w = Ok (0, w') /\ world_ok w' /\ apart i w w' /\ closing w w' /\ closed w' i.
Proof.
  intros Hw Hi [Hfd Hid Hn Ho He Ht Hc]. pose proof Hw as [].
  assert (Hperf : exists q, (if pmu_method w =? PMU_PERF then on_perf (perf_deinit (event_fds l) (num_events w)) ;; mret tt else mret tt) w =
    Ok (tt, w <| perf := q |>) /\ (perf_answers (perf w) -> perf_answers q)).
  { destruct wo_meth0 as [->|(-> & Hnum & Hq)]; cbn [Z.eqb PMU_RAW PMU_PERF]; [exists (perf w); split; [by destruct w|done]|].
    destruct (runs_Ok _ _ _ _ (perf w) (runs_perf_deinit (num_events w) (event_fds l) Hnum He) Hq) as (r & q & Hrun & _ & Hq').
    exists q. split; [|done]. by rewrite (bind_Ok _ _ w r (w <| perf := q |>)) by exact (zoom_Ok perf _ _ w _ _ Hrun). }
  destruct Hperf as (q & Hperf & Hq). set (w1 := w <| dev := dev w <| fds ::= delete (msr_file l) |> |>).
  assert (Hw1 : world_ok w1).
  { split; try done; cbn; [by apply tuner_dev|]. destruct wo_zero0 as [Hz1 Hz2]. split; [|done]. apply lookup_delete_None. by right. }
  exists (w1 <| perf := q |>). split; [|split; [by apply world_ok_perf|split; [|split]]].
  - unfold thread_finish. rewrite !bind_gets, (bind_Ok _ _ _ _ _ Hperf). erewrite bind_Ok by (apply on_dev_Ok; reflexivity). done.
  - eapply apart_trans; [|apply apart_perf]. split; try done; cbn.
    + intros fd c Hne Hx. rewrite lookup_delete_ne; [done|]. intros <-. congruence.
    + intros j u _ _ Hu. exists u. split; [done|]. by apply decided_refl.
  - intros fd Hno. cbn. apply lookup_delete_None. by right.
  - exists (msr_file l). split; [done|]. apply lookup_delete_eq.
Qed.

(** A step of a thread does its work and leaves the thread and the others as the
    invariant asks; only the set-up opens a device, and the end closes it. *)
Lemma work_run w i p p' quit f :
  world_ok w -> (i < n)%nat -> thread_ok w i p f -> moves quit p p' ->
  exists f' w', work log pick stack i p quit f w = Ok (f', w') /\ world_ok w' /\ apart i w w' /\ thread_ok w' i p' f' /\
    (p <> Setup -> closing w w') /\ (p' = Finished -> closed w' i).
Proof.
  intros Hw Hi [Hb Hl] (Mb & Ml & Mf).
  destruct (before p) eqn:Hbp.
  - specialize (Mb eq_refl). destruct (decide (p = Setup)) as [->|Hne].
    + subst p'. destruct (Hb eq_refl) as [Hid Hun].
      destruct (setup_step w i Hw Hi Hid Hun) as (l & w' & t & Hrun & Hw' & Hap & Hin).
      exists (Some l), w'. cbn [work]. rewrite (bind_Ok _ _ _ _ _ Hrun). split_and!; try done.
      split; [done|]. intros _. by exists l, t.
    + exists f, w. split; [destruct p; try done; by destruct f|]. split; [done|]. split; [apply apart_refl|]. split; [|split; [by intros _ fd|by intros ->]].
      split; [auto|]; intros Hp'; by destruct p'.
  - destruct (looping p) eqn:Hlp; [|by destruct p; try done; destruct (Mf eq_refl)].
    specialize (Ml eq_refl). destruct (Hl eq_refl) as (l & t & -> & Hin). clear Hl Hb Mb Mf.
    assert (Hloop : forall w' t' f' l', looping p' = true -> f' = Some l' -> in_loop w' i l' t' ->
      thread_ok w' i p' f' /\ (p' = Finished -> closed w' i)).
    { intros w' t' f' l' Hp' -> H'. split; [|by intros ->]. split; [by destruct p'|]. intros _. by exists l', t'. }
    assert (Hstay : looping p' = true -> exists f' w', Ok (Some l, w) = Ok (f', w') /\ world_ok w' /\ apart i w w' /\
      thread_ok w' i p' f' /\ (p <> Setup -> closing w w') /\ (p' = Finished -> closed w' i)).
    { intros Hp'. destruct (Hloop w t (Some l) l Hp' eq_refl Hin). exists (Some l), w. split_and!; try done; [apply apart_refl|by intros _ fd]. }
    destruct p; try done; cbn [work]; first [rewrite decide_True in Ml by done|rewrite decide_False in Ml by done]; try by apply Hstay.
    + destruct quit; [|apply Hstay; by subst p'].
      destruct (finish_step w i l t Hw Hi Hin) as (w' & Hrun & Hw' & Hap & Hcl & Hdone). exists None, w'.
      rewrite (bind_Ok _ _ _ _ _ Hrun). subst p'. by split_and!.
    + destruct (sample_step w i l t Hw Hi Hin) as (l' & w' & t' & Hrun & Hw' & Hap & Hin' & Hcl).
      destruct (Hloop w' t' (Some l') l' Ml eq_refl Hin'). exists (Some l'), w'. rewrite (bind_Ok _ _ _ _ _ Hrun). by split_and!.
    + destruct (decide_step w i l t Hw Hi Hin) as (w' & t' & Hrun & Hw' & Hap & Hin' & Hcl).
      destruct (Hloop w' t' (Some l) l Ml eq_refl Hin'). exists (Some l), w'. rewrite (bind_Ok _ _ _ _ _ Hrun). by split_and!.
    + destruct (apply_step w i l t Hw Hi Hin) as (w' & t' & Hrun & Hw' & Hap & Hin' & Hcl & _).
      destruct (Hloop w' t' (Some l) l Ml eq_refl Hin'). exists (Some l), w'. rewrite (bind_Ok _ _ _ _ _ Hrun). by split_and!.
Qed.

Record program_inv (s : program) : Prop := {
  pi_pcs : length (pcs (flags s)) = n;
  pi_frames : length (frames s) = n;
  pi_world : world_ok (world s);
  pi_threads : forall i p, pcs (flags s) !! i = Some p -> thread_ok (world s) i p (mjoin (frames s !! i)) }.

Context (measurement : nat -> Z).

Lemma world_ok_target w x : world_ok w -> world_ok (w <| UState.ddr_bw_target := x |>).
Proof. intros []. split; try done. by apply tuner_target. Qed.

Lemma thread_ok_target w x i p f : thread_ok w i p f -> thread_ok (w <| UState.ddr_bw_target := x |>) i p f.
Proof.
  intros [Hb Hl]. split; [done|]. intros Hp. destruct (Hl Hp) as (l & t & -> & []). exists l, t. by repeat split.
Qed.

(** How thread [i] takes the program from [s] to [s']. *)
Record stepped (i : nat) (s s' : program) : Prop := {
  st_moves : exists p p', pcs (flags s) !! i = Some p /\ pcs (flags s') = <[i := p']> (pcs (flags s)) /\
    moves (quitflag (flags s)) p p' /\ (p <> Setup -> closing (world s) (world s')) /\ (p' = Finished -> closed (world s') i);
  st_ids : forall j, j <> i ->
    aget (msr_file_id (dev (world s'))) (first + Z.of_nat j) = aget (msr_file_id (dev (world s))) (first + Z.of_nat j) }.

(** A step of a thread that can make one succeeds. *)
Lemma program_step_run s i :
  program_inv s ->
  match program_step log pick stack measurement i s with
  | None => True
  | Some (Stop _) => False
  | Some (Ok s') => program_inv s' /\ stepped i s s'
  end.
Proof.
  intros [Hl Hf Hw Hthr]. unfold program_step. destruct (pcs (flags s) !! i) as [p|] eqn:Hp; [|done]. cbn [mbind option_bind].
  unfold thread_step. destruct (exited (flags s)); [done|]. rewrite Hp. cbn [mbind option_bind].
  destruct (step_at measurement i p (flags s)) as [fl|] eqn:Hstep; [|done]. cbn [mbind option_bind].
  destruct (step_moves _ _ _ _ _ Hp Hstep) as (p' & Hpcs & Hm).
  assert (Hi : (i < n)%nat) by (rewrite <- Hl; by eapply lookup_lt_Some).
  set (w := world s <| UState.ddr_bw_target := _ |>).
  assert (Hw' : world_ok w) by by apply world_ok_target.
  assert (Hall : forall j q, pcs (flags s) !! j = Some q -> thread_ok w j q (mjoin (frames s !! j))).
  { intros j q Hq. by apply thread_ok_target, Hthr. }
  destruct (work_run w i p p' (quitflag (flags s)) (mjoin (frames s !! i)) Hw' Hi (Hall i p Hp) Hm)
    as (f' & w2 & -> & Hw2 & Hap & Hok & Hcl & Hdone). split; [split; cbn|].
  - by rewrite Hpcs, length_insert.
  - by rewrite length_insert.
  - done.
  - intros j q Hq. rewrite Hpcs in Hq. destruct (decide (j = i)) as [->|Hne].
    + rewrite list_lookup_insert_eq in Hq by lia. simplify_eq. by rewrite list_lookup_insert_eq by lia.
    + rewrite list_lookup_insert_ne in Hq by done. rewrite list_lookup_insert_ne by done.
      assert (Hjn : (j < n)%nat) by (rewrite <- Hl; by eapply lookup_lt_Some).
      eapply thread_ok_apart; [apply (wo_wf _ Hw')|exact Hap|done|done|]. by apply Hall.
  - split; [by exists p, p'|exact (ap_ids _ _ _ Hap)].
Qed.

Lemma program_inv_sigint s w :
  program_inv s -> interrupts = true -> sigintHandler (world s) = Ok (tt, w) ->
  w = world s /\ program_inv {| flags := flags s <| quitflag := true |>; world := w; frames := frames s |}.
Proof.
  intros [Hl Hf Hw Hthr] Hint. rewrite (sigint_run _ (wo_sig _ Hw Hint) (wo_rdt _ Hw)). intros [= <-]. split; [done|]. by split.
Qed.

Abbreviation reaches := (rtc (program_reaches log pick stack measurement interrupts)).

Lemma program_inv_reaches s s' : reaches s s' -> program_inv s -> program_inv s'.
Proof.
  induction 1 as [|s s1 s' Hstep _ IH]; intros Hs; [done|]. apply IH. clear IH. destruct Hstep as [i s s1 Hstep|s w Hint Hsig].
  - pose proof (program_step_run s i Hs) as Hrun. rewrite Hstep in Hrun. apply Hrun.
  - by apply (program_inv_sigint s w).
Qed.

(** All threads have been set up. *)
Definition all_set_up (s : program) : Prop := Forall (fun p => before p = false) (pcs (flags s)).

(** From then on no device is opened, and that of a thread that has ended stays
    closed. *)
Lemma ended_closed i s s' :
  reaches s s' -> program_inv s -> all_set_up s -> (pcs (flags s) !! i = Some Finished -> closed (world s) i) ->
  pcs (flags s') !! i = Some Finished -> closed (world s') i.
Proof.
  induction 1 as [|s s1 s' Hstep _ IH]; intros Hs Hset Hcl; [done|]. destruct Hstep as [j s s1 Hstep|s w Hint Hsig].
  - pose proof (program_step_run s j Hs) as Hrun. rewrite Hstep in Hrun.
    destruct Hrun as [Hs1 [(p & p' & Hp & Hpcs & (_ & Ml & Mf) & Hclose & Hdone) Hids]].
    pose proof (proj1 (Forall_lookup _ _) Hset j p Hp) as Hb. cbv beta in Hb. pose proof (lookup_lt_Some _ _ _ Hp) as Hlt.
    assert (Hne : p <> Setup) by (by intros ->). apply IH; [done| |].
    + unfold all_set_up. rewrite Hpcs. apply Forall_insert; [done|]. destruct (looping p) eqn:Hlp; [|by destruct p; try done; destruct (Mf eq_refl)].
      specialize (Ml eq_refl). destruct (decide (p = LoopTest)); [subst p'; by destruct (quitflag (flags s))|by destruct p'].
    + rewrite Hpcs. destruct (decide (i = j)) as [->|Hij].
      * rewrite list_lookup_insert_eq by done. intros [= ->]. auto.
      * rewrite list_lookup_insert_ne by done. intros Hfin. destruct (Hcl Hfin) as (fd & Hid & Hfd). exists fd.
        rewrite Hids by done. split; [done|]. by apply Hclose.
  - destruct (program_inv_sigint s w Hs Hint Hsig) as [-> Hs1]. by apply IH.
Qed.

Lemma loop_current s i p :
  program_inv s -> pcs (flags s) !! i = Some p -> looping p = true -> primary i = true ->
  exists t, aget (gtinfo (world s)) (Z.of_nat i) = Some t /\ core_id t = first + Z.of_nat i /\
    (hwpf_msr_dirty t = 1 \/
     exists tab, intended (world s) (hwpf_msr_value t) tab /\ holds_table (dev (world s)) (core_id t) tab).
Proof.
  intros [Hl Hf Hw Hthr] Hp Hlp Hprim. destruct (th_loop _ _ _ _ (Hthr i p Hp) Hlp) as (l & t & _ & [_ _ _ _ _ Ht Hc]).
  assert (Hi := lookup_lt_Some _ _ _ Hp). assert (Hcore : core_id t = first + Z.of_nat i) by (apply (wo_cores _ Hw); [lia|done]).
  exists t. rewrite Hcore. auto.
Qed.

(** After its write a thread is not marked and its settings are in the MSRs. *)
Lemma write_settles s i s' :
  program_inv s -> pcs (flags s) !! i = Some WriteMsrs -> primary i = true ->
  program_step log pick stack measurement i s = Some (Ok s') ->
  exists t tab, aget (gtinfo (world s')) (Z.of_nat i) = Some t /\ hwpf_msr_dirty t <> 1 /\
    intended (world s') (hwpf_msr_value t) tab /\ holds_table (dev (world s')) (core_id t) tab.
Proof.
  intros [Hl Hf Hw Hthr] Hp Hprim Hstep. assert (Hi := lookup_lt_Some _ _ _ Hp).
  unfold program_step in Hstep. rewrite Hp in Hstep. cbn [mbind option_bind] in Hstep.
  destruct (thread_step measurement i (flags s)) as [fl|]; [|done]. cbn [mbind option_bind] in Hstep.
  set (w := world s <| UState.ddr_bw_target := _ |>) in Hstep.
  destruct (th_loop _ _ _ _ (thread_ok_target (world s) (Sync.ddr_bw_target (flags s)) _ _ _ (Hthr i _ Hp)) eq_refl) as (l & t & Hl' & Hin).
  rewrite Hl' in Hstep. cbn [work] in Hstep.
  destruct (apply_step w i l t) as (w' & t' & Hrun & Hw' & _ & [_ _ _ _ _ Ht' Hc'] & _ & Hd); [by apply world_ok_target|lia|done|].
  rewrite (bind_Ok _ _ _ _ _ Hrun) in Hstep. injection Hstep as <-.
  destruct (Hc' Hprim) as [?|(tab & Hint & Hheld)]; [by destruct (Hd Hprim)|]. exists t', tab.
  split; [done|]. split; [auto|]. by rewrite (wo_cores _ Hw' (Z.of_nat i) t') by (done || lia).
Qed.
End invariant.

