(* ===== verification/Tuners.v ===== *)
(** * The tuning algorithms of the program ([main.c], [tuners/])

    The instances of [Tuner]: the two algorithms that follow the bandwidth
    ([primitive.c]), which mark a thread when its own settings move, and the
    bandit ([mab.c]), which marks all threads when it plays another arm.  With
    them the run of the threads is proved from what [main] has set up. *)

From stdpp Require Import relations.
From S2P Require Import Prelude Floats Bitfields PerfEvents Msr KState KPmuDdr MsrDev PmuDdr RdtMbm UState Primitive Mab MabSetup Sync Threads UserMode.

(** The first [n] threads replaced. *)
Definition prefix_map (n : nat) (f : thread_state -> thread_state) (g : list thread_state) : list thread_state :=
  map f (take n g) ++ drop n g.

Lemma prefix_map_wf n f w :
  threads_wf w -> (forall t, thread_wf t -> thread_wf (f t)) -> threads_wf (w <| gtinfo := prefix_map n f (gtinfo w) |>).
Proof.
  intros [Hl Hw] Hf. split; cbn; unfold prefix_map.
  - rewrite <- Hl. unfold zlen. rewrite length_app, length_map, <- length_app, take_drop. done.
  - apply Forall_app. split; [|by apply Forall_drop]. apply Forall_map, Forall_take. eapply Forall_impl; [exact Hw|done].
Qed.

Lemma prefix_map_at n f g i t :
  Z.of_nat n <= zlen g -> 0 <= i < Z.of_nat n -> aget g i = Some t -> aget (prefix_map n f g) i = Some (f t).
Proof.
  intros Hn Hi Ht. unfold prefix_map. rewrite (map_prefix_at f n g i t Hn Ht). by rewrite (proj2 (Z.ltb_lt _ _)) by lia.
Qed.

(** ** The algorithms that follow the bandwidth *)

Section basic.
Context (log : spec_float -> spec_float) (n : nat).

(** Algorithm 1 needs sixteen threads. *)
Record basic_ok (w : ustate) : Prop := {
  ba_alg : tunealg (dev w) = 0 \/ tunealg (dev w) = 1 /\ 16 <= Z.of_nat n;
  ba_steps : steps_ok (aggr w);
  ba_mem : readable (mem w) }.

Lemma basic_not_mab w : basic_ok w -> (tunealg (dev w) =? MAB) = false.
Proof. intros [[->|[-> _]] _ _]; done. Qed.

Lemma basic_decides w :
  basic_ok w -> calculate_settings log w = (basicalg (tunealg (dev w)) ;; mret 0) w.
Proof.
  intros [Halg _ _]. unfold calculate_settings. rewrite (bind_Ok _ _ _ _ _ (tunealg_of_Ok w)).
  assert ((tunealg (dev w) =? 0) || (tunealg (dev w) =? 1) = true) as -> by (destruct Halg as [->|[-> _]]; done).
  unfold mbind, ST_bind. by destruct (basicalg _ w) as [[? ?]|].
Qed.

(** What a step does to a thread: settings that move are marked. *)
Definition settled (t t' : thread_state) : Prop :=
  core_id t' = core_id t /\ (thread_wf t -> thread_wf t') /\
  (hwpf_msr_dirty t' = 1 \/ hwpf_msr_value t' = hwpf_msr_value t /\ hwpf_msr_dirty t' = hwpf_msr_dirty t).

Lemma settled_moved2 a b x k ma mb t : In a msr_accessors -> In b msr_accessors -> settled t (moved2 a b x k ma mb t).
Proof.
  intros Ha Hb.
  assert (H1 : forall c v u, In c msr_accessors -> settled u (moved c v u)).
  { intros c v u Hc. split_and!; [|by apply thread_wf_moved|]; unfold moved; destruct (_ =? v); cbn; auto. }
  unfold moved2. cbv zeta. set (t1 := moved a _ t). destruct (H1 a _ t Ha : settled t t1) as (C1 & W1 & D1).
  destruct (H1 b (next_of x k mb (acc_get b (hwpf_msr_value t1))) t1 Hb) as (C2 & W2 & D2).
  split_and!; [congruence|auto|]. destruct D2 as [|[-> ->]]; auto.
Qed.

Lemma basic_run w :
  basic_ok w -> threads_wf w -> active_threads w = Z.of_nat n -> Z.of_nat n <= MAX_THREADS -> rdt_enabled w = 0 ->
  exists f d c old, calculate_settings log w =
      Ok (0, w <| mem := d |> <| clocks := c |> <| time_old := old |>
               <| gtinfo := prefix_map n f (gtinfo w) |>) /\
    readable d /\ forall t, settled t (f t).
Proof.
  intros Hok Hwf Hact Hn Hrdt. rewrite basic_decides by done. destruct Hok as [Halg Hst Hmem].
  destruct (readable_reads DDR_PMU_RD (mem w) Hmem) as (bw & d1 & Hrd & Hm1).
  destruct (readable_reads DDR_PMU_WR d1 Hm1) as (wr & d2 & Hwr & Hm2).
  set (now := default 0 (head (clocks w))). set (rest := tail (clocks w)).
  destruct (decide (time_old w = 0)) as [Hold|Hold].
  { exists id, d2, rest, (u64 now). split; [|split; [done|]; intros t; split_and!; auto].
    erewrite bind_Ok; [|unfold basicalg; rewrite bind_gets, Hrdt; cbn [Z.eqb];
      rewrite (bind_Ok _ _ _ _ _ (on_mem_Ok _ w _ _ Hrd)); set (wa := w <| mem := d1 |>);
      rewrite (bind_Ok _ _ _ _ _ (on_mem_Ok _ wa _ _ Hwr)), bind_gets; set (wb := wa <| mem := d2 |>);
      change (time_old wb) with (time_old w); rewrite Hold; cbn [Z.eqb];
      rewrite (bind_Ok _ _ _ _ _ (time_ms_run wb now rest eq_refl eq_refl)), bind_modify; reflexivity].
    unfold prefix_map. rewrite map_id, take_drop. by destruct w. }
  set (k := band_factor (rd_percent bw (UState.ddr_bw_target w) (seconds (u64 now) (time_old w)))).
  assert (Hd : step_defined (aggr w) k) by by apply steps_ok_defined.
  destruct Halg as [->|[-> Hmin]].
  - pose proof (basicalg_xq_run w bw d1 wr d2 now rest Hwf ltac:(lia) Hrdt Hold Hrd Hwr eq_refl eq_refl Hd) as Hrun.
    rewrite Hact, Nat2Z.id in Hrun. rewrite (bind_Ok _ _ _ _ _ Hrun). eexists _, d2, rest, _. split; [reflexivity|]. split; [done|].
    intros t. apply settled_moved2; [apply setting_l2xq|apply setting_l3xq].
  - assert (Hd' : step_defined (aggr w) (Z.opp <$> k)) by by apply steps_ok_opposite.
    pose proof (basicalg_maxdist_run w bw d1 wr d2 now rest Hwf ltac:(lia) Hrdt Hold Hrd Hwr eq_refl eq_refl Hd') as Hrun.
    rewrite Hact, Nat2Z.id in Hrun. rewrite (bind_Ok _ _ _ _ _ Hrun). eexists _, d2, rest, _. split; [reflexivity|]. split; [done|].
    intros t. apply settled_moved2; [apply setting_l2maxdist|apply setting_l3maxdist].
Qed.

#[export] Instance basic_tuner : Tuner log n.
Proof.
  refine {| tuner_ok := basic_ok |}.
  - intros w d [] Ha. split; cbn; [by rewrite Ha|done..].
  - by intros w q [].
  - by intros w g [] _.
  - by intros w x [].
  - intros w t Hok Ht. exists (hwpf_msr_value t). unfold chosen_table, intended. rewrite (basic_not_mab w Hok).
    split; [done|]. split; [apply Ht|done].
  - intros w Hok Hwf Hact Hn Hrdt. destruct (basic_run w Hok Hwf Hact Hn Hrdt) as (f & d & c & old & Hrun & Hd & Hf).
    eexists. split; [exact Hrun|]. split; [by destruct Hok|]. split; [done|]. split; [exact (prefix_map_wf n f w Hwf (fun t => proj1 (proj2 (Hf t))))|].
    intros i t Hi Ht. exists (f t). split; [apply prefix_map_at; [rewrite (proj1 Hwf)|..]; done|].
    destruct (Hf t) as (Hc & _ & Hs). split; [done|]. destruct Hs as [|[Hv Hdir]]; [by left|right].
    split; [done|]. split; [done|]. unfold intended. cbn. rewrite (basic_not_mab w Hok). congruence.
Defined.
End basic.

(** ** The bandit *)

(** What the threads see of a run of the bandit. *)
Definition view (s : ustate) : proc * (Z * Z * Z * Z * Z * pstate) * (Z * Z * Z) * list (list Z) * list thread_state :=
  (dev s, (UState.core_first s, UState.core_last s, rdt_enabled s, pmu_method s, num_events s, perf s),
   (arm (mstate s), num_threads (mstate s), dynamic_sd (mstate s)), hwpf_msr_values (arms s), gtinfo s).

(** Most of the bandit's work does not show. *)
Definition unseen {A} (m : T A) : Prop := forall v, preserves (fun s => view s = v) m.

Lemma unseen_read {A} v (f : ustate -> list A) i : preserves (fun s => view s = v) (fun s => read (f s) i s).
Proof.
  intros s Hs. unfold wp. destruct (read (f s) i s) as [[x s']|] eqn:Hr; [|done].
  unfold read in Hr. destruct (aget (f s) i); by simplify_eq.
Qed.

Lemma unseen_write {A} v (l : ustate -> list A) i (f : ustate -> ustate) :
  (forall s, view (f s) = view s) -> preserves (fun s => view s = v) (fun s => (check_index (l s) i ;; modify f) s).
Proof.
  intros Hf s Hs. apply wp_bind. apply wp_check_index; [|done]. intros _. apply wp_modify. by rewrite Hf.
Qed.

Lemma unseen_mab v (f : mab_state -> mab_state) :
  (forall m, arm (f m) = arm m /\ num_threads (f m) = num_threads m /\ dynamic_sd (f m) = dynamic_sd m) ->
  preserves (fun s => view s = v) (modify_mab f).
Proof.
  intros Hf. apply preserves_modify. intros s <-. destruct (Hf (mstate s)) as (H1 & H2 & H3). unfold view. cbn. by rewrite H1, H2, H3.
Qed.

Lemma unseen_set_reward v i x : preserves (fun s => view s = v) (set_reward i x).
Proof. by apply unseen_write. Qed.

Lemma unseen_set_num v i x : preserves (fun s => view s = v) (set_num i x).
Proof. by apply unseen_write. Qed.

Lemma unseen_set_ipc v i x : preserves (fun s => view s = v) (set_ipc i x).
Proof. by apply unseen_write. Qed.

Lemma unseen_rand v : preserves (fun s => view s = v) rand.
Proof. by intros s Hs. Qed.

Lemma unseen_reward_at v i : preserves (fun s => view s = v) (reward_at i).
Proof. apply unseen_read. Qed.

Lemma unseen_num_at v i : preserves (fun s => view s = v) (num_at i).
Proof. apply unseen_read. Qed.

Lemma unseen_ipc_at v i : preserves (fun s => view s = v) (ipc_at i).
Proof. apply unseen_read. Qed.

Lemma unseen_thread_at v i : preserves (fun s => view s = v) (thread_at i).
Proof. apply (unseen_read v gtinfo). Qed.

#[local] Hint Extern 1 (preserves (fun s => view s = _) (modify_mab _)) => apply unseen_mab; by intros [] : preserve.
#[local] Hint Resolve unseen_set_reward unseen_set_num unseen_set_ipc unseen_rand unseen_reward_at unseen_num_at
  unseen_ipc_at unseen_thread_at : preserve.

Lemma unseen_get_reward i : unseen (get_reward i).
Proof. intros v. unfold get_reward, measured_ipc. preserve. Qed.

Lemma unseen_update_reward i : unseen (update_reward i).
Proof. intros v. unfold update_reward. preserve. apply unseen_get_reward. Qed.

Lemma unseen_evaluate f : (forall i, unseen (f i)) -> unseen (evaluate_arm f).
Proof. intros Hf v. unfold evaluate_arm. preserve. apply Hf. Qed.

Lemma unseen_normalise : unseen normalise_rewards.
Proof. intros v. unfold normalise_rewards. preserve. Qed.

Lemma unseen_normalise_due : unseen normalise_due.
Proof. intros v. unfold normalise_due, rem_u. preserve. Qed.

Lemma unseen_max_index value m : (forall i, unseen (value i)) -> unseen (max_index value m).
Proof. intros Hv v. unfold max_index, max_step. preserve; apply Hv. Qed.

Lemma unseen_next_arm log f : unseen (call_next_arm log f).
Proof.
  intros v. unfold call_next_arm, next_arm_max, next_arm_potential, next_arm_random, next_arm_rr, next_arm_default.
  preserve; apply unseen_max_index; intros i v'; unfold exploration_factor; preserve.
Qed.

Lemma unseen_update f : unseen (call_update f).
Proof.
  intros v. unfold call_update, update_selections_rr, update_selections_increment, update_selections_discounted,
    update_selections_none, count_arm. preserve.
Qed.

(** Playing arm [a] next: all threads are marked when it is another one. *)
Definition mark (t : thread_state) : thread_state := t <| hwpf_msr_dirty := 1 |>.

Definition switch (a : Z) (s : ustate) : ustate :=
  s <| mstate ::= fun m => m <| arm := a |> |>
    <| gtinfo := if a =? arm (mstate s) then gtinfo s
                 else prefix_map (Z.to_nat (num_threads (mstate s))) mark (gtinfo s) |>.

Definition playable (s : ustate) : Prop :=
  0 <= arm (mstate s) < 2 ^ 31 /\ 0 <= num_threads (mstate s) <= zlen (gtinfo s).

Definition switches {A} (m : T A) : Prop :=
  forall s, playable s -> wp m s (fun _ s' => exists a, view s' = view (switch a s)) any_stop.

Lemma view_playable s s' : view s' = view s -> playable s -> playable s'.
Proof. unfold view, playable. intros [= _ _ _ _ _ _ _ -> -> _ _ ->]. done. Qed.

Lemma view_switch s s' a : view s' = view s -> view (switch a s') = view (switch a s).
Proof. unfold view, switch. cbn. intros [= -> -> -> -> -> -> -> -> -> -> -> ->]. done. Qed.

Lemma switches_before {A B} (m : T A) (k : A -> T B) : unseen m -> (forall x, switches (k x)) -> switches (mbind k m).
Proof.
  intros Hm Hk s Hs. apply wp_bind. eapply wp_mono; [exact (Hm (view s) s eq_refl)| |done]. intros x s1 H1.
  eapply wp_mono; [apply Hk, (view_playable s s1 H1 Hs)| |done]. intros y s2 [a Ha]. exists a. by rewrite Ha, (view_switch s s1).
Qed.

Lemma switches_after {A B} (m : T A) (k : A -> T B) : switches m -> (forall x, unseen (k x)) -> switches (mbind k m).
Proof.
  intros Hm Hk s Hs. apply wp_bind. eapply wp_mono; [by apply Hm| |done]. intros x s1 [a Ha].
  eapply wp_mono; [exact (Hk x (view s1) s1 eq_refl)| |done]. intros y s2 H2. exists a. by rewrite H2.
Qed.

Lemma switches_if {A} (b : bool) (m1 m2 : T A) : switches m1 -> switches m2 -> switches (if b then m1 else m2).
Proof. by destruct b. Qed.

Lemma unseen_gets {A} (f : ustate -> A) : unseen (gets f).
Proof. intros v. apply preserves_gets. Qed.

Lemma switches_setup_arm next update : unseen next -> unseen update -> switches (setup_arm next update).
Proof.
  intros Hnext Hup s Hs. unfold setup_arm. apply wp_bind, wp_gets. cbv zeta. apply wp_bind.
  eapply wp_mono; [exact (Hnext (view s) s eq_refl)| |done]. intros a s1 H1. apply wp_bind, wp_modify. apply wp_bind.
  assert (u64 (s32 (arm (mstate s))) = arm (mstate s)) as ->.
  { destruct Hs as [Ha _]. rewrite s32_small by (unfold in_s32; lia). apply u64_small. lia. }
  set (s2 := s1 <| mstate ::= _ |>).
  assert (Hfin : forall s3, view s3 = view (switch a s) -> wp update s3 (fun _ s' => exists a, view s' = view (switch a s)) any_stop).
  { intros s3 H3. eapply wp_mono; [exact (Hup (view s3) s3 eq_refl)| |done]. intros x s4 H4. exists a. by rewrite H4. }
  destruct (view_playable _ _ H1 Hs) as [_ Hn]. unfold set_msrs. apply wp_bind, wp_gets.
  change (num_threads (mstate s2)) with (num_threads (mstate s1)). change (arm (mstate s2)) with a.
  assert (Harm : arm (mstate s1) = arm (mstate s)) by (unfold view in H1; congruence). rewrite <- Harm.
  rewrite <- (view_switch s s1 a H1) in Hfin.
  destruct (Z.eqb_spec (arm (mstate s1)) a) as [He|He]; cbn [negb].
  - apply wp_ret, Hfin. unfold view, switch, s2. cbn. by rewrite He, Z.eqb_refl.
  - rewrite <- (Z2Nat.id (num_threads (mstate s1))) by lia. unfold wp.
    rewrite (for_threads_eq mark _ (aggr s2) (Z.to_nat (num_threads (mstate s1))) s2).
    + apply Hfin. unfold view, switch, s2. cbn. by rewrite (proj2 (Z.eqb_neq _ _)) by congruence.
    + intros i s3 t _ Ht. rewrite (bind_Ok _ _ s3 t s3) by by apply thread_at_Some. apply put_thread_Ok. by eapply aget_Some_range.
    + done.
    + change (gtinfo s2) with (gtinfo s1). lia.
Qed.

Lemma unseen_bind {A B} (m : T A) (k : A -> T B) : unseen m -> (forall x, unseen (k x)) -> unseen (mbind k m).
Proof. intros Hm Hk v. apply preserves_bind; [apply Hm|]. intros x. apply Hk. Qed.

Lemma unseen_if {A} (b : bool) (m1 m2 : T A) : unseen m1 -> unseen m2 -> unseen (if b then m1 else m2).
Proof. by destruct b. Qed.

Lemma unseen_ret {A} (x : A) : unseen (mret x).
Proof. intros v. apply preserves_ret. Qed.

Lemma unseen_modify_mab (f : mab_state -> mab_state) :
  (forall m, arm (f m) = arm m /\ num_threads (f m) = num_threads m /\ dynamic_sd (f m) = dynamic_sd m) -> unseen (modify_mab f).
Proof. intros Hf v. by apply unseen_mab. Qed.

Lemma switches_chosen log : switches (setup_chosen_arm log).
Proof.
  apply switches_before; [apply unseen_gets|]. intros m. apply switches_setup_arm; [apply unseen_next_arm|apply unseen_update].
Qed.

Lemma switches_mode_work log q : switches (mode_work log q).
Proof.
  repeat apply switches_if.
  - apply switches_before; [apply unseen_gets|]. intros m. apply switches_before.
    { apply unseen_if; [|apply unseen_ret]. apply unseen_bind; [apply unseen_evaluate, unseen_get_reward|]. intros _. apply unseen_ret. }
    intros _. apply switches_after; [apply switches_setup_arm; [apply (unseen_next_arm log (Some next_arm_rr_))|
      apply (unseen_update (Some update_rr_))]|]. intros _.
    apply unseen_bind; [apply unseen_gets|]. intros m1. apply unseen_if; [by apply unseen_modify_mab|apply unseen_ret].
  - apply switches_before; [apply unseen_evaluate, unseen_get_reward|]. intros _.
    apply switches_before; [apply unseen_gets|]. intros m. apply switches_before; [apply unseen_if; [apply unseen_normalise|apply unseen_ret]|].
    intros _. apply switches_after; [apply switches_chosen|]. intros _. by apply unseen_modify_mab.
  - apply switches_before; [apply unseen_evaluate, unseen_update_reward|]. intros _. apply switches_chosen.
Qed.

(** The filter keeps its own buffers and may change the length of the intervals. *)
Lemma unseen_check_dynamic_sd : unseen check_dynamic_sd.
Proof.
  intros v. unfold check_dynamic_sd, measured_ipc, update_and_fetch_sd_mean, update_sd, replace_entry, rem_u. cbv zeta.
  preserve; by apply preserves_modify.
Qed.

(** A run of the bandit switches to an arm, and nothing else of it shows. *)
Lemma mab_switches log : switches (mab log).
Proof.
  apply switches_before; [apply unseen_check_dynamic_sd|]. intros sleep.
  assert (Hret : forall (m : T unit), switches m -> switches (m ;; mret 0)).
  { intros m Hm. apply switches_after; [done|]. intros _. apply unseen_ret. }
  apply switches_if.
  { apply Hret, switches_setup_arm; [apply (unseen_next_arm log (Some next_arm_default_))|apply (unseen_update (Some update_none_))]. }
  apply switches_before; [apply unseen_gets|]. intros m. apply switches_if.
  { apply Hret, switches_setup_arm; [apply (unseen_next_arm log (Some next_arm_random_))|apply (unseen_update (Some update_increment_))]. }
  apply switches_before; [apply unseen_normalise_due|]. intros due.
  apply switches_before; [apply unseen_if; [apply unseen_normalise|apply unseen_ret]|]. intros _.
  apply switches_before; [apply unseen_gets|]. intros m'. apply Hret, (switches_mode_work log (mode m')).
Qed.

Section bandit.
Context (log : spec_float -> spec_float) (n : nat).

(** A learning bandit for [n] threads. *)
Record bandit_ok (w : ustate) : Prop := {
  bo_alg : tunealg (dev w) = MAB;
  bo_inv : exists k, 1 <= k <= MAX_ARMS /\ mab_inv k k w;
  bo_threads : num_threads (mstate w) = Z.of_nat n;
  bo_tables : Forall (fun t => zlen t = HWPF_MSR_FIELDS) (hwpf_msr_values (arms w)) }.

Lemma bandit_table w : bandit_ok w -> exists tab, aget (hwpf_msr_values (arms w)) (arm (mstate w)) = Some tab /\ zlen tab = HWPF_MSR_FIELDS.
Proof.
  intros [_ (k & Hk & Hm & Hw) _ Ht]. destruct (aget_is_Some (hwpf_msr_values (arms w)) (arm (mstate w))) as [tab Htab].
  { rewrite (mw_tables w Hw). pose proof (ms_arm _ _ _ Hm). lia. }
  exists tab. split; [done|]. by apply (Forall_aget _ _ _ _ Ht Htab).
Qed.

Lemma bandit_run w :
  bandit_ok w ->
  exists a w', calculate_settings log w = Ok (0, w') /\ view w' = view (switch a w) /\ bandit_ok w'.
Proof.
  intros [Halg (k & Hk & Hinv) Hn Ht]. pose proof Hinv as [Hm Hw].
  assert (Hplay : playable w).
  { destruct Hm. unfold MAX_ARMS in Hk. split; [lia|]. rewrite (mw_threads w Hw). done. }
  destruct (runs_Ok _ _ _ _ w (runs_mab k Hk log) Hinv) as (r & w' & Hrun & _ & Hinv').
  pose proof (mab_switches log w Hplay) as Hsw. unfold wp in Hsw. rewrite Hrun in Hsw. destruct Hsw as [a Ha].
  exists a, w'. split; [|split; [done|]].
  - unfold calculate_settings. rewrite (bind_Ok _ _ _ _ _ (tunealg_of_Ok w)), Halg. cbn [Z.eqb orb MAB Pos.eqb].
    rewrite (bind_Ok _ _ _ tt w'); [done|]. by rewrite (bind_Ok _ _ _ _ _ Hrun).
  - unfold view, switch in Ha. cbn in Ha. injection Ha as Hd _ _ _ _ _ _ _ Hn' _ Ht' _.
    split; [by rewrite Hd|by exists k|by rewrite Hn'|by rewrite Ht'].
Qed.

#[export] Instance bandit_tuner : Tuner log n.
Proof.
  refine {| tuner_ok := bandit_ok |}.
  - intros w d [Halg (k & Hk & Hm & []) ? ?] Ha. split; cbn; [by rewrite Ha|by exists k|done..].
  - intros w q [Halg (k & Hk & Hm & []) ? ?]. split; try done. by exists k.
  - intros w g [Halg (k & Hk & Hm & []) ? ?] Hg. split; try done. exists k. split; [done|]. split; [done|]. split; try done.
    cbn. by rewrite Hg.
  - intros w x [Halg (k & Hk & Hm & []) ? ?]. split; try done. by exists k.
  - intros w t Hok _. destruct (bandit_table w Hok) as (tab & Htab & Hl). exists tab. unfold chosen_table, intended.
    rewrite (bo_alg w Hok). cbn [Z.eqb MAB Pos.eqb]. auto.
  - intros w Hok Hwf Hact Hn Hrdt. destruct (bandit_run w Hok) as (a & w' & Hrun & Hview & Hok'). exists w'. split; [done|]. split; [done|].
    unfold view, switch in Hview. cbn in Hview. rewrite (bo_threads w Hok), Nat2Z.id in Hview. injection Hview as Hd H1 H2 H3 H4 H5 H6 Ha _ Hsd Ht Hg.
    split; [done|].
    assert (Hthr : forall w g, gtinfo w' = g -> threads_wf (w <| gtinfo := g |>) -> threads_wf w') by (unfold threads_wf; cbn; congruence).
    destruct (Z.eqb_spec a (arm (mstate w))) as [He|He].
    + split; [exact (Hthr w _ Hg Hwf)|]. intros i t Hi Ht'. exists t. rewrite Hg. split; [done|]. apply decided_refl; congruence.
    + split; [apply (Hthr w _ Hg), prefix_map_wf; [done|]; by intros t []|]. intros i t Hi Ht'. exists (mark t). rewrite Hg.
      split; [apply prefix_map_at; [rewrite (proj1 Hwf)|..]; done|]. by split; [|left].
Defined.
End bandit.

(** *** Its initialisation *)

(** What the initialisation keeps: everything but the bandit's own records, whose
    tables keep their length. *)
Definition outside (s : ustate) : proc * (Z * Z * Z * Z * Z * pstate) * list thread_state :=
  (dev s, (UState.core_first s, UState.core_last s, rdt_enabled s, pmu_method s, num_events s, perf s), gtinfo s).

Definition around (v : proc * (Z * Z * Z * Z * Z * pstate) * list thread_state) (s : ustate) : Prop :=
  outside s = v /\ Forall (fun t => zlen t = HWPF_MSR_FIELDS) (hwpf_msr_values (arms s)).

Section around.
Context (v : proc * (Z * Z * Z * Z * Z * pstate) * list thread_state).

Lemma around_mab f : preserves (around v) (modify_mab f).
Proof. by apply preserves_modify. Qed.

Lemma around_table i f : (forall t, zlen (f t) = zlen t) -> preserves (around v) (on_table i f).
Proof.
  intros Hf s [Hs Ht]. unfold on_table. apply wp_bind, wp_read; [|done]. intros t Hi. apply wp_modify. split; [done|].
  cbn. apply Forall_aset; [done|]. rewrite Hf. by apply (Forall_aget _ _ _ _ Ht Hi).
Qed.

Lemma around_write {A} (l : ustate -> list A) i (f : arms_t -> arms_t) :
  (forall a, hwpf_msr_values (f a) = hwpf_msr_values a) ->
  preserves (around v) (fun s => (check_index (l s) i ;; modify (fun s => s <| arms ::= f |>)) s).
Proof.
  intros Hf s [Hs Ht]. apply wp_bind. apply wp_check_index; [|done]. intros _. apply wp_modify. split; [done|]. cbn. by rewrite Hf.
Qed.

Lemma around_when_int it cond assign : preserves (around v) (when_int it cond assign).
Proof. unfold when_int. preserve; apply around_mab. Qed.

Lemma around_when_double it cond assign : preserves (around v) (when_double it cond assign).
Proof. unfold when_double. preserve; apply around_mab. Qed.

Lemma zlen_populate t : zlen (populate_msr_u t) = zlen t.
Proof. unfold populate_msr_u, populate_msr1323, populate_msr1322, populate_msr1321, populate_msr1320. by rewrite !populate_word_length. Qed.

Lemma around_init_arm i : preserves (around v) (init_arm i).
Proof.
  unfold init_arm. preserve; [apply around_table, zlen_populate|..]; by apply around_write.
Qed.
End around.

#[local] Hint Resolve around_mab around_when_int around_when_double around_init_arm : preserve.

Lemma around_arms v c : preserves (around v) (create_switch c).
Proof.
  unfold create_switch, create_16_arms, create_4_arms, create_5_combos_l2dd, create_6_combos_l2xq, create_2_arms, create_combos, set_num_arms.
  preserve; apply around_table; intros t; unfold arm_16, arm_4, msr_set_l2dd, msr_set_l2xq, msr_set_mlc_disable, msr_set_amp_disable,
    msr_set_llcoff, msr_set_nlpoff; by rewrite ?union_set_length.
Qed.

Lemma around_mab_init v parse f c1 c2 active : preserves (around v) (mab_init parse f c1 c2 active).
Proof.
  unfold mab_init, setup_mab_state_from_json, setup_fields, setup_algorithm, setup_arm_configuration, setup_rest,
    allocate_buffers, init_mab_strategies, create_arms. preserve; apply around_arms.
Qed.

(** ** The start *)

(** What [main] has set up when it comes to the threads: the cores [first] to
    [first + n - 1], counters read through the MSR devices or as perf events, no
    device of these cores open yet, RDT off, and devices and events that answer. *)
Record configured (first : Z) (n : nat) (w : ustate) : Prop := {
  cf_range : 0 <= first /\ first + Z.of_nat n <= MAX_NUM_CORES;
  cf_first : UState.core_first w = first;
  cf_last : UState.core_last w = first + Z.of_nat n - 1;
  cf_globals : rdt_enabled w = 0 /\ counting w;
  cf_calls : ios (dev w) = [] /\ MsrDev.opens (dev w) = [];
  cf_wf : threads_wf w;
  cf_ids : zlen (msr_file_id (dev w)) = MAX_NUM_CORES /\
    forall i, 0 <= i < Z.of_nat n -> aget (msr_file_id (dev w)) (first + i) = Some 0;
  cf_fds : 0 < low_fd (dev w) /\ fds (dev w) !! 0 = None;
  cf_cores : num_cores (dev w) = 0 /\ (first <> 0 -> aget (msr_file_id (dev w)) 0 = Some 0) }.

(** What the chosen algorithm finds: steps that are numbers and mapped DDR
    controllers (and sixteen threads for algorithm 1); or, for the bandit, its data,
    a configuration file that names arms and a learning algorithm, and memory for
    the filter of deviations where the file asks for it. *)
Inductive ready (parse : list Z -> option (string -> option item)) (f : option file) (c1 c2 : bool) (n : nat) (w : ustate) : Prop :=
  | ready_basic : basic_ok n w -> ready parse f c1 c2 n w
  | ready_bandit data get c :
      tunealg (dev w) = MAB -> mab_world w -> 0 <= algorithm (mstate w) <= 2 ->
      Forall (fun t => zlen t = HWPF_MSR_FIELDS) (hwpf_msr_values (arms w)) ->
      read_file f = Some data -> parse data = Some get -> config_ok get c -> (asks_sd get -> c1 = true /\ c2 = true) ->
      ready parse f c1 c2 n w.

Lemma configured_outside first n w w' : outside w' = outside w -> configured first n w -> configured first n w'.
Proof. unfold outside. intros [= Hd Hf Hl Hr Hm Hn Hq Hg] []. unfold threads_wf, counting in *.
  split; unfold threads_wf, counting; rewrite ?Hd, ?Hf, ?Hl, ?Hr, ?Hm, ?Hn, ?Hq, ?Hg; done.
Qed.

Lemma create_loop first k w :
  threads_wf w -> Z.of_nat k <= MAX_THREADS ->
  exists g, for_each (seqZ 0 (Z.of_nat k)) (fun tnum => t ← thread_at tnum; put_thread tnum (t <| core_id := first + tnum |>)) w =
      Ok (tt, w <| gtinfo := g |>) /\ threads_wf (w <| gtinfo := g |>) /\
    forall i t, 0 <= i < Z.of_nat k -> aget g i = Some t -> core_id t = first + i.
Proof.
  intros Hwf. induction k as [|k IH]; intros Hk.
  { exists (gtinfo w). split; [by destruct w|]. split; [by destruct w|]. lia. }
  destruct IH as (g & Hrun & Hg & Hc); [lia|]. set (w1 := w <| gtinfo := g |>) in *.
  destruct (threads_wf_at w1 (Z.of_nat k) Hg) as (t & Ht & Htw); [lia|].
  assert (Hr := aget_Some_range _ _ _ Ht). exists (aset g (Z.of_nat k) (t <| core_id := first + Z.of_nat k |>)).
  rewrite seqZ_S, for_each_app, (bind_Ok _ _ _ _ _ Hrun). cbn [for_each]. rewrite Z.add_0_l. split; [|split].
  - rewrite (bind_Ok _ _ _ tt (w1 <| gtinfo := aset (gtinfo w1) (Z.of_nat k) (t <| core_id := first + Z.of_nat k |>) |>)); [done|].
    rewrite (bind_Ok _ _ w1 t w1) by by apply thread_at_Some. by apply put_thread_Ok.
  - apply (threads_wf_set w1); [done|]. destruct Htw. by split.
  - intros i u Hi Hu. destruct (decide (i = Z.of_nat k)) as [->|Hne].
    + rewrite aget_aset_eq in Hu by done. by simplify_eq.
    + rewrite aget_aset_ne in Hu by done. apply Hc; [lia|done].
Qed.

(** The threads of any tuner that is ready and has not played yet. *)
Lemma created first n log (TU : Tuner log n) w :
  configured first n w -> tuner_ok w -> unplayed w ->
  exists w', create_threads w = Ok (tt, w') /\
    forall interrupts, (interrupts = true -> interruptible w') -> program_inv first n log interrupts (launched w').
Proof.
  intros [[Hr1 Hr2] Hf Hl [Hrdt Hmeth] [Hio Hop] Hwf [Hids Hz] [Hn H0] [Hnc Hzero]] Htu Hun.
  unfold MAX_NUM_CORES in Hr2. destruct (create_loop first n w Hwf) as (g & Hrun & Hg & Hc); [unfold MAX_THREADS; lia|].
  set (w' := w <| gtinfo := g |>) in *. exists w'. split.
  - unfold create_threads. rewrite (bind_Ok get_state _ _ _ _ eq_refl), Hf, Hl.
    by replace (first + Z.of_nat n - 1 - first + 1) with (Z.of_nat n) by lia.
  - intros interrupts Hsig. assert (Hw : world_ok first n log interrupts w').
    { split; try done. apply tuner_threads; [done|]. by rewrite (proj1 Hwf : zlen (gtinfo w) = _), (proj1 Hg : zlen g = _). }
    unfold launched. rewrite (active_ok first n log interrupts w' Hw), Nat2Z.id. split; cbn; [apply length_replicate..|done|].
    intros i p [-> Hi]%lookup_replicate. split; [|done..]. intros _. split; [apply Hz; lia|by right].
Qed.

Lemma tuners_start log parse f c1 c2 first n w :
  configured first n w -> ready parse f c1 c2 n w ->
  exists (TU : Tuner log n) w', start_tuners parse f c1 c2 w = Ok (tt, w') /\
    forall interrupts, (interrupts = true -> interruptible w') -> program_inv first n log interrupts (launched w').
Proof.
  intros Hcf Hrd. unfold start_tuners. rewrite (bind_Ok _ _ _ _ _ (tunealg_of_Ok w)), bind_gets.
  destruct Hrd as [Hok|data get c Halg Hw Hal Ht Hf Hp Hco Hsd].
  - destruct (created first n log (basic_tuner log n) w Hcf Hok) as (w' & Hrun & Hinv).
    { intros Ha. apply Z.eqb_eq in Ha. by rewrite (basic_not_mab n w Hok) in Ha. }
    exists (basic_tuner log n), w'. split; [|done]. rewrite (basic_not_mab n w Hok). by rewrite (bind_Ok _ _ _ tt w) by done.
  - rewrite Halg. cbn [Z.eqb MAB Pos.eqb].
    assert (Hact : active_threads w = Z.of_nat n) by (unfold active_threads; rewrite (cf_first _ _ _ Hcf), (cf_last _ _ _ Hcf); lia).
    assert (Hmax : 0 <= active_threads w <= MAX_THREADS).
    { destruct (cf_range _ _ _ Hcf). unfold MAX_NUM_CORES, MAX_THREADS in *. lia. }
    destruct (runs_Ok _ _ _ _ w (runs_mab_init get (active_threads w) c c1 c2 Hco Hsd parse f data Hf Hp Hmax)
      (conj Hal Hw)) as ([] & w1 & Hrun & _ & [Hshape Harm Hthr _] & Hw1).
    pose proof (around_mab_init (outside w) parse f c1 c2 (active_threads w) w (conj eq_refl Ht)) as Har.
    unfold wp in Har. rewrite Hrun in Har. destruct Har as [Hout Ht1].
    pose proof (co_range _ _ Hco) as Hc.
    assert (Hn : 1 <= n_arms c <= MAX_ARMS).
    { assert (c = 0 \/ c = 1 \/ c = 2 \/ c = 3 \/ c = 4) as [->|[->|[->|[->| ->]]]] by lia; done. }
    destruct (created first n log (bandit_tuner log n) w1) as (w' & Hcr & Hinv).
    { by apply (configured_outside _ _ w). }
    { split; [unfold outside in Hout; congruence|by exists (n_arms c)|by rewrite Hthr|done]. }
    { by intros _. }
    exists (bandit_tuner log n), w'. split; [|done]. by rewrite (bind_Ok _ _ _ _ _ Hrun).
Qed.

(** ** Properties *)

(** The tuning program as a whole, for each of its algorithms on any range of
    cores: from its start the threads never fail, in any interleaving of them and
    with interrupts at any time unless the bandit's filter is on (no access
    outside an array, no missing local state, no undefined conversion), and in
    every state they reach the first core of each module has in its prefetcher
    MSRs settings that the tuner intends for it, unless they are marked to be
    written; when the thread has made its write the mark is gone. *)
Theorem hardware_follows_tuner log pick stack measurement parse f c1 c2 first n w :
  configured first n w -> ready parse f c1 c2 n w -> zlen stack = MAX_EVENTS ->
  exists w', start_tuners parse f c1 c2 w = Ok (tt, w') /\
  forall interrupts s, (interrupts = true -> interruptible w') ->
    rtc (program_reaches log pick stack measurement interrupts) (launched w') s ->
    (forall i e, program_step log pick stack measurement i s <> Some (Stop e)) /\
    (forall i p, pcs (flags s) !! i = Some p -> looping p = true -> primary i = true ->
      exists t, aget (gtinfo (world s)) (Z.of_nat i) = Some t /\ core_id t = first + Z.of_nat i /\
        (hwpf_msr_dirty t = 1 \/
         exists tab, intended (world s) (hwpf_msr_value t) tab /\ holds_table (dev (world s)) (core_id t) tab)) /\
    (forall i s', pcs (flags s) !! i = Some WriteMsrs -> primary i = true ->
      program_step log pick stack measurement i s = Some (Ok s') ->
      exists t tab, aget (gtinfo (world s')) (Z.of_nat i) = Some t /\ hwpf_msr_dirty t <> 1 /\
        intended (world s') (hwpf_msr_value t) tab /\ holds_table (dev (world s')) (core_id t) tab).
Proof.
  intros Hcf Hrd Hst. destruct (tuners_start log parse f c1 c2 first n w Hcf Hrd) as (TU & w' & Hstart & H0). exists w'. split; [done|].
  intros interrupts s Hint Hreach. destruct (cf_range _ _ _ Hcf) as [Hr1 Hr2].
  pose proof (program_inv_reaches first n log interrupts Hr1 Hr2 pick stack Hst measurement _ _ Hreach (H0 _ Hint)) as Hs. split; [|split].
  - intros i e Hstop. pose proof (program_step_run first n log interrupts Hr1 Hr2 pick stack Hst measurement s i Hs) as Hrun.
    by rewrite Hstop in Hrun.
  - intros i p Hp Hlp Hprim. by apply (loop_current first n log interrupts s i p).
  - intros i s' Hp Hprim Hstep. by eapply write_settles.
Qed.

Lemma reset_unset p fd :
  num_cores p = 0 -> ios p = [] -> aget (msr_file_id p) 0 = Some fd -> fds p !! fd = None ->
  rdt_mbm_reset p = Stop (ExitWith 127).
Proof.
  intros Hn Hio Hid Hfd. unfold rdt_mbm_reset. rewrite bind_gets. unfold all_cores. rewrite Hn.
  rewrite seqZ_cons by by vm_compute. apply bind_Stop. cbn [reset_loop]. apply bind_Stop.
  unfold msr_set_rmid, write_core_msr. rewrite bind_gets, (bind_Ok _ _ _ _ _ (read_Some _ _ _ _ Hid)).
  rewrite (bind_Ok _ _ _ IoFail p); [done|]. unfold pwrite, next_io. unfold mbind, ST_bind. rewrite Hio.
  cbn. by rewrite Hfd.
Qed.

(** C22: how a run without RDT ends.  Take a run of the user mode in which RDT is off
    and the devices (or, with [--perf], the events) answer, with algorithm 0, with
    algorithm 1 on sixteen cores or more, or with a bandit that learns and has its
    filter of deviations off.  Once every thread has been set up, when later the
    thread of the first core has left its loop, which is all that [main] waits for,
    the end of [main] does not return 0: it resets the monitoring of RDT, which was
    never set up; the count of cores is 0, the loop over the cores wraps around, its
    first write goes to the descriptor of a device that is closed or was never
    opened, and the process exits with status 127.  (With the filter on, the only
    way out of the loop, an interrupt, breaks the run: [interrupt_breaks_filter].) *)
Theorem run_without_rdt_ends_in_error log pick stack measurement parse f c1 c2 first n w :
  configured first n w -> ready parse f c1 c2 n w -> zlen stack = MAX_EVENTS ->
  exists w', start_tuners parse f c1 c2 w = Ok (tt, w') /\
  forall interrupts s s' p, (interrupts = true -> interruptible w') ->
    rtc (program_reaches log pick stack measurement interrupts) (launched w') s ->
    all_set_up s -> pcs (flags s) !! 0%nat = Some p -> looping p = true ->
    rtc (program_reaches log pick stack measurement interrupts) s s' ->
    pcs (flags s') !! 0%nat = Some Finished -> main_end (world s') = Stop (ExitWith 127).
Proof.
  intros Hcf Hrd Hst. destruct (tuners_start log parse f c1 c2 first n w Hcf Hrd) as (TU & w' & Hstart & H0). exists w'. split; [done|].
  intros interrupts s s' p Hint Hreach Hset Hp Hloop Hreach' Hfin. destruct (cf_range _ _ _ Hcf) as [Hr1 Hr2].
  pose proof (program_inv_reaches first n log interrupts Hr1 Hr2 pick stack Hst measurement _ _ Hreach (H0 _ Hint)) as Hs.
  pose proof (program_inv_reaches first n log interrupts Hr1 Hr2 pick stack Hst measurement _ _ Hreach' Hs) as [_ _ Hw _].
  destruct (ended_closed first n log interrupts Hr1 Hr2 pick stack Hst measurement 0 s s' Hreach' Hs Hset) as (fd & Hid & Hfd).
  { intros Hf. by assert (p = Finished) as -> by congruence. } { done. }
  destruct (wo_zero _ _ _ _ _ Hw) as [Hz1 Hz2].
  assert (Hex : exists fd, aget (msr_file_id (dev (world s'))) 0 = Some fd /\ fds (dev (world s')) !! fd = None).
  { destruct (decide (first = 0)) as [Hf|Hf]; [exists fd|exists 0; auto]. by rewrite Hf in Hid. }
  destruct Hex as (fd0 & Hid0 & Hfd0). apply bind_Stop. unfold on_dev, zoom.
  by rewrite (reset_unset (dev (world s')) fd0 (wo_rdt_cores _ _ _ _ _ Hw) (wo_ios _ _ _ _ _ Hw) Hid0 Hfd0).
Qed.

(** With the filter on, an interrupt breaks the run: the handler frees the buffers
    and sets them to [NULL], and a decision of the master after it, as long as the
    round goes on, follows the null pointer. *)
Theorem interrupt_breaks_filter log w :
  tunealg (dev w) = MAB -> sd_active (mstate w) -> threads_wf w -> rdt_enabled w = 0 ->
  exists w', sigintHandler w = Ok (tt, w') /\ calculate_settings log w' = Stop NullDeref.
Proof.
  intros Halg Hsd Hwf Hrdt. set (w' := w <| mstate ::= fun m => m <| ipc_buffer := None |> <| sd_buffer := None |> |>).
  assert (Hon : (dynamic_sd (mstate w) =? ON) || (dynamic_sd (mstate w) =? STEP) = true) by (destruct Hsd as [->| ->]; done).
  exists w'. split.
  - unfold sigintHandler. rewrite (bind_Ok _ _ _ _ _ (tunealg_of_Ok w)), bind_gets, Halg, Hon. cbn [Z.eqb MAB Pos.eqb andb].
    rewrite (bind_Ok _ _ _ tt w') by done. rewrite bind_gets. change (rdt_enabled w') with (rdt_enabled w). by rewrite Hrdt.
  - unfold calculate_settings. rewrite (bind_Ok _ _ _ _ _ (tunealg_of_Ok w')). change (tunealg (dev w')) with (tunealg (dev w)).
    rewrite Halg. cbn [Z.eqb MAB Pos.eqb orb]. apply bind_Stop, bind_Stop. unfold mab. apply bind_Stop. unfold check_dynamic_sd.
    rewrite bind_gets. change (dynamic_sd (mstate w')) with (dynamic_sd (mstate w)). rewrite Hon.
    destruct (threads_wf_at w' 1 Hwf) as (t & Ht & _); [done|].
    rewrite (bind_Ok measured_ipc _ w' (to_f32 (f64_div (f64_of_Z (instructions_retired t)) (f64_of_Z (UState.cpu_cycles t)))) w').
    + apply bind_Stop. unfold update_and_fetch_sd_mean. rewrite bind_gets. by apply bind_Stop.
    + unfold measured_ipc. by rewrite (bind_Ok _ _ w' t w') by by apply thread_at_Some.
Qed.

(** The first arm of the round robin is never written.  The bandit starts on arm 0
    and plays arm 0 first; [set_msrs] compares the arm with the one before, finds
    no change and marks no thread.  The reward of that interval is entered for arm
    0, but was measured with the settings the MSRs had before. *)
Theorem first_arm_not_written log k s :
  1 <= k <= MAX_ARMS -> mab_inv k k s -> mode (mstate s) = ROUND_ROBIN -> rr_counter (mstate s) = 0 -> arm (mstate s) = 0 ->
  exists s', mab log s = Ok (0, s') /\ arm (mstate s') = 0 /\ gtinfo s' = gtinfo s.
Proof.
  intros Hk [Hm Hw] Hmode Hrr Harm. destruct (runs_Ok _ _ _ _ s (runs_mab k Hk log) (conj Hm Hw)) as (r & s' & Hrun & -> & _).
  exists s'. split; [done|].
  destruct (interval_progress log k Hk (dynamic_sd (mstate s)) 0 (gtinfo s, rands s) s) as (s1 & Hi & _ & Hs1).
  { done. } { destruct Hw. by split. }
  { unfold progress, mode_at. rewrite (proj2 (Z.ltb_lt 0 k)) by lia. done. } { done. }
  assert (s1 = s') as ->.
  { unfold interval in Hi. rewrite bind_modify in Hi. cbn [fst snd] in Hi.
    replace (s <| gtinfo := gtinfo s |> <| rands := rands s |>) with s in Hi by (by destruct s).
    rewrite (bind_Ok _ _ _ _ _ Hrun) in Hi. by injection Hi. }
  assert (Ha : arm (mstate s') = 0) by (destruct (asleep _ s); [apply Hs1|apply Hs1; lia]). split; [done|].
  assert (Hplay : playable s).
  { destruct Hm. split; [lia|]. rewrite (mw_threads s Hw). done. }
  pose proof (mab_switches log s Hplay) as Hsw. unfold wp in Hsw. rewrite Hrun in Hsw. destruct Hsw as [a Hv].
  unfold view, switch in Hv. cbn in Hv. injection Hv as _ _ _ _ _ _ _ Ha' _ _ _ Hg. rewrite Hg, Harm. by rewrite (proj2 (Z.eqb_eq a 0)) by congruence.
Qed.

(** One core, two mapped controllers, a target of 1 MB/s: two rounds of the master. *)
Definition one_core : ustate :=
  ustate0 0 0 <| mem := two_mapped |> <| clocks := [1000; 1001] |> <| UState.ddr_bw_target := 1 |>
    <| pmu_method := PMU_RAW |> <| aggr := f32_of_Z 1 |>
    <| dev := dev0 <| fds := ∅ |> <| msr_file_id := replicate 512 0 |> <| num_cores := 0 |> |>.

Definition no_events : list Z := replicate 8 0.

Definition two_rounds : list nat := replicate 16 0%nat.

Lemma one_core_configured alg : configured 0 1 (one_core <| dev ::= fun d => d <| tunealg := alg |> |>).
Proof.
  split.
  - split; [lia|by vm_compute].
  - reflexivity.
  - reflexivity.
  - split; [done|by left].
  - by split.
  - apply threads_wf_ustate0.
  - split; [by vm_compute|]. intros i Hi. by assert (i = 0) as -> by lia.
  - split; [by vm_compute|done].
  - by split.
Qed.

Lemma one_core_basic : basic_ok 1 (one_core <| dev ::= fun d => d <| tunealg := 0 |> |>).
Proof.
  split.
  - by left.
  - repeat (apply Forall_cons; split; [by eexists; vm_compute|]). done.
  - exists (fun i => 0x1000 + i * 0x1000). split; [|split].
    + split; [reflexivity..|by vm_compute].
    + intros i Hi. assert (i = 0 \/ i = 1) as [->| ->] by (cbn in Hi; lia); eexists; (split; [reflexivity|]); by split.
    + by vm_compute.
Qed.

(** The same with the bandit and the [mab_config.json] of the repository, which has
    the filter on. *)
Definition mab_config (key : string) : option item :=
  if bool_decide (key = "algorithm")%string then Some (JString (Some "DUCB"%string))
  else if bool_decide (key = "arm_configuration")%string then Some (JNumber 0 (f64_of_Z 0))
  else if bool_decide (key = "epsilon")%string then Some (JNumber 0 (literal 1 10))
  else if bool_decide (key = "gamma")%string then Some (JNumber 0 (literal 99 100))
  else if bool_decide (key = "c")%string then Some (JNumber 0 (literal 1 1000))
  else if bool_decide (key = "normalisation")%string then Some (JNumber 3 (f64_of_Z 3))
  else if bool_decide (key = "norm_freq")%string then Some (JNumber 1000 (f64_of_Z 1000))
  else if bool_decide (key = "dynamic_sd")%string then Some (JNumber 1 (f64_of_Z 1))
  else if bool_decide (key = "ipc_window_size")%string then Some (JNumber 100 (f64_of_Z 100))
  else if bool_decide (key = "sd_window_size")%string then Some (JNumber 500 (f64_of_Z 500))
  else if bool_decide (key = "sd_mean_threshold")%string then Some (JNumber 0 (literal 3 10))
  else None.

Lemma mab_config_ok : config_ok mab_config 0.
Proof.
  split; [by eexists|lia| |intros _; by exists 100, (f64_of_Z 100)|intros _; by exists 500, (f64_of_Z 500)]. intros a [= <-]. auto.
Qed.

Definition mab_config_file : option file := Some {| file_length := 2; file_bytes := [123; 125] |}.

Lemma one_core_bandit : ready (fun _ => Some mab_config) mab_config_file true true 1 (one_core <| dev ::= fun d => d <| tunealg := MAB |> |>).
Proof.
  apply (ready_bandit _ _ _ _ _ _ [123; 125] mab_config 0); try reflexivity.
  - split; try reflexivity; [by vm_compute|constructor].
  - by vm_compute.
  - apply (Forall_replicate _ 1000 (replicate 6 0)). reflexivity.
  - exact mab_config_ok.
  - done.
Qed.

(** In the second round the bandit plays arm 1, whose table reaches the MSRs. *)
Lemma hardware_follows_tuner_witness :
  exists w s tab, start_tuners (fun _ => Some mab_config) mab_config_file true true
      (one_core <| dev ::= fun d => d <| tunealg := MAB |> |>) = Ok (tt, w) /\
    rtc (program_reaches (fun x => x) (fun _ => 0) no_events (fun _ => 0) false) (launched w) s /\
    arm (mstate (world s)) = 1 /\ aget (hwpf_msr_values (arms (world s))) 1 = Some tab /\
    holds_table (dev (world s)) 0 tab.
Proof.
  destruct (hardware_follows_tuner (fun x => x) (fun _ => 0) no_events (fun _ => 0) (fun _ => Some mab_config) mab_config_file true true 0 1 _
    (one_core_configured MAB) one_core_bandit eq_refl) as (w & Hw & Hall).
  assert (Hcheck : exists s, program_run (fun x => x) (fun _ => 0) no_events (fun _ => 0) two_rounds (launched w) = Some s /\
    pcs (flags s) = [LoopTest] /\ arm (mstate (world s)) = 1 /\ tunealg (dev (world s)) = MAB /\
    (t ← aget (gtinfo (world s)) 0; Some (hwpf_msr_dirty t)) = Some 0).
  { vm_compute in Hw. injection Hw as <-. eexists. split; [vm_compute; reflexivity|]. repeat split; vm_compute; reflexivity. }
  destruct Hcheck as (s & Hs & Hpc & Harm & Halg & Hval). assert (Hreach := program_run_reaches _ _ _ _ false _ _ _ Hs).
  destruct (Hall false s ltac:(discriminate) Hreach) as (_ & Hagree & _).
  destruct (Hagree 0%nat LoopTest) as (t & Ht & Hc & Hheld); [by rewrite Hpc|done|done|].
  change (Z.of_nat 0) with 0 in Ht, Hc. rewrite Ht in Hval. injection Hval as Hd. rewrite Hc in Hheld.
  destruct Hheld as [H1|(tab & Hint & Hheld)]; [congruence|]. unfold intended in Hint. rewrite Halg, Harm in Hint.
  cbn in Hint. destruct Hint as [Htab|[H01 _]]; [|discriminate]. exists w, s, tab.
  split; [exact Hw|]. split; [exact Hreach|]. split; [exact Harm|]. split; [exact Htab|exact Hheld].
Defined.

(** An interrupt before the third round. *)
Lemma run_without_rdt_ends_in_error_witness :
  exists w s, start_tuners (fun _ => None) None true true (one_core <| dev ::= fun d => d <| tunealg := 0 |> |>) = Ok (tt, w) /\
    rtc (program_reaches (fun x => x) (fun _ => 0) no_events (fun _ => 0) true) (launched w) s /\
    pcs (flags s) = [Finished] /\ main_end (world s) = Stop (ExitWith 127).
Proof.
  destruct (run_without_rdt_ends_in_error (fun x => x) (fun _ => 0) no_events (fun _ => 0) (fun _ => None) None true true 0 1 _
    (one_core_configured 0) (ready_basic _ _ _ _ _ _ one_core_basic) eq_refl) as (w & Hw & Hall).
  assert (Hcheck : exists s1 s2, program_run (fun x => x) (fun _ => 0) no_events (fun _ => 0) two_rounds (launched w) = Some s1 /\
    pcs (flags s1) = [LoopTest] /\ tunealg (dev w) = 0 /\
    sigintHandler (world s1) = Ok (tt, world s1) /\
    program_run (fun x => x) (fun _ => 0) no_events (fun _ => 0) [0%nat]
      {| flags := flags s1 <| quitflag := true |>; world := world s1; frames := frames s1 |} = Some s2 /\
    pcs (flags s2) = [Finished]).
  { vm_compute in Hw. injection Hw as <-. eexists _, _. split; [vm_compute; reflexivity|]. repeat (split; [vm_compute; reflexivity|]).
    vm_compute. reflexivity. }
  destruct Hcheck as (s1 & s2 & H1 & Hpc1 & Halg & Hsig & H2 & Hpc).
  assert (Hr1 := program_run_reaches _ _ _ _ true _ _ _ H1).
  assert (Hr2 : rtc (program_reaches (fun x => x) (fun _ => 0) no_events (fun _ => 0) true) s1 s2).
  { eapply rtc_l; [exact (program_sigint _ _ _ _ true s1 _ eq_refl Hsig)|]. exact (program_run_reaches _ _ _ _ true _ _ _ H2). }
  exists w, s2. split; [exact Hw|]. split; [etrans; [exact Hr1|exact Hr2]|]. split; [exact Hpc|].
  apply (Hall true s1 s2 LoopTest); [|exact Hr1| |by rewrite Hpc1|reflexivity|exact Hr2|by rewrite Hpc].
  - intros _ [Hm _]. rewrite Halg in Hm. discriminate.
  - unfold all_set_up. rewrite Hpc1. by repeat constructor.
Defined.
