(* ===== verification/SysDetect.v ===== *)
(** * System detection ([sysdetect.c])

    Which cores are efficiency cores (CPUID on each core) and the theoretical
    memory bandwidth from the DMI tables of the firmware.  The measured
    bandwidth is in [BwTest].

    A file is its bytes and a position.  [fread] of an item that is cut off by
    the end of the file stores the bytes there are and reports 0 items. *)

From S2P Require Import Prelude Floats.

Definition MAX_DMI_MEM_CH : Z := 128.

(** ** Efficiency cores *)

(** What the calls of [get_core_type] meet: the affinity mask of the process, and
    whether the next [sched_] calls succeed. *)
Record affinity := { mask : gset Z; sched_calls : list bool }.

#[export] Instance affinity_settable : Settable affinity := fun r =>
  {| mask := mask r; sched_calls := sched_calls r |}.

Definition sched_call : ST affinity bool := fun a =>
  Ok (default true (head (sched_calls a)), a <| sched_calls ::= tail |>).

(** [eax core] is what CPUID leaf 0x1a answers in EAX on a core. *)
Definition get_core_type (eax : Z -> Z) (core_number : Z) : ST affinity Z :=
  got ← sched_call;
  if negb got then mret (-1) else
  original_set ← gets mask;
  set ← sched_call;
  if negb set then mret (-2) else
  modify (fun a => a <| mask := {[core_number]} |>) ;;
  let core_value := Z.shiftr (u32 (eax core_number)) 24 in
  restored ← sched_call;
  if negb restored then mret (-3) else
  modify (fun a => a <| mask := original_set |>) ;;
  mret core_value.

(** [edx] is what leaf 7 answers in EDX. *)
Definition get_hybridflag (edx : Z) : Z := Z.land (Z.shiftr (u32 edx) 15) 0x01.

Record e_cores_layout_s := { first_efficiency_core : Z; last_efficiency_core : Z }.

(** The body of the search: the layout and [efficient_count] so far. *)
Definition core_search_step (eax : Z -> Z) (acc : e_cores_layout_s * Z) (i : Z) : ST affinity (e_cores_layout_s * Z) :=
  t ← get_core_type eax i;
  let '(l, efficient_count) := acc in
  mret (if t =? 0x20 then
          ({| first_efficiency_core := if efficient_count =? 0 then i else first_efficiency_core l;
              last_efficiency_core := i |}, efficient_count + 1)
        else acc).

Definition no_cores : e_cores_layout_s := {| first_efficiency_core := -1; last_efficiency_core := -1 |}.

Definition get_efficient_core_ids (eax : Z -> Z) (edx available_cores : Z) : ST affinity e_cores_layout_s :=
  if get_hybridflag edx =? 1 then
    r ← fold_each (seqZ 0 available_cores) (no_cores, 0) (core_search_step eax);
    mret (fst r)
  else
    t ← get_core_type eax 0;
    mret (if t =? 0x20 then {| first_efficiency_core := 0; last_efficiency_core := available_cores - 1 |}
          else no_cores).

(** ** DMI tables *)

Record stream := { content : list Z; pos : Z }.

#[export] Instance stream_settable : Settable stream := fun r => {| content := content r; pos := pos r |}.

Abbreviation R := (ST stream).

(** The bytes from the position on. *)
Definition rest (f : stream) : list Z := drop (Z.to_nat (pos f)) (content f).

(** [fread(&x, size, 1, fp)] into an object of [size] bytes with value [old]:
    the value after it and the number of items. *)
Definition fread (size : nat) (old : Z) : R (Z * Z) := fun f =>
  let got := take size (rest f) in
  let v := le_val (got ++ drop (length got) (le_bytes size old)) in
  let f' := f <| pos ::= fun p => p + zlen got |> in
  Ok ((v, if (length got =? size)%nat then 1 else 0), f').

(** [fseek(fp, off, SEEK_CUR)]; a position past the end is allowed. *)
Definition fseek (off : Z) : R Z := fun f =>
  if pos f + off <? 0 then Ok (-1, f) else Ok (0, f <| pos ::= fun p => p + off |>).

(** [struct type17_s]: its fields by name. *)
Abbreviation type17_s := (gmap string Z).

Definition field (n : string) (t : type17_s) : Z := default 0 (t !! n).

(** [dmi_read_type17_field(&t->n, size, fp)]. *)
Definition dmi_read_type17_field (n : string) (size : nat) (t : type17_s) : R (Z * type17_s) :=
  r ← fread size (field n t);
  let t' := <[n := fst r]> t in
  mret (if negb (snd r =? 1) then (-1, t') else (1, t')).

(** [!read(f1) || !read(f2) || ...]: whether one of the calls answered 0. *)
Fixpoint some_zero (fs : list (string * nat)) (t : type17_s) : R (bool * type17_s) :=
  match fs with
  | [] => mret (false, t)
  | (n, size) :: fs' =>
      r ← dmi_read_type17_field n size t;
      if fst r =? 0 then mret (true, snd r) else some_zero fs' (snd r)
  end.

Definition common_fields : list (string * nat) :=
  [("handle", 2%nat); ("physical_memory", 2%nat); ("memory_error_handle", 2%nat); ("total_width", 2%nat);
   ("data_width", 2%nat); ("size", 2%nat); ("form_factor", 1%nat); ("device_set", 1%nat);
   ("device_locator", 1%nat); ("bank_locator", 1%nat); ("memory_type", 1%nat); ("type_detail", 2%nat);
   ("speed", 2%nat)]%string.

(** The further groups, each with the length from which it is read. *)
Definition groups : list (Z * list (string * nat)) :=
  [(27, [("manufacturer", 1%nat); ("serial_number", 1%nat); ("asset_tag", 1%nat); ("part_number", 1%nat);
         ("attributes", 1%nat)]%string);
   (34, [("extended_size", 4%nat); ("configured_speed", 2%nat); ("minimum_voltage", 2%nat)]%string);
   (40, [("maximum_voltage", 2%nat); ("configured_voltage", 2%nat); ("memory_technology", 1%nat)]%string);
   (84, [("operating_mode_capacity", 2%nat); ("firmware_version", 1%nat); ("manufacturer_id", 2%nat);
         ("product_id", 2%nat); ("memory_subsystem_controller_manufacturer_id", 2%nat);
         ("memory_subsystem_controller_product_id", 2%nat); ("non_volatile_size", 8%nat);
         ("volatile_size", 8%nat); ("cache_size", 8%nat); ("logical_size", 8%nat); ("extended_speed", 4%nat)]%string);
   (92, [("extended_configured_memory_speed", 4%nat); ("pmic0_manufacturer_id", 2%nat)]%string)].

(** The groups a structure of this length has. *)
Fixpoint read_groups (length : Z) (gs : list (Z * list (string * nat))) (t : type17_s) : R (Z * type17_s) :=
  match gs with
  | [] => mret (0, t)
  | (min, fs) :: gs' =>
      if min <=? length then
        r ← some_zero fs t;
        if (fst r : bool) then mret (-1, snd r) else read_groups length gs' (snd r)
      else read_groups length gs' t
  end.

Definition dmi_read_type17 (length : Z) (t : type17_s) : R (Z * type17_s) :=
  r ← some_zero common_fields t;
  if (fst r : bool) then mret (-1, snd r) else read_groups length groups (snd r).

(** The search for two zero bytes, from the bytes after the first two. *)
Fixpoint find_zeros (byte1 byte2 : Z) (bs : list Z) : option (list Z) :=
  if (byte1 =? 0) && (byte2 =? 0) then Some bs
  else match bs with [] => None | b :: bs' => find_zeros byte2 b bs' end.

Definition skip_strings : R bool := fun f =>
  match rest f with
  | byte1 :: byte2 :: bs =>
      match find_zeros byte1 byte2 bs with
      | Some bs' => Ok (true, f <| pos := zlen (content f) - zlen bs' |>)
      | None => Ok (false, f <| pos := zlen (content f) |>)
      end
  | bs => Ok (false, f <| pos ::= fun p => p + zlen bs |>)
  end.

(** The array of the function, with the entries used so far. *)
Record dmi := { type17 : list type17_s; type17_count : Z; populated_count : Z }.

#[export] Instance dmi_settable : Settable dmi := fun r =>
  {| type17 := type17 r; type17_count := type17_count r; populated_count := populated_count r |}.

(** One structure after its header: [None] when the function returns -1. *)
Definition dmi_structure (type length : Z) (d : dmi) : R (option dmi) :=
  d ← (if type =? 17 then
         t ← read (type17 d) (type17_count d);
         r ← dmi_read_type17 length (<["length"%string := length]> (<["type"%string := type]> t));
         let d := d <| type17 := aset (type17 d) (type17_count d) (snd r) |> in
         mret (if fst r <? 0 then None
               else Some (d <| populated_count ::= fun n => if 0 <? field "size" (snd r) then n + 1 else n |>
                            <| type17_count ::= fun n => n + 1 |>))
       else
         e ← fseek (length - 2);
         mret (if negb (e =? 0) then None else Some d));
  match d with
  | None => mret None
  | Some d => ok ← skip_strings; mret (if ok : bool then Some d else None)
  end.

(** The loop of [dmi_get_bandwidth]: [None] when it does not end within the
    fuel, [Some None] when the function returns -1 in it. *)
Fixpoint dmi_loop (fuel : nat) (type length : Z) (d : dmi) : R (option (option dmi)) :=
  match fuel with
  | O => mret None
  | S fuel =>
      h ← fread 2 (le_val [type; length]);
      if snd h =? 0 then mret (Some (Some d)) else
      let type := fst h mod 256 in
      let length := fst h / 256 in
      if length <? 1 then mret (Some None) else
      d ← dmi_structure type length d;
      match d with
      | None => mret (Some None)
      | Some d => dmi_loop fuel type length d
      end
  end.

(** [dmi_check_same_size] and [dmi_check_same_speed] on the field they look at. *)
Fixpoint same_from (memory_value : Z) (vs : list Z) (count : Z) : Z :=
  match vs with
  | [] => count
  | v :: vs' =>
      if v =? 0 then same_from memory_value vs' count
      else if v =? memory_value then same_from memory_value vs' (count + 1) else -1
  end.

Definition dmi_check_same (n : string) (type17_total : Z) (ts : list type17_s) : R Z :=
  t0 ← read ts 0;
  memory_value ← (if field n t0 =? 0 then t1 ← read ts 1; mret (field n t1) else mret (field n t0));
  mret (same_from memory_value (map (field n) (take (Z.to_nat (type17_total - 1)) (drop 1 ts))) 0).

Definition dmi_check_same_size : Z -> list type17_s -> R Z := dmi_check_same "size".

Definition dmi_check_same_speed : Z -> list type17_s -> R Z := dmi_check_same "speed".

(** The lowest speed that is not 0, of the populated entries. *)
Definition speed_step (memory_speed : Z) (t : type17_s) : Z :=
  if (field "size" t =? 0) || (field "speed" t =? 0) then memory_speed
  else if (memory_speed =? 0) || (field "speed" t <? memory_speed) then field "speed" t else memory_speed.

Definition lowest_speed (ts : list type17_s) : Z := foldl speed_step 0 ts.

(** The part after the loop. *)
Definition dmi_total (d : dmi) : R Z :=
  if populated_count d =? 0 then mret (-1) else
  let memory_speed := lowest_speed (take (Z.to_nat (type17_count d)) (type17 d)) in
  if memory_speed =? 0 then mret (-1) else
  dmi_check_same_speed (type17_count d) (type17 d) ;;
  dmi_check_same_size (type17_count d) (type17 d) ;;
  let total_bandwidth := s32 (populated_count d * (memory_speed * 8)) in
  if total_bandwidth <=? 0 then mret (-1) else mret total_bandwidth.

(** [dmi_get_bandwidth()] on a file ([None] when it cannot be opened); [stack]
    is what the array and the header hold before.  The outer [option] is the
    fuel of the loop. *)
Definition dmi_get_bandwidth (fuel : nat) (file : option (list Z)) (stack : list type17_s) (header : Z * Z) : outcome (option Z) :=
  match file with
  | None => Ok (Some (-1))
  | Some bytes =>
      let main : R (option Z) :=
        d ← dmi_loop fuel (fst header) (snd header) {| type17 := stack; type17_count := 0; populated_count := 0 |};
        match d with
        | None => mret None
        | Some None => mret (Some (-1))
        | Some (Some d) => r ← dmi_total d; mret (Some r)
        end in
      match main {| content := bytes; pos := 0 |} with
      | Ok (r, _) => Ok r
      | Stop e => Stop e
      end
  end.

(** ** The search for efficiency cores *)

(** All calls of the scheduler succeed. *)
Definition no_sched_error (a : affinity) : Prop := Forall (fun b => b = true) (sched_calls a).

Lemma sched_call_true a :
  no_sched_error a -> exists a', sched_call a = Ok (true, a') /\ no_sched_error a' /\ mask a' = mask a.
Proof.
  intros Ha. unfold sched_call. destruct a as [m [|b l]]; cbn.
  - eexists. split; [reflexivity|]. by split.
  - apply Forall_cons in Ha as [-> Hl]. eexists. split; [reflexivity|]. by split.
Qed.

(** The type of a core, as CPUID gives it. *)
Definition core_type (eax : Z -> Z) (i : Z) : Z := Z.shiftr (u32 (eax i)) 24.

Definition is_ecore (eax : Z -> Z) (i : Z) : Prop := core_type eax i = 0x20.

Lemma get_core_type_run eax i a :
  no_sched_error a ->
  exists a', get_core_type eax i a = Ok (core_type eax i, a') /\ no_sched_error a' /\ mask a' = mask a.
Proof.
  intros Ha. unfold get_core_type.
  destruct (sched_call_true a Ha) as (a1 & E1 & H1 & Hm1). rewrite (bind_Ok _ _ _ _ _ E1). cbn [negb].
  rewrite bind_gets. destruct (sched_call_true a1 H1) as (a2 & E2 & H2 & Hm2). rewrite (bind_Ok _ _ _ _ _ E2). cbn [negb].
  rewrite bind_modify. cbv zeta. set (a3 := a2 <| mask := {[i]} |>).
  destruct (sched_call_true a3) as (a4 & E4 & H4 & Hm4); [done|]. rewrite (bind_Ok _ _ _ _ _ E4). cbn [negb].
  rewrite bind_modify. eexists. split; [reflexivity|]. split; [done|]. cbn. congruence.
Qed.

(** The efficiency cores below [n] lie between the two cores of [l], which are
    efficiency cores; both are -1 when there are none. *)
Definition spans (eax : Z -> Z) (n : Z) (l : e_cores_layout_s) : Prop :=
  (l = no_cores /\ forall i, 0 <= i < n -> ~ is_ecore eax i) \/
  (0 <= first_efficiency_core l < n /\ 0 <= last_efficiency_core l < n /\
   is_ecore eax (first_efficiency_core l) /\ is_ecore eax (last_efficiency_core l) /\
   forall i, 0 <= i < n -> is_ecore eax i -> first_efficiency_core l <= i <= last_efficiency_core l).

Definition search_inv (eax : Z -> Z) (n : Z) (acc : e_cores_layout_s * Z) : Prop :=
  0 <= snd acc /\ (snd acc = 0 <-> fst acc = no_cores) /\ spans eax n (fst acc).

Lemma search_step_inv eax n acc a :
  0 <= n -> no_sched_error a -> search_inv eax n acc ->
  exists acc' a', core_search_step eax acc n a = Ok (acc', a') /\ no_sched_error a' /\ mask a' = mask a /\
    search_inv eax (n + 1) acc'.
Proof.
  intros Hn Ha Hinv. destruct acc as [l count]. destruct Hinv as (Hc & Hz & Hs). cbn [fst snd] in *.
  destruct (get_core_type_run eax n a Ha) as (a' & Ht & Ha' & Hm).
  unfold core_search_step. rewrite (bind_Ok _ _ _ _ _ Ht).
  do 2 eexists. split; [reflexivity|]. split; [done|]. split; [done|].
  destruct (Z.eqb_spec (core_type eax n) 0x20) as [He|He]; unfold search_inv; cbn [fst snd].
  - split; [lia|]. split; [split; [lia|]|right].
    { intros Hno. apply (f_equal last_efficiency_core) in Hno. cbn in Hno. lia. }
    cbn [first_efficiency_core last_efficiency_core].
    destruct (Z.eqb_spec count 0) as [H0|H0].
    + destruct Hs as [[_ Hno]|(Hf & _)]; [|rewrite (proj1 Hz H0) in Hf; cbn in Hf; lia].
      split_and!; try lia; try done; intros i Hi Hei; destruct (decide (i = n)) as [->|]; try lia;
        exfalso; apply (Hno i); [lia|done].
    + destruct Hs as [[Hl _]|(Hf & Hl & Hef & Hel & Hall)]; [by apply Hz in Hl|].
      split_and!; try lia; try done; intros i Hi Hei; destruct (decide (i = n)) as [->|]; try lia;
        destruct (Hall i); (lia || done).
  - split; [done|]. split; [done|]. destruct Hs as [[Hl Hno]|(Hf & Hl & Hef & Hel & Hall)].
    + left. split; [done|]. intros i Hi. destruct (decide (i = n)) as [->|]; [done|]. apply Hno. lia.
    + right. split_and!; try lia; try done; intros i Hi Hei; destruct (decide (i = n)) as [->|]; try done;
        apply Hall; (lia || done).
Qed.

Lemma search_run eax (n : nat) a :
  no_sched_error a ->
  exists acc a', fold_each (seqZ 0 (Z.of_nat n)) (no_cores, 0) (core_search_step eax) a = Ok (acc, a') /\
    no_sched_error a' /\ mask a' = mask a /\ search_inv eax (Z.of_nat n) acc.
Proof.
  intros Ha. induction n as [|n (acc & a1 & Hrun & H1 & Hm1 & Hinv)].
  - exists (no_cores, 0), a. do 5 (split; [done|]). left. split; [done|]. lia.
  - destruct (search_step_inv eax (Z.of_nat n) acc a1) as (acc' & a2 & Hs & H2 & Hm2 & Hinv2); [lia|done..|].
    exists acc', a2. rewrite seqZ_S, fold_each_app, (bind_Ok _ _ _ _ _ Hrun). cbn [fold_each]. rewrite Z.add_0_l.
    rewrite (bind_Ok _ _ _ _ _ Hs). replace (Z.of_nat (S n)) with (Z.of_nat n + 1) by lia.
    split; [done|]. split; [done|]. split; [congruence|done].
Qed.

(** On a hybrid processor the range found is the smallest one that contains all
    efficiency cores, and -1 to -1 when there is none; the affinity of the
    process is what it was before. *)
Theorem ecore_range_hybrid eax edx n a :
  no_sched_error a -> get_hybridflag edx = 1 -> 0 <= n ->
  exists l a', get_efficient_core_ids eax edx n a = Ok (l, a') /\ spans eax n l /\ mask a' = mask a.
Proof.
  intros Ha Hh Hn. destruct (search_run eax (Z.to_nat n) a Ha) as (acc & a' & Hrun & _ & Hm & _ & _ & Hs).
  rewrite Z2Nat.id in * by done. unfold get_efficient_core_ids. rewrite Hh. cbn [Z.eqb Pos.eqb].
  rewrite (bind_Ok _ _ _ _ _ Hrun). by exists (fst acc), a'.
Qed.

Lemma ecore_range_hybrid_witness :
  let eax := fun i => if (8 <=? i) && (i <=? 15) then 0x20000001 else 0x40000001 in
  let a := {| mask := {[0; 1]}; sched_calls := [] |} in
  exists l a', get_efficient_core_ids eax 0x8000 20 a = Ok (l, a') /\ spans eax 20 l /\ mask a' = mask a.
Proof.
  intros eax a. apply (ecore_range_hybrid eax 0x8000 20 a); [constructor|reflexivity|lia].
Defined.

(** ** Reading DMI structures *)

(** A read of a field answers 1 or -1, and [!] makes 0 of both: the test for an
    error never holds. *)
Lemma read_field_nonzero n size t f :
  exists r t' f', dmi_read_type17_field n size t f = Ok ((r, t'), f') /\ r <> 0 /\ pos f <= pos f' /\
    content f' = content f.
Proof.
  unfold dmi_read_type17_field, fread. unfold mbind, ST_bind.
  destruct (length (take size (rest f)) =? size)%nat; cbn; do 3 eexists; (split; [reflexivity|]);
    (split; [done|]); (split; [cbn; unfold zlen; lia|done]).
Qed.

Lemma some_zero_false fs t f :
  exists t' f', some_zero fs t f = Ok ((false, t'), f') /\ pos f <= pos f' /\ content f' = content f.
Proof.
  revert t f. induction fs as [|[n size] fs IH]; intros t f; cbn [some_zero].
  - exists t, f. split; [done|]. split; [lia|done].
  - destruct (read_field_nonzero n size t f) as (r & t1 & f1 & H1 & Hr & Hp & Hc).
    rewrite (bind_Ok _ _ _ _ _ H1). cbn [fst snd]. rewrite (proj2 (Z.eqb_neq _ _) Hr).
    destruct (IH t1 f1) as (t' & f' & H2 & Hp2 & Hc2). exists t', f'. split; [done|]. split; [lia|congruence].
Qed.

Lemma read_groups_zero len gs t f :
  exists t' f', read_groups len gs t f = Ok ((0, t'), f') /\ pos f <= pos f' /\ content f' = content f.
Proof.
  revert t f. induction gs as [|[min fs] gs IH]; intros t f; cbn [read_groups].
  - exists t, f. split; [done|]. split; [lia|done].
  - destruct (min <=? len); [|apply IH].
    destruct (some_zero_false fs t f) as (t1 & f1 & H1 & Hp & Hc). rewrite (bind_Ok _ _ _ _ _ H1). cbn [fst snd].
    destruct (IH t1 f1) as (t' & f' & H2 & Hp2 & Hc2). exists t', f'. split; [done|]. split; [lia|congruence].
Qed.

Lemma read_type17_zero len t f :
  exists t' f', dmi_read_type17 len t f = Ok ((0, t'), f') /\ pos f <= pos f' /\ content f' = content f.
Proof.
  unfold dmi_read_type17. destruct (some_zero_false common_fields t f) as (t1 & f1 & H1 & Hp & Hc).
  rewrite (bind_Ok _ _ _ _ _ H1). cbn [fst snd].
  destruct (read_groups_zero len groups t1 f1) as (t' & f' & H2 & Hp2 & Hc2).
  exists t', f'. split; [done|]. split; [lia|congruence].
Qed.

(** ** The loop ends *)

Lemma find_zeros_suffix b1 b2 bs bs' : find_zeros b1 b2 bs = Some bs' -> (length bs' <= length bs)%nat.
Proof.
  revert b1 b2. induction bs as [|b bs IH]; intros b1 b2; cbn; destruct ((b1 =? 0) && (b2 =? 0)).
  - by intros [= <-].
  - done.
  - intros [= <-]. cbn. lia.
  - intros H%IH. lia.
Qed.

Lemma skip_strings_progress f f' :
  0 <= pos f -> skip_strings f = Ok (true, f') ->
  pos f + 2 <= pos f' <= zlen (content f') /\ content f' = content f.
Proof.
  intros Hp. unfold skip_strings. destruct (rest f) as [|b1 [|b2 bs]] eqn:Hr; try done.
  destruct (find_zeros b1 b2 bs) as [bs'|] eqn:Hf; [|done]. intros [= <-]. cbn.
  apply find_zeros_suffix in Hf. apply (f_equal length) in Hr. unfold rest in Hr. rewrite length_drop in Hr. cbn in Hr.
  unfold zlen. split; [lia|done].
Qed.

Lemma structure_progress type len d f d' f' :
  0 <= pos f -> 1 <= len -> dmi_structure type len d f = Ok (Some d', f') ->
  pos f + 1 <= pos f' <= zlen (content f') /\ content f' = content f.
Proof.
  intros Hp Hlen (k & f1 & Hk & Hend)%bind_Ok_inv.
  assert (Hmid : pos f - 1 <= pos f1 /\ 0 <= pos f1 /\ content f1 = content f).
  { destruct (type =? 17).
    - apply bind_Ok_inv in Hk as (t & f0 & Hread & Hk). unfold read in Hread.
      destruct (aget (type17 d) (type17_count d)); simplify_eq.
      destruct (read_type17_zero len (<["length"%string := len]> (<["type"%string := type]> t)) f0) as (t' & f2 & H2 & Hp2 & Hc2).
      rewrite (bind_Ok _ _ _ _ _ H2) in Hk. injection Hk as _ <-. split; [lia|]. split; [lia|done].
    - apply bind_Ok_inv in Hk as (e & f0 & Hseek & Hk). unfold fseek in Hseek. injection Hk as Hk <-.
      destruct (Z.ltb_spec (pos f + (len - 2)) 0); simplify_eq; cbn in *; try done. cbn. split; [lia|]. split; [lia|done]. }
  destruct Hmid as (Hp1 & H0 & Hc1). destruct k as [k|]; [|done].
  apply bind_Ok_inv in Hend as (ok & f2 & Hs & Hend). destruct ok; [|done]. injection Hend as _ <-.
  destruct (skip_strings_progress f1 f2 H0 Hs) as [? Hc2]. split; [lia|congruence].
Qed.

Lemma structure_runs type len d f :
  (exists e, dmi_structure type len d f = Stop e) \/ exists d' f', dmi_structure type len d f = Ok (d', f').
Proof. destruct (dmi_structure type len d f) as [[d' f']|e]; eauto. Qed.

(** Enough fuel for the bytes that are left. *)
Lemma dmi_loop_enough fuel type len d f :
  0 <= pos f -> Z.max 0 (zlen (content f) - pos f) < Z.of_nat fuel ->
  forall f', dmi_loop fuel type len d f <> Ok (None, f').
Proof.
  revert type len d f. induction fuel as [|fuel IH]; intros type len d f Hp Hf f'; [lia|]. cbn [dmi_loop].
  assert (Hread : exists v m f1, fread 2 (le_val [type; len]) f = Ok ((v, m), f1) /\ content f1 = content f /\
    (m = 0 \/ pos f1 = pos f + 2 /\ pos f1 <= zlen (content f))).
  { unfold fread. do 3 eexists. split; [reflexivity|]. split; [done|].
    destruct (Nat.eqb_spec (length (take 2 (rest f))) 2) as [Hl|]; [right|by left].
    cbn -[take]. unfold zlen. rewrite Hl. split; [done|].
    rewrite length_take in Hl. unfold rest in Hl. rewrite length_drop in Hl. lia. }
  destruct Hread as (v & m & f1 & H1 & Hc1 & Hm). rewrite (bind_Ok _ _ _ _ _ H1). cbn [fst snd].
  destruct Hm as [->|[Hpos Hle]]; [done|]. destruct (m =? 0); [done|].
  destruct (Z.ltb_spec (v / 256) 1); [done|].
  destruct (structure_runs (v mod 256) (v / 256) d f1) as [[e He]|(d' & f2 & H2)].
  - by rewrite (bind_Stop _ _ _ _ He).
  - rewrite (bind_Ok _ _ _ _ _ H2). destruct d' as [d'|]; [|done].
    destruct (structure_progress (v mod 256) (v / 256) d f1 d' f2) as [Hp2 Hc2]; [lia|lia|done|].
    rewrite Hc2, Hc1 in Hp2.
    apply IH; rewrite ?Hc2, ?Hc1; lia.
Qed.

Lemma dmi_loop_more fuel k type len d f r f' :
  dmi_loop fuel type len d f = Ok (Some r, f') -> dmi_loop (fuel + k) type len d f = Ok (Some r, f').
Proof.
  revert type len d f. induction fuel as [|fuel IH]; intros type len d f; cbn [dmi_loop Nat.add]; [done|].
  unfold mbind, ST_bind. destruct (fread 2 _ f) as [[[v m] f1]|]; [|done]. cbn [fst snd].
  destruct (m =? 0); [done|]. destruct (v / 256 <? 1); [done|].
  destruct (dmi_structure _ _ _ f1) as [[[d'|] f2]|]; [|done..]. apply IH.
Qed.

Lemma dmi_loop_more_stop fuel k type len d f e :
  dmi_loop fuel type len d f = Stop e -> dmi_loop (fuel + k) type len d f = Stop e.
Proof.
  revert type len d f. induction fuel as [|fuel IH]; intros type len d f; cbn [dmi_loop Nat.add]; [done|].
  unfold mbind, ST_bind. destruct (fread 2 _ f) as [[[v m] f1]|]; [|done]. cbn [fst snd].
  destruct (m =? 0); [done|]. destruct (v / 256 <? 1); [done|].
  destruct (dmi_structure _ _ _ f1) as [[[d'|] f2]|]; [|done..]. apply IH.
Qed.

(** C25: the search through the DMI tables ends on every file: one round of the loop
    per byte, and one more, is enough, and more fuel does not change the
    result. *)
Theorem dmi_terminates bytes stack header k :
  let fuel := S (length bytes) in
  dmi_get_bandwidth fuel (Some bytes) stack header <> Ok None /\
  dmi_get_bandwidth (fuel + k) (Some bytes) stack header = dmi_get_bandwidth fuel (Some bytes) stack header.
Proof.
  intros fuel. unfold dmi_get_bandwidth. set (d := {| type17 := stack; type17_count := 0; populated_count := 0 |}).
  set (f := {| content := bytes; pos := 0 |}).
  pose proof (dmi_loop_enough fuel (fst header) (snd header) d f ltac:(done)) as Hne.
  specialize (Hne ltac:(unfold fuel, zlen; cbn; lia)). cbv zeta. unfold mbind, ST_bind.
  destruct (dmi_loop fuel (fst header) (snd header) d f) as [[[r|] f']|e] eqn:Hrun; [| |].
  - rewrite (dmi_loop_more _ k _ _ _ _ _ _ Hrun). split; [|done]. destruct r as [d'|]; [|done].
    by destruct (dmi_total d' f') as [[]|].
  - by destruct (Hne f').
  - rewrite (dmi_loop_more_stop _ k _ _ _ _ _ Hrun). done.
Qed.

(** ** Tables written by the firmware *)

(** A structure of the table: type, body after the header, and the strings that
    follow; two zero bytes end it. *)
Record structure := { st_type : Z; st_body : list Z; st_strings : list Z }.

Definition st_len (x : structure) : Z := 2 + zlen (st_body x).

Definition encode (x : structure) : list Z :=
  [st_type x; st_len x] ++ st_body x ++ st_strings x ++ [0; 0].

(** The size and the speed of a memory device. *)
Definition mem_size (x : structure) : Z := le_val (take 2 (drop 10 (st_body x))).

Definition mem_speed (x : structure) : Z := le_val (take 2 (drop 19 (st_body x))).

Definition sizes (fs : list (string * nat)) : nat := sum_list (map snd fs).

Definition read_for (len : Z) : list (string * nat) :=
  common_fields ++ concat (map (fun g => if fst g <=? len then snd g else []) groups).

(** How many bytes after the header are passed before the search for the end. *)
Definition consumed (x : structure) : nat :=
  if st_type x =? 17 then sizes (read_for (st_len x)) else length (st_body x).

(** Every zero is followed by a byte that is not. *)
Fixpoint clean (bs : list Z) : Prop :=
  match bs with
  | [] => True
  | b :: bs' => (b = 0 -> exists c bs'', bs' = c :: bs'' /\ c <> 0) /\ clean bs'
  end.

(** A structure the code reads as it is meant: long enough for the two fields,
    and without two zeros between where the search starts and the end. *)
Record st_ok (x : structure) : Prop := {
  so_type : in_u 8 (st_type x);
  so_len : st_len x < 256;
  so_body : Forall (in_u 8) (st_body x);
  so_device : st_type x = 17 -> (21 <= length (st_body x))%nat;
  so_fits : (consumed x <= length (st_body x ++ st_strings x))%nat;
  so_clean : clean (drop (consumed x) (st_body x ++ st_strings x)) }.

(** The position is before the bytes [l]. *)
Definition before (l : list Z) (f : stream) : Prop :=
  exists pre, content f = pre ++ l /\ pos f = zlen pre.

Lemma before_rest l f : before l f -> rest f = l.
Proof.
  intros (pre & Hc & Hp). unfold rest. rewrite Hc, Hp. unfold zlen. by rewrite Nat2Z.id, drop_app_length.
Qed.

Lemma before_move a l f : before (a ++ l) f -> before l (f <| pos ::= fun p => p + zlen a |>).
Proof.
  intros (pre & Hc & Hp). exists (pre ++ a). cbn. split; [by rewrite <- app_assoc|].
  rewrite Hp. unfold zlen. rewrite length_app. lia.
Qed.

Lemma fread_before a l old f :
  before (a ++ l) f ->
  fread (length a) old f = Ok ((le_val a, 1), f <| pos ::= fun p => p + zlen a |>).
Proof.
  intros Hf. unfold fread. rewrite (before_rest _ _ Hf), take_app_length. cbv zeta.
  rewrite Nat.eqb_refl, drop_ge, app_nil_r by by rewrite length_le_bytes. done.
Qed.

(** The fields as a function of the bytes. *)
Fixpoint decode_fields (fs : list (string * nat)) (bs : list Z) (t : type17_s) : type17_s :=
  match fs with
  | [] => t
  | (n, size) :: fs' => decode_fields fs' (drop size bs) (<[n := le_val (take size bs)]> t)
  end.

Lemma some_zero_run fs bs l t f :
  before (bs ++ l) f -> length bs = sizes fs ->
  some_zero fs t f = Ok ((false, decode_fields fs bs t), f <| pos ::= fun p => p + zlen bs |>).
Proof.
  revert bs t f. induction fs as [|[n size] fs IH]; intros bs t f Hf Hlen; cbn [some_zero decode_fields].
  - destruct bs; [|done]. unfold mret, ST_ret. do 2 f_equal. destruct f as [c p]. unfold Prelude.set. cbn. by rewrite Z.add_0_r.
  - change (sizes ((n, size) :: fs)) with (size + sizes fs)%nat in Hlen.
    rewrite <- (take_drop size bs) in Hf. rewrite <- app_assoc in Hf.
    assert (Hs : length (take size bs) = size) by (rewrite length_take; lia).
    assert (Hr : dmi_read_type17_field n size t f =
      Ok ((1, <[n := le_val (take size bs)]> t), f <| pos ::= fun p => p + zlen (take size bs) |>)).
    { unfold dmi_read_type17_field. rewrite <- Hs at 1.
      by rewrite (bind_Ok _ _ _ _ _ (fread_before _ _ (field n t) f Hf)). }
    rewrite (bind_Ok _ _ _ _ _ Hr). cbn [fst snd Z.eqb].
    rewrite (IH (drop size bs)); [|by apply before_move|rewrite length_drop; lia].
    do 2 f_equal. unfold Prelude.set. cbn. f_equal. unfold zlen. rewrite length_drop, length_take. lia.
Qed.

Lemma decode_fields_app fs1 fs2 bs t :
  decode_fields (fs1 ++ fs2) bs t = decode_fields fs2 (drop (sizes fs1) bs) (decode_fields fs1 bs t).
Proof.
  revert bs t. induction fs1 as [|[n size] fs1 IH]; intros bs t; [done|]. cbn [app decode_fields].
  rewrite IH, drop_drop. done.
Qed.

Lemma decode_fields_take fs bs t : decode_fields fs (take (sizes fs) bs) t = decode_fields fs bs t.
Proof.
  revert bs t. induction fs as [|[n size] fs IH]; intros bs t; [done|].
  change (sizes ((n, size) :: fs)) with (size + sizes fs)%nat. cbn [decode_fields].
  rewrite take_take, Nat.min_l by lia. rewrite <- take_drop_commute. apply IH.
Qed.

Lemma sizes_app fs1 fs2 : sizes (fs1 ++ fs2) = (sizes fs1 + sizes fs2)%nat.
Proof. unfold sizes. rewrite map_app. induction (map snd fs1) as [|x l IH]; cbn; [done|]. rewrite IH. lia. Qed.

Lemma read_groups_run len gs bs l t f :
  let fs := concat (map (fun g => if fst g <=? len then snd g else []) gs) in
  before (bs ++ l) f -> length bs = sizes fs ->
  read_groups len gs t f = Ok ((0, decode_fields fs bs t), f <| pos ::= fun p => p + zlen bs |>).
Proof.
  cbv zeta. revert bs t f. induction gs as [|[min fs] gs IH]; intros bs t f Hf Hlen; cbn [map concat read_groups fst snd].
  - destruct bs; [|done]. unfold mret, ST_ret. do 2 f_equal. destruct f as [c p]. unfold Prelude.set. cbn. by rewrite Z.add_0_r.
  - cbn [map concat fst snd] in Hlen. destruct (min <=? len); [|by apply IH].
    rewrite sizes_app in Hlen. rewrite <- (take_drop (sizes fs) bs) in Hf. rewrite <- app_assoc in Hf.
    assert (Hs : length (take (sizes fs) bs) = sizes fs) by (rewrite length_take; lia).
    rewrite (bind_Ok _ _ _ _ _ (some_zero_run fs _ _ t f Hf Hs)). cbn [fst snd].
    rewrite (IH (drop (sizes fs) bs)); [|by apply before_move|rewrite length_drop; lia].
    rewrite decode_fields_app, decode_fields_take. do 2 f_equal. unfold Prelude.set. cbn. f_equal.
    unfold zlen. rewrite length_drop. lia.
Qed.

Lemma dmi_read_type17_run len bs l t f :
  before (bs ++ l) f -> length bs = sizes (read_for len) ->
  dmi_read_type17 len t f = Ok ((0, decode_fields (read_for len) bs t), f <| pos ::= fun p => p + zlen bs |>).
Proof.
  intros Hf Hlen. unfold dmi_read_type17, read_for in *. set (gs := concat _) in *.
  rewrite sizes_app in Hlen. rewrite <- (take_drop (sizes common_fields) bs) in Hf. rewrite <- app_assoc in Hf.
  assert (Hs : length (take (sizes common_fields) bs) = sizes common_fields) by (rewrite length_take; lia).
  rewrite (bind_Ok _ _ _ _ _ (some_zero_run common_fields _ _ t f Hf Hs)). cbn [fst snd].
  rewrite (read_groups_run len groups (drop (sizes common_fields) bs) l);
    [|by apply before_move|rewrite length_drop; fold gs; lia].
  fold gs. rewrite decode_fields_app, decode_fields_take. do 2 f_equal. unfold Prelude.set. cbn -[sizes common_fields]. f_equal.
  unfold zlen. rewrite length_drop. lia.
Qed.

Lemma decode_other n fs bs t : n ∉ map fst fs -> field n (decode_fields fs bs t) = field n t.
Proof.
  revert bs t. induction fs as [|[m size] fs IH]; intros bs t Hn; [done|]. cbn [decode_fields].
  rewrite IH; [|set_solver]. unfold field. rewrite lookup_insert_ne; [done|set_solver].
Qed.

(** The two fields the bandwidth needs. *)
Lemma decoded_size len bs t : field "size" (decode_fields (read_for len) bs t) = le_val (take 2 (drop 10 bs)).
Proof.
  unfold read_for. rewrite decode_fields_app, decode_other.
  - unfold field. cbn [decode_fields common_fields].
    repeat (rewrite lookup_insert_ne by done). rewrite lookup_insert_eq, !drop_drop. done.
  - cbn. destruct (27 <=? len), (34 <=? len), (40 <=? len), (84 <=? len), (92 <=? len); cbn; set_solver.
Qed.

Lemma decoded_speed len bs t : field "speed" (decode_fields (read_for len) bs t) = le_val (take 2 (drop 19 bs)).
Proof.
  unfold read_for. rewrite decode_fields_app, decode_other.
  - unfold field. cbn [decode_fields common_fields]. rewrite lookup_insert_eq, !drop_drop. done.
  - cbn. destruct (27 <=? len), (34 <=? len), (40 <=? len), (84 <=? len), (92 <=? len); cbn; set_solver.
Qed.

(** The search for the end. *)
Lemma find_zeros_clean bs next :
  clean bs -> match bs ++ 0 :: 0 :: next with
              | b1 :: b2 :: l => find_zeros b1 b2 l = Some next
              | _ => False
              end.
Proof.
  induction bs as [|b bs IH]; intros Hc.
  - cbn. by destruct next.
  - destruct Hc as [Hb Hc]. specialize (IH Hc). cbn [app].
    destruct (bs ++ 0 :: 0 :: next) as [|b1 [|b2 l]] eqn:Hl; try done.
    cbn [find_zeros]. destruct (Z.eqb_spec b 0) as [->|]; cbn [andb]; [|done].
    destruct (Hb eq_refl) as (c & bs' & -> & Hne). injection Hl as <- _.
    by rewrite (proj2 (Z.eqb_neq c 0) Hne).
Qed.

Lemma skip_strings_run bs next f :
  before (bs ++ 0 :: 0 :: next) f -> clean bs ->
  exists f', skip_strings f = Ok (true, f') /\ before next f'.
Proof.
  intros Hf Hc. unfold skip_strings. rewrite (before_rest _ _ Hf).
  pose proof (find_zeros_clean bs next Hc) as Hz. destruct (bs ++ 0 :: 0 :: next) as [|b1 [|b2 l]] eqn:Hl; try done.
  rewrite Hz. eexists. split; [reflexivity|]. destruct Hf as (pre & Hcon & Hp).
  exists (pre ++ bs ++ [0; 0]). cbn [content pos]. change (content f = (pre ++ bs ++ [0; 0]) ++ next /\
    zlen (content f) - zlen next = zlen (pre ++ bs ++ [0; 0])).
  assert (Hall : content f = (pre ++ bs ++ [0; 0]) ++ next).
  { rewrite Hcon, <- Hl, <- !app_assoc. done. }
  split; [done|]. rewrite Hall. unfold zlen. rewrite (length_app _ next). lia.
Qed.

(** The size and speed of an entry of the array. *)
Definition pair_of (t : type17_s) : Z * Z := (field "size" t, field "speed" t).

Definition is_device (x : structure) : bool := st_type x =? 17.

Definition devices (xs : list structure) : list (Z * Z) :=
  map (fun x => (mem_size x, mem_speed x)) (filter (fun x => is_device x = true) xs).

Definition populated (ps : list (Z * Z)) : list (Z * Z) := filter (fun p => 0 < fst p) ps.

(** The array holds the devices [ps] so far. *)
Record collected (n : Z) (ps : list (Z * Z)) (d : dmi) : Prop := {
  cl_len : zlen (type17 d) = n;
  cl_count : type17_count d = zlen ps;
  cl_fits : zlen ps <= n;
  cl_pairs : map pair_of (take (length ps) (type17 d)) = ps;
  cl_populated : populated_count d = zlen (populated ps) }.

Lemma collected_snoc n ps d t :
  collected n ps d -> zlen ps < n ->
  collected n (ps ++ [pair_of t])
    (d <| type17 := aset (type17 d) (type17_count d) t |>
       <| populated_count ::= fun k => if 0 <? field "size" t then k + 1 else k |>
       <| type17_count ::= fun k => k + 1 |>).
Proof.
  destruct d as [ts c p]. intros [Hlen Hc Hf Hp Hpop] Hlt. cbn in Hlen, Hc, Hp, Hpop. unfold zlen in *. subst c p.
  split; unfold zlen; cbn [type17 type17_count populated_count Prelude.set].
  - by rewrite length_aset.
  - rewrite length_app. cbn. lia.
  - rewrite length_app. cbn. lia.
  - rewrite length_app. cbn [length]. unfold aset. rewrite (proj2 (Z.leb_le 0 _)), Nat2Z.id by lia.
    rewrite Nat.add_1_r, (take_S_r _ _ t) by (apply list_lookup_insert_eq; lia).
    rewrite map_app, take_insert_ge by lia. by rewrite Hp.
  - unfold populated. rewrite filter_app, length_app. unfold pair_of at 1. rewrite filter_cons. cbn [fst].
    destruct (Z.ltb_spec 0 (field "size" t)); [rewrite decide_True by done|rewrite decide_False by lia]; cbn; lia.
Qed.

Lemma encode_split x next :
  st_ok x ->
  st_body x ++ st_strings x ++ 0 :: 0 :: next =
    take (consumed x) (st_body x ++ st_strings x) ++ drop (consumed x) (st_body x ++ st_strings x) ++ 0 :: 0 :: next.
Proof. intros _. by rewrite (app_assoc (take _ _)), take_drop, <- app_assoc. Qed.

(** The structure after its header. *)
Lemma structure_run n ps d x next f :
  st_ok x -> collected n ps d -> (is_device x = true -> zlen ps < n) ->
  before (st_body x ++ st_strings x ++ 0 :: 0 :: next) f ->
  exists d' f', dmi_structure (st_type x) (st_len x) d f = Ok (Some d', f') /\ before next f' /\
    collected n (ps ++ devices [x]) d'.
Proof.
  intros Hx Hd Hfit Hf. pose proof Hx as [Hty Hlen Hbody Hdev Hfits Hclean].
  unfold dmi_structure, is_device, devices in *. rewrite encode_split in Hf by done.
  destruct (Z.eqb_spec (st_type x) 17) as [H17|H17].
  - pose proof (Hfit eq_refl) as Hlt. destruct (aget_is_Some (type17 d) (type17_count d)) as [t Ht].
    { rewrite (cl_len _ _ _ Hd), (cl_count _ _ _ Hd). unfold zlen in *. lia. }
    set (bs := take (consumed x) (st_body x ++ st_strings x)) in *.
    assert (Hbs : length bs = sizes (read_for (st_len x))).
    { unfold bs. rewrite length_take. unfold consumed in *. rewrite H17 in *. cbn [Z.eqb Pos.eqb] in *. lia. }
    set (t0 := <["length"%string := st_len x]> (<["type"%string := st_type x]> t)).
    set (t' := decode_fields (read_for (st_len x)) bs t0).
    assert (Hpre : forall k, (k + 2 <= 21)%nat -> take 2 (drop k bs) = take 2 (drop k (st_body x))).
    { intros k Hk. unfold bs. specialize (Hdev H17).
      assert (Hcons : (21 <= consumed x)%nat).
      { unfold consumed. rewrite H17. cbn [Z.eqb Pos.eqb]. unfold read_for. rewrite sizes_app. cbn. lia. }
      rewrite !take_drop_commute, take_take, Nat.min_l by lia. by rewrite take_app_le by lia. }
    erewrite bind_Ok.
    2: { rewrite (bind_Ok _ _ f t f) by by apply read_Some. fold t0.
         rewrite (bind_Ok _ _ _ _ _ (dmi_read_type17_run (st_len x) bs _ t0 f Hf Hbs)). fold t'. reflexivity. }
    cbn [fst snd Z.ltb Z.compare].
    destruct (skip_strings_run (drop (consumed x) (st_body x ++ st_strings x)) next
      (f <| pos ::= fun p => p + zlen bs |>)) as (f' & Hs & Hf'); [by apply before_move|done|].
    rewrite (bind_Ok _ _ _ _ _ Hs). do 2 eexists. split; [reflexivity|]. split; [done|].
    rewrite filter_cons, decide_True by by apply Z.eqb_eq. cbn [map filter].
    assert (Hpair : (mem_size x, mem_speed x) = pair_of t').
    { unfold pair_of, t', mem_size, mem_speed. rewrite decoded_size, decoded_speed. by rewrite !Hpre by lia. }
    rewrite Hpair. by apply collected_snoc.
  - assert (Hcons : consumed x = length (st_body x)).
    { unfold consumed. by rewrite (proj2 (Z.eqb_neq _ _) H17). }
    rewrite Hcons, take_app_length, drop_app_length in Hf. rewrite Hcons, drop_app_length in Hclean.
    erewrite bind_Ok.
    2: { unfold fseek. assert (Hneg : (pos f + (st_len x - 2) <? 0) = false).
         { apply Z.ltb_ge. destruct Hf as (pre & _ & ->). unfold st_len, zlen. lia. }
         unfold mbind, ST_bind. rewrite Hneg. cbn [Z.eqb negb]. reflexivity. }
    destruct (skip_strings_run (st_strings x) next (f <| pos ::= fun p => p + (st_len x - 2) |>)) as (f' & Hs & Hf').
    { replace (st_len x - 2) with (zlen (st_body x)) by (unfold st_len; lia). by apply before_move. }
    { done. }
    rewrite (bind_Ok _ _ _ _ _ Hs). do 2 eexists. split; [reflexivity|]. split; [done|].
    rewrite filter_cons, decide_False by (by intros ?%Z.eqb_eq). cbn. by rewrite app_nil_r.
Qed.

Lemma devices_cons x xs : devices (x :: xs) = devices [x] ++ devices xs.
Proof. unfold devices. rewrite !filter_cons. by destruct (decide (is_device x = true)). Qed.

Lemma devices_length_le xs : (length (devices xs) <= length xs)%nat.
Proof. unfold devices. rewrite length_map. apply length_filter. Qed.

Lemma loop_run n xs : forall ps d f type len,
  Forall st_ok xs -> collected n ps d -> zlen (ps ++ devices xs) <= n ->
  before (concat (map encode xs)) f ->
  exists d' f', dmi_loop (S (length xs)) type len d f = Ok (Some (Some d'), f') /\ collected n (ps ++ devices xs) d'.
Proof.
  induction xs as [|x xs IH]; intros ps d f type len Hxs Hd Hn Hf.
  - exists d. cbn [dmi_loop length].
    assert (Hr : exists v f', fread 2 (le_val [type; len]) f = Ok ((v, 0), f')).
    { unfold fread. rewrite (before_rest _ _ Hf). do 2 eexists. reflexivity. }
    destruct Hr as (v & f' & Hr). exists f'. rewrite (bind_Ok _ _ _ _ _ Hr). cbn [snd Z.eqb].
    split; [done|]. cbn. by rewrite app_nil_r.
  - apply Forall_cons in Hxs as [Hx Hxs]. cbn [map concat] in Hf. unfold encode in Hf at 1.
    rewrite <- !app_assoc in Hf.
    change (dmi_loop (S (length (x :: xs))) type len d) with (dmi_loop (S (S (length xs))) type len d).
    cbn [dmi_loop].
    rewrite (bind_Ok _ _ _ _ _ (fread_before [st_type x; st_len x] _ _ f Hf)). cbn [fst snd Z.eqb].
    pose proof (so_type _ Hx) as Hty. unfold in_u in Hty. change (2 ^ 8) with 256 in Hty.
    assert (Hmod : le_val [st_type x; st_len x] mod 256 = st_type x).
    { cbn [le_val]. replace (st_type x + 256 * (st_len x + 256 * 0)) with (st_type x + st_len x * 256) by lia.
      rewrite Z.mod_add, Z.mod_small by lia. done. }
    assert (Hdiv : le_val [st_type x; st_len x] / 256 = st_len x).
    { cbn [le_val]. replace (st_type x + 256 * (st_len x + 256 * 0)) with (st_type x + st_len x * 256) by lia.
      rewrite Z.div_add, Z.div_small by lia. lia. }
    rewrite Hmod, Hdiv. rewrite (proj2 (Z.ltb_ge _ 1)) by (unfold st_len, zlen; lia).
    rewrite devices_cons, app_assoc in Hn |- *.
    destruct (structure_run n ps d x (concat (map encode xs)) (f <| pos ::= fun p => p + zlen [st_type x; st_len x] |>))
      as (d1 & f1 & H1 & Hf1 & Hd1); [done|done| |by apply before_move|].
    { intros Hdev. unfold devices in Hn. rewrite filter_cons, decide_True in Hn by done.
      unfold zlen in *. rewrite !length_app in Hn. cbn in Hn. lia. }
    rewrite (bind_Ok _ _ _ _ _ H1). by apply IH.
Qed.

(** ** The bandwidth *)

(** What the function should answer for the memory devices [ps]: the number of
    populated ones times eight bytes at the lowest speed given. *)
Definition expected (ps : list (Z * Z)) : Z :=
  match filter (fun v => v <> 0) (map snd (populated ps)) with
  | [] => -1
  | v :: vs => zlen (populated ps) * (foldr Z.min v vs * 8)
  end.

Definition pair_step (memory_speed : Z) (p : Z * Z) : Z :=
  if (fst p =? 0) || (snd p =? 0) then memory_speed
  else if (memory_speed =? 0) || (snd p <? memory_speed) then snd p else memory_speed.

Lemma lowest_speed_pairs ts : lowest_speed ts = foldl pair_step 0 (map pair_of ts).
Proof. unfold lowest_speed. generalize 0. induction ts as [|t ts IH]; intros a; [done|]. cbn. apply IH. Qed.

Definition in_range16 (p : Z * Z) : Prop := 0 <= fst p < 2 ^ 16 /\ 0 <= snd p < 2 ^ 16.

Lemma foldr_min_init a v vs : foldr Z.min (Z.min a v) vs = Z.min v (foldr Z.min a vs).
Proof. induction vs as [|x vs IH]; cbn; [lia|]. rewrite IH. lia. Qed.

Lemma pair_fold_pos ps a :
  Forall in_range16 ps -> 0 < a ->
  foldl pair_step a ps = foldr Z.min a (filter (fun v => v <> 0) (map snd (populated ps))).
Proof.
  intros Hps. revert a. induction Hps as [|[z v] ps [Hz Hv] _ IH]; intros a Ha; [done|]. cbn [fst snd] in *.
  unfold populated in *. rewrite filter_cons. cbn [foldl fst]. unfold pair_step at 2. cbn [fst snd].
  destruct (Z.eqb_spec z 0) as [->|Hz0]; cbn [orb].
  - rewrite decide_False by lia. by apply IH.
  - rewrite decide_True by lia. cbn [map snd]. rewrite filter_cons. destruct (Z.eqb_spec v 0) as [->|Hv0].
    + rewrite decide_False by lia. by apply IH.
    + rewrite decide_True by done. rewrite (proj2 (Z.eqb_neq a 0)) by lia. cbn [orb foldr].
      rewrite <- foldr_min_init. destruct (Z.ltb_spec v a); rewrite IH by lia; f_equal; lia.
Qed.

Lemma pair_fold_zero ps :
  Forall in_range16 ps ->
  foldl pair_step 0 ps = match filter (fun v => v <> 0) (map snd (populated ps)) with
                         | [] => 0
                         | v :: vs => foldr Z.min v vs
                         end.
Proof.
  induction 1 as [|[z v] ps [Hz Hv] Hps IH]; [done|]. cbn [fst snd] in *.
  unfold populated in *. rewrite filter_cons. cbn [foldl fst]. unfold pair_step at 2. cbn [fst snd].
  destruct (Z.eqb_spec z 0) as [->|Hz0]; cbn [orb].
  - rewrite decide_False by lia. apply IH.
  - rewrite decide_True by lia. cbn [map snd]. rewrite filter_cons. destruct (Z.eqb_spec v 0) as [->|Hv0].
    + rewrite decide_False by lia. apply IH.
    + rewrite decide_True by done. cbn [orb Z.eqb]. by apply pair_fold_pos; [|lia].
Qed.

Lemma check_same_runs n total ts f : 2 <= zlen ts -> exists r, dmi_check_same n total ts f = Ok (r, f).
Proof.
  intros Hl. unfold dmi_check_same. destruct (aget_is_Some ts 0) as [t0 H0]; [lia|].
  destruct (aget_is_Some ts 1) as [t1 H1]; [lia|].
  rewrite (bind_Ok _ _ f t0 f) by by apply read_Some. destruct (field n t0 =? 0).
  - eexists. rewrite (bind_Ok _ _ f (field n t1) f); [reflexivity|].
    by rewrite (bind_Ok _ _ f t1 f) by by apply read_Some.
  - by eexists.
Qed.

Lemma populated_le ps : zlen (populated ps) <= zlen ps.
Proof. unfold zlen, populated. pose proof (length_filter (fun p => 0 < fst p) ps). lia. Qed.

Lemma min_range v vs : Forall (fun v => 0 < v < 2 ^ 16) (v :: vs) -> 0 < foldr Z.min v vs < 2 ^ 16.
Proof.
  intros [Hv Hvs]%Forall_cons. induction Hvs as [|x vs Hx _ IH]; cbn; lia.
Qed.

Lemma dmi_total_run ps d f :
  collected MAX_DMI_MEM_CH ps d -> Forall in_range16 ps -> dmi_total d f = Ok (expected ps, f).
Proof.
  intros [Hlen Hc Hf Hp Hpop] Hr. unfold dmi_total. rewrite Hpop, Hc.
  pose proof (populated_le ps) as Hle. unfold MAX_DMI_MEM_CH in *.
  assert (Hlow : lowest_speed (take (Z.to_nat (zlen ps)) (type17 d)) = foldl pair_step 0 ps).
  { unfold zlen. by rewrite Nat2Z.id, lowest_speed_pairs, Hp. }
  rewrite Hlow, pair_fold_zero by done. unfold expected.
  assert (Hsp : Forall (fun v => 0 < v < 2 ^ 16) (filter (fun v => v <> 0) (map snd (populated ps)))).
  { apply Forall_forall. intros v [Hv Hin]%list_elem_of_filter. apply list_elem_of_fmap in Hin as (p & -> & Hin).
    unfold populated in Hin. apply list_elem_of_filter in Hin as [_ Hin].
    rewrite Forall_forall in Hr. destruct (Hr p Hin). lia. }
  destruct (filter (fun v => v <> 0) (map snd (populated ps))) as [|v vs] eqn:Hspeeds.
  - destruct (zlen (populated ps) =? 0); done.
  - pose proof (min_range v vs Hsp) as Hmin. set (m := foldr Z.min v vs) in *.
    assert (Hne : 0 < zlen (populated ps)).
    { destruct (populated ps) eqn:He; [done|]. unfold zlen. cbn. lia. }
    rewrite (proj2 (Z.eqb_neq _ 0)) by lia. rewrite (proj2 (Z.eqb_neq m 0)) by lia.
    destruct (check_same_runs "speed" (zlen ps) (type17 d) f) as [r1 H1]; [lia|].
    destruct (check_same_runs "size" (zlen ps) (type17 d) f) as [r2 H2]; [lia|].
    rewrite (bind_Ok _ _ _ _ _ H1), (bind_Ok _ _ _ _ _ H2). cbv zeta.
    rewrite s32_small by (unfold in_s32; nia). rewrite (proj2 (Z.leb_gt _ 0)) by nia. done.
Qed.

Lemma le_val_take2 bs : Forall (in_u 8) bs -> 0 <= le_val (take 2 bs) < 2 ^ 16.
Proof.
  intros Hbs. assert (Ht : Forall (in_u 8) (take 2 bs)) by by apply Forall_take.
  pose proof (le_val_range _ Ht) as [H0 H1]. split; [done|].
  eapply Z.lt_le_trans; [exact H1|]. change (2 ^ 16) with (256 ^ 2). apply Z.pow_le_mono_r; [lia|].
  rewrite length_take. lia.
Qed.

Lemma devices_in_range xs : Forall st_ok xs -> Forall in_range16 (devices xs).
Proof.
  intros Hxs. apply Forall_forall. intros p Hp. unfold devices in Hp.
  apply list_elem_of_fmap in Hp as (x & -> & Hx). apply list_elem_of_filter in Hx as [_ Hx].
  rewrite Forall_forall in Hxs. destruct (Hxs x Hx). unfold mem_size, mem_speed.
  split; cbn [fst snd]; apply le_val_take2; by apply Forall_drop.
Qed.

(** C12: on a table the firmware has written in the layout the code expects, with at
    most 128 memory devices, the answer is the number of populated devices
    times eight bytes times the lowest speed they name, and -1 when no
    populated device names one, whatever the array on the stack held. *)
Theorem dmi_bandwidth_of_tables xs stack header k :
  Forall st_ok xs -> zlen stack = MAX_DMI_MEM_CH -> zlen (devices xs) <= MAX_DMI_MEM_CH ->
  dmi_get_bandwidth (S (length xs) + k) (Some (concat (map encode xs))) stack header = Ok (Some (expected (devices xs))).
Proof.
  intros Hxs Hs Hn. unfold dmi_get_bandwidth. cbv zeta.
  set (d := {| type17 := stack; type17_count := 0; populated_count := 0 |}).
  set (f := {| content := concat (map encode xs); pos := 0 |}).
  destruct (loop_run MAX_DMI_MEM_CH xs [] d f (fst header) (snd header)) as (d' & f' & Hrun & Hd'); [done| |done| |].
  - split; try done.
  - by exists [].
  - rewrite (bind_Ok _ _ _ _ _ (dmi_loop_more _ k _ _ _ _ _ _ Hrun)).
    rewrite (bind_Ok _ _ _ _ _ (dmi_total_run _ d' f' Hd' (devices_in_range xs Hxs))). done.
Qed.

(** Two populated modules and an empty slot, with the layout of SMBIOS 2.8, and
    a structure of another type. *)
Definition module_body (size speed : Z) : list Z :=
  replicate 10 1 ++ le_bytes 2 size ++ replicate 7 1 ++ le_bytes 2 speed ++ replicate 17 1.

Definition sample_tables : list structure :=
  [{| st_type := 17; st_body := module_body 8192 4800; st_strings := [68; 73; 77; 77; 0; 66] |};
   {| st_type := 4; st_body := replicate 6 0; st_strings := [] |};
   {| st_type := 17; st_body := module_body 8192 5600; st_strings := [68; 73; 77; 77; 0; 66] |};
   {| st_type := 17; st_body := module_body 0 0; st_strings := [68; 73; 77; 77] |}].

Lemma sample_tables_ok : Forall st_ok sample_tables.
Proof.
  repeat constructor; try (by vm_compute); try (by vm_compute; intuition discriminate); try (cbn; lia);
    try (intros; cbn; lia); cbn; intros; try discriminate; try (eexists _, _; split; [reflexivity|discriminate]).
Qed.

Lemma dmi_bandwidth_of_tables_witness :
  dmi_get_bandwidth 5 (Some (concat (map encode sample_tables))) (replicate 128 ∅) (0, 0) = Ok (Some (2 * 4800 * 8)).
Proof.
  rewrite (dmi_bandwidth_of_tables sample_tables (replicate 128 ∅) (0, 0) 0); [reflexivity|apply sample_tables_ok|reflexivity|].
  vm_compute. discriminate.
Defined.
