(* ===== verification/GetCpuid.v ===== *)
(** * The CPUID tool ([tools/get_cpuid.c])

    The tool that prints the efficiency cores of the machine.  It has its own
    copies of the functions of [sysdetect.c], which print what they find; the
    process is the affinity mask of [SysDetect] and the lines printed. *)

From S2P Require Import Prelude SysDetect.

(** What the tool prints, by format string. *)
Inductive line :=
  | ErrorGetting | ErrorSetting | ErrorRestoring
  | CoresUnavailable (n : Z)
  | HybridProcessor | NonHybridProcessor
  | TotalAvailable (n : Z) | TotalEfficient (n : Z)
  | FirstECore (cpu : Z) | LastECore (cpu : Z).

Record process := { proc_affinity : affinity; out : list line }.

#[export] Instance process_settable : Settable process := fun r =>
  {| proc_affinity := proc_affinity r; out := out r |}.

Definition print (l : line) : ST process unit := modify (fun p => p <| out ::= fun o => o ++ [l] |>).

(** A call of the scheduler interface. *)
Definition sched {A} (m : ST affinity A) : ST process A := zoom proc_affinity (fun a p => p <| proc_affinity := a |>) m.

Definition tool_core_type (eax : Z -> Z) (core_number : Z) : ST process Z :=
  got ← sched sched_call;
  if negb got then print ErrorGetting ;; mret (-1) else
  original_set ← sched (gets mask);
  set ← sched sched_call;
  if negb set then print ErrorSetting ;; mret (-2) else
  sched (modify (fun a => a <| mask := {[core_number]} |>)) ;;
  let core_value := Z.shiftr (u32 (eax core_number)) 0x18 in
  restored ← sched sched_call;
  if negb restored then print ErrorRestoring ;; mret (-3) else
  sched (modify (fun a => a <| mask := original_set |>)) ;;
  mret core_value.

Definition tool_hybridflag (edx : Z) : Z := Z.land (Z.shiftr (u32 edx) 0xf) 0x01.

(** The body of the loop over the cores. *)
Definition tool_search_step (eax : Z -> Z) (acc : e_cores_layout_s * Z) (i : Z) : ST process (e_cores_layout_s * Z) :=
  t ← tool_core_type eax i;
  let '(core_locations, efficient_count) := acc in
  mret (if t =? 0x20 then
          ({| first_efficiency_core := if efficient_count =? 0 then i else first_efficiency_core core_locations;
              last_efficiency_core := i |}, u32 (efficient_count + 1))
        else acc).

(** [nprocs_conf] and [nprocs] are what [get_nprocs_conf()] and [get_nprocs()]
    answer. *)
Definition tool_efficient_core_ids (nprocs_conf nprocs : Z) (eax : Z -> Z) (edx : Z) : ST process e_cores_layout_s :=
  let total_cores := u32 nprocs_conf in
  let available_cores := u32 nprocs in
  (if available_cores <? total_cores then print (CoresUnavailable (u32 (total_cores - available_cores))) else mret tt) ;;
  r ← (if tool_hybridflag edx =? 1 then
         print HybridProcessor ;;
         fold_each (seqZ 0 available_cores) (no_cores, 0) (tool_search_step eax)
       else
         print NonHybridProcessor ;;
         t ← tool_core_type eax 0;
         mret (if t =? 0x20 then
                 ({| first_efficiency_core := 0; last_efficiency_core := s32 (available_cores - 1) |}, available_cores)
               else (no_cores, 0)));
  print (TotalAvailable total_cores) ;;
  print (TotalEfficient (snd r)) ;;
  print (FirstECore (first_efficiency_core (fst r))) ;;
  print (LastECore (last_efficiency_core (fst r))) ;;
  mret (fst r).

Definition get_cpuid_main (nprocs_conf nprocs : Z) (eax : Z -> Z) (edx : Z) : ST process Z :=
  tool_efficient_core_ids nprocs_conf nprocs eax edx ;; mret 0.

(** ** The tool and the library *)

#[export] Instance is_ecore_dec eax i : Decision (is_ecore eax i) := Z.eq_dec _ _.

(** The number of efficiency cores among these. *)
Definition count_ecores (eax : Z -> Z) (cores : list Z) : Z := zlen (filter (is_ecore eax) cores).

Section runs.
Context (eax : Z -> Z).

(** The copies of the two programs return the same value and leave the same
    affinity, also when calls fail; when none fails the tool prints nothing
    here and the value is that of the core. *)
Lemma core_type_same i a o :
  exists v a' o', get_core_type eax i a = Ok (v, a') /\
    tool_core_type eax i {| proc_affinity := a; out := o |} = Ok (v, {| proc_affinity := a'; out := o' |}) /\
    (no_sched_error a -> v = core_type eax i /\ no_sched_error a' /\ o' = o).
Proof.
  unfold get_core_type, tool_core_type. destruct a as [m calls].
  destruct calls as [|[] [|[] [|[] calls]]]; do 3 eexists; (split; [reflexivity|]); (split; [reflexivity|]);
    intros Ha; unfold no_sched_error in *; cbn in *; rewrite ?Forall_cons in Ha; naive_solver.
Qed.

Lemma search_step_same acc i a o :
  0 <= snd acc < 2 ^ 32 - 1 ->
  exists acc' a' o', core_search_step eax acc i a = Ok (acc', a') /\
    tool_search_step eax acc i {| proc_affinity := a; out := o |} = Ok (acc', {| proc_affinity := a'; out := o' |}) /\
    0 <= snd acc' <= snd acc + 1 /\
    (no_sched_error a -> snd acc' = snd acc + count_ecores eax [i] /\ no_sched_error a' /\ o' = o).
Proof.
  intros Hc. destruct (core_type_same i a o) as (v & a' & o' & H1 & H2 & Hno).
  unfold core_search_step, tool_search_step. rewrite (bind_Ok _ _ _ _ _ H1), (bind_Ok _ _ _ _ _ H2).
  destruct acc as [l c]. cbn [snd] in Hc. rewrite u32_small by lia.
  do 3 eexists. split; [reflexivity|]. split; [reflexivity|]. split; [destruct (v =? 0x20); cbn; lia|].
  intros (-> & Ha' & Ho)%Hno. split; [|done]. unfold count_ecores. rewrite filter_cons, filter_nil.
  unfold is_ecore. destruct (Z.eqb_spec (core_type eax i) 0x20); case_decide; try done; unfold zlen; cbn; lia.
Qed.

Lemma count_ecores_cons i cs : count_ecores eax (i :: cs) = count_ecores eax [i] + count_ecores eax cs.
Proof. unfold count_ecores. rewrite !filter_cons, filter_nil. unfold zlen. case_decide; cbn [length]; lia. Qed.

Lemma search_same cs acc a o :
  0 <= snd acc -> snd acc + zlen cs < 2 ^ 32 ->
  exists acc' a' o', fold_each cs acc (core_search_step eax) a = Ok (acc', a') /\
    fold_each cs acc (tool_search_step eax) {| proc_affinity := a; out := o |} =
      Ok (acc', {| proc_affinity := a'; out := o' |}) /\
    (no_sched_error a -> snd acc' = snd acc + count_ecores eax cs /\ o' = o).
Proof.
  revert acc a o. induction cs as [|i cs IH]; intros acc a o Hc Hb.
  { exists acc, a, o. split; [done|]. split; [done|]. intros _. split; [unfold count_ecores, zlen; cbn; lia|done]. }
  unfold zlen in *. cbn [length] in Hb. rewrite Nat2Z.inj_succ in Hb.
  destruct (search_step_same acc i a o) as (acc1 & a1 & o1 & H1 & Ho1 & Hc1 & Hno1); [lia|].
  destruct (IH acc1 a1 o1) as (acc' & a' & o' & H2 & Ho2 & Hno2); [lia|lia|]. exists acc', a', o'.
  cbn [fold_each]. rewrite (bind_Ok _ _ _ _ _ H1), (bind_Ok _ _ _ _ _ Ho1). split; [done|]. split; [done|].
  intros (Hs1 & Ha1 & ->)%Hno1. destruct (Hno2 Ha1) as [Hs2 ->]. rewrite count_ecores_cons. split; [lia|done].
Qed.
End runs.

(** The lines that end the output. *)
Lemma results_run conf count l (r : e_cores_layout_s) a o :
  (print (TotalAvailable conf) ;; print (TotalEfficient count) ;; print (FirstECore (first_efficiency_core l)) ;;
   print (LastECore (last_efficiency_core l)) ;; mret r) {| proc_affinity := a; out := o |} =
  Ok (r, {| proc_affinity := a;
            out := o ++ [TotalAvailable conf; TotalEfficient count; FirstECore (first_efficiency_core l);
                         LastECore (last_efficiency_core l)] |}).
Proof. unfold print. rewrite !bind_modify. unfold set. cbn. by rewrite <- !app_assoc. Qed.

(** The warning about processors that are configured but not available. *)
Definition warning (nprocs_conf nprocs : Z) : list line :=
  if nprocs <? nprocs_conf then [CoresUnavailable (nprocs_conf - nprocs)] else [].

Definition kind_of (edx : Z) : line := if get_hybridflag edx =? 1 then HybridProcessor else NonHybridProcessor.

(** The number of efficiency cores: counted on a hybrid processor, all or none on
    others, by the type of core 0. *)
Definition efficient_cores (eax : Z -> Z) (edx n : Z) : Z :=
  if get_hybridflag edx =? 1 then count_ecores eax (seqZ 0 n) else if decide (is_ecore eax 0) then n else 0.

(** C23: the tool and the detection of the main program agree on every machine, also
    when calls of the scheduler fail: the layout that the tool prints is the
    one that [sysdetect.c] computes, and both leave the same affinity mask.
    When no call fails, the number printed is the number of efficiency cores,
    and nothing else is printed but the warning and the kind of the
    processor. *)
Theorem cpuid_tool_agrees nprocs_conf nprocs eax edx a :
  0 <= nprocs_conf < 2 ^ 31 -> 0 < nprocs < 2 ^ 31 ->
  exists l a' o count, get_efficient_core_ids eax edx nprocs a = Ok (l, a') /\
    get_cpuid_main nprocs_conf nprocs eax edx {| proc_affinity := a; out := [] |} =
      Ok (0, {| proc_affinity := a';
                out := o ++ [TotalAvailable nprocs_conf; TotalEfficient count;
                             FirstECore (first_efficiency_core l); LastECore (last_efficiency_core l)] |}) /\
    (no_sched_error a -> o = warning nprocs_conf nprocs ++ [kind_of edx] /\ count = efficient_cores eax edx nprocs).
Proof.
  intros Hconf Hn. unfold get_cpuid_main, tool_efficient_core_ids, get_efficient_core_ids, kind_of, efficient_cores.
  rewrite (u32_small nprocs_conf), (u32_small nprocs) by lia. cbv zeta.
  set (o0 := warning nprocs_conf nprocs).
  assert (Hw : (if nprocs <? nprocs_conf then print (CoresUnavailable (u32 (nprocs_conf - nprocs))) else mret tt)
      {| proc_affinity := a; out := [] |} = Ok (tt, {| proc_affinity := a; out := o0 |})).
  { unfold o0, warning. destruct (Z.ltb_spec nprocs nprocs_conf); [|done]. by rewrite u32_small by lia. }
  change (tool_hybridflag edx) with (get_hybridflag edx). destruct (get_hybridflag edx =? 1).
  - destruct (search_same eax (seqZ 0 nprocs) (no_cores, 0) a (o0 ++ [HybridProcessor])) as ([l count] & a' & o & H1 & H2 & Hno).
    { done. } { unfold zlen. rewrite length_seqZ. cbn. lia. }
    rewrite (bind_Ok _ _ _ _ _ H1). exists l, a', o, count. split; [done|]. split; [|intros Ha; by destruct (Hno Ha) as [Hc ->]].
    unfold mbind at 1, ST_bind at 1. rewrite (bind_Ok _ _ _ _ _ Hw). rewrite (bind_Ok _ _ _ (l, count) {| proc_affinity := a'; out := o |}).
    + cbn [fst snd]. by rewrite results_run.
    + by rewrite (bind_Ok _ _ _ _ _ eq_refl).
  - destruct (core_type_same eax 0 a (o0 ++ [NonHybridProcessor])) as (v & a' & o & H1 & H2 & Hno).
    rewrite (bind_Ok _ _ _ _ _ H1).
    exists (if v =? 0x20 then {| first_efficiency_core := 0; last_efficiency_core := nprocs - 1 |} else no_cores), a', o,
      (if v =? 0x20 then nprocs else 0). split; [done|]. split.
    + unfold mbind at 1, ST_bind at 1. rewrite (bind_Ok _ _ _ _ _ Hw). rewrite s32_small by (unfold in_s32; lia).
      rewrite (bind_Ok _ _ _ (if v =? 0x20 then ({| first_efficiency_core := 0; last_efficiency_core := nprocs - 1 |}, nprocs)
        else (no_cores, 0)) {| proc_affinity := a'; out := o |}).
      * rewrite results_run. by destruct (v =? 0x20).
      * by rewrite (bind_Ok _ _ _ _ _ eq_refl), (bind_Ok _ _ _ _ _ H2).
    + intros (-> & _ & ->)%Hno. split; [done|]. unfold is_ecore.
      destruct (Z.eqb_spec (core_type eax 0) 0x20); case_decide; done.
Qed.

(** Of twenty processors, sixteen available, four are efficiency cores. *)
Lemma cpuid_tool_agrees_witness :
  let eax := fun i => if (8 <=? i) && (i <=? 11) then 0x20000001 else 0x40000001 in
  let a := {| mask := {[0; 1]}; sched_calls := [] |} in
  exists a', get_cpuid_main 20 16 eax 0x8000 {| proc_affinity := a; out := [] |} =
    Ok (0, {| proc_affinity := a';
              out := [CoresUnavailable 4; HybridProcessor; TotalAvailable 20; TotalEfficient 4; FirstECore 8; LastECore 11] |}).
Proof.
  intros eax a. destruct (cpuid_tool_agrees 20 16 eax 0x8000 a) as (l & a' & o & count & Hl & Hmain & Hno); [lia|lia|].
  exists a'. rewrite Hmain. destruct Hno as [-> ->]; [constructor|].
  vm_compute in Hl. injection Hl as <- <-. reflexivity.
Defined.
