(* ===== verification/Log.v ===== *)
(** * Log messages ([log.c], [log.h])

    The level of the program, the static buffer in which [mergetags] builds the
    tag of a debug message, and what is on standard output.  A string is a
    [string] without its terminator; the text of a message is given formatted,
    and [now] is what [ctime] makes of the time, without its newline. *)

From Stdlib Require Import Ascii.
From stdpp Require Import pretty.
From S2P Require Import Prelude.

(** The length of [taggbuff]. *)
Definition TAGG_SIZE : nat := 180.

Record logst := { runtime_loglevel : Z; taggbuff : string; stdout : list string }.

#[export] Instance logst_settable : Settable logst := fun r =>
  {| runtime_loglevel := runtime_loglevel r; taggbuff := taggbuff r; stdout := stdout r |}.

Definition log0 : logst := {| runtime_loglevel := 5; taggbuff := EmptyString; stdout := [] |}.

Abbreviation G := (ST logst).

Definition set_level (level : Z) : G Z :=
  if (5 <? level) || (level <? 1) then mret 0
  else modify (fun s => s <| runtime_loglevel := level |>) ;; mret level.

Local Open Scope string_scope.
Local Open Scope Z_scope.

(** [sprintf] writes the string and its terminator. *)
Definition mergetags (t f : string) (l : Z) : G string :=
  let s := t +:+ " " +:+ f +:+ "+" +:+ pretty l in
  if (String.length s <? TAGG_SIZE)%nat then modify (fun g => g <| taggbuff := s |>) ;; mret s
  else stop_with OutOfBounds.

(** The beginning of a line. *)
Definition prefix (level : Z) (now tag : string) : string := pretty level +:+ " " +:+ now +:+ " " +:+ tag +:+ "|".

Definition loglevel (level : Z) (now tag message : string) : G Z :=
  runtime ← gets runtime_loglevel;
  if runtime <? level then mret 0 else
  modify (fun s => s <| stdout ::= fun o => (o ++ [prefix level now tag; message])%list |>) ;;
  mret (Z.of_nat (String.length message)).

(** The macros of [log.h]. *)
Definition loga (now tag message : string) : G Z := loglevel 1 now tag message.

Definition loge (now tag message : string) : G Z := loglevel 2 now tag message.

Definition logi (now tag message : string) : G Z := loglevel 3 now tag message.

Definition logv (now tag message : string) : G Z := loglevel 4 now tag message.

Definition logd (file : string) (line : Z) (now tag message : string) : G Z :=
  t ← mergetags tag file line;
  loglevel 5 now t message.

(** ** A program that logs *)

(** The calls a program makes. *)
Inductive log_call :=
  | SetLevel (level : Z)
  | Message (level : Z) (now tag message : string)
  | Debug (file : string) (line : Z) (now tag message : string).

Definition run_call (c : log_call) : G unit :=
  match c with
  | SetLevel level => set_level level ;; mret tt
  | Message level now tag message => loglevel level now tag message ;; mret tt
  | Debug file line now tag message => logd file line now tag message ;; mret tt
  end.

(** The output, from the level in force at each message. *)
Fixpoint output (level : Z) (cs : list log_call) : list string :=
  match cs with
  | [] => []
  | SetLevel l :: cs' => output (if (1 <=? l) && (l <=? 5) then l else level) cs'
  | Message l now tag message :: cs' =>
      ((if (l <=? level)%Z then [prefix l now tag; message] else []) ++ output level cs')%list
  | Debug file line now tag message :: cs' =>
      ((if (5 <=? level)%Z then [prefix 5 now (tag +:+ " " +:+ file +:+ "+" +:+ pretty line); message] else []) ++ output level cs')%list
  end.

(** The tags of the debug messages fit the buffer, also of those that are not
    printed: [mergetags] runs before the level is tested. *)
Definition tag_fits (c : log_call) : Prop :=
  match c with
  | Debug file line _ tag _ => (String.length (tag +:+ " " +:+ file +:+ "+" +:+ pretty line) < TAGG_SIZE)%nat
  | _ => True
  end.

Lemma loglevel_run level now tag message s :
  exists r, loglevel level now tag message s =
    Ok (r, s <| stdout ::= fun o => (o ++ if (level <=? runtime_loglevel s)%Z then [prefix level now tag; message] else [])%list |>).
Proof.
  unfold loglevel. rewrite bind_gets. destruct (Z.ltb_spec (runtime_loglevel s) level), (Z.leb_spec level (runtime_loglevel s)); try lia.
  - exists 0. destruct s. unfold set. cbn. by rewrite app_nil_r.
  - eexists. by rewrite bind_modify.
Qed.

(** A run of log calls prints exactly the messages whose level is at most the one
    in force, in order, and fails never when the tags fit the buffer. *)
Theorem log_session cs s :
  Forall tag_fits cs ->
  exists s', for_each cs run_call s = Ok (tt, s') /\ (stdout s' = stdout s ++ output (runtime_loglevel s) cs)%list.
Proof.
  intros Hcs. revert s. induction Hcs as [|c cs Hc _ IH]; intros s.
  { exists s. split; [done|]. cbn. by rewrite app_nil_r. }
  assert (Hrun : exists s1, run_call c s = Ok (tt, s1) /\
    (stdout s1 ++ output (runtime_loglevel s1) cs = stdout s ++ output (runtime_loglevel s) (c :: cs))%list).
  { destruct c as [level|level now tag message|file line now tag message]; cbn [run_call output].
    - unfold set_level. destruct (Z.ltb_spec 5 level), (Z.ltb_spec level 1), (Z.leb_spec 1 level), (Z.leb_spec level 5); try lia;
        cbn [orb andb]; eexists; (split; [reflexivity|done]).
    - destruct (loglevel_run level now tag message s) as [r Hr]. rewrite (bind_Ok _ _ _ _ _ Hr).
      eexists. split; [reflexivity|]. cbn. by rewrite <- app_assoc.
    - unfold logd, mergetags. rewrite (proj2 (Nat.ltb_lt _ _) Hc). set (t := tag +:+ _).
      destruct (loglevel_run 5 now t message (s <| taggbuff := t |>)) as [r Hr].
      assert (Hd : (t' ← (modify (fun g => g <| taggbuff := t |>) ;; mret t); loglevel 5 now t' message) s =
        loglevel 5 now t message (s <| taggbuff := t |>)) by done.
      rewrite Hr in Hd. rewrite (bind_Ok _ _ _ _ _ Hd). eexists. split; [reflexivity|]. cbn. by rewrite <- app_assoc. }
  destruct Hrun as (s1 & H1 & Ho). destruct (IH s1) as (s' & Hs' & Hout). exists s'. split; [|by rewrite Hout].
  cbn [for_each]. by rewrite (bind_Ok _ _ _ _ _ H1).
Qed.

(** A debug message, a level, two messages of which one is above it. *)
Lemma log_session_witness :
  exists s', for_each [Debug "main.c" 123 "Mon" "MAIN" "a"; SetLevel 3; Message 2 "Mon" "MAIN" "b"; Message 4 "Mon" "MAIN" "c"]
      run_call log0 = Ok (tt, s') /\
    stdout s' = ["5 Mon MAIN main.c+123|"; "a"; "2 Mon MAIN|"; "b"].
Proof.
  destruct (log_session [Debug "main.c" 123 "Mon" "MAIN" "a"; SetLevel 3; Message 2 "Mon" "MAIN" "b"; Message 4 "Mon" "MAIN" "c"] log0)
    as (s' & Hrun & Hout).
  - repeat (apply Forall_cons; split; [try done; vm_compute; lia|]). done.
  - exists s'. split; [exact Hrun|]. rewrite Hout. vm_compute. reflexivity.
Defined.
