(* ===== verification/Json.v ===== *)
(** * Command line from a JSON file ([json_parser.c])

    Without arguments the program takes its options from [config.json].  The
    parser is a library: [parse] stands for [cJSON_Parse], and a value carries
    what [cJSON_Print] makes of it where the code prints it; [format_g] is the
    ["%g"] of [snprintf].  [cJSON_GetObjectItem] ignores the case of the names,
    as its header says. *)

From Stdlib Require Import Ascii.
From S2P Require Import Prelude Floats.

Definition JSON_BUFFER_SIZE : Z := 1024.

Definition JSON_MAX_ARG : Z := 50.

(** ** Data *)

Inductive jvalue : Type :=
  | VString (valuestring : string)
  | VNumber (valuedouble : spec_float)
  | VBool (valueint : Z)
  | VArray (printed : option string)
  | VOther (printed : option string).

Record entry := { key : option string; value : jvalue }.

(** The array of arguments, [None] for [NULL]; what the next [malloc]s give:
    [None] for a failure, or what is in the memory; the live allocations. *)
Record jstate := { json_argv : list (option string); mallocs : list (option string); live : Z }.

#[export] Instance jstate_settable : Settable jstate := fun r =>
  {| json_argv := json_argv r; mallocs := mallocs r; live := live r |}.

Abbreviation J := (ST jstate).

Definition malloc : J (option string) := fun s =>
  let r := default (Some EmptyString) (head (mallocs s)) in
  Ok (r, s <| mallocs ::= tail |> <| live ::= fun n => n + b2z (bool_decide (is_Some r)) |>).

Definition set_arg (i : Z) (x : option string) : J unit :=
  l ← gets json_argv;
  check_index l i ;;
  modify (fun s => s <| json_argv ::= fun l => aset l i x |>).

(** [snprintf(buf, JSON_BUFFER_SIZE, "%s", s)]. *)
Definition cut (s : string) : string := String.substring 0 (Z.to_nat (JSON_BUFFER_SIZE - 1)) s.

(** ** Names *)

Definition tolower (c : ascii) : ascii :=
  let n := nat_of_ascii c in
  if (65 <=? n)%nat && (n <=? 90)%nat then ascii_of_nat (n + 32) else c.

Fixpoint lower (s : string) : string :=
  match s with EmptyString => EmptyString | String c s' => String (tolower c) (lower s') end.

Definition names (k : option string) (e : entry) : bool :=
  match k, key e with
  | Some k, Some k' => bool_decide (lower k = lower k')
  | _, _ => false
  end.

(** [cJSON_GetObjectItem(json, k)]. *)
Definition get_object_item (json : list entry) (k : option string) : option entry :=
  match filter (fun e => names k e = true) json with
  | [] => None
  | e :: _ => Some e
  end.

(** ** Values *)

Fixpoint last_char (s : string) : option ascii :=
  match s with
  | EmptyString => None
  | String c EmptyString => Some c
  | String _ s' => last_char s'
  end.

Definition quote : ascii := ascii_of_nat 34.

(** Quotes at both ends are dropped; of a value that is one quote the code reads
    what follows its terminator. *)
Definition unquote (s : string) : option string :=
  match s with
  | String c s' =>
      if bool_decide (c = quote) && bool_decide (last_char s = Some quote) then
        match s' with
        | EmptyString => None
        | _ => Some (String.substring 0 (String.length s' - 1) s')
        end
      else Some s
  | EmptyString => Some s
  end.

Fixpoint drop_brackets (s : string) : string :=
  match s with
  | EmptyString => EmptyString
  | String c s' =>
      if bool_decide (c = "["%char) || bool_decide (c = "]"%char) then drop_brackets s'
      else String c (drop_brackets s')
  end.

Section parser.
Context (format_g : spec_float -> string).

(** What the buffer of a value, with [junk] in it, holds in the end; [None] when
    the code reads outside of a string. *)
Definition text (junk : string) (v : jvalue) : option string :=
  match v with
  | VString s => cut <$> unquote s
  | VNumber d => Some (cut (format_g d))
  | VBool b => Some (if b =? 0 then "false" else "true")
  | VArray None => Some junk
  | VArray (Some EmptyString) => None
  | VArray (Some (String _ s)) => Some (cut (drop_brackets s))
  | VOther None => Some junk
  | VOther (Some s) => Some (cut s)
  end.

(** The loop over the object: the number of entries, or [None] when a [malloc]
    fails. *)
Fixpoint entries_loop (json l : list entry) (i : Z) : J (option Z) :=
  match l with
  | [] => mret (Some i)
  | e :: l' =>
      if JSON_MAX_ARG - 1 <=? i then mret (Some i) else
      k ← malloc; set_arg (2 * i + 1) k ;;
      v ← malloc; set_arg (2 * i + 2) v ;;
      match k, v with
      | Some _, Some junk =>
          match mbind (M := option) key (get_object_item json (key e)) with
          | None => stop_with NullDeref
          | Some name =>
              set_arg (2 * i + 1) (Some (cut name)) ;;
              match text junk (value e) with
              | None => stop_with OutOfBounds
              | Some t => set_arg (2 * i + 2) (Some t) ;; entries_loop json l' (i + 1)
              end
          end
      | _, _ => mret None
      end
  end.

Definition json_init : J Z :=
  r ← malloc;
  match r with
  | None => mret (-1)
  | Some _ => modify (fun s => s <| json_argv := replicate (Z.to_nat JSON_MAX_ARG) None |>) ;; mret 0
  end.

Definition json_parse (parse : string -> option (list entry)) (file : option string) (argv0 : string) : J Z :=
  match file with
  | None => mret (-1)
  | Some content =>
      match parse (cut content) with
      | None => mret (-1)
      | Some json =>
          p ← malloc; set_arg 0 p ;;
          match p with
          | None => mret (-1)
          | Some _ =>
              set_arg 0 (Some (cut argv0)) ;;
              r ← entries_loop json json 0;
              match r with
              | None => mret (-1)
              | Some i => set_arg (2 * i + 1) None ;; mret (2 * i + 1)
              end
          end
      end
  end.
End parser.

(** The strings up to the first [NULL] and the array are freed. *)
Fixpoint free_args (l : list (option string)) : J unit :=
  match l with
  | [] => stop_with OutOfBounds
  | None :: _ => mret tt
  | Some _ :: l' => modify (fun s => s <| live ::= Z.pred |>) ;; free_args l'
  end.

Definition json_deinit : J Z :=
  l ← gets json_argv;
  free_args l ;;
  modify (fun s => s <| live ::= Z.pred |>) ;;
  mret 0.

(** ** Runs *)

(** The state with [args] at the head of the array and [NULL] in the rest. *)
Definition holds (args : list string) (k : nat) (s : jstate) : Prop :=
  json_argv s = map Some args ++ replicate k None /\ mallocs s = [].

Definition with_args (args : list string) (k : nat) (d : Z) (s : jstate) : jstate :=
  s <| json_argv := map Some args ++ replicate k None |> <| live ::= fun n => n + d |>.

Lemma json_argv_with_args args k d s : json_argv (with_args args k d s) = map Some args ++ replicate k None.
Proof. done. Qed.

Lemma set_arg_run i x s :
  0 <= i < zlen (json_argv s) -> set_arg i x s = Ok (tt, s <| json_argv ::= fun l => aset l i x |>).
Proof.
  intros Hi. unfold set_arg. rewrite bind_gets.
  by rewrite (bind_Ok _ _ _ _ _ (check_index_Ok (json_argv s) i s Hi)).
Qed.

Lemma aset_mid {A} (pre : list A) y rest x i : i = zlen pre -> aset (pre ++ y :: rest) i x = pre ++ x :: rest.
Proof.
  intros ->. unfold aset, zlen. destruct (Z.leb_spec 0 (Z.of_nat (length pre))); [|lia].
  by rewrite Nat2Z.id, insert_app_r_alt, Nat.sub_diag by lia.
Qed.

Lemma set_arg_mid pre y rest x i s :
  json_argv s = pre ++ y :: rest -> i = zlen pre ->
  set_arg i x s = Ok (tt, s <| json_argv := pre ++ x :: rest |>).
Proof.
  intros Hs Hi. rewrite set_arg_run.
  - unfold Prelude.set. by rewrite Hs, (aset_mid _ _ _ _ _ Hi).
  - rewrite Hs, Hi. unfold zlen. rewrite length_app. cbn. lia.
Qed.

Lemma set_arg_outside i x s : zlen (json_argv s) <= i -> set_arg i x s = Stop OutOfBounds.
Proof.
  intros Hi. unfold set_arg. rewrite bind_gets. apply bind_Stop. unfold check_index.
  destruct (in_range _ _) eqn:Hr; [|done]. apply in_range_zlen in Hr. lia.
Qed.

Lemma malloc_run s : mallocs s = [] -> malloc s = Ok (Some EmptyString, s <| live ::= fun n => n + 1 |>).
Proof. intros Hs. destruct s. cbn in Hs. by subst. Qed.

Section runs.
Context (format_g : spec_float -> string).

(** The two arguments of an entry. *)
Definition arguments (json : list entry) (e : entry) : option (string * string) :=
  k ← mbind (M := option) key (get_object_item json (key e));
  t ← text format_g EmptyString (value e);
  mret (cut k, t).

Definition pair_list (p : string * string) : list string := [fst p; snd p].

Lemma entries_loop_step json e l i args k p s :
  holds args (S (S k)) s -> 2 * i + 1 = zlen args -> i < JSON_MAX_ARG - 1 -> arguments json e = Some p ->
  entries_loop format_g json (e :: l) i s =
  entries_loop format_g json l (i + 1) (with_args (args ++ pair_list p) k 2 s).
Proof.
  intros [Ha Hm] Hi Hmax Hp. cbn [entries_loop]. destruct (Z.leb_spec (JSON_MAX_ARG - 1) i); [lia|].
  assert (Hi1 : 2 * i + 1 = zlen (map Some args)) by (unfold zlen in *; rewrite length_map; lia).
  assert (Hi2 : forall x, 2 * i + 2 = zlen (map Some args ++ [x])) by (intros x; unfold zlen in *; rewrite length_app; cbn; lia).
  rewrite (bind_Ok _ _ _ _ _ (malloc_run s Hm)). set (s1 := Prelude.set live _ s).
  assert (Ha1 : json_argv s1 = map Some args ++ None :: None :: replicate k None) by exact Ha.
  rewrite (bind_Ok _ _ _ _ _ (set_arg_mid _ _ _ _ _ s1 Ha1 Hi1)). set (s2 := Prelude.set json_argv _ s1).
  rewrite (bind_Ok _ _ _ _ _ (malloc_run s2 Hm)). set (s3 := Prelude.set live _ s2).
  assert (Ha3 : json_argv s3 = (map Some args ++ [Some EmptyString]) ++ None :: replicate k None) by (by rewrite <- app_assoc).
  rewrite (bind_Ok _ _ _ _ _ (set_arg_mid _ _ _ _ _ s3 Ha3 (Hi2 _))). set (s4 := Prelude.set json_argv _ s3).
  unfold arguments in Hp. destruct (mbind key (get_object_item json (key e))) as [name|]; [|done].
  destruct (text format_g EmptyString (value e)) as [t|]; [|done]. injection Hp as <-.
  assert (Ha4 : json_argv s4 = map Some args ++ Some EmptyString :: Some EmptyString :: replicate k None)
    by (cbn; by rewrite <- app_assoc).
  rewrite (bind_Ok _ _ _ _ _ (set_arg_mid _ _ _ _ _ s4 Ha4 Hi1)). set (s5 := Prelude.set json_argv _ s4).
  assert (Ha5 : json_argv s5 = (map Some args ++ [Some (cut name)]) ++ Some EmptyString :: replicate k None)
    by (cbn; by rewrite <- app_assoc).
  rewrite (bind_Ok _ _ _ _ _ (set_arg_mid _ _ _ _ _ s5 Ha5 (Hi2 _))).
  f_equal. unfold with_args. destruct s as [av ms lv]. unfold s5, s4, s3, s2, s1, Prelude.set. cbn.
  rewrite map_app, <- !app_assoc. f_equal. lia.
Qed.

Definition all_arguments (json l : list entry) (ps : list (string * string)) : Prop :=
  Forall2 (fun e p => arguments json e = Some p) l ps.

Lemma entries_loop_run json l rest ps i args k s :
  all_arguments json l ps -> holds args (2 * length l + k) s -> 2 * i + 1 = zlen args -> i + zlen l < JSON_MAX_ARG ->
  entries_loop format_g json (l ++ rest) i s =
  entries_loop format_g json rest (i + zlen l) (with_args (args ++ flat_map pair_list ps) k (2 * zlen l) s).
Proof.
  intros Hps. revert i args s. induction Hps as [|e p l ps He Hps IH]; intros i args s Hh Hi Hmax.
  - cbn. rewrite app_nil_r. change (zlen (@nil entry)) with 0. rewrite Z.add_0_r. f_equal.
    destruct Hh as [Ha _], s. unfold with_args, Prelude.set. cbn in *. rewrite <- Ha. f_equal. lia.
  - assert (Hz : zlen (e :: l) = 1 + zlen l) by (unfold zlen; cbn; lia). assert (0 <= zlen l) by (unfold zlen; lia).
    assert (Hh' : holds args (S (S (2 * length l + k))) s).
    { replace (S (S (2 * length l + k))) with (2 * length (e :: l) + k)%nat by (cbn; lia). done. }
    cbn [app]. rewrite (entries_loop_step json e (l ++ rest) i args _ p s Hh' Hi ltac:(lia) He).
    rewrite (IH (i + 1) (args ++ pair_list p)).
    + rewrite Hz. replace (i + 1 + zlen l) with (i + (1 + zlen l)) by lia. f_equal.
      unfold with_args. destruct s. unfold Prelude.set. cbn. rewrite <- app_assoc. f_equal. lia.
    + by destruct Hh as [_ Hm].
    + unfold zlen in *. rewrite length_app. cbn. lia.
    + lia.
Qed.
End runs.

(** ** The arguments of a configuration *)

Definition entry_of (kv : string * jvalue) : entry := {| key := Some (fst kv); value := snd kv |}.

(** No two names differ only in case. *)
Definition distinct (kvs : list (string * jvalue)) : Prop := NoDup (map (fun kv => lower (fst kv)) kvs).

Lemma get_object_item_cons json e k :
  get_object_item (e :: json) k = if names k e then Some e else get_object_item json k.
Proof. unfold get_object_item. rewrite filter_cons. destruct (names k e) eqn:H; case_decide; done. Qed.

Lemma get_own_item kvs kv :
  distinct kvs -> kv ∈ kvs -> get_object_item (map entry_of kvs) (Some (fst kv)) = Some (entry_of kv).
Proof.
  unfold distinct. induction kvs as [|kv' kvs IH]; intros Hd Hin; [by apply not_elem_of_nil in Hin|].
  cbn in Hd. apply NoDup_cons in Hd as [Hnot Hd]. cbn [map]. rewrite get_object_item_cons.
  apply elem_of_cons in Hin as [->|Hin].
  - unfold names, entry_of. cbn. by rewrite bool_decide_eq_true_2.
  - unfold names at 1. cbn. rewrite bool_decide_eq_false_2; [by apply IH|].
    intros Heq. apply Hnot. rewrite <- Heq. apply (list_elem_of_fmap_2 (fun kv => lower (fst kv)) _ _ Hin).
Qed.

Section configuration.
Context (format_g : spec_float -> string) (parse : string -> option (list entry)).

(** The arguments of an entry whose value has the text [t]. *)
Definition option_of (kvt : string * jvalue * string) : string * string := (cut (fst (fst kvt)), snd kvt).

Definition readable (kvt : string * jvalue * string) : Prop :=
  text format_g EmptyString (snd (fst kvt)) = Some (snd kvt).

Lemma readable_arguments kvts :
  distinct (map fst kvts) -> Forall readable kvts ->
  all_arguments format_g (map entry_of (map fst kvts)) (map entry_of (map fst kvts)) (map option_of kvts).
Proof.
  intros Hd Hr. unfold all_arguments. rewrite map_map, Forall2_fmap, Forall2_same_length_lookup. split; [done|].
  intros i x y Hx Hy. assert (x = y) by congruence. subst y. unfold arguments. cbn [entry_of key value].
  rewrite <- map_map, get_own_item; [|done|].
  - cbn. rewrite (Forall_lookup_1 _ _ _ _ Hr Hx). done.
  - apply list_elem_of_fmap_2. by eapply list_elem_of_lookup_2.
Qed.

Definition fresh (s : jstate) : Prop :=
  json_argv s = replicate (Z.to_nat JSON_MAX_ARG) None /\ mallocs s = [].

Lemma json_init_run s :
  mallocs s = [] -> exists s', json_init s = Ok (0, s') /\ fresh s' /\ live s' = live s + 1.
Proof.
  intros Hm. unfold json_init. rewrite (bind_Ok _ _ _ _ _ (malloc_run s Hm)). eexists. split; [done|]. by repeat split.
Qed.

Lemma json_parse_run content argv0 json s :
  parse (cut content) = Some json -> fresh s ->
  json_parse format_g parse (Some content) argv0 s =
  (r ← entries_loop format_g json json 0;
   match r with
   | None => mret (-1)
   | Some i => set_arg (2 * i + 1) None ;; mret (2 * i + 1)
   end) (with_args [cut argv0] 49 1 s).
Proof.
  intros Hp [Ha Hm]. unfold json_parse. rewrite Hp, (bind_Ok _ _ _ _ _ (malloc_run s Hm)).
  set (s1 := Prelude.set live _ s).
  assert (Ha1 : json_argv s1 = [] ++ None :: replicate 49 None) by exact Ha.
  rewrite (bind_Ok _ _ _ _ _ (set_arg_mid _ _ _ _ 0 s1 Ha1 eq_refl)). set (s2 := Prelude.set json_argv _ s1).
  assert (Ha2 : json_argv s2 = [] ++ Some EmptyString :: replicate 49 None) by done.
  by rewrite (bind_Ok _ _ _ _ _ (set_arg_mid _ _ _ _ 0 s2 Ha2 eq_refl)).
Qed.

Lemma free_args_run args k s :
  free_args (map Some args ++ replicate (S k) None) s = Ok (tt, s <| live ::= fun n => n - zlen args |>).
Proof.
  revert s. induction args as [|a args IH]; intros s; cbn [map app free_args replicate].
  - destruct s. unfold mret, ST_ret, Prelude.set, zlen. cbn. by rewrite Z.sub_0_r.
  - rewrite bind_modify, IH. destruct s. unfold Prelude.set, zlen. cbn. do 3 f_equal. lia.
Qed.

Lemma length_pair_list ps : length (flat_map pair_list ps) = (2 * length ps)%nat.
Proof. induction ps as [|p ps IH]; [done|]. cbn. rewrite IH. lia. Qed.

(** A configuration whose entries all have arguments, from an empty array. *)
Lemma json_parse_arguments content argv0 json ps s :
  parse (cut content) = Some json -> all_arguments format_g json json ps -> (length json <= 24)%nat -> fresh s ->
  json_parse format_g parse (Some content) argv0 s =
  Ok (2 * zlen json + 1,
      with_args (cut argv0 :: flat_map pair_list ps) (49 - 2 * length json) (2 * zlen json + 1) s).
Proof.
  intros Hp Hps Hlen Hf. rewrite (json_parse_run _ _ _ _ Hp Hf). destruct Hf as [Ha Hm].
  pose proof (Forall2_length _ _ _ Hps) as Hl.
  assert (Hrun : entries_loop format_g json json 0 (with_args [cut argv0] 49 1 s) =
    Ok (Some (zlen json), with_args (cut argv0 :: flat_map pair_list ps) (49 - 2 * length json) (2 * zlen json + 1) s)).
  { rewrite <- (app_nil_r json) at 2.
    rewrite (entries_loop_run format_g json json [] ps 0 [cut argv0] (49 - 2 * length json) _ Hps).
    - cbn [entries_loop]. destruct s. unfold mret, ST_ret, with_args, Prelude.set. cbn -[Z.mul].
      by rewrite <- Z.add_assoc, (Z.add_comm 1).
    - split; [|done]. replace (2 * length json + (49 - 2 * length json))%nat with 49%nat by lia. done.
    - done.
    - unfold zlen, JSON_MAX_ARG. lia. }
  rewrite (bind_Ok _ _ _ _ _ Hrun). set (s1 := with_args _ _ _ s).
  assert (Ha1 : json_argv s1 = map Some (cut argv0 :: flat_map pair_list ps) ++ None :: replicate (48 - 2 * length json) None).
  { unfold s1. cbn -[Nat.mul Nat.sub]. do 2 f_equal. replace (49 - 2 * length json)%nat with (S (48 - 2 * length json)) by lia. done. }
  rewrite (bind_Ok _ _ _ _ _ (set_arg_mid _ _ _ _ (2 * zlen json + 1) s1 Ha1
    ltac:(unfold zlen; rewrite length_map; cbn -[Z.mul]; rewrite length_pair_list; lia))).
  unfold mret, ST_ret. do 2 f_equal. destruct s1 as [av ms lv]. unfold Prelude.set. cbn in *. by rewrite Ha1.
Qed.

(** The options of a configuration: with at most 24 entries whose names differ
    by more than case, [main] gets the program name and then the name and the text
    of each value, in order, with a [NULL] after them, and [json_deinit] frees
    every allocation. *)
Theorem config_arguments content argv0 kvts s :
  parse (cut content) = Some (map entry_of (map fst kvts)) -> (length kvts <= 24)%nat ->
  distinct (map fst kvts) -> Forall readable kvts -> mallocs s = [] ->
  exists s1 s2 s3, json_init s = Ok (0, s1) /\
    json_parse format_g parse (Some content) argv0 s1 = Ok (2 * zlen kvts + 1, s2) /\
    json_argv s2 = map Some (cut argv0 :: flat_map pair_list (map option_of kvts)) ++
      replicate (49 - 2 * length kvts) None /\
    json_deinit s2 = Ok (0, s3) /\ live s3 = live s.
Proof.
  intros Hp Hlen Hd Hr Hm. destruct (json_init_run s Hm) as (s1 & H1 & Hf & Hl1).
  pose proof (readable_arguments kvts Hd Hr) as Hargs.
  assert (Hn : length (map entry_of (map fst kvts)) = length kvts) by (by rewrite !length_map).
  pose proof (json_parse_arguments content argv0 _ _ s1 Hp Hargs ltac:(lia) Hf) as H2.
  unfold zlen in H2. rewrite Hn in H2. eexists s1, _, _. split; [done|]. split; [exact H2|]. split; [done|].
  replace (49 - 2 * length kvts)%nat with (S (48 - 2 * length kvts)) by lia.
  unfold json_deinit. rewrite bind_gets, json_argv_with_args.
  rewrite (bind_Ok _ _ _ _ _ (free_args_run _ _ _)), bind_modify. split; [done|].
  unfold with_args, Prelude.set. cbn -[Z.mul zlen]. unfold zlen. cbn -[Z.mul]. rewrite length_pair_list, length_map. lia.
Qed.

(** The guard against too many entries counts entries and not arguments: with
    25 entries the fiftieth argument is written past the end of the array. *)
Theorem config_overflow content argv0 json l e rest ps s :
  parse (cut content) = Some json -> json = l ++ e :: rest -> length l = 24%nat ->
  all_arguments format_g json l ps -> fresh s ->
  json_parse format_g parse (Some content) argv0 s = Stop OutOfBounds.
Proof.
  intros Hp Hj Hl Hps Hf. rewrite (json_parse_run _ _ _ _ Hp Hf). apply bind_Stop. rewrite Hj at 2.
  destruct Hf as [Ha Hm]. assert (Hz : zlen l = 24) by (unfold zlen; lia). pose proof (Forall2_length _ _ _ Hps) as Hlp.
  rewrite (entries_loop_run format_g json l (e :: rest) ps 0 [cut argv0] 1); try done.
  - rewrite Hz. cbn [entries_loop]. change (JSON_MAX_ARG - 1 <=? 0 + 24) with false. cbv iota.
    set (s1 := with_args _ _ _ _). assert (Hm1 : mallocs s1 = []) by done.
    set (args := [cut argv0] ++ flat_map pair_list ps).
    assert (Ha1 : json_argv s1 = map Some args ++ [None]) by done.
    assert (Hn : zlen (map Some args) = 49).
    { unfold args, zlen. rewrite length_map. cbn. rewrite length_pair_list. lia. }
    rewrite (bind_Ok _ _ _ _ _ (malloc_run s1 Hm1)). set (s1' := Prelude.set live _ s1).
    rewrite (bind_Ok _ _ _ _ _ (set_arg_mid _ _ _ _ (2 * (0 + 24) + 1) s1' Ha1 (eq_sym Hn))).
    set (s2 := Prelude.set json_argv _ _). rewrite (bind_Ok _ _ _ _ _ (malloc_run s2 Hm1)).
    apply bind_Stop, set_arg_outside. cbn -[map]. fold args. unfold zlen in *. rewrite length_app. cbn -[map] in *. lia.
  - by rewrite Hl.
  - rewrite Hz. done.
Qed.

(** The name of an argument is looked up again without regard to case: of two
    entries whose names differ only in case, such as ["-a"] and ["-A"], the second
    value is given to the first name. *)
Theorem config_case content argv0 k1 v1 t1 k2 v2 t2 s :
  parse (cut content) = Some [entry_of (k1, v1); entry_of (k2, v2)] ->
  text format_g EmptyString v1 = Some t1 -> text format_g EmptyString v2 = Some t2 ->
  lower k1 = lower k2 -> fresh s ->
  exists s', json_parse format_g parse (Some content) argv0 s = Ok (5, s') /\
    take 6 (json_argv s') = map Some [cut argv0; cut k1; t1; cut k1; t2] ++ [None].
Proof.
  intros Hp H1 H2 Hk Hf. set (json := [entry_of (k1, v1); entry_of (k2, v2)]).
  assert (Hi : forall k, lower k = lower k1 -> get_object_item json (Some k) = Some (entry_of (k1, v1))).
  { intros k Hk1. unfold json. rewrite get_object_item_cons. unfold names. cbn. by rewrite bool_decide_eq_true_2. }
  assert (Hps : all_arguments format_g json json [(cut k1, t1); (cut k1, t2)]).
  { repeat constructor; unfold arguments; cbn [entry_of key value fst snd]; rewrite Hi by done; cbn; by rewrite ?H1, ?H2. }
  rewrite (json_parse_arguments content argv0 json _ s Hp Hps ltac:(cbn; lia) Hf). eexists. split; [done|]. done.
Qed.
End configuration.

(** ** Witnesses *)

Definition no_number (x : spec_float) : string := "0".

Definition start : jstate := {| json_argv := []; mallocs := []; live := 0 |}.

Definition opened : jstate := {| json_argv := replicate 50 None; mallocs := []; live := 1 |}.

(** The [config.json] of the repository. *)
Definition shipped_config : list (string * jvalue * string) :=
  [("-l", VString "3", "3"); ("-i", VString "1", "1"); ("-a", VString "1.0", "1.0")]%string.

Lemma config_arguments_witness :
  exists s2, json_parse no_number (fun _ => Some (map entry_of (map fst shipped_config))) (Some "{}"%string) "dpf" opened =
      Ok (7, s2) /\
    take 8 (json_argv s2) = map Some ["dpf"; "-l"; "3"; "-i"; "1"; "-a"; "1.0"]%string ++ [None].
Proof.
  destruct (config_arguments no_number (fun _ => Some (map entry_of (map fst shipped_config))) "{}" "dpf" shipped_config start)
    as (s1 & s2 & s3 & H1 & H2 & H3 & _).
  - reflexivity.
  - cbn. lia.
  - unfold distinct. apply (bool_decide_unpack _). vm_compute. exact I.
  - repeat constructor.
  - reflexivity.
  - vm_compute in H1. injection H1 as <-. exists s2. split; [exact H2|]. rewrite H3. reflexivity.
Defined.

(** A configuration of 25 entries. *)
Definition long_config : list entry := replicate 25 (entry_of ("-p"%string, VBool 1)).

Lemma config_overflow_witness :
  json_parse no_number (fun _ => Some long_config) (Some "{}"%string) "dpf" opened = Stop OutOfBounds.
Proof.
  apply (config_overflow no_number (fun _ => Some long_config) "{}" "dpf" long_config
    (replicate 24 (entry_of ("-p"%string, VBool 1))) (entry_of ("-p"%string, VBool 1)) []
    (replicate 24 ("-p"%string, "true"%string))); try reflexivity.
  - cbn [replicate]. repeat constructor.
  - by split.
Defined.

Lemma config_case_witness :
  exists s', json_parse no_number
      (fun _ => Some [entry_of ("-a", VString "1.0"); entry_of ("-A", VString "2")]%string) (Some "{}"%string) "dpf" opened =
      Ok (5, s') /\
    take 6 (json_argv s') = map Some ["dpf"; "-a"; "1.0"; "-a"; "2"]%string ++ [None].
Proof.
  destruct (config_case no_number (fun _ => Some [entry_of ("-a", VString "1.0"); entry_of ("-A", VString "2")]%string)
    "{}" "dpf" "-a" (VString "1.0") "1.0" "-A" (VString "2") "2" opened) as (s' & Hrun & Ha); try reflexivity.
  - by split.
  - exists s'. split; [exact Hrun|exact Ha].
Defined.
