(* ===== verification/Getopt.v ===== *)
(** * Command lines ([getopt_long])

    [main.c] and [tools/cli/dpfctrl.c] take their options from [getopt_long] of
    the C library, each with a string of letters and a table of long names
    ([OptionTable]).  The model follows the manual of the function: arguments
    that are no options are passed over, ["--"] ends the options, letters can
    share a word, long names can be abbreviated as long as they stay unambiguous,
    and the argument of an option is the rest of its word or the next one.  The
    lemmas say how it reads the pieces of a command line, for any table that
    satisfies [OptionLaws]; the table of [main.c] and its usage follow, and
    [Settings] and [Dpfctrl] build on them. *)

From Stdlib Require Import Ascii.
From S2P Require Import Prelude.

(** ** Tables of options *)

Record long_option := { name : string; has_arg : bool; val : ascii }.

Definition required_argument : bool := true.

Definition no_argument : bool := false.

Class OptionTable := { optstring : string; long_options : list long_option }.

(** ** [getopt_long] *)

(** Where the scan is: the letters left in the current word ([nextchar]) and the
    words after it. *)
Record scan := { nextchar : string; words : list string }.

Definition at_words (ws : list string) : scan := {| nextchar := EmptyString; words := ws |}.

(** An answer: the letter and [optarg]; an option without an argument has the
    empty string for it, which [main] does not read. *)
Definition answer : Type := ascii * string.

Definition unknown : answer := ("?"%char, EmptyString).

Section getopt.
Context {OT : OptionTable}.

(** What follows the letter in the option string: [None] for a letter that is
    not there, [Some true] when it takes an argument. *)
Fixpoint letter_in (opts : string) (c : ascii) : option bool :=
  match opts with
  | EmptyString => None
  | String o opts' =>
      if bool_decide (o = c) then Some (match opts' with String ":"%char _ => true | _ => false end)
      else letter_in opts' c
  end.

Definition letter (c : ascii) : option bool :=
  if bool_decide (c = ":"%char \/ c = ";"%char) then None else letter_in optstring c.

Definition short_option (c : ascii) (more : string) (rest : list string) : answer * scan :=
  match letter c with
  | None => (unknown, {| nextchar := more; words := rest |})
  | Some false => ((c, EmptyString), {| nextchar := more; words := rest |})
  | Some true =>
      match more, rest with
      | String _ _, _ => ((c, more), at_words rest)
      | EmptyString, [] => (unknown, at_words [])
      | EmptyString, w :: rest' => ((c, w), at_words rest')
      end
  end.

(** A long name: exact, or else the beginning of one name only. *)
Definition find_long (n : string) : option long_option :=
  match filter (fun o => name o = n) long_options with
  | o :: _ => Some o
  | [] =>
      match filter (fun o => String.prefix n (name o) = true) long_options with
      | [o] => Some o
      | _ => None
      end
  end.

(** The name and, after ['='], the argument in a long option. *)
Fixpoint split_eq (s : string) : string * option string :=
  match s with
  | EmptyString => (EmptyString, None)
  | String c s' =>
      if bool_decide (c = "="%char) then (EmptyString, Some s')
      else let '(n, a) := split_eq s' in (String c n, a)
  end.

Definition long_answer (body : string) (rest : list string) : answer * scan :=
  let '(n, attached) := split_eq body in
  match find_long n with
  | None => (unknown, at_words rest)
  | Some o =>
      match has_arg o, attached, rest with
      | true, Some a, _ => ((val o, a), at_words rest)
      | true, None, w :: rest' => ((val o, w), at_words rest')
      | true, None, [] => (unknown, at_words [])
      | false, None, _ => ((val o, EmptyString), at_words rest)
      | false, Some _, _ => (unknown, at_words rest)
      end
  end.

(** A word that is an option: a dash and something after it. *)
Definition is_option (w : string) : bool :=
  match w with String "-"%char (String _ _) => true | _ => false end.

(** Words that are none are passed over. *)
Fixpoint next_option (ws : list string) : list string :=
  match ws with
  | [] => []
  | w :: ws' => if is_option w then ws else next_option ws'
  end.

(** A call: [None] for -1, the end of the options. *)
Definition getopt_long (g : scan) : option answer * scan :=
  match nextchar g with
  | String c more => let '(a, g') := short_option c more (words g) in (Some a, g')
  | EmptyString =>
      match next_option (words g) with
      | String "-"%char (String "-"%char EmptyString) :: rest => (None, at_words rest)
      | String "-"%char (String "-"%char body) :: rest => let '(a, g') := long_answer body rest in (Some a, g')
      | String _ (String c more) :: rest => let '(a, g') := short_option c more rest in (Some a, g')
      | _ => (None, at_words [])
      end
  end.

(** The answers of at most [fuel] calls up to the first -1. *)
Fixpoint answers (fuel : nat) (g : scan) : list answer :=
  match fuel with
  | O => []
  | S fuel =>
      match getopt_long g with
      | (None, _) => []
      | (Some a, g') => a :: answers fuel g'
      end
  end.

(** Every answer uses up a letter or a word, so this many calls are enough
    ([answers_enough]). *)
Definition scan_size (g : scan) : nat := String.length (nextchar g) + sum_list_with (fun w => S (String.length w)) (words g).

(** The options of a command line, [argv] without the name of the program. *)
Definition options (args : list string) : list answer :=
  answers (S (scan_size (at_words args))) (at_words args).
End getopt.

(** What a table needs so that no word has two readings: a dash is no letter. *)
Class OptionLaws (OT : OptionTable) : Prop := {
  dash_no_letter : letter "-"%char = None }.

(** ** Termination *)

Section runs.
Context {OT : OptionTable}.

Definition words_size (ws : list string) : nat := sum_list_with (fun w => S (String.length w)) ws.

Lemma next_option_size ws : (words_size (next_option ws) <= words_size ws)%nat.
Proof. induction ws as [|w ws IH]; [done|]. cbn. destruct (is_option w); [done|]. unfold words_size in *. lia. Qed.

Lemma short_option_shrinks c more rest a g :
  short_option c more rest = (a, g) -> (scan_size g <= String.length more + words_size rest)%nat.
Proof.
  unfold short_option, scan_size, words_size. intros H.
  destruct (letter c) as [[]|]; [destruct more, rest|..]; injection H as <- <-; cbn; lia.
Qed.

Lemma long_answer_shrinks body rest a g : long_answer body rest = (a, g) -> (scan_size g <= words_size rest)%nat.
Proof.
  unfold long_answer, scan_size, words_size. destruct (split_eq body) as [n at_]. intros H.
  destruct (find_long n) as [o|]; [destruct (has_arg o), at_, rest|]; injection H as <- <-; cbn; lia.
Qed.

(** Every answer shortens what is left. *)
Lemma getopt_long_shrinks g a g' : getopt_long g = (Some a, g') -> (scan_size g' < scan_size g)%nat.
Proof.
  destruct g as [nc ws]. unfold getopt_long. cbn [nextchar words]. unfold scan_size at 2. cbn [nextchar words].
  fold (words_size ws). destruct nc as [|c more].
  - pose proof (next_option_size ws) as Hn. destruct (next_option ws) as [|w rest]; [done|].
    assert (Hw : (words_size (w :: rest) = S (String.length w) + words_size rest)%nat) by done. rewrite Hw in Hn. clear Hw.
    destruct w as [|c w]; [done|]. destruct w as [|c' more]; [by destruct c as [[] [] [] [] [] [] [] []]|].
    assert (Hshort : forall g', (let '(a, g') := short_option c' more rest in (Some a, g')) = (Some a, g') ->
      (scan_size g' < 0 + words_size ws)%nat).
    { intros g1. destruct (short_option c' more rest) as [a1 g2] eqn:Hso. intros [= -> ->].
      apply short_option_shrinks in Hso. cbn [String.length] in Hn. lia. }
    assert (Hlong : forall g', (let '(a, g') := long_answer more rest in (Some a, g')) = (Some a, g') ->
      (scan_size g' < 0 + words_size ws)%nat).
    { intros g1. destruct (long_answer more rest) as [a1 g2] eqn:Hso. intros [= -> ->].
      apply long_answer_shrinks in Hso. cbn [String.length] in Hn. lia. }
    destruct (decide (c = "-"%char /\ c' = "-"%char)) as [[-> ->]|Hne].
    + destruct more; [done|]. apply Hlong.
    + intros H. apply Hshort. rewrite <- H. clear -Hne.
      destruct c as [[] [] [] [] [] [] [] []]; try done. destruct c' as [[] [] [] [] [] [] [] []]; try done. by destruct Hne.
  - destruct (short_option c more ws) as [a1 g2] eqn:Hso. intros [= -> ->].
    apply short_option_shrinks in Hso. cbn. lia.
Qed.

(** More calls than [scan_size] give no further answer. *)
Lemma answers_enough g fuel fuel' :
  (scan_size g < fuel)%nat -> (scan_size g < fuel')%nat -> answers fuel g = answers fuel' g.
Proof.
  revert g fuel'. induction fuel as [|fuel IH]; intros g fuel' H1 H2; [lia|]. destruct fuel' as [|fuel']; [lia|].
  cbn. destruct (getopt_long g) as [[a|] g'] eqn:Hg; [|done]. apply getopt_long_shrinks in Hg. f_equal. apply IH; lia.
Qed.

(** The answers from a place in the command line. *)
Definition answers_from (g : scan) : list answer := answers (S (scan_size g)) g.

Lemma answers_from_step g :
  answers_from g = match getopt_long g with (None, _) => [] | (Some a, g') => a :: answers_from g' end.
Proof.
  unfold answers_from at 1. cbn [answers]. destruct (getopt_long g) as [[a|] g'] eqn:Hg; [|done].
  apply getopt_long_shrinks in Hg. f_equal. apply answers_enough; lia.
Qed.

End runs.

(** ** What command lines mean *)

(** A piece of a command line. *)
Inductive piece :=
  | Plain (w : string)                                   (** a word that is no option *)
  | Flags (c : ascii) (cs : list ascii)                  (** [-tk]: letters without arguments *)
  | Letter (cs : list ascii) (c : ascii) (arg : string)  (** [-tc 0-3]: the last one with an argument *)
  | Joined (cs : list ascii) (c : ascii) (arg : string)  (** [-tc0-3] *)
  | LongFlag (n : string)                                (** [--kernelmode] *)
  | LongArg (n arg : string)                             (** [--core 0-3] *)
  | LongEq (n arg : string).                             (** [--core=0-3] *)

Fixpoint letters (cs : list ascii) (tail : string) : string :=
  match cs with [] => tail | c :: cs => String c (letters cs tail) end.

Definition dash (s : string) : string := String "-"%char s.

Definition print_piece (p : piece) : list string :=
  match p with
  | Plain w => [w]
  | Flags c cs => [dash (letters (c :: cs) EmptyString)]
  | Letter cs c arg => [dash (letters cs (String c EmptyString)); arg]
  | Joined cs c arg => [dash (letters cs (String c arg))]
  | LongFlag n => [dash (dash n)]
  | LongArg n arg => [dash (dash n); arg]
  | LongEq n arg => [dash (dash (n ++ String "="%char arg))]
  end.

Definition flag (c : ascii) : answer := (c, EmptyString).

Section meaning.
Context {OT : OptionTable}.

Definition long_val (n : string) : ascii := default "?"%char (val <$> find_long n).

Definition meaning (p : piece) : list answer :=
  match p with
  | Plain _ => []
  | Flags c cs => map flag (c :: cs)
  | Letter cs c arg | Joined cs c arg => map flag cs ++ [(c, arg)]
  | LongFlag n => [flag (long_val n)]
  | LongArg n arg | LongEq n arg => [(long_val n, arg)]
  end.

Fixpoint no_eq (s : string) : Prop :=
  match s with EmptyString => True | String c s' => c <> "="%char /\ no_eq s' end.

(** A name that stands for one long option, with or without an argument. *)
Definition long_name (n : string) (arg : bool) : Prop :=
  n <> EmptyString /\ no_eq n /\ (has_arg <$> find_long n) = Some arg.

Definition piece_ok (p : piece) : Prop :=
  match p with
  | Plain w => is_option w = false
  | Flags c cs => Forall (fun c => letter c = Some false) (c :: cs)
  | Letter cs c _ => Forall (fun c => letter c = Some false) cs /\ letter c = Some true
  | Joined cs c arg => Forall (fun c => letter c = Some false) cs /\ letter c = Some true /\ arg <> EmptyString
  | LongFlag n => long_name n false
  | LongArg n _ | LongEq n _ => long_name n true
  end.

(** Where a command line can end: with its words, or with ["--"] and any words. *)
Definition ends (tail : list string) : Prop := tail = [] \/ exists ws, tail = "--"%string :: ws.

Lemma skip_plain w ws : is_option w = false -> answers_from (at_words (w :: ws)) = answers_from (at_words ws).
Proof.
  intros Hw. rewrite !answers_from_step. unfold getopt_long. cbn [nextchar at_words words next_option]. by rewrite Hw.
Qed.

Context {HO : OptionLaws OT}.

Lemma letter_not_dash c b : letter c = Some b -> c <> "-"%char.
Proof. intros H ->. by rewrite dash_no_letter in H. Qed.

(** A word that starts with a letter continues inside of that word. *)
Lemma enter_word c more ws b :
  letter c = Some b -> answers_from (at_words (dash (String c more) :: ws)) =
  answers_from {| nextchar := String c more; words := ws |}.
Proof.
  intros Hc%letter_not_dash. rewrite !answers_from_step. unfold getopt_long. cbn [nextchar at_words words next_option dash is_option].
  destruct c as [[] [] [] [] [] [] [] []]; done.
Qed.

Lemma flags_run cs tail ws :
  Forall (fun c => letter c = Some false) cs ->
  answers_from {| nextchar := letters cs tail; words := ws |} =
  map flag cs ++ answers_from {| nextchar := tail; words := ws |}.
Proof.
  induction 1 as [|c cs Hc _ IH]; [done|]. cbn [letters map app]. rewrite answers_from_step.
  unfold getopt_long, short_option. cbn [nextchar words]. by rewrite Hc, IH.
Qed.

Lemma split_eq_name n : no_eq n -> split_eq n = (n, None).
Proof. induction n as [|c n IH]; [done|]. intros [Hc Hn]. cbn. case_bool_decide; [done|]. by rewrite IH. Qed.

Lemma split_eq_arg n arg : no_eq n -> split_eq (n ++ String "="%char arg) = (n, Some arg).
Proof.
  induction n as [|c n IH]; [done|]. intros [Hc Hn].
  change (split_eq (String c (n ++ String "="%char arg)) = (String c n, Some arg)). cbn [split_eq]. case_bool_decide; [done|]. by rewrite IH.
Qed.

Lemma long_run body ws :
  body <> EmptyString ->
  answers_from (at_words (dash (dash body) :: ws)) =
  (long_answer body ws).1 :: answers_from (long_answer body ws).2.
Proof.
  intros Hb. rewrite answers_from_step. unfold getopt_long. cbn [nextchar at_words words next_option dash is_option].
  destruct body as [|c body]; [done|]. by destruct (long_answer _ ws).
Qed.

Lemma long_name_found n b :
  long_name n b -> n <> EmptyString /\ no_eq n /\ exists o, find_long n = Some o /\ has_arg o = b /\ long_val n = val o.
Proof.
  intros (H1 & H2 & H3). split; [done|]. split; [done|]. unfold long_val.
  destruct (find_long n) as [o|]; [|done]. injection H3 as <-. by exists o.
Qed.

(** The words of a piece are read as its meaning. *)
Lemma piece_run p ws :
  piece_ok p -> answers_from (at_words (print_piece p ++ ws)) = meaning p ++ answers_from (at_words ws).
Proof.
  destruct p as [w|c cs|cs c arg|cs c arg|n|n arg|n arg]; cbn [piece_ok print_piece meaning app].
  - apply skip_plain.
  - intros Hcs. pose proof Hcs as [Hc _]%Forall_cons. cbn [letters]. rewrite (enter_word _ _ _ _ Hc).
    change (String c (letters cs "")) with (letters (c :: cs) ""). by rewrite flags_run.
  - intros [Hcs Hc]. assert (He : exists c' more b, letters cs (String c "") = String c' more /\ letter c' = Some b).
    { destruct Hcs as [|c' cs' Hc']; cbn; eauto. }
    destruct He as (c' & more & b & He & Hc'). rewrite He, (enter_word _ _ _ _ Hc'), <- He, flags_run by done.
    rewrite <- app_assoc. f_equal. rewrite answers_from_step. unfold getopt_long, short_option. cbn [nextchar words]. by rewrite Hc.
  - intros (Hcs & Hc & Harg). assert (He : exists c' more b, letters cs (String c arg) = String c' more /\ letter c' = Some b).
    { destruct Hcs as [|c' cs' Hc']; cbn; eauto. }
    destruct He as (c' & more & b & He & Hc'). rewrite He, (enter_word _ _ _ _ Hc'), <- He, flags_run by done.
    rewrite <- app_assoc. f_equal. rewrite answers_from_step. unfold getopt_long, short_option. cbn [nextchar words]. rewrite Hc.
    by destruct arg.
  - intros (Hn & He & o & Ho & Ha & ->)%long_name_found. rewrite long_run by done.
    unfold long_answer. by rewrite split_eq_name, Ho, Ha.
  - intros (Hn & He & o & Ho & Ha & ->)%long_name_found. rewrite long_run by done.
    unfold long_answer. by rewrite split_eq_name, Ho, Ha.
  - intros (Hn & He & o & Ho & Ha & ->)%long_name_found. rewrite long_run by (by destruct n).
    unfold long_answer. by rewrite split_eq_arg, Ho, Ha.
Qed.

Lemma options_end tail : ends tail -> answers_from (at_words tail) = [].
Proof. intros [->|[ws ->]]; by rewrite answers_from_step. Qed.

Lemma pieces_run ps tail :
  Forall piece_ok ps -> ends tail -> options (flat_map print_piece ps ++ tail) = flat_map meaning ps.
Proof.
  intros Hps Ht. change (answers_from (at_words (flat_map print_piece ps ++ tail)) = flat_map meaning ps).
  induction Hps as [|p ps Hp _ IH]; cbn [flat_map app]; [by apply options_end|].
  by rewrite <- app_assoc, piece_run, IH.
Qed.

End meaning.

(** ** The options of [main.c] *)

Definition dpf_options : OptionTable :=
  {| optstring := "c:d:tD:i:A:a:l:w:ph:kPm";
     long_options :=
       [ {| name := "core"; has_arg := required_argument; val := "c" |};
         {| name := "ddrbw-auto"; has_arg := required_argument; val := "d" |};
         {| name := "ddrbw-test"; has_arg := no_argument; val := "t" |};
         {| name := "ddrbw-set"; has_arg := required_argument; val := "D" |};
         {| name := "intervall"; has_arg := required_argument; val := "i" |};
         {| name := "alg"; has_arg := required_argument; val := "A" |};
         {| name := "aggr"; has_arg := required_argument; val := "a" |};
         {| name := "log"; has_arg := required_argument; val := "l" |};
         {| name := "weight"; has_arg := required_argument; val := "w" |};
         {| name := "kernelmode"; has_arg := no_argument; val := "k" |};
         {| name := "perf"; has_arg := no_argument; val := "p" |};
         {| name := "msr"; has_arg := no_argument; val := "m" |};
         {| name := "pmu"; has_arg := no_argument; val := "P" |};
         {| name := "help"; has_arg := no_argument; val := "h" |} ] |}.

#[export] Instance dpf_option_laws : OptionLaws dpf_options.
Proof. by split. Qed.

(** The lines of the usage. *)
Definition print_usage : list string :=
  [ "";
    "*** System settings:";
    "Default is to auto-detect Atom E-cores and both Hybrid Clients and E-core servers are supported.";
    "The --core argument can be used to direct dPF on only a specific set of cores.";
    " -c --core - set cores to use dPF. Starting from core id 0, eg. 8-15 for the 9th to 16th core.";
    "   --core 8-15";
    "";
    "DDR Bandwith is by default auto-detected based on DMI/BIOSinformation and target is set to 70% of";
    "theorethical max bandwidth which is typically the achivable bandwidth.";
    " -d --ddrbw-auto - set DDR bandwith from DMI/BIOS to a specificpercentage of max. Default is 0.70 (70%).";
    "   --ddrbw-auto 0.65";
    " -t --ddrbw-test - set DDR bandwidth by performing a quick bandwidth test.";
    "   --ddrbw-test";
    "   Note that this gives a short but high load on the memory subsystem.";
    " -D --ddrbw-set - set DDR bandwidth target in MB/s. This shouldbe the max achievable.";
    "   --ddrbw-set 46000";
    "The -w or --weight argument can be used to set the priority level of each core.";
    " -w --weight - set core priorities by providing a comma-separated list of integers.";
    "   Core priority determines the importance of each core's workload. A higher value means";
    "   the core is given more CPU time relative to lower-priority cores. Valid values range from";
    "   0 to 99, where 99 is the highest priority and 0 is the lowest.";
    "   The number of values should match the number of active cores. If fewer values are provided,";
    "   the remaining cores will default to a priority of 50.";
    "   --weight 55,43,99,80";
    "";
    "*** Algorithm tuning:";
    " -i --intervall - update interval in seconds (1-60), default: 1";
    "   --intervall 2";
    " -A --alg - set tune algorithm, default 0";
    "   --alg 2";
    " -p --perf - use perf events for PMU monitoring (default: raw PMU)";
    "  --perf";
    " -a --aggr - set retune aggressiveness (0.1 - 5.0), default 1.0";
    "   --aggr 2.0";
    "";
    "*** Misc:";
    " -l --log - set loglevel 1 - 5 (5=debug), default: 3";
    "   --log 3";
    " -h --help - lists these arguments" ]%string.

(** Where a line describes an option, its letter and its name. *)
Definition described (line : string) : option (ascii * string) :=
  match line with
  | String " "%char (String "-"%char (String c (String " "%char (String "-"%char (String "-"%char rest))))) =>
      Some (c, (fix word s := match s with
                              | EmptyString => EmptyString
                              | String d s' => if bool_decide (d = " "%char) then EmptyString else String d (word s')
                              end) rest)
  | _ => None
  end.

(** The usage describes eleven options, each under the letter and the name the
    table has for it; the options [--kernelmode], [--msr] and [--pmu] are not in
    it. *)
Theorem usage_describes :
  Forall (fun d => exists o, find_long (OT := dpf_options) (snd d) = Some o /\ name o = snd d /\ val o = fst d)
    (omap described print_usage) /\
  map name (filter (fun o => (val o, name o) ∉ omap described print_usage) (long_options (OptionTable := dpf_options))) =
    ["kernelmode"; "msr"; "pmu"]%string.
Proof.
  split; [|reflexivity]. apply Forall_forall. intros d Hd. change (omap described print_usage) with
    [("c"%char, "core"); ("d"%char, "ddrbw-auto"); ("t"%char, "ddrbw-test"); ("D"%char, "ddrbw-set"); ("w"%char, "weight");
     ("i"%char, "intervall"); ("A"%char, "alg"); ("p"%char, "perf"); ("a"%char, "aggr"); ("l"%char, "log"); ("h"%char, "help")]%string in Hd.
  repeat (apply elem_of_cons in Hd as [->|Hd]; [eexists; split; [vm_compute; reflexivity|by split]|]). by apply not_elem_of_nil in Hd.
Qed.

(** The letter [h] wants an argument, unlike the long name: ["-h"] alone is an
    error to [getopt_long] (and the usage appears for that reason), ["-h"] with
    a word after it takes the word. *)
Theorem short_help args :
  options (OT := dpf_options) ["-h"%string] = [unknown] /\ options (OT := dpf_options) ["--help"%string] = [flag "h"%char] /\
  options (OT := dpf_options) ("-h" :: "--kernelmode" :: args)%string = ("h"%char, "--kernelmode"%string) :: options (OT := dpf_options) args.
Proof.
  split; [reflexivity|]. split; [reflexivity|].
  exact (piece_run (OT := dpf_options) (Letter [] "h"%char "--kernelmode"%string) args (conj (Forall_nil_2 _) eq_refl)).
Qed.
