(* ===== verification/Main.v ===== *)
(** * The main program ([main.c])

    Options, core priorities, the choice of cores and of the bandwidth target,
    the set-up of the counters, and the kernel mode with its key loop, its
    terminal settings and interrupts.  The options come from [Getopt]; [strtof]
    of the C library is a parameter.  The tuning threads are in [Sync] and
    [Threads]; [Program] puts the parts of [main] together. *)

From Stdlib Require Import Ascii.
From S2P Require Import Prelude Getopt Floats SysDetect PerfEvents Msr2Settings KState KPmuDdr KApi MsrDev RdtMbm PmuDdr UserApi UState Primitive.

Definition MAX_THREADS : Z := 1024.

Definition DEFAULT_PRIORITY : Z := 50.

Definition MIN_PRIORITY : Z := 0.

Definition MAX_PRIORITY : Z := 99.

Definition MAX_WEIGHT_STR_LEN : Z := MAX_THREADS * 3.

Definition DDR_BW_NOT_SET : Z := -1.

Definition DDR_BW_AUTOTEST : Z := -2.

(** ** State *)

(** The globals of [main.c] and the locals of [main], with the states of the
    parts it calls. *)
Record mainst := {
  g_core_first : Z; g_core_last : Z;
  g_ddr_bw_target : Z; ddr_bw_auto_utilization : spec_float;
  g_time_intervall : spec_float; g_aggr : spec_float; g_tunealg : Z;
  kernel_mode : Z; loglevel : Z; weight_string : string;
  g_pmu_method : Z; g_num_events : Z; event_attrs : list perf_event_attr;
  enable_pmu_msg : Z; enable_msr_msg : Z;
  core_priority : list Z; core_count : Z;
  g_rdt_enabled : Z; g_quitflag : Z;
  tty : option Z  (** the local modes ([c_lflag]) of the terminal on standard input; [None] when it is none *);
  aff : affinity; perf_events : pstate; ddr_counters : dstate; msrs : proc; api : client }.

#[export] Instance mainst_settable : Settable mainst := fun r =>
  {| g_core_first := g_core_first r; g_core_last := g_core_last r; g_ddr_bw_target := g_ddr_bw_target r;
     ddr_bw_auto_utilization := ddr_bw_auto_utilization r; g_time_intervall := g_time_intervall r;
     g_aggr := g_aggr r; g_tunealg := g_tunealg r; kernel_mode := kernel_mode r; loglevel := loglevel r;
     weight_string := weight_string r; g_pmu_method := g_pmu_method r; g_num_events := g_num_events r;
     event_attrs := event_attrs r; enable_pmu_msg := enable_pmu_msg r; enable_msr_msg := enable_msr_msg r;
     core_priority := core_priority r; core_count := core_count r; g_rdt_enabled := g_rdt_enabled r;
     g_quitflag := g_quitflag r; tty := tty r; aff := aff r; perf_events := perf_events r; ddr_counters := ddr_counters r; msrs := msrs r; api := api r |}.

Abbreviation W := (ST mainst).

Definition active (s : mainst) : Z := g_core_last s - g_core_first s + 1.

Definition on_aff {A} (m : ST affinity A) : W A := zoom aff (fun x s => s <| aff := x |>) m.

Definition on_perf {A} (m : ST pstate A) : W A := zoom perf_events (fun x s => s <| perf_events := x |>) m.

Definition on_ddr {A} (m : ST dstate A) : W A := zoom ddr_counters (fun x s => s <| ddr_counters := x |>) m.

Definition on_msrs {A} (m : ST proc A) : W A := zoom msrs (fun x s => s <| msrs := x |>) m.

Definition on_api {A} (m : ST client A) : W A := zoom api (fun x s => s <| api := x |>) m.

(** ** Strings *)

Definition dec_digit (c : Ascii.ascii) : option Z :=
  let n := Z.of_nat (Ascii.nat_of_ascii c) in
  if (48 <=? n) && (n <=? 57) then Some (n - 48) else None.

(** The digits at the head of a string: their value and what follows. *)
Fixpoint dec_value (s : string) (acc : Z) : Z * string :=
  match s with
  | EmptyString => (acc, s)
  | String c s' =>
      match dec_digit c with
      | Some d => dec_value s' (10 * acc + d)
      | None => (acc, s)
      end
  end.

(** [strtol(s, &endptr, 10)]: the value, saturated to 64 bits, and [endptr]. *)
Definition strtol (s : string) : Z * string :=
  let '(neg, s1) := take_sign (skip_spaces s) in
  let '(v, e) := dec_value s1 0 in
  match s1 with
  | String c _ =>
      match dec_digit c with
      | Some _ => (if neg then Z.max (- 2 ^ 63) (- v) else Z.min (2 ^ 63 - 1) v, e)
      | None => (0, s)
      end
  | EmptyString => (0, s)
  end.

(** [strtol(s, 0, 10)] stored in an [int]. *)
Definition atoi (s : string) : Z := s32 (fst (strtol s)).

(** The tokens [strtok] finds between commas; empty ones are skipped. *)
Fixpoint split_commas (s cur : string) : list string :=
  let emit l := if bool_decide (cur = EmptyString) then l else cur :: l in
  match s with
  | EmptyString => emit []
  | String ","%char s' => emit (split_commas s' EmptyString)
  | String c s' => split_commas s' (cur ++ String c EmptyString)
  end.

Definition tokens (s : string) : list string := split_commas s EmptyString.

(** What follows the first ['-'], when there is one. *)
Fixpoint after_dash (s : string) : option string :=
  match s with
  | EmptyString => None
  | String "-"%char s' => Some s'
  | String _ s' => after_dash s'
  end.

(** ** Core priorities *)

Definition set_priority (p : Z) : W unit :=
  s ← get_state;
  check_index (core_priority s) (core_count s) ;;
  modify (fun s => s <| core_priority ::= fun l => aset l (core_count s) p |> <| core_count ::= fun n => n + 1 |>).

(** The loop over the tokens: [false] when the function returns -1 in it. *)
Fixpoint weights_loop (ts : list string) : W bool :=
  match ts with
  | [] => mret true
  | t :: ts' =>
      s ← get_state;
      if core_count s =? active s then mret true else
      let '(v, endptr) := strtol t in
      let priority := s32 v in
      if negb (bool_decide (endptr = EmptyString)) then mret false
      else if (priority <? MIN_PRIORITY) || (MAX_PRIORITY <? priority) then mret false
      else set_priority priority ;; weights_loop ts'
  end.

Definition parse_weights (weights_args : string) : W Z :=
  ok ← weights_loop (tokens weights_args);
  if negb ok then mret (-1) else
  s ← get_state;
  for_each (seqZ 0 (active s - core_count s)) (fun _ => set_priority DEFAULT_PRIORITY) ;;
  mret 0.

(** ** Options *)

Section main.
Context (strtof : string -> spec_float).

Definition MIN_INTERVALL : spec_float := to_f32 (literal 1 10000).

Definition MAX_INTERVALL : spec_float := f32_of_Z 60.

Definition clamp_intervall (x : spec_float) : spec_float :=
  let x := if SFltb x MIN_INTERVALL then MIN_INTERVALL else x in
  if SFltb MAX_INTERVALL x then MAX_INTERVALL else x.

(** [log_setlevel(level)] of [log.c]: a level outside of 1 to 5 is ignored. *)
Definition log_setlevel (level : Z) : W Z :=
  if (5 <? level) || (level <? 1) then mret 0
  else modify (fun s => s <| loglevel := level |>) ;; mret level.

(** One round of the option loop: [Some r] when [main] returns [r]. *)
Definition apply_option (c : Ascii.ascii) (optarg : string) : W (option Z) :=
  match c with
  | "c"%char =>
      let first := atoi optarg in
      let last := match after_dash optarg with None => first | Some s => atoi s end in
      modify (fun s => s <| g_core_first := first |> <| g_core_last := last |>) ;;
      mret (if MAX_THREADS <? s32 (last - first) then Some (-1) else None)
  | "d"%char => modify (fun s => s <| ddr_bw_auto_utilization := strtof optarg |>) ;; mret None
  | "t"%char => modify (fun s => s <| g_ddr_bw_target := DDR_BW_AUTOTEST |>) ;; mret None
  | "D"%char => modify (fun s => s <| g_ddr_bw_target := atoi optarg |>) ;; mret None
  | "i"%char => modify (fun s => s <| g_time_intervall := clamp_intervall (strtof optarg) |>) ;; mret None
  | "A"%char => modify (fun s => s <| g_tunealg := atoi optarg |>) ;; mret None
  | "a"%char => modify (fun s => s <| g_aggr := strtof optarg |>) ;; mret None
  | "k"%char => modify (fun s => s <| kernel_mode := 1 |>) ;; mret None
  | "l"%char => log_setlevel (atoi optarg) ;; mret None
  | "w"%char =>
      modify (fun s => s <| weight_string := String.substring 0 (Z.to_nat (MAX_WEIGHT_STR_LEN - 1)) optarg |>) ;;
      mret None
  | "p"%char =>
      modify (fun s => s <| g_pmu_method := PMU_PERF |>) ;;
      attrs ← gets event_attrs;
      r ← on_perf (perf_configure_events attrs);
      modify (fun s => s <| event_attrs := fst r |> <| g_num_events := snd r |>) ;;
      mret None
  | "m"%char => modify (fun s => s <| enable_msr_msg := 1 |>) ;; mret None
  | "P"%char => modify (fun s => s <| enable_pmu_msg := 1 |>) ;; mret None
  | "?"%char => mret (Some 0)
  | "h"%char => mret (Some 0)
  | _ => mret (Some (-1))
  end.

Fixpoint apply_options (opts : list (Ascii.ascii * string)) : W (option Z) :=
  match opts with
  | [] => mret None
  | (c, optarg) :: opts' =>
      r ← apply_option c optarg;
      match r with Some r => mret (Some r) | None => apply_options opts' end
  end.

(** The option loop of [main] itself, for at most [fuel] rounds. *)
Fixpoint option_loop (fuel : nat) (g : scan) : W (option Z) :=
  match fuel with
  | O => mret None
  | S fuel =>
      match getopt_long (OT := dpf_options) g with
      | (None, _) => mret None
      | (Some (c, optarg), g') =>
          r ← apply_option c optarg;
          match r with Some r => mret (Some r) | None => option_loop fuel g' end
      end
  end.

(** ** Set-up *)

(** The machine: CPUID, the number of processors, the DMI file, the stack of
    [dmi_get_bandwidth]. *)
Context (eax : Z -> Z) (edx available_cores : Z) (dmi_file : option (list Z))
  (dmi_stack : list (gmap string Z)) (dmi_header : Z * Z).
Context (cpuid : Z -> Z -> cpuid_out) (nprocessors_onln : Z).
Context (pci_found : option (list pci_dev)).
Context {L : Linux}.

Definition choose_cores : W (option Z) :=
  s ← get_state;
  if (g_core_first s =? -1) || (g_core_last s =? -1) then
    e ← on_aff (get_efficient_core_ids eax edx available_cores);
    modify (fun s => s <| g_core_first := first_efficiency_core e |> <| g_core_last := last_efficiency_core e |>) ;;
    mret (if (first_efficiency_core e =? -1) || (last_efficiency_core e =? -1) then Some (-1) else None)
  else mret None.

Definition set_weights : W (option Z) :=
  s ← get_state;
  if negb (bool_decide (weight_string s = EmptyString)) then
    r ← parse_weights (weight_string s);
    if r <? 0 then mret (Some (-1)) else
    s ← get_state;
    if kernel_mode s =? 1 then
      r ← on_api (kernel_set_core_weights (core_count s) (core_priority s));
      mret (if r <? 0 then Some (-1) else None)
    else mret None
  else
    for_each (seqZ 0 (active s)) (fun i =>
      l ← gets core_priority;
      check_index l i ;;
      modify (fun s => s <| core_priority ::= fun l => aset l i DEFAULT_PRIORITY |>)) ;;
    mret None.

(** [dmi_get_bandwidth()] with a fuel that is always enough ([dmi_terminates] of
    [SysDetect]), so that the second case does not occur. *)
Definition dmi_bandwidth : W Z :=
  match dmi_get_bandwidth (S (length (default [] dmi_file))) dmi_file dmi_stack dmi_header with
  | Ok (Some r) => mret r
  | Ok None => mret (-1)
  | Stop e => stop_with e
  end.

Definition choose_target : W (option Z) :=
  s ← get_state;
  if g_ddr_bw_target s =? DDR_BW_NOT_SET then
    b ← dmi_bandwidth;
    match to_s32 (f32_mul (f32_of_Z b) (ddr_bw_auto_utilization s)) with
    | None => stop_with BadConversion
    | Some target =>
        modify (fun s => s <| g_ddr_bw_target := target |>) ;;
        mret (if target =? -1 then Some (-1) else None)
    end
  else mret None.

Definition choose_counters : W (option Z) :=
  s ← get_state;
  t ← on_ddr (pmu_ddr_init (kernel_mode s));
  if t =? DDR_NONE then
    ret_val ← on_msrs (rdt_mbm_support_check cpuid nprocessors_onln);
    if ret_val =? 0 then
      ret_val ← on_msrs rdt_mbm_init;
      if negb (ret_val =? 0) then mret (Some ret_val)
      else modify (fun s => s <| g_rdt_enabled := 1 |>) ;; mret None
    else mret (Some (-1))
  else mret None.

(** Sequencing with early returns. *)
Definition andthen (m k : W (option Z)) : W (option Z) :=
  r ← m; match r with Some r => mret (Some r) | None => k end.

(** The beginning of [main], before the options. *)
Definition main_begin : W Z :=
  modify (fun s => s <| core_priority := replicate (Z.to_nat MAX_THREADS) MIN_PRIORITY |>) ;;
  log_setlevel 3 ;;
  on_ddr (pcie_init pci_found).

(** What follows the options, up to the choice of the mode. *)
Definition set_up : W (option Z) :=
  andthen choose_cores (andthen set_weights (andthen choose_target choose_counters)).

Definition main_setup (opts : list (Ascii.ascii * string)) : W (option Z) :=
  main_begin ;;
  andthen (apply_options opts) set_up.

(** ** Kernel mode *)

(** A call whose negative result ends [main] with -1. *)
Definition must (m : W Z) : W (option Z) := r ← m; mret (if r <? 0 then Some (-1) else None).

Definition kernel_start : W (option Z) :=
  s ← get_state;
  if g_ddr_bw_target s =? DDR_BW_AUTOTEST then mret (Some (-1)) else
  andthen (must (on_api kernel_mode_init))
  (andthen (must (on_api (kernel_set_ddr_config (uddr (ddr_counters s)))))
  (andthen (if negb (g_core_first s =? -1) && negb (g_core_last s =? -1) then
              must (on_api (kernel_core_range (g_core_first s) (g_core_last s)))
            else mret None)
  (andthen (if negb (g_ddr_bw_target s =? DDR_BW_NOT_SET) && negb (g_ddr_bw_target s =? DDR_BW_AUTOTEST) then
              must (on_api (kernel_set_ddr_bandwidth (g_ddr_bw_target s)))
            else mret None)
  (andthen (must (on_api kernel_log_ddr_bw))
           (must (on_api (kernel_tuning_control 1 (g_tunealg s) (g_aggr s)))))))).

(** A round of the key loop: [true] when it is left. *)
Definition handle_key (key : option Ascii.ascii) : W bool :=
  match key with
  | Some "q"%char | Some "Q"%char => mret true
  | Some "m"%char | Some "M"%char =>
      modify (fun s => s <| enable_msr_msg ::= fun b => b2z (b =? 0) |>) ;; mret false
  | Some "p"%char | Some "P"%char =>
      modify (fun s => s <| enable_pmu_msg ::= fun b => b2z (b =? 0) |>) ;; mret false
  | _ => mret false
  end.

Definition log_cores : W unit :=
  s ← get_state;
  for_each (seqZ (g_core_first s) (g_core_last s - g_core_first s + 1)) (fun core_id =>
    (if enable_msr_msg s =? 1 then on_api (kernel_log_msr_values core_id) ;; mret tt else mret tt) ;;
    (if enable_pmu_msg s =? 1 then on_api (kernel_log_pmu_values core_id) ;; mret tt else mret tt)).

(** [sigintHandler] in kernel mode, where the bandit of the program is not set up
    and has no buffers. *)
Definition interrupt : W unit :=
  modify (fun s => s <| g_quitflag := 1 |>) ;;
  s ← get_state;
  if negb (g_rdt_enabled s =? 0) then on_msrs rdt_mbm_reset ;; mret tt else mret tt.

(** What happens while the loop waits: a poll of the keyboard, with the key that
    was pressed if there was one, or an interrupt. *)
Inductive event := Poll (key : option Ascii.ascii) | Sigint.

(** The rounds of the loop; [false] when the events end before a ['q']. *)
Fixpoint key_loop (events : list event) : W bool :=
  match events with
  | [] => mret false
  | Sigint :: events' => interrupt ;; key_loop events'
  | Poll key :: events' =>
      quit ← handle_key key;
      if quit : bool then mret true else log_cores ;; key_loop events'
  end.

(** Local modes of a terminal. *)
Definition ICANON : Z := 0x2.

Definition ECHO : Z := 0x8.

(** [newt.c_lflag &= ~(ICANON | ECHO)]. *)
Definition raw_mode (lflag : Z) : Z := Z.land lflag (Z.lnot (Z.lor ICANON ECHO)).

(** The whole of the kernel mode; [None] while it waits for keys. *)
Definition kernel_main (events : list event) : W (option Z) :=
  r ← kernel_start;
  match r with
  | Some r => mret (Some r)
  | None =>
      oldt ← gets tty;
      modify (fun s => s <| tty := raw_mode <$> oldt |>) ;;
      quit ← key_loop events;
      if negb quit then mret None else
      modify (fun s => s <| tty := oldt |>) ;;
      s ← get_state;
      r ← on_api (kernel_tuning_control 0 (g_tunealg s) (g_aggr s));
      if r <? 0 then mret (Some (-1)) else
      on_ddr pcie_deinit ;;
      mret (Some 0)
  end.
End main.

(** ** Printed priorities *)

Definition dec_char (d : Z) : Ascii.ascii := Ascii.ascii_of_nat (Z.to_nat (48 + d)).

Definition print_priority (p : Z) : string :=
  if p <? 10 then String (dec_char p) EmptyString
  else String (dec_char (p / 10)) (String (dec_char (p mod 10)) EmptyString).

(** A list as the user writes it. *)
Definition print_weights (ws : list Z) : string := String.concat "," (map print_priority ws).

Definition valid_priority (p : Z) : Prop := MIN_PRIORITY <= p <= MAX_PRIORITY.

Fixpoint no_comma (s : string) : bool :=
  match s with
  | EmptyString => true
  | String c s' => negb (bool_decide (c = ","%char)) && no_comma s'
  end.

(** A token the loop rejects. *)
Definition bad_token (t : string) : Prop :=
  snd (strtol t) <> EmptyString \/ ~ valid_priority (s32 (fst (strtol t))).

Lemma print_priority_facts p :
  valid_priority p ->
  strtol (print_priority p) = (p, EmptyString) /\ print_priority p <> EmptyString /\ no_comma (print_priority p) = true.
Proof.
  intros [H0 H1]. unfold MIN_PRIORITY, MAX_PRIORITY in *.
  set (ok := fun p => bool_decide (strtol (print_priority p) = (p, EmptyString)) &&
    negb (bool_decide (print_priority p = EmptyString)) && no_comma (print_priority p)).
  assert (Hall : forallb ok (seqZ 0 100) = true) by (vm_compute; reflexivity).
  rewrite forallb_forall in Hall.
  assert (Hp : In p (seqZ 0 100)) by (apply list_elem_of_In, elem_of_seqZ; lia).
  apply Hall in Hp. unfold ok in Hp. clear Hall.
  rewrite !andb_true_iff, negb_true_iff, bool_decide_eq_true, bool_decide_eq_false in Hp. tauto.
Qed.

Lemma string_app_cons (c : ascii) (s t : string) : String.append (String.append s (String c EmptyString)) t = String.append s (String c t).
Proof. induction s as [|a s IH]; [done|]. exact (f_equal (String a) IH). Qed.

Lemma string_app_nil (s : string) : String.append s EmptyString = s.
Proof. induction s as [|a s IH]; [done|]. exact (f_equal (String a) IH). Qed.

Lemma split_commas_word t s cur :
  no_comma t = true -> split_commas (String.append t s) cur = split_commas s (String.append cur t).
Proof.
  revert cur. induction t as [|c t IH]; intros cur Ht; [by rewrite string_app_nil|].
  cbn in Ht. apply andb_true_iff in Ht as [Hc Ht]. apply negb_true_iff, bool_decide_eq_false in Hc.
  rewrite <- string_app_cons, <- IH by done.
  destruct c as [[] [] [] [] [] [] [] []]; try reflexivity. by destruct Hc.
Qed.

Lemma append_not_empty cur t : t <> EmptyString -> String.append cur t <> EmptyString.
Proof. by destruct cur. Qed.

Lemma tokens_concat ts :
  Forall (fun t => t <> EmptyString /\ no_comma t = true) ts -> tokens (String.concat "," ts) = ts.
Proof.
  unfold tokens. induction 1 as [|t ts [Hne Hc] Hts IH]; [done|].
  destruct ts as [|t' ts].
  - cbn [String.concat]. rewrite <- (string_app_nil t) at 1. rewrite split_commas_word by done.
    cbn. by rewrite bool_decide_eq_false_2.
  - change (String.concat "," (t :: t' :: ts)) with
      (String.append t (String ","%char (String.concat "," (t' :: ts)))).
    rewrite split_commas_word by done. cbn [split_commas String.append].
    rewrite bool_decide_eq_false_2 by done. by f_equal.
Qed.

(** ** Reading priorities *)

(** [ws] stored from [core_priority[core_count]] on. *)
Definition filled (ws : list Z) (s : mainst) : mainst :=
  s <| core_priority ::= fun l => take (Z.to_nat (core_count s)) l ++ ws ++ drop (Z.to_nat (core_count s) + length ws) l |>
    <| core_count ::= fun c => c + zlen ws |>.

(** There is room for [n] more priorities, of active cores. *)
Definition room (n : Z) (s : mainst) : Prop :=
  0 <= core_count s /\ core_count s + n <= active s <= zlen (core_priority s).

Lemma active_filled ws s : active (filled ws s) = active s.
Proof. done. Qed.

Lemma core_count_filled ws s : core_count (filled ws s) = core_count s + zlen ws.
Proof. done. Qed.

Lemma filled_nil s : filled [] s = s.
Proof.
  destruct s. unfold filled, Prelude.set, zlen. cbn -[take drop]. rewrite Nat.add_0_r, take_drop, Z.add_0_r. done.
Qed.

Lemma room_filled n ws s : room (zlen ws + n) s -> 0 <= n -> room n (filled ws s).
Proof.
  unfold room. intros (H0 & H1 & H2) Hn. rewrite core_count_filled, active_filled.
  unfold zlen in *. unfold filled, Prelude.set. cbn -[take drop].
  rewrite !length_app, length_take, length_drop. lia.
Qed.

Lemma filled_filled ws ws' s : room (zlen ws + zlen ws') s -> filled ws' (filled ws s) = filled (ws ++ ws') s.
Proof.
  unfold room, active, zlen. destruct s as [? ? ? ? ? ? ? ? ? ? ? ? ? ? ? l c]. cbn. intros (H0 & H1 & H2).
  unfold filled, Prelude.set, zlen. cbn -[take drop]. f_equal; [|rewrite length_app; lia].
  replace (Z.to_nat (c + Z.of_nat (length ws))) with (length (take (Z.to_nat c) l ++ ws))
    by (rewrite length_app, length_take; lia).
  rewrite (app_assoc (take _ l)), take_app_length, <- !app_assoc. do 3 f_equal.
  rewrite (app_assoc (take _ l) ws), drop_app_add', drop_drop by done.
  f_equal. rewrite length_app. lia.
Qed.

Lemma set_priority_run p s : room 1 s -> set_priority p s = Ok (tt, filled [p] s).
Proof.
  intros (H0 & H1 & H2). unfold set_priority.
  rewrite (bind_Ok _ _ _ _ _ (eq_refl : get_state s = _)).
  rewrite (bind_Ok _ _ _ _ _ (check_index_Ok (core_priority s) (core_count s) s ltac:(lia))).
  unfold modify. do 2 f_equal. unfold filled, Prelude.set. cbn -[take drop]. f_equal.
  unfold aset. destruct (Z.leb_spec 0 (core_count s)); [|lia].
  rewrite insert_take_drop by (unfold zlen in *; lia). do 3 f_equal. lia.
Qed.

Lemma defaults_run (xs : list Z) s :
  room (zlen xs) s ->
  for_each xs (fun _ => set_priority DEFAULT_PRIORITY) s = Ok (tt, filled (replicate (length xs) DEFAULT_PRIORITY) s).
Proof.
  revert s. induction xs as [|x xs IH]; intros s Hs; [by rewrite filled_nil|].
  assert (Hx : zlen (x :: xs) = 1 + zlen xs) by (unfold zlen; cbn; lia). rewrite Hx in Hs.
  cbn [for_each]. rewrite (bind_Ok _ _ _ _ _ (set_priority_run DEFAULT_PRIORITY s ltac:(unfold room, zlen in *; lia))).
  rewrite IH by (apply room_filled; [done|unfold zlen; lia]).
  rewrite filled_filled; [done|]. unfold zlen in *. by rewrite length_replicate.
Qed.

Lemma weights_loop_run ws rest s :
  Forall valid_priority ws -> room (zlen ws) s ->
  weights_loop (map print_priority ws ++ rest) s = weights_loop rest (filled ws s).
Proof.
  intros Hws. revert s. induction Hws as [|p ws Hp Hws IH]; intros s Hs; [by rewrite filled_nil|].
  assert (Hx : zlen (p :: ws) = 1 + zlen ws) by (unfold zlen; cbn; lia). rewrite Hx in Hs.
  assert (Hlen : 0 <= zlen ws) by (unfold zlen; lia).
  cbn [map app weights_loop]. rewrite (bind_Ok _ _ _ _ _ (eq_refl : get_state s = _)).
  destruct (Z.eqb_spec (core_count s) (active s)); [unfold room in Hs; lia|].
  destruct (print_priority_facts p Hp) as (-> & _ & _). cbn [negb].
  rewrite bool_decide_eq_true_2 by done. cbn [negb].
  unfold valid_priority, MIN_PRIORITY, MAX_PRIORITY in *.
  rewrite s32_small by (unfold in_s32; lia).
  destruct (Z.ltb_spec p 0), (Z.ltb_spec 99 p); try lia. cbn [orb].
  rewrite (bind_Ok _ _ _ _ _ (set_priority_run p s ltac:(unfold room in *; lia))).
  rewrite IH by (by apply room_filled). by rewrite filled_filled.
Qed.

Lemma weights_loop_full rest s : core_count s = active s -> weights_loop rest s = Ok (true, s).
Proof.
  intros H. destruct rest as [|t rest]; [done|]. cbn [weights_loop].
  rewrite (bind_Ok _ _ _ _ _ (eq_refl : get_state s = _)). by rewrite H, Z.eqb_refl.
Qed.

Lemma weights_loop_bad t rest s : core_count s <> active s -> bad_token t -> weights_loop (t :: rest) s = Ok (false, s).
Proof.
  intros H Hbad. cbn [weights_loop]. rewrite (bind_Ok _ _ _ _ _ (eq_refl : get_state s = _)).
  destruct (Z.eqb_spec (core_count s) (active s)); [done|].
  unfold bad_token, valid_priority, MIN_PRIORITY, MAX_PRIORITY in *. destruct (strtol t) as [v e]. cbn in Hbad.
  case_bool_decide; [|done]. cbn [negb].
  destruct (Z.ltb_spec (s32 v) 0), (Z.ltb_spec 99 (s32 v)); try done. destruct Hbad; [done|lia].
Qed.

(** The priorities the active cores end up with. *)
Definition padded (ws : list Z) (s : mainst) : list Z :=
  let a := Z.to_nat (active s) in take a (ws ++ replicate a DEFAULT_PRIORITY).

Lemma concat_tokens ws ts :
  Forall valid_priority ws -> Forall (fun t => t <> EmptyString /\ no_comma t = true) ts ->
  tokens (String.concat "," (map print_priority ws ++ ts)) = map print_priority ws ++ ts.
Proof.
  intros Hws Hts. apply tokens_concat, Forall_app. split; [|done]. apply Forall_map.
  eapply Forall_impl; [exact Hws|]. intros p Hp. by destruct (print_priority_facts p Hp) as (_ & ? & ?).
Qed.

(** C40: priorities survive being printed and read back: a comma-separated list of
    numbers from 0 to 99 gives the active cores these priorities in order, a list
    that is too short is filled up with 50 and what is too much is ignored. *)
Theorem weights_roundtrip ws s :
  Forall valid_priority ws -> core_count s = 0 -> 0 <= active s <= zlen (core_priority s) ->
  exists s', parse_weights (print_weights ws) s = Ok (0, s') /\ core_count s' = active s /\
    core_priority s' = padded ws s ++ drop (Z.to_nat (active s)) (core_priority s).
Proof.
  intros Hws H0 Ha. set (a := Z.to_nat (active s)). set (ws1 := take a ws).
  assert (Hl1 : zlen ws1 <= active s) by (unfold zlen, ws1; rewrite length_take; lia).
  assert (Hr1 : room (zlen ws1) s) by (unfold room; lia).
  assert (Hloop : weights_loop (tokens (print_weights ws)) s = Ok (true, filled ws1 s)).
  { unfold print_weights. rewrite <- (app_nil_r (map print_priority ws)), concat_tokens, app_nil_r by done.
    rewrite <- (take_drop a ws) at 1. fold ws1. rewrite map_app, weights_loop_run by (by try apply Forall_take).
    destruct (decide (length ws <= a)%nat) as [Hs|Hs]; [by rewrite drop_ge|].
    apply weights_loop_full. rewrite core_count_filled, active_filled, H0. unfold zlen, ws1. rewrite length_take. lia. }
  unfold parse_weights. rewrite (bind_Ok _ _ _ _ _ Hloop). cbn [negb].
  rewrite (bind_Ok _ _ _ _ _ (eq_refl : get_state (filled ws1 s) = _)).
  rewrite active_filled, core_count_filled, H0. set (xs := seqZ 0 _).
  assert (Hxs : zlen xs = active s - zlen ws1) by (unfold xs, zlen in *; rewrite length_seqZ; lia).
  assert (Hroom : room (zlen xs) (filled ws1 s)).
  { apply room_filled; [|unfold zlen; lia]. rewrite Hxs. unfold room. lia. }
  rewrite (bind_Ok _ _ _ _ _ (defaults_run xs _ Hroom)).
  assert (Hlx : length xs = (a - length ws1)%nat) by (unfold zlen in *; lia).
  rewrite filled_filled, Hlx by (unfold room, zlen in *; rewrite length_replicate; lia).
  assert (Hp : ws1 ++ replicate (a - length ws1) DEFAULT_PRIORITY = padded ws s).
  { unfold padded. fold a. rewrite take_app. fold ws1. f_equal. rewrite take_replicate. f_equal.
    unfold ws1. rewrite length_take. lia. }
  assert (Hlen : length (padded ws s) = a).
  { unfold padded. fold a. rewrite length_take, length_app, length_replicate. lia. }
  rewrite Hp. eexists. split; [done|]. split.
  - rewrite core_count_filled, H0. unfold zlen. rewrite Hlen. lia.
  - unfold filled, Prelude.set. cbn -[take drop]. rewrite H0, Hlen. done.
Qed.

(** A list with something that is not a number, or with a number outside of
    0 to 99, among the priorities of the active cores is refused; the priorities
    before it have been stored. *)
Theorem weights_refused ws t rest s :
  Forall valid_priority ws -> bad_token t -> Forall (fun t => t <> EmptyString /\ no_comma t = true) (t :: rest) ->
  core_count s = 0 -> zlen ws < active s <= zlen (core_priority s) ->
  parse_weights (String.concat "," (map print_priority ws ++ t :: rest)) s = Ok (-1, filled ws s).
Proof.
  intros Hws Hbad Hts H0 Ha. unfold parse_weights. rewrite concat_tokens by done.
  assert (Hr : room (zlen ws) s) by (unfold room; lia).
  assert (Hb : weights_loop (t :: rest) (filled ws s) = Ok (false, filled ws s)).
  { apply weights_loop_bad; [|done]. rewrite core_count_filled, active_filled. lia. }
  rewrite <- (weights_loop_run ws (t :: rest) s Hws Hr) in Hb. by rewrite (bind_Ok _ _ _ _ _ Hb).
Qed.

(** A number that does not fit an [int] is cut down to one before its range is
    tested: 2^32 + 5 is taken as the priority 5. *)
Theorem weights_wrap s :
  core_count s = 0 -> 1 = active s -> 1 <= zlen (core_priority s) ->
  parse_weights "4294967301" s = Ok (0, filled [5] s).
Proof.
  intros H0 H1 Hl. unfold parse_weights. change (tokens "4294967301") with ["4294967301"%string].
  assert (Hr : room 1 s) by (unfold room; lia).
  assert (Hloop : weights_loop ["4294967301"%string] s = Ok (true, filled [5] s)).
  { cbn [weights_loop]. rewrite (bind_Ok _ _ _ _ _ (eq_refl : get_state s = _)).
    destruct (Z.eqb_spec (core_count s) (active s)); [lia|].
    change (strtol "4294967301") with (4294967301, EmptyString). cbv beta iota.
    change (s32 4294967301) with 5. cbn [negb orb].
    exact (bind_Ok _ _ _ _ _ (set_priority_run 5 s Hr)). }
  rewrite (bind_Ok _ _ _ _ _ Hloop). cbn [negb].
  rewrite (bind_Ok _ _ _ _ _ (eq_refl : get_state (filled [5] s) = _)).
  rewrite active_filled, core_count_filled, H0, <- H1. done.
Qed.

(** ** The interval *)

Lemma intervall_bounds : SFltb MAX_INTERVALL MIN_INTERVALL = false.
Proof. vm_compute. reflexivity. Qed.

(** A sampling interval given on the command line is not below 0.0001 and not above
    60 seconds, and one in that range is kept. *)
Theorem intervall_clamped x :
  let y := clamp_intervall x in
  SFltb y MIN_INTERVALL = false /\ SFltb MAX_INTERVALL y = false /\
  (SFltb x MIN_INTERVALL = false -> SFltb MAX_INTERVALL x = false -> y = x).
Proof.
  intros y. unfold y, clamp_intervall. destruct (SFltb x MIN_INTERVALL) eqn:H1.
  - rewrite intervall_bounds. split_and!; [apply SFltb_irrefl|apply intervall_bounds|done].
  - destruct (SFltb MAX_INTERVALL x) eqn:H2; split_and!; try done; apply SFltb_irrefl.
Qed.

(** ** Too many cores *)

(** The body of the loop that gives every active core the default priority. *)
Definition default_core (i : Z) : W unit :=
  l ← gets core_priority;
  check_index l i ;;
  modify (fun s => s <| core_priority ::= fun l => aset l i DEFAULT_PRIORITY |>).

Lemma default_cores_run n m :
  0 <= n <= m ->
  runs (fun s => zlen (core_priority s) = m) (for_each (seqZ 0 n) default_core) (fun _ => True)
    (fun s => zlen (core_priority s) = m).
Proof.
  intros Hn. apply runs_for_each. intros i Hi. apply elem_of_seqZ in Hi. intros s Hs. unfold wp, default_core.
  rewrite bind_gets, (bind_Ok _ _ _ _ _ (check_index_Ok (core_priority s) i s ltac:(lia))).
  cbn. by rewrite zlen_aset.
Qed.

Lemma default_cores_overrun n s :
  zlen (core_priority s) = n -> for_each (seqZ 0 (n + 1)) default_core s = Stop OutOfBounds.
Proof.
  intros Hs. assert (0 <= n) by (unfold zlen in Hs; lia).
  rewrite (seqZ_app 0 n 1), for_each_app by lia.
  destruct (runs_Ok _ _ _ _ s (default_cores_run n n ltac:(lia)) Hs) as ([] & s' & Hrun & _ & Hs').
  rewrite (bind_Ok _ _ _ _ _ Hrun). replace (seqZ (0 + n) 1) with [n] by (unfold seqZ; cbn; f_equal; lia).
  cbn -[default_core]. unfold default_core at 1. unfold mbind, ST_bind, gets.
  unfold check_index. destruct (in_range _ _) eqn:Hr; [|done].
  apply in_range_zlen in Hr. lia.
Qed.

(** The state after the beginning of [main]. *)
Definition begun (d : dstate) (s : mainst) : mainst :=
  s <| core_priority := replicate (Z.to_nat MAX_THREADS) MIN_PRIORITY |> <| loglevel := 3 |> <| ddr_counters := d |>.

Lemma main_begin_run found s :
  exists r d, pcie_init found (ddr_counters s) = Ok (r, d) /\ main_begin found s = Ok (r, begun d s).
Proof.
  assert (Hp : exists r d, pcie_init found (ddr_counters s) = Ok (r, d)).
  { unfold pcie_init. destruct found; unfold mbind, ST_bind; cbn; eauto. }
  destruct Hp as (r & d & Hp). exists r, d. split; [done|]. unfold main_begin. rewrite bind_modify.
  set (s1 := Prelude.set core_priority _ s). rewrite (bind_Ok (log_setlevel 3) _ s1 3 (s1 <| loglevel := 3 |>) eq_refl).
  unfold on_ddr, zoom. cbn [ddr_counters s1 Prelude.set]. by rewrite Hp.
Qed.

(** The loop over the answers of [getopt_long] is the loop over the options. *)
Lemma option_loop_options strtof fuel g s : option_loop strtof fuel g s = apply_options strtof (answers (OT := dpf_options) fuel g) s.
Proof.
  revert g s. induction fuel as [|fuel IH]; intros g s; [done|]. cbn [option_loop answers].
  destruct (getopt_long (OT := dpf_options) g) as [[[c optarg]|] g']; [|done]. cbn [apply_options]. unfold mbind, ST_bind.
  destruct (apply_option strtof c optarg s) as [[[r|] s']|]; [done|apply IH|done].
Qed.

Section overrun.
Context (strtof : string -> spec_float) (eax : Z -> Z) (edx available_cores : Z) (dmi_file : option (list Z))
  (dmi_stack : list (gmap string Z)) (dmi_header : Z * Z) (cpuid : Z -> Z -> cpuid_out) (nprocessors_onln : Z)
  (pci_found : option (list pci_dev)) {L : Linux}.

Abbreviation setup :=
  (main_setup strtof eax edx available_cores dmi_file dmi_stack dmi_header cpuid nprocessors_onln pci_found).

(** The guard on the number of cores lets one core too many through: with
    [--core a-b] where [b - a] is [MAX_THREADS], that is with 1025 cores, [main]
    goes on and writes past the end of [core_priority]. *)
Theorem core_range_overrun optarg s2 s :
  after_dash optarg = Some s2 -> atoi s2 - atoi optarg = MAX_THREADS -> 0 <= atoi optarg ->
  weight_string s = EmptyString ->
  setup [("c"%char, optarg)] s = Stop OutOfBounds.
Proof.
  intros Hdash Hdiff Hfirst Hw. unfold main_setup, andthen.
  destruct (main_begin_run pci_found s) as (r & d & _ & Hbegin). rewrite (bind_Ok _ _ _ _ _ Hbegin).
  set (s1 := begun d s).
  set (s3 := s1 <| g_core_first := atoi optarg |> <| g_core_last := atoi s2 |>).
  assert (Hopt : apply_options strtof [("c"%char, optarg)] s1 = Ok (None, s3)).
  { cbn [apply_options apply_option]. rewrite Hdash. unfold mbind, ST_bind, modify. cbn.
    rewrite Hdiff. reflexivity. }
  rewrite (bind_Ok _ _ _ _ _ Hopt). unfold set_up, andthen.
  assert (Hcores : choose_cores eax edx available_cores s3 = Ok (None, s3)).
  { unfold choose_cores. rewrite (bind_Ok _ _ _ _ _ (eq_refl : get_state s3 = _)). cbn [g_core_first g_core_last s3].
    unfold MAX_THREADS in Hdiff. unfold s3, Prelude.set. cbn.
    destruct (Z.eqb_spec (atoi optarg) (-1)), (Z.eqb_spec (atoi s2) (-1)); try lia. done. }
  rewrite (bind_Ok _ _ _ _ _ Hcores). apply bind_Stop. unfold set_weights.
  rewrite (bind_Ok _ _ _ _ _ (eq_refl : get_state s3 = _)).
  assert (Hws : weight_string s3 = EmptyString) by done. rewrite Hws. cbn [negb].
  rewrite bool_decide_eq_true_2 by done. cbn [negb]. apply bind_Stop.
  assert (Ha : active s3 = MAX_THREADS + 1) by (unfold active, s3, Prelude.set; cbn; lia).
  rewrite Ha. by apply default_cores_overrun.
Qed.
End overrun.

(** ** The bandwidth target *)

(** [float ddr_bw_auto_utilization = 0.7]. *)
Definition default_utilization : spec_float := to_f32 (literal 7 10).

(** When the DMI tables cannot be read, the error value -1 times the
    utilization of 0.7 is truncated to a target of 0, which the test for -1 does
    not see: [main] goes on, and the tuner takes the memory as saturated at any
    bandwidth. *)
Theorem missing_dmi_saturates stack header s :
  g_ddr_bw_target s = DDR_BW_NOT_SET -> ddr_bw_auto_utilization s = default_utilization ->
  exists s', choose_target None stack header s = Ok (None, s') /\
    s' = s <| g_ddr_bw_target := 0 |> /\
    forall bw now old, 0 <= bw ->
      band_factor (rd_percent bw (g_ddr_bw_target s') (seconds now old)) = Some 8.
Proof.
  intros Ht Hu. exists (s <| g_ddr_bw_target := 0 |>). split_and!; [|done|intros; by apply zero_target_saturates].
  unfold choose_target. rewrite (bind_Ok _ _ _ _ _ (eq_refl : get_state s = _)). rewrite Ht, Hu. reflexivity.
Qed.

(** ** Witnesses *)

(** The program before [main]: the initial values of its globals. *)
Definition main0 (devs : list pci_dev) : mainst :=
  {| g_core_first := -1; g_core_last := -1; g_ddr_bw_target := DDR_BW_NOT_SET;
     ddr_bw_auto_utilization := default_utilization; g_time_intervall := f32_of_Z 1; g_aggr := f32_of_Z 1;
     g_tunealg := 0; kernel_mode := 0; loglevel := 5; weight_string := EmptyString; g_pmu_method := PMU_RAW;
     g_num_events := 0; event_attrs := replicate 8 {| attr_type := 0; disabled := 0; config := 0 |}; enable_pmu_msg := 0; enable_msr_msg := 0;
     core_priority := replicate 1024 0; core_count := 0; g_rdt_enabled := 0;
     g_quitflag := 0; tty := Some 0x8a3b; aff := {| mask := ∅; sched_calls := [] |}; perf_events := perf0; ddr_counters := dstate0 devs;
     msrs := dev0; api := example_client |}.

Definition four_cores : mainst := main0 [] <| g_core_first := 8 |> <| g_core_last := 11 |>.

Lemma weights_roundtrip_witness :
  exists s', parse_weights "55,43,99" four_cores = Ok (0, s') /\ take 5 (core_priority s') = [55; 43; 99; 50; 0].
Proof.
  destruct (weights_roundtrip [55; 43; 99] four_cores) as (s' & Hrun & _ & Hp).
  - repeat constructor; vm_compute; discriminate.
  - reflexivity.
  - vm_compute. split; discriminate.
  - exists s'. split; [exact Hrun|]. rewrite Hp. vm_compute. reflexivity.
Defined.

Lemma weights_refused_witness :
  exists s', parse_weights "55,100,9" four_cores = Ok (-1, s') /\ take 3 (core_priority s') = [55; 0; 0].
Proof.
  exists (filled [55] four_cores). split; [|vm_compute; reflexivity].
  apply (weights_refused [55] "100" ["9"%string] four_cores).
  - repeat constructor; vm_compute; discriminate.
  - right. vm_compute. intros [_ H]. by apply H.
  - repeat constructor; discriminate.
  - reflexivity.
  - vm_compute. split; [reflexivity|discriminate].
Defined.

Lemma core_range_overrun_witness :
  main_setup (fun _ => S754_nan) (fun _ => 0) 0 0 None [] (0, 0) (fun _ _ => {| eax := 0; ebx := 0; ecx := 0; edx := 0 |}) 4
    (Some []) (L := eight_cpus) [("c"%char, "0-1024"%string)] (main0 []) = Stop OutOfBounds.
Proof. apply (core_range_overrun _ _ _ _ _ _ _ _ _ _ "0-1024" "1024"); reflexivity. Defined.

Lemma missing_dmi_saturates_witness :
  exists s', choose_target None [] (0, 0) (main0 []) = Ok (None, s') /\
    band_factor (rd_percent 0 (g_ddr_bw_target s') (seconds 2000 1000)) = Some 8.
Proof.
  destruct (missing_dmi_saturates [] (0, 0) (main0 [])) as (s' & Hrun & _ & H); [reflexivity..|].
  exists s'. split; [exact Hrun|]. apply H. lia.
Defined.
