(* ===== verification/Settings.v ===== *)
(** * What the command line of [main.c] sets

    The options as the usage of the program describes them ([setting]), each with
    its letter, its long name, its argument as a user writes it and its effect
    on the program, and the command lines that spell them.  The theorem states that
    the option loop of [main] ([Main.option_loop], over the table
    [Getopt.dpf_options]) reads every such spelling as the settings written. *)

From Stdlib Require Import Ascii.
From stdpp Require Import pretty.
From S2P Require Import Prelude Getopt Floats PerfEvents Msr2Settings UState Main.

(** ** Numbers as a user writes them *)

Fixpoint digits (s : string) : Prop :=
  match s with EmptyString => True | String c s' => is_Some (dec_digit c) /\ digits s' end.

Lemma dec_digit_pretty x : (x < 10)%N -> dec_digit (pretty_N_char x) = Some (Z.of_N x).
Proof.
  intros Hx. assert (Hin : x ∈ map N.of_nat (seq 0 10)).
  { apply list_elem_of_fmap. exists (N.to_nat x). rewrite N2Nat.id. split; [done|]. apply elem_of_seq. lia. }
  cbn in Hin. repeat (apply elem_of_cons in Hin as [->|Hin]; [reflexivity|]). by apply not_elem_of_nil in Hin.
Qed.

Lemma digits_snoc p c : digits p -> is_Some (dec_digit c) -> digits (String.append p (String c EmptyString)).
Proof. intros Hp Hc. induction p as [|d p IH]; [by split|]. destruct Hp. split; [done|]. by apply IH. Qed.

Lemma pretty_go_digits x s : exists p, digits p /\ pretty_N_go x s = String.append p s.
Proof.
  revert s. induction (N.lt_wf_0 x) as [x _ IH]. intros s. destruct (decide (x = 0)%N) as [->|Hx]; [by exists EmptyString|].
  rewrite pretty_N_go_step by lia. destruct (IH (x / 10)%N ltac:(apply N.div_lt; lia) (String (pretty_N_char (x mod 10)) s)) as (p & Hp & ->).
  exists (String.append p (String (pretty_N_char (x mod 10)) EmptyString)). split; [|by rewrite string_app_cons].
  apply digits_snoc; [done|]. by rewrite dec_digit_pretty by (apply N.mod_lt; lia).
Qed.

Lemma pretty_go_value x s : dec_value (pretty_N_go x s) 0 = dec_value s (Z.of_N x).
Proof.
  revert s. induction (N.lt_wf_0 x) as [x _ IH]. intros s. destruct (decide (x = 0)%N) as [->|Hx]; [done|].
  rewrite pretty_N_go_step, IH by (try apply N.div_lt; lia). cbn [dec_value].
  rewrite dec_digit_pretty by (apply N.mod_lt; lia). f_equal. rewrite N2Z.inj_div, N2Z.inj_mod. change (Z.of_N 10) with 10.
  pose proof (Z_div_mod_eq_full (Z.of_N x) 10). lia.
Qed.

Lemma pretty_digits (x : N) : digits (pretty x).
Proof.
  unfold pretty, pretty_N. case_decide as Hx; [by repeat split|].
  destruct (pretty_go_digits x EmptyString) as (p & Hp & ->). by rewrite string_app_nil.
Qed.

Lemma dec_value_app p s acc :
  digits p -> dec_value (String.append p s) acc = dec_value s (fst (dec_value p acc)) .
Proof.
  revert acc. induction p as [|c p IH]; intros acc; [done|]. intros [[d Hd] Hp].
  change (String.append (String c p) s) with (String c (String.append p s)). cbn [dec_value]. rewrite Hd. by apply IH.
Qed.

Lemma pretty_value (x : N) : fst (dec_value (pretty x) 0) = Z.of_N x.
Proof.
  unfold pretty, pretty_N. case_decide as Hx; [by subst|]. by rewrite pretty_go_value.
Qed.

Lemma pretty_not_empty (x : N) : exists c t, pretty x = String c t /\ is_Some (dec_digit c).
Proof.
  pose proof (pretty_digits x) as Hd. pose proof (pretty_value x) as Hv. destruct (pretty x) as [|c t] eqn:Hp; [|exists c, t; by destruct Hd].
  exfalso. cbn in Hv. assert (x = 0)%N as -> by lia. done.
Qed.

(** What may follow a number: no digit. *)
Definition no_digit (s : string) : Prop := match s with EmptyString => True | String c _ => dec_digit c = None end.

Lemma dec_value_stop s acc : no_digit s -> dec_value s acc = (acc, s).
Proof. destruct s as [|c s]; [done|]. cbn. by intros ->. Qed.

Lemma digit_not_sign c s : is_Some (dec_digit c) -> take_sign (skip_spaces (String c s)) = (false, String c s).
Proof. intros [d Hd]. destruct c as [[] [] [] [] [] [] [] []]; cbn in Hd; done. Qed.

(** A number written in decimals is read back. *)
Lemma atoi_pretty (x : N) s : Z.of_N x < 2 ^ 31 -> no_digit s -> atoi (String.append (pretty x) s) = Z.of_N x.
Proof.
  intros Hx Hs. destruct (pretty_not_empty x) as (c & t & Hp & Hc).
  pose proof (dec_value_app (pretty x) s 0 (pretty_digits x)) as Hv. rewrite pretty_value, (dec_value_stop s) in Hv by done.
  rewrite Hp in Hv |- *. change (String.append (String c t) s) with (String c (String.append t s)) in Hv |- *.
  unfold atoi, strtol. rewrite digit_not_sign, Hv by done. destruct Hc as [d ->]. cbn [fst].
  rewrite Z.min_r by lia. apply s32_small. unfold in_s32. lia.
Qed.

Lemma atoi_decimal (x : N) : Z.of_N x < 2 ^ 31 -> atoi (pretty x) = Z.of_N x.
Proof. intros Hx. rewrite <- (string_app_nil (pretty x)). by apply atoi_pretty. Qed.

Lemma after_dash_app p s : digits p -> after_dash (String.append p (String "-"%char s)) = Some s.
Proof.
  induction p as [|c p IH]; [done|]. intros [[d Hd] Hp]. change (String.append (String c p) (String "-"%char s)) with (String c (String.append p (String "-"%char s))).
  specialize (IH Hp). destruct c as [[] [] [] [] [] [] [] []]; cbn in Hd; done.
Qed.

Lemma after_dash_none p : digits p -> after_dash p = None.
Proof. induction p as [|c p IH]; [done|]. intros [[d Hd] Hp]. specialize (IH Hp). destruct c as [[] [] [] [] [] [] [] []]; cbn in Hd; done. Qed.

(** ** Settings *)

(** An option with what the user means by it; fractions are given as text, which
    [strtof] reads. *)
Inductive setting :=
  | Cores (first last : N)      (** [--core 8-15] *)
  | OneCore (core : N)          (** [--core 8] *)
  | DdrbwAuto (part : string)   (** [--ddrbw-auto 0.65] *)
  | DdrbwTest
  | DdrbwSet (mbps : N)         (** [--ddrbw-set 46000] *)
  | Intervall (seconds : string)
  | Alg (n : N)
  | Aggr (x : string)
  | Log (level : N)
  | Weight (list : string)
  | Kernelmode
  | Perf
  | Msr
  | Pmu.

Definition letter_of (st : setting) : ascii :=
  match st with
  | Cores _ _ | OneCore _ => "c" | DdrbwAuto _ => "d" | DdrbwTest => "t" | DdrbwSet _ => "D" | Intervall _ => "i"
  | Alg _ => "A" | Aggr _ => "a" | Log _ => "l" | Weight _ => "w" | Kernelmode => "k" | Perf => "p" | Msr => "m" | Pmu => "P"
  end%char.

Definition name_of (st : setting) : string :=
  match st with
  | Cores _ _ | OneCore _ => "core" | DdrbwAuto _ => "ddrbw-auto" | DdrbwTest => "ddrbw-test" | DdrbwSet _ => "ddrbw-set"
  | Intervall _ => "intervall" | Alg _ => "alg" | Aggr _ => "aggr" | Log _ => "log" | Weight _ => "weight"
  | Kernelmode => "kernelmode" | Perf => "perf" | Msr => "msr" | Pmu => "pmu"
  end%string.

(** All the names there are; [--help] is no setting. *)
Definition names : list string :=
  ["core"; "ddrbw-auto"; "ddrbw-test"; "ddrbw-set"; "intervall"; "alg"; "aggr"; "log"; "weight"; "kernelmode"; "perf"; "msr";
   "pmu"; "help"]%string.

(** The argument, as it is written. *)
Definition arg_of (st : setting) : option string :=
  match st with
  | Cores first last => Some (String.append (pretty first) (String "-"%char (pretty last)))
  | OneCore n | DdrbwSet n | Alg n | Log n => Some (pretty n)
  | DdrbwAuto x | Intervall x | Aggr x | Weight x => Some x
  | DdrbwTest | Kernelmode | Perf | Msr | Pmu => None
  end.

(** Numbers fit an [int], a list of priorities its buffer, and a range of cores is
    not wider than [main] accepts. *)
Definition valid (st : setting) : Prop :=
  match st with
  | Cores first last => Z.of_N first < 2 ^ 31 /\ Z.of_N last < 2 ^ 31 /\ Z.of_N last - Z.of_N first <= MAX_THREADS
  | OneCore n | DdrbwSet n | Alg n | Log n => Z.of_N n < 2 ^ 31
  | Weight x => Z.of_nat (String.length x) < MAX_WEIGHT_STR_LEN
  | _ => True
  end.

(** The events a run with [--perf] counts. *)
Definition perf_event_attrs (attrs : list perf_event_attr) : list perf_event_attr :=
  map (fun c => {| attr_type := PERF_TYPE_RAW; disabled := 1; config := c |}) event_configs ++ drop (length event_configs) attrs.

(** What a setting does to the program. *)
Definition effect (strtof : string -> spec_float) (s : mainst) (st : setting) : mainst :=
  match st with
  | Cores first last => s <| g_core_first := Z.of_N first |> <| g_core_last := Z.of_N last |>
  | OneCore n => s <| g_core_first := Z.of_N n |> <| g_core_last := Z.of_N n |>
  | DdrbwAuto x => s <| ddr_bw_auto_utilization := strtof x |>
  | DdrbwTest => s <| g_ddr_bw_target := DDR_BW_AUTOTEST |>
  | DdrbwSet n => s <| g_ddr_bw_target := Z.of_N n |>
  | Intervall x => s <| g_time_intervall := clamp_intervall (strtof x) |>
  | Alg n => s <| g_tunealg := Z.of_N n |>
  | Aggr x => s <| g_aggr := strtof x |>
  | Log n => if (1 <=? Z.of_N n) && (Z.of_N n <=? 5) then s <| loglevel := Z.of_N n |> else s
  | Weight x => s <| weight_string := x |>
  | Kernelmode => s <| kernel_mode := 1 |>
  | Perf => s <| g_pmu_method := PMU_PERF |> <| event_attrs ::= perf_event_attrs |> <| g_num_events := PMU_CORE_EVENT_COUNT |>
  | Msr => s <| enable_msr_msg := 1 |>
  | Pmu => s <| enable_pmu_msg := 1 |>
  end.

(** ** Spellings *)

(** [n] is the name [m] or a beginning of it that no other name has. *)
Definition abbreviates (n m : string) : Prop := filter (fun m' => String.prefix n m' = true) names = [m].

Definition is_flag (st : setting) : Prop := arg_of st = None.

(** The pieces of a command line and the settings they spell. *)
Inductive spells : piece -> list setting -> Prop :=
  | spells_plain w : is_option w = false -> spells (Plain w) []
  | spells_flags st sts :
      Forall is_flag (st :: sts) -> spells (Flags (letter_of st) (map letter_of sts)) (st :: sts)
  | spells_letter sts st arg :
      Forall is_flag sts -> arg_of st = Some arg -> spells (Letter (map letter_of sts) (letter_of st) arg) (sts ++ [st])
  | spells_joined sts st arg :
      Forall is_flag sts -> arg_of st = Some arg -> arg <> EmptyString ->
      spells (Joined (map letter_of sts) (letter_of st) arg) (sts ++ [st])
  | spells_long_flag n st : abbreviates n (name_of st) -> is_flag st -> spells (LongFlag n) [st]
  | spells_long_arg n st arg : abbreviates n (name_of st) -> arg_of st = Some arg -> spells (LongArg n arg) [st]
  | spells_long_eq n st arg : abbreviates n (name_of st) -> arg_of st = Some arg -> spells (LongEq n arg) [st].

(** What [getopt_long] answers for a setting. *)
Definition answer_of (st : setting) : answer := (letter_of st, default EmptyString (arg_of st)).

Lemma letter_of_known st : letter (OT := dpf_options) (letter_of st) = Some (bool_decide (is_Some (arg_of st))).
Proof. by destruct st. Qed.

Lemma prefix_beginning n s : String.prefix n s = true -> exists k, (k <= String.length s)%nat /\ n = String.substring 0 k s.
Proof.
  revert s. induction n as [|c n IH]; intros s H; [exists 0%nat; split; [lia|by destruct s]|].
  destruct s as [|d s]; [done|]. cbn in H. destruct (ascii_dec c d) as [->|]; [|done].
  destruct (IH s H) as (k & Hk & ->). exists (S k). split; [cbn; lia|done].
Qed.

(** A name that is not ambiguous finds the option of the setting. *)
Lemma abbreviation_found n st :
  abbreviates n (name_of st) ->
  n <> EmptyString /\ no_eq n /\
  exists o, find_long (OT := dpf_options) n = Some o /\ has_arg o = bool_decide (is_Some (arg_of st)) /\ val o = letter_of st.
Proof.
  intros Ha. assert (Hpre : String.prefix n (name_of st) = true).
  { assert (Hin : name_of st ∈ [name_of st]) by apply list_elem_of_here. unfold abbreviates in Ha. rewrite <- Ha in Hin.
    by apply list_elem_of_filter in Hin as [? _]. }
  apply prefix_beginning in Hpre as (k & Hk & ->). unfold abbreviates in Ha.
  destruct st; cbn [name_of String.length] in Hk; repeat (destruct k as [|k]; [|apply le_S_n in Hk]); try (apply Nat.le_0_r in Hk as ->);
    first [vm_compute in Ha; discriminate Ha | clear Ha; split; [done|]; split; [by repeat split|]; eexists; split; [vm_compute; reflexivity|by split]].
Qed.

(** The words of a piece are answered with the settings it spells. *)
Lemma spells_ok p sts :
  spells p sts -> piece_ok (OT := dpf_options) p /\ meaning (OT := dpf_options) p = map answer_of sts.
Proof.
  assert (Hflags : forall sts, Forall is_flag sts ->
    Forall (fun c => letter (OT := dpf_options) c = Some false) (map letter_of sts) /\ map flag (map letter_of sts) = map answer_of sts).
  { induction 1 as [|st sts0 Hst _ [IH1 IH2]]; [done|]. unfold is_flag in Hst. cbn [map].
    split; [constructor; [by rewrite letter_of_known, Hst|done]|]. f_equal; [|done]. unfold flag, answer_of. by rewrite Hst. }
  destruct 1 as [w Hw|st sts Hf|sts st arg Hf Ha|sts st arg Hf Ha Hne|n st Hn Hf|n st arg Hn Ha|n st arg Hn Ha].
  - done.
  - exact (Hflags _ Hf).
  - destruct (Hflags _ Hf) as [H1 H2]. cbn [piece_ok meaning]. rewrite letter_of_known, Ha, H2, map_app. split; [done|].
    f_equal. cbn. unfold answer_of. by rewrite Ha.
  - destruct (Hflags _ Hf) as [H1 H2]. cbn [piece_ok meaning]. rewrite letter_of_known, Ha, H2, map_app. split; [done|].
    f_equal. cbn. unfold answer_of. by rewrite Ha.
  - destruct (abbreviation_found _ _ Hn) as (H1 & H2 & o & Ho & Hb & Hv). cbn [piece_ok meaning map]. unfold long_name, long_val, answer_of.
    rewrite Ho. cbn. by rewrite Hb, Hv, Hf.
  - destruct (abbreviation_found _ _ Hn) as (H1 & H2 & o & Ho & Hb & Hv). cbn [piece_ok meaning map]. unfold long_name, long_val, answer_of.
    rewrite Ho. cbn. by rewrite Hb, Hv, Ha.
  - destruct (abbreviation_found _ _ Hn) as (H1 & H2 & o & Ho & Hb & Hv). cbn [piece_ok meaning map]. unfold long_name, long_val, answer_of.
    rewrite Ho. cbn. by rewrite Hb, Hv, Ha.
Qed.

(** ** The effects *)

Lemma substring_whole n s : (String.length s <= n)%nat -> String.substring 0 n s = s.
Proof. revert n. induction s as [|c s IH]; intros [|n] H; cbn in *; try lia; try done. by rewrite IH by lia. Qed.

(** The array of [main] holds the events that [--perf] stores in it. *)
Definition event_room (s : mainst) : Prop := PMU_CORE_EVENT_COUNT <= zlen (event_attrs s).

Lemma event_room_effect strtof s st : event_room s -> event_room (effect strtof s st).
Proof.
  unfold event_room. intros H. destruct st; try exact H; cbn [effect].
  - by destruct ((1 <=? Z.of_N level) && (Z.of_N level <=? 5)).
  - change (event_attrs _) with (perf_event_attrs (event_attrs s)). unfold perf_event_attrs, zlen. rewrite length_app.
    change (length (map _ event_configs)) with 7%nat. unfold PMU_CORE_EVENT_COUNT. lia.
Qed.

(** One round of the loop of [perf_configure_events]. *)
Definition store_event (attrs : list perf_event_attr) (i : Z) : P (list perf_event_attr) :=
  c ← read event_configs i;
  check_index attrs i ;;
  mret (aset attrs i {| attr_type := PERF_TYPE_RAW; disabled := 1; config := c |}).

Lemma store_event_run attrs i c p :
  read event_configs i p = Ok (c, p) -> 0 <= i < zlen attrs ->
  store_event attrs i p = Ok (aset attrs i {| attr_type := PERF_TYPE_RAW; disabled := 1; config := c |}, p).
Proof. intros Hc Hi. unfold store_event. by rewrite (bind_Ok _ _ _ _ _ Hc), (bind_Ok _ _ _ _ _ (check_index_Ok attrs i p Hi)). Qed.

Lemma perf_configure_run attrs p :
  PMU_CORE_EVENT_COUNT <= zlen attrs -> perf_configure_events attrs p = Ok ((perf_event_attrs attrs, PMU_CORE_EVENT_COUNT), p).
Proof.
  intros H. unfold perf_configure_events. erewrite bind_Ok; [done|].
  change (fold_each [0; 1; 2; 3; 4; 5; 6] attrs store_event p = Ok (perf_event_attrs attrs, p)).
  unfold PMU_CORE_EVENT_COUNT in H. cbn [fold_each].
  do 7 (erewrite bind_Ok by (apply store_event_run; [reflexivity|rewrite ?zlen_aset; lia])).
  unfold zlen in H. do 7 (destruct attrs as [|? attrs]; [cbn in H; lia|]). reflexivity.
Qed.

Section settings.
Context (strtof : string -> spec_float).

Lemma setting_applied st s : valid st -> event_room s -> apply_option strtof (letter_of st) (default EmptyString (arg_of st)) s = Ok (None, effect strtof s st).
Proof.
  intros Hv Hs. destruct st; cbn [letter_of arg_of default from_option id apply_option effect valid] in *; try reflexivity.
  - destruct Hv as (H1 & H2 & H3). rewrite after_dash_app by apply pretty_digits. rewrite atoi_pretty, atoi_decimal by done.
    rewrite bind_modify. rewrite s32_small by (unfold in_s32; unfold MAX_THREADS in *; lia).
    destruct (Z.ltb_spec MAX_THREADS (Z.of_N last0 - Z.of_N first)); [lia|]. done.
  - rewrite after_dash_none by apply pretty_digits. rewrite atoi_decimal by done. rewrite bind_modify, Z.sub_diag. done.
  - rewrite atoi_decimal by done. done.
  - rewrite atoi_decimal by done. done.
  - rewrite atoi_decimal by done. unfold log_setlevel, mbind, ST_bind.
    destruct (Z.ltb_spec 5 (Z.of_N level)), (Z.ltb_spec (Z.of_N level) 1), (Z.leb_spec 1 (Z.of_N level)), (Z.leb_spec (Z.of_N level) 5); try lia; done.
  - rewrite substring_whole by (unfold MAX_WEIGHT_STR_LEN, MAX_THREADS in *; lia). done.
  - rewrite bind_modify. set (s1 := Prelude.set g_pmu_method _ s). rewrite bind_gets.
    assert (Hp : on_perf (perf_configure_events (event_attrs s1)) s1 = Ok ((perf_event_attrs (event_attrs s), PMU_CORE_EVENT_COUNT), s1)).
    { unfold on_perf, zoom. change (event_attrs s1) with (event_attrs s). rewrite perf_configure_run by done. by destruct s. }
    rewrite (bind_Ok _ _ _ _ _ Hp), bind_modify. done.
Qed.
Lemma wide_refused first last rest s :
  Z.of_N first < 2 ^ 31 -> Z.of_N last < 2 ^ 31 -> MAX_THREADS < Z.of_N last - Z.of_N first ->
  apply_options strtof (map answer_of [Cores first last] ++ rest) s = Ok (Some (-1), effect strtof s (Cores first last)).
Proof.
  intros H1 H2 H3. unfold answer_of. cbn [map app letter_of arg_of default from_option id apply_options apply_option].
  rewrite after_dash_app by apply pretty_digits. rewrite atoi_pretty, atoi_decimal by done.
  unfold mbind, ST_bind, modify. rewrite s32_small by (unfold in_s32, MAX_THREADS in *; lia).
  destruct (Z.ltb_spec MAX_THREADS (Z.of_N last - Z.of_N first)); [done|lia].
Qed.

Lemma settings_applied sts rest s :
  Forall valid sts -> event_room s ->
  event_room (foldl (effect strtof) s sts) /\
  apply_options strtof (map answer_of sts ++ rest) s = apply_options strtof rest (foldl (effect strtof) s sts).
Proof.
  intros Hsts. revert s. induction Hsts as [|st sts Hst _ IH]; intros s Hs; [done|].
  destruct (IH (effect strtof s st) (event_room_effect strtof s st Hs)) as [H1 H2]. split; [exact H1|].
  change (map answer_of (st :: sts) ++ rest) with ((letter_of st, default EmptyString (arg_of st)) :: (map answer_of sts ++ rest)).
  cbn [apply_options]. rewrite (bind_Ok _ _ _ _ _ (setting_applied st s Hst Hs)). exact H2.
Qed.

Lemma spelled_answers ps stss ws :
  Forall2 spells ps stss ->
  answers_from (OT := dpf_options) (at_words (flat_map print_piece ps ++ ws)) =
  map answer_of (concat stss) ++ answers_from (OT := dpf_options) (at_words ws).
Proof.
  induction 1 as [|p sts ps stss Hp _ IH]; [done|]. destruct (spells_ok _ _ Hp) as [Hok Hm].
  cbn [flat_map concat]. by rewrite <- app_assoc, piece_run, IH, Hm, map_app, <- app_assoc.
Qed.

(** The option loop on words that spell settings, and on what follows them. *)
Lemma loop_spelled ps stss tail fuel s :
  Forall2 spells ps stss -> Forall valid (concat stss) -> event_room s ->
  (scan_size (at_words (flat_map print_piece ps ++ tail)) < fuel)%nat ->
  option_loop strtof fuel (at_words (flat_map print_piece ps ++ tail)) s =
  apply_options strtof (answers_from (OT := dpf_options) (at_words tail)) (foldl (effect strtof) s (concat stss)).
Proof.
  intros Hps Hv Hs Hfuel. rewrite option_loop_options.
  rewrite (answers_enough _ fuel (S (scan_size (at_words (flat_map print_piece ps ++ tail)))) Hfuel (Nat.lt_succ_diag_r _)).
  change (answers _ _) with (answers_from (OT := dpf_options) (at_words (flat_map print_piece ps ++ tail))).
  rewrite (spelled_answers _ _ _ Hps). by apply settings_applied.
Qed.

End settings.

(** ** Words that [main] answers with the usage *)

(** The first letter stands for no setting, the long name is not one or not one
    only, or it is that of [--help]. *)
Inductive asks_usage : string -> Prop :=
  | bad_letter c more : c ∉ ["-"; "h"]%char -> (forall st, letter_of st <> c) -> asks_usage (dash (String c more))
  | bad_name n : n <> EmptyString -> no_eq n -> (forall m, ~ abbreviates n m) -> asks_usage (dash (dash n))
  | help n : abbreviates n "help" -> asks_usage (dash (dash n)).

Lemma letter_unknown c : c <> "h"%char -> (forall st, letter_of st <> c) -> letter (OT := dpf_options) c = None.
Proof.
  intros Hh Hc. unfold letter. case_bool_decide as Hsep; [done|]. cbn [optstring dpf_options letter_in].
  repeat (case_bool_decide as He; [exfalso; subst c|clear He]); try done.
  all: first [by apply Hsep; left | by apply Hh | by apply (Hc (OneCore 0)) | by apply (Hc (DdrbwAuto "")) | by apply (Hc DdrbwTest) | by apply (Hc (DdrbwSet 0))
    | by apply (Hc (Intervall "")) | by apply (Hc (Alg 0)) | by apply (Hc (Aggr "")) | by apply (Hc (Log 0)) | by apply (Hc (Weight ""))
    | by apply (Hc Kernelmode) | by apply (Hc Perf) | by apply (Hc Msr) | by apply (Hc Pmu)].
Qed.

Lemma filter_names n : map name (filter (fun o => String.prefix n (name o) = true) (long_options (OptionTable := dpf_options))) =
  filter (fun m => String.prefix n m = true) names.
Proof.
  change names with (map name (long_options (OptionTable := dpf_options))). generalize (long_options (OptionTable := dpf_options)).
  intros l. induction l as [|o l IH]; [done|]. cbn [map]. rewrite !filter_cons. by case_decide; cbn [map]; rewrite IH.
Qed.

Lemma name_unknown n : (forall m, ~ abbreviates n m) -> find_long (OT := dpf_options) n = None.
Proof.
  intros Hn. unfold find_long. destruct (filter (fun o => name o = n) _) as [|o l] eqn:Hf.
  - pose proof (filter_names n) as Hfn. destruct (filter (fun o => String.prefix n (name o) = true) _) as [|o [|o2 l2]]; [done| |done].
    exfalso. apply (Hn (name o)). by unfold abbreviates; rewrite <- Hfn.
  - exfalso. assert (Hin : o ∈ o :: l) by apply list_elem_of_here. rewrite <- Hf in Hin.
    apply list_elem_of_filter in Hin as [Hname Hin]. apply (Hn n). clear Hf l Hn. subst n.
    repeat (apply elem_of_cons in Hin as [->|Hin]; [reflexivity|]). by apply not_elem_of_nil in Hin.
Qed.

Lemma asks_usage_answer w ws :
  asks_usage w -> exists a l, answers_from (OT := dpf_options) (at_words (w :: ws)) = a :: l /\ (a = unknown \/ a = flag "h"%char).
Proof.
  destruct 1 as [c more Hc Hst|n Hn He Hm|n Hh].
  - rewrite answers_from_step. assert (Hd : c <> "-"%char) by set_solver.
    assert (Hl : letter (OT := dpf_options) c = None) by (apply letter_unknown; set_solver).
    assert (Hg : getopt_long (OT := dpf_options) (at_words (dash (String c more) :: ws)) =
      (Some unknown, {| nextchar := more; words := ws |})).
    { unfold getopt_long. cbn [nextchar at_words words next_option dash is_option].
      transitivity (let '(a, g') := short_option (OT := dpf_options) c more ws in (Some a, g')).
      - by destruct c as [[] [] [] [] [] [] [] []].
      - unfold short_option. by rewrite Hl. }
    rewrite Hg. eexists _, _. by eauto.
  - rewrite long_run by done. unfold long_answer. rewrite split_eq_name, name_unknown by done. eexists _, _. by eauto.
  - assert (Hp : exists k, (k <= 4)%nat /\ n = String.substring 0 k "help").
    { apply (prefix_beginning n "help"). assert (Hin : "help"%string ∈ ["help"%string]) by apply list_elem_of_here.
      unfold abbreviates in Hh. rewrite <- Hh in Hin. by apply list_elem_of_filter in Hin as [? _]. }
    destruct Hp as (k & Hk & ->). repeat (destruct k as [|k]; [|apply le_S_n in Hk]); try (apply Nat.le_0_r in Hk as ->).
    1: by vm_compute in Hh.
    all: rewrite long_run by done; eexists _, _; by eauto.
Qed.

(** C16: what the options of [main] do, however they are written: settings spelled by
    their letters (alone or in clusters, the argument in the same word or the
    next) or by their long names or unambiguous beginnings of them, with words
    that are no options between and words after ["--"], leave the option loop
    with exactly their effects in the order written, so that the last of a kind
    wins.  Cores, the bandwidth target, the algorithm and the log level get the
    numbers written in decimals (a level outside of 1 to 5 is passed over), the
    interval is clamped, [--perf] sets up its seven events.  A word that names no
    option, or [--help], ends [main] with 0, and a range of cores that is too wide
    with -1, whatever follows them and after the settings before them.  (Stated
    for numbers below 2^31 and a list of priorities that fits its buffer; [strtof]
    is that of the C library.) *)
Theorem command_line_settings strtof ps stss tail fuel s :
  Forall2 spells ps stss -> Forall valid (concat stss) -> event_room s ->
  (scan_size (at_words (flat_map print_piece ps ++ tail)) < fuel)%nat ->
  let result := option_loop strtof fuel (at_words (flat_map print_piece ps ++ tail)) s in
  let s' := foldl (effect strtof) s (concat stss) in
  (ends tail -> result = Ok (None, s')) /\
  (forall w more, tail = w :: more -> asks_usage w -> result = Ok (Some 0, s')) /\
  (forall p first last more, tail = print_piece p ++ more -> spells p [Cores first last] ->
     Z.of_N first < 2 ^ 31 -> Z.of_N last < 2 ^ 31 -> MAX_THREADS < Z.of_N last - Z.of_N first ->
     result = Ok (Some (-1), effect strtof s' (Cores first last))).
Proof.
  intros Hps Hv Hs Hfuel result s'. unfold result. rewrite (loop_spelled strtof ps stss tail fuel s Hps Hv Hs Hfuel). fold s'. split_and!.
  - intros Ht. by rewrite options_end.
  - intros w more -> Hw. destruct (asks_usage_answer w more Hw) as (a & l & -> & [->| ->]); done.
  - intros p first last more -> Hp H1 H2 Hwide. destruct (spells_ok _ _ Hp) as [Hok Hm].
    rewrite piece_run, Hm by done. by apply wide_refused.
Qed.

(** ** Witness *)

Definition example_settings : list (list setting) :=
  [[DdrbwTest; Kernelmode; DdrbwSet 46000]; []; [Cores 8 15]; [Log 4]; [Intervall "2"]; [Perf]; [Alg 2]].

Definition example_words : list piece :=
  [Letter ["t"; "k"]%char "D"%char "46000"; Plain "x"; LongEq "core" "8-15"; Joined [] "l"%char "4"; LongArg "inter" "2"; LongFlag "per";
   LongArg "al" "2"].

Lemma example_spelled : Forall2 spells example_words example_settings.
Proof.
  unfold example_words, example_settings. repeat apply Forall2_cons_2; [..|apply Forall2_nil_2].
  - apply (spells_letter [DdrbwTest; Kernelmode] (DdrbwSet 46000)); [repeat constructor|reflexivity].
  - by apply spells_plain.
  - by apply (spells_long_eq "core" (Cores 8 15)).
  - by apply (spells_joined [] (Log 4)).
  - by apply (spells_long_arg "inter" (Intervall "2")).
  - by apply (spells_long_flag "per" Perf).
  - by apply (spells_long_arg "al" (Alg 2)).
Qed.

Lemma example_valid : Forall valid (concat example_settings).
Proof. repeat (apply Forall_cons; split; [by vm_compute|]). constructor. Qed.

Definition two (_ : string) : spec_float := f32_of_Z 2.

(** A line in all the forms, ended by ["--"], by a word that is not understood and
    by a range that is too wide. *)
Lemma command_line_settings_witness :
  let words := ["-tkD"; "46000"; "x"; "--core=8-15"; "-l4"; "--inter"; "2"; "--per"; "--al"; "2"]%string in
  let s' := foldl (effect two) (main0 []) (concat example_settings) in
  option_loop two 200 (at_words (words ++ ["--"; "-m"]%string)) (main0 []) = Ok (None, s') /\
  option_loop two 200 (at_words (words ++ ["--p"; "1"]%string)) (main0 []) = Ok (Some 0, s') /\
  option_loop two 200 (at_words (words ++ ["-c"; "8-1100"]%string)) (main0 []) = Ok (Some (-1), effect two s' (Cores 8 1100)) /\
  (g_core_first s', g_core_last s', g_ddr_bw_target s', kernel_mode s', loglevel s', g_time_intervall s', g_num_events s', g_tunealg s') =
  (8, 15, 46000, 1, 4, f32_of_Z 2, 7, 2).
Proof.
  split_and!; [..|vm_compute; reflexivity].
  - refine (proj1 (command_line_settings two example_words example_settings ["--"; "-m"]%string 200 (main0 []) example_spelled example_valid _ _) _).
    + vm_compute. discriminate.
    + vm_compute. lia.
    + right. by exists ["-m"%string].
  - refine (proj1 (proj2 (command_line_settings two example_words example_settings ["--p"; "1"]%string 200 (main0 []) example_spelled example_valid _ _)) _ _ eq_refl _).
    + vm_compute. discriminate.
    + vm_compute. lia.
    + apply (bad_name "p"); [done|by repeat split|]. intros m H. vm_compute in H. discriminate H.
  - refine (proj2 (proj2 (command_line_settings two example_words example_settings ["-c"; "8-1100"]%string 200 (main0 []) example_spelled example_valid _ _))
      (Letter [] "c"%char "8-1100") 8%N 1100%N [] eq_refl _ _ _ _).
    + vm_compute. discriminate.
    + vm_compute. lia.
    + by apply (spells_letter [] (Cores 8 1100)).
    + reflexivity.
    + reflexivity.
    + reflexivity.
Defined.
