(* ===== verification/KernelMode.v ===== *)
(** * The kernel mode of the main program ([main.c], [--kernelmode])

    [Main.kernel_start], its key loop and its end, run against the client library
    and the module: what the module is configured to when the tuning starts, that
    no key but a request to quit and no interrupt stops it, and what is left
    behind in the module and in the terminal. *)

From Stdlib Require Import Ascii.
From S2P Require Import Prelude Floats KState KCommon KPmuDdr KApi KDpf KInv UserApi ClientRuns PmuDdr Main.

(** ** A configured module *)

Section configured.
Context {L : Linux}.

(** The module works with the online cores of [a] to [b], towards [target]. *)
Record core_setup (a b target : Z) (m : kstate) : Prop := {
  cs_first : sys_first_core m = a;
  cs_count : sys_active_cores m = b - a + 1;
  cs_target : ddr_bw_target m = target;
  cs_mask : forall j, j ∈ enabled_cpus m <-> a <= j <= b /\ cpu_online j = true;
  cs_cores : forall j, 0 <= j < MAX_NUM_CORES ->
    is_Some (enabled_core m j) <-> a <= j <= b /\ cpu_online j = true }.

(** It does so with the given algorithm and tenths of aggressiveness; [on]: its
    monitor runs. *)
Record tuning_setup (a b target alg k : Z) (on : bool) (m : kstate) : Prop := {
  ts_cores : core_setup a b target m;
  ts_alg : tune_alg m = alg;
  ts_aggr : aggr m = k / 10;
  ts_running : keep_running m = on;
  ts_timer : monitor_timer m = on }.

(** Replacing a core by one that is enabled too. *)
Lemma enabled_core_aset m j ci ci' cs i :
  enabled_core m j = Some ci -> core_disabled ci' = 0 -> corestate cs = aset (corestate m) j ci' ->
  is_Some (enabled_core cs i) <-> is_Some (enabled_core m i).
Proof.
  intros Hj Hd Hcs. apply enabled_core_Some in Hj as [Hj Hd0]. unfold enabled_core. rewrite Hcs.
  destruct (decide (j = i)) as [<-|Hne]; [|by rewrite aget_aset_ne].
  rewrite aget_aset_eq by (by eapply aget_Some_range). rewrite Hj, Hd, Hd0. cbn. done.
Qed.

Lemma setup_core_answer a b target alg k on m j ci ci' bs :
  tuning_setup a b target alg k on m -> enabled_core m j = Some ci -> core_disabled ci' = 0 ->
  tuning_setup a b target alg k on (answered m bs <| corestate := aset (corestate m) j ci' |>).
Proof.
  intros [[] ] Hj Hd. constructor; try done. constructor; try done.
  intros i Hi. rewrite <- cs_cores0 by done. by apply (enabled_core_aset m j ci ci').
Qed.

Lemma setup_entered a b target alg k on m :
  tuning_setup a b target alg k on m -> tuning_setup a b target alg k on (entered m).
Proof. intros [[] ]. by constructor. Qed.

Lemma msr_answer_enabled s cpu ci : core_disabled (msr_answer s cpu ci) = core_disabled ci.
Proof. unfold msr_answer. by destruct (_ =? 0). Qed.

(** A client of such a module. *)
Definition tuned (a b target alg k : Z) (on : bool) (c : client) : Prop :=
  attached c /\ tuning_setup a b target alg k on (kern c).

Lemma tuned_msr_read a b target alg k on j :
  in_u 32 j -> runs (tuned a b target alg k on) (kernel_msr_read j) (fun _ => True) (tuned a b target alg k on).
Proof.
  intros Hj c [Hc Hs]. pose proof (msr_request c j Hc Hj) as H. unfold wp.
  destruct (enabled_core (kern c) j) as [ci|] eqn:Hci.
  - destruct H as (bs & -> & Hat). split; [done|]. split; [done|]. apply (setup_core_answer _ _ _ _ _ _ (kern c) j ci); [done|done|].
    rewrite msr_answer_enabled. by apply enabled_core_Some in Hci as [].
  - destruct H as [-> Hat]. split; [done|]. split; [done|]. by apply setup_entered.
Qed.

Lemma tuned_pmu_read a b target alg k on j :
  in_u 32 j -> runs (tuned a b target alg k on) (kernel_pmu_read j) (fun _ => True) (tuned a b target alg k on).
Proof.
  intros Hj c [Hc Hs]. pose proof (pmu_request c j Hc Hj) as H. unfold wp.
  destruct (enabled_core (kern c) j) as [ci|] eqn:Hci.
  - destruct H as (bs & -> & Hat). split; [done|]. split; [done|]. apply (setup_core_answer _ _ _ _ _ _ (kern c) j ci); [done|done|].
    by apply enabled_core_Some in Hci as [].
  - destruct H as [-> Hat]. split; [done|]. split; [done|]. by apply setup_entered.
Qed.

(** The setup is a matter of its own variables and of which cores are disabled. *)
Lemma core_setup_ext a b target m m' :
  kwf m -> setup_of m' = setup_of m ->
  (forall j ci, aget (corestate m) j = Some ci ->
     exists ci', aget (corestate m') j = Some ci' /\ core_disabled ci' = core_disabled ci) ->
  core_setup a b target m -> core_setup a b target m'.
Proof.
  intros Hs Hset Hc []. unfold setup_of in Hset. injection Hset as E1 E2 E3 E4. constructor; try congruence.
  - intros j. by rewrite E3.
  - intros j Hj. rewrite <- cs_cores0 by done.
    destruct (aget_is_Some (corestate m) j) as [ci Hci]; [by rewrite (kwf_cores _ Hs)|].
    destruct (Hc j ci Hci) as (ci' & Hci' & Hd). unfold enabled_core. by rewrite Hci, Hci', Hd; destruct (_ =? 0).
Qed.

(** Switching the monitor on or off. *)
Lemma tuned_control a b target alg k e c :
  (forall j, j ∈ online_cpus -> 0 <= j < MAX_NUM_CORES) -> in_u 32 e -> 0 <= alg < 2 ^ 31 -> 0 <= k <= 50 ->
  attached c -> core_setup a b target (kern c) ->
  exists c', kernel_tuning_control e alg (tenths k) c = Ok (0, c') /\ tuned a b target alg k (e =? 1) c'.
Proof.
  intros Hon He Ha Hk Hc Hcs.
  destruct (tuning_request c e alg k Hc He ltac:(unfold in_u; lia) Hk Hon) as (s' & Hrun & Hat & H1 & H2 & H3 & H4 & H5 & H6).
  eexists. split; [exact Hrun|]. split; [done|]. constructor; try done; [|etransitivity; [exact H1|]; apply s32_small; unfold in_s32; lia].
  destruct Hc as ((Hs & _) & _). by apply (core_setup_ext _ _ _ (kern c)).
Qed.
End configured.

(** ** Start *)

Lemma on_api_Ok {A} (m : ST client A) s r c :
  m (api s) = Ok (r, c) -> on_api m s = Ok (r, s <| api := c |>).
Proof. intros H. unfold on_api, zoom. by rewrite H. Qed.

(** A call that must succeed, and does or does not; the program's client is [c]. *)
Lemma must_ok m s c c' : m c = Ok (0, c') -> must (on_api m) (s <| api := c |>) = Ok (None, s <| api := c' |>).
Proof. intros H. unfold must, on_api, zoom, mbind, ST_bind. cbn. by rewrite H. Qed.

Lemma must_fail m s c c' : m c = Ok (-1, c') -> must (on_api m) (s <| api := c |>) = Ok (Some (-1), s <| api := c' |>).
Proof. intros H. unfold must, on_api, zoom, mbind, ST_bind. cbn. by rewrite H. Qed.

Lemma andthen_next m k s s' : m s = Ok (None, s') -> andthen m k s = k s'.
Proof. intros H. unfold andthen. by rewrite (bind_Ok _ _ _ _ _ H). Qed.

Lemma andthen_exit m k s r s' : m s = Ok (Some r, s') -> andthen m k s = Ok (Some r, s').
Proof. intros H. unfold andthen. by rewrite (bind_Ok _ _ _ _ _ H). Qed.

(** The arguments of the program once [main_setup] has chosen them. *)
Record mode_args (k : Z) (s : mainst) : Prop := {
  ma_attached : attached (api s);
  ma_ddr : supported (uddr (ddr_counters s));
  ma_cores : 0 <= g_core_first s <= g_core_last s /\ g_core_last s < MAX_NUM_CORES;
  ma_target : 0 <= g_ddr_bw_target s < 2 ^ 31;
  ma_alg : 0 <= g_tunealg s < 2 ^ 31;
  ma_aggr : g_aggr s = tenths k;
  ma_tenths : 0 <= k <= 50;
  ma_rdt : g_rdt_enabled s = 0 }.

Section start.
Context {L : Linux}.
Context (Hon : forall j, j ∈ online_cpus -> 0 <= j < MAX_NUM_CORES).

Lemma selected_spec a b j : selected a b j = true <-> a <= j <= b /\ cpu_online j = true.
Proof. unfold selected. rewrite !andb_true_iff, !Z.leb_le. tauto. Qed.

(** A client of the module that was configured for the program [s]. *)
Definition tuned_for (s : mainst) (k : Z) (on : bool) (c : client) : Prop :=
  tuned (g_core_first s) (g_core_last s) (g_ddr_bw_target s) (g_tunealg s) k on c.

(** The requests after the DDR configuration. *)
Lemma configure_rest k s c :
  mode_args k s -> attached c ->
  exists c', tuned_for s k true c' /\
    andthen (if negb (g_core_first s =? -1) && negb (g_core_last s =? -1) then
              must (on_api (kernel_core_range (g_core_first s) (g_core_last s))) else mret None)
    (andthen (if negb (g_ddr_bw_target s =? DDR_BW_NOT_SET) && negb (g_ddr_bw_target s =? DDR_BW_AUTOTEST) then
              must (on_api (kernel_set_ddr_bandwidth (g_ddr_bw_target s))) else mret None)
    (andthen (must (on_api kernel_log_ddr_bw))
             (must (on_api (kernel_tuning_control 1 (g_tunealg s) (g_aggr s)))))) (s <| api := c |>) =
      Ok (None, s <| api := c' |>).
Proof.
  intros [_ _ [Hc1 Hc2] Ht Ha Hg Hk _] Hc. unfold DDR_BW_NOT_SET, DDR_BW_AUTOTEST.
  rewrite !(proj2 (Z.eqb_neq _ _)) by lia. cbn [negb andb].
  destruct (core_range_request c _ _ Hc Hc1 Hc2) as (m1 & R1 & A1 & F1 & F2 & F3 & F4 & F5).
  rewrite (andthen_next _ _ _ _ (must_ok _ s _ _ R1)).
  destruct (bandwidth_request (c <| kern := m1 |>) (g_ddr_bw_target s) A1 ltac:(unfold in_u; lia)) as (b2 & R2 & A2).
  set (c2 := Prelude.set kern _ (c <| kern := m1 |>)) in *.
  rewrite (andthen_next _ _ _ _ (must_ok _ s _ _ R2)).
  destruct (log_ddr_bw_request c2 A2) as (b3 & d & R3 & A3). set (c3 := Prelude.set time_old _ _) in *.
  rewrite (andthen_next _ _ _ _ (must_ok _ s _ _ R3)).
  destruct (tuned_control (g_core_first s) (g_core_last s) (g_ddr_bw_target s) (g_tunealg s) k 1 c3 Hon
    ltac:(done) Ha Hk A3) as (c4 & R4 & H4).
  - constructor; try done; [cbn; apply s32_small; unfold in_s32; lia|].
    intros j Hj. destruct Hc as ((Hs & _) & _).
    destruct (aget_is_Some (corestate (kern c)) j) as [ci Hci]; [by rewrite (kwf_cores _ Hs)|].
    rewrite <- selected_spec. change (enabled_core (kern c3) j) with (enabled_core m1 j). unfold enabled_core.
    rewrite (F3 j ci Hci). cbn [core_disabled Prelude.set].
    destruct (selected _ _ j); cbn; split; done || by intros [].
  - exists c4. split; [exact H4|]. rewrite Hg. exact (must_ok _ s _ _ R4).
Qed.

(** The two ways the start can end. *)
Definition start_outcome (k : Z) (s : mainst) (r : option Z) (s' : mainst) : Prop :=
  exists c, s' = s <| api := c |> /\
    ((r = Some (-1) /\ attached c /\ settings (kern c) = settings (kern (api s)) /\ iomaps (kern c) = []) \/
     (r = None /\ tuned_for s k true c)).

Lemma kernel_start_run k s : mode_args k s -> exists r s', kernel_start s = Ok (r, s') /\ start_outcome k s r s'.
Proof.
  intros Hs. pose proof Hs as [Hc Hd Hcores Ht Ha Hg Hk _]. unfold kernel_start, get_state.
  unfold mbind at 1, ST_bind at 1. unfold DDR_BW_AUTOTEST at 1. rewrite (proj2 (Z.eqb_neq _ _)) by lia.
  destruct (init_request (api s) Hc) as (b1 & R1 & A1).
  set (c1 := api s <| kern := answered (kern (api s)) b1 |>) in *.
  pose proof (must_ok _ s _ _ R1) as M1. replace (s <| api := api s |>) with s in M1 by by destruct s.
  rewrite (andthen_next _ _ _ _ M1).
  destruct (ddr_config_request c1 _ A1 Hd) as (r & m2 & R2 & A2 & Hset & [[-> _]|[-> Hno]]).
  - rewrite (andthen_next _ _ _ _ (must_ok _ s _ _ R2)).
    destruct (configure_rest k s _ Hs A2) as (c' & Hc' & ->). eexists _, _. split; [done|]. exists c'.
    split; [done|]. by right.
  - rewrite (andthen_exit _ _ _ _ _ (must_fail _ s _ _ R2)). eexists _, _. split; [done|].
    eexists. split; [done|]. by left.
Qed.

(** ** The key loop *)

(** The program while it waits for keys: its arguments are those of [s]. *)
Definition waiting (k : Z) (on : bool) (s s' : mainst) : Prop :=
  tuned_for s k on (api s') /\ g_core_first s' = g_core_first s /\ g_core_last s' = g_core_last s /\
  g_tunealg s' = g_tunealg s /\ g_aggr s' = g_aggr s /\ g_rdt_enabled s' = g_rdt_enabled s /\
  tty s' = raw_mode <$> tty s.

Lemma waiting_on_api {A} k on s (m : ST client A) P :
  runs (tuned_for s k on) m P (tuned_for s k on) -> runs (waiting k on s) (on_api m) P (waiting k on s).
Proof.
  intros Hm s1 (Hc & Hrest). specialize (Hm _ Hc). unfold wp, on_api, zoom in *.
  by destruct (m (api s1)) as [[r c]|]; [destruct Hm|].
Qed.

Lemma waiting_log_cores k on s :
  0 <= g_core_first s -> g_core_last s < MAX_NUM_CORES -> runs (waiting k on s) log_cores (fun _ => True) (waiting k on s).
Proof.
  intros H1 H2 s1 Hs1. unfold log_cores. apply wp_bind, wp_gets.
  pose proof Hs1 as (_ & E1 & E2 & _). rewrite E1, E2. revert s1 Hs1 E1 E2. intros s1 Hs1 _ _.
  apply (runs_for_each (waiting k on s)); [|done]. intros j [Hj1 Hj2]%elem_of_seqZ.
  assert (Hj : in_u 32 j) by (unfold in_u, MAX_NUM_CORES in *; lia).
  assert (Hm : runs (tuned_for s k on) (kernel_log_msr_values j) (fun _ => True) (tuned_for s k on)).
  { unfold kernel_log_msr_values. eapply runs_bind; [by apply tuned_msr_read|].
    intros a _. destruct (_ <? 0); by apply runs_ret. }
  assert (Hp : runs (tuned_for s k on) (kernel_log_pmu_values j) (fun _ => True) (tuned_for s k on)).
  { unfold kernel_log_pmu_values. eapply runs_bind; [by apply tuned_pmu_read|].
    intros a _. destruct (_ <? 0); by apply runs_ret. }
  assert (Hstep : forall (b : bool) m, runs (tuned_for s k on) m (fun _ : Z => True) (tuned_for s k on) ->
    runs (waiting k on s) (if b then on_api m ;; mret tt else mret tt) (fun _ => True) (waiting k on s)).
  { intros b m Hr. destruct b; [|by apply runs_ret].
    eapply runs_bind; [by apply waiting_on_api|]. intros _ _. by apply runs_ret. }
  apply (runs_bind _ (waiting k on s) _ _ _ (fun _ => True)); [by apply Hstep|]. intros _ _. by apply Hstep.
Qed.

Lemma waiting_handle_key k on s key : runs (waiting k on s) (handle_key key) (fun _ => True) (waiting k on s).
Proof.
  assert (Hf : forall f, (forall s1, waiting k on s s1 -> waiting k on s (f s1)) ->
    runs (waiting k on s) (modify f ;; mret false) (fun _ => True) (waiting k on s)).
  { intros f Hf. eapply runs_bind; [by apply runs_modify|]. intros _ _. by apply runs_ret. }
  assert (Hr : forall b, runs (waiting k on s) (mret b) (fun _ : bool => True) (waiting k on s)) by (intros; by apply runs_ret).
  unfold handle_key. destruct key as [c|]; [|done].
  destruct c as [[] [] [] [] [] [] [] []]; first [apply Hr|apply Hf; by intros s1].
Qed.

Lemma waiting_interrupt k on s :
  g_rdt_enabled s = 0 -> runs (waiting k on s) interrupt (fun _ => True) (waiting k on s).
Proof.
  intros Hr. unfold interrupt. eapply runs_bind; [by apply (runs_modify (waiting k on s) (waiting k on s))|].
  intros _ _ s1 Hs1. apply wp_bind, wp_gets. pose proof Hs1 as (_ & _ & _ & _ & _ & E & _). rewrite E, Hr. by apply wp_ret.
Qed.

(** The keys that end the loop, and the events. *)
Definition quit_key (key : option ascii) : bool := bool_decide (key = Some "q"%char \/ key = Some "Q"%char).

Definition quits (e : event) : bool := match e with Poll key => quit_key key | Sigint => false end.

Lemma handle_key_quits key s s' r : handle_key key s = Ok (r, s') -> r = quit_key key.
Proof.
  unfold quit_key, handle_key. destruct key as [c|]; [|by intros [= <- _]].
  destruct c as [[] [] [] [] [] [] [] []]; by intros [= <- _].
Qed.

Lemma waiting_key_loop k on s events :
  0 <= g_core_first s -> g_core_last s < MAX_NUM_CORES -> g_rdt_enabled s = 0 ->
  runs (waiting k on s) (key_loop events) (fun q => q = existsb quits events) (waiting k on s).
Proof.
  intros H1 H2 H3. induction events as [|[key|] events IH]; cbn [key_loop existsb quits]; [by apply runs_ret| |].
  2: { eapply runs_bind; [by apply waiting_interrupt|]. by intros _ _. }
  intros s1 Hs1. apply wp_bind. pose proof (waiting_handle_key k on s key s1 Hs1) as Hw. unfold wp in Hw |- * at 1.
  destruct (handle_key key s1) as [[q s2]|] eqn:Hkey; [|done]. destruct Hw as [_ Hw].
  rewrite (handle_key_quits _ _ _ _ Hkey). destruct (quit_key key); [by apply wp_ret|]. cbn [orb].
  revert s2 Hw Hkey. intros s2 Hw _. revert s2 Hw. change (runs (waiting k on s) (log_cores ;; key_loop events) (fun q => q = existsb quits events) (waiting k on s)).
  eapply runs_bind; [by apply waiting_log_cores|]. by intros _ _.
Qed.
End start.

(** ** Sessions *)

(** The kernel mode from its start to its end.  With a DDR configuration the
    module has tables for, a core range below 512, a target and a factor in
    tenths, the start either fails for want of a mapping of the DDR counters,
    with nothing left mapped and the module's settings as they were, or leaves
    the module working with exactly the online cores of the range, towards the
    target, with the algorithm and a tenth of the tenths, its monitor running.
    No sequence of keys and interrupts without a ['q'] or ['Q'] changes that, and
    while it waits the terminal is in the mode without lines and echo; once such
    a key comes the program returns 0 with the monitor stopped, the cores, the
    target and the algorithm still in place and the terminal as it was. *)
Theorem kernel_mode_session {L : Linux} (k : Z) (events : list event) (s : mainst) :
  (forall j, j ∈ online_cpus -> 0 <= j < MAX_NUM_CORES) -> mode_args k s ->
  exists r s', kernel_main events s = Ok (r, s') /\
    ((r = Some (-1) /\ iomaps (kern (api s')) = [] /\ settings (kern (api s')) = settings (kern (api s)) /\ tty s' = tty s) \/
     (if existsb quits events then r = Some 0 /\ tuned_for s k false (api s') /\ tty s' = tty s
      else r = None /\ tuned_for s k true (api s') /\ tty s' = raw_mode <$> tty s)).
Proof.
  intros Hon Hs. pose proof Hs as [_ _ [[Hc0 _] Hc2] _ Ha Hg Hk Hr].
  destruct (kernel_start_run Hon k s Hs) as (r & s1 & Hrun & c & -> & Hor).
  unfold kernel_main. rewrite (bind_Ok _ _ _ _ _ Hrun). destruct Hor as [(-> & _ & Hset & Hio)|[-> Hc]].
  { eexists _, _. split; [done|]. by left. }
  rewrite bind_gets, bind_modify. set (s1 := s <| api := c |> <| tty := _ |>).
  assert (Hw : waiting k true s s1) by (split; [exact Hc|done]).
  destruct (runs_Ok _ _ _ _ _ (waiting_key_loop k true s events Hc0 Hc2 Hr) Hw)
    as (q & s2 & Hloop & -> & (Hc2' & Hf & Hl & Htn & Hag & Hrd & Htty)).
  rewrite (bind_Ok _ _ _ _ _ Hloop). destruct (existsb quits events); cbn [negb]; [|eexists _, _; split; [done|]; by right].
  rewrite bind_modify. set (s3 := s2 <| tty := _ |>). rewrite (bind_Ok get_state _ s3 _ _ eq_refl).
  change (g_tunealg s3) with (g_tunealg s2). change (g_aggr s3) with (g_aggr s2). rewrite Htn, Hag, Hg. destruct Hc2' as [Hat Hts].
  destruct (tuned_control (g_core_first s) (g_core_last s) (g_ddr_bw_target s) (g_tunealg s) k 0 (api s3) Hon
    ltac:(done) Ha Hk Hat (ts_cores _ _ _ _ _ _ _ Hts)) as (c' & Rc & Hc').
  rewrite (bind_Ok _ _ _ _ _ (on_api_Ok _ s3 _ _ Rc)). eexists _, _. split; [done|]. by right.
Qed.

(** Two controllers of a client part, four cores, the default factor. *)
Definition kernel_args : mainst :=
  main0 [] <| g_core_first := 2 |> <| g_core_last := 5 |> <| g_ddr_bw_target := 20000 |>
    <| ddr_counters := dstate0 [] <| uddr := ddr_zero <| ddr_interface_type := DDR_CLIENT |>
         <| bar_address := 0xfedc0000 |> <| ddr_num_controllers := 2 |> |> |>.

Lemma example_client_attached : attached example_client.
Proof.
  split; [|done]. split; [exact (rd_wf _ example_client_ready)|]. split; [|done].
  unfold maps_ok. vm_compute. constructor.
Qed.

Lemma kernel_args_ok : mode_args 10 kernel_args.
Proof.
  constructor; try done; [exact example_client_attached|].
  split; [done|]. left. done.
Qed.

Lemma kernel_mode_session_witness :
  exists s', kernel_main (L := eight_cpus) [Poll None; Sigint; Poll (Some "m"%char); Poll (Some "q"%char)] kernel_args = Ok (Some 0, s') /\
    keep_running (kern (api s')) = false /\ tty s' = Some 0x8a3b /\ sys_active_cores (kern (api s')) = 4 /\ aggr (kern (api s')) = 1.
Proof.
  destruct (kernel_mode_session (L := eight_cpus) 10 [Poll None; Sigint; Poll (Some "m"%char); Poll (Some "q"%char)] kernel_args)
    as (r & s' & Hrun & H).
  - intros j Hj%elem_of_seqZ. unfold MAX_NUM_CORES. lia.
  - exact kernel_args_ok.
  - destruct H as [(-> & Hio & _)|[-> [[_ [[] ]] Htty]]].
    + exfalso. assert (Hne : forall r s', kernel_main (L := eight_cpus) [Poll None; Sigint; Poll (Some "m"%char); Poll (Some "q"%char)] kernel_args = Ok (r, s') ->
        r = Some 0) by (intros ? ?; vm_compute; congruence).
      specialize (Hne _ _ Hrun). discriminate.
    + exists s'. split; [exact Hrun|]. split; [assumption|]. split; [exact Htty|]. split; assumption.
Defined.
