(* ===== verification/Program.v ===== *)
(** * The program as a whole ([main.c], [main])

    [main] from its arguments on: the options of the command line or, without
    any, those of [config.json]; the set-up; and then either the kernel mode or
    the threads of the user mode.  The parts are in [Json], [Getopt], [Main],
    [KernelMode] and [Tuners]; here they are put together the way [main] does
    it, and what they guarantee is stated of the whole. *)

From stdpp Require Import relations.
From Stdlib Require Import Ascii.
From S2P Require Import Prelude Floats PerfEvents Msr KState KCommon KPmuDdr KApi KInv UserApi ClientRuns MsrDev RdtMbm PmuDdr UState Primitive Mab MabSetup Sync Threads UserMode Tuners SysDetect Json Getopt Main KernelMode.

(** ** State *)

(** The globals and locals of [main] ([Main]), the arguments made from the
    configuration file ([Json]) and what only the tuning threads use ([UState]). *)
Record process := { pm : mainst; pj : jstate; pu : ustate }.

#[export] Instance process_settable : Settable process := fun r => {| pm := pm r; pj := pj r; pu := pu r |}.

Abbreviation P := (ST process).

Definition on_main {A} (m : ST mainst A) : P A := zoom pm (fun x p => p <| pm := x |>) m.

Definition on_json {A} (m : ST jstate A) : P A := zoom pj (fun x p => p <| pj := x |>) m.

Definition on_tuners {A} (m : ST ustate A) : P A := zoom pu (fun x p => p <| pu := x |>) m.

(** The globals of [main.c] that the threads read, as [UState] has them. *)
Definition shared (s : mainst) (u : ustate) : ustate :=
  u <| UState.core_first := g_core_first s |> <| UState.core_last := g_core_last s |>
    <| UState.aggr := g_aggr s |> <| UState.time_intervall := g_time_intervall s |>
    <| UState.ddr_bw_target := g_ddr_bw_target s |> <| UState.rdt_enabled := g_rdt_enabled s |>
    <| UState.pmu_method := g_pmu_method s |> <| UState.num_events := g_num_events s |>
    <| UState.perf := perf_events s |> <| UState.mem := ddr_counters s |>
    <| UState.dev := msrs s <| MsrDev.tunealg := g_tunealg s |> |>.

(** How far [main] gets: it returns, it waits for keys in the kernel mode, or the
    threads run and it waits for the first of them. *)
Inductive ending := Returns (r : Z) | Waits | Tunes.

(** ** [main] *)

Section main.
Context (strtof : string -> spec_float) (format_g : spec_float -> string).
Context (parse_json : string -> option (list entry)) (config_file : option string).
Context (eax : Z -> Z) (edx available_cores : Z) (dmi_file : option (list Z))
  (dmi_stack : list (gmap string Z)) (dmi_header : Z * Z) (cpuid : Z -> Z -> cpuid_out) (nprocessors_onln : Z)
  (pci_found : option (list pci_dev)) {L : Linux}.
Context (parse_mab : list Z -> option (string -> option item)) (mab_file : option file) (calloc_ipc calloc_sd : bool).

(** The arguments from the configuration file; [None] when [main] returns -1. *)
Definition read_config (argv0 : string) : P (option Z) :=
  r ← on_json json_init;
  if r <? 0 then mret None else
  json_argc ← on_json (json_parse format_g parse_json config_file argv0);
  if json_argc <? 0 then on_json json_deinit ;; mret None else mret (Some json_argc).

(** What the option loop scans: the words of [json_argv] or of [argv]. *)
Definition scanned (json_argc : Z) (args : list string) : P (list string) :=
  if 0 <? json_argc then
    av ← gets (fun p => json_argv (pj p));
    match mapM id (take (Z.to_nat (json_argc - 1)) (tail av)) with
    | Some ws => mret ws
    | None => stop_with NullDeref
    end
  else mret args.

(** From the choice of the mode on. *)
Definition run_mode (events : list event) : P ending :=
  s ← gets pm;
  if kernel_mode s =? 1 then
    r ← on_main (kernel_main events);
    mret (match r with Some r => Returns r | None => Waits end)
  else
    modify (fun p => p <| pu ::= shared (pm p) |>) ;;
    on_tuners (start_tuners parse_mab mab_file calloc_ipc calloc_sd) ;;
    mret Tunes.

Definition after_options (events : list event) : P ending :=
  r ← on_main (set_up eax edx available_cores dmi_file dmi_stack dmi_header cpuid nprocessors_onln);
  match r with
  | Some r => mret (Returns r)
  | None => run_mode events
  end.

(** From the option loop on; [json_argc] is 0 when the words are those of [argv]. *)
Definition with_options (json_argc : Z) (ws : list string) (events : list event) : P ending :=
  r ← on_main (option_loop strtof (S (scan_size (at_words ws))) (at_words ws));
  match r with
  | Some r => mret (Returns r)
  | None =>
      (if 0 <? json_argc then on_json json_deinit else mret 0) ;;
      after_options events
  end.

(** [main] with the name of the program, the other arguments and what happens
    while it waits for keys. *)
Definition main (argv0 : string) (args : list string) (events : list event) : P ending :=
  on_main (main_begin pci_found) ;;
  c ← match args with [] => read_config argv0 | _ => mret (Some 0) end;
  match c with
  | None => mret (Returns (-1))
  | Some json_argc => ws ← scanned json_argc args; with_options json_argc ws events
  end.
End main.

(** ** What the options and the choices leave alone *)

Record kept {L : Linux} (s s' : mainst) : Prop := {
  kp_ddr : ddr_counters s' = ddr_counters s;
  kp_msrs : msrs s' = msrs s;
  kp_rdt : g_rdt_enabled s' = g_rdt_enabled s;
  kp_tty : tty s' = tty s;
  kp_api : attached (api s) -> attached (api s') }.

Section choices.
Context {L : Linux}.

Lemma kept_get_state s0 : preserves (kept s0) get_state.
Proof. by intros s. Qed.

Lemma kept_on_perf {A} s0 (m : ST pstate A) : preserves (kept s0) (Main.on_perf m).
Proof. intros s []. unfold wp, Main.on_perf, zoom. by destruct (m _) as [[a x]|]. Qed.

Lemma kept_on_aff {A} s0 (m : ST affinity A) : preserves (kept s0) (on_aff m).
Proof. intros s []. unfold wp, on_aff, zoom. by destruct (m _) as [[a x]|]. Qed.

Lemma kept_weights s0 n ws : preserves (kept s0) (on_api (kernel_set_core_weights n ws)).
Proof.
  intros s [Hd Hm Hr Ht Ha]. unfold wp, on_api, zoom.
  destruct (kernel_set_core_weights n ws (api s)) as [[r c]|] eqn:Hk; [|done]. split; try done. intros H0.
  pose proof (attached_call (CoreWeights n ws) (api s) (Ha H0)) as Hc. unfold wp, run_call in Hc.
  by rewrite (bind_Ok _ _ _ _ _ Hk) in Hc.
Qed.

Hint Resolve kept_get_state kept_on_perf kept_on_aff kept_weights : preserve.

Ltac keep := preserve; try (apply preserves_modify; by intros ? []).

Lemma option_keeps strtof s0 c optarg : preserves (kept s0) (apply_option strtof c optarg).
Proof.
  assert (Hm : forall f (r : option Z), (forall s, kept s0 s -> kept s0 (f s)) -> preserves (kept s0) (modify f ;; mret r)).
  { intros f r Hf. apply preserves_bind; [by apply preserves_modify|]. intros _. apply preserves_ret. }
  assert (Hr : forall r : option Z, preserves (kept s0) (mret r)) by (intros; apply preserves_ret).
  assert (Hl : preserves (kept s0) (log_setlevel (Main.atoi optarg) ;; mret (None (A := Z)))) by (unfold log_setlevel; keep).
  assert (Hp : preserves (kept s0) (apply_option strtof "p"%char optarg)) by (cbn [apply_option]; keep).
  destruct c as [[] [] [] [] [] [] [] []];
    first [apply Hr|apply Hl|apply Hp|cbn [apply_option]; apply Hm; by intros s []].
Qed.

Lemma options_keep strtof s0 opts : preserves (kept s0) (apply_options strtof opts).
Proof.
  induction opts as [|[c optarg] opts IH]; cbn [apply_options]; [apply preserves_ret|].
  apply preserves_bind; [apply option_keeps|]. intros [r|]; [apply preserves_ret|apply IH].
Qed.

Lemma set_priority_keeps s0 p : preserves (kept s0) (set_priority p).
Proof. unfold set_priority. keep. Qed.

Hint Resolve set_priority_keeps : preserve.

Lemma parse_weights_keeps s0 args : preserves (kept s0) (parse_weights args).
Proof.
  assert (Hl : forall ts, preserves (kept s0) (weights_loop ts)).
  { induction ts as [|t ts IH]; cbn [weights_loop]; [apply preserves_ret|].
    apply preserves_bind; [apply kept_get_state|]. intros s. destruct (_ =? _); [apply preserves_ret|].
    destruct (Main.strtol t) as [v e]. cbv zeta. destruct (negb _); [apply preserves_ret|]. destruct (_ || _); [apply preserves_ret|].
    apply preserves_bind; [apply set_priority_keeps|]. by intros _. }
  unfold parse_weights. apply preserves_bind; [apply Hl|]. intros ok. keep.
Qed.

Hint Resolve parse_weights_keeps : preserve.

Lemma andthen_keeps s0 m k : preserves (kept s0) m -> preserves (kept s0) k -> preserves (kept s0) (andthen m k).
Proof. intros Hm Hk. unfold andthen. apply preserves_bind; [done|]. intros [r|]; [apply preserves_ret|done]. Qed.

Context (strtof : string -> spec_float) (eax : Z -> Z) (edx available_cores : Z) (dmi_file : option (list Z))
  (dmi_stack : list (gmap string Z)) (dmi_header : Z * Z) (cpuid : Z -> Z -> cpuid_out) (nprocessors_onln : Z).

(** The options and the choices of cores, priorities and target that follow them. *)
Definition choices (opts : list answer) : ST mainst (option Z) :=
  andthen (apply_options strtof opts)
    (andthen (choose_cores eax edx available_cores)
      (andthen set_weights (choose_target dmi_file dmi_stack dmi_header))).

Lemma choices_keep s0 opts : preserves (kept s0) (choices opts).
Proof.
  unfold choices. apply andthen_keeps; [apply options_keep|]. apply andthen_keeps; [unfold choose_cores; keep|].
  apply andthen_keeps; [unfold set_weights; keep|]. unfold choose_target, dmi_bandwidth. keep.
Qed.

Lemma choices_kept opts s r s' : choices opts s = Ok (r, s') -> kept s s'.
Proof. intros H. pose proof (choices_keep s opts s ltac:(by split)) as Hk. unfold wp in Hk. by rewrite H in Hk. Qed.

Lemma andthen_inv m k s s' : andthen m k s = Ok (None, s') -> exists s1, m s = Ok (None, s1) /\ k s1 = Ok (None, s').
Proof. unfold andthen, mbind, ST_bind. destruct (m s) as [[[r|] s1]|]; [done|by exists s1|done]. Qed.

(** When they all succeed, what is left of the set-up is the search of the counters. *)
Lemma choices_set_up opts s s' :
  choices opts s = Ok (None, s') ->
  exists s1, apply_options strtof opts s = Ok (None, s1) /\
    set_up eax edx available_cores dmi_file dmi_stack dmi_header cpuid nprocessors_onln s1 =
    choose_counters cpuid nprocessors_onln s'.
Proof.
  intros (s1 & H1 & (s2 & H2 & (s3 & H3 & H4)%andthen_inv)%andthen_inv)%andthen_inv. exists s1. split; [done|].
  unfold set_up. by rewrite (andthen_next _ _ _ _ H2), (andthen_next _ _ _ _ H3), (andthen_next _ _ _ _ H4).
Qed.

Lemma choose_counters_run s t d :
  pmu_ddr_init (kernel_mode s) (ddr_counters s) = Ok (t, d) -> t <> DDR_NONE ->
  choose_counters cpuid nprocessors_onln s = Ok (None, s <| ddr_counters := d |>).
Proof.
  intros Hd Ht. unfold choose_counters. rewrite (bind_Ok get_state _ s _ _ eq_refl).
  rewrite (bind_Ok _ _ s t (s <| ddr_counters := d |>)); [by rewrite (proj2 (Z.eqb_neq _ _))|].
  unfold on_ddr, zoom. by rewrite Hd.
Qed.
End choices.

(** The cores of a run: [first] to [first + n - 1]. *)
Record chosen (first : Z) (n : nat) (s : mainst) : Prop := {
  ch_range : 0 <= first /\ first + Z.of_nat n <= KState.MAX_NUM_CORES;
  ch_some : (0 < n)%nat;
  ch_first : g_core_first s = first;
  ch_last : g_core_last s = first + Z.of_nat n - 1 }.

(** ** The configuration file and the command line *)

(** A run with other arguments in memory. *)
Definition overlay {A} (j : jstate) (o : outcome (A * process)) : outcome (A * process) :=
  match o with Ok (a, p) => Ok (a, p <| pj := j |>) | Stop e => Stop e end.

(** Code that neither reads nor changes them. *)
Definition ignores_json {A} (m : P A) : Prop := forall j p, m (p <| pj := j |>) = overlay j (m p).

Lemma ignores_ret {A} (a : A) : ignores_json (mret a).
Proof. by intros j p. Qed.

Lemma ignores_bind {A B} (m : P A) (k : A -> P B) :
  ignores_json m -> (forall a, ignores_json (k a)) -> ignores_json (m ≫= k).
Proof.
  intros Hm Hk j p. unfold mbind, ST_bind. rewrite Hm. destruct (m p) as [[a p']|e]; [|done]. apply Hk.
Qed.

Lemma ignores_on_main {A} (m : ST mainst A) : ignores_json (on_main m).
Proof. intros j p. unfold on_main, zoom. cbn. by destruct (m (pm p)) as [[a s]|e]. Qed.

Lemma ignores_on_tuners {A} (m : ST ustate A) : ignores_json (on_tuners m).
Proof. intros j p. unfold on_tuners, zoom. cbn. by destruct (m (pu p)) as [[a s]|e]. Qed.

Create HintDb ignore.
#[export] Hint Resolve ignores_ret ignores_bind ignores_on_main ignores_on_tuners : ignore.

Lemma mapM_Some {A} (l : list A) : mapM id (map Some l) = Some l.
Proof. induction l as [|a l IH]; [done|]. cbn. by rewrite IH. Qed.

Lemma on_main_Ok {A} (m : ST mainst A) p a s : m (pm p) = Ok (a, s) -> on_main m p = Ok (a, p <| pm := s |>).
Proof. intros H. unfold on_main, zoom. by rewrite H. Qed.

Lemma on_main_put {A} (m : ST mainst A) p s a s' : m s = Ok (a, s') -> on_main m (p <| pm := s |>) = Ok (a, p <| pm := s' |>).
Proof. intros H. unfold on_main, zoom. cbn. by rewrite H. Qed.

Lemma on_json_Ok {A} (m : ST jstate A) p a j : m (pj p) = Ok (a, j) -> on_json m p = Ok (a, p <| pj := j |>).
Proof. intros H. unfold on_json, zoom. by rewrite H. Qed.

Section configuration.
Context (strtof : string -> spec_float) (format_g : spec_float -> string).
Context (parse_json : string -> option (list entry)).
Context (eax : Z -> Z) (edx available_cores : Z) (dmi_file : option (list Z))
  (dmi_stack : list (gmap string Z)) (dmi_header : Z * Z) (cpuid : Z -> Z -> cpuid_out) (nprocessors_onln : Z)
  (pci_found : option (list pci_dev)) {L : Linux}.
Context (parse_mab : list Z -> option (string -> option item)) (mab_file : option file) (calloc_ipc calloc_sd : bool).

Abbreviation dpf config_file := (main strtof format_g parse_json config_file eax edx available_cores dmi_file
  dmi_stack dmi_header cpuid nprocessors_onln pci_found parse_mab mab_file calloc_ipc calloc_sd).

Abbreviation rest := (after_options eax edx available_cores dmi_file dmi_stack dmi_header cpuid nprocessors_onln
  parse_mab mab_file calloc_ipc calloc_sd).

Lemma rest_ignores events : ignores_json (rest events).
Proof.
  unfold after_options. apply ignores_bind; [apply ignores_on_main|]. intros [r|]; [apply ignores_ret|].
  unfold run_mode. apply ignores_bind; [by intros j p|]. intros s. destruct (kernel_mode s =? 1); [auto with ignore|].
  apply ignores_bind; [by intros j p|]. auto with ignore.
Qed.

Abbreviation options_then := (with_options strtof eax edx available_cores dmi_file dmi_stack dmi_header cpuid nprocessors_onln
  parse_mab mab_file calloc_ipc calloc_sd).

(** What [main] does with the words, by what the options do. *)
Lemma with_options_run n ws events p :
  options_then n ws events p =
  match apply_options strtof (options (OT := dpf_options) ws) (pm p) with
  | Ok (Some r, s) => Ok (Returns r, p <| pm := s |>)
  | Ok (None, s) => ((if 0 <? n then on_json json_deinit else mret 0) ;; rest events) (p <| pm := s |>)
  | Stop e => Stop e
  end.
Proof.
  unfold with_options. unfold mbind at 1, ST_bind at 1. unfold on_main at 1, zoom. rewrite option_loop_options.
  change (answers _ (at_words ws)) with (options (OT := dpf_options) ws). by destruct (apply_options _ _ _) as [[[r|] s]|e].
Qed.

(** The words of a configuration. *)
Definition config_words (kvts : list (string * jvalue * string)) : list string :=
  flat_map pair_list (map option_of kvts).

(** A configuration file the program can read. *)
Record good_config (content : string) (kvts : list (string * jvalue * string)) : Prop := {
  gc_parse : parse_json (cut content) = Some (map entry_of (map fst kvts));
  gc_some : kvts <> [];
  gc_few : (length kvts <= 24)%nat;
  gc_names : distinct (map fst kvts);
  gc_values : Forall (Json.readable format_g) kvts }.

(** Reading it, and what the option loop then scans. *)
Lemma read_config_run content kvts argv0 p :
  good_config content kvts -> mallocs (pj p) = [] ->
  exists j, read_config format_g parse_json (Some content) argv0 p = Ok (Some (2 * zlen kvts + 1), p <| pj := j |>) /\
    live j = live (pj p) + 2 * zlen kvts + 2 /\
    json_argv j = map Some (cut argv0 :: config_words kvts) ++ replicate (49 - 2 * length kvts) None.
Proof.
  intros [Hp _ Hlen Hd Hr] Hm. destruct (json_init_run (pj p) Hm) as (j1 & H1 & Hf & Hl1).
  assert (Hn : length (map entry_of (map fst kvts)) = length kvts) by (by rewrite !length_map).
  pose proof (json_parse_arguments format_g parse_json content argv0 _ _ j1 Hp (readable_arguments format_g kvts Hd Hr)
    ltac:(lia) Hf) as H2. unfold zlen in H2. rewrite Hn in H2. fold (zlen kvts) in H2.
  unfold read_config. rewrite (bind_Ok _ _ _ _ _ (on_json_Ok _ p _ _ H1)). change (0 <? 0) with false. cbv iota.
  set (p1 := p <| pj := j1 |>). rewrite (bind_Ok _ _ _ _ _ (on_json_Ok _ p1 _ _ H2)).
  rewrite (proj2 (Z.ltb_ge _ _)) by (unfold zlen; lia). eexists. split; [done|]. split; [|done].
  unfold with_args, Prelude.set. cbn -[Z.mul zlen]. rewrite Hl1. lia.
Qed.

Lemma length_config_words kvts : length (config_words kvts) = (2 * length kvts)%nat.
Proof. unfold config_words. by rewrite length_pair_list, length_map. Qed.

Lemma scanned_config kvts argv0 args k p :
  json_argv (pj p) = map Some (argv0 :: config_words kvts) ++ replicate k None ->
  scanned (2 * zlen kvts + 1) args p = Ok (config_words kvts, p).
Proof.
  intros Ha. unfold scanned. rewrite (proj2 (Z.ltb_lt _ _)) by (unfold zlen; lia). rewrite bind_gets, Ha. cbn [map app tail].
  replace (Z.to_nat (2 * zlen kvts + 1 - 1)) with (length (map Some (config_words kvts)))
    by (rewrite length_map, length_config_words; unfold zlen; lia).
  by rewrite take_app_length, mapM_Some.
Qed.

Lemma json_deinit_run args k j :
  json_argv j = map Some args ++ replicate (S k) None ->
  exists j', json_deinit j = Ok (0, j') /\ live j' = live j - zlen args - 1.
Proof.
  intros Ha. unfold json_deinit. rewrite bind_gets, Ha, (bind_Ok _ _ _ _ _ (free_args_run args k j)), bind_modify.
  eexists. split; [done|]. cbn. lia.
Qed.

(** C15: running the program with a configuration file is running it with the
    command line that the file spells: with at most 24 entries whose names
    differ by more than case, the run without arguments does exactly what the
    run does that is given the names and the texts of the values as words, in
    every respect: how it ends, the options, the devices, the module, the
    threads; and the memory of the arguments has been freed, unless an option
    ended the program at once. *)
Theorem config_is_command_line content kvts argv0 events p :
  good_config content kvts -> mallocs (pj p) = [] ->
  exists j, dpf (Some content) argv0 [] events p = overlay j (dpf (Some content) argv0 (config_words kvts) events p) /\
    (live j = live (pj p) \/
     exists d r s, apply_options strtof (options (OT := dpf_options) (config_words kvts)) (begun d (pm p)) = Ok (Some r, s)).
Proof.
  intros Hc Hm. pose proof Hc as [_ Hne Hlen _ _]. unfold main.
  destruct (main_begin_run pci_found (pm p)) as (r0 & d & _ & Hb). pose proof (on_main_Ok _ p _ _ Hb) as Hb'.
  rewrite !(bind_Ok _ _ _ _ _ Hb'). set (p1 := p <| pm := begun d (pm p) |>).
  destruct (read_config_run content kvts argv0 p1 Hc Hm) as (j & Hj & Hlive & Hargv).
  rewrite (bind_Ok _ _ _ _ _ Hj).
  assert (Hscan : scanned (2 * zlen kvts + 1) [] (p1 <| pj := j |>) = Ok (config_words kvts, p1 <| pj := j |>))
    by (eapply scanned_config; cbn; exact Hargv).
  rewrite (bind_Ok _ _ _ _ _ Hscan).
  rewrite (bind_Ok _ _ p1 (Some 0) p1).
  2: { destruct kvts as [|kvt kvts]; [done|]. done. }
  rewrite (bind_Ok (scanned 0 _) _ p1 _ _ eq_refl), !with_options_run.
  change (pm (p1 <| pj := j |>)) with (begun d (pm p)). change (pm p1) with (begun d (pm p)).
  destruct (apply_options strtof (options (OT := dpf_options) (config_words kvts)) (begun d (pm p))) as [[[r|] s]|e] eqn:Ha.
  - exists j. split; [done|]. right. by exists d, r, s.
  - rewrite (proj2 (Z.ltb_lt _ _)) by (unfold zlen; lia).
    replace (49 - 2 * length kvts)%nat with (S (48 - 2 * length kvts)) in Hargv by lia.
    destruct (json_deinit_run _ _ _ Hargv) as (j' & Hde & Hlive').
    set (p2 := p1 <| pm := s |>). change (p1 <| pj := j |> <| pm := s |>) with (p2 <| pj := j |>).
    assert (Hde' : on_json json_deinit (p2 <| pj := j |>) = Ok (0, p2 <| pj := j' |>)) by (unfold on_json, zoom; cbn; by rewrite Hde).
    rewrite (bind_Ok _ _ _ _ _ Hde'), rest_ignores. exists j'. split; [done|]. left.
    rewrite Hlive', Hlive. change (live (pj p1)) with (live (pj p)).
    assert (Hz : zlen (cut argv0 :: config_words kvts) = 2 * zlen kvts + 1)
      by (unfold zlen; cbn [length]; rewrite length_config_words; lia).
    rewrite Hz. lia.
  - by exists (pj p); auto.
Qed.

(** An option without an argument is set by its name alone: the value of its entry
    is a word that is passed over.  [{"-k": false}] turns the kernel mode on. *)
Theorem config_flag_value c v t kvts :
  letter (OT := dpf_options) c = Some false -> is_option t = false ->
  options (OT := dpf_options) (config_words ((dash (String c EmptyString), v, t) :: kvts)) =
  flag c :: options (OT := dpf_options) (config_words kvts).
Proof.
  intros Hc Ht. exact (eq_trans (piece_run (OT := dpf_options) (Flags c []) (t :: config_words kvts) ltac:(by constructor))
    (f_equal (cons (flag c)) (piece_run (OT := dpf_options) (Plain t) (config_words kvts) Ht))).
Qed.

(** ** Runs from the command line *)

(** [main] with arguments, by what the options do. *)
Lemma main_command_line config argv0 args events p r d :
  args <> [] -> pcie_init pci_found (ddr_counters (pm p)) = Ok (r, d) ->
  dpf config argv0 args events p =
  match apply_options strtof (options (OT := dpf_options) args) (begun d (pm p)) with
  | Ok (Some r, s) => Ok (Returns r, p <| pm := s |>)
  | Ok (None, s) => rest events (p <| pm := s |>)
  | Stop e => Stop e
  end.
Proof.
  intros Hne Hd. destruct (main_begin_run pci_found (pm p)) as (r0 & d' & Hd' & Hb). rewrite Hd in Hd'. injection Hd' as <- <-.
  unfold main. rewrite (bind_Ok _ _ _ _ _ (on_main_Ok _ p _ _ Hb)). set (p1 := p <| pm := begun d (pm p) |>).
  rewrite (bind_Ok _ _ p1 (Some 0) p1) by (by destruct args). rewrite (bind_Ok (scanned 0 args) _ p1 _ _ eq_refl), with_options_run.
  change (pm p1) with (begun d (pm p)). by destruct (apply_options _ _ _) as [[[x|] s]|e].
Qed.

(** A process at its start, on a machine whose devices answer. *)
Record fresh_process (p : process) : Prop := {
  fr_found : num_controllers (ddr_counters (pm p)) = 0 /\ mappable (ddr_counters (pm p));
  fr_mem : mem_opens (ddr_counters (pm p)) = [] /\ next_va (ddr_counters (pm p)) < 2 ^ 62;
  fr_calls : ios (msrs (pm p)) = [] /\ MsrDev.opens (msrs (pm p)) = [];
  fr_files : msr_file_id (msrs (pm p)) = replicate 512 0 /\ fds (msrs (pm p)) = ∅ /\ 0 < low_fd (msrs (pm p));
  fr_rdt : num_cores (msrs (pm p)) = 0 /\ g_rdt_enabled (pm p) = 0;
  fr_threads : threads_wf (pu p);
  fr_bandit : mab_world (pu p) /\ 0 <= algorithm (mstate (pu p)) <= 2 /\
    Forall (fun t => zlen t = HWPF_MSR_FIELDS) (hwpf_msr_values (arms (pu p))) }.

(** The algorithm of a run in user mode on [n] cores: one of the two that follow
    the bandwidth, with steps that are numbers, and sixteen cores for the second; or
    the bandit, with a configuration file that names arms and a learning algorithm,
    and memory for the filter of deviations where it asks for it. *)
Inductive algorithm_choice (n : nat) (s : mainst) : Prop :=
  | chooses_basic :
      g_tunealg s = 0 \/ g_tunealg s = 1 /\ 16 <= Z.of_nat n -> steps_ok (g_aggr s) -> algorithm_choice n s
  | chooses_bandit data get c :
      g_tunealg s = MsrDev.MAB -> read_file mab_file = Some data -> parse_mab data = Some get ->
      config_ok get c -> (asks_sd get -> calloc_ipc = true /\ calloc_sd = true) -> algorithm_choice n s.

(** The counters are read through the MSR devices, or as perf events that can be
    opened. *)
Definition counters_choice (s : mainst) : Prop :=
  g_pmu_method s = PMU_RAW \/ g_pmu_method s = PMU_PERF /\ 0 <= g_num_events s <= 7 /\ perf_answers (perf_events s).

(** The choices of a run in user mode. *)
Record user_choice (n : nat) (s : mainst) : Prop := {
  uc_mode : kernel_mode s = 0;
  uc_pmu : counters_choice s;
  uc_alg : algorithm_choice n s }.

Lemma shared_ready first n s u :
  chosen first n s -> algorithm_choice n s -> UserMode.readable (ddr_counters s) -> threads_wf u ->
  mab_world u -> 0 <= algorithm (mstate u) <= 2 ->
  Forall (fun t => zlen t = HWPF_MSR_FIELDS) (hwpf_msr_values (arms u)) ->
  ready parse_mab mab_file calloc_ipc calloc_sd n (shared s u).
Proof.
  intros [[Hr1 Hr2] Hn Hf Hl] Halg Hread Hwf [] Hal Ht. unfold KState.MAX_NUM_CORES in *.
  destruct Halg as [Ha Hst|data get c Ha Hfile Hp Hc Hsd]; [by apply ready_basic|].
  apply (ready_bandit _ _ _ _ _ _ data get c); try done. split; try done. cbn. unfold MAX_ARMS. lia.
Qed.

Lemma shared_configured first n s u :
  chosen first n s -> counters_choice s -> threads_wf u ->
  ios (msrs s) = [] /\ MsrDev.opens (msrs s) = [] ->
  msr_file_id (msrs s) = replicate 512 0 /\ fds (msrs s) = ∅ /\ 0 < low_fd (msrs s) ->
  num_cores (msrs s) = 0 /\ g_rdt_enabled s = 0 ->
  Tuners.configured first n (shared s u).
Proof.
  intros [Hr Hn Hf Hl] Hpm Hwf Hcalls (Hids & Hfds & Hnext) [Hnc Hrdt].
  assert (Hid : forall i, 0 <= i < 512 -> aget (msr_file_id (msrs s)) i = Some 0).
  { intros i Hi. rewrite Hids. unfold aget. destruct (Z.leb_spec 0 i); [|lia]. apply lookup_replicate. split; [done|lia]. }
  destruct Hr as [Hr1 Hr2]. unfold KState.MAX_NUM_CORES in *.
  split; [done|done|done|by split|done|done| | |].
  - split; [cbn; by rewrite Hids|]. intros i Hi. apply Hid. lia.
  - cbn. by rewrite Hfds.
  - split; [done|]. intros _. apply Hid. lia.
Qed.

(** The state in which the options are applied. *)
Definition at_options (devs : list pci_dev) (p : process) : mainst :=
  begun (ddr_counters (pm p) <| PmuDdr.devices := Some devs |>) (pm p).

Abbreviation chooses args := (choices strtof eax edx available_cores dmi_file dmi_stack dmi_header (options (OT := dpf_options) args)).

(** Up to the choice of the mode. *)
Lemma options_to_mode config argv0 args events p devs t nc bar d s :
  pci_found = Some devs -> bus devs t nc bar -> args <> [] -> chooses args (at_options devs p) = Ok (None, s) ->
  pmu_ddr_init (kernel_mode s) (ddr_counters (pm p) <| PmuDdr.devices := Some devs |>) = Ok (t, d) ->
  dpf config argv0 args events p =
    run_mode parse_mab mab_file calloc_ipc calloc_sd events (p <| pm := s <| ddr_counters := d |> |>).
Proof.
  intros Hpci Hbus Hne Hch Hinit. destruct (bus_count _ _ _ _ Hbus) as (Ht & _).
  assert (Hpcie : exists r, pcie_init pci_found (ddr_counters (pm p)) = Ok (r, ddr_counters (pm p) <| PmuDdr.devices := Some devs |>)).
  { rewrite Hpci. unfold pcie_init. rewrite bind_modify. by eexists. }
  destruct Hpcie as [r Hpcie]. rewrite (main_command_line _ _ _ _ _ _ _ Hne Hpcie).
  fold (at_options devs p). pose proof (kp_ddr _ _ (choices_kept _ _ _ _ _ _ _ _ _ _ _ Hch)) as Hd.
  destruct (choices_set_up _ _ _ _ _ _ _ cpuid nprocessors_onln _ _ _ Hch) as (s1 & -> & Hset).
  rewrite (choose_counters_run _ _ s t d) in Hset; [|by rewrite Hd|by destruct Ht as [-> | ->]]. unfold after_options.
  by rewrite (bind_Ok _ _ _ _ _ (on_main_put _ p _ _ _ Hset)).
Qed.


(** The choices of a run in kernel mode: a target, an algorithm and an
    aggressiveness in tenths. *)
Record kernel_choice (k : Z) (s : mainst) : Prop := {
  kc_mode : kernel_mode s = 1;
  kc_target : 0 <= g_ddr_bw_target s < 2 ^ 31;
  kc_alg : 0 <= g_tunealg s < 2 ^ 31;
  kc_aggr : g_aggr s = tenths k;
  kc_tenths : 0 <= k <= 50 }.

(** C13: the program from its command line to the kernel module.  On a client or
    server whose DDR controllers are on the PCI bus, when the options choose the
    kernel mode, and cores, priorities and target are given or found on the
    machine, the run either ends with -1 because the module cannot map the DDR
    counters, with the module's settings as they were, nothing mapped and the
    terminal untouched; or the
    module tunes exactly the online cores of the range, towards the target, with
    the algorithm and a tenth of the tenths of aggressiveness.  No sequence of
    keys and interrupts without a ['q'] or ['Q'] ends that, and while the program
    waits the terminal has neither lines nor echo; with such a key it returns 0,
    the monitor stopped and the terminal as it was. *)
Theorem command_line_to_module config argv0 args events p devs t nc bar s first n k :
  (forall j, j ∈ online_cpus -> 0 <= j < KState.MAX_NUM_CORES) -> attached (api (pm p)) -> fresh_process p ->
  pci_found = Some devs -> bus devs t nc bar -> 0 < nc -> args <> [] ->
  chooses args (at_options devs p) = Ok (None, s) -> chosen first n s -> kernel_choice k s ->
  exists e p', dpf config argv0 args events p = Ok (e, p') /\
    let tuning := tuned first (first + Z.of_nat n - 1) (g_ddr_bw_target s) (g_tunealg s) k in
    ((e = Returns (-1) /\ iomaps (kern (api (pm p'))) = [] /\
      settings (kern (api (pm p'))) = settings (kern (api s)) /\ tty (pm p') = tty (pm p)) \/
     (if existsb quits events then e = Returns 0 /\ tuning false (api (pm p')) /\ tty (pm p') = tty (pm p)
      else e = Waits /\ tuning true (api (pm p')) /\ tty (pm p') = raw_mode <$> tty (pm p))).
Proof.
  intros Hon Hat [[Hnum _] _ _ _ [_ Hrdt] _ _] Hpci Hbus Hnc Hne Hopt Hch [Hmode Htarget Halg Hag Hk].
  set (d0 := ddr_counters (pm p) <| PmuDdr.devices := Some devs |>).
  pose proof (ddr_init_kernel devs t nc bar d0 eq_refl Hbus Hnum) as Hinit.
  pose proof (choices_kept _ _ _ _ _ _ _ _ _ _ _ Hopt) as [_ _ Hrd Htty Hapi]. cbn in Hapi, Hrd, Htty.
  assert (Hrun := options_to_mode config argv0 args events p devs t nc bar (found_ddr t nc bar d0) s Hpci Hbus Hne Hopt
    ltac:(rewrite Hmode; exact Hinit)).
  set (s' := s <| ddr_counters := _ |>) in *.
  destruct (bus_count _ _ _ _ Hbus) as (Ht & Hcount & Hone). pose proof (bus_bar _ _ _ _ Hbus) as Hbar.
  destruct Hch as [[Hr1 Hr2] Hn Hf Hl].
  assert (Hargs : mode_args k s').
  { split; try done.
    - by apply Hapi.
    - split; [done|]. destruct Ht as [-> | ->]; [left|right]; cbn; (split; [done|]).
      + rewrite Hone by done. lia.
      + unfold MAX_NUM_DDR_CONTROLLERS. lia.
    - change (0 <= g_core_first s <= g_core_last s /\ g_core_last s < KState.MAX_NUM_CORES). lia.
    - change (g_rdt_enabled s = 0). by rewrite Hrd. }
  destruct (kernel_mode_session k events s' Hon Hargs) as (r & s2 & Hmain & Hor).
  eexists _, (p <| pm := s2 |>). split.
  - rewrite Hrun. unfold run_mode. rewrite bind_gets. change (kernel_mode (pm (p <| pm := s' |>))) with (kernel_mode s).
    rewrite Hmode. cbn [Z.eqb Pos.eqb]. by rewrite (bind_Ok _ _ _ _ _ (on_main_put _ p _ _ _ Hmain)).
  - cbv zeta. change (pm (p <| pm := s2 |>)) with s2. unfold tuned_for in Hor.
    change (g_core_first s') with (g_core_first s) in Hor. change (g_core_last s') with (g_core_last s) in Hor.
    change (g_ddr_bw_target s') with (g_ddr_bw_target s) in Hor. change (g_tunealg s') with (g_tunealg s) in Hor.
    change (tty s') with (tty s) in Hor. change (api s') with (api s) in Hor. rewrite Hf, Hl, Htty in Hor.
    destruct Hor as [(-> & ?)|Hor]; [by left|right]. by destruct (existsb quits events), Hor as (-> & ?).
Qed.
End configuration.

(** ** Concrete runs *)

(** A process at its start. *)
Definition process0 : process :=
  {| pm := main0 [] <| msrs := dev0 <| fds := ∅ |> <| msr_file_id := replicate 512 0 |> <| num_cores := 0 |> |>;
     pj := Json.start; pu := ustate0 0 0 |}.

Lemma process0_fresh : fresh_process process0.
Proof.
  split; [split; [done|apply mappable_dstate0]|done|done|done|done|apply threads_wf_ustate0|].
  split; [split; try reflexivity; [by vm_compute|constructor]|]. split; [by vm_compute|].
  apply (Forall_replicate _ 1000 (replicate 6 0)). reflexivity.
Qed.

Definition no_cpuid (leaf subleaf : Z) : cpuid_out := {| RdtMbm.eax := 0; ebx := 0; ecx := 0; RdtMbm.edx := 0 |}.

(** A text whose number the model of these runs does not need. *)
Definition some_float (s : string) : spec_float := f32_of_Z 1.

(** The configuration of the repository, which leaves the choice of the cores to
    the program; on a machine without efficiency cores the run ends with -1. *)
Lemma config_is_command_line_witness :
  options (OT := dpf_options) (config_words shipped_config) = [("l"%char, "3"%string); ("i"%char, "1"%string); ("a"%char, "1.0"%string)] /\
  exists j, main (L := eight_cpus) some_float no_number (fun _ => Some (map entry_of (map fst shipped_config))) (Some "{}"%string)
      (fun _ => 0) 0 0 None [] (0, 0) no_cpuid 4 (Some server_devs) (fun _ => None) None true true "dpf" [] [] process0 =
    overlay j (main (L := eight_cpus) some_float no_number (fun _ => Some (map entry_of (map fst shipped_config))) (Some "{}"%string)
      (fun _ => 0) 0 0 None [] (0, 0) no_cpuid 4 (Some server_devs) (fun _ => None) None true true "dpf"
      ["-l"; "3"; "-i"; "1"; "-a"; "1.0"]%string [] process0) /\ live j = 0.
Proof.
  split; [reflexivity|].
  destruct (config_is_command_line (L := eight_cpus) some_float no_number (fun _ => Some (map entry_of (map fst shipped_config)))
    (fun _ => 0) 0 0 None [] (0, 0) no_cpuid 4 (Some server_devs) (fun _ => None) None true true "{}" shipped_config "dpf" [] process0)
    as (j & Hj & Hl).
  - split; [reflexivity|done|cbn; lia| |by repeat constructor]. unfold distinct. apply (bool_decide_unpack _). vm_compute. exact I.
  - reflexivity.
  - exists j. split; [exact Hj|]. destruct Hl as [Hl|(d & r & s & Hl)]; [exact Hl|]. discriminate Hl.
Defined.

Lemma config_flag_value_witness :
  text no_number EmptyString (VBool 0) = Some "false"%string /\
  options (OT := dpf_options) (config_words [("-k"%string, VBool 0, "false"%string)]) = [flag "k"%char].
Proof. split; [reflexivity|]. apply (config_flag_value "k"%char (VBool 0) "false" []); reflexivity. Defined.

Definition user_line : list string := ["--core"; "0-0"; "-D1"; "--alg=2"]%string.

Definition user_line_state : mainst :=
  at_options server_devs process0 <| g_core_first := 0 |> <| g_core_last := 0 |> <| g_ddr_bw_target := 1 |> <| g_tunealg := 2 |>
    <| core_priority := DEFAULT_PRIORITY :: replicate 1023 0 |>.


Definition module_line : list string := ["-k"; "-c2-5"; "--ddrbw-set=20000"]%string.

Definition module_line_state : mainst :=
  at_options server_devs process0 <| kernel_mode := 1 |> <| g_core_first := 2 |> <| g_core_last := 5 |>
    <| g_ddr_bw_target := 20000 |> <| core_priority := replicate 4 DEFAULT_PRIORITY ++ replicate 1020 0 |>.

Lemma command_line_to_module_witness :
  exists e p', main (L := eight_cpus) some_float no_number (fun _ => None) None (fun _ => 0) 0 0 None [] (0, 0) no_cpuid 4
      (Some server_devs) (fun _ => None) None true true "dpf" module_line [Sigint; Poll None] process0 = Ok (e, p') /\
    e = Waits /\ tuned (L := eight_cpus) 2 5 20000 0 10 true (api (pm p')) /\ tty (pm p') = Some 0x8a31.
Proof.
  destruct (command_line_to_module (L := eight_cpus) some_float no_number (fun _ => None) (fun _ => 0) 0 0 None [] (0, 0) no_cpuid 4
    (Some server_devs) (fun _ => None) None true true None "dpf" module_line [Sigint; Poll None] process0
    server_devs DDR_GRR_SRF 2 (ubox_bar (a_device 0x8086 0x3251)) module_line_state 2 4 10) as (e & p' & Hrun & Hor).
  - intros j Hj%elem_of_seqZ. unfold KState.MAX_NUM_CORES. lia.
  - exact example_client_attached.
  - exact process0_fresh.
  - reflexivity.
  - exact server_devs_bus.
  - lia.
  - done.
  - vm_compute. reflexivity.
  - split; [by vm_compute|lia|reflexivity|reflexivity].
  - split; [reflexivity|by vm_compute|by vm_compute|reflexivity|lia].
  - exists e, p'. split; [exact Hrun|]. destruct Hor as [(-> & _)|Hor].
    + exfalso. assert (Hne : forall e p', main (L := eight_cpus) some_float no_number (fun _ => None) None (fun _ => 0) 0 0 None [] (0, 0)
        no_cpuid 4 (Some server_devs) (fun _ => None) None true true "dpf" module_line [Sigint; Poll None] process0 = Ok (e, p') ->
        e = Waits) by (intros ? ?; vm_compute; congruence).
      specialize (Hne _ _ Hrun). discriminate.
    + destruct Hor as (-> & Htuned & Htty). split; [reflexivity|]. split; [exact Htuned|]. rewrite Htty. reflexivity.
Defined.
