(* ===== verification/Console.v ===== *)
(** * The data behind the console ([tools/console/src])

    [metrics.c], [snapshot.c], [tuning.c] and [sysinfo.c], with [detect_cores] of
    [ui/console.c].  The global snapshot is modelled as the memory the struct
    occupies, 900 words of 64 bits: a row ([struct core_metrics]) is 14 words, the
    core number in the low half of the first, then 7 PMU and 6 MSR words.  The
    client library copies 8 PMU and 7 MSR words into these arrays, so where the
    extra words go matters; that they do no harm is a theorem. *)

From S2P Require Import Prelude Floats KState KCommon KPmuDdr KApi KLog KDpf KInv UserApi ClientRuns SysDetect PmuDdr KernelMode.

Definition NUM_PMU : Z := 7.

Definition NUM_MSR : Z := 6.

Definition MAX_CORES : Z := 64.

Definition TUNING_DISABLED : Z := 0.

Definition TUNING_ENABLED : Z := 1.

(** ** The memory of the snapshot *)

(** Words of [struct core_metrics] and the offsets of the members, in words. *)
Definition ROW_WORDS : Z := 14.

Definition cores_at (i : Z) : Z := i * ROW_WORDS.

Definition pmu_values_at (i : Z) : Z := cores_at i + 1.

Definition msr_values_at (i : Z) : Z := cores_at i + 1 + NUM_PMU.

Definition CORE_COUNT_AT : Z := 896.

Definition DDR_READ_BW_AT : Z := 897.

Definition DDR_WRITE_BW_AT : Z := 898.

Definition TUNING_ENABLED_AT : Z := 899.

Definition SNAPSHOT_WORDS : nat := 900.

(** The [int] in the low half of a word. *)
Definition low32 (w : Z) : Z := s32 w.

Definition with_low32 (w v : Z) : Z := u32 v + 2 ^ 32 * (w / 2 ^ 32).

(** Storing an array of words. *)
Definition put_words (off : Z) (ws : list Z) (mem : list Z) : list Z :=
  let n := Z.to_nat off in take n mem ++ ws ++ drop (n + length ws) mem.

Definition word_at (mem : list Z) (off : Z) : Z := default 0 (aget mem off).

Definition words_at (mem : list Z) (off n : Z) : list Z := map (word_at mem) (seqZ off n).

(** [struct dpf_console_sysinfo_s]. *)
Record dpf_console_sysinfo_s := {
  is_hybrid : Z; si_first_core : Z; si_last_core : Z;
  confirmed_bar : Z; confirmed_ddr_type : Z; num_ddr_channels : Z; theoretical_bw : Z }.

#[export] Instance sysinfo_settable : Settable dpf_console_sysinfo_s := fun r =>
  {| is_hybrid := is_hybrid r; si_first_core := si_first_core r; si_last_core := si_last_core r;
     confirmed_bar := confirmed_bar r; confirmed_ddr_type := confirmed_ddr_type r;
     num_ddr_channels := num_ddr_channels r; theoretical_bw := theoretical_bw r |}.

(** The globals of [console.c], the memory of the snapshot, and the parts the
    console calls; [con_ddr] also holds the local [ddr_config] of
    [collect_sysinfo] (its member [uddr]). *)
Record console := {
  con_api : client; snapshot : list Z;
  core_first : Z; core_last : Z; sysinfo : dpf_console_sysinfo_s;
  con_aff : affinity; con_ddr : dstate }.

#[export] Instance console_settable : Settable console := fun r =>
  {| con_api := con_api r; snapshot := snapshot r; core_first := core_first r; core_last := core_last r;
     sysinfo := sysinfo r; con_aff := con_aff r; con_ddr := con_ddr r |}.

Abbreviation C := (ST console).

Definition on_con {A} (m : ST client A) : C A := zoom con_api (fun x s => s <| con_api := x |>) m.

Definition on_con_aff {A} (m : ST affinity A) : C A := zoom con_aff (fun x s => s <| con_aff := x |>) m.

Definition on_con_ddr {A} (m : ST dstate A) : C A := zoom con_ddr (fun x s => s <| con_ddr := x |>) m.

(** [memcpy] into the snapshot. *)
Definition store (off : Z) (ws : list Z) : C unit := fun s =>
  if (0 <=? off) && (off + zlen ws <=? zlen (snapshot s))
  then Ok (tt, s <| snapshot ::= put_words off ws |>) else Stop OutOfBounds.

(** Assignment to an [int] member. *)
Definition store_int (off v : Z) : C unit :=
  w ← (mem ← gets snapshot; read mem off);
  store off [with_low32 w v].

(** ** [metrics.c] *)

Section metrics.
Context {L : Linux}.

(** [pmu_values] is a pointer into the snapshot. *)
Definition read_pmu (core_id pmu_values : Z) : C Z :=
  if (core_id <? 0) || (MAX_CORES <=? core_id) then mret (-1) else
  r ← on_con (kernel_pmu_read (u32 core_id));
  if r.1 <? 0 then mret (-1) else
  store pmu_values r.2 ;;
  mret 0.

Definition read_msr (core_id msr_values : Z) : C Z :=
  if (core_id <? 0) || (MAX_CORES <=? core_id) then mret (-1) else
  r ← on_con (kernel_msr_read (u32 core_id));
  if r.1 <? 0 then mret (-1) else
  store msr_values r.2 ;;
  mret 0.

Definition read_ddr_bw (read_bw write_bw : Z) : C Z :=
  r ← on_con kernel_ddr_bw_read;
  if r.1 <? 0 then mret (-1) else
  store read_bw (take 1 r.2) ;;
  store write_bw (take 1 (drop 1 r.2)) ;;
  mret 0.

(** ** [tuning.c] *)

Definition DEFAULT_TUNING_ALG : Z := 0.

Definition DEFAULT_AGGRESSION_FACTOR : spec_float := f32_of_Z 1.

Definition start_tuning (tuning_enabled : Z) : C Z :=
  ret ← on_con (kernel_tuning_control (u32 tuning_enabled) DEFAULT_TUNING_ALG DEFAULT_AGGRESSION_FACTOR);
  if ret <? 0 then mret (-1) else mret 0.

Definition stop_tuning (tuning_enabled : Z) : C Z :=
  ret ← on_con (kernel_tuning_control (u32 tuning_enabled) DEFAULT_TUNING_ALG DEFAULT_AGGRESSION_FACTOR);
  if ret <? 0 then mret (-1) else mret 0.

(** ** [snapshot.c] *)

(** The body of the loop: whether it ends with [core_index++], and not with a
    [continue]. *)
Definition snapshot_core (core core_index : Z) : C bool :=
  store_int (cores_at core_index) core ;;
  r ← read_pmu core (pmu_values_at core_index);
  if negb (r =? 0) then mret false else
  r ← read_msr core (msr_values_at core_index);
  if negb (r =? 0) then mret false else mret true.

(** The loop over the cores, from [core_index]. *)
Fixpoint snapshot_loop (cores : list Z) (core_index : Z) : C Z :=
  match cores with
  | [] => mret core_index
  | core :: cores' =>
      if MAX_CORES <=? core_index then mret core_index else
      counted ← snapshot_core core core_index;
      snapshot_loop cores' (if counted : bool then core_index + 1 else core_index)
  end.

Definition update_console_snapshot : C Z :=
  s ← get_state;
  if (core_first s <? 0) || (MAX_CORES <=? core_last s) || (core_last s <? core_first s) then mret (-1) else
  if MAX_CORES <? core_last s - core_first s + 1 then mret (-1) else
  core_index ← snapshot_loop (seqZ (core_first s) (core_last s - core_first s + 1)) 0;
  store_int CORE_COUNT_AT core_index ;;
  if core_index =? 0 then mret (-1) else
  r ← read_ddr_bw DDR_READ_BW_AT DDR_WRITE_BW_AT;
  if negb (r =? 0) then
    store DDR_READ_BW_AT [0] ;;
    store DDR_WRITE_BW_AT [0] ;;
    mret (-1)
  else
  tuning_state ← gets (fun s => low32 (word_at (snapshot s) TUNING_ENABLED_AT));
  if tuning_state =? 1 then start_tuning 1 ;; mret 0
  else if tuning_state =? 0 then stop_tuning 0 ;; mret 0
  else mret 0.

(** ** [sysinfo.c] and [detect_cores] *)

Context (eax : Z -> Z) (edx available_cores : Z) (dmi_file : option (list Z))
  (dmi_stack : list (gmap string Z)) (dmi_header : Z * Z) (pci_found : option (list pci_dev)).

(** The argument is only checked for NULL. *)
Definition kernel_ddr_detect : C Z :=
  ret ← on_con kernel_mode_init;
  if ret <? 0 then mret (-1) else
  ret ← on_con (kernel_set_ddr_bandwidth 0);
  if ret <? 0 then mret (-1) else mret 0.

Definition console_hybridflag : Z := Z.land (Z.shiftr (u32 edx) 15) 0x01.

Definition collect_sysinfo : C Z :=
  ret ← on_con_ddr (pcie_init pci_found);
  if ret <? 0 then mret (-1) else
  ret ← on_con kernel_mode_init;
  if ret <? 0 then mret (-1) else
  modify (fun s => s <| sysinfo ::= fun o => o <| is_hybrid := console_hybridflag |> |>) ;;
  cores ← on_con_aff (get_efficient_core_ids eax edx available_cores);
  modify (fun s => s <| sysinfo ::= fun o => o <| si_first_core := first_efficiency_core cores |>
                                               <| si_last_core := last_efficiency_core cores |> |>) ;;
  on_con_ddr (modify (fun d => d <| uddr := ddr_zero |>)) ;;
  on_con_ddr (pmu_ddr_init 1) ;;
  ret ← kernel_ddr_detect;
  if ret <? 0 then mret (-1) else
  d ← gets (fun s => uddr (con_ddr s));
  ret ← on_con (kernel_set_ddr_config d);
  if ret <? 0 then mret (-1) else
  modify (fun s => s <| sysinfo ::= fun o => o <| confirmed_bar := bar_address d |>
                                               <| confirmed_ddr_type := ddr_interface_type d |>
                                               <| num_ddr_channels := ddr_num_controllers d |> |>) ;;
  bw ← (match dmi_get_bandwidth (S (length (default [] dmi_file))) dmi_file dmi_stack dmi_header with
        | Ok (Some r) => mret r
        | Ok None => mret (-1)
        | Stop e => stop_with e
        end);
  modify (fun s => s <| sysinfo ::= fun o => o <| theoretical_bw := bw |> |>) ;;
  mret 0.

(** [true] when it returns, [false] when it ends the program. *)
Definition detect_cores : C bool :=
  s ← get_state;
  if (core_first s =? -1) || (core_last s =? -1) then
    e ← on_con_aff (get_efficient_core_ids eax edx available_cores);
    modify (fun s => s <| core_first := first_efficiency_core e |> <| core_last := last_efficiency_core e |>) ;;
    mret (negb ((first_efficiency_core e =? -1) || (last_efficiency_core e =? -1)))
  else mret true.
End metrics.

(** ** What the console promises *)

(** A row as the views show it, and the snapshot as the console uses it. *)
Record core_row := { row_core : Z; row_pmu : list Z; row_msr : list Z }.

Record shot := { rows : list core_row; read_bw : Z; write_bw : Z; tuning : Z }.

#[export] Instance shot_settable : Settable shot := fun r =>
  {| rows := rows r; read_bw := read_bw r; write_bw := write_bw r; tuning := tuning r |}.

Definition row_at (mem : list Z) (i : Z) : core_row :=
  {| row_core := low32 (word_at mem (cores_at i)); row_pmu := words_at mem (pmu_values_at i) NUM_PMU;
     row_msr := words_at mem (msr_values_at i) NUM_MSR |}.

Definition core_count_of (mem : list Z) : Z := low32 (word_at mem CORE_COUNT_AT).

Definition view (mem : list Z) : shot :=
  {| rows := map (row_at mem) (seqZ 0 (core_count_of mem)); read_bw := word_at mem DDR_READ_BW_AT;
     write_bw := word_at mem DDR_WRITE_BW_AT; tuning := low32 (word_at mem TUNING_ENABLED_AT) |}.

Section spec.
Context {L : Linux}.

(** One row per core that answers both requests. *)
Definition collect_core (core : Z) : U (option core_row) :=
  p ← kernel_pmu_read core;
  if p.1 <? 0 then mret None else
  m ← kernel_msr_read core;
  if m.1 <? 0 then mret None else
  mret (Some {| row_core := core; row_pmu := take 7 p.2; row_msr := take 6 m.2 |}).

Fixpoint collect (cores : list Z) : U (list core_row) :=
  match cores with
  | [] => mret []
  | core :: cores' =>
      o ← collect_core core;
      rs ← collect cores';
      mret (match o with Some r => r :: rs | None => rs end)
  end.

Definition spec_update (first last : Z) (v : shot) : U (Z * shot) :=
  if (first <? 0) || (MAX_CORES <=? last) || (last <? first) then mret (-1, v) else
  rs ← collect (seqZ first (last - first + 1));
  let v := v <| rows := rs |> in
  if bool_decide (rs = []) then mret (-1, v) else
  d ← kernel_ddr_bw_read;
  if d.1 <? 0 then mret (-1, v <| read_bw := 0 |> <| write_bw := 0 |>) else
  let v := v <| read_bw := default 0 (d.2 !! 0%nat) |> <| write_bw := default 0 (d.2 !! 1%nat) |> in
  if tuning v =? 1 then kernel_tuning_control 1 0 (f32_of_Z 1) ;; mret (0, v)
  else if tuning v =? 0 then kernel_tuning_control 0 0 (f32_of_Z 1) ;; mret (0, v)
  else mret (0, v).
End spec.

(** ** Words *)

Lemma length_put_words off ws mem :
  0 <= off -> off + zlen ws <= zlen mem -> length (put_words off ws mem) = length mem.
Proof. unfold put_words, zlen. intros. rewrite !length_app, length_take, length_drop. lia. Qed.

Lemma word_at_put off ws mem k :
  0 <= off -> off + zlen ws <= zlen mem ->
  word_at (put_words off ws mem) k =
    if (off <=? k) && (k <? off + zlen ws) then default 0 (ws !! Z.to_nat (k - off)) else word_at mem k.
Proof.
  intros Ho Hl. unfold word_at, aget, put_words, zlen in *. destruct (Z.leb_spec 0 k) as [Hk|Hk].
  2:{ by rewrite (proj2 (Z.leb_gt off k)) by lia. }
  destruct (Z.leb_spec off k) as [Hok|Hok]; cbn [andb].
  - rewrite lookup_app_r by (rewrite length_take; lia). rewrite length_take_le by lia.
    destruct (Z.ltb_spec k (off + Z.of_nat (length ws))).
    + rewrite lookup_app_l by lia. do 2 f_equal. lia.
    + rewrite lookup_app_r by lia. rewrite lookup_drop. do 2 f_equal. lia.
  - rewrite lookup_app_l by (rewrite length_take; lia). by rewrite lookup_take_lt by lia.
Qed.

(** Words outside the stored ones stay. *)
Lemma word_at_put_ne off ws mem k :
  0 <= off -> off + zlen ws <= zlen mem -> k < off \/ off + zlen ws <= k ->
  word_at (put_words off ws mem) k = word_at mem k.
Proof.
  intros Ho Hl Hk. rewrite word_at_put by done. destruct (Z.leb_spec off k), (Z.ltb_spec k (off + zlen ws)); done || lia.
Qed.

Lemma words_at_ext mem mem' off n :
  (forall k, off <= k < off + n -> word_at mem k = word_at mem' k) -> words_at mem off n = words_at mem' off n.
Proof. intros H. unfold words_at. apply map_ext_in. intros k Hk%list_elem_of_In%elem_of_seqZ. by apply H. Qed.

(** The first words of what was stored. *)
Lemma words_at_put off ws mem n :
  0 <= off -> off + zlen ws <= zlen mem -> 0 <= n <= zlen ws ->
  words_at (put_words off ws mem) off n = take (Z.to_nat n) ws.
Proof.
  intros Ho Hl Hn. unfold words_at. apply list_eq. intros i.
  change (map ?f ?l) with (f <$> l). rewrite list_lookup_fmap.
  destruct (decide (Z.of_nat i < n)) as [Hi|Hi].
  - rewrite lookup_take_lt, lookup_seqZ_lt by lia. cbn. rewrite word_at_put by done.
    rewrite (proj2 (Z.leb_le _ _)), (proj2 (Z.ltb_lt _ _)) by lia. cbn [andb].
    replace (Z.to_nat (off + Z.of_nat i - off)) with i by lia.
    destruct (lookup_lt_is_Some_2 ws i) as [x Hx]; [unfold zlen in Hn; lia|]. by rewrite Hx.
  - rewrite lookup_seqZ_ge, lookup_take_ge by lia. done.
Qed.

(** ** One core *)

Lemma low32_with w v : in_s32 v -> low32 (with_low32 w v) = v.
Proof.
  intros Hv. unfold low32, with_low32, s32, u32, wrap. unfold in_s32 in Hv.
  replace (v mod 2 ^ 32 + 2 ^ 32 * (w / 2 ^ 32) + 2 ^ 31) with (v mod 2 ^ 32 + 2 ^ 31 + (w / 2 ^ 32) * 2 ^ 32) by lia.
  rewrite Z.mod_add by done. rewrite Zplus_mod_idemp_l. rewrite Z.mod_small by lia. lia.
Qed.

Lemma store_Ok off ws s :
  0 <= off -> off + zlen ws <= zlen (snapshot s) -> store off ws s = Ok (tt, s <| snapshot ::= put_words off ws |>).
Proof. intros Ho Hl. unfold store. by rewrite (proj2 (Z.leb_le _ _) Ho), (proj2 (Z.leb_le _ _) Hl). Qed.

Lemma store_int_Ok off v s :
  0 <= off < zlen (snapshot s) ->
  store_int off v s = Ok (tt, s <| snapshot ::= put_words off [with_low32 (word_at (snapshot s) off) v] |>).
Proof.
  intros Ho. unfold store_int. destruct (aget_is_Some (snapshot s) off Ho) as [w Hw].
  erewrite bind_Ok by (rewrite bind_gets; by apply read_Some). unfold word_at. rewrite Hw.
  apply store_Ok; [lia|]. unfold zlen in *. cbn [length]. lia.
Qed.

(** Only the words of row [i] and the one after it differ. *)
Record row_frame (i : Z) (mem mem' : list Z) : Prop := {
  rf_len : length mem' = length mem;
  rf_word : forall k, k < cores_at i \/ cores_at i + ROW_WORDS < k -> word_at mem' k = word_at mem k }.

Lemma row_frame_put i mem mem' off ws :
  row_frame i mem mem' -> cores_at i <= off -> off + zlen ws <= cores_at i + ROW_WORDS + 1 ->
  0 <= off -> off + zlen ws <= zlen mem -> row_frame i mem (put_words off ws mem').
Proof.
  intros [Hl Hw] H1 H2 H3 H4. assert (Hz : zlen mem' = zlen mem) by (unfold zlen; by rewrite Hl).
  constructor; [rewrite length_put_words; rewrite ?Hz; done|].
  intros k Hk. rewrite word_at_put_ne; [by apply Hw|done|by rewrite Hz|lia].
Qed.

Section rows.
Context {L : Linux}.

(** Reads answer a whole array or nothing. *)
Lemma array_answer closes exact req len n c r ws c' :
  (x ← transact closes exact req len; mret (status x, from_option (resp_words n) [] x)) c = Ok (r, ws, c') ->
  (r = 0 /\ length ws = n) \/ (r = -1 /\ ws = []).
Proof.
  intros H. apply bind_Ok_inv in H as (o & c1 & _ & H). injection H as <- <- _.
  destruct o as [b|]; [left|by right]. split; [done|]. cbn. unfold resp_words. generalize (drop 8 b).
  induction n as [|n IH]; intros bs; [done|]. cbn. by rewrite IH.
Qed.

(** What an array read through the client does to the snapshot. *)
Definition array_stored (n : Z) (s : console) (off : Z) (ans : outcome (Z * list Z * client)) (res : outcome (Z * console)) : Prop :=
  match ans with
  | Ok (r, ws, c) =>
      if r <? 0 then res = Ok (-1, s <| con_api := c |>)
      else zlen ws = n /\ res = Ok (0, s <| con_api := c |> <| snapshot ::= put_words off ws |>)
  | Stop e => res = Stop e
  end.

Lemma read_pmu_run core off s :
  0 <= core < MAX_CORES -> 0 <= off -> off + 8 <= zlen (snapshot s) ->
  array_stored 8 s off (kernel_pmu_read core (con_api s)) (read_pmu core off s).
Proof.
  intros [H0 H1] Ho Hl. unfold read_pmu. rewrite (proj2 (Z.ltb_ge _ _) H0), (proj2 (Z.leb_gt _ _) H1). cbn [orb].
  unfold MAX_CORES in H1. rewrite u32_small by lia. unfold mbind at 1, ST_bind at 1, on_con, zoom, array_stored.
  destruct (kernel_pmu_read core (con_api s)) as [[[r ws] c]|] eqn:Hr; [|done]. cbn [fst snd].
  destruct (array_answer _ _ _ _ _ _ _ _ _ Hr) as [[-> Hws]|[-> _]]; [|done]. change (0 <? 0) with false. cbv iota.
  assert (Hz : zlen ws = 8) by (unfold zlen; by rewrite Hws). split; [done|].
  by rewrite (bind_Ok _ _ _ _ _ (store_Ok off ws (s <| con_api := c |>) Ho ltac:(rewrite Hz; exact Hl))).
Qed.

Lemma read_msr_run core off s :
  0 <= core < MAX_CORES -> 0 <= off -> off + 7 <= zlen (snapshot s) ->
  array_stored 7 s off (kernel_msr_read core (con_api s)) (read_msr core off s).
Proof.
  intros [H0 H1] Ho Hl. unfold read_msr. rewrite (proj2 (Z.ltb_ge _ _) H0), (proj2 (Z.leb_gt _ _) H1). cbn [orb].
  unfold MAX_CORES in H1. rewrite u32_small by lia. unfold mbind at 1, ST_bind at 1, on_con, zoom, array_stored.
  destruct (kernel_msr_read core (con_api s)) as [[[r ws] c]|] eqn:Hr; [|done]. cbn [fst snd].
  destruct (array_answer _ _ _ _ _ _ _ _ _ Hr) as [[-> Hws]|[-> _]]; [|done]. change (0 <? 0) with false. cbv iota.
  assert (Hz : zlen ws = 7) by (unfold zlen; by rewrite Hws). split; [done|].
  by rewrite (bind_Ok _ _ _ _ _ (store_Ok off ws (s <| con_api := c |>) Ho ltac:(rewrite Hz; exact Hl))).
Qed.

(** The row that the three stores leave: the spilt words are overwritten or lie
    behind it. *)
Lemma row_at_stored mem i core p q :
  0 <= i < MAX_CORES -> zlen mem = 900 -> in_s32 core -> zlen p = 8 -> zlen q = 7 ->
  row_at (put_words (msr_values_at i) q (put_words (pmu_values_at i) p
    (put_words (cores_at i) [with_low32 (word_at mem (cores_at i)) core] mem))) i =
  {| row_core := core; row_pmu := take 7 p; row_msr := take 6 q |}.
Proof.
  intros Hi Hz Hc Hp Hq. unfold MAX_CORES, msr_values_at, pmu_values_at, cores_at, ROW_WORDS, NUM_PMU in *.
  set (mem1 := put_words (i * 14) _ mem).
  assert (Z1 : zlen mem1 = 900) by (unfold zlen, mem1 in *; rewrite length_put_words; unfold zlen in *; cbn [length]; lia).
  assert (Z2 : zlen (put_words (i * 14 + 1) p mem1) = 900) by (unfold zlen in *; rewrite length_put_words; unfold zlen; lia).
  unfold row_at, msr_values_at, pmu_values_at, cores_at, ROW_WORDS, NUM_PMU, NUM_MSR. f_equal.
  - rewrite !word_at_put_ne by lia. unfold mem1. rewrite word_at_put by (unfold zlen in *; cbn [length]; lia).
    unfold zlen. cbn [length]. rewrite (proj2 (Z.leb_le _ _)), (proj2 (Z.ltb_lt _ _)) by lia. cbn [andb].
    rewrite Z.sub_diag. cbn. by apply low32_with.
  - rewrite (words_at_ext _ (put_words (i * 14 + 1) p mem1)) by (intros k Hk; apply word_at_put_ne; lia).
    by rewrite words_at_put by lia.
  - by rewrite words_at_put by lia.
Qed.

Lemma snapshot_core_run core i s :
  length (snapshot s) = SNAPSHOT_WORDS -> 0 <= core < MAX_CORES -> 0 <= i < MAX_CORES ->
  match collect_core core (con_api s) with
  | Ok (o, c) => exists mem, snapshot_core core i s = Ok (bool_decide (is_Some o), s <| con_api := c |> <| snapshot := mem |>) /\
      row_frame i (snapshot s) mem /\ (forall x, o = Some x -> row_at mem i = x)
  | Stop e => snapshot_core core i s = Stop e
  end.
Proof.
  intros Hlen Hcore Hi. assert (Hz : zlen (snapshot s) = 900) by (unfold zlen; by rewrite Hlen).
  assert (Hc : in_s32 core) by (unfold in_s32, MAX_CORES in *; lia).
  assert (Hoff : 0 <= cores_at i /\ cores_at i + ROW_WORDS + 1 <= 900) by (unfold cores_at, ROW_WORDS, MAX_CORES in *; lia).
  assert (Hp : pmu_values_at i = cores_at i + 1) by done. assert (Hq : msr_values_at i = cores_at i + 8) by (unfold msr_values_at, NUM_PMU; lia).
  assert (Hr : ROW_WORDS = 14) by done.
  set (mem0 := snapshot s) in *. set (mem1 := put_words (cores_at i) [with_low32 (word_at mem0 (cores_at i)) core] mem0).
  assert (F1 : row_frame i mem0 mem1) by (apply row_frame_put; [by constructor|unfold zlen in *; cbn [length]; lia..]).
  unfold snapshot_core, collect_core. rewrite (bind_Ok _ _ _ _ _ (store_int_Ok (cores_at i) core s ltac:(fold mem0; lia))). fold mem0 mem1.
  set (s1 := Prelude.set snapshot _ s). assert (E1 : snapshot s1 = mem1) by done.
  assert (Z1 : zlen (snapshot s1) = 900) by (unfold zlen in *; rewrite E1, (rf_len _ _ _ F1); done).
  pose proof (read_pmu_run core (pmu_values_at i) s1 Hcore ltac:(lia) ltac:(lia)) as Hpmu. unfold array_stored in Hpmu.
  change (con_api s1) with (con_api s) in Hpmu. unfold mbind at 1, ST_bind at 1.
  destruct (kernel_pmu_read core (con_api s)) as [[[rp p] c1]|]; [|by rewrite (bind_Stop _ _ _ _ Hpmu)]. cbn [fst snd].
  destruct (rp <? 0).
  { rewrite (bind_Ok _ _ _ _ _ Hpmu). exists mem1. split_and!; [by destruct s|done|done]. }
  destruct Hpmu as [Hpl Hpmu]. rewrite (bind_Ok _ _ _ _ _ Hpmu). cbn [negb Z.eqb]. set (s2 := Prelude.set snapshot _ _).
  assert (E2 : snapshot s2 = put_words (pmu_values_at i) p mem1) by done.
  assert (F2 : row_frame i mem0 (snapshot s2)) by (rewrite E2; apply row_frame_put; [done|lia..]).
  assert (Z2 : zlen (snapshot s2) = 900) by (unfold zlen in *; by rewrite (rf_len _ _ _ F2)).
  pose proof (read_msr_run core (msr_values_at i) s2 Hcore ltac:(lia) ltac:(lia)) as Hmsr. unfold array_stored in Hmsr.
  change (con_api s2) with c1 in Hmsr. unfold mbind at 1, ST_bind at 1.
  destruct (kernel_msr_read core c1) as [[[rm q] c2]|]; [|by rewrite (bind_Stop _ _ _ _ Hmsr)]. cbn [fst snd].
  destruct (rm <? 0).
  { rewrite (bind_Ok _ _ _ _ _ Hmsr). exists (snapshot s2). split_and!; [by destruct s|done|done]. }
  destruct Hmsr as [Hql Hmsr]. rewrite (bind_Ok _ _ _ _ _ Hmsr). cbn [negb Z.eqb].
  exists (put_words (msr_values_at i) q (snapshot s2)). split_and!.
  - by destruct s.
  - apply row_frame_put; [done|lia..].
  - intros x [= <-]. rewrite E2. by apply row_at_stored.
Qed.

(** ** The whole snapshot *)

(** Rows before [i] and the words behind the table are those of [mem]; the rows
    from [i] on are [rs]. *)
Record loop_result (i : Z) (rs : list core_row) (mem mem' : list Z) : Prop := {
  lr_len : length mem' = length mem;
  lr_before : forall k, 0 <= k < i -> row_at mem' k = row_at mem k;
  lr_rows : forall k x, rs !! k = Some x -> row_at mem' (i + Z.of_nat k) = x;
  lr_after : forall k, CORE_COUNT_AT < k -> word_at mem' k = word_at mem k }.

Lemma row_at_frame i k mem mem' : row_frame i mem mem' -> 0 <= k < i -> row_at mem' k = row_at mem k.
Proof.
  intros [_ Hw] Hk. unfold row_at, cores_at, pmu_values_at, msr_values_at, ROW_WORDS, NUM_PMU, NUM_MSR, cores_at, ROW_WORDS in *.
  f_equal; [by rewrite Hw by lia|apply words_at_ext; intros j Hj; apply Hw; lia..].
Qed.

Lemma loop_result_cons i o rs mem mem1 mem' :
  0 <= i < MAX_CORES -> row_frame i mem mem1 -> (forall x, o = Some x -> row_at mem1 i = x) ->
  loop_result (if bool_decide (is_Some o) then i + 1 else i) rs mem1 mem' ->
  loop_result i (match o with Some r => r :: rs | None => rs end) mem mem'.
Proof.
  intros Hi F Hx [Hl Hb Hr Ha]. constructor.
  - by rewrite Hl, (rf_len _ _ _ F).
  - intros k Hk. rewrite Hb; [by apply (row_at_frame i)|]. destruct (bool_decide _); lia.
  - destruct o as [x|]; [|exact Hr]. rewrite bool_decide_eq_true_2 in * by done. intros [|k] y Hy; simplify_eq/=.
    + rewrite Z.add_0_r, Hb by lia. by apply Hx.
    + rewrite <- (Hr k y Hy). f_equal. lia.
  - intros k Hk. rewrite Ha by done. apply (rf_word _ _ _ F).
    unfold cores_at, ROW_WORDS, CORE_COUNT_AT, MAX_CORES in *. lia.
Qed.

Lemma snapshot_loop_run cores i s :
  length (snapshot s) = SNAPSHOT_WORDS -> Forall (fun core => 0 <= core < MAX_CORES) cores ->
  0 <= i -> i + zlen cores <= MAX_CORES ->
  match collect cores (con_api s) with
  | Ok (rs, c) => exists mem, snapshot_loop cores i s = Ok (i + zlen rs, s <| con_api := c |> <| snapshot := mem |>) /\
      loop_result i rs (snapshot s) mem /\ zlen rs <= zlen cores
  | Stop e => snapshot_loop cores i s = Stop e
  end.
Proof.
  intros Hlen Hcs. revert i s Hlen. induction Hcs as [|core cores Hcore _ IH]; intros i s Hlen Hi Hle; cbn [snapshot_loop collect].
  - exists (snapshot s). split_and!; [unfold zlen; cbn [length]; rewrite Z.add_0_r; by destruct s| |done].
    by constructor.
  - assert (Hcl : zlen (core :: cores) = zlen cores + 1) by (unfold zlen; cbn [length]; lia).
    assert (Hz : 0 <= zlen cores) by (unfold zlen; lia). rewrite Hcl in *.
    rewrite (proj2 (Z.leb_gt _ _)) by lia. pose proof (snapshot_core_run core i s Hlen Hcore ltac:(lia)) as Hstep.
    unfold mbind at 1, ST_bind at 1. destruct (collect_core core (con_api s)) as [[o c1]|]; [|by rewrite (bind_Stop _ _ _ _ Hstep)].
    destruct Hstep as (mem1 & Hrun & F & Hx). rewrite (bind_Ok _ _ _ _ _ Hrun). set (s1 := Prelude.set snapshot _ _).
    set (i' := if bool_decide (is_Some o) then i + 1 else i).
    assert (Hi' : i <= i' <= i + 1) by (unfold i'; case_bool_decide; lia).
    specialize (IH i' s1 (eq_trans (rf_len _ _ _ F) Hlen) ltac:(lia) ltac:(lia)).
    change (con_api s1) with c1 in IH. unfold mbind, ST_bind. destruct (collect cores c1) as [[rs c2]|]; [|done].
    destruct IH as (mem & Hrun2 & Hres & Hrs). exists mem. split_and!.
    + rewrite Hrun2. f_equal. f_equal. unfold i', zlen. destruct o; cbn [length].
      * rewrite bool_decide_eq_true_2 by done. lia.
      * by rewrite bool_decide_eq_false_2 by by intros [].
    + apply (loop_result_cons i o rs _ mem1); [lia|done..].
    + unfold zlen in *. destruct o; cbn [length]; lia.
Qed.

Lemma count_stored mem w n :
  zlen mem = 900 -> in_s32 n -> core_count_of (put_words CORE_COUNT_AT [with_low32 w n] mem) = n.
Proof.
  intros Hz Hn. unfold core_count_of, CORE_COUNT_AT. rewrite word_at_put by (unfold zlen in *; cbn [length]; lia).
  cbn -[low32 with_low32]. by apply low32_with.
Qed.

(** The snapshot once the number of rows is stored. *)
Lemma view_rows rs mem0 mem w :
  zlen mem0 = 900 -> loop_result 0 rs mem0 mem -> zlen rs <= MAX_CORES ->
  view (put_words CORE_COUNT_AT [with_low32 w (zlen rs)] mem) = view mem0 <| rows := rs |>.
Proof.
  intros Hz [Hl _ Hr Ha] Hn. unfold MAX_CORES in Hn. assert (Hz1 : zlen mem = 900) by (unfold zlen in *; by rewrite Hl).
  assert (Hp : 0 <= zlen rs) by (unfold zlen; lia).
  assert (Hput : forall k, k <> 896 -> word_at (put_words CORE_COUNT_AT [with_low32 w (zlen rs)] mem) k = word_at mem k).
  { intros k Hk. unfold CORE_COUNT_AT. apply word_at_put_ne; unfold zlen in *; cbn [length]; lia. }
  assert (Hcnt : core_count_of (put_words CORE_COUNT_AT [with_low32 w (zlen rs)] mem) = zlen rs)
    by (apply count_stored; unfold in_s32; lia).
  transitivity {| rows := rs; read_bw := word_at mem0 DDR_READ_BW_AT; write_bw := word_at mem0 DDR_WRITE_BW_AT;
    tuning := low32 (word_at mem0 TUNING_ENABLED_AT) |}; [|done].
  unfold view. rewrite Hcnt. rewrite !Hput by (unfold DDR_READ_BW_AT, DDR_WRITE_BW_AT, TUNING_ENABLED_AT; lia).
  rewrite !Ha by (unfold CORE_COUNT_AT, DDR_READ_BW_AT, DDR_WRITE_BW_AT, TUNING_ENABLED_AT; lia). f_equal.
  apply list_eq. intros k. change (map ?f ?l) with (f <$> l). rewrite list_lookup_fmap.
  destruct (rs !! k) as [x|] eqn:Hx.
  - pose proof (lookup_lt_Some _ _ _ Hx) as Hk. rewrite lookup_seqZ_lt by (unfold zlen; lia). cbn [fmap option_fmap option_map].
    rewrite <- (Hr k x Hx). f_equal. unfold row_at, words_at.
    unfold zlen in Hn. f_equal; [rewrite Hput; [done|unfold cores_at, ROW_WORDS; lia]|apply map_ext_in..];
      intros j Hj%list_elem_of_In%elem_of_seqZ; apply Hput;
      unfold pmu_values_at, msr_values_at, cores_at, ROW_WORDS, NUM_PMU, NUM_MSR in *; lia.
  - apply lookup_ge_None in Hx. by rewrite lookup_seqZ_ge by (unfold zlen; lia).
Qed.

(** Rows of a table that is not overfull do not reach the words behind it. *)
Lemma rows_ext mem mem' :
  core_count_of mem' = core_count_of mem -> core_count_of mem <= MAX_CORES ->
  (forall k, k < CORE_COUNT_AT -> word_at mem' k = word_at mem k) ->
  map (row_at mem') (seqZ 0 (core_count_of mem')) = map (row_at mem) (seqZ 0 (core_count_of mem)).
Proof.
  intros -> Hn Hw. apply map_ext_in. intros i Hi%list_elem_of_In%elem_of_seqZ.
  unfold row_at, MAX_CORES, CORE_COUNT_AT in *.
  f_equal; [rewrite Hw; [done|]|apply words_at_ext; intros j Hj; apply Hw..];
    unfold pmu_values_at, msr_values_at, cores_at, ROW_WORDS, NUM_PMU, NUM_MSR in *; lia.
Qed.

(** The two bandwidth words. *)
Lemma view_bandwidth mem a b :
  zlen mem = 900 -> core_count_of mem <= MAX_CORES ->
  view (put_words DDR_WRITE_BW_AT [b] (put_words DDR_READ_BW_AT [a] mem)) = view mem <| read_bw := a |> <| write_bw := b |>.
Proof.
  intros Hz Hn. assert (Hz1 : zlen (put_words DDR_READ_BW_AT [a] mem) = 900).
  { unfold zlen, DDR_READ_BW_AT in *. rewrite length_put_words; unfold zlen; cbn [length]; lia. }
  set (mem2 := put_words DDR_WRITE_BW_AT _ _).
  assert (Hput : forall k, k <> 897 -> k <> 898 -> word_at mem2 k = word_at mem k).
  { intros k H1 H2. unfold mem2, DDR_READ_BW_AT, DDR_WRITE_BW_AT in *.
    rewrite !word_at_put_ne; unfold zlen in *; cbn [length]; try done; lia. }
  transitivity {| rows := map (row_at mem) (seqZ 0 (core_count_of mem)); read_bw := a; write_bw := b;
    tuning := low32 (word_at mem TUNING_ENABLED_AT) |}; [|done].
  unfold view. rewrite (Hput TUNING_ENABLED_AT) by done. f_equal.
  - apply rows_ext; [unfold core_count_of; by rewrite (Hput CORE_COUNT_AT)|done|].
    intros k Hk. unfold CORE_COUNT_AT in Hk. apply Hput; lia.
  - unfold mem2. rewrite word_at_put_ne by (unfold DDR_READ_BW_AT, DDR_WRITE_BW_AT, zlen in *; cbn [length]; lia).
    rewrite word_at_put by (unfold DDR_READ_BW_AT, zlen in *; cbn [length]; lia). done.
  - unfold mem2. rewrite word_at_put by (unfold DDR_WRITE_BW_AT, zlen in *; cbn [length]; lia). done.
Qed.

(** The console's state after a run that the specification allows. *)
Definition implements (s : console) (spec : outcome (Z * shot * client)) (res : outcome (Z * console)) : Prop :=
  match spec with
  | Ok (r, v, c) => exists mem, res = Ok (r, s <| con_api := c |> <| snapshot := mem |>) /\
      length mem = SNAPSHOT_WORDS /\ view mem = v
  | Stop e => res = Stop e
  end.

(** The request that keeps the module's tuning in step with the flag. *)
Lemma tuning_step s e (m : C Z) :
  (forall s', m s' = start_tuning e s' \/ m s' = stop_tuning e s') -> in_u 32 e -> length (snapshot s) = SNAPSHOT_WORDS ->
  implements s ((kernel_tuning_control e 0 (f32_of_Z 1) ;; mret (0, view (snapshot s))) (con_api s)) ((m ;; mret 0) s).
Proof.
  intros Hm He Hl. assert (Hms : m s = (ret ← on_con (kernel_tuning_control e 0 (f32_of_Z 1)); if ret <? 0 then mret (-1) else mret 0) s).
  { destruct (Hm s) as [-> | ->]; unfold start_tuning, stop_tuning; by rewrite u32_small. }
  unfold implements, mbind at 1, ST_bind at 1. unfold mbind, ST_bind. rewrite Hms. unfold mbind, ST_bind, on_con, zoom.
  destruct (kernel_tuning_control e 0 (f32_of_Z 1) (con_api s)) as [[r c]|]; [|done].
  exists (snapshot s). split_and!; [|done..]. destruct (r <? 0); by destruct s.
Qed.

(** Storing both bandwidth words. *)
Lemma store_bandwidth s a b :
  length (snapshot s) = SNAPSHOT_WORDS -> core_count_of (snapshot s) <= MAX_CORES ->
  exists mem, (store DDR_READ_BW_AT [a] ;; store DDR_WRITE_BW_AT [b]) s = Ok (tt, s <| snapshot := mem |>) /\
    length mem = SNAPSHOT_WORDS /\ view mem = view (snapshot s) <| read_bw := a |> <| write_bw := b |>.
Proof.
  intros Hlen Hn. assert (Hz : zlen (snapshot s) = 900) by (unfold zlen; by rewrite Hlen).
  set (mem1 := put_words DDR_READ_BW_AT [a] (snapshot s)).
  assert (Hl1 : length mem1 = SNAPSHOT_WORDS) by (unfold mem1; rewrite length_put_words; rewrite ?Hz; done).
  assert (Hz1 : zlen mem1 = 900) by (unfold zlen; by rewrite Hl1).
  exists (put_words DDR_WRITE_BW_AT [b] mem1). split_and!.
  - rewrite (bind_Ok _ _ _ _ _ (store_Ok DDR_READ_BW_AT [a] s ltac:(done) ltac:(by rewrite Hz))).
    rewrite store_Ok; [by destruct s|done|]. change (zlen (snapshot (s <| snapshot ::= put_words DDR_READ_BW_AT [a] |>))) with (zlen mem1).
    by rewrite Hz1.
  - rewrite length_put_words; rewrite ?Hz1; done.
  - by apply view_bandwidth.
Qed.

(** What follows the loop, on both sides. *)
Lemma snapshot_rest s :
  length (snapshot s) = SNAPSHOT_WORDS -> core_count_of (snapshot s) <= MAX_CORES ->
  implements s
    ((d ← kernel_ddr_bw_read;
      if d.1 <? 0 then mret (-1, view (snapshot s) <| read_bw := 0 |> <| write_bw := 0 |>) else
      let v := view (snapshot s) <| read_bw := default 0 (d.2 !! 0%nat) |> <| write_bw := default 0 (d.2 !! 1%nat) |> in
      if tuning v =? 1 then kernel_tuning_control 1 0 (f32_of_Z 1) ;; mret (0, v)
      else if tuning v =? 0 then kernel_tuning_control 0 0 (f32_of_Z 1) ;; mret (0, v) else mret (0, v)) (con_api s))
    ((r ← read_ddr_bw DDR_READ_BW_AT DDR_WRITE_BW_AT;
      if negb (r =? 0) then store DDR_READ_BW_AT [0] ;; store DDR_WRITE_BW_AT [0] ;; mret (-1) else
      tuning_state ← gets (fun s => low32 (word_at (snapshot s) TUNING_ENABLED_AT));
      if tuning_state =? 1 then start_tuning 1 ;; mret 0 else if tuning_state =? 0 then stop_tuning 0 ;; mret 0 else mret 0) s).
Proof.
  intros Hlen Hn. unfold read_ddr_bw. unfold mbind at 1, ST_bind at 1.
  destruct (kernel_ddr_bw_read (con_api s)) as [[[r ws] c]|e] eqn:Hr.
  2:{ cbn. unfold mbind, ST_bind, on_con, zoom. by rewrite Hr. }
  cbn [fst snd]. set (s1 := s <| con_api := c |>).
  assert (Hcon : on_con kernel_ddr_bw_read s = Ok (r, ws, s1)) by (unfold on_con, zoom; by rewrite Hr).
  destruct (array_answer _ _ _ _ _ _ _ _ _ Hr) as [[-> Hws]|[-> ->]].
  - change (0 <? 0) with false. cbv iota.
    destruct ws as [|a [|b []]]; try done.
    change (default 0 ([a; b] !! 0%nat)) with a. change (default 0 ([a; b] !! 1%nat)) with b.
    destruct (store_bandwidth s1 a b Hlen Hn) as (mem & Hst & Hl & Hv).
    erewrite (bind_Ok (mbind _ (on_con _))).
    2:{ rewrite (bind_Ok _ _ _ _ _ Hcon). cbn [fst snd take drop].
        apply bind_Ok_inv in Hst as ([] & s3 & H1 & H2).
        change (0 <? 0) with false. cbv iota. rewrite (bind_Ok _ _ _ _ _ H1), (bind_Ok _ _ _ _ _ H2). reflexivity. }
    cbn [negb Z.eqb]. rewrite bind_gets. set (s2 := s1 <| snapshot := mem |>) in *.
    change (low32 (word_at (snapshot s2) TUNING_ENABLED_AT)) with (tuning (view mem)).
    change (view (snapshot s1)) with (view (snapshot s)) in Hv. cbv zeta. rewrite <- Hv.
    assert (Hup : forall spec res, implements s2 spec res -> implements s spec res).
    { intros [[[r v] c']|] res; [|done]. intros (m & -> & ? & ?). exists m. by split_and!. }
    change mem with (snapshot s2) at 2 4 5. apply Hup. change c with (con_api s2).
    destruct (_ =? 1); [apply tuning_step; auto; done|]. destruct (_ =? 0); [apply tuning_step; auto; done|].
    exists mem. by split_and!.
  - change (-1 <? 0) with true. cbv iota.
    rewrite (bind_Ok _ _ _ (-1) s1) by (by rewrite (bind_Ok _ _ _ _ _ Hcon)). cbn [negb Z.eqb].
    destruct (store_bandwidth s1 0 0 Hlen Hn) as (mem & Hst & Hl & Hv). exists mem.
    apply bind_Ok_inv in Hst as ([] & s3 & H1 & H2). rewrite (bind_Ok _ _ _ _ _ H1), (bind_Ok _ _ _ _ _ H2).
    by split_and!.
Qed.
End rows.

Lemma console_eta s : s <| con_api := con_api s |> <| snapshot := snapshot s |> = s.
Proof. by destruct s. Qed.

(** A run on the same console, from memory that was prepared first. *)
Lemma implements_from s s' spec res :
  s' = s <| con_api := con_api s' |> <| snapshot := snapshot s' |> -> implements s' spec res -> implements s spec res.
Proof.
  intros ->. destruct spec as [[[r v] c']|]; [|done]. intros (m & -> & Hl & Hv). by exists m.
Qed.

Lemma snapshot_implements {L : Linux} (s : console) :
  length (snapshot s) = SNAPSHOT_WORDS ->
  implements s (spec_update (core_first s) (core_last s) (view (snapshot s)) (con_api s)) (update_console_snapshot s).
Proof.
  intros Hlen. assert (Hz : zlen (snapshot s) = 900) by (unfold zlen; by rewrite Hlen).
  unfold update_console_snapshot, spec_update. rewrite (bind_Ok get_state _ s s s) by done.
  destruct (_ || _ || _) eqn:Hbad; [exists (snapshot s); by rewrite console_eta|].
  rewrite !orb_false_iff, !Z.ltb_ge, Z.leb_gt in Hbad. destruct Hbad as [[H0 H1] H2].
  rewrite (proj2 (Z.ltb_ge _ _)) by lia. set (cores := seqZ _ _).
  assert (Hcs : Forall (fun core => 0 <= core < MAX_CORES) cores).
  { apply Forall_forall. intros j Hj%elem_of_seqZ. lia. }
  assert (Hcl : zlen cores <= MAX_CORES) by (unfold cores, zlen; rewrite length_seqZ; unfold MAX_CORES in *; lia).
  pose proof (snapshot_loop_run cores 0 s Hlen Hcs ltac:(done) ltac:(lia)) as Hloop.
  unfold mbind at 1, ST_bind at 1. destruct (collect cores (con_api s)) as [[rs c]|]; [|by apply bind_Stop].
  destruct Hloop as (mem & Hrun & Hres & Hrs). rewrite (bind_Ok _ _ _ _ _ Hrun), Z.add_0_l.
  set (s1 := Prelude.set snapshot _ _). assert (Hl1 : length mem = SNAPSHOT_WORDS) by by rewrite (lr_len _ _ _ _ Hres).
  assert (Hz1 : zlen mem = 900) by (unfold zlen; by rewrite Hl1).
  rewrite (bind_Ok _ _ _ _ _ (store_int_Ok CORE_COUNT_AT (zlen rs) s1 ltac:(change (snapshot s1) with mem; by rewrite Hz1))).
  set (s2 := Prelude.set snapshot _ s1). pose proof (view_rows rs _ mem (word_at mem CORE_COUNT_AT) Hz Hres ltac:(lia)) as Hv.
  change (put_words _ _ mem) with (snapshot s2) in Hv. rewrite <- Hv.
  assert (Hl2 : length (snapshot s2) = SNAPSHOT_WORDS).
  { change (length (put_words CORE_COUNT_AT [with_low32 (word_at mem CORE_COUNT_AT) (zlen rs)] mem) = SNAPSHOT_WORDS).
    rewrite length_put_words; rewrite ?Hz1; done. }
  assert (Hcnt : core_count_of (snapshot s2) = zlen rs).
  { apply (count_stored mem); [done|]. unfold in_s32, MAX_CORES in *. unfold zlen in *. lia. }
  apply (implements_from s s2); [by destruct s|].
  assert (Hnil : bool_decide (rs = []) = (zlen rs =? 0)).
  { destruct rs; [done|]. symmetry. by rewrite bool_decide_eq_false_2. }
  rewrite Hnil. destruct (zlen rs =? 0); [exists (snapshot s2); by rewrite console_eta|].
  apply (snapshot_rest s2); [done|]. lia.
Qed.

(** C18: the snapshot is what it is meant to be.  [update_console_snapshot] works
    on the raw memory of the struct, into whose arrays the client library copies
    one word more than they hold (the eighth PMU word falls on the first MSR word,
    the seventh MSR word on the core number of the next row, or on the number of
    rows).  For every state of the console and of the module behind it, it has the
    same outcome and leaves the module in the same state as the specification on
    abstract rows, and the memory it leaves reads as the rows the specification
    asks for: per core that answered, its number, seven PMU and six MSR words. *)
Theorem snapshot_refines {L : Linux} (s : console) :
  length (snapshot s) = SNAPSHOT_WORDS ->
  implements s (spec_update (core_first s) (core_last s) (view (snapshot s)) (con_api s)) (update_console_snapshot s).
Proof. apply snapshot_implements. Qed.

(** ** The snapshot of a module *)

Lemma omap_ext_elem {A B} (f g : A -> option B) (l : list A) :
  (forall x, x ∈ l -> f x = g x) -> omap f l = omap g l.
Proof.
  induction l as [|x l IH]; intros H; [done|]. cbn. rewrite (H x) by left. f_equal. rewrite IH; [done|].
  intros y Hy. apply H. by right.
Qed.

Section of_module.
Context {L : Linux}.

(** The row of a core, as a request made on CPU [cpu] yields it. *)
Definition module_row (m : kstate) (cpu j : Z) : option core_row :=
  match enabled_core m j with
  | Some ci => Some {| row_core := j; row_pmu := take 7 (pmc_reading (machine m) cpu); row_msr := take 6 (pf_msr (msr_answer m cpu ci)) |}
  | None => None
  end.

Lemma length_omap_le {A B} (f : A -> option B) (l : list A) : (length (omap f l) <= length l)%nat.
Proof. induction l as [|x l IH]; [done|]. cbn. destruct (f x); cbn [length]; lia. Qed.

Definition module_rows (m : kstate) (cpu : Z) (cores : list Z) : list core_row := omap (module_row m cpu) cores.

(** [m'] is [m] after reads of some of [cores]. *)
Record only_read (cores : list Z) (m m' : kstate) : Prop := {
  or_frame : m' = m <| corestate := corestate m' |> <| proc_buffer := proc_buffer m' |> <| proc_buffer_size := proc_buffer_size m' |>;
  or_len : zlen (corestate m') = zlen (corestate m);
  or_core : forall j ci, aget (corestate m) j = Some ci ->
    exists ci', aget (corestate m') j = Some ci' /\ core_disabled ci' = core_disabled ci /\ (j ∉ cores -> ci' = ci) }.

Lemma only_read_entered cores m : only_read cores m (entered m).
Proof. constructor; [by destruct m|done|]. intros j ci Hj. by exists ci. Qed.

Lemma only_read_trans cores1 cores2 m1 m2 m3 :
  only_read cores1 m1 m2 -> only_read cores2 m2 m3 -> only_read (cores1 ++ cores2) m1 m3.
Proof.
  intros [F1 L1 C1] [F2 L2 C2]. constructor; [rewrite F2, F1; by destruct m1|congruence|]. intros j ci Hj.
  destruct (C1 j ci Hj) as (c1 & H1 & D1 & E1). destruct (C2 j c1 H1) as (c2 & H2 & D2 & E2).
  exists c2. split_and!; [done|congruence|]. intros Hn. rewrite elem_of_app in Hn.
  rewrite E2, E1; [done|tauto|tauto].
Qed.

Lemma only_read_mono cores cores' m m' : cores ⊆ cores' -> only_read cores m m' -> only_read cores' m m'.
Proof.
  intros Hsub [F Hl Hc]. constructor; [done|done|]. intros j ci Hj. destruct (Hc j ci Hj) as (ci' & ? & ? & He).
  exists ci'. split_and!; [done..|]. set_solver.
Qed.

Lemma only_read_aset m j ci ci' b :
  enabled_core m j = Some ci -> core_disabled ci' = 0 ->
  only_read [j] m (answered m b <| corestate := aset (corestate m) j ci' |>).
Proof.
  intros [Hj Hd]%enabled_core_Some Hd'. constructor; [by destruct m|apply zlen_aset|]. intros i c Hi. cbn -[aget aset].
  destruct (decide (j = i)) as [<-|Hne].
  - rewrite aget_aset_eq by by eapply aget_Some_range. exists ci'. simplify_eq. split_and!; [done|congruence|].
    intros Hn. exfalso. apply Hn. by left.
  - rewrite aget_aset_ne by done. by exists c.
Qed.

(** Reads of other cores do not change a core's row. *)
Lemma only_read_row cores m m' cpu j :
  only_read cores m m' -> j ∉ cores -> module_row m' cpu j = module_row m cpu j.
Proof.
  intros [F Hl Hc] Hj. assert (He : enabled_core m' j = enabled_core m j).
  { unfold enabled_core. destruct (aget (corestate m) j) as [ci|] eqn:Hg.
    - destruct (Hc j ci Hg) as (ci' & -> & _ & ->); done.
    - destruct (aget (corestate m') j) eqn:Hg'; [|done]. apply aget_Some_range in Hg'.
      destruct (aget_is_Some (corestate m) j) as [? ?]; [by rewrite <- Hl|congruence]. }
  unfold module_row. rewrite He. unfold msr_answer. rewrite F. done.
Qed.

Lemma collect_core_run j c :
  attached c -> 0 <= j < MAX_CORES ->
  exists m, collect_core j c = Ok (module_row (kern c) (run_cpu c) j, c <| kern := m |>) /\
    attached (c <| kern := m |>) /\ only_read [j] (kern c) m.
Proof.
  intros Hc Hj. assert (Hu : in_u 32 j) by (unfold in_u, MAX_CORES in *; lia). unfold collect_core, module_row.
  pose proof (pmu_request c j Hc Hu) as Hp. destruct (enabled_core (kern c) j) as [ci|] eqn:Hci.
  2:{ destruct Hp as [Hp Hat]. rewrite (bind_Ok _ _ _ _ _ Hp). eexists. split; [done|]. split; [done|apply only_read_entered]. }
  destruct Hp as (b & Hp & Hat). rewrite (bind_Ok _ _ _ _ _ Hp). cbn [fst snd]. change (0 <? 0) with false. cbv iota.
  set (m1 := Prelude.set corestate _ _) in *. set (c1 := c <| kern := m1 |>) in *.
  assert (H1 : only_read [j] (kern c) m1) by (apply (only_read_aset _ _ ci); [done|by apply enabled_core_Some in Hci as []]).
  apply enabled_core_Some in Hci as [Hci Hd].
  assert (Hci1 : enabled_core m1 j = Some (pmu_answer (kern c) (run_cpu c) ci)).
  { apply enabled_core_Some. split; [|done]. cbn -[aget aset]. apply aget_aset_eq. by eapply aget_Some_range. }
  pose proof (msr_request c1 j Hat Hu) as Hm. change (kern c1) with m1 in Hm. rewrite Hci1 in Hm.
  destruct Hm as (b2 & Hm & Hat2). rewrite (bind_Ok _ _ _ _ _ Hm). cbn [fst snd]. change (0 <? 0) with false. cbv iota.
  eexists. split; [|split; [exact Hat2|]].
  - unfold mret, ST_ret. do 3 f_equal. f_equal. f_equal. unfold msr_answer. by destruct (_ =? 0).
  - apply (only_read_mono ([j] ++ [j])); [set_solver|]. apply (only_read_trans _ _ _ m1); [done|].
    apply (only_read_aset _ _ _ _ b2 Hci1). by rewrite msr_answer_enabled.
Qed.

Lemma collect_run cores c :
  attached c -> NoDup cores -> Forall (fun j => 0 <= j < MAX_CORES) cores ->
  exists m, collect cores c = Ok (module_rows (kern c) (run_cpu c) cores, c <| kern := m |>) /\
    attached (c <| kern := m |>) /\ only_read cores (kern c) m.
Proof.
  intros Hc Hnd Hcs. revert c Hc. induction Hcs as [|j cores Hj _ IH]; intros c Hc; cbn [collect].
  - exists (kern c). split_and!; [by destruct c|by destruct c|]. constructor; [by destruct (kern c)|done|].
    intros i ci Hi. by exists ci.
  - apply NoDup_cons in Hnd as [Hnj Hnd]. destruct (collect_core_run j c Hc Hj) as (m1 & H1 & A1 & O1).
    rewrite (bind_Ok _ _ _ _ _ H1). destruct (IH Hnd _ A1) as (m2 & H2 & A2 & O2). rewrite (bind_Ok _ _ _ _ _ H2).
    assert (Hrest : module_rows m1 (run_cpu c) cores = module_rows (kern c) (run_cpu c) cores).
    { unfold module_rows. apply omap_ext_elem. intros i Hi. by apply (only_read_row [j]); [|set_solver]. }
    change (kern (c <| kern := m1 |>)) with m1 in *. change (run_cpu (c <| kern := m1 |>)) with (run_cpu c).
    exists m2. split_and!; [|done|by apply (only_read_trans [j] cores _ m1)].
    unfold module_rows in *. cbn [omap list_omap]. rewrite Hrest. by destruct (module_row _ _ j).
Qed.

Lemma only_read_no_rows cores cores' m m' cpu :
  only_read cores m m' -> module_rows m cpu cores' = [] -> module_rows m' cpu cores' = [].
Proof.
  intros [_ Hl Hc] Hnil. unfold module_rows in *. induction cores' as [|j cores' IH]; [done|]. cbn in Hnil |- *.
  destruct (module_row m cpu j) eqn:Hj; [done|]. rewrite IH by done.
  replace (module_row m' cpu j) with (@None core_row); [done|]. unfold module_row in *.
  destruct (enabled_core m j) eqn:He; [done|]. unfold enabled_core in *.
  destruct (aget (corestate m) j) as [ci|] eqn:Hg.
  - destruct (Hc j ci Hg) as (ci' & -> & -> & _). by destruct (_ =? 0).
  - destruct (aget (corestate m') j) eqn:Hg'; [|done]. apply aget_Some_range in Hg'.
    destruct (aget_is_Some (corestate m) j) as [? ?]; [by rewrite <- Hl|congruence].
Qed.

Lemma factor_one : f32_of_Z 1 = tenths 10.
Proof. vm_compute. reflexivity. Qed.

(** The monitor after the snapshot: as the console's own flag wants it, whatever
    it was before. *)
Definition monitor_follows (flag : Z) (m : kstate) : Prop :=
  flag = TUNING_ENABLED \/ flag = TUNING_DISABLED ->
  keep_running m = (flag =? 1) /\ monitor_timer m = (flag =? 1) /\ tune_alg m = 0 /\ aggr m = 1.

(** The specification against a module. *)
Lemma spec_update_run first last v c :
  (forall j, j ∈ online_cpus -> 0 <= j < MAX_NUM_CORES) ->
  attached c -> 0 <= first <= last -> last < MAX_CORES ->
  let rs := module_rows (kern c) (run_cpu c) (seqZ first (last - first + 1)) in
  exists v' m, spec_update first last v c = Ok (if bool_decide (rs = []) then -1 else 0, v', c <| kern := m |>) /\
    attached (c <| kern := m |>) /\ rows v' = rs /\ tuning v' = tuning v /\ (rs <> [] -> monitor_follows (tuning v) m) /\
    (rs = [] -> module_rows m (run_cpu c) (seqZ first (last - first + 1)) = []) /\
    (forall a b t, core_setup a b t (kern c) -> core_setup a b t m).
Proof.
  intros Hon Hc Hr Hl rs. unfold spec_update.
  rewrite (proj2 (Z.ltb_ge first 0)), (proj2 (Z.leb_gt MAX_CORES last)), (proj2 (Z.ltb_ge last first)) by lia. cbn [orb].
  destruct (collect_run (seqZ first (last - first + 1)) c Hc) as (m1 & H1 & A1 & O1); [apply NoDup_seqZ| |].
  { apply Forall_forall. intros j Hj%elem_of_seqZ. lia. }
  assert (K1 : forall a b t, core_setup a b t (kern c) -> core_setup a b t m1).
  { intros a b t. destruct Hc as ((W & _) & _). apply core_setup_ext; [done|by rewrite (or_frame _ _ _ O1)|].
    intros j ci Hj. destruct (or_core _ _ _ O1 j ci Hj) as (ci' & ? & ? & _). by exists ci'. }
  rewrite (bind_Ok _ _ _ _ _ H1). fold rs. cbv zeta. case_bool_decide as Hnil.
  { exists (v <| rows := rs |>), m1. split_and!; try done. intros E. by apply (only_read_no_rows _ _ _ _ _ O1). }
  destruct (ddr_bw_request _ A1) as (rd & wr & b & d & H2 & A2 & _). rewrite (bind_Ok _ _ _ _ _ H2). cbn [fst snd].
  change (0 <? 0) with false. cbv iota. set (c2 := Prelude.set kern _ (c <| kern := m1 |>)) in *. set (v2 := v <| rows := rs |> <| read_bw := _ |> <| write_bw := _ |>).
  change (tuning v2) with (tuning v). rewrite factor_one.
  assert (Ht : forall e, in_u 32 e -> exists m, kernel_tuning_control e 0 (tenths 10) c2 = Ok (0, c2 <| kern := m |>) /\
    attached (c2 <| kern := m |>) /\ (forall a b t, core_setup a b t (kern c) -> core_setup a b t m) /\
    keep_running m = (e =? 1) /\ monitor_timer m = (e =? 1) /\ tune_alg m = 0 /\ aggr m = 1).
  { intros e He. destruct (tuning_request c2 e 0 10 A2 He ltac:(done) ltac:(done) Hon) as (m & R & A & E1 & E2 & E3 & E4 & E5 & E6).
    exists m. split_and!; try done. intros a' b' t H. apply (core_setup_ext _ _ _ (kern c2)); [apply A2|done..|]. by destruct (K1 a' b' t H); constructor. }
  unfold monitor_follows, TUNING_ENABLED, TUNING_DISABLED.
  destruct (Z.eqb_spec (tuning v) 1) as [E|N1]; [|destruct (Z.eqb_spec (tuning v) 0) as [E|N0]].
  - destruct (Ht 1 ltac:(done)) as (m & R & A & Q & P). rewrite (bind_Ok _ _ _ _ _ R). exists v2, m. by split_and!.
  - destruct (Ht 0 ltac:(done)) as (m & R & A & Q & P). rewrite (bind_Ok _ _ _ _ _ R). exists v2, m. by split_and!.
  - exists v2, (kern c2). split_and!; try done; [by intros _ [?|?]|]. intros a' b' t H. by destruct (K1 a' b' t H); constructor.
Qed.
End of_module.

(** *** The type of the snapshot *)

(** A console of a module, with memory of the struct's size that holds words. *)
Definition con_typed (s : console) : Prop :=
  attached (con_api s) /\ length (snapshot s) = SNAPSHOT_WORDS /\ Forall (in_u 64) (snapshot s).

Lemma put_words_u64 off ws mem : Forall (in_u 64) ws -> Forall (in_u 64) mem -> Forall (in_u 64) (put_words off ws mem).
Proof. intros. unfold put_words. repeat apply Forall_app_2; [by apply Forall_take|done|by apply Forall_drop]. Qed.

Lemma with_low32_u64 w v : in_u 64 w -> in_u 64 (with_low32 w v).
Proof.
  unfold in_u, with_low32. intros [H0 H1]. pose proof (u32_range v).
  assert (0 <= w / 2 ^ 32 < 2 ^ 32) by (split; [apply Z.div_pos; lia|apply Z.div_lt_upper_bound; lia]). lia.
Qed.

Section typed.
Context {L : Linux}.

Lemma typed_store off ws : Forall (in_u 64) ws -> preserves con_typed (store off ws).
Proof.
  intros Hw s (Hc & Hl & Hu). unfold wp, store. destruct (_ && _) eqn:Hb; [|done].
  rewrite andb_true_iff, !Z.leb_le in Hb. destruct Hb as [H0 H1]. split; [done|]. cbn -[put_words].
  split; [by rewrite length_put_words|by apply put_words_u64].
Qed.

Lemma typed_store_int off v : preserves con_typed (store_int off v).
Proof.
  intros s Hs. unfold store_int. apply wp_bind, wp_bind, wp_gets, wp_read; [|done]. intros w Hw.
  apply typed_store; [|done]. apply Forall_singleton, with_low32_u64.
  by apply (Forall_aget _ _ _ _ (proj2 (proj2 Hs)) Hw).
Qed.

(** A call of the client library that answers words. *)
Lemma typed_on_con {A} (m : U A) P :
  runs attached m P attached -> forall s, con_typed s -> wp (on_con m) s (fun a s' => P a /\ con_typed s') any_stop.
Proof.
  intros Hm s (Hc & Hl & Hu). specialize (Hm _ Hc). unfold wp, on_con, zoom in *.
  destruct (m (con_api s)) as [[a c]|]; [|done]. destruct Hm. split; [done|]. split; [done|]. by split.
Qed.

Lemma pmu_words j : in_u 32 j -> runs attached (kernel_pmu_read j) (fun r => Forall (in_u 64) r.2) attached.
Proof.
  intros Hj c Hc. pose proof (pmu_request c j Hc Hj) as H. unfold wp. destruct (enabled_core (kern c) j).
  - destruct H as (b & -> & Hat). split; [|done]. apply Forall_map, Forall_true. intros n. apply u64_range.
  - destruct H as [-> Hat]. split; [apply Forall_nil_2|done].
Qed.

Lemma msr_words j : in_u 32 j -> runs attached (kernel_msr_read j) (fun r => Forall (in_u 64) r.2) attached.
Proof.
  intros Hj c Hc. pose proof (msr_request c j Hc Hj) as H. unfold wp. destruct (enabled_core (kern c) j) as [ci|] eqn:Hci.
  - destruct H as (b & -> & Hat). split; [|done]. apply msr_answer_u64. apply enabled_core_Some in Hci as [Hci _].
    destruct Hc as ((W & _) & _). by apply (Forall_aget _ _ _ _ (kwf_core _ W) Hci).
  - destruct H as [-> Hat]. split; [apply Forall_nil_2|done].
Qed.

Lemma bw_words : runs attached kernel_ddr_bw_read (fun r => Forall (in_u 64) r.2) attached.
Proof.
  intros c Hc. destruct (ddr_bw_request c Hc) as (rd & wr & b & d & Hrun & Hat & H1 & H2). unfold wp. rewrite Hrun.
  split; [|done]. apply Forall_cons_2; [done|]. by apply Forall_singleton.
Qed.

Lemma typed_control e : preserves con_typed (on_con (kernel_tuning_control e DEFAULT_TUNING_ALG DEFAULT_AGGRESSION_FACTOR)).
Proof.
  intros s (Hc & Hl & Hu). unfold wp, on_con, zoom.
  pose proof (attached_call (Tuning e DEFAULT_TUNING_ALG DEFAULT_AGGRESSION_FACTOR) _ Hc) as Hw.
  unfold wp, run_call, mbind, ST_bind in Hw. by destruct (kernel_tuning_control _ _ _ _) as [[r c]|].
Qed.

Lemma typed_start_tuning e : preserves con_typed (start_tuning e).
Proof. apply preserves_bind; [apply typed_control|]. intros r. apply preserves_if; apply preserves_ret. Qed.

Lemma typed_stop_tuning e : preserves con_typed (stop_tuning e).
Proof. apply preserves_bind; [apply typed_control|]. intros r. apply preserves_if; apply preserves_ret. Qed.

Lemma typed_read_array (m : U (Z * list Z)) (cond : bool) off :
  runs attached m (fun r => Forall (in_u 64) r.2) attached ->
  preserves con_typed (if cond then mret (-1) else r ← on_con m; if r.1 <? 0 then mret (-1) else store off r.2 ;; mret 0).
Proof.
  intros Hm s Hs. destruct cond; [by apply wp_ret|]. apply wp_bind. eapply wp_mono; [by apply (typed_on_con m)| |done].
  intros r s1 [Hw Hs1]. destruct (r.1 <? 0); [by apply wp_ret|]. apply wp_bind.
  eapply wp_mono; [by apply typed_store| |done]. intros u s2 Hs2. by apply wp_ret.
Qed.

Lemma typed_snapshot_core core i : 0 <= core < MAX_CORES -> preserves con_typed (snapshot_core core i).
Proof.
  intros Hc. assert (Hu : in_u 32 (u32 core)) by apply u32_range. unfold snapshot_core.
  pose proof (typed_store_int (cores_at i) core). preserve.
  - by apply typed_read_array, pmu_words.
  - by apply typed_read_array, msr_words.
Qed.

Lemma typed_read_ddr_bw : preserves con_typed (read_ddr_bw DDR_READ_BW_AT DDR_WRITE_BW_AT).
Proof.
  unfold read_ddr_bw. intros s Hs. apply wp_bind. eapply wp_mono; [by apply (typed_on_con _ _ bw_words)| |done].
  intros r s1 [Hw Hs1]. revert s1 Hs1.
  assert (Hst : forall off ws, Forall (in_u 64) ws -> preserves con_typed (store off ws)) by exact typed_store.
  apply (preserves_if con_typed); [apply preserves_ret|].
  apply preserves_bind; [by apply Hst, Forall_take|]. intros _.
  apply preserves_bind; [by apply Hst, Forall_take, Forall_drop|]. intros _. apply preserves_ret.
Qed.

Lemma typed_update : preserves con_typed update_console_snapshot.
Proof.
  intros s0 Hs0. unfold update_console_snapshot. apply wp_bind, wp_gets.
  destruct (_ || _ || _) eqn:Hbad; [by apply wp_ret|].
  rewrite !orb_false_iff, !Z.ltb_ge, Z.leb_gt in Hbad. destruct Hbad as [[H0 H1] H2].
  destruct (_ <? _); [by apply wp_ret|].
  assert (Hloop : forall cores i, Forall (fun c => 0 <= c < MAX_CORES) cores -> preserves con_typed (snapshot_loop cores i)).
  { intros cores i Hcs. revert i. induction Hcs as [|c cores Hc _ IH]; intros i; cbn [snapshot_loop]; preserve;
      [by apply typed_snapshot_core|apply IH..]. }
  assert (Hcs : Forall (fun c => 0 <= c < MAX_CORES) (seqZ (core_first s0) (core_last s0 - core_first s0 + 1))).
  { apply Forall_forall. intros j Hj%elem_of_seqZ. lia. }
  apply (preserves_bind con_typed); [by apply Hloop| |done]. intros n. pose proof (typed_store_int CORE_COUNT_AT n).
  assert (Hz : forall off, preserves con_typed (store off [0])) by (intros off; by apply typed_store, Forall_singleton).
  apply preserves_bind; [assumption|intros _]. apply preserves_if; [apply preserves_ret|].
  apply preserves_bind; [apply typed_read_ddr_bw|intros r]. apply preserves_if.
  - apply preserves_bind; [apply Hz|intros _]. apply preserves_bind; [apply Hz|intros _]. apply preserves_ret.
  - apply preserves_bind; [apply preserves_gets|intros t]. apply preserves_if; [|apply preserves_if; [|apply preserves_ret]].
    + apply preserves_bind; [apply typed_start_tuning|]. intros _. apply preserves_ret.
    + apply preserves_bind; [apply typed_stop_tuning|]. intros _. apply preserves_ret.
Qed.
End typed.

(** ** Properties *)

Section theorems.
Context {L : Linux}.
Context (Hon : forall j, j ∈ online_cpus -> 0 <= j < MAX_NUM_CORES).

Definition valid_range (s : console) : Prop := 0 <= core_first s <= core_last s /\ core_last s < MAX_CORES.

Definition range_cores (s : console) : list Z := seqZ (core_first s) (core_last s - core_first s + 1).

(** The rows the module behind the console has to offer. *)
Definition offered (s : console) : list core_row :=
  module_rows (kern (con_api s)) (run_cpu (con_api s)) (range_cores s).

Lemma update_run s :
  attached (con_api s) -> length (snapshot s) = SNAPSHOT_WORDS -> valid_range s ->
  exists m mem, let s' := s <| con_api := con_api s <| kern := m |> |> <| snapshot := mem |> in
    update_console_snapshot s = Ok (if bool_decide (offered s = []) then -1 else 0, s') /\
    attached (con_api s') /\ length mem = SNAPSHOT_WORDS /\ rows (view mem) = offered s /\
    tuning (view mem) = tuning (view (snapshot s)) /\ (offered s <> [] -> monitor_follows (tuning (view (snapshot s))) m) /\
    (offered s = [] -> offered s' = []) /\ (forall a b t, core_setup a b t (kern (con_api s)) -> core_setup a b t m).
Proof.
  intros Hc Hl [Hr1 Hr2].
  destruct (spec_update_run (core_first s) (core_last s) (view (snapshot s)) (con_api s) Hon Hc Hr1 Hr2) as (v' & m & Hspec & A & Hrows & Ht & Hm & Hnil & Hk).
  pose proof (snapshot_implements s Hl) as Himp. rewrite Hspec in Himp. destruct Himp as (mem & Hrun & Hlen & Hv).
  exists m, mem. rewrite Hv. by split_and!.
Qed.

Lemma rows_bound s mem : valid_range s -> rows (view mem) = offered s -> core_count_of mem <= MAX_CORES.
Proof.
  intros [Hr1 Hr2] Hrows. pose proof (f_equal length Hrows) as Hn. cbn [rows view] in Hn. rewrite length_map, length_seqZ in Hn.
  pose proof (length_omap_le (module_row (kern (con_api s)) (run_cpu (con_api s))) (range_cores s)) as Hle.
  fold (offered s) in Hle. unfold range_cores in Hle. rewrite length_seqZ in Hle.
  unfold offered, module_rows, range_cores, MAX_CORES in *. lia.
Qed.
End theorems.

(** What the console shows of a module, and what it does to it.  For a range
    of at most 64 cores the update ends; the snapshot holds one row per core of
    the range the module works with, in order.  The MSR columns are the core's
    table; the PMU columns are in every row the counters of the CPU the console
    itself runs on.  Every update that finds a row also sets the module's
    monitor to the console's own flag, with algorithm 0 and factor 1. *)
Theorem console_shows_module {L : Linux} (s : console) :
  (forall j, j ∈ online_cpus -> 0 <= j < MAX_NUM_CORES) ->
  attached (con_api s) -> length (snapshot s) = SNAPSHOT_WORDS -> valid_range s ->
  exists s', update_console_snapshot s = Ok (if bool_decide (offered s = []) then -1 else 0, s') /\
    attached (con_api s') /\ rows (view (snapshot s')) = offered s /\
    (forall r, r ∈ rows (view (snapshot s')) ->
       row_core r ∈ range_cores s /\ row_pmu r = take 7 (pmc_reading (machine (kern (con_api s))) (run_cpu (con_api s)))) /\
    (offered s <> [] -> monitor_follows (tuning (view (snapshot s))) (kern (con_api s'))).
Proof.
  intros Hon Hc Hl Hr. destruct (update_run Hon s Hc Hl Hr) as (m & mem & Hrun & A & _ & Hrows & _ & Hm & _).
  eexists. split; [exact Hrun|]. split_and!; [done|done| |done]. intros r. change (snapshot _) with mem. rewrite Hrows.
  intros (j & Hj & Hjr)%list_elem_of_omap. unfold module_row in Hjr. destruct (enabled_core _ j); [|done].
  injection Hjr as <-. done.
Qed.

(** C19: the snapshot keeps its type: from memory of the struct's size that holds
    64-bit words, the update ends with memory of the same size and kind, at most
    64 rows, each of a core of the range, and a module fit for the next call. *)
Theorem snapshot_typed {L : Linux} (s : console) :
  (forall j, j ∈ online_cpus -> 0 <= j < MAX_NUM_CORES) -> con_typed s -> valid_range s ->
  exists r s', update_console_snapshot s = Ok (r, s') /\ con_typed s' /\
    core_count_of (snapshot s') <= MAX_CORES /\
    Forall (fun row => row_core row ∈ range_cores s /\ length (row_pmu row) = 7%nat /\ length (row_msr row) = 6%nat)
      (rows (view (snapshot s'))).
Proof.
  intros Hon Ht Hr. pose proof Ht as (Hc & Hl & _).
  destruct (update_run Hon s Hc Hl Hr) as (m & mem & Hrun & _ & _ & Hrows & _ & _).
  eexists _, _. split; [exact Hrun|]. split.
  { exact (wp_Ok _ _ _ _ (fun _ => con_typed) any_stop Hrun (typed_update s Ht)). }
  change (snapshot _) with mem. split.
  - by apply (rows_bound s).
  - rewrite Hrows. apply Forall_forall. intros r (j & Hj & Hjr)%list_elem_of_omap. unfold module_row in Hjr.
    destruct (enabled_core _ j) as [ci|] eqn:Hci; [|done]. injection Hjr as <-. split_and!; [done|done|].
    cbn [row_msr]. rewrite length_take, msr_answer_len; [done|]. apply enabled_core_Some in Hci as [Hci _].
    destruct Hc as ((W & _) & _). by apply (Forall_aget _ _ _ _ (kwf_core _ W) Hci).
Qed.

(** ** Witnesses *)

(** A console on [example_client], whose module works with core 2 of cores 2 and
    3; its memory holds other data, and its tuning flag is 0. *)
Definition example_console : console :=
  {| con_api := example_client; snapshot := replicate 899 (2 ^ 40 + 5) ++ [0]; core_first := 2; core_last := 3;
     sysinfo := {| is_hybrid := 0; si_first_core := 0; si_last_core := 0; confirmed_bar := 0; confirmed_ddr_type := 0;
                   num_ddr_channels := 0; theoretical_bw := 0 |};
     con_aff := {| mask := {[0]}; sched_calls := [] |}; con_ddr := dstate0 [] |}.

Lemma example_console_typed : con_typed example_console.
Proof.
  split; [exact example_client_attached|]. split; [reflexivity|].
  apply Forall_app_2; [apply Forall_replicate; done|apply Forall_singleton; done].
Qed.

Lemma eight_cpus_online : forall j, j ∈ online_cpus (Linux := eight_cpus) -> 0 <= j < MAX_NUM_CORES.
Proof. intros j Hj%elem_of_seqZ. unfold MAX_NUM_CORES. lia. Qed.

(** The specification on that console. *)
Definition example_row : core_row :=
  {| row_core := 2; row_pmu := replicate 7 0; row_msr := [11; 12; 13; 14; 15; 16] |}.

Definition one_row (spec : outcome (Z * shot * client)) : bool :=
  match spec with
  | Ok (0, {| rows := [r] |}, _) =>
      (row_core r =? 2) && bool_decide (row_pmu r = replicate 7 0) && bool_decide (row_msr r = [11; 12; 13; 14; 15; 16])
  | _ => false
  end.

Lemma one_row_implements s spec res :
  one_row spec = true -> implements s spec res ->
  exists mem c, res = Ok (0, s <| con_api := c |> <| snapshot := mem |>) /\ rows (view mem) = [example_row].
Proof.
  destruct spec as [[[[] [[|[i p q] []] a b t]] c]|]; try done. cbn. intros E (mem & Hrun & _ & Hv).
  rewrite !andb_true_iff, Z.eqb_eq, !bool_decide_eq_true in E. destruct E as [[-> ->] ->].
  exists mem, c. split; [done|]. exact (f_equal rows Hv).
Qed.

Lemma example_spec_ok :
  one_row (spec_update (L := eight_cpus) (core_first example_console) (core_last example_console)
    (view (snapshot example_console)) (con_api example_console)) = true.
Proof. vm_compute. reflexivity. Qed.

Lemma snapshot_refines_witness :
  exists mem c, update_console_snapshot (L := eight_cpus) example_console =
      Ok (0, example_console <| con_api := c |> <| snapshot := mem |>) /\ rows (view mem) = [example_row].
Proof.
  exact (one_row_implements _ _ _ example_spec_ok (snapshot_refines (L := eight_cpus) example_console eq_refl)).
Defined.

Lemma console_shows_module_witness :
  exists s', update_console_snapshot (L := eight_cpus) example_console = Ok (0, s') /\
    keep_running (kern (con_api s')) = false /\ tune_alg (kern (con_api s')) = 0.
Proof.
  destruct (console_shows_module (L := eight_cpus) example_console) as (s' & Hrun & _ & _ & _ & Hm).
  - exact eight_cpus_online.
  - exact example_client_attached.
  - reflexivity.
  - vm_compute. split; [split|]; congruence.
  - assert (Hne : offered example_console <> []) by (vm_compute; discriminate).
    rewrite bool_decide_eq_false_2 in Hrun by exact Hne. exists s'. split; [exact Hrun|].
    destruct (Hm Hne (or_intror eq_refl)) as (H1 & _ & H2 & _). split; [exact H1|exact H2].
Defined.

Lemma snapshot_typed_witness :
  exists r s', update_console_snapshot (L := eight_cpus) example_console = Ok (r, s') /\ con_typed s' /\
    core_count_of (snapshot s') <= 64.
Proof.
  destruct (snapshot_typed (L := eight_cpus) example_console) as (r & s' & Hrun & Ht & Hn & _).
  - exact eight_cpus_online.
  - exact example_console_typed.
  - vm_compute. split; [split|]; congruence.
  - exists r, s'. split; [exact Hrun|]. split; [exact Ht|exact Hn].
Defined.
