(* ===== verification/ConsoleViews.v ===== *)
(** * The console's screen and its main loop ([tools/console/ui])

    [console_views.c] and the [main] of [console.c].  A window is its size and
    what was printed into it since it was erased; what ncurses makes of the
    requests (clipping, attributes, colours, boxes) is not modelled, and the
    sizes its [newwin] and [derwin] give are a parameter, as is [%.2f] of the C
    library.  The resize signal is an event of the main loop. *)

From Stdlib Require Import Ascii.
From stdpp Require Import pretty.
From S2P Require Import Prelude Floats KState KCommon KPmuDdr KApi KDpf KInv UserApi ClientRuns SysDetect PmuDdr KernelMode Console.

(** ** Windows *)

(** A request [mvwprintw(win, y, x, ...)] with its formatted text. *)
Record text := { t_y : Z; t_x : Z; t_text : string }.

Record window := { w_rows : Z; w_cols : Z; w_texts : list text }.

#[export] Instance window_settable : Settable window := fun r =>
  {| w_rows := w_rows r; w_cols := w_cols r; w_texts := w_texts r |}.

(** The sizes of new windows, [None] for NULL. *)
Class Ncurses := {
  newwin : Z -> Z -> Z -> Z -> option (Z * Z);
  derwin : Z * Z -> Z -> Z -> Z -> Z -> option (Z * Z) }.

(** What the console relies on: a window that fits is made with the size asked
    for. *)
Class NcursesOk (N : Ncurses) : Prop := {
  newwin_ok n m y x : 0 < n -> 0 < m -> 0 <= y -> 0 <= x -> newwin n m y x = Some (n, m);
  derwin_ok sz n m y x : 0 < n -> 0 < m -> 0 <= y -> 0 <= x -> y + n <= sz.1 -> x + m <= sz.2 ->
    derwin sz n m y x = Some (n, m) }.

(** The globals of the two files and the terminal. *)
Record ui := {
  con : console; current_view : Z; num_metrics : Z; scroll_offset : Z;
  header_win : option window; main_win : option window; titlebar_win : option window;
  term : Z * Z }.

#[export] Instance ui_settable : Settable ui := fun r =>
  {| con := con r; current_view := current_view r; num_metrics := num_metrics r; scroll_offset := scroll_offset r;
     header_win := header_win r; main_win := main_win r; titlebar_win := titlebar_win r; term := term r |}.

Abbreviation V := (ST ui).

Definition in_con {A} (m : ST console A) : V A := zoom con (fun x s => s <| con := x |>) m.

Definition add_text (t : text) (w : window) : window := w <| w_texts ::= fun l => l ++ [t] |>.

Definition print_header (y x : Z) (s : string) : V unit :=
  modify (fun u => u <| header_win ::= fmap (add_text {| t_y := y; t_x := x; t_text := s |}) |>).

Definition print_main (y x : Z) (s : string) : V unit :=
  modify (fun u => u <| main_win ::= fmap (add_text {| t_y := y; t_x := x; t_text := s |}) |>).

Definition print_titlebar (y x : Z) (s : string) : V unit :=
  modify (fun u => u <| titlebar_win ::= fmap (add_text {| t_y := y; t_x := x; t_text := s |}) |>).

Definition erased (w : window) : window := w <| w_texts := [] |>.

Definition werase_header : V unit := modify (fun u => u <| header_win ::= fmap erased |>).

(** The title bar is part of the main window. *)
Definition werase_main : V unit :=
  modify (fun u => u <| main_win ::= fmap erased |> <| titlebar_win ::= fmap erased |>).

Definition werase_titlebar : V unit := modify (fun u => u <| titlebar_win ::= fmap erased |>).

(** [getmaxyx]: -1 for NULL. *)
Definition max_rows_of (w : option window) : Z := from_option w_rows (-1) w.

(** ** Formats *)

Fixpoint spaces (n : nat) : string := match n with O => EmptyString | S n => String " "%char (spaces n) end.

(** [%-<n>s]. *)
Definition pad (n : nat) (s : string) : string := String.append s (spaces (n - String.length s)).

Definition d_ (z : Z) : string := pretty z.

Definition hex_digit (d : Z) : ascii :=
  ascii_of_nat (Z.to_nat (if d <? 10 then 48 + d else 87 + d)).

(** [%lx] of a 64-bit word: at most 16 digits. *)
Fixpoint hex_digits (fuel : nat) (z : Z) (acc : string) : string :=
  match fuel with
  | O => acc
  | S fuel => if z <? 16 then String (hex_digit z) acc else hex_digits fuel (z / 16) (String (hex_digit (z mod 16)) acc)
  end.

Definition x_ (z : Z) : string := hex_digits 16 z EmptyString.

(** ** [console_views.c] *)

Section views.
Context {L : Linux} {N : Ncurses}.
Context (fmt_2f : spec_float -> string).
Context (eax : Z -> Z) (edx available_cores : Z) (dmi_file : option (list Z))
  (dmi_stack : list (gmap string Z)) (dmi_header : Z * Z) (pci_found : option (list pci_dev)).

Definition update_metrics : V Z :=
  r ← in_con (collect_sysinfo eax edx available_cores dmi_file dmi_stack dmi_header pci_found);
  (if r =? 0 then
     r ← in_con update_console_snapshot;
     if r =? 0 then
       modify (fun u => u <| num_metrics := si_last_core (sysinfo (con u)) - si_first_core (sysinfo (con u)) + 1 |>)
     else mret tt
   else mret tt) ;;
  mret 0.

(** The loop over the titles after the first; [pos_x] is its variable. *)
Fixpoint title_loop (titles : list string) (pos_x space : Z) : V unit :=
  match titles with
  | [] => mret tt
  | t :: titles' => print_titlebar 0 pos_x t ;; title_loop titles' (pos_x + space) space
  end.

Definition title_bar (titles : list string) (pos_x space : Z) : V Z :=
  werase_titlebar ;;
  print_titlebar 0 2 "Core" ;;
  title_loop (drop 1 titles) pos_x space ;;
  mret 0.

Definition mbps (bw : Z) : spec_float := f64_div (f64_of_Z bw) (f64_of_Z (1024 * 1024)).

Definition ddr_type_name (t : Z) : string :=
  if t =? -1 then "None" else if t =? 1 then "Client" else if t =? 2 then "Grand Ridge / Sierra Forest" else "Unknown".

Local Open Scope string_scope.
Local Open Scope Z_scope.

(** The lines of the header. *)
Definition header_lines (v : shot) (i : dpf_console_sysinfo_s) : list text :=
  [ {| t_y := 1; t_x := 2; t_text := "dPF Monitor" |};
    {| t_y := 2; t_x := 2; t_text := "Active Cores: " +:+ d_ (si_last_core i - si_first_core i + 1) |};
    {| t_y := 3; t_x := 2; t_text := "Tuning: " +:+ pad 3 (if tuning v =? 0 then "OFF" else "ON") |};
    {| t_y := 4; t_x := 2; t_text := "DDR BW: Read=" +:+ d_ (read_bw v) +:+ " bytes( " +:+ fmt_2f (mbps (read_bw v)) +:+
         " MB/s), Write=" +:+ d_ (write_bw v) +:+ " bytes ( " +:+ fmt_2f (mbps (write_bw v)) +:+ " MB/s)" |};
    {| t_y := 5; t_x := 2; t_text := "DDR Config: BAR=" +:+ x_ (confirmed_bar i) +:+ ", Type=" +:+ ddr_type_name (confirmed_ddr_type i) |};
    {| t_y := 6; t_x := 2; t_text := "Processor Type: " +:+ (if is_hybrid i =? 0 then "Non-Hybrid" else "Hybrid") |};
    {| t_y := 7; t_x := 2; t_text := "First Atom E-Core: CPU(" +:+ d_ (si_first_core i) +:+ ") " +:+ String "009"%char EmptyString +:+
         "Last Atom E-Core: CPU(" +:+ d_ (si_last_core i) +:+ ")" |};
    {| t_y := 8; t_x := 2; t_text := "Total memory BW: " +:+ d_ (theoretical_bw i) +:+ " MB/s" |} ].

Definition header : V Z :=
  werase_header ;;
  u ← get_state;
  for_each (header_lines (view (snapshot (con u))) (sysinfo (con u))) (fun t => print_header (t_y t) (t_x t) (t_text t)) ;;
  mret 0.

(** The cells of one row, from column [pos_x] on. *)
Fixpoint print_cells (y pos_x space : Z) (cells : list string) : V unit :=
  match cells with
  | [] => mret tt
  | c :: cells' => print_main y pos_x c ;; print_cells y (pos_x + space) space cells'
  end.

(** [&snapshot.cores[i]]. *)
Definition core_at_row (i : Z) : V core_row :=
  if (i <? 0) || (MAX_CORES <=? i) then stop_with OutOfBounds else
  gets (fun u => row_at (snapshot (con u)) i).

(** The rows of a view; [cells] formats the members it shows. *)
Definition print_rows (viewable_rows space : Z) (cells : core_row -> list string) : V unit :=
  n ← gets (fun u => core_count_of (snapshot (con u)));
  for_each (seqZ 0 (Z.min n viewable_rows)) (fun i =>
    core ← core_at_row i;
    print_main (4 + i) 2 ("Core " +:+ pad 2 (d_ (row_core core))) ;;
    print_cells (4 + i) 12 space (cells core)).

Definition caption (scroll viewable metrics : Z) : string :=
  "Showing " +:+ d_ (scroll + 1) +:+ "-" +:+ d_ (if metrics <? scroll + viewable then metrics else scroll + viewable) +:+
  " of " +:+ d_ metrics.

Definition pmu_headers : list string :=
  ["Core"; "All Loads"; "L2 Hit"; "L3 Hit"; "DRAM Hit"; "XQ Promo"; "Cycles"; "Instr"].

Definition msr_headers : list string := ["Core"; "0x1320"; "0x1321"; "0x1322"; "0x1323"; "0x1324"; "0x1a4"].

Definition pmu_cells (r : core_row) : list string := map (fun v => pad 15 (d_ v)) (row_pmu r).

Definition msr_cells (r : core_row) : list string := map (fun v => pad 35 (x_ v)) (row_msr r).

Definition pmu_view : V Z :=
  werase_main ;;
  max_rows ← gets (fun u => max_rows_of (main_win u));
  let viewable_rows := max_rows - 8 in
  print_main 1 2 "PMU Counters" ;;
  title_bar pmu_headers 12 16 ;;
  print_rows viewable_rows 16 pmu_cells ;;
  u ← get_state;
  print_main (max_rows - 2) 2 (caption (scroll_offset u) viewable_rows (num_metrics u)) ;;
  print_main (max_rows - 1) 2 " Press [s] Start tuning, [t] Stop tuning, [p] " ;;
  print_main (max_rows - 1) 48 "PMU" ;;
  print_main (max_rows - 1) 51 ", [m] MSR, [q] quit " ;;
  mret 0.

Definition msr_view : V Z :=
  werase_main ;;
  max_rows ← gets (fun u => max_rows_of (main_win u));
  let viewable_rows := max_rows - 8 in
  print_main 1 2 "MSR Settings" ;;
  title_bar msr_headers 12 18 ;;
  print_rows viewable_rows 18 msr_cells ;;
  u ← get_state;
  print_main (max_rows - 2) 2 (caption (scroll_offset u) viewable_rows (num_metrics u)) ;;
  print_main (max_rows - 1) 2 " Press [s] Start tuning, [t] Stop tuning, [p] PMU, [m] " ;;
  print_main (max_rows - 1) 57 "MSR" ;;
  print_main (max_rows - 1) 60 ", [q] quit " ;;
  mret 0.

Definition fresh (sz : Z * Z) : window := {| w_rows := sz.1; w_cols := sz.2; w_texts := [] |}.

(** The three windows for a terminal of [rows] by [cols]. *)
Definition make_windows (rows cols : Z) : V unit :=
  let main := newwin (rows - 10) cols 10 0 in
  modify (fun u => u <| header_win := fresh <$> newwin 11 cols 0 0 |> <| main_win := fresh <$> main |>
                     <| titlebar_win := fresh <$> (sz ← main; derwin sz 1 (cols - 2) 3 1) |>).

(** The signal arrives when the terminal has its new size. *)
Definition handle_resize (size : Z * Z) : V unit :=
  modify (fun u => u <| term := size |>) ;;
  make_windows size.1 size.2 ;;
  header ;;
  v ← gets current_view;
  if v =? 0 then title_bar pmu_headers 12 16 ;; pmu_view ;; mret tt
  else title_bar msr_headers 12 18 ;; msr_view ;; mret tt.

(** Keys, as [getch] returns them. *)
Inductive key : Type := KEY_DOWN | KEY_UP | Char (c : ascii).

#[export] Instance key_eq_dec : EqDecision key.
Proof. solve_decision. Defined.

Definition scrollable (ch : key) : V Z :=
  u ← get_state;
  let viewable_rows := max_rows_of (main_win u) - 4 in
  (if bool_decide (ch = KEY_DOWN \/ ch = Char "j"%char) && (scroll_offset u + viewable_rows <? num_metrics u)
   then modify (fun u => u <| scroll_offset ::= Z.succ |>)
   else if bool_decide (ch = KEY_UP \/ ch = Char "k"%char) && (0 <? scroll_offset u)
   then modify (fun u => u <| scroll_offset ::= Z.pred |>)
   else mret tt) ;;
  mret 0.

(** ** [console.c] *)

(** The [switch] on the key, and what follows it; [needs_refresh] after it. *)
Definition handle_char (ch : key) (needs_refresh : bool) : V bool :=
  n ← (match ch with
       | Char "s"%char => in_con (store_int TUNING_ENABLED_AT 1) ;; mret needs_refresh
       | Char "t"%char => in_con (store_int TUNING_ENABLED_AT 0) ;; mret needs_refresh
       | Char "p"%char => modify (fun u => u <| current_view := 0 |>) ;; mret true
       | Char "m"%char => modify (fun u => u <| current_view := 1 |>) ;; mret true
       | _ => mret needs_refresh
       end);
  scrollable ch ;;
  mret n.

(** One round of the loop at time [now] with the key that was pressed, if any:
    whether the loop is left, and [needs_refresh] and [last_update] after it. *)
Definition round (now : Z) (ch : option key) (needs_refresh : bool) (last_update : Z) : V (bool * bool * Z) :=
  r ← in_con update_console_snapshot;
  if r =? 0 then
    st ← (if needs_refresh || (1 <=? now - last_update) then
            header ;;
            v ← gets current_view;
            (if v =? 0 then pmu_view else msr_view) ;;
            mret (false, now)
          else mret (needs_refresh, last_update));
    let '(needs_refresh, last_update) := st in
    match ch with
    | None => mret (false, needs_refresh, last_update)
    | Some ch =>
        if bool_decide (ch = Char "q"%char) then mret (true, needs_refresh, last_update) else
        n ← handle_char ch needs_refresh;
        mret (false, n, last_update)
    end
  else
    print_main 4 2 "Failed to read PMU metrics." ;;
    mret (false, needs_refresh, last_update).

(** What can happen while the loop runs: a round, or a resize of the terminal. *)
Inductive event : Type :=
  | Round (now : Z) (ch : option key)
  | Resize (size : Z * Z).

(** [true] when the loop is left within these events. *)
Fixpoint event_loop (es : list event) (needs_refresh : bool) (last_update : Z) : V bool :=
  match es with
  | [] => mret false
  | Resize size :: es' => handle_resize size ;; event_loop es' needs_refresh last_update
  | Round now ch :: es' =>
      r ← round now ch needs_refresh last_update;
      let '(quit, n, l) := r in
      if quit : bool then mret true else event_loop es' n l
  end.

(** [main]: [None] while it runs, otherwise its exit status. *)
Definition console_main (es : list event) : V (option Z) :=
  ret ← in_con (on_con kernel_mode_init);
  if ret <? 0 then mret (Some 1) else
  ok ← in_con (detect_cores eax edx available_cores);
  if negb ok then mret (Some 1) else
  c ← gets con;
  ret ← in_con (on_con (kernel_core_range (u32 (core_first c)) (u32 (core_last c))));
  if ret <? 0 then mret (Some 1) else
  update_metrics ;;
  size ← gets term;
  make_windows size.1 size.2 ;;
  quit ← event_loop es true 0;
  mret (if quit : bool then Some 0 else None).
End views.

(** ** What is on the screen *)

(** The texts of a row of cells, of a table of rows and of a view. *)
Fixpoint cell_texts (y pos_x space : Z) (cells : list string) : list text :=
  match cells with
  | [] => []
  | c :: cells' => {| t_y := y; t_x := pos_x; t_text := c |} :: cell_texts y (pos_x + space) space cells'
  end.

Definition row_texts (space : Z) (cells : core_row -> list string) (y : Z) (r : core_row) : list text :=
  {| t_y := y; t_x := 2; t_text := String.append "Core " (pad 2 (d_ (row_core r))) |} :: cell_texts y 12 space (cells r).

Fixpoint table_texts (space : Z) (cells : core_row -> list string) (y : Z) (rs : list core_row) : list text :=
  match rs with
  | [] => []
  | r :: rs' => row_texts space cells y r ++ table_texts space cells (y + 1) rs'
  end.

Definition usage_texts (v max_rows : Z) : list text :=
  if v =? 0 then
    [ {| t_y := max_rows - 1; t_x := 2; t_text := " Press [s] Start tuning, [t] Stop tuning, [p] " |};
      {| t_y := max_rows - 1; t_x := 48; t_text := "PMU" |};
      {| t_y := max_rows - 1; t_x := 51; t_text := ", [m] MSR, [q] quit " |} ]
  else
    [ {| t_y := max_rows - 1; t_x := 2; t_text := " Press [s] Start tuning, [t] Stop tuning, [p] PMU, [m] " |};
      {| t_y := max_rows - 1; t_x := 57; t_text := "MSR" |};
      {| t_y := max_rows - 1; t_x := 60; t_text := ", [q] quit " |} ].

(** The main window of view [v] for the rows [rs]. *)
Definition screen (v max_rows scroll metrics : Z) (rs : list core_row) : list text :=
  {| t_y := 1; t_x := 2; t_text := if v =? 0 then "PMU Counters" else "MSR Settings" |} ::
  table_texts (if v =? 0 then 16 else 18) (if v =? 0 then pmu_cells else msr_cells) 4 (take (Z.to_nat (max_rows - 8)) rs) ++
  {| t_y := max_rows - 2; t_x := 2; t_text := caption scroll (max_rows - 8) metrics |} ::
  usage_texts v max_rows.

Definition titles (v : Z) : list text :=
  {| t_y := 0; t_x := 2; t_text := "Core" |} ::
  cell_texts 0 12 (if v =? 0 then 16 else 18) (drop 1 (if v =? 0 then pmu_headers else msr_headers)).

(** More text in the main window. *)
Definition more (ts : list text) (u : ui) : ui :=
  u <| main_win ::= fmap (fun w => w <| w_texts ::= fun l => l ++ ts |>) |>.

Lemma more_nil u : more [] u = u.
Proof. destruct u as [? ? ? ? ? [[]|] ? ?]; unfold more, Prelude.set; cbn; by rewrite ?app_nil_r. Qed.

Lemma more_more ts ts' u : more ts' (more ts u) = more (ts ++ ts') u.
Proof. destruct u as [? ? ? ? ? [[]|] ? ?]; unfold more, Prelude.set; cbn; by rewrite ?app_assoc. Qed.

Lemma print_main_eq y x s u : print_main y x s u = Ok (tt, more [{| t_y := y; t_x := x; t_text := s |}] u).
Proof. done. Qed.

Lemma print_cells_eq y x sp cells u : print_cells y x sp cells u = Ok (tt, more (cell_texts y x sp cells) u).
Proof.
  revert x u. induction cells as [|c cells IH]; intros x u; cbn [print_cells cell_texts]; [by rewrite more_nil|].
  rewrite (bind_Ok _ _ _ _ _ (print_main_eq y x c u)), IH, more_more. done.
Qed.

Lemma print_rows_eq n sp cells u :
  core_count_of (snapshot (con u)) <= MAX_CORES ->
  print_rows n sp cells u =
    Ok (tt, more (table_texts sp cells 4 (take (Z.to_nat n) (rows (view (snapshot (con u)))))) u).
Proof.
  intros Hn. unfold print_rows. rewrite bind_gets. cbn [rows view]. set (cnt := core_count_of _) in *.
  set (mem := snapshot (con u)) in *.
  assert (H : forall k i u', con u' = con u -> 0 <= i -> i + Z.of_nat k <= MAX_CORES ->
    for_each (seqZ i (Z.of_nat k)) (fun i => core ← core_at_row i; print_main (4 + i) 2 (String.append "Core " (pad 2 (d_ (row_core core)))) ;;
      print_cells (4 + i) 12 sp (cells core)) u' =
    Ok (tt, more (table_texts sp cells (4 + i) (map (row_at mem) (seqZ i (Z.of_nat k)))) u')).
  { induction k as [|k IH]; intros i u' Hu Hi Hk; [by rewrite more_nil|].
    rewrite seqZ_cons by lia. replace (Z.pred (Z.of_nat (S k))) with (Z.of_nat k) by lia. cbn [for_each map table_texts].
    assert (Hrow : core_at_row i u' = Ok (row_at mem i, u')).
    { unfold core_at_row. rewrite (proj2 (Z.ltb_ge _ _)), (proj2 (Z.leb_gt _ _)) by lia. cbn [orb]. unfold gets. by rewrite Hu. }
    erewrite bind_Ok by (rewrite (bind_Ok _ _ _ _ _ Hrow), (bind_Ok _ _ _ _ _ (print_main_eq _ _ _ _)); apply print_cells_eq).
    rewrite more_more, IH; [|by destruct u' as [? ? ? ? ? [[]|] ? ?]|lia..].
    rewrite more_more. replace (4 + Z.succ i) with (4 + i + 1) by lia. done. }
  specialize (H (Z.to_nat (Z.min cnt n)) 0 u eq_refl ltac:(done)). 
  assert (Hz : Z.of_nat (Z.to_nat (Z.min cnt n)) = Z.max 0 (Z.min cnt n)) by lia.
  assert (Hseq : seqZ 0 (Z.of_nat (Z.to_nat (Z.min cnt n))) = seqZ 0 (Z.min cnt n)).
  { rewrite Hz. destruct (decide (0 <= Z.min cnt n)); [by rewrite Z.max_r by lia|]. by rewrite !seqZ_nil by lia. }
  rewrite Hseq in H. rewrite H by (unfold MAX_CORES in *; lia). do 3 f_equal.
  f_equal. apply list_eq. intros i. change (map ?f ?l) with (f <$> l).
  destruct (decide (Z.of_nat i < Z.min cnt n)) as [Hi|Hi].
  - rewrite lookup_take_lt by lia. rewrite !list_lookup_fmap, !lookup_seqZ_lt by lia. done.
  - rewrite list_lookup_fmap, lookup_seqZ_ge by lia. symmetry. destruct (decide (Z.of_nat i < n)).
    + rewrite lookup_take_lt by lia. by rewrite list_lookup_fmap, lookup_seqZ_ge by lia.
    + by rewrite lookup_take_ge by lia.
Qed.

(** The title bar replaced. *)
Definition titled (ts : list text) (u : ui) : ui :=
  u <| titlebar_win ::= fmap (fun w => w <| w_texts := ts |>) |>.

Lemma title_loop_eq ts x sp u :
  title_loop ts x sp u =
    Ok (tt, u <| titlebar_win ::= fmap (fun w => w <| w_texts ::= fun l => l ++ cell_texts 0 x sp ts |>) |>).
Proof.
  revert x u. induction ts as [|t ts IH]; intros x u; cbn [title_loop cell_texts].
  - destruct u as [? ? ? ? ? ? [[]|] ?]; unfold Prelude.set; cbn; by rewrite ?app_nil_r.
  - unfold print_titlebar. rewrite bind_modify, IH. destruct u as [? ? ? ? ? ? [[]|] ?]; unfold Prelude.set, add_text; cbn;
      by rewrite <- ?app_assoc.
Qed.

Lemma title_bar_eq ts x sp u :
  title_bar ts x sp u =
    Ok (0, titled ({| t_y := 0; t_x := 2; t_text := "Core" |} :: cell_texts 0 x sp (drop 1 ts)) u).
Proof.
  unfold title_bar, werase_titlebar, print_titlebar. rewrite !bind_modify.
  rewrite (bind_Ok _ _ _ _ _ (title_loop_eq _ _ _ _)). by destruct u as [? ? ? ? ? ? [[]|] ?].
Qed.

(** The screen of a view. *)
Definition shown (v : Z) (u : ui) : ui :=
  u <| main_win ::= fmap (fun w => w <| w_texts := screen v (w_rows w) (scroll_offset u) (num_metrics u)
                                                     (rows (view (snapshot (con u)))) |>) |>
    <| titlebar_win ::= fmap (fun w => w <| w_texts := titles v |>) |>.

Section views_eq.
Context (u : ui) (Hn : core_count_of (snapshot (con u)) <= MAX_CORES).

(** The common shape of the two views. *)
Lemma view_run title hs sp cells s1 x2 s2 x3 s3 :
  (werase_main ;;
   max_rows ← gets (fun u => max_rows_of (main_win u));
   let viewable_rows := max_rows - 8 in
   print_main 1 2 title ;; title_bar hs 12 sp ;; print_rows viewable_rows sp cells ;;
   u ← get_state;
   print_main (max_rows - 2) 2 (caption (scroll_offset u) viewable_rows (num_metrics u)) ;;
   print_main (max_rows - 1) 2 s1 ;; print_main (max_rows - 1) x2 s2 ;; print_main (max_rows - 1) x3 s3 ;;
   mret 0) u =
  Ok (0, u <| main_win ::= fmap (fun w => w <| w_texts :=
               {| t_y := 1; t_x := 2; t_text := title |} ::
               table_texts sp cells 4 (take (Z.to_nat (w_rows w - 8)) (rows (view (snapshot (con u))))) ++
               [ {| t_y := w_rows w - 2; t_x := 2; t_text := caption (scroll_offset u) (w_rows w - 8) (num_metrics u) |};
                 {| t_y := w_rows w - 1; t_x := 2; t_text := s1 |}; {| t_y := w_rows w - 1; t_x := x2; t_text := s2 |};
                 {| t_y := w_rows w - 1; t_x := x3; t_text := s3 |} ] |>) |>
           <| titlebar_win ::= fmap (fun w => w <| w_texts :=
               {| t_y := 0; t_x := 2; t_text := "Core" |} :: cell_texts 0 12 sp (drop 1 hs) |>) |>).
Proof.
  unfold werase_main. rewrite bind_modify, bind_gets.
  set (u1 := Prelude.set titlebar_win _ _). set (mr := max_rows_of (main_win u1)).
  assert (Hmr : mr = max_rows_of (main_win u)) by (unfold mr, u1; destruct u as [? ? ? ? ? [[]|] ? ?]; done).
  cbv zeta. rewrite (bind_Ok _ _ _ _ _ (print_main_eq _ _ _ _)), (bind_Ok _ _ _ _ _ (title_bar_eq _ _ _ _)).
  match goal with |- context [titled ?ts (more ?a u1)] => set (u2 := titled ts (more a u1)) end.
  assert (Hc : con u2 = con u) by done.
  rewrite (bind_Ok _ _ _ _ _ (print_rows_eq (mr - 8) sp cells u2 ltac:(by rewrite Hc))), Hc.
  rewrite (bind_Ok get_state _ _ _ _ eq_refl).
  rewrite !(bind_Ok _ _ _ _ _ (print_main_eq _ _ _ _)), !more_more. unfold mret, ST_ret. do 2 f_equal.
  unfold u2, u1. rewrite Hmr. clear.
  destruct u as [? ? ? ? ? [[]|] [[]|] ?]; unfold more, titled, Prelude.set; cbn -[table_texts take caption cell_texts];
    by rewrite <- ?app_assoc.
Qed.

Lemma pmu_view_eq : pmu_view u = Ok (0, shown 0 u).
Proof. apply view_run. Qed.

Lemma msr_view_eq : msr_view u = Ok (0, shown 1 u).
Proof. apply view_run. Qed.
End views_eq.

Section screen_theorems.
Context {L : Linux} {N : Ncurses}.
Context (fmt_2f : spec_float -> string).

(** The header window replaced. *)
Definition headed (u : ui) : ui :=
  u <| header_win ::= fmap (fun w => w <| w_texts := header_lines fmt_2f (view (snapshot (con u))) (sysinfo (con u)) |>) |>.

Lemma header_eq u : header fmt_2f u = Ok (0, headed u).
Proof.
  unfold header, werase_header. rewrite bind_modify, (bind_Ok get_state _ _ _ _ eq_refl).
  set (u1 := Prelude.set header_win _ u). change (con u1) with (con u). set (ts := header_lines _ _ _).
  assert (H : forall ts u, for_each ts (fun t => print_header (t_y t) (t_x t) (t_text t)) u =
    Ok (tt, u <| header_win ::= fmap (fun w => w <| w_texts ::= fun l => l ++ ts |>) |>)).
  { induction ts0 as [|t ts0 IH]; intros u0; cbn [for_each].
    - destruct u0 as [? ? ? ? [[]|] ? ? ?]; unfold Prelude.set; cbn; by rewrite ?app_nil_r.
    - unfold print_header. rewrite bind_modify, IH. destruct t, u0 as [? ? ? ? [[]|] ? ? ?]; unfold Prelude.set, add_text; cbn;
        by rewrite <- ?app_assoc. }
  rewrite (bind_Ok _ _ _ _ _ (H ts u1)). unfold u1, headed. fold ts. by destruct u as [? ? ? ? [[]|] ? ? ?].
Qed.

(** The refresh of a round. *)
Lemma refresh_eq u :
  core_count_of (snapshot (con u)) <= MAX_CORES ->
  (header fmt_2f ;; v ← gets current_view; if v =? 0 then pmu_view else msr_view) u =
    Ok (0, shown (if current_view u =? 0 then 0 else 1) (headed u)).
Proof.
  intros Hn. rewrite (bind_Ok _ _ _ _ _ (header_eq u)), bind_gets. change (current_view (headed u)) with (current_view u).
  destruct (_ =? 0); [by apply pmu_view_eq|by apply msr_view_eq].
Qed.

Lemma in_con_Ok {A} (m : ST console A) u a c : m (con u) = Ok (a, c) -> in_con m u = Ok (a, u <| con := c |>).
Proof. intros H. unfold in_con, zoom. by rewrite H. Qed.

Context (Hon : forall j, j ∈ online_cpus -> 0 <= j < MAX_NUM_CORES).

(** A console that can update its snapshot. *)
Definition connected (s : console) : Prop :=
  attached (con_api s) /\ length (snapshot s) = SNAPSHOT_WORDS /\ valid_range s.

(** The console after an update, with a row or without. *)
Lemma update_connected s :
  connected s -> exists s', update_console_snapshot s = Ok (if bool_decide (offered s = []) then -1 else 0, s') /\
    connected s' /\ rows (view (snapshot s')) = offered s /\ core_count_of (snapshot s') <= MAX_CORES /\
    (offered s <> [] -> monitor_follows (tuning (view (snapshot s))) (kern (con_api s'))) /\
    (offered s = [] -> offered s' = []) /\ tuning (view (snapshot s')) = tuning (view (snapshot s)) /\
    (core_first s' = core_first s /\ core_last s' = core_last s) /\
    (forall a b t, core_setup a b t (kern (con_api s)) -> core_setup a b t (kern (con_api s'))).
Proof.
  intros (Hc & Hl & Hr). destruct (update_run Hon s Hc Hl Hr) as (m & mem & Hrun & A & Hlen & Hrows & Ht & Hm & Hnil & Hk).
  eexists. split; [exact Hrun|]. split_and!; try done. by apply (rows_bound s).
Qed.

(** The picture of a round: it is drawn when something asked for it or a second
    has passed, and stays as it is otherwise. *)
Definition due (needs_refresh : bool) (now last : Z) : bool := needs_refresh || (1 <=? now - last).

Definition picture (due : bool) (u : ui) : ui :=
  if due then shown (if current_view u =? 0 then 0 else 1) (headed u) else u.

(** What follows the picture: the key. *)
Definition key_part (ch : option key) (last : Z) : V (bool * bool * Z) :=
  match ch with
  | None => mret (false, false, last)
  | Some ch => if bool_decide (ch = Char "q"%char) then mret (true, false, last) else n ← handle_char ch false; mret (false, n, last)
  end.

Lemma round_step now ch nr last u :
  connected (con u) -> offered (con u) <> [] ->
  exists c, round fmt_2f now ch nr last u =
      key_part ch (if due nr now last then now else last) (picture (due nr now last) (u <| con := c |>)) /\
    connected c /\ rows (view (snapshot c)) = offered (con u) /\
    tuning (view (snapshot c)) = tuning (view (snapshot (con u))) /\
    monitor_follows (tuning (view (snapshot (con u)))) (kern (con_api c)) /\
    (forall a b t, core_setup a b t (kern (con_api (con u))) -> core_setup a b t (kern (con_api c))).
Proof.
  intros Hc Hne. destruct (update_connected _ Hc) as (c & Hrun & Hc' & Hrows & Hn & Hm & _ & Ht & _ & Hk).
  rewrite bool_decide_eq_false_2 in Hrun by done. exists c. split_and!; auto. unfold round.
  rewrite (bind_Ok _ _ _ _ _ (in_con_Ok _ u _ _ Hrun)). change (0 =? 0) with true. cbv iota.
  set (u1 := u <| con := c |>). fold (due nr now last). destruct (due nr now last) eqn:Hdue; unfold picture.
  - assert (Hd : (header fmt_2f ;; v ← gets current_view; (if v =? 0 then pmu_view else msr_view) ;; mret (false, now)) u1 =
      Ok ((false, now), shown (if current_view u1 =? 0 then 0 else 1) (headed u1))).
    { pose proof (refresh_eq u1 Hn) as Hr. rewrite (bind_Ok _ _ _ _ _ (header_eq u1)), bind_gets in Hr.
      rewrite (bind_Ok _ _ _ _ _ (header_eq u1)), bind_gets. by rewrite (bind_Ok _ _ _ _ _ Hr). }
    by rewrite (bind_Ok _ _ _ _ _ Hd).
  - unfold due in Hdue. apply orb_false_iff in Hdue as [-> _]. done.
Qed.

(** A round that draws, without a key. *)
Lemma round_draws now u last :
  connected (con u) -> offered (con u) <> [] ->
  exists c, round fmt_2f now None true last u =
      Ok (false, false, now, shown (if current_view u =? 0 then 0 else 1) (headed (u <| con := c |>))) /\
    connected c /\ rows (view (snapshot c)) = offered (con u) /\
    monitor_follows (tuning (view (snapshot (con u)))) (kern (con_api c)) /\
    (forall a b t, core_setup a b t (kern (con_api (con u))) -> core_setup a b t (kern (con_api c))).
Proof. intros Hc Hne. destruct (round_step now None true last u Hc Hne) as (c & Hrun & H1 & H2 & _ & H3 & H4). by exists c. Qed.

(** The console after a key that is not ['q']: the view, the flag for the tuning
    and the scroll offset. *)
Definition view_key (ch : option key) (v : Z) : Z :=
  match ch with Some (Char "p"%char) => 0 | Some (Char "m"%char) => 1 | _ => v end.

Definition tuning_key (ch : option key) (flag : Z) : Z :=
  match ch with Some (Char "s"%char) => TUNING_ENABLED | Some (Char "t"%char) => TUNING_DISABLED | _ => flag end.

Definition scroll_keys : list key := [KEY_DOWN; KEY_UP; Char "j"%char; Char "k"%char].

(** [u'] has the windows of [u]. *)
Definition same_windows (u u' : ui) : Prop :=
  header_win u' = header_win u /\ main_win u' = main_win u /\ titlebar_win u' = titlebar_win u.

Lemma tuning_stored c v :
  connected c -> in_s32 v ->
  exists c', store_int TUNING_ENABLED_AT v c = Ok (tt, c') /\ connected c' /\ tuning (view (snapshot c')) = v.
Proof.
  intros (H1 & H2 & H3) Hv. assert (Hz : zlen (snapshot c) = 900) by (unfold zlen; by rewrite H2).
  eexists. split; [apply store_int_Ok; rewrite Hz; unfold TUNING_ENABLED_AT; lia|]. split; [split; [exact H1|split; [|exact H3]]|].
  - change (length (put_words TUNING_ENABLED_AT [with_low32 (word_at (snapshot c) TUNING_ENABLED_AT) v] (snapshot c)) = SNAPSHOT_WORDS).
    rewrite length_put_words; [done|by unfold TUNING_ENABLED_AT|rewrite Hz; by vm_compute].
  - change (low32 (word_at (put_words TUNING_ENABLED_AT [with_low32 (word_at (snapshot c) TUNING_ENABLED_AT) v] (snapshot c)) TUNING_ENABLED_AT) = v).
    rewrite word_at_put by (rewrite ?Hz; by vm_compute). by apply low32_with.
Qed.

Lemma scrollable_run ch u :
  exists k, scrollable ch u = Ok (0, u <| scroll_offset := k |>) /\ (ch ∉ scroll_keys -> k = scroll_offset u).
Proof.
  unfold scrollable. rewrite (bind_Ok get_state _ _ _ _ eq_refl).
  destruct (_ && _) eqn:Hd; [|destruct (bool_decide (ch = KEY_UP \/ _) && _) eqn:Hu].
  - exists (Z.succ (scroll_offset u)). split; [by destruct u|]. intros Hch. exfalso. apply Hch.
    apply andb_true_iff in Hd as [[->| ->]%bool_decide_eq_true _]; unfold scroll_keys; set_solver.
  - exists (Z.pred (scroll_offset u)). split; [by destruct u|]. intros Hch. exfalso. apply Hch.
    apply andb_true_iff in Hu as [[->| ->]%bool_decide_eq_true _]; unfold scroll_keys; set_solver.
  - exists (scroll_offset u). split; [by destruct u|done].
Qed.

(** The part of a key that comes before the scrolling. *)
Definition char_part (ch : key) (n : bool) : V bool :=
  match ch with
  | Char "s"%char => in_con (store_int TUNING_ENABLED_AT 1) ;; mret n
  | Char "t"%char => in_con (store_int TUNING_ENABLED_AT 0) ;; mret n
  | Char "p"%char => modify (fun u => u <| current_view := 0 |>) ;; mret true
  | Char "m"%char => modify (fun u => u <| current_view := 1 |>) ;; mret true
  | _ => mret n
  end.

Definition redraw_key (ch : option key) : bool := bool_decide (ch ∈ [Some (Char "p"%char); Some (Char "m"%char)]).

Lemma char_part_run ch n u :
  connected (con u) ->
  exists c, char_part ch n u = Ok (n || redraw_key (Some ch), u <| con := c |> <| current_view := view_key (Some ch) (current_view u) |>) /\
    connected c /\ tuning (view (snapshot c)) = tuning_key (Some ch) (tuning (view (snapshot (con u)))).
Proof.
  intros Hc. assert (Hother : forall ch, ch ∉ map Char ["s"; "t"; "p"; "m"]%char ->
    char_part ch n u = Ok (n, u) /\ redraw_key (Some ch) = false /\ view_key (Some ch) (current_view u) = current_view u /\
    tuning_key (Some ch) (tuning (view (snapshot (con u)))) = tuning (view (snapshot (con u)))).
  { intros k Hk. split; [|split; [apply bool_decide_eq_false; set_solver|]].
    all: destruct k as [| |[[] [] [] [] [] [] [] []]]; try (by split); try done; exfalso; apply Hk; set_solver. }
  destruct (decide (ch ∈ map Char ["s"; "t"; "p"; "m"]%char)) as [Hin|Hout].
  - repeat (apply elem_of_cons in Hin as [->|Hin]); [..|by apply not_elem_of_nil in Hin].
    + destruct (tuning_stored (con u) 1 Hc ltac:(done)) as (c & Hrun & Hc' & Ht). exists c. split_and!; [|done..].
      cbn [char_part]. rewrite (bind_Ok _ _ _ _ _ (in_con_Ok _ u _ _ Hrun)). rewrite orb_false_r. by destruct u.
    + destruct (tuning_stored (con u) 0 Hc ltac:(done)) as (c & Hrun & Hc' & Ht). exists c. split_and!; [|done..].
      cbn [char_part]. rewrite (bind_Ok _ _ _ _ _ (in_con_Ok _ u _ _ Hrun)). rewrite orb_false_r. by destruct u.
    + exists (con u). split_and!; [|done..]. cbn [char_part]. rewrite bind_modify, orb_true_r. by destruct u.
    + exists (con u). split_and!; [|done..]. cbn [char_part]. rewrite bind_modify, orb_true_r. by destruct u.
  - destruct (Hother ch Hout) as (H1 & H2 & H3 & H4). exists (con u). rewrite H1, H2, H3, H4, orb_false_r. split_and!; [|done..].
    by destruct u.
Qed.

Lemma key_part_run ch last u :
  connected (con u) ->
  exists u', key_part ch last u = Ok (bool_decide (ch = Some (Char "q"%char)), redraw_key ch, last, u') /\
    connected (con u') /\ same_windows u u' /\ current_view u' = view_key ch (current_view u) /\
    tuning (view (snapshot (con u'))) = tuning_key ch (tuning (view (snapshot (con u)))) /\
    (from_option (fun k => k ∉ scroll_keys) True ch -> scroll_offset u' = scroll_offset u).
Proof.
  intros Hc. destruct ch as [ch|]; [|exists u; by split_and!]. cbn [key_part from_option].
  destruct (decide (ch = Char "q"%char)) as [->|Hq]; [exists u; by split_and!|].
  rewrite !bool_decide_eq_false_2 by congruence. destruct (char_part_run ch false u Hc) as (c & Hrun & Hc' & Ht).
  set (u1 := u <| con := c |> <| current_view := _ |>) in *. destruct (scrollable_run ch u1) as (k & Hs & Hk).
  exists (u1 <| scroll_offset := k |>). split_and!; try done.
  change (handle_char ch false) with (n ← char_part ch false; scrollable ch ;; mret n).
  erewrite bind_Ok by (rewrite (bind_Ok _ _ _ _ _ Hrun), (bind_Ok _ _ _ _ _ Hs); reflexivity). done.
Qed.

(** ** A console without rows *)

Definition rowless (u : ui) : Prop :=
  connected (con u) /\ offered (con u) = [] /\ core_count_of (snapshot (con u)) <= MAX_CORES.

Lemma rowless_round now ch nr last : runs rowless (round fmt_2f now ch nr last) (fun r => r.1.1 = false) rowless.
Proof.
  intros u (Hc & Hnil & Hn). destruct (update_connected _ Hc) as (c & Hrun & Hc' & _ & Hn' & _ & Hnil' & _).
  rewrite bool_decide_eq_true_2 in Hrun by done. unfold wp, round.
  rewrite (bind_Ok _ _ _ _ _ (in_con_Ok _ u _ _ Hrun)). change (-1 =? 0) with false. cbv iota.
  rewrite (bind_Ok _ _ _ _ _ (print_main_eq _ _ _ _)). split; [done|]. split_and!; auto.
Qed.

Lemma rowless_resize size : runs rowless (handle_resize fmt_2f size) (fun _ => True) rowless.
Proof.
  intros u (Hc & Hnil & Hn). unfold wp, handle_resize, make_windows. rewrite !bind_modify.
  set (u1 := Prelude.set titlebar_win _ _). rewrite (bind_Ok _ _ _ _ _ (header_eq u1)), bind_gets.
  assert (H1 : core_count_of (snapshot (con (headed u1))) <= MAX_CORES) by exact Hn.
  destruct (_ =? 0); rewrite (bind_Ok _ _ _ _ _ (title_bar_eq _ _ _ _)).
  - erewrite bind_Ok by (by apply pmu_view_eq). split; [done|]. by split_and!.
  - erewrite bind_Ok by (by apply msr_view_eq). split; [done|]. by split_and!.
Qed.

Lemma rowless_loop es nr last : runs rowless (event_loop fmt_2f es nr last) (fun quit => quit = false) rowless.
Proof.
  revert nr last. induction es as [|[now ch|size] es IH]; intros nr last; cbn [event_loop]; [by apply runs_ret|..].
  - eapply runs_bind; [apply rowless_round|]. intros [[q n] l] Hq. cbn in Hq. rewrite Hq. apply IH.
  - eapply runs_bind; [apply rowless_resize|]. intros _ _. apply IH.
Qed.
End screen_theorems.

(** ** Opening the console *)

Section opening.
Context {L : Linux} {N : Ncurses}.
Context (fmt_2f : spec_float -> string).
Context (eax : Z -> Z) (edx available_cores : Z) (dmi_file : option (list Z))
  (dmi_stack : list (gmap string Z)) (dmi_header : Z * Z) (devs : list pci_dev).
Context (Hon : forall j, j ∈ online_cpus -> 0 <= j < MAX_NUM_CORES).

Lemma on_con_Ok {A} (m : ST client A) s a c : m (con_api s) = Ok (a, c) -> on_con m s = Ok (a, s <| con_api := c |>).
Proof. intros H. unfold on_con, zoom. by rewrite H. Qed.

Lemma on_con_at {A} (m : ST client A) s c a c' :
  con_api s = c -> m c = Ok (a, c') -> on_con m s = Ok (a, s <| con_api := c' |>).
Proof. intros <-. apply on_con_Ok. Qed.

(** The machine the console is opened on: a DDR controller the module knows, and
    readable DMI tables. *)
Record machine_ok (s : console) : Prop := {
  mo_devs : devs <> [];
  mo_ddr : exists t d, pmu_ddr_init 1 (con_ddr s <| devices := Some devs |> <| uddr := ddr_zero |>) = Ok (t, d) /\
    supported (uddr d);
  mo_dmi : exists bw, dmi_get_bandwidth (S (length (default [] dmi_file))) dmi_file dmi_stack dmi_header = Ok (Some bw) }.

(** The states of the module with the same cores as [m] and the given target. *)
Definition retargeted (target : Z) (m m' : kstate) : Prop :=
  forall a b t, core_setup a b t m -> core_setup a b target m'.

(** "Triggering DDR detection" is setting the bandwidth target to 0. *)
Lemma ddr_detect_run s :
  attached (con_api s) -> exists m, kernel_ddr_detect s = Ok (0, s <| con_api := con_api s <| kern := m |> |>) /\
    attached (con_api s <| kern := m |>) /\ retargeted 0 (kern (con_api s)) m.
Proof.
  intros Hc. destruct (init_request _ Hc) as (b1 & R1 & A1). set (c1 := con_api s <| kern := _ |>) in *.
  destruct (bandwidth_request c1 0 A1 ltac:(done)) as (b2 & R2 & A2). set (m := Prelude.set ddr_bw_target _ _) in *.
  exists m. split_and!; [|exact A2|by intros a b t []; constructor].
  unfold kernel_ddr_detect. rewrite (bind_Ok _ _ _ _ _ (on_con_Ok kernel_mode_init s _ _ R1)). change (0 <? 0) with false. cbv iota.
  set (s1 := s <| con_api := c1 |>). by rewrite (bind_Ok _ _ _ _ _ (on_con_at _ s1 c1 _ _ eq_refl R2)).
Qed.

(** [s'] differs from [s] in the module and in what the system information is
    collected into. *)
Definition same_console (s s' : console) : Prop :=
  snapshot s' = snapshot s /\ core_first s' = core_first s /\ core_last s' = core_last s.

Lemma sysinfo_run s l a :
  attached (con_api s) -> machine_ok s -> get_efficient_core_ids eax edx available_cores (con_aff s) = Ok (l, a) ->
  exists r s', collect_sysinfo eax edx available_cores dmi_file dmi_stack dmi_header (Some devs) s = Ok (r, s') /\
    attached (con_api s') /\ same_console s s' /\ retargeted 0 (kern (con_api s)) (kern (con_api s')).
Proof.
  intros Hc [Hdevs (t & d & Hddr & Hsup) (bw & Hdmi)] Haff. unfold collect_sysinfo.
  set (s1 := s <| con_ddr := con_ddr s <| devices := Some devs |> |>).
  assert (R1 : on_con_ddr (pcie_init (Some devs)) s = Ok (0, s1)) by (unfold on_con_ddr, zoom; by destruct devs).
  rewrite (bind_Ok _ _ _ _ _ R1). change (0 <? 0) with false. cbv iota.
  destruct (init_request (con_api s1) Hc) as (b2 & R2 & A2). set (c2 := con_api s1 <| kern := _ |>) in *.
  rewrite (bind_Ok _ _ _ _ _ (on_con_Ok kernel_mode_init s1 _ _ R2)). change (0 <? 0) with false. cbv iota. rewrite bind_modify.
  set (s3 := Prelude.set sysinfo _ _).
  rewrite (bind_Ok _ _ _ l (s3 <| con_aff := a |>)) by (unfold on_con_aff, zoom; change (con_aff s3) with (con_aff s); by rewrite Haff).
  rewrite bind_modify. set (s4 := Prelude.set sysinfo _ (s3 <| con_aff := a |>)).
  rewrite (bind_Ok (on_con_ddr (modify _)) _ s4 tt (s4 <| con_ddr := con_ddr s1 <| uddr := ddr_zero |> |>)) by done.
  set (s5 := s4 <| con_ddr := _ |>).
  rewrite (bind_Ok _ _ s5 t (s5 <| con_ddr := d |>)) by (unfold on_con_ddr, zoom; change (con_ddr s5) with (con_ddr s <| devices := Some devs |> <| uddr := ddr_zero |>); by rewrite Hddr).
  set (s6 := s5 <| con_ddr := d |>). destruct (ddr_detect_run s6 A2) as (m7 & R7 & A7 & K7).
  rewrite (bind_Ok _ _ _ _ _ R7). change (0 <? 0) with false. cbv iota. rewrite bind_gets. set (s7 := s6 <| con_api := _ |>) in *.
  change (uddr (con_ddr s7)) with (uddr d).
  destruct (ddr_config_request (con_api s7) (uddr d) A7 Hsup) as (r & m8 & R8 & A8 & Hset & Hor).
  rewrite (bind_Ok _ _ _ _ _ (on_con_at _ s7 _ _ _ eq_refl R8)).
  assert (K8 : retargeted 0 (kern (con_api s)) m8).
  { intros x y z H. assert (H6 : core_setup x y 0 m7) by (apply (K7 x y z); by destruct H; constructor).
    apply (core_setup_ext _ _ _ m7); [apply A7|..]; unfold settings in Hset; injection Hset as E1 E2 E3 E4 E5; try done.
    - unfold setup_of. cbn in *. congruence.
    - intros j ci Hj. exists ci. split; [|done]. by rewrite E5 || congruence. }
  destruct Hor as [[-> _]|[-> _]].
  - change (0 <? 0) with false. cbv iota. rewrite bind_modify, Hdmi. eexists _, _. split; [reflexivity|]. by split_and!.
  - change (-1 <? 0) with true. cbv iota. eexists _, _. split; [reflexivity|]. by split_and!.
Qed.

Lemma offered_online s a b t :
  connected s -> core_first s = a -> core_last s = b -> core_setup a b t (kern (con_api s)) ->
  (exists j, a <= j <= b /\ cpu_online j = true) -> offered s <> [].
Proof.
  intros (_ & _ & [H1 H2]) Ha Hb Hcs (j & Hj & Hj'). unfold MAX_CORES in *.
  destruct (proj2 (cs_cores _ _ _ _ Hcs j ltac:(unfold MAX_NUM_CORES; lia)) (conj Hj Hj')) as [ci Hci].
  intros Hnil. assert (Hin : j ∈ range_cores s) by (apply elem_of_seqZ; rewrite Ha, Hb; lia).
  assert (Hr : exists r, r ∈ offered s).
  { eexists. apply list_elem_of_omap. exists j. split; [exact Hin|]. unfold module_row. by rewrite Hci. }
  destruct Hr as [r Hr]. rewrite Hnil in Hr. by apply not_elem_of_nil in Hr.
Qed.

Lemma update_metrics_run u l a :
  connected (con u) -> machine_ok (con u) -> get_efficient_core_ids eax edx available_cores (con_aff (con u)) = Ok (l, a) ->
  exists c n, update_metrics eax edx available_cores dmi_file dmi_stack dmi_header (Some devs) u =
      Ok (0, u <| con := c |> <| num_metrics := n |>) /\ connected c /\
    (core_first c = core_first (con u) /\ core_last c = core_last (con u)) /\
    tuning (view (snapshot c)) = tuning (view (snapshot (con u))) /\
    retargeted 0 (kern (con_api (con u))) (kern (con_api c)).
Proof.
  intros Hc Hm Haff. pose proof Hc as (Hat & Hl & Hr).
  destruct (sysinfo_run (con u) l a Hat Hm Haff) as (r & c1 & R1 & A1 & (E1 & E2 & E3) & K1).
  assert (Hc1 : connected c1) by (unfold connected, valid_range; rewrite E1, E2, E3; done).
  unfold update_metrics. rewrite (bind_Ok _ _ _ _ _ (in_con_Ok _ u _ _ R1)). set (u1 := u <| con := c1 |>).
  assert (Hskip : u1 = u <| con := c1 |> <| num_metrics := num_metrics u |>) by (unfold u1; by destruct u).
  destruct (r =? 0).
  2:{ exists c1, (num_metrics u). rewrite <- Hskip. split_and!; try done. by rewrite E1. }
  destruct (update_connected Hon c1 Hc1) as (c2 & R2 & Hc2 & _ & _ & _ & _ & Ht & [E4 E5] & K2).
  assert (Hres : forall u2 : ui, (u2 = u <| con := c2 |> <| num_metrics := num_metrics u2 |>) -> exists c n,
    (mret 0 : V Z) u2 = Ok (0, u <| con := c |> <| num_metrics := n |>) /\ connected c /\
    (core_first c = core_first (con u) /\ core_last c = core_last (con u)) /\
    tuning (view (snapshot c)) = tuning (view (snapshot (con u))) /\ retargeted 0 (kern (con_api (con u))) (kern (con_api c))).
  { intros u2 ->. exists c2, (num_metrics u2). split_and!; try done; try congruence.
    intros x y z H. by apply K2, (K1 x y z). }
  destruct (bool_decide _); (erewrite bind_Ok by (rewrite (bind_Ok _ _ _ _ _ (in_con_Ok _ u1 _ _ R2)); reflexivity)); apply Hres;
    by destruct u.
Qed.

(** The console from its start to its first picture. *)
Lemma console_opens u l a1 l2 a2 now :
  attached (con_api (con u)) -> length (snapshot (con u)) = SNAPSHOT_WORDS -> tuning (view (snapshot (con u))) = TUNING_DISABLED ->
  core_first (con u) = -1 -> machine_ok (con u) ->
  get_efficient_core_ids eax edx available_cores (con_aff (con u)) = Ok (l, a1) ->
  get_efficient_core_ids eax edx available_cores a1 = Ok (l2, a2) ->
  let a := first_efficiency_core l in let b := last_efficiency_core l in
  0 <= a <= b -> b < MAX_CORES -> (exists j, a <= j <= b /\ cpu_online j = true) ->
  exists u', console_main fmt_2f eax edx available_cores dmi_file dmi_stack dmi_header (Some devs) [Round now None] u = Ok (None, u') /\
    attached (con_api (con u')) /\ core_setup a b 0 (kern (con_api (con u'))) /\
    keep_running (kern (con_api (con u'))) = false /\ monitor_timer (kern (con_api (con u'))) = false.
Proof.
  intros Hc Hl Ht Hcf Hm Haff1 Haff2 a b Hab Hb Honl. unfold console_main.
  destruct (init_request _ Hc) as (b1 & R1 & A1). set (c1 := con_api (con u) <| kern := _ |>) in *.
  rewrite (bind_Ok _ _ _ _ _ (in_con_Ok _ u _ _ (on_con_Ok _ _ _ _ R1))). change (0 <? 0) with false. cbv iota.
  set (u1 := u <| con := _ |>).
  set (k2 := con u1 <| con_aff := a1 |> <| core_first := a |> <| core_last := b |>).
  assert (R2 : detect_cores eax edx available_cores (con u1) = Ok (true, k2)).
  { unfold detect_cores. rewrite (bind_Ok get_state _ _ _ _ eq_refl). change (core_first (con u1)) with (core_first (con u)).
    rewrite Hcf. cbn [Z.eqb Pos.eqb orb].
    rewrite (bind_Ok _ _ _ l (con u1 <| con_aff := a1 |>)) by (unfold on_con_aff, zoom; change (con_aff (con u1)) with (con_aff (con u)); by rewrite Haff1).
    rewrite bind_modify. fold a b. rewrite !(proj2 (Z.eqb_neq _ _)) by lia. done. }
  rewrite (bind_Ok _ _ _ _ _ (in_con_Ok _ u1 _ _ R2)). cbn [negb]. rewrite bind_gets. set (u2 := u1 <| con := k2 |>).
  change (core_first (con u2)) with a. change (core_last (con u2)) with b. unfold MAX_CORES in Hb. rewrite !u32_small by lia.
  destruct (core_range_request c1 a b A1 Hab ltac:(unfold MAX_NUM_CORES; lia)) as (m3 & R3 & A3 & F1 & F2 & F3 & F4 & F5).
  rewrite (bind_Ok _ _ _ _ _ (in_con_Ok _ u2 _ _ (on_con_at _ (con u2) c1 _ _ eq_refl R3))). change (0 <? 0) with false. cbv iota.
  set (u3 := u2 <| con := _ |>).
  assert (K3 : core_setup a b (ddr_bw_target m3) m3).
  { constructor; try done. intros j Hj. destruct Hc as ((W & _) & _).
    destruct (aget_is_Some (corestate (kern (con_api (con u)))) j) as [ci Hci]; [by rewrite (kwf_cores _ W)|].
    rewrite <- (selected_spec a b j). unfold enabled_core. rewrite (F3 j ci Hci). cbn [core_disabled Prelude.set].
    destruct (selected a b j); cbn; split; done || by intros []. }
  assert (C3 : connected (con u3)) by (split_and!; [exact A3|exact Hl|split; [exact Hab|exact Hb]]).
  destruct (update_metrics_run u3 l2 a2 C3 ltac:(destruct Hm; by constructor) Haff2) as (c4 & n & R4 & C4 & [E1 E2] & Ht4 & K4).
  rewrite (bind_Ok _ _ _ _ _ R4), bind_gets. unfold make_windows. rewrite bind_modify. set (u5 := Prelude.set titlebar_win _ _).
  assert (K5 : core_setup a b 0 (kern (con_api (con u5)))) by (apply (K4 a b _ K3)).
  assert (Hne : offered (con u5) <> []) by (by apply (offered_online _ a b 0)).
  cbn [event_loop]. destruct (round_draws fmt_2f Hon now u5 0 C4 Hne) as (c6 & R6 & C6 & _ & Hfol & K6).
  erewrite bind_Ok by (by rewrite (bind_Ok _ _ _ _ _ R6)). cbn beta iota.
  assert (Ht5 : tuning (view (snapshot (con u5))) = TUNING_DISABLED) by (etransitivity; [exact Ht4|exact Ht]).
  rewrite Ht5 in Hfol. destruct (Hfol (or_intror eq_refl)) as (P1 & P2 & _).
  eexists. split; [reflexivity|]. split_and!; [apply C6|by apply K6|done|done].
Qed.
End opening.

(** ** Properties *)

(** C20: a round of the console's loop.  A round for which the module offers rows
    returns.  It draws exactly when a redraw was asked for or a second has passed
    since the last one, which it then remembers; otherwise the windows stay as they
    were.  A drawn main window holds the title of the view, one line for every row
    the module answers with for the cores of the range (as many as fit between the
    title bar and the caption, the first ones wherever the user has scrolled to),
    the caption and the help line, under the titles of the view.  (The titles
    and the rows are the code's: [msr_column_mislabelled], and the counters are those
    of the CPU that serves the request.)  Then the key: ['q'] leaves the loop,
    ['p'] and ['m'] choose the view and ask for a redraw, ['s'] and ['t'] set the
    flag that the next round sends to the module, only the scroll keys scroll. *)
Theorem screen_shows_module {L : Linux} (fmt_2f : spec_float -> string) (now last : Z) (ch : option key) (needs_refresh : bool)
    (u : ui) (w t : window) :
  (forall j, j ∈ online_cpus -> 0 <= j < MAX_NUM_CORES) ->
  connected (con u) -> offered (con u) <> [] -> main_win u = Some w -> titlebar_win u = Some t ->
  let draws := needs_refresh || (1 <=? now - last) in
  let v := if current_view u =? 0 then 0 else 1 in
  exists u', round fmt_2f now ch needs_refresh last u =
      Ok (bool_decide (ch = Some (Char "q"%char)), redraw_key ch, if draws then now else last, u') /\
    connected (con u') /\
    main_win u' = Some (if draws then w <| w_texts := screen v (w_rows w) (scroll_offset u) (num_metrics u) (offered (con u)) |> else w) /\
    titlebar_win u' = Some (if draws then t <| w_texts := titles v |> else t) /\
    (draws = false -> header_win u' = header_win u) /\
    current_view u' = view_key ch (current_view u) /\
    tuning (view (snapshot (con u'))) = tuning_key ch (tuning (view (snapshot (con u)))) /\
    (from_option (fun k => k ∉ scroll_keys) True ch -> scroll_offset u' = scroll_offset u).
Proof.
  intros Hon Hc Hne Hw Ht draws v. destruct (round_step fmt_2f Hon now ch needs_refresh last u Hc Hne) as (c & Hrun & Hc' & Hrows & Htun & _ & _).
  change (due needs_refresh now last) with draws in Hrun. set (u1 := picture fmt_2f draws (u <| con := c |>)) in *.
  assert (Hc1 : con u1 = c) by (unfold u1, picture; by destruct draws).
  destruct (key_part_run Hon ch (if draws then now else last) u1 ltac:(by rewrite Hc1)) as (u' & Hkey & H1 & (W1 & W2 & W3) & H2 & H3 & H4).
  rewrite Hkey in Hrun. exists u'. split; [exact Hrun|]. rewrite W1, W2, W3, H2, H3, Hc1, Htun. split_and!; try done.
  - unfold u1, picture, shown, headed. destruct draws; [|exact Hw].
    change (snapshot (con _)) with (snapshot c). rewrite Hrows. subst v. clear -Hw. destruct u. cbn in Hw |- *. by subst.
  - unfold u1, picture, shown, headed. destruct draws; [|exact Ht]. subst v. clear -Ht. destruct u. cbn in Ht |- *. by subst.
  - unfold u1. by intros ->.
  - unfold u1, picture. by destruct draws.
  - intros Hs. rewrite (H4 Hs). unfold u1, picture. by destruct draws.
Qed.

(** A console without rows cannot be left.  When no core of its range is
    enabled in the module (another program has set a different range), every
    round fails before a key is read: whatever keys are pressed, ['q'] included,
    and however often the terminal is resized, the loop goes on. *)
Theorem rowless_console_runs_on {L : Linux} {N : Ncurses} (fmt_2f : spec_float -> string) (es : list event)
    (needs_refresh : bool) (last : Z) (u : ui) :
  (forall j, j ∈ online_cpus -> 0 <= j < MAX_NUM_CORES) -> rowless u ->
  exists u', event_loop fmt_2f es needs_refresh last u = Ok (false, u') /\ rowless u'.
Proof.
  intros Hon Hu. destruct (runs_Ok _ _ _ _ _ (rowless_loop fmt_2f Hon es needs_refresh last) Hu) as (q & u' & Hrun & -> & H').
  by exists u'.
Qed.

(** C21: opening the console takes the module over.  From the program's start to
    its first picture, with no key pressed, the module's core range becomes the
    efficient cores, its bandwidth target 0 and its monitor is stopped, whatever
    range, target and tuning another program had set up before. *)
Theorem console_takes_over {L : Linux} {N : Ncurses} (fmt_2f : spec_float -> string) (eax : Z -> Z)
    (edx available_cores : Z) (dmi_file : option (list Z)) (dmi_stack : list (gmap string Z)) (dmi_header : Z * Z)
    (devs : list pci_dev) (u : ui) (l l2 : e_cores_layout_s) (a1 a2 : affinity) (now : Z) :
  (forall j, j ∈ online_cpus -> 0 <= j < MAX_NUM_CORES) ->
  attached (con_api (con u)) -> length (snapshot (con u)) = SNAPSHOT_WORDS ->
  tuning (view (snapshot (con u))) = TUNING_DISABLED -> core_first (con u) = -1 ->
  machine_ok dmi_file dmi_stack dmi_header devs (con u) ->
  get_efficient_core_ids eax edx available_cores (con_aff (con u)) = Ok (l, a1) ->
  get_efficient_core_ids eax edx available_cores a1 = Ok (l2, a2) ->
  let a := first_efficiency_core l in let b := last_efficiency_core l in
  0 <= a <= b -> b < MAX_CORES -> (exists j, a <= j <= b /\ cpu_online j = true) ->
  exists u', console_main fmt_2f eax edx available_cores dmi_file dmi_stack dmi_header (Some devs) [Round now None] u = Ok (None, u') /\
    attached (con_api (con u')) /\ core_setup a b 0 (kern (con_api (con u'))) /\
    keep_running (kern (con_api (con u'))) = false /\ monitor_timer (kern (con_api (con u'))) = false.
Proof. intros Hon. exact (console_opens fmt_2f eax edx available_cores dmi_file dmi_stack dmi_header devs Hon u l a1 l2 a2 now). Qed.

(** The column headed "0x1a4" of the MSR view shows MSR 0x1327: the views take
    the first six of seven words, and 0x1a4 is the seventh. *)
Theorem msr_column_mislabelled (j y : Z) (p ws : list Z) :
  length ws = 7%nat ->
  {| t_y := 0; t_x := 102; t_text := "0x1a4" |} ∈ titles 1 /\
  {| t_y := y; t_x := 102; t_text := pad 35 (x_ (default 0 (aget ws MSR_1327_INDEX))) |} ∈
    row_texts 18 msr_cells y {| row_core := j; row_pmu := p; row_msr := take 6 ws |}.
Proof.
  intros Hl. destruct ws as [|w0 [|w1 [|w2 [|w3 [|w4 [|w5 [|w6 []]]]]]]]; try done.
  split; [do 6 right; left|].
  do 6 right. left.
Qed.

(** Keys move [scroll_offset] within the rows [scrollable] counts as visible; it
    never becomes negative. *)
Theorem scroll_in_bounds (ch : key) (u : ui) (w : window) :
  main_win u = Some w -> 0 <= scroll_offset u ->
  exists k, scrollable ch u = Ok (0, u <| scroll_offset := k |>) /\ 0 <= k /\
    (k <= scroll_offset u \/ k + (w_rows w - 4) <= num_metrics u).
Proof.
  intros Hw Hs. unfold scrollable. rewrite (bind_Ok get_state _ _ _ _ eq_refl). rewrite Hw. cbn [max_rows_of from_option].
  destruct (_ && _) eqn:Hd; [|destruct (bool_decide (ch = KEY_UP \/ _) && _) eqn:Hu].
  - exists (Z.succ (scroll_offset u)). apply andb_true_iff in Hd as [_ Hd%Z.ltb_lt]. split_and!; [by destruct u|lia|lia].
  - exists (Z.pred (scroll_offset u)). apply andb_true_iff in Hu as [_ Hu%Z.ltb_lt]. split_and!; [by destruct u|lia|lia].
  - exists (scroll_offset u). split_and!; [by destruct u|lia|lia].
Qed.

(** ** Witnesses *)

Definition plain_curses : Ncurses := {|
  newwin n m _ _ := if (0 <? n) && (0 <? m) then Some (n, m) else None;
  derwin sz n m y x := if (0 <? n) && (0 <? m) && (y + n <=? sz.1) && (x + m <=? sz.2) then Some (n, m) else None |}.

#[export] Instance plain_curses_ok : NcursesOk plain_curses.
Proof.
  constructor; intros; cbn.
  - by rewrite !(proj2 (Z.ltb_lt _ _)) by done.
  - by rewrite !(proj2 (Z.ltb_lt _ _)), !(proj2 (Z.leb_le _ _)) by done.
Qed.

Definition example_ui : ui :=
  {| con := example_console; current_view := 0; num_metrics := 2; scroll_offset := 0; header_win := Some (fresh (11, 80));
     main_win := Some (fresh (30, 80)); titlebar_win := Some (fresh (1, 78)); term := (40, 80) |}.

Lemma example_connected : connected example_console.
Proof. split; [exact example_client_attached|]. split; [reflexivity|]. vm_compute. split; [split|]; congruence. Qed.

Lemma example_offered : offered example_console <> [].
Proof. vm_compute. discriminate. Qed.

(** A second after the last picture, with ['m'] pressed; and a round that is not due. *)
Lemma screen_shows_module_witness :
  (exists u', round (L := eight_cpus) (fun _ => EmptyString) 5 (Some (Char "m"%char)) false 4 example_ui = Ok (false, true, 5, u') /\
     (exists w, main_win u' = Some w /\ w_texts w = screen 0 30 0 2 (offered example_console)) /\ current_view u' = 1) /\
  (exists u', round (L := eight_cpus) (fun _ => EmptyString) 5 None false 5 example_ui = Ok (false, false, 5, u') /\
     main_win u' = Some (fresh (30, 80))).
Proof.
  split.
  - destruct (screen_shows_module (L := eight_cpus) (fun _ => EmptyString) 5 4 (Some (Char "m"%char)) false example_ui (fresh (30, 80)) (fresh (1, 78)))
      as (u' & Hrun & _ & Hm & _ & _ & Hv & _).
    + exact eight_cpus_online.
    + exact example_connected.
    + exact example_offered.
    + reflexivity.
    + reflexivity.
    + exists u'. split; [exact Hrun|]. split; [|exact Hv]. eexists. split; [exact Hm|]. reflexivity.
  - destruct (screen_shows_module (L := eight_cpus) (fun _ => EmptyString) 5 5 None false example_ui (fresh (30, 80)) (fresh (1, 78)))
      as (u' & Hrun & _ & Hm & _).
    + exact eight_cpus_online.
    + exact example_connected.
    + exact example_offered.
    + reflexivity.
    + reflexivity.
    + exists u'. split; [exact Hrun|exact Hm].
Defined.

(** The module works with core 2, the console looks at cores 4 to 7. *)
Definition rowless_ui : ui :=
  example_ui <| con := example_console <| core_first := 4 |> <| core_last := 7 |> <| snapshot := replicate 900 0 |> |>.

Lemma rowless_ui_ok : rowless rowless_ui.
Proof.
  split_and!; [|reflexivity|vm_compute; discriminate].
  split; [exact example_client_attached|]. split; [reflexivity|]. vm_compute. split; [split|]; congruence.
Qed.

Lemma rowless_console_runs_on_witness :
  exists u', event_loop (L := eight_cpus) (N := plain_curses) (fun _ => EmptyString)
    [Round 1 (Some (Char "q"%char)); Resize (50, 100); Round 2 (Some (Char "q"%char))] true 0 rowless_ui = Ok (false, u').
Proof.
  destruct (rowless_console_runs_on (L := eight_cpus) (N := plain_curses) (fun _ => EmptyString)
    [Round 1 (Some (Char "q"%char)); Resize (50, 100); Round 2 (Some (Char "q"%char))] true 0 rowless_ui) as (u' & Hrun & _).
  - exact eight_cpus_online.
  - exact rowless_ui_ok.
  - exists u'. exact Hrun.
Defined.

(** A console before its start, on four efficient cores, with the module of
    [example_client] while its monitor runs. *)
Definition opening_ui : ui :=
  example_ui <| con := example_console <| core_first := -1 |> <| core_last := -1 |> <| snapshot := replicate 900 0 |>
    <| con_api := example_client <| kern ::= fun m => m <| keep_running := true |> <| monitor_timer := true |> <| ddr_bw_target := 20000 |> |> |> |>.

Definition ecore_eax : Z -> Z := fun _ => 0x20000000.

Definition ddr_devices : list pci_dev := [a_device 0x8086 0xa700].

Lemma opening_attached : attached (con_api (con opening_ui)).
Proof.
  destruct example_client_attached as ((Hs & Hm & _) & Hv & Hp & Hh). split; [|by split].
  split; [|by split]. kwf_update Hs.
Qed.

Lemma opening_machine : machine_ok None [] (0, 0) ddr_devices (con opening_ui).
Proof.
  constructor; [done| |by exists (-1)]. eexists _, _. split; [reflexivity|].
  split; [vm_compute; split; congruence|]. left. vm_compute. split; [reflexivity|split; congruence].
Qed.

Lemma console_takes_over_witness :
  exists u', console_main (L := eight_cpus) (N := plain_curses) (fun _ => EmptyString) ecore_eax 0 4 None [] (0, 0)
      (Some ddr_devices) [Round 7 None] opening_ui = Ok (None, u') /\
    keep_running (kern (con_api (con opening_ui))) = true /\ keep_running (kern (con_api (con u'))) = false.
Proof.
  destruct (console_takes_over (L := eight_cpus) (N := plain_curses) (fun _ => EmptyString) ecore_eax 0 4 None [] (0, 0)
    ddr_devices opening_ui {| first_efficiency_core := 0; last_efficiency_core := 3 |} {| first_efficiency_core := 0; last_efficiency_core := 3 |}
    {| mask := {[0]}; sched_calls := [] |} {| mask := {[0]}; sched_calls := [] |} 7)
    as (u' & Hrun & _ & _ & Hk & _).
  - exact eight_cpus_online.
  - exact opening_attached.
  - reflexivity.
  - reflexivity.
  - reflexivity.
  - exact opening_machine.
  - reflexivity.
  - reflexivity.
  - cbn. lia.
  - cbn. unfold MAX_CORES. lia.
  - exists 1. split; [cbn; lia|reflexivity].
  - exists u'. split; [exact Hrun|]. split; [reflexivity|exact Hk].
Defined.
