(* ===== verification/Dpfctrl.v ===== *)
(** * The command line tool of the PMU log ([tools/cli/dpfctrl.c])

    From the words of the command line to the requests the tool makes of the
    kernel module, the file it writes and its lines on standard output.  The
    client library and the module are those of [UserApi], the scan of the options
    is that of [Getopt]. *)

From Stdlib Require Import Ascii.
From stdpp Require Import pretty.
From S2P Require Import Prelude Getopt KState KApi KLog KDpf KInv UserApi Main.

Definition DEFAULT_BUFFER_ENTRIES : Z := 10000.

Definition DEFAULT_MODE_RESET : Z := 1.

Inductive cmd_type : Type := CMD_UNKNOWN | CMD_START | CMD_STOP | CMD_DUMP | CMD_HELP.

Inductive output_format : Type := FMT_UNKNOWN | FMT_RAW | FMT_CSV.

#[export] Instance cmd_type_eq_dec : EqDecision cmd_type.
Proof. solve_decision. Defined.

#[export] Instance output_format_eq_dec : EqDecision output_format.
Proof. solve_decision. Defined.

Record options_s := {
  command : cmd_type; buffer_entries : Z; log_mode : Z; output_file : option string; format : output_format }.

#[export] Instance options_settable : Settable options_s := fun r =>
  {| command := command r; buffer_entries := buffer_entries r; log_mode := log_mode r;
     output_file := output_file r; format := format r |}.

(** What a file holds: lines of text and raw bytes, in order. *)
Inductive chunk : Type :=
  | Text (s : string)
  | Bytes (bs : list Z).

(** The tool: its client of the module, the files it has written, whether the
    next [fopen]s succeed, and its lines on standard output. *)
Record tool := {
  cl : client;
  files : gmap string (list chunk);
  fopens : list bool;
  stdout : list string }.

#[export] Instance tool_settable : Settable tool := fun r =>
  {| cl := cl r; files := files r; fopens := fopens r; stdout := stdout r |}.

Abbreviation C := (ST tool).

Definition on_client {A} (m : ST client A) : C A := zoom cl (fun x s => s <| cl := x |>) m.

Definition printf (line : string) : C unit := modify (fun s => s <| stdout ::= fun l => l ++ [line] |>).

(** ** Options *)

Definition entries_to_bytes (entries : Z) : Z := u64 (entries * ENTRY_SIZE).

Definition counter_names : list string :=
  ["cycles"; "instructions"; "mem_load_uops"; "l2_hit"; "l3_hit"; "drm_hit"; "xq_promotion"].

(** The guard is the number of counters, the table has seven names. *)
Definition get_pmu_counter_name (index : Z) : C string :=
  if (0 <=? index) && (index <? PMU_COUNTERS) then read counter_names index else mret "unknown"%string.

Definition parse_command (cmd : option string) : cmd_type :=
  match cmd with
  | None => CMD_UNKNOWN
  | Some cmd =>
      if bool_decide (cmd = "help" \/ cmd = "--help" \/ cmd = "-h")%string then CMD_HELP
      else if bool_decide (cmd = "start"%string) then CMD_START
      else if bool_decide (cmd = "stop"%string) then CMD_STOP
      else if bool_decide (cmd = "dump"%string) then CMD_DUMP
      else CMD_UNKNOWN
  end.

Definition parse_format (fmt : option string) : output_format :=
  if bool_decide (fmt = Some "csv"%string) then FMT_CSV else FMT_RAW.

Definition VERSION : string := "1.0.0".

Definition print_version : C unit := printf (String.append "dpfctrl version " VERSION).

Definition usage : list string :=
  [ String.append "dpfctrl - DPF PMU Logging Control Tool " VERSION;
    "";
    "SYNOPSIS";
    "  dpfctrl [COMMAND] [OPTIONS]";
    "";
    "COMMANDS";
    "  start         Start PMU logging";
    "  stop          Stop PMU logging";
    "  dump          Dump PMU log data";
    "  help          Show this help message";
    "";
    "OPTIONS";
    "  For 'start' command:";
    String.append "    -s, --size <entries>     Buffer size in entries (default: " (String.append (pretty DEFAULT_BUFFER_ENTRIES) ")");
    "    -m, --mode <reset|append> Logging mode (default: reset)";
    "";
    "  For 'dump' command:";
    "    -f, --file <filename>    Output file (required)";
    "    -o, --format <raw|csv>   Output format (default: raw)";
    "";
    "EXAMPLES";
    "  sudo dpfctrl start --size 10000 --mode reset";
    "  sudo dpfctrl start --mode append";
    "  sudo dpfctrl stop";
    "  sudo dpfctrl dump --file pmu_data.csv --format csv";
    "NOTE";
    "  Requires root privileges to access the kernel interface.";
    "  The DPF kernel module must be loaded." ]%string.

Definition print_usage : C unit := for_each usage printf.

Definition dpfctrl_options : OptionTable :=
  {| optstring := "hvs:m:f:o:e:";
     long_options :=
       [ {| name := "help"; has_arg := no_argument; val := "h" |};
         {| name := "version"; has_arg := no_argument; val := "v" |};
         {| name := "size"; has_arg := required_argument; val := "s" |};
         {| name := "mode"; has_arg := required_argument; val := "m" |};
         {| name := "file"; has_arg := required_argument; val := "f" |};
         {| name := "format"; has_arg := required_argument; val := "o" |} ] |}.

#[export] Instance dpfctrl_option_laws : OptionLaws dpfctrl_options.
Proof. by split. Qed.

(** One round of the option loop: [Some r] when the function returns [r] in it. *)
Definition process_option (c : ascii) (optarg : string) (o : options_s) : C (option Z * options_s) :=
  match c with
  | "h"%char => mret (Some 0, o <| command := CMD_HELP |>)
  | "v"%char => print_version ;; mret (Some 0, o)
  | "s"%char =>
      let o := o <| buffer_entries := u64 (atoi optarg) |> in
      mret (if buffer_entries o <=? 0 then Some (-1) else None, o)
  | "m"%char =>
      mret (if bool_decide (optarg = "reset"%string) then (None, o <| log_mode := 0 |>)
            else if bool_decide (optarg = "append"%string) then (None, o <| log_mode := 1 |>)
            else (Some (-1), o))
  | "f"%char => mret (None, o <| output_file := Some optarg |>)
  | "o"%char =>
      let o := o <| format := parse_format (Some optarg) |> in
      mret (if bool_decide (format o = FMT_RAW) && negb (bool_decide (optarg = "raw"%string)) then Some (-1) else None, o)
  | _ => print_usage ;; mret (Some (-1), o)
  end.

Fixpoint process_loop (opts : list answer) (o : options_s) : C (Z * options_s) :=
  match opts with
  | [] => mret (0, o)
  | (c, optarg) :: opts' =>
      r ← process_option c optarg o;
      match r with
      | (Some r, o) => mret (r, o)
      | (None, o) => process_loop opts' o
      end
  end.

(** [args] is [argv] without the name of the program. *)
Definition process_options (args : list string) (o : options_s) : C (Z * options_s) :=
  match args with
  | [] => print_usage ;; mret (-1, o)
  | argv1 :: _ =>
      let o := o <| command := parse_command (Some argv1) |> in
      match command o with
      | CMD_UNKNOWN => print_usage ;; mret (-1, o)
      | CMD_HELP => mret (0, o)
      | _ => process_loop (options (OT := dpfctrl_options) args) o
      end
  end.

(** ** Dumps *)

Definition dec (v : Z) : string := pretty v.

(** A row: the time stamp, the core and the counters. *)
Definition csv_row (e : dpf_pmu_log_entry_t) : string :=
  String.concat "," (map dec (timestamp e :: entry_core_id e :: pmu_values e)).

(** What [dump_data_csv(fp, buffer, buffer_size)] writes. *)
Definition dump_data_csv (buffer : list Z) : C (list chunk) :=
  let buffer_size := zlen buffer in
  if negb (buffer_size mod ENTRY_SIZE =? 0) then mret [Text "# Note: Invalid PMU data size"] else
  let num_entries := buffer_size / ENTRY_SIZE in
  if num_entries =? 0 then mret [Text "# Note: No PMU data available"] else
  names ← fold_each (seqZ 0 PMU_COUNTERS) [] (fun acc i => n ← get_pmu_counter_name i; mret (acc ++ [n]));
  mret (Text (String.concat "," ("timestamp" :: "core_id" :: names)%string) ::
        map (fun e => Text (csv_row e)) (parse_log (Z.to_nat num_entries) buffer)).

Section tool.
Context {L : Linux}.

(** [fopen(filename, mode)]. *)
Definition fopen : C bool := fun s =>
  Ok (default true (head (fopens s)), s <| fopens ::= tail |>).

Definition raw_dump_of (data : list Z) : list chunk :=
  [Text (String.append "# Raw PMU data, size: " (String.append (dec (zlen data)) " bytes")); Bytes data].

Definition handle_dump (filename : option string) (fmt : output_format) : C unit :=
  match filename with
  | None => mret tt
  | Some filename =>
      let buffer_size := entries_to_bytes DEFAULT_BUFFER_ENTRIES in
      ok ← on_client malloc;
      if negb ok then mret tt else
      r ← on_client (kernel_pmu_log_read buffer_size buffer_size);
      let '(ret, bytes_read, data) := r in
      if negb (ret =? 0) then mret tt else
      if bytes_read =? 0 then mret tt else
      ok ← fopen;
      if negb ok then mret tt else
      out ← (if bool_decide (fmt = FMT_CSV) then dump_data_csv data else mret (raw_dump_of data));
      modify (fun s => s <| files ::= <[filename := out]> |>) ;;
      printf "PMU data written"
  end.

(** The line about success is printed whatever the request answered. *)
Definition handle_start (entries mode : Z) : C unit :=
  on_client (kernel_pmu_log_start entries mode) ;;
  printf "PMU logging started successfully".

Definition handle_stop : C unit :=
  on_client kernel_pmu_log_stop ;;
  printf "PMU logging stopped successfully".

Definition default_options : options_s :=
  {| command := CMD_UNKNOWN; buffer_entries := DEFAULT_BUFFER_ENTRIES; log_mode := DEFAULT_MODE_RESET;
     output_file := None; format := FMT_RAW |}.

Definition dpfctrl (args : list string) : C Z :=
  r ← process_options args default_options;
  let '(ret, o) := r in
  if ret <? 0 then mret (-1) else
  if bool_decide (command o = CMD_HELP) then print_usage ;; mret 0 else
  r ← on_client kernel_mode_init;
  if negb (r =? 0) then mret (-1) else
  match command o with
  | CMD_START => handle_start (buffer_entries o) (log_mode o) ;; mret 0
  | CMD_STOP => handle_stop ;; mret 0
  | CMD_DUMP =>
      if bool_decide (output_file o = None) then mret (-1)
      else handle_dump (output_file o) (format o) ;; mret 0
  | _ => print_usage ;; mret (-1)
  end.
End tool.

(** ** Requests of the tool *)

Section requests.
Context {L : Linux}.

Lemma mode_init_run c :
  ready c -> exists s', kernel_mode_init c = Ok (0, c <| kern := s' |>) /\
    ready (c <| kern := s' |>) /\ log_view s' = log_view (kern c).
Proof.
  intros Hc. pose proof (entered_wf _ (rd_wf c Hc)) as Hs.
  set (b := header DPF_MSG_INIT 12 ++ le_bytes 4 DPF_API_VERSION).
  set (s' := entered (kern c) <| proc_buffer := Some b |> <| proc_buffer_size := zlen b |>).
  assert (Hrun : api_init (entered (kern c)) = Ok (0, s')).
  { unfold api_init. rewrite (bind_Ok _ _ _ true (entered (kern c))); [done|]. unfold kmalloc. cbn. by rewrite (rd_alloc c Hc). }
  pose proof (preserves_api_init _ Hs) as Hwf. unfold wp in Hwf. rewrite Hrun in Hwf.
  assert (Hc' : ready (c <| kern := s' |>)) by (destruct Hc; by constructor).
  exists s'. split_and!; [|done|done]. unfold kernel_mode_init.
  rewrite (bind_Ok _ _ _ _ _ (transact_ok true false c DPF_MSG_INIT (le_bytes 4 8) 12 s' b Hc ltac:(done)
    ltac:(done) ltac:(done) Hrun Hc' eq_refl eq_refl eq_refl)). done.
Qed.

Lemma dispatch_log_control cpu msg : dispatch cpu DPF_MSG_PMU_LOG_CONTROL msg = api_pmu_log_control cpu msg.
Proof. done. Qed.

Lemma log_start_run c n :
  ready c -> 0 < n < 2 ^ 32 -> exists s', kernel_pmu_log_start n 0 c = Ok (0, c <| kern := s' |>) /\
    ready (c <| kern := s' |>) /\ log_view s' = Some (n, []) /\ log_on s'.
Proof.
  intros Hc Hn. pose proof (entered_wf _ (rd_wf c Hc)) as Hs.
  destruct (log_control_reset (entered (kern c)) (run_cpu c) n Hs ltac:(unfold in_u; lia) ltac:(lia) (rd_alloc c Hc))
    as (s' & Hrun & Hon & Hv & Hal & _ & Hb & Hbs & Hpe & Hcp).
  assert (Hc' : ready (c <| kern := s' |>)).
  { destruct Hc. constructor; cbn; try done; [apply Hon|by rewrite Hpe|by rewrite Hcp]. }
  exists s'. split_and!; try done. unfold kernel_pmu_log_start.
  rewrite (bind_Ok _ _ _ _ _ (transact_ok true false c DPF_MSG_PMU_LOG_CONTROL
    (le_bytes 4 16 ++ le_bytes 4 n ++ le_bytes 4 0) 20 s' _ Hc ltac:(done) ltac:(done) ltac:(done) Hrun Hc' Hb Hbs eq_refl)).
  done.
Qed.
End requests.

(** ** What a dump holds *)

Lemma take_entries n es :
  Forall entry_ok es ->
  take (76 * n) (mjoin (map log_entry_bytes es)) = mjoin (map log_entry_bytes (take n es)).
Proof.
  intros Hes. revert n. induction Hes as [|e es He _ IH]; intros n; [rewrite take_nil; apply take_nil|].
  destruct n as [|n]; [done|]. cbn [map take]. rewrite !join_cons.
  replace (76 * S n)%nat with (length (log_entry_bytes e) + 76 * n)%nat by (rewrite length_log_entry by done; lia).
  by rewrite take_app_add, IH.
Qed.

(** The entries one dump can take. *)
Definition dumped (es : list dpf_pmu_log_entry_t) : list dpf_pmu_log_entry_t :=
  take (Z.to_nat DEFAULT_BUFFER_ENTRIES) es.

Section dumps.
Context {L : Linux}.

(** The module behind the tool holds the log [es] in a buffer of [cap] bytes. *)
Definition holds_log (cap : Z) (es : list dpf_pmu_log_entry_t) (s : tool) : Prop :=
  ready (cl s) /\ log_view (kern (cl s)) = Some (cap, mjoin (map log_entry_bytes es)) /\ cap <> 0 /\
  Forall entry_ok es /\ fopens s = [].

(** The exchange of a dump. *)
Lemma dump_request cap es s :
  holds_log cap es s -> es <> [] ->
  let data := mjoin (map log_entry_bytes (dumped es)) in
  exists c', on_client (kernel_pmu_log_read (entries_to_bytes DEFAULT_BUFFER_ENTRIES) (entries_to_bytes DEFAULT_BUFFER_ENTRIES)) s =
      Ok (0, zlen data, data, s <| cl := c' |>) /\
    log_view (kern c') = Some (cap, mjoin (map log_entry_bytes es)) /\ open_fds c' = open_fds (cl s) /\
    zlen data = ENTRY_SIZE * zlen (dumped es) /\ 0 < zlen (dumped es) <= DEFAULT_BUFFER_ENTRIES.
Proof.
  intros (Hc & Hv & Hcap & Hes & _) Hne data.
  change (entries_to_bytes DEFAULT_BUFFER_ENTRIES) with 760000.
  assert (Hspec : spec_read (mjoin (map log_entry_bytes es)) 760000 = data).
  { unfold spec_read. change (760000 =? 0) with false. cbv iota.
    replace (Z.to_nat 760000) with (76 * Z.to_nat DEFAULT_BUFFER_ENTRIES)%nat by (unfold DEFAULT_BUFFER_ENTRIES; lia).
    by rewrite take_entries. }
  assert (Hlen : zlen data = ENTRY_SIZE * zlen (dumped es)) by (apply zlen_entries; by apply Forall_take).
  assert (Hn : 0 < zlen (dumped es) <= DEFAULT_BUFFER_ENTRIES).
  { unfold zlen, dumped, DEFAULT_BUFFER_ENTRIES. rewrite length_take. destruct es; [done|]. cbn [length]. lia. }
  destruct (log_read_run (cl s) cap 760000 760000 (mjoin (map log_entry_bytes es)) Hc Hv Hcap ltac:(done)) as (k & Hrun & Hv').
  { right. rewrite Hspec, Hlen. unfold ENTRY_SIZE, DEFAULT_BUFFER_ENTRIES in *. lia. }
  { rewrite Hspec, Hlen. unfold ENTRY_SIZE, DEFAULT_BUFFER_ENTRIES in *. lia. }
  rewrite Hspec in Hrun. exists (cl s <| kern := k |>). split_and!; try done; try lia.
  unfold on_client, zoom. by rewrite Hrun.
Qed.

Lemma on_client_malloc s : ready (cl s) -> on_client malloc s = Ok (true, s).
Proof. intros Hc. unfold on_client, zoom. rewrite (malloc_eq _ Hc). by destruct s. Qed.

Lemma raw_dump_run f cap es s :
  holds_log cap es s -> es <> [] ->
  let data := mjoin (map log_entry_bytes (dumped es)) in
  exists s', handle_dump (Some f) FMT_RAW s = Ok (tt, s') /\
    files s' = <[f := raw_dump_of data]> (files s) /\
    log_view (kern (cl s')) = Some (cap, mjoin (map log_entry_bytes es)) /\ open_fds (cl s') = open_fds (cl s).
Proof.
  intros Hs Hne data. destruct (dump_request cap es s Hs Hne) as (c' & Hrun & Hv & Hfd & Hlen & Hn).
  destruct Hs as (Hc & _ & _ & Hes & Hf). unfold handle_dump.
  rewrite (bind_Ok _ _ _ _ _ (on_client_malloc s Hc)). cbn [negb].
  rewrite (bind_Ok _ _ _ _ _ Hrun). cbn beta iota. change (0 =? 0) with true. cbn [negb].
  fold data in Hlen |- *. destruct (Z.eqb_spec (zlen data) 0); [unfold ENTRY_SIZE in Hlen; lia|].
  assert (Hopen : fopen (s <| cl := c' |>) = Ok (true, s <| cl := c' |>)).
  { unfold fopen. cbn. rewrite Hf. destruct s. cbn in *. by subst. }
  rewrite (bind_Ok _ _ _ _ _ Hopen). cbn [negb].
  rewrite bool_decide_eq_false_2 by done. rewrite (bind_Ok _ _ _ (raw_dump_of data) (s <| cl := c' |>)), bind_modify by done.
  eexists. split; [done|]. by split_and!.
Qed.

Lemma names_overrun (s : tool) :
  fold_each (seqZ 0 PMU_COUNTERS) [] (fun acc i => n ← get_pmu_counter_name i; mret (acc ++ [n])) s = Stop OutOfBounds.
Proof. reflexivity. Qed.

(** The CSV header takes eight names from a table of seven: a dump of any log in
    this format reads past the table. *)
Theorem csv_dump_overrun f cap es s :
  holds_log cap es s -> es <> [] -> handle_dump (Some f) FMT_CSV s = Stop OutOfBounds.
Proof.
  intros Hs Hne. destruct (dump_request cap es s Hs Hne) as (c' & Hrun & _ & _ & Hlen & Hn).
  set (data := mjoin _) in *. destruct Hs as (Hc & _ & _ & _ & Hf). unfold handle_dump.
  rewrite (bind_Ok _ _ _ _ _ (on_client_malloc s Hc)). cbn [negb].
  rewrite (bind_Ok _ _ _ _ _ Hrun). cbn beta iota. change (0 =? 0) with true. cbn [negb].
  unfold ENTRY_SIZE in Hlen. destruct (Z.eqb_spec (zlen data) 0); [lia|].
  assert (Hopen : fopen (s <| cl := c' |>) = Ok (true, s <| cl := c' |>)).
  { unfold fopen. cbn. rewrite Hf. destruct s. cbn in *. by subst. }
  rewrite (bind_Ok _ _ _ _ _ Hopen). cbn [negb]. rewrite bool_decide_eq_true_2 by done. apply bind_Stop.
  unfold dump_data_csv. rewrite Hlen. unfold ENTRY_SIZE. rewrite Z.mul_comm, Z.mod_mul, Z.div_mul by done.
  cbn [negb Z.eqb]. destruct (Z.eqb_spec (zlen (dumped es)) 0); [lia|]. by rewrite (bind_Stop _ _ _ _ (names_overrun _)).
Qed.
End dumps.

(** ** Sessions *)

Section sessions.
Context {L : Linux}.

Lemma mode_init_tool s :
  ready (cl s) -> exists k, on_client kernel_mode_init s = Ok (0, s <| cl := cl s <| kern := k |> |>) /\
    ready (cl s <| kern := k |>) /\ log_view k = log_view (kern (cl s)).
Proof.
  intros Hc. destruct (mode_init_run (cl s) Hc) as (k & Hrun & Hk & Hv). exists k. split_and!; [|done..].
  unfold on_client, zoom. by rewrite Hrun.
Qed.

Lemma start_run t s :
  ready (cl s) -> 0 < atoi t ->
  exists k, dpfctrl ["start"; "--size"; t; "--mode"; "reset"]%string s =
      Ok (0, s <| cl := cl s <| kern := k |> |> <| stdout ::= fun l => l ++ ["PMU logging started successfully"%string] |>) /\
    ready (cl s <| kern := k |>) /\ log_view k = Some (atoi t, []) /\ log_on k.
Proof.
  intros Hc Ht. assert (Hr : in_s32 (atoi t)) by apply s32_range. unfold in_s32 in Hr.
  destruct (mode_init_tool s Hc) as (k1 & Hinit & Hk1 & _).
  set (s1 := s <| cl := cl s <| kern := k1 |> |>) in *.
  destruct (log_start_run (cl s1) (atoi t) Hk1 ltac:(lia)) as (k & Hrun & Hk & Hv & Hon). exists k.
  split_and!; [|by destruct Hk; constructor|done..].
  assert (Hscan : options (OT := dpfctrl_options) ["start"; "--size"; t; "--mode"; "reset"]%string =
    [("s"%char, t); ("m"%char, "reset"%string)]).
  { apply (pieces_run (OT := dpfctrl_options) [Plain "start"; LongArg "size" t; LongArg "mode" "reset"] []); [|by left].
    repeat (apply Forall_cons; split; [done || by repeat split|]). done. }
  assert (Hopts : process_options ["start"; "--size"; t; "--mode"; "reset"]%string default_options s =
    Ok ((0, default_options <| command := CMD_START |> <| buffer_entries := atoi t |> <| log_mode := 0 |>), s)).
  { unfold process_options. rewrite Hscan. unfold process_loop, process_option, Prelude.set, mbind, ST_bind. cbn -[u64 atoi].
    rewrite (u64_small (atoi t)) by lia. destruct (Z.leb_spec (atoi t) 0); [lia|]. reflexivity. }
  unfold dpfctrl. rewrite (bind_Ok _ _ _ _ _ Hopts). cbn -[kernel_mode_init handle_start].
  rewrite bool_decide_eq_false_2 by done. rewrite (bind_Ok _ _ _ _ _ Hinit). change (negb (0 =? 0)) with false. cbv iota.
  unfold handle_start. assert (Hs : on_client (kernel_pmu_log_start (atoi t) 0) s1 = Ok (0, s1 <| cl := cl s1 <| kern := k |> |>)).
  { unfold on_client, zoom. by rewrite Hrun. }
  unfold mbind at 1, ST_bind at 1. rewrite (bind_Ok _ _ _ _ _ Hs). unfold printf, modify. by destruct s as [[] ? ? ?].
Qed.

Lemma dump_run f cap es s :
  holds_log cap es s -> es <> [] ->
  exists s', dpfctrl ["dump"; "--file"; f]%string s = Ok (0, s') /\
    files s' !! f = Some (raw_dump_of (mjoin (map log_entry_bytes (dumped es)))) /\
    open_fds (cl s') = open_fds (cl s).
Proof.
  intros Hs Hne. pose proof Hs as (Hc & Hv & Hcap & Hes & Hf). destruct (mode_init_tool s Hc) as (k & Hinit & Hk & Hvk).
  set (s1 := s <| cl := cl s <| kern := k |> |>) in *.
  assert (Hs1 : holds_log cap es s1) by (unfold holds_log; split_and!; [exact Hk|by rewrite <- Hv, <- Hvk|done..]).
  destruct (raw_dump_run f cap es s1 Hs1 Hne) as (s' & Hrun & Hfiles & _ & Hfd).
  exists s'. split_and!; [|by rewrite Hfiles, lookup_insert_eq|done].
  assert (Hscan : options (OT := dpfctrl_options) ["dump"; "--file"; f]%string = [("f"%char, f)]).
  { apply (pieces_run (OT := dpfctrl_options) [Plain "dump"; LongArg "file" f] []); [|by left].
    repeat (apply Forall_cons; split; [done || by repeat split|]). done. }
  assert (Hopts : process_options ["dump"; "--file"; f]%string default_options s =
    Ok ((0, default_options <| command := CMD_DUMP |> <| output_file := Some f |>), s)).
  { unfold process_options. by rewrite Hscan. }
  unfold dpfctrl. rewrite (bind_Ok _ _ _ _ _ Hopts). cbn -[kernel_mode_init handle_dump].
  rewrite bool_decide_eq_false_2 by done. rewrite (bind_Ok _ _ _ _ _ Hinit). change (negb (0 =? 0)) with false. cbv iota.
  by rewrite (bind_Ok _ _ _ _ _ Hrun).
Qed.

(** C24: a session of the tool: after [dpfctrl start --size t --mode reset], any number
    of entries logged by the module and [dpfctrl dump --file f], the file holds,
    after its title, bytes that parse back to the first entries, in order: those
    for which [t] bytes have room (the size is taken as bytes, not as the entries
    the usage text speaks of), and at most the 10000 the dump asks for.  Every
    device file is closed again. *)
Theorem tool_session t f es s :
  ready (cl s) -> fopens s = [] -> ENTRY_SIZE <= atoi t -> Forall entry_ok es -> es <> [] ->
  exists s1 k s2 data,
    dpfctrl ["start"; "--size"; t; "--mode"; "reset"]%string s = Ok (0, s1) /\
    append_all api_pmu_log_append_data (map log_entry_bytes es) (kern (cl s1)) = Ok (tt, k) /\
    dpfctrl ["dump"; "--file"; f]%string (s1 <| cl := cl s1 <| kern := k |> |>) = Ok (0, s2) /\
    files s2 !! f = Some (raw_dump_of data) /\
    parse_log (length (dumped (kept (atoi t) es))) data = dumped (kept (atoi t) es) /\
    open_fds (cl s2) = open_fds (cl s).
Proof.
  intros Hc Hf Ht Hes Hne. assert (Hpos : 0 < atoi t) by (unfold ENTRY_SIZE in Ht; lia).
  destruct (start_run t s Hc Hpos) as (k1 & Hstart & Hk1 & Hv1 & Hon1). set (s1 := Prelude.set stdout _ _) in Hstart.
  destruct (append_entries k1 (atoi t) es Hon1 Hv1 ltac:(lia) Hes) as (k & Happ & Hon & Hv & Hm & Hp).
  assert (Hkept : Forall entry_ok (kept (atoi t) es)) by by apply Forall_take.
  assert (Hk : holds_log (atoi t) (kept (atoi t) es) (s1 <| cl := cl s1 <| kern := k |> |>)).
  { split_and!; try done; [|lia]. destruct Hk1. constructor; cbn in *; try done;
      [apply Hon|by rewrite Hp|by rewrite Hm..]. }
  assert (Hk0 : kept (atoi t) es <> []).
  { destruct es; [done|]. unfold kept. destruct (Z.to_nat (atoi t / ENTRY_SIZE)) eqn:Hz; [|done].
    assert (1 <= atoi t / ENTRY_SIZE) by (apply Z.div_le_lower_bound; unfold ENTRY_SIZE in *; lia). lia. }
  destruct (dump_run f _ _ _ Hk Hk0) as (s2 & Hdump & Hfiles & Hfd).
  exists s1, k, s2, (mjoin (map log_entry_bytes (dumped (kept (atoi t) es)))). split_and!; try done.
  rewrite <- (app_nil_r (mjoin _)). apply parse_roundtrip. by apply Forall_take.
Qed.
End sessions.

Lemma printf_all ls s : for_each ls printf s = Ok (tt, s <| stdout ::= fun l => l ++ ls |>).
Proof.
  revert s. induction ls as [|l ls IH]; intros s; cbn [for_each].
  - destruct s. unfold Prelude.set. cbn. by rewrite app_nil_r.
  - rewrite (bind_Ok (printf l) _ s tt (s <| stdout ::= fun l' => l' ++ [l] |>) eq_refl), IH. destruct s. unfold Prelude.set. cbn. by rewrite <- app_assoc.
Qed.

(** The version can only be asked for after a command, and the command is then
    carried out: [dpfctrl --version] alone is an unknown command, answered with
    the usage and -1, while after [stop -v] the option loop returns 0 with the
    command in place. *)
Theorem version_option {L : Linux} s :
  dpfctrl ["--version"%string] s = Ok (-1, s <| stdout ::= fun l => l ++ usage |>) /\
  process_options ["stop"; "-v"]%string default_options s =
    Ok ((0, default_options <| command := CMD_STOP |>), s <| stdout ::= fun l => l ++ ["dpfctrl version 1.0.0"%string] |>).
Proof.
  split; [|reflexivity]. unfold dpfctrl.
  assert (Hp : process_options ["--version"%string] default_options s =
    Ok ((-1, default_options <| command := CMD_UNKNOWN |>), s <| stdout ::= fun l => l ++ usage |>)).
  { transitivity ((print_usage ;; mret (-1, default_options <| command := CMD_UNKNOWN |>)) s); [reflexivity|].
    by rewrite (bind_Ok _ _ _ _ _ (printf_all usage s)). }
  by rewrite (bind_Ok _ _ _ _ _ Hp).
Qed.

(** ** Witnesses *)

Definition tool0 : tool := {| cl := example_client; files := ∅; fopens := []; stdout := [] |}.

Definition sample_entry (i : Z) : dpf_pmu_log_entry_t :=
  {| timestamp := 1000 * i; entry_core_id := i; pmu_values := replicate 8 (i + 7) |}.

Lemma sample_entries_ok : Forall entry_ok [sample_entry 1; sample_entry 2; sample_entry 3].
Proof.
  repeat (apply Forall_cons_2; [constructor; try done; by apply (Forall_replicate _ 8%nat)|]).
  apply Forall_nil_2.
Qed.

(** A size of 152: two entries of the three are kept. *)
Lemma tool_session_witness :
  exists s1 k s2 data,
    dpfctrl (L := eight_cpus) ["start"; "--size"; "152"; "--mode"; "reset"]%string tool0 = Ok (0, s1) /\
    dpfctrl (L := eight_cpus) ["dump"; "--file"; "log.bin"]%string (s1 <| cl := cl s1 <| kern := k |> |>) = Ok (0, s2) /\
    files s2 !! "log.bin"%string = Some (raw_dump_of data) /\ parse_log 2 data = [sample_entry 1; sample_entry 2].
Proof.
  destruct (tool_session (L := eight_cpus) "152" "log.bin" [sample_entry 1; sample_entry 2; sample_entry 3] tool0)
    as (s1 & k & s2 & data & H1 & _ & H2 & H3 & H4 & _).
  - apply example_client_ready.
  - reflexivity.
  - vm_compute. discriminate.
  - apply sample_entries_ok.
  - discriminate.
  - exists s1, k, s2, data. split; [exact H1|]. split; [exact H2|]. split; [exact H3|]. exact H4.
Defined.
